(* ===== verification/_CoqProject ===== *)
-Q . S2P
Prelude.v
CDouble.v
BsonIter.v
BsonIterSafe.v
BsonFields.v
BsonAppend.v
BsonBuild.v
BsonValue.v
BsonCopy.v
BsonUtf8.v
BsonOid.v
BsonParse.v
MongocSet.v
HostList.v
BsonKeys.v
Base64.v
MongocTypes.v
Timegm.v
TimegmProps.v
Iso8601.v
Iso8601Props.v
BsonEntries.v
BsonVisit.v
BsonValidate.v
ValidateProps.v
Rpc.v
RpcProps.v
Compression.v
Buffer.v
CommandErrors.v
Concerns.v
ReadPrefs.v
TxnOptions.v
ServerDescription.v
TopologyDescription.v
TopologySafe.v
TopologySteps.v
Topology.v
TopologyProps.v
ServerSelection.v
SelectionProps.v
ServerSession.v
ClientSession.v
SessionProps.v
Transactions.v
TxnProps.v
TxnSample.v
TxnSpec.v
WithTxn.v
Cluster.v
ClusterProps.v
CmdParts.v
CmdProps.v
WriteCommand.v
WriteProps.v
BulkWrite.v
BulkProps.v
