(* ===== verification/Prelude.v ===== *)
(** * libbson and libmongoc, as vendored in the MongoDB Swift driver

    A verification of the C code under src/Sources/CLibMongoC/: [bson/] (libbson:
    documents, their iterator and builder, UTF-8, ObjectIds) and [mongoc/]
    (libmongoc: the client).  Paths below are relative to that directory.

    ** The program, and the part that is modelled

    libbson encodes documents as bytes.  Untrusted bytes come in through the
    iterator; the builder makes the documents that go out.  On top of it libmongoc
    runs commands against a deployment: it monitors every server with "ismaster"
    commands and folds the replies into one topology description (server discovery
    and monitoring); an operation selects a server from that description (server
    selection); it runs in a session, which takes a server session from a pool that
    the topology owns, orders operations by the cluster time of the replies, and
    carries the state of a transaction; its command is assembled, framed as a message,
    perhaps compressed, sent on the connection to the server, and the reply is checked;
    write commands go out in batches whose replies are merged.  The development follows
    that path:

      bytes -> iterator -> reply fields -> server description -> topology
            -> server selection -> session -> transaction
            -> command -> message -> connection -> reply -> write result

    ** Files

    Shared
    - Prelude: outcomes ([res], [fault]), machine integers, memory, loops, tactics.
    - CDouble: doubles as 64-bit patterns, their arithmetic and casts.

    libbson
    - BsonIter (bson/bson-iter.c): [bson_iter_next], the getters, the overwriting
      functions, the searches.  BsonIterSafe: they stay inside the document and
      loops end.  BsonFields: a loop over an iterator is a fold over the list of
      fields.
    - BsonAppend (bson/bson.c): the buffer, its growth, the append functions and
      sub-documents.  BsonBuild: each of them appends exactly the bytes of a field.
      BsonValue: values, [bson_concat], [bson_copy_to_excluding]; what the getters hand
      out.  BsonCopy:
      programs of appends refine a list of fields; exact copies.
    - BsonVisit (bson/bson-iter.c): the visitor loop.  BsonValidate (bson/bson.c):
      [bson_validate].  ValidateProps: what it accepts.
    - BsonParse, BsonEntries: what the builder writes, the iterator and the typed
      getters read back.
    - BsonUtf8 (bson/bson-utf8.c), BsonOid (bson/bson-oid.c, bson/bson-context.c),
      BsonKeys (bson/bson-keys.c).
    - Base64 (common/common-b64.c): encoder and decoder, and the JSON text of a binary
      value.
    - Timegm (bson/bson-timegm.c): broken-down time and the search for its seconds.
      TimegmProps: it finds the day of the calendar.  Iso8601 (bson/bson-iso8601.c):
      dates as text.  Iso8601Props: reading them, and reading what was written.

    libmongoc, data
    - MongocSet (mongoc/mongoc-set.c): the sorted array of servers is a finite map.
    - HostList (mongoc/mongoc-host-list.c): host names and ports.
    - MongocTypes: errors ([bson_error_t]), error replies (mongoc/mongoc-rpc.c), the
      types of servers and topologies.
    - CommandErrors (mongoc/mongoc-error.c): labels, retryable errors.
    - Concerns (mongoc/mongoc-read-concern.c, mongoc/mongoc-write-concern.c).
    - ReadPrefs (mongoc/mongoc-read-prefs.c), with [assemble_query].

    libmongoc, discovery and selection
    - ServerDescription (mongoc/mongoc-server-description.c): the parser of replies.
    - TopologyDescription (mongoc/mongoc-topology-description.c): the transition
      table and its entries; the monitoring events.  TopologySafe: the invariant and
      the effect of each operation.  TopologySteps: the transitions keep it.
      Topology (mongoc/mongoc-topology.c): seeding.  TopologyProps: the theorems.
    - ServerSelection: suitable servers and the choice of one.  SelectionProps: its
      theorems.

    libmongoc, sessions (mongoc/mongoc-client-session.c)
    - TxnOptions: option objects.  ServerSession: server sessions and their pool.
    - ClientSession: fields added to commands, handling of replies.  SessionProps:
      what they add and change.
    - Transactions: start, commit, abort, with_transaction.  TxnProps: one theorem
      per operation.  TxnSample: a scripted server, for the examples.  TxnSpec: the
      refinement of the specification's state machine.  WithTxn: the helper ends.

    libmongoc, commands
    - Rpc (mongoc/mongoc-rpc.c and the op-*.def files): messages as a list of fields,
      gathered, byte-swapped and scattered; checks of replies.  RpcProps: its theorems.
    - Compression (mongoc/mongoc-compression.c, mongoc/mongoc-rpc.c).  Buffer
      (mongoc/mongoc-buffer.c).
    - CmdParts (mongoc/mongoc-cmd.c): the parts of a command and their assembly.
      CmdProps: what is assembled.
    - Cluster (mongoc/mongoc-cluster.c): commands over OP_MSG and OP_QUERY, network and
      "not master" errors, monitoring events.  ClusterProps: what is sent, received
      and reported.
    - WriteCommand (mongoc/mongoc-write-command.c): documents, limits and results.
      WriteProps: how replies are merged.  BulkWrite: the loops over batches, retrying,
      the checks before them.  BulkProps: what is sent and what the result says.

    ** How C is rendered

    A function that can fault returns [res]: [Ret] of its results, or [Stuck] on the
    fault (a read outside an object, a NULL or freed pointer, a failed assertion, a
    signed overflow, a cast out of range).  That a function returns [Ret] is thus
    its safety.  Machine integers are [Z] at their width: [u8], [u32], [s32], [s64]
    wrap where C wraps, and [chk32], [chk64] are [Stuck IntOverflow] where C leaves
    the result undefined.  One signed sum is taken to wrap, as compilers make it: the
    length of an old binary ([BsonIter.case_binary], bson/bson-iter.c:639), which
    arbitrary bytes can make overflow.  Sizes are those of a 64-bit Linux: [size_t] and
    [long] have 64 bits, and isdigit of a byte above 127 is false.  Memory behind a pointer is the list of bytes from the
    pointer on; the memory that an allocation returns is arbitrary ([fresh]).
    Objects are records that the operations take and return; a pointer into a set of
    servers is the server's id, looked up again at every use.  Freeing an object
    leaves no trace unless a later use is possible.

    ** Bounds and fuel

    Loops whose recursion is not structural take fuel, and running out is [Stuck
    OutOfFuel], which the safety theorems exclude.  A loop over an iterator has
    [iter_fuel], the claimed length plus one: a step consumes at least one byte.
    Validation nests no deeper than the length of the document.
    The validator, the dotted search, the hash of the host name and the reaping of
    the session pool have the length of their input plus one.  The handler of
    replies calls itself once, to invalidate another server, and server selection
    once, for secondaryPreferred: both have depth 2.  A commit is sent at most twice:
    [commit_loop] has fuel 2.  The loops of with_transaction take their fuel as an
    argument; if a failing attempt takes at least [δ] microseconds, any fuel whose
    product with [δ] exceeds the time limit is enough.
    The search for the seconds of a broken-down time has fuel 80: each round halves a range
    of 64 bits.  Days are brought to their year in 50 rounds at most, each of which leaves
    less than half of them.
    The sections of an OP_MSG have fuel 3, as their array has room for two.  The loop over
    batches has [bulk_fuel], twice the number of documents plus one, since a round takes
    a document or sends a batch that has one; reading the documents of a payload has a
    fifth of its length plus one, since a document has five bytes or more.

    ** Interfaces

    - [ServerSession.Env]: clock, random generator and blocking server selection,
      with the laws [EnvOk] that the theorems on the pool assume.  That random UUIDs are
      distinct is a hypothesis of the statements that need it, not a law.
    - [Transactions.CommandPath]: running a command in a session, selecting a
      server, clock and sleep, with the laws [TxnProps.CommandPathOk]: a command
      changes nothing of the session but its pin, times, recovery token and server
      session's use; a failure comes with an error; a reply is a document whose
      labels are strings; the clock does not go back.
    - [Compression.Zlib]: compressBound, compress2 and uncompress of zlib, with the laws
      [ZlibOk]: outputs fit in their buffers, and what was compressed is uncompressed to
      itself.  The code is built without snappy and zstd.
    - [Buffer.Stream]: writing to a connection and reading from it, with the laws
      [StreamOk]: a read gives bytes, no more than were asked for and as many as it
      says.  Nothing is assumed of what the server sends.
    - [CmdParts.Starts]: starting a session, and the clock.
    - [BulkWrite.WritePath]: running a command and finding a server for writes, with the
      laws [BulkProps.WritePathOk]: a reply is a document that says what the write
      protocol says.  [cluster_path] is the instance made of Cluster.v.
    All have instances, a script of answers, which every witness runs on.
    [gmtime_r], which only the writer of dates calls, is an argument with its documented
    law; the instance is [Iso8601Props.gmtime_of].

    ** Theorems

    - Safety for arbitrary input: [bson_iter_next_safe], [bson_iter_getters_safe],
      [bson_validate_correct], [handle_ismaster_safe], [handle_ismaster_topology_safe].
    - Encoding: [bson_builder_refines] (the builder writes the document it is told
      to), [bson_build_iterate] (the iterator reads it back), exact copies.
    - Discovery: [reachable_topology_ok] (the invariant), [primary_reply_sets_members],
      [election_never_goes_back], the summaries.  They assume that seeds and the members
      that replies name are canonical addresses and that server ids do not run out
      ([good_seed], [good_reply]); other names can break the invariant.
    - Selection: [suitable_read_correct], [select_sound], [select_write_primary], the
      staleness, tag and latency filters.
    - Sessions: [session_pool_correct], [handle_reply_times], [transactions_refine]
      (every sequence of calls is a run of the specification's machine),
      [commit_protocol] (the commands a commit sends), [with_transaction_ends].
    - Commands: [command_in_session] (the document that is assembled),
      [session_refused]; [rpc_scatter_correct] and [rpc_roundtrip] (framing),
      [compress_roundtrip], [opmsg_message_received] (what is sent is what a server
      reads), [monitored_command], [network_error_handled], [not_master_handled],
      [reply_check_safe].
    - Writes: [write_in_batches] (the batches that are sent, their transaction numbers,
      retries and the merged result).
    - Data: the getters and the in-place updates, UTF-8, ObjectIds, hosts, sets, write concerns, base64 ([b64_roundtrip],
      [b64_pton_safe]).
    - Dates: [timegm_correct] (the seconds of a broken-down time), [date_parse_safe],
      [date_parse_reads], [date_text_roundtrip].
    Some theorems record where the code falls short of its intent:
    [bson_validate_ignores_rest], [bson_new_from_buffer_reads_past],
    [stepped_down_primary_keeps_type], [decompress_trusts_size],
    [opmsg_scatter_unchecked], [opmsg_reply_unchecked], [opquery_negative_length],
    [read_concern_lost], [ordered_write_goes_on], [too_large_error_lost],
    [year_10000_refused].

    ** Not modelled

    The sockets, TLS, threads and timers that carry commands and replies, the
    operating system's clocks and random numbers; authentication and client-side
    encryption (the branches of a client without it are the ones modelled);
    connection strings and their options; writes without acknowledgement to servers
    before OP_MSG; bulk operations, cursors, change streams and GridFS, which are
    clients of the commands above; the scanner, its nodes' times of last use included;
    JSON but for its dates and binary values, decimal128
    and MD5;
    the application's callbacks, beyond the events they receive; the Swift code,
    which wraps these functions. *)

From Stdlib Require Import ZArith Lia List String Ascii.
From Stdlib Require Import Floats.SpecFloat.
From stdpp Require Import base list option decidable strings.

#[global] Open Scope Z_scope.

(** ** Outcomes of C code

    A C function that would commit undefined behaviour or abort the process is
    [Stuck] on the fault it hits; everything else is [Ret].  A loop that is
    translated with fuel is [Stuck OutOfFuel] when the fuel is exhausted, so a
    theorem that a function returns [Ret] is also a termination theorem. *)
Inductive fault :=
| OutOfBounds      (* a read or write outside the memory of the object *)
| NullDeref        (* a NULL pointer is dereferenced or handed to a str* function *)
| AssertFailed     (* BSON_ASSERT is false: the process aborts *)
| UseAfterFree     (* a server description is used after it was destroyed *)
| IntOverflow      (* a signed integer operation overflows *)
| BadConversion    (* a double is cast to an integer type that cannot hold it *)
| OutOfFuel.

Inductive res (A : Type) :=
| Ret (a : A)
| Stuck (f : fault).
Arguments Ret {A} a.
Arguments Stuck {A} f.

#[export] Instance fault_eq_dec : EqDecision fault.
Proof. solve_decision. Defined.
#[export] Instance res_eq_dec {A} `{!EqDecision A} : EqDecision (res A).
Proof. solve_decision. Defined.

Lemma Ret_inj {A} (a b : A) : Ret a = Ret b → a = b.
Proof. by intros [= ->]. Qed.

Definition bind {A B} (m : res A) (k : A → res B) : res B :=
  match m with Ret a => k a | Stuck e => Stuck e end.

Declare Scope mongo_scope.
Delimit Scope mongo_scope with mongo.
Notation "'let*' x := e1 'in' e2" := (bind e1 (λ x, e2))
  (at level 10, x binder, e1 at level 100, e2 at level 200) : mongo_scope.
#[global] Open Scope mongo_scope.

(** [BSON_ASSERT (b)] *)
Definition bson_assert (b : bool) : res unit :=
  if b then Ret tt else Stuck AssertFailed.

(** Dereferencing a pointer that may be NULL. *)
Definition deref {A} (p : option A) : res A :=
  match p with Some a => Ret a | None => Stuck NullDeref end.

(** [m] returns, and its result satisfies [P]: the total-correctness reading. *)
Definition returns {A} (m : res A) (P : A → Prop) : Prop :=
  match m with Ret a => P a | Stuck _ => False end.

(** The same when the faults in [F] are allowed. *)
Definition outcome {A} (F : fault → Prop) (m : res A) (P : A → Prop) : Prop :=
  match m with Ret a => P a | Stuck f => F f end.

Section Outcomes.
Context {A B : Type}.
Implicit Types (m : res A) (k : A → res B) (F : fault → Prop).

Lemma returns_bind m k (P : A → Prop) (Q : B → Prop) :
  returns m P → (∀ a, P a → returns (k a) Q) → returns (bind m k) Q.
Proof. destruct m; simpl; auto; contradiction. Qed.

Lemma returns_mono m (P Q : A → Prop) :
  returns m P → (∀ a, P a → Q a) → returns m Q.
Proof. destruct m; simpl; auto. Qed.

Lemma returns_Ret m P : returns m P ↔ ∃ a, m = Ret a ∧ P a.
Proof.
  destruct m as [a|f]; simpl; split; [eauto|by intros (? & [= ->] & ?)|done|].
  by intros (? & ? & ?).
Qed.

Lemma bind_Ret m k b : bind m k = Ret b ↔ ∃ a, m = Ret a ∧ k a = Ret b.
Proof.
  destruct m as [a|f]; simpl; split; [eauto|by intros (? & [= ->] & ?)|done|].
  by intros (? & ? & ?).
Qed.

Lemma returns_outcome F m P : returns m P → outcome F m P.
Proof. destruct m; simpl; [done|contradiction]. Qed.

Lemma outcome_bind F m k (P : A → Prop) (Q : B → Prop) :
  outcome F m P → (∀ a, m = Ret a → P a → outcome F (k a) Q) → outcome F (bind m k) Q.
Proof. destruct m; simpl; auto. Qed.

Lemma outcome_mono (F G : fault → Prop) m (P Q : A → Prop) :
  outcome F m P → (∀ f, F f → G f) → (∀ a, m = Ret a → P a → Q a) → outcome G m Q.
Proof. destruct m; simpl; auto. Qed.

Lemma outcome_Ret F m P a : outcome F m P → m = Ret a → P a.
Proof. intros H ->. exact H. Qed.

Lemma outcome_Stuck F m P f : outcome F m P → m = Stuck f → F f.
Proof. intros H ->. exact H. Qed.
End Outcomes.

(** A record update from a record's eta expansion [eta] (the record rebuilt from
    its projections): [Definition set_f : T → R → R := ltac:(setter eta f).] *)
Ltac setter eta proj :=
  let e := eval cbv beta delta [eta] in eta in
  match eval pattern proj in e with
  | ?f _ => let t := eval cbv beta in (λ v r, f (λ _, v) r) in exact t
  end.

(** ** Machine integers *)
Definition INT_MAX : Z := 2147483647.
Definition INT32_MAX : Z := 2147483647.
Definition UINT16_MAX : Z := 65535.

Definition u8 (x : Z) : Z := x mod 2 ^ 8.
Definition u16 (x : Z) : Z := x mod 2 ^ 16.
Definition u32 (x : Z) : Z := x mod 2 ^ 32.
Definition u64 (x : Z) : Z := x mod 2 ^ 64.
(** reading a bit pattern as a two's complement integer *)
Definition s32 (x : Z) : Z := let y := u32 x in if y <? 2 ^ 31 then y else y - 2 ^ 32.
Definition s64 (x : Z) : Z := let y := u64 x in if y <? 2 ^ 63 then y else y - 2 ^ 64.

Definition in_s32 (x : Z) : Prop := - 2 ^ 31 ≤ x < 2 ^ 31.
Definition in_s64 (x : Z) : Prop := - 2 ^ 63 ≤ x < 2 ^ 63.
Definition in_u32 (x : Z) : Prop := 0 ≤ x < 2 ^ 32.

Lemma u32_small x : 0 ≤ x < 2 ^ 32 → u32 x = x.
Proof. apply Z.mod_small. Qed.
Lemma u32_range x : 0 ≤ u32 x < 2 ^ 32.
Proof. apply Z.mod_pos_bound. lia. Qed.
Lemma u64_small x : 0 ≤ x < 2 ^ 64 → u64 x = x.
Proof. apply Z.mod_small. Qed.
Lemma u64_range x : 0 ≤ u64 x < 2 ^ 64.
Proof. apply Z.mod_pos_bound. lia. Qed.
Lemma u8_small x : 0 ≤ x < 256 → u8 x = x.
Proof. apply Z.mod_small. Qed.
Lemma u8_range x : 0 ≤ u8 x < 256.
Proof. apply Z.mod_pos_bound. lia. Qed.

Lemma s32_range x : in_s32 (s32 x).
Proof.
  unfold s32, in_s32. pose proof (u32_range x).
  destruct (Z.ltb_spec (u32 x) (2 ^ 31)); lia.
Qed.
Lemma s64_range x : in_s64 (s64 x).
Proof.
  unfold s64, in_s64. pose proof (u64_range x).
  destruct (Z.ltb_spec (u64 x) (2 ^ 63)); lia.
Qed.
Lemma s32_u32 x : in_s32 x → s32 (u32 x) = x.
Proof.
  unfold s32, in_s32, u32. intros H. rewrite Z.mod_mod by lia.
  destruct (Z.ltb_spec (x mod 2 ^ 32) (2 ^ 31));
    destruct (decide (0 ≤ x)).
  - apply Z.mod_small; lia.
  - replace (x mod 2 ^ 32) with (x + 2 ^ 32) in *; [lia|].
    rewrite <- (Z.mod_add x 1) by lia. rewrite Z.mod_small; lia.
  - rewrite Z.mod_small in *; lia.
  - replace (x mod 2 ^ 32) with (x + 2 ^ 32); [lia|].
    rewrite <- (Z.mod_add x 1) by lia. rewrite Z.mod_small; lia.
Qed.
Lemma s64_u64 x : in_s64 x → s64 (u64 x) = x.
Proof.
  unfold s64, in_s64, u64. intros H. rewrite Z.mod_mod by lia.
  destruct (Z.ltb_spec (x mod 2 ^ 64) (2 ^ 63));
    destruct (decide (0 ≤ x)).
  - apply Z.mod_small; lia.
  - replace (x mod 2 ^ 64) with (x + 2 ^ 64) in *; [lia|].
    rewrite <- (Z.mod_add x 1) by lia. rewrite Z.mod_small; lia.
  - rewrite Z.mod_small in *; lia.
  - replace (x mod 2 ^ 64) with (x + 2 ^ 64); [lia|].
    rewrite <- (Z.mod_add x 1) by lia. rewrite Z.mod_small; lia.
Qed.

Lemma s32_small x : in_s32 x → s32 x = x.
Proof. intros H. rewrite <- (s32_u32 x H) at 2. unfold s32, u32. by rewrite Z.mod_mod by lia. Qed.
Lemma s64_small x : in_s64 x → s64 x = x.
Proof. intros H. rewrite <- (s64_u64 x H) at 2. unfold s64, u64. by rewrite Z.mod_mod by lia. Qed.

(** a signed 64-bit result: undefined when it does not fit *)
Definition chk64 (x : Z) : res Z :=
  if (- 2 ^ 63 <=? x) && (x <? 2 ^ 63) then Ret x else Stuck IntOverflow.
Lemma chk64_ok x : in_s64 x → chk64 x = Ret x.
Proof.
  unfold in_s64, chk64. intros H. destruct (Z.leb_spec (- 2 ^ 63) x); [|lia].
  by destruct (Z.ltb_spec x (2 ^ 63)); [|lia].
Qed.

(** the same at 32 bits *)
Definition chk32 (x : Z) : res Z :=
  if (- 2 ^ 31 <=? x) && (x <? 2 ^ 31) then Ret x else Stuck IntOverflow.
Lemma chk32_ok x : in_s32 x → chk32 x = Ret x.
Proof.
  unfold in_s32, chk32. intros H. destruct (Z.leb_spec (- 2 ^ 31) x); [|lia].
  by destruct (Z.ltb_spec x (2 ^ 31)); [|lia].
Qed.

(** Rewrites away a [u32]/[u64] whose argument is provably in range. *)
Ltac small_uint :=
  repeat match goal with
  | |- context [u32 ?x] => rewrite (u32_small x) by lia
  | H : context [u32 ?x] |- _ => rewrite (u32_small x) in H by lia
  | |- context [u64 ?x] => rewrite (u64_small x) by lia
  | H : context [u64 ?x] |- _ => rewrite (u64_small x) in H by lia
  end.

(** [bson_next_power_of_two] on a 64-bit [size_t] *)
Definition bson_next_power_of_two (v : Z) : Z :=
  let v := u64 (v - 1) in
  let v := Z.lor v (Z.shiftr v 1) in
  let v := Z.lor v (Z.shiftr v 2) in
  let v := Z.lor v (Z.shiftr v 4) in
  let v := Z.lor v (Z.shiftr v 8) in
  let v := Z.lor v (Z.shiftr v 16) in
  let v := Z.lor v (Z.shiftr v 32) in
  u64 (v + 1).

(** Decides a closed proposition by evaluation. *)
Ltac by_check := apply (bool_decide_unpack _); vm_compute; exact I.

(** Splits on the boolean comparisons of an [if] in the goal, innermost
    condition first, keeping the arithmetic facts. *)
Ltac case_if :=
  match goal with
  | |- context [if ?a <? ?b then _ else _] => destruct (Z.ltb_spec a b)
  | |- context [if ?a <=? ?b then _ else _] => destruct (Z.leb_spec a b)
  | |- context [if ?a =? ?b then _ else _] => destruct (Z.eqb_spec a b)
  | |- context [if ?a >? ?b then _ else _] => rewrite (Z.gtb_ltb a b); destruct (Z.ltb_spec b a)
  | |- context [if ?a >=? ?b then _ else _] => rewrite (Z.geb_leb a b); destruct (Z.leb_spec b a)
  | |- context [if ?b then _ else _] => destruct b eqn:?
  end.

(** Splits on a boolean test, keeping the arithmetic fact it decides. *)
Ltac split_bool c :=
  lazymatch c with
  | ?a <? ?b => destruct (Z.ltb_spec a b)
  | ?a <=? ?b => destruct (Z.leb_spec a b)
  | ?a =? ?b => destruct (Z.eqb_spec a b)
  | ?a >? ?b => rewrite (Z.gtb_ltb a b); destruct (Z.ltb_spec b a)
  | ?a >=? ?b => rewrite (Z.geb_leb a b); destruct (Z.leb_spec b a)
  | negb (?a =? ?b) => destruct (Z.eqb_spec a b); cbn [negb]
  | _ => destruct c eqn:?
  end.

(** The same for the condition at the head of an outcome. *)
Ltac case_head :=
  lazymatch goal with
  | |- returns (if ?c then _ else _) _ => split_bool c
  | |- (if ?c then _ else _) = _ → _ => split_bool c
  end.

(** ** Bit operations as arithmetic *)
Lemma land_shiftl_small x y k : 0 ≤ k → 0 ≤ y < 2 ^ k → Z.land (Z.shiftl x k) y = 0.
Proof.
  intros Hk Hy. apply Z.bits_inj'. intros n Hn.
  rewrite Z.land_spec, Z.bits_0, Z.shiftl_spec by lia.
  destruct (decide (n < k)); [by rewrite (Z.testbit_neg_r x) by lia|].
  rewrite <- (Z.mod_small y (2 ^ k)) by lia.
  rewrite Z.mod_pow2_bits_high, andb_false_r by lia. done.
Qed.
Lemma lor_shiftl_add x y k : 0 ≤ k → 0 ≤ y < 2 ^ k → Z.lor (Z.shiftl x k) y = x * 2 ^ k + y.
Proof.
  intros Hk Hy. pose proof (land_shiftl_small x y k Hk Hy) as H0.
  rewrite <- Z.lxor_lor, <- Z.add_nocarry_lxor by done.
  by rewrite Z.shiftl_mul_pow2.
Qed.

(** ** Memory: the bytes readable from a pointer *)
Definition byte_ok (b : Z) : Prop := 0 ≤ b < 256.
Definition bytes_ok (l : list Z) : Prop := Forall byte_ok l.

Definition blen (l : list Z) : Z := Z.of_nat (length l).

(** [*(data + o)] *)
Definition rd (data : list Z) (o : Z) : res Z :=
  if o <? 0 then Stuck OutOfBounds
  else match data !! Z.to_nat o with Some b => Ret b | None => Stuck OutOfBounds end.

(** [memcpy] of an [n]-byte integer out of [data + o], decoded from little
    endian ([BSON_UINT32_FROM_LE] and friends). *)
Fixpoint rd_le (n : nat) (data : list Z) (o : Z) : res Z :=
  match n with
  | O => Ret 0
  | S n' =>
      let* b := rd data o in
      let* r := rd_le n' data (o + 1) in
      Ret (b + 256 * r)
  end.

(** [n] bytes starting at [data + o]. *)
Fixpoint rd_bytes (n : nat) (data : list Z) (o : Z) : res (list Z) :=
  match n with
  | O => Ret []
  | S n' =>
      let* b := rd data o in
      let* r := rd_bytes n' data (o + 1) in
      Ret (b :: r)
  end.

(** [memcpy (dst, src, n)]: the memory at [dst] afterwards *)
Definition write_at (dst : list Z) (o : Z) (b : list Z) : res (list Z) :=
  if (0 <=? o) && (o + blen b <=? blen dst)
  then Ret (take (Z.to_nat o) dst ++ b ++ drop (Z.to_nat (o + blen b)) dst)
  else Stuck OutOfBounds.
(** the bytes behind a pointer *)
Definition bytes_of (p : option (list Z)) (n : Z) : res (list Z) :=
  let* d := deref p in rd_bytes (Z.to_nat n) d 0.

(** the pointer [data + o] *)
Definition ptr_add (data : list Z) (o : Z) : list Z := drop (Z.to_nat o) data.

(** a NUL-terminated C string, read from a pointer *)
Fixpoint c_string (p : list Z) : res (list Z) :=
  match p with
  | [] => Stuck OutOfBounds
  | b :: p' => if b =? 0 then Ret [] else let* s := c_string p' in Ret (b :: s)
  end.

(** the little-endian bytes of an integer ([BSON_UINT32_TO_LE] and friends) *)
Fixpoint le_bytes (n : nat) (x : Z) : list Z :=
  match n with
  | O => []
  | S n' => x mod 256 :: le_bytes n' (x / 256)
  end.

(** C string literals as byte lists (without the terminator): [cs "ok"] *)
Fixpoint cs (s : string) : list Z :=
  match s with
  | EmptyString => []
  | String a s' => Z.of_nat (nat_of_ascii a) :: cs s'
  end.
Arguments cs s%_string.

(** a C string in memory, and a literal as the code passes it *)
Definition c_mem (s : list Z) : list Z := s ++ [0].
Definition c_lit (s : string) : list Z := c_mem (cs s).
Arguments c_lit s%_string.

(** [tolower] in the C locale, [strcasecmp (a, b) == 0] and [strcmp (a, b) == 0] *)
Definition tolower (c : Z) : Z := if (65 <=? c) && (c <=? 90) then c + 32 else c.
Definition strcaseeq (a b : list Z) : bool :=
  bool_decide (map tolower a = map tolower b).
Definition streq (a b : list Z) : bool := bool_decide (a = b).

Lemma strcaseeq_refl a : strcaseeq a a = true.
Proof. unfold strcaseeq. by rewrite bool_decide_true. Qed.
Lemma strcaseeq_sym a b : strcaseeq a b = strcaseeq b a.
Proof. unfold strcaseeq. apply bool_decide_ext. naive_solver. Qed.
Lemma strcaseeq_trans a b c :
  strcaseeq a b = true → strcaseeq b c = true → strcaseeq a c = true.
Proof. unfold strcaseeq. rewrite !bool_decide_eq_true. congruence. Qed.
Lemma streq_eq a b : streq a b = true ↔ a = b.
Proof. unfold streq. apply bool_decide_eq_true. Qed.
Lemma streq_refl a : streq a a = true.
Proof. by apply streq_eq. Qed.

(** ** Lemmas on memory reads *)
Lemma byte_cases (P : Z → bool) :
  forallb P (map Z.of_nat (seq 0 256)) = true → ∀ b, byte_ok b → P b = true.
Proof.
  intros H b [H1 H2]. rewrite forallb_forall in H. apply H.
  apply in_map_iff. exists (Z.to_nat b). split; [lia|]. apply in_seq. lia.
Qed.


Lemma blen_nonneg l : 0 ≤ blen l.
Proof. unfold blen. lia. Qed.
Lemma blen_nil : blen [] = 0.
Proof. done. Qed.
Lemma blen_app l k : blen (l ++ k) = blen l + blen k.
Proof. unfold blen. rewrite length_app. lia. Qed.
Lemma blen_cons b l : blen (b :: l) = 1 + blen l.
Proof. unfold blen. simpl. lia. Qed.
Lemma blen_drop o l : 0 ≤ o → o ≤ blen l → blen (ptr_add l o) = blen l - o.
Proof. unfold blen, ptr_add. rewrite length_drop. lia. Qed.

Lemma bytes_ok_lookup l i b : bytes_ok l → l !! i = Some b → byte_ok b.
Proof. intros H Hi. eapply Forall_lookup_1; eauto. Qed.
Lemma bytes_ok_ptr_add l o : bytes_ok l → bytes_ok (ptr_add l o).
Proof. apply Forall_drop. Qed.
Lemma bytes_ok_app l k : bytes_ok (l ++ k) ↔ bytes_ok l ∧ bytes_ok k.
Proof. apply Forall_app. Qed.

Lemma rd_in data o : 0 ≤ o < blen data → ∃ b, rd data o = Ret b ∧ data !! Z.to_nat o = Some b.
Proof.
  unfold rd, blen. intros H. case_if; [lia|].
  destruct (lookup_lt_is_Some_2 data (Z.to_nat o)) as [b Hb]; [lia|].
  exists b. by rewrite Hb.
Qed.
Lemma rd_ok data o :
  bytes_ok data → 0 ≤ o < blen data → returns (rd data o) byte_ok.
Proof.
  intros Hok H. destruct (rd_in data o H) as (b & -> & Hb). simpl.
  eapply bytes_ok_lookup; eauto.
Qed.
Lemma rd_Ret data o b : rd data o = Ret b → 0 ≤ o < blen data ∧ data !! Z.to_nat o = Some b.
Proof.
  unfold rd, blen. case_if; [done|].
  destruct (data !! Z.to_nat o) eqn:E; [|done].
  apply lookup_lt_Some in E as E'. naive_solver lia.
Qed.
Lemma rd_ptr_add data o i : 0 ≤ o → 0 ≤ i → rd (ptr_add data o) i = rd data (o + i).
Proof.
  intros. unfold rd, ptr_add. rewrite lookup_drop.
  replace (Z.to_nat o + Z.to_nat i)%nat with (Z.to_nat (o + i)) by lia.
  repeat case_if; try lia; done.
Qed.

Lemma ptr_add_ptr_add l o i :
  0 ≤ o → 0 ≤ i → ptr_add (ptr_add l o) i = ptr_add l (o + i).
Proof. intros. unfold ptr_add. rewrite drop_drop. f_equal. lia. Qed.

Lemma rd_le_ok n data o :
  bytes_ok data → 0 ≤ o → o + Z.of_nat n ≤ blen data →
  returns (rd_le n data o) (λ x, 0 ≤ x < 256 ^ Z.of_nat n).
Proof.
  intros Hok. revert o. induction n as [|n IH]; intros o Ho Hn.
  - simpl. lia.
  - simpl rd_le. eapply returns_bind; [apply rd_ok; [done|lia]|].
    intros b Hb. eapply returns_bind; [apply IH; lia|].
    intros r Hr. unfold byte_ok in Hb. cbv beta in Hr. cbn [returns].
    rewrite Nat2Z.inj_succ, Z.pow_succ_r by lia. lia.
Qed.
Lemma rd_le_ptr_add n data o i :
  0 ≤ o → 0 ≤ i → rd_le n (ptr_add data o) i = rd_le n data (o + i).
Proof.
  intros Ho. revert i. induction n as [|n IH]; intros i Hi; [done|].
  simpl. rewrite rd_ptr_add by lia. destruct (rd data (o + i)); simpl; [|done].
  rewrite IH by lia. by replace (o + (i + 1)) with (o + i + 1) by lia.
Qed.

Lemma rd_bytes_S n data o :
  rd_bytes (S n) data o = let* b := rd data o in let* r := rd_bytes n data (o + 1) in Ret (b :: r).
Proof. done. Qed.
Lemma rd_bytes_ok n data o :
  bytes_ok data → 0 ≤ o → o + Z.of_nat n ≤ blen data →
  returns (rd_bytes n data o) (λ l, length l = n ∧ bytes_ok l).
Proof.
  intros Hok. revert o. induction n as [|n IH]; intros o Ho Hn.
  - simpl. split; [done|constructor].
  - simpl rd_bytes. eapply returns_bind; [apply rd_ok; [done|lia]|].
    intros b Hb. eapply returns_bind; [apply IH; lia|].
    intros r [Hr1 Hr2]. simpl. split; [lia|by constructor].
Qed.

(** A C string can be read when a NUL occurs somewhere ahead. *)
Lemma c_string_ok p i :
  p !! i = Some 0 → bytes_ok p →
  returns (c_string p) (λ s, (length s ≤ i)%nat ∧ bytes_ok s ∧ Forall (λ b, b ≠ 0) s
                             ∧ p !! length s = Some 0).
Proof.
  revert i. induction p as [|b p IH]; intros i Hi Hok; [done|].
  inversion Hok; subst. simpl. case_if.
  - subst. simpl. split; [lia|]. split; [constructor|]. split; [constructor|done].
  - destruct i as [|i]; [simpl in Hi; congruence|].
    eapply returns_bind; [eapply (IH i); eauto|].
    intros s (? & ? & ? & ?). simpl. split; [lia|].
    split; [by constructor|]. split; [by constructor|done].
Qed.

Lemma c_string_app s rest :
  Forall (λ b, b ≠ 0) s → c_string (s ++ 0 :: rest) = Ret s.
Proof.
  induction 1 as [|b s Hb _ IH]; [done|]. simpl.
  destruct (Z.eqb_spec b 0); [done|]. by rewrite IH.
Qed.

(** a C string in memory: its bytes, the terminator, and more *)
Lemma c_string_split p s :
  c_string p = Ret s → Forall (λ b, b ≠ 0) s ∧ ∃ r, p = s ++ 0 :: r.
Proof.
  revert s. induction p as [|b p IH]; intros s H; [done|]. simpl in H.
  destruct (Z.eqb_spec b 0) as [->|Hb]; [injection H as <-; split; [constructor|by exists p]|].
  destruct (c_string p) as [s'|]; [|done]. injection H as <-.
  destruct (IH s' eq_refl) as [Hs [r ->]]. split; [by constructor|by exists r].
Qed.

Lemma length_le_bytes n x : length (le_bytes n x) = n.
Proof. revert x. induction n; intros; simpl; auto. Qed.
Lemma blen_le_bytes n x : blen (le_bytes n x) = Z.of_nat n.
Proof. unfold blen. by rewrite length_le_bytes. Qed.
Lemma le_bytes_ok n x : bytes_ok (le_bytes n x).
Proof.
  revert x. induction n; intros; constructor; [|by apply IHn].
  apply Z.mod_pos_bound. lia.
Qed.

(** Reading within the right part of a concatenation. *)
Lemma rd_app_r l k o : 0 ≤ o → rd (l ++ k) (blen l + o) = rd k o.
Proof.
  intros. unfold rd, blen. rewrite lookup_app_r by lia.
  replace (Z.to_nat (Z.of_nat (length l) + o) - length l)%nat with (Z.to_nat o) by lia.
  repeat case_if; try lia; done.
Qed.

Lemma rd_bytes_app_r n l k o : 0 ≤ o → rd_bytes n (l ++ k) (blen l + o) = rd_bytes n k o.
Proof.
  revert o. induction n as [|n IH]; intros o Ho; [done|].
  change (rd_bytes (S n) ?d ?i) with
    (let* b := rd d i in let* r := rd_bytes n d (i + 1) in Ret (b :: r)).
  rewrite rd_app_r, <- Z.add_assoc, IH by lia. done.
Qed.

Lemma rd_le_bytes n x l k :
  rd_le n (l ++ le_bytes n x ++ k) (blen l) = Ret (x mod 256 ^ Z.of_nat n).
Proof.
  revert x l. induction n as [|n IH]; intros x l; simpl rd_le.
  - simpl. by rewrite Z.mod_1_r.
  - replace (blen l) with (blen l + 0) at 1 by lia.
    rewrite rd_app_r by lia. simpl.
    specialize (IH (x / 256) (l ++ [x mod 256])).
    rewrite blen_app, <- app_assoc in IH. cbn [app] in IH.
    change (blen [x mod 256]) with 1 in IH. rewrite IH. cbn. f_equal.
    change (Z.pow_pos 256 (Pos.of_succ_nat n)) with (256 ^ Z.of_nat (S n)).
    rewrite Nat2Z.inj_succ, Z.pow_succ_r by lia.
    rewrite Z.rem_mul_r by lia. lia.
Qed.

Lemma le_bytes_mod n x : le_bytes n x = le_bytes n (x mod 256 ^ Z.of_nat n).
Proof.
  revert x. induction n as [|n IH]; intros x; [done|]. cbn [le_bytes].
  rewrite Nat2Z.inj_succ, Z.pow_succ_r, Z.rem_mul_r by lia.
  rewrite (Z.add_comm (x mod 256)), (Z.mul_comm 256).
  rewrite Z.div_add_l, (Z.div_small (x mod 256)), Z.add_0_r by (try lia; apply Z.mod_pos_bound; lia).
  rewrite (Z.add_comm _ (x mod 256)), Z.mod_add, Z.mod_mod by lia. by rewrite <- IH.
Qed.

Lemma write_at_all dst b : blen dst = blen b → write_at dst 0 b = Ret b.
Proof.
  intros E. unfold write_at. rewrite Z.add_0_l, E. destruct (Z.leb_spec (blen b) (blen b)); [|lia].
  change (0 <=? 0) with true. cbn [andb]. rewrite drop_ge by (unfold blen in *; lia). by rewrite app_nil_r.
Qed.
Lemma write_at_seq pre dst b :
  blen b ≤ blen dst → write_at (pre ++ dst) (blen pre) b = Ret ((pre ++ b) ++ drop (length b) dst).
Proof.
  intros Hd. unfold write_at. rewrite blen_app. pose proof (blen_nonneg pre).
  destruct (Z.leb_spec 0 (blen pre)); [|lia].
  destruct (Z.leb_spec (blen pre + blen b) (blen pre + blen dst)); [|lia]. cbn [andb].
  unfold blen. rewrite Nat2Z.id, take_app_length.
  replace (Z.to_nat (Z.of_nat (length pre) + Z.of_nat (length b))) with (length pre + length b)%nat by lia.
  by rewrite <- drop_drop, drop_app_length, <- app_assoc.
Qed.

#[global] Arguments rd_le : simpl never.
#[global] Arguments rd_bytes : simpl never.

Create HintDb blen.
#[export] Hint Rewrite blen_nil blen_app blen_cons blen_le_bytes : blen.
Create HintDb mongo.
#[export] Hint Resolve bytes_ok_ptr_add le_bytes_ok blen_nonneg streq_refl
  strcaseeq_refl : mongo.

(** Equational forms, for proofs that keep the value read. *)
Lemma rd_le_ex n data o :
  bytes_ok data → 0 ≤ o → o + Z.of_nat n ≤ blen data →
  ∃ x, rd_le n data o = Ret x ∧ 0 ≤ x < 256 ^ Z.of_nat n.
Proof. intros. by apply returns_Ret, rd_le_ok. Qed.
Lemma rd_ex data o :
  bytes_ok data → 0 ≤ o < blen data → ∃ x, rd data o = Ret x ∧ byte_ok x.
Proof. intros. by apply returns_Ret, rd_ok. Qed.

(** [read_le x], [read_byte x]: execute the next memory read of the goal, whose
    bounds follow by [lia], naming the value read. *)
Ltac read_le x :=
  match goal with
  | |- context [bind (rd_le ?n ?d ?o) _] =>
      let E := fresh "E" x in let H := fresh "H" x in
      destruct (rd_le_ex n d o) as (x & E & H); [done|lia|lia|];
      rewrite E; cbn [bind]; change (256 ^ Z.of_nat n) with (2 ^ (8 * Z.of_nat n)) in H;
      cbn in H
  end.
Ltac read_byte x :=
  match goal with
  | |- context [bind (rd ?d ?o) _] =>
      let E := fresh "E" x in let H := fresh "H" x in
      destruct (rd_ex d o) as (x & E & H); [done|lia|];
      rewrite E; cbn [bind]
  end.
