(* ===== verification/CDouble.v ===== *)
(** IEEE-754 binary64 values as the code holds them: the 64-bit pattern in
    memory ([memcpy] into a [double]), decoded to and encoded from the
    Standard Library's executable [spec_float] for arithmetic, comparison with
    zero and the casts between [double] and [int64_t]. *)
From S2P Require Import Prelude.
From Stdlib Require Import ZArith Lia Floats.SpecFloat.
From stdpp Require Import prelude.
#[local] Open Scope Z_scope.
#[local] Open Scope mongo_scope.

Definition prec : Z := 53.
Definition emax : Z := 1024.

(** the value of a bit pattern *)
Definition double_of_bits (b : Z) : spec_float :=
  let s := Z.testbit b 63 in
  let e := Z.land (Z.shiftr b 52) 2047 in
  let m := Z.land b (2 ^ 52 - 1) in
  if e =? 0 then
    match m with Zpos p => S754_finite s p (-1074) | _ => S754_zero s end
  else if e =? 2047 then
    (if m =? 0 then S754_infinity s else S754_nan)
  else match m + 2 ^ 52 with Zpos p => S754_finite s p (e - 1075) | _ => S754_nan end.

(** the bit pattern of a value (a quiet NaN for [S754_nan]) *)
Definition bits_of_double (x : spec_float) : Z :=
  let sgn (s : bool) := if s then 2 ^ 63 else 0 in
  match x with
  | S754_zero s => sgn s
  | S754_infinity s => sgn s + 2047 * 2 ^ 52
  | S754_nan => 2047 * 2 ^ 52 + 2 ^ 51
  | S754_finite s m e =>
      if Zpos m <? 2 ^ 52 then sgn s + Zpos m
      else sgn s + (e + 1075) * 2 ^ 52 + (Zpos m - 2 ^ 52)
  end.

(** [(double) z], rounded to nearest even *)
Definition double_of_Z (z : Z) : spec_float := binary_normalize prec emax z 0 false.

(** [x == 0.0] *)
Definition double_is_zero (x : spec_float) : bool :=
  match x with S754_zero _ => true | _ => false end.

(** [(int64_t) x]: truncation toward zero; undefined when the result does not
    fit, and for NaN and the infinities. *)
Definition int64_of_double (x : spec_float) : res Z :=
  match x with
  | S754_zero _ => Ret 0
  | S754_finite s m e =>
      let mag := if 0 <=? e then Zpos m * 2 ^ e else Zpos m / 2 ^ (- e) in
      let v := if s then - mag else mag in
      if (- 2 ^ 63 <=? v) && (v <? 2 ^ 63) then Ret v else Stuck BadConversion
  | _ => Stuck BadConversion
  end.

Definition double_mul (x y : spec_float) : spec_float := SFmul prec emax x y.
Definition double_add (x y : spec_float) : spec_float := SFadd prec emax x y.
Definition double_sub (x y : spec_float) : spec_float := SFsub prec emax x y.

Example double_bits_ex : bits_of_double (double_of_bits 0x3FC999999999999A) = 0x3FC999999999999A.
Proof. reflexivity. Qed.
Example int64_of_double_ex : int64_of_double (double_of_bits 0x4059000000000000) = Ret 100.
Proof. reflexivity. Qed.

Lemma int64_of_double_range x v : int64_of_double x = Ret v → in_s64 v.
Proof.
  unfold int64_of_double, in_s64. destruct x as [s| | |s m e]; try done.
  { intros [= <-]. lia. }
  destruct (_ && _) eqn:E; [|done]. intros [= <-].
  apply andb_true_iff in E as [?%Z.leb_le ?%Z.ltb_lt]. done.
Qed.

(** A cast faults only by leaving the 64-bit range. *)
Lemma int64_of_double_fault x f : int64_of_double x = Stuck f → f = BadConversion.
Proof.
  unfold int64_of_double. destruct x as [s| | |s m e]; try congruence.
  by destruct (_ && _); intros [=].
Qed.
