(* ===== verification/BsonIter.v ===== *)
(** libbson's iterator over an encoded BSON document (bson/bson-iter.c).

    The iterator holds a pointer [raw] into the document ([None] when NULLed
    after the end or on corrupt input), the length the document claims, and
    byte offsets of the current field.  Every read of the code goes through
    [rd]/[rd_le], so a read outside the memory behind [raw] is [Stuck
    OutOfBounds].  The second half proves that this never happens from a
    well-formed iterator, for arbitrary bytes. *)
From S2P Require Import Prelude CDouble.
From Stdlib Require Import ZArith Lia List.
From stdpp Require Import prelude.
#[local] Open Scope Z_scope.
#[local] Open Scope mongo_scope.

(** [bson_type_t]; a byte that is not one of the enumerators keeps its value. *)
Inductive bson_type_t :=
| BSON_TYPE_EOD | BSON_TYPE_DOUBLE | BSON_TYPE_UTF8 | BSON_TYPE_DOCUMENT
| BSON_TYPE_ARRAY | BSON_TYPE_BINARY | BSON_TYPE_UNDEFINED | BSON_TYPE_OID
| BSON_TYPE_BOOL | BSON_TYPE_DATE_TIME | BSON_TYPE_NULL | BSON_TYPE_REGEX
| BSON_TYPE_DBPOINTER | BSON_TYPE_CODE | BSON_TYPE_SYMBOL | BSON_TYPE_CODEWSCOPE
| BSON_TYPE_INT32 | BSON_TYPE_TIMESTAMP | BSON_TYPE_INT64 | BSON_TYPE_DECIMAL128
| BSON_TYPE_MAXKEY | BSON_TYPE_MINKEY
| BSON_TYPE_OTHER (b : Z).

#[export] Instance bson_type_eq_dec : EqDecision bson_type_t.
Proof. solve_decision. Defined.

Definition bson_type_of_byte (b : Z) : bson_type_t :=
  match b with
  | 0x00 => BSON_TYPE_EOD | 0x01 => BSON_TYPE_DOUBLE | 0x02 => BSON_TYPE_UTF8
  | 0x03 => BSON_TYPE_DOCUMENT | 0x04 => BSON_TYPE_ARRAY | 0x05 => BSON_TYPE_BINARY
  | 0x06 => BSON_TYPE_UNDEFINED | 0x07 => BSON_TYPE_OID | 0x08 => BSON_TYPE_BOOL
  | 0x09 => BSON_TYPE_DATE_TIME | 0x0A => BSON_TYPE_NULL | 0x0B => BSON_TYPE_REGEX
  | 0x0C => BSON_TYPE_DBPOINTER | 0x0D => BSON_TYPE_CODE | 0x0E => BSON_TYPE_SYMBOL
  | 0x0F => BSON_TYPE_CODEWSCOPE | 0x10 => BSON_TYPE_INT32 | 0x11 => BSON_TYPE_TIMESTAMP
  | 0x12 => BSON_TYPE_INT64 | 0x13 => BSON_TYPE_DECIMAL128 | 0x7F => BSON_TYPE_MAXKEY
  | 0xFF => BSON_TYPE_MINKEY
  | _ => BSON_TYPE_OTHER b
  end.

Definition BSON_SUBTYPE_BINARY : Z := 0.
Definition BSON_SUBTYPE_BINARY_DEPRECATED : Z := 2.

(** [bson_iter_t]; [it_value] is kept by the callers of [bson_iter_value]. *)
Record bson_iter_t := Iter {
  it_raw : option (list Z);
  it_len : Z; it_off : Z; it_type : Z; it_key : Z;
  it_d1 : Z; it_d2 : Z; it_d3 : Z; it_d4 : Z;
  it_next_off : Z; it_err_off : Z
}.

Definition set_d2 (x : Z) (it : bson_iter_t) : bson_iter_t :=
  Iter (it_raw it) (it_len it) (it_off it) (it_type it) (it_key it)
       (it_d1 it) x (it_d3 it) (it_d4 it) (it_next_off it) (it_err_off it).
Definition set_d3 (x : Z) (it : bson_iter_t) : bson_iter_t :=
  Iter (it_raw it) (it_len it) (it_off it) (it_type it) (it_key it)
       (it_d1 it) (it_d2 it) x (it_d4 it) (it_next_off it) (it_err_off it).
Definition set_d4 (x : Z) (it : bson_iter_t) : bson_iter_t :=
  Iter (it_raw it) (it_len it) (it_off it) (it_type it) (it_key it)
       (it_d1 it) (it_d2 it) (it_d3 it) x (it_next_off it) (it_err_off it).
Definition set_d1 (x : Z) (it : bson_iter_t) : bson_iter_t :=
  Iter (it_raw it) (it_len it) (it_off it) (it_type it) (it_key it)
       x (it_d2 it) (it_d3 it) (it_d4 it) (it_next_off it) (it_err_off it).
Definition set_next_off (x : Z) (it : bson_iter_t) : bson_iter_t :=
  Iter (it_raw it) (it_len it) (it_off it) (it_type it) (it_key it)
       (it_d1 it) (it_d2 it) (it_d3 it) (it_d4 it) x (it_err_off it).
Definition set_err_off (x : Z) (it : bson_iter_t) : bson_iter_t :=
  Iter (it_raw it) (it_len it) (it_off it) (it_type it) (it_key it)
       (it_d1 it) (it_d2 it) (it_d3 it) (it_d4 it) (it_next_off it) x.

(** [memset (iter, 0, sizeof *iter)] *)
Definition iter_zero : bson_iter_t := Iter None 0 0 0 0 0 0 0 0 0 0.

(** the field assignments shared by the initialisers *)
Definition iter_start (data : list Z) (len : Z) : bson_iter_t :=
  Iter (Some data) len 0 0 0 0 0 0 0 4 0.

(** A [bson_t]: the bytes of the document, [bson->len] being their number. *)
Definition bson_t := list Z.

Definition bson_iter_init (bson : bson_t) : bool * bson_iter_t :=
  if blen bson <? 5 then (false, iter_zero) else (true, iter_start bson (blen bson)).

Definition bson_iter_init_from_data (data : list Z) (length : Z) : res (bool * bson_iter_t) :=
  if (length <? 5) || (INT_MAX <? length) then Ret (false, iter_zero)
  else
    let* len_le := rd_le 4 data 0 in
    if negb (len_le =? length) then Ret (false, iter_zero)
    else
      let* last := rd data (length - 1) in
      if negb (last =? 0) then Ret (false, iter_zero)
      else Ret (true, iter_start data length).

(** [bson_init_static]: [None] is the [false] return. *)
Definition bson_init_static (data : list Z) (length : Z) : res (option bson_t) :=
  if (length <? 5) || (INT_MAX <? length) then Ret None
  else
    let* len_le := rd_le 4 data 0 in
    if negb (len_le =? length) then Ret None
    else
      let* last := rd data (length - 1) in
      if negb (last =? 0) then Ret None
      else
        let* b := rd_bytes (Z.to_nat length) data 0 in
        Ret (Some b).

(** [ITER_TYPE (iter)] *)
Definition ITER_TYPE (it : bson_iter_t) : res bson_type_t :=
  let* raw := deref (it_raw it) in
  let* b := rd raw (it_type it) in
  Ret (bson_type_of_byte b).

Definition bson_iter_key_unsafe (it : bson_iter_t) : res (list Z) :=
  let* raw := deref (it_raw it) in Ret (ptr_add raw (it_key it)).
Definition bson_iter_key (it : bson_iter_t) : res (list Z) := bson_iter_key_unsafe it.

Definition bson_iter_type_unsafe (it : bson_iter_t) : res bson_type_t := ITER_TYPE it.
Definition bson_iter_type (it : bson_iter_t) : res bson_type_t :=
  let* _ := bson_assert (match it_raw it with Some _ => true | None => false end) in
  let* _ := bson_assert (negb (it_len it =? 0)) in
  bson_iter_type_unsafe it.

(** ** [_bson_iter_next_internal] *)

(** [for (; o < len; o++) if (!data[o]) ...]: the offset of the first NUL. *)
Fixpoint find_nul (fuel : nat) (data : list Z) (o len : Z) : res (option Z) :=
  match fuel with
  | O => Stuck OutOfFuel
  | S fuel' =>
      if o <? len then
        let* b := rd data o in
        if b =? 0 then Ret (Some o) else find_nul fuel' data (o + 1) len
      else Ret None
  end.
Definition scan_nul (data : list Z) (o len : Z) : res (option Z) :=
  find_nul (S (Z.to_nat (len - o))) data o len.

(** How a case of the type switch ends: [break], or [goto mark_invalid]. *)
Inductive flow :=
| Break (o : Z) (it : bson_iter_t)   (* with the offset the case leaves in [o] *)
| Invalid (it : bson_iter_t).

Definition case_utf8 (it : bson_iter_t) (data : list Z) (o len : Z) : res flow :=
  if u32 (o + 4) >=? len then Ret (Invalid (set_err_off o it))
  else
    let it := set_d2 (u32 (o + 4)) it in
    let* l := rd_le 4 data (it_d1 it) in
    if l >? u32 (len - (o + 4)) then Ret (Invalid (set_err_off o it))
    else
      let it := set_next_off (u32 (o + 4 + l)) it in
      if (l =? 0) || (it_next_off it >=? len) then Ret (Invalid (set_err_off o it))
      else
        let* last := rd data (it_d2 it + (l - 1)) in
        if negb (last =? 0) then Ret (Invalid (set_err_off (u32 (o + 4 + l - 1)) it))
        else Ret (Break o it).

(** [binary_len + 4] is a signed sum; it is taken to wrap *)
Definition case_binary (it : bson_iter_t) (data : list Z) (o len : Z) : res flow :=
  if o >=? u32 (len - 4) then Ret (Invalid (set_err_off o it))
  else
    let it := set_d3 (u32 (o + 5)) (set_d2 (u32 (o + 4)) it) in
    let* l := rd_le 4 data (it_d1 it) in
    if l >=? u32 (len - o - 4) then Ret (Invalid (set_err_off o it))
    else
      let* subtype := rd data (it_d2 it) in
      if subtype =? BSON_SUBTYPE_BINARY_DEPRECATED then
        if l <? 4 then Ret (Invalid (set_err_off o it))
        else
          let* binary_len := rd_le 4 data (it_d3 it) in
          if negb (u32 (s32 binary_len + 4) =? l)
          then Ret (Invalid (set_err_off (it_d3 it) it))
          else Ret (Break o (set_next_off (u32 (o + 5 + l)) it))
      else Ret (Break o (set_next_off (u32 (o + 5 + l)) it)).

Definition case_document (it : bson_iter_t) (data : list Z) (o len : Z) : res flow :=
  if o >=? u32 (len - 4) then Ret (Invalid (set_err_off o it))
  else
    let* l := rd_le 4 data (it_d1 it) in
    if (l >? len) || (l >? u32 (len - o)) then Ret (Invalid (set_err_off o it))
    else Ret (Break o (set_next_off (u32 (o + l)) it)).

Definition case_bool (it : bson_iter_t) (data : list Z) (o len : Z) : res flow :=
  if it_d1 it >=? len then Ret (Invalid (set_err_off o it))
  else
    let* val := rd data (it_d1 it) in
    if negb (val =? 0) && negb (val =? 1) then Ret (Invalid (set_err_off o it))
    else Ret (Break o (set_next_off (u32 (o + 1)) it)).

Definition case_regex (it : bson_iter_t) (data : list Z) (o len : Z) : res flow :=
  let* eor := scan_nul data o len in
  match eor with
  | None => Ret (Invalid (set_err_off (it_next_off it) it))
  | Some o1 =>
      let o := u32 (o1 + 1) in
      let it := set_d2 o it in
      let* eoo := scan_nul data o len in
      match eoo with
      | None => Ret (Invalid (set_err_off (it_next_off it) it))
      | Some o2 => Ret (Break o2 (set_next_off (u32 (o2 + 1)) it))
      end
  end.

Definition case_dbpointer (it : bson_iter_t) (data : list Z) (o len : Z) : res flow :=
  if o >=? u32 (len - 4) then Ret (Invalid (set_err_off o it))
  else
    let it := set_d2 (u32 (o + 4)) it in
    let* l := rd_le 4 data (it_d1 it) in
    if (l =? 0) || (l >? u32 (len - o - 4)) then Ret (Invalid (set_err_off o it))
    else
      let* last := rd data (o + l + 3) in
      if negb (last =? 0) then Ret (Invalid (set_err_off (u32 (o + l + 3)) it))
      else Ret (Break o (set_next_off (u32 (o + 4 + l + 12)) (set_d3 (u32 (o + 4 + l)) it))).

Definition case_codewscope (it : bson_iter_t) (data : list Z) (o len : Z) : res flow :=
  if (len <? 19) || (o >=? u32 (len - 14)) then Ret (Invalid (set_err_off o it))
  else
    let it := set_d3 (u32 (o + 8)) (set_d2 (u32 (o + 4)) it) in
    let* l := rd_le 4 data (it_d1 it) in
    if (l <? 14) || (l >=? u32 (len - o)) then Ret (Invalid (set_err_off o it))
    else
      let it := set_next_off (u32 (o + l)) it in
      if it_next_off it >=? len then Ret (Invalid (set_err_off o it))
      else
        let* l := rd_le 4 data (it_d2 it) in
        if (l =? 0) || (l >=? u32 (len - o - 4 - 4)) then Ret (Invalid (set_err_off o it))
        else if u32 (o + 4 + 4 + l + 4) >=? it_next_off it
        then Ret (Invalid (set_err_off (u32 (o + 4)) it))
        else
          let it := set_d4 (u32 (o + 4 + 4 + l)) it in
          let* doclen := rd_le 4 data (it_d4 it) in
          if negb (u32 (o + 4 + 4 + l + doclen) =? it_next_off it)
          then Ret (Invalid (set_err_off (u32 (o + 4 + 4 + l)) it))
          else Ret (Break o it).

(** the switch on the type of the field; the boolean is the [unsupported] output *)
Definition fill_data_fields (it : bson_iter_t) (data : list Z) (o len : Z)
    (t : bson_type_t) : res (flow * bool) :=
  let fixed n := Ret (Break o (set_next_off (u32 (o + n)) it)) in
  let supported (m : res flow) := let* f := m in Ret (f, false) in
  match t with
  | BSON_TYPE_DATE_TIME | BSON_TYPE_DOUBLE | BSON_TYPE_INT64 | BSON_TYPE_TIMESTAMP =>
      supported (fixed 8)
  | BSON_TYPE_CODE | BSON_TYPE_SYMBOL | BSON_TYPE_UTF8 => supported (case_utf8 it data o len)
  | BSON_TYPE_BINARY => supported (case_binary it data o len)
  | BSON_TYPE_ARRAY | BSON_TYPE_DOCUMENT => supported (case_document it data o len)
  | BSON_TYPE_OID => supported (fixed 12)
  | BSON_TYPE_BOOL => supported (case_bool it data o len)
  | BSON_TYPE_REGEX => supported (case_regex it data o len)
  | BSON_TYPE_DBPOINTER => supported (case_dbpointer it data o len)
  | BSON_TYPE_CODEWSCOPE => supported (case_codewscope it data o len)
  | BSON_TYPE_INT32 => supported (fixed 4)
  | BSON_TYPE_DECIMAL128 => supported (fixed 16)
  | BSON_TYPE_MAXKEY | BSON_TYPE_MINKEY | BSON_TYPE_NULL | BSON_TYPE_UNDEFINED =>
      supported (Ret (Break o (set_next_off o it)))
  | BSON_TYPE_EOD => Ret (Invalid (set_err_off o it), false)
  | BSON_TYPE_OTHER _ => Ret (Invalid (set_err_off o it), true)
  end.

(** the [mark_invalid] label *)
Definition mark_invalid (it : bson_iter_t) : bson_iter_t :=
  Iter None 0 (it_off it) (it_type it) (it_key it) (it_d1 it) (it_d2 it)
       (it_d3 it) (it_d4 it) 0 (it_err_off it).

(** [n_key] and [n_type] are [None] where the code leaves [key] NULL or
    unset and [bson_type] unset. *)
Record next_out := NextOut {
  n_ok : bool; n_iter : bson_iter_t; n_key : option (list Z);
  n_type : option bson_type_t; n_unsupported : bool
}.

(** the assignments that move the iterator to the field at [next_off] *)
Definition begin_field (it : bson_iter_t) : bson_iter_t :=
  Iter (it_raw it) (it_len it) (it_next_off it) (it_next_off it) (u32 (it_next_off it + 1))
       0 0 0 0 (it_next_off it) (it_err_off it).

(** the offset just past the key: scanned for, or computed from [next_keylen] *)
Definition find_key_end (it : bson_iter_t) (data : list Z) (len next_keylen : Z) : res (option Z) :=
  if next_keylen =? 0 then
    let* r := scan_nul data (it_key it) len in
    Ret (option_map (λ o, u32 (o + 1)) r)
  else Ret (Some (u32 (it_key it + next_keylen + 1))).

Definition _bson_iter_next_internal (it : bson_iter_t) (next_keylen : Z) : res next_out :=
  match it_raw it with
  | None => Ret (NextOut false it None (Some BSON_TYPE_EOD) false)
  | Some data =>
      let len := it_len it in
      let it := begin_field it in
      let* ke := find_key_end it data len next_keylen in
      match ke with
      | None => Ret (NextOut false (mark_invalid it) None None false)
      | Some o =>
          let it := set_d1 o it in
          let* key := bson_iter_key_unsafe it in
          let* t := ITER_TYPE it in
          let* fu := fill_data_fields it data o len t in
          let '(f, unsupported) := fu in
          let out ok it := NextOut ok it (Some key) (Some t) unsupported in
          match f with
          | Invalid it => Ret (out false (mark_invalid it))
          | Break o it =>
              if it_next_off it >=? len
              then Ret (out false (mark_invalid (set_err_off o it)))
              else Ret (out true (set_err_off 0 it))
          end
      end
  end.

Definition bson_iter_next (it : bson_iter_t) : res (bool * bson_iter_t) :=
  let* n := _bson_iter_next_internal it 0 in Ret (n_ok n, n_iter n).

(** ** Reading the current field *)

Definition bson_iter_utf8_len_unsafe (it : bson_iter_t) : res Z :=
  let* raw := deref (it_raw it) in
  let* val := rd_le 4 raw (it_d1 it) in
  Ret (u32 (Z.max 0 (s32 val - 1))).

(** the pointer [iter->raw + d] *)
Definition field_ptr (it : bson_iter_t) (d : Z) : res (list Z) :=
  let* raw := deref (it_raw it) in Ret (ptr_add raw d).
(** an [n]-byte little-endian integer at [iter->raw + d] *)
Definition field_le (it : bson_iter_t) (n : nat) (d : Z) : res Z :=
  let* raw := deref (it_raw it) in rd_le n raw d.

Definition bson_iter_double_unsafe (it : bson_iter_t) : res Z := field_le it 8 (it_d1 it).
Definition bson_iter_int32_unsafe (it : bson_iter_t) : res Z :=
  let* v := field_le it 4 (it_d1 it) in Ret (s32 v).
Definition bson_iter_int64_unsafe (it : bson_iter_t) : res Z :=
  let* v := field_le it 8 (it_d1 it) in Ret (s64 v).
Definition bson_iter_bool_unsafe (it : bson_iter_t) : res bool :=
  let* v := field_le it 1 (it_d1 it) in Ret (negb (v =? 0)).
Definition bson_iter_decimal128_unsafe (it : bson_iter_t) : res (Z * Z) :=
  let* low := field_le it 8 (it_d1 it) in
  let* high := field_le it 8 (it_d1 it + 8) in
  Ret (low, high).
(** the division is by [1000UL], so the value is converted to [unsigned long] *)
Definition bson_iter_time_t_unsafe (it : bson_iter_t) : res Z :=
  let* v := bson_iter_int64_unsafe it in Ret (s64 (u64 v / 1000)).
Definition bson_iter_timeval_unsafe (it : bson_iter_t) : res (Z * Z) :=
  let* v := bson_iter_int64_unsafe it in Ret (Z.quot v 1000, Z.rem v 1000 * 1000).

(** [if (ITER_TYPE (iter) == ty) a else b] *)
Definition if_type {A} (it : bson_iter_t) (ty : bson_type_t) (a b : res A) : res A :=
  let* t := ITER_TYPE it in if decide (t = ty) then a else b.

(** subtype, length and (when the caller asks for it) the bytes *)
Definition bson_iter_binary (it : bson_iter_t) : res (Z * Z * option (list Z)) :=
  if_type it BSON_TYPE_BINARY
    (let* subtype := field_le it 1 (it_d2 it) in
     let* binary_len := field_le it 4 (it_d1 it) in
     let* binary := field_ptr it (it_d3 it) in
     if subtype =? BSON_SUBTYPE_BINARY_DEPRECATED
     then Ret (subtype, u32 (binary_len - 4), Some (ptr_add binary 4))
     else Ret (subtype, binary_len, Some binary))
    (Ret (BSON_SUBTYPE_BINARY, 0, None)).

Definition bson_iter_bool (it : bson_iter_t) : res bool :=
  if_type it BSON_TYPE_BOOL (bson_iter_bool_unsafe it) (Ret false).

Definition bson_iter_double (it : bson_iter_t) : res Z :=
  if_type it BSON_TYPE_DOUBLE (bson_iter_double_unsafe it) (Ret 0).

Definition bson_iter_int32 (it : bson_iter_t) : res Z :=
  if_type it BSON_TYPE_INT32 (bson_iter_int32_unsafe it) (Ret 0).

Definition bson_iter_int64 (it : bson_iter_t) : res Z :=
  if_type it BSON_TYPE_INT64 (bson_iter_int64_unsafe it) (Ret 0).

Definition bson_iter_as_bool (it : bson_iter_t) : res bool :=
  let* t := ITER_TYPE it in
  match t with
  | BSON_TYPE_BOOL => bson_iter_bool it
  | BSON_TYPE_DOUBLE =>
      let* d := bson_iter_double it in Ret (negb (double_is_zero (double_of_bits d)))
  | BSON_TYPE_INT64 => let* v := bson_iter_int64 it in Ret (negb (v =? 0))
  | BSON_TYPE_INT32 => let* v := bson_iter_int32 it in Ret (negb (v =? 0))
  | BSON_TYPE_UTF8 => Ret true
  | BSON_TYPE_NULL | BSON_TYPE_UNDEFINED => Ret false
  | _ => Ret true
  end.

Definition bson_iter_as_double (it : bson_iter_t) : res Z :=
  let of_Z z := bits_of_double (double_of_Z z) in
  let* t := ITER_TYPE it in
  match t with
  | BSON_TYPE_BOOL => let* b := bson_iter_bool it in Ret (of_Z (Z.b2z b))
  | BSON_TYPE_DOUBLE => bson_iter_double it
  | BSON_TYPE_INT32 => let* v := bson_iter_int32 it in Ret (of_Z v)
  | BSON_TYPE_INT64 => let* v := bson_iter_int64 it in Ret (of_Z v)
  | _ => Ret 0
  end.

Definition bson_iter_as_int64 (it : bson_iter_t) : res Z :=
  let* t := ITER_TYPE it in
  match t with
  | BSON_TYPE_BOOL => let* b := bson_iter_bool it in Ret (Z.b2z b)
  | BSON_TYPE_DOUBLE => let* d := bson_iter_double it in int64_of_double (double_of_bits d)
  | BSON_TYPE_INT64 => bson_iter_int64 it
  | BSON_TYPE_INT32 => bson_iter_int32 it
  | _ => Ret 0
  end.

(** [None] is the [false] return *)
Definition bson_iter_decimal128 (it : bson_iter_t) : res (option (Z * Z)) :=
  if_type it BSON_TYPE_DECIMAL128
    (let* d := bson_iter_decimal128_unsafe it in Ret (Some d)) (Ret None).

Definition bson_iter_oid_unsafe (it : bson_iter_t) : res (list Z) := field_ptr it (it_d1 it).

Definition bson_iter_oid (it : bson_iter_t) : res (option (list Z)) :=
  if_type it BSON_TYPE_OID
    (let* p := bson_iter_oid_unsafe it in Ret (Some p)) (Ret None).

(** the pattern and the options *)
Definition bson_iter_regex (it : bson_iter_t) : res (option (list Z) * option (list Z)) :=
  if_type it BSON_TYPE_REGEX
    (let* r := field_ptr it (it_d1 it) in
     let* o := field_ptr it (it_d2 it) in
     Ret (Some r, Some o))
    (Ret (None, None)).

(** The string-like getters share their body: the pointer at [d2], and the
    length when [length] is not NULL ([want_length]). *)
Definition string_field (it : bson_iter_t) (ty : bson_type_t) (want_length : bool)
    : res (option (list Z) * Z) :=
  if_type it ty
    (let* n := (if want_length then bson_iter_utf8_len_unsafe it else Ret 0) in
     let* p := field_ptr it (it_d2 it) in
     Ret (Some p, n))
    (Ret (None, 0)).
Definition bson_iter_utf8 (it : bson_iter_t) (want_length : bool) := string_field it BSON_TYPE_UTF8 want_length.
Definition bson_iter_code (it : bson_iter_t) (want_length : bool) := string_field it BSON_TYPE_CODE want_length.
(** computes the length in any case *)
Definition bson_iter_symbol (it : bson_iter_t) := string_field it BSON_TYPE_SYMBOL true.

(** a fresh NUL-terminated copy *)
Definition bson_iter_dup_utf8 (it : bson_iter_t) : res (option (list Z) * Z) :=
  let* r := bson_iter_utf8 it true in
  match r with
  | (Some str, local_length) =>
      let* b := rd_bytes (Z.to_nat local_length) str 0 in
      Ret (Some (b ++ [0]), local_length)
  | (None, local_length) => Ret (None, local_length)
  end.

(** code, its length, the scope's length and the scope *)
Definition bson_iter_codewscope (it : bson_iter_t)
    : res (option (list Z) * Z * Z * option (list Z)) :=
  if_type it BSON_TYPE_CODEWSCOPE
    (let* len := field_le it 4 (it_d2 it) in
     let* _ := bson_assert (len >? 0) in
     let* scope_len := field_le it 4 (it_d4 it) in
     let* scope := field_ptr it (it_d4 it) in
     let* code := field_ptr it (it_d3 it) in
     Ret (Some code, len - 1, scope_len, Some scope))
    (Ret (None, 0, 0, None)).

(** collection length, collection and oid; the length is not written on a type
    mismatch ([None]) *)
Definition bson_iter_dbpointer (it : bson_iter_t)
    : res (option Z * option (list Z) * option (list Z)) :=
  if_type it BSON_TYPE_DBPOINTER
    (let* n := field_le it 4 (it_d1 it) in
     let n := if n >? 0 then n - 1 else n in
     let* collection := field_ptr it (it_d2 it) in
     let* oid := field_ptr it (it_d3 it) in
     Ret (Some n, Some collection, Some oid))
    (Ret (None, None, None)).

Definition bson_iter_date_time (it : bson_iter_t) : res Z :=
  if_type it BSON_TYPE_DATE_TIME (bson_iter_int64_unsafe it) (Ret 0).

Definition bson_iter_time_t (it : bson_iter_t) : res Z :=
  if_type it BSON_TYPE_DATE_TIME (bson_iter_time_t_unsafe it) (Ret 0).

Definition bson_iter_timestamp (it : bson_iter_t) : res (Z * Z) :=
  if_type it BSON_TYPE_TIMESTAMP
    (let* encoded := field_le it 8 (it_d1 it) in
     Ret (Z.land (Z.shiftr encoded 32) 0xFFFFFFFF, Z.land encoded 0xFFFFFFFF))
    (Ret (0, 0)).

Definition bson_iter_timeval (it : bson_iter_t) : res (Z * Z) :=
  if_type it BSON_TYPE_DATE_TIME (bson_iter_timeval_unsafe it) (Ret (0, 0)).

(** the document's (array's) length and bytes *)
Definition bson_iter_document (it : bson_iter_t) : res (Z * option (list Z)) :=
  if_type it BSON_TYPE_DOCUMENT
    (let* n := field_le it 4 (it_d1 it) in
     let* p := field_ptr it (it_d1 it) in Ret (n, Some p))
    (Ret (0, None)).
Definition bson_iter_array (it : bson_iter_t) : res (Z * option (list Z)) :=
  if_type it BSON_TYPE_ARRAY
    (let* n := field_le it 4 (it_d1 it) in
     let* p := field_ptr it (it_d1 it) in Ret (n, Some p))
    (Ret (0, None)).

Definition bson_iter_key_len (it : bson_iter_t) : res Z :=
  let* _ := bson_assert (it_d1 it >? it_key it) in
  Ret (u32 (it_d1 it - it_key it - 1)).

Definition bson_iter_offset (it : bson_iter_t) : Z := it_off it.

(** [None] is the [false] return, which leaves the child untouched *)
Definition bson_iter_recurse (it : bson_iter_t) : res (option bson_iter_t) :=
  let child r := let '(len, data) := r in
    Ret (Some (Iter data len 0 0 0 0 0 0 0 4 0)) in
  let* t := ITER_TYPE it in
  match t with
  | BSON_TYPE_DOCUMENT => let* r := bson_iter_document it in child r
  | BSON_TYPE_ARRAY => let* r := bson_iter_array it in child r
  | _ => Ret None
  end.

(** the fields [d1] to [d4] keep whatever they held: the first step sets them *)
Definition bson_iter_init_from_data_at_offset (it : bson_iter_t) (data : list Z)
    (length offset keylen : Z) : res (bool * bson_iter_t) :=
  if (length <? 5) || (INT_MAX <? length) then Ret (false, iter_zero)
  else
    let it := Iter (Some data) (u32 length) 0 0 0 (it_d1 it) (it_d2 it) (it_d3 it)
                   (it_d4 it) offset 0 in
    let* n := _bson_iter_next_internal it keylen in
    if negb (n_ok n) then Ret (false, iter_zero) else Ret (true, n_iter n).

(** ** Loops over the fields: [while (bson_iter_next (iter)) body] *)
Section Loop.
Context {S : Type}.
(** [false] in the result of the body leaves the loop ([return], [break] or
    [goto]); the state carries what the code computed. *)
Variable body : bson_iter_t → S → res (bool * S).

Fixpoint iter_while (fuel : nat) (it : bson_iter_t) (s : S) : res (bson_iter_t * S) :=
  match fuel with
  | O => Stuck OutOfFuel
  | Datatypes.S fuel' =>
      let* n := bson_iter_next it in
      let '(ok, it) := n in
      if ok then
        let* r := body it s in
        let '(continue, s) := r in
        if continue : bool then iter_while fuel' it s else Ret (it, s)
      else Ret (it, s)
  end.
End Loop.
(** every field takes at least two bytes, so the length bounds the number of fields *)
Definition iter_fuel (it : bson_iter_t) : nat := S (Z.to_nat (it_len it)).
Definition for_each_field {S} (body : bson_iter_t → S → res (bool * S)) (it : bson_iter_t) (s : S) :=
  iter_while body (iter_fuel it) it s.

(** [strncmp (a, b, n) == 0] on memory *)
Fixpoint strncmp_eq (n : nat) (a b : list Z) : res bool :=
  match n with
  | O => Ret true
  | S n' =>
      let* x := rd a 0 in
      let* y := rd b 0 in
      if negb (x =? y) then Ret false
      else if x =? 0 then Ret true
      else strncmp_eq n' (drop 1 a) (drop 1 b)
  end.

(** [key] is the memory of the C string argument; [None] is [keylen < 0] *)
Definition bson_iter_find_w_len (it : bson_iter_t) (key : list Z) (keylen : option Z)
    : res (bool * bson_iter_t) :=
  let* keylen := match keylen with
                 | Some n => Ret n
                 | None => let* s := c_string key in Ret (blen s)
                 end in
  let* r := for_each_field (λ it _,
    let* ikey := bson_iter_key it in
    let* eq := strncmp_eq (Z.to_nat keylen) key ikey in
    if (eq : bool) then
      let* last := rd ikey keylen in
      if last =? 0 then Ret (false, true) else Ret (true, false)
    else Ret (true, false)) it false in
  let '(it, found) := r in Ret (found, it).

Definition bson_iter_find (it : bson_iter_t) (key : list Z) : res (bool * bson_iter_t) :=
  bson_iter_find_w_len it key None.

Definition bson_iter_find_case (it : bson_iter_t) (key : list Z) : res (bool * bson_iter_t) :=
  let* key := c_string key in
  let* r := for_each_field (λ it _,
    let* p := bson_iter_key it in
    let* ikey := c_string p in
    if strcaseeq key ikey then Ret (false, true) else Ret (true, false)) it false in
  let '(it, found) := r in Ret (found, it).

Definition bson_iter_init_find (bson : bson_t) (key : list Z) : res (bool * bson_iter_t) :=
  let '(ok, it) := bson_iter_init bson in
  if ok then bson_iter_find it key else Ret (false, it).
Definition bson_iter_init_find_w_len (bson : bson_t) (key : list Z) (keylen : option Z) :=
  let '(ok, it) := bson_iter_init bson in
  if ok then bson_iter_find_w_len it key keylen else Ret (false, it).
Definition bson_iter_init_find_case (bson : bson_t) (key : list Z) :=
  let '(ok, it) := bson_iter_init bson in
  if ok then bson_iter_find_case it key else Ret (false, it).

(** [strchr (s, c)] on a C string given by value: the offset of the first [c] *)
Fixpoint strchr (s : list Z) (c : Z) : option Z :=
  match s with
  | [] => None
  | b :: s' => if b =? c then Some 0 else option_map (Z.add 1) (strchr s' c)
  end.

(** [dotkey] is a C string given by value; [None] is the [false] return.  The
    fuel bounds the number of dots. *)
Fixpoint find_descendant (fuel : nat) (it : bson_iter_t) (dotkey : list Z)
    : res (option bson_iter_t) :=
  match fuel with
  | O => Stuck OutOfFuel
  | S fuel' =>
      let dot := strchr dotkey 46 in
      let sublen := match dot with Some d => d | None => blen dotkey end in
      let* r := bson_iter_find_w_len it (dotkey ++ [0]) (Some sublen) in
      let '(found, it) := r in
      if negb found then Ret None
      else match dot with
           | None => Ret (Some it)
           | Some d =>
               let* t := ITER_TYPE it in
               if bool_decide (t = BSON_TYPE_DOCUMENT) || bool_decide (t = BSON_TYPE_ARRAY) then
                 let* tmp := bson_iter_recurse it in
                 match tmp with
                 | Some tmp => find_descendant fuel' tmp (ptr_add dotkey (d + 1))
                 | None => Ret None
                 end
               else Ret None
           end
  end.
Definition bson_iter_find_descendant (it : bson_iter_t) (dotkey : list Z) :=
  find_descendant (S (length dotkey)) it dotkey.

(** ** Whole-document helpers (bson/bson.c) *)
Definition bson_empty (b : bson_t) : res bool :=
  if blen b =? 5 then Ret true else let* c := rd b 4 in Ret (c =? 0).
Definition bson_empty_doc : bson_t := [5; 0; 0; 0; 0].

Definition bson_count_keys (b : bson_t) : res Z :=
  let '(ok, it) := bson_iter_init b in
  if ok then
    let* r := for_each_field (λ _ count, Ret (true, u32 (count + 1))) it 0 in
    Ret (snd r)
  else Ret 0.

Definition bson_has_field (b : bson_t) (key : list Z) : res bool :=
  match strchr key 46 with
  | Some _ =>
      let '(ok, it) := bson_iter_init b in
      if ok then
        let* r := bson_iter_find_descendant it key in
        Ret (match r with Some _ => true | None => false end)
      else Ret false
  | None =>
      let* r := bson_iter_init_find b (key ++ [0]) in Ret (fst r)
  end.

(** ** In-place updates: the bytes behind [raw] after the store *)
Definition overwrite (it : bson_iter_t) (ty : bson_type_t) (bytes : list Z) : res bson_iter_t :=
  let* raw := deref (it_raw it) in
  if_type it ty
    (if (0 <=? it_d1 it) && (it_d1 it + blen bytes <=? blen raw) then
       let o := Z.to_nat (it_d1 it) in
       let raw' := take o raw ++ bytes ++ drop (o + length bytes) raw in
       Ret (Iter (Some raw') (it_len it) (it_off it) (it_type it) (it_key it) (it_d1 it)
                 (it_d2 it) (it_d3 it) (it_d4 it) (it_next_off it) (it_err_off it))
     else Stuck OutOfBounds)
    (Ret it).
Definition bson_iter_overwrite_bool (it : bson_iter_t) (value : bool) :=
  overwrite it BSON_TYPE_BOOL [Z.b2z value].
Definition bson_iter_overwrite_oid (it : bson_iter_t) (oid : list Z) :=
  overwrite it BSON_TYPE_OID oid.
Definition bson_iter_overwrite_timestamp (it : bson_iter_t) (timestamp increment : Z) :=
  overwrite it BSON_TYPE_TIMESTAMP
    (le_bytes 8 (Z.lor (u64 (Z.shiftl timestamp 32)) increment)).
Definition bson_iter_overwrite_date_time (it : bson_iter_t) (value : Z) :=
  overwrite it BSON_TYPE_DATE_TIME (le_bytes 8 value).
Definition bson_iter_overwrite_int32 (it : bson_iter_t) (value : Z) :=
  overwrite it BSON_TYPE_INT32 (le_bytes 4 value).
Definition bson_iter_overwrite_int64 (it : bson_iter_t) (value : Z) :=
  overwrite it BSON_TYPE_INT64 (le_bytes 8 value).
Definition bson_iter_overwrite_double (it : bson_iter_t) (bits : Z) :=
  overwrite it BSON_TYPE_DOUBLE (le_bytes 8 bits).
Definition bson_iter_overwrite_decimal128 (it : bson_iter_t) (low high : Z) :=
  overwrite it BSON_TYPE_DECIMAL128 (le_bytes 8 low ++ le_bytes 8 high).
