(* ===== verification/BsonIterSafe.v ===== *)
(** Memory safety, progress and termination of the BSON iterator: from any
    well-formed iterator, over arbitrary bytes, every step stays inside the
    document; a positioned iterator ([iter_at]) describes its field exactly, so
    every getter stays inside it too; and a loop over the fields terminates. *)
From S2P Require Import Prelude CDouble BsonIter.
From Stdlib Require Import ZArith Lia List.
From stdpp Require Import prelude.
#[local] Open Scope Z_scope.
#[local] Open Scope mongo_scope.

(** What the initialisers establish and every step preserves. *)
Definition iter_ok (it : bson_iter_t) : Prop :=
  match it_raw it with
  | None => True
  | Some data =>
      bytes_ok data ∧ 0 ≤ it_len it ≤ blen data ∧ it_len it ≤ INT_MAX
      ∧ 4 ≤ it_next_off it ≤ INT_MAX
  end.

(** The layout of the value of a field of type [t]. *)
Definition nul_at (data : list Z) (o : Z) : Prop := rd data o = Ret 0.

Definition field_ok (data : list Z) (it : bson_iter_t) (t : bson_type_t) : Prop :=
  let d1 := it_d1 it in let d2 := it_d2 it in let d3 := it_d3 it in
  let d4 := it_d4 it in let next := it_next_off it in
  match t with
  | BSON_TYPE_DATE_TIME | BSON_TYPE_DOUBLE | BSON_TYPE_INT64 | BSON_TYPE_TIMESTAMP =>
      next = d1 + 8
  | BSON_TYPE_CODE | BSON_TYPE_SYMBOL | BSON_TYPE_UTF8 =>
      d2 = d1 + 4 ∧ ∃ l, rd_le 4 data d1 = Ret l ∧ 1 ≤ l ∧ next = d2 + l
                         ∧ nul_at data (d2 + l - 1)
  | BSON_TYPE_BINARY =>
      d2 = d1 + 4 ∧ d3 = d1 + 5 ∧ ∃ l st, rd_le 4 data d1 = Ret l ∧ 0 ≤ l
        ∧ rd data d2 = Ret st ∧ next = d3 + l
        ∧ (st = BSON_SUBTYPE_BINARY_DEPRECATED → rd_le 4 data d3 = Ret (l - 4) ∧ 4 ≤ l)
  | BSON_TYPE_ARRAY | BSON_TYPE_DOCUMENT =>
      d1 + 4 < it_len it ∧ ∃ l, rd_le 4 data d1 = Ret l ∧ 0 ≤ l ∧ next = d1 + l
  | BSON_TYPE_OID => next = d1 + 12
  | BSON_TYPE_BOOL => next = d1 + 1 ∧ ∃ v, rd data d1 = Ret v ∧ (v = 0 ∨ v = 1)
  | BSON_TYPE_REGEX => d1 < d2 ∧ d2 < next ∧ nul_at data (d2 - 1) ∧ nul_at data (next - 1)
  | BSON_TYPE_DBPOINTER =>
      d2 = d1 + 4 ∧ next = d3 + 12
      ∧ ∃ l, rd_le 4 data d1 = Ret l ∧ 1 ≤ l ∧ d3 = d2 + l ∧ nul_at data (d3 - 1)
  | BSON_TYPE_CODEWSCOPE =>
      d2 = d1 + 4 ∧ d3 = d1 + 8 ∧ d4 + 4 < next ∧ rd_le 4 data d1 = Ret (next - d1)
      ∧ ∃ l scope, rd_le 4 data d2 = Ret l ∧ 1 ≤ l ∧ d4 = d3 + l
                   ∧ rd_le 4 data d4 = Ret scope ∧ d4 + scope = next
  | BSON_TYPE_INT32 => next = d1 + 4
  | BSON_TYPE_DECIMAL128 => next = d1 + 16
  | BSON_TYPE_MAXKEY | BSON_TYPE_MINKEY | BSON_TYPE_NULL | BSON_TYPE_UNDEFINED => next = d1
  | BSON_TYPE_EOD | BSON_TYPE_OTHER _ => False
  end.

(** [it] stands on a field of type [t] of the document behind [data]. *)
Record iter_at (it : bson_iter_t) (data : list Z) (t : bson_type_t) : Prop := {
  at_raw : it_raw it = Some data;
  at_bytes : bytes_ok data;
  at_len : it_len it ≤ blen data;
  at_max : it_len it ≤ INT_MAX;
  at_off : 4 ≤ it_off it;
  at_type_off : it_type it = it_off it;
  at_key : it_key it = it_off it + 1;
  at_d1 : it_key it < it_d1 it;
  at_next : it_d1 it ≤ it_next_off it;
  at_end : it_next_off it < it_len it;
  at_key_nul : nul_at data (it_d1 it - 1);
  at_key_chars : ∀ i, it_key it ≤ i < it_d1 it - 1 → ¬ nul_at data i;
  at_type : ∃ b, rd data (it_type it) = Ret b ∧ bson_type_of_byte b = t;
  at_field : field_ok data it t;
  at_err : it_err_off it = 0
}.

Lemma iter_at_ok it data t : iter_at it data t → iter_ok it.
Proof.
  intros []. unfold iter_ok. rewrite at_raw0. pose proof (blen_nonneg data).
  split; [done|]. unfold INT_MAX in *. lia.
Qed.

(** ** The scan for a NUL *)
Lemma find_nul_ok fuel data o len :
  bytes_ok data → 0 ≤ o → len ≤ blen data → Z.of_nat fuel > len - o → (0 < fuel)%nat →
  returns (find_nul fuel data o len) (λ r,
    match r with
    | Some k => o ≤ k < len ∧ nul_at data k ∧ ∀ i, o ≤ i < k → ¬ nul_at data i
    | None => ∀ i, o ≤ i < len → ¬ nul_at data i
    end).
Proof.
  intros Hok. revert o. induction fuel as [|fuel IH]; intros o Ho Hlen Hf Hp; [lia|].
  simpl find_nul. case_if; [|simpl; lia].
  read_byte b. case_if.
  - subst. simpl. split; [lia|]. split; [done|lia].
  - eapply returns_mono; [apply IH; lia|].
    assert (Hne : ¬ nul_at data o) by (unfold nul_at; congruence).
    intros [k|]; simpl.
    + intros (? & ? & Hk). split; [lia|]. split; [done|].
      intros i Hi. destruct (decide (i = o)) as [->|]; [done|]. apply Hk; lia.
    + intros Hk i Hi. destruct (decide (i = o)) as [->|]; [done|]. apply Hk; lia.
Qed.
Lemma scan_nul_ok data o len :
  bytes_ok data → 0 ≤ o → len ≤ blen data →
  returns (scan_nul data o len) (λ r,
    match r with
    | Some k => o ≤ k < len ∧ nul_at data k ∧ ∀ i, o ≤ i < k → ¬ nul_at data i
    | None => ∀ i, o ≤ i < len → ¬ nul_at data i
    end).
Proof. intros. apply find_nul_ok; auto; lia. Qed.

(** ** The cases of the type switch *)

(** the fields a case does not touch *)
Definition same_base (a b : bson_iter_t) : Prop :=
  it_raw b = it_raw a ∧ it_len b = it_len a ∧ it_off b = it_off a
  ∧ it_type b = it_type a ∧ it_key b = it_key a ∧ it_d1 b = it_d1 a.

Definition flow_ok (it : bson_iter_t) (data : list Z) (t : bson_type_t) (f : flow) : Prop :=
  match f with
  | Invalid it' => 0 ≤ it_err_off it' ≤ it_len it
  | Break o it' => 0 ≤ o ≤ it_len it ∧ same_base it it' ∧ it_d1 it ≤ it_next_off it'
                 ∧ it_next_off it' < 2 ^ 32
                 ∧ (it_next_off it' < it_len it → field_ok data it' t)
  end.

(** the [Invalid] cases: the offset of the error lies in the document *)
Ltac invalid := first [done | simpl; rewrite ?u32_small by lia; lia].

Section Cases.
Variables (it : bson_iter_t) (data : list Z).
Hypothesis Hok : bytes_ok data.
Hypothesis Hlen : it_len it ≤ blen data.
Hypothesis Hmax : it_len it ≤ INT_MAX.
Hypothesis Ho : 6 ≤ it_d1 it ≤ it_len it.
Hypothesis Hnext : 0 ≤ it_next_off it ≤ it_len it.

Let o := it_d1 it.
Let len := it_len it.

Lemma case_utf8_ok t :
  t = BSON_TYPE_CODE ∨ t = BSON_TYPE_SYMBOL ∨ t = BSON_TYPE_UTF8 →
  returns (case_utf8 it data o len) (flow_ok it data t).
Proof using Hok Hlen Hmax Ho.
  intros Ht. unfold INT_MAX in *. unfold case_utf8, len, o.
  rewrite (u32_small (_ + 4)) by lia. case_head; [invalid|]. cbn [it_d1 set_d2].
  read_le l. rewrite (u32_small (_ - _)) by lia. case_head; [invalid|].
  rewrite (u32_small (_ + l)) by lia. cbn [it_next_off set_next_off set_d2 it_d2].
  destruct (Z.eqb_spec l 0); [invalid|]. simpl orb. case_head; [invalid|].
  read_byte b. case_head; [|invalid].
  subst b. simpl.
  split; [lia|]. split; [done|]. split; [lia|]. split; [lia|]. intros _.
  assert (G : it_d1 it + 4 = it_d1 it + 4 ∧ ∃ l0, rd_le 4 data (it_d1 it) = Ret l0
            ∧ 1 ≤ l0 ∧ it_d1 it + 4 + l = it_d1 it + 4 + l0
            ∧ nul_at data (it_d1 it + 4 + l0 - 1)).
  { split; [done|]. exists l. split; [done|]. split; [lia|]. split; [done|].
    unfold nul_at. by replace (it_d1 it + 4 + l - 1) with (it_d1 it + 4 + (l - 1)) by lia. }
  by destruct Ht as [->|[->| ->]].
Qed.

Lemma case_binary_ok : returns (case_binary it data o len) (flow_ok it data BSON_TYPE_BINARY).
Proof using Hok Hlen Hmax Ho.
  unfold INT_MAX in *. unfold case_binary, len, o.
  rewrite (u32_small (_ - 4)) by lia. case_head; [invalid|].
  rewrite (u32_small (_ + 4)), (u32_small (_ + 5)) by lia. cbn [it_d1 set_d2 set_d3 it_d2].
  read_le l. rewrite (u32_small (_ - _ - 4)) by lia. case_head; [invalid|].
  rewrite (u32_small (_ + 5 + l)) by lia.
  read_byte st. unfold BSON_SUBTYPE_BINARY_DEPRECATED. case_head.
  - case_head; [invalid|]. cbn [it_d3 set_d2 set_d3]. read_le bl. destruct (Z.eqb_spec (u32 (s32 bl + 4)) l) as [Hwrap|]; [|invalid].
    simpl.
    split; [lia|]. split; [done|]. split; [lia|]. split; [lia|]. intros _.
    split; [done|]. split; [done|]. exists l, st. split; [done|]. split; [lia|].
    split; [done|]. split; [lia|]. intros _.
    split; [|lia]. rewrite Ebl. f_equal.
    assert (s32 bl + 4 = l ∨ s32 bl + 4 = l - 2 ^ 32) as [?|?].
    { pose proof (s32_range bl) as Hr. unfold in_s32 in Hr. unfold u32 in Hwrap.
      destruct (decide (0 ≤ s32 bl + 4)).
      - rewrite Z.mod_small in Hwrap by lia. lia.
      - rewrite <- (Z.mod_add _ 1), Z.mod_small in Hwrap by lia. lia. }
    + unfold s32 in *. rewrite (u32_small bl) in * by lia. destruct (bl <? 2 ^ 31) eqn:?; lia.
    + unfold s32 in *. rewrite (u32_small bl) in * by lia.
      destruct (Z.ltb_spec bl (2 ^ 31)); lia.
  - simpl. split; [lia|]. split; [done|]. split; [lia|]. split; [lia|]. intros _.
    split; [done|]. split; [done|]. exists l, st. split; [done|]. split; [lia|].
    split; [done|]. split; [lia|]. unfold BSON_SUBTYPE_BINARY_DEPRECATED. lia.
Qed.

Lemma case_document_ok t :
  t = BSON_TYPE_ARRAY ∨ t = BSON_TYPE_DOCUMENT →
  returns (case_document it data o len) (flow_ok it data t).
Proof using Hok Hlen Hmax Ho.
  intros Ht. unfold INT_MAX in *. unfold case_document, len, o.
  rewrite (u32_small (_ - 4)) by lia. case_head; [invalid|].
  read_le l. rewrite (u32_small (_ - _)) by lia.
  destruct (Z.gtb_spec l (it_len it)); [invalid|]. simpl orb. case_head; [invalid|].
  rewrite u32_small by lia. simpl. split; [lia|]. split; [done|]. split; [lia|]. split; [lia|]. intros _.
  assert (G : it_d1 it + 4 < it_len it ∧ ∃ l0, rd_le 4 data (it_d1 it) = Ret l0 ∧ 0 ≤ l0
            ∧ it_d1 it + l = it_d1 it + l0).
  { split; [lia|]. exists l. split; [done|]. lia. }
  by destruct Ht as [->| ->].
Qed.

Lemma case_bool_ok : returns (case_bool it data o len) (flow_ok it data BSON_TYPE_BOOL).
Proof using Hok Hlen Hmax Ho.
  unfold INT_MAX in *. unfold case_bool, len, o. case_head; [invalid|]. read_byte v.
  assert (G : v = 0 ∨ v = 1 → returns (Ret (Break (it_d1 it) (set_next_off (u32 (it_d1 it + 1)) it)))
                                (flow_ok it data BSON_TYPE_BOOL)).
  { intros Hv01. rewrite u32_small by lia. simpl. split; [lia|]. split; [done|]. split; [lia|].
    split; [lia|]. intros _. split; [done|]. by exists v. }
  destruct (Z.eqb_spec v 0); [by apply G; left|].
  destruct (Z.eqb_spec v 1); [by apply G; right|invalid].
Qed.

Lemma case_regex_ok : returns (case_regex it data o len) (flow_ok it data BSON_TYPE_REGEX).
Proof using Hok Hlen Hmax Ho Hnext.
  unfold INT_MAX in *. unfold case_regex, len, o.
  eapply returns_bind; [apply scan_nul_ok; [done|lia|lia]|].
  intros [k|]; [|intros _; invalid]. intros (Hk & Hnul & _). rewrite (u32_small (k + 1)) by lia.
  eapply returns_bind; [apply scan_nul_ok; [done|lia|lia]|].
  intros [k2|]; [|intros _; invalid]. intros (Hk2 & Hnul2 & _). rewrite u32_small by lia. simpl.
  split; [lia|]. split; [done|]. split; [lia|]. split; [lia|]. intros _. split; [lia|]. split; [lia|].
  split; [by replace (k + 1 - 1) with k by lia|by replace (k2 + 1 - 1) with k2 by lia].
Qed.

Lemma case_dbpointer_ok :
  returns (case_dbpointer it data o len) (flow_ok it data BSON_TYPE_DBPOINTER).
Proof using Hok Hlen Hmax Ho.
  unfold INT_MAX in *. unfold case_dbpointer, len, o.
  rewrite (u32_small (_ - 4)) by lia. case_head; [invalid|].
  rewrite (u32_small (_ + 4)) by lia. cbn [it_d1 set_d2].
  read_le l. rewrite (u32_small (_ - _ - 4)) by lia.
  destruct (Z.eqb_spec l 0); [invalid|]. simpl orb. case_head; [invalid|].
  read_byte b. case_head; [|invalid].
  subst b. rewrite !u32_small by lia. simpl.
  split; [lia|]. split; [done|]. split; [lia|]. split; [lia|]. intros _.
  split; [done|]. split; [lia|]. exists l. split; [done|]. split; [lia|]. split; [lia|].
  unfold nul_at. by replace (it_d1 it + 4 + l - 1) with (it_d1 it + l + 3) by lia.
Qed.

Lemma case_codewscope_ok :
  returns (case_codewscope it data o len) (flow_ok it data BSON_TYPE_CODEWSCOPE).
Proof using Hok Hlen Hmax Ho.
  unfold INT_MAX in *. unfold case_codewscope, len, o.
  destruct (Z.ltb_spec (it_len it) 19); [invalid|]. simpl orb.
  rewrite (u32_small (_ - 14)) by lia. case_head; [invalid|].
  rewrite (u32_small (_ + 4)), (u32_small (_ + 8)) by lia. cbn [it_d1 set_d2 set_d3].
  read_le l. rewrite (u32_small (_ - it_d1 it)) by lia.
  destruct (Z.ltb_spec l 14); [invalid|]. simpl orb. case_head; [invalid|].
  rewrite (u32_small (_ + l)) by lia. cbn [it_next_off set_next_off set_d2 set_d3 it_d2].
  case_head; [invalid|]. read_le l2. rewrite (u32_small (_ - _ - 4 - 4)) by lia.
  destruct (Z.eqb_spec l2 0); [invalid|]. simpl orb. case_head; [invalid|].
  rewrite (u32_small (_ + l2 + 4)) by lia. case_head; [invalid|].
  rewrite (u32_small (_ + 4 + l2)) by lia. cbn [it_d4 set_d4].
  read_le dl. case_head; [|invalid]. rename e into Hwrap.
  simpl in Hwrap |- *.
  split; [lia|]. split; [done|]. split; [lia|]. split; [lia|]. intros _.
  split; [done|]. split; [done|]. split; [lia|].
  split; [rewrite El; f_equal; lia|]. exists l2, dl. split; [done|].
  split; [lia|]. split; [lia|]. split; [done|].
  unfold u32 in Hwrap. destruct (decide (it_d1 it + 4 + 4 + l2 + dl < 2 ^ 32)).
  - rewrite Z.mod_small in Hwrap by lia. lia.
  - rewrite <- (Z.mod_add _ (-1)), Z.mod_small in Hwrap by lia. lia.
Qed.
End Cases.

(** ** The step *)

(** Every case of the switch leaves a field that describes the bytes it covers. *)
Lemma fill_data_fields_ok it data t :
  bytes_ok data → it_len it ≤ blen data → it_len it ≤ INT_MAX →
  6 ≤ it_d1 it ≤ it_len it → 0 ≤ it_next_off it ≤ it_len it →
  returns (fill_data_fields it data (it_d1 it) (it_len it) t)
          (λ fu, flow_ok it data t (fst fu)).
Proof.
  intros Hok Hlen Hmax Ho Hnext.
  assert (Hfixed : ∀ n, 0 ≤ n ≤ 16 →
    (∀ it', it_next_off it' = it_d1 it + n → it_d1 it' = it_d1 it → field_ok data it' t) →
    returns (let* f := Ret (Break (it_d1 it) (set_next_off (u32 (it_d1 it + n)) it)) in Ret (f, false))
            (λ fu, flow_ok it data t (fst fu))).
  { intros n Hn Hf. unfold INT_MAX in *. rewrite u32_small by lia. simpl.
    split; [lia|]. split; [done|]. split; [lia|]. split; [lia|]. intros _. by apply Hf. }
  assert (Hcase : ∀ m, returns m (flow_ok it data t) →
    returns (let* f := m in Ret (f, false)) (λ fu : flow * bool, flow_ok it data t (fst fu))).
  { intros m Hm. eapply returns_bind; [exact Hm|]. done. }
  unfold fill_data_fields. destruct t; try done;
    first [ apply Hcase; solve [ apply case_utf8_ok; auto | apply case_binary_ok; auto
                               | apply case_document_ok; auto | apply case_bool_ok; auto
                               | apply case_regex_ok; auto | apply case_dbpointer_ok; auto
                               | apply case_codewscope_ok; auto ]
          | apply Hfixed; [lia|]; intros it' E1 E2; simpl; lia
          | simpl; unfold INT_MAX in *; repeat split; lia ].
Qed.

(** What one step of the iterator guarantees. *)
Definition next_ok (it : bson_iter_t) (n : next_out) : Prop :=
  if n_ok n then
    ∃ data t, it_raw it = Some data ∧ iter_at (n_iter n) data t ∧ n_type n = Some t
      ∧ it_off (n_iter n) = it_next_off it ∧ it_len (n_iter n) = it_len it
      ∧ n_key n = Some (ptr_add data (it_key (n_iter n)))
  else it_raw (n_iter n) = None
       ∧ (0 ≤ it_err_off it ≤ it_len it → 0 ≤ it_err_off (n_iter n) ≤ it_len it).

Lemma next_internal_ok it :
  iter_ok it → returns (_bson_iter_next_internal it 0) (next_ok it).
Proof.
  unfold iter_ok, _bson_iter_next_internal. destruct (it_raw it) as [data|] eqn:Eraw; [|done].
  intros (Hok & Hlen & Hmax & Hnext). unfold find_key_end. cbn [Z.eqb].
  cbn [begin_field it_key]. rewrite (u32_small (it_next_off it + 1)) by (unfold INT_MAX in *; lia).
  pose proof (scan_nul_ok data (it_next_off it + 1) (it_len it) Hok ltac:(lia) ltac:(lia)) as Hscan.
  destruct (scan_nul _ _ _) as [[k|]|]; [|done|done]. destruct Hscan as (Hk & Hnul & Hchars).
  cbn [bind option_map]. rewrite (u32_small (k + 1)) by (unfold INT_MAX in *; lia).
  set (it1 := set_d1 (k + 1) (begin_field it)).
  assert (Hraw1 : it_raw it1 = Some data) by (unfold it1, begin_field; simpl; by rewrite Eraw).
  unfold bson_iter_key_unsafe, ITER_TYPE. rewrite Hraw1. cbn [deref bind].
  assert (Etype : it_type it1 = it_next_off it) by done. rewrite Etype.
  read_byte b.
  pose proof (fill_data_fields_ok it1 data (bson_type_of_byte b) Hok) as Hfill.
  cbn [it1 set_d1 begin_field it_len it_d1] in Hfill.
  specialize (Hfill ltac:(lia) Hmax ltac:(lia) ltac:(cbn; lia)).
  eapply returns_bind; [exact Hfill|]. intros [[o2 it2|it2] uns]; cbn [fst flow_ok]; [|by intros Herr].
  intros (Hbreak & Hsame & Hd1 & Hwide & Hfield). case_head; [by split; [|intros _]|].
  destruct Hsame as (Sraw & Slen & Soff & Stype & Skey & Sd1).
  assert (Ekey : it_key it1 = it_next_off it + 1).
  { unfold it1, begin_field; cbn [it_key set_d1]. rewrite u32_small; [done|]. unfold INT_MAX in *; lia. }
  cbn [returns]. unfold next_ok; cbn [n_ok n_iter n_type n_key].
  exists data, (bson_type_of_byte b). split; [done|]. split; [|split; [done|]].
  - constructor; cbn [set_err_off it_raw it_len it_off it_type it_key it_d1 it_next_off it_err_off];
      rewrite ?Sraw, ?Slen, ?Soff, ?Stype, ?Skey, ?Sd1, ?Ekey;
      cbn [it1 set_d1 begin_field it_raw it_len it_off it_type it_d1]; try done; try lia.
    + by replace (k + 1 - 1) with k by lia.
    + intros i Hi. apply Hchars. lia.
    + by exists b.
    + apply Hfield. cbn. lia.
  - cbn [set_err_off it_off it_len it_key]. rewrite Soff, Slen, Skey, Ekey. done.
Qed.

Lemma bson_iter_next_ok it :
  iter_ok it →
  returns (bson_iter_next it) (λ n,
    if fst n then ∃ data t, it_raw it = Some data ∧ iter_at (snd n) data t
                            ∧ it_off (snd n) = it_next_off it ∧ it_len (snd n) = it_len it
    else it_raw (snd n) = None).
Proof.
  intros H. unfold bson_iter_next. eapply returns_bind; [by apply next_internal_ok|].
  intros n Hn. unfold next_ok in Hn. simpl. destruct (n_ok n); [|by destruct Hn].
  destruct Hn as (data & t & ? & ? & ? & ? & ? & ?). eauto 10.
Qed.

(** ** The initialisers *)
Definition bson_ok (b : bson_t) : Prop := bytes_ok b ∧ blen b ≤ INT_MAX.

Lemma iter_start_ok data len :
  bytes_ok data → 0 ≤ len ≤ blen data → len ≤ INT_MAX → iter_ok (iter_start data len).
Proof. intros. simpl. unfold iter_ok, INT_MAX in *. simpl. repeat split; try done; lia. Qed.

Lemma bson_iter_init_ok b : bson_ok b → iter_ok (snd (bson_iter_init b)).
Proof.
  intros [Hb Hl]. unfold bson_iter_init. case_if; simpl; [done|].
  pose proof (blen_nonneg b). apply iter_start_ok; auto; lia.
Qed.

Lemma bson_iter_init_from_data_ok data len :
  bytes_ok data → len ≤ blen data →
  returns (bson_iter_init_from_data data len) (λ r, iter_ok (snd r)).
Proof.
  intros Hd Hl. unfold bson_iter_init_from_data.
  destruct (Z.ltb_spec len 5); [done|]. destruct (Z.ltb_spec INT_MAX len); [done|].
  cbn [orb]. read_le n. case_head; [|done].
  read_byte b. case_head; [|done]. simpl. apply iter_start_ok; auto; lia.
Qed.

Lemma rd_bytes_prefix n l : (n ≤ length l)%nat → rd_bytes n l 0 = Ret (take n l).
Proof.
  intros H.
  enough (G : ∀ k, (k + n ≤ length l)%nat → rd_bytes n l (Z.of_nat k) = Ret (take n (drop k l))).
  { apply (G O). lia. }
  clear H. induction n as [|n IH]; intros k H; [done|].
  change (rd_bytes (S n) l (Z.of_nat k)) with
    (bind (rd l (Z.of_nat k)) (λ b, bind (rd_bytes n l (Z.of_nat k + 1)) (λ r, Ret (b :: r)))).
  destruct (rd_in l (Z.of_nat k)) as (b & -> & Hb); [unfold blen; lia|].
  rewrite Nat2Z.id in Hb. cbn [bind].
  replace (Z.of_nat k + 1) with (Z.of_nat (S k)) by lia. rewrite IH by lia. cbn [bind].
  by rewrite (drop_S l b k Hb).
Qed.

Lemma bson_init_static_ok data len :
  bytes_ok data → len ≤ blen data →
  returns (bson_init_static data len) (λ r,
    match r with
    | Some b => bson_ok b ∧ b = take (Z.to_nat len) data ∧ blen b = len ∧ 5 ≤ len
                ∧ rd_le 4 data 0 = Ret len ∧ nul_at data (len - 1)
    | None => len < 5 ∨ INT_MAX < len ∨ rd_le 4 data 0 ≠ Ret len ∨ ¬ nul_at data (len - 1)
    end).
Proof.
  intros Hd Hl. unfold bson_init_static.
  destruct (Z.ltb_spec len 5); [simpl; lia|].
  destruct (Z.ltb_spec INT_MAX len); [simpl; lia|]. cbn [orb].
  read_le n. case_head; [|simpl; right; right; left; congruence]. subst n.
  read_byte b. case_head; [|simpl; right; right; right; unfold nul_at; congruence]. subst b.
  unfold blen in Hl. rewrite rd_bytes_prefix by lia. simpl.
  assert (blen (take (Z.to_nat len) data) = len).
  { unfold blen. rewrite length_take. lia. }
  split; [split; [by apply Forall_take|lia]|]. done.
Qed.

(** ** Getters on a positioned iterator *)
Section Getters.
Variables (it : bson_iter_t) (data : list Z) (t : bson_type_t).
Hypothesis Hat : iter_at it data t.

Lemma ITER_TYPE_at : ITER_TYPE it = Ret t.
Proof using Hat.
  destruct Hat. unfold ITER_TYPE. rewrite at_raw0. destruct at_type0 as (b & Hb & <-).
  cbn [deref bind]. by rewrite Hb.
Qed.

Lemma if_type_at {A} ty (a b : res A) :
  if_type it ty a b = if decide (t = ty) then a else b.
Proof using Hat. unfold if_type. by rewrite ITER_TYPE_at. Qed.

Lemma field_ptr_at d : field_ptr it d = Ret (ptr_add data d).
Proof using Hat. destruct Hat. unfold field_ptr. by rewrite at_raw0. Qed.

Lemma field_le_at n d : field_le it n d = rd_le n data d.
Proof using Hat. destruct Hat. unfold field_le. by rewrite at_raw0. Qed.

(** the bounds every field satisfies, in one place for [lia] *)
Lemma at_bounds :
  bytes_ok data ∧ 4 ≤ it_off it < it_d1 it ∧ it_key it = it_off it + 1 ∧ it_key it < it_d1 it
  ∧ it_d1 it ≤ it_next_off it < it_len it ∧ it_len it ≤ blen data ∧ it_len it ≤ INT_MAX.
Proof using Hat. destruct Hat. split; [done|]. lia. Qed.
Lemma bson_iter_type_at : bson_iter_type it = Ret t.
Proof using Hat.
  unfold bson_iter_type. rewrite (at_raw _ _ _ Hat). pose proof at_bounds.
  destruct (Z.eqb_spec (it_len it) 0); [lia|]. cbn [bson_assert bind negb]. apply ITER_TYPE_at.
Qed.

Lemma c_string_at o k :
  0 ≤ o ≤ k → nul_at data k → (∀ i, o ≤ i < k → ¬ nul_at data i) →
  ∃ s, c_string (ptr_add data o) = Ret s ∧ blen s = k - o ∧ bytes_ok s.
Proof using Hat.
  intros Ho Hk Hne. destruct at_bounds as (Hok & _).
  apply rd_Ret in Hk as [Hkr Hkl].
  pose proof (c_string_ok (ptr_add data o) (Z.to_nat (k - o))) as Hs.
  specialize (Hs ltac:(unfold ptr_add; rewrite lookup_drop;
    replace (Z.to_nat o + Z.to_nat (k - o))%nat with (Z.to_nat k) by lia; done)
    (bytes_ok_ptr_add _ _ Hok)).
  apply returns_Ret in Hs as (s & -> & Hlen & Hs & Hnz & Hend). exists s. split; [done|].
  split; [|done]. unfold blen.
  destruct (decide (Z.of_nat (length s) = k - o)) as [|Hdiff]; [done|]. exfalso.
  apply (Hne (o + Z.of_nat (length s))); [lia|].
  unfold nul_at, rd. case_if; [lia|]. unfold ptr_add in Hend. rewrite lookup_drop in Hend.
  replace (Z.to_nat (o + Z.of_nat (length s))) with (Z.to_nat o + length s)%nat by lia.
  by rewrite Hend.
Qed.

Lemma bson_iter_key_at :
  bson_iter_key it = Ret (ptr_add data (it_key it))
  ∧ ∃ s, c_string (ptr_add data (it_key it)) = Ret s
         ∧ blen s = it_d1 it - it_key it - 1 ∧ bytes_ok s.
Proof using Hat.
  pose proof at_bounds. split.
  - destruct Hat. unfold bson_iter_key, bson_iter_key_unsafe. by rewrite at_raw0.
  - replace (it_d1 it - it_key it - 1) with (it_d1 it - 1 - it_key it) by lia.
    apply c_string_at; [lia| |]; destruct Hat; done.
Qed.

(** The length prefix of a string field, and the slice it delimits. *)
Lemma utf8_len_at :
  t = BSON_TYPE_CODE ∨ t = BSON_TYPE_SYMBOL ∨ t = BSON_TYPE_UTF8 →
  ∃ n, bson_iter_utf8_len_unsafe it = Ret n ∧ 0 ≤ n ∧ it_d2 it = it_d1 it + 4
       ∧ it_next_off it = it_d2 it + n + 1 ∧ nul_at data (it_d2 it + n).
Proof using Hat.
  intros Ht. pose proof at_bounds as Hb.
  assert (Hf : field_ok data it BSON_TYPE_UTF8).
  { destruct Hat as [? ? ? ? ? ? ? ? ? ? ? ? ? Hf ?]. by destruct Ht as [->|[->| ->]]. }
  destruct Hf as (Hd2 & l & Hl & Hl1 & Hnext & Hnul). exists (l - 1).
  unfold INT_MAX in *. split.
  - unfold bson_iter_utf8_len_unsafe. destruct Hat. rewrite at_raw0. cbn [deref bind].
    rewrite Hl. cbn [bind]. f_equal. unfold s32. rewrite (u32_small l) by lia.
    destruct (Z.ltb_spec l (2 ^ 31)); [|lia]. rewrite Z.max_r, u32_small by lia. done.
  - split; [lia|]. split; [done|]. split; [lia|].
    by replace (it_d2 it + (l - 1)) with (it_d2 it + l - 1) by lia.
Qed.

(** A pointer and a length returned by a getter delimit readable bytes. *)
Definition slice_ok (p : option (list Z)) (n : Z) : Prop :=
  match p with Some q => bytes_ok q ∧ 0 ≤ n ≤ blen q | None => n = 0 end.

Lemma slice_at o n : 0 ≤ o → 0 ≤ n → o + n ≤ blen data → slice_ok (Some (ptr_add data o)) n.
Proof using Hat.
  intros. destruct at_bounds as (Hok & _). split; [by apply bytes_ok_ptr_add|].
  rewrite blen_drop by lia. lia.
Qed.

Lemma string_field_at ty w :
  ty = BSON_TYPE_CODE ∨ ty = BSON_TYPE_SYMBOL ∨ ty = BSON_TYPE_UTF8 →
  returns (string_field it ty w) (λ r,
    if decide (t = ty) then
      ∃ n, r = (Some (ptr_add data (it_d1 it + 4)), if w then n else 0) ∧ 0 ≤ n
           ∧ it_next_off it = it_d1 it + 4 + n + 1
           ∧ nul_at data (it_d1 it + 4 + n)
    else r = (None, 0)).
Proof using Hat.
  intros Hty. unfold string_field. rewrite if_type_at. case_decide as Ht; [|done].
  subst ty. destruct (utf8_len_at Hty) as (n & Hn & Hn0 & Hd2 & Hnext & Hnul).
  rewrite field_ptr_at, Hn, Hd2. destruct w; simpl; exists n; repeat split; try done; try lia;
    by rewrite <- Hd2.
Qed.

Lemma string_slice_at ty w :
  ty = BSON_TYPE_CODE ∨ ty = BSON_TYPE_SYMBOL ∨ ty = BSON_TYPE_UTF8 →
  returns (string_field it ty w) (λ r, slice_ok (fst r) (snd r)
    ∧ match fst r with Some p => returns (c_string p) bytes_ok | None => True end).
Proof using Hat.
  intros Hty. pose proof at_bounds as Hb.
  eapply returns_mono; [by apply string_field_at|]. intros r. case_decide.
  - intros (n & -> & Hn & Hnext & Hnul). simpl fst; simpl snd. split.
    + destruct w; apply slice_at; lia.
    + assert (Hr : ptr_add data (it_d1 it + 4) !! Z.to_nat n = Some 0).
      { apply rd_Ret in Hnul as [_ Hl]. unfold ptr_add. rewrite lookup_drop.
        by replace (Z.to_nat (it_d1 it + 4) + Z.to_nat n)%nat
          with (Z.to_nat (it_d1 it + 4 + n)) by lia. }
      eapply returns_mono; [eapply c_string_ok; [exact Hr|]|].
      * apply bytes_ok_ptr_add. apply Hb.
      * by intros s (_ & ? & _).
  - intros ->. done.
Qed.

Lemma fixed_le_at n (k : nat) :
  field_ok data it t → (it_next_off it = it_d1 it + n) → 0 ≤ n → Z.of_nat k ≤ n →
  ∃ x, rd_le k data (it_d1 it) = Ret x ∧ 0 ≤ x < 256 ^ Z.of_nat k.
Proof using Hat. intros _ Hn H1 H2. pose proof at_bounds. apply rd_le_ex; [apply H|lia|lia]. Qed.
End Getters.

(** Reads a fixed-width field in the goal: the layout gives the width. *)
Ltac read_fixed Hat :=
  let Hb := fresh "Hb" in let Hf := fresh "Hf" in
  pose proof (at_bounds _ _ _ Hat) as Hb; pose proof (at_field _ _ _ Hat) as Hf; simpl in Hf;
  unfold INT_MAX in Hb; destruct Hb as (? & Hb);
  rewrite ?(field_le_at _ _ _ Hat), ?(field_ptr_at _ _ _ Hat);
  repeat match goal with
  | |- context [rd_le ?n ?d ?o] =>
      let x := fresh "x" in let E := fresh "E" in let H := fresh "H" in
      destruct (rd_le_ex n d o) as (x & E & H); [done|lia|lia|]; rewrite E; cbn [bind]
  end.

Lemma bson_iter_int64_at it data t :
  iter_at it data t → returns (bson_iter_int64 it) in_s64.
Proof.
  intros Hat. unfold bson_iter_int64. rewrite (if_type_at _ _ _ Hat). case_decide; [|done].
  subst. unfold bson_iter_int64_unsafe. read_fixed Hat. apply s64_range.
Qed.
Lemma bson_iter_int32_at it data t :
  iter_at it data t → returns (bson_iter_int32 it) in_s32.
Proof.
  intros Hat. unfold bson_iter_int32. rewrite (if_type_at _ _ _ Hat). case_decide; [|done].
  subst. unfold bson_iter_int32_unsafe. read_fixed Hat. apply s32_range.
Qed.
Lemma bson_iter_double_at it data t :
  iter_at it data t → returns (bson_iter_double it) (λ d, 0 ≤ d < 2 ^ 64).
Proof.
  intros Hat. unfold bson_iter_double. rewrite (if_type_at _ _ _ Hat). case_decide; [|done].
  subst. unfold bson_iter_double_unsafe. read_fixed Hat. done.
Qed.
Lemma bson_iter_bool_at it data t :
  iter_at it data t → returns (bson_iter_bool it) (λ _, True).
Proof.
  intros Hat. unfold bson_iter_bool. rewrite (if_type_at _ _ _ Hat). case_decide; [|done].
  subst. unfold bson_iter_bool_unsafe. read_fixed Hat. done.
Qed.
Lemma bson_iter_date_time_at it data t :
  iter_at it data t → returns (bson_iter_date_time it) in_s64.
Proof.
  intros Hat. unfold bson_iter_date_time. rewrite (if_type_at _ _ _ Hat). case_decide; [|done].
  subst. unfold bson_iter_int64_unsafe. read_fixed Hat. apply s64_range.
Qed.
Lemma bson_iter_time_t_at it data t :
  iter_at it data t → returns (bson_iter_time_t it) in_s64.
Proof.
  intros Hat. unfold bson_iter_time_t. rewrite (if_type_at _ _ _ Hat). case_decide; [|done].
  subst. unfold bson_iter_time_t_unsafe, bson_iter_int64_unsafe. read_fixed Hat. apply s64_range.
Qed.
Lemma bson_iter_timeval_at it data t :
  iter_at it data t → returns (bson_iter_timeval it) (λ _, True).
Proof.
  intros Hat. unfold bson_iter_timeval. rewrite (if_type_at _ _ _ Hat). case_decide; [|done].
  subst. unfold bson_iter_timeval_unsafe, bson_iter_int64_unsafe. read_fixed Hat. done.
Qed.
Lemma bson_iter_timestamp_at it data t :
  iter_at it data t → returns (bson_iter_timestamp it) (λ p, in_u32 (fst p) ∧ in_u32 (snd p)).
Proof.
  intros Hat. unfold bson_iter_timestamp. rewrite (if_type_at _ _ _ Hat). case_decide; [|done].
  subst. read_fixed Hat. simpl. unfold in_u32.
  change 4294967295 with (Z.ones 32). rewrite !Z.land_ones by lia.
  split; apply Z.mod_pos_bound; lia.
Qed.
Lemma bson_iter_decimal128_at it data t :
  iter_at it data t → returns (bson_iter_decimal128 it) (λ _, True).
Proof.
  intros Hat. unfold bson_iter_decimal128. rewrite (if_type_at _ _ _ Hat). case_decide; [|done].
  subst. unfold bson_iter_decimal128_unsafe. read_fixed Hat. done.
Qed.
Lemma bson_iter_oid_at it data t :
  iter_at it data t → returns (bson_iter_oid it) (λ p, slice_ok p (if p then 12 else 0)).
Proof.
  intros Hat. unfold bson_iter_oid. rewrite (if_type_at _ _ _ Hat). case_decide; [|done].
  subst. unfold bson_iter_oid_unsafe. read_fixed Hat. apply (slice_at _ _ _ Hat); lia.
Qed.
Lemma bson_iter_as_bool_at it data t :
  iter_at it data t → returns (bson_iter_as_bool it) (λ _, True).
Proof.
  intros Hat. unfold bson_iter_as_bool. rewrite (ITER_TYPE_at _ _ _ Hat). cbn [bind].
  destruct t; try done.
  - eapply returns_bind; [by eapply bson_iter_double_at|done].
  - by eapply bson_iter_bool_at.
  - eapply returns_bind; [by eapply bson_iter_int32_at|done].
  - eapply returns_bind; [by eapply bson_iter_int64_at|done].
Qed.
Lemma bson_iter_as_int64_at it data t :
  iter_at it data t → outcome (λ f, f = BadConversion) (bson_iter_as_int64 it) in_s64.
Proof.
  intros Hat. unfold bson_iter_as_int64. rewrite (ITER_TYPE_at _ _ _ Hat). cbn [bind].
  assert (H0 : in_s64 0) by (unfold in_s64; lia). destruct t; try done.
  - eapply outcome_bind; [by eapply returns_outcome, bson_iter_double_at|].
    intros d _ _. unfold outcome. destruct (int64_of_double _) eqn:E.
    + by eapply int64_of_double_range.
    + by eapply int64_of_double_fault.
  - eapply outcome_bind; [by eapply returns_outcome, bson_iter_bool_at|].
    intros [] _ _; simpl; unfold in_s64; lia.
  - eapply outcome_mono; [eapply (returns_outcome (λ _, False)), (bson_iter_int32_at _ _ _ Hat)| |].
    + done.
    + unfold in_s32, in_s64. lia.
  - by eapply returns_outcome, bson_iter_int64_at.
Qed.

Lemma nul_at_lookup data o i :
  0 ≤ o ≤ i → nul_at data i → ptr_add data o !! Z.to_nat (i - o) = Some 0.
Proof.
  intros Ho H. apply rd_Ret in H as [_ H]. unfold ptr_add. rewrite lookup_drop.
  by replace (Z.to_nat o + Z.to_nat (i - o))%nat with (Z.to_nat i) by lia.
Qed.
Lemma c_string_nul data o i :
  bytes_ok data → 0 ≤ o ≤ i → nul_at data i → returns (c_string (ptr_add data o)) bytes_ok.
Proof.
  intros Hok Ho H. eapply returns_mono; [eapply c_string_ok|].
  - by eapply nul_at_lookup.
  - by apply bytes_ok_ptr_add.
  - by intros s (_ & ? & _).
Qed.

Lemma bson_iter_binary_at it data t :
  iter_at it data t → returns (bson_iter_binary it) (λ r, slice_ok (snd r) (snd (fst r))).
Proof.
  intros Hat. unfold bson_iter_binary. rewrite (if_type_at _ _ _ Hat). case_decide; [|done].
  subst. pose proof (at_bounds _ _ _ Hat) as Hb. pose proof (at_field _ _ _ Hat) as Hf.
  destruct Hf as (Hd2 & Hd3 & l & st & Hl & Hl0 & Hst & Hnext & Hdep).
  rewrite !(field_le_at _ _ _ Hat), (field_ptr_at _ _ _ Hat). destruct Hb as (Hok & Hb).
  assert (E : rd_le 1 data (it_d2 it) = Ret st).
  { unfold rd_le. rewrite Hst. cbn [bind]. f_equal. lia. }
  rewrite E, Hl. cbn [bind]. unfold BSON_SUBTYPE_BINARY_DEPRECATED in *.
  destruct (rd_le_ex 4 data (it_d1 it) Hok ltac:(lia) ltac:(lia)) as (l' & El' & Hl'). assert (l' = l) as -> by congruence.
  change (256 ^ Z.of_nat 4) with (2 ^ 32) in Hl'.
  case_head; cbn [returns fst snd].
  - destruct (Hdep e) as [_ ?]. rewrite u32_small by lia.
    rewrite ptr_add_ptr_add by lia. apply (slice_at _ _ _ Hat); lia.
  - apply (slice_at _ _ _ Hat); lia.
Qed.

Lemma bson_iter_regex_at it data t :
  iter_at it data t → returns (bson_iter_regex it) (λ r,
    match r with
    | (Some p, Some o) => returns (c_string p) bytes_ok ∧ returns (c_string o) bytes_ok
    | (None, None) => True
    | _ => False
    end).
Proof.
  intros Hat. unfold bson_iter_regex. rewrite (if_type_at _ _ _ Hat). case_decide; [|done].
  subst. pose proof (at_bounds _ _ _ Hat) as Hb. pose proof (at_field _ _ _ Hat) as Hf.
  destruct Hf as (H1 & H2 & Hn1 & Hn2). rewrite !(field_ptr_at _ _ _ Hat). simpl.
  destruct Hb as (Hok & Hb). split; (eapply c_string_nul; [done| |eassumption]; lia).
Qed.

Lemma bson_iter_codewscope_at it data t :
  iter_at it data t → returns (bson_iter_codewscope it) (λ r,
    let '(code, n, scope_len, scope) := r in slice_ok code n ∧ slice_ok scope scope_len).
Proof.
  intros Hat. unfold bson_iter_codewscope. rewrite (if_type_at _ _ _ Hat). case_decide; [|done].
  subst. pose proof (at_bounds _ _ _ Hat) as Hb. pose proof (at_field _ _ _ Hat) as Hf.
  destruct Hf as (Hd2 & Hd3 & Hd4 & _ & l & sc & Hl & Hl1 & Hd4' & Hsc & Hend).
  rewrite !(field_le_at _ _ _ Hat), Hl. cbn [bind]. rewrite Hsc.
  unfold bson_assert. destruct (Z.gtb_spec l 0); [|lia]. cbn [bind].
  rewrite !(field_ptr_at _ _ _ Hat). cbn [bind returns].
  split; apply (slice_at _ _ _ Hat); lia.
Qed.

Lemma bson_iter_dbpointer_at it data t :
  iter_at it data t → returns (bson_iter_dbpointer it) (λ r,
    match r with
    | (Some n, c, o) => slice_ok c n ∧ slice_ok o 12
    | (None, c, o) => c = None ∧ o = None
    end).
Proof.
  intros Hat. unfold bson_iter_dbpointer. rewrite (if_type_at _ _ _ Hat). case_decide; [|done].
  subst. pose proof (at_bounds _ _ _ Hat) as Hb. pose proof (at_field _ _ _ Hat) as Hf.
  destruct Hf as (Hd2 & Hnext & l & Hl & Hl1 & Hd3 & _).
  rewrite !(field_le_at _ _ _ Hat), Hl, !(field_ptr_at _ _ _ Hat). cbn [bind returns].
  destruct (Z.gtb_spec l 0); [|lia]. split; apply (slice_at _ _ _ Hat); lia.
Qed.

(** The bytes of a sub-document: the slice starts at [d1] and its first four
    bytes are the length returned. *)
Lemma subdoc_at it data t ty :
  iter_at it data t → ty = BSON_TYPE_ARRAY ∨ ty = BSON_TYPE_DOCUMENT →
  returns (if_type it ty
             (let* n := field_le it 4 (it_d1 it) in
              let* p := field_ptr it (it_d1 it) in Ret (n, Some p))
             (Ret (0, None)))
    (λ r, if decide (t = ty) then
            ∃ n, r = (n, Some (ptr_add data (it_d1 it))) ∧ 0 ≤ n ∧ it_d1 it + n = it_next_off it
                 ∧ rd_le 4 data (it_d1 it) = Ret n
          else r = (0, None)).
Proof.
  intros Hat Hty. rewrite (if_type_at _ _ _ Hat). case_decide; [|done]. subst ty.
  pose proof (at_field _ _ _ Hat) as Hf.
  assert (Hf' : field_ok data it BSON_TYPE_DOCUMENT) by (by destruct Hty as [->| ->]).
  destruct Hf' as (_ & l & Hl & Hl0 & Hnext).
  rewrite (field_le_at _ _ _ Hat), (field_ptr_at _ _ _ Hat), Hl. simpl. exists l. auto.
Qed.

Lemma subdoc_slice_at it data t r :
  iter_at it data t →
  (∃ n, r = (n, Some (ptr_add data (it_d1 it))) ∧ 0 ≤ n ∧ it_d1 it + n = it_next_off it
        ∧ rd_le 4 data (it_d1 it) = Ret n) ∨ r = (0, None) →
  slice_ok (snd r) (fst r) ∧ fst r ≤ INT_MAX.
Proof.
  intros Hat. pose proof (at_bounds _ _ _ Hat) as Hb. unfold INT_MAX in *.
  intros [(n & -> & Hn & Hend & _)| ->]; simpl fst; simpl snd; [|split; [done|lia]].
  split; [|lia]. apply (slice_at _ _ _ Hat); lia.
Qed.

Lemma bson_iter_document_at it data t :
  iter_at it data t → returns (bson_iter_document it) (λ r, slice_ok (snd r) (fst r) ∧ fst r ≤ INT_MAX).
Proof.
  intros Hat. eapply returns_mono; [eapply subdoc_at; [exact Hat|auto]|].
  intros r Hr. eapply subdoc_slice_at; [exact Hat|]. case_decide; auto.
Qed.
Lemma bson_iter_array_at it data t :
  iter_at it data t → returns (bson_iter_array it) (λ r, slice_ok (snd r) (fst r) ∧ fst r ≤ INT_MAX).
Proof.
  intros Hat. eapply returns_mono; [eapply subdoc_at; [exact Hat|auto]|].
  intros r Hr. eapply subdoc_slice_at; [exact Hat|]. case_decide; auto.
Qed.

(** Recursion hands out a well-formed child. *)
Lemma bson_iter_recurse_at it data t :
  iter_at it data t → returns (bson_iter_recurse it) (λ r,
    match r with
    | Some child => (t = BSON_TYPE_DOCUMENT ∨ t = BSON_TYPE_ARRAY) ∧ iter_ok child
    | None => t ≠ BSON_TYPE_DOCUMENT ∧ t ≠ BSON_TYPE_ARRAY
    end).
Proof.
  intros Hat. unfold bson_iter_recurse. rewrite (ITER_TYPE_at _ _ _ Hat). cbn [bind].
  assert (Hchild : ∀ r, slice_ok (snd r) (fst r) ∧ fst r ≤ INT_MAX →
    iter_ok (Iter (snd r) (fst r) 0 0 0 0 0 0 0 4 0)).
  { intros [n [q|]] [Hs Hm]; [|done]. destruct Hs as (? & ?). unfold iter_ok. simpl in *.
    unfold INT_MAX in *. repeat split; try done; lia. }
  destruct t; try done.
  - eapply returns_bind; [by eapply bson_iter_document_at|]. intros [n p] Hr.
    simpl. split; [auto|]. by apply (Hchild (n, p)).
  - eapply returns_bind; [by eapply bson_iter_array_at|]. intros [n p] Hr.
    simpl. split; [auto|]. by apply (Hchild (n, p)).
Qed.

(** ** Loops *)
Section LoopFacts.
Context {S : Type} (body : bson_iter_t → S → res (bool * S)).
Variable F : fault → Prop.
Variable I : S → Prop.

(** A loop over the fields terminates, stays in bounds, and keeps the
    invariant of its body; its only faults are those of the body. *)
Lemma iter_while_ok fuel it s :
  (∀ it' data t s, it_raw it = Some data → it_len it' = it_len it → iter_at it' data t → I s →
     outcome F (body it' s) (λ r, I (snd r))) →
  iter_ok it → I s → Z.of_nat fuel > (if it_raw it then Z.max 0 (it_len it - it_next_off it) else 0) →
  outcome F (iter_while body fuel it s) (λ r, I (snd r) ∧ iter_ok (fst r)).
Proof.
  revert it s. induction fuel as [|fuel IH]; intros it s Hbody Hit Hs Hfuel;
    [destruct (it_raw it); lia|].
  simpl. pose proof (bson_iter_next_ok it Hit) as Hn.
  destruct (bson_iter_next it) as [[ok it']|]; [|done]. cbn [bind]. simpl in Hn.
  destruct ok.
  - destruct Hn as (data & t & Hraw & Hat & Hoff & Hlen).
    eapply outcome_bind; [by eapply Hbody|]. intros [c s'] _ Hs'. cbn in Hs'.
    pose proof (at_bounds _ _ _ Hat). rewrite Hraw in Hfuel.
    destruct c; [|simpl; split; [done|by eapply iter_at_ok]].
    apply IH; [|by eapply iter_at_ok|done|destruct (it_raw it'); lia].
    intros it2 data2 t2 s2 H1 H2. rewrite (at_raw _ _ _ Hat) in H1. injection H1 as <-.
    apply Hbody; [done|]. congruence.
  - simpl. split; [done|]. unfold iter_ok. by rewrite Hn.
Qed.

Lemma for_each_field_ok it s :
  iter_ok it → I s →
  (∀ it' data t s, it_raw it = Some data → it_len it' = it_len it → iter_at it' data t → I s →
     outcome F (body it' s) (λ r, I (snd r))) →
  outcome F (for_each_field body it s) (λ r, I (snd r) ∧ iter_ok (fst r)).
Proof.
  intros Hit Hs Hbody. apply iter_while_ok; [done|done|done|].
  unfold iter_fuel. unfold iter_ok in Hit. destruct (it_raw it) as [d|]; [|lia].
  destruct Hit as (_ & ? & _ & ?). lia.
Qed.
End LoopFacts.
