(* ===== verification/BsonFields.v ===== *)
(** The fields of a document as a list: what the loops over an iterator compute.

    [fields_of] collects the positions of the iterator; the searches and the
    key count of the code are then the list functions [find] and [length] over
    it, and the in-place updates change the value of one field only. *)
From S2P Require Import Prelude CDouble BsonIter BsonIterSafe.
From Stdlib Require Import ZArith Lia List.
From stdpp Require Import prelude strings.
#[local] Open Scope Z_scope.
#[local] Open Scope mongo_scope.

(** Reference: every position the iterator takes, and the exhausted iterator. *)
Definition collect (it : bson_iter_t) (l : list bson_iter_t) : res (bool * list bson_iter_t) :=
  Ret (true, l ++ [it]).
Definition fields_of (it : bson_iter_t) : res (bson_iter_t * list bson_iter_t) :=
  for_each_field collect it [].

(** the key of the current field *)
Definition field_key (it : bson_iter_t) : res (list Z) :=
  let* p := bson_iter_key it in c_string p.
Definition has_key (key : list Z) (it : bson_iter_t) : bool := bool_decide (field_key it = Ret key).

Definition positioned (it : bson_iter_t) : Prop := ∃ data t, iter_at it data t.

(** the collecting loop only appends *)
Lemma collect_grows fuel it acc last r :
  iter_while collect fuel it acc = Ret (last, r) → ∃ l, r = acc ++ l.
Proof.
  revert it acc. induction fuel as [|fuel IH]; intros it acc H; [done|]. simpl in H.
  destruct (bson_iter_next it) as [[[] it1]|]; [| |done]; cbn [bind collect] in H.
  - destruct (IH _ _ H) as [l ->]. exists (it1 :: l). by rewrite <- app_assoc.
  - injection H as <- <-. exists []. by rewrite app_nil_r.
Qed.
Lemma collect_step fuel it it' acc last l :
  iter_while collect fuel it' (acc ++ [it]) = Ret (last, acc ++ l) → ∃ l', l = it :: l'.
Proof.
  intros H. destruct (collect_grows _ _ _ _ _ H) as [l' Hl]. rewrite <- app_assoc in Hl.
  apply app_inv_head in Hl. by exists l'.
Qed.

(** ** Loops as list functions *)
Section Loops.
Context {S : Type} (body : bson_iter_t → S → res (bool * S)).

(** what a loop computes over the fields still ahead *)
Fixpoint fold_fields (l : list bson_iter_t) (last : bson_iter_t) (s : S) : res (bson_iter_t * S) :=
  match l with
  | [] => Ret (last, s)
  | f :: l' =>
      let* r := body f s in
      let '(continue, s) := r in
      if continue : bool then fold_fields l' last s else Ret (f, s)
  end.

Lemma iter_while_fold fuel it acc last l :
  iter_while collect fuel it acc = Ret (last, acc ++ l) →
  ∀ s, iter_while body fuel it s = fold_fields l last s.
Proof.
  revert it acc l. induction fuel as [|fuel IH]; intros it acc l H s; [done|].
  simpl in *. destruct (bson_iter_next it) as [[ok it']|]; [|done]. cbn [bind] in *.
  destruct ok.
  - cbn [collect bind] in H.
    destruct (collect_step _ _ _ _ _ _ H) as [l' ->].
    simpl. destruct (body it' s) as [[[] s']|]; cbn [bind]; [|done|done].
    apply (IH _ (acc ++ [it'])). by rewrite <- app_assoc.
  - injection H as -> H. rewrite <- (app_nil_r acc) in H at 1. apply app_inv_head in H. by subst.
Qed.
End Loops.

(** The iterator's fields always form a list, of positioned iterators. *)
Lemma fields_of_ok it :
  iter_ok it → ∃ last l, fields_of it = Ret (last, l) ∧ Forall positioned l ∧ iter_ok last
    ∧ (length l < iter_fuel it)%nat.
Proof.
  intros Hit.
  pose proof (for_each_field_ok collect (λ _, False) (λ l, Forall positioned l) it [] Hit
    ltac:(constructor)) as H.
  destruct (for_each_field collect it []) as [[last l]|] eqn:E.
  - exists last, l. split; [done|]. simpl in H. destruct H as [Hl Hlast].
    { intros it' data t s _ _ Hat Hs. simpl. apply Forall_app. split; [done|].
      constructor; [by exists data, t|constructor]. }
    split; [done|]. split; [done|]. revert E. unfold for_each_field.
    enough (∀ fuel it acc last r, iter_while collect fuel it acc = Ret (last, r) →
      (length r < length acc + fuel)%nat) as Hlen.
    { intros Hc. apply Hlen in Hc. simpl in Hc. exact Hc. }
    clear. induction fuel as [|fuel IH]; intros it acc last r H; [done|]. simpl in H.
    destruct (bson_iter_next it) as [[[] it1]|]; [| |done]; cbn [bind collect] in H.
    + apply IH in H. rewrite length_app in H. simpl in H. lia.
    + injection H as <- <-. lia.
  - exfalso. apply H. intros it' data t s _ _ Hat Hs. simpl. apply Forall_app. split; [done|].
    constructor; [by exists data, t|constructor].
Qed.

Lemma for_each_fold {S} (body : bson_iter_t → S → res (bool * S)) it last l s :
  fields_of it = Ret (last, l) → for_each_field body it s = fold_fields body l last s.
Proof. intros H. by apply (iter_while_fold body _ it [] last l). Qed.

(** A search loop finds the first field that passes the test. *)
Lemma fold_fields_find (p : bson_iter_t → bool) body l last :
  (∀ f, f ∈ l → body f false = Ret (negb (p f), p f)) →
  fold_fields body l last false
  = Ret match List.find p l with Some f => (f, true) | None => (last, false) end.
Proof.
  induction l as [|f l IH]; intros H; [done|]. simpl. rewrite (H f) by apply list_elem_of_here.
  cbn [bind]. destruct (p f); cbn [negb]; [done|]. apply IH. intros g Hg. apply H.
  by apply list_elem_of_further.
Qed.

Lemma field_key_at it data t :
  iter_at it data t →
  ∃ k, field_key it = Ret k ∧ bson_iter_key it = Ret (ptr_add data (it_key it))
     ∧ c_string (ptr_add data (it_key it)) = Ret k.
Proof.
  intros Hat. destruct (bson_iter_key_at _ _ _ Hat) as [Hk (k & Hs & _)].
  exists k. unfold field_key. by rewrite Hk.
Qed.

(** [strncmp] over the length of the searched key, then the terminator. *)
Lemma strncmp_exact key rest p k :
  Forall (λ b, b ≠ 0) key → c_string p = Ret k →
  (let* eq := strncmp_eq (length key) (key ++ rest) p in
   if eq : bool then
     let* last := rd p (blen key) in
     if last =? 0 then Ret (false, true) else Ret (true, false)
   else Ret (true, false))
  = Ret (negb (bool_decide (k = key)), bool_decide (k = key)).
Proof.
  intros Hkey. revert p k. induction Hkey as [|b key Hb Hkey IH]; intros p k Hp.
  - cbn [length strncmp_eq bind]. change (blen []) with 0. destruct p as [|c p]; [done|].
    change (rd (c :: p) 0) with (Ret c). cbn [bind]. simpl in Hp.
    destruct (Z.eqb_spec c 0) as [->|]; [injection Hp as <-; by rewrite bool_decide_true|].
    destruct (c_string p) as [s|]; [|done]. injection Hp as <-. by rewrite bool_decide_false.
  - destruct p as [|c p]; [done|]. cbn [length strncmp_eq app].
    change (rd (b :: key ++ rest) 0) with (Ret b). change (rd (c :: p) 0) with (Ret c). cbn [bind drop].
    simpl in Hp. destruct (Z.eqb_spec b c) as [->|Hbc]; cbn [negb].
    + destruct (Z.eqb_spec c 0); [done|]. destruct (c_string p) as [s|] eqn:Es; [|done].
      injection Hp as <-. specialize (IH p s Es). rewrite blen_cons.
      replace (rd (c :: p) (1 + blen key)) with (rd p (blen key)).
      * rewrite !drop_0, IH. by rewrite (bool_decide_ext (c :: s = c :: key) (s = key)) by naive_solver.
      * pose proof (rd_app_r [c] p (blen key) (blen_nonneg key)) as Hr. by rewrite <- Hr.
    + destruct (Z.eqb_spec c 0) as [->|].
      * injection Hp as <-. by rewrite bool_decide_false.
      * destruct (c_string p) as [s|]; [|done]. injection Hp as <-.
        rewrite bool_decide_false by congruence. done.
Qed.

(** ** In-place updates *)
Definition fixed_width (t : bson_type_t) : option Z :=
  match t with
  | BSON_TYPE_DATE_TIME | BSON_TYPE_DOUBLE | BSON_TYPE_INT64 | BSON_TYPE_TIMESTAMP => Some 8
  | BSON_TYPE_INT32 => Some 4
  | BSON_TYPE_OID => Some 12
  | BSON_TYPE_DECIMAL128 => Some 16
  | _ => None
  end.

(** the memory after [n] bytes at offset [o] are replaced *)
Definition splice (o : Z) (bytes data : list Z) : list Z :=
  take (Z.to_nat o) data ++ bytes ++ drop (Z.to_nat o + length bytes) data.

Lemma splice_blen o bytes data :
  0 ≤ o → o + blen bytes ≤ blen data → blen (splice o bytes data) = blen data.
Proof.
  intros Ho Hl. unfold splice, blen in *. rewrite !length_app, length_take, length_drop. lia.
Qed.
Lemma splice_rd o bytes data i :
  0 ≤ o → o + blen bytes ≤ blen data → i < o ∨ o + blen bytes ≤ i →
  rd (splice o bytes data) i = rd data i.
Proof.
  intros Ho Hl Hi. unfold rd, splice, blen in *. case_if; [done|].
  destruct (decide (i < o)).
  - rewrite lookup_app_l by (rewrite length_take; lia). by rewrite lookup_take_lt by lia.
  - rewrite lookup_app_r by (rewrite length_take; lia). rewrite length_take.
    rewrite lookup_app_r by lia. rewrite lookup_drop.
    replace (Z.to_nat o + length bytes + _)%nat with (Z.to_nat i) by lia. done.
Qed.
Lemma splice_rd_le n o x data :
  0 ≤ o → o + Z.of_nat n ≤ blen data →
  rd_le n (splice o (le_bytes n x) data) o = Ret (x mod 256 ^ Z.of_nat n).
Proof.
  intros Ho Hl. unfold splice.
  assert (E : o = blen (take (Z.to_nat o) data)) by (unfold blen in *; rewrite length_take; lia).
  etransitivity; [|apply rd_le_bytes]. f_equal. exact E.
Qed.

Lemma overwrite_at it data t bytes :
  iter_at it data t → fixed_width t = Some (blen bytes) → bytes_ok bytes →
  ∃ it', overwrite it t bytes = Ret it' ∧ iter_at it' (splice (it_d1 it) bytes data) t
    ∧ it_d1 it' = it_d1 it ∧ it_next_off it' = it_next_off it ∧ it_off it' = it_off it
    ∧ it_len it' = it_len it.
Proof.
  intros Hat Hw Hb. pose proof (at_bounds _ _ _ Hat) as (Hok & Ho & Hk & Hkd & Hn & Hl & Hm).
  pose proof (at_field _ _ _ Hat) as Hf.
  assert (Hend : it_d1 it + blen bytes = it_next_off it).
  { destruct t; simpl in Hw, Hf; try done; injection Hw as <-; lia. }
  assert (Hd : 0 ≤ it_d1 it) by lia. pose proof (blen_nonneg bytes).
  unfold overwrite. rewrite (at_raw _ _ _ Hat). cbn [deref bind].
  rewrite (if_type_at _ _ _ Hat), decide_True by done.
  destruct (Z.leb_spec 0 (it_d1 it)); [|lia].
  destruct (Z.leb_spec (it_d1 it + blen bytes) (blen data)); [|lia]. cbn [andb].
  eexists. split; [reflexivity|]. split; [|done].
  pose proof Hat as [? ? ? ? ? ? ? ? ? ? Hnul Hchars (b & Hb0 & Ht) ? ?].
  constructor; cbn [it_raw it_len it_off it_type it_key it_d1 it_next_off it_err_off]; try done.
  - unfold splice. apply Forall_app. split; [by apply Forall_take|].
    apply Forall_app. split; [done|by apply Forall_drop].
  - rewrite splice_blen; lia.
  - unfold nul_at. rewrite splice_rd by lia. done.
  - intros i Hi. unfold nul_at. rewrite splice_rd by lia. by apply Hchars.
  - exists b. split; [|done]. rewrite splice_rd by lia. done.
  - destruct t; simpl in Hw; try done.
Qed.

(** the fields of an iterator lie in its document *)
Lemma fields_of_in it last l :
  iter_ok it → fields_of it = Ret (last, l) →
  Forall (λ f, ∃ data t, it_raw it = Some data ∧ iter_at f data t) l.
Proof.
  intros Hit Hf.
  pose proof (for_each_field_ok collect (λ _, False)
    (Forall (λ f, ∃ data t, it_raw it = Some data ∧ iter_at f data t)) it [] Hit
    ltac:(constructor)) as H.
  unfold fields_of in Hf. rewrite Hf in H. apply H.
  intros it' data t s Hraw _ Hat Hs. simpl. apply Forall_app. split; [done|].
  constructor; [by exists data, t|constructor].
Qed.

Lemma find_list it key rest last l :
  iter_ok it → Forall (λ b, b ≠ 0) key → fields_of it = Ret (last, l) → Forall positioned l →
  bson_iter_find it (key ++ 0 :: rest)
  = Ret match List.find (has_key key) l with Some f => (true, f) | None => (false, last) end.
Proof.
  intros Hit Hkey Hf Hl. rewrite Forall_forall in Hl.
  unfold bson_iter_find, bson_iter_find_w_len. rewrite (c_string_app key rest) by done. cbn [bind].
  rewrite (for_each_fold _ it last l) by done. rewrite (fold_fields_find (has_key key)).
  { by destruct (List.find _ l). }
  intros f Hin.
  destruct (Hl f Hin) as (data & t & Hat). destruct (field_key_at _ _ _ Hat) as (k & Hk & Hp & Hs).
  unfold has_key. rewrite Hk, Hp. cbn [bind]. unfold blen at 1. rewrite Nat2Z.id.
  rewrite (bool_decide_ext (Ret k = Ret key) (k = key)) by naive_solver.
  by apply strncmp_exact.
Qed.
Lemma find_returns it key rest :
  iter_ok it → Forall (λ b, b ≠ 0) key →
  returns (bson_iter_find it (key ++ 0 :: rest)) (λ r,
    if r.1 then ∃ data t, it_raw it = Some data ∧ iter_at r.2 data t else iter_ok r.2).
Proof.
  intros Hit Hkey. destruct (fields_of_ok it Hit) as (last & l & Hf & Hl & Hlast & _).
  rewrite (find_list it key rest last l) by done. pose proof (fields_of_in it last l Hit Hf) as Hin.
  destruct (List.find (has_key key) l) as [f|] eqn:E; simpl; [|done].
  apply find_some in E as [E _]. rewrite Forall_forall in Hin. apply Hin. by apply list_elem_of_In.
Qed.
Lemma count_keys_list b :
  bson_ok b → 5 ≤ blen b →
  ∃ last l, fields_of (iter_start b (blen b)) = Ret (last, l)
    ∧ bson_count_keys b = Ret (Z.of_nat (length l)).
Proof.
  intros [Hb Hm] H5. destruct (fields_of_ok (iter_start b (blen b))) as (last & l & Hf & _ & _ & Hlen).
  { apply iter_start_ok; [done|lia|done]. }
  exists last, l. split; [done|]. unfold bson_count_keys, bson_iter_init. case_if; [lia|].
  rewrite (for_each_fold _ _ last l) by done. unfold iter_fuel in Hlen. cbn [iter_start it_len] in Hlen.
  enough (Hgo : ∀ n, 0 ≤ n → n + Z.of_nat (length l) < 2 ^ 32 →
    fold_fields (λ _ count, Ret (true, u32 (count + 1))) l last n = Ret (last, n + Z.of_nat (length l))).
  { rewrite Hgo; [done|lia|]. unfold INT_MAX in *. lia. }
  clear. induction l as [|f l IH]; intros n Hn Hm; simpl fold_fields; [by rewrite Z.add_0_r|].
  cbn [length] in *. rewrite u32_small by lia. rewrite IH by lia. do 2 f_equal. lia.
Qed.
Lemma init_find_returns doc key rest :
  bson_ok doc → Forall (λ b, b ≠ 0) key →
  returns (bson_iter_init_find doc (key ++ 0 :: rest)) (λ r, if r.1 then ∃ t, iter_at r.2 doc t else True).
Proof.
  intros Hdoc Hkey. pose proof (bson_iter_init_ok doc Hdoc) as Hi. unfold bson_iter_init_find, bson_iter_init in *.
  case_if; [done|]. eapply returns_mono; [by apply find_returns|]. intros [[] it]; [|done]. cbn [fst snd].
  intros (data & t & Hraw & Hat). injection Hraw as <-. eauto.
Qed.

(** descendants *)
Lemma find_w_len_returns it key rest :
  iter_ok it → Forall (λ b, b ≠ 0) key →
  returns (bson_iter_find_w_len it (key ++ rest) (Some (blen key))) (λ r,
    if r.1 then ∃ data t, it_raw it = Some data ∧ iter_at r.2 data t else iter_ok r.2).
Proof.
  intros Hit Hkey. destruct (fields_of_ok it Hit) as (last & l & Hf & Hl & Hlast & _).
  pose proof (fields_of_in it last l Hit Hf) as Hin. rewrite Forall_forall in Hin.
  unfold bson_iter_find_w_len. cbn [bind]. rewrite (for_each_fold _ it last l) by done.
  rewrite (fold_fields_find (has_key key)).
  - destruct (List.find (has_key key) l) as [f|] eqn:E; simpl; [|done].
    apply find_some in E as [E _]. apply Hin. by apply list_elem_of_In.
  - intros f Hf'. rewrite Forall_forall in Hl. destruct (Hl f Hf') as (data & t & Hat).
    destruct (field_key_at _ _ _ Hat) as (k & Hk & Hp & Hs).
    unfold has_key. rewrite Hk, Hp. cbn [bind]. unfold blen at 1. rewrite Nat2Z.id.
    rewrite (bool_decide_ext (Ret k = Ret key) (k = key)) by naive_solver.
    by apply strncmp_exact.
Qed.
Lemma strchr_split s c d :
  strchr s c = Some d → ∃ pre post, s = pre ++ c :: post ∧ d = blen pre.
Proof.
  revert d. induction s as [|b s IH]; intros d; [done|]. cbn [strchr].
  destruct (Z.eqb_spec b c) as [->|_]; [intros [= <-]; by exists [], s|].
  destruct (strchr s c) as [e|]; [|done]. intros [= <-]. destruct (IH e eq_refl) as (pre & post & -> & ->).
  exists (b :: pre), post. split; [done|]. unfold blen. cbn [length]. lia.
Qed.
Lemma find_descendant_returns fuel it dotkey :
  iter_ok it → Forall (λ b, b ≠ 0) dotkey → (length dotkey < fuel)%nat →
  returns (find_descendant fuel it dotkey) (λ o, ∀ it', o = Some it' → ∃ data t, iter_at it' data t).
Proof.
  revert it dotkey. induction fuel as [|fuel IH]; intros it dotkey Hit Hk Hf; [lia|]. cbn [find_descendant].
  destruct (strchr dotkey 46) as [d|] eqn:Hd.
  - apply strchr_split in Hd as (pre & post & -> & ->). apply Forall_app in Hk as [Hpre Hpost].
    apply Forall_cons in Hpost as [_ Hpost]. rewrite <- app_assoc.
    eapply returns_bind; [by apply find_w_len_returns|]. intros [[] it'] Hr; cbn [fst snd negb] in *; [|done].
    destruct Hr as (data & t & _ & Hat). rewrite (ITER_TYPE_at _ _ _ Hat). cbn [bind].
    destruct (_ || _); [|done]. eapply returns_bind; [by eapply bson_iter_recurse_at|].
    intros [tmp|] Ht; [|done]. destruct Ht as [_ Ht].
    replace (ptr_add (pre ++ 46 :: post) (blen pre + 1)) with post; [apply IH; [done..|]|].
    + rewrite length_app in Hf. cbn [length] in Hf. lia.
    + unfold ptr_add. replace (Z.to_nat (blen pre + 1)) with (length pre + 1)%nat by (unfold blen; lia).
      by rewrite drop_app_add.
  - eapply returns_bind; [by apply find_w_len_returns|]. intros [[] it'] Hr; cbn [fst snd negb] in *; [|done].
    destruct Hr as (data & t & _ & Hat). intros ? [= <-]. by exists data, t.
Qed.

(** * Properties *)

(** C1. bson_iter_next from any well-formed iterator, over arbitrary bytes: it never
    reads outside the document, it returns, and it either stands on a field
    whose key, type, offsets and value layout are as BSON prescribes (strictly
    further than before) or has NULLed the iterator.  (The sum of the length of an old
    binary, bson-iter.c:639, is taken to wrap; it is the one signed operation of the
    step that bytes can make overflow.) *)
Theorem bson_iter_next_safe it :
  iter_ok it →
  returns (bson_iter_next it) (λ '(ok, it'), iter_ok it' ∧
    if ok : bool then
      ∃ data t, it_raw it = Some data ∧ iter_at it' data t
        ∧ it_off it' = it_next_off it ∧ it_next_off it < it_next_off it' < it_len it
        ∧ it_len it' = it_len it
    else it_raw it' = None).
Proof.
  intros H. eapply returns_mono; [by apply bson_iter_next_ok|]. intros [[] it']; cbn [fst snd].
  - intros (data & t & Hr & Hat & Hoff & Hlen). split; [by eapply iter_at_ok|].
    exists data, t. pose proof (at_bounds _ _ _ Hat).
    split; [done|]. split; [done|]. split; [done|]. split; [lia|done].
  - intros Hn. unfold iter_ok. by rewrite Hn.
Qed.

(** bson_iter_find leaves the iterator on the first field whose key is exactly
    the one searched, and fails when there is none; bson_iter_find_case does the
    same up to ASCII case; both terminate on arbitrary bytes. *)
Theorem bson_iter_find_first it key :
  iter_ok it → Forall (λ b, b ≠ 0) key →
  ∃ last l, fields_of it = Ret (last, l) ∧ Forall positioned l
    ∧ bson_iter_find it (key ++ [0])
      = Ret match List.find (has_key key) l with Some f => (true, f) | None => (false, last) end
    ∧ bson_iter_find_case it (key ++ [0])
      = Ret match List.find (λ f, match field_key f with Ret k => strcaseeq key k | _ => false end) l with
            | Some f => (true, f) | None => (false, last) end.
Proof.
  intros Hit Hkey. destruct (fields_of_ok it Hit) as (last & l & Hf & Hl & _ & _).
  exists last, l. split; [done|]. split; [done|]. split; [by apply find_list|].
  rewrite Forall_forall in Hl.
  unfold bson_iter_find_case. rewrite (c_string_app key []) by done. cbn [bind].
  rewrite (for_each_fold _ it last l) by done.
  rewrite (fold_fields_find (λ f, match field_key f with Ret k => strcaseeq key k | _ => false end)).
  { by destruct (List.find _ l). }
  intros f Hin.
  destruct (Hl f Hin) as (data & t & Hat). destruct (field_key_at _ _ _ Hat) as (k & Hk & Hp & Hs).
  rewrite Hk, Hp. cbn [bind]. rewrite Hs. cbn [bind]. by destruct (strcaseeq key k).
Qed.

(** bson_count_keys counts the fields of the document. *)
Theorem bson_count_keys_correct b :
  bson_ok b → 5 ≤ blen b →
  ∃ last l, fields_of (iter_start b (blen b)) = Ret (last, l)
    ∧ bson_count_keys b = Ret (Z.of_nat (length l)).
Proof. apply count_keys_list. Qed.

(** An in-place update of a fixed-width field is read back by the getter of its
    type, leaves the iterator on the same field, and changes no byte outside the
    value. *)
Theorem bson_iter_overwrite_read it data t :
  iter_at it data t →
  (∀ v, t = BSON_TYPE_INT32 → in_s32 v → ∃ it' data', bson_iter_overwrite_int32 it v = Ret it'
     ∧ iter_at it' data' t ∧ bson_iter_int32 it' = Ret v
     ∧ ∀ i, i < it_d1 it ∨ it_d1 it + 4 ≤ i → rd data' i = rd data i)
  ∧ (∀ v, t = BSON_TYPE_INT64 → in_s64 v → ∃ it' data', bson_iter_overwrite_int64 it v = Ret it'
     ∧ iter_at it' data' t ∧ bson_iter_int64 it' = Ret v
     ∧ ∀ i, i < it_d1 it ∨ it_d1 it + 8 ≤ i → rd data' i = rd data i)
  ∧ (∀ v, t = BSON_TYPE_DATE_TIME → in_s64 v → ∃ it' data', bson_iter_overwrite_date_time it v = Ret it'
     ∧ iter_at it' data' t ∧ bson_iter_date_time it' = Ret v
     ∧ ∀ i, i < it_d1 it ∨ it_d1 it + 8 ≤ i → rd data' i = rd data i)
  ∧ (∀ v, t = BSON_TYPE_DOUBLE → 0 ≤ v < 2 ^ 64 → ∃ it' data', bson_iter_overwrite_double it v = Ret it'
     ∧ iter_at it' data' t ∧ bson_iter_double it' = Ret v
     ∧ ∀ i, i < it_d1 it ∨ it_d1 it + 8 ≤ i → rd data' i = rd data i).
Proof.
  intros Hat. pose proof (at_bounds _ _ _ Hat) as (Hok & Ho & Hk & Hkd & Hn & Hl & Hm).
  assert (Hmain : ∀ n v, fixed_width t = Some (Z.of_nat n) →
    ∃ it', overwrite it t (le_bytes n v) = Ret it'
      ∧ iter_at it' (splice (it_d1 it) (le_bytes n v) data) t
      ∧ field_le it' n (it_d1 it') = Ret (v mod 256 ^ Z.of_nat n)
      ∧ ∀ i, i < it_d1 it ∨ it_d1 it + Z.of_nat n ≤ i →
          rd (splice (it_d1 it) (le_bytes n v) data) i = rd data i).
  { intros n v Hw. destruct (overwrite_at it data t (le_bytes n v)) as (it' & Hov & Hat' & Hd1 & Hno & _);
      [done|by rewrite blen_le_bytes|apply le_bytes_ok|].
    assert (it_d1 it + Z.of_nat n ≤ blen data).
    { pose proof (at_field _ _ _ Hat) as Hf. destruct t; simpl in Hw, Hf; try done; injection Hw as Hw; lia. }
    exists it'. split; [done|]. split; [done|]. split.
    - rewrite (field_le_at _ _ _ Hat'), Hd1. apply splice_rd_le; lia.
    - intros i Hi. apply splice_rd; [lia|rewrite blen_le_bytes; lia|rewrite blen_le_bytes; lia]. }
  split; [|split; [|split]]; intros v -> Hv.
  - destruct (Hmain 4%nat v eq_refl) as (it' & Hov & Hat' & Hr & Hout). eexists it', _.
    split; [exact Hov|]. split; [exact Hat'|]. split; [|exact Hout].
    unfold bson_iter_int32. rewrite (if_type_at _ _ _ Hat'), decide_True by done.
    unfold bson_iter_int32_unsafe. rewrite Hr. exact (f_equal Ret (s32_u32 v Hv)).
  - destruct (Hmain 8%nat v eq_refl) as (it' & Hov & Hat' & Hr & Hout). eexists it', _.
    split; [exact Hov|]. split; [exact Hat'|]. split; [|exact Hout].
    unfold bson_iter_int64. rewrite (if_type_at _ _ _ Hat'), decide_True by done.
    unfold bson_iter_int64_unsafe. rewrite Hr. exact (f_equal Ret (s64_u64 v Hv)).
  - destruct (Hmain 8%nat v eq_refl) as (it' & Hov & Hat' & Hr & Hout). eexists it', _.
    split; [exact Hov|]. split; [exact Hat'|]. split; [|exact Hout].
    unfold bson_iter_date_time. rewrite (if_type_at _ _ _ Hat'), decide_True by done.
    unfold bson_iter_int64_unsafe. rewrite Hr. exact (f_equal Ret (s64_u64 v Hv)).
  - destruct (Hmain 8%nat v eq_refl) as (it' & Hov & Hat' & Hr & Hout). eexists it', _.
    split; [exact Hov|]. split; [exact Hat'|]. split; [|exact Hout].
    unfold bson_iter_double. rewrite (if_type_at _ _ _ Hat'), decide_True by done.
    unfold bson_iter_double_unsafe. rewrite Hr. f_equal. by apply Z.mod_small.
Qed.

(** bson_iter_time_t agrees with bson_iter_timeval from the epoch on; for a date
    before it the unsigned division makes the result a time billions of years
    ahead, where bson_iter_timeval gives the (negative) number of seconds. *)
Theorem bson_iter_time_t_before_epoch it data v :
  iter_at it data BSON_TYPE_DATE_TIME → bson_iter_date_time it = Ret v →
  bson_iter_timeval it = Ret (Z.quot v 1000, Z.rem v 1000 * 1000)
  ∧ (0 ≤ v → bson_iter_time_t it = Ret (Z.quot v 1000))
  ∧ (v < 0 → bson_iter_time_t it = Ret ((v + 2 ^ 64) / 1000) ∧ Z.quot v 1000 ≤ 0 < (v + 2 ^ 64) / 1000).
Proof.
  intros Hat Hv. pose proof (bson_iter_date_time_at _ _ _ Hat) as Hr. rewrite Hv in Hr.
  unfold bson_iter_date_time in Hv. rewrite (if_type_at _ _ _ Hat), decide_True in Hv by done.
  simpl in Hr. unfold in_s64 in Hr.
  unfold bson_iter_timeval, bson_iter_time_t. rewrite !(if_type_at _ _ _ Hat), !decide_True by done.
  unfold bson_iter_timeval_unsafe, bson_iter_time_t_unsafe. rewrite Hv. cbn [bind].
  split; [done|]. split; intros Hs.
  - rewrite (u64_small v) by lia. rewrite Z.quot_div_nonneg by lia.
    rewrite s64_small; [done|]. pose proof (Z.div_pos v 1000). pose proof (Z.div_le_upper_bound v 1000 v).
    unfold in_s64. lia.
  - assert (Eu : u64 v = v + 2 ^ 64).
    { unfold u64. rewrite <- (Z.mod_add v 1) by lia. apply Z.mod_small. lia. }
    rewrite Eu. pose proof (Z.div_le_upper_bound (v + 2 ^ 64) 1000 (2 ^ 62)).
    pose proof (Z.div_le_lower_bound (v + 2 ^ 64) 1000 1).
    split; [|split; [|lia]].
    + rewrite s64_small; [done|]. unfold in_s64. lia.
    + rewrite <- (Z.opp_involutive v), Z.quot_opp_l by lia. pose proof (Z.quot_pos (- v) 1000). lia.
Qed.

(** ** Concrete instances *)
(** the document [{"a": 1, "d": Date(-1), "s": "x"}] *)
Definition sample_doc : bson_t :=
  [32; 0; 0; 0;
   0x10; 97; 0; 1; 0; 0; 0;
   0x09; 100; 0; 255; 255; 255; 255; 255; 255; 255; 255;
   0x02; 115; 0; 2; 0; 0; 0; 120; 0;
   0].
Definition sample_start : bson_iter_t := iter_start sample_doc 32.
Definition at_a : bson_iter_t := Iter (Some sample_doc) 32 4 4 5 7 0 0 0 11 0.
Definition at_d : bson_iter_t := Iter (Some sample_doc) 32 11 11 12 14 0 0 0 22 0.
Definition at_s : bson_iter_t := Iter (Some sample_doc) 32 22 22 23 25 29 0 0 31 0.

Example sample_fields : fields_of sample_start
  = Ret (Iter None 0 31 31 32 0 0 0 0 0 0, [at_a; at_d; at_s]).
Proof. reflexivity. Qed.

Lemma sample_bytes : bytes_ok sample_doc.
Proof. repeat constructor; discriminate. Qed.
Lemma sample_ok : bson_ok sample_doc.
Proof. split; [exact sample_bytes|discriminate]. Qed.
Lemma sample_start_ok : iter_ok sample_start.
Proof. split; [exact sample_bytes|]. repeat split; discriminate. Qed.

(** a positioned iterator, by evaluation *)
Ltac position_sample :=
  constructor; try exact sample_bytes; try reflexivity; try discriminate; try (simpl; lia);
  [let i := fresh in let Hi := fresh in intros i Hi; simpl in Hi;
   match type of Hi with ?a ≤ _ < _ => assert (i = a) as -> by lia end; discriminate
  |eexists; split; reflexivity|..].
Lemma at_a_ok : iter_at at_a sample_doc BSON_TYPE_INT32.
Proof. position_sample. Qed.
Lemma at_d_ok : iter_at at_d sample_doc BSON_TYPE_DATE_TIME.
Proof. position_sample. Qed.
Lemma at_s_ok : iter_at at_s sample_doc BSON_TYPE_UTF8.
Proof. position_sample. split; [reflexivity|]. exists 2. by repeat split. Qed.

Lemma bson_iter_next_safe_witness :
  bson_iter_next sample_start = Ret (true, at_a)
  ∧ returns (bson_iter_next sample_start) (λ '(ok, it'), iter_ok it' ∧
    if ok : bool then
      ∃ data t, it_raw sample_start = Some data ∧ iter_at it' data t
        ∧ it_off it' = it_next_off sample_start
        ∧ it_next_off sample_start < it_next_off it' < it_len sample_start
        ∧ it_len it' = it_len sample_start
    else it_raw it' = None).
Proof. split; [reflexivity|]. apply (bson_iter_next_safe sample_start). exact sample_start_ok. Defined.

Lemma bson_iter_find_first_witness :
  bson_iter_find sample_start (cs "s" ++ [0]) = Ret (true, at_s)
  ∧ ∃ last l, fields_of sample_start = Ret (last, l) ∧ Forall positioned l
    ∧ bson_iter_find sample_start (cs "s" ++ [0])
      = Ret match List.find (has_key (cs "s")) l with Some f => (true, f) | None => (false, last) end
    ∧ bson_iter_find_case sample_start (cs "s" ++ [0])
      = Ret match List.find (λ f, match field_key f with Ret k => strcaseeq (cs "s") k | _ => false end) l with
            | Some f => (true, f) | None => (false, last) end.
Proof.
  split; [reflexivity|]. apply (bson_iter_find_first sample_start (cs "s")); [exact sample_start_ok|].
  repeat constructor. discriminate.
Defined.

Lemma bson_count_keys_correct_witness :
  bson_count_keys sample_doc = Ret 3
  ∧ ∃ last l, fields_of (iter_start sample_doc (blen sample_doc)) = Ret (last, l)
    ∧ bson_count_keys sample_doc = Ret (Z.of_nat (length l)).
Proof.
  split; [reflexivity|]. apply (bson_count_keys_correct sample_doc); [exact sample_ok|discriminate].
Defined.

Lemma bson_iter_overwrite_read_witness :
  ∃ it' data', bson_iter_overwrite_int32 at_a (-7) = Ret it'
     ∧ iter_at it' data' BSON_TYPE_INT32 ∧ bson_iter_int32 it' = Ret (-7)
     ∧ ∀ i, i < it_d1 at_a ∨ it_d1 at_a + 4 ≤ i → rd data' i = rd sample_doc i.
Proof.
  apply (proj1 (bson_iter_overwrite_read at_a sample_doc BSON_TYPE_INT32 at_a_ok)); [reflexivity|].
  split; [discriminate|reflexivity].
Defined.

Lemma bson_iter_time_t_before_epoch_witness :
  bson_iter_timeval at_d = Ret (0, -1000)
  ∧ bson_iter_time_t at_d = Ret 18446744073709551.
Proof.
  split; [reflexivity|].
  exact (proj1 (proj2 (proj2 (bson_iter_time_t_before_epoch at_d sample_doc (-1) at_d_ok eq_refl)) eq_refl)).
Defined.
