(* ===== verification/BsonAppend.v ===== *)
(** Building BSON documents (bson/bson.c): the buffer of a [bson_t], inline or
    on the heap, its growth, the append functions, and sub-documents built in
    place in the buffer of their root.

    A [bson_mem] is a root [bson_t] together with the chain of children open in
    it ([bson_append_document_begin] ... [_end]): they share the buffer, and each
    has its own offset and length.  The functions work on the innermost one; the
    code's BSON_FLAG_IN_CHILD assertions rule out the others.  Fresh memory holds
    arbitrary bytes. *)
From S2P Require Import Prelude CDouble BsonIter.
From Stdlib Require Import ZArith Lia List.
From stdpp Require Import prelude strings.
#[local] Open Scope Z_scope.
#[local] Open Scope mongo_scope.

Definition BSON_MAX_SIZE : Z := 2 ^ 31 - 1.
Definition BSON_INLINE_DATA_SIZE : Z := 120.

(** [offset] and [len] of one [bson_t] of the chain *)
Record level := Level { l_offset : Z; l_len : Z }.

Record bson_mem := Mem {
  m_inline : bool;          (* BSON_FLAG_INLINE *)
  m_rdonly : bool;          (* BSON_FLAG_RDONLY *)
  m_realloc : bool;         (* realloc != NULL *)
  m_buf : list Z;           (* *buf, of *buflen bytes *)
  m_levels : list level     (* innermost first; the last is the root *)
}.
Definition m_depth (m : bson_mem) : Z := Z.of_nat (length (m_levels m)) - 1.
(** the [bson_t] the functions are called on *)
Definition m_top (m : bson_mem) : level :=
  match m_levels m with l :: _ => l | [] => Level 0 0 end.
Definition set_top (l : level) (m : bson_mem) : bson_mem :=
  Mem (m_inline m) (m_rdonly m) (m_realloc m) (m_buf m)
      (match m_levels m with _ :: ls => l :: ls | [] => [l] end).
Definition set_buf (b : list Z) (m : bson_mem) : bson_mem :=
  Mem (m_inline m) (m_rdonly m) (m_realloc m) b (m_levels m).
Definition set_len (n : Z) (m : bson_mem) : bson_mem := set_top (Level (l_offset (m_top m)) n) m.

(** [memcpy] of [bytes] to index [o] of the buffer *)
Definition mem_write (o : Z) (bytes : list Z) (m : bson_mem) : res bson_mem :=
  if (0 <=? o) && (o + blen bytes <=? blen (m_buf m)) then
    let n := Z.to_nat o in
    Ret (set_buf (take n (m_buf m) ++ bytes ++ drop (n + length bytes) (m_buf m)) m)
  else Stuck OutOfBounds.

(** what is passed for a pair of the variable arguments of [_bson_append] *)
Inductive chunk :=
| Data (bytes : list Z)
| NullData (len : Z).      (* a NULL pointer with a length *)

Section Append.
(** the content of the byte at an index of freshly allocated memory *)
Variable fresh : Z → Z.
Definition fresh_bytes (from to : Z) : list Z :=
  map (λ i, fresh (from + Z.of_nat i)) (seq 0 (Z.to_nat (to - from))).

(** ** Growth; [None] is the [false] return *)
Definition _bson_impl_inline_grow (m : bson_mem) (size : Z) : option bson_mem :=
  let len := l_len (m_top m) in
  if len + size <=? BSON_INLINE_DATA_SIZE then Some m
  else
    let req := bson_next_power_of_two (len + size) in
    if req <=? INT32_MAX then
      Some (Mem false (m_rdonly m) true
              (take (Z.to_nat len) (m_buf m) ++ fresh_bytes len req) (m_levels m))
    else None.
Definition _bson_impl_alloc_grow (m : bson_mem) (size : Z) : option bson_mem :=
  let req := l_offset (m_top m) + l_len (m_top m) + size + m_depth m in
  if req <=? blen (m_buf m) then Some m
  else
    let req := bson_next_power_of_two req in
    if (req <=? INT32_MAX) && m_realloc m then
      Some (set_buf (take (Z.to_nat req) (m_buf m) ++ fresh_bytes (blen (m_buf m)) req) m)
    else None.
Definition _bson_grow (m : bson_mem) (size : Z) : option bson_mem :=
  if m_inline m then _bson_impl_inline_grow m size else _bson_impl_alloc_grow m size.

Definition _bson_encode_length (m : bson_mem) : res bson_mem :=
  mem_write (l_offset (m_top m)) (le_bytes 4 (l_len (m_top m))) m.

(** ** [_bson_append] *)

(** the [do] loop: [buf] is an index of the buffer *)
Fixpoint append_chunks (chunks : list chunk) (m : bson_mem) (buf : Z)
    : res (bool * bson_mem * Z) :=
  match chunks with
  | [] => Ret (true, m, buf)
  | Data data :: chunks' =>
      if blen data =? 0 then append_chunks chunks' m buf
      else
        let* m := mem_write buf data m in
        append_chunks chunks' (set_len (u32 (l_len (m_top m) + blen data)) m) (buf + blen data)
  | NullData n :: chunks' =>
      if n =? 0 then append_chunks chunks' m buf else Ret (false, m, buf)
  end.

Definition _bson_append_va (m : bson_mem) (n_bytes : Z) (chunks : list chunk)
    : res (bool * bson_mem) :=
  let* _ := bson_assert (negb (m_rdonly m)) in
  match _bson_grow m n_bytes with
  | None => Ret (false, m)
  | Some m =>
      let buf := l_offset (m_top m) + l_len (m_top m) - 1 in
      let* r := append_chunks chunks m buf in
      let '(ok, m, buf) := r in
      if negb ok then Ret (false, m)
      else
        let* m := _bson_encode_length m in
        let* m := mem_write buf [0] m in
        Ret (true, m)
  end.

Definition _bson_append (m : bson_mem) (n_bytes : Z) (chunks : list chunk) : res (bool * bson_mem) :=
  if n_bytes >? BSON_MAX_SIZE - l_len (m_top m) then Ret (false, m)
  else _bson_append_va m n_bytes chunks.

(** ** Keys and strings *)

(** [if (length < 0) length = (int) strlen (s)] *)
Definition string_length (s : list Z) (length : Z) : res Z :=
  if length <? 0 then let* c := c_string s in Ret (s32 (blen c)) else Ret length.
(** the [n] bytes at a pointer, as a pair of the variable arguments *)
Definition bytes_at (s : list Z) (n : Z) : res (list Z) := rd_bytes (Z.to_nat (u32 n)) s 0.

(** the type, the key and its terminator, then the value *)
Definition append_field (m : bson_mem) (type : Z) (key : list Z) (key_length : Z)
    (size : Z) (value : list chunk) : res (bool * bson_mem) :=
  let* key_length := string_length key key_length in
  let* k := bytes_at key key_length in
  _bson_append m (u32 (1 + key_length + 1 + size)) (Data [type] :: Data k :: Data [0] :: value).

(** ** The append functions *)
Definition bson_append_bool m key key_length (value : bool) :=
  append_field m 0x08 key key_length 1 [Data [Z.b2z value]].
Definition bson_append_double m key key_length (bits : Z) :=
  append_field m 0x01 key key_length 8 [Data (le_bytes 8 bits)].
Definition bson_append_int32 m key key_length (value : Z) :=
  append_field m 0x10 key key_length 4 [Data (le_bytes 4 value)].
Definition bson_append_int64 m key key_length (value : Z) :=
  append_field m 0x12 key key_length 8 [Data (le_bytes 8 value)].
Definition bson_append_decimal128 m key key_length (low high : Z) :=
  append_field m 0x13 key key_length 16 [Data (le_bytes 8 low ++ le_bytes 8 high)].
Definition bson_append_date_time m key key_length (value : Z) :=
  append_field m 0x09 key key_length 8 [Data (le_bytes 8 value)].
Definition bson_append_timeval m key key_length (tv_sec tv_usec : Z) :=
  bson_append_date_time m key key_length (s64 (u64 (u64 tv_sec * 1000) + u64 tv_usec / 1000)).
Definition bson_append_time_t m key key_length (value : Z) :=
  bson_append_timeval m key key_length value 0.
Definition bson_append_now_utc m key key_length (now : Z) :=
  let* _ := bson_assert (key_length >=? -1) in bson_append_time_t m key key_length now.
Definition bson_append_timestamp m key key_length (timestamp increment : Z) :=
  append_field m 0x11 key key_length 8
    [Data (le_bytes 8 (Z.lor (u64 (Z.shiftl timestamp 32)) increment))].
Definition bson_append_maxkey m key key_length := append_field m 0x7F key key_length 0 [].
Definition bson_append_minkey m key key_length := append_field m 0xFF key key_length 0 [].
Definition bson_append_null m key key_length := append_field m 0x0A key key_length 0 [].
Definition bson_append_undefined m key key_length := append_field m 0x06 key key_length 0 [].
Definition bson_append_oid m key key_length (value : list Z) :=
  let* oid := rd_bytes 12 value 0 in append_field m 0x07 key key_length 12 [Data oid].

(** [None] is a NULL value *)
Definition append_string (type : Z) m key key_length (value : option (list Z)) (length : Z) :=
  match value with
  | None => bson_append_null m key key_length
  | Some value =>
      let* length := string_length value length in
      let* v := bytes_at value length in
      append_field m type key key_length (4 + length + 1)
        [Data (le_bytes 4 (length + 1)); Data v; Data [0]]
  end.
Definition bson_append_utf8 := append_string 0x02.
Definition bson_append_symbol := append_string 0x0E.

Definition bson_append_code m key key_length (javascript : list Z) :=
  let* c := c_string javascript in
  let length := u32 (s32 (blen c) + 1) in
  let* v := bytes_at javascript length in
  append_field m 0x0D key key_length (4 + length) [Data (le_bytes 4 length); Data v].
Definition bson_append_code_with_scope m key key_length (javascript : list Z)
    (scope : option bson_t) :=
  match scope with
  | None => bson_append_code m key key_length javascript
  | Some scope =>
      let* c := c_string javascript in
      let js_length := u32 (s32 (blen c) + 1) in
      let* js := bytes_at javascript js_length in
      let codews_length := u32 (4 + 4 + js_length + blen scope) in
      append_field m 0x0F key key_length (4 + 4 + js_length + blen scope)
        [Data (le_bytes 4 codews_length); Data (le_bytes 4 js_length); Data js; Data scope]
  end.
Definition bson_append_dbpointer m key key_length (collection oid : list Z) :=
  let* c := c_string collection in
  let length := u32 (s32 (blen c) + 1) in
  let* v := bytes_at collection length in
  let* oid := rd_bytes 12 oid 0 in
  append_field m 0x0C key key_length (4 + length + 12)
    [Data (le_bytes 4 length); Data v; Data oid].
Definition bson_append_document m key key_length (value : bson_t) :=
  append_field m 0x03 key key_length (blen value) [Data value].

(** the warning about the first key goes to stderr: it changes nothing here
    but the key is read *)
Definition bson_append_array m key key_length (array : bson_t) :=
  let* e := bson_empty array in
  let* _ :=
    (if e : bool then Ret tt
     else
       let '(ok, it) := bson_iter_init array in
       if ok then
         let* n := bson_iter_next it in
         if n.1 then
           let* p := bson_iter_key n.2 in
           let* k := c_string p in Ret tt
         else Ret tt
       else Ret tt) in
  append_field m 0x04 key key_length (blen array) [Data array].

(** [None] is a NULL [binary] *)
Definition bson_append_binary m key key_length (subtype : Z) (binary : option (list Z)) (length : Z) :=
  let* data := match binary with
               | Some b => let* b := bytes_at b length in Ret (Data b)
               | None => Ret (NullData length)
               end in
  let subtype8 := u8 subtype in
  if subtype =? BSON_SUBTYPE_BINARY_DEPRECATED then
    append_field m 0x05 key key_length (4 + 1 + 4 + length)
      [Data (le_bytes 4 (length + 4)); Data [subtype8]; Data (le_bytes 4 length); data]
  else
    append_field m 0x05 key key_length (4 + 1 + length)
      [Data (le_bytes 4 length); Data [subtype8]; data].

Definition BSON_REGEX_OPTIONS_SORTED : list Z := cs "ilmsux".
Definition _bson_append_regex_options_sorted (options : list Z) : list Z :=
  List.filter (λ c, bool_decide (c ∈ options)) BSON_REGEX_OPTIONS_SORTED.
Definition bson_append_regex_w_len m key key_length (regex : option (list Z)) (regex_length : Z)
    (options : option (list Z)) :=
  let* regex_length :=
    (if regex_length <? 0 then
       let* r := deref regex in string_length r regex_length
     else Ret regex_length) in
  let regex := match regex with Some r => r | None => [0] end in
  let* options := match options with Some o => c_string o | None => Ret [] end in
  let options_sorted := _bson_append_regex_options_sorted options in
  let* r := bytes_at regex regex_length in
  append_field m 0x0B key key_length (regex_length + 1 + blen options_sorted + 1)
    [Data r; Data [0]; Data (options_sorted ++ [0])].
Definition bson_append_regex m key key_length regex options :=
  bson_append_regex_w_len m key key_length regex (-1) options.

(** ** Sub-documents in place *)
Definition _bson_append_bson_begin (m : bson_mem) (key : list Z) (key_length : Z) (child_type : Z)
    : res (bool * bson_mem) :=
  let* _ := bson_assert (negb (m_rdonly m)) in
  let* key_length := string_length key key_length in
  let* g :=
    (if m_inline m then
       let* _ := bson_assert (l_len (m_top m) <=? 120) in
       match _bson_grow m (128 - l_len (m_top m)) with
       | None => Ret None
       | Some m => let* _ := bson_assert (negb (m_inline m)) in Ret (Some m)
       end
     else Ret (Some m)) in
  match g with
  | None => Ret (false, m)
  | Some m =>
      let* r := append_field m child_type key key_length 5 [Data [5; 0; 0; 0; 0]] in
      let '(ok, m) := r in
      if negb ok then Ret (false, m)
      else
        let child := Level (l_offset (m_top m) + l_len (m_top m) - 1 - 5) 5 in
        Ret (true, Mem (m_inline m) (m_rdonly m) (m_realloc m) (m_buf m) (child :: m_levels m))
  end.
Definition bson_append_document_begin m key key_length := _bson_append_bson_begin m key key_length 0x03.
Definition bson_append_array_begin m key key_length := _bson_append_bson_begin m key key_length 0x04.

Definition _bson_append_bson_end (m : bson_mem) : res bson_mem :=
  match m_levels m with
  | child :: bson :: rest =>
      let len := u32 (l_len bson + l_len child - 5) in
      let m := Mem (m_inline m) (m_rdonly m) (m_realloc m) (m_buf m)
                   (Level (l_offset bson) len :: rest) in
      let* m := mem_write (l_offset bson + len - 1) [0] m in
      _bson_encode_length m
  | _ => Stuck AssertFailed
  end.
Definition bson_append_document_end := _bson_append_bson_end.
Definition bson_append_array_end := _bson_append_bson_end.

(** ** Making documents *)
Definition bson_init : bson_mem :=
  Mem true false false ([5; 0; 0; 0; 0] ++ fresh_bytes 5 BSON_INLINE_DATA_SIZE) [Level 0 5].
Definition bson_sized_new (size : Z) : res bson_mem :=
  let* _ := bson_assert (size <=? INT32_MAX) in
  if size <=? BSON_INLINE_DATA_SIZE then Ret bson_init
  else Ret (Mem false false true ([5; 0; 0; 0; 0] ++ fresh_bytes 5 (Z.max 5 size)) [Level 0 5]).
Definition bson_reinit (m : bson_mem) : res bson_mem :=
  let m := set_len 5 m in
  mem_write (l_offset (m_top m)) [5; 0; 0; 0; 0] m.

(** the bytes of the document the functions are called on ([bson_get_data]
    and [len]) *)
Definition bson_get_data (m : bson_mem) : res bson_t :=
  rd_bytes (Z.to_nat (l_len (m_top m))) (m_buf m) (l_offset (m_top m)).

Definition bson_new_from_data (data : list Z) (length : Z) : res (option bson_mem) :=
  if (length <? 5) || (length >? INT_MAX) then Ret None
  else
    let* last := rd data (length - 1) in
    if negb (last =? 0) then Ret None
    else
      let* len_le := rd_le 4 data 0 in
      if negb (length =? len_le) then Ret None
      else
        let* m := bson_sized_new length in
        let* bytes := rd_bytes (Z.to_nat length) data 0 in
        let* m := mem_write 0 bytes m in
        Ret (Some (set_len length m)).

(** [buf]: [None] is a NULL [*buf]; the memory of [*buf] is exactly [*buf_len] bytes *)
Definition bson_new_from_buffer (buf : option (list Z)) : res (option bson_mem) :=
  match buf with
  | None => Ret (Some (Mem false false true [5; 0; 0; 0; 0] [Level 0 5]))
  | Some buf =>
      if (blen buf <? 5) || (blen buf >? INT_MAX) then Ret None
      else
        let* length := rd_le 4 buf 0 in
        let* last := rd buf (u32 (length - 1)) in
        if negb (last =? 0) then Ret None
        else Ret (Some (Mem false false true buf [Level 0 length]))
  end.

Definition bson_copy (m : bson_mem) : res (option bson_mem) :=
  let* data := bson_get_data m in bson_new_from_data data (l_len (m_top m)).

Definition bson_copy_to (m : bson_mem) : res bson_mem :=
  if m_inline m then Ret (Mem true false false (m_buf m) (m_levels m))
  else
    let* data := bson_get_data m in
    let len := bson_next_power_of_two (l_len (m_top m)) in
    if l_len (m_top m) <=? len then
      Ret (Mem false false true (data ++ fresh_bytes (blen data) len) [Level 0 (l_len (m_top m))])
    else Stuck OutOfBounds.

Definition bson_reserve_buffer (m : bson_mem) (size : Z) : option bson_mem :=
  if (1 <? Z.of_nat (length (m_levels m))) || m_rdonly m then None
  else match _bson_grow m size with
       | None => None
       | Some m => Some (set_len size m)
       end.
End Append.
