(* ===== verification/BsonBuild.v ===== *)
(** The builder implements its contract: what the functions of BsonAppend do to
    the shared, growing buffer is to append encoded fields to a document (or to
    the innermost open sub-document), inside the allocated memory.

    The abstract state is the list of bytes of the fields of the innermost
    document and, for each document around it, the bytes of its fields followed
    by the header (type and key) of the child. *)
From S2P Require Import Prelude CDouble BsonIter BsonAppend.
From Stdlib Require Import ZArith Lia List.
From stdpp Require Import prelude strings.
#[local] Open Scope Z_scope.
#[local] Open Scope mongo_scope.

(** ** Powers of two *)

(** bit [i] of [y] is the disjunction of the [n] bits of [x] from [i] on *)
Definition smeared (n x y : Z) : Prop :=
  0 ≤ y ∧ ∀ i, 0 ≤ i → Z.testbit y i = true ↔ ∃ j, 0 ≤ j < n ∧ Z.testbit x (i + j) = true.
Lemma smear_step n x y : 0 < n → smeared n x y → smeared (2 * n) x (Z.lor y (Z.shiftr y n)).
Proof.
  intros Hn [Hy H]. split; [apply Z.lor_nonneg; split; [done|by apply Z.shiftr_nonneg]|].
  intros i Hi. rewrite Z.lor_spec, Z.shiftr_spec, orb_true_iff, H, H by lia. split.
  - intros [(j & Hj & Hb)|(j & Hj & Hb)].
    + exists j. split; [lia|done].
    + exists (n + j). split; [lia|]. by rewrite Z.add_assoc.
  - intros (j & Hj & Hb). destruct (decide (j < n)); [left; exists j; split; [lia|done]|right].
    exists (j - n). split; [lia|]. by replace (i + n + (j - n)) with (i + j) by lia.
Qed.
Lemma smeared_log2 x y : 0 < x < 2 ^ 63 → smeared 64 x y → y = 2 ^ (Z.log2 x + 1) - 1.
Proof.
  intros Hx [Hy H]. pose proof (Z.log2_nonneg x) as Hl0.
  assert (Hl : Z.log2 x < 63) by (apply Z.log2_lt_pow2; lia).
  apply Z.bits_inj'. intros i Hi.
  replace (2 ^ (Z.log2 x + 1) - 1) with (Z.ones (Z.log2 x + 1)) by (rewrite Z.ones_equiv; lia).
  destruct (decide (i ≤ Z.log2 x)).
  - rewrite Z.ones_spec_low by lia. apply H; [done|]. exists (Z.log2 x - i). split; [lia|].
    replace (i + (Z.log2 x - i)) with (Z.log2 x) by lia. apply Z.bit_log2. lia.
  - rewrite Z.ones_spec_high by lia. apply not_true_is_false. intros Hb.
    apply H in Hb as (j & Hj & Hb); [|done]. rewrite Z.bits_above_log2 in Hb by lia. done.
Qed.
Lemma next_power_of_two_spec v :
  1 ≤ v ≤ 2 ^ 62 → ∃ k, 0 ≤ k ∧ bson_next_power_of_two v = 2 ^ k ∧ v ≤ 2 ^ k < 2 * v.
Proof.
  intros Hv. unfold bson_next_power_of_two. rewrite (u64_small (v - 1)) by lia.
  destruct (decide (v = 1)) as [->|Hne]; [exists 0; cbv; done|].
  set (w := v - 1) in *. assert (H1 : smeared 1 w w).
  { split; [lia|]. intros i Hi. split; [intros Hb; exists 0; by rewrite Z.add_0_r|].
    intros (j & Hj & Hb). by replace (i + j) with i in Hb by lia. }
  apply smear_step in H1; [|lia]. change (2 * 1) with 2 in H1.
  apply smear_step in H1; [|lia]. change (2 * 2) with 4 in H1.
  apply smear_step in H1; [|lia]. change (2 * 4) with 8 in H1.
  apply smear_step in H1; [|lia]. change (2 * 8) with 16 in H1.
  apply smear_step in H1; [|lia]. change (2 * 16) with 32 in H1.
  apply smear_step in H1; [|lia]. change (2 * 32) with 64 in H1.
  apply smeared_log2 in H1; [|lia]. cbv zeta. rewrite H1.
  pose proof (Z.log2_spec w ltac:(lia)) as Hs. pose proof (Z.log2_nonneg w).
  replace (2 ^ (Z.log2 w + 1) - 1 + 1) with (2 ^ (Z.log2 w + 1)) by lia.
  exists (Z.log2 w + 1). split; [lia|]. rewrite Z.add_1_r in *.
  rewrite Z.pow_succ_r in * by lia. split; [apply u64_small; lia|lia].
Qed.
(** the sizes the buffers request *)
Lemma next_power_of_two_1g v : 1 ≤ v ≤ 2 ^ 30 → v ≤ bson_next_power_of_two v ≤ 2 ^ 30.
Proof.
  intros Hv. destruct (next_power_of_two_spec v ltac:(lia)) as (k & Hk & -> & H1 & H2).
  split; [done|]. apply Z.pow_le_mono_r; [lia|].
  assert (2 ^ k < 2 ^ 31) by lia. apply Z.pow_lt_mono_r_iff in H; lia.
Qed.

(** ** The contract *)
Definition doc_bytes (body : list Z) : list Z := le_bytes 4 (5 + blen body) ++ body ++ [0].

(** the memory in front of the innermost document *)
Fixpoint front (outer : list (list Z)) : list Z :=
  match outer with
  | [] => []
  | o :: os => front os ++ le_bytes 4 (10 + blen o) ++ o
  end.
Fixpoint outer_levels (outer : list (list Z)) : list level :=
  match outer with
  | [] => []
  | o :: os => Level (blen (front os)) (10 + blen o) :: outer_levels os
  end.
(** the bytes in use, and one more for the terminator of each enclosing document *)
Definition extent (body : list Z) (outer : list (list Z)) : Z :=
  blen (front outer) + (5 + blen body) + Z.of_nat (length outer).

Record builds (m : bson_mem) (body : list Z) (outer : list (list Z)) : Prop := {
  b_rdonly : m_rdonly m = false;
  b_levels : m_levels m = Level (blen (front outer)) (5 + blen body) :: outer_levels outer;
  b_buf : ∃ rest, m_buf m = front outer ++ doc_bytes body ++ rest;
  b_room : extent body outer ≤ blen (m_buf m);
  b_max : blen (m_buf m) ≤ INT32_MAX;
  b_kind : if m_inline m then outer = [] ∧ blen (m_buf m) = BSON_INLINE_DATA_SIZE else m_realloc m = true
}.

Lemma blen_doc_bytes body : blen (doc_bytes body) = 5 + blen body.
Proof. unfold doc_bytes. autorewrite with blen. change (blen []) with 0. lia. Qed.
Lemma builds_top m body outer :
  builds m body outer → m_top m = Level (blen (front outer)) (5 + blen body).
Proof. intros H. unfold m_top. by rewrite (b_levels _ _ _ H). Qed.
Lemma length_outer_levels outer : length (outer_levels outer) = length outer.
Proof. induction outer; simpl; auto. Qed.
Lemma builds_depth m body outer : builds m body outer → m_depth m = Z.of_nat (length outer).
Proof.
  intros H. unfold m_depth. rewrite (b_levels _ _ _ H). cbn [length].
  rewrite length_outer_levels. lia.
Qed.

(** ** Writes *)
Lemma mem_write_app m A B k o :
  m_buf m = A ++ B → o = blen A → blen k ≤ blen B →
  mem_write o k m = Ret (set_buf (A ++ k ++ drop (length k) B) m).
Proof.
  intros Hb -> Hk. unfold mem_write. rewrite Hb, blen_app. pose proof (blen_nonneg A).
  destruct (Z.leb_spec 0 (blen A)); [|lia].
  destruct (Z.leb_spec (blen A + blen k) (blen A + blen B)); [|lia]. cbn [andb].
  unfold blen. rewrite Nat2Z.id, take_app_length. do 4 f_equal.
  by rewrite <- drop_drop, drop_app_length.
Qed.

Lemma set_len_top n m : m_levels m ≠ [] → l_len (m_top (set_len n m)) = n.
Proof. by destruct m as [? ? ? ? [|? ?]]. Qed.
Lemma append_chunks_data ls m A B pos :
  m_levels m ≠ [] → m_buf m = A ++ B → pos = blen A → blen (concat ls) ≤ blen B →
  0 ≤ l_len (m_top m) → l_len (m_top m) + blen (concat ls) < 2 ^ 32 →
  append_chunks (map Data ls) m pos
  = Ret (true, set_len (l_len (m_top m) + blen (concat ls))
                 (set_buf (A ++ concat ls ++ drop (length (concat ls)) B) m),
         pos + blen (concat ls)).
Proof.
  revert m A B pos. induction ls as [|l ls IH]; intros m A B pos Hlv Hb Hpos Hroom Hl Hmax.
  - cbn [map append_chunks concat]. change (blen []) with 0. rewrite !Z.add_0_r. cbn [app length].
    rewrite drop_0. destruct m as [i r re b [|[lo ll] lvs]]; [done|]. cbn in Hb. by subst b.
  - cbn [map append_chunks concat] in *. rewrite blen_app in *.
    pose proof (blen_nonneg (concat ls)). pose proof (blen_nonneg l).
    destruct (Z.eqb_spec (blen l) 0) as [Hz|Hz].
    + destruct l; [|rewrite blen_cons in Hz; pose proof (blen_nonneg l); lia].
      cbn [app length]. rewrite Hz, Z.add_0_l in *. by apply IH.
    + rewrite (mem_write_app m A B l pos) by (done || lia). cbn [bind].
      change (m_top (set_buf (A ++ l ++ drop (length l) B) m)) with (m_top m).
      rewrite u32_small by lia.
      set (m1 := set_len _ _).
      assert (Hl1 : l_len (m_top m1) = l_len (m_top m) + blen l) by (by apply set_len_top).
      rewrite (IH m1 (A ++ l) (drop (length l) B)).
      * rewrite Hl1. destruct m as [i r re b [|lv lvs]]; [done|]. cbn.
        by rewrite <- !app_assoc, drop_drop, length_app, !Z.add_assoc.
      * destruct m as [i r re b [|lv lvs]]; done.
      * destruct m as [i r re b [|lv lvs]]; cbn; by rewrite <- app_assoc.
      * rewrite blen_app. lia.
      * unfold blen in *. rewrite length_drop. lia.
      * lia.
      * lia.
Qed.

Section Refinement.
Variable fresh : Z → Z.

Lemma fresh_blen from to : from ≤ to → blen (fresh_bytes fresh from to) = to - from.
Proof. intros H. unfold fresh_bytes, blen. rewrite length_map, length_seq. lia. Qed.

(** A growth that fails asked for more than a gigabyte. *)
Lemma grow_builds m body outer size :
  builds m body outer → 0 ≤ size < 2 ^ 32 →
  match _bson_grow fresh m size with
  | Some m' => builds m' body outer ∧ extent body outer + size ≤ blen (m_buf m')
               ∧ (m_inline m = false → m_inline m' = false)
  | None => 2 ^ 30 < extent body outer + size
  end.
Proof.
  intros Hb Hs. pose proof Hb as [Hro Hlv (rest & Hbuf) Hroom Hmax Hkind].
  pose proof (blen_nonneg (front outer)). pose proof (blen_nonneg body).
  unfold _bson_grow, _bson_impl_inline_grow, _bson_impl_alloc_grow.
  rewrite (builds_top _ _ _ Hb), (builds_depth _ _ _ Hb). cbn [l_len l_offset].
  unfold INT32_MAX in *. destruct (m_inline m) eqn:Einl.
  - destruct Hkind as [-> Hk]. unfold BSON_INLINE_DATA_SIZE, extent in *. cbn [front length] in *.
    change (blen []) with 0 in *. cbn [Z.of_nat] in *.
    destruct (Z.leb_spec (5 + blen body + size) 120); [split; [done|]; split; [lia|congruence]|].
    pose proof (next_power_of_two_spec (5 + blen body + size) ltac:(lia)) as (k & Hk0 & Enp & Hlo & Hhi).
    pose proof (next_power_of_two_1g (5 + blen body + size)) as H1g.
    case_if; [|lia]. rewrite Enp in *.
    assert (Hf : blen (fresh_bytes fresh (5 + blen body) (2 ^ k)) = 2 ^ k - (5 + blen body))
      by (apply fresh_blen; lia).
    assert (Htake : take (Z.to_nat (5 + blen body)) (m_buf m) = doc_bytes body).
    { rewrite Hbuf. cbn [app]. rewrite <- blen_doc_bytes. unfold blen. rewrite Nat2Z.id.
      by rewrite take_app_length. }
    rewrite Htake.
    assert (Hbl : blen (doc_bytes body ++ fresh_bytes fresh (5 + blen body) (2 ^ k)) = 2 ^ k).
    { rewrite blen_app, blen_doc_bytes, Hf. lia. }
    split; [|split; [cbn [m_buf]; lia|done]]. constructor; cbn [m_rdonly m_levels m_buf m_inline m_realloc]; try done.
    + by exists (fresh_bytes fresh (5 + blen body) (2 ^ k)).
    + unfold extent. cbn [front length]. change (blen []) with 0. lia.
    + unfold INT32_MAX. lia.
  - assert (Eext : blen (front outer) + (5 + blen body) + size + Z.of_nat (length outer)
              = extent body outer + size) by (unfold extent; lia).
    rewrite Eext. destruct (Z.leb_spec (extent body outer + size) (blen (m_buf m))); [split; [done|]; split; [lia|congruence]|].
    assert (0 < extent body outer) by (unfold extent; lia).
    assert (extent body outer ≤ 2147483647) by lia.
    pose proof (next_power_of_two_spec (extent body outer + size) ltac:(lia)) as (k & Hk0 & Enp & Hlo & Hhi).
    pose proof (next_power_of_two_1g (extent body outer + size)) as H1g.
    rewrite Hkind, andb_true_r. case_if; [|lia]. rewrite Enp in *.
    rewrite (firstn_all2 (m_buf m)) by (unfold blen in *; lia).
    assert (Hbl : blen (m_buf m ++ fresh_bytes fresh (blen (m_buf m)) (2 ^ k)) = 2 ^ k).
    { rewrite blen_app, fresh_blen by lia. lia. }
    split; [|split; [cbn [set_buf m_buf]; lia|done]].
    constructor; cbn [set_buf m_rdonly m_levels m_buf m_inline m_realloc]; try done; try lia.
    + exists (rest ++ fresh_bytes fresh (blen (m_buf m)) (2 ^ k)). rewrite Hbuf. by rewrite <- !app_assoc.
    + unfold INT32_MAX. lia.
    + by rewrite Einl.
Qed.

(** One append: all of its chunks at the end of the innermost document, or
    nothing at all and [false] when the buffer cannot grow enough. *)
Lemma append_builds m body outer ls :
  builds m body outer → blen (concat ls) < 2 ^ 31 →
  returns (_bson_append fresh m (blen (concat ls)) (map Data ls)) (λ '(ok, m'),
    if ok : bool then builds m' (body ++ concat ls) outer ∧ (m_inline m = false → m_inline m' = false)
    else m' = m ∧ 2 ^ 30 < extent body outer + blen (concat ls)).
Proof.
  intros Hb Hn. pose proof (blen_nonneg (concat ls)) as Hn0.
  pose proof (blen_nonneg (front outer)). pose proof (blen_nonneg body).
  unfold _bson_append, BSON_MAX_SIZE. rewrite (builds_top _ _ _ Hb). cbn [l_len].
  case_head; [cbn [returns]; split; [done|]; unfold extent; lia|].
  unfold _bson_append_va. rewrite (b_rdonly _ _ _ Hb). cbn [negb bson_assert bind].
  pose proof (grow_builds m body outer (blen (concat ls)) Hb ltac:(lia)) as Hg.
  destruct (_bson_grow fresh m (blen (concat ls))) as [m1|]; [|done].
  destruct Hg as (Hb1 & Hroom & Hheap). pose proof Hb1 as [Hro Hlv (rest & Hbuf) _ Hmax Hkind].
  pose proof (builds_top _ _ _ Hb1) as Htop. rewrite Htop. cbn [l_len l_offset].
  assert (Hsplit : m_buf m1 = (front outer ++ le_bytes 4 (5 + blen body) ++ body) ++ (0 :: rest)).
  { rewrite Hbuf. unfold doc_bytes. by rewrite <- !app_assoc. }
  assert (Hrest : blen (concat ls) ≤ blen (0 :: rest) - 1).
  { apply (f_equal blen) in Hsplit. rewrite !blen_app, blen_le_bytes in Hsplit. unfold extent in Hroom. lia. }
  rewrite (append_chunks_data ls m1 (front outer ++ le_bytes 4 (5 + blen body) ++ body) (0 :: rest));
    [|by rewrite Hlv|done|rewrite !blen_app, blen_le_bytes; lia|lia|rewrite Htop; cbn [l_len]; lia
     |rewrite Htop; cbn [l_len]; lia].
  rewrite Htop. cbn [l_len negb bind].
  set (tail := drop (length (concat ls)) (0 :: rest)).
  set (m2 := set_len _ _).
  assert (Hm2 : m2 = Mem (m_inline m1) (m_rdonly m1) (m_realloc m1)
    (front outer ++ le_bytes 4 (5 + blen body) ++ (body ++ concat ls) ++ tail)
    (Level (blen (front outer)) (5 + blen body + blen (concat ls)) :: outer_levels outer)).
  { unfold m2, set_len, set_top, set_buf, m_top. cbn. rewrite Hlv. cbn. by rewrite <- !app_assoc. }
  rewrite Hm2. unfold _bson_encode_length. cbn [m_top m_levels l_offset l_len].
  assert (Htl : blen tail = blen (0 :: rest) - blen (concat ls)).
  { unfold tail, blen in *. rewrite length_drop. lia. }
  erewrite mem_write_app; [|reflexivity|reflexivity|rewrite !blen_app, !blen_le_bytes; lia].
  cbn [bind]. rewrite length_le_bytes.
  rewrite (drop_app_length' (le_bytes 4 (5 + blen body))) by (by rewrite length_le_bytes).
  set (len' := 5 + blen body + blen (concat ls)).
  rewrite (mem_write_app _ (front outer ++ le_bytes 4 len' ++ (body ++ concat ls)) tail);
    [|cbn [set_buf m_buf]; by rewrite <- !app_assoc
     |rewrite !blen_app, blen_le_bytes; lia|change (blen [0]) with 1; lia].
  cbn [returns set_buf m_inline m_rdonly m_realloc m_levels].
  assert (Hbl : blen ((front outer ++ le_bytes 4 len' ++ body ++ concat ls) ++ [0] ++ drop (length [0]) tail)
                = blen (m_buf m1)).
  { rewrite Hsplit. rewrite !blen_app, !blen_le_bytes. change (length [0]) with 1%nat.
    destruct tail as [|t tail']; [change (blen []) with 0 in Htl; lia|]. cbn [drop]. rewrite drop_0.
    rewrite blen_cons in Htl. change (blen [0]) with 1. lia. }
  split; [|done]. constructor; cbn [set_buf m_rdonly m_levels m_buf m_inline m_realloc]; rewrite ?Hbl; try done.
  - by rewrite blen_app, Z.add_assoc.
  - exists (drop (length [0]) tail). unfold doc_bytes. rewrite blen_app, <- !app_assoc.
    unfold len'. by rewrite Z.add_assoc.
  - unfold extent in *. rewrite blen_app. lia.
Qed.

(** ** Fields *)

(** the arguments [key], [key_length] of an append function denote the key [k] *)
Definition key_arg (key : list Z) (key_length : Z) (k : list Z) : Prop :=
  blen k < 2 ^ 29 ∧ Forall (λ b, b ≠ 0) k
  ∧ ((key_length < 0 ∧ ∃ r, key = k ++ 0 :: r) ∨ (key_length = blen k ∧ ∃ r, key = k ++ r)).

Lemma rd_bytes_app_l k r : rd_bytes (length k) (k ++ r) 0 = Ret k.
Proof.
  enough (H : ∀ pre, rd_bytes (length k) (pre ++ k ++ r) (blen pre) = Ret k) by apply (H []).
  induction k as [|b k IH]; intros pre; [done|]. cbn [length]. rewrite rd_bytes_S.
  replace (blen pre) with (blen pre + 0) at 1 by lia. rewrite rd_app_r by lia.
  change (rd ((b :: k) ++ r) 0) with (Ret b). cbn [bind].
  specialize (IH (pre ++ [b])). rewrite <- app_assoc, blen_app in IH.
  change (blen pre + 1) with (blen pre + blen [b]). cbn [app] in IH |- *. by rewrite IH.
Qed.
Lemma bytes_at_app k r : blen k < 2 ^ 32 → bytes_at (k ++ r) (blen k) = Ret k.
Proof.
  intros H. unfold bytes_at. pose proof (blen_nonneg k). rewrite u32_small by lia.
  unfold blen. rewrite Nat2Z.id. apply rd_bytes_app_l.
Qed.
Lemma key_arg_reads key kl k :
  key_arg key kl k → string_length key kl = Ret (blen k) ∧ bytes_at key (blen k) = Ret k.
Proof.
  intros (Hk & Hnz & Hcase). pose proof (blen_nonneg k). unfold string_length.
  destruct Hcase as [[Hkl [r ->]]|[-> [r ->]]].
  - destruct (Z.ltb_spec kl 0); [|lia]. rewrite c_string_app by done. cbn [bind].
    rewrite s32_small by (unfold in_s32; lia). split; [done|]. apply bytes_at_app. lia.
  - destruct (Z.ltb_spec (blen k) 0); [lia|]. split; [done|]. apply bytes_at_app. lia.
Qed.

Lemma key_arg_resolved key kl k : key_arg key kl k → key_arg key (blen k) k.
Proof.
  intros (Hk & Hnz & [[_ [r ->]]|[_ [r ->]]]); (split; [done|]); (split; [done|]); right; eauto.
Qed.

(** the bytes of a field *)
Definition field_bytes (type : Z) (k value : list Z) : list Z := type :: k ++ 0 :: value.

(** what an append of [bytes] to [m] guarantees *)
Definition appends (r : res (bool * bson_mem)) (m : bson_mem) (body : list Z)
    (outer : list (list Z)) (bytes : list Z) : Prop :=
  returns r (λ '(ok, m'),
    if ok : bool then builds m' (body ++ bytes) outer ∧ (m_inline m = false → m_inline m' = false)
    else m' = m ∧ 2 ^ 30 < extent body outer + blen bytes).

Lemma appends_fits r m body outer bytes :
  appends r m body outer bytes → extent body outer + blen bytes ≤ 2 ^ 30 →
  ∃ m', r = Ret (true, m') ∧ builds m' (body ++ bytes) outer.
Proof.
  unfold appends. intros H Hf. apply returns_Ret in H as ([[] m'] & -> & H); [|lia].
  destruct H as [H _]. eauto.
Qed.

Lemma append_field_builds m body outer type key kl k size ls :
  builds m body outer → key_arg key kl k → size = blen (concat ls) → size < 2 ^ 30 →
  appends (append_field fresh m type key kl size (map Data ls)) m body outer
    (field_bytes type k (concat ls)).
Proof.
  intros Hb Hkey -> Hs. destruct (key_arg_reads _ _ _ Hkey) as [Hlen Hk].
  destruct Hkey as (Hkmax & _ & _). pose proof (blen_nonneg k). pose proof (blen_nonneg (concat ls)).
  unfold appends, append_field. rewrite Hlen. cbn [bind]. rewrite Hk. cbn [bind].
  assert (E : blen (concat ([type] :: k :: [0] :: ls)) = 1 + blen k + 1 + blen (concat ls)).
  { cbn [concat]. rewrite !blen_app. change (blen [type]) with 1. change (blen [0]) with 1. lia. }
  rewrite u32_small by lia. rewrite <- E.
  change (Data [type] :: Data k :: Data [0] :: map Data ls) with (map Data ([type] :: k :: [0] :: ls)).
  change (field_bytes type k (concat ls)) with (concat ([type] :: k :: [0] :: ls)).
  apply append_builds; [done|]. rewrite E. lia.
Qed.

(** ** Sub-documents *)
Lemma begin_builds m body outer key kl k type :
  builds m body outer → key_arg key kl k →
  returns (_bson_append_bson_begin fresh m key kl type) (λ '(ok, m'),
    if ok : bool then builds m' [] ((body ++ type :: k ++ [0]) :: outer)
    else builds m' body outer ∧ 2 ^ 30 < extent body outer + 128 + blen k).
Proof.
  intros Hb Hkey. pose proof (blen_nonneg k) as Hk0. pose proof (blen_nonneg body).
  pose proof (blen_nonneg (front outer)).
  destruct (key_arg_reads _ _ _ Hkey) as [Hlen Hk]. unfold _bson_append_bson_begin.
  rewrite (b_rdonly _ _ _ Hb), Hlen. cbn [negb bson_assert bind].
  assert (Hheap : returns (if m_inline m then
      let* _ := bson_assert (l_len (m_top m) <=? 120) in
      match _bson_grow fresh m (128 - l_len (m_top m)) with
      | None => Ret None
      | Some m => let* _ := bson_assert (negb (m_inline m)) in Ret (Some m)
      end else Ret (Some m))
    (λ g, match g with Some m1 => builds m1 body outer ∧ m_inline m1 = false | None => False end)).
  { destruct (m_inline m) eqn:Ei; [|done]. pose proof Hb as [_ _ _ Hroom _ Hkind].
    rewrite Ei in Hkind. destruct Hkind as [-> Hbl]. rewrite (builds_top _ _ _ Hb). cbn [l_len].
    unfold extent, BSON_INLINE_DATA_SIZE in *. cbn [front length] in *. change (blen []) with 0 in *.
    destruct (Z.leb_spec (5 + blen body) 120); [|lia]. cbn [bson_assert bind].
    pose proof (grow_builds m body [] (128 - (5 + blen body)) Hb ltac:(lia)) as Hg.
    unfold extent in Hg. cbn [front length] in Hg. change (blen []) with 0 in Hg.
    destruct (_bson_grow fresh m _) as [m1|]; [|lia]. destruct Hg as (Hb1 & Hr1 & _).
    destruct (m_inline m1) eqn:Ei1; [|done]. pose proof (b_kind _ _ _ Hb1) as Hk1.
    rewrite Ei1 in Hk1. unfold BSON_INLINE_DATA_SIZE in Hk1. lia. }
  apply returns_Ret in Hheap as ([m1|] & Hg & Hb1); [|done]. rewrite Hg. cbn [bind].
  destruct Hb1 as [Hb1 Hi1].
  pose proof (append_field_builds m1 body outer type key (blen k) k 5 [[5; 0; 0; 0; 0]] Hb1
    (key_arg_resolved _ _ _ Hkey) eq_refl ltac:(lia)) as Happ.
  refine (returns_bind _ _ _ _ Happ _). intros [[] m2]; cbn [negb]; cbn [returns concat app].
  2: { intros [-> Hbig]. split; [done|]. unfold field_bytes in Hbig.
       autorewrite with blen in Hbig. change (blen []) with 0 in Hbig. lia. }
  intros [Hb2 Hi2]. rewrite (builds_top _ _ _ Hb2). cbn [l_offset l_len].
  pose proof Hb2 as [Hro Hlv (rest & Hbuf) Hroom Hmax Hkind].
  unfold field_bytes in *. set (o := body ++ type :: k ++ [0]).
  assert (Ebody : body ++ type :: k ++ 0 :: [5; 0; 0; 0; 0] = o ++ [5; 0; 0; 0; 0]).
  { unfold o. rewrite <- !app_assoc. cbn [app]. by rewrite <- app_assoc. }
  rewrite Ebody in *. rewrite blen_app in *. change (blen [5; 0; 0; 0; 0]) with 5 in *.
  constructor; cbn [m_rdonly m_levels m_buf m_inline m_realloc]; try done.
  - cbn [front outer_levels]. rewrite Hlv, !blen_app, blen_le_bytes. change (blen []) with 0.
    replace (blen (front outer) + (5 + (blen o + 5)) - 1 - 5)
      with (blen (front outer) + (Z.of_nat 4 + blen o)) by lia.
    replace (5 + (blen o + 5)) with (10 + blen o) by lia. by rewrite Z.add_0_r.
  - exists (0 :: rest). rewrite Hbuf. cbn [front]. unfold doc_bytes. rewrite blen_app.
    change (blen [5; 0; 0; 0; 0]) with 5. change (blen []) with 0.
    replace (5 + (blen o + 5)) with (10 + blen o) by lia. rewrite <- !app_assoc. done.
  - unfold extent in *. cbn [front length]. rewrite !blen_app, blen_le_bytes in *.
    change (blen [5; 0; 0; 0; 0]) with 5 in *. change (blen []) with 0. lia.
  - rewrite (Hi2 Hi1) in *. done.
Qed.

Lemma end_builds m body o os :
  builds m body (o :: os) →
  returns (_bson_append_bson_end m) (λ m', builds m' (o ++ doc_bytes body) os).
Proof.
  intros Hb. pose proof Hb as [Hro Hlv (rest & Hbuf) Hroom Hmax Hkind].
  unfold _bson_append_bson_end. rewrite Hlv. cbn [outer_levels l_len l_offset].
  unfold extent, INT32_MAX in *. cbn [front length] in *. rewrite !blen_app, blen_le_bytes in *.
  pose proof (blen_nonneg (front os)). pose proof (blen_nonneg o). pose proof (blen_nonneg body).
  replace (10 + blen o + (5 + blen body) - 5) with (5 + blen (o ++ doc_bytes body))
    by (rewrite blen_app, blen_doc_bytes; lia).
  assert (Hl : 5 + blen (o ++ doc_bytes body) = 10 + blen o + blen body) by (rewrite blen_app, blen_doc_bytes; lia).
  rewrite u32_small by lia. set (len := 5 + blen (o ++ doc_bytes body)) in *.
  assert (Hrest : 1 ≤ blen rest).
  { apply (f_equal blen) in Hbuf. rewrite !blen_app, blen_le_bytes, blen_doc_bytes in Hbuf. lia. }
  set (A := front os ++ le_bytes 4 (10 + blen o) ++ o ++ doc_bytes body).
  rewrite (mem_write_app _ A rest).
  2: { cbn [m_buf]. rewrite Hbuf. unfold A. by rewrite <- !app_assoc. }
  2: { unfold A. rewrite !blen_app, blen_le_bytes, blen_doc_bytes. lia. }
  2: { change (blen [0]) with 1. lia. }
  cbn [bind]. unfold _bson_encode_length.
  cbn [set_buf m_top m_levels l_offset l_len m_inline m_rdonly m_realloc m_buf].
  rewrite (mem_write_app _ (front os)
    (le_bytes 4 (10 + blen o) ++ o ++ doc_bytes body ++ [0] ++ drop (length [0]) rest)).
  2: { cbn [m_buf]. unfold A. by rewrite <- !app_assoc. }
  2: done.
  2: { rewrite blen_app, !blen_le_bytes.
       pose proof (blen_nonneg (o ++ doc_bytes body ++ [0] ++ drop (length [0]) rest)). lia. }
  cbn [returns set_buf m_inline m_rdonly m_realloc m_buf m_levels].
  rewrite length_le_bytes, (drop_app_length' (le_bytes 4 (10 + blen o))) by (by rewrite length_le_bytes).
  assert (Hlast : [0] ++ drop (length [0]) rest = 0 :: drop 1 rest) by done.
  assert (Hbl : blen (front os ++ le_bytes 4 len ++ o ++ doc_bytes body ++ [0] ++ drop (length [0]) rest)
                = blen (m_buf m)).
  { rewrite Hbuf, Hlast. rewrite !blen_app, !blen_le_bytes, blen_cons. unfold blen in *.
    rewrite length_drop. lia. }
  constructor; cbn [set_buf m_rdonly m_levels m_buf m_inline m_realloc]; rewrite ?Hbl; try done.
  - exists (drop 1 rest). unfold doc_bytes at 2. fold len. rewrite <- !app_assoc. done.
  - unfold extent. fold len. lia.
  - destruct (m_inline m); [|done]. destruct Hkind as [? ?]. done.
Qed.
End Refinement.
