(* ===== verification/BsonValue.v ===== *)
(** Values: [bson_value_t], reading one from an iterator (bson_iter_value),
    appending one (bson_append_value, bson_append_iter), joining and copying
    documents (bson_concat, bson_copy_to_excluding); and the round trips between
    the builder and the iterator.  The last part is the safety of every getter.

    Pointers in a value are memory from the pointer on; lengths are as the code
    keeps them. *)
From S2P Require Import Prelude CDouble BsonIter BsonIterSafe BsonFields BsonAppend BsonBuild.
From Stdlib Require Import ZArith Lia List.
From stdpp Require Import prelude strings.
#[local] Open Scope Z_scope.
#[local] Open Scope mongo_scope.

Inductive bson_value_t :=
| v_double (bits : Z)
| v_utf8 (str : option (list Z)) (len : Z)
| v_doc (data : option (list Z)) (data_len : Z)
| v_array (data : option (list Z)) (data_len : Z)
| v_binary (data : option (list Z)) (data_len subtype : Z)
| v_undefined
| v_oid (bytes : list Z)
| v_bool (b : bool)
| v_datetime (x : Z)
| v_null
| v_regex (regex options : option (list Z))
| v_dbpointer (collection : option (list Z)) (collection_len : Z) (oid : list Z)
| v_code (code : option (list Z)) (code_len : Z)
| v_symbol (symbol : option (list Z)) (len : Z)
| v_codewscope (code scope_data : option (list Z)) (code_len scope_len : Z)
| v_int32 (x : Z)
| v_timestamp (timestamp increment : Z)
| v_int64 (x : Z)
| v_decimal128 (low high : Z)
| v_maxkey
| v_minkey.

(** [None] is the NULL return *)
Definition bson_iter_value (it : bson_iter_t) : res (option bson_value_t) :=
  let* t := ITER_TYPE it in
  match t with
  | BSON_TYPE_DOUBLE => let* d := bson_iter_double it in Ret (Some (v_double d))
  | BSON_TYPE_UTF8 => let* r := bson_iter_utf8 it true in Ret (Some (v_utf8 r.1 r.2))
  | BSON_TYPE_DOCUMENT => let* r := bson_iter_document it in Ret (Some (v_doc r.2 r.1))
  | BSON_TYPE_ARRAY => let* r := bson_iter_array it in Ret (Some (v_array r.2 r.1))
  | BSON_TYPE_BINARY =>
      let* r := bson_iter_binary it in
      let '(subtype, len, data) := r in Ret (Some (v_binary data len subtype))
  | BSON_TYPE_OID =>
      let* p := bson_iter_oid it in
      let* p := deref p in
      let* oid := rd_bytes 12 p 0 in Ret (Some (v_oid oid))
  | BSON_TYPE_BOOL => let* b := bson_iter_bool it in Ret (Some (v_bool b))
  | BSON_TYPE_DATE_TIME => let* x := bson_iter_date_time it in Ret (Some (v_datetime x))
  | BSON_TYPE_REGEX => let* r := bson_iter_regex it in Ret (Some (v_regex r.1 r.2))
  | BSON_TYPE_DBPOINTER =>
      let* r := bson_iter_dbpointer it in
      let '(len, collection, oid) := r in
      let* p := deref oid in
      let* oid := rd_bytes 12 p 0 in
      Ret (Some (v_dbpointer collection (default 0 len) oid))
  | BSON_TYPE_CODE => let* r := bson_iter_code it true in Ret (Some (v_code r.1 r.2))
  | BSON_TYPE_SYMBOL => let* r := bson_iter_symbol it in Ret (Some (v_symbol r.1 r.2))
  | BSON_TYPE_CODEWSCOPE =>
      let* r := bson_iter_codewscope it in
      let '(code, len, scope_len, scope) := r in
      Ret (Some (v_codewscope code scope len scope_len))
  | BSON_TYPE_INT32 => let* x := bson_iter_int32 it in Ret (Some (v_int32 x))
  | BSON_TYPE_TIMESTAMP => let* r := bson_iter_timestamp it in Ret (Some (v_timestamp r.1 r.2))
  | BSON_TYPE_INT64 => let* x := bson_iter_int64 it in Ret (Some (v_int64 x))
  | BSON_TYPE_DECIMAL128 =>
      let* r := bson_iter_decimal128 it in
      Ret (Some (match r with Some (l, h) => v_decimal128 l h | None => v_decimal128 0 0 end))
  | BSON_TYPE_NULL => Ret (Some v_null)
  | BSON_TYPE_UNDEFINED => Ret (Some v_undefined)
  | BSON_TYPE_MAXKEY => Ret (Some v_maxkey)
  | BSON_TYPE_MINKEY => Ret (Some v_minkey)
  | BSON_TYPE_EOD | BSON_TYPE_OTHER _ => Ret None
  end.

Section Append.
Variable fresh : Z → Z.

(** [if (bson_init_static (&local, data, len)) ret = append (&local)] *)
Definition with_static (m : bson_mem) (data : option (list Z)) (len : Z)
    (k : bson_t → res (bool * bson_mem)) : res (bool * bson_mem) :=
  match data with
  | None => Stuck AssertFailed
  | Some data =>
      let* b := bson_init_static data len in
      match b with Some b => k b | None => Ret (false, m) end
  end.

Definition bson_append_value (m : bson_mem) (key : list Z) (key_length : Z) (value : bson_value_t)
    : res (bool * bson_mem) :=
  match value with
  | v_double d => bson_append_double fresh m key key_length d
  | v_utf8 str len => bson_append_utf8 fresh m key key_length str (s32 len)
  | v_doc data len => with_static m data len (bson_append_document fresh m key key_length)
  | v_array data len => with_static m data len (bson_append_array fresh m key key_length)
  | v_binary data len subtype => bson_append_binary fresh m key key_length subtype data len
  | v_undefined => bson_append_undefined fresh m key key_length
  | v_oid oid => bson_append_oid fresh m key key_length oid
  | v_bool b => bson_append_bool fresh m key key_length b
  | v_datetime x => bson_append_date_time fresh m key key_length x
  | v_null => bson_append_null fresh m key key_length
  | v_regex regex options => bson_append_regex fresh m key key_length regex options
  | v_dbpointer collection _ oid =>
      let* c := deref collection in bson_append_dbpointer fresh m key key_length c oid
  | v_code code _ => let* c := deref code in bson_append_code fresh m key key_length c
  | v_symbol symbol len => bson_append_symbol fresh m key key_length symbol (s32 len)
  | v_codewscope code scope _ scope_len =>
      with_static m scope scope_len (λ local,
        let* c := deref code in
        bson_append_code_with_scope fresh m key key_length c (Some local))
  | v_int32 x => bson_append_int32 fresh m key key_length x
  | v_timestamp t i => bson_append_timestamp fresh m key key_length t i
  | v_int64 x => bson_append_int64 fresh m key key_length x
  | v_decimal128 l h => bson_append_decimal128 fresh m key key_length l h
  | v_maxkey => bson_append_maxkey fresh m key key_length
  | v_minkey => bson_append_minkey fresh m key key_length
  end.

(** [key] is NULL: the key of the field.  The cases of the switch read the
    same values as bson_iter_value and append them as bson_append_value does. *)
Definition bson_append_iter (m : bson_mem) (key : option (list Z)) (key_length : Z)
    (it : bson_iter_t) : res (bool * bson_mem) :=
  let* kk := match key with
             | Some key => Ret (key, key_length)
             | None => let* key := bson_iter_key it in Ret (key, -1)
             end in
  let* v := bson_iter_value it in
  match v with
  | None => Ret (false, m)
  | Some v => bson_append_value m kk.1 kk.2 v
  end.

(** ** Whole documents *)
Definition bson_concat (m : bson_mem) (src : bson_t) : res (bool * bson_mem) :=
  let* e := bson_empty src in
  if e : bool then Ret (true, m)
  else
    let n := u32 (blen src - 5) in
    let* b := rd_bytes (Z.to_nat n) src 4 in
    _bson_append fresh m n [Data b].

Definition should_ignore (excludes : list (list Z)) (name : list Z) : bool :=
  existsb (streq name) excludes.
Definition bson_copy_to_excluding_noinit_va (src : bson_t) (m : bson_mem)
    (excludes : list (list Z)) : res bson_mem :=
  let '(ok, it) := bson_iter_init src in
  if ok then
    let* r := for_each_field (λ it m,
      let* p := bson_iter_key it in
      let* name := c_string p in
      if should_ignore excludes name then Ret (true, m)
      else
        let* r := bson_append_iter m None 0 it in
        let* _ := bson_assert r.1 in Ret (true, r.2)) it m in
    Ret r.2
  else Ret m.
Definition bson_copy_to_excluding (src : bson_t) (excludes : list (list Z)) : res bson_mem :=
  bson_copy_to_excluding_noinit_va src (bson_init fresh) excludes.
End Append.

(** ** What a value encodes to: its type and the bytes after the key *)
Definition encode_string (type : Z) (s : list Z) (len : Z) : res (Z * list Z) :=
  let* b := bytes_at s len in Ret (type, le_bytes 4 (len + 1) ++ b ++ [0]).
Definition encode_static (type : Z) (data : option (list Z)) (len : Z) : res (Z * list Z) :=
  let* data := deref data in
  let* b := bson_init_static data len in
  let* b := deref b in Ret (type, b).
Definition encode_value (v : bson_value_t) : res (Z * list Z) :=
  match v with
  | v_double d => Ret (0x01, le_bytes 8 d)
  | v_utf8 str len => let* s := deref str in encode_string 0x02 s len
  | v_doc data len => encode_static 0x03 data len
  | v_array data len => encode_static 0x04 data len
  | v_binary data len subtype =>
      let* data := deref data in
      let* b := bytes_at data len in
      if subtype =? BSON_SUBTYPE_BINARY_DEPRECATED
      then Ret (0x05, le_bytes 4 (len + 4) ++ [u8 subtype] ++ le_bytes 4 len ++ b)
      else Ret (0x05, le_bytes 4 len ++ [u8 subtype] ++ b)
  | v_undefined => Ret (0x06, [])
  | v_oid oid => let* b := rd_bytes 12 oid 0 in Ret (0x07, b)
  | v_bool b => Ret (0x08, [Z.b2z b])
  | v_datetime x => Ret (0x09, le_bytes 8 x)
  | v_null => Ret (0x0A, [])
  | v_regex regex options =>
      let* r := deref regex in
      let* r := c_string r in
      let* o := deref options in
      let* o := c_string o in
      Ret (0x0B, r ++ [0] ++ _bson_append_regex_options_sorted o ++ [0])
  | v_dbpointer collection _ oid =>
      let* c := deref collection in
      let* c := c_string c in
      let* b := rd_bytes 12 oid 0 in
      Ret (0x0C, le_bytes 4 (blen c + 1) ++ (c ++ [0]) ++ b)
  | v_code code _ =>
      let* c := deref code in
      let* c := c_string c in Ret (0x0D, le_bytes 4 (blen c + 1) ++ c ++ [0])
  | v_symbol symbol len => let* s := deref symbol in encode_string 0x0E s len
  | v_codewscope code scope _ scope_len =>
      let* c := deref code in
      let* c := c_string c in
      let* s := encode_static 0x03 scope scope_len in
      Ret (0x0F, le_bytes 4 (8 + (blen c + 1) + blen s.2) ++ le_bytes 4 (blen c + 1) ++ (c ++ [0]) ++ s.2)
  | v_int32 x => Ret (0x10, le_bytes 4 x)
  | v_timestamp t i => Ret (0x11, le_bytes 8 (Z.lor (u64 (Z.shiftl t 32)) i))
  | v_int64 x => Ret (0x12, le_bytes 8 x)
  | v_decimal128 l h => Ret (0x13, le_bytes 8 l ++ le_bytes 8 h)
  | v_maxkey => Ret (0x7F, [])
  | v_minkey => Ret (0xFF, [])
  end.

Lemma bytes_at_c_string p s :
  c_string p = Ret s → blen s + 1 < 2 ^ 32 → bytes_at p (blen s + 1) = Ret (s ++ [0]).
Proof.
  intros H Hl. destruct (c_string_split p s H) as [_ [r ->]].
  change (s ++ 0 :: r) with (s ++ [0] ++ r). rewrite app_assoc.
  replace (blen s + 1) with (blen (s ++ [0])) in * by (rewrite blen_app; done).
  by apply bytes_at_app.
Qed.
Lemma bytes_at_blen s n b : bytes_at s n = Ret b → 0 ≤ n < 2 ^ 32 → blen b = n.
Proof.
  unfold bytes_at. intros H Hn. rewrite u32_small in H by done.
  assert (Hlen : ∀ k o l, rd_bytes k s o = Ret l → length l = k).
  { clear. induction k as [|k IH]; intros o l H; [by injection H as <-|]. rewrite rd_bytes_S in H.
    apply bind_Ret in H as (x & _ & H). apply bind_Ret in H as (r & Hr & H). injection H as <-.
    simpl. f_equal. by apply (IH (o + 1)). }
  apply Hlen in H. unfold blen. lia.
Qed.
Lemma bytes_at_empty s : bytes_at s 0 = Ret [].
Proof. done. Qed.

Lemma bson_init_static_inv data len b :
  bson_init_static data len = Ret (Some b) →
  5 ≤ blen b ∧ blen b = len ∧ len ≤ INT_MAX.
Proof.
  unfold bson_init_static. destruct (Z.ltb_spec len 5); [done|].
  destruct (Z.ltb_spec INT_MAX len); [done|]. cbn [orb]. intros Hob.
  apply bind_Ret in Hob as (x & _ & Hob). destruct (negb _); [done|].
  apply bind_Ret in Hob as (y & _ & Hob). destruct (negb _); [done|].
  apply bind_Ret in Hob as (z & Hz & Hob). injection Hob as ->.
  assert (Hby : bytes_at data len = Ret b).
  { unfold bytes_at. by rewrite u32_small by (unfold INT_MAX in *; lia). }
  apply bytes_at_blen in Hby; unfold INT_MAX in *; lia.
Qed.

Section AppendValue.
Variable fresh : Z → Z.
Variables (m : bson_mem) (body : list Z) (outer : list (list Z)) (key : list Z) (kl : Z) (k : list Z).
Hypothesis Hb : builds m body outer.
Hypothesis Hkey : key_arg key kl k.

(** the shape every append function reduces to *)
Lemma append_ls type size ls value :
  size = blen value → value = concat ls → blen value < 2 ^ 30 →
  appends (append_field fresh m type key kl size (map Data ls)) m body outer
    (field_bytes type k value).
Proof using Hb Hkey. intros -> -> Hv. by apply append_field_builds. Qed.

Lemma append_string_builds type s len b :
  bytes_at s len = Ret b → 0 ≤ len < 2 ^ 30 - 10 →
  appends (append_string fresh type m key kl (Some s) len) m body outer
    (field_bytes type k (le_bytes 4 (len + 1) ++ b ++ [0])).
Proof using Hb Hkey.
  intros Hs Hl. pose proof (bytes_at_blen _ _ _ Hs ltac:(lia)) as Hbl.
  unfold append_string, string_length. destruct (Z.ltb_spec len 0); [lia|]. cbn [bind].
  rewrite Hs. cbn [bind].
  apply (append_ls type _ [le_bytes 4 (len + 1); b; [0]]); cbn [concat]; rewrite ?app_nil_r; try done;
    rewrite !blen_app, blen_le_bytes; change (blen [0]) with 1; lia.
Qed.

(** a single chunk, or none *)
Lemma append_one type size value :
  size = blen value → blen value < 2 ^ 30 →
  appends (append_field fresh m type key kl size [Data value]) m body outer (field_bytes type k value).
Proof using Hb Hkey. intros. apply (append_ls type size [value]); cbn [concat]; by rewrite ?app_nil_r. Qed.
Lemma append_none type :
  appends (append_field fresh m type key kl 0 []) m body outer (field_bytes type k []).
Proof using Hb Hkey. by apply (append_ls type 0 []). Qed.

Lemma append_static_builds type data len value (f : bson_t → res (bool * bson_mem)) :
  encode_static type data len = Ret (type, value) →
  (∀ b, f b = append_field fresh m type key kl (blen b) [Data b]) →
  blen value < 2 ^ 30 →
  appends (with_static m data len f) m body outer (field_bytes type k value).
Proof using Hb Hkey.
  unfold encode_static, with_static. intros He Hf Hv. apply bind_Ret in He as (d & Hd & He).
  destruct data as [data|]; [|done]. injection Hd as ->.
  apply bind_Ret in He as (ob & Hob & He). apply bind_Ret in He as (b & Hb' & He).
  destruct ob as [ob|]; [|done]. injection Hb' as ->. injection He as ->.
  rewrite Hob. cbn [bind]. rewrite Hf. by apply append_one.
Qed.

(** the check of an array's first key reads and changes nothing *)
Lemma append_array_doc_builds value :
  bytes_ok value → 5 ≤ blen value < 2 ^ 30 →
  appends (bson_append_array fresh m key kl value) m body outer (field_bytes 0x04 k value).
Proof using Hb Hkey.
  intros Hok [Hv0 Hv]. unfold bson_append_array.
  unfold bson_empty. assert (He : ∃ e, (if blen value =? 5 then Ret true else let* c := rd value 4 in Ret (c =? 0)) = Ret e).
  { case_if; [eauto|]. destruct (rd_ex value 4) as (c & -> & _); [done|lia|]. simpl. eauto. }
  destruct He as [e ->]. cbn [bind]. unfold bson_iter_init. destruct (Z.ltb_spec (blen value) 5); [lia|].
  assert (Hnext : returns (bson_iter_next (iter_start value (blen value))) (λ n,
    n.1 = true → ∃ p s, bson_iter_key n.2 = Ret p ∧ c_string p = Ret s)).
  { eapply returns_mono; [apply bson_iter_next_ok, iter_start_ok; [done|lia|unfold INT_MAX; lia]|].
    intros [ok it]. cbn [fst snd]. intros Hn ->. destruct Hn as (d' & t & _ & Hat & _).
    destruct (bson_iter_key_at _ _ _ Hat) as [Hk (s & Hs & _)]. eauto. }
  destruct (bson_iter_next _) as [[ok it]|]; [|done]. cbn [bind fst snd]. simpl in Hnext.
  destruct e; cbn [bind]; [by apply append_one|]. destruct ok; cbn [bind]; [|by apply append_one].
  destruct (Hnext eq_refl) as (p & s & Hp & Hs). rewrite Hp. cbn [bind]. rewrite Hs. cbn [bind].
  by apply append_one.
Qed.
Lemma append_array_builds data len value :
  bytes_ok value →
  encode_static 0x04 data len = Ret (0x04, value) → blen value < 2 ^ 30 →
  appends (with_static m data len (bson_append_array fresh m key kl)) m body outer
    (field_bytes 0x04 k value).
Proof using Hb Hkey.
  unfold encode_static, with_static. intros Hok He Hv. apply bind_Ret in He as (d & Hd & He).
  destruct data as [data|]; [|done]. injection Hd as ->.
  apply bind_Ret in He as (ob & Hob & He). apply bind_Ret in He as (b & Hb' & He).
  destruct ob as [ob|]; [|done]. injection Hb' as ->. injection He as ->.
  rewrite Hob. cbn [bind]. destruct (bson_init_static_inv _ _ _ Hob) as (H5 & _ & _).
  apply append_array_doc_builds; [done|lia].
Qed.

Lemma append_binary_builds data len subtype type value :
  0 ≤ len < 2 ^ 30 - 20 →
  encode_value (v_binary (Some data) len subtype) = Ret (type, value) →
  appends (bson_append_binary fresh m key kl subtype (Some data) len) m body outer
    (field_bytes type k value).
Proof using Hb Hkey.
  intros Hl He. cbn [encode_value deref bind] in He. apply bind_Ret in He as (b & Hbs & He).
  pose proof (bytes_at_blen _ _ _ Hbs ltac:(lia)) as Hbl.
  unfold bson_append_binary. rewrite Hbs. cbn [bind].
  destruct (subtype =? BSON_SUBTYPE_BINARY_DEPRECATED); apply Ret_inj, pair_eq in He as [<- <-].
  - apply (append_ls 5 _ [le_bytes 4 (len + 4); [u8 subtype]; le_bytes 4 len; b]); cbn [concat];
      rewrite ?app_nil_r; [|done|]; rewrite !blen_app, !blen_le_bytes; change (blen [u8 subtype]) with 1; lia.
  - apply (append_ls 5 _ [le_bytes 4 len; [u8 subtype]; b]); cbn [concat];
      rewrite ?app_nil_r; [|done|]; rewrite !blen_app, !blen_le_bytes; change (blen [u8 subtype]) with 1; lia.
Qed.

Lemma append_regex_builds regex options r o :
  c_string regex = Ret r → c_string options = Ret o → blen r < 2 ^ 29 →
  appends (bson_append_regex fresh m key kl (Some regex) (Some options)) m body outer
    (field_bytes 0x0B k (r ++ [0] ++ _bson_append_regex_options_sorted o ++ [0])).
Proof using Hb Hkey.
  intros Hr Ho Hl. pose proof (blen_nonneg r).
  assert (Hsl : blen (_bson_append_regex_options_sorted o) ≤ 6).
  { unfold _bson_append_regex_options_sorted, blen.
    pose proof (List.filter_length_le (λ c, bool_decide (c ∈ o)) BSON_REGEX_OPTIONS_SORTED).
    change (length BSON_REGEX_OPTIONS_SORTED) with 6%nat in *. lia. }
  destruct (c_string_split _ _ Hr) as [_ [x ->]].
  unfold bson_append_regex, bson_append_regex_w_len, string_length. cbn [Z.ltb Z.compare deref bind].
  rewrite Hr. cbn [bind]. rewrite Ho. cbn [bind]. rewrite s32_small by (unfold in_s32; lia).
  rewrite bytes_at_app by lia. cbn [bind]. pose proof (blen_nonneg (_bson_append_regex_options_sorted o)).
  apply (append_ls 11 _ [r; [0]; _bson_append_regex_options_sorted o ++ [0]]); cbn [concat];
    rewrite ?app_nil_r; [|done|]; rewrite !blen_app; change (blen [0]) with 1; lia.
Qed.

Lemma append_code_builds code c :
  c_string code = Ret c → blen c < 2 ^ 29 →
  appends (bson_append_code fresh m key kl code) m body outer
    (field_bytes 0x0D k (le_bytes 4 (blen c + 1) ++ c ++ [0])).
Proof using Hb Hkey.
  intros Hc Hl. pose proof (blen_nonneg c). unfold bson_append_code. rewrite Hc. cbn [bind].
  rewrite s32_small, u32_small by (unfold in_s32; lia).
  rewrite (bytes_at_c_string _ _ Hc) by lia. cbn [bind].
  apply (append_ls 13 _ [le_bytes 4 (blen c + 1); c ++ [0]]); cbn [concat];
    rewrite ?app_nil_r; [|done|]; rewrite !blen_app, !blen_le_bytes; change (blen [0]) with 1; lia.
Qed.

Lemma append_dbpointer_builds collection oid c b :
  c_string collection = Ret c → rd_bytes 12 oid 0 = Ret b → blen b = 12 → blen c < 2 ^ 29 →
  appends (bson_append_dbpointer fresh m key kl collection oid) m body outer
    (field_bytes 0x0C k (le_bytes 4 (blen c + 1) ++ (c ++ [0]) ++ b)).
Proof using Hb Hkey.
  intros Hc Ho Hbl Hl. pose proof (blen_nonneg c). unfold bson_append_dbpointer. rewrite Hc. cbn [bind].
  rewrite s32_small, u32_small by (unfold in_s32; lia).
  rewrite (bytes_at_c_string _ _ Hc) by lia. cbn [bind]. rewrite Ho. cbn [bind].
  apply (append_ls 12 _ [le_bytes 4 (blen c + 1); c ++ [0]; b]); cbn [concat];
    rewrite ?app_nil_r; [|done|]; rewrite !blen_app, !blen_le_bytes; change (blen [0]) with 1; lia.
Qed.

Lemma append_codewscope_builds code scope c :
  c_string code = Ret c → blen c < 2 ^ 28 → blen scope < 2 ^ 28 →
  appends (bson_append_code_with_scope fresh m key kl code (Some scope)) m body outer
    (field_bytes 0x0F k (le_bytes 4 (8 + (blen c + 1) + blen scope) ++ le_bytes 4 (blen c + 1)
                         ++ (c ++ [0]) ++ scope)).
Proof using Hb Hkey.
  intros Hc Hl Hs. pose proof (blen_nonneg c). pose proof (blen_nonneg scope).
  unfold bson_append_code_with_scope. rewrite Hc. cbn [bind].
  rewrite s32_small, (u32_small (blen c + 1)) by (unfold in_s32; lia).
  rewrite (bytes_at_c_string _ _ Hc) by lia. cbn [bind]. rewrite u32_small by lia.
  replace (4 + 4 + (blen c + 1) + blen scope) with (8 + (blen c + 1) + blen scope) by lia.
  apply (append_ls 15 _ [le_bytes 4 (8 + (blen c + 1) + blen scope); le_bytes 4 (blen c + 1); c ++ [0]; scope]);
    cbn [concat]; rewrite ?app_nil_r; [|done|]; rewrite !blen_app, !blen_le_bytes; change (blen [0]) with 1; lia.
Qed.
End AppendValue.

(** the lengths the code keeps as unsigned or casts to [int] *)
Definition value_len_ok (v : bson_value_t) : Prop :=
  match v with
  | v_utf8 _ n | v_symbol _ n | v_binary _ n _ => 0 ≤ n < 2 ^ 28
  | v_oid oid => bytes_ok oid
  | v_array _ _ => ∀ b, encode_value v = Ret b → bytes_ok b.2
  | _ => True
  end.

Lemma rd_bytes_length n data o l : rd_bytes n data o = Ret l → length l = n.
Proof.
  revert o l. induction n as [|n IH]; intros o l H; [by injection H as <-|]. rewrite rd_bytes_S in H.
  apply bind_Ret in H as (x & _ & H). apply bind_Ret in H as (r & Hr & H). injection H as <-.
  simpl. f_equal. by apply (IH (o + 1)).
Qed.

Lemma append_value_builds fresh m body outer key kl k v type value :
  builds m body outer → key_arg key kl k →
  encode_value v = Ret (type, value) → blen value < 2 ^ 28 → value_len_ok v →
  appends (bson_append_value fresh m key kl v) m body outer (field_bytes type k value).
Proof.
  intros Hb Hkey He Hv Hlen. pose proof (append_one fresh m body outer key kl k Hb Hkey) as Hone.
  pose proof (append_none fresh m body outer key kl k Hb Hkey) as Hnone.
  assert (Hfix : ∀ t n x, Ret (t, x) = Ret (type, value) → blen x = n →
    appends (append_field fresh m t key kl n [Data x]) m body outer (field_bytes type k value)).
  { intros t n x E <-. apply Ret_inj, pair_eq in E as [-> ->]. apply Hone; [done|lia]. }
  assert (Hemp : ∀ t, Ret (t, []) = Ret (type, value) →
    appends (append_field fresh m t key kl 0 []) m body outer (field_bytes type k value)).
  { intros t E. apply Ret_inj, pair_eq in E as [-> <-]. apply Hnone. }
  assert (Hstr : ∀ t s len, 0 ≤ len < 2 ^ 28 → (let* s := deref s in encode_string t s len) = Ret (type, value) →
    appends (append_string fresh t m key kl s (s32 len)) m body outer (field_bytes type k value)).
  { intros t s len Hl E. destruct s as [s|]; [|done]. cbn [deref bind] in E.
    apply bind_Ret in E as (b & Hs & E). apply Ret_inj, pair_eq in E as [<- <-].
    rewrite s32_small by (unfold in_s32; lia). apply append_string_builds; [done|done|done|lia]. }
  destruct v; cbn [encode_value bson_append_value value_len_ok] in *.
  - apply (Hfix 0x01 8); [exact He|apply blen_le_bytes].
  - exact (Hstr _ _ _ Hlen He).
  - assert (type = 0x03) as -> by (unfold encode_static in He; repeat apply bind_Ret in He as (? & _ & He); congruence).
    apply (append_static_builds fresh m body outer key kl k Hb Hkey 0x03 data data_len);
      [exact He|intros b; reflexivity|lia].
  - assert (type = 0x04) as -> by (unfold encode_static in He; repeat apply bind_Ret in He as (? & _ & He); congruence).
    apply (append_array_builds fresh m body outer key kl k Hb Hkey); [exact (Hlen _ He)|exact He|lia].
  - destruct data as [data|]; [|done]. apply (append_binary_builds fresh m body outer key kl k Hb Hkey); [lia|exact He].
  - exact (Hemp 0x06 He).
  - apply bind_Ret in He as (b & Hob & He). unfold bson_append_oid. rewrite Hob. cbn [bind].
    apply (Hfix 0x07 12); [done|]. apply rd_bytes_length in Hob. unfold blen. lia.
  - apply (Hfix 0x08 1); [exact He|reflexivity].
  - apply (Hfix 0x09 8); [exact He|apply blen_le_bytes].
  - exact (Hemp 0x0A He).
  - destruct regex as [r|], options as [o|]; cbn [deref bind] in He; try done;
      apply bind_Ret in He as (r' & Hr & He); [|done]. cbn [bind] in He.
    apply bind_Ret in He as (o' & Ho & He). apply Ret_inj, pair_eq in He as [<- <-].
    rewrite blen_app in Hv.
    pose proof (blen_nonneg ([0] ++ _bson_append_regex_options_sorted o' ++ [0])).
    apply (append_regex_builds fresh m body outer key kl k Hb Hkey); [exact Hr|exact Ho|lia].
  - destruct collection as [c|]; [|done]. cbn [deref bind] in He |- *.
    apply bind_Ret in He as (c' & Hc & He). apply bind_Ret in He as (b & Hob & He).
    apply Ret_inj, pair_eq in He as [<- <-]. rewrite !blen_app in Hv.
    pose proof (blen_nonneg b). pose proof (blen_nonneg c').
    rewrite blen_le_bytes in Hv. change (blen [0]) with 1 in Hv.
    apply (append_dbpointer_builds fresh m body outer key kl k Hb Hkey); [exact Hc|exact Hob| |lia].
    apply rd_bytes_length in Hob. unfold blen. lia.
  - destruct code as [c|]; [|done]. cbn [deref bind] in He |- *.
    apply bind_Ret in He as (c' & Hc & He). apply Ret_inj, pair_eq in He as [<- <-].
    rewrite !blen_app, blen_le_bytes in Hv. change (blen [0]) with 1 in Hv.
    apply (append_code_builds fresh m body outer key kl k Hb Hkey); [exact Hc|lia].
  - exact (Hstr _ _ _ Hlen He).
  - destruct code as [c|]; [|done]. cbn [deref bind] in He |- *.
    apply bind_Ret in He as (c' & Hc & He). apply bind_Ret in He as (s & Hs & He).
    apply Ret_inj, pair_eq in He as [<- <-]. unfold encode_static, with_static in *.
    apply bind_Ret in Hs as (d & Hd & Hs). destruct scope_data as [scope|]; [|done]. injection Hd as ->.
    apply bind_Ret in Hs as (ob & Hob & Hs). apply bind_Ret in Hs as (b & Hb' & Hs).
    destruct ob as [ob|]; [|done]. injection Hb' as ->. injection Hs as <-. cbn [snd] in *.
    rewrite Hob. cbn [bind]. rewrite !blen_app, !blen_le_bytes in Hv. change (blen [0]) with 1 in Hv.
    pose proof (blen_nonneg b). pose proof (blen_nonneg c').
    apply (append_codewscope_builds fresh m body outer key kl k Hb Hkey); [exact Hc|lia|lia].
  - apply (Hfix 0x10 4); [exact He|apply blen_le_bytes].
  - apply (Hfix 0x11 8); [exact He|apply blen_le_bytes].
  - apply (Hfix 0x12 8); [exact He|apply blen_le_bytes].
  - apply (Hfix 0x13 16); [exact He|by rewrite blen_app, !blen_le_bytes].
  - exact (Hemp 0x7F He).
  - exact (Hemp 0xFF He).
Qed.

(** ** A field read back encodes to its own bytes *)

(** [n] bytes of [data] from [o] *)
Definition sl (data : list Z) (o n : Z) : list Z := take (Z.to_nat n) (ptr_add data o).

Lemma sl_app data o a b : 0 ≤ o → 0 ≤ a → 0 ≤ b → sl data o (a + b) = sl data o a ++ sl data (o + a) b.
Proof.
  intros Ho Ha Hb. unfold sl. rewrite <- (ptr_add_ptr_add data o a) by done.
  rewrite Z2Nat.inj_add by done. unfold ptr_add at 3. by rewrite take_take_drop.
Qed.
Lemma sl_one data o b : rd data o = Ret b → sl data o 1 = [b].
Proof.
  intros H. apply rd_Ret in H as [Ho H]. unfold sl, ptr_add. change (Z.to_nat 1) with 1%nat.
  rewrite (drop_S _ _ _ H). done.
Qed.
Lemma le_bytes_step n b r : 0 ≤ b < 256 → le_bytes (S n) (b + 256 * r) = b :: le_bytes n r.
Proof.
  intros Hb. cbn [le_bytes]. rewrite (Z.add_comm b), (Z.mul_comm 256).
  rewrite Z.add_comm, Z.mod_add, Z.mod_small by lia.
  rewrite Z.div_add by lia. by rewrite (Z.div_small b 256) by lia.
Qed.
Lemma rd_le_sl n data o x :
  bytes_ok data → rd_le n data o = Ret x → le_bytes n x = sl data o (Z.of_nat n).
Proof.
  intros Hok. revert o x. induction n as [|n IH]; intros o x H; [done|].
  change (rd_le (S n) data o) with (let* b := rd data o in let* r := rd_le n data (o + 1) in Ret (b + 256 * r)) in H.
  apply bind_Ret in H as (b & Hb & H). apply bind_Ret in H as (r & Hr & H). injection H as <-.
  apply rd_Ret in Hb as Hb'. destruct Hb' as [Ho Hl].
  rewrite le_bytes_step by (apply (bytes_ok_lookup _ _ _ Hok Hl)). rewrite (IH _ _ Hr).
  replace (Z.of_nat (S n)) with (1 + Z.of_nat n) by lia. rewrite sl_app by lia. by rewrite (sl_one _ _ _ Hb).
Qed.
Lemma blen_sl data o n : 0 ≤ o → 0 ≤ n → o + n ≤ blen data → blen (sl data o n) = n.
Proof. intros. unfold sl, ptr_add, blen in *. rewrite length_take, length_drop. lia. Qed.
Lemma rd_bytes_sl data o n :
  0 ≤ o → 0 ≤ n → o + n ≤ blen data → rd_bytes (Z.to_nat n) (ptr_add data o) 0 = Ret (sl data o n).
Proof.
  intros. apply rd_bytes_prefix. unfold ptr_add, blen in *. rewrite length_drop. lia.
Qed.
Lemma bytes_at_sl data o n :
  0 ≤ o → 0 ≤ n < 2 ^ 32 → o + n ≤ blen data → bytes_at (ptr_add data o) n = Ret (sl data o n).
Proof. intros. unfold bytes_at. rewrite u32_small by lia. apply rd_bytes_sl; lia. Qed.
Lemma c_string_sl data o n :
  0 ≤ o → 0 ≤ n → nul_at data (o + n) → (∀ i, o ≤ i < o + n → ¬ nul_at data i) →
  c_string (ptr_add data o) = Ret (sl data o n).
Proof.
  intros Ho Hn Hnul Hne. apply rd_Ret in Hnul as [Hb Hl].
  assert (Hsplit : ptr_add data o = sl data o n ++ 0 :: ptr_add data (o + n + 1)).
  { unfold sl. rewrite <- (take_drop (Z.to_nat n) (ptr_add data o)) at 1. f_equal.
    change (drop (Z.to_nat n) (ptr_add data o)) with (ptr_add (ptr_add data o) n).
    rewrite ptr_add_ptr_add by done. unfold ptr_add. rewrite (drop_S _ _ _ Hl). f_equal. f_equal. lia. }
  rewrite Hsplit. apply c_string_app. apply Forall_lookup. intros i b Hi ->.
  unfold sl, ptr_add in Hi. apply lookup_take_Some in Hi as [Hi Hin]. rewrite lookup_drop in Hi.
  apply (Hne (o + Z.of_nat i)); [lia|]. unfold nul_at, rd. destruct (Z.ltb_spec (o + Z.of_nat i) 0); [lia|].
  replace (Z.to_nat (o + Z.of_nat i)) with (Z.to_nat o + i)%nat by lia. by rewrite Hi.
Qed.

(** sign conversions do not change the bytes *)
Lemma le_bytes_s32 x : le_bytes 4 (s32 x) = le_bytes 4 x.
Proof.
  rewrite (le_bytes_mod 4 (s32 x)), (le_bytes_mod 4 x). f_equal. change (256 ^ Z.of_nat 4) with (2 ^ 32).
  unfold s32, u32. case_if; [by rewrite Z.mod_mod by lia|].
  rewrite <- (Z.mod_add _ 1), Z.mul_1_l, Z.sub_add by lia. by rewrite Z.mod_mod by lia.
Qed.
Lemma le_bytes_s64 x : le_bytes 8 (s64 x) = le_bytes 8 x.
Proof.
  rewrite (le_bytes_mod 8 (s64 x)), (le_bytes_mod 8 x). f_equal. change (256 ^ Z.of_nat 8) with (2 ^ 64).
  unfold s64, u64. case_if; [by rewrite Z.mod_mod by lia|].
  rewrite <- (Z.mod_add _ 1), Z.mul_1_l, Z.sub_add by lia. by rewrite Z.mod_mod by lia.
Qed.
Lemma timestamp_join y :
  0 ≤ y < 2 ^ 64 →
  Z.lor (u64 (Z.shiftl (Z.land (Z.shiftr y 32) 0xFFFFFFFF) 32)) (Z.land y 0xFFFFFFFF) = y.
Proof.
  intros Hy. change 0xFFFFFFFF with (Z.ones 32). rewrite !Z.land_ones by lia.
  rewrite Z.shiftr_div_pow2, Z.shiftl_mul_pow2 by lia.
  assert (0 ≤ y / 2 ^ 32 < 2 ^ 32).
  { split; [apply Z.div_pos; lia|apply Z.div_lt_upper_bound; lia]. }
  rewrite (Z.mod_small (y / 2 ^ 32)) by lia. rewrite u64_small by lia.
  rewrite <- Z.shiftl_mul_pow2 by lia.
  rewrite lor_shiftl_add by (try apply Z.mod_pos_bound; lia).
  pose proof (Z.div_mod y (2 ^ 32)). lia.
Qed.

(** Fields the append functions reproduce: no NUL inside code or a collection
    name, sub-documents with a header that bson_init_static accepts, regex
    options sorted and known. *)
Definition canonical (it : bson_iter_t) (data : list Z) (t : bson_type_t) : Prop :=
  let d1 := it_d1 it in let d2 := it_d2 it in let d3 := it_d3 it in
  let d4 := it_d4 it in let next := it_next_off it in
  match t with
  | BSON_TYPE_CODE => ∀ i, d2 ≤ i < next - 1 → ¬ nul_at data i
  | BSON_TYPE_DBPOINTER => ∀ i, d2 ≤ i < d3 - 1 → ¬ nul_at data i
  | BSON_TYPE_CODEWSCOPE =>
      nul_at data (d4 - 1) ∧ (∀ i, d3 ≤ i < d4 - 1 → ¬ nul_at data i)
      ∧ ∃ b, bson_init_static (ptr_add data d4) (next - d4) = Ret (Some b)
  | BSON_TYPE_DOCUMENT | BSON_TYPE_ARRAY =>
      ∃ b, bson_init_static (ptr_add data d1) (next - d1) = Ret (Some b)
  | BSON_TYPE_REGEX =>
      (∀ i, d1 ≤ i < d2 - 1 → ¬ nul_at data i)
      ∧ (∀ i, d2 ≤ i < next - 1 → ¬ nul_at data i)
      ∧ _bson_append_regex_options_sorted (sl data d2 (next - 1 - d2)) = sl data d2 (next - 1 - d2)
  | _ => True
  end.

(** the byte of a type *)
Definition byte_of_type (t : bson_type_t) : Z :=
  match t with
  | BSON_TYPE_EOD => 0x00 | BSON_TYPE_DOUBLE => 0x01 | BSON_TYPE_UTF8 => 0x02
  | BSON_TYPE_DOCUMENT => 0x03 | BSON_TYPE_ARRAY => 0x04 | BSON_TYPE_BINARY => 0x05
  | BSON_TYPE_UNDEFINED => 0x06 | BSON_TYPE_OID => 0x07 | BSON_TYPE_BOOL => 0x08
  | BSON_TYPE_DATE_TIME => 0x09 | BSON_TYPE_NULL => 0x0A | BSON_TYPE_REGEX => 0x0B
  | BSON_TYPE_DBPOINTER => 0x0C | BSON_TYPE_CODE => 0x0D | BSON_TYPE_SYMBOL => 0x0E
  | BSON_TYPE_CODEWSCOPE => 0x0F | BSON_TYPE_INT32 => 0x10 | BSON_TYPE_TIMESTAMP => 0x11
  | BSON_TYPE_INT64 => 0x12 | BSON_TYPE_DECIMAL128 => 0x13 | BSON_TYPE_MAXKEY => 0x7F
  | BSON_TYPE_MINKEY => 0xFF | BSON_TYPE_OTHER b => b
  end.
Lemma byte_of_type_of_byte b : byte_ok b → byte_of_type (bson_type_of_byte b) = b.
Proof.
  intros Hb. apply Z.eqb_eq.
  exact (byte_cases (λ b, byte_of_type (bson_type_of_byte b) =? b) eq_refl b Hb).
Qed.

Section Recode.
Variables (it : bson_iter_t) (data : list Z) (t : bson_type_t).
Hypothesis Hat : iter_at it data t.
Hypothesis Hcan : canonical it data t.
#[local] Notation d1 := (it_d1 it).
#[local] Notation n := (it_next_off it - it_d1 it).

(** the encoding of the value the iterator hands out is the field's own bytes *)
Definition recodes : Prop :=
  ∃ v b, bson_iter_value it = Ret (Some v) ∧ rd data (it_type it) = Ret b
    ∧ encode_value v = Ret (b, sl data d1 n) ∧ (n < 2 ^ 28 → value_len_ok v).

Lemma recodes_intro v :
  bson_iter_value it = Ret (Some v) → encode_value v = Ret (byte_of_type t, sl data d1 n) →
  (n < 2 ^ 28 → value_len_ok v) → recodes.
Proof using Hat.
  intros Hv He Hl. destruct (at_type _ _ _ Hat) as (b & Hb & Ht). exists v, b.
  assert (byte_ok b) by (eapply bytes_ok_lookup; [apply Hat|]; apply rd_Ret in Hb; apply Hb).
  rewrite <- (byte_of_type_of_byte b) at 2 by done. rewrite Ht. auto.
Qed.

Lemma int_field k :
  it_next_off it = d1 + Z.of_nat k → ∃ y, rd_le k data d1 = Ret y ∧ 0 ≤ y < 256 ^ Z.of_nat k
    ∧ le_bytes k y = sl data d1 n.
Proof using Hat.
  intros Hn. pose proof (at_bounds _ _ _ Hat) as (Hok & Hb).
  destruct (rd_le_ex k data d1) as (y & Hy & Hr); [done|lia|lia|].
  exists y. split; [done|]. split; [done|]. rewrite (rd_le_sl _ _ _ _ Hok Hy). f_equal. lia.
Qed.

(** the iterator's type decides the case of every getter *)
Lemma value_here (v : bson_value_t) (r : res (option bson_value_t)) :
  (ITER_TYPE it = Ret t → bson_iter_value it = r) → r = Ret (Some v) → bson_iter_value it = Ret (Some v).
Proof using Hat. intros H <-. apply H. by eapply ITER_TYPE_at. Qed.

Lemma recode_numbers :
  t ∈ [BSON_TYPE_DOUBLE; BSON_TYPE_DATE_TIME; BSON_TYPE_INT32; BSON_TYPE_INT64; BSON_TYPE_TIMESTAMP] →
  recodes.
Proof using Hat.
  intros Ht. pose proof (at_field _ _ _ Hat) as Hf. pose proof (ITER_TYPE_at _ _ _ Hat) as Hty.
  repeat (apply elem_of_cons in Ht as [Ht|Ht]); [rewrite Ht in Hf, Hty..|by apply not_elem_of_nil in Ht].
  - destruct (int_field 8 Hf) as (y & Hy & _ & Hle). apply (recodes_intro (v_double y)); [| |done].
    + unfold bson_iter_value, bson_iter_double. rewrite Hty. cbn [bind].
      rewrite (if_type_at _ _ _ Hat), decide_True by done.
      unfold bson_iter_double_unsafe. by rewrite (field_le_at _ _ _ Hat), Hy.
    + rewrite Ht. cbn [encode_value byte_of_type]. by rewrite Hle.
  - destruct (int_field 8 Hf) as (y & Hy & _ & Hle). apply (recodes_intro (v_datetime (s64 y))); [| |done].
    + unfold bson_iter_value, bson_iter_date_time. rewrite Hty. cbn [bind].
      rewrite (if_type_at _ _ _ Hat), decide_True by done.
      unfold bson_iter_int64_unsafe. by rewrite (field_le_at _ _ _ Hat), Hy.
    + rewrite Ht. cbn [encode_value byte_of_type]. by rewrite <- Hle, le_bytes_s64.
  - destruct (int_field 4 Hf) as (y & Hy & _ & Hle). apply (recodes_intro (v_int32 (s32 y))); [| |done].
    + unfold bson_iter_value, bson_iter_int32. rewrite Hty. cbn [bind].
      rewrite (if_type_at _ _ _ Hat), decide_True by done.
      unfold bson_iter_int32_unsafe. by rewrite (field_le_at _ _ _ Hat), Hy.
    + rewrite Ht. cbn [encode_value byte_of_type]. by rewrite <- Hle, le_bytes_s32.
  - destruct (int_field 8 Hf) as (y & Hy & _ & Hle). apply (recodes_intro (v_int64 (s64 y))); [| |done].
    + unfold bson_iter_value, bson_iter_int64. rewrite Hty. cbn [bind].
      rewrite (if_type_at _ _ _ Hat), decide_True by done.
      unfold bson_iter_int64_unsafe. by rewrite (field_le_at _ _ _ Hat), Hy.
    + rewrite Ht. cbn [encode_value byte_of_type]. by rewrite <- Hle, le_bytes_s64.
  - destruct (int_field 8 Hf) as (y & Hy & Hr & Hle).
    apply (recodes_intro (v_timestamp (Z.land (Z.shiftr y 32) 0xFFFFFFFF) (Z.land y 0xFFFFFFFF))); [| |done].
    + unfold bson_iter_value, bson_iter_timestamp. rewrite Hty. cbn [bind].
      rewrite (if_type_at _ _ _ Hat), decide_True by done.
      by rewrite (field_le_at _ _ _ Hat), Hy.
    + rewrite Ht. cbn [encode_value byte_of_type]. rewrite <- Hle. by rewrite timestamp_join.
Qed.

Lemma recode_units :
  t ∈ [BSON_TYPE_NULL; BSON_TYPE_UNDEFINED; BSON_TYPE_MAXKEY; BSON_TYPE_MINKEY; BSON_TYPE_BOOL;
       BSON_TYPE_OID; BSON_TYPE_DECIMAL128] → recodes.
Proof using Hat.
  intros Ht. pose proof (at_field _ _ _ Hat) as Hf. pose proof (ITER_TYPE_at _ _ _ Hat) as Hty.
  pose proof (at_bounds _ _ _ Hat) as (Hok & Hb).
  repeat (apply elem_of_cons in Ht as [Ht|Ht]); [rewrite Ht in Hf, Hty..|by apply not_elem_of_nil in Ht].
  1-4: cbn [field_ok] in Hf.
  1-4: assert (Hn0 : sl data d1 n = []) by (rewrite Hf, Z.sub_diag; done).
  - apply (recodes_intro v_null); [unfold bson_iter_value; by rewrite Hty|by rewrite Ht, Hn0|done].
  - apply (recodes_intro v_undefined); [unfold bson_iter_value; by rewrite Hty|by rewrite Ht, Hn0|done].
  - apply (recodes_intro v_maxkey); [unfold bson_iter_value; by rewrite Hty|by rewrite Ht, Hn0|done].
  - apply (recodes_intro v_minkey); [unfold bson_iter_value; by rewrite Hty|by rewrite Ht, Hn0|done].
  - destruct Hf as [Hn (b & Hrd & Hb01)]. apply (recodes_intro (v_bool (negb (b =? 0)))); [| |done].
    + unfold bson_iter_value, bson_iter_bool. rewrite Hty. cbn [bind].
      rewrite (if_type_at _ _ _ Hat), decide_True by done.
      unfold bson_iter_bool_unsafe. rewrite (field_le_at _ _ _ Hat). unfold rd_le. rewrite Hrd.
      cbn [bind]. by replace (b + 256 * 0) with b by lia.
    + rewrite Ht. cbn [encode_value byte_of_type]. replace n with 1 by lia. rewrite (sl_one _ _ _ Hrd).
      by destruct Hb01 as [->| ->].
  - cbn [field_ok] in Hf. apply (recodes_intro (v_oid (sl data d1 12))).
    + unfold bson_iter_value, bson_iter_oid, bson_iter_oid_unsafe. rewrite Hty. cbn [bind].
      rewrite (if_type_at _ _ _ Hat), decide_True by done. rewrite (field_ptr_at _ _ _ Hat). cbn [bind deref].
      change 12%nat with (Z.to_nat 12). by rewrite rd_bytes_sl by lia.
    + rewrite Ht. cbn [encode_value byte_of_type]. replace n with 12 by lia.
      assert (E : rd_bytes 12 (sl data d1 12) 0 = Ret (sl data d1 12)); [|by rewrite E].
      rewrite rd_bytes_prefix; [f_equal; apply firstn_all2|];
        pose proof (blen_sl data d1 12 ltac:(lia) ltac:(lia) ltac:(lia)); unfold blen in *; lia.
    + intros _. cbn [value_len_ok]. apply Forall_take, bytes_ok_ptr_add, Hok.
  - cbn [field_ok] in Hf. destruct (rd_le_ex 8 data d1) as (x & Hx & _); [done|lia|lia|].
    destruct (rd_le_ex 8 data (d1 + 8)) as (y & Hy & _); [done|lia|lia|].
    apply (recodes_intro (v_decimal128 x y)); [| |done].
    + unfold bson_iter_value, bson_iter_decimal128. rewrite Hty. cbn [bind].
      rewrite (if_type_at _ _ _ Hat), decide_True by done. unfold bson_iter_decimal128_unsafe.
      rewrite !(field_le_at _ _ _ Hat), Hx. cbn [bind]. by rewrite Hy.
    + rewrite Ht. cbn [encode_value byte_of_type]. rewrite (rd_le_sl _ _ _ _ Hok Hx), (rd_le_sl _ _ _ _ Hok Hy).
      replace n with (8 + 8) by lia. by rewrite sl_app by lia.
Qed.

(** length, bytes and terminator of a string field *)
Lemma string_bytes o l :
  rd_le 4 data o = Ret l → 1 ≤ l → nul_at data (o + 4 + l - 1) → 0 ≤ o → o + 4 + l ≤ blen data →
  sl data o (4 + l) = le_bytes 4 l ++ sl data (o + 4) (l - 1) ++ [0].
Proof using Hat.
  intros Hl Hl1 Hnul Ho Hb. pose proof (at_bounds _ _ _ Hat) as (Hok & _).
  rewrite sl_app by lia. rewrite (rd_le_sl _ _ _ _ Hok Hl). f_equal.
  replace l with (l - 1 + 1) at 1 by lia. rewrite sl_app by lia. f_equal.
  apply sl_one. unfold nul_at in Hnul. by replace (o + 4 + (l - 1)) with (o + 4 + l - 1) by lia.
Qed.

Lemma recode_strings :
  t ∈ [BSON_TYPE_UTF8; BSON_TYPE_SYMBOL; BSON_TYPE_CODE] → recodes.
Proof using Hat Hcan.
  intros Ht. pose proof (ITER_TYPE_at _ _ _ Hat) as Hty. pose proof (at_bounds _ _ _ Hat) as (Hok & Hb).
  unfold INT_MAX in Hb.
  assert (Hstr : t = BSON_TYPE_CODE ∨ t = BSON_TYPE_SYMBOL ∨ t = BSON_TYPE_UTF8).
  { repeat (apply elem_of_cons in Ht as [Ht|Ht]); auto. by apply not_elem_of_nil in Ht. }
  assert (Hf : field_ok data it BSON_TYPE_UTF8).
  { pose proof (at_field _ _ _ Hat) as Hf. by destruct Hstr as [E|[E|E]]; rewrite E in Hf. }
  destruct Hf as (Hd2 & l & Hl & Hl1 & Hnext & Hnul). rewrite Hd2 in Hnul.
  pose proof (string_bytes d1 l Hl Hl1 Hnul ltac:(lia) ltac:(lia)) as Hbytes.
  replace (4 + l) with n in Hbytes by lia.
  assert (Hget : string_field it t true = Ret (Some (ptr_add data (d1 + 4)), l - 1)).
  { pose proof (string_field_at it data t Hat t true Hstr) as Hs. apply returns_Ret in Hs as (r & -> & Hs).
    rewrite decide_True in Hs by done. destruct Hs as (m & -> & _ & Hm & _). do 2 f_equal. lia. }
  assert (Henc : ∀ c, encode_string c (ptr_add data (d1 + 4)) (l - 1) = Ret (c, sl data d1 n)).
  { intros c. unfold encode_string. rewrite bytes_at_sl by lia. cbn [bind].
    replace (l - 1 + 1) with l by lia. by rewrite Hbytes. }
  repeat (apply elem_of_cons in Ht as [Ht|Ht]); [rewrite Ht in Hty, Hget..|by apply not_elem_of_nil in Ht].
  - apply (recodes_intro (v_utf8 (Some (ptr_add data (d1 + 4))) (l - 1))).
    + unfold bson_iter_value, bson_iter_utf8. rewrite Hty. cbn [bind]. by rewrite Hget.
    + rewrite Ht. apply Henc.
    + intros Hn. cbn [value_len_ok]. lia.
  - apply (recodes_intro (v_symbol (Some (ptr_add data (d1 + 4))) (l - 1))).
    + unfold bson_iter_value, bson_iter_symbol. rewrite Hty. cbn [bind]. by rewrite Hget.
    + rewrite Ht. apply Henc.
    + intros Hn. cbn [value_len_ok]. lia.
  - apply (recodes_intro (v_code (Some (ptr_add data (d1 + 4))) (l - 1))); [| |done].
    + unfold bson_iter_value, bson_iter_code. rewrite Hty. cbn [bind]. by rewrite Hget.
    + assert (Hc : c_string (ptr_add data (d1 + 4)) = Ret (sl data (d1 + 4) (l - 1))).
      { unfold canonical in Hcan. rewrite Ht, Hd2 in Hcan. apply c_string_sl; [lia|lia| |].
        - by replace (d1 + 4 + (l - 1)) with (d1 + 4 + l - 1) by lia.
        - intros i Hi. apply Hcan. lia. }
      rewrite Ht. cbn [encode_value byte_of_type deref bind]. rewrite Hc. cbn [bind].
      rewrite blen_sl by lia. replace (l - 1 + 1) with l by lia. by rewrite Hbytes.
Qed.

Lemma recode_subdocs : t = BSON_TYPE_DOCUMENT ∨ t = BSON_TYPE_ARRAY → recodes.
Proof using Hat Hcan.
  intros Ht. pose proof (ITER_TYPE_at _ _ _ Hat) as Hty. pose proof (at_bounds _ _ _ Hat) as (Hok & Hb).
  assert (Hc : ∃ b, bson_init_static (ptr_add data d1) n = Ret (Some b)).
  { unfold canonical in Hcan. by destruct Ht as [E|E]; rewrite E in Hcan. }
  destruct Hc as [b Hst]. assert (b = sl data d1 n) as ->.
  { pose proof (bson_init_static_ok (ptr_add data d1) n (bytes_ok_ptr_add _ _ Hok)) as H.
    rewrite Hst in H. simpl in H. rewrite blen_drop in H by lia. specialize (H ltac:(lia)). apply H. }
  assert (Henc : ∀ c, encode_static c (Some (ptr_add data d1)) n = Ret (c, sl data d1 n)).
  { intros c. unfold encode_static. cbn [deref bind]. by rewrite Hst. }
  destruct Ht as [Ht|Ht].
  - apply (recodes_intro (v_doc (Some (ptr_add data d1)) n)); [| |done].
    + pose proof (subdoc_at it data t BSON_TYPE_DOCUMENT Hat ltac:(auto)) as Hs.
      apply returns_Ret in Hs as (r & Hr & Hs). rewrite decide_True in Hs by done.
      destruct Hs as (m & -> & _ & Hm & _).
      unfold bson_iter_value. rewrite Hty, Ht. cbn [bind]. unfold bson_iter_document. rewrite Hr.
      cbn [bind fst snd]. by replace m with n by lia.
    + rewrite Ht. apply Henc.
  - apply (recodes_intro (v_array (Some (ptr_add data d1)) n)).
    + pose proof (subdoc_at it data t BSON_TYPE_ARRAY Hat ltac:(auto)) as Hs.
      apply returns_Ret in Hs as (r & Hr & Hs). rewrite decide_True in Hs by done.
      destruct Hs as (m & -> & _ & Hm & _).
      unfold bson_iter_value. rewrite Hty, Ht. cbn [bind]. unfold bson_iter_array. rewrite Hr.
      cbn [bind fst snd]. by replace m with n by lia.
    + rewrite Ht. apply Henc.
    + intros _ b He. cbn [encode_value] in He. rewrite (Henc 0x04) in He. injection He as <-.
      cbn [snd]. apply Forall_take, bytes_ok_ptr_add, Hok.
Qed.
Lemma recode_binary : t = BSON_TYPE_BINARY → recodes.
Proof using Hat.
  intros Ht. pose proof (ITER_TYPE_at _ _ _ Hat) as Hty. pose proof (at_bounds _ _ _ Hat) as (Hok & Hb).
  pose proof (at_field _ _ _ Hat) as Hf. rewrite Ht in Hf, Hty. unfold INT_MAX in Hb.
  destruct Hf as (Hd2 & Hd3 & l & st & Hl & Hl0 & Hst & Hnext & Hdep).
  assert (Hst1 : rd_le 1 data (it_d2 it) = Ret st).
  { unfold rd_le. rewrite Hst. cbn [bind]. f_equal. lia. }
  assert (Hst8 : u8 st = st).
  { apply rd_Ret in Hst as [_ Hst]. unfold u8. apply Z.mod_small.
    exact (bytes_ok_lookup _ _ _ Hok Hst). }
  assert (Hn : n = 4 + (1 + l)) by lia.
  assert (Hbytes : sl data d1 n = le_bytes 4 l ++ [st] ++ sl data (it_d3 it) l).
  { rewrite Hn, sl_app by lia. rewrite (rd_le_sl _ _ _ _ Hok Hl). f_equal.
    rewrite sl_app by lia. rewrite (sl_one _ _ st) by (rewrite <- Hd2; exact Hst).
    do 2 f_equal. lia. }
  assert (Hval : bson_iter_value it = Ret (Some
    (if st =? BSON_SUBTYPE_BINARY_DEPRECATED
     then v_binary (Some (ptr_add data (it_d3 it + 4))) (u32 (l - 4)) st
     else v_binary (Some (ptr_add data (it_d3 it))) l st))).
  { unfold bson_iter_value, bson_iter_binary. rewrite Hty. cbn [bind].
    rewrite (if_type_at _ _ _ Hat), decide_True by done.
    rewrite !(field_le_at _ _ _ Hat), (field_ptr_at _ _ _ Hat), Hst1, Hl. cbn [bind].
    destruct (st =? _); cbn [bind]; [|done]. by rewrite ptr_add_ptr_add by lia. }
  destruct (Z.eqb_spec st BSON_SUBTYPE_BINARY_DEPRECATED) as [Hd|Hd].
  - destruct (Hdep Hd) as [Hin H4]. rewrite u32_small in Hval by lia.
    apply (recodes_intro _ Hval); [|intros Hlt; cbn [value_len_ok]; lia].
    rewrite Ht. cbn [encode_value byte_of_type deref bind]. rewrite bytes_at_sl by lia. cbn [bind].
    rewrite (proj2 (Z.eqb_eq st _) Hd), Hst8, Hbytes. do 2 f_equal.
    replace (l - 4 + 4) with l by lia. do 2 f_equal.
    replace l with (4 + (l - 4)) at 3 by lia. rewrite sl_app by lia. by rewrite (rd_le_sl _ _ _ _ Hok Hin).
  - apply (recodes_intro _ Hval); [|intros Hlt; cbn [value_len_ok]; lia].
    rewrite Ht. cbn [encode_value byte_of_type deref bind]. rewrite bytes_at_sl by lia. cbn [bind].
    rewrite (proj2 (Z.eqb_neq st _) Hd). by rewrite Hst8, Hbytes.
Qed.

Lemma recode_regex : t = BSON_TYPE_REGEX → recodes.
Proof using Hat Hcan.
  intros Ht. pose proof (ITER_TYPE_at _ _ _ Hat) as Hty. pose proof (at_bounds _ _ _ Hat) as (Hok & Hb).
  pose proof (at_field _ _ _ Hat) as Hf. unfold canonical in Hcan. rewrite Ht in Hf, Hty, Hcan.
  destruct Hf as (H12 & H2n & Hn1 & Hn2). destruct Hcan as (Hr & Ho & Hsort).
  apply (recodes_intro (v_regex (Some (ptr_add data d1)) (Some (ptr_add data (it_d2 it))))); [| |done].
  - unfold bson_iter_value, bson_iter_regex. rewrite Hty. cbn [bind].
    rewrite (if_type_at _ _ _ Hat), decide_True by done. by rewrite !(field_ptr_at _ _ _ Hat).
  - rewrite Ht. cbn [encode_value byte_of_type deref bind].
    rewrite (c_string_sl data d1 (it_d2 it - 1 - d1)); [|lia|lia| |].
    2: { by replace (d1 + (it_d2 it - 1 - d1)) with (it_d2 it - 1) by lia. }
    2: { intros i Hi. apply Hr. lia. }
    rewrite (c_string_sl data (it_d2 it) (it_next_off it - 1 - it_d2 it)); [|lia|lia| |].
    2: { by replace (it_d2 it + (it_next_off it - 1 - it_d2 it)) with (it_next_off it - 1) by lia. }
    2: { intros i Hi. apply Ho. lia. }
    cbn [bind]. rewrite Hsort. do 2 f_equal.
    replace n with ((it_d2 it - 1 - d1) + (1 + ((it_next_off it - 1 - it_d2 it) + 1))) by lia.
    rewrite sl_app by lia. f_equal. rewrite sl_app by lia.
    replace (d1 + (it_d2 it - 1 - d1)) with (it_d2 it - 1) by lia. rewrite (sl_one _ _ _ Hn1). f_equal.
    replace (it_d2 it - 1 + 1) with (it_d2 it) by lia. rewrite sl_app by lia. f_equal.
    symmetry. apply sl_one. by replace (it_d2 it + (it_next_off it - 1 - it_d2 it)) with (it_next_off it - 1) by lia.
Qed.

(** the code or collection name [l] bytes long at [o], its NUL included *)
Lemma name_bytes o l :
  0 ≤ o → 1 ≤ l → o + l ≤ blen data → nul_at data (o + l - 1) →
  (∀ i, o ≤ i < o + l - 1 → ¬ nul_at data i) →
  c_string (ptr_add data o) = Ret (sl data o (l - 1)) ∧ sl data o l = sl data o (l - 1) ++ [0]
  ∧ blen (sl data o (l - 1)) + 1 = l.
Proof using.
  intros Ho Hl Hb Hnul Hne. assert (Hlast : nul_at data (o + (l - 1))).
  { by replace (o + (l - 1)) with (o + l - 1) by lia. }
  split; [apply c_string_sl; [lia|lia|exact Hlast|intros i Hi; apply Hne; lia]|]. split.
  - replace l with (l - 1 + 1) at 1 by lia. rewrite sl_app by lia. by rewrite (sl_one _ _ _ Hlast).
  - rewrite blen_sl by lia. lia.
Qed.

Lemma recode_dbpointer : t = BSON_TYPE_DBPOINTER → recodes.
Proof using Hat Hcan.
  intros Ht. pose proof (ITER_TYPE_at _ _ _ Hat) as Hty. pose proof (at_bounds _ _ _ Hat) as (Hok & Hb).
  pose proof (at_field _ _ _ Hat) as Hf. unfold canonical in Hcan. rewrite Ht in Hf, Hty, Hcan.
  destruct Hf as (Hd2 & Hnext & l & Hl & Hl1 & Hd3 & Hnul).
  destruct (name_bytes (it_d2 it) l) as (Hc & Hcb & Hcl); [lia|lia|lia| | |].
  { by replace (it_d2 it + l - 1) with (it_d3 it - 1) by lia. }
  { intros i Hi. apply Hcan. lia. }
  assert (Hoid : rd_bytes 12 (ptr_add data (it_d3 it)) 0 = Ret (sl data (it_d3 it) 12)).
  { change 12%nat with (Z.to_nat 12). apply rd_bytes_sl; lia. }
  assert (Hoid2 : rd_bytes 12 (sl data (it_d3 it) 12) 0 = Ret (sl data (it_d3 it) 12)).
  { pose proof (blen_sl data (it_d3 it) 12 ltac:(lia) ltac:(lia) ltac:(lia)) as E. unfold blen in E.
    rewrite rd_bytes_prefix by lia. f_equal. apply firstn_all2. lia. }
  apply (recodes_intro (v_dbpointer (Some (ptr_add data (it_d2 it))) (l - 1) (sl data (it_d3 it) 12))).
  - unfold bson_iter_value, bson_iter_dbpointer. rewrite Hty. cbn [bind].
    rewrite (if_type_at _ _ _ Hat), decide_True by done.
    rewrite (field_le_at _ _ _ Hat), Hl, !(field_ptr_at _ _ _ Hat). cbn [bind].
    destruct (Z.gtb_spec l 0); [|lia]. cbn [deref bind]. by rewrite Hoid.
  - rewrite Ht. cbn [encode_value byte_of_type deref bind]. rewrite Hc. cbn [bind]. rewrite Hoid2. cbn [bind].
    do 2 f_equal. rewrite Hcl, <- Hcb. replace n with (4 + (l + 12)) by lia.
    rewrite sl_app by lia. rewrite (rd_le_sl _ _ _ _ Hok Hl). f_equal.
    rewrite sl_app by lia. do 2 f_equal; [lia|]. f_equal. lia.
  - done.
Qed.

Lemma recode_codewscope : t = BSON_TYPE_CODEWSCOPE → recodes.
Proof using Hat Hcan.
  intros Ht. pose proof (ITER_TYPE_at _ _ _ Hat) as Hty. pose proof (at_bounds _ _ _ Hat) as (Hok & Hb).
  pose proof (at_field _ _ _ Hat) as Hf. unfold canonical in Hcan. rewrite Ht in Hf, Hty, Hcan.
  destruct Hf as (Hd2 & Hd3 & Hd4 & Hn & l & sc & Hl & Hl1 & Hd4' & Hsc & Hnext).
  destruct Hcan as (Hnul & Hchars & b & Hst). unfold INT_MAX in Hb.
  destruct (name_bytes (it_d3 it) l) as (Hc & Hcb & Hcl); [lia|lia|lia| | |].
  { by replace (it_d3 it + l - 1) with (it_d4 it - 1) by lia. }
  { intros i Hi. apply Hchars. lia. }
  replace (it_next_off it - it_d4 it) with sc in Hst by lia.
  assert (b = sl data (it_d4 it) sc) as ->.
  { pose proof (bson_init_static_ok (ptr_add data (it_d4 it)) sc (bytes_ok_ptr_add _ _ Hok)) as H.
    rewrite Hst in H. simpl in H. rewrite blen_drop in H by lia. specialize (H ltac:(lia)). apply H. }
  apply (recodes_intro (v_codewscope (Some (ptr_add data (it_d3 it))) (Some (ptr_add data (it_d4 it))) (l - 1) sc)).
  - unfold bson_iter_value, bson_iter_codewscope. rewrite Hty. cbn [bind].
    rewrite (if_type_at _ _ _ Hat), decide_True by done.
    rewrite !(field_le_at _ _ _ Hat), Hl. cbn [bind]. rewrite Hsc.
    unfold bson_assert. destruct (Z.gtb_spec l 0); [|lia]. cbn [bind].
    by rewrite !(field_ptr_at _ _ _ Hat).
  - rewrite Ht. cbn [encode_value byte_of_type deref bind]. rewrite Hc. cbn [bind].
    unfold encode_static. cbn [deref bind]. rewrite Hst. cbn [deref bind snd].
    do 2 f_equal. rewrite Hcl, <- Hcb. rewrite (blen_sl data (it_d4 it) sc) by lia.
    replace (8 + l + sc) with n by lia. replace n with (4 + (4 + (l + sc))) at 2 by lia.
    rewrite sl_app by lia. rewrite (rd_le_sl _ _ _ _ Hok Hn). f_equal.
    rewrite sl_app by lia. rewrite <- Hd2, (rd_le_sl _ _ _ _ Hok Hl). f_equal.
    rewrite sl_app by lia. f_equal; f_equal; lia.
  - done.
Qed.

Lemma recode : recodes.
Proof using Hat Hcan.
  pose proof (at_field _ _ _ Hat) as Hf.
  case_eq t; intros; try (rewrite H in Hf; done);
    first [ apply recode_binary; exact H | apply recode_regex; exact H | apply recode_dbpointer; exact H
          | apply recode_codewscope; exact H | apply recode_subdocs; rewrite H; tauto
          | apply recode_strings; rewrite H; set_solver
          | apply recode_numbers; rewrite H; set_solver
          | apply recode_units; rewrite H; set_solver ].
Qed.

End Recode.

(** ** The getters on a field of any type *)

(** the memory that a value points to can be read for the length the value gives *)
Definition string_readable (s : option (list Z)) (n : Z) : Prop :=
  slice_ok s n ∧ match s with Some p => returns (c_string p) bytes_ok | None => False end.
Definition value_readable (v : bson_value_t) : Prop :=
  match v with
  | v_utf8 s n | v_code s n | v_symbol s n => string_readable s n
  | v_doc data n | v_array data n | v_binary data n _ => slice_ok data n
  | v_regex (Some r) (Some o) => returns (c_string r) bytes_ok ∧ returns (c_string o) bytes_ok
  | v_regex _ _ => False
  | v_oid oid => length oid = 12%nat
  | v_dbpointer c n oid => slice_ok c n ∧ length oid = 12%nat
  | v_codewscope code scope n scope_len => slice_ok code n ∧ slice_ok scope scope_len
  | _ => True
  end.
Lemma slice_read p n : slice_ok (Some p) (Z.of_nat n) → returns (rd_bytes n p 0) (λ b, length b = n).
Proof.
  intros (_ & _ & H). unfold blen in H. rewrite rd_bytes_prefix by lia. cbn [returns]. rewrite length_take. lia.
Qed.

Section Getters.
Context (it : bson_iter_t) (data : list Z) (t : bson_type_t) (Hat : iter_at it data t).

Lemma bson_iter_as_double_at :
  returns (bson_iter_as_double it) (λ d,
    t = BSON_TYPE_DOUBLE ∨ t = BSON_TYPE_INT32 ∨ t = BSON_TYPE_INT64 ∨ t = BSON_TYPE_BOOL ∨ d = 0).
Proof using Hat.
  unfold bson_iter_as_double. rewrite (ITER_TYPE_at _ _ _ Hat). cbn [bind]. destruct t; try (by cbn; auto 6).
  - eapply returns_mono; [by eapply bson_iter_double_at|]. auto.
  - eapply returns_bind; [by eapply bson_iter_bool_at|]. cbn. auto 6.
  - eapply returns_bind; [by eapply bson_iter_int32_at|]. cbn. auto 6.
  - eapply returns_bind; [by eapply bson_iter_int64_at|]. cbn. auto 6.
Qed.
Lemma bson_iter_timeval_range :
  returns (bson_iter_timeval it) (λ p, in_s64 p.1 ∧ - 10 ^ 6 < p.2 < 10 ^ 6).
Proof using Hat.
  unfold bson_iter_timeval. rewrite (if_type_at _ _ _ Hat). case_decide; [|by cbn; unfold in_s64; lia].
  unfold bson_iter_timeval_unsafe. eapply (returns_bind _ _ in_s64).
  - pose proof (bson_iter_date_time_at _ _ _ Hat) as Hd. unfold bson_iter_date_time in Hd.
    rewrite (if_type_at _ _ _ Hat), decide_True in Hd by done. exact Hd.
  - unfold in_s64. intros v Hv. cbn [returns fst snd]. pose proof (Z.rem_bound_abs v 1000). pose proof (Z.quot_rem' v 1000). lia.
Qed.
Lemma bson_iter_decimal128_range :
  returns (bson_iter_decimal128 it) (λ r, match r with Some (l, h) => 0 ≤ l < 2 ^ 64 ∧ 0 ≤ h < 2 ^ 64 | None => t ≠ BSON_TYPE_DECIMAL128 end).
Proof using Hat.
  unfold bson_iter_decimal128. rewrite (if_type_at _ _ _ Hat). case_decide; [|done].
  subst. unfold bson_iter_decimal128_unsafe. read_fixed Hat. done.
Qed.
Lemma bson_iter_key_len_at :
  ∃ k, (let* p := bson_iter_key it in c_string p) = Ret k ∧ bson_iter_key_len it = Ret (blen k).
Proof using Hat.
  destruct (bson_iter_key_at _ _ _ Hat) as [Hk (k & Hs & Hl & _)]. exists k. rewrite Hk. split; [exact Hs|].
  pose proof (at_bounds _ _ _ Hat) as Hb. unfold INT_MAX in Hb. unfold bson_iter_key_len.
  destruct (Z.gtb_spec (it_d1 it) (it_key it)); [|lia]. cbn [bson_assert bind]. rewrite Hl, u32_small by lia. done.
Qed.
Lemma string_readable_at ty :
  t = ty → ty = BSON_TYPE_CODE ∨ ty = BSON_TYPE_SYMBOL ∨ ty = BSON_TYPE_UTF8 →
  returns (string_field it ty true) (λ r, string_readable r.1 r.2).
Proof using Hat.
  intros Ht Hty. pose proof (string_field_at _ _ _ Hat ty true Hty) as Hf. pose proof (string_slice_at _ _ _ Hat ty true Hty) as Hs.
  destruct (string_field it ty true) as [[s n]|]; [|done]. cbn [returns fst snd] in *. rewrite decide_True in Hf by done.
  destruct Hf as (n' & [= -> ->] & _). exact Hs.
Qed.
Lemma bson_iter_dup_utf8_at :
  returns (bson_iter_dup_utf8 it) (λ r, match r with
    | (Some s, n) => t = BSON_TYPE_UTF8 ∧ blen s = n + 1 ∧ rd s n = Ret 0
    | (None, n) => t ≠ BSON_TYPE_UTF8 ∧ n = 0 end).
Proof using Hat.
  unfold bson_iter_dup_utf8, bson_iter_utf8. destruct (decide (t = BSON_TYPE_UTF8)) as [Ht|Ht].
  - eapply returns_bind; [apply (string_readable_at BSON_TYPE_UTF8); auto|]. intros [[p|] n] [Hs Hn]; [|done].
    cbn [fst snd] in *. pose proof Hs as (_ & Hn0 & _). rewrite <- (Z2Nat.id n) in Hs by lia.
    eapply returns_bind; [by apply slice_read|]. intros b Hb. cbn [returns]. split; [done|].
    cbn beta in Hb. assert (n = Z.of_nat (length b)) as -> by lia. split; [rewrite blen_app; done|].
    unfold rd. case_if; [lia|]. rewrite Nat2Z.id, lookup_app_r, Nat.sub_diag by lia. done.
  - unfold string_field. rewrite (if_type_at _ _ _ Hat), decide_False by done. done.
Qed.
Lemma bson_iter_value_at : returns (bson_iter_value it) (λ o, match o with Some v => value_readable v | None => False end).
Proof using Hat.
  unfold bson_iter_value. rewrite (ITER_TYPE_at _ _ _ Hat). cbn [bind]. pose proof (at_field _ _ _ Hat) as Hf.
  pose proof (at_bounds _ _ _ Hat) as Hb. unfold INT_MAX in Hb. destruct Hb as (Hok & Hb).
  case_eq t; intros; match goal with E : t = _ |- _ => rename E into Ht end; rewrite Ht in Hf; try done.
  - eapply returns_bind; [by eapply bson_iter_double_at|done].
  - eapply returns_bind; [by apply (string_readable_at _ Ht); auto|done].
  - eapply returns_bind; [by eapply bson_iter_document_at|]. by intros r [? _].
  - eapply returns_bind; [by eapply bson_iter_array_at|]. by intros r [? _].
  - eapply returns_bind; [by eapply bson_iter_binary_at|]. by intros [[? ?] ?] ?.
  - unfold bson_iter_oid, bson_iter_oid_unsafe. rewrite (if_type_at _ _ _ Hat), decide_True by done.
    rewrite (field_ptr_at _ _ _ Hat). cbn [bind deref]. simpl in Hf.
    eapply returns_bind; [by apply (slice_read _ 12), (slice_at _ _ _ Hat); lia|done].
  - eapply returns_bind; [by eapply bson_iter_bool_at|done].
  - eapply returns_bind; [by eapply bson_iter_date_time_at|done].
  - pose proof (bson_iter_regex_at _ _ _ Hat) as Hr. unfold bson_iter_regex in *.
    rewrite (if_type_at _ _ _ Hat), decide_True, !(field_ptr_at _ _ _ Hat) in * by done. exact Hr.
  - unfold bson_iter_dbpointer. rewrite (if_type_at _ _ _ Hat), decide_True by done.
    destruct Hf as (Hd2 & Hnext & l & Hl & Hl1 & Hd3 & _).
    rewrite (field_le_at _ _ _ Hat), Hl, !(field_ptr_at _ _ _ Hat). cbn [bind]. destruct (Z.gtb_spec l 0); [|lia]. cbn [deref bind].
    eapply returns_bind; [by apply (slice_read _ 12), (slice_at _ _ _ Hat); lia|]. intros oid Ho. cbn [returns value_readable].
    change (default 0 (Some (l - 1))) with (l - 1).
    split; [apply (slice_at _ _ _ Hat); lia|done].
  - eapply returns_bind; [by apply (string_readable_at _ Ht); auto|done].
  - eapply returns_bind; [by apply (string_readable_at _ Ht); auto|done].
  - eapply returns_bind; [by eapply bson_iter_codewscope_at|]. by intros [[[? ?] ?] ?] ?.
  - eapply returns_bind; [by eapply bson_iter_int32_at|done].
  - eapply returns_bind; [by eapply bson_iter_timestamp_at|done].
  - eapply returns_bind; [by eapply bson_iter_int64_at|done].
  - eapply returns_bind; [by eapply bson_iter_decimal128_at|]. by intros [[? ?]|] _.
Qed.
Lemma bson_iter_as_int64_fault :
  outcome (λ f, f = BadConversion ∧ t = BSON_TYPE_DOUBLE) (bson_iter_as_int64 it) in_s64.
Proof using Hat.
  pose proof (bson_iter_as_int64_at _ _ _ Hat) as H. destruct (bson_iter_as_int64 it) as [x|f] eqn:E; [exact H|].
  split; [exact H|]. revert E. unfold bson_iter_as_int64. rewrite (ITER_TYPE_at _ _ _ Hat). cbn [bind].
  pose proof (bson_iter_bool_at _ _ _ Hat). pose proof (bson_iter_int32_at _ _ _ Hat). pose proof (bson_iter_int64_at _ _ _ Hat).
  by destruct t; try done; [destruct (bson_iter_bool it)|destruct (bson_iter_int32 it)|destruct (bson_iter_int64 it)].
Qed.
End Getters.

(** every getter, on a field of the type [t] *)
Record getters_safe (it : bson_iter_t) (t : bson_type_t) : Prop := {
  gs_type : bson_iter_type it = Ret t;
  gs_key : ∃ k, (let* p := bson_iter_key it in c_string p) = Ret k ∧ bson_iter_key_len it = Ret (blen k);
  gs_utf8 w : returns (bson_iter_utf8 it w) (λ r, slice_ok r.1 r.2
    ∧ match r.1 with Some p => returns (c_string p) bytes_ok | None => True end);
  gs_code w : returns (bson_iter_code it w) (λ r, slice_ok r.1 r.2
    ∧ match r.1 with Some p => returns (c_string p) bytes_ok | None => True end);
  gs_symbol : returns (bson_iter_symbol it) (λ r, slice_ok r.1 r.2
    ∧ match r.1 with Some p => returns (c_string p) bytes_ok | None => True end);
  gs_dup_utf8 : returns (bson_iter_dup_utf8 it) (λ r, match r with
    | (Some s, n) => t = BSON_TYPE_UTF8 ∧ blen s = n + 1 ∧ rd s n = Ret 0
    | (None, n) => t ≠ BSON_TYPE_UTF8 ∧ n = 0 end);
  gs_binary : returns (bson_iter_binary it) (λ r, slice_ok r.2 r.1.2);
  gs_regex : returns (bson_iter_regex it) (λ r, match r with
    | (Some p, Some o) => returns (c_string p) bytes_ok ∧ returns (c_string o) bytes_ok
    | (None, None) => True
    | _ => False end);
  gs_codewscope : returns (bson_iter_codewscope it) (λ r,
    let '(code, n, scope_len, scope) := r in slice_ok code n ∧ slice_ok scope scope_len);
  gs_dbpointer : returns (bson_iter_dbpointer it) (λ r, match r with
    | (Some n, c, o) => slice_ok c n ∧ slice_ok o 12
    | (None, c, o) => c = None ∧ o = None end);
  gs_document : returns (bson_iter_document it) (λ r, slice_ok r.2 r.1 ∧ r.1 ≤ INT_MAX);
  gs_array : returns (bson_iter_array it) (λ r, slice_ok r.2 r.1 ∧ r.1 ≤ INT_MAX);
  gs_recurse : returns (bson_iter_recurse it) (λ r, match r with
    | Some child => (t = BSON_TYPE_DOCUMENT ∨ t = BSON_TYPE_ARRAY) ∧ iter_ok child
    | None => t ≠ BSON_TYPE_DOCUMENT ∧ t ≠ BSON_TYPE_ARRAY end);
  gs_oid : returns (bson_iter_oid it) (λ p, slice_ok p (if p then 12 else 0));
  gs_bool : returns (bson_iter_bool it) (λ _, True);
  gs_int32 : returns (bson_iter_int32 it) in_s32;
  gs_int64 : returns (bson_iter_int64 it) in_s64;
  gs_double : returns (bson_iter_double it) (λ d, 0 ≤ d < 2 ^ 64);
  gs_decimal128 : returns (bson_iter_decimal128 it) (λ r, match r with
    | Some (l, h) => 0 ≤ l < 2 ^ 64 ∧ 0 ≤ h < 2 ^ 64 | None => t ≠ BSON_TYPE_DECIMAL128 end);
  gs_date_time : returns (bson_iter_date_time it) in_s64;
  gs_time_t : returns (bson_iter_time_t it) in_s64;
  gs_timeval : returns (bson_iter_timeval it) (λ p, in_s64 p.1 ∧ - 10 ^ 6 < p.2 < 10 ^ 6);
  gs_timestamp : returns (bson_iter_timestamp it) (λ p, in_u32 p.1 ∧ in_u32 p.2);
  gs_as_bool : returns (bson_iter_as_bool it) (λ _, True);
  gs_as_double : returns (bson_iter_as_double it) (λ d,
    t = BSON_TYPE_DOUBLE ∨ t = BSON_TYPE_INT32 ∨ t = BSON_TYPE_INT64 ∨ t = BSON_TYPE_BOOL ∨ d = 0);
  gs_as_int64 : outcome (λ f, f = BadConversion ∧ t = BSON_TYPE_DOUBLE) (bson_iter_as_int64 it) in_s64;
  gs_value : returns (bson_iter_value it) (λ o, match o with Some v => value_readable v | None => False end)
}.

(** C36. Every getter, called on a field of any type, stays inside the document: the
    strings, binaries, sub-documents, ObjectIds and code it hands out are readable for
    the length it reports, strings are NUL-terminated, numbers are in the range of
    their type; bson_iter_dup_utf8 copies exactly the strings; bson_iter_value hands
    out a value whose memory is readable; and the only fault is bson_iter_as_int64's
    cast of a double that does not fit. *)
Theorem bson_iter_getters_safe it data t : iter_at it data t → getters_safe it t.
Proof.
  intros Hat. constructor; intros;
    first [ by eapply bson_iter_type_at | by eapply bson_iter_key_len_at | by eapply string_slice_at; auto
          | by eapply bson_iter_dup_utf8_at | by eapply bson_iter_binary_at | by eapply bson_iter_regex_at
          | by eapply bson_iter_codewscope_at | by eapply bson_iter_dbpointer_at | by eapply bson_iter_document_at
          | by eapply bson_iter_array_at | by eapply bson_iter_recurse_at | by eapply bson_iter_oid_at
          | by eapply bson_iter_bool_at | by eapply bson_iter_int32_at | by eapply bson_iter_int64_at
          | by eapply bson_iter_double_at | by eapply bson_iter_decimal128_range | by eapply bson_iter_date_time_at
          | by eapply bson_iter_time_t_at | by eapply bson_iter_timeval_range | by eapply bson_iter_timestamp_at
          | by eapply bson_iter_as_bool_at | by eapply bson_iter_as_double_at | by eapply bson_iter_as_int64_fault
          | by eapply bson_iter_value_at ].
Qed.

(** a document with a field of every type, the binaries of both kinds *)
Definition every_type : bson_t :=
  [222; 0; 0; 0;
   1; 102; 0; 0; 0; 0; 0; 0; 0; 248; 63;
   2; 115; 0; 3; 0; 0; 0; 97; 98; 0;
   3; 100; 0; 5; 0; 0; 0; 0;
   4; 97; 0; 5; 0; 0; 0; 0;
   5; 98; 0; 3; 0; 0; 0; 0; 1; 2; 3;
   5; 99; 0; 6; 0; 0; 0; 2; 2; 0; 0; 0; 8; 9;
   6; 117; 0;
   7; 111; 0; 0; 1; 2; 3; 4; 5; 6; 7; 8; 9; 10; 11;
   8; 116; 0; 1;
   9; 101; 0; 255; 255; 255; 255; 255; 255; 255; 255;
   10; 110; 0;
   11; 114; 0; 97; 0; 105; 0;
   12; 112; 0; 3; 0; 0; 0; 100; 98; 0; 0; 1; 2; 3; 4; 5; 6; 7; 8; 9; 10; 11;
   13; 107; 0; 2; 0; 0; 0; 120; 0;
   14; 121; 0; 2; 0; 0; 0; 122; 0;
   15; 119; 0; 15; 0; 0; 0; 2; 0; 0; 0; 120; 0; 5; 0; 0; 0; 0;
   16; 105; 0; 7; 0; 0; 0;
   17; 109; 0; 6; 0; 0; 0; 5; 0; 0; 0;
   18; 108; 0; 247; 255; 255; 255; 255; 255; 255; 255;
   19; 113; 0; 1; 0; 0; 0; 0; 0; 0; 0; 2; 0; 0; 0; 0; 0; 0; 0;
   127; 120; 0;
   255; 122; 0;
   0].
Definition every_type_tags : list bson_type_t :=
  [BSON_TYPE_DOUBLE; BSON_TYPE_UTF8; BSON_TYPE_DOCUMENT; BSON_TYPE_ARRAY; BSON_TYPE_BINARY; BSON_TYPE_BINARY;
   BSON_TYPE_UNDEFINED; BSON_TYPE_OID; BSON_TYPE_BOOL; BSON_TYPE_DATE_TIME; BSON_TYPE_NULL; BSON_TYPE_REGEX;
   BSON_TYPE_DBPOINTER; BSON_TYPE_CODE; BSON_TYPE_SYMBOL; BSON_TYPE_CODEWSCOPE; BSON_TYPE_INT32;
   BSON_TYPE_TIMESTAMP; BSON_TYPE_INT64; BSON_TYPE_DECIMAL128; BSON_TYPE_MAXKEY; BSON_TYPE_MINKEY].
Lemma bson_iter_getters_safe_witness :
  ∃ last l, fields_of (iter_start every_type 222) = Ret (last, l) ∧ map ITER_TYPE l = map Ret every_type_tags
    ∧ Forall (λ f, ∃ t, getters_safe f t) l.
Proof.
  destruct (fields_of_ok (iter_start every_type 222)) as (last & l & Hf & Hl & _ & _).
  { apply iter_start_ok; [repeat constructor; discriminate|split; vm_compute; discriminate|vm_compute; discriminate]. }
  exists last, l. split; [exact Hf|]. split; [vm_compute in Hf; injection Hf as <- <-; reflexivity|].
  eapply Forall_impl; [exact Hl|]. intros f (data & t & Hat). exists t. exact (bson_iter_getters_safe f data t Hat).
Defined.
