(* ===== verification/BsonCopy.v ===== *)
(** The builder as a whole: programs of appends and sub-documents build exactly
    the document they describe; a field copied from an iterator is copied byte
    for byte, and so is a document copied without some of its keys; and the two
    ways the builder and bson_new_from_buffer fall short of their contract. *)
From S2P Require Import Prelude CDouble BsonIter BsonIterSafe BsonFields BsonAppend BsonBuild BsonValue.
From Stdlib Require Import ZArith Lia List.
From stdpp Require Import prelude strings.
#[local] Open Scope Z_scope.
#[local] Open Scope mongo_scope.

(** ** Programs of the builder *)
Inductive op :=
| AppendValue (key : list Z) (key_length : Z) (value : bson_value_t)
| BeginDocument (key : list Z) (key_length : Z)
| BeginArray (key : list Z) (key_length : Z)
| End.

Definition run_op (fresh : Z → Z) (o : op) (m : bson_mem) : res (bool * bson_mem) :=
  match o with
  | AppendValue key kl v => bson_append_value fresh m key kl v
  | BeginDocument key kl => bson_append_document_begin fresh m key kl
  | BeginArray key kl => bson_append_array_begin fresh m key kl
  | End => let* m := bson_append_document_end m in Ret (true, m)
  end.
(** a caller that stops at the first failure *)
Fixpoint run_ops (fresh : Z → Z) (ops : list op) (m : bson_mem) : res (bool * bson_mem) :=
  match ops with
  | [] => Ret (true, m)
  | o :: ops =>
      let* r := run_op fresh o m in
      let '(ok, m) := r in if ok : bool then run_ops fresh ops m else Ret (false, m)
  end.

(** The same program on the abstract state: the fields of the innermost document
    and, for each enclosing one, its fields up to the child's header. *)
Definition doc_state : Type := list Z * list (list Z).
Inductive spec_op : op → doc_state → doc_state → Prop :=
| spec_append key kl k v type value body outer :
    key_arg key kl k → encode_value v = Ret (type, value) → blen value < 2 ^ 28 → value_len_ok v →
    spec_op (AppendValue key kl v) (body, outer) (body ++ field_bytes type k value, outer)
| spec_begin_document key kl k body outer :
    key_arg key kl k →
    spec_op (BeginDocument key kl) (body, outer) ([], (body ++ 0x03 :: k ++ [0]) :: outer)
| spec_begin_array key kl k body outer :
    key_arg key kl k →
    spec_op (BeginArray key kl) (body, outer) ([], (body ++ 0x04 :: k ++ [0]) :: outer)
| spec_end body o outer :
    spec_op End (body, o :: outer) (o ++ doc_bytes body, outer).
Inductive spec_ops : list op → doc_state → doc_state → Prop :=
| spec_nil s : spec_ops [] s s
| spec_cons o ops s s' s'' : spec_op o s s' → spec_ops ops s' s'' → spec_ops (o :: ops) s s''.

(** the memory a state occupies only grows *)
Lemma spec_op_extent o s s' : spec_op o s s' → extent s.1 s.2 ≤ extent s'.1 s'.2.
Proof.
  intros H. destruct H; cbn [fst snd]; unfold extent; cbn [front length].
  - rewrite blen_app. pose proof (blen_nonneg (field_bytes type k value)). lia.
  - rewrite !blen_app, !blen_le_bytes, blen_cons, blen_app. change (blen []) with 0.
    pose proof (blen_nonneg k). pose proof (blen_nonneg [0]). lia.
  - rewrite !blen_app, !blen_le_bytes, blen_cons, blen_app. change (blen []) with 0.
    pose proof (blen_nonneg k). pose proof (blen_nonneg [0]). lia.
  - rewrite !blen_app, !blen_le_bytes, blen_doc_bytes. lia.
Qed.
Lemma spec_ops_extent ops s s' : spec_ops ops s s' → extent s.1 s.2 ≤ extent s'.1 s'.2.
Proof. induction 1 as [|????? H]; [lia|]. apply spec_op_extent in H. lia. Qed.

Lemma run_op_builds fresh o m s s' :
  builds m s.1 s.2 → spec_op o s s' →
  returns (run_op fresh o m) (λ '(ok, m'),
    if ok : bool then builds m' s'.1 s'.2 else 2 ^ 30 < extent s'.1 s'.2 + 128).
Proof.
  intros Hb H. destruct H; cbn [fst snd run_op] in *.
  - eapply returns_mono; [by eapply append_value_builds|]. intros [[] m']; [by intros [? _]|].
    intros [_ Hbig]. unfold extent in *. rewrite blen_app. lia.
  - eapply returns_mono; [by eapply begin_builds|]. intros [[] m']; [done|]. intros [_ Hbig].
    unfold extent in *. cbn [front length]. rewrite !blen_app, !blen_le_bytes, blen_cons, blen_app.
    change (blen []) with 0. change (blen [0]) with 1. lia.
  - eapply returns_mono; [by eapply begin_builds|]. intros [[] m']; [done|]. intros [_ Hbig].
    unfold extent in *. cbn [front length]. rewrite !blen_app, !blen_le_bytes, blen_cons, blen_app.
    change (blen []) with 0. change (blen [0]) with 1. lia.
  - eapply returns_bind; [by apply end_builds|]. done.
Qed.
Lemma run_ops_builds fresh ops m s s' :
  builds m s.1 s.2 → spec_ops ops s s' →
  returns (run_ops fresh ops m) (λ '(ok, m'),
    if ok : bool then builds m' s'.1 s'.2 else 2 ^ 30 < extent s'.1 s'.2 + 128).
Proof.
  intros Hb H. revert m Hb. induction H as [|o ops s s1 s2 H1 H2 IH]; intros m Hb; [done|].
  cbn [run_ops]. eapply returns_bind; [by eapply run_op_builds|]. intros [[] m']; [apply IH|].
  intros Hbig. simpl. apply spec_ops_extent in H2. lia.
Qed.

Lemma init_builds fresh : builds (bson_init fresh) [] [].
Proof.
  constructor; try done. by exists (fresh_bytes fresh 5 BSON_INLINE_DATA_SIZE).
Qed.
(** the bytes of the document under construction *)
Lemma get_data_builds m body outer : builds m body outer → bson_get_data m = Ret (doc_bytes body).
Proof.
  intros Hb. unfold bson_get_data. rewrite (builds_top _ _ _ Hb). cbn [l_len l_offset].
  destruct (b_buf _ _ _ Hb) as [rest ->].
  assert (Hl : Z.to_nat (5 + blen body) = length (doc_bytes body)).
  { pose proof (blen_doc_bytes body). unfold blen in *. lia. }
  rewrite Hl, <- (rd_bytes_app_l (doc_bytes body) rest).
  pose proof (rd_bytes_app_r (length (doc_bytes body)) (front outer) (doc_bytes body ++ rest) 0) as H.
  rewrite Z.add_0_r in H. by apply H.
Qed.

(** C2. Any program of appends and properly nested sub-documents, run on a freshly
    initialised document, never leaves the allocated memory whatever the fresh
    memory holds; it succeeds and leaves exactly the bytes of the document it
    describes, or it reports failure and the document would not fit a
    gigabyte. *)
Theorem bson_builder_refines fresh ops body outer :
  spec_ops ops ([], []) (body, outer) →
  returns (run_ops fresh ops (bson_init fresh)) (λ '(ok, m),
    if ok : bool then builds m body outer ∧ bson_get_data m = Ret (doc_bytes body)
    else 2 ^ 30 < extent body outer + 128).
Proof.
  intros H. eapply returns_mono; [exact (run_ops_builds fresh ops _ ([], []) (body, outer) (init_builds fresh) H)|].
  intros [[] m]; cbn [fst snd]; [|done]. intros Hm. split; [done|]. by eapply get_data_builds.
Qed.

(** a copy holds the same document *)
Lemma copy_to_builds fresh m body :
  builds m body [] → 5 + blen body ≤ 2 ^ 30 → returns (bson_copy_to fresh m) (λ m', builds m' body []).
Proof.
  intros Hb Hmax. pose proof Hb as [Hrd Hlev (rest & Hbuf) Hroom Hbm Hkind]. unfold bson_copy_to.
  destruct (m_inline m) eqn:Hinl.
  { cbn [returns]. constructor; cbn; [done|done|by exists rest|done|done|]. by destruct Hkind. }
  rewrite (get_data_builds _ _ _ Hb), (builds_top _ _ _ Hb). cbn [bind l_len].
  pose proof (blen_nonneg body) as Hn.
  pose proof (next_power_of_two_1g (5 + blen body) ltac:(lia)) as Hp. destruct (Z.leb_spec (5 + blen body) (bson_next_power_of_two (5 + blen body))); [|lia].
  cbn [returns]. rewrite blen_doc_bytes.
  assert (Hl : blen (doc_bytes body ++ fresh_bytes fresh (5 + blen body) (bson_next_power_of_two (5 + blen body)))
            = bson_next_power_of_two (5 + blen body)).
  { rewrite blen_app, blen_doc_bytes, fresh_blen by lia. lia. }
  constructor; cbn [m_rdonly m_levels m_buf m_inline m_realloc front outer_levels app]; [done|done|by eexists| | |done];
    rewrite Hl; unfold extent, INT32_MAX; cbn [front length]; change (blen []) with 0; lia.
Qed.

(** ** Copying fields *)

(** the bytes of the field an iterator stands on: type, key and value *)
Definition field_source (it : bson_iter_t) : list Z :=
  match it_raw it with
  | Some data => sl data (it_off it) (it_next_off it - it_off it)
  | None => []
  end.
Definition canonical_field (it : bson_iter_t) : Prop :=
  ∃ data t, iter_at it data t ∧ canonical it data t.

Lemma field_source_split it data t b k :
  iter_at it data t → rd data (it_type it) = Ret b → field_key it = Ret k →
  field_source it = field_bytes b k (sl data (it_d1 it) (it_next_off it - it_d1 it))
  ∧ blen k = it_d1 it - 1 - it_key it ∧ Forall (λ b, b ≠ 0) k
  ∧ ∃ r, ptr_add data (it_key it) = k ++ 0 :: r.
Proof.
  intros Hat Hb Hk. pose proof (at_bounds _ _ _ Hat) as (Hok & Hb0 & Hkey & Hd & Hn & Hlen & _).
  assert (Ek : c_string (ptr_add data (it_key it)) = Ret (sl data (it_key it) (it_d1 it - 1 - it_key it))).
  { apply c_string_sl; [lia|lia| |].
    - replace (it_key it + (it_d1 it - 1 - it_key it)) with (it_d1 it - 1) by lia. apply Hat.
    - intros i Hi. apply (at_key_chars _ _ _ Hat). lia. }
  destruct (field_key_at _ _ _ Hat) as (k' & Hk' & _ & Hs). rewrite Hk in Hk'. injection Hk' as <-.
  destruct (c_string_split _ _ Hs) as [Hnz Hr]. rewrite Ek in Hs. apply Ret_inj in Hs.
  split; [|split; [rewrite <- Hs; apply blen_sl; lia|done]].
  rewrite <- Hs. unfold field_source, field_bytes. rewrite (at_raw _ _ _ Hat).
  replace (it_next_off it - it_off it)
    with (1 + ((it_d1 it - 1 - it_key it) + (1 + (it_next_off it - it_d1 it)))) by lia.
  rewrite (at_type_off _ _ _ Hat) in Hb.
  rewrite sl_app, (sl_one _ _ _ Hb) by lia. cbn [app]. f_equal. rewrite <- Hkey.
  rewrite sl_app by lia. f_equal. rewrite sl_app by lia.
  replace (it_key it + (it_d1 it - 1 - it_key it)) with (it_d1 it - 1) by lia.
  rewrite (sl_one _ _ _ (at_key_nul _ _ _ Hat)). cbn [app]. do 2 f_equal. lia.
Qed.

Lemma append_iter_copies fresh m body outer it :
  builds m body outer → canonical_field it → blen (field_source it) < 2 ^ 28 →
  appends (bson_append_iter fresh m None 0 it) m body outer (field_source it).
Proof.
  intros Hb (data & t & Hat & Hcan) Hlen.
  pose proof (at_bounds _ _ _ Hat) as (Hok & Hb0 & Hkey & Hd & Hn & Hl & _).
  destruct (recode it data t Hat Hcan) as (v & b & Hv & Hty & He & Hvl).
  destruct (field_key_at _ _ _ Hat) as (k & Hk & Hkp & _).
  destruct (field_source_split it data t b k Hat Hty Hk) as (Hs & Hkl & Hnz & r & Hr).
  assert (Hbl : blen (field_source it) = it_next_off it - it_off it).
  { unfold field_source. rewrite (at_raw _ _ _ Hat). apply blen_sl; lia. }
  rewrite Hs. unfold bson_append_iter. rewrite Hkp. cbn [bind fst snd]. rewrite Hv. cbn [bind].
  apply append_value_builds; [done| |done| |].
  - split; [lia|]. split; [done|]. left. split; [lia|]. by exists r.
  - rewrite blen_sl by lia. lia.
  - apply Hvl. lia.
Qed.

(** Appending the field under an iterator reproduces its bytes, type, key and
    value, for every type; or it reports failure, changes nothing, and the
    result would not fit a gigabyte. *)
Theorem bson_append_iter_exact fresh m body outer it :
  builds m body outer → canonical_field it → blen (field_source it) < 2 ^ 28 →
  returns (bson_append_iter fresh m None 0 it) (λ '(ok, m'),
    if ok : bool then builds m' (body ++ field_source it) outer
    else m' = m ∧ 2 ^ 30 < extent body outer + blen (field_source it)).
Proof.
  intros Hb Hc Hl. eapply returns_mono; [by apply append_iter_copies|].
  intros [[] m']; [by intros [? _]|done].
Qed.

(** ** Copying a document *)

(** the fields of a loop over one document follow each other *)
Fixpoint consecutive (data : list Z) (o : Z) (l : list bson_iter_t) : Prop :=
  match l with
  | [] => True
  | f :: l => it_raw f = Some data ∧ it_off f = o ∧ o ≤ it_next_off f ≤ blen data
              ∧ consecutive data (it_next_off f) l
  end.
Lemma collect_consecutive data fuel it acc last l :
  iter_ok it → it_raw it = Some data → iter_while collect fuel it acc = Ret (last, acc ++ l) →
  consecutive data (it_next_off it) l.
Proof.
  revert it acc l. induction fuel as [|fuel IH]; intros it acc l Hit Hraw H; [done|].
  simpl in H. pose proof (bson_iter_next_ok it Hit) as Hn.
  destruct (bson_iter_next it) as [[ok it']|]; [|done]. cbn [bind] in H. simpl in Hn. destruct ok.
  - cbn [collect bind] in H. destruct Hn as (d & t & Hraw' & Hat & Hoff & Hlen).
    rewrite Hraw in Hraw'. injection Hraw' as <-.
    destruct (collect_step _ _ _ _ _ _ H) as [l' ->]. cbn [consecutive].
    pose proof (at_bounds _ _ _ Hat). rewrite <- Hoff.
    split; [apply Hat|]. split; [done|]. split; [lia|].
    apply (IH it' (acc ++ [it'])); [by eapply iter_at_ok|apply Hat|by rewrite <- app_assoc].
  - injection H as _ H. rewrite <- (app_nil_r acc) in H at 1. apply app_inv_head in H. by subst.
Qed.
Lemma consecutive_size data o l (p : bson_iter_t → bool) :
  0 ≤ o ≤ blen data → consecutive data o l →
  blen (concat (map field_source (List.filter p l))) ≤ blen data - o.
Proof.
  revert o. induction l as [|f l IH]; intros o Ho H; [change (blen (concat _)) with 0; lia|].
  destruct H as (Hraw & Hoff & Hn & H). specialize (IH (it_next_off f) ltac:(lia) H).
  cbn [List.filter]. destruct (p f); cbn [map concat]; [|lia]. rewrite blen_app.
  unfold field_source at 1. rewrite Hraw, blen_sl by lia. lia.
Qed.

(** the fields that are copied *)
Definition kept (excludes : list (list Z)) (it : bson_iter_t) : bool :=
  match field_key it with Ret k => negb (should_ignore excludes k) | _ => false end.

Lemma copy_loop fresh excludes l last m body :
  builds m body [] → Forall canonical_field l →
  blen body + blen (concat (map field_source (List.filter (kept excludes) l))) < 2 ^ 28 →
  returns (fold_fields (λ it m,
      let* p := bson_iter_key it in
      let* name := c_string p in
      if should_ignore excludes name then Ret (true, m)
      else
        let* r := bson_append_iter fresh m None 0 it in
        let* _ := bson_assert r.1 in Ret (true, r.2)) l last m)
    (λ r, builds r.2 (body ++ concat (map field_source (List.filter (kept excludes) l))) []).
Proof.
  revert m body. induction l as [|f l IH]; intros m body Hb Hl Hsize.
  - simpl. by rewrite app_nil_r.
  - apply Forall_cons in Hl as [Hf Hl]. pose proof Hf as (data & t & Hat & _).
    destruct (field_key_at _ _ _ Hat) as (k & Hk & Hp & Hs).
    cbn [fold_fields]. rewrite Hp. cbn [bind]. rewrite Hs. cbn [bind].
    cbn [List.filter] in *. unfold kept at 1 in Hsize. unfold kept at 1. rewrite Hk in *.
    destruct (should_ignore excludes k); cbn [negb bind] in *; [by apply IH|].
    cbn [map concat] in *. rewrite blen_app in Hsize.
    pose proof (blen_nonneg body). pose proof (blen_nonneg (field_source f)).
    pose proof (blen_nonneg (concat (map field_source (List.filter (kept excludes) l)))).
    pose proof (append_iter_copies fresh m body [] f Hb Hf ltac:(lia)) as Ha.
    apply returns_Ret in Ha as ([ok m'] & -> & Ha). cbn [bind fst snd].
    destruct ok; [|destruct Ha as [_ Ha]; unfold extent in Ha; cbn [front length] in Ha;
                   change (blen []) with 0 in Ha; lia].
    destruct Ha as [Ha _]. cbn [bson_assert bind]. rewrite app_assoc.
    apply IH; [done|done|]. rewrite blen_app. lia.
Qed.

(** Copying a document without some keys yields the document of exactly the
    other fields, byte for byte and in order, and never trips the assertion that
    each append succeeds. *)
Theorem bson_copy_to_excluding_exact fresh src excludes last l :
  bson_ok src → blen src < 2 ^ 28 →
  fields_of (bson_iter_init src).2 = Ret (last, l) → Forall canonical_field l →
  returns (bson_copy_to_excluding fresh src excludes) (λ m,
    bson_get_data m = Ret (doc_bytes (concat (map field_source (List.filter (kept excludes) l))))).
Proof.
  intros Hsrc Hlen Hf Hl. unfold bson_copy_to_excluding, bson_copy_to_excluding_noinit_va.
  pose proof (bson_iter_init_ok src Hsrc) as Hok. unfold bson_iter_init in *.
  destruct (Z.ltb_spec (blen src) 5); cbn [snd] in *.
  - unfold fields_of, for_each_field in Hf. cbn in Hf. injection Hf as _ <-.
    simpl. apply (get_data_builds _ _ _ (init_builds fresh)).
  - assert (Hc : consecutive src 4 l).
    { exact (collect_consecutive src _ (iter_start src (blen src)) [] last l Hok eq_refl Hf). }
    pose proof (consecutive_size src 4 l (kept excludes) ltac:(lia) Hc) as Hsize.
    rewrite (for_each_fold _ _ last l _ Hf).
    eapply returns_bind; [eapply copy_loop; [apply init_builds|done|change (blen []) with 0; lia]|].
    intros r Hr. cbn [returns]. exact (get_data_builds _ _ _ Hr).
Qed.

(** ** Two gaps *)

(** bson_append_binary with NULL data and a length reports failure but leaves
    the document longer by the header it wrote: the next append, which succeeds,
    then produces a document that holds the binary field and has lost the
    appended one inside its value. *)
Theorem bson_append_null_binary_corrupts :
  let fresh := λ _, 0xAA in
  ∃ m m' doc, bson_append_binary fresh (bson_init fresh) (cs "k") 1 0 None 3 = Ret (false, m)
    ∧ l_len (m_top m) = 13
    ∧ bson_append_null fresh m (cs "n") 1 = Ret (true, m')
    ∧ bson_get_data m' = Ret doc ∧ bson_init_static doc (blen doc) = Ret (Some doc)
    ∧ bson_has_field doc (cs "k" ++ [0]) = Ret true ∧ bson_has_field doc (cs "n" ++ [0]) = Ret false.
Proof.
  do 3 eexists. split; [vm_compute; reflexivity|]. split; [reflexivity|].
  split; [vm_compute; reflexivity|]. split; [vm_compute; reflexivity|].
  repeat split; vm_compute; reflexivity.
Qed.

(** bson_new_from_buffer trusts the length inside the buffer: it reads the last
    byte there before comparing it with the size of the buffer. *)
Theorem bson_new_from_buffer_reads_past buf l :
  bytes_ok buf → 5 ≤ blen buf ≤ INT_MAX → rd_le 4 buf 0 = Ret l → blen buf < l →
  bson_new_from_buffer (Some buf) = Stuck OutOfBounds.
Proof.
  intros Hok Hb Hl Hbig. unfold bson_new_from_buffer.
  destruct (Z.ltb_spec (blen buf) 5); [lia|]. destruct (Z.gtb_spec (blen buf) INT_MAX); [lia|].
  cbn [orb]. rewrite Hl. cbn [bind].
  destruct (rd_le_ex 4 buf 0 Hok) as (l' & Hl' & Hr); [lia|lia|]. assert (l' = l) as -> by congruence.
  change (256 ^ Z.of_nat 4) with (2 ^ 32) in Hr. rewrite u32_small by lia.
  unfold rd. destruct (Z.ltb_spec (l - 1) 0); [done|].
  rewrite lookup_ge_None_2; [done|]. unfold blen in *. lia.
Qed.

(** ** Document literals: the bytes of a field, as the builder lays it out *)
Definition f_bool (k : String.string) (b : bool) : list Z := field_bytes 0x08 (cs k) [Z.b2z b].
Definition f_int32 (k : String.string) (x : Z) : list Z := field_bytes 0x10 (cs k) (le_bytes 4 x).
Definition f_int64 (k : String.string) (x : Z) : list Z := field_bytes 0x12 (cs k) (le_bytes 8 x).
Definition f_utf8 (k s : String.string) : list Z :=
  field_bytes 0x02 (cs k) (le_bytes 4 (blen (cs s) + 1) ++ cs s ++ [0]).
Definition f_oid (k : String.string) (oid : list Z) : list Z := field_bytes 0x07 (cs k) oid.
Definition f_doc (k : String.string) (body : list Z) : list Z := field_bytes 0x03 (cs k) (doc_bytes body).
Definition f_array (k : String.string) (body : list Z) : list Z := field_bytes 0x04 (cs k) (doc_bytes body).
Arguments f_bool k%_string b.
Arguments f_int32 k%_string x.
Arguments f_int64 k%_string x.
Arguments f_utf8 k%_string s%_string.
Arguments f_oid k%_string oid.
Arguments f_doc k%_string body.
Arguments f_array k%_string body.

(** ** Witnesses *)
Definition sample_ops : list op :=
  [AppendValue (cs "a") 1 (v_int32 7); BeginDocument (cs "d" ++ [0]) (-1);
   AppendValue (cs "b") 1 (v_utf8 (Some (cs "hi")) 2); End; AppendValue (cs "n") 1 v_null].
Definition sample_body : list Z :=
  field_bytes 0x10 (cs "a") [7; 0; 0; 0]
  ++ field_bytes 0x03 (cs "d") (doc_bytes (field_bytes 0x02 (cs "b") ([3; 0; 0; 0] ++ cs "hi" ++ [0])))
  ++ field_bytes 0x0A (cs "n") [].

Lemma sample_key k : blen k < 2 ^ 29 → Forall (λ b, b ≠ 0) k → key_arg k (blen k) k.
Proof. intros. split; [done|]. split; [done|]. right. split; [done|]. exists []. by rewrite app_nil_r. Qed.

Lemma sample_ops_spec : spec_ops sample_ops ([], []) (sample_body, []).
Proof.
  eapply spec_cons. { eapply (spec_append (cs "a") 1 (cs "a")); [apply sample_key; [done|by repeat constructor]|reflexivity|done|done]. }
  eapply spec_cons. { eapply (spec_begin_document _ (-1) (cs "d")). split; [done|].
    split; [by repeat constructor|]. left. split; [done|]. by exists []. }
  eapply spec_cons. { eapply (spec_append (cs "b") 1 (cs "b")); [apply sample_key; [done|by repeat constructor]|reflexivity|done|done]. }
  eapply spec_cons. { eapply spec_end. }
  eapply spec_cons. { eapply (spec_append (cs "n") 1 (cs "n")); [apply sample_key; [done|by repeat constructor]|reflexivity|done|done]. }
  apply spec_nil.
Qed.

Lemma bson_builder_refines_witness :
  bind (run_ops (λ i, i mod 256) sample_ops (bson_init (λ i, i mod 256))) (λ r, bson_get_data r.2)
  = Ret (doc_bytes sample_body)
  ∧ returns (run_ops (λ i, i mod 256) sample_ops (bson_init (λ i, i mod 256))) (λ '(ok, m),
      if ok : bool then builds m sample_body [] ∧ bson_get_data m = Ret (doc_bytes sample_body)
      else 2 ^ 30 < extent sample_body [] + 128).
Proof.
  split; [vm_compute; reflexivity|].
  exact (bson_builder_refines (λ i, i mod 256) sample_ops sample_body [] sample_ops_spec).
Defined.

Lemma at_s_canonical : canonical_field at_s.
Proof. exists sample_doc, BSON_TYPE_UTF8. split; [exact at_s_ok|exact I]. Qed.
Lemma bson_append_iter_exact_witness :
  returns (bson_append_iter (λ _, 0) (bson_init (λ _, 0)) None 0 at_s) (λ '(ok, m'),
    if ok : bool then builds m' ([] ++ field_source at_s) []
    else m' = bson_init (λ _, 0) ∧ 2 ^ 30 < extent [] [] + blen (field_source at_s)).
Proof.
  apply (bson_append_iter_exact (λ _, 0) _ [] [] at_s); [apply init_builds|exact at_s_canonical|reflexivity].
Defined.

Lemma sample_canonical : Forall canonical_field [at_a; at_d; at_s].
Proof.
  repeat constructor; [exists sample_doc, BSON_TYPE_INT32; split; [exact at_a_ok|exact I]
                      |exists sample_doc, BSON_TYPE_DATE_TIME; split; [exact at_d_ok|exact I]|exact at_s_canonical].
Qed.
Lemma bson_copy_to_excluding_exact_witness :
  bind (bson_copy_to_excluding (λ _, 0) sample_doc [cs "d"]) bson_get_data
  = Ret (doc_bytes (field_source at_a ++ field_source at_s))
  ∧ returns (bson_copy_to_excluding (λ _, 0) sample_doc [cs "d"]) (λ m,
      bson_get_data m
      = Ret (doc_bytes (concat (map field_source (List.filter (kept [cs "d"]) [at_a; at_d; at_s]))))).
Proof.
  split; [vm_compute; reflexivity|].
  eapply (bson_copy_to_excluding_exact (λ _, 0) sample_doc [cs "d"] _ [at_a; at_d; at_s]);
    [exact sample_ok|reflexivity|vm_compute; reflexivity|exact sample_canonical].
Defined.

Lemma bson_new_from_buffer_reads_past_witness :
  bson_new_from_buffer (Some [99; 0; 0; 0; 0]) = Stuck OutOfBounds.
Proof.
  apply (bson_new_from_buffer_reads_past [99; 0; 0; 0; 0] 99);
    [repeat constructor; lia|vm_compute; split; discriminate|reflexivity|reflexivity].
Defined.
