(* ===== verification/BsonUtf8.v ===== *)
(** libbson's UTF-8 routines (bson/bson-utf8.c): sequence classification,
    validation, decoding and encoding of one character, JSON escaping.  The
    theorems characterise the validator by the encoder: a byte string is
    accepted exactly when it is a concatenation of encoded scalar values (plus
    the two-byte form of NUL, when NUL is allowed). *)
From S2P Require Import Prelude.
From Stdlib Require Import ZArith Lia List.
From stdpp Require Import prelude.
#[local] Open Scope Z_scope.
#[local] Open Scope mongo_scope.

(** sequence length and the mask of the first byte, for lead byte [c] *)
Definition get_sequence (c : Z) : Z * Z :=
  if Z.land c 0x80 =? 0 then (1, 0x7F)
  else if Z.land c 0xE0 =? 0xC0 then (2, 0x1F)
  else if Z.land c 0xF0 =? 0xE0 then (3, 0x0F)
  else if Z.land c 0xF8 =? 0xF0 then (4, 0x07)
  else (0, 0).
Definition _bson_utf8_get_sequence (utf8 : list Z) (i : Z) : res (Z * Z) :=
  let* c := rd utf8 i in Ret (get_sequence c).

(** the loop over the [n] continuation bytes from [j]; [None] is [return false] *)
Fixpoint continuation (n : nat) (utf8 : list Z) (j c : Z) : res (option Z) :=
  match n with
  | O => Ret (Some c)
  | S n' =>
      let* b := rd utf8 j in
      let c := u32 (Z.lor (Z.shiftl c 6) (Z.land b 0x3F)) in
      if negb (Z.land b 0xC0 =? 0x80) then Ret None else continuation n' utf8 (j + 1) c
  end.

(** the [!allow_null] loop: no byte of the sequence is zero *)
Fixpoint no_null (n : nat) (utf8 : list Z) (utf8_len j : Z) : res bool :=
  match n with
  | O => Ret true
  | S n' =>
      if j >? utf8_len then Ret false
      else
        let* b := rd utf8 j in
        if b =? 0 then Ret false else no_null n' utf8 utf8_len (j + 1)
  end.

(** the range checks and the shortest-form [switch]: [true] is [continue] *)
Definition code_point_ok (c seq_length : Z) (allow_null : bool) : bool :=
  if c >? 0x0010FFFF then false
  else if Z.land c 0xFFFFF800 =? 0xD800 then false
  else
    match seq_length with
    | 1 => c <=? 0x007F
    | 2 => if (c >=? 0x0080) && (c <=? 0x07FF) then true
           else if c =? 0 then allow_null else false
    | 3 => ((c >=? 0x0800) && (c <=? 0x0FFF)) || ((c >=? 0x1000) && (c <=? 0xFFFF))
    | 4 => ((c >=? 0x10000) && (c <=? 0x3FFFF)) || ((c >=? 0x40000) && (c <=? 0xFFFFF))
           || ((c >=? 0x100000) && (c <=? 0x10FFFF))
    | _ => false
    end.

(** One iteration of the validation loop at [i]: the sequence length, or [None]
    for [return false]. *)
Definition validate_step (utf8 : list Z) (utf8_len : Z) (allow_null : bool) (i : Z)
    : res (option Z) :=
  let* sm := _bson_utf8_get_sequence utf8 i in
  let '(seq_length, first_mask) := sm in
  if seq_length =? 0 then Ret None
  else if utf8_len - i <? seq_length then Ret None
  else
    let* b := rd utf8 i in
    let* c := continuation (Z.to_nat (seq_length - 1)) utf8 (i + 1) (Z.land b first_mask) in
    match c with
    | None => Ret None
    | Some c =>
        let* nn := (if allow_null then Ret true
                    else no_null (Z.to_nat seq_length) utf8 utf8_len i) in
        if negb nn then Ret None
        else if code_point_ok c seq_length allow_null then Ret (Some seq_length) else Ret None
    end.

Fixpoint validate_from (fuel : nat) (utf8 : list Z) (utf8_len : Z) (allow_null : bool) (i : Z)
    : res bool :=
  match fuel with
  | O => Stuck OutOfFuel
  | S fuel' =>
      if i <? utf8_len then
        let* r := validate_step utf8 utf8_len allow_null i in
        match r with
        | None => Ret false
        | Some seq_length => validate_from fuel' utf8 utf8_len allow_null (u32 (i + seq_length))
        end
      else Ret true
  end.
Definition bson_utf8_validate (utf8 : list Z) (utf8_len : Z) (allow_null : bool) : res bool :=
  validate_from (S (Z.to_nat utf8_len)) utf8 utf8_len allow_null 0.

(** continuation bytes [i .. num - 1] folded into [c], unchecked *)
Fixpoint fold_bytes (n : nat) (utf8 : list Z) (i c : Z) : res Z :=
  match n with
  | O => Ret c
  | S n' =>
      let* b := rd utf8 i in
      fold_bytes n' utf8 (i + 1) (u32 (Z.lor (Z.shiftl c 6) (Z.land b 0x3F)))
  end.
Definition bson_utf8_get_char (utf8 : list Z) : res Z :=
  let* sm := _bson_utf8_get_sequence utf8 0 in
  let '(num, mask) := sm in
  let* b := rd utf8 0 in
  fold_bytes (Z.to_nat (num - 1)) utf8 1 (Z.land b mask).

Definition bson_utf8_next_char (utf8 : list Z) : res (list Z) :=
  let* sm := _bson_utf8_get_sequence utf8 0 in
  let '(num, mask) := sm in Ret (ptr_add utf8 num).

(** the bytes written; their number is [len] *)
Definition bson_utf8_from_unichar (unichar : Z) : list Z :=
  if unichar <=? 0x7F then [u8 unichar]
  else if unichar <=? 0x7FF then
    [Z.lor 0xC0 (Z.land (Z.shiftr unichar 6) 0x3F); Z.lor 0x80 (Z.land unichar 0x3F)]
  else if unichar <=? 0xFFFF then
    [Z.lor 0xE0 (Z.land (Z.shiftr unichar 12) 0xF);
     Z.lor 0x80 (Z.land (Z.shiftr unichar 6) 0x3F); Z.lor 0x80 (Z.land unichar 0x3F)]
  else if unichar <=? 0x1FFFFF then
    [Z.lor 0xF0 (Z.land (Z.shiftr unichar 18) 0x7);
     Z.lor 0x80 (Z.land (Z.shiftr unichar 12) 0x3F);
     Z.lor 0x80 (Z.land (Z.shiftr unichar 6) 0x3F); Z.lor 0x80 (Z.land unichar 0x3F)]
  else [].

(** [bson_string_append_unichar] stops at a NUL, like the [strlen] it uses *)
Definition append_unichar (str : list Z) (c : Z) : list Z :=
  str ++ (let b := bson_utf8_from_unichar c in
          match b with [0] => [] | _ => b end).
Definition hex_digit (d : Z) : Z := if d <? 10 then 48 + d else 87 + d.
(** the switch of the escaping loop: what is appended for [c] *)
Definition escape_char (c : Z) : list Z :=
  if (c =? 92) || (c =? 34) then append_unichar [92] c
  else if c =? 8 then [92; 98]
  else if c =? 12 then [92; 102]
  else if c =? 10 then [92; 110]
  else if c =? 13 then [92; 114]
  else if c =? 9 then [92; 116]
  else if c <? 32 then [92; 117; 48; 48; hex_digit (c / 16); hex_digit (c mod 16)]
  else append_unichar [] c.

(** [rest] is [end - utf8]; [None] is the NULL return *)
Fixpoint escape_loop (fuel : nat) (utf8 : list Z) (rest : Z) (length_provided : bool)
    (str : list Z) : res (option (list Z)) :=
  match fuel with
  | O => Stuck OutOfFuel
  | S fuel' =>
      if 0 <? rest then
        let* c := bson_utf8_get_char utf8 in
        let str := str ++ escape_char c in
        if negb (c =? 0) then
          let* sm := _bson_utf8_get_sequence utf8 0 in
          let* utf8 := bson_utf8_next_char utf8 in
          escape_loop fuel' utf8 (rest - fst sm) length_provided str
        else
          let* b := rd utf8 0 in
          if length_provided && (b =? 0)
          then escape_loop fuel' (ptr_add utf8 1) (rest - 1) length_provided str
          else Ret None
      else Ret (Some str)
  end.
Definition bson_utf8_escape_for_json (utf8 : list Z) (utf8_len : Z) : res (option (list Z)) :=
  let* ln := (if utf8_len <? 0 then let* s := c_string utf8 in Ret (blen s, false)
              else Ret (utf8_len, true)) in
  let '(len, length_provided) := ln in
  escape_loop (S (Z.to_nat len)) utf8 len length_provided [].

(** ** Bit operations as arithmetic *)
Lemma land_mod x k : 0 ≤ k → Z.land x (2 ^ k - 1) = x mod 2 ^ k.
Proof.
  intros. replace (2 ^ k - 1) with (Z.ones k) by (rewrite Z.ones_equiv; lia).
  by apply Z.land_ones.
Qed.

(** Case analysis over all byte values, by computation. *)
(** The classification of lead bytes, as ranges. *)
Definition lead_class (b : Z) : Z * Z :=
  if b <? 0x80 then (1, 0x7F) else if b <? 0xC0 then (0, 0) else if b <? 0xE0 then (2, 0x1F)
  else if b <? 0xF0 then (3, 0x0F) else if b <? 0xF8 then (4, 0x07) else (0, 0).
Lemma get_sequence_class b : byte_ok b → get_sequence b = lead_class b.
Proof.
  intros Hb.
  pose proof (byte_cases (λ b, bool_decide (get_sequence b = lead_class b)) eq_refl b Hb) as H.
  by apply bool_decide_eq_true in H.
Qed.
Lemma continuation_byte b : byte_ok b → (Z.land b 0xC0 =? 0x80) = (0x80 <=? b) && (b <? 0xC0).
Proof.
  intros Hb.
  pose proof (byte_cases (λ b, bool_decide
    ((Z.land b 0xC0 =? 0x80) = (0x80 <=? b) && (b <? 0xC0))) eq_refl b Hb) as H.
  by apply bool_decide_eq_true in H.
Qed.
Lemma surrogate_test c : 0 ≤ c < 2 ^ 21 → (Z.land c 0xFFFFF800 =? 0xD800) = (0xD800 <=? c) && (c <? 0xE000).
Proof.
  intros Hc.
  assert (E : Z.land c 0xFFFFF800 = c - c mod 2 ^ 11).
  { rewrite <- (land_mod c 11) by lia. change (2 ^ 11 - 1) with 2047.
    assert (Hs : Z.lor (Z.land c 0xFFFFF800) (Z.land c 2047) = c).
    { rewrite <- Z.land_lor_distr_r. change (Z.lor 0xFFFFF800 2047) with (2 ^ 32 - 1).
      rewrite land_mod by lia. apply Z.mod_small. lia. }
    assert (Hd : Z.land (Z.land c 0xFFFFF800) (Z.land c 2047) = 0).
    { rewrite <- (Z.land_assoc c), (Z.land_comm 0xFFFFF800), <- (Z.land_assoc c 2047).
      change (Z.land 2047 0xFFFFF800) with 0. by rewrite !Z.land_0_r. }
    rewrite <- Z.lxor_lor, <- Z.add_nocarry_lxor in Hs by done. lia. }
  rewrite E. destruct (Z.eqb_spec (c - c mod 2 ^ 11) 0xD800);
    destruct (Z.leb_spec 0xD800 c), (Z.ltb_spec c 0xE000); simpl; try done; exfalso;
    pose proof (Z.div_mod c (2 ^ 11)); pose proof (Z.mod_pos_bound c (2 ^ 11)); lia.
Qed.

(** ** The encoder *)
Definition scalar (c : Z) : Prop := 0 ≤ c ≤ 0x10FFFF ∧ ¬ (0xD800 ≤ c ≤ 0xDFFF).

Lemma from_unichar_arith c : 0 ≤ c < 2 ^ 21 →
  bson_utf8_from_unichar c =
    if c <? 2 ^ 7 then [c]
    else if c <? 2 ^ 11 then [192 + c / 64; 128 + c mod 64]
    else if c <? 2 ^ 16 then [224 + c / 4096; 128 + (c / 64) mod 64; 128 + c mod 64]
    else [240 + c / 262144; 128 + (c / 4096) mod 64; 128 + (c / 64) mod 64; 128 + c mod 64].
Proof.
  intros Hc. unfold bson_utf8_from_unichar.
  assert (H80 : ∀ x, Z.lor 0x80 (Z.land x 0x3F) = 128 + x mod 64).
  { intros x. change 0x3F with (2 ^ 6 - 1). rewrite land_mod by lia.
    change 0x80 with (Z.shiftl 2 6). rewrite lor_shiftl_add; [done|lia|].
    apply Z.mod_pos_bound. lia. }
  rewrite !H80, !Z.shiftr_div_pow2 by lia.
  destruct (Z.leb_spec c 0x7F), (Z.ltb_spec c (2 ^ 7)); try lia; [by rewrite u8_small by lia|].
  destruct (Z.leb_spec c 0x7FF), (Z.ltb_spec c (2 ^ 11)); try lia.
  { change 0x3F with (2 ^ 6 - 1). rewrite land_mod by lia. change 0xC0 with (Z.shiftl 3 6).
    rewrite lor_shiftl_add by (try apply Z.mod_pos_bound; lia).
    change (2 ^ 6) with 64. rewrite (Z.mod_small (c / 64)); [done|].
    split; [apply Z.div_pos; lia|apply Z.div_lt_upper_bound; lia]. }
  destruct (Z.leb_spec c 0xFFFF), (Z.ltb_spec c (2 ^ 16)); try lia.
  { change 0xF with (2 ^ 4 - 1). rewrite land_mod by lia. change 0xE0 with (Z.shiftl 14 4).
    rewrite lor_shiftl_add by (try apply Z.mod_pos_bound; lia).
    change (2 ^ 12) with 4096. change (2 ^ 4) with 16. change (2 ^ 6) with 64.
    rewrite (Z.mod_small (c / 4096)); [done|].
    split; [apply Z.div_pos; lia|apply Z.div_lt_upper_bound; lia]. }
  destruct (Z.leb_spec c 0x1FFFFF); [|lia].
  change 0x7 with (2 ^ 3 - 1). rewrite land_mod by lia. change 0xF0 with (Z.shiftl 30 3).
  rewrite lor_shiftl_add by (try apply Z.mod_pos_bound; lia).
  change (2 ^ 18) with 262144. change (2 ^ 12) with 4096. change (2 ^ 3) with 8.
  change (2 ^ 6) with 64. rewrite (Z.mod_small (c / 262144)); [done|].
  split; [apply Z.div_pos; lia|apply Z.div_lt_upper_bound; lia].
Qed.

(** ** The validator, one character at a time *)
Definition is_cont (b : Z) : bool := (0x80 <=? b) && (b <? 0xC0).

(** The character at the head of a byte list: the value the code accumulates
    and the number of bytes, or [None] when the bytes do not form a sequence. *)
Definition decode1 (l : list Z) : option (Z * Z) :=
  match l with
  | b0 :: l1 =>
      if b0 <? 128 then Some (b0, 1)
      else if b0 <? 192 then None
      else if b0 <? 224 then
        match l1 with
        | b1 :: _ => if is_cont b1 then Some ((b0 - 192) * 64 + (b1 - 128), 2) else None
        | _ => None
        end
      else if b0 <? 240 then
        match l1 with
        | b1 :: b2 :: _ =>
            if is_cont b1 && is_cont b2
            then Some ((((b0 - 224) * 64 + (b1 - 128)) * 64 + (b2 - 128)), 3) else None
        | _ => None
        end
      else if b0 <? 248 then
        match l1 with
        | b1 :: b2 :: b3 :: _ =>
            if is_cont b1 && is_cont b2 && is_cont b3
            then Some (((((b0 - 240) * 64 + (b1 - 128)) * 64 + (b2 - 128)) * 64 + (b3 - 128)), 4)
            else None
        | _ => None
        end
      else None
  | [] => None
  end.

Lemma accumulate_cont c b :
  0 ≤ c < 2 ^ 20 → is_cont b = true →
  u32 (Z.lor (Z.shiftl c 6) (Z.land b 0x3F)) = c * 64 + (b - 128).
Proof.
  intros Hc Hb. unfold is_cont in Hb. apply andb_true_iff in Hb as [?%Z.leb_le ?%Z.ltb_lt].
  change 0x3F with (2 ^ 6 - 1). rewrite land_mod by lia.
  rewrite lor_shiftl_add by (try apply Z.mod_pos_bound; lia).
  change (2 ^ 6) with 64. rewrite (Z.mod_eq b 64) by lia.
  replace (b / 64) with 2 by (apply Z.div_unique with (b - 128); lia).
  rewrite u32_small; lia.
Qed.

Lemma continuation_cons n utf8 j c b :
  rd utf8 j = Ret b → byte_ok b → 0 ≤ c < 2 ^ 20 →
  continuation (S n) utf8 j c =
    if is_cont b then continuation n utf8 (j + 1) (c * 64 + (b - 128)) else Ret None.
Proof.
  intros Hr Hb Hc. simpl. rewrite Hr. cbn [bind]. rewrite continuation_byte by done.
  fold (is_cont b). destruct (is_cont b) eqn:Hi; simpl; [|done].
  by rewrite accumulate_cont.
Qed.

(** the part of the string from [i] on *)
Definition tail_at (utf8 : list Z) (len i : Z) : list Z :=
  drop (Z.to_nat i) (take (Z.to_nat len) utf8).
Lemma tail_at_rd utf8 len i x b y :
  0 ≤ i → tail_at utf8 len i = x ++ b :: y → rd utf8 (i + blen x) = Ret b.
Proof.
  intros Hi H. unfold tail_at in H.
  assert (Hl : drop (Z.to_nat i) (take (Z.to_nat len) utf8) !! length x = Some b).
  { rewrite H. by apply list_lookup_middle. }
  rewrite lookup_drop in Hl. apply lookup_take_Some in Hl as [Hl _].
  unfold rd, blen. case_if; [lia|].
  replace (Z.to_nat (i + Z.of_nat (length x))) with (Z.to_nat i + length x)%nat by lia.
  by rewrite Hl.
Qed.
Lemma tail_at_blen utf8 len i :
  0 ≤ i ≤ len → len ≤ blen utf8 → blen (tail_at utf8 len i) = len - i.
Proof. unfold tail_at, blen. rewrite length_drop, length_take. lia. Qed.
Lemma tail_at_ok utf8 len i : bytes_ok utf8 → bytes_ok (tail_at utf8 len i).
Proof. intros. by apply Forall_drop, Forall_take. Qed.

(** what the code accepts of a decoded character *)
Definition accepts (allow_null : bool) (r : option (Z * Z)) : option Z :=
  match r with
  | Some (c, n) =>
      if (allow_null || negb (c =? 0)) && code_point_ok c n allow_null then Some n else None
  | None => None
  end.

Lemma no_null_step n utf8 len j b :
  rd utf8 j = Ret b → j ≤ len →
  no_null (S n) utf8 len j = if b =? 0 then Ret false else no_null n utf8 len (j + 1).
Proof.
  intros Hr Hj. simpl. rewrite Hr. destruct (Z.gtb_spec j len); [lia|]. done.
Qed.

Lemma code_point_ok_zero n : code_point_ok 0 n false = (n =? 1).
Proof.
  unfold code_point_ok. simpl. destruct n as [|p|p]; [done| |done].
  repeat (destruct p as [p|p|]; try done).
Qed.

Lemma is_cont_range b : is_cont b = true ↔ 128 ≤ b < 192.
Proof. unfold is_cont. rewrite andb_true_iff, Z.leb_le, Z.ltb_lt. lia. Qed.

Ltac cont_ranges :=
  repeat match goal with
  | H : is_cont _ = true |- _ => apply is_cont_range in H
  | H : _ && _ = true |- _ => apply andb_true_iff in H as [? ?]
  end.

Lemma land_lead b k : 0 ≤ k → Z.land b (2 ^ k - 1) = b - 2 ^ k * (b / 2 ^ k).
Proof. intros. rewrite land_mod, Z.mod_eq by lia. lia. Qed.

Section Step.
Variables (utf8 : list Z) (len i : Z) (an : bool).
Hypothesis Hok : bytes_ok utf8.
Hypothesis Hi : 0 ≤ i < len.
Hypothesis Hlen : len ≤ blen utf8.
Let tl := tail_at utf8 len i.

(** what remains of a step once the character has been accumulated *)
Definition finish (c : option Z) (n : Z) : res (option Z) :=
  match c with
  | None => Ret None
  | Some c =>
      let* nn := (if an then Ret true else no_null (Z.to_nat n) utf8 len i) in
      if negb nn then Ret None
      else if code_point_ok c n an then Ret (Some n) else Ret None
  end.

Lemma step_unfold b0 l1 :
  tl = b0 :: l1 →
  validate_step utf8 len an i =
    let '(n, m) := lead_class b0 in
    if n =? 0 then Ret None
    else if 1 + blen l1 <? n then Ret None
    else
      let* c := continuation (Z.to_nat (n - 1)) utf8 (i + 1) (Z.land b0 m) in finish c n.
Proof using Hok Hi Hlen.
  intros Htl. unfold validate_step, _bson_utf8_get_sequence.
  pose proof (tail_at_rd utf8 len i [] b0 l1 ltac:(lia) Htl) as Hr.
  rewrite Z.add_0_r in Hr. rewrite Hr. cbn [bind].
  assert (Hb : byte_ok b0).
  { pose proof (tail_at_ok utf8 len i Hok) as H. fold tl in H. rewrite Htl in H. by inversion H. }
  rewrite get_sequence_class by done. destruct (lead_class b0) as [n m].
  pose proof (tail_at_blen utf8 len i ltac:(lia) Hlen) as Hbl. fold tl in Hbl.
  rewrite Htl, blen_cons in Hbl. by rewrite Hbl.
Qed.

Lemma finish_accepts c n b0 l1 :
  tl = b0 :: l1 → (if n =? 1 then c = b0 else b0 ≠ 0 ∧ Forall (λ b, b ≠ 0) (take (Z.to_nat (n - 1)) l1)) →
  1 ≤ n → n ≤ 1 + blen l1 →
  finish (Some c) n = Ret (accepts an (Some (c, n))).
Proof using Hok Hi Hlen.
  intros Htl Hnz Hn Hbl. unfold finish, accepts. destruct an; [simpl; by case_if|].
  assert (Hnull : no_null (Z.to_nat n) utf8 len i = Ret (if n =? 1 then negb (c =? 0) else true)).
  { replace (Z.to_nat n) with (S (Z.to_nat (n - 1))) by lia.
    pose proof (tail_at_rd utf8 len i [] b0 l1 ltac:(lia) Htl) as Hr. rewrite Z.add_0_r in Hr.
    rewrite (no_null_step _ _ _ _ _ Hr) by lia.
    destruct (Z.eqb_spec n 1) as [->|Hn1].
    { subst c. simpl. by destruct (b0 =? 0). }
    destruct Hnz as [Hb0 Hrest]. destruct (Z.eqb_spec b0 0); [done|].
    pose proof (tail_at_blen utf8 len i ltac:(lia) Hlen) as Hl. fold tl in Hl.
    rewrite Htl, blen_cons in Hl.
    assert (Htl' : tl = [b0] ++ l1) by done.
    assert (G : ∀ k x y, tl = x ++ y → Forall (λ b, b ≠ 0) (take k y) → Z.of_nat k ≤ blen y →
              no_null k utf8 len (i + blen x) = Ret true).
    { induction k as [|k IH]; intros x y Hxy Hy Hk; [done|].
      destruct y as [|b y]; [unfold blen in Hk; simpl in Hk; lia|].
      pose proof (tail_at_rd utf8 len i x b y ltac:(lia) Hxy) as Hrb.
      assert (Hbx : blen x + blen (b :: y) = 1 + blen l1).
      { rewrite <- blen_app, <- Hxy, Htl, blen_cons. done. }
      rewrite blen_cons in *. pose proof (blen_nonneg y).
      rewrite (no_null_step _ _ _ _ _ Hrb) by lia. inversion Hy; subst.
      destruct (Z.eqb_spec b 0); [done|].
      specialize (IH (x ++ [b]) y). rewrite blen_app in IH.
      change (blen [b]) with 1 in IH.
      replace (i + blen x + 1) with (i + (blen x + 1)) by lia.
      apply IH; [by rewrite <- app_assoc|done|lia]. }
    apply (G _ [b0] l1); [done|done|lia]. }
  rewrite Hnull. cbn [bind]. destruct (Z.eqb_spec n 1) as [->|].
  - simpl orb. destruct (negb (c =? 0)); simpl; [by case_if|done].
  - cbn [negb]. simpl orb. destruct (Z.eqb_spec c 0) as [->|]; simpl.
    + rewrite code_point_ok_zero. by destruct (Z.eqb_spec n 1).
    + by case_if.
Qed.

(** reading the bytes of the sequence, through the list they form *)
Lemma step_read x b y : tl = x ++ b :: y → rd utf8 (i + blen x) = Ret b ∧ byte_ok b.
Proof using Hok Hi Hlen.
  intros Hx. split; [eapply tail_at_rd; [lia|exact Hx]|].
  pose proof (tail_at_ok utf8 len i Hok) as H. fold tl in H. rewrite Hx in H.
  apply bytes_ok_app in H as [_ H]. by inversion H.
Qed.

(** one more continuation byte *)
Lemma step_cont n x b y c :
  tl = x ++ b :: y → 0 ≤ c < 2 ^ 20 →
  continuation (S n) utf8 (i + blen x) c =
    if is_cont b then continuation n utf8 (i + blen (x ++ [b])) (c * 64 + (b - 128))
    else Ret None.
Proof using Hok Hi Hlen.
  intros Hx Hc. destruct (step_read _ _ _ Hx) as [Hr Hb].
  rewrite (continuation_cons _ _ _ _ _ Hr Hb Hc). rewrite blen_app.
  change (blen [b]) with 1. by rewrite Z.add_assoc.
Qed.
End Step.

Lemma lead_payload b k q :
  0 ≤ k → q * 2 ^ k ≤ b < (q + 1) * 2 ^ k → Z.land b (2 ^ k - 1) = b - q * 2 ^ k.
Proof.
  intros Hk Hb. rewrite land_lead by done.
  replace (b / 2 ^ k) with q by (apply Z.div_unique with (b - q * 2 ^ k); lia). lia.
Qed.

(** decides the comparisons on the lead byte *)
Ltac lead_cases b :=
  repeat match goal with
  | |- context [b <? ?k] => destruct (Z.ltb_spec b k); try lia
  end.

Section Lengths.
Variables (utf8 : list Z) (len i : Z) (an : bool) (b0 : Z) (l1 : list Z).
Hypothesis Hok : bytes_ok utf8.
Hypothesis Hi : 0 ≤ i < len.
Hypothesis Hlen : len ≤ blen utf8.
Hypothesis Htl : tail_at utf8 len i = b0 :: l1.

Let step := validate_step utf8 len an i.
Let spec := Ret (accepts an (decode1 (b0 :: l1))).

Lemma step_len1 : 0 ≤ b0 < 128 → step = spec.
Proof using All.
  intros Hb. unfold step, spec. rewrite (step_unfold _ _ _ _ Hok Hi Hlen _ _ Htl).
  unfold lead_class, decode1. destruct (Z.ltb_spec b0 128); [|lia].
  destruct (Z.ltb_spec b0 0x80); [|lia]. cbn [Z.eqb]. pose proof (blen_nonneg l1).
  destruct (Z.ltb_spec (1 + blen l1) 1); [lia|].
  change 0x7F with (2 ^ 7 - 1). rewrite (lead_payload _ _ 0) by lia.
  rewrite Z.mul_0_l, Z.sub_0_r. change (Z.to_nat (1 - 1)) with O. cbn [continuation bind].
  by apply (finish_accepts _ _ _ _ Hok Hi Hlen _ _ _ _ Htl); [|lia|lia].
Qed.

Lemma step_len2 : 192 ≤ b0 < 224 → step = spec.
Proof using All.
  intros Hb. unfold step, spec. rewrite (step_unfold _ _ _ _ Hok Hi Hlen _ _ Htl).
  unfold lead_class, decode1. lead_cases b0. cbn [Z.eqb].
  destruct l1 as [|b1 l2]; [done|]. rewrite blen_cons. pose proof (blen_nonneg l2).
  destruct (Z.ltb_spec (1 + (1 + blen l2)) 2); [lia|].
  change 0x1F with (2 ^ 5 - 1). rewrite (lead_payload _ _ 6) by lia.
  change (6 * 2 ^ 5) with 192. change (Z.to_nat (2 - 1)) with 1%nat.
  change (i + 1) with (i + blen [b0]).
  rewrite (step_cont _ _ _ Hok Hi Hlen _ [b0] b1 l2) by (try apply Htl; lia).
  destruct (is_cont b1) eqn:Hc1; [|done]. cont_ranges. cbn [continuation bind].
  apply (finish_accepts _ _ _ _ Hok Hi Hlen _ _ _ _ Htl); rewrite ?blen_cons; [|lia|lia].
  cbn. split; [lia|]. repeat constructor; lia.
Qed.

Lemma step_len3 : 224 ≤ b0 < 240 → step = spec.
Proof using All.
  intros Hb. unfold step, spec. rewrite (step_unfold _ _ _ _ Hok Hi Hlen _ _ Htl).
  unfold lead_class, decode1. lead_cases b0. cbn [Z.eqb].
  destruct l1 as [|b1 [|b2 l3]]; [done|done|]. rewrite !blen_cons. pose proof (blen_nonneg l3).
  destruct (Z.ltb_spec (1 + (1 + (1 + blen l3))) 3); [lia|].
  change 0x0F with (2 ^ 4 - 1). rewrite (lead_payload _ _ 14) by lia.
  change (14 * 2 ^ 4) with 224. change (Z.to_nat (3 - 1)) with 2%nat.
  change (i + 1) with (i + blen [b0]).
  rewrite (step_cont _ _ _ Hok Hi Hlen _ [b0] b1 (b2 :: l3)) by (try apply Htl; lia).
  destruct (is_cont b1) eqn:Hc1; [|done]. cont_ranges.
  rewrite (step_cont _ _ _ Hok Hi Hlen _ ([b0] ++ [b1]) b2 l3) by (try apply Htl; lia).
  destruct (is_cont b2) eqn:Hc2; [|done]. cont_ranges. cbn [continuation bind andb].
  apply (finish_accepts _ _ _ _ Hok Hi Hlen _ _ _ _ Htl); rewrite ?blen_cons; [|lia|lia].
  cbn. split; [lia|]. repeat constructor; lia.
Qed.

Lemma step_len4 : 240 ≤ b0 < 248 → step = spec.
Proof using All.
  intros Hb. unfold step, spec. rewrite (step_unfold _ _ _ _ Hok Hi Hlen _ _ Htl).
  unfold lead_class, decode1. lead_cases b0. cbn [Z.eqb].
  destruct l1 as [|b1 [|b2 [|b3 l4]]]; [done|done|done|]. rewrite !blen_cons.
  pose proof (blen_nonneg l4).
  destruct (Z.ltb_spec (1 + (1 + (1 + (1 + blen l4)))) 4); [lia|].
  change 0x07 with (2 ^ 3 - 1). rewrite (lead_payload _ _ 30) by lia.
  change (30 * 2 ^ 3) with 240. change (Z.to_nat (4 - 1)) with 3%nat.
  change (i + 1) with (i + blen [b0]).
  rewrite (step_cont _ _ _ Hok Hi Hlen _ [b0] b1 (b2 :: b3 :: l4)) by (try apply Htl; lia).
  destruct (is_cont b1) eqn:Hc1; [|done]. cont_ranges.
  rewrite (step_cont _ _ _ Hok Hi Hlen _ ([b0] ++ [b1]) b2 (b3 :: l4)) by (try apply Htl; lia).
  destruct (is_cont b2) eqn:Hc2; [|done]. cont_ranges.
  rewrite (step_cont _ _ _ Hok Hi Hlen _ (([b0] ++ [b1]) ++ [b2]) b3 l4) by (try apply Htl; lia).
  destruct (is_cont b3) eqn:Hc3; [|done]. cont_ranges. cbn [continuation bind andb].
  apply (finish_accepts _ _ _ _ Hok Hi Hlen _ _ _ _ Htl); rewrite ?blen_cons; [|lia|lia].
  cbn. split; [lia|]. repeat constructor; lia.
Qed.
End Lengths.

(** One iteration of the code decides exactly whether the rest of the string
    starts with an acceptable character. *)
Lemma validate_step_spec utf8 len an i :
  bytes_ok utf8 → 0 ≤ i < len → len ≤ blen utf8 →
  validate_step utf8 len an i = Ret (accepts an (decode1 (tail_at utf8 len i))).
Proof.
  intros Hok Hi Hlen.
  pose proof (tail_at_blen utf8 len i ltac:(lia) Hlen) as Hbl.
  pose proof (tail_at_ok utf8 len i Hok) as Htok.
  destruct (tail_at utf8 len i) as [|b0 l1] eqn:Htl; [unfold blen in Hbl; simpl in Hbl; lia|].
  inversion Htok as [|? ? Hb0 _]; subst. unfold byte_ok in Hb0.
  destruct (decide (b0 < 128)); [eapply step_len1; eauto; lia|].
  destruct (decide (192 ≤ b0 < 224)); [eapply step_len2; eauto|].
  destruct (decide (224 ≤ b0 < 240)); [eapply step_len3; eauto|].
  destruct (decide (240 ≤ b0 < 248)); [eapply step_len4; eauto|].
  rewrite (step_unfold _ _ _ _ Hok Hi Hlen _ _ Htl).
  unfold lead_class, decode1. by lead_cases b0.
Qed.

(** ** The validator against the encoder *)

(** The characters the validator admits. *)
Definition char_ok (allow_null : bool) (k : list Z) : Prop :=
  (∃ c, scalar c ∧ (allow_null = false → c ≠ 0) ∧ k = bson_utf8_from_unichar c)
  ∨ (allow_null = true ∧ k = [0xC0; 0x80]).

Lemma code_point_ok_spec c n an :
  0 ≤ c < 2 ^ 21 →
  code_point_ok c n an = true ↔
    scalar c ∧ ((n = 1 ∧ c ≤ 0x7F) ∨ (n = 2 ∧ (0x80 ≤ c ≤ 0x7FF ∨ (c = 0 ∧ an = true)))
                ∨ (n = 3 ∧ 0x800 ≤ c ≤ 0xFFFF) ∨ (n = 4 ∧ 0x10000 ≤ c)).
Proof.
  intros Hc. unfold code_point_ok, scalar. rewrite surrogate_test by done.
  destruct (Z.gtb_spec c 0x10FFFF); [split; [done|lia]|].
  destruct (Z.leb_spec 0xD800 c), (Z.ltb_spec c 0xE000); cbn [andb];
    try (split; [done|lia]).
  all: destruct n as [|p|p]; [split; [done|lia]| |split; [done|lia]].
  all: repeat (destruct p as [p|p|]; try (split; [done|lia])).
  all: rewrite ?Z.geb_leb, ?orb_true_iff, ?andb_true_iff, ?Z.leb_le; try lia.
  all: destruct (Z.leb_spec 0x80 c), (Z.leb_spec c 0x7FF), (Z.eqb_spec c 0); simpl; try lia.
  all: destruct an; split; try done; try lia; intuition (try lia; try done).
Qed.

Lemma code_point_ok_scalar c an :
  scalar c → code_point_ok c (blen (bson_utf8_from_unichar c)) an = true.
Proof.
  intros Hs. assert (Hc : 0 ≤ c < 2 ^ 21) by (unfold scalar in Hs; lia).
  apply code_point_ok_spec; [done|]. split; [done|]. rewrite from_unichar_arith by done.
  destruct Hs as [Hc' _].
  destruct (Z.ltb_spec c (2 ^ 7)); [left; split; [done|lia]|right].
  destruct (Z.ltb_spec c (2 ^ 11)); [left; split; [done|lia]|right].
  destruct (Z.ltb_spec c (2 ^ 16)); [left; split; [done|lia]|right; split; [done|lia]].
Qed.

Lemma decode1_encode c rest :
  scalar c →
  decode1 (bson_utf8_from_unichar c ++ rest) = Some (c, blen (bson_utf8_from_unichar c)).
Proof.
  intros [Hc Hs]. rewrite from_unichar_arith by lia.
  assert (Hm : ∀ x, 0 ≤ x mod 64 < 64) by (intros; apply Z.mod_pos_bound; lia).
  assert (Hcont : ∀ x, is_cont (128 + x mod 64) = true).
  { intros x. apply is_cont_range. specialize (Hm x). lia. }
  pose proof (Hm c). pose proof (Hm (c / 64)). pose proof (Hm (c / 4096)).
  assert (E1 : c = 64 * (c / 64) + c mod 64) by (apply Z.div_mod; lia).
  assert (E2 : c / 64 = 64 * (c / 4096) + (c / 64) mod 64).
  { replace (c / 4096) with (c / 64 / 64) by (rewrite Z.div_div; [done|lia|lia]).
    apply Z.div_mod; lia. }
  assert (E3 : c / 4096 = 64 * (c / 262144) + (c / 4096) mod 64).
  { replace (c / 262144) with (c / 4096 / 64) by (rewrite Z.div_div; [done|lia|lia]).
    apply Z.div_mod; lia. }
  destruct (Z.ltb_spec c (2 ^ 7)).
  { unfold decode1. cbn [app]. lead_cases c. done. }
  destruct (Z.ltb_spec c (2 ^ 11)).
  { unfold decode1. cbn [app]. lead_cases (192 + c / 64). rewrite Hcont. do 2 f_equal. lia. }
  destruct (Z.ltb_spec c (2 ^ 16)).
  { unfold decode1. cbn [app]. lead_cases (224 + c / 4096). rewrite !Hcont. simpl andb. cbv iota.
    do 2 f_equal. lia. }
  unfold decode1. cbn [app]. lead_cases (240 + c / 262144). rewrite !Hcont. simpl andb. cbv iota.
  do 2 f_equal. lia.
Qed.

Lemma accepts_char an k rest :
  char_ok an k → accepts an (decode1 (k ++ rest)) = Some (blen k).
Proof.
  intros [(c & Hc & Hnz & ->)|[-> ->]]; [|done].
  rewrite decode1_encode by done. unfold accepts. rewrite code_point_ok_scalar by done.
  destruct an; [done|]. destruct (Z.eqb_spec c 0); [by destruct Hnz|done].
Qed.

(** The encoder inverts each shape the decoder reads. *)
Lemma encode_len2 b0 b1 c :
  192 ≤ b0 < 224 → 128 ≤ b1 < 192 → c = (b0 - 192) * 64 + (b1 - 128) → 0x80 ≤ c →
  bson_utf8_from_unichar c = [b0; b1].
Proof.
  intros H0 H1 Ec Hc. rewrite from_unichar_arith by lia.
  destruct (Z.ltb_spec c (2 ^ 7)); [lia|]. destruct (Z.ltb_spec c (2 ^ 11)); [|lia].
  assert (Eq : c / 64 = b0 - 192) by (symmetry; apply Z.div_unique with (b1 - 128); lia).
  rewrite (Z.mod_eq c 64), Eq by lia. f_equal; [lia|]. f_equal. lia.
Qed.
Lemma encode_len3 b0 b1 b2 c :
  224 ≤ b0 < 240 → 128 ≤ b1 < 192 → 128 ≤ b2 < 192 →
  c = ((b0 - 224) * 64 + (b1 - 128)) * 64 + (b2 - 128) → 0x800 ≤ c →
  bson_utf8_from_unichar c = [b0; b1; b2].
Proof.
  intros H0 H1 H2 Ec Hc. rewrite from_unichar_arith by lia.
  destruct (Z.ltb_spec c (2 ^ 7)); [lia|]. destruct (Z.ltb_spec c (2 ^ 11)); [lia|].
  destruct (Z.ltb_spec c (2 ^ 16)); [|lia].
  assert (Eq : c / 64 = (b0 - 224) * 64 + (b1 - 128))
    by (symmetry; apply Z.div_unique with (b2 - 128); lia).
  assert (Eq2 : c / 4096 = b0 - 224)
    by (symmetry; apply Z.div_unique with ((b1 - 128) * 64 + (b2 - 128)); lia).
  rewrite (Z.mod_eq c 64), Eq, Eq2 by lia.
  rewrite (Z.mod_eq _ 64) by lia.
  replace (((b0 - 224) * 64 + (b1 - 128)) / 64) with (b0 - 224)
    by (apply Z.div_unique with (b1 - 128); lia).
  f_equal; [lia|]. f_equal; [lia|]. f_equal. lia.
Qed.
Lemma encode_len4 b0 b1 b2 b3 c :
  240 ≤ b0 < 248 → 128 ≤ b1 < 192 → 128 ≤ b2 < 192 → 128 ≤ b3 < 192 →
  c = (((b0 - 240) * 64 + (b1 - 128)) * 64 + (b2 - 128)) * 64 + (b3 - 128) → 0x10000 ≤ c →
  bson_utf8_from_unichar c = [b0; b1; b2; b3].
Proof.
  intros H0 H1 H2 H3 Ec Hc. rewrite from_unichar_arith by lia.
  destruct (Z.ltb_spec c (2 ^ 7)); [lia|]. destruct (Z.ltb_spec c (2 ^ 11)); [lia|].
  destruct (Z.ltb_spec c (2 ^ 16)); [lia|].
  assert (Eq : c / 64 = ((b0 - 240) * 64 + (b1 - 128)) * 64 + (b2 - 128))
    by (symmetry; apply Z.div_unique with (b3 - 128); lia).
  assert (Eq2 : c / 4096 = (b0 - 240) * 64 + (b1 - 128))
    by (symmetry; apply Z.div_unique with ((b2 - 128) * 64 + (b3 - 128)); lia).
  assert (Eq3 : c / 262144 = b0 - 240)
    by (symmetry; apply Z.div_unique with (((b1 - 128) * 64 + (b2 - 128)) * 64 + (b3 - 128)); lia).
  rewrite (Z.mod_eq c 64), Eq, Eq2, Eq3 by lia.
  rewrite (Z.mod_eq ((b0 - 240) * 64 + (b1 - 128)) 64) by lia.
  rewrite (Z.mod_eq (((b0 - 240) * 64 + (b1 - 128)) * 64 + (b2 - 128)) 64) by lia.
  replace ((((b0 - 240) * 64 + (b1 - 128)) * 64 + (b2 - 128)) / 64)
    with ((b0 - 240) * 64 + (b1 - 128)) by (apply Z.div_unique with (b2 - 128); lia).
  replace (((b0 - 240) * 64 + (b1 - 128)) / 64) with (b0 - 240)
    by (apply Z.div_unique with (b1 - 128); lia).
  f_equal; [lia|]. f_equal; [lia|]. f_equal; [lia|]. f_equal. lia.
Qed.

(** A decoded value that passes the shortest-form checks re-encodes to the same
    bytes; the two-byte NUL is the only other shape that passes. *)
Lemma decode1_shortest an l c n :
  bytes_ok l → decode1 l = Some (c, n) → code_point_ok c n an = true →
  ∃ k rest, l = k ++ rest ∧ n = blen k
            ∧ ((scalar c ∧ k = bson_utf8_from_unichar c) ∨ (an = true ∧ c = 0 ∧ k = [0xC0; 0x80])).
Proof.
  intros Hok Hd Hcp. unfold decode1 in Hd.
  destruct l as [|b0 l1]; [done|]. inversion Hok as [|? ? Hb0 Hok1]; subst. unfold byte_ok in Hb0.
  destruct (Z.ltb_spec b0 128).
  { injection Hd as <- <-. apply code_point_ok_spec in Hcp as [Hs _]; [|lia].
    exists [b0], l1. split; [done|]. split; [done|]. left. split; [done|].
    rewrite from_unichar_arith by lia. destruct (Z.ltb_spec b0 (2 ^ 7)); [done|lia]. }
  destruct (Z.ltb_spec b0 192); [done|]. destruct (Z.ltb_spec b0 224).
  { destruct l1 as [|b1 l2]; [done|]. destruct (is_cont b1) eqn:Hc1; [|done]. cont_ranges.
    injection Hd as Ec <-. apply code_point_ok_spec in Hcp as [Hs Hn]; [|lia].
    exists [b0; b1], l2. split; [done|]. split; [done|].
    destruct (decide (c = 0)) as [Ez|].
    - right. destruct an; [|exfalso; destruct Hn as [[? _]|[[_ [?|[_ ?]]]|[[? _]|[? _]]]]; done||lia].
      split; [done|]. split; [done|]. f_equal; [lia|]. f_equal. lia.
    - left. split; [done|]. symmetry. apply encode_len2; auto; lia. }
  destruct (Z.ltb_spec b0 240).
  { destruct l1 as [|b1 [|b2 l3]]; [done|done|].
    destruct (is_cont b1 && is_cont b2) eqn:Hc1; [|done]. cont_ranges.
    injection Hd as Ec <-. apply code_point_ok_spec in Hcp as [Hs Hn]; [|lia].
    exists [b0; b1; b2], l3. split; [done|]. split; [done|]. left. split; [done|].
    symmetry. apply encode_len3; auto; lia. }
  destruct (Z.ltb_spec b0 248); [|done].
  destruct l1 as [|b1 [|b2 [|b3 l4]]]; [done|done|done|].
  destruct (is_cont b1 && is_cont b2 && is_cont b3) eqn:Hc1; [|done]. cont_ranges.
  injection Hd as Ec <-. apply code_point_ok_spec in Hcp as [Hs Hn]; [|lia].
  exists [b0; b1; b2; b3], l4. split; [done|]. split; [done|]. left. split; [done|].
  symmetry. apply encode_len4; auto; lia.
Qed.

Lemma accepts_inv an l n :
  bytes_ok l → accepts an (decode1 l) = Some n →
  ∃ k rest, l = k ++ rest ∧ n = blen k ∧ char_ok an k ∧ 1 ≤ n ≤ 4.
Proof.
  intros Hok Ha. unfold accepts in Ha. destruct (decode1 l) as [[c n']|] eqn:Hd; [|done].
  destruct (an || negb (c =? 0)) eqn:Hz; [|done]. cbn [andb] in Ha.
  destruct (code_point_ok c n' an) eqn:Hcp; [|done]. injection Ha as ->.
  destruct (decode1_shortest _ _ _ _ Hok Hd Hcp) as (k & rest & -> & -> & Hk).
  exists k, rest. split; [done|]. split; [done|]. split.
  - destruct Hk as [[Hs ->]|(-> & -> & ->)]; [|by right]. left. exists c. split; [done|].
    split; [|done]. intros ->. simpl in Hz. by destruct (Z.eqb_spec c 0).
  - destruct Hk as [[Hs ->]|(_ & _ & ->)]; [|by cbv]. unfold scalar in Hs.
    rewrite from_unichar_arith by lia. by repeat case_if.
Qed.

Lemma concat_prefix (k rest : list Z) ks : k ++ rest = concat (k :: ks) → rest = concat ks.
Proof. simpl. apply app_inv_head. Qed.

Lemma tail_at_next utf8 len i k rest :
  0 ≤ i → tail_at utf8 len i = k ++ rest → tail_at utf8 len (i + blen k) = rest.
Proof.
  intros Hi H. unfold tail_at in *. unfold blen.
  replace (Z.to_nat (i + Z.of_nat (length k))) with (Z.to_nat i + length k)%nat by lia.
  rewrite <- drop_drop, H. by rewrite drop_app_length.
Qed.

Lemma validate_from_spec fuel utf8 len an i :
  bytes_ok utf8 → 0 ≤ i ≤ len → len ≤ blen utf8 → len < 2 ^ 32 → Z.of_nat fuel > len - i →
  returns (validate_from fuel utf8 len an i) (λ b,
    b = true ↔ ∃ ks, tail_at utf8 len i = concat ks ∧ Forall (char_ok an) ks).
Proof.
  intros Hok. revert i. induction fuel as [|fuel IH]; intros i Hi Hlen Hmax Hf; [lia|].
  pose proof (tail_at_blen utf8 len i Hi Hlen) as Hbl. simpl validate_from. case_head; cycle 1.
  { simpl. split; [|done]. intros _. exists []. split; [|constructor].
    destruct (tail_at utf8 len i); [done|]. rewrite blen_cons in Hbl.
    pose proof (blen_nonneg l). lia. }
  rewrite validate_step_spec by (done || lia). cbn [bind].
  pose proof (tail_at_ok utf8 len i Hok) as Htok.
  destruct (accepts an _) as [n|] eqn:Ha.
  - destruct (accepts_inv _ _ _ Htok Ha) as (k & rest & Hk & -> & Hchar & Hn).
    assert (Hin : i + blen k ≤ len).
    { rewrite Hk, blen_app in Hbl. pose proof (blen_nonneg rest). lia. }
    rewrite u32_small by lia.
    eapply returns_mono; [apply IH; lia|]. cbv beta.
    rewrite (tail_at_next _ _ _ _ _ (proj1 Hi) Hk), Hk. intros b ->. split.
    + intros (ks & -> & Hks). exists (k :: ks). split; [done|by constructor].
    + intros (ks & Hks & Hall). destruct ks as [|k' ks].
      { simpl in Hks. destruct k as [|? k]; [|done].
        change (blen []) with 0 in Hn. lia. }
      inversion Hall as [|? ? Hk' Hall']; subst.
      assert (k' = k) as ->.
      { pose proof (accepts_char an k' (concat ks) Hk') as E1.
        simpl in Hks. rewrite <- Hks, <- Hk in E1. rewrite Ha in E1. injection E1 as E1.
        assert (El : length k = length k') by (unfold blen in E1; lia).
        apply (f_equal (take (length k))) in Hks. rewrite take_app_length in Hks.
        by rewrite El, take_app_length in Hks. }
      exists ks. split; [by eapply concat_prefix|done].
  - simpl. split; [done|]. intros (ks & Hks & Hall). exfalso.
    destruct ks as [|k ks].
    { rewrite Hks in Hbl. unfold blen in Hbl. simpl in Hbl. lia. }
    inversion Hall as [|? ? Hk Hall']; subst. rewrite Hks in Ha. simpl in Ha.
    by rewrite accepts_char in Ha.
Qed.

(** ** JSON escaping of validated text *)
Lemma fold_bytes_cont n utf8 i c b :
  rd utf8 i = Ret b → is_cont b = true → 0 ≤ c < 2 ^ 20 →
  fold_bytes (S n) utf8 i c = fold_bytes n utf8 (i + 1) (c * 64 + (b - 128)).
Proof. intros Hr Hb Hc. simpl. rewrite Hr. cbn [bind]. by rewrite accumulate_cont. Qed.

Lemma enc_bytes_ok c : scalar c → bytes_ok (bson_utf8_from_unichar c).
Proof.
  intros [Hc _]. rewrite from_unichar_arith by lia.
  assert (Hm : ∀ x, 0 ≤ x mod 64 < 64) by (intros; apply Z.mod_pos_bound; lia).
  pose proof (Hm c). pose proof (Hm (c / 64)). pose proof (Hm (c / 4096)).
  pose proof (Z.div_pos c 64). pose proof (Z.div_pos c 4096). pose proof (Z.div_pos c 262144).
  destruct (Z.ltb_spec c (2 ^ 7)); [repeat constructor; unfold byte_ok; lia|].
  destruct (Z.ltb_spec c (2 ^ 11)).
  { pose proof (Z.div_lt_upper_bound c 64 32). repeat constructor; unfold byte_ok; lia. }
  destruct (Z.ltb_spec c (2 ^ 16)).
  { pose proof (Z.div_lt_upper_bound c 4096 16). repeat constructor; unfold byte_ok; lia. }
  pose proof (Z.div_lt_upper_bound c 262144 8). repeat constructor; unfold byte_ok; lia.
Qed.

(** What [bson_utf8_get_char] reads when a decodable character is ahead. *)
Lemma get_char_decode1 l c n :
  bytes_ok l → decode1 l = Some (c, n) →
  bson_utf8_get_char l = Ret c
  ∧ ∃ b0 rest, l = b0 :: rest ∧ byte_ok b0 ∧ fst (lead_class b0) = n.
Proof.
  intros Hok Hd. destruct l as [|b0 l1]; [done|]. inversion Hok as [|? ? Hb0 _]; subst.
  pose proof Hb0 as Hb. unfold byte_ok in Hb. unfold bson_utf8_get_char, _bson_utf8_get_sequence.
  change (rd (b0 :: l1) 0) with (Ret b0). cbn [bind]. rewrite get_sequence_class by done.
  simpl in Hd. enough (Hmain : let '(num, mask) := lead_class b0 in
    num = n ∧ fold_bytes (Z.to_nat (num - 1)) (b0 :: l1) 1 (Z.land b0 mask) = Ret c).
  { destruct (lead_class b0) as [num mask] eqn:El. destruct Hmain as [-> Hm].
    split; [done|]. exists b0, l1. by rewrite El. }
  unfold lead_class. destruct (Z.ltb_spec b0 128).
  { injection Hd as <- <-. split; [done|]. change 0x7F with (2 ^ 7 - 1).
    rewrite (lead_payload _ _ 0) by lia. simpl. by rewrite Z.sub_0_r. }
  destruct (Z.ltb_spec b0 192); [done|]. destruct (Z.ltb_spec b0 224).
  { destruct l1 as [|b1 l2]; [done|]. destruct (is_cont b1) eqn:Hc1; [|done].
    injection Hd as <- <-. split; [done|]. change 0x1F with (2 ^ 5 - 1).
    rewrite (lead_payload _ _ 6) by lia. change (Z.to_nat (2 - 1)) with 1%nat.
    rewrite (fold_bytes_cont _ _ _ _ b1) by (done || lia). done. }
  destruct (Z.ltb_spec b0 240).
  { destruct l1 as [|b1 [|b2 l3]]; [done|done|].
    destruct (is_cont b1 && is_cont b2) eqn:Hc; [|done]. apply andb_true_iff in Hc as [Hc1 Hc2].
    injection Hd as <- <-. split; [done|]. change 0x0F with (2 ^ 4 - 1).
    rewrite (lead_payload _ _ 14) by lia. change (Z.to_nat (3 - 1)) with 2%nat.
    apply is_cont_range in Hc1 as Hr1. rewrite (fold_bytes_cont _ _ _ _ b1) by (done || lia).
    rewrite (fold_bytes_cont _ _ _ _ b2) by (done || lia). done. }
  destruct (Z.ltb_spec b0 248); [|done]. destruct l1 as [|b1 [|b2 [|b3 l4]]]; [done|done|done|].
  destruct (is_cont b1 && is_cont b2 && is_cont b3) eqn:Hc; [|done].
  apply andb_true_iff in Hc as [Hc Hc3]. apply andb_true_iff in Hc as [Hc1 Hc2].
  injection Hd as <- <-. split; [done|]. change 0x07 with (2 ^ 3 - 1).
  rewrite (lead_payload _ _ 30) by lia. change (Z.to_nat (4 - 1)) with 3%nat.
  apply is_cont_range in Hc1 as Hr1. apply is_cont_range in Hc2 as Hr2.
  rewrite (fold_bytes_cont _ _ _ _ b1) by (done || lia).
  rewrite (fold_bytes_cont _ _ _ _ b2) by (done || lia).
  rewrite (fold_bytes_cont _ _ _ _ b3) by (done || lia). done.
Qed.

(** the head of an encoded character, as the decoder sees it *)
Lemma enc_shape c rest :
  scalar c → bytes_ok rest →
  ∃ b0 l, bson_utf8_from_unichar c = b0 :: l
  ∧ fst (lead_class b0) = blen (bson_utf8_from_unichar c)
  ∧ bson_utf8_get_char (bson_utf8_from_unichar c ++ rest) = Ret c.
Proof.
  intros Hs Hrest. pose proof (enc_bytes_ok c Hs) as Hok.
  destruct (get_char_decode1 (bson_utf8_from_unichar c ++ rest) c (blen (bson_utf8_from_unichar c)))
    as (Hget & b0 & r & Hbr & _ & Hl).
  { by apply bytes_ok_app. }
  { by apply decode1_encode. }
  destruct (bson_utf8_from_unichar c) as [|b l] eqn:E.
  { exfalso. destruct Hs. rewrite from_unichar_arith in E by lia.
    revert E. by repeat case_if. }
  cbn [app] in Hbr. injection Hbr as <- <-. eauto.
Qed.

Lemma enc_all_ok cs : Forall scalar cs → bytes_ok (concat (map bson_utf8_from_unichar cs)).
Proof.
  induction 1 as [|c cs Hc _ IH]; [constructor|]. apply bytes_ok_app.
  split; [by apply enc_bytes_ok|done].
Qed.

(** Escaping a string of encoded characters is escaping each of them. *)
Lemma escape_loop_chars fuel cs rest str lp :
  Forall scalar cs → bytes_ok rest → (lp = true ∨ Forall (λ c, c ≠ 0) cs) →
  Z.of_nat fuel > blen (concat (map bson_utf8_from_unichar cs)) →
  escape_loop fuel (concat (map bson_utf8_from_unichar cs) ++ rest)
    (blen (concat (map bson_utf8_from_unichar cs))) lp str
  = Ret (Some (str ++ concat (map escape_char cs))).
Proof.
  intros Hs Hrest. revert fuel str. induction Hs as [|c cs Hc Hs IH]; intros fuel str Hlp Hf.
  { destruct fuel; [unfold blen in Hf; simpl in Hf; lia|]. simpl. by rewrite app_nil_r. }
  set (tl := concat (map bson_utf8_from_unichar cs)) in *.
  change (concat (map bson_utf8_from_unichar (c :: cs))) with (bson_utf8_from_unichar c ++ tl) in *.
  assert (Htl : bytes_ok (tl ++ rest)).
  { apply bytes_ok_app. split; [|done]. by apply enc_all_ok. }
  destruct (enc_shape c (tl ++ rest) Hc Htl) as (b0 & l & Hk & Hlead & Hget).
  rewrite <- app_assoc. rewrite blen_app in *. pose proof (blen_nonneg tl).
  assert (Hpos : 1 ≤ blen (bson_utf8_from_unichar c)).
  { rewrite Hk, blen_cons. pose proof (blen_nonneg l). lia. }
  destruct fuel as [|fuel]; [lia|]. simpl escape_loop. case_if; [|lia].
  rewrite Hget. cbn [bind].
  assert (Hb0 : byte_ok b0).
  { pose proof (enc_bytes_ok c Hc) as Hk0. rewrite Hk in Hk0. by inversion Hk0. }
  assert (Hseq : _bson_utf8_get_sequence (bson_utf8_from_unichar c ++ tl ++ rest) 0
            = Ret (lead_class b0)).
  { unfold _bson_utf8_get_sequence. rewrite Hk. cbn [app].
    change (rd (b0 :: l ++ tl ++ rest) 0) with (Ret b0). cbn [bind].
    by rewrite get_sequence_class. }
  assert (Hskip : ptr_add (bson_utf8_from_unichar c ++ tl ++ rest) (blen (bson_utf8_from_unichar c))
            = tl ++ rest).
  { unfold ptr_add, blen. rewrite Nat2Z.id. by rewrite drop_app_length. }
  assert (Htail : (lp = true ∨ Forall (λ c, c ≠ 0) cs)).
  { destruct Hlp as [?|Hnz]; [by left|right; by inversion Hnz]. }
  assert (Hstep : ∀ s, escape_loop fuel (tl ++ rest)
      (blen (bson_utf8_from_unichar c) + blen tl - blen (bson_utf8_from_unichar c)) lp s
      = Ret (Some (s ++ concat (map escape_char cs)))).
  { intros s. replace (_ + blen tl - _) with (blen tl) by lia. apply IH; [done|lia]. }
  cbn [map concat].
  destruct (Z.eqb_spec c 0) as [->|Hnz]; cbn [negb].
  - change (bson_utf8_from_unichar 0) with [0] in *. change (blen [0]) with 1 in *.
    unfold rd. cbn [Z.ltb Z.compare Z.to_nat app lookup list_lookup bind].
    destruct Hlp as [->|Hnz]; [|by inversion Hnz].
    cbn [andb Z.eqb]. change (ptr_add (0 :: tl ++ rest) 1) with (tl ++ rest).
    change ((0 :: tl ++ rest) !! Z.to_nat 0) with (Some 0). cbn [bind Z.eqb].
    by rewrite Hstep, <- app_assoc.
  - rewrite Hseq. unfold bson_utf8_next_char. rewrite Hseq. cbn [bind].
    destruct (lead_class b0) as [n m] eqn:El. cbn [fst] in Hlead |- *. rewrite Hlead, Hskip.
    cbn [bind]. by rewrite Hstep, <- app_assoc.
Qed.

(** * Properties *)

(** C31. bson_utf8_validate is memory safe, terminates, and accepts exactly the
    strings that are a sequence of well-formed shortest-form UTF-8 characters:
    Unicode scalar values, with U+0000 only (as 00 or C0 80) when [allow_null]. *)
Theorem bson_utf8_validate_correct utf8 len an :
  bytes_ok utf8 → 0 ≤ len ≤ blen utf8 → len < 2 ^ 32 →
  returns (bson_utf8_validate utf8 len an) (λ b,
    b = true ↔ ∃ ks, take (Z.to_nat len) utf8 = concat ks ∧ Forall (char_ok an) ks).
Proof.
  intros Hok Hlen Hmax. apply (validate_from_spec _ _ _ _ 0); [done|lia|lia|lia|lia].
Qed.

(** bson_utf8_get_char inverts bson_utf8_from_unichar on every scalar value,
    whatever follows, and the encoding has one to four bytes. *)
Theorem bson_utf8_get_char_from_unichar c rest :
  scalar c → bytes_ok rest →
  bson_utf8_get_char (bson_utf8_from_unichar c ++ rest) = Ret c
  ∧ bson_utf8_next_char (bson_utf8_from_unichar c ++ rest) = Ret rest.
Proof.
  intros Hs Hr. pose proof (enc_bytes_ok c Hs) as Hk.
  destruct (enc_shape c rest Hs Hr) as (b0 & l & E & Hl & Hg). split; [done|].
  rewrite E in *. inversion Hk; subst.
  unfold bson_utf8_next_char, _bson_utf8_get_sequence. cbn [app].
  change (rd (b0 :: l ++ rest) 0) with (Ret b0). cbn [bind].
  rewrite get_sequence_class by done. destruct (lead_class b0) as [n m].
  cbn [fst] in Hl. subst n. unfold ptr_add, blen. rewrite Nat2Z.id.
  exact (f_equal Ret (drop_app_length (b0 :: l) rest)).
Qed.

(** bson_utf8_escape_for_json on the encoding of a list of scalar values escapes
    them one by one, NULs included when the length is given explicitly. *)
Theorem bson_utf8_escape_for_json_correct cs rest :
  Forall scalar cs → bytes_ok rest →
  bson_utf8_escape_for_json (concat (map bson_utf8_from_unichar cs) ++ rest)
    (blen (concat (map bson_utf8_from_unichar cs)))
  = Ret (Some (concat (map escape_char cs))).
Proof.
  intros Hs Hr. unfold bson_utf8_escape_for_json. case_if.
  { pose proof (blen_nonneg (concat (map bson_utf8_from_unichar cs))). lia. }
  cbn [bind]. rewrite escape_loop_chars; [done|done|done|by left|lia].
Qed.

(** ** Concrete instances *)
(** a e-acute, euro sign, emoji: U+0061 U+00E9 U+20AC U+1F600 *)
Definition sample_text : list Z := [0x61; 0xE9; 0x20AC; 0x1F600; 0x0A; 0x22].
Definition sample_utf8 : list Z := concat (map bson_utf8_from_unichar sample_text).
Lemma sample_text_scalar : Forall scalar sample_text.
Proof. repeat constructor; unfold sample_text; lia. Qed.

Lemma bson_utf8_validate_correct_witness :
  returns (bson_utf8_validate [0xC3; 0xA9; 0xED; 0xA0; 0x80] 5 true) (λ b,
    b = true ↔ ∃ ks, take 5 [0xC3; 0xA9; 0xED; 0xA0; 0x80] = concat ks ∧ Forall (char_ok true) ks)
  ∧ bson_utf8_validate [0xC3; 0xA9; 0xED; 0xA0; 0x80] 5 true = Ret false.
Proof.
  split; [|reflexivity].
  apply (bson_utf8_validate_correct [0xC3; 0xA9; 0xED; 0xA0; 0x80] 5 true);
    [repeat constructor; unfold byte_ok; lia|unfold blen; simpl; lia|lia].
Defined.

Lemma bson_utf8_get_char_from_unichar_witness :
  bson_utf8_get_char (bson_utf8_from_unichar 0x20AC ++ [0]) = Ret 0x20AC
  ∧ bson_utf8_next_char (bson_utf8_from_unichar 0x20AC ++ [0]) = Ret [0].
Proof.
  apply (bson_utf8_get_char_from_unichar 0x20AC [0]);
    [unfold scalar; lia|repeat constructor; unfold byte_ok; lia].
Defined.

Lemma bson_utf8_escape_for_json_correct_witness :
  bson_utf8_escape_for_json (concat (map bson_utf8_from_unichar sample_text) ++ [0])
    (blen (concat (map bson_utf8_from_unichar sample_text)))
  = Ret (Some (concat (map escape_char sample_text))).
Proof.
  apply (bson_utf8_escape_for_json_correct sample_text [0]);
    [exact sample_text_scalar|repeat constructor; unfold byte_ok; lia].
Defined.
