(* ===== verification/BsonOid.v ===== *)
(** ObjectIds (bson/bson-oid.c and the inline functions of its header) and the
    contexts that generate them (bson/bson-context.c).

    An ObjectId is the list of its 12 bytes; a context holds the counters, the
    five random bytes and the cached pid.  The clock, the host name, the pid and
    [rand_r] are arguments of the definitions that consult them. *)
From S2P Require Import Prelude.
From Stdlib Require Import ZArith Lia List.
From stdpp Require Import prelude.
#[local] Open Scope Z_scope.
#[local] Open Scope mongo_scope.

(** [bson_oid_t] *)
Definition bson_oid_t := list Z.
Definition oid_ok (oid : bson_oid_t) : Prop := length oid = 12%nat ∧ bytes_ok oid.

(** ** Text form *)
Definition gHexCharPairs : list Z :=
    [12336; 12592; 12848; 13104; 13360; 13616; 13872; 14128; 14384; 14640; 24880;
   25136; 25392; 25648; 25904; 26160; 12337; 12593; 12849; 13105; 13361; 13617; 13873;
   14129; 14385; 14641; 24881; 25137; 25393; 25649; 25905; 26161; 12338; 12594; 12850;
   13106; 13362; 13618; 13874; 14130; 14386; 14642; 24882; 25138; 25394; 25650; 25906;
   26162; 12339; 12595; 12851; 13107; 13363; 13619; 13875; 14131; 14387; 14643; 24883;
   25139; 25395; 25651; 25907; 26163; 12340; 12596; 12852; 13108; 13364; 13620; 13876;
   14132; 14388; 14644; 24884; 25140; 25396; 25652; 25908; 26164; 12341; 12597; 12853;
   13109; 13365; 13621; 13877; 14133; 14389; 14645; 24885; 25141; 25397; 25653; 25909;
   26165; 12342; 12598; 12854; 13110; 13366; 13622; 13878; 14134; 14390; 14646; 24886;
   25142; 25398; 25654; 25910; 26166; 12343; 12599; 12855; 13111; 13367; 13623; 13879;
   14135; 14391; 14647; 24887; 25143; 25399; 25655; 25911; 26167; 12344; 12600; 12856;
   13112; 13368; 13624; 13880; 14136; 14392; 14648; 24888; 25144; 25400; 25656; 25912;
   26168; 12345; 12601; 12857; 13113; 13369; 13625; 13881; 14137; 14393; 14649; 24889;
   25145; 25401; 25657; 25913; 26169; 12385; 12641; 12897; 13153; 13409; 13665; 13921;
   14177; 14433; 14689; 24929; 25185; 25441; 25697; 25953; 26209; 12386; 12642; 12898;
   13154; 13410; 13666; 13922; 14178; 14434; 14690; 24930; 25186; 25442; 25698; 25954;
   26210; 12387; 12643; 12899; 13155; 13411; 13667; 13923; 14179; 14435; 14691; 24931;
   25187; 25443; 25699; 25955; 26211; 12388; 12644; 12900; 13156; 13412; 13668; 13924;
   14180; 14436; 14692; 24932; 25188; 25444; 25700; 25956; 26212; 12389; 12645; 12901;
   13157; 13413; 13669; 13925; 14181; 14437; 14693; 24933; 25189; 25445; 25701; 25957;
   26213; 12390; 12646; 12902; 13158; 13414; 13670; 13926; 14182; 14438; 14694; 24934;
   25190; 25446; 25702; 25958; 26214].

(** [dst[i] = gHexCharPairs[id[i]]]: the two bytes stored, little endian *)
Definition hex_pair (b : Z) : res (list Z) :=
  match gHexCharPairs !! Z.to_nat b with
  | Some p => Ret (le_bytes 2 p)
  | None => Stuck OutOfBounds
  end.
Fixpoint hex_pairs (n : nat) (id : list Z) (i : Z) : res (list Z) :=
  match n with
  | O => Ret []
  | S n' =>
      let* b := rd id i in
      let* p := hex_pair b in
      let* r := hex_pairs n' id (i + 1) in
      Ret (p ++ r)
  end.
(** the 25 bytes of [str], with the terminator *)
Definition bson_oid_to_string (oid : bson_oid_t) : res (list Z) :=
  let* s := hex_pairs 12 oid 0 in Ret (s ++ [0]).

Definition bson_oid_parse_hex_char (hex : Z) : Z :=
  if (48 <=? hex) && (hex <=? 57) then hex - 48
  else if (97 <=? hex) && (hex <=? 102) then hex - 87
  else if (65 <=? hex) && (hex <=? 70) then hex - 55
  else 0.
Fixpoint parse_pairs (n : nat) (str : list Z) (i : Z) : res bson_oid_t :=
  match n with
  | O => Ret []
  | S n' =>
      let* h := rd str (2 * i) in
      let* l := rd str (2 * i + 1) in
      let* r := parse_pairs n' str (i + 1) in
      Ret (u8 (Z.lor (Z.shiftl (bson_oid_parse_hex_char h) 4) (bson_oid_parse_hex_char l)) :: r)
  end.
Definition bson_oid_init_from_string (str : list Z) : res bson_oid_t := parse_pairs 12 str 0.

Definition is_hex (c : Z) : bool :=
  ((48 <=? c) && (c <=? 57)) || ((97 <=? c) && (c <=? 102)) || ((65 <=? c) && (c <=? 70)).
Fixpoint all_hex (n : nat) (str : list Z) (i : Z) : res bool :=
  match n with
  | O => Ret true
  | S n' =>
      let* c := rd str i in
      if is_hex c then all_hex n' str (i + 1) else Ret false
  end.
Definition bson_oid_is_valid (str : list Z) (length : Z) : res bool :=
  let* length := (if length =? 25 then let* c := rd str 24 in Ret (if c =? 0 then 24 else length)
                  else Ret length) in
  if length =? 24 then all_hex 24 str 0 else Ret false.

(** ** Comparison, hashing, access *)

(** the sign of [memcmp (a, b, n)] *)
Fixpoint memcmp (n : nat) (a b : list Z) : res Z :=
  match n with
  | O => Ret 0
  | S n' =>
      match a, b with
      | x :: a', y :: b' => if x <? y then Ret (-1) else if y <? x then Ret 1 else memcmp n' a' b'
      | _, _ => Stuck OutOfBounds
      end
  end.
Definition bson_oid_compare (oid1 oid2 : bson_oid_t) : res Z := memcmp 12 oid1 oid2.
Definition bson_oid_equal (oid1 oid2 : bson_oid_t) : res bool :=
  let* c := memcmp 12 oid1 oid2 in Ret (c =? 0).

Fixpoint hash_from (n : nat) (bytes : list Z) (i hash : Z) : res Z :=
  match n with
  | O => Ret hash
  | S n' =>
      let* b := rd bytes i in
      hash_from n' bytes (i + 1) (u32 (u32 (u32 (Z.shiftl hash 5) + hash) + b))
  end.
Definition bson_oid_hash (oid : bson_oid_t) : res Z := hash_from 12 oid 0 5381.

Definition be_bytes (n : nat) (x : Z) : list Z := rev (le_bytes n x).
(** the timestamp: the first four bytes, big endian *)
Definition bson_oid_get_time_t (oid : bson_oid_t) : res Z :=
  let* b := rd_bytes 4 oid 0 in rd_le 4 (rev b) 0.

Definition bson_oid_init_from_data (data : list Z) : res bson_oid_t := rd_bytes 12 data 0.
Definition bson_oid_copy (src : bson_oid_t) : res bson_oid_t := rd_bytes 12 src 0.

(** ** Contexts *)
Record bson_context_t := Context {
  ctx_disable_pid_cache : bool;      (* flags & BSON_CONTEXT_DISABLE_PID_CACHE *)
  ctx_thread_safe : bool;            (* which oid_set_seq* functions are installed *)
  ctx_seq32 : Z;
  ctx_seq64 : Z;
  ctx_rand : list Z;
  ctx_pid : Z
}.
Definition set_seq32 (x : Z) (c : bson_context_t) : bson_context_t :=
  Context (ctx_disable_pid_cache c) (ctx_thread_safe c) x (ctx_seq64 c) (ctx_rand c) (ctx_pid c).
Definition set_seq64 (x : Z) (c : bson_context_t) : bson_context_t :=
  Context (ctx_disable_pid_cache c) (ctx_thread_safe c) (ctx_seq32 c) x (ctx_rand c) (ctx_pid c).
Definition set_rand (x : list Z) (c : bson_context_t) : bson_context_t :=
  Context (ctx_disable_pid_cache c) (ctx_thread_safe c) (ctx_seq32 c) (ctx_seq64 c) x (ctx_pid c).
Definition set_pid (x : Z) (c : bson_context_t) : bson_context_t :=
  Context (ctx_disable_pid_cache c) (ctx_thread_safe c) (ctx_seq32 c) (ctx_seq64 c) (ctx_rand c) x.

(** [memcpy (&oid->bytes[o], bytes, ...)] *)
Definition oid_store (o : nat) (bytes : list Z) (oid : bson_oid_t) : bson_oid_t :=
  take o oid ++ bytes ++ drop (o + length bytes) oid.

(** [((uint8_t * ) &seq) + 1], three bytes, of the big-endian counter *)
Definition seq32_bytes (seq : Z) : list Z := drop 1 (be_bytes 4 seq).

Definition _bson_context_set_oid_seq32 (context : bson_context_t) (oid : bson_oid_t)
    : res (bson_context_t * bson_oid_t) :=
  let seq := u32 (ctx_seq32 context) in
  if ctx_seq32 context =? INT32_MAX then Stuck IntOverflow
  else Ret (set_seq32 (ctx_seq32 context + 1) context, oid_store 9 (seq32_bytes seq) oid).
Definition _bson_context_set_oid_seq32_threadsafe (context : bson_context_t) (oid : bson_oid_t)
    : res (bson_context_t * bson_oid_t) :=
  let seq := s32 (ctx_seq32 context + 1) in
  Ret (set_seq32 seq context, oid_store 9 (seq32_bytes seq) oid).
Definition _bson_context_set_oid_seq64 (context : bson_context_t) (oid : bson_oid_t)
    : res (bson_context_t * bson_oid_t) :=
  let seq := u64 (ctx_seq64 context) in
  if ctx_seq64 context =? 2 ^ 63 - 1 then Stuck IntOverflow
  else Ret (set_seq64 (ctx_seq64 context + 1) context, oid_store 4 (be_bytes 8 seq) oid).
Definition _bson_context_set_oid_seq64_threadsafe (context : bson_context_t) (oid : bson_oid_t)
    : res (bson_context_t * bson_oid_t) :=
  let seq := s64 (ctx_seq64 context + 1) in
  Ret (set_seq64 seq context, oid_store 4 (be_bytes 8 seq) oid).

(** what the generator asks the operating system *)
Record os_t := Os {
  os_time : Z;               (* time (NULL) *)
  os_tv_sec : Z; os_tv_usec : Z;
  os_pid : Z;
  os_hostname : list Z       (* up to its terminator *)
}.

Section Generation.
(** [rand_r]: the number returned and the next seed *)
Variable rand_r : Z → Z * Z.

Definition _bson_getpid (os : os_t) : Z := u16 (os_pid os).

(** the [while (hostname_chars_left)] loop: four bytes at a time *)
Fixpoint fold_hostname (fuel : nat) (ptr : list Z) (seed : Z) : res Z :=
  match fuel with
  | O => Stuck OutOfFuel
  | S fuel' =>
      match ptr with
      | [] => Ret seed
      | _ =>
          let to_copy := Z.to_nat (if blen ptr >? 4 then 4 else blen ptr) in
          let* chunk := rd_le to_copy ptr 0 in
          fold_hostname fuel' (drop to_copy ptr) (Z.lxor seed chunk)
      end
  end.

Definition _bson_context_init_random (os : os_t) (context : bson_context_t)
    (init_sequence : bool) : res bson_context_t :=
  let seed := Z.lxor (Z.lxor (u32 (os_tv_sec os)) (u32 (os_tv_usec os))) (u32 (ctx_pid context)) in
  let* seed := fold_hostname (S (length (os_hostname os))) (os_hostname os) seed in
  let '(context, seed) :=
    (if init_sequence then
       let '(r, seed) := rand_r seed in (set_seq32 (Z.land r 0x007FFFF0) context, seed)
     else (context, seed)) in
  let '(r1, seed) := rand_r seed in
  let '(r2, seed) := rand_r seed in
  let rand_bytes := Z.lor (Z.shiftl r1 32) r2 in
  Ret (set_rand (le_bytes 5 rand_bytes) context).

Definition _bson_context_init (os : os_t) (disable_pid_cache thread_safe : bool)
    : res bson_context_t :=
  let context := Context disable_pid_cache thread_safe 0 0 (repeat 0 5) 0 in
  _bson_context_init_random os (set_pid (_bson_getpid os) context) true.
Definition bson_context_new (os : os_t) (disable_pid_cache thread_safe : bool)
    : res bson_context_t := _bson_context_init os disable_pid_cache thread_safe.

Definition _bson_context_set_oid_rand (os : os_t) (context : bson_context_t) (oid : bson_oid_t)
    : res (bson_context_t * bson_oid_t) :=
  let* context :=
    (if ctx_disable_pid_cache context then
       let pid := _bson_getpid os in
       if negb (pid =? ctx_pid context)
       then _bson_context_init_random os (set_pid pid context) false
       else Ret context
     else Ret context) in
  Ret (context, oid_store 4 (ctx_rand context) oid).

Definition oid_set_seq32 (context : bson_context_t) (oid : bson_oid_t) :=
  if ctx_thread_safe context then _bson_context_set_oid_seq32_threadsafe context oid
  else _bson_context_set_oid_seq32 context oid.
Definition oid_set_seq64 (context : bson_context_t) (oid : bson_oid_t) :=
  if ctx_thread_safe context then _bson_context_set_oid_seq64_threadsafe context oid
  else _bson_context_set_oid_seq64 context oid.

(** [oid] is the caller's memory, overwritten *)
Definition bson_oid_init (os : os_t) (context : bson_context_t) (oid : bson_oid_t)
    : res (bson_context_t * bson_oid_t) :=
  let oid := oid_store 0 (be_bytes 4 (u32 (os_time os))) oid in
  let* co := _bson_context_set_oid_rand os context oid in
  let '(context, oid) := co in
  oid_set_seq32 context oid.
Definition bson_oid_init_sequence (os : os_t) (context : bson_context_t) (oid : bson_oid_t)
    : res (bson_context_t * bson_oid_t) :=
  let oid := oid_store 0 (be_bytes 4 (u32 (os_time os))) oid in
  oid_set_seq64 context oid.

(** a client that makes one ObjectId after the other from a context *)
Fixpoint generate (oss : list os_t) (context : bson_context_t) : res (list bson_oid_t) :=
  match oss with
  | [] => Ret []
  | os :: oss' =>
      let* co := bson_oid_init os context (repeat 0 12) in
      let* r := generate oss' (fst co) in
      Ret (snd co :: r)
  end.
End Generation.

(** ** Lemmas *)
Lemma hex_pair_spec b :
  byte_ok b →
  ∃ h l, hex_pair b = Ret [h; l] ∧ is_hex h = true ∧ is_hex l = true ∧ h ≠ 0 ∧ l ≠ 0
    ∧ u8 (Z.lor (Z.shiftl (bson_oid_parse_hex_char h) 4) (bson_oid_parse_hex_char l)) = b.
Proof.
  intros Hb.
  pose proof (byte_cases (λ b, match hex_pair b with
    | Ret [h; l] => is_hex h && is_hex l && negb (h =? 0) && negb (l =? 0) &&
        (u8 (Z.lor (Z.shiftl (bson_oid_parse_hex_char h) 4) (bson_oid_parse_hex_char l)) =? b)
    | _ => false end) eq_refl b Hb) as H. cbv beta in H.
  destruct (hex_pair b) as [[|h [|l [|? ?]]]|]; try done.
  rewrite !andb_true_iff, !negb_true_iff, !Z.eqb_neq, Z.eqb_eq in H.
  destruct H as ((((? & ?) & ?) & ?) & ?). exists h, l. done.
Qed.

Lemma hex_pairs_spec n id i :
  bytes_ok id → 0 ≤ i → i + Z.of_nat n ≤ blen id →
  ∃ s, hex_pairs n id i = Ret s ∧ length s = (2 * n)%nat ∧ Forall (λ c, is_hex c = true) s
    ∧ ∀ pre post j, blen pre = 2 * j → 0 ≤ j →
        parse_pairs n (pre ++ s ++ post) j = rd_bytes n id i.
Proof.
  intros Hok. revert i. induction n as [|n IH]; intros i Hi Hn.
  { exists []. split; [done|]. split; [done|]. split; [constructor|done]. }
  destruct (rd_ex id i) as (b & Hr & Hb); [done|lia|].
  destruct (hex_pair_spec b Hb) as (h & l & Hp & Hh & Hl & _ & _ & Hbyte).
  destruct (IH (i + 1)) as (s & Hs & Hlen & Hall & Hparse); [lia|lia|].
  exists ([h; l] ++ s). simpl hex_pairs. rewrite Hr. cbn [bind]. rewrite Hp. cbn [bind].
  rewrite Hs. split; [done|]. split; [simpl; lia|]. split; [by repeat constructor|].
  intros pre post j Hpre Hj. cbn [app].
  assert (E : ∀ k, rd (pre ++ h :: l :: s ++ post) (2 * j + k) = rd (h :: l :: s ++ post) k ∨ k < 0).
  { intros k. destruct (decide (0 ≤ k)); [left|right; lia]. rewrite <- Hpre. by apply rd_app_r. }
  cbn [parse_pairs]. destruct (E 0) as [E0|]; [|lia]. rewrite Z.add_0_r in E0.
  destruct (E 1) as [E1|]; [|lia]. rewrite E0, E1.
  change (rd (h :: l :: s ++ post) 0) with (Ret h). change (rd (h :: l :: s ++ post) 1) with (Ret l).
  cbn [bind]. rewrite Hbyte.
  replace (pre ++ h :: l :: s ++ post) with ((pre ++ [h; l]) ++ s ++ post) by (by rewrite <- app_assoc).
  rewrite Hparse; [|by autorewrite with blen; rewrite Hpre; change (blen []) with 0; lia|lia].
  by rewrite rd_bytes_S, Hr.
Qed.

Lemma all_hex_spec n pre s post :
  length s = n → Forall (λ c, is_hex c = true) s →
  all_hex n (pre ++ s ++ post) (blen pre) = Ret true.
Proof.
  intros Hn Hs. revert n pre Hn. induction Hs as [|c s Hc Hs IH]; intros n pre Hn; subst n; [done|].
  cbn [length all_hex]. replace (blen pre) with (blen pre + 0) at 1 by lia.
  rewrite rd_app_r by lia. change (rd ((c :: s) ++ post) 0) with (Ret c). cbn [bind]. rewrite Hc.
  specialize (IH (length s) (pre ++ [c]) eq_refl). rewrite <- app_assoc in IH.
  rewrite blen_app in IH. exact IH.
Qed.

Lemma rd_bytes_all l : rd_bytes (length l) l 0 = Ret l.
Proof.
  enough (H : ∀ pre, rd_bytes (length l) (pre ++ l) (blen pre) = Ret l) by apply (H []).
  induction l as [|b l IH]; intros pre; [done|]. cbn [length]. rewrite rd_bytes_S. replace (blen pre) with (blen pre + 0) at 1 by lia.
  rewrite rd_app_r by lia. change (rd (b :: l) 0) with (Ret b). cbn [bind].
  specialize (IH (pre ++ [b])). rewrite <- app_assoc, blen_app in IH.
  change (blen pre + 1) with (blen pre + blen [b]). cbn [app] in IH. by rewrite IH.
Qed.

(** [memcmp] is the lexicographic order. *)
Lemma memcmp_eq n a b :
  length a = n → length b = n → memcmp n a b = Ret 0 ↔ a = b.
Proof.
  revert a b. induction n as [|n IH]; intros [|x a] [|y b] Ha Hb; try done.
  injection Ha as Ha. injection Hb as Hb.
  simpl. destruct (Z.ltb_spec x y); [split; [done|intros [=]; lia]|].
  destruct (Z.ltb_spec y x); [split; [done|intros [=]; lia]|].
  rewrite (IH a b Ha Hb). split; [intros ->; f_equal; lia|by intros [=]].
Qed.
Lemma memcmp_swap n a b c : memcmp n a b = Ret c → memcmp n b a = Ret (- c).
Proof.
  revert a b. induction n as [|n IH]; intros [|x a] [|y b]; simpl; try done; try (by intros [= <-]).
  destruct (Z.ltb_spec x y), (Z.ltb_spec y x); try lia; try (by intros [= <-]). apply IH.
Qed.
Lemma memcmp_total n a b :
  length a = n → length b = n → ∃ c, memcmp n a b = Ret c ∧ (c = -1 ∨ c = 0 ∨ c = 1).
Proof.
  revert a b. induction n as [|n IH]; intros [|x a] [|y b] Ha Hb; try done; [naive_solver|].
  injection Ha as Ha. injection Hb as Hb.
  simpl. destruct (Z.ltb_spec x y); [naive_solver|].
  destruct (Z.ltb_spec y x); [naive_solver|by apply IH].
Qed.
Lemma memcmp_trans n a b c :
  memcmp n a b = Ret (-1) → memcmp n b c = Ret (-1) → memcmp n a c = Ret (-1).
Proof.
  revert a b c. induction n as [|n IH]; intros [|x a] [|y b] [|z c]; simpl; try done.
  destruct (Z.ltb_spec x y), (Z.ltb_spec y x); try lia; try done;
    destruct (Z.ltb_spec y z), (Z.ltb_spec z y); try lia; try done;
    destruct (Z.ltb_spec x z), (Z.ltb_spec z x); try lia; try done. apply IH.
Qed.

Lemma le_bytes_inj n x y : le_bytes n x = le_bytes n y → x mod 256 ^ Z.of_nat n = y mod 256 ^ Z.of_nat n.
Proof.
  intros H. pose proof (rd_le_bytes n x [] []) as Hx. pose proof (rd_le_bytes n y [] []) as Hy.
  rewrite H, Hy in Hx. congruence.
Qed.

(** The three stores of [bson_oid_init] fill the whole object. *)
Lemma oid_layout t r k oid :
  length oid = 12%nat → length t = 4%nat → length r = 5%nat → length k = 3%nat →
  oid_store 9 k (oid_store 4 r (oid_store 0 t oid)) = t ++ r ++ k.
Proof.
  intros Ho Ht Hr Hk. unfold oid_store. rewrite Ht, Hr, Hk.
  do 13 (destruct oid as [|? oid]; try discriminate).
  do 5 (destruct t as [|? t]; try discriminate). do 6 (destruct r as [|? r]; try discriminate).
  do 4 (destruct k as [|? k]; try discriminate). reflexivity.
Qed.

Lemma u32_mod24 x : u32 x mod 2 ^ 24 = x mod 2 ^ 24.
Proof. unfold u32. change (2 ^ 32) with (2 ^ 24 * 2 ^ 8). rewrite Z.rem_mul_r by lia.
  rewrite Z.mul_comm, Z.mod_add, Z.mod_mod by lia. done. Qed.
Lemma s32_mod24 x : s32 x mod 2 ^ 24 = x mod 2 ^ 24.
Proof.
  rewrite <- (u32_mod24 x). unfold s32. case_if; [done|].
  change (2 ^ 32) with (256 * 2 ^ 24). rewrite <- Z.add_opp_r, <- Z.mul_opp_l.
  by rewrite Z.mod_add by lia.
Qed.

Section GenerationLemmas.
Context (rand_r : Z → Z * Z).

Definition context_ok (c : bson_context_t) : Prop :=
  length (ctx_rand c) = 5%nat ∧ in_s32 (ctx_seq32 c).
(** room for [n] more ObjectIds before the plain counter overflows *)
Definition counter_room (c : bson_context_t) (n : nat) : Prop :=
  ctx_thread_safe c = true ∨ ctx_seq32 c + Z.of_nat n ≤ INT32_MAX.

Lemma fold_hostname_ok fuel ptr seed :
  bytes_ok ptr → (length ptr < fuel)%nat → returns (fold_hostname fuel ptr seed) (λ _, True).
Proof.
  revert ptr seed. induction fuel as [|fuel IH]; intros ptr seed Hok Hf; [lia|].
  destruct ptr as [|b ptr]; [done|]. cbn [fold_hostname].
  set (n := Z.to_nat _). assert (Hn : (1 ≤ n ≤ length (b :: ptr))%nat).
  { unfold n, blen. cbn [length]. case_if; lia. }
  eapply returns_bind; [apply rd_le_ok; [done|lia|unfold blen; lia]|].
  intros x _. apply IH; [by apply Forall_drop|]. rewrite length_drop. cbn [length] in *. lia.
Qed.

Lemma init_random_ok os c b :
  bytes_ok (os_hostname os) → in_s32 (ctx_seq32 c) →
  returns (_bson_context_init_random rand_r os c b) (λ c',
    context_ok c' ∧ (b = false → ctx_seq32 c' = ctx_seq32 c)
    ∧ ctx_thread_safe c' = ctx_thread_safe c ∧ ctx_pid c' = ctx_pid c).
Proof.
  intros Hok Hs. unfold _bson_context_init_random.
  eapply returns_bind; [apply fold_hostname_ok; [done|lia]|]. intros seed _.
  destruct b.
  - destruct (rand_r seed) as [r s1], (rand_r s1) as [r1 s2], (rand_r s2) as [r2 s3]. simpl.
    split; [|done]. split; [done|]. simpl. unfold in_s32.
    change 8388592 with (Z.land 8388592 (2 ^ 23 - 1)). rewrite Z.land_assoc.
    rewrite (Z.land_ones _ 23) by lia. pose proof (Z.mod_pos_bound (Z.land r 8388592) (2 ^ 23)). lia.
  - destruct (rand_r seed) as [r1 s2], (rand_r s2) as [r2 s3]. simpl. done.
Qed.

(** One ObjectId: the timestamp, then the context's random bytes, then the
    low 24 bits of the counter. *)
Lemma bson_oid_init_ok os c oid :
  context_ok c → counter_room c 1 → length oid = 12%nat → bytes_ok (os_hostname os) →
  returns (bson_oid_init rand_r os c oid) (λ '(c', o),
    context_ok c' ∧ length o = 12%nat
    ∧ take 4 o = be_bytes 4 (u32 (os_time os))
    ∧ (ctx_disable_pid_cache c = false → take 5 (drop 4 o) = ctx_rand c)
    ∧ ctx_thread_safe c' = ctx_thread_safe c
    ∧ ctx_seq32 c' = s32 (ctx_seq32 c + 1)
    ∧ drop 9 o = rev (le_bytes 3 (ctx_seq32 c + if ctx_thread_safe c then 1 else 0))).
Proof.
  intros [Hr Hs] Hroom Ho Hhost. unfold bson_oid_init, _bson_context_set_oid_rand.
  set (t := be_bytes 4 (u32 (os_time os))).
  assert (Hc : returns (if ctx_disable_pid_cache c
    then if negb (_bson_getpid os =? ctx_pid c)
      then _bson_context_init_random rand_r os (set_pid (_bson_getpid os) c) false else Ret c
    else Ret c) (λ c', context_ok c' ∧ ctx_seq32 c' = ctx_seq32 c
      ∧ ctx_thread_safe c' = ctx_thread_safe c
      ∧ (ctx_disable_pid_cache c = false → ctx_rand c' = ctx_rand c))).
  { case_head; [|done]. case_head; [done|].
    eapply returns_mono; [apply init_random_ok; done|].
    intros a (Ha & Hs' & Hts & _). split; [done|]. split; [by apply Hs'|]. by split. }
  apply returns_Ret in Hc as (c' & Hc & [Hr' Hs'] & Hseq & Hts & Hrand).
  rewrite Hc. cbn [bind].
  unfold oid_set_seq32, _bson_context_set_oid_seq32_threadsafe, _bson_context_set_oid_seq32.
  rewrite Hts, Hseq.
  pose proof (s32_range (ctx_seq32 c + 1)) as Hrange. unfold seq32_bytes.
  assert (Htail : ∀ x y, length (t ++ ctx_rand c' ++ drop 1 (be_bytes 4 x)) = 12%nat
    ∧ (x mod 2 ^ 24 = y mod 2 ^ 24 → drop 9 (t ++ ctx_rand c' ++ drop 1 (be_bytes 4 x)) = rev (le_bytes 3 y))).
  { intros x y. split; [by rewrite !length_app, Hr'|]. intros Hxy.
    rewrite (app_assoc t), drop_app_length' by (by rewrite length_app, Hr').
    change (drop 1 (be_bytes 4 x)) with (rev (le_bytes 3 x)).
    change (2 ^ 24) with (256 ^ Z.of_nat 3) in Hxy.
    by rewrite (le_bytes_mod 3 x), (le_bytes_mod 3 y), Hxy. }
  assert (Hmid : ∀ k, ctx_disable_pid_cache c = false →
    take 5 (drop 4 (t ++ ctx_rand c' ++ k)) = ctx_rand c).
  { intros k Hd. rewrite drop_app_length' by done. rewrite take_app_length' by done. by apply Hrand. }
  destruct (ctx_thread_safe c) eqn:E; [|case_head; [destruct Hroom; [congruence|lia]|]];
    cbn [returns]; (rewrite oid_layout; [|done..]).
  - split; [done|]. split; [apply Htail; exact 0|]. split; [done|]. split; [apply Hmid|].
    split; [done|]. split; [done|]. apply Htail.
    apply (s32_mod24 (ctx_seq32 c + 1)).
  - assert (ctx_seq32 c < INT32_MAX) by (unfold in_s32, INT32_MAX in *; lia).
    split; [split; [done|unfold in_s32, INT32_MAX in *; simpl; lia]|].
    split; [apply Htail; exact 0|]. split; [done|]. split; [apply Hmid|].
    split; [done|]. split; [symmetry; apply (s32_small (ctx_seq32 c + 1)); unfold in_s32, INT32_MAX in *; lia|].
    apply Htail. rewrite Z.add_0_r. apply u32_mod24.
Qed.

Lemma generate_ok oss c :
  context_ok c → counter_room c (length oss) → Forall (λ os, bytes_ok (os_hostname os)) oss →
  returns (generate rand_r oss c) (λ l, length l = length oss
    ∧ ∀ i o, l !! i = Some o →
        ∃ x, drop 9 o = rev (le_bytes 3 x)
           ∧ x mod 2 ^ 24 = (ctx_seq32 c + (if ctx_thread_safe c then 1 else 0) + Z.of_nat i) mod 2 ^ 24).
Proof.
  intros Hc Hroom Hh. revert c Hc Hroom. induction Hh as [|os oss Hos _ IH]; intros c Hc Hroom; [done|].
  cbn [generate]. assert (Hroom1 : counter_room c 1).
  { destruct Hroom; [by left|right]. simpl in *. lia. }
  eapply returns_bind; [by apply bson_oid_init_ok|].
  intros [c' o] (Hc' & Ho & _ & _ & Hts & Hseq & Hctr).
  cbn [fst snd]. eapply returns_bind; [apply (IH c' Hc')|].
  - destruct Hroom as [Hr|Hr]; [left; by rewrite Hts|right]. simpl in Hr |- *. rewrite Hseq, s32_small; [lia|].
    destruct Hc as [_ Hc]. unfold in_s32, INT32_MAX in *. lia.
  - intros l [Hlen Hl]. cbn [returns]. split; [simpl; lia|]. intros [|i] o' Hi.
    + injection Hi as <-. eexists. split; [exact Hctr|]. by rewrite Z.add_0_r.
    + simpl in Hi. destruct (Hl i o' Hi) as (x & Hx & Hm). exists x. split; [done|].
      rewrite Hm, Hts, Hseq. rewrite <- Z.add_assoc, <- Zplus_mod_idemp_l, s32_mod24, Zplus_mod_idemp_l.
      f_equal. lia.
Qed.
End GenerationLemmas.

(** * Properties *)

(** The text form round-trips: bson_oid_to_string writes 24 hexadecimal digits
    and a terminator that bson_oid_is_valid accepts and from which
    bson_oid_init_from_string reads back the same ObjectId. *)
Theorem bson_oid_string_roundtrip oid :
  oid_ok oid →
  ∃ s, bson_oid_to_string oid = Ret (s ++ [0]) ∧ length s = 24%nat
    ∧ bson_oid_is_valid (s ++ [0]) 25 = Ret true ∧ bson_oid_is_valid (s ++ [0]) 24 = Ret true
    ∧ bson_oid_init_from_string (s ++ [0]) = Ret oid.
Proof.
  intros [Hlen Hok]. destruct (hex_pairs_spec 12 oid 0) as (s & Hs & Hl & Hall & Hp);
    [done|lia|unfold blen; lia|].
  exists s. unfold bson_oid_to_string. rewrite Hs. split; [done|]. split; [done|].
  assert (Hh : all_hex 24 (s ++ [0]) 0 = Ret true) by exact (all_hex_spec 24 [] s [0] Hl Hall).
  split; [|split].
  - unfold bson_oid_is_valid. simpl (25 =? 25). cbv iota.
    replace 24 with (blen s + 0) at 1 by (unfold blen; lia). rewrite rd_app_r by lia. exact Hh.
  - exact Hh.
  - transitivity (rd_bytes 12 oid 0); [exact (Hp [] [0] 0 eq_refl (Z.le_refl 0))|].
    rewrite <- Hlen. apply rd_bytes_all.
Qed.

(** bson_oid_compare is a total order on ObjectIds whose equality is
    bson_oid_equal, and it sorts by generation time first. *)
Theorem bson_oid_compare_order o1 o2 o3 :
  oid_ok o1 → oid_ok o2 → oid_ok o3 →
  (∃ c, bson_oid_compare o1 o2 = Ret c ∧ bson_oid_compare o2 o1 = Ret (- c) ∧ (c = 0 ↔ o1 = o2)
     ∧ bson_oid_equal o1 o2 = Ret (c =? 0))
  ∧ (bson_oid_compare o1 o2 = Ret (-1) → bson_oid_compare o2 o3 = Ret (-1) →
     bson_oid_compare o1 o3 = Ret (-1))
  ∧ ∃ t1 t2, bson_oid_get_time_t o1 = Ret t1 ∧ bson_oid_get_time_t o2 = Ret t2
     ∧ (t1 < t2 → bson_oid_compare o1 o2 = Ret (-1)).
Proof.
  intros [L1 K1] [L2 K2] _. split; [|split; [apply memcmp_trans|]].
  - destruct (memcmp_total 12 o1 o2 L1 L2) as (c & Hc & _). exists c. split; [done|].
    split; [by apply memcmp_swap|]. unfold bson_oid_equal. rewrite Hc. split; [|done].
    rewrite <- (memcmp_eq 12 o1 o2 L1 L2), Hc. split; [by intros ->|by intros [=]].
  - do 5 (destruct o1 as [|? o1]; try discriminate). do 5 (destruct o2 as [|? o2]; try discriminate).
    unfold bytes_ok, byte_ok in *.
    repeat match goal with H : Forall _ (_ :: _) |- _ => inversion H; clear H; subst end. eexists _, _. split; [reflexivity|]. split; [reflexivity|].
    intros Ht. unfold bson_oid_compare. cbn [memcmp].
    repeat (match goal with |- (if ?a <? ?b then _ else _) = _ => destruct (Z.ltb_spec a b) end;
      [first [done|lia]|]). lia.
Qed.

(** An ObjectId is the clock's seconds, the context's five random bytes and the
    counter; [2 ^ 24] of them made one after the other from a context are
    pairwise distinct, whatever the clock, the pid and the random numbers do. *)
Theorem bson_oid_init_distinct rand_r oss c :
  context_ok c → counter_room c (length oss) → Forall (λ os, bytes_ok (os_hostname os)) oss →
  (Z.of_nat (length oss) ≤ 2 ^ 24) →
  returns (generate rand_r oss c) (λ l, length l = length oss ∧ NoDup l).
Proof.
  intros Hc Hr Hh Hn. eapply returns_mono; [by apply generate_ok|].
  intros l [Hlen Hl]. split; [done|]. apply NoDup_alt. intros i j o Hi Hj.
  destruct (Hl i o Hi) as (x & Hx & Hxm). destruct (Hl j o Hj) as (y & Hy & Hym).
  rewrite Hx in Hy. apply (f_equal (@rev Z)) in Hy. rewrite !rev_involutive in Hy.
  apply le_bytes_inj in Hy. change (256 ^ Z.of_nat 3) with (2 ^ 24) in Hy. rewrite Hxm, Hym in Hy.
  apply lookup_lt_Some in Hi, Hj.
  set (a := ctx_seq32 c + _) in Hy.
  pose proof (Z.div_mod (a + Z.of_nat i) (2 ^ 24) ltac:(lia)).
  pose proof (Z.div_mod (a + Z.of_nat j) (2 ^ 24) ltac:(lia)). lia.
Qed.

(** ** Concrete instances *)
Definition sample_oid : bson_oid_t := [0x50; 0x7F; 0x1F; 0x77; 0xBC; 0xF8; 0x6C; 0xD7; 0x99; 0x43; 0x90; 0x11].
Definition sample_context : bson_context_t := Context true true (2 ^ 31 - 1) 0 [1; 2; 3; 4; 5] 77.
(** a linear congruential generator *)
Definition lcg (seed : Z) : Z * Z :=
  let s := u32 (seed * 1103515245 + 12345) in (Z.land (Z.shiftr s 16) 0x7FFF, s).
Definition sample_oss : list os_t := [Os 1600000000 1600000000 5 77 [104; 111; 115; 116; 49]; Os 1600000000 1600000001 6 78 []].

Lemma sample_oid_ok : oid_ok sample_oid.
Proof. split; [done|]. repeat constructor; by vm_compute. Qed.

Lemma bson_oid_string_roundtrip_witness :
  ∃ s, bson_oid_to_string sample_oid = Ret (s ++ [0]) ∧ length s = 24%nat
    ∧ bson_oid_is_valid (s ++ [0]) 25 = Ret true ∧ bson_oid_is_valid (s ++ [0]) 24 = Ret true
    ∧ bson_oid_init_from_string (s ++ [0]) = Ret sample_oid.
Proof. apply (bson_oid_string_roundtrip sample_oid). exact sample_oid_ok. Defined.

Lemma bson_oid_compare_order_witness :
  bson_oid_compare sample_oid sample_oid = Ret 0
  ∧ ∃ c, bson_oid_compare sample_oid sample_oid = Ret c
    ∧ bson_oid_compare sample_oid sample_oid = Ret (- c) ∧ (c = 0 ↔ sample_oid = sample_oid)
    ∧ bson_oid_equal sample_oid sample_oid = Ret (c =? 0).
Proof.
  split; [reflexivity|].
  exact (proj1 (bson_oid_compare_order sample_oid sample_oid sample_oid
    sample_oid_ok sample_oid_ok sample_oid_ok)).
Defined.

Lemma bson_oid_init_distinct_witness :
  returns (generate lcg sample_oss sample_context) (λ l, length l = 2%nat ∧ NoDup l).
Proof.
  apply (bson_oid_init_distinct lcg sample_oss sample_context).
  - split; [reflexivity|]. split; vm_compute; [discriminate|reflexivity].
  - left. reflexivity.
  - repeat constructor; discriminate.
  - vm_compute. discriminate.
Defined.
