(* ===== verification/BsonParse.v ===== *)
(** What the builder writes, the iterator reads back: the iterator accepts every
    encoded field, and stops on the fields of a document exactly where the builder
    put them.  (Safety, for arbitrary bytes, is in BsonIterSafe; here the bytes are
    well formed.) *)
From S2P Require Import Prelude BsonIter BsonIterSafe BsonFields BsonAppend BsonBuild BsonValue BsonCopy.
From Stdlib Require Import ZArith Lia List.
From stdpp Require Import prelude strings.
#[local] Open Scope Z_scope.
#[local] Open Scope mongo_scope.

(** ** Reading inside a longer piece of memory *)
Lemma rd_app_l l k o b : rd l o = Ret b → rd (l ++ k) o = Ret b.
Proof.
  intros H. pose proof (rd_Ret _ _ _ H) as [Ho Hl]. unfold rd. pose proof (blen_nonneg l).
  rewrite (lookup_app_l_Some _ _ _ _ Hl). destruct (Z.ltb_spec o 0); [lia|done].
Qed.
Lemma rd_app_l_inv l k o b : rd (l ++ k) o = Ret b → o < blen l → rd l o = Ret b.
Proof.
  intros H Hlt. pose proof (rd_Ret _ _ _ H) as [[Ho _] Hl]. unfold blen in Hlt. rewrite lookup_app_l in Hl by lia.
  unfold rd. rewrite Hl. destruct (Z.ltb_spec o 0); [lia|done].
Qed.
Lemma rd_inside pre v post o b : rd v o = Ret b → rd (pre ++ v ++ post) (blen pre + o) = Ret b.
Proof. intros H. rewrite rd_app_r by (by apply rd_Ret in H as [? _]; lia). by apply rd_app_l. Qed.
Lemma rd_le_S n data o :
  rd_le (S n) data o = let* b := rd data o in let* r := rd_le n data (o + 1) in Ret (b + 256 * r).
Proof. done. Qed.
Lemma rd_le_inside n pre v post o x :
  rd_le n v o = Ret x → rd_le n (pre ++ v ++ post) (blen pre + o) = Ret x.
Proof.
  revert o x. induction n as [|n IH]; intros o x H; [exact H|]. rewrite rd_le_S in *.
  apply bind_Ret in H as (b & Hb & H). apply bind_Ret in H as (r & Hr & H).
  rewrite (rd_inside _ _ _ _ _ Hb). cbn [bind]. rewrite <- Z.add_assoc, (IH _ _ Hr). exact H.
Qed.
Lemma rd_le_app_l_inv n l k o x : rd_le n (l ++ k) o = Ret x → o + Z.of_nat n ≤ blen l → rd_le n l o = Ret x.
Proof.
  revert o x. induction n as [|n IH]; intros o x H Hle; [exact H|]. rewrite rd_le_S in *.
  apply bind_Ret in H as (b & Hb & H). apply bind_Ret in H as (r & Hr & H).
  rewrite (rd_app_l_inv _ _ _ _ Hb) by lia. cbn [bind]. by rewrite (IH _ _ Hr) by lia.
Qed.
Lemma rd_le_here n x pre post :
  0 ≤ x < 256 ^ Z.of_nat n → rd_le n (pre ++ le_bytes n x ++ post) (blen pre) = Ret x.
Proof. intros. by rewrite rd_le_bytes, Z.mod_small. Qed.
Lemma scan_nul_here pre k post len :
  Forall (λ b, b ≠ 0) k → blen pre + blen k < len →
  scan_nul (pre ++ k ++ 0 :: post) (blen pre) len = Ret (Some (blen pre + blen k)).
Proof.
  intros Hk Hlen. unfold scan_nul.
  assert (Hf : (length k < S (Z.to_nat (len - blen pre)))%nat) by (unfold blen in *; lia).
  remember (S (Z.to_nat (len - blen pre))) as fuel eqn:E. clear E. revert pre fuel Hlen Hf.
  induction Hk as [|b k Hb Hk IH]; intros pre fuel Hlen Hf; (destruct fuel as [|fuel]; [cbn [length] in Hf; lia|]);
    cbn [find_nul]; autorewrite with blen in *.
  - change (blen []) with 0 in *. destruct (Z.ltb_spec (blen pre) len); [|lia].
    replace (blen pre) with (blen pre + 0) at 1 by lia. rewrite rd_app_r by lia. cbn [app].
    change (rd (0 :: post) 0) with (Ret 0). cbn [bind Z.eqb]. by rewrite !Z.add_0_r.
  - pose proof (blen_nonneg k). destruct (Z.ltb_spec (blen pre) len); [|lia].
    replace (blen pre) with (blen pre + 0) at 1 by lia. rewrite rd_app_r by lia.
    change (rd ((b :: k) ++ 0 :: post) 0) with (Ret b). cbn [bind]. destruct (Z.eqb_spec b 0); [done|].
    specialize (IH (pre ++ [b]) fuel). autorewrite with blen in IH. change (blen []) with 0 in IH.
    rewrite <- app_assoc in IH. cbn [app] in *. cbn [length] in Hf.
    replace (blen pre + 1) with (blen pre + (1 + 0)) by lia. rewrite IH by lia. do 2 f_equal. lia.
Qed.

(** ** The value of a field *)
Definition layout (t : bson_type_t) (v : list Z) : Prop :=
  match t with
  | BSON_TYPE_DATE_TIME | BSON_TYPE_DOUBLE | BSON_TYPE_INT64 | BSON_TYPE_TIMESTAMP => blen v = 8
  | BSON_TYPE_CODE | BSON_TYPE_SYMBOL | BSON_TYPE_UTF8 =>
      ∃ l, rd_le 4 v 0 = Ret l ∧ 1 ≤ l ∧ blen v = 4 + l ∧ rd v (3 + l) = Ret 0
  | BSON_TYPE_BINARY =>
      ∃ l st, rd_le 4 v 0 = Ret l ∧ 0 ≤ l ∧ blen v = 5 + l ∧ rd v 4 = Ret st
        ∧ (st = BSON_SUBTYPE_BINARY_DEPRECATED → 4 ≤ l ∧ rd_le 4 v 5 = Ret (l - 4))
  | BSON_TYPE_ARRAY | BSON_TYPE_DOCUMENT => 5 ≤ blen v ∧ rd_le 4 v 0 = Ret (blen v)
  | BSON_TYPE_OID => blen v = 12
  | BSON_TYPE_BOOL => v = [0] ∨ v = [1]
  | BSON_TYPE_REGEX => ∃ r o, v = r ++ 0 :: o ++ [0] ∧ Forall (λ b, b ≠ 0) r ∧ Forall (λ b, b ≠ 0) o
  | BSON_TYPE_DBPOINTER =>
      ∃ l, rd_le 4 v 0 = Ret l ∧ 1 ≤ l ∧ blen v = 4 + l + 12 ∧ rd v (3 + l) = Ret 0
  | BSON_TYPE_CODEWSCOPE =>
      ∃ l s, rd_le 4 v 0 = Ret (blen v) ∧ rd_le 4 v 4 = Ret l ∧ 1 ≤ l
        ∧ rd_le 4 v (8 + l) = Ret s ∧ 5 ≤ s ∧ blen v = 8 + l + s
  | BSON_TYPE_INT32 => blen v = 4
  | BSON_TYPE_DECIMAL128 => blen v = 16
  | BSON_TYPE_MAXKEY | BSON_TYPE_MINKEY | BSON_TYPE_NULL | BSON_TYPE_UNDEFINED => v = []
  | BSON_TYPE_EOD | BSON_TYPE_OTHER _ => False
  end.

(** the pattern in the value of a regular expression *)
Definition regex_pattern (v r : list Z) : Prop :=
  ∃ o, v = r ++ 0 :: o ++ [0] ∧ Forall (λ b, b ≠ 0) r ∧ Forall (λ b, b ≠ 0) o.

Section Fill.
Variables (it : bson_iter_t) (pre v post : list Z) (len : Z).
Notation data := (pre ++ v ++ post).
Hypothesis Hd1 : it_d1 it = blen pre.
Hypothesis Hpre : 6 ≤ blen pre.
Hypothesis Hlen : blen pre + blen v < len.
Hypothesis Hmax : len ≤ INT_MAX.

(** the case ends in [Break] just past the value *)
Definition fills (r : res flow) : Prop :=
  ∃ o it', r = Ret (Break o it') ∧ it_next_off it' = blen pre + blen v.

Lemma value_at n x : rd_le n v 0 = Ret x → rd_le n data (it_d1 it) = Ret x.
Proof using Hd1. intros H. rewrite Hd1. replace (blen pre) with (blen pre + 0) by lia. by apply rd_le_inside. Qed.

Ltac width := cbn [set_d2 set_d3 set_d4 set_next_off it_d1 it_d2 it_d3 it_d4 it_next_off];
  rewrite ?u32_small by (unfold INT_MAX in *; lia);
  cbn [set_d2 set_d3 set_d4 set_next_off it_d1 it_d2 it_d3 it_d4 it_next_off].
Ltac pass := match goal with |- context [if ?b then Ret (Invalid _) else _] =>
  replace b with false by (symmetry; rewrite ?orb_false_iff; repeat split; lia) end; width.
(** execute the next read, at offset [o] of the value *)
Ltac at_offset o H := match goal with |- context [bind (?f data ?a) _] =>
  replace a with (blen pre + o) by lia; rewrite (H : f data (blen pre + o) = _) end; cbn [bind].

Lemma fill_string l :
  rd_le 4 v 0 = Ret l → 1 ≤ l → blen v = 4 + l → rd v (3 + l) = Ret 0 → fills (case_utf8 it data (blen pre) len).
Proof using Hd1 Hpre Hlen Hmax.
  intros Hl H1 Hv Hnul. unfold case_utf8. width. pass. rewrite (value_at _ _ Hl). cbn [bind].
  width. pass. pass. at_offset (3 + l) (rd_inside pre _ post _ _ Hnul). eexists _, _. split; [done|]. cbn. lia.
Qed.
Lemma fill_binary l st :
  rd_le 4 v 0 = Ret l → 0 ≤ l → blen v = 5 + l → rd v 4 = Ret st →
  (st = BSON_SUBTYPE_BINARY_DEPRECATED → 4 ≤ l ∧ rd_le 4 v 5 = Ret (l - 4)) →
  fills (case_binary it data (blen pre) len).
Proof using Hd1 Hpre Hlen Hmax.
  intros Hl H0 Hv Hst Hold. unfold case_binary. width. pass. rewrite (value_at _ _ Hl). cbn [bind].
  width. pass. at_offset 4 (rd_inside pre _ post _ _ Hst). destruct (Z.eqb_spec st BSON_SUBTYPE_BINARY_DEPRECATED) as [->|].
  - destruct (Hold eq_refl) as [H4 Hl2]. pass. at_offset 5 (rd_le_inside _ pre _ post _ _ Hl2).
    rewrite s32_small by (unfold in_s32, INT_MAX in *; lia). width.
    destruct (Z.eqb_spec (l - 4 + 4) l); [|lia]. cbn [negb]. eexists _, _. split; [done|]. cbn. lia.
  - width. eexists _, _. split; [done|]. cbn. lia.
Qed.
Lemma fill_document : 5 ≤ blen v → rd_le 4 v 0 = Ret (blen v) → fills (case_document it data (blen pre) len).
Proof using Hd1 Hpre Hlen Hmax.
  intros H5 Hl. unfold case_document. width. pass. rewrite (value_at _ _ Hl). cbn [bind]. width. pass.
  eexists _, _. split; [done|]. cbn. lia.
Qed.
Lemma fill_bool : v = [0] ∨ v = [1] → fills (case_bool it data (blen pre) len).
Proof using Hd1 Hpre Hlen Hmax.
  intros Hv. assert (Hb : ∃ b, rd v 0 = Ret b ∧ (b = 0 ∨ b = 1) ∧ blen v = 1).
  { destruct Hv as [E|E]; rewrite E; [exists 0|exists 1]; (split; [done|]); auto. }
  destruct Hb as (b & Hb & Hb01 & Hl). unfold case_bool. rewrite Hd1. pass. at_offset 0 (rd_inside pre _ post _ _ Hb).
  assert (negb (b =? 0) && negb (b =? 1) = false) as -> by (destruct Hb01 as [-> | ->]; done). width.
  eexists _, _. split; [done|]. cbn. lia.
Qed.
Lemma fill_regex r o :
  v = r ++ 0 :: o ++ [0] → Forall (λ b, b ≠ 0) r → Forall (λ b, b ≠ 0) o →
  ∃ o' it', case_regex it data (blen pre) len = Ret (Break o' it') ∧ it_next_off it' = blen pre + blen v
    ∧ it_d2 it' = blen pre + blen r + 1.
Proof using Hd1 Hpre Hlen Hmax.
  intros Hv Hr Ho. assert (Hl : blen v = blen r + 2 + blen o).
  { rewrite Hv. autorewrite with blen. change (blen []) with 0. lia. }
  pose proof (blen_nonneg r). pose proof (blen_nonneg o). unfold case_regex.
  assert (Hs1 : scan_nul data (blen pre) len = Ret (Some (blen pre + blen r))).
  { rewrite Hv, <- app_assoc. cbn [app]. apply scan_nul_here; [done|lia]. }
  assert (Hs2 : scan_nul data (blen pre + blen r + 1) len = Ret (Some (blen pre + blen r + 1 + blen o))).
  { replace (blen pre + blen r + 1) with (blen (pre ++ r ++ [0])) by (autorewrite with blen; change (blen []) with 0; lia).
    assert (data = (pre ++ r ++ [0]) ++ o ++ 0 :: post) as ->.
    { rewrite Hv, <- !app_assoc. cbn [app]. by rewrite <- !app_assoc. }
    apply scan_nul_here; [done|]. autorewrite with blen. change (blen []) with 0. lia. }
  rewrite Hs1. cbn [bind]. width. rewrite Hs2. cbn [bind]. width. eexists _, _. split; [done|]. cbn. lia.
Qed.
Lemma fill_dbpointer l :
  rd_le 4 v 0 = Ret l → 1 ≤ l → blen v = 4 + l + 12 → rd v (3 + l) = Ret 0 →
  fills (case_dbpointer it data (blen pre) len).
Proof using Hd1 Hpre Hlen Hmax.
  intros Hl H1 Hv Hnul. unfold case_dbpointer. width. pass. rewrite (value_at _ _ Hl). cbn [bind]. width. pass.
  at_offset (3 + l) (rd_inside pre _ post _ _ Hnul). width. cbn [Z.eqb negb]. eexists _, _. split; [done|]. cbn. lia.
Qed.
Lemma fill_codewscope l s :
  rd_le 4 v 0 = Ret (blen v) → rd_le 4 v 4 = Ret l → 1 ≤ l → rd_le 4 v (8 + l) = Ret s → 5 ≤ s →
  blen v = 8 + l + s → fills (case_codewscope it data (blen pre) len).
Proof using Hd1 Hpre Hlen Hmax.
  intros Hl Hl2 H1 Hs H5 Hv. unfold case_codewscope. width. pass. rewrite (value_at _ _ Hl). cbn [bind]. width. pass. pass.
  at_offset 4 (rd_le_inside _ pre _ post _ _ Hl2). width. pass. pass.
  at_offset (8 + l) (rd_le_inside _ pre _ post _ _ Hs). width.
  destruct (Z.eqb_spec (blen pre + (8 + l) + s) (blen pre + blen v)); [|lia]. cbn [negb].
  eexists _, _. split; [done|]. cbn. lia.
Qed.
Lemma fill_layout t :
  layout t v → ∃ o it', fill_data_fields it data (blen pre) len t = Ret (Break o it', false)
    ∧ it_next_off it' = blen pre + blen v
    ∧ (t = BSON_TYPE_REGEX → ∃ r, regex_pattern v r ∧ it_d2 it' = blen pre + blen r + 1).
Proof using Hd1 Hpre Hlen Hmax.
  intros Hlay. destruct (decide (t = BSON_TYPE_REGEX)) as [->|Hne].
  { destruct Hlay as (r & o & Hv & Hr & Ho). destruct (fill_regex r o Hv Hr Ho) as (o' & it' & Hc & Hn & H2).
    exists o', it'. cbn [fill_data_fields]. rewrite Hc. split; [done|]. split; [done|]. intros _.
    exists r. split; [by exists o|done]. }
  assert (Hsup : ∀ r, fills r → ∃ o it', (let* f := r in Ret (f, false)) = Ret (Break o it', false)
    ∧ it_next_off it' = blen pre + blen v
    ∧ (t = BSON_TYPE_REGEX → ∃ r, regex_pattern v r ∧ it_d2 it' = blen pre + blen r + 1))
    by (intros r (o & it' & -> & ?); by exists o, it').
  assert (Hfix : ∀ n, blen v = n → fills (Ret (Break (blen pre) (set_next_off (u32 (blen pre + n)) it)))).
  { intros n Hn. pose proof (blen_nonneg v). eexists _, _. split; [done|]. width. lia. }
  assert (Hnil : v = [] → fills (Ret (Break (blen pre) (set_next_off (blen pre) it)))).
  { intros Hv. eexists _, _. split; [done|]. cbn [set_next_off it_next_off]. rewrite Hv. change (blen []) with 0. lia. }
  destruct t; cbn [layout fill_data_fields] in *; try done; apply Hsup.
  all: try (by apply Hfix). all: try (by apply Hnil).
  all: try (destruct Hlay as (l & ? & ? & ? & ?); by eapply fill_string).
  - destruct Hlay. by apply fill_document.
  - destruct Hlay. by apply fill_document.
  - destruct Hlay as (l & st & ? & ? & ? & ? & ?). by eapply fill_binary.
  - by apply fill_bool.
  - destruct Hlay as (l & ? & ? & ? & ?). by eapply fill_dbpointer.
  - destruct Hlay as (l & s & ? & ? & ? & ? & ? & ?). by eapply fill_codewscope.
Qed.
End Fill.

(** ** One field *)
Record entry := Entry { e_key : list Z; e_type : Z; e_value : list Z }.
Definition entry_bytes (e : entry) : list Z := field_bytes (e_type e) (e_key e) (e_value e).
Definition entry_ok (e : entry) : Prop :=
  Forall (λ b, b ≠ 0) (e_key e) ∧ bytes_ok (entry_bytes e)
  ∧ layout (bson_type_of_byte (e_type e)) (e_value e).

(** the iterator [f] stands on the entry [e] *)
Record on_entry (data : list Z) (e : entry) (f : bson_iter_t) : Prop := {
  on_at : iter_at f data (bson_type_of_byte (e_type e));
  on_key : field_key f = Ret (e_key e);
  on_source : field_source f = entry_bytes e;
  on_value : it_next_off f = it_d1 f + blen (e_value e);
  on_split : ∃ pre post, data = pre ++ e_value e ++ post ∧ it_d1 f = blen pre;
  on_regex : bson_type_of_byte (e_type e) = BSON_TYPE_REGEX →
    ∃ r, regex_pattern (e_value e) r ∧ it_d2 f = it_d1 f + blen r + 1
}.
Lemma blen_entry e : blen (entry_bytes e) = 2 + blen (e_key e) + blen (e_value e).
Proof. unfold entry_bytes, field_bytes. autorewrite with blen. lia. Qed.

Section NextEntry.
Context (it : bson_iter_t) (pre : list Z) (e : entry) (post : list Z).
Notation data := (pre ++ entry_bytes e ++ post).
Notation pre' := (pre ++ e_type e :: e_key e ++ [0]).
Hypothesis Hd : bytes_ok data.
Hypothesis He : entry_ok e.
Hypothesis Hpre : 4 ≤ blen pre.
Hypothesis Hraw : it_raw it = Some data.
Hypothesis Hlen : blen (pre ++ entry_bytes e) < it_len it ≤ blen data.
Hypothesis Hmax : it_len it ≤ INT_MAX.
Hypothesis Hnext : it_next_off it = blen pre.

Lemma entry_data : data = pre' ++ e_value e ++ post.
Proof using Type. unfold entry_bytes, field_bytes. rewrite <- !app_assoc. cbn [app]. by rewrite <- !app_assoc. Qed.
Lemma entry_key_data : data = (pre ++ [e_type e]) ++ e_key e ++ 0 :: (e_value e ++ post).
Proof using Type. unfold entry_bytes, field_bytes. rewrite <- !app_assoc. cbn [app]. by rewrite <- !app_assoc. Qed.
Lemma entry_front : blen pre' = blen pre + 2 + blen (e_key e).
Proof using Type. autorewrite with blen. lia. Qed.
Lemma entry_type_at : rd data (blen pre) = Ret (e_type e).
Proof using Type. rewrite <- (Z.add_0_r (blen pre)). by rewrite rd_app_r. Qed.

Lemma entry_runs :
  ∃ it', bson_iter_next it = Ret (true, it') ∧ it_next_off it' = blen (pre ++ entry_bytes e)
    ∧ (bson_type_of_byte (e_type e) = BSON_TYPE_REGEX →
       ∃ r, regex_pattern (e_value e) r ∧ it_d2 it' = blen pre' + blen r + 1).
Proof using Hd He Hpre Hraw Hlen Hmax Hnext.
  destruct He as (Hk & _ & Hlay). pose proof entry_front as Hp'. pose proof (blen_nonneg (e_key e)).
  pose proof (blen_nonneg (e_value e)). pose proof (blen_entry e). rewrite blen_app in Hlen.
  assert (Hkey : scan_nul data (blen pre + 1) (it_len it) = Ret (Some (blen pre + 1 + blen (e_key e)))).
  { replace (blen pre + 1) with (blen (pre ++ [e_type e])) by (autorewrite with blen; lia).
    rewrite entry_key_data. apply scan_nul_here; [done|]. autorewrite with blen. lia. }
  unfold bson_iter_next, _bson_iter_next_internal, find_key_end. rewrite Hraw. cbn [Z.eqb begin_field it_key].
  rewrite Hnext, u32_small, Hkey by (unfold INT_MAX in *; lia).
  cbn [bind option_map]. rewrite (u32_small (_ + 1)) by (unfold INT_MAX in *; lia).
  set (it1 := set_d1 _ _). assert (Hr1 : it_raw it1 = Some data) by exact Hraw.
  unfold bson_iter_key_unsafe, ITER_TYPE. rewrite Hr1. cbn [deref bind].
  change (it_type it1) with (it_next_off it). rewrite Hnext, entry_type_at. cbn [bind].
  destruct (fill_layout it1 pre' (e_value e) post (it_len it)) with (t := bson_type_of_byte (e_type e))
    as (o & it2 & Hf & Hn2 & Hre2); [cbn; lia|lia|lia|done|done|].
  replace (blen pre + 1 + blen (e_key e) + 1) with (blen pre') by lia. rewrite <- entry_data in Hf. rewrite Hf. cbn [bind].
  rewrite Hn2. destruct (Z.geb_spec (blen pre' + blen (e_value e)) (it_len it)); [lia|]. cbn [bind n_ok n_iter].
  eexists. split; [done|]. cbn [set_err_off it_next_off]. split; [rewrite Hn2, Hp', blen_app; lia|exact Hre2].
Qed.

Lemma next_entry :
  ∃ it', bson_iter_next it = Ret (true, it') ∧ on_entry data e it'
    ∧ it_next_off it' = blen (pre ++ entry_bytes e) ∧ it_len it' = it_len it ∧ it_raw it' = Some data.
Proof using Hd He Hpre Hraw Hlen Hmax Hnext.
  destruct entry_runs as (it' & Hrun & Hn' & Hre'). exists it'. split; [done|].
  assert (Hok : iter_ok it).
  { unfold iter_ok. rewrite Hraw, Hnext. rewrite blen_app in Hlen. pose proof (blen_nonneg (entry_bytes e)).
    unfold INT_MAX in *. repeat split; try done; lia. }
  pose proof (bson_iter_next_ok it Hok) as Hs. rewrite Hrun in Hs. cbn [returns fst snd] in Hs.
  destruct Hs as (data0 & t & Hd0 & Hat & Hoff & Hlen'). assert (data0 = data) as -> by congruence. clear Hd0.
  assert (Ht : t = bson_type_of_byte (e_type e)).
  { destruct (at_type _ _ _ Hat) as (b & Hb & <-). rewrite (at_type_off _ _ _ Hat), Hoff, Hnext, entry_type_at in Hb.
    by apply Ret_inj in Hb as ->. }
  subst t. rewrite Hnext in Hoff.
  assert (Hkm : c_string (ptr_add data (it_key it')) = Ret (e_key e)).
  { rewrite (at_key _ _ _ Hat), Hoff, entry_key_data. unfold ptr_add.
    replace (Z.to_nat (blen pre + 1)) with (length (pre ++ [e_type e])) by (rewrite length_app; unfold blen; simpl; lia).
    rewrite drop_app_length. apply c_string_app, He. }
  assert (Hfk : field_key it' = Ret (e_key e)).
  { destruct (field_key_at _ _ _ Hat) as (k & -> & _ & Hk'). rewrite Hkm in Hk'. by apply Ret_inj in Hk' as ->. }
  assert (Htb : rd data (it_type it') = Ret (e_type e)) by (by rewrite (at_type_off _ _ _ Hat), Hoff, entry_type_at).
  destruct (field_source_split _ _ _ _ _ Hat Htb Hfk) as (Hsrc & Hkl & _ & _). pose proof entry_front as Hp'.
  assert (Hd1 : it_d1 it' = blen pre') by (rewrite (at_key _ _ _ Hat), Hoff in Hkl; lia).
  split; [|split; [done|split; [done|by rewrite (at_raw _ _ _ Hat)]]]. rewrite blen_app, blen_entry in Hn'.
  constructor; [done|done| |lia|exists pre', post; by rewrite entry_data|by rewrite Hd1].
  rewrite Hsrc. unfold entry_bytes at 2. f_equal. rewrite Hd1, Hn', Hp'.
  replace (blen pre + (2 + blen (e_key e) + blen (e_value e)) - (blen pre + 2 + blen (e_key e))) with (blen (e_value e)) by lia.
  rewrite <- Hp', entry_data. unfold sl, ptr_add, blen. by rewrite !Nat2Z.id, drop_app_length, take_app_length.
Qed.
End NextEntry.

(** the byte after the last field *)
Lemma next_end it pre post :
  let data := pre ++ 0 :: post in
  4 ≤ blen pre → blen pre < INT_MAX → it_raw it = Some data → it_len it = blen pre + 1 → it_next_off it = blen pre →
  ∃ it', bson_iter_next it = Ret (false, it').
Proof.
  intros data Hpre Hmax Hraw Hlen Hnext.
  unfold bson_iter_next, _bson_iter_next_internal, find_key_end. rewrite Hraw, Hlen. cbn [Z.eqb begin_field it_key].
  rewrite Hnext, u32_small by (unfold INT_MAX in *; lia).
  assert (Hs : scan_nul data (blen pre + 1) (blen pre + 1) = Ret None).
  { unfold scan_nul. cbn [find_nul]. by destruct (Z.ltb_spec (blen pre + 1) (blen pre + 1)); [lia|]. }
  rewrite Hs. cbn [bind option_map]. by eexists.
Qed.

(** ** Whole documents *)
Definition body_bytes (es : list entry) : list Z := concat (map entry_bytes es).
Lemma body_bytes_app es es' : body_bytes (es ++ es') = body_bytes es ++ body_bytes es'.
Proof. unfold body_bytes. by rewrite map_app, concat_app. Qed.
Lemma body_bytes_one e : body_bytes [e] = entry_bytes e.
Proof. unfold body_bytes. cbn. by rewrite app_nil_r. Qed.

Lemma collect_entries es it pre post fuel acc :
  let data := pre ++ body_bytes es ++ 0 :: post in
  bytes_ok data → Forall entry_ok es → 4 ≤ blen pre → it_raw it = Some data →
  it_len it = blen (pre ++ body_bytes es) + 1 → it_len it ≤ INT_MAX → it_next_off it = blen pre → (length es < fuel)%nat →
  ∃ last l, iter_while collect fuel it acc = Ret (last, acc ++ l) ∧ Forall2 (on_entry data) es l.
Proof.
  revert it pre fuel acc. induction es as [|e es IH]; intros it pre fuel acc data Hd Hes Hpre Hraw Hlen Hmax Hnext Hfuel;
    (destruct fuel as [|fuel]; [cbn [length] in Hfuel; lia|]); cbn [iter_while].
  - unfold body_bytes in *. cbn [map concat] in *. rewrite app_nil_r in Hlen.
    destruct (next_end it pre post) as (it' & ->); try done; [lia|]. cbn [bind]. exists it', []. by rewrite app_nil_r.
  - apply Forall_cons in Hes as [He Hes].
    assert (Hdata : data = pre ++ entry_bytes e ++ (body_bytes es ++ 0 :: post)).
    { unfold data, body_bytes. cbn [map concat]. by rewrite <- app_assoc. }
    assert (Hdata' : data = (pre ++ entry_bytes e) ++ body_bytes es ++ 0 :: post) by (by rewrite Hdata, <- app_assoc).
    assert (Hbl : it_len it = blen ((pre ++ entry_bytes e) ++ body_bytes es) + 1).
    { rewrite Hlen. unfold body_bytes. cbn [map concat]. by rewrite <- app_assoc. }
    pose proof (blen_nonneg (body_bytes es)). pose proof (blen_nonneg post). pose proof (blen_nonneg (entry_bytes e)).
    destruct (next_entry it pre e (body_bytes es ++ 0 :: post)) as (it' & -> & Hon & Hn & Hl & Hr);
      rewrite <- ?Hdata; try done; [rewrite Hbl, Hdata'; autorewrite with blen; lia|].
    cbn [bind collect]. rewrite <- ?Hdata in *.
    destruct (IH it' (pre ++ entry_bytes e) fuel (acc ++ [it'])) as (last & l & Hw & Hall);
      rewrite <- ?Hdata'; try done; [rewrite blen_app; lia|by rewrite Hl|by rewrite Hl|cbn [length] in Hfuel; lia|].
    exists last, (it' :: l). split; [by rewrite Hw, <- app_assoc|]. constructor; [done|]. by rewrite <- Hdata' in Hall.
Qed.

Lemma body_bytes_ok es : Forall entry_ok es → bytes_ok (body_bytes es).
Proof.
  unfold body_bytes. induction 1 as [|e es [_ [He _]] _ IH]; [constructor|]. cbn [map concat]. by apply bytes_ok_app.
Qed.
Lemma body_bytes_length es : (2 * length es ≤ length (body_bytes es))%nat.
Proof.
  unfold body_bytes. induction es as [|e es IH]; [done|]. cbn [map concat length]. rewrite length_app.
  pose proof (blen_entry e). pose proof (blen_nonneg (e_key e)). pose proof (blen_nonneg (e_value e)). unfold blen in *. lia.
Qed.
(** an iterator at the start of a document with the entries [es], which other memory may follow *)
Lemma start_entries es post :
  let doc := doc_bytes (body_bytes es) in
  Forall entry_ok es → bytes_ok post → blen doc ≤ INT_MAX →
  ∃ last l, fields_of (iter_start (doc ++ post) (blen doc)) = Ret (last, l) ∧ Forall2 (on_entry (doc ++ post)) es l.
Proof.
  intros doc Hes Hpost Hmax. pose proof (blen_doc_bytes (body_bytes es)) as Hl. fold doc in Hl.
  pose proof (body_bytes_length es) as Hn. pose proof (blen_nonneg (body_bytes es)).
  assert (Hdoc : doc ++ post = le_bytes 4 (5 + blen (body_bytes es)) ++ body_bytes es ++ 0 :: post).
  { unfold doc, doc_bytes. by rewrite <- !app_assoc. }
  rewrite Hdoc. apply collect_entries; try done.
  - rewrite <- Hdoc. apply bytes_ok_app. split; [|done]. apply bytes_ok_app. split; [apply le_bytes_ok|].
    apply bytes_ok_app. split; [by apply body_bytes_ok|by repeat constructor].
  - cbn [iter_start it_len]. autorewrite with blen. lia.
  - unfold iter_fuel. cbn [iter_start it_len]. unfold blen in *. lia.
Qed.
Lemma doc_entries es :
  let doc := doc_bytes (body_bytes es) in
  Forall entry_ok es → blen doc ≤ INT_MAX →
  ∃ last l, fields_of (bson_iter_init doc).2 = Ret (last, l) ∧ Forall2 (on_entry doc) es l.
Proof.
  intros doc Hes Hmax. pose proof (start_entries es [] Hes ltac:(constructor) Hmax) as H. rewrite app_nil_r in H.
  unfold bson_iter_init. pose proof (blen_doc_bytes (body_bytes es)) as Hl. pose proof (blen_nonneg (body_bytes es)).
  fold doc in Hl, H. destruct (Z.ltb_spec (blen doc) 5); [lia|exact H].
Qed.

(** ** The values the builder writes *)
Definition static_doc (s : list Z) : Prop :=
  5 ≤ blen s ≤ INT_MAX ∧ rd_le 4 s 0 = Ret (blen s) ∧ rd s (blen s - 1) = Ret 0.
Lemma rd_bytes_prefix_inv n d b : rd_bytes n d 0 = Ret b → ∃ r, d = b ++ r.
Proof.
  assert (H : ∀ n pre d b, rd_bytes n (pre ++ d) (blen pre) = Ret b → ∃ r, d = b ++ r).
  { clear. induction n as [|n IH]; intros pre d b Hb; [apply Ret_inj in Hb as <-; by exists d|].
    rewrite rd_bytes_S in Hb. apply bind_Ret in Hb as (x & Hx & Hb). apply bind_Ret in Hb as (r & Hr & Hb).
    apply Ret_inj in Hb as <-. rewrite <- (Z.add_0_r (blen pre)), rd_app_r in Hx by lia.
    apply rd_Ret in Hx as [_ Hx]. destruct d as [|y d]; [done|]. injection Hx as ->.
    destruct (IH (pre ++ [x]) d r) as [q ->]; [|by exists q].
    rewrite <- app_assoc, blen_app. cbn [app]. exact Hr. }
  intros Hb. by apply (H n [] d b).
Qed.
Lemma init_static_inv d n b :
  bson_init_static d n = Ret (Some b) → n = blen b ∧ static_doc b ∧ ∃ r, d = b ++ r.
Proof.
  unfold bson_init_static. destruct (Z.ltb_spec n 5); [done|]. destruct (Z.ltb_spec INT_MAX n); [done|]. cbn [orb].
  intros H1. apply bind_Ret in H1 as (l & Hl & H1). destruct (Z.eqb_spec l n) as [->|]; [|done]. cbn [negb] in H1.
  apply bind_Ret in H1 as (z & Hz & H1). destruct (Z.eqb_spec z 0) as [->|]; [|done]. cbn [negb] in H1.
  apply bind_Ret in H1 as (b' & Hb & H1). injection H1 as ->.
  assert (Hn : n = blen b) by (apply rd_bytes_length in Hb; unfold blen; lia).
  destruct (rd_bytes_prefix_inv _ _ _ Hb) as [r ->]. subst n. split; [done|]. split; [|by exists r].
  split; [lia|]. split.
  - apply (rd_le_app_l_inv 4 b r); [done|lia].
  - apply (rd_app_l_inv b r); [done|lia].
Qed.
Lemma init_static_here s r : static_doc s → bson_init_static (s ++ r) (blen s) = Ret (Some s).
Proof.
  intros ([H5 Hmax] & Hl & Hz). unfold bson_init_static. destruct (Z.ltb_spec (blen s) 5); [lia|].
  destruct (Z.ltb_spec INT_MAX (blen s)); [lia|]. cbn [orb].
  pose proof (rd_le_inside 4 [] s r 0 _ Hl) as Hl'. cbn [app] in Hl'. change (blen [] + 0) with 0 in Hl'.
  rewrite Hl'. cbn [bind]. rewrite Z.eqb_refl. cbn [negb]. rewrite (rd_app_l _ _ _ _ Hz). cbn [bind negb Z.eqb].
  unfold blen. rewrite Nat2Z.id, rd_bytes_app_l. done.
Qed.
Lemma static_doc_layout s : static_doc s → layout BSON_TYPE_DOCUMENT s.
Proof. intros ([? _] & ? & _). by split. Qed.

(** a value as the append functions write it *)
Definition canonical_value (t : bson_type_t) (v : list Z) : Prop :=
  match t with
  | BSON_TYPE_CODE => ∃ c, v = le_bytes 4 (blen c + 1) ++ c ++ [0] ∧ Forall (λ b, b ≠ 0) c
  | BSON_TYPE_DBPOINTER =>
      ∃ c b, v = le_bytes 4 (blen c + 1) ++ (c ++ [0]) ++ b ∧ Forall (λ b, b ≠ 0) c ∧ blen b = 12
  | BSON_TYPE_CODEWSCOPE =>
      ∃ c s, v = le_bytes 4 (8 + (blen c + 1) + blen s) ++ le_bytes 4 (blen c + 1) ++ (c ++ [0]) ++ s
        ∧ Forall (λ b, b ≠ 0) c ∧ static_doc s
  | BSON_TYPE_DOCUMENT | BSON_TYPE_ARRAY => static_doc v
  | BSON_TYPE_REGEX =>
      ∃ r o, v = r ++ [0] ++ o ++ [0] ∧ Forall (λ b, b ≠ 0) r ∧ _bson_append_regex_options_sorted o = o
  | _ => layout t v
  end.

Lemma options_sorted_twice o :
  _bson_append_regex_options_sorted (_bson_append_regex_options_sorted o) = _bson_append_regex_options_sorted o.
Proof.
  unfold _bson_append_regex_options_sorted. apply List.filter_ext_in. intros c Hc. apply bool_decide_ext.
  rewrite list_elem_of_In, filter_In, bool_decide_eq_true. tauto.
Qed.
Lemma options_nonzero o : _bson_append_regex_options_sorted o = o → Forall (λ b, b ≠ 0) o.
Proof.
  intros <-. apply Forall_forall. intros c Hc%list_elem_of_In. apply filter_In in Hc as [Hc _]. intros ->.
  unfold BSON_REGEX_OPTIONS_SORTED in Hc. cbn in Hc. repeat (destruct Hc as [Hc|Hc]; [done|]). done.
Qed.
(** reading the parts of a value *)
Lemma rd_last pre x : rd (pre ++ [x]) (blen pre) = Ret x.
Proof. rewrite <- (Z.add_0_r (blen pre)). by rewrite rd_app_r. Qed.
Lemma string_layout s r :
  blen s + 1 < 2 ^ 32 → let v := le_bytes 4 (blen s + 1) ++ (s ++ [0]) ++ r in
  rd_le 4 v 0 = Ret (blen s + 1) ∧ blen v = 4 + (blen s + 1) + blen r ∧ rd v (3 + (blen s + 1)) = Ret 0.
Proof.
  intros Hs v. pose proof (blen_nonneg s). split; [|split].
  - apply (rd_le_here 4 (blen s + 1) [] ((s ++ [0]) ++ r)). lia.
  - unfold v. autorewrite with blen. change (blen []) with 0. lia.
  - unfold v. replace (3 + (blen s + 1)) with (blen (le_bytes 4 (blen s + 1)) + blen s) by (rewrite blen_le_bytes; lia).
    apply rd_inside, rd_last.
Qed.
Lemma layout_string s : blen s + 1 < 2 ^ 32 → layout BSON_TYPE_UTF8 (le_bytes 4 (blen s + 1) ++ s ++ [0]).
Proof.
  intros Hs. pose proof (blen_nonneg s). destruct (string_layout s []) as (H1 & Hl & H2); [lia|].
  rewrite app_nil_r in *. change (blen []) with 0 in Hl. exists (blen s + 1). repeat split; try done; lia.
Qed.
Lemma canonical_layout t v : canonical_value t v → blen v < 2 ^ 31 → layout t v.
Proof.
  destruct t; cbn [canonical_value]; try (by intros ? _); intros Hc Hlt.
  - by apply static_doc_layout.
  - by apply static_doc_layout.
  - destruct Hc as (r & o & -> & Hr & Ho). exists r, o. split; [done|]. split; [done|]. by apply options_nonzero.
  - destruct Hc as (c & b & -> & Hc & Hb). pose proof (blen_nonneg c).
    assert (blen c + 1 < 2 ^ 32) by (autorewrite with blen in Hlt; lia).
    destruct (string_layout c b) as (? & Hl & ?); [done|]. exists (blen c + 1). rewrite Hb in Hl. repeat split; try done. lia.
  - destruct Hc as (c & -> & Hc). apply layout_string. pose proof (blen_nonneg c). autorewrite with blen in Hlt. lia.
  - destruct Hc as (c & s & -> & Hc & [H5 Hmax] & Hs & _). pose proof (blen_nonneg c). autorewrite with blen in Hlt.
    set (n := 8 + (blen c + 1) + blen s) in *.
    destruct (string_layout c s) as (H1 & Hl & H2); [lia|]. set (v := le_bytes 4 (blen c + 1) ++ (c ++ [0]) ++ s) in *.
    exists (blen c + 1), (blen s).
    assert (Hn : blen (le_bytes 4 n ++ v) = n) by (rewrite blen_app, blen_le_bytes; lia). rewrite Hn.
    split; [apply (rd_le_here 4 n [] v); unfold n; lia|].
    split; [apply (rd_le_inside 4 (le_bytes 4 n) v [] 0) in H1; by rewrite app_nil_r in H1|]. split; [lia|].
    split; [|lia]. unfold v.
    pose proof (rd_le_inside 4 (le_bytes 4 n ++ le_bytes 4 (blen c + 1) ++ (c ++ [0])) s [] 0 _ Hs) as H3.
    rewrite app_nil_r, <- !app_assoc in H3. autorewrite with blen in H3. rewrite <- H3, <- !app_assoc. f_equal. lia.
Qed.

(** the arguments of the append functions that are C integers and bytes *)
Definition value_ok (x : bson_value_t) : Prop :=
  value_len_ok x ∧ match x with v_binary _ _ subtype => byte_ok subtype | _ => True end.
Lemma encode_canonical x type v :
  encode_value x = Ret (type, v) → blen v < 2 ^ 28 → value_ok x → canonical_value (bson_type_of_byte type) v.
Proof.
  intros He Hlt [Hok Hsub].
  assert (Hstr : ∀ ty s n, encode_string ty s n = Ret (type, v) → 0 ≤ n < 2 ^ 28 → type = ty ∧ layout BSON_TYPE_UTF8 v).
  { intros ty s n H Hn. unfold encode_string in H. apply bind_Ret in H as (b & Hb & H). injection H as <- <-.
    split; [done|]. pose proof (bytes_at_blen _ _ _ Hb ltac:(lia)) as Hbl. subst n. apply layout_string. lia. }
  assert (Hdoc : ∀ ty d n, encode_static ty d n = Ret (type, v) → type = ty ∧ static_doc v).
  { intros ty d n H. unfold encode_static in H. apply bind_Ret in H as (d' & _ & H).
    apply bind_Ret in H as (b & Hb & H). apply bind_Ret in H as (b' & Hb' & H). injection H as <- <-.
    destruct b as [b|]; [|done]. injection Hb' as <-. by apply init_static_inv in Hb as (_ & ? & _). }
  destruct x; cbn [encode_value value_len_ok] in *.
  all: try (injection He as <- <-; cbn [bson_type_of_byte canonical_value layout]).
  all: try done.
  all: try (by rewrite ?blen_app, !blen_le_bytes).
  all: try (by destruct (Hdoc _ _ _ He) as [-> ?]).
  all: try (destruct b; by auto).
  all: apply bind_Ret in He as (p & Hp & He).
  - by destruct (Hstr _ _ _ He Hok) as [-> ?].
  - apply bind_Ret in He as (b & Hb & He). pose proof (bytes_at_blen _ _ _ Hb ltac:(lia)) as <-.
    pose proof (u8_range subtype). destruct (Z.eqb_spec subtype BSON_SUBTYPE_BINARY_DEPRECATED) as [->|Hne];
      injection He as <- <-; cbn [bson_type_of_byte canonical_value layout].
    + exists (blen b + 4), 2. split; [apply (rd_le_here 4 (blen b + 4) []); lia|]. split; [lia|].
      split; [autorewrite with blen; lia|]. split; [done|]. intros _. split; [lia|].
      replace (blen b + 4 - 4) with (blen b) by lia.
      apply (rd_le_here 4 (blen b) (le_bytes 4 (blen b + 4) ++ [u8 BSON_SUBTYPE_BINARY_DEPRECATED])). lia.
    + exists (blen b), (u8 subtype). split; [apply (rd_le_here 4 (blen b) []); lia|]. split; [lia|].
      split; [autorewrite with blen; lia|]. split; [done|]. intros Hu.
      rewrite u8_small in Hu by done. done.
  - injection He as <- <-. cbn [bson_type_of_byte canonical_value layout]. apply rd_bytes_length in Hp. unfold blen. lia.
  - apply bind_Ret in He as (r & Hr & He). apply bind_Ret in He as (o & Ho & He). apply bind_Ret in He as (o' & Ho' & He).
    injection He as <- <-. cbn [bson_type_of_byte canonical_value]. exists r, (_bson_append_regex_options_sorted o').
    split; [done|]. split; [by apply c_string_split in Hr as [? _]|]. apply options_sorted_twice.
  - apply bind_Ret in He as (c & Hc & He). apply bind_Ret in He as (b & Hb & He). injection He as <- <-.
    cbn [bson_type_of_byte canonical_value]. exists c, b. split; [done|]. apply c_string_split in Hc as [? _].
    apply rd_bytes_length in Hb. split; [done|]. unfold blen. lia.
  - apply bind_Ret in He as (c & Hc & He). injection He as <- <-. cbn [bson_type_of_byte canonical_value].
    exists c. split; [done|]. by apply c_string_split in Hc as [? _].
  - by destruct (Hstr _ _ _ He Hok) as [-> ?].
  - apply bind_Ret in He as (c & Hc & He). apply bind_Ret in He as (r & Hr & He). injection He as <- <-.
    cbn [bson_type_of_byte canonical_value]. exists c, r.2. split; [done|]. split; [by apply c_string_split in Hc as [? _]|].
    unfold encode_static in Hr. apply bind_Ret in Hr as (d & _ & Hr). apply bind_Ret in Hr as (b & Hb & Hr).
    apply bind_Ret in Hr as (b' & Hb' & Hr). injection Hr as <-. destruct b as [b|]; [|done]. injection Hb' as <-.
    by apply init_static_inv in Hb as (_ & ? & _).
Qed.

Lemma nonzero_inside pre c post j :
  Forall (λ b, b ≠ 0) c → 0 ≤ j < blen c → ¬ nul_at (pre ++ c ++ post) (blen pre + j).
Proof.
  intros Hc Hj Hn. unfold nul_at in Hn. rewrite rd_app_r in Hn by lia. apply rd_app_l_inv in Hn; [|lia].
  apply rd_Ret in Hn as [_ Hn]. by apply (Forall_lookup_1 _ _ _ _ Hc) in Hn.
Qed.
Lemma ptr_add_inside pre v : ptr_add (pre ++ v) (blen pre) = v.
Proof. unfold ptr_add, blen. by rewrite Nat2Z.id, drop_app_length. Qed.
Lemma sl_inside pre v post : sl (pre ++ v ++ post) (blen pre) (blen v) = v.
Proof. unfold sl. rewrite ptr_add_inside. unfold blen. by rewrite Nat2Z.id, take_app_length. Qed.

(** an iterator on a field that the builder wrote *)
Lemma on_entry_canonical data e f :
  on_entry data e f → canonical_value (bson_type_of_byte (e_type e)) (e_value e) → blen (e_value e) < 2 ^ 31 →
  canonical f data (bson_type_of_byte (e_type e)).
Proof.
  intros [Hat _ _ Hn (pre & post & Hd & H1) Hre] Hc Hlt. pose proof (at_field _ _ _ Hat) as Hf.
  unfold canonical. destruct (bson_type_of_byte (e_type e)); try done; cbn [canonical_value field_ok] in *.
  - exists (e_value e). rewrite Hn, H1, Hd, ptr_add_inside.
    replace (blen pre + blen (e_value e) - blen pre) with (blen (e_value e)) by lia. by apply init_static_here.
  - exists (e_value e). rewrite Hn, H1, Hd, ptr_add_inside.
    replace (blen pre + blen (e_value e) - blen pre) with (blen (e_value e)) by lia. by apply init_static_here.
  - destruct Hc as (r & o & Hv & Hr & Ho). destruct (Hre eq_refl) as (r' & (o' & Hv' & Hr' & Ho') & H2).
    assert (r' = r) as ->.
    { pose proof (c_string_app r' (o' ++ [0]) Hr') as E1. pose proof (c_string_app r (o ++ [0]) Hr) as E2.
      cbn [app] in Hv. rewrite <- Hv' in E1. rewrite <- Hv in E2. rewrite E1 in E2. by apply Ret_inj in E2. }
    rewrite Hv in Hv'. apply app_inv_head in Hv'. injection Hv' as Hv'. apply app_inv_tail in Hv' as <-.
    assert (Hbl : blen (e_value e) = blen r + 2 + blen o) by (rewrite Hv; autorewrite with blen; lia).
    assert (Hdr : data = pre ++ r ++ ([0] ++ o ++ [0] ++ post)) by (by rewrite Hd, Hv, <- !app_assoc).
    assert (Hdo : data = (pre ++ r ++ [0]) ++ o ++ ([0] ++ post)) by (by rewrite Hdr, <- !app_assoc).
    assert (Hpo : blen (pre ++ r ++ [0]) = it_d2 f) by (autorewrite with blen; lia).
    split; [|split].
    + intros i Hi. rewrite Hdr. replace i with (blen pre + (i - blen pre)) by lia. apply nonzero_inside; [done|lia].
    + intros i Hi. rewrite Hdo. replace i with (blen (pre ++ r ++ [0]) + (i - it_d2 f)) by lia.
      apply nonzero_inside; [done|lia].
    + assert (sl data (it_d2 f) (it_next_off f - 1 - it_d2 f) = o) as ->; [|done].
      rewrite Hdo, <- Hpo. replace (it_next_off f - 1 - blen (pre ++ r ++ [0])) with (blen o) by lia. apply sl_inside.
  - destruct Hc as (c & b & Hv & Hc & Hb). destruct Hf as (Hd2 & Hnx & l & Hl & _ & Hd3 & _).
    pose proof (blen_nonneg c). assert (Hbl : blen (e_value e) = 4 + (blen c + 1) + 12) by (rewrite Hv; autorewrite with blen; lia).
    assert (l = blen c + 1) as ->.
    { rewrite Hd, Hv, H1, <- app_assoc, rd_le_here in Hl by lia. by apply Ret_inj in Hl. }
    assert (Hdc : data = (pre ++ le_bytes 4 (blen c + 1)) ++ c ++ ([0] ++ b ++ post)) by (by rewrite Hd, Hv, <- !app_assoc).
    intros i Hi. rewrite Hdc. replace i with (blen (pre ++ le_bytes 4 (blen c + 1)) + (i - it_d2 f)) by (autorewrite with blen; lia).
    apply nonzero_inside; [done|lia].
  - destruct Hc as (c & Hv & Hc). destruct Hf as (Hd2 & _).
    assert (Hbl : blen (e_value e) = 4 + (blen c + 1)) by (rewrite Hv; autorewrite with blen; lia).
    assert (Hdc : data = (pre ++ le_bytes 4 (blen c + 1)) ++ c ++ ([0] ++ post)) by (by rewrite Hd, Hv, <- !app_assoc).
    intros i Hi. rewrite Hdc. replace i with (blen (pre ++ le_bytes 4 (blen c + 1)) + (i - it_d2 f)) by (autorewrite with blen; lia).
    apply nonzero_inside; [done|lia].
  - destruct Hc as (c & s & Hv & Hc & Hs). destruct Hf as (Hd2 & Hd3 & _ & _ & l & scope & Hl & _ & Hd4 & _).
    pose proof (blen_nonneg c). pose proof (blen_nonneg s).
    assert (Hbl : blen (e_value e) = 8 + (blen c + 1) + blen s) by (rewrite Hv; autorewrite with blen; lia).
    set (n := 8 + (blen c + 1) + blen s) in *.
    assert (Hdl : data = (pre ++ le_bytes 4 n) ++ le_bytes 4 (blen c + 1) ++ (c ++ [0] ++ s ++ post))
      by (by rewrite Hd, Hv, <- !app_assoc).
    assert (l = blen c + 1) as ->.
    { replace (it_d2 f) with (blen (pre ++ le_bytes 4 n)) in Hl by (autorewrite with blen; lia).
      rewrite Hdl, rd_le_here in Hl by lia. by apply Ret_inj in Hl. }
    assert (Hdc : data = (pre ++ le_bytes 4 n ++ le_bytes 4 (blen c + 1)) ++ c ++ ([0] ++ s ++ post)) by (by rewrite Hdl, <- !app_assoc).
    assert (Hds : data = (pre ++ le_bytes 4 n ++ le_bytes 4 (blen c + 1) ++ c ++ [0]) ++ (s ++ post)) by (by rewrite Hdl, <- !app_assoc).
    assert (Hpc : blen (pre ++ le_bytes 4 n ++ le_bytes 4 (blen c + 1)) = it_d3 f) by (autorewrite with blen; lia).
    assert (Hps : blen (pre ++ le_bytes 4 n ++ le_bytes 4 (blen c + 1) ++ c ++ [0]) = it_d4 f) by (autorewrite with blen; lia).
    split; [|split].
    + unfold nul_at. rewrite Hdc. replace (it_d4 f - 1) with (blen (pre ++ le_bytes 4 n ++ le_bytes 4 (blen c + 1)) + blen c) by lia.
      rewrite rd_app_r by lia. rewrite <- (Z.add_0_r (blen c)). by rewrite rd_app_r.
    + intros i Hi. rewrite Hdc. replace i with (blen (pre ++ le_bytes 4 n ++ le_bytes 4 (blen c + 1)) + (i - it_d3 f)) by lia.
      apply nonzero_inside; [done|lia].
    + exists s. rewrite Hds, <- Hps, ptr_add_inside. replace (it_next_off f - _) with (blen s) by lia. by apply init_static_here.
Qed.

(** ** Round trip *)

(** the append of the key [kv.1] and the value [kv.2] writes the entry [e] *)
Record writes (kv : list Z * bson_value_t) (e : entry) : Prop := {
  wr_key : e_key e = kv.1;
  wr_key_ok : Forall (λ b, b ≠ 0) kv.1 ∧ blen kv.1 < 2 ^ 29;
  wr_value : encode_value kv.2 = Ret (e_type e, e_value e);
  wr_value_ok : value_ok kv.2 ∧ blen (e_value e) < 2 ^ 28;
  wr_bytes : bytes_ok (entry_bytes e)
}.
Definition append_of (kv : list Z * bson_value_t) : op := AppendValue (kv.1 ++ [0]) (-1) kv.2.
Lemma writes_entry_ok kv e : writes kv e → entry_ok e.
Proof.
  intros [Hk [Hnz _] Hv [Hok Hlt] Hb]. split; [by rewrite Hk|]. split; [done|].
  apply canonical_layout; [by eapply encode_canonical|lia].
Qed.
Lemma spec_appends kvs es body :
  Forall2 writes kvs es → spec_ops (map append_of kvs) (body, []) (body ++ body_bytes es, []).
Proof.
  intros H. revert body. induction H as [|kv e kvs es [Hk [Hnz Hkl] Hv [[Hok _] Hlt] _] _ IH]; intros body.
  { unfold body_bytes. cbn [map concat]. rewrite app_nil_r. constructor. }
  cbn [map]. econstructor; [eapply (spec_append _ _ kv.1); try done|].
  - split; [done|]. split; [done|]. left. split; [lia|by exists []].
  - unfold body_bytes. cbn [map concat]. rewrite app_assoc. unfold entry_bytes. rewrite Hk. apply IH.
Qed.
(** the iterator [f] reads the key and the value back *)
Definition reads_back (kv : list Z * bson_value_t) (f : bson_iter_t) : Prop :=
  field_key f = Ret kv.1
  ∧ ∃ v, bson_iter_value f = Ret (Some v) ∧ encode_value v = encode_value kv.2.
Lemma on_entry_reads_back data kv e f : writes kv e → on_entry data e f → reads_back kv f.
Proof.
  intros [Hk _ Hv [Hok Hlt] _] Hon. pose proof (encode_canonical _ _ _ Hv Hlt Hok) as Hc.
  split; [by rewrite (on_key _ _ _ Hon), Hk|].
  destruct (recode f data _ (on_at _ _ _ Hon)) as (v & b & Hval & Hb & He & _); [eapply on_entry_canonical; [done|done|lia]|].
  exists v. split; [done|]. rewrite He, Hv. destruct Hon as [Hat Hkey Hsrc Hnx (pre & post & -> & H1) _].
  destruct (field_source_split _ _ _ _ _ Hat Hb Hkey) as (Hs & _). rewrite Hsrc in Hs.
  unfold entry_bytes, field_bytes in Hs. injection Hs as -> _. do 2 f_equal.
  rewrite Hnx, H1. replace (blen pre + _ - blen pre) with (blen (e_value e)) by lia. apply sl_inside.
Qed.

(** C10. A document built by appending values is read back by the iterator: for values of any
    of the types, the iteration stops on exactly the appended fields, in order, each
    with its key and with a value that encodes to the same bytes. *)
Theorem bson_build_iterate fresh kvs es
    (Hw : Forall2 writes kvs es) (Hsize : blen (body_bytes es) + 133 ≤ 2 ^ 30) :
  ∃ m doc last l, run_ops fresh (map append_of kvs) (bson_init fresh) = Ret (true, m)
    ∧ bson_get_data m = Ret doc ∧ fields_of (bson_iter_init doc).2 = Ret (last, l)
    ∧ Forall2 reads_back kvs l.
Proof.
  pose proof (run_ops_builds fresh _ (bson_init fresh) ([], []) (_, []) (init_builds fresh) (spec_appends kvs es [] Hw)) as Hrun.
  apply returns_Ret in Hrun as ([ok m] & Hrun & Hm). cbn [fst snd app] in Hm. destruct ok.
  2: { unfold extent in Hm. change (blen (front [])) with 0 in Hm. cbn [length] in Hm. lia. }
  assert (Hes : Forall entry_ok es) by (clear -Hw; induction Hw; constructor; eauto using writes_entry_ok).
  destruct (doc_entries es Hes) as (last & l & Hf & Hall).
  { rewrite blen_doc_bytes. unfold INT_MAX. lia. }
  exists m, (doc_bytes (body_bytes es)), last, l. split; [done|]. split; [by eapply get_data_builds|]. split; [done|].
  clear -Hw Hall. generalize dependent (doc_bytes (body_bytes es)). revert l.
  induction Hw as [|kv e kvs es Hkv _ IH]; intros l doc Hall; inversion Hall; subst; constructor;
    [by eapply on_entry_reads_back|by eapply IH].
Qed.
Definition sample_kvs : list (list Z * bson_value_t) :=
  [(cs "a", v_int32 (-5)); (cs "s", v_utf8 (Some (cs "hi" ++ [0])) 2); (cs "c", v_code (Some (cs "f()" ++ [0])) 3);
   (cs "r", v_regex (Some (cs "x.*" ++ [0])) (Some (cs "xi" ++ [0])));
   (cs "w", v_codewscope (Some (cs "g" ++ [0])) (Some bson_empty_doc) 1 5)].
Definition sample_entries : list entry :=
  [Entry (cs "a") 0x10 (le_bytes 4 (-5)); Entry (cs "s") 0x02 ([3; 0; 0; 0] ++ cs "hi" ++ [0]);
   Entry (cs "c") 0x0D ([4; 0; 0; 0] ++ cs "f()" ++ [0]); Entry (cs "r") 0x0B (cs "x.*" ++ [0] ++ cs "ix" ++ [0]);
   Entry (cs "w") 0x0F ([15; 0; 0; 0; 2; 0; 0; 0] ++ cs "g" ++ [0] ++ bson_empty_doc)].
Lemma sample_writes : Forall2 writes sample_kvs sample_entries.
Proof.
  unfold sample_kvs, sample_entries.
  repeat (apply Forall2_cons_2; [constructor; [done|split; [by_check|done]|vm_compute; reflexivity
    |split; [split; cbn; (exact I || lia)|vm_compute; reflexivity]|by_check]|]). apply Forall2_nil_2.
Qed.
Lemma bson_build_iterate_witness :
  ∃ m doc last l, run_ops (λ _, 0) (map append_of sample_kvs) (bson_init (λ _, 0)) = Ret (true, m)
    ∧ bson_get_data m = Ret doc ∧ fields_of (bson_iter_init doc).2 = Ret (last, l)
    ∧ Forall2 reads_back sample_kvs l.
Proof.
  apply (bson_build_iterate (λ _, 0) sample_kvs sample_entries sample_writes). vm_compute. discriminate.
Defined.
