(* ===== verification/MongocSet.v ===== *)
(** The id-ordered array of items behind the topology's servers
    (mongoc/mongoc-set.c), and its contract: a finite map from ids to items.

    [items_len] is the length of the list, [set_allocated] the capacity of the
    array, whose size in bytes is computed in [size_t]; [qsort] and [bsearch] are the C library's, written out. *)
From S2P Require Import Prelude.
From Stdlib Require Import ZArith Lia List Sorting.Sorted.
From stdpp Require Import prelude gmap.
#[local] Open Scope Z_scope.
#[local] Open Scope mongo_scope.

Record mongoc_set_t (A : Type) := Set_ {
  set_items : list (Z * A);
  set_allocated : Z
}.
Arguments Set_ {A} _ _.
Arguments set_items {A} _.
Arguments set_allocated {A} _.

Section Operations.
Context {A : Type}.
Implicit Types s : mongoc_set_t A.

(** [sizeof (mongoc_set_item_t)], and the bytes of an array for [n] items *)
Definition item_size : Z := 16.
Definition array_bytes (n : Z) : Z := u64 (item_size * n).

Definition mongoc_set_new (nitems : Z) : mongoc_set_t A := Set_ [] nitems.

Definition mongoc_set_id_cmp (a b : Z) : Z :=
  if a =? b then 0 else if a <? b then -1 else 1.

(** [qsort] with that comparison *)
Fixpoint insert_item (x : Z * A) (l : list (Z * A)) : list (Z * A) :=
  match l with
  | [] => [x]
  | y :: l' => if mongoc_set_id_cmp x.1 y.1 <=? 0 then x :: l else y :: insert_item x l'
  end.
Definition qsort (l : list (Z * A)) : list (Z * A) := foldr insert_item [] l.

(** [bsearch]: the index of an item with the key *)
Fixpoint bsearch_loop (fuel : nat) (key : Z) (l : list (Z * A)) (lo hi : nat) : res (option nat) :=
  match fuel with
  | O => Stuck OutOfFuel
  | S fuel' =>
      if (lo <? hi)%nat then
        let idx := Nat.div2 (lo + hi) in
        match l !! idx with
        | None => Stuck OutOfBounds
        | Some x =>
            let comparison := mongoc_set_id_cmp key x.1 in
            if comparison <? 0 then bsearch_loop fuel' key l lo idx
            else if 0 <? comparison then bsearch_loop fuel' key l (S idx) hi
            else Ret (Some idx)
        end
      else Ret None
  end.
Definition bsearch (key : Z) (l : list (Z * A)) : res (option nat) :=
  bsearch_loop (S (length l)) key l 0 (length l).

Definition items_len s : Z := Z.of_nat (length (set_items s)).

Definition mongoc_set_add s (id : Z) (item : A) : res (mongoc_set_t A) :=
  let allocated := if items_len s >=? set_allocated s then u64 (set_allocated s * 2)
                   else set_allocated s in
  if item_size * (items_len s + 1) <=? array_bytes allocated then
    let items := set_items s ++ [(id, item)] in
    let sort := match last (set_items s) with Some x => x.1 >? id | None => false end in
    Ret (Set_ (if sort : bool then qsort items else items) allocated)
  else Stuck OutOfBounds.

(** the set, and the item handed to the destructor *)
Definition mongoc_set_rm s (id : Z) : res (mongoc_set_t A * option A) :=
  let* ptr := bsearch id (set_items s) in
  match ptr with
  | Some i =>
      let removed := option_map snd (set_items s !! i) in
      Ret (Set_ (take i (set_items s) ++ drop (S i) (set_items s)) (set_allocated s), removed)
  | None => Ret (s, None)
  end.

Definition mongoc_set_get s (id : Z) : res (option A) :=
  let* ptr := bsearch id (set_items s) in
  Ret (match ptr with Some i => option_map snd (set_items s !! i) | None => None end).

Definition mongoc_set_get_item_and_id s (idx : Z) : res (A * Z) :=
  let* _ := bson_assert (u64 idx <? items_len s) in
  match set_items s !! Z.to_nat idx with
  | Some x => Ret (x.2, x.1)
  | None => Stuck OutOfBounds
  end.
Definition mongoc_set_get_item s (idx : Z) : res A :=
  let* r := mongoc_set_get_item_and_id s idx in Ret r.1.

(** The loop runs over a copy of the array taken when it starts, so the
    callback may change the set; it is passed the position in the array. *)
Section ForEach.
Context {C : Type} (cb : Z → A → C → res (bool * C)).
Fixpoint for_each_from (i : Z) (old_set : list (Z * A)) (ctx : C) : res C :=
  match old_set with
  | [] => Ret ctx
  | x :: l =>
      let* r := cb i x.2 ctx in
      let '(continue, ctx) := r in
      if continue : bool then for_each_from (i + 1) l ctx else Ret ctx
  end.
Definition mongoc_set_for_each_with_id s (ctx : C) : res C := for_each_from 0 (set_items s) ctx.
End ForEach.
Definition mongoc_set_for_each {C} s (cb : A → C → res (bool * C)) (ctx : C) : res C :=
  mongoc_set_for_each_with_id (λ _, cb) s ctx.

Fixpoint _mongoc_set_find (l : list (Z * A)) (cb : A → res bool) : res (option (Z * A)) :=
  match l with
  | [] => Ret None
  | x :: l' => let* b := cb x.2 in if b : bool then Ret (Some x) else _mongoc_set_find l' cb
  end.
Definition mongoc_set_find_item s (cb : A → res bool) : res (option A) :=
  let* r := _mongoc_set_find (set_items s) cb in Ret (option_map snd r).
Definition mongoc_set_find_id s (cb : A → res bool) : res Z :=
  let* r := _mongoc_set_find (set_items s) cb in
  Ret (match r with Some x => x.1 | None => 0 end).

(** a store through the pointer to the item with this id *)
Definition set_update (id : Z) (f : A → A) s : mongoc_set_t A :=
  Set_ (map (λ x, (x.1, if x.1 =? id then f x.2 else x.2)) (set_items s)) (set_allocated s).
End Operations.

(** ** The abstract map *)
Section Contract.
Context {A : Type}.
Implicit Types (s : mongoc_set_t A) (l : list (Z * A)).

Definition ids l : list Z := map fst l.
Definition ordered l : Prop := StronglySorted Z.lt (ids l).
Definition set_map s : gmap Z A := list_to_map (set_items s).
(** what every set in use satisfies: ascending ids, within the capacity, which
    is neither zero nor about to overflow *)
Definition set_wf s : Prop :=
  ordered (set_items s) ∧ items_len s ≤ set_allocated s ∧ 0 < set_allocated s < 2 ^ 59.

Lemma ordered_NoDup l : ordered l → NoDup (ids l).
Proof.
  unfold ordered. induction 1 as [|x xs _ IH Hx]; constructor; [|done].
  intros Hin. rewrite Forall_forall in Hx. specialize (Hx x Hin). lia.
Qed.

Lemma set_map_lookup s id x :
  set_wf s → set_map s !! id = Some x ↔ (id, x) ∈ set_items s.
Proof.
  intros [Ho _]. unfold set_map. rewrite elem_of_list_to_map; [done|].
  apply ordered_NoDup. exact Ho.
Qed.

Lemma ordered_index l i j x y :
  ordered l → l !! i = Some x → l !! j = Some y → (i < j)%nat → x.1 < y.1.
Proof.
  intros Ho. revert i j. induction l as [|z l IH]; intros i j Hi Hj Hij; [done|].
  inversion Ho as [|? ? Hl Hz]; subst. destruct j as [|j]; [lia|]. destruct i as [|i]; simpl in *.
  - injection Hi as ->. rewrite Forall_forall in Hz. apply Hz.
    apply list_elem_of_fmap_2. by eapply list_elem_of_lookup_2.
  - eapply (IH Hl i j); [done|done|lia].
Qed.

Lemma ordered_app l k :
  ordered (l ++ k) ↔ ordered l ∧ ordered k ∧ ∀ x y, x ∈ l → y ∈ k → x.1 < y.1.
Proof.
  unfold ordered. induction l as [|z l IH]; simpl.
  { split; [|by intros (_ & ? & _)]. intros H. split; [constructor|]. split; [done|].
    intros ? ? []%not_elem_of_nil. }
  split.
  - intros H. inversion H as [|? ? Hl Hz]; subst. apply IH in Hl as (H1 & H2 & H3).
    unfold ids in Hz. rewrite map_app, Forall_app in Hz. destruct Hz as [Hz1 Hz2].
    split; [by constructor|]. split; [done|]. intros x y [->|Hx]%elem_of_cons Hy; [|by apply H3].
    rewrite Forall_forall in Hz2. apply Hz2. by apply list_elem_of_fmap_2.
  - intros (H1 & H2 & H3). inversion H1 as [|? ? Hl Hz]; subst. constructor.
    + apply IH. split; [done|]. split; [done|]. intros x y Hx. apply H3. by right.
    + unfold ids. rewrite map_app, Forall_app. split; [done|]. rewrite Forall_forall.
      intros y (p & -> & Hp)%list_elem_of_fmap. apply H3; [by left|done].
Qed.

(** ** Binary search *)
Lemma bsearch_loop_spec fuel key l lo hi :
  ordered l → (hi ≤ length l)%nat → (hi - lo < fuel)%nat →
  (∀ i x, l !! i = Some x → x.1 = key → lo ≤ i < hi)%nat →
  returns (bsearch_loop fuel key l lo hi) (λ r,
    match r with
    | Some i => ∃ x, l !! i = Some x ∧ x.1 = key
    | None => ∀ x, x ∈ l → x.1 ≠ key
    end).
Proof.
  intros Ho. revert lo hi. induction fuel as [|fuel IH]; intros lo hi Hhi Hf Hin; [lia|].
  cbn [bsearch_loop]. destruct (Nat.ltb_spec lo hi) as [Hlt|Hge].
  - pose proof (Nat.div2_div (lo + hi)) as Hdiv. set (idx := Nat.div2 (lo + hi)) in *.
    assert (Hidx : (lo ≤ idx < hi)%nat).
    { rewrite Hdiv. pose proof (Nat.div_mod (lo + hi) 2 ltac:(lia)).
      pose proof (Nat.mod_upper_bound (lo + hi) 2 ltac:(lia)). lia. }
    destruct (lookup_lt_is_Some_2 l idx) as [x Hx]; [lia|]. rewrite Hx.
    unfold mongoc_set_id_cmp. destruct (Z.eqb_spec key x.1) as [Heq|Hne]; [simpl; eauto|].
    destruct (Z.ltb_spec key x.1); cbn [Z.ltb Z.compare].
    + apply IH; [lia|lia|]. intros i y Hy Hk. specialize (Hin i y Hy Hk).
      destruct (decide (i < idx)%nat); [lia|]. destruct (decide (i = idx)) as [->|]; [congruence|].
      pose proof (ordered_index l idx i x y Ho Hx Hy ltac:(lia)). lia.
    + apply IH; [lia|lia|]. intros i y Hy Hk. specialize (Hin i y Hy Hk).
      destruct (decide (idx < i)%nat); [lia|]. destruct (decide (i = idx)) as [->|]; [congruence|].
      pose proof (ordered_index l i idx y x Ho Hy Hx ltac:(lia)). lia.
  - simpl. intros x [i Hi]%list_elem_of_lookup_1 Hk. specialize (Hin i x Hi Hk). lia.
Qed.

Lemma bsearch_spec key l :
  ordered l →
  returns (bsearch key l) (λ r,
    match r with
    | Some i => ∃ x, l !! i = Some (key, x)
    | None => ∀ x, (key, x) ∉ l
    end).
Proof.
  intros Ho. eapply returns_mono.
  - apply bsearch_loop_spec; [done|lia|lia|]. intros i x Hi _.
    apply lookup_lt_Some in Hi. lia.
  - intros [i|]; [intros ([k x] & Hi & Hk)|intros H x Hx]; [simpl in Hk; subst; eauto|].
    by apply (H _ Hx).
Qed.

(** ** Insertion *)
Lemma insert_item_elem x y l : y ∈ insert_item x l ↔ y = x ∨ y ∈ l.
Proof.
  induction l as [|z l IH]; simpl; [by rewrite elem_of_cons|].
  case_if; rewrite ?elem_of_cons, ?IH, ?elem_of_cons; tauto.
Qed.
Lemma insert_item_ordered x l :
  ordered l → (∀ y, y ∈ l → y.1 ≠ x.1) → ordered (insert_item x l).
Proof.
  unfold ordered. intros Ho Hne. induction l as [|z l IH]; simpl; [repeat constructor|].
  inversion Ho as [|? ? Hl Hz]; subst. assert (Hzx : z.1 ≠ x.1) by (apply Hne; by left).
  unfold mongoc_set_id_cmp. destruct (Z.eqb_spec x.1 z.1); [congruence|].
  destruct (Z.ltb_spec x.1 z.1); simpl.
  - constructor; [done|]. constructor; [done|]. eapply Forall_impl; [exact Hz|]. simpl. lia.
  - constructor; [apply IH; [done|]; intros y Hy; apply Hne; by right|].
    rewrite Forall_forall in Hz |- *. intros k (p & -> & Hp)%list_elem_of_fmap.
    apply insert_item_elem in Hp as [->|Hp]; [lia|]. apply Hz. by apply list_elem_of_fmap_2.
Qed.
Lemma qsort_ordered l : NoDup (ids l) → ordered (qsort l) ∧ ∀ y, y ∈ qsort l ↔ y ∈ l.
Proof.
  induction l as [|x l IH]; intros Hd; [split; [constructor|done]|].
  inversion Hd as [|? ? Hx Hl]; subst. destruct (IH Hl) as [Ho He]. split.
  - apply insert_item_ordered; [done|]. intros y Hy E. apply Hx. rewrite <- E.
    apply list_elem_of_fmap_2. by apply He.
  - intros y. simpl. by rewrite insert_item_elem, He, elem_of_cons.
Qed.
Lemma qsort_length l : length (qsort l) = length l.
Proof.
  assert (H : ∀ (x : Z * A) k, length (insert_item x k) = S (length k)).
  { intros x k. induction k as [|z k IH]; simpl; [done|]. case_if; simpl; by rewrite ?IH. }
  induction l as [|x l IH]; simpl; [done|]. by rewrite H, IH.
Qed.

(** two ordered sets with the same items have the same map *)
Lemma map_of_items s (m : gmap Z A) :
  set_wf s → (∀ id x, (id, x) ∈ set_items s ↔ m !! id = Some x) → set_map s = m.
Proof.
  intros Hwf H. apply map_eq. intros id. apply option_eq. intros x.
  rewrite set_map_lookup by done. apply H.
Qed.

Lemma mongoc_set_get_spec s id : set_wf s → mongoc_set_get s id = Ret (set_map s !! id).
Proof.
  intros Hwf. pose proof (bsearch_spec id (set_items s) (proj1 Hwf)) as Hb.
  unfold mongoc_set_get. destruct (bsearch id (set_items s)) as [[i|]|]; [| |done]; simpl in Hb |- *.
  - destruct Hb as [x Hi]. rewrite Hi. simpl. f_equal. symmetry.
    apply set_map_lookup; [done|]. by eapply list_elem_of_lookup_2.
  - f_equal. symmetry. apply eq_None_not_Some. intros [x Hx]. apply set_map_lookup in Hx; [|done].
    by eapply Hb.
Qed.

Lemma mongoc_set_add_spec s id x :
  set_wf s → set_map s !! id = None → items_len s < 2 ^ 58 →
  returns (mongoc_set_add s id x) (λ s',
    set_wf s' ∧ set_map s' = <[id := x]> (set_map s) ∧ items_len s' = items_len s + 1).
Proof.
  intros Hwf Hid Hmax. pose proof Hwf as (Ho & Hlen & Hal). unfold mongoc_set_add.
  set (al := if items_len s >=? set_allocated s then _ else _).
  assert (Hal' : items_len s < al ∧ 0 < al < 2 ^ 59).
  { unfold al. rewrite Z.geb_leb. case_if; [|lia]. rewrite u64_small by lia. lia. }
  clearbody al. unfold array_bytes, item_size. rewrite u64_small by lia. case_head; [|lia].
  assert (Hfresh : ∀ y, y ∈ set_items s → y.1 ≠ id).
  { intros [k y] Hy E. simpl in E. subst k. apply set_map_lookup in Hy; [|done]. congruence. }
  assert (Hnd : NoDup (ids (set_items s ++ [(id, x)]))).
  { unfold ids. rewrite map_app. apply NoDup_app. split; [by apply ordered_NoDup|]. split.
    - intros k (y & -> & Hy)%list_elem_of_fmap Hk. apply list_elem_of_singleton in Hk.
      by apply (Hfresh y).
    - constructor; [apply not_elem_of_nil|constructor]. }
  set (items := if match last (set_items s) with Some y => y.1 >? id | None => false end
                then qsort (set_items s ++ [(id, x)]) else set_items s ++ [(id, x)]).
  assert (Hitems : ordered items ∧ (∀ y, y ∈ items ↔ y ∈ set_items s ++ [(id, x)])
                   ∧ length items = S (length (set_items s))).
  { unfold items. destruct (qsort_ordered _ Hnd) as [Hq1 Hq2].
    destruct (last (set_items s)) as [y|] eqn:Hlast.
    - rewrite Z.gtb_ltb. destruct (Z.ltb_spec id y.1).
      + rewrite qsort_length, length_app, Nat.add_1_r. done.
      + split; [|split; [done|rewrite length_app; simpl; lia]]. apply last_Some in Hlast as [l' Hl'].
        apply ordered_app. split; [done|]. split; [repeat constructor|].
        intros a b Ha ->%list_elem_of_singleton. simpl. rewrite Hl' in Ha, Ho.
        assert (Hne : y.1 ≠ id) by (apply Hfresh; rewrite Hl'; set_solver).
        apply ordered_app in Ho as (_ & _ & Ho). apply elem_of_app in Ha as [Ha| ->%list_elem_of_singleton].
        * specialize (Ho a y Ha ltac:(set_solver)). lia.
        * lia.
    - apply last_None in Hlast as ->. split; [repeat constructor|done]. }
  clearbody items. destruct Hitems as (Hord & Hel & Hln). simpl.
  assert (Hwf' : set_wf (Set_ items al)).
  { split; [done|]. unfold items_len in *. simpl. rewrite Hln. lia. }
  split; [done|]. split; [|unfold items_len; simpl; lia]. apply map_of_items; [done|].
  intros k y. simpl. rewrite Hel, elem_of_app, list_elem_of_singleton, lookup_insert_Some.
  rewrite set_map_lookup by done. split.
  - intros [Hy|[= -> ->]]; [right|by left]. split; [|done]. intros ->. by apply (Hfresh _ Hy).
  - intros [[-> ->]|[_ ?]]; auto.
Qed.

Lemma mongoc_set_rm_spec s id :
  set_wf s →
  returns (mongoc_set_rm s id) (λ '(s', removed),
    set_wf s' ∧ set_map s' = delete id (set_map s) ∧ removed = set_map s !! id
    ∧ set_allocated s' = set_allocated s ∧ items_len s' ≤ items_len s).
Proof.
  intros Hwf. pose proof Hwf as (Ho & Hlen & Hal).
  pose proof (bsearch_spec id (set_items s) (proj1 Hwf)) as Hb. unfold mongoc_set_rm.
  destruct (bsearch id (set_items s)) as [[i|]|]; [| |done]; simpl in Hb |- *.
  - destruct Hb as [x Hi]. rewrite Hi. simpl.
    pose proof (take_drop_middle _ _ _ Hi) as Hsplit.
    set (l1 := take i (set_items s)) in *. set (l2 := drop (S i) (set_items s)) in *.
    rewrite <- Hsplit in Ho. apply ordered_app in Ho as (Ho1 & Ho2 & Ho12).
    change ((id, x) :: l2) with ([(id, x)] ++ l2) in Ho2, Ho12.
    apply ordered_app in Ho2 as (_ & Ho2 & Ho3).
    assert (Hwf' : set_wf (Set_ (l1 ++ l2) (set_allocated s))).
    { split; [|].
      - apply ordered_app. split; [done|]. split; [done|]. intros a b Ha Hb. apply Ho12; set_solver.
      - unfold items_len in *. simpl. apply (f_equal length) in Hsplit.
        rewrite length_app in Hsplit |- *. simpl in Hsplit. lia. }
    split; [done|]. split; [|split].
    + apply map_of_items; [done|]. intros k y. simpl. rewrite lookup_delete_Some.
      rewrite set_map_lookup by done. rewrite <- Hsplit.
      change ((id, x) :: l2) with ([(id, x)] ++ l2). rewrite !elem_of_app, list_elem_of_singleton.
      split; [|naive_solver]. intros [Hk|Hk]; (split; [intros ->|tauto]).
      * specialize (Ho12 (k, y) (k, x) Hk ltac:(set_solver)). simpl in Ho12. lia.
      * specialize (Ho3 (k, x) (k, y) ltac:(set_solver) Hk). simpl in Ho3. lia.
    + symmetry. apply set_map_lookup; [done|]. by eapply list_elem_of_lookup_2.
    + split; [done|]. unfold items_len. simpl. apply (f_equal length) in Hsplit.
      rewrite length_app in Hsplit |- *. simpl in Hsplit. lia.
  - assert (set_map s !! id = None) as Hnone.
    { apply eq_None_not_Some. intros [x Hx]. apply set_map_lookup in Hx; [|done]. by eapply Hb. }
    split; [done|]. rewrite delete_id by done. done.
Qed.
(** The rule of the callback loop: [I] holds of the items already visited, and [Q]
    when the callback stops the loop or the items run out. *)
Lemma for_each_rule {C} F s (cb : A → C → res (bool * C)) (I : list A → C → Prop) (Q : C → Prop) ctx :
  I [] ctx →
  (∀ pre x post c, map snd (set_items s) = pre ++ x :: post → I pre c →
     outcome F (cb x c) (λ r, if r.1 : bool then I (pre ++ [x]) r.2 else Q r.2)) →
  (∀ c, I (map snd (set_items s)) c → Q c) →
  outcome F (mongoc_set_for_each s cb ctx) Q.
Proof.
  intros H0 Hstep Hend. unfold mongoc_set_for_each, mongoc_set_for_each_with_id.
  enough (Hgo : ∀ l i pre c, map snd (set_items s) = pre ++ map snd l → I pre c →
    outcome F (for_each_from (λ _, cb) i l c) Q) by (by apply (Hgo _ _ [])).
  clear ctx H0. induction l as [|[k x] l IH]; intros i pre c Hs Hc; simpl.
  - apply Hend. rewrite Hs. simpl. by rewrite app_nil_r.
  - eapply outcome_bind; [by eapply Hstep|]. intros [[] c'] _ Hr; cbn [fst snd] in Hr; [|exact Hr].
    apply (IH _ (pre ++ [x])); [|done]. rewrite <- app_assoc. exact Hs.
Qed.

Lemma set_update_spec s id f x :
  set_wf s → set_map s !! id = Some x →
  set_wf (set_update id f s) ∧ set_map (set_update id f s) = <[id := f x]> (set_map s)
  ∧ items_len (set_update id f s) = items_len s.
Proof.
  intros Hwf Hx. pose proof Hwf as (Ho & Hlen & Hal).
  assert (Hids : ids (set_items (set_update id f s)) = ids (set_items s)).
  { unfold ids, set_update. simpl. rewrite map_map. by apply map_ext. }
  assert (Hn : items_len (set_update id f s) = items_len s).
  { unfold items_len, set_update. simpl. by rewrite length_map. }
  assert (Hwf' : set_wf (set_update id f s)).
  { split; [|by rewrite Hn]. unfold ordered. rewrite Hids. exact Ho. }
  split; [done|]. split; [|done]. apply map_of_items; [done|]. intros k y. simpl.
  rewrite lookup_insert_Some, set_map_lookup by done. split.
  - intros ([k' z] & [= -> ->] & Hin)%list_elem_of_fmap. simpl.
    destruct (Z.eqb_spec k' id) as [->|Hne]; [left|by right].
    apply set_map_lookup in Hin; [|done]. split; congruence.
  - intros [[<- <-]|[Hne Hin]].
    + apply list_elem_of_fmap. exists (id, x). simpl. rewrite Z.eqb_refl. split; [done|].
      by apply set_map_lookup.
    + apply list_elem_of_fmap. exists (k, y). simpl. destruct (Z.eqb_spec k id); [congruence|]. split; [done|].
      done.
Qed.

Lemma ordered_length lo hi l :
  ordered l → (∀ x, x ∈ l → lo ≤ x.1 < hi) → Z.of_nat (length l) ≤ Z.max 0 (hi - lo).
Proof.
  unfold ordered. revert lo. induction l as [|x l IH]; intros lo Ho Hb; [simpl; lia|].
  inversion Ho as [|? ? Hl Hx]; subst. specialize (Hb x (list_elem_of_here _ _)) as Hbx.
  specialize (IH (x.1 + 1) Hl). cbn [length]. enough (Z.of_nat (length l) ≤ Z.max 0 (hi - (x.1 + 1))) by lia.
  apply IH. intros y Hy. specialize (Hb y (list_elem_of_further _ _ _ Hy)).
  rewrite Forall_forall in Hx. specialize (Hx y.1 (list_elem_of_fmap_2 fst _ _ Hy)). lia.
Qed.
End Contract.

(** ** Client programs of the set *)
Inductive set_op (A : Type) :=
| OpAdd (id : Z) (item : A)
| OpRm (id : Z)
| OpGet (id : Z).
Arguments OpAdd {A} id item.
Arguments OpRm {A} id.
Arguments OpGet {A} id.

Section Clients.
Context {A : Type}.

(** what the set does: the items handed out (by get) or destroyed (by rm) *)
Fixpoint run_set (ops : list (set_op A)) (s : mongoc_set_t A) : res (list (option A) * mongoc_set_t A) :=
  match ops with
  | [] => Ret ([], s)
  | OpAdd id x :: ops' => let* s := mongoc_set_add s id x in run_set ops' s
  | OpRm id :: ops' =>
      let* r := mongoc_set_rm s id in
      let* k := run_set ops' r.1 in Ret (r.2 :: k.1, k.2)
  | OpGet id :: ops' =>
      let* x := mongoc_set_get s id in
      let* k := run_set ops' s in Ret (x :: k.1, k.2)
  end.

(** the same on a finite map; adding an id that is present is not allowed *)
Fixpoint run_map (ops : list (set_op A)) (m : gmap Z A) : option (list (option A) * gmap Z A) :=
  match ops with
  | [] => Some ([], m)
  | OpAdd id x :: ops' =>
      match m !! id with None => run_map ops' (<[id := x]> m) | Some _ => None end
  | OpRm id :: ops' =>
      '(l, m') ← run_map ops' (delete id m); Some (m !! id :: l, m')
  | OpGet id :: ops' =>
      '(l, m') ← run_map ops' m; Some (m !! id :: l, m')
  end.

Lemma run_set_map ops s l m :
  set_wf s → items_len s + Z.of_nat (length ops) < 2 ^ 58 →
  run_map ops (set_map s) = Some (l, m) →
  returns (run_set ops s) (λ r, r.1 = l ∧ set_wf r.2 ∧ set_map r.2 = m).
Proof.
  revert s l m. induction ops as [|[id x|id|id] ops IH]; intros s l m Hwf Hmax Hrun; simpl in Hrun.
  - by injection Hrun as <- <-.
  - destruct (set_map s !! id) eqn:Hid; [done|]. cbn [run_set length] in *.
    eapply returns_bind; [apply mongoc_set_add_spec; [done|done|lia]|].
    intros s' (Hwf' & Hm & Hl). apply IH; [done|lia|by rewrite Hm].
  - destruct (run_map ops (delete id (set_map s))) as [[l' m']|] eqn:E; [|done].
    injection Hrun as <- <-. cbn [run_set length] in *.
    eapply returns_bind; [by apply mongoc_set_rm_spec|]. intros [s' r] (Hwf' & Hm & -> & _ & Hl).
    eapply returns_bind; [apply (IH s' l' m'); [done|simpl; lia|by rewrite Hm]|].
    intros k (<- & Hk & <-). done.
  - destruct (run_map ops (set_map s)) as [[l' m']|] eqn:E; [|done].
    injection Hrun as <- <-. cbn [run_set length] in *. rewrite mongoc_set_get_spec by done. cbn [bind].
    eapply returns_bind; [apply (IH s l' m'); [done|lia|done]|]. intros k (<- & Hk & <-). done.
Qed.
End Clients.

Lemma mongoc_set_new_wf {A} n : 0 < n < 2 ^ 59 → set_wf (mongoc_set_new (A:=A) n).
Proof. intros Hn. split; [constructor|]. unfold items_len. simpl. lia. Qed.

(** * Properties *)



(** A set made for no items, as the copy of an empty topology makes it
    ([bson_next_power_of_two (0)] is 0), has a capacity that doubling never
    raises: the first add writes outside the array. *)
Theorem mongoc_set_new_zero_add_overflows {A} id (x : A) :
  bson_next_power_of_two 0 = 0
  ∧ mongoc_set_add (mongoc_set_new (bson_next_power_of_two 0)) id x = Stuck OutOfBounds.
Proof. split; reflexivity. Qed.
