(* ===== verification/HostList.v ===== *)
(** Host names, ports and lists of hosts (mongoc/mongoc-host-list.c, and
    mongoc_parse_port and mongoc_lowercase of mongoc/mongoc-util.c).

    A [mongoc_host_list_t] chain is a list of nodes; C strings are byte lists
    without their terminator. *)
From S2P Require Import Prelude.
From Stdlib Require Import ZArith Lia List.
From stdpp Require Import prelude strings.
#[local] Open Scope Z_scope.
#[local] Open Scope mongo_scope.

Definition BSON_HOST_NAME_MAX : Z := 255.
Definition MONGOC_DEFAULT_PORT : Z := 27017.

Inductive family_t := AF_UNSPEC | AF_UNIX | AF_INET6 | AF_OTHER (f : Z).
#[export] Instance family_eq_dec : EqDecision family_t.
Proof. solve_decision. Defined.

(** one node, without its link *)
Record mongoc_host_list_t := Host {
  h_host : list Z;
  h_host_and_port : list Z;
  h_port : Z;
  h_family : family_t
}.
#[export] Instance host_eq_dec : EqDecision mongoc_host_list_t.
Proof. solve_decision. Defined.

(** ** Numbers in text *)

(** ["%hu"]: decimal digits *)
Fixpoint print_dec (fuel : nat) (n : Z) : list Z :=
  match fuel with
  | O => []
  | S fuel' => (if n <? 10 then [] else print_dec fuel' (n / 10)) ++ [48 + n mod 10]
  end.
Definition print_u16 (n : Z) : list Z := print_dec 5 n.

Definition is_space (c : Z) : bool := (c =? 32) || ((9 <=? c) && (c <=? 13)).
Definition is_digit (c : Z) : bool := (48 <=? c) && (c <=? 57).
Fixpoint skip_spaces (s : list Z) : list Z :=
  match s with
  | c :: s' => if is_space c then skip_spaces s' else s
  | [] => []
  end.
(** the value of the digits ahead, before any range check *)
Fixpoint digits_value (s : list Z) (acc : Z) : Z :=
  match s with
  | c :: s' => if is_digit c then digits_value s' (acc * 10 + (c - 48)) else acc
  | [] => acc
  end.
(** [strtoul (str, NULL, 10)] *)
Definition strtoul (str : list Z) : Z :=
  let s := skip_spaces str in
  let '(neg, s) := match s with
                   | 45 :: s' => (true, s')
                   | 43 :: s' => (false, s')
                   | _ => (false, s)
                   end in
  let v := digits_value s 0 in
  if v >? 2 ^ 64 - 1 then 2 ^ 64 - 1 else if neg then u64 (- v) else v.

(** [None] is the [false] return *)
Definition mongoc_parse_port (str : list Z) : option Z :=
  let ul_port := strtoul str in
  if (ul_port =? 0) || (ul_port >? UINT16_MAX) then None else Some ul_port.

Definition mongoc_lowercase (src : list Z) : list Z :=
  map (λ c, if Z.land c 0x80 =? 0 then tolower c else c) src.

(** [strchr (s, c)]: the offset of the first [c] *)
Fixpoint strchr (s : list Z) (c : Z) : option nat :=
  match s with
  | [] => None
  | b :: s' => if b =? c then Some O else option_map S (strchr s' c)
  end.
(** [strstr (s, t) != NULL] *)
Fixpoint starts_with (t s : list Z) : bool :=
  match t, s with
  | [], _ => true
  | x :: t', y :: s' => (x =? y) && starts_with t' s'
  | _, [] => false
  end.
Fixpoint strstr (s t : list Z) : bool :=
  starts_with t s || match s with [] => false | _ :: s' => strstr s' t end.

(** ** Parsing *)

(** [bson_snprintf (link_->host_and_port, sizeof link_->host_and_port, ...)] *)
Definition snprintf_host_and_port (s : list Z) : list Z := take 261 s.

Definition _mongoc_host_list_from_hostport_with_err (host : list Z) (port : Z)
    : option mongoc_host_list_t :=
  let host_len := blen host in
  if host_len =? 0 then None
  else if host_len >? BSON_HOST_NAME_MAX then None
  else if bool_decide (is_Some (strchr host 58)) then
    let h := mongoc_lowercase host in
    Some (Host h (snprintf_host_and_port ([91] ++ h ++ [93; 58] ++ print_u16 port)) port AF_INET6)
  else if bool_decide (is_Some (strchr host 47)) && strstr host (cs ".sock") then
    Some (Host host host port AF_UNIX)
  else
    let h := mongoc_lowercase host in
    Some (Host h (snprintf_host_and_port (h ++ [58] ++ print_u16 port)) port AF_UNSPEC).

(** the checks on the text around a closing bracket at [close_bracket]: the
    offset of the port's colon, [None] being a [return false] *)
Definition ipv6_sport (address : list Z) (close_bracket : nat) : option (option nat) :=
  let sport := option_map (Nat.add close_bracket) (strchr (drop close_bracket address) 58) in
  let too_far := match sport with Some p => (close_bracket + 1 <? p)%nat | None => false end in
  if too_far then None
  else if bool_decide (sport = None) && bool_decide (drop (close_bracket + 1) address ≠ []) then None
  else if negb (bool_decide (address !! O = Some 91)) then None
  else Some sport.

Definition _mongoc_host_list_from_string_with_err (address : list Z) : option mongoc_host_list_t :=
  let close_bracket := strchr address 93 in
  let sport := match close_bracket with
               | Some cb => ipv6_sport address cb
               | None => Some (strchr address 58)
               end in
  match sport with
  | None => None
  | Some sport =>
      let bracketed cb := take (cb - 1) (drop 1 address) in
      match sport with
      | Some sp =>
          if (sp =? 0)%nat then None
          else match mongoc_parse_port (drop (sp + 1) address) with
               | None => None
               | Some port =>
                   let host := match close_bracket with
                               | Some cb => bracketed cb
                               | None => take sp address
                               end in
                   _mongoc_host_list_from_hostport_with_err host port
               end
      | None =>
          let host := match close_bracket with
                      | Some cb => bracketed cb
                      | None => address
                      end in
          _mongoc_host_list_from_hostport_with_err host MONGOC_DEFAULT_PORT
      end
  end.
Definition _mongoc_host_list_from_string (address : list Z) : option mongoc_host_list_t :=
  _mongoc_host_list_from_string_with_err address.

(** ** Lists of hosts *)
Definition _mongoc_host_list_push (host : list Z) (port : Z) (family : family_t)
    (next : list mongoc_host_list_t) : list mongoc_host_list_t :=
  Host (take 255 host) (snprintf_host_and_port (host ++ [58] ++ print_u16 port)) port family :: next.

(** the nodes up to the first with this [host_and_port], and those after it *)
Fixpoint _mongoc_host_list_find_host_and_port (hosts : list mongoc_host_list_t)
    (host_and_port : list Z) : option (list mongoc_host_list_t * list mongoc_host_list_t) :=
  match hosts with
  | [] => None
  | h :: hosts' =>
      if streq (h_host_and_port h) host_and_port then Some ([], hosts')
      else match _mongoc_host_list_find_host_and_port hosts' host_and_port with
           | Some (before, after) => Some (h :: before, after)
           | None => None
           end
  end.
(** [next] is what [new_host->next] points to *)
Definition _mongoc_host_list_upsert (list_ : list mongoc_host_list_t)
    (new_host : option mongoc_host_list_t) (next : list mongoc_host_list_t)
    : list mongoc_host_list_t :=
  match new_host with
  | None => list_
  | Some h =>
      match _mongoc_host_list_find_host_and_port list_ (h_host_and_port h) with
      | None => list_ ++ h :: next
      | Some (before, after) => before ++ h :: after
      end
  end.

Fixpoint _mongoc_host_list_copy_loop (src : list mongoc_host_list_t)
    (h next : list mongoc_host_list_t) : list mongoc_host_list_t :=
  match src with
  | [] => h
  | s :: src' => _mongoc_host_list_copy_loop src' (s :: next) (s :: next)
  end.
Definition _mongoc_host_list_copy (src next : list mongoc_host_list_t) : list mongoc_host_list_t :=
  _mongoc_host_list_copy_loop src [] next.

Fixpoint host_list_count (tmp : list mongoc_host_list_t) (counter : Z) : Z :=
  match tmp with [] => counter | _ :: tmp' => host_list_count tmp' (counter + 1) end.
Definition _mongoc_host_list_length (list_ : list mongoc_host_list_t) : Z := host_list_count list_ 0.

Definition _mongoc_host_list_equal (a b : mongoc_host_list_t) : bool :=
  strcaseeq (h_host_and_port a) (h_host_and_port b) && bool_decide (h_family a = h_family b).

Fixpoint _mongoc_host_list_remove_host (hosts : list mongoc_host_list_t) (host : list Z) (port : Z)
    : list mongoc_host_list_t :=
  match hosts with
  | [] => []
  | h :: hosts' =>
      if (h_port h =? port) && streq (h_host h) host then hosts'
      else h :: _mongoc_host_list_remove_host hosts' host port
  end.

Example parse_ex1 : option_map (λ h, (h_host h, h_host_and_port h, h_port h))
  (_mongoc_host_list_from_string (cs "[FE80::1]:27019"))
  = Some (cs "fe80::1", cs "[fe80::1]:27019", 27019).
Proof. reflexivity. Qed.
Example parse_ex2 : option_map (λ h, (h_host_and_port h, h_family h))
  (_mongoc_host_list_from_string (cs "Example.com"))
  = Some (cs "example.com:27017", AF_UNSPEC).
Proof. reflexivity. Qed.

(** ** Lemmas on the string functions *)
Lemma strchr_None s c : strchr s c = None ↔ c ∉ s.
Proof.
  induction s as [|b s IH]; simpl; [split; [intros _; apply not_elem_of_nil|done]|].
  rewrite not_elem_of_cons. destruct (Z.eqb_spec b c) as [->|Hne]; [split; [done|tauto]|].
  destruct (strchr s c); simpl; [split; [done|]|]; [intros [_ H]; by apply IH in H|].
  split; [intros _; split; [congruence|by apply IH]|done].
Qed.
Lemma strchr_app s r c : c ∉ s → strchr (s ++ c :: r) c = Some (length s).
Proof.
  induction s as [|b s IH]; simpl; intros H; [by rewrite Z.eqb_refl|].
  apply not_elem_of_cons in H as [H1 H2]. destruct (Z.eqb_spec b c); [congruence|]. by rewrite IH.
Qed.
Lemma strchr_Some s c n : strchr s c = Some n → c ∉ take n s ∧ s !! n = Some c.
Proof.
  revert n. induction s as [|b s IH]; intros n H; [done|]. simpl in H.
  destruct (Z.eqb_spec b c) as [->|Hne]; [injection H as <-; split; [apply not_elem_of_nil|done]|].
  destruct (strchr s c) as [m|]; [|done]. injection H as <-. destruct (IH m eq_refl) as [H1 H2].
  split; [|done]. simpl. apply not_elem_of_cons. split; [congruence|done].
Qed.
Lemma not_elem_drop {A} (x : A) n l : x ∉ l → x ∉ drop n l.
Proof. intros H Hx. apply H. rewrite <- (take_drop n l). apply elem_of_app. by right. Qed.

(** Lower-casing moves no delimiter and is idempotent. *)
Lemma lower_byte c : byte_ok c →
  let f := λ c, if Z.land c 0x80 =? 0 then tolower c else c in
  f (f c) = f c ∧ byte_ok (f c) ∧ ∀ d, d ∈ [58; 93; 47] → f c = d ↔ c = d.
Proof.
  intros Hc f. pose proof (byte_cases (λ c, (f (f c) =? f c) && (0 <=? f c) && (f c <? 256)
    && Bool.eqb (f c =? 58) (c =? 58) && Bool.eqb (f c =? 93) (c =? 93)
    && Bool.eqb (f c =? 47) (c =? 47)) eq_refl c Hc) as H. cbv beta in H.
  rewrite !andb_true_iff, Z.eqb_eq, Z.leb_le, Z.ltb_lt, !Bool.eqb_true_iff in H.
  destruct H as (((((H1 & H2) & H3) & H4) & H5) & H6).
  split; [done|]. split; [done|].
  assert (Hd : ∀ d, (f c =? d) = (c =? d) → f c = d ↔ c = d).
  { intros d E. destruct (Z.eqb_spec (f c) d), (Z.eqb_spec c d); done. }
  intros d Hd'. rewrite !elem_of_cons in Hd'. destruct Hd' as [->|[->|[->|[]%not_elem_of_nil]]]; auto.
Qed.
Lemma lowercase_idem s : bytes_ok s → mongoc_lowercase (mongoc_lowercase s) = mongoc_lowercase s.
Proof.
  induction 1 as [|c s Hc _ IH]; [done|]. destruct (lower_byte c Hc) as [E _].
  unfold mongoc_lowercase in *. simpl. rewrite IH. f_equal. exact E.
Qed.
Lemma lowercase_delim s d : bytes_ok s → d ∈ [58; 93; 47] → d ∈ mongoc_lowercase s ↔ d ∈ s.
Proof.
  intros Hs Hd. induction Hs as [|c s Hc _ IH]; [done|].
  destruct (lower_byte c Hc) as (_ & _ & E). specialize (E d Hd).
  unfold mongoc_lowercase in *. simpl. rewrite !elem_of_cons, IH.
  split; (intros [Hd'|?]; [left|by right]); symmetry; by apply E.
Qed.
Lemma lowercase_length s : length (mongoc_lowercase s) = length s.
Proof. apply length_map. Qed.

(** ** Decimal numbers round-trip *)
Lemma digits_print f n acc rest :
  (0 < f)%nat → 0 ≤ n < 10 ^ Z.of_nat f →
  digits_value (print_dec f n ++ rest) acc
  = digits_value rest (acc * 10 ^ blen (print_dec f n) + n).
Proof.
  revert n acc rest. induction f as [|f IH]; intros n acc rest Hf Hn; [lia|].
  assert (Hdig : ∀ rest acc, digits_value (([48 + n mod 10]) ++ rest) acc
                 = digits_value rest (acc * 10 + n mod 10)).
  { intros r a. simpl. pose proof (Z.mod_pos_bound n 10). unfold is_digit.
    destruct (Z.leb_spec 48 (48 + n mod 10)); [|lia]. destruct (Z.leb_spec (48 + n mod 10) 57); [|lia].
    simpl. f_equal. lia. }
  cbn [print_dec]. rewrite <- app_assoc, blen_app. change (blen [48 + n mod 10]) with 1.
  destruct (Z.ltb_spec n 10).
  - rewrite app_nil_l, Hdig. change (blen []) with 0. by rewrite Z.mod_small by lia.
  - rewrite Nat2Z.inj_succ, Z.pow_succ_r in Hn by lia.
    rewrite IH; [|destruct f; [simpl in Hn; lia|lia]|].
    + rewrite Hdig. f_equal. rewrite Z.pow_add_r by (try apply blen_nonneg; lia).
      pose proof (Z.div_mod n 10). lia.
    + split; [apply Z.div_pos; lia|]. apply Z.div_lt_upper_bound; lia.
Qed.
Lemma print_dec_digits f n : 0 ≤ n → Forall (λ c, 48 ≤ c ≤ 57) (print_dec f n).
Proof.
  revert n. induction f as [|f IH]; intros n Hn; [constructor|]. cbn [print_dec].
  apply Forall_app. split; [|repeat constructor; pose proof (Z.mod_pos_bound n 10); lia].
  case_if; [constructor|]. apply IH. apply Z.div_pos; lia.
Qed.
Lemma print_dec_length f n : (length (print_dec f n) ≤ f)%nat.
Proof.
  revert n. induction f as [|f IH]; intros n; [done|]. cbn [print_dec]. rewrite length_app. simpl.
  case_if; simpl; [lia|]. specialize (IH (n / 10)). lia.
Qed.
Lemma parse_port_print p : 1 ≤ p ≤ UINT16_MAX → mongoc_parse_port (print_u16 p) = Some p.
Proof.
  unfold UINT16_MAX. intros Hp. pose proof (digits_print 5 p 0 [] ltac:(lia) ltac:(simpl; lia)) as Hd.
  rewrite app_nil_r in Hd. assert (Hv : digits_value (print_u16 p) 0 = p) by exact Hd.
  clear Hd. rename Hv into Hd.
  assert (Hne : print_u16 p ≠ []) by (unfold print_u16; cbn [print_dec]; by intros [_ ?]%app_eq_nil).
  pose proof (print_dec_digits 5 p ltac:(lia)) as Hall. fold (print_u16 p) in *.
  destruct (print_u16 p) as [|c s] eqn:E; [done|]. apply Forall_cons_1, proj1 in Hall as Hc.
  assert (Hs : strtoul (c :: s) = p).
  { unfold strtoul, skip_spaces. unfold is_space.
    destruct (Z.eqb_spec c 32); [lia|]. destruct (Z.leb_spec 9 c), (Z.leb_spec c 13); try lia. cbn [orb andb].
    assert (Hm : match c :: s with 45 :: s' => (true, s') | 43 :: s' => (false, s') | _ => (false, c :: s) end
      = (false, c :: s)).
    { destruct c as [|q|]; try lia. do 6 (try (destruct q as [q|q|]; try reflexivity; try lia)). }
    rewrite Hm, Hd, Z.gtb_ltb. by case_if; [lia|]. }
  unfold mongoc_parse_port. rewrite Hs. destruct (Z.eqb_spec p 0); [lia|].
  unfold UINT16_MAX. destruct (Z.gtb_spec p 65535); [lia|done].
Qed.

(** ** Parsing lemmas *)
Lemma print_u16_no p c : 0 ≤ p → ¬ (48 ≤ c ≤ 57) → c ∉ print_u16 p.
Proof.
  intros Hp Hc Hin. pose proof (print_dec_digits 5 p Hp) as Hall. rewrite Forall_forall in Hall.
  by apply Hc, Hall.
Qed.
Lemma take_261 l : (length l ≤ 261)%nat → snprintf_host_and_port l = l.
Proof. intros H. unfold snprintf_host_and_port. by apply firstn_all2. Qed.

(** Re-parsing what the two network families print. *)
Lemma reparse_bracketed h p :
  93 ∉ h → 1 ≤ p ≤ UINT16_MAX →
  _mongoc_host_list_from_string_with_err ([91] ++ h ++ [93; 58] ++ print_u16 p)
  = _mongoc_host_list_from_hostport_with_err h p.
Proof.
  intros H93 Hp. unfold _mongoc_host_list_from_string_with_err.
  assert (E : strchr ([91] ++ h ++ [93; 58] ++ print_u16 p) 93 = Some (S (length h))).
  { rewrite (app_assoc [91] h). change (([91] ++ h) ++ [93; 58] ++ print_u16 p)
      with (([91] ++ h) ++ 93 :: 58 :: print_u16 p).
    rewrite strchr_app; [done|]. cbn [app]. apply not_elem_of_cons. split; [lia|done]. }
  rewrite E. unfold ipv6_sport.
  assert (Hdrop : ∀ k, drop (S (length h) + k) ([91] ++ h ++ [93; 58] ++ print_u16 p)
            = drop k ([93; 58] ++ print_u16 p)).
  { intros k. cbn [app drop Nat.add]. by rewrite <- drop_drop, drop_app_length. }
  pose proof (Hdrop 0%nat) as H0. rewrite Nat.add_0_r in H0. rewrite H0.
  change (strchr (drop 0 ([93; 58] ++ print_u16 p)) 58) with (Some 1%nat). cbn [option_map].
  rewrite (proj2 (Nat.ltb_ge _ _)) by lia.
  rewrite (bool_decide_false (Some _ = None)) by done. cbn [andb].
  rewrite bool_decide_true by done. cbn [negb].
  rewrite (proj2 (Nat.eqb_neq _ _)) by lia.
  replace (S (length h) + 1 + 1)%nat with (S (length h) + 2)%nat by lia. rewrite (Hdrop 2%nat).
  change (drop 2 ([93; 58] ++ print_u16 p)) with (print_u16 p). rewrite parse_port_print by done.
  f_equal. cbn [app drop]. rewrite skipn_O, Nat.sub_succ, Nat.sub_0_r. by rewrite take_app_length.
Qed.
Lemma reparse_plain h p :
  h ≠ [] → 93 ∉ h → 58 ∉ h → 1 ≤ p ≤ UINT16_MAX →
  _mongoc_host_list_from_string_with_err (h ++ [58] ++ print_u16 p)
  = _mongoc_host_list_from_hostport_with_err h p.
Proof.
  intros Hne H93 H58 Hp. unfold _mongoc_host_list_from_string_with_err.
  rewrite (proj2 (strchr_None _ 93)).
  2: { rewrite !not_elem_of_app, list_elem_of_singleton. split; [done|]. split; [lia|].
       apply print_u16_no; [unfold UINT16_MAX in *|]; lia. }
  change (h ++ [58] ++ print_u16 p) with (h ++ 58 :: print_u16 p). rewrite strchr_app by done.
  rewrite (proj2 (Nat.eqb_neq _ _)) by (by destruct h).
  rewrite <- drop_drop, drop_app_length. change (drop 1 (58 :: print_u16 p)) with (drop 0 (print_u16 p)).
  rewrite drop_0, parse_port_print by done. by rewrite take_app_length.
Qed.

(** What any successful parse goes through. *)
Lemma from_string_inv a h :
  _mongoc_host_list_from_string a = Some h →
  ∃ host port, _mongoc_host_list_from_hostport_with_err host port = Some h
    ∧ 1 ≤ port ≤ UINT16_MAX ∧ 93 ∉ host ∧ (bytes_ok a → bytes_ok host).
Proof.
  unfold _mongoc_host_list_from_string, _mongoc_host_list_from_string_with_err.
  assert (Hport : ∀ s p, mongoc_parse_port s = Some p → 1 ≤ p ≤ UINT16_MAX).
  { intros s p. unfold mongoc_parse_port, strtoul.
    destruct (match skip_spaces s with 45 :: s' => (true, s') | 43 :: s' => (false, s') | _ => (false, skip_spaces s) end) as [neg k].
    set (v := if _ >? _ then _ else _). destruct (Z.eqb_spec v 0); [done|].
    destruct (Z.gtb_spec v UINT16_MAX); [done|]. cbn [orb]. intros [= <-].
    assert (0 ≤ v); [|lia]. unfold v. rewrite Z.gtb_ltb.
    assert (Hd : ∀ l acc, 0 ≤ acc → 0 ≤ digits_value l acc).
    { clear. induction l as [|c l IH]; intros acc Ha; [done|]. simpl. unfold is_digit.
      destruct (Z.leb_spec 48 c), (Z.leb_spec c 57); simpl; try lia. apply IH. lia. }
    specialize (Hd k 0 ltac:(lia)). case_if; [lia|]. destruct neg; [apply u64_range|done]. }
  assert (Hdef : 1 ≤ MONGOC_DEFAULT_PORT ≤ UINT16_MAX) by (unfold MONGOC_DEFAULT_PORT, UINT16_MAX; lia).
  assert (Hbr : ∀ cb, strchr a 93 = Some cb → 93 ∉ take (cb - 1) (drop 1 a)
     ∧ (bytes_ok a → bytes_ok (take (cb - 1) (drop 1 a)))).
  { intros cb Hcb. split; [|intros Ha; by apply Forall_take, Forall_drop].
    apply strchr_Some in Hcb as [Hn _]. destruct a as [|b a]; [rewrite drop_nil, take_nil; apply not_elem_of_nil|].
    destruct cb as [|cb]; [simpl; apply not_elem_of_nil|]. cbn [drop]. rewrite drop_0, Nat.sub_succ, Nat.sub_0_r.
    simpl in Hn. by apply not_elem_of_cons in Hn as [_ Hn]. }
  destruct (strchr a 93) as [cb|] eqn:Ecb.
  - destruct (Hbr cb eq_refl) as [Hb1 Hb2]. destruct (ipv6_sport a cb) as [[sp|]|]; [| |done].
    + case_if; [done|]. destruct (mongoc_parse_port _) as [p|] eqn:Ep; [|done]. intros H. eauto 10.
    + intros H. eauto 10.
  - apply strchr_None in Ecb. destruct (strchr a 58) as [sp|].
    + case_if; [done|]. destruct (mongoc_parse_port _) as [p|] eqn:Ep; [|done]. intros H.
      exists (take sp a), p. split; [done|]. split; [by eapply Hport|]. split; [|apply Forall_take].
      intros Hx. apply Ecb. rewrite <- (take_drop sp a). apply elem_of_app. by left.
    + intros H. exists a, MONGOC_DEFAULT_PORT. auto.
Qed.

(** * Properties *)

(** Parsing a host and port is canonical: the [host_and_port] text it builds for
    a network address parses back to the very same host, port and family. *)
Theorem host_list_from_string_canonical a h :
  bytes_ok a → _mongoc_host_list_from_string a = Some h →
  47 ∉ h_host h → blen (h_host h) ≤ 253 →
  _mongoc_host_list_from_string (h_host_and_port h) = Some h.
Proof.
  intros Ha Hh Hslash Hlen. destruct (from_string_inv a h Hh) as (host & p & Hf & Hp & H93 & Hok).
  specialize (Hok Ha). unfold _mongoc_host_list_from_string.
  pose proof (print_dec_length 5 p) as Hpl. fold (print_u16 p) in Hpl.
  set (lh := mongoc_lowercase host).
  assert (Hl93 : 93 ∉ lh) by (unfold lh; rewrite lowercase_delim; [done|done|repeat constructor]).
  assert (Hlb : length lh = length host) by apply lowercase_length.
  pose proof Hf as Hagain. revert Hf. unfold _mongoc_host_list_from_hostport_with_err at 1.
  destruct (Z.eqb_spec (blen host) 0) as [|Hne]; [done|].
  destruct (Z.gtb_spec (blen host) BSON_HOST_NAME_MAX) as [|Hmax]; [done|].
  assert (Hsame : strchr lh 58 = None ↔ strchr host 58 = None).
  { rewrite !strchr_None. unfold lh. rewrite lowercase_delim; [done|done|repeat constructor]. }
  destruct (strchr host 58) as [n|] eqn:E58.
  - rewrite bool_decide_true by eauto. fold lh. intros [= <-]. cbn [h_host h_host_and_port] in *.
    rewrite take_261 by (unfold blen in Hlen; simpl; rewrite ?length_app; simpl; lia).
    etransitivity; [by apply reparse_bracketed|]. unfold _mongoc_host_list_from_hostport_with_err, blen in *.
    rewrite Hlb. destruct (Z.eqb_spec (Z.of_nat (length host)) 0); [done|].
    destruct (Z.gtb_spec (Z.of_nat (length host)) BSON_HOST_NAME_MAX); [lia|].
    destruct (strchr lh 58) eqn:El; [|discriminate (proj1 Hsame eq_refl)].
    rewrite bool_decide_true by eauto. unfold lh. rewrite lowercase_idem by done. fold lh.
    by rewrite take_261 by (unfold blen in Hlen; simpl; rewrite ?length_app; simpl; lia).
  - rewrite bool_decide_false by (by intros [? ?]).
    destruct (bool_decide (is_Some (strchr host 47)) && strstr host (cs ".sock")) eqn:Eu.
    + intros [= <-]. cbn [h_host] in Hslash. apply andb_true_iff in Eu as [Eu _].
      apply bool_decide_eq_true in Eu as [m Em]. apply strchr_None in Hslash. congruence.
    + fold lh. intros [= <-]. cbn [h_host h_host_and_port] in *.
      assert (E58' : strchr lh 58 = None) by (by apply Hsame).
      rewrite take_261 by (unfold blen in Hlen; simpl; rewrite ?length_app; simpl; lia).
      etransitivity; [apply reparse_plain; [|done|by apply strchr_None|done]|].
      { intros E. rewrite E in Hlb. unfold blen in Hne. simpl in Hlb. lia. }
      unfold _mongoc_host_list_from_hostport_with_err, blen in *.
      rewrite Hlb. destruct (Z.eqb_spec (Z.of_nat (length host)) 0); [done|].
      destruct (Z.gtb_spec (Z.of_nat (length host)) BSON_HOST_NAME_MAX); [lia|].
      rewrite E58', bool_decide_false by (by intros [? ?]).
      rewrite (proj2 (strchr_None lh 47) Hslash), bool_decide_false by (by intros [? ?]). cbn [andb].
      unfold lh. rewrite lowercase_idem by done. fold lh.
      by rewrite take_261 by (unfold blen in Hlen; simpl; rewrite ?length_app; simpl; lia).
Qed.

Lemma host_list_from_string_canonical_witness :
  _mongoc_host_list_from_string (cs "[::1]:27018") =
    Some (Host (cs "::1") (cs "[::1]:27018") 27018 AF_INET6).
Proof.
  apply (host_list_from_string_canonical (cs "[::1]:27018") (Host (cs "::1") (cs "[::1]:27018") 27018 AF_INET6)).
  - repeat constructor; discriminate.
  - reflexivity.
  - apply (strchr_None (cs "::1")). reflexivity.
  - discriminate.
Defined.

(** The upsert keeps one node per address: if no two nodes of the list print the
    same, none do afterwards; the new host is in the list, the others are kept in
    their order, and the length grows exactly when the address was not there. *)
Theorem host_list_upsert_unique l h :
  NoDup (map h_host_and_port l) →
  let l' := _mongoc_host_list_upsert l (Some h) [] in
  NoDup (map h_host_and_port l') ∧ h ∈ l'
  ∧ (∀ x, h_host_and_port x ≠ h_host_and_port h → x ∈ l' ↔ x ∈ l)
  ∧ map h_host_and_port l' =
      (if bool_decide (h_host_and_port h ∈ map h_host_and_port l) then map h_host_and_port l
       else map h_host_and_port l ++ [h_host_and_port h]).
Proof.
  intros Hnd l'. set (k := h_host_and_port h).
  assert (Hfind : match _mongoc_host_list_find_host_and_port l k with
    | Some (b, a) => ∃ y, l = b ++ y :: a ∧ h_host_and_port y = k
    | None => k ∉ map h_host_and_port l end).
  { clear. induction l as [|x l IH]; simpl; [apply not_elem_of_nil|].
    destruct (streq (h_host_and_port x) k) eqn:E; [apply streq_eq in E; exists x; done|].
    destruct (_mongoc_host_list_find_host_and_port l k) as [[b a]|].
    - destruct IH as (y & -> & Hy). by exists y.
    - apply not_elem_of_cons. split; [|done]. intros Hk. by rewrite <- Hk, streq_refl in E. }
  unfold l', _mongoc_host_list_upsert. fold k.
  destruct (_mongoc_host_list_find_host_and_port l k) as [[b a]|].
  - destruct Hfind as (y & -> & Hy). rewrite !map_app in *. cbn [map] in *. fold k. rewrite Hy in *.
    split; [done|]. split; [apply elem_of_app; right; by left|]. split.
    + intros x Hx. rewrite !elem_of_app, !elem_of_cons. split.
      * intros [?|[->|?]]; auto. by destruct Hx.
      * intros [?|[->|?]]; auto. by destruct Hx.
    + rewrite bool_decide_true; [done|]. apply elem_of_app. right. by left.
  - rewrite !map_app. cbn [map]. fold k. split; [|split; [|split]].
    + apply NoDup_app. split; [done|]. split; [|repeat constructor; apply not_elem_of_nil].
      intros x Hx ->%list_elem_of_singleton. done.
    + apply elem_of_app. right. by left.
    + intros x Hx. rewrite elem_of_app, list_elem_of_singleton. split; [|by left].
      intros [?| ->]; [done|]. by destruct Hx.
    + by rewrite bool_decide_false.
Qed.

Lemma host_list_upsert_unique_witness :
  let l := [Host (cs "a") (cs "a:1") 1 AF_UNSPEC] in
  let h := Host (cs "b") (cs "b:1") 1 AF_UNSPEC in
  let l' := _mongoc_host_list_upsert l (Some h) [] in
  NoDup (map h_host_and_port l') ∧ h ∈ l'
  ∧ (∀ x, h_host_and_port x ≠ h_host_and_port h → x ∈ l' ↔ x ∈ l)
  ∧ map h_host_and_port l' =
      (if bool_decide (h_host_and_port h ∈ map h_host_and_port l) then map h_host_and_port l
       else map h_host_and_port l ++ [h_host_and_port h]).
Proof.
  intros l h. apply (host_list_upsert_unique l h). repeat constructor. apply not_elem_of_nil.
Defined.

(** The copy of a non-empty chain is its reverse in front of [next]; the copy of
    an empty one is NULL, whatever [next] was. *)
Theorem host_list_copy_reverses src next :
  _mongoc_host_list_copy src next = (match src with [] => [] | _ => rev src ++ next end).
Proof.
  unfold _mongoc_host_list_copy. destruct src as [|s src]; [done|].
  assert (H : ∀ src x next, _mongoc_host_list_copy_loop src (x :: next) (x :: next)
            = rev src ++ x :: next).
  { clear. induction src as [|s src IH]; intros x next; [done|]. simpl. rewrite IH. by rewrite <- app_assoc. }
  simpl. rewrite H. by rewrite <- app_assoc.
Qed.
