(* ===== verification/Base64.v ===== *)
(** Base64 (common/common-b64.c): the encoder, the decoder and its dry run. *)
From Stdlib Require Import ZArith Lia List.
From stdpp Require Import prelude strings.
From S2P Require Import Prelude.
#[local] Open Scope string_scope.
#[local] Open Scope list_scope.
#[local] Open Scope Z_scope.
#[local] Open Scope mongo_scope.

Definition Base64 : list Z := cs "ABCDEFGHIJKLMNOPQRSTUVWXYZabcdefghijklmnopqrstuvwxyz0123456789+/".
Definition Pad64 : Z := 61.

(** ** Encoding *)

(** the four indices of three bytes *)
Definition quantum (i0 i1 i2 : Z) : list Z :=
  [Z.shiftr i0 2; u8 (Z.shiftl (Z.land i0 3) 4 + Z.shiftr i1 4); u8 (Z.shiftl (Z.land i1 0xf) 2 + Z.shiftr i2 6); Z.land i2 0x3f].
Definition Assert64 (output : list Z) : res unit := bson_assert (forallb (λ o, o <? 64) output).
Fixpoint digits (output : list Z) : res (list Z) :=
  match output with
  | [] => Ret []
  | o :: os => let* c := rd Base64 o in let* r := digits os in Ret (c :: r)
  end.
(** [inl target] is the return of -1 *)
Fixpoint ntop_loop (src target : list Z) (targsize datalength : Z) : res (list Z + list Z * list Z * Z) :=
  match src with
  | i0 :: i1 :: i2 :: src' =>
      let output := quantum i0 i1 i2 in
      let* _ := Assert64 output in
      if u64 (datalength + 4) >? targsize then Ret (inl target)
      else
        let* c := digits output in
        let* target := write_at target datalength c in
        ntop_loop src' target targsize (u64 (datalength + 4))
  | _ => Ret (inr (src, target, datalength))
  end.
(** the last one or two bytes; the fourth index is not computed *)
Definition ntop_pad (src target : list Z) (targsize datalength : Z) : res (list Z + list Z * Z) :=
  match src with
  | [] => Ret (inr (target, datalength))
  | i0 :: rest =>
      let i1 := match rest with i1 :: _ => i1 | [] => 0 end in
      let output := take 3 (quantum i0 i1 0) in
      let* _ := Assert64 output in
      if u64 (datalength + 4) >? targsize then Ret (inl target)
      else
        let* c := digits output in
        let chars := match rest with [] => take 2 c ++ [Pad64] | _ => c end in
        let* target := write_at target datalength (chars ++ [Pad64]) in
        Ret (inr (target, u64 (datalength + 4)))
  end.
Definition ntop_end (targsize : Z) (l : list Z + list Z * list Z * Z) : res (Z * list Z) :=
  match l with
  | inl target => Ret (-1, target)
  | inr (rest, target, datalength) =>
      let* p := ntop_pad rest target targsize datalength in
      match p with
      | inl target => Ret (-1, target)
      | inr (target, datalength) =>
          if datalength >=? targsize then Ret (-1, target)
          else let* target := write_at target datalength [0] in Ret (s32 datalength, target)
      end
  end.
(** [src]: the [srclength] bytes; the return value and the memory at [target] *)
Definition bson_b64_ntop (src target : list Z) (targsize : Z) : res (Z * list Z) :=
  let* l := ntop_loop src target targsize 0 in ntop_end targsize l.

(** ** The reverse map *)
Definition mongoc_b64rmap_special : Z := 0xf0.
Definition mongoc_b64rmap_end : Z := 0xfd.
Definition mongoc_b64rmap_space : Z := 0xfe.
Definition mongoc_b64rmap_invalid : Z := 0xff.
(** [isspace] in the C locale *)
Definition bson_isspace (c : Z) : bool := (-1 <=? c) && (c <=? 255) && (((9 <=? c) && (c <=? 13)) || (c =? 32)).
Definition rmap_start (ch : Z) : Z :=
  if ch =? 0 then mongoc_b64rmap_end
  else if bson_isspace ch then mongoc_b64rmap_space
  else if ch =? Pad64 then mongoc_b64rmap_end
  else mongoc_b64rmap_invalid.
Definition bson_b64_initialize_rmap : list Z :=
  foldl (λ rmap i, <[Z.to_nat (nth i Base64 0) := Z.of_nat i]> rmap) (map (λ i, rmap_start (Z.of_nat i)) (seq 0 256)) (seq 0 64).
Definition mongoc_b64rmap : list Z := Eval vm_compute in bson_b64_initialize_rmap.

(** ** Decoding *)

(** [target[o] = x] and [target[o] |= x] *)
Definition store (target : list Z) (o x : Z) : res (list Z) := write_at target o [u8 x].
Definition store_or (target : list Z) (o x : Z) : res (list Z) := let* b := rd target o in store target o (Z.lor b x).
(** one character of value [ofs]; [None] is the return of -1, before anything is stored *)
Definition pton_step (ofs : Z) (target : list Z) (targsize tarindex state : Z) : res (option (list Z * Z * Z)) :=
  match state with
  | 0 =>
      if tarindex >=? targsize then Ret None
      else let* target := store target tarindex (Z.shiftl ofs 2) in Ret (Some (target, tarindex, 1))
  | 1 =>
      if tarindex + 1 >=? targsize then Ret None
      else
        let* target := store_or target tarindex (Z.shiftr ofs 4) in
        let* target := store target (tarindex + 1) (Z.shiftl (Z.land ofs 0x0f) 4) in
        let* tarindex := chk32 (tarindex + 1) in
        Ret (Some (target, tarindex, 2))
  | 2 =>
      if tarindex + 1 >=? targsize then Ret None
      else
        let* target := store_or target tarindex (Z.shiftr ofs 2) in
        let* target := store target (tarindex + 1) (Z.shiftl (Z.land ofs 0x03) 6) in
        let* tarindex := chk32 (tarindex + 1) in
        Ret (Some (target, tarindex, 3))
  | 3 =>
      if tarindex >=? targsize then Ret None
      else
        let* target := store_or target tarindex ofs in
        let* tarindex := chk32 (tarindex + 1) in
        Ret (Some (target, tarindex, 0))
  | _ => Stuck AssertFailed
  end.
(** the same when only the length is wanted *)
Definition len_step (tarindex state : Z) : res (Z * Z) :=
  match state with
  | 0 => Ret (tarindex, 1)
  | 1 => let* tarindex := chk32 (tarindex + 1) in Ret (tarindex, 2)
  | 2 => let* tarindex := chk32 (tarindex + 1) in Ret (tarindex, 3)
  | 3 => let* tarindex := chk32 (tarindex + 1) in Ret (tarindex, 0)
  | _ => Stuck AssertFailed
  end.
(** the loop over the characters, up to the one that ends it, with the rest of the string;
    [inl] is the return of -1 *)
Section Chars.
Context {S : Type} (step : Z → S → res (option S)).
Fixpoint b64_chars (src : list Z) (s : S) : res (S + Z * list Z * S) :=
  match src with
  | [] => Stuck OutOfBounds
  | ch :: src' =>
      let* ofs := rd mongoc_b64rmap ch in
      if ofs >=? mongoc_b64rmap_special then
        if ofs =? mongoc_b64rmap_space then b64_chars src' s
        else if ofs =? mongoc_b64rmap_end then Ret (inr (ch, src', s))
        else Ret (inl s)
      else
        let* r := step ofs s in
        match r with None => Ret (inl s) | Some s => b64_chars src' s end
  end.
End Chars.

Definition next_char (src : list Z) : res (Z * list Z) :=
  match src with [] => Stuck OutOfBounds | ch :: src' => Ret (ch, src') end.
(** the spaces from [ch] on *)
Fixpoint skip_spaces (ch : Z) (src : list Z) : res (Z * list Z) :=
  if ch =? 0 then Ret (ch, src)
  else
    let* ofs := rd mongoc_b64rmap ch in
    if negb (ofs =? mongoc_b64rmap_space) then Ret (ch, src)
    else match src with [] => Stuck OutOfBounds | ch' :: src' => skip_spaces ch' src' end.
Definition only_spaces (ch : Z) (src : list Z) : res bool := let* r := skip_spaces ch src in Ret (r.1 =? 0).
(** what follows the characters, from [ch]: are the padding and the spaces as they must be? *)
Definition b64_ending (ch : Z) (src : list Z) (state : Z) : res bool :=
  if ch =? Pad64 then
    let* n := next_char src in
    match state with
    | 0 | 1 => Ret false
    | 2 =>
        let* r := skip_spaces n.1 n.2 in
        if negb (r.1 =? Pad64) then Ret false else let* n := next_char r.2 in only_spaces n.1 n.2
    | 3 => only_spaces n.1 n.2
    | _ => Ret true
    end
  else Ret (state =? 0).

(** the bits past the last full byte must be zeros *)
Definition pton_end (r : list Z * Z * Z + Z * list Z * (list Z * Z * Z)) : res (Z * list Z) :=
  match r with
  | inl s => Ret (-1, s.1.1)
  | inr (ch, src, (target, tarindex, state)) =>
      let* ok := b64_ending ch src state in
      if negb ok then Ret (-1, target)
      else if (ch =? Pad64) && ((state =? 2) || (state =? 3)) then
        let* b := rd target tarindex in
        if negb (b =? 0) then Ret (-1, target) else Ret (tarindex, target)
      else Ret (tarindex, target)
  end.
Definition mongoc_b64_pton_do (src target : list Z) (targsize : Z) : res (Z * list Z) :=
  let* r := b64_chars (λ ofs s, pton_step ofs s.1.1 targsize s.1.2 s.2) src (target, 0, 0) in pton_end r.
Definition mongoc_b64_pton_len (src : list Z) : res Z :=
  let* r := b64_chars (λ _ s, let* s := len_step s.1 s.2 in Ret (Some s)) src (0, 0) in
  match r with
  | inl _ => Ret (-1)
  | inr (ch, src, (tarindex, state)) =>
      let* ok := b64_ending ch src state in
      Ret (if ok : bool then tarindex else -1)
  end.
(** [target]: [None] is NULL *)
Definition bson_b64_pton (src : list Z) (target : option (list Z)) (targsize : Z) : res (Z * option (list Z)) :=
  match target with
  | Some t => let* r := mongoc_b64_pton_do src t targsize in Ret (r.1, Some r.2)
  | None => let* n := mongoc_b64_pton_len src in Ret (n, None)
  end.

Example encode_foob : bson_b64_ntop (cs "foob") (repeat 7 9) 9 = Ret (8, cs "Zm9vYg==" ++ [0]).
Proof. vm_compute. reflexivity. Qed.
Example decode_foob : bson_b64_pton (c_lit "Zm 9vYg= =") (Some (repeat 7 5)) 5 = Ret (4, Some (cs "foob" ++ [0])).
Proof. vm_compute. reflexivity. Qed.

(** ** The encoding *)
Definition digit (i : Z) : Z := nth (Z.to_nat i) Base64 0.
Fixpoint encoded (src : list Z) : list Z :=
  match src with
  | a :: b :: c :: src' => map digit (quantum a b c) ++ encoded src'
  | [a; b] => map digit (take 3 (quantum a b 0)) ++ [Pad64]
  | [a] => map digit (take 2 (quantum a 0 0)) ++ [Pad64; Pad64]
  | [] => []
  end.
Lemma three_ind (P : list Z → Prop) :
  P [] → (∀ a, P [a]) → (∀ a b, P [a; b]) → (∀ a b c l, P l → P (a :: b :: c :: l)) → ∀ l, P l.
Proof.
  intros H0 H1 H2 H3. fix IH 1. intros [|a [|b [|c l]]]; [exact H0|apply H1|apply H2|]. apply H3, IH.
Qed.
Lemma encoded_length src : blen (encoded src) = 4 * ((blen src + 2) / 3).
Proof.
  induction src as [|a|a b|a b c l IH] using three_ind; [done..|]. cbn [encoded]. rewrite blen_app, IH.
  change (blen (map digit (quantum a b c))) with 4. rewrite !blen_cons. replace (1 + (1 + (1 + blen l)) + 2) with (blen l + 2 + 1 * 3) by lia.
  rewrite Z.div_add by lia. lia.
Qed.

(** sixty-four indices, two hundred and fifty-six bytes *)
Definition upto (n : nat) : list Z := map Z.of_nat (seq 0 n).
Lemma elem_upto n x : 0 ≤ x < Z.of_nat n → x ∈ upto n.
Proof. intros H. unfold upto. apply list_elem_of_fmap. exists (Z.to_nat x). split; [lia|]. apply elem_of_seq. lia. Qed.
Lemma digit_ok i : 0 ≤ i < 64 → rd Base64 i = Ret (digit i) ∧ rd mongoc_b64rmap (digit i) = Ret i ∧ 0 < digit i < 128.
Proof.
  intros H. assert (Hall : Forall (λ i, rd Base64 i = Ret (digit i) ∧ rd mongoc_b64rmap (digit i) = Ret i ∧ 0 < digit i ∧ digit i < 128) (upto 64)).
  { by_check. }
  apply (Forall_forall _ _) with (x := i) in Hall; [tauto|]. by apply elem_upto.
Qed.
Lemma rmap_range ch : byte_ok ch → ∃ v, rd mongoc_b64rmap ch = Ret v
  ∧ (0 ≤ v < 64 ∨ v = mongoc_b64rmap_end ∧ (ch = 0 ∨ ch = Pad64) ∨ v = mongoc_b64rmap_space ∧ ch ≠ 0 ∨ v = mongoc_b64rmap_invalid).
Proof.
  intros H. set (f := λ ch, match rd mongoc_b64rmap ch with
    | Ret v => ((0 <=? v) && (v <? 64)) || ((v =? mongoc_b64rmap_end) && ((ch =? 0) || (ch =? Pad64)))
               || ((v =? mongoc_b64rmap_space) && negb (ch =? 0)) || (v =? mongoc_b64rmap_invalid)
    | Stuck _ => false end).
  assert (Hall : forallb f (upto 256) = true) by (vm_compute; reflexivity). rewrite forallb_forall in Hall.
  pose proof (elem_upto 256 ch H) as Hin. rewrite list_elem_of_In in Hin. specialize (Hall ch Hin). unfold f in Hall.
  destruct (rd mongoc_b64rmap ch) as [v|]; [|done]. exists v. split; [done|]. lia.
Qed.
(** the digits of a quantum, and the bytes they give back *)
Definition back1 (o0 o1 : Z) : Z := u8 (Z.lor (u8 (Z.shiftl o0 2)) (Z.shiftr o1 4)).
Definition back2 (o1 o2 : Z) : Z := u8 (Z.lor (u8 (Z.shiftl (Z.land o1 0x0f) 4)) (Z.shiftr o2 2)).
Definition back3 (o2 o3 : Z) : Z := u8 (Z.lor (u8 (Z.shiftl (Z.land o2 0x03) 6)) o3).
Lemma pairs_ok (f : Z → Z → bool) : forallb (λ x, forallb (f x) (upto 256)) (upto 256) = true → ∀ x y, byte_ok x → byte_ok y → f x y = true.
Proof.
  intros H x y Hx Hy. rewrite forallb_forall in H. pose proof (elem_upto 256 x Hx) as Ex. pose proof (elem_upto 256 y Hy) as Ey.
  rewrite list_elem_of_In in Ex, Ey. specialize (H x Ex). rewrite forallb_forall in H. by apply H.
Qed.
Lemma quantum_back a b c :
  byte_ok a → byte_ok b → byte_ok c →
  match quantum a b c with
  | [o0; o1; o2; o3] => Forall (λ o, 0 ≤ o < 64) [o0; o1; o2; o3] ∧ back1 o0 o1 = a ∧ back2 o1 o2 = b ∧ back3 o2 o3 = c
  | _ => False
  end.
Proof.
  intros Ha Hb Hc. cbn [quantum].
  set (f := λ x y, let o1 := u8 (Z.shiftl (Z.land x 3) 4 + Z.shiftr y 4) in
    (0 <=? o1) && (o1 <? 64) && (0 <=? Z.shiftr x 2) && (Z.shiftr x 2 <? 64) && (back1 (Z.shiftr x 2) o1 =? x) && (Z.land o1 0xf =? Z.shiftr y 4)).
  set (g := λ x y, let o2 := u8 (Z.shiftl (Z.land x 0xf) 2 + Z.shiftr y 6) in
    (0 <=? o2) && (o2 <? 64) && (Z.shiftr o2 2 =? Z.land x 0xf) && (0 <=? Z.land y 0x3f) && (Z.land y 0x3f <? 64)
    && (back3 o2 (Z.land y 0x3f) =? y) && (u8 (Z.lor (u8 (Z.shiftl (Z.shiftr x 4) 4)) (Z.land x 0xf)) =? x)).
  assert (Hf : f a b = true) by (apply pairs_ok; [vm_compute; reflexivity|done..]).
  assert (Hg : g b c = true) by (apply pairs_ok; [vm_compute; reflexivity|done..]).
  unfold f, g in *. set (o1 := u8 (_ + Z.shiftr b 4)) in *. set (o2 := u8 (_ + Z.shiftr c 6)) in *. cbv zeta in *.
  assert (E1 : Z.land o1 0xf = Z.shiftr b 4) by lia. assert (E2 : Z.shiftr o2 2 = Z.land b 0xf) by lia.
  split; [repeat constructor; lia|]. split; [lia|]. split; [unfold back2; rewrite E1, E2; lia|lia].
Qed.
Lemma Assert64_ok os : Forall (λ o, 0 ≤ o < 64) os → Assert64 os = Ret tt.
Proof.
  intros H. unfold Assert64. assert (forallb (λ o, o <? 64) os = true) as ->; [|done]. apply forallb_forall. intros o Ho.
  apply (Forall_forall _ _) with (x := o) in H; [lia|by apply list_elem_of_In].
Qed.
Lemma digits_map os : Forall (λ o, 0 ≤ o < 64) os → digits os = Ret (map digit os).
Proof. induction 1 as [|o os Ho _ IH]; [done|]. cbn [digits map]. destruct (digit_ok o Ho) as [-> _]. cbn [bind]. by rewrite IH. Qed.
Lemma quantum_range a b c : byte_ok a → byte_ok b → byte_ok c → Forall (λ o, 0 ≤ o < 64) (quantum a b c).
Proof. intros Ha Hb Hc. pose proof (quantum_back a b c Ha Hb Hc) as H. by destruct H as [H _]. Qed.

(** what the encoder leaves in the target *)
Definition ntop_result (pre r enc : list Z) (res : res (Z * list Z)) : Prop :=
  if blen enc <? blen r then res = Ret (blen pre + blen enc, (pre ++ enc) ++ 0 :: drop (S (length enc)) r)
  else ∃ t, res = Ret (-1, t).
Lemma ntop_last pre r :
  blen (pre ++ r) < 2 ^ 31 → ∀ targsize, targsize = blen (pre ++ r) →
  ntop_result pre r [] (if blen pre >=? targsize then Ret (-1, pre ++ r)
    else let* target := write_at (pre ++ r) (blen pre) [0] in Ret (s32 (blen pre), target)).
Proof.
  intros Hl targsize ->. unfold ntop_result. rewrite blen_app in *. pose proof (blen_nonneg pre). pose proof (blen_nonneg r).
  change (blen []) with 0. destruct (Z.ltb_spec 0 (blen r)) as [Hr|Hr].
  - destruct (Z.geb_spec (blen pre) (blen pre + blen r)); [lia|]. rewrite write_at_seq by (change (blen [0]) with 1; lia). cbn [bind].
    rewrite s32_small by (unfold in_s32; lia). rewrite Z.add_0_r, app_nil_r, <- app_assoc. done.
  - destruct (Z.geb_spec (blen pre) (blen pre + blen r)); [by eexists|lia].
Qed.
Lemma ntop_fits pre r :
  blen (pre ++ r) < 2 ^ 31 → u64 (blen pre + 4) = blen pre + 4 ∧ (u64 (blen pre + 4) >? blen (pre ++ r)) = (blen r <? 4).
Proof.
  intros Hl. rewrite blen_app in *. pose proof (blen_nonneg pre). pose proof (blen_nonneg r). rewrite u64_small by lia.
  split; [done|lia].
Qed.
Lemma ntop_result_more pre r q enc x :
  length q = 4%nat → 4 ≤ blen r → ntop_result (pre ++ q) (drop 4 r) enc x → ntop_result pre r (q ++ enc) x.
Proof.
  intros Hq Hr. unfold ntop_result. assert (Hb : blen q = 4) by (unfold blen; lia). rewrite !blen_app, Hb.
  assert (Hd : blen (drop 4 r) = blen r - 4) by (unfold blen in *; rewrite length_drop; lia). rewrite Hd.
  destruct (Z.ltb_spec (blen enc) (blen r - 4)), (Z.ltb_spec (4 + blen enc) (blen r)); try lia; [|done]. intros ->.
  rewrite length_app, Hq, drop_drop. rewrite <- !app_assoc. replace (S (4 + length enc)) with (4 + S (length enc))%nat by lia.
  by replace (blen pre + 4 + blen enc) with (blen pre + (4 + blen enc)) by lia.
Qed.
Lemma drop4_length pre r q : length q = 4%nat → 4 ≤ blen r → blen (pre ++ r) = blen ((pre ++ q) ++ drop 4 r).
Proof. intros Hq Hr. unfold blen in *. rewrite !length_app, length_drop. lia. Qed.
(** the last, padded quantum *)
Lemma ntop_pad_ok pre r src :
  bytes_ok src → (length src = 1 ∨ length src = 2)%nat → blen (pre ++ r) < 2 ^ 31 →
  ntop_result pre r (encoded src) (ntop_end (blen (pre ++ r)) (inr (src, pre ++ r, blen pre))).
Proof.
  intros Hs Hlen Hl. pose proof (ntop_fits pre r Hl) as [Hu Hfit]. destruct src as [|a rest]; [cbn in Hlen; lia|].
  apply Forall_cons in Hs as [Ha Hrest]. unfold ntop_end, ntop_pad. set (i1 := match rest with i1 :: _ => i1 | [] => 0 end).
  assert (Hi1 : byte_ok i1) by (unfold i1; destruct rest as [|b ?]; [done|by apply Forall_cons in Hrest as [? _]]).
  assert (Hq3 : Forall (λ o, 0 ≤ o < 64) (take 3 (quantum a i1 0))) by (apply Forall_take; by apply quantum_range).
  rewrite Assert64_ok by done. cbn [bind]. rewrite Hfit. rewrite digits_map by done. cbn [bind].
  set (q := (match rest with [] => _ | _ => _ end) ++ [Pad64]).
  assert (Hq : encoded (a :: rest) = q ++ [] ∧ length q = 4%nat).
  { unfold q, i1. destruct rest as [|b [|c rest]]; [done|done|cbn in Hlen; lia]. }
  destruct Hq as [-> Hq]. assert (Hqb : blen q = 4) by (unfold blen; lia). destruct (Z.ltb_spec (blen r) 4) as [Hr|Hr].
  { cbn [bind]. unfold ntop_result. rewrite app_nil_r, Hqb. destruct (Z.ltb_spec 4 (blen r)); [lia|by eexists]. }
  rewrite write_at_seq by lia. cbn [bind]. rewrite Hu, Hq. apply ntop_result_more; [done|done|].
  replace (blen pre + 4) with (blen (pre ++ q)) by (rewrite blen_app; lia). rewrite (drop4_length pre r q Hq Hr) in Hl |- *. by apply ntop_last.
Qed.
Lemma ntop_ok src pre r :
  bytes_ok src → blen (pre ++ r) < 2 ^ 31 →
  ntop_result pre r (encoded src)
    (let* l := ntop_loop src (pre ++ r) (blen (pre ++ r)) (blen pre) in ntop_end (blen (pre ++ r)) l).
Proof.
  revert pre r. induction src as [|a|a b|a b c l IH] using three_ind; intros pre r Hs Hl; pose proof (ntop_fits pre r Hl) as [Hu Hfit].
  - cbn [ntop_loop ntop_end ntop_pad bind]. by apply ntop_last.
  - cbn [ntop_loop bind]. apply ntop_pad_ok; [done|by left|done].
  - cbn [ntop_loop bind]. apply ntop_pad_ok; [done|by right|done].
  - apply Forall_cons in Hs as [Ha Hs]. apply Forall_cons in Hs as [Hb Hs]. apply Forall_cons in Hs as [Hc Hs].
    pose proof (quantum_range a b c Ha Hb Hc) as Hq. cbn [ntop_loop]. rewrite Assert64_ok by done. cbn [bind]. rewrite Hfit.
    set (q := map digit (quantum a b c)). change (encoded (a :: b :: c :: l)) with (q ++ encoded l).
    destruct (Z.ltb_spec (blen r) 4) as [Hr|Hr].
    { cbn [bind ntop_end]. unfold ntop_result. rewrite blen_app. change (blen q) with 4. pose proof (blen_nonneg (encoded l)).
      destruct (Z.ltb_spec (4 + blen (encoded l)) (blen r)); [lia|by eexists]. }
    rewrite digits_map by done. cbn [bind]. fold q. rewrite write_at_seq by (change (blen q) with 4; lia). cbn [bind]. rewrite Hu.
    apply ntop_result_more; [done|done|]. replace (blen pre + 4) with (blen (pre ++ q)) by (by rewrite blen_app).
    rewrite (drop4_length pre r q eq_refl Hr) in Hl |- *. by apply IH.
Qed.

(** ** Decoding the encoding *)
Lemma rd_at d x r : rd (d ++ x :: r) (blen d) = Ret x.
Proof. replace (blen d) with (blen d + 0) by lia. by rewrite rd_app_r by lia. Qed.
Lemma store_at d x r v : store (d ++ x :: r) (blen d) v = Ret (d ++ u8 v :: r).
Proof.
  unfold store. rewrite write_at_seq by (unfold blen; cbn [length]; lia).
  cbn [length drop]. by rewrite <- app_assoc.
Qed.
Lemma store_next d x y r v : store (d ++ x :: y :: r) (blen d + 1) v = Ret ((d ++ [x]) ++ u8 v :: r).
Proof.
  replace (blen d + 1) with (blen (d ++ [x])) by (by rewrite blen_app). rewrite <- store_at with (x := y). by rewrite <- app_assoc.
Qed.
Section Steps.
Variables (targsize : Z).
Hypothesis Hts : targsize < 2 ^ 31.
Lemma step_first o d x r : targsize = blen (d ++ x :: r) → pton_step o (d ++ x :: r) targsize (blen d) 0 = Ret (Some (d ++ u8 (Z.shiftl o 2) :: r, blen d, 1)).
Proof using Type.
  intros E. unfold pton_step. rewrite blen_app, blen_cons in E. pose proof (blen_nonneg r). destruct (Z.geb_spec (blen d) targsize); [lia|].
  by rewrite store_at.
Qed.
Lemma step_middle o d x y r (k : Z) (lo hi : Z) :
  targsize = blen (d ++ x :: y :: r) → k = 1 ∧ lo = Z.shiftr o 4 ∧ hi = Z.shiftl (Z.land o 0x0f) 4 ∨ k = 2 ∧ lo = Z.shiftr o 2 ∧ hi = Z.shiftl (Z.land o 0x03) 6 →
  pton_step o (d ++ x :: y :: r) targsize (blen d) k = Ret (Some ((d ++ [u8 (Z.lor x lo)]) ++ u8 hi :: r, blen (d ++ [u8 (Z.lor x lo)]), k + 1)).
Proof using Hts.
  intros E Hk. rewrite blen_app, !blen_cons in E. pose proof (blen_nonneg r). pose proof (blen_nonneg d).
  assert (Hc : chk32 (blen d + 1) = Ret (blen d + 1)) by (apply chk32_ok; unfold in_s32; lia).
  rewrite blen_app. change (blen [u8 (Z.lor x lo)]) with 1. unfold pton_step, store_or.
  destruct Hk as [(-> & -> & ->)|(-> & -> & ->)]; (destruct (Z.geb_spec (blen d + 1) targsize); [lia|]);
    rewrite rd_at; cbn [bind]; rewrite store_at; cbn [bind]; rewrite store_next; cbn [bind]; by rewrite Hc.
Qed.
Lemma step_last o d x r :
  targsize = blen (d ++ x :: r) → pton_step o (d ++ x :: r) targsize (blen d) 3 = Ret (Some ((d ++ [u8 (Z.lor x o)]) ++ r, blen (d ++ [u8 (Z.lor x o)]), 0)).
Proof using Hts.
  intros E. rewrite blen_app, blen_cons in E. pose proof (blen_nonneg r). pose proof (blen_nonneg d). rewrite blen_app.
  assert (Hc : chk32 (blen d + 1) = Ret (blen d + 1)) by (apply chk32_ok; unfold in_s32; lia).
  change (blen [u8 (Z.lor x o)]) with 1. unfold pton_step, store_or. destruct (Z.geb_spec (blen d) targsize); [lia|].
  rewrite rd_at. cbn [bind]. rewrite store_at. cbn [bind]. rewrite Hc. by rewrite <- app_assoc.
Qed.
(** no room for the character *)
Lemma step_full o target d k :
  targsize = blen d ∧ k = 0 ∨ targsize = blen d + 1 ∧ (k = 1 ∨ k = 2) → pton_step o target targsize (blen d) k = Ret None.
Proof using Type.
  unfold pton_step. intros [[E ->]|[E [-> | ->]]]; [destruct (Z.geb_spec (blen d) targsize)|destruct (Z.geb_spec (blen d + 1) targsize)..]; first [done|lia].
Qed.
End Steps.
Lemma chars_digit {S} (step : Z → S → res (option S)) o src s :
  0 ≤ o < 64 → b64_chars step (digit o :: src) s = let* r := step o s in match r with None => Ret (inl s) | Some s => b64_chars step src s end.
Proof.
  intros Ho. cbn [b64_chars]. destruct (digit_ok o Ho) as (_ & -> & _). cbn [bind]. unfold mongoc_b64rmap_special.
  destruct (Z.geb_spec o 0xf0); [lia|done].
Qed.

Notation do_step ts := (λ ofs s, pton_step ofs s.1.1 ts s.1.2 s.2).
(** the first characters of a quantum: one byte and a part of the next *)
Lemma chars_two o0 o1 d r src ts :
  0 ≤ o0 < 64 → 0 ≤ o1 < 64 → ts = blen (d ++ r) → ts < 2 ^ 31 →
  match r with
  | _ :: _ :: r' => let d' := d ++ [back1 o0 o1] in
      b64_chars (do_step ts) (digit o0 :: digit o1 :: src) (d ++ r, blen d, 0)
      = b64_chars (do_step ts) src (d' ++ u8 (Z.shiftl (Z.land o1 0x0f) 4) :: r', blen d', 2)
  | _ => ∃ s, b64_chars (do_step ts) (digit o0 :: digit o1 :: src) (d ++ r, blen d, 0) = Ret (inl s)
  end.
Proof.
  intros H0 H1 E Hts. rewrite chars_digit by done. cbn [fst snd]. destruct r as [|x r].
  { rewrite step_full; [by eexists|]. left. by rewrite app_nil_r in E. }
  rewrite (step_first ts o0 d x r E). cbn [bind]. rewrite chars_digit by done. cbn [fst snd]. destruct r as [|y r].
  { rewrite step_full; [by eexists|]. right. rewrite blen_app in E. change (blen [x]) with 1 in E. split; [lia|by left]. }
  rewrite (step_middle ts Hts o1 d _ y r 1 (Z.shiftr o1 4) (Z.shiftl (Z.land o1 0x0f) 4)); [done| |by left].
  rewrite E, !blen_app, !blen_cons. lia.
Qed.
Lemma chars_third o2 d x r src ts :
  0 ≤ o2 < 64 → ts = blen (d ++ x :: r) → ts < 2 ^ 31 →
  match r with
  | _ :: r' => let d' := d ++ [u8 (Z.lor x (Z.shiftr o2 2))] in
      b64_chars (do_step ts) (digit o2 :: src) (d ++ x :: r, blen d, 2)
      = b64_chars (do_step ts) src (d' ++ u8 (Z.shiftl (Z.land o2 0x03) 6) :: r', blen d', 3)
  | [] => ∃ s, b64_chars (do_step ts) (digit o2 :: src) (d ++ x :: r, blen d, 2) = Ret (inl s)
  end.
Proof.
  intros H2 E Hts. rewrite chars_digit by done. cbn [fst snd]. destruct r as [|y r].
  { rewrite step_full; [by eexists|]. right. rewrite blen_app in E. change (blen [x]) with 1 in E. split; [lia|by right]. }
  by rewrite (step_middle ts Hts o2 d x y r 2 (Z.shiftr o2 2) (Z.shiftl (Z.land o2 0x03) 6)) by (done || by right).
Qed.
Lemma chars_quantum a b c d r src ts :
  byte_ok a → byte_ok b → byte_ok c → ts = blen (d ++ r) → ts < 2 ^ 31 →
  if 3 <=? blen r
  then b64_chars (do_step ts) (map digit (quantum a b c) ++ src) (d ++ r, blen d, 0)
       = b64_chars (do_step ts) src ((d ++ [a; b; c]) ++ drop 3 r, blen (d ++ [a; b; c]), 0)
  else ∃ s, b64_chars (do_step ts) (map digit (quantum a b c) ++ src) (d ++ r, blen d, 0) = Ret (inl s).
Proof.
  intros Ha Hb Hc E Hts. pose proof (quantum_back a b c Ha Hb Hc) as Hq. destruct (quantum a b c) as [|o0 [|o1 [|o2 [|o3 [|]]]]]; try done.
  destruct Hq as (Ho & B1 & B2 & B3). apply Forall_cons in Ho as [H0 Ho]. apply Forall_cons in Ho as [H1 Ho].
  apply Forall_cons in Ho as [H2 Ho]. apply Forall_cons in Ho as [H3 _]. cbn [map app].
  pose proof (chars_two o0 o1 d r (digit o2 :: digit o3 :: src) ts H0 H1 E Hts) as T. destruct r as [|x [|y r]]; [exact T|exact T|].
  rewrite !blen_cons. rewrite T. cbn zeta. rewrite B1. set (d1 := d ++ [a]). set (hi := u8 (Z.shiftl (Z.land o1 0x0f) 4)) in *.
  assert (E1 : ts = blen (d1 ++ hi :: r)) by (rewrite E; unfold d1; rewrite !blen_app, !blen_cons; change (blen []) with 0; lia).
  pose proof (chars_third o2 d1 hi r (digit o3 :: src) ts H2 E1 Hts) as T2. destruct r as [|z r]; [exact T2|].
  rewrite blen_cons. pose proof (blen_nonneg r). destruct (Z.leb_spec 3 (1 + (1 + (1 + blen r)))); [|lia]. rewrite T2. cbn zeta.
  replace (u8 (Z.lor hi (Z.shiftr o2 2))) with b by (by rewrite <- B2). set (d2 := d1 ++ [b]). set (hi2 := u8 (Z.shiftl (Z.land o2 0x03) 6)) in *.
  assert (E2 : ts = blen (d2 ++ hi2 :: r)) by (rewrite E1; unfold d2; rewrite !blen_app, !blen_cons; change (blen []) with 0; lia).
  rewrite chars_digit by done. cbn [fst snd]. rewrite (step_last ts Hts o3 d2 hi2 r E2). cbn [bind].
  replace (u8 (Z.lor hi2 o3)) with c by (by rewrite <- B3). unfold d2, d1. by rewrite <- !app_assoc.
Qed.

(** a partial quantum needs one byte more than it has *)
Definition room (src : list Z) : Z := blen src + (if blen src mod 3 =? 0 then 0 else 1).
Definition pton_result (d r src : list Z) (x : res (Z * list Z)) : Prop :=
  if room src <=? blen r then ∃ t, x = Ret (blen (d ++ src), (d ++ src) ++ t) ∧ blen ((d ++ src) ++ t) = blen (d ++ r)
  else ∃ t, x = Ret (-1, t).
Lemma last_bits a : byte_ok a →
  let q := quantum a 0 0 in u8 (Z.shiftl (Z.land (nth 1 q 0) 0x0f) 4) = 0 ∧ ∀ x, byte_ok x → u8 (Z.shiftl (Z.land (nth 2 (quantum x a 0) 0) 0x03) 6) = 0.
Proof.
  intros Ha q. split.
  - set (f := λ x _ : Z, u8 (Z.shiftl (Z.land (nth 1 (quantum x 0 0) 0) 0x0f) 4) =? 0).
    apply Z.eqb_eq. apply (pairs_ok f ltac:(vm_compute; reflexivity) a a Ha Ha).
  - intros x Hx. set (f := λ x y : Z, u8 (Z.shiftl (Z.land (nth 2 (quantum x y 0) 0) 0x03) 6) =? 0).
    apply Z.eqb_eq. apply (pairs_ok f ltac:(vm_compute; reflexivity) x a Hx Ha).
Qed.
(** the padding of one or two bytes *)
Lemma padded_end (step : Z → list Z * Z * Z → res (option (list Z * Z * Z))) d r pads junk k :
  k = 2 ∧ pads = [Pad64; Pad64] ∨ k = 3 ∧ pads = [Pad64] →
  (let* x := b64_chars step (pads ++ 0 :: junk) (d ++ 0 :: r, blen d, k) in pton_end x) = Ret (blen d, d ++ 0 :: r).
Proof.
  intros Hk. assert (Hc : ∀ src s, b64_chars step (Pad64 :: src) s = Ret (inr (Pad64, src, s))) by done.
  assert (He : ∃ src, pads = Pad64 :: src ∧ b64_ending Pad64 (src ++ 0 :: junk) k = Ret true ∧ (k =? 2) || (k =? 3) = true).
  { destruct Hk as [[-> ->]|[-> ->]]; eexists; (split; [reflexivity|]); (split; [destruct junk; vm_compute; reflexivity|reflexivity]). }
  destruct He as (src & -> & He & Hk3). cbn [app]. rewrite Hc. cbn [bind]. unfold pton_end. rewrite He. cbn [bind negb]. rewrite Hk3.
  change (Pad64 =? Pad64) with true. cbn [andb]. rewrite rd_at. done.
Qed.
Lemma pton_ok src d r junk ts :
  bytes_ok src → ts = blen (d ++ r) → ts < 2 ^ 31 →
  pton_result d r src (let* x := b64_chars (do_step ts) (encoded src ++ 0 :: junk) (d ++ r, blen d, 0) in pton_end x).
Proof.
  revert d r. induction src as [|a|a b|a b c l IH] using three_ind; intros d r Hs E Hts.
  - unfold pton_result. change (room []) with 0. pose proof (blen_nonneg r). destruct (Z.leb_spec 0 (blen r)); [|lia].
    cbn. rewrite app_nil_r. by exists r.
  - apply Forall_cons in Hs as [Ha _]. pose proof (quantum_back a 0 0 Ha ltac:(done) ltac:(done)) as Hq. destruct (last_bits a Ha) as [Hz _].
    change (encoded [a]) with (map digit (take 2 (quantum a 0 0)) ++ [Pad64; Pad64]).
    destruct (quantum a 0 0) as [|o0 [|o1 [|o2 [|o3 [|]]]]]; try done. destruct Hq as (Ho & B1 & _).
    apply Forall_cons in Ho as [H0 Ho]. apply Forall_cons in Ho as [H1 _]. cbn [take map app nth] in *.
    pose proof (chars_two o0 o1 d r (Pad64 :: Pad64 :: 0 :: junk) ts H0 H1 E Hts) as T. unfold pton_result. change (room [a]) with 2.
    destruct r as [|x [|y r]]; [by destruct T as [s ->]; eexists|by destruct T as [s ->]; eexists|]. rewrite !blen_cons. pose proof (blen_nonneg r).
    destruct (Z.leb_spec 2 (1 + (1 + blen r))); [|lia]. rewrite T. cbn zeta. rewrite B1, Hz. change (Pad64 :: Pad64 :: 0 :: junk) with ([Pad64; Pad64] ++ 0 :: junk). rewrite (padded_end (do_step ts)) by by left.
    exists (0 :: r). split; [done|]. rewrite !blen_app, !blen_cons. change (blen []) with 0. lia.
  - apply Forall_cons in Hs as [Ha Hs]. apply Forall_cons in Hs as [Hb _].
    pose proof (quantum_back a b 0 Ha Hb ltac:(done)) as Hq. destruct (last_bits b Hb) as [_ Hz]. specialize (Hz a Ha).
    change (encoded [a; b]) with (map digit (take 3 (quantum a b 0)) ++ [Pad64]).
    destruct (quantum a b 0) as [|o0 [|o1 [|o2 [|o3 [|]]]]]; try done. destruct Hq as (Ho & B1 & B2 & _).
    apply Forall_cons in Ho as [H0 Ho]. apply Forall_cons in Ho as [H1 Ho]. apply Forall_cons in Ho as [H2 _]. cbn [take map app nth] in *.
    pose proof (chars_two o0 o1 d r (digit o2 :: Pad64 :: 0 :: junk) ts H0 H1 E Hts) as T. unfold pton_result. change (room [a; b]) with 3.
    destruct r as [|x [|y r]]; [by destruct T as [s ->]; eexists|by destruct T as [s ->]; eexists|]. rewrite !blen_cons.
    rewrite T. cbn zeta. rewrite B1. set (d1 := d ++ [a]). set (hi := u8 (Z.shiftl (Z.land o1 0x0f) 4)) in *.
    assert (E1 : ts = blen (d1 ++ hi :: r)) by (rewrite E; unfold d1; rewrite !blen_app, !blen_cons; change (blen []) with 0; lia).
    pose proof (chars_third o2 d1 hi r (Pad64 :: 0 :: junk) ts H2 E1 Hts) as T2. destruct r as [|z r]; [by destruct T2 as [s ->]; eexists|].
    rewrite blen_cons. pose proof (blen_nonneg r). destruct (Z.leb_spec 3 (1 + (1 + (1 + blen r)))); [|lia]. rewrite T2. cbn zeta. rewrite Hz.
    replace (u8 (Z.lor hi (Z.shiftr o2 2))) with b by (by rewrite <- B2). change (Pad64 :: 0 :: junk) with ([Pad64] ++ 0 :: junk).
    rewrite (padded_end (do_step ts)) by by right. exists (0 :: r). unfold d1. rewrite <- !app_assoc. split; [done|].
    rewrite !blen_app, !blen_cons. change (blen []) with 0. lia.
  - apply Forall_cons in Hs as [Ha Hs]. apply Forall_cons in Hs as [Hb Hs]. apply Forall_cons in Hs as [Hc Hs].
    cbn [encoded]. rewrite <- app_assoc. pose proof (chars_quantum a b c d r (encoded l ++ 0 :: junk) ts Ha Hb Hc E Hts) as T.
    assert (Hroom : room (a :: b :: c :: l) = 3 + room l).
    { unfold room. rewrite !blen_cons. replace (1 + (1 + (1 + blen l))) with (blen l + 1 * 3) by lia. rewrite Z.mod_add by lia. lia. }
    assert (0 ≤ room l) by (unfold room; pose proof (blen_nonneg l); destruct (_ =? _); lia).
    unfold pton_result. rewrite Hroom. destruct (Z.leb_spec 3 (blen r)) as [Hr|Hr].
    2: { destruct T as [s ->]. destruct (Z.leb_spec (3 + room l) (blen r)); [lia|by eexists]. }
    rewrite T. assert (Hd : blen (drop 3 r) = blen r - 3) by (unfold blen in *; rewrite length_drop; lia).
    assert (Hsame : blen ((d ++ [a; b; c]) ++ drop 3 r) = blen (d ++ r)) by (rewrite !blen_app, Hd; change (blen [a; b; c]) with 3; lia).
    pose proof (IH (d ++ [a; b; c]) (drop 3 r) Hs ltac:(by rewrite Hsame) Hts) as IH'. unfold pton_result in IH'. rewrite Hd in IH'.
    rewrite Hsame in IH'. assert (Happ : (d ++ [a; b; c]) ++ l = d ++ a :: b :: c :: l) by by rewrite <- app_assoc. rewrite Happ in IH'.
    destruct (Z.leb_spec (room l) (blen r - 3)), (Z.leb_spec (3 + room l) (blen r)); try lia; exact IH'.
Qed.

(** ** Any string *)
Definition ended (src : list Z) : Prop := bytes_ok src ∧ is_Some (list_find (λ b, b = 0) src).
Lemma ended_cons ch src : ended (ch :: src) → byte_ok ch ∧ (ch = 0 ∨ ended src).
Proof.
  intros [[Hc Hs]%Forall_cons H]. split; [done|]. cbn in H. destruct (decide (ch = 0)); [by left|]. right. split; [done|].
  destruct (list_find _ src) as [[i x]|]; [by eexists|]. by destruct H.
Qed.
Lemma ended_not_nil : ¬ ended [].
Proof. intros [_ [? H]]. done. Qed.

(** the place and the state of the decoder *)
Definition at_state (ts i k : Z) : Prop := 0 ≤ i ∧ (k = 0 ∧ i ≤ ts ∨ (k = 1 ∨ k = 2 ∨ k = 3) ∧ i < ts).
Lemma store_ok target o v : 0 ≤ o < blen target → ∃ t, store target o v = Ret t ∧ blen t = blen target.
Proof.
  intros H. unfold store, write_at. change (blen [u8 v]) with 1. destruct (Z.leb_spec 0 o); [|lia].
  destruct (Z.leb_spec (o + 1) (blen target)); [|lia]. cbn [andb]. eexists. split; [done|]. unfold blen in *.
  rewrite !length_app, length_take, length_drop. cbn [length]. lia.
Qed.
Lemma store_or_ok target o v : 0 ≤ o < blen target → ∃ t, store_or target o v = Ret t ∧ blen t = blen target.
Proof. intros H. destruct (rd_in target o H) as (b & E & _). unfold store_or. rewrite E. cbn [bind]. by apply store_ok. Qed.
Lemma pton_step_ok ofs target i k :
  at_state (blen target) i k → i < 2 ^ 31 - 1 →
  ∃ r, pton_step ofs target (blen target) i k = Ret r
    ∧ ∃ i' k', len_step i k = Ret (i', k') ∧ 0 ≤ i' ≤ i + 1
    ∧ match r with None => True | Some (t, j, l) => blen t = blen target ∧ (j, l) = (i', k') ∧ at_state (blen target) i' k' end.
Proof.
  intros (Hi & Hk) Hl. assert (Hc : chk32 (i + 1) = Ret (i + 1)) by (apply chk32_ok; unfold in_s32; lia).
  assert (Hone : ∀ v, i < blen target → ∃ t, store_or target i v = Ret t ∧ blen t = blen target) by (intros; apply store_or_ok; lia).
  assert (Htwo : ∀ k' v w, i + 1 < blen target → (k' = 2 ∨ k' = 3) →
    ∃ t, (let* t := store_or target i v in let* t := store t (i + 1) w in let* i := chk32 (i + 1) in Ret (Some (t, i, k'))) = Ret (Some (t, i + 1, k'))
      ∧ blen t = blen target).
  { intros k' v w Hlt _. destruct (Hone v ltac:(lia)) as (t1 & E1 & L1). rewrite E1. cbn [bind].
    destruct (store_ok t1 (i + 1) w ltac:(lia)) as (t2 & E2 & L2). rewrite E2. cbn [bind]. rewrite Hc. exists t2. split; [done|lia]. }
  unfold pton_step, len_step. destruct Hk as [[-> Hk]|[[-> |[-> | ->]] Hk]].
  - destruct (Z.geb_spec i (blen target)).
    + exists None. split; [done|]. exists i, 1. split; [done|]. split; [lia|done].
    + destruct (store_ok target i (Z.shiftl ofs 2) ltac:(lia)) as (t & E & L). rewrite E. cbn [bind]. eexists. split; [done|].
      exists i, 1. split; [done|]. split; [lia|]. split; [done|]. split; [done|]. split; [lia|]. right. split; [by left|lia].
  - rewrite Hc. cbn [bind]. destruct (Z.geb_spec (i + 1) (blen target)).
    + exists None. split; [done|]. exists (i + 1), 2. split; [done|]. split; [lia|done].
    + destruct (Htwo 2 (Z.shiftr ofs 4) (Z.shiftl (Z.land ofs 0x0f) 4) ltac:(lia) ltac:(by left)) as (t & E & L).
      rewrite Hc in E. cbn [bind] in E. rewrite E. eexists. split; [done|].
      exists (i + 1), 2. split; [done|]. split; [lia|]. split; [done|]. split; [done|]. split; [lia|]. right. split; [tauto|lia].
  - rewrite Hc. cbn [bind]. destruct (Z.geb_spec (i + 1) (blen target)).
    + exists None. split; [done|]. exists (i + 1), 3. split; [done|]. split; [lia|done].
    + destruct (Htwo 3 (Z.shiftr ofs 2) (Z.shiftl (Z.land ofs 0x03) 6) ltac:(lia) ltac:(by right)) as (t & E & L).
      rewrite Hc in E. cbn [bind] in E. rewrite E. eexists. split; [done|].
      exists (i + 1), 3. split; [done|]. split; [lia|]. split; [done|]. split; [done|]. split; [lia|]. right. split; [tauto|lia].
  - rewrite Hc. cbn [bind]. destruct (Z.geb_spec i (blen target)); [lia|]. destruct (Hone ofs Hk) as (t & E & L). rewrite E. cbn [bind].
    eexists. split; [done|]. exists (i + 1), 0. split; [done|]. split; [lia|]. split; [done|]. split; [done|]. split; [lia|]. left. lia.
Qed.

Notation len_chars := (b64_chars (λ _ s, let* s := len_step s.1 s.2 in Ret (Some s))).
Lemma len_step_ok i k : (k = 0 ∨ k = 1 ∨ k = 2 ∨ k = 3) → 0 ≤ i < 2 ^ 31 - 1 →
  ∃ i' k', len_step i k = Ret (i', k') ∧ (k' = 0 ∨ k' = 1 ∨ k' = 2 ∨ k' = 3) ∧ 0 ≤ i' ≤ i + 1.
Proof.
  intros Hk Hi. assert (Hc : chk32 (i + 1) = Ret (i + 1)) by (apply chk32_ok; unfold in_s32; lia).
  unfold len_step. destruct Hk as [-> |[-> |[-> | ->]]]; rewrite ?Hc; cbn [bind]; eexists _, _; (split; [done|]); (split; [tauto|lia]).
Qed.
(** where a loop ended *)
Definition stopped (ch : Z) (rest : list Z) : Prop := ch = 0 ∨ ch = Pad64 ∧ ended rest.
Lemma len_chars_ok src i k :
  ended src → (k = 0 ∨ k = 1 ∨ k = 2 ∨ k = 3) → 0 ≤ i → i + blen src < 2 ^ 31 →
  ∃ r, len_chars src (i, k) = Ret r ∧ match r with inl _ => True | inr (ch, rest, (i', k')) => stopped ch rest ∧ 0 ≤ i' ∧ (k' = 0 ∨ k' = 1 ∨ k' = 2 ∨ k' = 3) end.
Proof.
  revert i k. induction src as [|ch src IH]; intros i k He Hk Hi Hl; [by destruct (ended_not_nil)|].
  apply ended_cons in He as [Hb He]. rewrite blen_cons in Hl. pose proof (blen_nonneg src). destruct (rmap_range ch Hb) as (v & E & Hv).
  cbn [b64_chars]. rewrite E. cbn [bind]. unfold mongoc_b64rmap_special. unfold mongoc_b64rmap_end, mongoc_b64rmap_space, mongoc_b64rmap_invalid in *.
  destruct Hv as [Hv|[[-> Hv]|[[-> Hv]| ->]]].
  - assert (v >=? 0xf0 = false) as -> by lia. cbn [fst snd]. destruct (len_step_ok i k Hk ltac:(lia)) as (i' & k' & -> & Hk' & Hi'). cbn [bind].
    destruct He as [->|He]; [|apply IH; [done|done|lia|lia]]. exfalso. vm_compute in E. injection E as <-. lia.
  - cbn. eexists. split; [done|]. split; [|done]. unfold stopped. destruct Hv as [->|Hv]; [by left|]. right. split; [done|]. by destruct He as [->|He].
  - cbn [Z.geb Z.compare Pos.compare Pos.compare_cont Z.eqb Pos.eqb]. destruct He as [->|He]; [done|]. apply IH; [done|done|lia|lia].
  - cbn. by eexists.
Qed.
(** the two loops go together until the target is full *)
Lemma pton_chars_ok src target i k ts :
  ended src → blen target = ts → at_state ts i k → i + blen src < 2 ^ 31 →
  ∃ r, b64_chars (do_step ts) src (target, i, k) = Ret r
    ∧ match r with
      | inl s => blen s.1.1 = ts ∧ ∃ m, len_chars src (i, k) = Ret m
      | inr (ch, rest, (t, i', k')) => blen t = ts ∧ at_state ts i' k' ∧ stopped ch rest ∧ len_chars src (i, k) = Ret (inr (ch, rest, (i', k')))
      end.
Proof.
  revert target i k. induction src as [|ch src IH]; intros target i k He Ht Hk Hl; [by destruct (ended_not_nil)|].
  pose proof He as He0. apply ended_cons in He as [Hb He]. assert (Hkk : k = 0 ∨ k = 1 ∨ k = 2 ∨ k = 3) by (destruct Hk; lia).
  assert (Hi0 : 0 ≤ i) by (by destruct Hk).
  destruct (len_chars_ok (ch :: src) i k He0 Hkk Hi0 Hl) as (m & Hm & _).
  rewrite blen_cons in Hl. pose proof (blen_nonneg src). destruct (rmap_range ch Hb) as (v & E & Hv).
  revert Hm. cbn [b64_chars]. rewrite E. cbn [bind]. unfold mongoc_b64rmap_special.
  unfold mongoc_b64rmap_end, mongoc_b64rmap_space, mongoc_b64rmap_invalid in *. destruct Hv as [Hv|[[-> Hv]|[[-> Hv]| ->]]].
  - assert (v >=? 0xf0 = false) as -> by lia. cbn [fst snd]. intros Hm.
    pose proof (pton_step_ok v target i k) as P. rewrite Ht in P. destruct P as (r & Er & i' & k' & El & Hi' & Hr); [done|lia|]. rewrite Er. cbn [bind].
    rewrite El in Hm |- *. cbn [bind] in Hm |- *. destruct r as [[[t j] l]|].
    + destruct Hr as (Ht' & [= -> ->] & Hk'). destruct He as [->|He]; [exfalso; vm_compute in E; injection E as <-; lia|].
      apply IH; [done|done|done|lia].
    + eexists. split; [done|]. split; [done|]. by exists m.
  - intros _. cbn. eexists. split; [done|]. cbn. split; [done|]. split; [done|]. split; [|done]. unfold stopped.
    destruct Hv as [->|Hv]; [by left|]. right. split; [done|]. by destruct He as [->|He].
  - intros _. cbn [Z.geb Z.compare Pos.compare Pos.compare_cont Z.eqb Pos.eqb]. destruct He as [->|He]; [done|]. apply IH; [done|done|done|lia].
  - intros Hm. cbn in Hm |- *. eexists. split; [done|]. split; [done|]. by exists m.
Qed.
Lemma skip_spaces_ok ch src : byte_ok ch → ch = 0 ∨ ended src → ∃ ch' rest, skip_spaces ch src = Ret (ch', rest) ∧ (ch' = 0 ∨ ended rest).
Proof.
  revert ch. induction src as [|c src IH]; intros ch Hb He.
  - destruct He as [->|He]; [|by destruct (ended_not_nil)]. exists 0, []. split; [done|by left].
  - cbn [skip_spaces]. destruct (Z.eqb_spec ch 0) as [->|Hne]; [exists 0, (c :: src); split; [done|by left]|].
    destruct He as [He|He]; [done|]. destruct (rmap_range ch Hb) as (v & -> & _). cbn [bind].
    destruct (v =? mongoc_b64rmap_space); cbn [negb]; [apply ended_cons in He as [Hc He]; by apply IH|].
    exists ch, (c :: src). split; [done|by right].
Qed.
Lemma only_spaces_ok ch src : byte_ok ch → ch = 0 ∨ ended src → ∃ ok, only_spaces ch src = Ret ok.
Proof. intros Hb He. destruct (skip_spaces_ok ch src Hb He) as (c & r & E & _). unfold only_spaces. rewrite E. by eexists. Qed.
Lemma b64_ending_ok ch rest k : stopped ch rest → ∃ ok, b64_ending ch rest k = Ret ok.
Proof.
  unfold b64_ending. intros [->|[-> He]]; [by eexists|]. destruct rest as [|c rest]; [by destruct ended_not_nil|].
  apply ended_cons in He as [Hb He]. change (Pad64 =? Pad64) with true. cbn [next_char bind fst snd].
  assert (Hpad : ∃ ok, (let* r := skip_spaces c rest in
      if negb (r.1 =? Pad64) then Ret false else let* n := next_char r.2 in only_spaces n.1 n.2) = Ret ok).
  { destruct (skip_spaces_ok c rest Hb He) as (c' & r & -> & Hr). cbn [bind fst snd].
    destruct (Z.eqb_spec c' Pad64) as [->|]; [|by eexists]. cbn [negb]. destruct Hr as [Hr|Hr]; [done|].
    destruct r as [|c2 r]; [by destruct ended_not_nil|]. apply ended_cons in Hr as [Hb2 Hr]. by apply only_spaces_ok. }
  destruct (only_spaces_ok c rest Hb He) as (ok & Hok). repeat case_match; try exact Hpad; try (by eexists).
Qed.

Lemma pton_do_ok src target :
  ended src → blen src + blen target < 2 ^ 31 →
  ∃ n t, mongoc_b64_pton_do src target (blen target) = Ret (n, t) ∧ blen t = blen target ∧ -1 ≤ n ≤ blen target
    ∧ ∃ m, mongoc_b64_pton_len src = Ret m ∧ (n ≠ -1 → m = n).
Proof.
  intros He Hl. pose proof (blen_nonneg target). unfold mongoc_b64_pton_do, mongoc_b64_pton_len.
  assert (Hst : at_state (blen target) 0 0) by (split; [lia|left; lia]).
  destruct (pton_chars_ok src target 0 0 (blen target) He eq_refl Hst ltac:(lia)) as (r & -> & Hr). cbn [bind].
  destruct r as [s|[[ch rest] [[t i] k]]].
  - destruct Hr as [Hs (m & Em)]. rewrite Em. exists (-1), s.1.1. split; [done|]. split; [done|]. split; [lia|].
    destruct (len_chars_ok src 0 0 He ltac:(by left) ltac:(lia) ltac:(lia)) as (m' & Em' & Hm'). rewrite Em in Em'. injection Em' as <-. cbn [bind].
    destruct m as [|[[ch rest] [i k]]]; [by exists (-1)|]. destruct Hm' as [Hstop _]. destruct (b64_ending_ok ch rest k Hstop) as (ok & ->).
    cbn [bind]. by eexists.
  - destruct Hr as (Ht & Hk & Hstop & ->). cbn [bind pton_end]. destruct (b64_ending_ok ch rest k Hstop) as (ok & ->). cbn [bind].
    assert (Hno : ∃ n t0, Ret (-1, t) = Ret (n, t0) ∧ blen t0 = blen target ∧ -1 ≤ n ≤ blen target
      ∧ ∃ m, Ret (if ok : bool then i else -1) = Ret m ∧ (n ≠ -1 → m = n)) by (exists (-1), t; split; [done|]; split; [done|]; split; [lia|by eexists]).
    destruct ok; cbn [negb]; [|exact Hno].
    assert (Hyes : ∃ n t0, Ret (i, t) = Ret (n, t0) ∧ blen t0 = blen target ∧ -1 ≤ n ≤ blen target ∧ ∃ m, Ret i = Ret m ∧ (n ≠ -1 → m = n)).
    { exists i, t. split; [done|]. split; [done|]. split; [destruct Hk; lia|by exists i]. }
    destruct ((ch =? Pad64) && ((k =? 2) || (k =? 3))) eqn:Ek; [|exact Hyes].
    assert (Hit : 0 ≤ i < blen t) by (destruct Hk; lia). destruct (rd_in t i Hit) as (b & -> & _). cbn [bind].
    destruct (b =? 0); cbn [negb]; [exact Hyes|exact Hno].
Qed.

(** ** Binary values in JSON (bson.c, bson-json.c) *)

(** the text of [_bson_as_json_visit_binary] *)
Definition binary_text (v_binary : list Z) : res (list Z) :=
  let b64_len := (blen v_binary / 3 + 1) * 4 + 1 in
  let* r := bson_b64_ntop v_binary (repeat 0 (Z.to_nat b64_len)) b64_len in
  let* _ := bson_assert (negb (r.1 =? -1)) in
  c_string r.2.
(** the data of [_bson_json_parse_binary_elem]; [None] is an error of the reader, and
    [alloc] the memory of its buffer *)
Definition binary_data (alloc : Z → list Z) (val_w_null : list Z) : res (option (list Z)) :=
  let* n := bson_b64_pton val_w_null None 0 in
  let binary_len := n.1 in
  let* r := bson_b64_pton val_w_null (Some (alloc (binary_len + 1))) (binary_len + 1) in
  if (binary_len <? 0) || (r.1 <? 0) then Ret None
  else let* buf := deref r.2 in Ret (Some (take (Z.to_nat binary_len) buf)).

Lemma digit_bytes os : Forall (λ o, 0 ≤ o < 64) os → Forall (λ c, 0 < c < 128) (map digit os).
Proof. induction 1 as [|o os Ho _ IH]; [constructor|]. constructor; [by apply digit_ok|done]. Qed.
Lemma encoded_text src : bytes_ok src → Forall (λ c, 0 < c < 128) (encoded src).
Proof.
  induction src as [|a|a b|a b c l IH] using three_ind; intros Hs.
  - constructor.
  - apply Forall_cons in Hs as [Ha _]. change (encoded [a]) with (map digit (take 2 (quantum a 0 0)) ++ [Pad64; Pad64]).
    apply Forall_app. split; [apply digit_bytes, Forall_take; by apply quantum_range|by repeat constructor].
  - apply Forall_cons in Hs as [Ha Hs]. apply Forall_cons in Hs as [Hb _].
    change (encoded [a; b]) with (map digit (take 3 (quantum a b 0)) ++ [Pad64]).
    apply Forall_app. split; [apply digit_bytes, Forall_take; by apply quantum_range|by repeat constructor].
  - apply Forall_cons in Hs as [Ha Hs]. apply Forall_cons in Hs as [Hb Hs]. apply Forall_cons in Hs as [Hc Hs].
    cbn [encoded]. apply Forall_app. split; [|by apply IH]. apply digit_bytes. by apply quantum_range.
Qed.
Lemma encoded_ended src junk : bytes_ok src → bytes_ok junk → ended (encoded src ++ 0 :: junk).
Proof.
  intros Hs Hj. pose proof (encoded_text src Hs) as He. split.
  - apply Forall_app. split; [|by constructor]. eapply Forall_impl; [exact He|]. intros c Hc. cbn in Hc. unfold byte_ok. lia.
  - clear Hs. induction He as [|c l Hc _ IH]; [by eexists|]. cbn. rewrite decide_False by lia. destruct (list_find _ _) as [[i x]|]; [by eexists|].
    by destruct IH.
Qed.
Lemma room_bound src : blen src ≤ room src ≤ blen src + 1.
Proof. unfold room. destruct (_ =? _); lia. Qed.
Lemma decode_ok src buf junk :
  bytes_ok src → room src ≤ blen buf < 2 ^ 31 →
  ∃ t, mongoc_b64_pton_do (encoded src ++ 0 :: junk) buf (blen buf) = Ret (blen src, src ++ t).
Proof.
  intros Hs Hr. pose proof (pton_ok src [] buf junk (blen buf) Hs eq_refl ltac:(lia)) as H. unfold pton_result in H.
  destruct (Z.leb_spec (room src) (blen buf)); [|lia]. destruct H as (t & E & _). by exists t.
Qed.
Lemma decode_small src buf junk :
  bytes_ok src → blen buf < room src → blen buf < 2 ^ 31 → ∃ t, mongoc_b64_pton_do (encoded src ++ 0 :: junk) buf (blen buf) = Ret (-1, t).
Proof.
  intros Hs Hr Hl. pose proof (pton_ok src [] buf junk (blen buf) Hs eq_refl ltac:(lia)) as H. unfold pton_result in H.
  destruct (Z.leb_spec (room src) (blen buf)); [lia|]. exact H.
Qed.
Lemma length_ok src junk :
  bytes_ok src → bytes_ok junk → blen (encoded src) + blen junk + blen src < 2 ^ 31 - 4 → mongoc_b64_pton_len (encoded src ++ 0 :: junk) = Ret (blen src).
Proof.
  intros Hs Hj Hl. pose proof (room_bound src). pose proof (blen_nonneg src). set (buf := repeat 0 (Z.to_nat (room src))).
  assert (Hb : blen buf = room src) by (unfold buf, blen; rewrite repeat_length; lia).
  pose proof (blen_nonneg (encoded src)). pose proof (blen_nonneg junk).
  destruct (decode_ok src buf junk Hs ltac:(lia)) as (t & E).
  destruct (pton_do_ok (encoded src ++ 0 :: junk) buf (encoded_ended src junk Hs Hj)) as (n & t' & E' & _ & _ & m & Em & Hm).
  { rewrite blen_app, blen_cons. lia. }
  rewrite E in E'. injection E' as <- _. rewrite Em, Hm by lia. done.
Qed.

(** * Properties *)

(** C21. Encoding any bytes into a buffer with room for the text and its terminator
    gives four characters for every three bytes or part of them; from that text the
    decoder reports the number of the bytes, and gives them back in every buffer that
    has room for them -- one byte more than their number when it is not a multiple of
    three, the smaller buffer is refused. *)
Theorem b64_roundtrip src out buf :
  bytes_ok src → bytes_ok out → blen (encoded src) < blen out < 2 ^ 28 → blen buf < 2 ^ 28 →
  ∃ text, bson_b64_ntop src out (blen out) = Ret (4 * ((blen src + 2) / 3), text)
    ∧ c_string text = Ret (encoded src)
    ∧ bson_b64_pton text None 0 = Ret (blen src, None)
    ∧ if room src <=? blen buf then ∃ t, bson_b64_pton text (Some buf) (blen buf) = Ret (blen src, Some (src ++ t))
      else ∃ t, bson_b64_pton text (Some buf) (blen buf) = Ret (-1, Some t).
Proof.
  intros Hs Ho Hl Hb. pose proof (ntop_ok src [] out Hs ltac:(cbn; lia)) as H. unfold ntop_result in H.
  destruct (Z.ltb_spec (blen (encoded src)) (blen out)); [|lia]. cbn [app] in H. set (junk := drop (S (length (encoded src))) out) in *.
  exists (encoded src ++ 0 :: junk). rewrite encoded_length in *. change (blen [] + ?x) with x in H. split; [exact H|].
  assert (Hj : bytes_ok junk) by by apply Forall_drop. assert (Hjl : blen junk ≤ blen out) by (unfold junk, blen; rewrite length_drop; lia).
  pose proof (blen_nonneg src). assert (Hn : blen src ≤ 4 * ((blen src + 2) / 3)) by (pose proof (Z.div_mod (blen src + 2) 3 ltac:(lia)); pose proof (Z.mod_pos_bound (blen src + 2) 3 ltac:(lia)); lia).
  split; [|split].
  - apply c_string_app. eapply Forall_impl; [by apply encoded_text|]. cbn. lia.
  - unfold bson_b64_pton. rewrite length_ok; [done|done|done|]. rewrite encoded_length. lia.
  - unfold bson_b64_pton. destruct (Z.leb_spec (room src) (blen buf)).
    + destruct (decode_ok src buf junk Hs ltac:(lia)) as (t & ->). by exists t.
    + destruct (decode_small src buf junk Hs ltac:(lia) ltac:(lia)) as (t & ->). by exists t.
Qed.
Lemma b64_roundtrip_witness :
  ∃ text, bson_b64_ntop (cs "foob") (repeat 1 10) (blen (repeat 1 10)) = Ret (4 * ((blen (cs "foob") + 2) / 3), text)
    ∧ c_string text = Ret (encoded (cs "foob")) ∧ bson_b64_pton text None 0 = Ret (blen (cs "foob"), None)
    ∧ if room (cs "foob") <=? blen (repeat 1 4) then ∃ t, bson_b64_pton text (Some (repeat 1 4)) (blen (repeat 1 4)) = Ret (blen (cs "foob"), Some (cs "foob" ++ t))
      else ∃ t, bson_b64_pton text (Some (repeat 1 4)) (blen (repeat 1 4)) = Ret (-1, Some t).
Proof. apply (b64_roundtrip (cs "foob") (repeat 1 10) (repeat 1 4)); [by_check|by_check|split; by vm_compute|by vm_compute]. Defined.

(** C39. Decoding a string from anywhere -- a salt that a server sends, a value in JSON --
    ends, stores nothing outside the target, and either fails or returns the length that
    the dry run without a target returns. *)
Theorem b64_pton_safe src target :
  ended src → blen src + blen target < 2 ^ 31 →
  ∃ n t, bson_b64_pton src (Some target) (blen target) = Ret (n, Some t) ∧ blen t = blen target ∧ -1 ≤ n ≤ blen target
    ∧ ∃ m, bson_b64_pton src None 0 = Ret (m, None) ∧ (n ≠ -1 → m = n).
Proof.
  intros He Hl. destruct (pton_do_ok src target He Hl) as (n & t & E & Ht & Hn & m & Em & Hm). unfold bson_b64_pton. rewrite E, Em. cbn [bind fst snd].
  exists n, t. split; [done|]. split; [done|]. split; [done|]. by exists m.
Qed.
Lemma b64_pton_safe_witness :
  ∃ n t, bson_b64_pton (c_lit "Zm9v YmF=y") (Some (repeat 1 5)) (blen (repeat 1 5)) = Ret (n, Some t) ∧ blen t = blen (repeat 1 5) ∧ -1 ≤ n ≤ blen (repeat 1 5)
    ∧ ∃ m, bson_b64_pton (c_lit "Zm9v YmF=y") None 0 = Ret (m, None) ∧ (n ≠ -1 → m = n).
Proof. apply (b64_pton_safe (c_lit "Zm9v YmF=y") (repeat 1 5)); [split; [by_check|by eexists]|by vm_compute]. Defined.

(** A binary value that the JSON writer prints, the JSON reader reads back. *)
Theorem binary_json_roundtrip v alloc :
  bytes_ok v → blen v < 2 ^ 26 → (∀ n, 0 ≤ n → blen (alloc n) = n) →
  ∃ text, binary_text v = Ret text ∧ binary_data alloc (text ++ [0]) = Ret (Some v).
Proof.
  intros Hv Hl Ha. pose proof (blen_nonneg v). unfold binary_text. set (n := (blen v / 3 + 1) * 4 + 1). set (out := repeat 0 (Z.to_nat n)).
  assert (Hd : 4 * ((blen v + 2) / 3) < n ∧ n < 2 ^ 28).
  { unfold n. pose proof (Z.div_mod (blen v) 3 ltac:(lia)). pose proof (Z.mod_pos_bound (blen v) 3 ltac:(lia)). pose proof (Z.div_mod (blen v + 2) 3 ltac:(lia)).
    pose proof (Z.mod_pos_bound (blen v + 2) 3 ltac:(lia)). lia. }
  assert (Hout : blen out = n) by (unfold out, blen; rewrite repeat_length; pose proof (Z.div_pos (blen v) 3); lia).
  pose proof (ntop_ok v [] out Hv ltac:(cbn; lia)) as H1. unfold ntop_result in H1. rewrite encoded_length in H1. change ([] ++ out) with out in H1.
  destruct (Z.ltb_spec (4 * ((blen v + 2) / 3)) (blen out)); [|lia]. unfold bson_b64_ntop. rewrite Hout in H1. change (blen []) with 0 in H1. rewrite H1.
  cbn [bind fst snd app]. destruct (Z.eqb_spec (0 + 4 * ((blen v + 2) / 3)) (-1)); [lia|]. cbn [negb bson_assert bind].
  exists (encoded v). rewrite c_string_app; [split; [done|]|eapply Forall_impl; [by apply encoded_text|cbn; lia]].
  unfold binary_data, bson_b64_pton. rewrite length_ok; [|done|by constructor|rewrite encoded_length; change (blen []) with 0; lia]. cbn [bind fst].
  destruct (Z.ltb_spec (blen v) 0); [lia|]. pose proof (Ha (blen v + 1) ltac:(lia)) as Hb. pose proof (room_bound v).
  destruct (decode_ok v (alloc (blen v + 1)) [] Hv ltac:(lia)) as (t & E). rewrite Hb in E. rewrite E. cbn [bind fst snd deref].
  destruct (Z.ltb_spec (blen v) 0); [lia|]. do 2 f_equal. unfold blen. rewrite Nat2Z.id. by rewrite take_app_length.
Qed.
