(* ===== verification/MongocTypes.v ===== *)
(** What the components of the driver share: error values ([bson_error_t],
    bson/bson-error.c), the error fields of a server's reply (mongoc-rpc.c), and
    the types of servers and topologies. *)
From S2P Require Import Prelude BsonIter BsonIterSafe BsonFields.
From Stdlib Require Import ZArith Lia List.
From stdpp Require Import prelude strings.
#[local] Open Scope Z_scope.
#[local] Open Scope mongo_scope.

(** ** Errors *)
Record bson_error_t := Error { e_domain : Z; e_code : Z; e_message : list Z }.
#[export] Instance error_eq_dec : EqDecision bson_error_t.
Proof. solve_decision. Defined.
(** zeroed memory *)
Definition no_error : bson_error_t := Error 0 0 [].

(** [message] is the formatted text; the struct keeps 503 bytes of it *)
Definition bson_set_error (domain code : Z) (message : list Z) : bson_error_t :=
  Error domain code (take 503 message).

Definition MONGOC_ERROR_CLIENT : Z := 1.
Definition MONGOC_ERROR_STREAM : Z := 2.
Definition MONGOC_ERROR_PROTOCOL : Z := 3.
Definition MONGOC_ERROR_QUERY : Z := 5.
Definition MONGOC_ERROR_COMMAND : Z := 11.
Definition MONGOC_ERROR_SERVER : Z := 17.
Definition MONGOC_ERROR_TRANSACTION : Z := 18.
Definition MONGOC_ERROR_STREAM_CONNECT : Z := 5.
Definition MONGOC_ERROR_STREAM_NOT_ESTABLISHED : Z := 6.
Definition MONGOC_ERROR_CLIENT_AUTHENTICATE : Z := 11.
Definition MONGOC_ERROR_PROTOCOL_BAD_WIRE_VERSION : Z := 15.
Definition MONGOC_ERROR_QUERY_FAILURE : Z := 17.
Definition MONGOC_ERROR_COMMAND_INVALID_ARG : Z := 22.
Definition MONGOC_ERROR_QUERY_COMMAND_NOT_FOUND : Z := 59.
Definition MONGOC_ERROR_PROTOCOL_ERROR : Z := 17.
Definition MONGOC_ERROR_API_VERSION_2 : Z := 2.

(** ** Fields by type *)

(** [BSON_ITER_HOLDS_...] *)
Definition BSON_ITER_HOLDS (it : bson_iter_t) (t : bson_type_t) : res bool :=
  let* t' := bson_iter_type it in Ret (bool_decide (t' = t)).
Definition BSON_ITER_HOLDS_NUMBER (it : bson_iter_t) : res bool :=
  let* t := bson_iter_type it in
  Ret (bool_decide (t = BSON_TYPE_INT32) || bool_decide (t = BSON_TYPE_INT64)
       || bool_decide (t = BSON_TYPE_DOUBLE)).
(** [bson_iter_init_find (&iter, doc, key) && BSON_ITER_HOLDS_... (&iter)] *)
Definition find_holding (doc : bson_t) (key : list Z) (t : bson_type_t) : res (option bson_iter_t) :=
  let* r := bson_iter_init_find doc key in
  if r.1 then
    let* h := BSON_ITER_HOLDS r.2 t in Ret (if h : bool then Some r.2 else None)
  else Ret None.
(** the same in a sub-document *)
Definition child_holding (it : bson_iter_t) (key : list Z) (t : bson_type_t) : res (option bson_iter_t) :=
  let* child := bson_iter_recurse it in
  match child with
  | None => Stuck AssertFailed
  | Some child =>
      let* r := bson_iter_find child key in
      if r.1 then
        let* h := BSON_ITER_HOLDS r.2 t in Ret (if h : bool then Some r.2 else None)
      else Ret None
  end.
(** [bson_iter_utf8 (&iter, NULL)] read as a C string *)
Definition utf8_string (it : bson_iter_t) : res (list Z) :=
  let* r := bson_iter_utf8 it false in
  let* p := deref r.1 in c_string p.

(** ** Error replies *)

(** found_error, code and msg ([None]: not written) *)
Definition _parse_error_reply (doc : bson_t) (check_wce : bool) : res (bool * Z * option (list Z)) :=
  let* c := find_holding doc (c_lit "code") BSON_TYPE_INT32 in
  let* code := match c with
               | Some it => let* x := bson_iter_int32 it in Ret (u32 x)
               | None => Ret 0
               end in
  let* e := find_holding doc (c_lit "errmsg") BSON_TYPE_UTF8 in
  let* m := match e with Some _ => Ret e | None => find_holding doc (c_lit "$err") BSON_TYPE_UTF8 end in
  let* msg := match m with Some it => let* s := utf8_string it in Ret (Some s) | None => Ret None end in
  if bool_decide (is_Some c) || bool_decide (is_Some m) then Ret (true, code, msg)
  else if check_wce then
    let* w := find_holding doc (c_lit "writeConcernError") BSON_TYPE_DOCUMENT in
    match w with
    | None => Ret (false, code, msg)
    | Some it =>
        let* c := child_holding it (c_lit "code") BSON_TYPE_INT32 in
        let* code := match c with
                     | Some it => let* x := bson_iter_int32 it in Ret (u32 x)
                     | None => Ret code
                     end in
        let* m := child_holding it (c_lit "errmsg") BSON_TYPE_UTF8 in
        let* msg := match m with
                    | Some it => let* s := utf8_string it in Ret (Some s)
                    | None => Ret msg
                    end in
        Ret (bool_decide (is_Some c) || bool_decide (is_Some m), code, msg)
    end
  else Ret (false, code, msg).

(** the code and text both checks report for an error reply *)
Definition reply_error (domain : Z) (code : Z) (msg : option (list Z)) : bson_error_t :=
  let code := if (code =? MONGOC_ERROR_PROTOCOL_ERROR) || (code =? 13390)
              then MONGOC_ERROR_QUERY_COMMAND_NOT_FOUND
              else if code =? 0 then MONGOC_ERROR_QUERY_FAILURE else code in
  bson_set_error domain code (default (cs "Unknown command error") msg).
Definition error_domain (error_api_version : Z) : Z :=
  if error_api_version >=? MONGOC_ERROR_API_VERSION_2 then MONGOC_ERROR_SERVER else MONGOC_ERROR_QUERY.

(** the return value, and the error written ([None]: [*error] is left alone) *)
Definition _mongoc_cmd_check_ok (doc : bson_t) (error_api_version : Z)
    : res (bool * option bson_error_t) :=
  let* r := bson_iter_init_find doc (c_lit "ok") in
  let* ok := if r.1 then bson_iter_as_bool r.2 else Ret false in
  if ok : bool then Ret (true, None)
  else
    let* p := _parse_error_reply doc false in
    let '(found, code, msg) := p in
    if found : bool then Ret (false, Some (reply_error (error_domain error_api_version) code msg))
    else Ret (true, None).
Definition _mongoc_cmd_check_ok_no_wce (doc : bson_t) (error_api_version : Z)
    : res (bool * option bson_error_t) :=
  let* p := _parse_error_reply doc true in
  let '(found, code, msg) := p in
  if found : bool then Ret (false, Some (reply_error (error_domain error_api_version) code msg))
  else Ret (true, None).

(** ** Cluster times (mongoc-client-session.c) *)

(** timestamp and increment of the clusterTime field *)
Definition _mongoc_parse_cluster_time (cluster_time : bson_t) : res (option (Z * Z)) :=
  let* f := find_holding cluster_time (c_lit "clusterTime") BSON_TYPE_TIMESTAMP in
  match f with
  | Some it => let* t := bson_iter_timestamp it in Ret (Some t)
  | None => Ret None
  end.
Definition _mongoc_cluster_time_greater (new old : bson_t) : res bool :=
  let* n := _mongoc_parse_cluster_time new in
  match n with
  | None => Ret false
  | Some (new_t, new_i) =>
      let* o := _mongoc_parse_cluster_time old in
      match o with
      | None => Ret false
      | Some (old_t, old_i) =>
          Ret ((new_t >? old_t) || ((new_t =? old_t) && (new_i >? old_i)))
      end
  end.

(** ** Types of servers and topologies *)
Inductive mongoc_server_description_type_t :=
| MONGOC_SERVER_UNKNOWN | MONGOC_SERVER_STANDALONE | MONGOC_SERVER_MONGOS
| MONGOC_SERVER_POSSIBLE_PRIMARY | MONGOC_SERVER_RS_PRIMARY | MONGOC_SERVER_RS_SECONDARY
| MONGOC_SERVER_RS_ARBITER | MONGOC_SERVER_RS_OTHER | MONGOC_SERVER_RS_GHOST.
#[export] Instance server_type_eq_dec : EqDecision mongoc_server_description_type_t.
Proof. solve_decision. Defined.

Inductive mongoc_topology_description_type_t :=
| MONGOC_TOPOLOGY_UNKNOWN | MONGOC_TOPOLOGY_SHARDED | MONGOC_TOPOLOGY_RS_NO_PRIMARY
| MONGOC_TOPOLOGY_RS_WITH_PRIMARY | MONGOC_TOPOLOGY_SINGLE.
#[export] Instance topology_type_eq_dec : EqDecision mongoc_topology_description_type_t.
Proof. solve_decision. Defined.

(** ** Lemmas *)
Lemma error_reply_code_nonzero domain code msg : e_code (reply_error domain code msg) ≠ 0.
Proof.
  unfold reply_error, bson_set_error. cbn [e_code].
  destruct (_ || _); [done|]. by destruct (Z.eqb_spec code 0).
Qed.

(** the type test and the string read on a positioned iterator *)
Section At.
Variables (it : bson_iter_t) (doc : bson_t) (t : bson_type_t).
Hypothesis Hat : iter_at it doc t.

Lemma HOLDS_at ty : BSON_ITER_HOLDS it ty = Ret (bool_decide (t = ty)).
Proof using Hat. unfold BSON_ITER_HOLDS. by rewrite (bson_iter_type_at _ _ _ Hat). Qed.
Lemma utf8_string_at :
  t = BSON_TYPE_UTF8 → returns (utf8_string it) (λ s, bytes_ok s ∧ Forall (λ b, b ≠ 0) s).
Proof using Hat.
  intros Ht. pose proof (at_bounds _ _ _ Hat) as (Hok & Hb). pose proof (at_field _ _ _ Hat) as Hf.
  rewrite Ht in Hf. destruct Hf as (Hd2 & l & Hl & Hl1 & Hnext & Hnul).
  unfold utf8_string, bson_iter_utf8, string_field. rewrite (if_type_at _ _ _ Hat), decide_True by done.
  cbn [bind]. rewrite (field_ptr_at _ _ _ Hat). cbn [bind fst deref].
  eapply returns_mono; [eapply c_string_ok|].
  - eapply nul_at_lookup; [|exact Hnul]. lia.
  - by apply bytes_ok_ptr_add.
  - intros s (_ & ? & ? & _). done.
Qed.
Lemma utf8_string_not : t ≠ BSON_TYPE_UTF8 → utf8_string it = Stuck NullDeref.
Proof using Hat.
  intros Ht. unfold utf8_string, bson_iter_utf8, string_field.
  by rewrite (if_type_at _ _ _ Hat), decide_False by done.
Qed.
End At.

(** Error replies are read without fault, whatever their bytes. *)
Lemma find_holding_returns doc key ty :
  bson_ok doc → Forall (λ b, b ≠ 0) key →
  returns (find_holding doc (key ++ [0]) ty) (λ o, ∀ it, o = Some it → iter_at it doc ty).
Proof.
  intros Hdoc Hkey. unfold find_holding. eapply returns_bind; [by apply init_find_returns|].
  intros [[] it]; cbn [fst snd]; [|done]. intros [t Hat]. rewrite (HOLDS_at _ _ _ Hat). cbn [bind].
  destruct (bool_decide_reflect (t = ty)) as [->|]; [|done]. cbn [returns]. by intros ? [= <-].
Qed.
Lemma parse_cluster_time_returns d : bson_ok d → returns (_mongoc_parse_cluster_time d) (λ _, True).
Proof.
  intros Hd. unfold _mongoc_parse_cluster_time.
  eapply returns_bind; [by apply (find_holding_returns d (cs "clusterTime")); [|repeat constructor]|].
  intros [it|] Hit; [|done]. eapply returns_bind; [eapply bson_iter_timestamp_at; by apply Hit|done].
Qed.
Lemma child_holding_returns it doc key ty :
  iter_at it doc BSON_TYPE_DOCUMENT → Forall (λ b, b ≠ 0) key →
  returns (child_holding it (key ++ [0]) ty) (λ o, ∀ it', o = Some it' → ∃ data, iter_at it' data ty).
Proof.
  intros Hat Hkey. unfold child_holding. eapply returns_bind; [by eapply bson_iter_recurse_at|].
  intros [child|] Hc; [|by destruct Hc]. destruct Hc as [_ Hc].
  eapply returns_bind; [by apply find_returns|]. intros [[] it'] Hf; cbn [fst snd] in *; [|done].
  destruct Hf as (data & t & _ & Hat'). rewrite (HOLDS_at _ _ _ Hat'). cbn [bind].
  destruct (bool_decide_reflect (t = ty)) as [->|]; [|done]. cbn [returns]. intros ? [= <-]. by exists data.
Qed.
(** the code and the text of an optional field *)
Lemma reply_code_returns c data : (∀ it, c = Some it → iter_at it data BSON_TYPE_INT32) →
  ∀ d, returns (match c with Some it => let* x := bson_iter_int32 it in Ret (u32 x) | None => Ret d end) (λ _, True).
Proof.
  intros H d. destruct c as [it|]; [|done]. eapply returns_bind; [eapply bson_iter_int32_at; by apply H|done].
Qed.
Lemma reply_text_returns m data : (∀ it, m = Some it → iter_at it data BSON_TYPE_UTF8) →
  ∀ d, returns (match m with Some it => let* s := utf8_string it in Ret (Some s) | None => Ret d end) (λ _, True).
Proof.
  intros H d. destruct m as [it|]; [|done]. eapply returns_bind; [eapply utf8_string_at; [by apply H|done]|done].
Qed.
Lemma parse_error_reply_returns doc check_wce : bson_ok doc → returns (_parse_error_reply doc check_wce) (λ _, True).
Proof.
  intros Hdoc. unfold _parse_error_reply.
  eapply returns_bind; [by apply (find_holding_returns doc (cs "code")); [|repeat constructor]|]. intros c Hc.
  eapply returns_bind; [by apply (reply_code_returns _ doc)|]. intros code _.
  eapply returns_bind; [by apply (find_holding_returns doc (cs "errmsg")); [|repeat constructor]|]. intros e He.
  assert (Hm : returns (match e with Some _ => Ret e | None => find_holding doc (c_lit "$err") BSON_TYPE_UTF8 end)
    (λ o, ∀ it, o = Some it → iter_at it doc BSON_TYPE_UTF8)).
  { destruct e as [it|]; [exact He|]. apply (find_holding_returns doc (cs "$err")); [done|repeat constructor]; done. }
  eapply returns_bind; [exact Hm|]. intros m Hm'.
  eapply returns_bind; [by apply (reply_text_returns _ doc)|]. intros msg _. destruct (_ || _); [done|].
  destruct check_wce; [|done].
  eapply returns_bind; [by apply (find_holding_returns doc (cs "writeConcernError")); [|repeat constructor]|]. intros [w|] Hw; [|done].
  specialize (Hw w eq_refl).
  eapply returns_bind; [by apply (child_holding_returns w doc (cs "code")); [|repeat constructor]|]. intros c2 Hc2.
  assert (Hcode : returns (match c2 with Some it => let* x := bson_iter_int32 it in Ret (u32 x) | None => Ret code end) (λ _, True)).
  { destruct c2 as [it|]; [|done]. destruct (Hc2 it eq_refl) as [data Hat].
    refine (reply_code_returns (Some it) data _ code). intros ? [= <-]. exact Hat. }
  eapply returns_bind; [exact Hcode|]. intros code2 _.
  eapply returns_bind; [by apply (child_holding_returns w doc (cs "errmsg")); [|repeat constructor]|]. intros m2 Hm2.
  assert (Hmsg : returns (match m2 with Some it => let* s := utf8_string it in Ret (Some s) | None => Ret msg end) (λ _, True)).
  { destruct m2 as [it|]; [|done]. destruct (Hm2 it eq_refl) as [data Hat].
    refine (reply_text_returns (Some it) data _ msg). intros ? [= <-]. exact Hat. }
  eapply returns_bind; [exact Hmsg|]. done.
Qed.
Lemma cmd_check_ok_no_wce_returns doc v :
  bson_ok doc → returns (_mongoc_cmd_check_ok_no_wce doc v) (λ r, r.1 = false → is_Some r.2).
Proof.
  intros Hdoc. unfold _mongoc_cmd_check_ok_no_wce. eapply returns_bind; [by apply parse_error_reply_returns|].
  intros [[[] code] msg] _; [by exists (reply_error (error_domain v) code msg)|done].
Qed.
Lemma cmd_check_ok_returns doc v : bson_ok doc → returns (_mongoc_cmd_check_ok doc v) (λ _, True).
Proof.
  intros Hdoc. unfold _mongoc_cmd_check_ok.
  eapply returns_bind; [by apply (init_find_returns doc (cs "ok") []); [|repeat constructor]|]. intros [f it] Hf.
  cbn [fst snd] in *.
  assert (Hb : returns (if f then bson_iter_as_bool it else Ret false) (λ _, True)).
  { destruct f; [|done]. destruct Hf as [t Hat]. by eapply bson_iter_as_bool_at. }
  eapply returns_bind; [exact Hb|]. intros [] _; [done|].
  eapply returns_bind; [by apply parse_error_reply_returns|]. by intros [[[] code] msg] _.
Qed.
