(* ===== verification/Timegm.v ===== *)
(** Calendar time (bson/bson-timegm.c): the broken-down time of a number of seconds, and
    the binary search for the seconds of a broken-down time.

    [int_fast32_t] has 64 bits, as on 64-bit Linux; [TM_ZONE] and [TM_GMTOFF] are not
    defined, so the two fields of the struct with these names are not kept. *)
From Stdlib Require Import ZArith Lia List.
From stdpp Require Import prelude.
From S2P Require Import Prelude.
#[local] Open Scope Z_scope.
#[local] Open Scope mongo_scope.

Record bson_tm := Tm {
  tm_sec : Z;
  tm_min : Z;
  tm_hour : Z;
  tm_mday : Z;
  tm_mon : Z;
  tm_year : Z;
  tm_wday : Z;
  tm_yday : Z;
  tm_isdst : Z
}.
Definition tm_eta (t : bson_tm) : bson_tm :=
  Tm (tm_sec t) (tm_min t) (tm_hour t) (tm_mday t) (tm_mon t) (tm_year t) (tm_wday t) (tm_yday t) (tm_isdst t).
Definition set_sec : Z → bson_tm → bson_tm := ltac:(setter tm_eta tm_sec).
Definition set_year : Z → bson_tm → bson_tm := ltac:(setter tm_eta tm_year).
Definition set_isdst : Z → bson_tm → bson_tm := ltac:(setter tm_eta tm_isdst).

Definition SECSPERMIN : Z := 60.
Definition MINSPERHOUR : Z := 60.
Definition HOURSPERDAY : Z := 24.
Definition DAYSPERWEEK : Z := 7.
Definition DAYSPERNYEAR : Z := 365.
Definition DAYSPERLYEAR : Z := 366.
Definition SECSPERHOUR : Z := 3600.
Definition SECSPERDAY : Z := 86400.
Definition MONSPERYEAR : Z := 12.
Definition TM_YEAR_BASE : Z := 1900.
Definition EPOCH_YEAR : Z := 1970.
Definition EPOCH_WDAY : Z := 4.
Definition time_t_min : Z := - 2 ^ 63.
Definition time_t_max : Z := 2 ^ 63 - 1.
Definition INT_MIN : Z := - 2 ^ 31.
Definition INT_FAST32_MAX : Z := 2 ^ 63 - 1.
Definition INT_FAST32_MIN : Z := - 2 ^ 63.
Definition WRONG : Z := -1.

Definition isleap (y : Z) : bool := (Z.rem y 4 =? 0) && (negb (Z.rem y 100 =? 0) || (Z.rem y 400 =? 0)).
Definition mon_lengths (leap : bool) : list Z :=
  [31; if leap then 29 else 28; 31; 30; 31; 30; 31; 31; 30; 31; 30; 31].
Definition year_lengths (leap : bool) : Z := if leap then DAYSPERLYEAR else DAYSPERNYEAR.

(** ** The state of a time zone; only GMT is ever loaded *)
Definition TZ_MAX_TIMES : nat := 2000.
Definition TZ_MAX_TYPES : nat := 256.
Definition TZ_MAX_LEAPS : nat := 50.
Record ttinfo := TtInfo { tt_gmtoff : Z; tt_isdst : Z }.
Record lsinfo := LsInfo { ls_trans : Z; ls_corr : Z }.
Record state := State {
  leapcnt : Z;
  timecnt : Z;
  typecnt : Z;
  st_types : list Z;
  ttis : list ttinfo;
  lsis : list lsinfo
}.
Definition gmtload : state :=
  State 0 0 1 (repeat 0 TZ_MAX_TIMES) (repeat (TtInfo 0 0) TZ_MAX_TYPES) (repeat (LsInfo 0 0) TZ_MAX_LEAPS).
Definition gmtptr : state := gmtload.
(** [a[i]] *)
Definition at_index {A} (a : list A) (i : Z) : res A :=
  if i <? 0 then Stuck OutOfBounds else match a !! Z.to_nat i with Some x => Ret x | None => Stuck OutOfBounds end.

(** ** Arithmetic that reports overflow

    [None] when the sum leaves the range; the limits are those of [int], or of
    [int_fast32_t], although the numbers have 64 bits. *)
Definition increment_overflow (i j : Z) : res (option Z) :=
  let* limit := (if i >=? 0 then chk64 (INT_MAX - i) else chk64 (INT_MIN - i)) in
  if (if i >=? 0 then j >? limit else j <? limit) then Ret None else let* s := chk64 (i + j) in Ret (Some s).
Definition increment_overflow32 (l m : Z) : res (option Z) :=
  let* limit := (if l >=? 0 then chk64 (INT_FAST32_MAX - l) else chk64 (INT_FAST32_MIN - l)) in
  if (if l >=? 0 then m >? limit else m <? limit) then Ret None else let* s := chk64 (l + m) in Ret (Some s).
(** the tens ([None] on overflow) and the units *)
Definition tens_delta (units base : Z) : Z :=
  if units >=? 0 then Z.quot units base else -1 - Z.quot (-1 - units) base.
Definition normalize_overflow (tens units base : Z) : res (option Z * Z) :=
  let d := tens_delta units base in
  let* p := chk64 (d * base) in
  let* units := chk64 (units - p) in
  let* t := increment_overflow tens d in
  Ret (t, units).
Definition normalize_overflow32 (tens units base : Z) : res (option Z * Z) :=
  let d := tens_delta units base in
  let* p := chk64 (d * base) in
  let* units := chk64 (units - p) in
  let* t := increment_overflow32 tens d in
  Ret (t, units).

(** the number of leap years through the end of a year; its recursion has depth one *)
Definition leaps_from_zero (y : Z) : Z := Z.quot y 4 - Z.quot y 100 + Z.quot y 400.
Definition leaps_thru_end_of (y : Z) : Z :=
  if y >=? 0 then leaps_from_zero y else - (leaps_from_zero (- (y + 1)) + 1).

(** ** Broken-down time *)

(** the leap seconds: how many coincide with the time, and the correction *)
Fixpoint leap_hits (fuel : nat) (sp : state) (i hit : Z) : res Z :=
  match fuel with
  | O => Stuck OutOfFuel
  | S fuel' =>
      if i >? 0 then
        let* a := at_index (lsis sp) i in
        let* b := at_index (lsis sp) (i - 1) in
        if (ls_trans a =? ls_trans b + 1) && (ls_corr a =? ls_corr b + 1) then leap_hits fuel' sp (i - 1) (hit + 1) else Ret hit
      else Ret hit
  end.
Fixpoint leap_correction (fuel : nat) (sp : state) (i timep : Z) : res (Z * Z) :=
  match fuel with
  | O => Stuck OutOfFuel
  | S fuel' =>
      let i := i - 1 in
      if i <? 0 then Ret (0, 0)
      else
        let* lp := at_index (lsis sp) i in
        if timep >=? ls_trans lp then
          if timep =? ls_trans lp then
            let* h := (if (i =? 0) && (ls_corr lp >? 0) then Ret true
                       else let* before := at_index (lsis sp) (i - 1) in Ret (ls_corr lp >? ls_corr before)) in
            let* hit := (if h : bool then leap_hits fuel' sp i 1 else Ret 0) in
            Ret (hit, ls_corr lp)
          else Ret (0, ls_corr lp)
        else leap_correction fuel' sp i timep
  end.

(** The year that a day falls in: steps of whole years until the days left are within
    one.  [None] when the year leaves the range of [int]. *)
Fixpoint find_year (fuel : nat) (y tdays : Z) : res (option (Z * Z)) :=
  match fuel with
  | O => Stuck OutOfFuel
  | S fuel' =>
      if (tdays <? 0) || (tdays >=? year_lengths (isleap y)) then
        let tdelta := Z.quot tdays DAYSPERLYEAR in
        let idelta := if tdelta =? 0 then (if tdays <? 0 then -1 else 1) else tdelta in
        let* newy := increment_overflow y idelta in
        match newy with
        | None => Ret None
        | Some newy =>
            let leapdays := leaps_thru_end_of (newy - 1) - leaps_thru_end_of (y - 1) in
            let* tdays := chk64 (tdays - (newy - y) * DAYSPERNYEAR) in
            let* tdays := chk64 (tdays - leapdays) in
            find_year fuel' newy tdays
        end
      else Ret (Some (y, tdays))
  end.
(** days and seconds brought within a day *)
Fixpoint carry_up (fuel : nat) (rem idays : Z) : res (Z * Z) :=
  match fuel with
  | O => Stuck OutOfFuel
  | S fuel' => if rem <? 0 then carry_up fuel' (rem + SECSPERDAY) (idays - 1) else Ret (rem, idays)
  end.
Fixpoint carry_down (fuel : nat) (rem idays : Z) : res (Z * Z) :=
  match fuel with
  | O => Stuck OutOfFuel
  | S fuel' => if rem >=? SECSPERDAY then carry_down fuel' (rem - SECSPERDAY) (idays + 1) else Ret (rem, idays)
  end.
(** days brought within a year *)
Fixpoint years_down (fuel : nat) (y idays : Z) : res (option (Z * Z)) :=
  match fuel with
  | O => Stuck OutOfFuel
  | S fuel' =>
      if idays <? 0 then
        let* y := increment_overflow y (-1) in
        match y with None => Ret None | Some y => years_down fuel' y (idays + year_lengths (isleap y)) end
      else Ret (Some (y, idays))
  end.
Fixpoint years_up (fuel : nat) (y idays : Z) : res (option (Z * Z)) :=
  match fuel with
  | O => Stuck OutOfFuel
  | S fuel' =>
      if idays >=? year_lengths (isleap y) then
        let idays := idays - year_lengths (isleap y) in
        let* y := increment_overflow y 1 in
        match y with None => Ret None | Some y => years_up fuel' y idays end
      else Ret (Some (y, idays))
  end.
Fixpoint find_month (fuel : nat) (ip : list Z) (mon idays : Z) : res (Z * Z) :=
  match fuel with
  | O => Stuck OutOfFuel
  | S fuel' =>
      let* len := at_index ip mon in
      if idays >=? len then find_month fuel' ip (mon + 1) (idays - len) else Ret (mon, idays)
  end.
(** halving the days takes 48 rounds at most; carrying takes a few *)
Definition year_fuel : nat := 50.
Definition carry_fuel : nat := 4.

(** whether it succeeds, and [*tmp] *)
Definition timesub (timep offset : Z) (sp : state) (tmp : bson_tm) : res (bool * bson_tm) :=
  let* l := leap_correction (S (Z.to_nat (leapcnt sp))) sp (leapcnt sp) timep in
  let '(hit, corr) := l in
  let tdays := Z.quot timep SECSPERDAY in
  let rem := timep - tdays * SECSPERDAY in
  let* f := find_year year_fuel EPOCH_YEAR tdays in
  match f with
  | None => Ret (false, tmp)
  | Some (y, tdays) =>
      let* seconds := chk64 (tdays * SECSPERDAY) in
      let tdays := Z.quot seconds SECSPERDAY in
      let rem := rem + (seconds - tdays * SECSPERDAY) in
      let* d := chk64 (offset - corr) in
      let* rem := chk64 (rem + d) in
      let* r := carry_up carry_fuel rem tdays in
      let* r := carry_down carry_fuel r.1 r.2 in
      let '(rem, idays) := r in
      let* f := years_down carry_fuel y idays in
      match f with
      | None => Ret (false, tmp)
      | Some (y, idays) =>
          let* f := years_up carry_fuel y idays in
          match f with
          | None => Ret (false, tmp)
          | Some (y, idays) =>
              let* year := increment_overflow y (- TM_YEAR_BASE) in
              match year with
              | None => Ret (false, set_year y tmp)
              | Some year =>
                  let wday := Z.rem (EPOCH_WDAY + Z.rem (y - EPOCH_YEAR) DAYSPERWEEK * Z.rem DAYSPERNYEAR DAYSPERWEEK
                                     + leaps_thru_end_of (y - 1) - leaps_thru_end_of (EPOCH_YEAR - 1) + idays) DAYSPERWEEK in
                  let wday := if wday <? 0 then wday + DAYSPERWEEK else wday in
                  let hour := Z.quot rem SECSPERHOUR in
                  let rem := Z.rem rem SECSPERHOUR in
                  let min := Z.quot rem SECSPERMIN in
                  let sec := Z.rem rem SECSPERMIN + hit in
                  let* m := find_month 12 (mon_lengths (isleap y)) 0 idays in
                  Ret (true, Tm sec min hour (m.2 + 1) m.1 year wday idays 0)
              end
          end
      end
  end.
Definition gmtsub (timep offset : Z) (tmp : bson_tm) : res (bool * bson_tm) := timesub timep offset gmtptr tmp.

(** ** The search for the seconds *)
Definition tmcomp (a b : bson_tm) : Z :=
  if negb (tm_year a =? tm_year b) then (if tm_year a <? tm_year b then -1 else 1)
  else if negb (tm_mon a - tm_mon b =? 0) then tm_mon a - tm_mon b
  else if negb (tm_mday a - tm_mday b =? 0) then tm_mday a - tm_mday b
  else if negb (tm_hour a - tm_hour b =? 0) then tm_hour a - tm_hour b
  else if negb (tm_min a - tm_min b =? 0) then tm_min a - tm_min b
  else tm_sec a - tm_sec b.

(** [None] when an addition overflows ([return WRONG]) *)
Fixpoint days_up (fuel : nat) (y mon mday : Z) : res (option (Z * Z)) :=
  match fuel with
  | O => Stuck OutOfFuel
  | S fuel' =>
      if mday <=? 0 then
        let* y := increment_overflow32 y (-1) in
        match y with
        | None => Ret None
        | Some y =>
            let* li := chk64 (y + (if 1 <? mon then 1 else 0)) in
            days_up fuel' y mon (mday + year_lengths (isleap li))
        end
      else Ret (Some (y, mday))
  end.
Fixpoint days_down (fuel : nat) (y mon mday : Z) : res (option (Z * Z)) :=
  match fuel with
  | O => Stuck OutOfFuel
  | S fuel' =>
      if mday >? DAYSPERLYEAR then
        let* li := chk64 (y + (if 1 <? mon then 1 else 0)) in
        let mday := mday - year_lengths (isleap li) in
        let* y := increment_overflow32 y 1 in
        match y with None => Ret None | Some y => days_down fuel' y mon mday end
      else Ret (Some (y, mday))
  end.
Fixpoint months_down (fuel : nat) (y mon mday : Z) : res (option (Z * Z * Z)) :=
  match fuel with
  | O => Stuck OutOfFuel
  | S fuel' =>
      let* i := at_index (mon_lengths (isleap y)) mon in
      if mday <=? i then Ret (Some (y, mon, mday))
      else
        let mday := mday - i in
        if mon + 1 >=? MONSPERYEAR then
          let* y := increment_overflow32 y 1 in
          match y with None => Ret None | Some y => months_down fuel' y 0 mday end
        else months_down fuel' y (mon + 1) mday
  end.
(** the range of the days decides how many years are stepped over *)
Definition days_fuel (mday : Z) : nat := S (S (Z.to_nat (Z.quot (Z.abs mday) DAYSPERNYEAR))).
Definition months_fuel : nat := 14.

Section Search.
Variable funcp : Z → Z → bson_tm → res (bool * bson_tm).
Variable offset : Z.
Definition tm_zero : bson_tm := Tm 0 0 0 0 0 0 0 0 0.

(** the indexes from the last to the first *)
Definition indexes_down (n : Z) : list Z := reverse (seqZ 0 n).
Definition index_pairs (n : Z) : list (Z * Z) := i ← indexes_down n; j ← indexes_down n; [(i, j)].
(** the right time with the wrong type: a time of the right type is looked for *)
Fixpoint hunt (pairs : list (Z * Z)) (yourtm : bson_tm) (t : Z) : res (option Z) :=
  match pairs with
  | [] => Ret None
  | (i, j) :: pairs' =>
      let* ti := at_index (ttis gmtptr) i in
      let* tj := at_index (ttis gmtptr) j in
      if negb (tt_isdst ti =? tm_isdst yourtm) || (tt_isdst tj =? tm_isdst yourtm) then hunt pairs' yourtm t
      else
        let* newt := chk64 (t + tt_gmtoff tj) in
        let* newt := chk64 (newt - tt_gmtoff ti) in
        let* r := funcp newt offset tm_zero in
        if r.1 && (tmcomp r.2 yourtm =? 0) && (tm_isdst r.2 =? tm_isdst yourtm) then Ret (Some newt) else hunt pairs' yourtm t
  end.
(** [None] is [return WRONG] *)
Fixpoint search (fuel : nat) (yourtm : bson_tm) (lo hi : Z) : res (option Z) :=
  match fuel with
  | O => Stuck OutOfFuel
  | S fuel' =>
      let t := Z.quot lo 2 + Z.quot hi 2 in
      let t := if t <? lo then lo else if t >? hi then hi else t in
      let* r := funcp t offset tm_zero in
      let dir := if negb r.1 then (if t >? 0 then 1 else -1) else tmcomp r.2 yourtm in
      if negb (dir =? 0) then
        if (t =? lo) && (t =? time_t_max) || negb (t =? lo) && (t =? hi) && (t =? time_t_min) then Ret None
        else
          let '(t, lo, hi) := if t =? lo then (t + 1, lo + 1, hi) else if t =? hi then (t - 1, lo, hi - 1) else (t, lo, hi) in
          if lo >? hi then Ret None
          else if dir >? 0 then search fuel' yourtm lo t else search fuel' yourtm t hi
      else if (tm_isdst yourtm <? 0) || (tm_isdst r.2 =? tm_isdst yourtm) then Ret (Some t)
      else hunt (index_pairs (typecnt gmtptr)) yourtm t
  end.
(** the range of 64 bits is halved in each round *)
Definition search_fuel : nat := 80.

(** the seconds that are left out of the search, and those that are searched for *)
Definition split_seconds (sec y : Z) : res (option (Z * Z)) :=
  if (sec >=? 0) && (sec <? SECSPERMIN) then Ret (Some (0, sec))
  else
    let* year := chk64 (y + TM_YEAR_BASE) in
    if year <? EPOCH_YEAR then
      let* s := increment_overflow sec (1 - SECSPERMIN) in
      match s with None => Ret None | Some s => Ret (Some (s, SECSPERMIN - 1)) end
    else Ret (Some (sec, 0)).
(** the fields with the units in their ranges, but for the seconds without [do_norm_secs] *)
Definition normalized (tmp : bson_tm) (do_norm_secs : bool) : res (option bson_tm) :=
  let wrong : res (option bson_tm) := Ret None in
  let* s := (if do_norm_secs then normalize_overflow (tm_min tmp) (tm_sec tmp) SECSPERMIN else Ret (Some (tm_min tmp), tm_sec tmp)) in
  match s with (None, _) => wrong | (Some min, sec) =>
  let* s := normalize_overflow (tm_hour tmp) min MINSPERHOUR in
  match s with (None, _) => wrong | (Some hour, min) =>
  let* s := normalize_overflow (tm_mday tmp) hour HOURSPERDAY in
  match s with (None, _) => wrong | (Some mday, hour) =>
  let* s := normalize_overflow32 (tm_year tmp) (tm_mon tmp) MONSPERYEAR in
  match s with (None, _) => wrong | (Some y, mon) =>
  let* s := increment_overflow32 y TM_YEAR_BASE in
  match s with None => wrong | Some y =>
  let* s := days_up (days_fuel mday) y mon mday in
  match s with None => wrong | Some (y, mday) =>
  let* s := days_down (days_fuel mday) y mon mday in
  match s with None => wrong | Some (y, mday) =>
  let* s := months_down months_fuel y mon mday in
  match s with None => wrong | Some (y, mon, mday) =>
  let* s := increment_overflow32 y (- TM_YEAR_BASE) in
  match s with None => wrong | Some y => Ret (Some (Tm sec min hour mday mon y (tm_wday tmp) (tm_yday tmp) (tm_isdst tmp)))
  end end end end end end end end end.
(** the time, whether it is right, and [*tmp] *)
Definition time2sub (tmp : bson_tm) (do_norm_secs : bool) : res (Z * bool * bson_tm) :=
  let wrong : res (Z * bool * bson_tm) := Ret (WRONG, false, tmp) in
  let* n := normalized tmp do_norm_secs in
  match n with None => wrong | Some yourtm =>
  let* s := split_seconds (tm_sec yourtm) (tm_year yourtm) in
  match s with None => wrong | Some (saved_seconds, sec) =>
  let* f := search search_fuel (set_sec sec yourtm) time_t_min time_t_max in
  match f with None => wrong | Some t =>
  let* newt := chk64 (t + saved_seconds) in
  if negb (Bool.eqb (newt <? t) (saved_seconds <? 0)) then wrong
  else let* r := funcp newt offset tmp in Ret (newt, r.1, r.2)
  end end end.
Definition time2 (tmp : bson_tm) : res (Z * bool * bson_tm) :=
  let* r := time2sub tmp false in
  let '(t, okay, tmp) := r in
  if okay : bool then Ret r else time2sub tmp true.

(** the types of the transitions, each once *)
Fixpoint seen_types (indexes types : list Z) : res (list Z) :=
  match indexes with
  | [] => Ret types
  | i :: indexes' =>
      let* ty := at_index (st_types gmtptr) i in
      seen_types indexes' (if decide (ty ∈ types) then types else types ++ [ty])
  end.
Fixpoint try_types (pairs : list (Z * Z)) (tmp : bson_tm) : res (Z * bson_tm) :=
  match pairs with
  | [] => Ret (WRONG, tmp)
  | (samei, otheri) :: pairs' =>
      let* same := at_index (ttis gmtptr) samei in
      let* other := at_index (ttis gmtptr) otheri in
      if negb (tt_isdst same =? tm_isdst tmp) || (tt_isdst other =? tm_isdst tmp) then try_types pairs' tmp
      else
        let* sec := chk64 (tm_sec tmp + (tt_gmtoff other - tt_gmtoff same)) in
        let* r := time2 (set_isdst (if tm_isdst tmp =? 0 then 1 else 0) (set_sec sec tmp)) in
        let '(t, okay, tmp) := r in
        if okay : bool then Ret (t, tmp)
        else
          let* sec := chk64 (tm_sec tmp - (tt_gmtoff other - tt_gmtoff same)) in
          try_types pairs' (set_isdst (if tm_isdst tmp =? 0 then 1 else 0) (set_sec sec tmp))
  end.
Definition time1 (tmp : bson_tm) : res (Z * bson_tm) :=
  let tmp := if tm_isdst tmp >? 1 then set_isdst 1 tmp else tmp in
  let* r := time2 tmp in
  let '(t, okay, tmp) := r in
  if okay : bool then Ret (t, tmp)
  else if tm_isdst tmp <? 0 then Ret (t, tmp)
  else
    let* types := seen_types (indexes_down (timecnt gmtptr)) [] in
    try_types (s ← types; o ← types; [(s, o)]) tmp.
End Search.

Definition _bson_timegm (tmp : bson_tm) : res (Z * bson_tm) := time1 gmtsub 0 (set_isdst 0 tmp).
