(* ===== verification/TimegmProps.v ===== *)
(** Calendar time: the days of the proleptic Gregorian calendar, that [timesub] and
    [_bson_timegm] compute with them, and that the binary search ends. *)
From Stdlib Require Import ZArith Lia List.
From stdpp Require Import prelude.
From S2P Require Import Prelude Timegm.
#[local] Open Scope Z_scope.
#[local] Open Scope mongo_scope.

(** ** The calendar *)
Definition leaps (y : Z) : Z := y / 4 - y / 100 + y / 400.
Lemma rem_zero a b : 0 < b → (Z.rem a b =? 0) = (a mod b =? 0).
Proof. intros Hb. apply Bool.eq_iff_eq_true. rewrite !Z.eqb_eq, Z.rem_divide, Z.mod_divide by lia. done. Qed.
Lemma isleap_mod y : isleap y = (y mod 4 =? 0) && (negb (y mod 100 =? 0) || (y mod 400 =? 0)).
Proof. unfold isleap. by rewrite !rem_zero by lia. Qed.
Lemma leaps_thru y : leaps_thru_end_of y = leaps y.
Proof.
  unfold leaps_thru_end_of, leaps_from_zero, leaps. destruct (Z.geb_spec y 0).
  - by rewrite !Z.quot_div_nonneg by lia.
  - rewrite !Z.quot_div_nonneg by lia. Z.to_euclidean_division_equations. lia.
Qed.
Lemma leaps_step y : leaps y = leaps (y - 1) + (if isleap y then 1 else 0).
Proof.
  rewrite isleap_mod. unfold leaps.
  destruct (Z.eqb_spec (y mod 4) 0), (Z.eqb_spec (y mod 100) 0), (Z.eqb_spec (y mod 400) 0); cbn [andb orb negb]; Z.to_euclidean_division_equations; lia.
Qed.
Lemma leaps_between y k : 0 ≤ k → 0 ≤ leaps (y + k) - leaps y ≤ k.
Proof.
  intros Hk. revert k Hk. apply natlike_ind; [rewrite Z.add_0_r; lia|]. intros k Hk IH.
  rewrite (leaps_step (y + Z.succ k)). replace (y + Z.succ k - 1) with (y + k) by lia. destruct (isleap _); lia.
Qed.

(** days from the epoch to the first of January *)
Definition day_of (y : Z) : Z := 365 * (y - 1970) + leaps (y - 1) - leaps 1969.
Lemma year_len b : year_lengths b = if b then 366 else 365.
Proof. done. Qed.
Lemma year_len_range b : 365 ≤ year_lengths b ≤ 366.
Proof. destruct b; rewrite year_len; lia. Qed.
Lemma day_of_next y : day_of (y + 1) = day_of y + year_lengths (isleap y).
Proof. unfold day_of. replace (y + 1 - 1) with y by lia. rewrite (leaps_step y), year_len. destruct (isleap y); lia. Qed.
Lemma day_of_mono y z : y ≤ z → 365 * (z - y) ≤ day_of z - day_of y ≤ 366 * (z - y).
Proof. intros H. pose proof (leaps_between (y - 1) (z - y) ltac:(lia)) as Hl. replace (y - 1 + (z - y)) with (z - 1) in Hl by lia. unfold day_of. lia. Qed.
Lemma day_of_lt y z : y < z → day_of y + year_lengths (isleap y) ≤ day_of z.
Proof. intros H. rewrite <- day_of_next. pose proof (day_of_mono (y + 1) z ltac:(lia)). lia. Qed.
Lemma day_of_bounds y : 365 * Z.min 0 (y - 1970) + Z.min 0 (y - 1970) ≤ day_of y ≤ 366 * Z.max 0 (y - 1970).
Proof.
  assert (day_of 1970 = 0) by done. destruct (Z.le_gt_cases y 1970).
  - pose proof (day_of_mono y 1970 ltac:(lia)). lia.
  - pose proof (day_of_mono 1970 y ltac:(lia)). lia.
Qed.

(** days from the first of January to the first of a month *)
Definition total (l : list Z) : Z := fold_right Z.add 0 l.
Definition month_start (leap : bool) (mon : Z) : Z := total (take (Z.to_nat mon) (mon_lengths leap)).
Definition month_len (leap : bool) (mon : Z) : Z := default 0 (mon_lengths leap !! Z.to_nat mon).
Lemma month_at leap mon : 0 ≤ mon < 12 → at_index (mon_lengths leap) mon = Ret (month_len leap mon).
Proof.
  intros H. unfold at_index, month_len. destruct (Z.ltb_spec mon 0); [lia|].
  destruct (lookup_lt_is_Some_2 (mon_lengths leap) (Z.to_nat mon)) as [x ->]; [cbn [length mon_lengths]; lia|done].
Qed.
Lemma twelve (P : Z → Prop) : P 0 → P 1 → P 2 → P 3 → P 4 → P 5 → P 6 → P 7 → P 8 → P 9 → P 10 → P 11 → ∀ mon, 0 ≤ mon < 12 → P mon.
Proof.
  intros. assert (Hm : mon = 0 ∨ mon = 1 ∨ mon = 2 ∨ mon = 3 ∨ mon = 4 ∨ mon = 5 ∨ mon = 6 ∨ mon = 7 ∨ mon = 8 ∨ mon = 9 ∨ mon = 10 ∨ mon = 11) by lia.
  by repeat (destruct Hm as [->|Hm]; [done|]); subst.
Qed.
Lemma month_next leap mon :
  0 ≤ mon < 12 → month_start leap (mon + 1) = month_start leap mon + month_len leap mon ∧ 28 ≤ month_len leap mon ≤ 31.
Proof. revert mon. apply twelve; destruct leap; by vm_compute. Qed.
Lemma month_mono leap m n : 0 ≤ m < n → n ≤ 12 → month_start leap m + month_len leap m ≤ month_start leap n.
Proof.
  intros H Hn. enough (Hk : ∀ k, 0 ≤ k → m + 1 + k ≤ 12 → month_start leap m + month_len leap m ≤ month_start leap (m + 1 + k)).
  { specialize (Hk (n - m - 1) ltac:(lia) ltac:(lia)). by replace (m + 1 + (n - m - 1)) with n in Hk by lia. }
  apply (natlike_ind (λ k, m + 1 + k ≤ 12 → month_start leap m + month_len leap m ≤ month_start leap (m + 1 + k))).
  - intros _. rewrite Z.add_0_r. destruct (month_next leap m ltac:(lia)) as [-> _]. lia.
  - intros k Hk IH H1. replace (m + 1 + Z.succ k) with (m + 1 + k + 1) by lia. destruct (month_next leap (m + 1 + k) ltac:(lia)) as [-> ?].
    specialize (IH ltac:(lia)). lia.
Qed.
Lemma month_start_year leap : month_start leap 12 = year_lengths leap.
Proof. by destruct leap. Qed.

(** ** The seconds of a broken-down time *)
Definition day_number (y mon mday : Z) : Z := day_of y + month_start (isleap y) mon + (mday - 1).
Definition seconds_of (t : bson_tm) : Z :=
  86400 * day_number (tm_year t + 1900) (tm_mon t) (tm_mday t) + 3600 * tm_hour t + 60 * tm_min t + tm_sec t.
Record valid (t : bson_tm) : Prop := {
  va_sec : 0 ≤ tm_sec t < 60;
  va_min : 0 ≤ tm_min t < 60;
  va_hour : 0 ≤ tm_hour t < 24;
  va_mon : 0 ≤ tm_mon t < 12;
  va_mday : 1 ≤ tm_mday t ≤ month_len (isleap (tm_year t + 1900)) (tm_mon t)
}.
Lemma day_in_year t : valid t →
  0 ≤ month_start (isleap (tm_year t + 1900)) (tm_mon t) + (tm_mday t - 1) < year_lengths (isleap (tm_year t + 1900)).
Proof.
  intros [_ _ _ Hm Hd]. set (b := isleap _) in *. rewrite <- month_start_year.
  pose proof (month_mono b (tm_mon t) 12 ltac:(lia) ltac:(lia)) as H.
  assert (0 ≤ month_start b (tm_mon t)); [|lia]. destruct (Z.eq_dec (tm_mon t) 0) as [->|]; [done|].
  pose proof (month_mono b 0 (tm_mon t) ltac:(lia) ltac:(lia)) as H0. destruct (month_next b 0 ltac:(lia)) as [_ ?]. change (month_start b 0) with 0 in H0. lia.
Qed.
Lemma tmcomp_compare a b : valid a → valid b → (tmcomp a b ?= 0) = (seconds_of a ?= seconds_of b).
Proof.
  intros Ha Hb. pose proof (day_in_year a Ha). pose proof (day_in_year b Hb). destruct Ha as [As Am Ah Ao Ad], Hb as [Bs Bm Bh Bo Bd].
  assert (Hlt : ∀ x y : Z, x < y → (x ?= y) = Lt) by (intros; by apply Z.compare_lt_iff).
  assert (Hgt : ∀ x y : Z, y < x → (x ?= y) = Gt) by (intros; by apply Z.compare_gt_iff).
  unfold tmcomp, seconds_of, day_number in *. destruct (Z.eqb_spec (tm_year a) (tm_year b)) as [Ey|Ey]; cbn [negb].
  2: { destruct (Z.ltb_spec (tm_year a) (tm_year b)).
       - pose proof (day_of_lt (tm_year a + 1900) (tm_year b + 1900) ltac:(lia)). rewrite !Hlt by lia. done.
       - pose proof (day_of_lt (tm_year b + 1900) (tm_year a + 1900) ltac:(lia)). rewrite !Hgt by lia. done. }
  rewrite Ey in *. set (l := isleap _) in *. destruct (Z.eqb_spec (tm_mon a - tm_mon b) 0) as [Em|Em]; cbn [negb].
  2: { destruct (Z.lt_ge_cases (tm_mon a) (tm_mon b)).
       - pose proof (month_mono l (tm_mon a) (tm_mon b) ltac:(lia) ltac:(lia)). rewrite !Hlt by lia. done.
       - pose proof (month_mono l (tm_mon b) (tm_mon a) ltac:(lia) ltac:(lia)). rewrite !Hgt by lia. done. }
  replace (tm_mon a) with (tm_mon b) by lia.
  assert (Hsame : ∀ x y c : Z, x - y = c → (c ?= 0) = (x ?= y)).
  { intros x y c <-. destruct (Z.compare_spec x y); [rewrite H1, Z.sub_diag; done|apply Hlt; lia|apply Hgt; lia]. }
  assert (Hsign : ∀ x y c : Z, (c < 0 ∧ x < y) ∨ (0 < c ∧ y < x) → (c ?= 0) = (x ?= y)).
  { intros x y c [[? ?]|[? ?]]; [rewrite !Hlt by lia|rewrite !Hgt by lia]; done. }
  repeat match goal with |- ((if negb (?c =? 0) then _ else _) ?= 0) = _ => destruct (Z.eqb_spec c 0); cbn [negb]; [|apply Hsign; lia] end.
  apply Hsame. lia.
Qed.

(** ** From seconds to a date *)
Lemma increment_spec i j :
  - 2 ^ 62 ≤ i ≤ 2 ^ 62 → - 2 ^ 62 ≤ j ≤ 2 ^ 62 →
  (increment_overflow i j = Ret (Some (i + j)) ∨ increment_overflow i j = Ret None ∧ (0 ≤ i ∧ INT_MAX < i + j ∨ i < 0 ∧ i + j < INT_MIN))
  ∧ (INT_MIN ≤ i + j ≤ INT_MAX → increment_overflow i j = Ret (Some (i + j))).
Proof.
  intros Hi Hj. unfold increment_overflow, INT_MAX, INT_MIN in *. destruct (Z.geb_spec i 0).
  - rewrite chk64_ok by (unfold in_s64; lia). cbn [bind]. destruct (Z.gtb_spec j (2147483647 - i)); [split; [right|lia]; split; [done|lia]|].
    rewrite chk64_ok by (unfold in_s64; lia). split; [by left|done].
  - rewrite chk64_ok by (unfold in_s64; lia). cbn [bind]. destruct (Z.ltb_spec j (- 2 ^ 31 - i)); [split; [right|lia]; split; [done|lia]|].
    rewrite chk64_ok by (unfold in_s64; lia). split; [by left|done].
Qed.

(** what is left is within a year; or the year is out of the range of [int] *)
Definition year_found (D : Z) (r : option (Z * Z)) : Prop :=
  match r with
  | Some (y, d) => day_of y + d = D ∧ 0 ≤ d < year_lengths (isleap y) ∧ - 2 ^ 52 ≤ y ≤ 2 ^ 52
  | None => 2 ^ 38 < Z.abs D
  end.
Lemma find_year_here fuel y d D :
  0 ≤ d < year_lengths (isleap y) → D = day_of y + d → - 2 ^ 52 ≤ y ≤ 2 ^ 52 → returns (find_year (S fuel) y d) (year_found D).
Proof.
  intros Hd -> Hy. cbn [find_year]. destruct (Z.ltb_spec d 0); [lia|]. destruct (Z.geb_spec d (year_lengths (isleap y))); [lia|]. by cbn.
Qed.
(** a step: towards the year by a 366th of the days, or by one year *)
Lemma find_year_step fuel y d D :
  d < 0 ∧ y ≤ 1970 ∨ year_lengths (isleap y) ≤ d ∧ 1970 ≤ y → D = day_of y + d → - 2 ^ 51 ≤ y ≤ 2 ^ 51 → - 2 ^ 51 ≤ d ≤ 2 ^ 51 →
  (∀ k y' d', 1 ≤ k → y' = (if d <? 0 then y - k else y + k) → D = day_of y' + d' →
     (366 * k ≤ Z.abs d < 366 * (k + 1) ∧ (0 ≤ d → 0 ≤ d' ≤ d - 365 * k) ∧ (d < 0 → d + 365 * k ≤ d' ≤ 0)
      ∨ k = 1 ∧ 0 ≤ d' < year_lengths (isleap y')) → returns (find_year fuel y' d') (year_found D)) →
  returns (find_year (S fuel) y d) (year_found D).
Proof.
  intros Hd -> Hy Hb Hnext. cbn [find_year]. set (len := year_lengths (isleap y)) in *. pose proof (year_len_range (isleap y)) as Hlen. fold len in Hlen.
  assert ((d <? 0) || (d >=? len) = true) as -> by (destruct (Z.ltb_spec d 0), (Z.geb_spec d len); done || lia).
  unfold DAYSPERLYEAR, DAYSPERNYEAR.
  set (k := if decide (Z.abs d < 366) then 1 else Z.abs d / 366).
  assert (Hk : 1 ≤ k ∧ (Z.abs d < 366 ∧ k = 1 ∨ 366 * k ≤ Z.abs d < 366 * (k + 1))).
  { unfold k. destruct (decide _); [lia|]. pose proof (Z.div_mod (Z.abs d) 366). pose proof (Z.mod_pos_bound (Z.abs d) 366). nia. }
  assert (Hi : (if Z.quot d 366 =? 0 then (if d <? 0 then -1 else 1) else Z.quot d 366) = if d <? 0 then - k else k).
  { unfold k. destruct (Z.ltb_spec d 0).
    - rewrite Z.abs_neq by lia. assert (Z.quot d 366 = - (- d / 366)) as -> by (rewrite <- Z.quot_div_nonneg, Z.quot_opp_l by lia; lia).
      destruct (decide (- d < 366)); [rewrite Z.div_small by lia; done|].
      destruct (Z.eqb_spec (- (- d / 366)) 0); [|done]. pose proof (Z.div_le_mono 366 (- d) 366 ltac:(lia) ltac:(lia)) as Hz. change (366 / 366) with 1 in Hz. lia.
    - rewrite Z.abs_eq by lia. rewrite Z.quot_div_nonneg by lia. destruct (decide (d < 366)); [rewrite Z.div_small by lia; done|].
      destruct (Z.eqb_spec (d / 366) 0); [|done]. pose proof (Z.div_le_mono 366 d 366 ltac:(lia) ltac:(lia)) as Hz. change (366 / 366) with 1 in Hz. lia. }
  rewrite Hi. clear Hi. set (y' := if d <? 0 then y - k else y + k). set (j := if d <? 0 then - k else k).
  assert (Hy' : y' = y + j) by (unfold y', j; destruct (d <? 0); lia).
  assert (Hdist : if d <? 0 then 365 * k ≤ day_of y - day_of y' ≤ 366 * k else 365 * k ≤ day_of y' - day_of y ≤ 366 * k).
  { unfold y'. destruct (d <? 0); [pose proof (day_of_mono (y - k) y)|pose proof (day_of_mono y (y + k))]; lia. }
  assert (Hlast : d < 0 → k = 1 → day_of y = day_of y' + year_lengths (isleap y')).
  { intros H0 ->. unfold y'. destruct (Z.ltb_spec d 0); [|lia]. rewrite <- day_of_next. f_equal. lia. }
  assert (Hfirst : 0 ≤ d → k = 1 → day_of y' = day_of y + len).
  { intros H0 ->. unfold y'. destruct (Z.ltb_spec d 0); [lia|]. apply day_of_next. }
  pose proof (year_len_range (isleap y')) as Hlen'.
  destruct (increment_spec y j) as [[->|[-> Hover]] _]; [lia|unfold j; destruct (d <? 0); lia| |].
  - cbn [bind]. rewrite <- Hy', !leaps_thru.
    assert (Hd' : d - (y' - y) * 365 - (leaps (y' - 1) - leaps (y - 1)) = day_of y + d - day_of y') by (unfold day_of; lia).
    assert (Hsmall : - 2 ^ 60 ≤ d - (y' - y) * 365 ≤ 2 ^ 60) by (rewrite Hy'; unfold j; destruct (d <? 0); lia).
    rewrite chk64_ok by (unfold in_s64; lia). cbn [bind]. rewrite Hd'.
    rewrite chk64_ok by (unfold in_s64; destruct (d <? 0); lia). cbn [bind]. apply (Hnext k); [lia|done|lia|].
    destruct (Z.ltb_spec d 0).
    + destruct Hk as (_ & [[Hs Hk1]|Hk]); [right; split; [done|]; specialize (Hlast ltac:(lia) Hk1); lia|]. left. split; [done|]. split; lia.
    + destruct Hk as (_ & [[Hs Hk1]|Hk]); [right; split; [done|]; specialize (Hfirst ltac:(lia) Hk1); lia|]. left. split; [done|]. split; lia.
  - cbn [bind]. cbn. unfold INT_MAX, INT_MIN in *. rewrite <- Hy' in Hover. unfold j in *.
    destruct Hover as [[H0 H1]|[H0 H1]]; destruct (Z.ltb_spec d 0); try lia.
    + pose proof (day_of_mono 1970 y' ltac:(lia)) as Hm. change (day_of 1970) with 0 in Hm. lia.
    + pose proof (day_of_mono y' 1970 ltac:(lia)) as Hm. change (day_of 1970) with 0 in Hm. lia.
Qed.

(** the rounds that are left do not depend on what is on the other side of the epoch *)
Definition year_left (y d : Z) : Prop :=
  (0 ≤ d < year_lengths (isleap y) ∨ d < 0 ∧ y ≤ 1970 ∨ year_lengths (isleap y) ≤ d ∧ 1970 ≤ y) ∧ Z.abs y + Z.abs d ≤ 2 ^ 50.
Lemma find_year_round fuel y d D :
  year_left y d → D = day_of y + d →
  (∀ y' d', year_left y' d' → D = day_of y' + d' → 366 ≤ Z.abs d → Z.abs d' ≤ 365 + Z.abs d / 366 → Z.abs d' ≤ Z.abs d - 365 →
     returns (find_year (S fuel) y' d') (year_found D)) →
  returns (find_year (S (S fuel)) y d) (year_found D).
Proof.
  intros [Hd Hb] HD Hnext. destruct Hd as [Hd|Hd]; [apply find_year_here; [done|done|lia]|].
  apply find_year_step; [tauto|done|lia|lia|]. intros k y' d' Hk Hy' HD' [(H1 & H2 & H3)|[-> H1]].
  2: { apply find_year_here; [done|done|]. rewrite Hy'. destruct (d <? 0); lia. }
  assert (Hq : k = Z.abs d / 366).
  { apply (Z.div_unique_pos _ _ _ (Z.abs d - 366 * k)); lia. }
  apply Hnext; [|done|lia|lia|lia]. pose proof (year_len_range (isleap y')). pose proof (year_len_range (isleap y)). split; [|destruct (Z.ltb_spec d 0); lia].
  destruct (Z.ltb_spec d 0); [destruct (decide (d' = 0)); [left; lia|right; left; lia]|].
  destruct (decide (d' < year_lengths (isleap y'))); [left; lia|right; right; lia].
Qed.
Lemma find_year_ok f y d D :
  year_left y d → D = day_of y + d → Z.abs d < 734 * 2 ^ Z.of_nat f → returns (find_year (f + 4) y d) (year_found D).
Proof.
  revert y d. induction f as [|f IH]; intros y d Hl HD Hb.
  - change (0 + 4)%nat with 4%nat. apply find_year_round; [done|done|]. intros y1 d1 L1 D1 B1 C1 E1. pose proof (Z.div_lt_upper_bound (Z.abs d) 366 3 ltac:(lia) ltac:(lia)).
    apply find_year_round; [done|done|]. intros y2 d2 L2 D2 B2 C2 E2.
    apply find_year_round; [done|done|]. intros y3 d3 L3 D3 B3 C3 E3. lia.
  - rewrite Nat2Z.inj_succ, Z.pow_succ_r in Hb by lia. change (S f + 4)%nat with (S (f + 4)). replace (f + 4)%nat with (S (f + 3)) by lia.
    apply find_year_round; [done|done|]. intros y1 d1 L1 D1 B1 C1 E1. replace (S (f + 3)) with (f + 4)%nat by lia. apply IH; [done|done|].
    pose proof (Z.pow_pos_nonneg 2 (Z.of_nat f)). destruct (decide (Z.abs d < 734)); [lia|].
    pose proof (Z.mul_div_le (Z.abs d) 366). lia.
Qed.

Lemma find_month_ok fuel ip mon idays :
  0 ≤ mon ≤ Z.of_nat (length ip) → (length ip ≤ Z.to_nat mon + fuel)%nat → 0 ≤ idays → Forall (λ x, 0 ≤ x) ip →
  idays < total (drop (Z.to_nat mon) ip) →
  ∃ m d len, find_month fuel ip mon idays = Ret (m, d) ∧ mon ≤ m ∧ ip !! Z.to_nat m = Some len ∧ 0 ≤ d < len
    ∧ total (take (Z.to_nat m) ip) + d = total (take (Z.to_nat mon) ip) + idays.
Proof.
  revert mon idays. induction fuel as [|fuel IH]; intros mon idays Hm Hf Hi Hip Ht.
  { rewrite drop_ge in Ht by lia. cbn in Ht. lia. }
  destruct (decide (Z.to_nat mon < length ip)%nat) as [Hlt|]; [|rewrite drop_ge in Ht by lia; cbn in Ht; lia].
  destruct (lookup_lt_is_Some_2 ip _ Hlt) as [len Hlen]. cbn [find_month]. unfold at_index. destruct (Z.ltb_spec mon 0); [lia|]. rewrite Hlen. cbn [bind].
  rewrite (drop_S _ _ _ Hlen) in Ht. change (total (len :: drop (S (Z.to_nat mon)) ip)) with (len + total (drop (S (Z.to_nat mon)) ip)) in Ht.
  destruct (Z.geb_spec idays len); [|exists mon, idays, len; split; [done|]; split; [lia|]; done].
  assert (Hs : Z.to_nat (mon + 1) = S (Z.to_nat mon)) by lia.
  destruct (IH (mon + 1) (idays - len)) as (m & d & l & E & Hm' & Hl & Hd & Hs'); [lia|lia|lia|done|by rewrite Hs; lia|].
  exists m, d, l. split; [done|]. split; [lia|]. split; [done|]. split; [done|]. rewrite Hs', Hs, (take_S_r _ _ _ Hlen). unfold total. rewrite fold_right_app. cbn [fold_right].
  enough (∀ l0 a : _, fold_right Z.add a l0 = fold_right Z.add 0 l0 + a) as -> by lia. clear. intros l0 a. induction l0; cbn; lia.
Qed.
Lemma month_of_day leap idays :
  0 ≤ idays < year_lengths leap →
  ∃ m d, find_month 12 (mon_lengths leap) 0 idays = Ret (m, d) ∧ 0 ≤ m < 12 ∧ 0 ≤ d < month_len leap m ∧ month_start leap m + d = idays.
Proof.
  intros Hi. rewrite <- month_start_year in Hi. destruct (find_month_ok 12 (mon_lengths leap) 0 idays) as (m & d & len & E & Hm & Hl & Hd & Ht).
  - cbn. lia.
  - cbn. lia.
  - lia.
  - unfold mon_lengths. by repeat (constructor; [destruct leap; lia|]).
  - apply Hi.
  - exists m, d. split; [done|]. pose proof (lookup_lt_Some _ _ _ Hl) as Hlt. change (length (mon_lengths leap)) with 12%nat in Hlt. split; [lia|].
    unfold month_len, month_start. rewrite Hl. cbn [default from_option id]. split; [done|]. by rewrite Ht.
Qed.

(** [gmtsub] fails only far away *)
Definition far : Z := 2 ^ 50.
Lemma gmtsub_ok timep tmp :
  - 2 ^ 63 ≤ timep < 2 ^ 63 →
  returns (gmtsub timep 0 tmp) (λ r, if r.1 then valid r.2 ∧ seconds_of r.2 = timep ∧ tm_isdst r.2 = 0 else far < Z.abs timep).
Proof.
  intros Ht. unfold gmtsub, timesub. change (leap_correction _ gmtptr (leapcnt gmtptr) timep) with (Ret (0, 0)). cbn [bind]. unfold SECSPERDAY.
  set (q := Z.quot timep 86400). set (r := timep - q * 86400).
  assert (Hr : - 86400 < r < 86400 ∧ timep = q * 86400 + r ∧ - 2 ^ 47 ≤ q ≤ 2 ^ 47).
  { unfold r, q. pose proof (Z.quot_rem' timep 86400). pose proof (Z.rem_bound_abs timep 86400 ltac:(lia)). lia. }
  destruct Hr as (Hr & Hq & Hqb).
  assert (Hyear : returns (find_year year_fuel EPOCH_YEAR q) (year_found q)).
  { apply (find_year_ok 46 EPOCH_YEAR q q); [|unfold EPOCH_YEAR; change (day_of 1970) with 0; lia|lia]. unfold EPOCH_YEAR.
    pose proof (year_len_range (isleap 1970)). split; [|lia]. destruct (decide (q < 0)); [right; left; lia|].
    destruct (decide (q < year_lengths (isleap 1970))); [left; lia|right; right; lia]. }
  apply returns_Ret in Hyear as ([[y d]|] & -> & Hy); cbn [bind]; [|cbn in *; unfold far; lia].
  destruct Hy as (HD & Hd & Hyb). pose proof (year_len_range (isleap y)). rewrite chk64_ok by (unfold in_s64; lia). cbn [bind].
  rewrite Z.quot_mul by lia. change (0 - 0) with 0. rewrite (chk64_ok 0) by (unfold in_s64; lia). cbn [bind]. rewrite Z.sub_diag, !Z.add_0_r.
  rewrite (chk64_ok r) by (unfold in_s64; lia). cbn [bind].
  set (r' := if r <? 0 then r + 86400 else r). set (i' := if r <? 0 then d - 1 else d).
  assert (carry_up carry_fuel r d = Ret (r', i')) as ->.
  { unfold carry_fuel, r', i', SECSPERDAY. cbn [carry_up]. destruct (Z.ltb_spec r 0); [|done]. unfold SECSPERDAY. destruct (Z.ltb_spec (r + 86400) 0); [lia|done]. }
  cbn [bind fst snd]. assert (Hr' : 0 ≤ r' < 86400 ∧ timep = (day_of y + i') * 86400 + r') by (unfold r', i'; destruct (Z.ltb_spec r 0); lia).
  assert (carry_down carry_fuel r' i' = Ret (r', i')) as ->.
  { unfold carry_fuel. cbn [carry_down]. unfold SECSPERDAY. destruct (Z.geb_spec r' 86400); [lia|done]. }
  cbn [bind]. assert (Hi' : -1 ≤ i' < year_lengths (isleap y)) by (unfold i'; destruct (r <? 0); lia).
  assert (Hdown : returns (years_down carry_fuel y i') (λ f, match f with
    | Some (y', i2) => 0 ≤ i2 < year_lengths (isleap y') ∧ day_of y' + i2 = day_of y + i' ∧ - 2 ^ 53 ≤ y' ≤ 2 ^ 53 | None => far < Z.abs timep end)).
  { unfold carry_fuel. cbn [years_down]. destruct (Z.ltb_spec i' 0); [|cbn; lia]. replace i' with (-1) in * by lia.
    pose proof (day_of_next (y + -1)) as Hn. replace (y + -1 + 1) with y in Hn by lia. pose proof (year_len_range (isleap (y + -1))).
    destruct (increment_spec y (-1)) as [[->|[-> Hover]] _]; [lia|lia| |].
    - cbn [bind years_down]. destruct (Z.ltb_spec (-1 + year_lengths (isleap (y + -1))) 0); [lia|]. cbn. lia.
    - cbn. unfold far, INT_MAX, INT_MIN in *. destruct Hover as [[H3 H4]|[H3 H4]]; [pose proof (day_of_mono 1970 y ltac:(lia)) as Hm|pose proof (day_of_mono y 1970 ltac:(lia)) as Hm];
        change (day_of 1970) with 0 in Hm; clear - Hr' Hm H3 H4; lia. }
  apply returns_Ret in Hdown as ([[y2 i2]|] & -> & Hdown); cbn [bind]; [|exact Hdown]. destruct Hdown as (Hi2 & Hsame & Hy2).
  assert (years_up carry_fuel y2 i2 = Ret (Some (y2, i2))) as ->.
  { unfold carry_fuel. cbn [years_up]. destruct (Z.geb_spec i2 (year_lengths (isleap y2))); [lia|done]. }
  cbn [bind]. change (- TM_YEAR_BASE) with (-1900).
  destruct (increment_spec y2 (-1900)) as [[->|[-> Hover]] _]; [lia|lia| |].
  2: { cbn. pose proof (year_len_range (isleap y2)) as Hyl. clear - Hover Hi2 Hsame Hr' Hyl. unfold far, INT_MAX, INT_MIN in *. rewrite <- Hsame in Hr'. destruct Hr' as [Hr Ht']. rewrite Ht'. clear Ht'.
       destruct Hover as [[H3 H4]|[H3 H4]]; [pose proof (day_of_mono 1970 y2 ltac:(lia)) as Hm|pose proof (day_of_mono y2 1970 ltac:(lia)) as Hm];
         change (day_of 1970) with 0 in Hm; [rewrite Z.abs_eq by lia|rewrite Z.abs_neq by lia]; lia. }
  cbn [bind]. destruct (month_of_day (isleap y2) i2 Hi2) as (m & dd & -> & Hm & Hdd & Hsum). cbn [bind returns fst snd].
  unfold SECSPERHOUR, SECSPERMIN. pose proof (Z.mod_pos_bound r' 3600 ltac:(lia)) as Hh.
  rewrite (Z.quot_div_nonneg r' 3600), (Z.rem_mod_nonneg r' 3600) by lia. rewrite (Z.quot_div_nonneg (r' mod 3600)), (Z.rem_mod_nonneg (r' mod 3600)) by lia.
  pose proof (Z.div_mod r' 3600). pose proof (Z.div_mod (r' mod 3600) 60). pose proof (Z.mod_pos_bound (r' mod 3600) 60).
  assert (r' / 3600 < 24) by (apply Z.div_lt_upper_bound; lia). assert (r' mod 3600 / 60 < 60) by (apply Z.div_lt_upper_bound; lia).
  assert (0 ≤ r' / 3600) by (apply Z.div_pos; lia). assert (0 ≤ r' mod 3600 / 60) by (apply Z.div_pos; lia).
  replace (y2 + -1900 + 1900) with y2 in * by lia.
  split; [|split; [|done]].
  - constructor; cbn; rewrite ?Z.add_0_r; try lia. replace (y2 + -1900 + 1900) with y2 by lia. lia.
  - unfold seconds_of, day_number. cbn. replace (y2 + -1900 + 1900) with y2 by lia. lia.
Qed.

(** ** The binary search *)
Lemma quot2_bounds x : 2 * Z.quot x 2 - 1 ≤ x ≤ 2 * Z.quot x 2 + 1.
Proof. pose proof (Z.quot_rem' x 2). pose proof (Z.rem_bound_abs x 2 ltac:(lia)). lia. Qed.
Lemma search_ok f yourtm lo hi :
  valid yourtm → tm_isdst yourtm = 0 → Z.abs (seconds_of yourtm) ≤ far → - 2 ^ 63 ≤ lo → hi < 2 ^ 63 →
  lo ≤ seconds_of yourtm ≤ hi → hi - lo ≤ 2 ^ Z.of_nat f + 2 →
  search gmtsub 0 (f + 4) yourtm lo hi = Ret (Some (seconds_of yourtm)).
Proof.
  intros Hv Hdst Hfar. set (T := seconds_of yourtm) in *.
  enough (Hgo : ∀ n lo hi, - 2 ^ 63 ≤ lo → hi < 2 ^ 63 → lo ≤ T ≤ hi →
    (hi - lo < Z.of_nat n ∨ ∃ k : nat, (k + 4 ≤ n)%nat ∧ hi - lo ≤ 2 ^ Z.of_nat k + 2) → search gmtsub 0 n yourtm lo hi = Ret (Some T)).
  { intros H1 H2 H3 H4. apply Hgo; [done|done|done|]. right. by exists f. }
  clear lo hi. induction n as [|n IH]; intros lo hi Hlo Hhi HT Hw; [destruct Hw as [|(? & ? & ?)]; lia|]. cbn [search].
  set (t0 := Z.quot lo 2 + Z.quot hi 2). set (t := if t0 <? lo then lo else if t0 >? hi then hi else t0).
  pose proof (quot2_bounds lo). pose proof (quot2_bounds hi).
  assert (Ht : lo ≤ t ≤ hi ∧ 2 * t - 2 ≤ lo + hi ≤ 2 * t + 2).
  { assert (Ht0 : 2 * t0 - 2 ≤ lo + hi ≤ 2 * t0 + 2) by (unfold t0; lia). clearbody t0. unfold t. destruct (Z.ltb_spec t0 lo); [lia|]. destruct (Z.gtb_spec t0 hi); lia. }
  pose proof (gmtsub_ok t tm_zero ltac:(lia)) as Hg. apply returns_Ret in Hg as ([ok m] & -> & Hg). cbn [bind fst snd] in *.
  set (dir := if negb ok then (if t >? 0 then 1 else -1) else tmcomp m yourtm).
  assert (Hdir : (dir ?= 0) = (t ?= T)).
  { unfold dir. destruct ok; cbn [negb].
    - destruct Hg as (Hm & Hs & _). rewrite <- Hs. by apply tmcomp_compare.
    - symmetry. destruct (Z.gtb_spec t 0); [apply Z.compare_gt_iff|apply Z.compare_lt_iff]; lia. }
  assert (Hn : ∀ a b, lo ≤ a → b ≤ hi → b - a < hi - lo → 2 * (b - a) ≤ hi - lo + 2 ∨ hi - lo ≤ 3 →
    b - a < Z.of_nat n ∨ ∃ k : nat, (k + 4 ≤ n)%nat ∧ b - a ≤ 2 ^ Z.of_nat k + 2).
  { intros a b Ha Hb Hlt Hhalf. destruct Hw as [Hw|(k & Hk & Hw)]; [left; lia|]. destruct k as [|k]; [left; change (2 ^ Z.of_nat 0) with 1 in Hw; lia|].
    rewrite Nat2Z.inj_succ, Z.pow_succ_r in Hw by lia. destruct Hhalf; [|left; lia]. right. exists k. split; [lia|lia]. }
  destruct (Z.compare_spec t T) as [E|E|E].
  - apply Z.compare_eq_iff in Hdir. rewrite Hdir. cbn [Z.eqb negb]. destruct ok; [|lia]. destruct Hg as (_ & _ & Hd). rewrite Hd, Hdst. cbn. by rewrite E.
  - apply (proj1 (Z.compare_lt_iff _ _)) in Hdir. destruct (Z.eqb_spec dir 0); [lia|]. cbn [negb]. unfold time_t_max, time_t_min.
    destruct (Z.eqb_spec t lo) as [El|El]; cbn [negb andb orb].
    + destruct (Z.eqb_spec t (2 ^ 63 - 1)); [lia|]. destruct (Z.gtb_spec (lo + 1) hi); [lia|]. destruct (Z.gtb_spec dir 0); [lia|].
      rewrite El in *. apply IH; [lia|lia|lia|]. apply Hn; lia.
    + destruct (Z.eqb_spec t hi); [lia|]. cbn [andb]. destruct (Z.gtb_spec lo hi); [lia|]. destruct (Z.gtb_spec dir 0); [lia|].
      apply IH; [lia|lia|lia|]. apply Hn; lia.
  - apply (proj1 (Z.compare_gt_iff _ _)) in Hdir. destruct (Z.eqb_spec dir 0); [lia|]. cbn [negb]. unfold time_t_max, time_t_min.
    destruct (Z.eqb_spec t lo) as [El|El]; [lia|]. cbn [negb andb orb]. destruct (Z.eqb_spec t hi) as [Eh|Eh]; cbn [andb].
    + destruct (Z.eqb_spec t (- 2 ^ 63)); [lia|]. destruct (Z.gtb_spec lo (hi - 1)); [lia|]. destruct (Z.gtb_spec dir 0); [|lia].
      apply IH; [lia|lia|lia|]. apply Hn; lia.
    + destruct (Z.gtb_spec lo hi); [lia|]. destruct (Z.gtb_spec dir 0); [|lia]. apply IH; [lia|lia|lia|]. apply Hn; lia.
Qed.

(** ** From a date to seconds *)

(** the fields that a parser accepts: a day may be past the end of its month, and a
    minute may have a leap second *)
Record parsed (t : bson_tm) : Prop := {
  pa_sec : 0 ≤ tm_sec t ≤ 60;
  pa_min : 0 ≤ tm_min t < 60;
  pa_hour : 0 ≤ tm_hour t < 24;
  pa_mon : 0 ≤ tm_mon t < 12;
  pa_mday : 1 ≤ tm_mday t ≤ 31;
  pa_year : -1000000 ≤ tm_year t ≤ 1000000
}.
Lemma increment32_ok i j : - 2 ^ 62 ≤ i ≤ 2 ^ 62 → - 2 ^ 62 ≤ j < 2 ^ 62 → increment_overflow32 i j = Ret (Some (i + j)).
Proof.
  intros Hi Hj. unfold increment_overflow32, INT_FAST32_MAX, INT_FAST32_MIN. destruct (Z.geb_spec i 0).
  - rewrite chk64_ok by (unfold in_s64; lia). cbn [bind]. destruct (Z.gtb_spec j (2 ^ 63 - 1 - i)); [lia|]. by rewrite chk64_ok by (unfold in_s64; lia).
  - rewrite chk64_ok by (unfold in_s64; lia). cbn [bind]. destruct (Z.ltb_spec j (- 2 ^ 63 - i)); [lia|]. by rewrite chk64_ok by (unfold in_s64; lia).
Qed.
Lemma tens_small units base : 0 ≤ units < base → tens_delta units base = 0.
Proof. intros H. unfold tens_delta. destruct (Z.geb_spec units 0); [|lia]. apply Z.quot_small. lia. Qed.
Lemma normalize_small tens units base :
  - 2 ^ 30 ≤ tens ≤ 2 ^ 30 → 0 ≤ units < base → base ≤ 60 →
  normalize_overflow tens units base = Ret (Some tens, units) ∧ normalize_overflow32 tens units base = Ret (Some tens, units).
Proof.
  intros Ht Hu Hb. unfold normalize_overflow, normalize_overflow32. rewrite tens_small by done. cbv zeta. rewrite Z.mul_0_l. rewrite (chk64_ok 0) by (unfold in_s64; lia).
  cbn [bind]. rewrite Z.sub_0_r, chk64_ok by (unfold in_s64; lia). cbn [bind].
  rewrite (proj2 (increment_spec tens 0 ltac:(lia) ltac:(lia))) by (unfold INT_MIN, INT_MAX; lia). rewrite increment32_ok by lia. cbn [bind].
  by rewrite Z.add_0_r.
Qed.
Lemma months_down_round fuel y mon mday :
  0 ≤ mon < 12 → - 2 ^ 60 ≤ y ≤ 2 ^ 60 →
  months_down (S fuel) y mon mday =
    if mday <=? month_len (isleap y) mon then Ret (Some (y, mon, mday))
    else if mon + 1 >=? 12 then months_down fuel (y + 1) 0 (mday - month_len (isleap y) mon)
    else months_down fuel y (mon + 1) (mday - month_len (isleap y) mon).
Proof. intros Hm Hy. cbn [months_down]. rewrite month_at by done. cbn [bind]. by rewrite increment32_ok by lia. Qed.
(** a day past the end of its month is in the next one *)
Lemma months_down_ok y mon mday :
  - 2000000 ≤ y ≤ 2000000 → 0 ≤ mon < 12 → 1 ≤ mday ≤ 31 →
  ∃ y' mon' mday', months_down months_fuel y mon mday = Ret (Some (y', mon', mday')) ∧ 0 ≤ mon' < 12
    ∧ 1 ≤ mday' ≤ month_len (isleap y') mon' ∧ day_number y' mon' mday' = day_number y mon mday ∧ y ≤ y' ≤ y + 1.
Proof.
  intros Hy Hm Hd. unfold months_fuel. rewrite months_down_round by lia.
  destruct (Z.leb_spec mday (month_len (isleap y) mon)); [exists y, mon, mday; split; [done|]; lia|].
  destruct (month_next (isleap y) mon Hm) as [Hs Hl].
  destruct (Z.geb_spec (mon + 1) 12).
  - assert (mon = 11) as -> by lia. assert (month_len (isleap y) 11 = 31) by (by destruct (isleap y)). lia.
  - rewrite months_down_round by lia. destruct (month_next (isleap y) (mon + 1) ltac:(lia)) as [_ Hl'].
    destruct (Z.leb_spec (mday - month_len (isleap y) mon) (month_len (isleap y) (mon + 1))); [|lia].
    exists y, (mon + 1), (mday - month_len (isleap y) mon). split; [done|]. unfold day_number. lia.
Qed.
Lemma normalized_ok tmp :
  parsed tmp → ∃ t, normalized tmp false = Ret (Some t) ∧ tm_sec t = tm_sec tmp ∧ valid (set_sec 0 t) ∧ seconds_of t = seconds_of tmp
    ∧ tm_isdst t = tm_isdst tmp ∧ -1000000 ≤ tm_year t ≤ 1000001.
Proof.
  intros [Hs Hmi Hh Hmo Hd Hy]. unfold normalized. cbn [bind]. unfold MINSPERHOUR, HOURSPERDAY, MONSPERYEAR.
  rewrite (proj1 (normalize_small (tm_hour tmp) (tm_min tmp) 60 ltac:(lia) ltac:(lia) ltac:(lia))). cbn [bind].
  rewrite (proj1 (normalize_small (tm_mday tmp) (tm_hour tmp) 24 ltac:(lia) ltac:(lia) ltac:(lia))). cbn [bind].
  rewrite (proj2 (normalize_small (tm_year tmp) (tm_mon tmp) 12 ltac:(lia) ltac:(lia) ltac:(lia))). cbn [bind].
  unfold TM_YEAR_BASE. rewrite increment32_ok by lia. cbn [bind]. unfold days_fuel. cbn [days_up].
  destruct (Z.leb_spec (tm_mday tmp) 0); [lia|]. cbn [bind days_down]. unfold DAYSPERLYEAR. destruct (Z.gtb_spec (tm_mday tmp) 366); [lia|]. cbn [bind].
  destruct (months_down_ok (tm_year tmp + 1900) (tm_mon tmp) (tm_mday tmp)) as (y & mon & mday & E & Hm & Hmd & Hdn & Hy'); [lia|lia|lia|].
  rewrite E. cbn [bind]. change (- (1900)) with (-1900). rewrite increment32_ok by lia. cbn [bind]. eexists. split; [done|]. cbn.
  unfold seconds_of. cbn. replace (y + -1900 + 1900) with y by lia. rewrite Hdn. split; [done|]. split; [|split; [done|split; [done|lia]]].
  constructor; cbn; try lia. by replace (y + -1900 + 1900) with y by lia.
Qed.
Lemma seconds_of_sec s t : seconds_of (set_sec s t) = seconds_of t - tm_sec t + s.
Proof. unfold seconds_of. cbn. lia. Qed.
Lemma seconds_near t : valid (set_sec 0 t) → -1000000 ≤ tm_year t ≤ 1000001 → Z.abs (seconds_of (set_sec 0 t)) ≤ 2 ^ 46.
Proof.
  intros Hv Hy. pose proof (day_in_year _ Hv) as Hd. destruct Hv as [_ Hmi Hh _ _]. cbn in *.
  pose proof (year_len_range (isleap (tm_year t + 1900))). pose proof (day_of_bounds (tm_year t + 1900)). unfold seconds_of, day_number. cbn. lia.
Qed.

Lemma time2sub_ok tmp :
  parsed tmp → tm_isdst tmp = 0 → ∃ t, time2sub gmtsub 0 tmp false = Ret (seconds_of tmp, true, t) ∧ valid t ∧ seconds_of t = seconds_of tmp.
Proof.
  intros Hp Hdst. destruct (normalized_ok tmp Hp) as (n & E & Hsec & Hv & Hs & Hd & Hy). unfold time2sub. rewrite E. cbn [bind].
  pose proof (pa_sec _ Hp) as Hps. rewrite <- Hsec in Hps. pose proof (seconds_near n Hv Hy) as Hnear. rewrite seconds_of_sec in Hnear.
  assert (Hsplit : ∃ a s, split_seconds (tm_sec n) (tm_year n) = Ret (Some (a, s)) ∧ a + s = tm_sec n ∧ 0 ≤ a ∧ 0 ≤ s < 60).
  { unfold split_seconds, SECSPERMIN, EPOCH_YEAR, TM_YEAR_BASE. destruct (Z.geb_spec (tm_sec n) 0); [|lia]. destruct (Z.ltb_spec (tm_sec n) 60); cbn [andb].
    - exists 0, (tm_sec n). split; [done|]. lia.
    - rewrite chk64_ok by (unfold in_s64; lia). cbn [bind]. destruct (_ <? _).
      + change (1 - 60) with (-59). rewrite (proj2 (increment_spec (tm_sec n) (-59) ltac:(lia) ltac:(lia))) by (unfold INT_MIN, INT_MAX; lia). cbn [bind].
        eexists _, _. split; [done|]. lia.
      + exists (tm_sec n), 0. split; [done|]. lia. }
  destruct Hsplit as (a & s & -> & Has & Ha & Hs60). cbn [bind].
  assert (Hvs : valid (set_sec s n)) by (destruct Hv as [? ? ? ? ?]; by constructor).
  assert (Hsearch : search gmtsub 0 search_fuel (set_sec s n) time_t_min time_t_max = Ret (Some (seconds_of (set_sec s n)))).
  { apply (search_ok 76 (set_sec s n)); [done|cbn; congruence|rewrite seconds_of_sec; unfold far; lia|done|done| |].
    - rewrite seconds_of_sec. unfold time_t_min, time_t_max. lia.
    - by vm_compute. }
  rewrite Hsearch. cbn [bind]. rewrite seconds_of_sec. rewrite chk64_ok by (unfold in_s64; lia). cbn [bind].
  assert (seconds_of n - tm_sec n + s + a = seconds_of tmp) as -> by lia.
  destruct (Z.ltb_spec (seconds_of tmp) (seconds_of n - tm_sec n + s)); [lia|]. destruct (Z.ltb_spec a 0); [lia|]. cbn [Bool.eqb negb].
  pose proof (gmtsub_ok (seconds_of tmp) tmp ltac:(lia)) as Hg. apply returns_Ret in Hg as ([ok m] & -> & Hg). cbn [bind fst snd] in *.
  destruct ok; [|unfold far in Hg; lia]. exists m. split; [done|]. tauto.
Qed.
Lemma timegm_ok tmp :
  parsed tmp → ∃ t, _bson_timegm tmp = Ret (seconds_of tmp, t) ∧ valid t ∧ seconds_of t = seconds_of tmp.
Proof.
  intros Hp. assert (Hp' : parsed (set_isdst 0 tmp)) by (destruct Hp; by constructor).
  destruct (time2sub_ok (set_isdst 0 tmp) Hp' eq_refl) as (t & E & Hv & Hs). unfold _bson_timegm, time1, time2. cbn [tm_isdst set_isdst].
  change (0 >? 1) with false. cbv iota. rewrite E. cbn [bind]. by exists t.
Qed.
Lemma parsed_near tmp : parsed tmp → Z.abs (seconds_of tmp) ≤ 2 ^ 47.
Proof.
  intros Hp. destruct (normalized_ok tmp Hp) as (n & _ & Hsec & Hv & <- & _ & Hy). pose proof (seconds_near n Hv Hy) as Hn. rewrite seconds_of_sec in Hn.
  pose proof (pa_sec _ Hp). lia.
Qed.

(** * Properties *)

(** C35. The seconds of a date: for the fields that a parser accepts -- a day past the end
    of its month counts into the next month, and a leap second into the next minute -- and
    any year within a million of 1900, the binary search over all 64-bit times ends and
    finds the seconds of the proleptic Gregorian calendar; and the date is rewritten with
    its second, minute, hour, day of the month and month in their ranges. *)
Theorem timegm_correct tmp :
  parsed tmp → ∃ t, _bson_timegm tmp = Ret (seconds_of tmp, t) ∧ valid t ∧ seconds_of t = seconds_of tmp.
Proof. apply timegm_ok. Qed.
Lemma timegm_correct_witness :
  ∃ t, _bson_timegm (Tm 60 59 23 30 1 100 0 0 1) = Ret (951955200, t) ∧ valid t ∧ seconds_of t = 951955200.
Proof. apply (timegm_correct (Tm 60 59 23 30 1 100 0 0 1)). constructor; by vm_compute. Defined.
