(* ===== verification/Iso8601.v ===== *)
(** Dates as text (bson/bson-iso8601.c): the reader of the date strings in JSON, and the
    writer of them (bson/bson.c, relaxed mode). *)
From Stdlib Require Import ZArith Lia List.
From stdpp Require Import prelude strings.
From S2P Require Import Prelude HostList MongocTypes Timegm.
#[local] Open Scope string_scope.
#[local] Open Scope list_scope.
#[local] Open Scope Z_scope.
#[local] Open Scope mongo_scope.

(** ** Reading

    A pointer into [str] is its offset. *)
Fixpoint tok_loop (fuel : nat) (terminals str : list Z) (ptr remaining out_len : Z) (found : bool) : res (bool * Z * Z * Z) :=
  match fuel with
  | O => Stuck OutOfFuel
  | S fuel' =>
      if negb (remaining =? 0) && negb found then
        let* c := rd str ptr in
        tok_loop fuel' terminals str (ptr + 1) (remaining - 1) (out_len + 1) (bool_decide (c ∈ terminals))
      else Ret (found, ptr, remaining, out_len)
  end.
(** whether a terminal was found, [*ptr], [*remaining], [*out] and [*out_len] *)
Record tok := Tok { tk_found : bool; tk_ptr : Z; tk_remaining : Z; tk_out : Z; tk_len : Z }.
Definition get_tok (terminals str : list Z) (ptr remaining : Z) : res tok :=
  let* r := tok_loop (S (Z.to_nat remaining)) terminals str ptr remaining (-1) false in
  let '(found, p, rest, len) := r in
  Ret (Tok found p rest ptr (if found : bool then len else len + 1)).

Fixpoint digits_loop (n : nat) (str : list Z) (o : Z) : res bool :=
  match n with
  | O => Ret true
  | S n' => let* c := rd str o in if is_digit c then digits_loop n' str (o + 1) else Ret false
  end.
(** isdigit of a byte above 127, a negative [char], is false as in the C library of Linux
    (the standard leaves it undefined) *)
Definition digits_only (str : list Z) (o len : Z) : res bool := digits_loop (Z.to_nat len) str o.
(** from the last digit to the first *)
Fixpoint num_loop (n : nat) (str : list Z) (o magnitude value : Z) : res Z :=
  match n with
  | O => Ret value
  | S n' =>
      let* c := rd str o in
      let* p := chk32 ((c - 48) * magnitude) in
      let* value := chk32 (value + p) in
      let* magnitude := chk32 (magnitude * 10) in
      num_loop n' str (o - 1) magnitude value
  end.
Definition parse_num (str : list Z) (o len digits min max : Z) : res (option Z) :=
  if (digits >=? 0) && negb (len =? digits) then Ret None
  else
    let* d := digits_only str o len in
    if negb d then Ret None
    else
      let* value := num_loop (Z.to_nat len) str (o + len - 1) 1 0 in
      if (value <? min) || (value >? max) then Ret None else Ret (Some value).

Definition BSON_ERROR_JSON : Z := 1.
Definition BSON_JSON_ERROR_READ_INVALID_PARAM : Z := 2.
Section Parse.
Variables (str : list Z) (len : Z).
Notation result := (res (Z + bson_error_t)).
Definition DATE_PARSE_ERR (msg : list Z) : result :=
  let* s := c_string str in
  Ret (inr (bson_set_error BSON_ERROR_JSON BSON_JSON_ERROR_READ_INVALID_PARAM
              (cs "Could not parse " ++ [34] ++ s ++ [34] ++ cs " as date: " ++ msg))).
(** the message has quotes around Z and +0500 *)
Definition DEFAULT_DATE_PARSE_ERR : result :=
  let* s := c_string str in
  Ret (inr (bson_set_error BSON_ERROR_JSON BSON_JSON_ERROR_READ_INVALID_PARAM
              (cs "Could not parse " ++ [34] ++ s ++ [34] ++ cs " as date: use ISO8601 format yyyy-mm-ddThh:mm plus timezone, either "
               ++ [34] ++ cs "Z" ++ [34] ++ cs " or like " ++ [34] ++ cs "+0500" ++ [34]))).

(** the tokens up to the minutes, each one there *)
Definition leading_tokens : res (option (tok * tok * tok * tok * tok)) :=
  let* year := get_tok (cs "-") str 0 len in
  if negb (tk_found year) then Ret None else
  let* month := get_tok (cs "-") str (tk_ptr year) (tk_remaining year) in
  if negb (tk_found month) then Ret None else
  let* day := get_tok (cs "T") str (tk_ptr month) (tk_remaining month) in
  if negb (tk_found day) then Ret None else
  let* hour := get_tok (cs ":") str (tk_ptr day) (tk_remaining day) in
  if negb (tk_found hour) then Ret None else
  let* min := get_tok (cs ":+-Z") str (tk_ptr hour) (tk_remaining hour) in
  Ret (if tk_found min then Some (year, month, day, hour, min) else None).
(** the seconds, if the minutes end in a colon; else a token of no length *)
Definition no_tok (t : tok) : tok := Tok false (tk_ptr t) (tk_remaining t) 0 0.
Definition second_token (min : tok) : res (tok + list Z) :=
  let* c := rd str (tk_out min + tk_len min) in
  if c =? 58 then
    if tk_remaining min <? 2 then Ret (inr (cs "reached end of date while looking for seconds"))
    else
      let* sec := get_tok (cs ".+-Z") str (tk_ptr min) (tk_remaining min) in
      if tk_len sec =? 0 then Ret (inr (cs "minute ends in " ++ [34; 58; 34] ++ cs " seconds is required")) else Ret (inl sec)
  else Ret (inl (no_tok min)).
(** the milliseconds, if the seconds end in a point *)
Definition milli_token (sec : tok) : res (tok + list Z) :=
  let* point := (if tk_len sec =? 0 then Ret false else let* c := rd str (tk_out sec + tk_len sec) in Ret (c =? 46)) in
  if point : bool then
    if tk_remaining sec <? 2 then Ret (inr (cs "reached end of date while looking for milliseconds"))
    else
      let* millis := get_tok (cs "+-Z") str (tk_ptr sec) (tk_remaining sec) in
      if tk_len millis =? 0 then Ret (inr (cs "seconds ends in " ++ [34; 46; 34] ++ cs ", milliseconds is required")) else Ret (inl millis)
  else Ret (inl (no_tok sec)).

(** a number in a field, and the rest of the parse *)
Definition field (t : tok) (digits min max : Z) (msg : list Z) (k : Z → result) : result :=
  let* n := parse_num str (tk_out t) (tk_len t) digits min max in
  match n with Some n => k n | None => DATE_PARSE_ERR msg end.
(** the seconds to add for the zone *)
Definition zone (tz : tok) : res (Z + list Z) :=
  if tk_len tz >? 0 then
    let* c := rd str (tk_out tz) in
    if (c =? 90) && (tk_len tz =? 1) then Ret (inl 0)
    else if (c =? 43) || (c =? 45) then
      let* four := (if tk_len tz =? 5 then digits_only str (tk_out tz + 1) 4 else Ret false) in
      if negb four then Ret (inr (cs "could not parse timezone"))
      else
        let* h := parse_num str (tk_out tz + 1) 2 (-1) (-23) 23 in
        match h with
        | None => Ret (inr (cs "timezone hour must be at most 23"))
        | Some tz_hour =>
            let* m := parse_num str (tk_out tz + 3) 2 (-1) 0 59 in
            match m with
            | None => Ret (inr (cs "timezone minute must be at most 59"))
            | Some tz_min =>
                let tz_adjustment := (if c =? 45 then 1 else -1) * (tz_min * 60 + tz_hour * 60 * 60) in
                if negb ((tz_adjustment >? -86400) && (tz_adjustment <? 86400)) then Ret (inr (cs "timezone offset must be less than 24 hours"))
                else Ret (inl tz_adjustment)
            end
        end
    else Ret (inr (cs "timezone is required"))
  else Ret (inl 0).
Definition milliseconds (t : tok) : res (Z + list Z) :=
  if tk_len t >? 0 then
    let* ok := (if tk_len t >? 3 then Ret false else digits_only str (tk_out t) (tk_len t)) in
    if negb ok then Ret (inr (cs "milliseconds must be an integer"))
    else
      let* millis := num_loop (Z.to_nat (tk_len t)) str (tk_out t + tk_len t - 1) 1 0 in
      let millis := if tk_len t =? 1 then millis * 100 else if tk_len t =? 2 then millis * 10 else millis in
      if (millis <? 0) || (millis >? 1000) then Ret (inr (cs "milliseconds must be at least 0 and less than 1000")) else Ret (inl millis)
  else Ret (inl 0).

Definition _bson_iso8601_date_parse : result :=
  let* l := leading_tokens in
  match l with
  | None => DEFAULT_DATE_PARSE_ERR
  | Some (year, month, day, hour, min) =>
      let* s := second_token min in
      match s with
      | inr msg => DATE_PARSE_ERR msg
      | inl sec =>
          let* ms := milli_token sec in
          match ms with
          | inr msg => DATE_PARSE_ERR msg
          | inl millis =>
              let* tz := get_tok [] str (tk_ptr millis - 1) (tk_remaining millis + 1) in
              field year 4 (-9999) 9999 (cs "year must be an integer") (λ year,
              field month 2 1 12 (cs "month must be an integer") (λ month,
              field day 2 1 31 (cs "day must be an integer") (λ day,
              field hour 2 0 23 (cs "hour must be an integer") (λ hour,
              field min 2 0 59 (cs "minute must be an integer") (λ min,
              (if tk_len sec =? 0 then λ k, k 0 else field sec 2 0 60 (cs "seconds must be an integer")) (λ sec,
              let* z := zone tz in
              match z with
              | inr msg => DATE_PARSE_ERR msg
              | inl tz_adjustment =>
                  let* m := milliseconds millis in
                  match m with
                  | inr msg => DATE_PARSE_ERR msg
                  | inl millis =>
                      let* t := _bson_timegm (Tm sec min hour day (month - 1) (year - 1900) 0 0 0) in
                      let* s := chk64 (1000 * t.1) in
                      let* s := chk64 (s + millis) in
                      let* s := chk64 (s + tz_adjustment * 1000) in
                      Ret (inl s)
                  end
              end))))))
          end
      end
  end.
End Parse.

(** ** Writing *)
Definition two_digits (n : Z) : list Z := [48 + n / 10; 48 + n mod 10].
Definition print_signed (n : Z) : list Z := if n <? 0 then 45 :: print_dec 20 (- n) else print_dec 20 n.
(** [strftime] with "%Y-%m-%dT%H:%M:%S" *)
Definition strftime_iso (t : bson_tm) : list Z :=
  print_signed (tm_year t + 1900) ++ cs "-" ++ two_digits (tm_mon t + 1) ++ cs "-" ++ two_digits (tm_mday t)
  ++ cs "T" ++ two_digits (tm_hour t) ++ cs ":" ++ two_digits (tm_min t) ++ cs ":" ++ two_digits (tm_sec t).
(** ["%03lld"] *)
Definition print_03 (n : Z) : list Z :=
  let digits := print_dec 20 (Z.abs n) in
  let width := if n <? 0 then 2%nat else 3%nat in
  (if n <? 0 then [45] else []) ++ repeat 48 (width - length digits) ++ digits.
Section Format.
(** [gmtime_r]: [None] when the year has no [int], and the struct is not written *)
Variable gmtime : Z → option bson_tm.
Definition _bson_iso8601_date_format (msec_since_epoch : Z) (str : list Z) : res (list Z) :=
  let msecs_part := Z.rem msec_since_epoch 1000 in
  match gmtime (Z.quot msec_since_epoch 1000) with
  | None => Stuck OutOfBounds
  | Some posix_date =>
      let buf := strftime_iso posix_date in
      Ret (str ++ buf ++ (if msecs_part =? 0 then cs "Z" else cs "." ++ print_03 msecs_part ++ cs "Z"))
  end.

Inductive bson_json_mode_t := BSON_JSON_MODE_LEGACY | BSON_JSON_MODE_CANONICAL | BSON_JSON_MODE_RELAXED.
#[global] Instance bson_json_mode_eq_dec : EqDecision bson_json_mode_t.
Proof. solve_decision. Defined.
Definition _bson_as_json_visit_date_time (mode : bson_json_mode_t) (msec_since_epoch : Z) (str : list Z) : res (list Z) :=
  let date := cs "{ " ++ [34] ++ cs "$date" ++ [34] ++ cs " : " in
  if bool_decide (mode = BSON_JSON_MODE_CANONICAL) || bool_decide (mode = BSON_JSON_MODE_RELAXED) && (msec_since_epoch <? 0) then
    Ret (str ++ date ++ cs "{ " ++ [34] ++ cs "$numberLong" ++ [34] ++ cs " : " ++ [34] ++ print_signed msec_since_epoch ++ [34] ++ cs " } }")
  else if bool_decide (mode = BSON_JSON_MODE_RELAXED) then
    let* str := _bson_iso8601_date_format msec_since_epoch (str ++ date ++ [34]) in
    Ret (str ++ [34] ++ cs " }")
  else Ret (str ++ date ++ print_signed msec_since_epoch ++ cs " }").
End Format.
