(* ===== verification/Iso8601Props.v ===== *)
(** Dates as text: the reader never leaves its string, reads every date that is written
    in its grammar, and reads back what the writer writes. *)
From Stdlib Require Import ZArith Lia List.
From stdpp Require Import prelude strings.
From S2P Require Import Prelude HostList MongocTypes Timegm TimegmProps Iso8601.
#[local] Open Scope string_scope.
#[local] Open Scope list_scope.
#[local] Open Scope Z_scope.
#[local] Open Scope mongo_scope.

(** ** Safety of the parts *)
Definition tok_ok (size ptr remaining : Z) (t : tok) : Prop :=
  tk_out t = ptr ∧ 0 ≤ tk_len t ∧ 0 ≤ tk_remaining t ∧ tk_ptr t + tk_remaining t = ptr + remaining
  ∧ (if tk_found t then tk_ptr t = ptr + tk_len t + 1 else tk_ptr t = ptr + tk_len t ∧ tk_remaining t = 0).
Lemma tok_loop_ok fuel terminals str ptr remaining out_len :
  0 ≤ ptr → 0 ≤ remaining < Z.of_nat fuel → ptr + remaining ≤ blen str →
  returns (tok_loop fuel terminals str ptr remaining out_len false) (λ r, let '(found, p, rest, len) := r in
    0 ≤ rest ∧ p + rest = ptr + remaining ∧ len = out_len + (p - ptr) ∧ ptr ≤ p ∧ (if found : bool then ptr < p else rest = 0)).
Proof.
  revert ptr remaining out_len. induction fuel as [|fuel IH]; intros ptr remaining out_len Hp Hr Hs; [lia|]. cbn [tok_loop].
  destruct (Z.eqb_spec remaining 0); cbn [negb andb]; [cbn; lia|]. destruct (rd_in str ptr ltac:(lia)) as (c & -> & _). cbn [bind].
  case_bool_decide.
  - destruct fuel; [lia|]. cbn [tok_loop negb]. rewrite andb_false_r. cbn. lia.
  - eapply returns_mono; [apply IH; lia|]. intros [[[[] p] rest] len]; lia.
Qed.
Lemma get_tok_ok terminals str ptr remaining :
  0 ≤ ptr → 0 ≤ remaining → ptr + remaining ≤ blen str → returns (get_tok terminals str ptr remaining) (tok_ok (blen str) ptr remaining).
Proof.
  intros Hp Hr Hs. unfold get_tok. eapply returns_bind; [apply tok_loop_ok; lia|]. intros [[[found p] rest] len] H. unfold tok_ok. cbn.
  destruct found; lia.
Qed.
Lemma digits_loop_ok n str o :
  0 ≤ o → o + Z.of_nat n ≤ blen str →
  returns (digits_loop n str o) (λ b, b = true → ∀ i, o ≤ i < o + Z.of_nat n → ∃ c, rd str i = Ret c ∧ 48 ≤ c ≤ 57).
Proof.
  revert o. induction n as [|n IH]; intros o Ho Hs; [cbn; lia|]. cbn [digits_loop]. destruct (rd_in str o ltac:(lia)) as (c & E & _). rewrite E. cbn [bind].
  unfold is_digit. destruct (Z.leb_spec 48 c), (Z.leb_spec c 57); cbn [andb]; try (by cbn).
  eapply returns_mono; [apply IH; lia|]. intros b Hb Ht i Hi. destruct (decide (i = o)) as [->|]; [by exists c|]. apply Hb; [done|lia].
Qed.
Lemma num_loop_ok n str o magnitude value :
  0 ≤ value < magnitude → magnitude * 10 ^ Z.of_nat n ≤ 10 ^ 9 → (∀ i, o - Z.of_nat n < i ≤ o → ∃ c, rd str i = Ret c ∧ 48 ≤ c ≤ 57) →
  returns (num_loop n str o magnitude value) (λ v, 0 ≤ v < magnitude * 10 ^ Z.of_nat n).
Proof.
  revert o magnitude value. induction n as [|n IH]; intros o magnitude value Hv Hm Hd.
  { cbn. lia. }
  rewrite Nat2Z.inj_succ, Z.pow_succ_r in Hm |- * by lia. pose proof (Z.pow_pos_nonneg 10 (Z.of_nat n)). cbn [num_loop].
  destruct (Hd o ltac:(lia)) as (c & -> & Hc). cbn [bind]. assert (magnitude * 10 ≤ 10 ^ 9) by nia.
  rewrite chk32_ok by (unfold in_s32; nia). cbn [bind]. rewrite chk32_ok by (unfold in_s32; nia). cbn [bind]. rewrite chk32_ok by (unfold in_s32; nia). cbn [bind].
  eapply returns_mono; [apply IH; [nia|lia|]|].
  - intros i Hi. apply Hd. lia.
  - intros v. cbn. lia.
Qed.
Lemma parse_num_ok str o len digits min max :
  0 ≤ o → 0 ≤ len → o + len ≤ blen str → (digits < 0 → len ≤ 9) → digits ≤ 9 →
  returns (parse_num str o len digits min max) (λ r, ∀ n, r = Some n → min ≤ n ≤ max).
Proof.
  intros Ho Hl Hs Hd Hd9. unfold parse_num. destruct ((digits >=? 0) && negb (len =? digits)) eqn:E; [done|].
  assert (Hl9 : len ≤ 9). { destruct (Z.geb_spec digits 0); [|by apply Hd]. cbn [andb] in E. apply negb_false_iff, Z.eqb_eq in E. lia. }
  eapply returns_bind; [apply digits_loop_ok; lia|]. intros [] Hb; cbn [negb]; [|done]. specialize (Hb eq_refl).
  eapply returns_bind; [apply num_loop_ok; [lia| |intros i Hi; apply Hb; lia]|].
  - rewrite Z2Nat.id by lia. rewrite Z.mul_1_l. apply Z.pow_le_mono_r; lia.
  - intros v _. destruct (Z.ltb_spec v min), (Z.gtb_spec v max); cbn [orb]; try done. intros n [= <-]. lia.
Qed.

Section Safe.
Variables (str : list Z) (len : Z).
Hypothesis Hlen : 0 ≤ len < blen str.
Hypothesis Hstr : is_Some (match c_string str with Ret s => Some s | Stuck _ => None end).
(** milliseconds that fit, or an error of the JSON parser *)
Definition parse_result (r : Z + bson_error_t) : Prop :=
  match r with inl ms => in_s64 ms | inr e => e_domain e = BSON_ERROR_JSON ∧ e_code e = BSON_JSON_ERROR_READ_INVALID_PARAM end.
Lemma parse_err_ok msg : returns (DATE_PARSE_ERR str msg) parse_result.
Proof. unfold DATE_PARSE_ERR. destruct Hstr as [s Hs]. destruct (c_string str); [|done]. by cbn. Qed.
(** a token that ends before [len] *)
Definition inside (t : tok) : Prop := 0 ≤ tk_out t ∧ 0 ≤ tk_len t ∧ tk_out t + tk_len t ≤ len.
Definition next_at (t : tok) : Prop := 1 ≤ tk_ptr t ∧ 0 ≤ tk_remaining t ∧ tk_ptr t + tk_remaining t = len.
Lemma tok_inside terminals ptr remaining :
  0 ≤ ptr → 0 ≤ remaining → ptr + remaining = len →
  returns (get_tok terminals str ptr remaining) (λ t, inside t ∧ (tk_found t = true ∨ 1 ≤ ptr → next_at t) ∧ tk_out t = ptr).
Proof.
  intros Hp Hr Hs. eapply returns_mono; [apply get_tok_ok; lia|]. intros t (H1 & H2 & H3 & H4 & H5). unfold inside, next_at. destruct (tk_found t); lia.
Qed.
Lemma leading_ok :
  returns (leading_tokens str len) (λ r, match r with
    | Some (y, m, d, h, mi) => inside y ∧ inside m ∧ inside d ∧ inside h ∧ inside mi ∧ next_at mi
    | None => True end).
Proof.
  unfold leading_tokens.
  eapply returns_bind; [apply (tok_inside _ 0 len); lia|]. intros y (Hy & Ny & _). destruct (tk_found y); cbn [negb]; [|done]. specialize (Ny ltac:(by left)) as (N1 & N2 & N3).
  eapply returns_bind; [apply (tok_inside _ (tk_ptr y) (tk_remaining y)); lia|]. intros m (Hm & Nm & _). destruct (tk_found m); cbn [negb]; [|done]. specialize (Nm ltac:(by left)) as (M1 & M2 & M3).
  eapply returns_bind; [apply (tok_inside _ (tk_ptr m) (tk_remaining m)); lia|]. intros d (Hd & Nd & _). destruct (tk_found d); cbn [negb]; [|done]. specialize (Nd ltac:(by left)) as (D1 & D2 & D3).
  eapply returns_bind; [apply (tok_inside _ (tk_ptr d) (tk_remaining d)); lia|]. intros h (Hh & Nh & _). destruct (tk_found h); cbn [negb]; [|done]. specialize (Nh ltac:(by left)) as (H1 & H2 & H3).
  eapply returns_bind; [apply (tok_inside _ (tk_ptr h) (tk_remaining h)); lia|]. intros mi (Hmi & Nmi & _). destruct (tk_found mi); cbn; [|done]. specialize (Nmi ltac:(by left)). done.
Qed.
Lemma no_tok_ok t : next_at t → inside (no_tok t) ∧ next_at (no_tok t).
Proof. intros H. split; [unfold inside; cbn; lia|exact H]. Qed.
Lemma later_tok terminals t : next_at t → returns (get_tok terminals str (tk_ptr t) (tk_remaining t)) (λ s, inside s ∧ next_at s).
Proof.
  intros (N1 & N2 & N3). eapply returns_mono; [apply (tok_inside terminals (tk_ptr t) (tk_remaining t)); lia|]. intros s (Hs & Hn & _). split; [done|]. apply Hn. by right.
Qed.
Lemma second_ok t : inside t → next_at t → returns (second_token str t) (λ r, match r with inl s => inside s ∧ next_at s | inr _ => True end).
Proof.
  intros (I1 & I2 & I3) Hn. unfold second_token. destruct (rd_in str (tk_out t + tk_len t) ltac:(lia)) as (c & -> & _). cbn [bind].
  destruct (c =? 58); [|cbn; by apply no_tok_ok]. destruct (_ <? 2); [done|]. eapply returns_bind; [by apply later_tok|]. intros s Hs. by destruct (_ =? 0).
Qed.
Lemma milli_ok t : inside t → next_at t → returns (milli_token str t) (λ r, match r with inl s => inside s ∧ next_at s | inr _ => True end).
Proof.
  intros (I1 & I2 & I3) Hn. unfold milli_token. destruct (rd_in str (tk_out t + tk_len t) ltac:(lia)) as (c & -> & _).
  eapply (returns_bind _ _ (λ _, True)); [by destruct (_ =? 0)|]. intros [] _; [|cbn; by apply no_tok_ok].
  destruct (_ <? 2); [done|]. eapply returns_bind; [by apply later_tok|]. intros s Hs. by destruct (_ =? 0).
Qed.
Lemma field_ok t digits min max msg k :
  inside t → 0 ≤ digits ≤ 9 → (∀ n, min ≤ n ≤ max → returns (k n) parse_result) → returns (field str t digits min max msg k) parse_result.
Proof.
  intros (I1 & I2 & I3) Hd Hk. unfold field. eapply returns_bind; [apply parse_num_ok; lia|]. intros [n|] Hn; [|apply parse_err_ok]. apply Hk. by apply Hn.
Qed.
Lemma zone_ok t : inside t → returns (zone str t) (λ r, match r with inl z => -86400 < z < 86400 | inr _ => True end).
Proof.
  intros (I1 & I2 & I3). unfold zone. destruct (Z.gtb_spec (tk_len t) 0); [|cbn; lia]. destruct (rd_in str (tk_out t) ltac:(lia)) as (c & -> & _). cbn [bind].
  destruct ((c =? 90) && (tk_len t =? 1)); [cbn; lia|]. destruct ((c =? 43) || (c =? 45)); [|done]. destruct (Z.eqb_spec (tk_len t) 5).
  2: done. eapply returns_bind; [apply digits_loop_ok; lia|]. intros [] _; cbn [negb]; [|done].
  eapply returns_bind; [apply parse_num_ok; lia|]. intros [h|] _; [|done]. eapply returns_bind; [apply parse_num_ok; lia|]. intros [m|] _; [|done].
  set (z := _ * _). destruct (Z.gtb_spec z (-86400)), (Z.ltb_spec z 86400); cbn; done || lia.
Qed.
Lemma milliseconds_ok t : inside t → returns (milliseconds str t) (λ r, match r with inl ms => 0 ≤ ms ≤ 1000 | inr _ => True end).
Proof.
  intros (I1 & I2 & I3). unfold milliseconds. destruct (Z.gtb_spec (tk_len t) 0); [|cbn; lia]. destruct (Z.gtb_spec (tk_len t) 3); [done|].
  eapply returns_bind; [apply digits_loop_ok; lia|]. intros [] Hb; cbn [negb]; [|done]. specialize (Hb eq_refl).
  eapply returns_bind; [apply num_loop_ok; [lia| |intros i Hi; apply Hb; lia]|].
  - rewrite Z2Nat.id by lia. rewrite Z.mul_1_l. apply Z.pow_le_mono_r; lia.
  - intros v _. set (ms := if _ =? 1 then _ else _). destruct (Z.ltb_spec ms 0), (Z.gtb_spec ms 1000); cbn; done || lia.
Qed.
Lemma parse_safe : returns (_bson_iso8601_date_parse str len) parse_result.
Proof.
  unfold _bson_iso8601_date_parse. eapply returns_bind; [apply leading_ok|]. intros [[[[[y m] d] h] mi]|].
  2: { intros _. unfold DEFAULT_DATE_PARSE_ERR. destruct Hstr as [s Hs]. destruct (c_string str); [|done]. by cbn. }
  intros (Iy & Im & Id & Ih & Imi & Nmi). eapply returns_bind; [by apply second_ok|]. intros [s|e]; [|intros _; apply parse_err_ok]. intros [Is Ns].
  eapply returns_bind; [by apply milli_ok|]. intros [ms|e]; [|intros _; apply parse_err_ok]. intros [Ims (N1 & N2 & N3)].
  eapply returns_bind; [apply (tok_inside [] (tk_ptr ms - 1) (tk_remaining ms + 1)); lia|]. intros tz (Itz & _ & _).
  apply field_ok; [done|lia|]. intros year Hyear. apply field_ok; [done|lia|]. intros month Hmonth. apply field_ok; [done|lia|]. intros day Hday.
  apply field_ok; [done|lia|]. intros hour Hhour. apply field_ok; [done|lia|]. intros min Hmin.
  assert (Hrest : ∀ sec, 0 ≤ sec ≤ 60 → returns (let* z := zone str tz in
    match z with inr msg => DATE_PARSE_ERR str msg | inl tz_adjustment =>
      let* m := milliseconds str ms in
      match m with inr msg => DATE_PARSE_ERR str msg | inl millis =>
        let* t := _bson_timegm (Tm sec min hour day (month - 1) (year - 1900) 0 0 0) in
        let* s := chk64 (1000 * t.1) in let* s := chk64 (s + millis) in let* s := chk64 (s + tz_adjustment * 1000) in Ret (inl s) end end) parse_result).
  { intros sec Hsec. eapply returns_bind; [by apply zone_ok|]. intros [z|e]; [|intros _; apply parse_err_ok]. intros Hz.
    eapply returns_bind; [by apply milliseconds_ok|]. intros [n|e]; [|intros _; apply parse_err_ok]. intros Hn.
    set (tm := Tm _ _ _ _ _ _ _ _ _). assert (Hp : parsed tm) by (constructor; cbn; lia).
    destruct (timegm_ok tm Hp) as (t & -> & _ & _). cbn [bind fst]. pose proof (parsed_near tm Hp).
    rewrite chk64_ok by (unfold in_s64; lia). cbn [bind]. rewrite chk64_ok by (unfold in_s64; lia). cbn [bind].
    rewrite chk64_ok by (unfold in_s64; lia). cbn. unfold in_s64. lia. }
  destruct (tk_len s =? 0); [apply Hrest; lia|]. apply field_ok; [done|lia|]. exact Hrest.
Qed.
End Safe.

(** ** Reading what is written *)
Lemma same_loop (a : bool) (b c d b' c' d' : Z) : b = b' → c = c' → d = d' → Ret (a, b, c, d) = Ret (a, b', c', d').
Proof. by intros -> -> ->. Qed.
Lemma same_tok a b c d e b' c' e' : b = b' → c = c' → e = e' → Ret (Tok a b c d e) = Ret (Tok a b' c' d e').
Proof. by intros -> -> ->. Qed.
Lemma rd_here pre c post : rd (pre ++ c :: post) (blen pre) = Ret c.
Proof. rewrite <- (Z.add_0_r (blen pre)). by rewrite rd_app_r. Qed.
Lemma tok_loop_found terminals pre t c post fuel len remaining :
  Forall (λ x, x ∉ terminals) t → c ∈ terminals → blen t + 1 ≤ remaining → remaining < Z.of_nat fuel →
  tok_loop fuel terminals (pre ++ t ++ c :: post) (blen pre) remaining len false
  = Ret (true, blen pre + blen t + 1, remaining - blen t - 1, len + blen t + 1).
Proof.
  revert pre fuel len remaining. induction t as [|x t IH]; intros pre fuel len remaining Ht Hc Hr Hf.
  1: destruct fuel as [|fuel]; [change (blen []) with 0 in Hr; lia|]. 2: destruct fuel as [|fuel]; [pose proof (blen_nonneg (x :: t)); lia|].
  - change (blen []) with 0 in *. cbn [tok_loop app]. destruct (Z.eqb_spec remaining 0); [lia|]. cbn [negb andb]. rewrite rd_here. cbn [bind].
    rewrite bool_decide_true by done. destruct fuel; [lia|]. cbn [tok_loop negb]. rewrite andb_false_r. apply same_loop; lia.
  - rewrite blen_cons in *. inversion Ht as [|? ? Hx Ht']; subst. pose proof (blen_nonneg t). cbn [tok_loop app]. destruct (Z.eqb_spec remaining 0); [lia|].
    cbn [negb andb]. rewrite rd_here. cbn [bind]. rewrite bool_decide_false by done.
    replace (pre ++ x :: t ++ c :: post) with ((pre ++ [x]) ++ t ++ c :: post) by (by rewrite <- app_assoc).
    replace (blen pre + 1) with (blen (pre ++ [x])) by (by rewrite blen_app). rewrite IH by (done || lia). rewrite blen_app. change (blen [x]) with 1. apply same_loop; lia.
Qed.
Lemma get_tok_at terminals pre t c post ptr remaining :
  Forall (λ x, x ∉ terminals) t → c ∈ terminals → ptr = blen pre → blen t + 1 ≤ remaining →
  get_tok terminals (pre ++ t ++ c :: post) ptr remaining = Ret (Tok true (ptr + blen t + 1) (remaining - blen t - 1) ptr (blen t)).
Proof.
  intros Ht Hc -> Hr. pose proof (blen_nonneg t). unfold get_tok. rewrite tok_loop_found by (done || lia). cbn [bind]. apply same_tok; lia.
Qed.
Lemma tok_loop_none str fuel ptr remaining len :
  0 ≤ ptr → 0 ≤ remaining → ptr + remaining ≤ blen str → remaining < Z.of_nat fuel →
  tok_loop fuel [] str ptr remaining len false = Ret (false, ptr + remaining, 0, len + remaining).
Proof.
  revert ptr remaining len. induction fuel as [|fuel IH]; intros ptr remaining len Hp Hr Hs Hf; [lia|]. cbn [tok_loop].
  destruct (Z.eqb_spec remaining 0); cbn [negb andb]; [apply same_loop; lia|]. destruct (rd_in str ptr ltac:(lia)) as (c & -> & _). cbn [bind].
  rewrite bool_decide_false by (by intros ?%elem_of_nil). rewrite IH by lia. apply same_loop; lia.
Qed.
Lemma get_tok_rest str ptr remaining :
  0 ≤ ptr → 0 ≤ remaining → ptr + remaining ≤ blen str → get_tok [] str ptr remaining = Ret (Tok false (ptr + remaining) 0 ptr remaining).
Proof. intros Hp Hr Hs. unfold get_tok. rewrite tok_loop_none by lia. cbn [bind]. apply same_tok; lia. Qed.

(** digits and the number they stand for *)
Definition digit_char (c : Z) : Prop := 48 ≤ c ≤ 57.
Definition number_of (ds : list Z) : Z := fold_left (λ a c, 10 * a + (c - 48)) ds 0.
Lemma number_snoc ds d : number_of (ds ++ [d]) = 10 * number_of ds + (d - 48).
Proof. unfold number_of. by rewrite fold_left_app. Qed.
Lemma number_range ds : Forall digit_char ds → 0 ≤ number_of ds < 10 ^ blen ds.
Proof.
  induction ds as [|d ds IH] using rev_ind; [done|]. intros [H Hd]%Forall_app. apply (proj1 (Forall_singleton _ _)) in Hd. specialize (IH H).
  rewrite number_snoc, blen_app. change (blen [d]) with 1. rewrite Z.pow_add_r, Z.pow_1_r by (apply blen_nonneg || done). unfold digit_char in Hd. lia.
Qed.
Lemma digits_loop_here pre ds post : Forall digit_char ds → digits_loop (length ds) (pre ++ ds ++ post) (blen pre) = Ret true.
Proof.
  intros H. revert pre. induction H as [|d ds Hd _ IH]; intros pre; [done|]. cbn [digits_loop length app]. rewrite rd_here. cbn [bind].
  unfold is_digit, digit_char in *. destruct (Z.leb_spec 48 d), (Z.leb_spec d 57); try lia. cbn [andb].
  replace (pre ++ d :: ds ++ post) with ((pre ++ [d]) ++ ds ++ post) by (by rewrite <- app_assoc).
  replace (blen pre + 1) with (blen (pre ++ [d])) by (by rewrite blen_app). apply IH.
Qed.
Lemma num_loop_here pre ds post magnitude value :
  Forall digit_char ds → 0 ≤ value < magnitude → magnitude * 10 ^ blen ds ≤ 10 ^ 9 →
  num_loop (length ds) (pre ++ ds ++ post) (blen pre + blen ds - 1) magnitude value = Ret (value + magnitude * number_of ds).
Proof.
  revert post magnitude value. induction ds as [|d ds IH] using rev_ind; intros post magnitude value H Hv Hm; [cbn; f_equal; lia|].
  apply Forall_app in H as [H Hd]. apply (proj1 (Forall_singleton _ _)) in Hd. unfold digit_char in Hd. rewrite number_snoc. rewrite blen_app in *. change (blen [d]) with 1 in *.
  pose proof (blen_nonneg ds). rewrite Z.pow_add_r, Z.pow_1_r in Hm by lia. pose proof (Z.pow_pos_nonneg 10 (blen ds)). assert (magnitude * 10 ≤ 10 ^ 9) by nia.
  rewrite length_app, Nat.add_1_r. cbn [num_loop]. replace (pre ++ (ds ++ [d]) ++ post) with ((pre ++ ds) ++ d :: post) by (by rewrite <- !app_assoc).
  replace (blen pre + (blen ds + 1) - 1) with (blen (pre ++ ds)) by (rewrite blen_app; lia). rewrite rd_here. cbn [bind].
  rewrite chk32_ok by (unfold in_s32; nia). cbn [bind]. rewrite chk32_ok by (unfold in_s32; nia). cbn [bind]. rewrite chk32_ok by (unfold in_s32; nia). cbn [bind].
  replace ((pre ++ ds) ++ d :: post) with (pre ++ ds ++ d :: post) by (by rewrite <- app_assoc). rewrite blen_app. rewrite IH by (done || nia). f_equal. lia.
Qed.
Lemma parse_num_here pre ds post o len digits min max :
  Forall digit_char ds → o = blen pre → len = blen ds → blen ds ≤ 9 → digits < 0 ∨ digits = blen ds → min ≤ number_of ds ≤ max →
  parse_num (pre ++ ds ++ post) o len digits min max = Ret (Some (number_of ds)).
Proof.
  intros H -> -> Hl Hd Hn. pose proof (blen_nonneg ds). unfold parse_num, digits_only.
  assert ((digits >=? 0) && negb (blen ds =? digits) = false) as ->.
  { destruct Hd as [Hd| ->]; [destruct (Z.geb_spec digits 0); done || lia|]. rewrite Z.eqb_refl. apply andb_false_r. }
  assert (Hnat : Z.to_nat (blen ds) = length ds) by (unfold blen; lia). rewrite Hnat, digits_loop_here by done. cbn [bind negb].
  rewrite num_loop_here; [|done|lia|rewrite Z.mul_1_l; apply Z.pow_le_mono_r; lia]. cbn [bind]. rewrite Z.add_0_l, Z.mul_1_l.
  destruct (Z.ltb_spec (number_of ds) min), (Z.gtb_spec (number_of ds) max); done || lia.
Qed.

(** ** A date that is written *)
Definition four_digits (n : Z) : list Z := [48 + n / 1000; 48 + n / 100 mod 10; 48 + n / 10 mod 10; 48 + n mod 10].
Record written := Written {
  w_year : Z; w_month : Z; w_day : Z; w_hour : Z; w_min : Z;
  w_sec : option (Z * list Z);               (* with the digits of a fraction, or none *)
  w_zone : option (bool * Z * Z)             (* to the west; hours and minutes *)
}.
Record written_ok (w : written) : Prop := {
  wo_year : 0 ≤ w_year w ≤ 9999;
  wo_month : 1 ≤ w_month w ≤ 12;
  wo_day : 1 ≤ w_day w ≤ 31;
  wo_hour : 0 ≤ w_hour w ≤ 23;
  wo_min : 0 ≤ w_min w ≤ 59;
  wo_sec : match w_sec w with Some (s, ds) => 0 ≤ s ≤ 60 ∧ Forall digit_char ds ∧ (length ds ≤ 3)%nat | None => True end;
  wo_zone : match w_zone w with Some (_, h, m) => 0 ≤ h ≤ 23 ∧ 0 ≤ m ≤ 59 | None => True end
}.
Definition sec_text (w : written) : list Z :=
  match w_sec w with
  | None => []
  | Some (s, []) => 58 :: two_digits s
  | Some (s, ds) => 58 :: two_digits s ++ 46 :: ds
  end.
Definition zone_text (w : written) : list Z :=
  match w_zone w with
  | None => [90]
  | Some (west, h, m) => (if west : bool then 45 else 43) :: two_digits h ++ two_digits m
  end.
Definition date_text (w : written) : list Z :=
  four_digits (w_year w) ++ 45 :: two_digits (w_month w) ++ 45 :: two_digits (w_day w) ++ 84 :: two_digits (w_hour w)
  ++ 58 :: two_digits (w_min w) ++ sec_text w ++ zone_text w.
(** tenths, hundredths or thousandths *)
Definition fraction (ds : list Z) : Z := number_of ds * 10 ^ (3 - blen ds).
Definition written_ms (w : written) : Z :=
  1000 * seconds_of (Tm (match w_sec w with Some (s, _) => s | None => 0 end) (w_min w) (w_hour w) (w_day w) (w_month w - 1) (w_year w - 1900) 0 0 0)
  + match w_sec w with Some (_, ds) => match ds with [] => 0 | _ => fraction ds end | None => 0 end
  + 1000 * match w_zone w with Some (west, h, m) => (if west : bool then 1 else -1) * (60 * m + 3600 * h) | None => 0 end.

Lemma two_digits_ok n : 0 ≤ n < 100 → Forall digit_char (two_digits n) ∧ number_of (two_digits n) = n ∧ blen (two_digits n) = 2.
Proof.
  intros H. unfold two_digits, digit_char. pose proof (Z.div_mod n 10). pose proof (Z.mod_pos_bound n 10). split; [|split; [|done]].
  - repeat constructor; lia.
  - unfold number_of. cbn [fold_left]. lia.
Qed.
Lemma four_digits_ok n : 0 ≤ n < 10000 → Forall digit_char (four_digits n) ∧ number_of (four_digits n) = n ∧ blen (four_digits n) = 4.
Proof.
  intros H. unfold four_digits, digit_char. split; [|split; [|done]].
  - repeat constructor; Z.to_euclidean_division_equations; lia.
  - unfold number_of. cbn [fold_left]. Z.to_euclidean_division_equations. lia.
Qed.
Lemma digits_not_in terminals ds : Forall digit_char ds → Forall (λ t, ¬ digit_char t) terminals → Forall (λ x, x ∉ terminals) ds.
Proof. intros H Ht. eapply Forall_impl; [exact H|]. cbn. intros x Hx Hin. rewrite Forall_forall in Ht. by apply (Ht x). Qed.

Lemma sep_not_digit l : bool_decide (Forall (λ t, t < 48 ∨ 57 < t) l) = true → Forall (λ t, ¬ digit_char t) l.
Proof. intros H%bool_decide_eq_true. eapply Forall_impl; [exact H|]. unfold digit_char. cbn. lia. Qed.

Section Reading.
Variable w : written.
Hypothesis Hw : written_ok w.
Variable rest : list Z.
Notation size := (blen (date_text w)).
Notation str := (date_text w ++ rest).
Definition head_text : list Z :=
  four_digits (w_year w) ++ 45 :: two_digits (w_month w) ++ 45 :: two_digits (w_day w) ++ 84 :: two_digits (w_hour w) ++ 58 :: two_digits (w_min w).
Lemma str_head : str = head_text ++ sec_text w ++ zone_text w ++ rest.
Proof. unfold date_text, head_text. by repeat (rewrite <- !app_assoc; cbn [app]). Qed.
Lemma head_size : blen head_text = 16.
Proof. done. Qed.
Lemma size_eq : size = 16 + blen (sec_text w) + blen (zone_text w).
Proof.
  assert (blen str = 16 + blen (sec_text w) + blen (zone_text w) + blen rest); [|rewrite blen_app in *; lia].
  rewrite str_head, !blen_app, head_size. lia.
Qed.
(** a zone begins with one of these *)
Definition zone_char (c : Z) : Prop := c = 43 ∨ c = 45 ∨ c = 90.
Lemma zone_head : ∃ c z, zone_text w = c :: z ∧ zone_char c.
Proof. unfold zone_text, zone_char. destruct (w_zone w) as [[[[] ?] ?]|]; eexists _, _; (split; [done|]); auto. Qed.
Lemma tail_head : ∃ c z, sec_text w ++ zone_text w = c :: z ∧ (c = 58 ∧ is_Some (w_sec w) ∨ zone_char c ∧ w_sec w = None).
Proof.
  destruct zone_head as (c & z & E & Hc). unfold sec_text. destruct (w_sec w) as [[s [|d ds]]|]; [eexists _, _; split; [done|left; by split]..|].
  exists c, z. split; [exact E|by right].
Qed.
Lemma two_ok n : 0 ≤ n < 100 → Forall digit_char (two_digits n). Proof. intros H. by apply two_digits_ok. Qed.
Lemma leading_read :
  leading_tokens str size = Ret (Some (Tok true 5 (size - 5) 0 4, Tok true 8 (size - 8) 5 2, Tok true 11 (size - 11) 8 2, Tok true 14 (size - 14) 11 2,
    Tok true 17 (size - 17) 14 2)).
Proof.
  pose proof Hw as [Hy Hm Hd Hh Hmi _ _]. destruct tail_head as (c & z & Et & Hc). pose proof (size_eq) as Hsz.
  assert (Hl : blen (sec_text w) + blen (zone_text w) = 1 + blen z) by (rewrite <- blen_app, Et, blen_cons; lia). pose proof (blen_nonneg z).
  set (Y := four_digits (w_year w)). set (M := two_digits (w_month w)). set (D := two_digits (w_day w)). set (Hr := two_digits (w_hour w)). set (Mi := two_digits (w_min w)).
  assert (Es : str = Y ++ 45 :: M ++ 45 :: D ++ 84 :: Hr ++ 58 :: Mi ++ c :: z ++ rest).
  { rewrite str_head. assert (sec_text w ++ zone_text w ++ rest = c :: z ++ rest) as -> by (by rewrite app_assoc, Et). unfold head_text. by repeat (rewrite <- !app_assoc; cbn [app]). }
  unfold leading_tokens. rewrite Es. destruct (four_digits_ok (w_year w) ltac:(lia)) as (Yd & _ & Yl).
  pose proof (get_tok_at (cs "-") [] Y 45 (M ++ 45 :: D ++ 84 :: Hr ++ 58 :: Mi ++ c :: z ++ rest) 0 size) as E1.
  cbn [app] in E1. rewrite E1; clear E1; [|apply digits_not_in; [done|by apply sep_not_digit]|by left|done|change (blen Y) with 4; lia]. cbn [bind tk_found tk_ptr tk_remaining negb].
  change (blen Y) with 4.
  pose proof (get_tok_at (cs "-") (Y ++ [45]) M 45 (D ++ 84 :: Hr ++ 58 :: Mi ++ c :: z ++ rest) (0 + 4 + 1) (size - 4 - 1)) as E2.
  rewrite <- !app_assoc in E2. cbn [app] in E2. rewrite E2; clear E2; [|apply digits_not_in; [by apply two_ok; lia|by apply sep_not_digit]|by left|done|change (blen M) with 2; lia]. cbn [bind tk_found tk_ptr tk_remaining negb].
  change (blen M) with 2.
  pose proof (get_tok_at (cs "T") (Y ++ 45 :: M ++ [45]) D 84 (Hr ++ 58 :: Mi ++ c :: z ++ rest) (0 + 4 + 1 + 2 + 1) (size - 4 - 1 - 2 - 1)) as E3.
  repeat (rewrite <- !app_assoc in E3; cbn [app] in E3). rewrite E3; clear E3; [|apply digits_not_in; [by apply two_ok; lia|by apply sep_not_digit]|by left|done|change (blen D) with 2; lia]. cbn [bind tk_found tk_ptr tk_remaining negb].
  change (blen D) with 2.
  pose proof (get_tok_at (cs ":") (Y ++ 45 :: M ++ 45 :: D ++ [84]) Hr 58 (Mi ++ c :: z ++ rest) (0 + 4 + 1 + 2 + 1 + 2 + 1) (size - 4 - 1 - 2 - 1 - 2 - 1)) as E4.
  repeat (rewrite <- !app_assoc in E4; cbn [app] in E4). rewrite E4; clear E4; [|apply digits_not_in; [by apply two_ok; lia|by apply sep_not_digit]|by left|done|change (blen Hr) with 2; lia]. cbn [bind tk_found tk_ptr tk_remaining negb].
  change (blen Hr) with 2.
  pose proof (get_tok_at (cs ":+-Z") (Y ++ 45 :: M ++ 45 :: D ++ 84 :: Hr ++ [58]) Mi c (z ++ rest) (0 + 4 + 1 + 2 + 1 + 2 + 1 + 2 + 1) (size - 4 - 1 - 2 - 1 - 2 - 1 - 2 - 1)) as E5.
  repeat (rewrite <- !app_assoc in E5; cbn [app] in E5). rewrite E5; clear E5; [|apply digits_not_in; [by apply two_ok; lia|by apply sep_not_digit]| |done|change (blen Mi) with 2; lia].
  2: { destruct Hc as [[-> _]|[[->|[->| ->]] _]]; by_check. }
  cbn [bind tk_found]. change (blen Mi) with 2. replace (size - 4 - 1) with (size - 5) by lia. replace (size - 5 - 2 - 1) with (size - 8) by lia.
  replace (size - 8 - 2 - 1) with (size - 11) by lia. replace (size - 11 - 2 - 1) with (size - 14) by lia. by replace (size - 14 - 2 - 1) with (size - 17) by lia.
Qed.

(** a field of the head *)
Lemma str_field pre ds post : head_text = pre ++ ds ++ post → str = pre ++ ds ++ (post ++ sec_text w ++ zone_text w ++ rest).
Proof. intros E. rewrite str_head, E. by rewrite <- !app_assoc. Qed.
Lemma field_read pre n post o min max msg (k : Z → res (Z + bson_error_t)) f p r :
  head_text = pre ++ two_digits n ++ post → o = blen pre → 0 ≤ n < 100 → min ≤ n ≤ max →
  field str (Tok f p r o 2) 2 min max msg k = k n.
Proof.
  intros E -> Hn Hr. destruct (two_digits_ok n Hn) as (H1 & H2 & H3). unfold field. rewrite (str_field _ _ _ E). cbn [tk_out tk_len].
  rewrite (parse_num_here pre (two_digits n)) by (done || (right; done) || (rewrite H2; lia)). cbn [bind]. by rewrite H2.
Qed.
Lemma year_read min max msg (k : Z → res (Z + bson_error_t)) f p r :
  min ≤ w_year w ≤ max → field str (Tok f p r 0 4) 4 min max msg k = k (w_year w).
Proof.
  intros Hr. pose proof (wo_year _ Hw). destruct (four_digits_ok (w_year w) ltac:(lia)) as (H1 & H2 & H3). unfold field.
  rewrite (str_field [] (four_digits (w_year w)) _ eq_refl). cbn [tk_out tk_len].
  rewrite (parse_num_here [] (four_digits (w_year w))) by (done || (right; done) || (rewrite H2; lia)). cbn [bind]. by rewrite H2.
Qed.
Definition zone_seconds : Z := match w_zone w with Some (west, h, m) => (if west : bool then 1 else -1) * (60 * m + 3600 * h) | None => 0 end.
Lemma zone_read pre f p r :
  str = pre ++ zone_text w ++ rest → zone str (Tok f p r (blen pre) (blen (zone_text w))) = Ret (inl zone_seconds).
Proof.
  intros ->. unfold zone, zone_seconds. pose proof (wo_zone _ Hw) as Hz. unfold zone_text. cbn [tk_out tk_len].
  destruct (w_zone w) as [[[west h] m]|]; [|by cbn [app]; rewrite rd_here]. destruct Hz as [Hh Hm]. remember (if west then 45 else 43) as c eqn:Ec. assert (Hc : c = 45 ∧ west = true ∨ c = 43 ∧ west = false) by (destruct west; auto). clear Ec.
  change (blen (c :: two_digits h ++ two_digits m)) with 5. cbn [Z.gtb Z.compare]. change (5 >? 0) with true. cbv iota. cbn [app]. rewrite rd_here. cbn [bind].
  change (5 =? 1) with false. rewrite andb_false_r. assert ((c =? 43) || (c =? 45) = true) as -> by (destruct Hc as [[-> _]|[-> _]]; done). change (5 =? 5) with true. cbv iota.
  destruct (two_digits_ok h ltac:(lia)) as (H1 & H2 & H3). destruct (two_digits_ok m ltac:(lia)) as (M1 & M2 & M3).
  assert (E1 : pre ++ c :: (two_digits h ++ two_digits m) ++ rest = (pre ++ [c]) ++ (two_digits h ++ two_digits m) ++ rest) by (by rewrite <- (app_assoc pre [c])).
  assert (E2 : pre ++ c :: (two_digits h ++ two_digits m) ++ rest = (pre ++ [c]) ++ two_digits h ++ (two_digits m ++ rest)) by (by rewrite E1, <- (app_assoc (two_digits h))).
  assert (E3 : pre ++ c :: (two_digits h ++ two_digits m) ++ rest = (pre ++ c :: two_digits h) ++ two_digits m ++ rest) by (by rewrite <- !app_assoc).
  assert (digits_only (pre ++ c :: (two_digits h ++ two_digits m) ++ rest) (blen pre + 1) 4 = Ret true) as ->.
  { rewrite E1. replace (blen pre + 1) with (blen (pre ++ [c])) by (by rewrite blen_app). apply (digits_loop_here _ (two_digits h ++ two_digits m)). by apply Forall_app. }
  cbn [bind negb]. rewrite E2 at 1. rewrite (parse_num_here (pre ++ [c]) (two_digits h)); [|done|by rewrite blen_app|done|done|by left|lia]. cbn [bind].
  rewrite E3 at 1. rewrite (parse_num_here (pre ++ c :: two_digits h) (two_digits m)); [|done|rewrite blen_app; reflexivity|done|done|by left|lia]. cbn [bind].
  rewrite H2, M2. assert ((if c =? 45 then 1 else -1) = if west then 1 else -1) as -> by (destruct Hc as [[-> ->]|[-> ->]]; done).
  replace (m * 60 + h * 60 * 60) with (60 * m + 3600 * h) by lia. set (z := _ * _). assert (-86400 < z < 86400) by (unfold z; destruct west; lia).
  destruct (Z.gtb_spec z (-86400)), (Z.ltb_spec z 86400); done || lia.
Qed.
Lemma milliseconds_read pre ds post f p r :
  Forall digit_char ds → (1 ≤ length ds ≤ 3)%nat → str = pre ++ ds ++ post →
  milliseconds str (Tok f p r (blen pre) (blen ds)) = Ret (inl (fraction ds)).
Proof.
  intros Hd Hl ->. assert (Hb : 1 ≤ blen ds ≤ 3) by (unfold blen; lia). unfold milliseconds, digits_only. cbn [tk_out tk_len].
  destruct (Z.gtb_spec (blen ds) 0); [|lia]. destruct (Z.gtb_spec (blen ds) 3); [lia|].
  assert (Hnat : Z.to_nat (blen ds) = length ds) by (unfold blen; lia). rewrite Hnat, digits_loop_here by done. cbn [bind negb].
  rewrite num_loop_here; [|done|lia|rewrite Z.mul_1_l; apply Z.pow_le_mono_r; lia]. cbn [bind]. rewrite Z.add_0_l, Z.mul_1_l.
  pose proof (number_range ds Hd) as Hr. unfold fraction. assert (Hcase : blen ds = 1 ∨ blen ds = 2 ∨ blen ds = 3) by lia.
  destruct Hcase as [E|[E|E]]; rewrite E in *; cbn [Z.eqb Pos.eqb]; [change (10 ^ (3 - 1)) with 100|change (10 ^ (3 - 2)) with 10|change (10 ^ (3 - 3)) with 1; rewrite Z.mul_1_r].
  - change (10 ^ 1) with 10 in Hr. destruct (Z.ltb_spec (number_of ds * 100) 0), (Z.gtb_spec (number_of ds * 100) 1000); done || lia.
  - change (10 ^ 2) with 100 in Hr. destruct (Z.ltb_spec (number_of ds * 10) 0), (Z.gtb_spec (number_of ds * 10) 1000); done || lia.
  - change (10 ^ 3) with 1000 in Hr. destruct (Z.ltb_spec (number_of ds) 0), (Z.gtb_spec (number_of ds) 1000); done || lia.
Qed.
(** the seconds, the milliseconds and the zone *)
Lemma tail_read :
  ∃ s ms, second_token str (Tok true 17 (size - 17) 14 2) = Ret (inl s) ∧ milli_token str s = Ret (inl ms)
    ∧ tk_ptr ms - 1 = size - blen (zone_text w) ∧ tk_remaining ms + 1 = blen (zone_text w)
    ∧ (∀ (k : Z → res (Z + bson_error_t)), (if tk_len s =? 0 then λ k, k 0 else field str s 2 0 60 (cs "seconds must be an integer")) k
        = k (match w_sec w with Some (s, _) => s | None => 0 end))
    ∧ milliseconds str ms = Ret (inl (match w_sec w with Some (_, ds) => match ds with [] => 0 | _ => fraction ds end | None => 0 end)).
Proof.
  pose proof size_eq as Hsz. pose proof (wo_sec _ Hw) as Hs. destruct zone_head as (c & z & Ez & Hc). pose proof (blen_nonneg z).
  assert (Hzl : blen (zone_text w) = 1 + blen z) by (rewrite Ez, blen_cons; lia).
  assert (Hc58 : c ≠ 58 ∧ c ≠ 46 ∧ c ∈ cs ".+-Z" ∧ c ∈ cs "+-Z").
  { destruct Hc as [->|[->| ->]]; (split; [lia|split; [lia|split; by_check]]). }
  destruct Hc58 as (C1 & C2 & C3 & C4). unfold second_token. cbn [tk_out tk_len tk_ptr tk_remaining]. change (14 + 2) with 16. unfold sec_text in Hsz.
  destruct (w_sec w) as [[s ds]|] eqn:Esec.
  2: { exists (no_tok (Tok true 17 (size - 17) 14 2)), (no_tok (Tok true 17 (size - 17) 14 2)).
       assert (rd str 16 = Ret c) as ->.
       { rewrite str_head. unfold sec_text. rewrite Esec, Ez. cbn [app]. apply (rd_here head_text). }
       cbn [bind]. destruct (Z.eqb_spec c 58); [done|]. change (blen []) with 0 in Hsz. cbn [no_tok tk_ptr tk_remaining]. split; [done|]. split; [done|].
       split; [lia|]. split; [lia|]. split; [done|]. done. }
  destruct Hs as (Hs & Hds & Hdl). destruct (two_digits_ok s ltac:(lia)) as (S1 & S2 & S3).
  assert (Hrd : rd str 16 = Ret 58).
  { rewrite str_head. unfold sec_text. rewrite Esec. destruct ds; cbn [app]; apply (rd_here head_text). }
  rewrite Hrd. cbn [bind]. change (58 =? 58) with true. cbv iota.
  destruct ds as [|d ds].
  - assert (E : str = (head_text ++ [58]) ++ two_digits s ++ c :: (z ++ rest)).
    { rewrite str_head. unfold sec_text. rewrite Esec, Ez. by rewrite <- app_assoc. }
    change (blen (58 :: two_digits s)) with 3 in Hsz. destruct (Z.ltb_spec (size - 17) 2); [lia|].
    exists (Tok true 20 (size - 20) 17 2), (no_tok (Tok true 20 (size - 20) 17 2)). rewrite E at 1.
    rewrite (get_tok_at _ (head_text ++ [58])); [|apply digits_not_in; [done|by apply sep_not_digit]|done|done|change (blen (two_digits s)) with 2; lia].
    cbn [bind tk_len]. change (blen (two_digits s)) with 2. change (2 =? 0) with false. cbv iota. split; [apply (f_equal (λ t, Ret (inl t))); f_equal; lia|].
    split.
    { unfold milli_token. cbn [tk_len tk_out]. change (2 =? 0) with false. cbv iota. change (17 + 2) with (blen ((head_text ++ [58]) ++ two_digits s)).
      rewrite E at 1. rewrite app_assoc, rd_here. cbn [bind]. destruct (Z.eqb_spec c 46); done. }
    cbn [no_tok tk_ptr tk_remaining tk_len]. split; [lia|]. split; [lia|]. split; [|done]. intros k. change (2 =? 0) with false. cbv iota.
    unfold field. cbn [tk_out tk_len]. rewrite E at 1. rewrite (parse_num_here (head_text ++ [58]) (two_digits s)) by (done || (by right) || lia). cbn [bind]. by rewrite S2.
  - set (D := d :: ds) in *. assert (Hdb : 1 ≤ blen D ≤ 3) by (unfold D, blen in *; cbn [length] in *; lia).
    assert (E : str = (head_text ++ [58]) ++ two_digits s ++ 46 :: (D ++ zone_text w ++ rest)).
    { rewrite str_head. unfold sec_text. rewrite Esec. fold D. unfold D at 1. by rewrite <- !app_assoc. }
    assert (E' : str = (head_text ++ 58 :: two_digits s ++ [46]) ++ D ++ c :: (z ++ rest)).
    { rewrite E, Ez. by rewrite <- !app_assoc. }
    assert (Hsz' : size = 16 + (4 + blen D) + blen (zone_text w)).
    { rewrite Hsz. unfold D. change (58 :: two_digits s ++ 46 :: d :: ds) with ([58] ++ two_digits s ++ [46] ++ (d :: ds)). rewrite !blen_app.
      change (blen [58]) with 1. change (blen (two_digits s)) with 2. change (blen [46]) with 1. lia. }
    destruct (Z.ltb_spec (size - 17) 2); [lia|].
    exists (Tok true 20 (size - 20) 17 2), (Tok true (20 + blen D + 1) (size - 20 - blen D - 1) 20 (blen D)). rewrite E at 1.
    rewrite (get_tok_at _ (head_text ++ [58])); [|apply digits_not_in; [done|by apply sep_not_digit]|by_check|done|change (blen (two_digits s)) with 2; lia].
    cbn [bind tk_len]. change (blen (two_digits s)) with 2. change (2 =? 0) with false. cbv iota. split; [apply (f_equal (λ t, Ret (inl t))); f_equal; lia|].
    split.
    { unfold milli_token. cbn [tk_len tk_out tk_ptr tk_remaining]. change (2 =? 0) with false. cbv iota. change (17 + 2) with (blen ((head_text ++ [58]) ++ two_digits s)).
      rewrite E at 1. rewrite app_assoc, rd_here. cbn [bind]. change (46 =? 46) with true. cbv iota. destruct (Z.ltb_spec (size - 20) 2); [lia|].
      rewrite E' at 1. rewrite (get_tok_at _ (head_text ++ 58 :: two_digits s ++ [46])); [|apply digits_not_in; [done|by apply sep_not_digit]|done|done|lia].
      cbn [bind tk_len]. destruct (Z.eqb_spec (blen D) 0); [lia|done]. }
    cbn [tk_ptr tk_remaining tk_len]. split; [lia|]. split; [lia|]. split.
    + intros k. change (2 =? 0) with false. cbv iota. unfold field. cbn [tk_out tk_len]. rewrite E at 1.
      rewrite (parse_num_here (head_text ++ [58]) (two_digits s)) by (done || (by right) || lia). cbn [bind]. by rewrite S2.
    + change 20 with (blen (head_text ++ 58 :: two_digits s ++ [46])) at 3. apply (milliseconds_read _ D _ _ _ _ Hds ltac:(unfold blen in *; lia) E').
Qed.
Lemma parse_read : _bson_iso8601_date_parse str size = Ret (inl (written_ms w)).
Proof.
  pose proof Hw as [Hy Hm Hd Hh Hmi Hs Hz]. unfold _bson_iso8601_date_parse. rewrite leading_read. cbn [bind].
  destruct tail_read as (s & ms & -> & E2 & Hp & Hr & Hsec & Hms). cbn [bind]. rewrite E2. cbn [bind].
  pose proof size_eq. pose proof (blen_nonneg (sec_text w)). pose proof (blen_nonneg (zone_text w)). pose proof (blen_nonneg rest).
  rewrite Hp, Hr. rewrite get_tok_rest by (rewrite ?blen_app; lia). cbn [bind].
  rewrite year_read by lia.
  rewrite (field_read (four_digits (w_year w) ++ [45]) (w_month w) (45 :: two_digits (w_day w) ++ 84 :: two_digits (w_hour w) ++ 58 :: two_digits (w_min w))) by (done || lia).
  rewrite (field_read (four_digits (w_year w) ++ 45 :: two_digits (w_month w) ++ [45]) (w_day w) (84 :: two_digits (w_hour w) ++ 58 :: two_digits (w_min w))) by (done || lia).
  rewrite (field_read (four_digits (w_year w) ++ 45 :: two_digits (w_month w) ++ 45 :: two_digits (w_day w) ++ [84]) (w_hour w) (58 :: two_digits (w_min w))) by (done || lia).
  rewrite (field_read (four_digits (w_year w) ++ 45 :: two_digits (w_month w) ++ 45 :: two_digits (w_day w) ++ 84 :: two_digits (w_hour w) ++ [58]) (w_min w) []) by (done || lia).
  rewrite Hsec. assert (Hpre : size - blen (zone_text w) = blen (head_text ++ sec_text w)) by (rewrite blen_app, head_size; lia). rewrite Hpre.
  rewrite zone_read by (rewrite str_head; by rewrite <- app_assoc). cbn [bind]. rewrite Hms. cbn [bind].
  set (sec := match w_sec w with Some (s0, _) => s0 | None => 0 end). set (frac := match w_sec w with Some (_, ds) => _ | None => 0 end).
  set (tm := Tm _ _ _ _ _ _ _ _ _). assert (Hsec60 : 0 ≤ sec ≤ 60) by (unfold sec; destruct (w_sec w) as [[? ?]|]; lia).
  assert (Hpar : parsed tm) by (constructor; cbn; lia). destruct (timegm_ok tm Hpar) as (t & -> & _ & _). cbn [bind fst]. pose proof (parsed_near tm Hpar).
  assert (Hf : 0 ≤ frac < 1000).
  { unfold frac. destruct (w_sec w) as [[s0 [|d ds]]|]; [lia| |lia]. destruct Hs as (_ & Hds & Hl). pose proof (number_range (d :: ds) Hds) as Hn.
    assert (Hb : 1 ≤ blen (d :: ds) ≤ 3) by (unfold blen; cbn [length] in *; lia). unfold fraction. pose proof (Z.pow_pos_nonneg 10 (3 - blen (d :: ds))).
    assert (10 ^ blen (d :: ds) * 10 ^ (3 - blen (d :: ds)) = 1000) by (rewrite <- Z.pow_add_r by lia; by replace (blen (d :: ds) + (3 - blen (d :: ds))) with 3 by lia). nia. }
  assert (Hzs : -86400 < zone_seconds < 86400) by (unfold zone_seconds; destruct (w_zone w) as [[[[] ?] ?]|]; lia).
  rewrite chk64_ok by (unfold in_s64; lia). cbn [bind]. rewrite chk64_ok by (unfold in_s64; lia). cbn [bind].
  rewrite chk64_ok by (unfold in_s64; lia). cbn [bind]. change (written_ms w) with (1000 * seconds_of tm + frac + 1000 * zone_seconds).
  by rewrite (Z.mul_comm 1000 zone_seconds).
Qed.
End Reading.

(** ** Writing *)
Lemma print_one f n : 0 ≤ n < 10 → print_dec (S f) n = [48 + n].
Proof. intros H. cbn [print_dec]. destruct (Z.ltb_spec n 10); [|lia]. by rewrite Z.mod_small by lia. Qed.
Lemma print_more f n : 10 ≤ n → print_dec (S f) n = print_dec f (n / 10) ++ [48 + n mod 10].
Proof. intros H. cbn [print_dec]. by destruct (Z.ltb_spec n 10); [lia|]. Qed.
Lemma year_digits n : 1000 ≤ n ≤ 9999 → print_dec 20 n = four_digits n.
Proof.
  intros H. rewrite print_more by lia. rewrite print_more by (Z.to_euclidean_division_equations; lia). rewrite print_more by (Z.to_euclidean_division_equations; lia).
  rewrite print_one by (Z.to_euclidean_division_equations; lia). unfold four_digits. cbn [app]. rewrite !Z.div_div by lia. done.
Qed.
Definition three_digits (n : Z) : list Z := [48 + n / 100; 48 + n / 10 mod 10; 48 + n mod 10].
Lemma three_digits_ok n : 0 ≤ n < 1000 → Forall digit_char (three_digits n) ∧ number_of (three_digits n) = n.
Proof.
  intros H. unfold three_digits, digit_char. split.
  - repeat constructor; Z.to_euclidean_division_equations; lia.
  - unfold number_of. cbn [fold_left]. Z.to_euclidean_division_equations. lia.
Qed.
Lemma milli_digits n : 0 ≤ n < 1000 → print_03 n = three_digits n.
Proof.
  intros H. unfold print_03, three_digits. destruct (Z.ltb_spec n 0); [lia|]. rewrite Z.abs_eq by lia. destruct (Z.le_gt_cases 10 n) as [H1|H1].
  2: { rewrite print_one by lia. cbn [length app repeat Nat.sub]. rewrite (Z.div_small n 100), (Z.div_small n 10), (Z.mod_small n 10) by lia. done. }
  rewrite print_more by lia. destruct (Z.le_gt_cases 100 n) as [H2|H2].
  - rewrite print_more by (Z.to_euclidean_division_equations; lia). rewrite print_one by (Z.to_euclidean_division_equations; lia).
    cbn [app length repeat Nat.sub]. by rewrite Z.div_div by lia.
  - rewrite print_one by (Z.to_euclidean_division_equations; lia). cbn [app length repeat Nat.sub]. rewrite (Z.div_small n 100) by lia.
    rewrite (Z.mod_small (n / 10) 10) by (Z.to_euclidean_division_equations; lia). done.
Qed.

(** ten thousand years after year 0, in seconds after 1970 *)
Definition year_10000 : Z := 253402300800.
Lemma year_of_seconds t : valid t → 0 ≤ seconds_of t < year_10000 → 70 ≤ tm_year t < 8100.
Proof.
  intros Hv Hs. assert (V1 : valid (Tm 0 0 0 1 0 70 0 0 0)) by (constructor; by vm_compute). assert (V2 : valid (Tm 0 0 0 1 0 8100 0 0 0)) by (constructor; by vm_compute).
  pose proof (tmcomp_compare t _ Hv V1) as C1. pose proof (tmcomp_compare t _ Hv V2) as C2.
  change (seconds_of (Tm 0 0 0 1 0 70 0 0 0)) with 0 in C1. change (seconds_of (Tm 0 0 0 1 0 8100 0 0 0)) with year_10000 in C2. unfold tmcomp in C1, C2. cbn [tm_year] in C1, C2. split.
  - destruct (Z.le_gt_cases 70 (tm_year t)) as [|Hy]; [done|]. destruct (Z.eqb_spec (tm_year t) 70); [lia|]. destruct (Z.ltb_spec (tm_year t) 70); [|lia].
    cbn [negb] in C1. assert (seconds_of t < 0); [|lia]. unfold Z.lt. by rewrite <- C1.
  - destruct (Z.lt_ge_cases (tm_year t) 8100) as [|Hy]; [done|]. destruct (Z.eqb_spec (tm_year t) 8100) as [E|E]; cbn [negb] in C2.
    + destruct Hv as [W1 W2 W3 W4 W5]. unfold seconds_of in Hs. pose proof (day_in_year t) as Hd. specialize (Hd ltac:(by constructor)).
      unfold day_number in Hs. rewrite E in *. change (day_of (8100 + 1900)) with (year_10000 / 86400) in Hs. unfold year_10000 in *. change (253402300800 / 86400) with 2932897 in Hs. lia.
    + destruct (Z.ltb_spec (tm_year t) 8100); [lia|]. assert (year_10000 < seconds_of t); [|lia]. apply Z.gt_lt. unfold Z.gt. by rewrite <- C2.
Qed.
Section Writing.
(** what [gmtime_r] documents: the time of day and the date of an instant *)
Variable gmtime : Z → option bson_tm.
Hypothesis gmtime_ok : ∀ s, 0 ≤ s < year_10000 → ∃ t, gmtime s = Some t ∧ valid t ∧ seconds_of t = s.
(** the date as it is written in relaxed mode *)
Definition written_date (t : bson_tm) (msecs : Z) : written :=
  Written (tm_year t + 1900) (tm_mon t + 1) (tm_mday t) (tm_hour t) (tm_min t) (Some (tm_sec t, if msecs =? 0 then [] else three_digits msecs)) None.
Lemma month_at_most t : valid t → tm_mday t ≤ 31.
Proof. intros [_ _ _ Hm Hd]. destruct (month_next (isleap (tm_year t + 1900)) (tm_mon t) Hm) as [_ ?]. lia. Qed.
Lemma written_date_ok t msecs : valid t → 70 ≤ tm_year t < 8100 → 0 ≤ msecs < 1000 → written_ok (written_date t msecs).
Proof.
  intros Hv Hy Hms. pose proof (month_at_most t Hv). destruct Hv. constructor; cbn; try lia. split; [lia|].
  destruct (msecs =? 0); [split; [constructor|cbn; lia]|]. split; [by apply three_digits_ok|cbn; lia].
Qed.
Lemma date_format_text ms str :
  0 ≤ ms < 1000 * year_10000 → ∃ w, written_ok w ∧ written_ms w = ms ∧ _bson_iso8601_date_format gmtime ms str = Ret (str ++ date_text w).
Proof.
  intros Hms. unfold _bson_iso8601_date_format. rewrite Z.rem_mod_nonneg, Z.quot_div_nonneg by lia.
  pose proof (Z.mod_pos_bound ms 1000 ltac:(lia)) as Hm. assert (Hq : 0 ≤ ms / 1000 < year_10000) by (unfold year_10000 in *; Z.to_euclidean_division_equations; lia).
  destruct (gmtime_ok _ Hq) as (t & -> & Hv & Hs). pose proof (year_of_seconds t Hv ltac:(lia)) as Hy. exists (written_date t (ms mod 1000)).
  split; [by apply written_date_ok|]. split.
  - unfold written_ms, written_date. cbn [w_sec w_min w_hour w_day w_month w_year w_zone]. replace (tm_mon t + 1 - 1) with (tm_mon t) by lia.
    replace (tm_year t + 1900 - 1900) with (tm_year t) by lia. change (seconds_of (Tm _ _ _ _ _ _ 0 0 0)) with (seconds_of t). rewrite Hs, Z.mul_0_r, Z.add_0_r.
    destruct (Z.eqb_spec (ms mod 1000) 0) as [E|E]; [rewrite (Z.div_mod ms 1000) at 2 by lia; lia|].
    unfold three_digits at 1. fold (three_digits (ms mod 1000)). unfold fraction. destruct (three_digits_ok _ Hm) as [_ ->]. change (blen (three_digits _)) with 3.
    change (10 ^ (3 - 3)) with 1. rewrite (Z.div_mod ms 1000) at 3 by lia. lia.
  - destruct Hv as [V1 V2 V3 V4 V5]. unfold strftime_iso, print_signed. destruct (Z.ltb_spec (tm_year t + 1900) 0); [lia|]. rewrite year_digits by lia.
    f_equal. f_equal. unfold date_text, written_date, sec_text, zone_text. cbn [w_sec w_min w_hour w_day w_month w_year w_zone].
    destruct (Z.eqb_spec (ms mod 1000) 0); [by repeat (rewrite <- !app_assoc; cbn [app])|]. rewrite milli_digits by lia. unfold three_digits.
    by repeat (rewrite <- !app_assoc; cbn [app]).
Qed.
End Writing.

(** an implementation of [gmtime_r] as documented, to instantiate the law *)
Definition gmtime_of (s : Z) : option bson_tm :=
  match gmtsub s 0 (Tm 0 0 0 0 0 0 0 0 0) with Ret (true, t) => Some t | _ => None end.
Lemma gmtime_of_ok s : 0 ≤ s < year_10000 → ∃ t, gmtime_of s = Some t ∧ valid t ∧ seconds_of t = s.
Proof.
  intros Hs. pose proof (gmtsub_ok s (Tm 0 0 0 0 0 0 0 0 0)) as H. unfold gmtime_of. unfold year_10000, far in *. specialize (H ltac:(lia)).
  destruct (gmtsub s 0 (Tm 0 0 0 0 0 0 0 0 0)) as [[[] t]|]; cbn in H; [|lia|done]. exists t. tauto.
Qed.

(** ** The properties *)
(** C34. [_bson_iso8601_date_parse] on any [len] bytes of a NUL-terminated string reads no byte
    outside it and overflows no integer: it returns, with a 64-bit number of milliseconds or with
    an error of the JSON parser. *)
Theorem date_parse_safe str len :
  0 ≤ len < blen str → (∃ s, c_string str = Ret s) → returns (_bson_iso8601_date_parse str len) parse_result.
Proof. intros Hl [s Hs]. apply parse_safe; [done|]. by rewrite Hs. Qed.
Lemma date_parse_safe_witness : returns (_bson_iso8601_date_parse (cs "2020-1" ++ [0]) 6) parse_result.
Proof. apply (date_parse_safe (cs "2020-1" ++ [0]) 6); [by vm_compute|]. by exists (cs "2020-1"). Defined.

(** C33. [_bson_iso8601_date_parse] reads every date in its grammar, whatever follows it: a year,
    month, day, hour and minute, the seconds (a leap second too) with up to three digits of a
    fraction or none, and a zone.  The result is the instant in milliseconds: a day that the month
    does not have counts on into the next one, tenths and hundredths are scaled, a zone to the east
    is subtracted and one to the west added. *)
Theorem date_parse_reads w rest : written_ok w → _bson_iso8601_date_parse (date_text w ++ rest) (blen (date_text w)) = Ret (inl (written_ms w)).
Proof. intros Hw. by apply parse_read. Qed.
Definition example_date : written := Written 2019 2 30 23 59 (Some (60, [53])) (Some (false, 1, 30)).
Lemma date_parse_reads_witness :
  date_text example_date = cs "2019-02-30T23:59:60.5+0130" ∧ _bson_iso8601_date_parse (cs "2019-02-30T23:59:60.5+0130" ++ [0]) 26 = Ret (inl 1551565800500).
Proof.
  split; [by vm_compute|]. apply (date_parse_reads example_date [0]). constructor; cbn; try lia. split; [lia|]. split; [|lia]. constructor; [|constructor]. unfold digit_char. lia.
Defined.

(** C32. The relaxed text of every date from 1970 to 9999, [_bson_iso8601_date_format], is read back by
    [_bson_iso8601_date_parse] as the same number of milliseconds. *)
Theorem date_text_roundtrip gmtime ms :
  (∀ s, 0 ≤ s < year_10000 → ∃ t, gmtime s = Some t ∧ valid t ∧ seconds_of t = s) → 0 ≤ ms < 1000 * year_10000 →
  ∃ text, _bson_iso8601_date_format gmtime ms [] = Ret text ∧ ∀ rest, _bson_iso8601_date_parse (text ++ rest) (blen text) = Ret (inl ms).
Proof.
  intros Hg Hms. destruct (date_format_text gmtime Hg ms [] Hms) as (w & Hw & <- & E). exists (date_text w). split; [done|]. intros rest. by apply parse_read.
Qed.
Lemma date_text_roundtrip_witness :
  ∃ text, _bson_iso8601_date_format gmtime_of 1356351330501 [] = Ret text ∧ ∀ rest, _bson_iso8601_date_parse (text ++ rest) (blen text) = Ret (inl 1356351330501).
Proof. apply (date_text_roundtrip gmtime_of 1356351330501); [exact gmtime_of_ok|by vm_compute]. Defined.

(** The first millisecond of the year 10000 is written in relaxed mode as a date with five digits
    of year, which the reader of the same library refuses: the round trip ends at 9999, while
    [_bson_as_json_visit_date_time] falls back to a number only before 1970. *)
Theorem year_10000_refused :
  ∃ text, _bson_as_json_visit_date_time gmtime_of BSON_JSON_MODE_RELAXED (1000 * year_10000) []
    = Ret (cs "{ " ++ [34] ++ cs "$date" ++ [34] ++ cs " : " ++ [34] ++ text ++ [34] ++ cs " }")
  ∧ text = cs "10000-01-01T00:00:00Z"
  ∧ _bson_iso8601_date_parse (text ++ [0]) (blen text)
    = Ret (inr (bson_set_error BSON_ERROR_JSON BSON_JSON_ERROR_READ_INVALID_PARAM
                  (cs "Could not parse " ++ [34] ++ text ++ [34] ++ cs " as date: year must be an integer"))).
Proof. exists (cs "10000-01-01T00:00:00Z"). by vm_compute. Qed.
