(* ===== verification/BsonEntries.v ===== *)
(** What the getters return on a field that an entry describes: the values the
    append functions wrote come back from the typed getters, from a search by key
    and from the loops over a sub-document. *)
From S2P Require Import Prelude BsonIter BsonIterSafe BsonFields BsonAppend BsonBuild BsonValue BsonCopy BsonParse MongocTypes.
From Stdlib Require Import ZArith Lia List.
From stdpp Require Import prelude strings.
#[local] Open Scope Z_scope.
#[local] Open Scope mongo_scope.

(** ** The values by type *)
Definition e_int32 (k : list Z) (x : Z) : entry := Entry k 0x10 (le_bytes 4 x).
Definition e_int64 (k : list Z) (x : Z) : entry := Entry k 0x12 (le_bytes 8 x).
Definition e_bool (k : list Z) (b : bool) : entry := Entry k 0x08 [Z.b2z b].
Definition e_utf8 (k s : list Z) : entry := Entry k 0x02 (le_bytes 4 (blen s + 1) ++ s ++ [0]).
Definition e_doc (k body : list Z) : entry := Entry k 0x03 (doc_bytes body).
Definition e_array (k body : list Z) : entry := Entry k 0x04 (doc_bytes body).

Definition key_ok (k : list Z) : Prop := bytes_ok k ∧ Forall (λ b, b ≠ 0) k.
Lemma entry_bytes_ok t k v : byte_ok t → key_ok k → bytes_ok v → bytes_ok (entry_bytes (Entry k t v)).
Proof.
  intros Ht [Hk _] Hv. unfold entry_bytes, field_bytes. cbn. constructor; [done|].
  apply bytes_ok_app. split; [done|]. by constructor.
Qed.
Lemma entry_ok_intro t k v :
  byte_ok t → key_ok k → bytes_ok v → layout (bson_type_of_byte t) v → entry_ok (Entry k t v).
Proof. intros Ht Hk Hv Hl. split; [apply Hk|]. split; [by apply entry_bytes_ok|done]. Qed.

Lemma e_int32_ok k x : key_ok k → entry_ok (e_int32 k x).
Proof. intros. apply entry_ok_intro; [done|done|apply le_bytes_ok|apply (blen_le_bytes 4 x)]. Qed.
Lemma e_int64_ok k x : key_ok k → entry_ok (e_int64 k x).
Proof. intros. apply entry_ok_intro; [done|done|apply le_bytes_ok|apply (blen_le_bytes 8 x)]. Qed.
Lemma e_bool_ok k b : key_ok k → entry_ok (e_bool k b).
Proof. intros. apply entry_ok_intro; [done|done|destruct b; by repeat constructor|destruct b; simpl; auto]. Qed.
Lemma e_utf8_ok k s : key_ok k → bytes_ok s → blen s < 2 ^ 31 → entry_ok (e_utf8 k s).
Proof.
  intros Hk Hs Hl. apply entry_ok_intro; [done|done| |apply layout_string; lia].
  rewrite !bytes_ok_app. split; [apply le_bytes_ok|]. split; [done|]. by repeat constructor.
Qed.
Lemma doc_bytes_head body : 5 + blen body < 2 ^ 32 → rd_le 4 (doc_bytes body) 0 = Ret (5 + blen body).
Proof. intros. pose proof (blen_nonneg body). apply (rd_le_here 4 (5 + blen body) [] (body ++ [0])). lia. Qed.
Lemma bytes_ok_doc body : bytes_ok body → bytes_ok (doc_bytes body).
Proof.
  intros H. unfold doc_bytes. rewrite !bytes_ok_app. split; [apply le_bytes_ok|]. split; [done|]. by repeat constructor.
Qed.
Lemma doc_layout body : 5 + blen body < 2 ^ 32 → layout BSON_TYPE_DOCUMENT (doc_bytes body).
Proof.
  intros H. pose proof (blen_nonneg body). cbn [layout]. rewrite blen_doc_bytes. split; [lia|]. by apply doc_bytes_head.
Qed.
Lemma e_doc_ok k body : key_ok k → bytes_ok body → 5 + blen body < 2 ^ 32 → entry_ok (e_doc k body).
Proof. intros Hk Hb Hl. apply entry_ok_intro; [done|done|by apply bytes_ok_doc|by apply doc_layout]. Qed.
Lemma e_array_ok k body : key_ok k → bytes_ok body → 5 + blen body < 2 ^ 32 → entry_ok (e_array k body).
Proof. intros Hk Hb Hl. apply entry_ok_intro; [done|done|by apply bytes_ok_doc|by apply (doc_layout body)]. Qed.

(** ** Appending an entry *)

(** BSON_APPEND_... (bson.h): the lengths are those of the C strings *)
Section Macros.
Variable fresh : Z → Z.
Definition BSON_APPEND_INT32 (m : bson_mem) (key : list Z) (val : Z) :=
  bson_append_int32 fresh m (c_mem key) (s32 (blen key)) val.
Definition BSON_APPEND_UTF8 (m : bson_mem) (key val : list Z) :=
  bson_append_utf8 fresh m (c_mem key) (s32 (blen key)) (Some (c_mem val)) (s32 (blen val)).
Definition BSON_APPEND_DOCUMENT (m : bson_mem) (key : list Z) (val : bson_t) :=
  bson_append_document fresh m (c_mem key) (s32 (blen key)) val.
Definition BSON_APPEND_ARRAY_BEGIN (m : bson_mem) (key : list Z) :=
  bson_append_array_begin fresh m (c_mem key) (s32 (blen key)).
End Macros.

Lemma literal_key s : blen s < 2 ^ 29 → Forall (λ b, b ≠ 0) s → key_arg (c_mem s) (blen s) s.
Proof. intros. split; [done|]. split; [done|]. right. split; [done|]. by exists [0]. Qed.

Section AppendEntry.
Context (fresh : Z → Z) (m : bson_mem) (body : list Z) (outer : list (list Z)) (k : list Z).
Hypothesis Hb : builds m body outer.
Hypothesis Hk : Forall (λ b, b ≠ 0) k.
Hypothesis Hkl : blen k < 2 ^ 29.
Notation adds r e := (appends r m body outer (entry_bytes e)).

Lemma append_int32_entry x : adds (bson_append_int32 fresh m (c_mem k) (blen k) x) (e_int32 k x).
Proof using Hb Hk Hkl. by apply append_one; [done|apply literal_key|..]. Qed.
Lemma append_int64_entry x : adds (bson_append_int64 fresh m (c_mem k) (blen k) x) (e_int64 k x).
Proof using Hb Hk Hkl. by apply append_one; [done|apply literal_key|..]. Qed.
Lemma append_bool_entry x : adds (bson_append_bool fresh m (c_mem k) (blen k) x) (e_bool k x).
Proof using Hb Hk Hkl. by apply append_one; [done|apply literal_key|..]. Qed.
Lemma append_utf8_entry s :
  blen s < 2 ^ 29 → adds (bson_append_utf8 fresh m (c_mem k) (blen k) (Some (c_mem s)) (blen s)) (e_utf8 k s).
Proof using Hb Hk Hkl.
  intros Hs. pose proof (blen_nonneg s).
  apply append_string_builds; [done|by apply literal_key| |lia]. apply bytes_at_app. lia.
Qed.
Lemma append_document_entry d :
  blen d < 2 ^ 29 → adds (bson_append_document fresh m (c_mem k) (blen k) d) (Entry k 0x03 d).
Proof using Hb Hk Hkl. intros Hd. apply append_one; [done|by apply literal_key|done|cbn [e_value]; lia]. Qed.
End AppendEntry.

(** the memory after an append that fits *)
Definition appended (r : res (bool * bson_mem)) (m : bson_mem) : bson_mem :=
  match r with Ret r => r.2 | Stuck _ => m end.
Lemma appended_builds r m body outer bytes :
  appends r m body outer bytes → extent body outer + blen bytes ≤ 2 ^ 30 → builds (appended r m) (body ++ bytes) outer.
Proof. intros H Hf. apply appends_fits in H as (m' & -> & Hm'); done. Qed.

Lemma reinit_builds m body : builds m body [] → ∃ m', bson_reinit m = Ret m' ∧ builds m' [] [].
Proof.
  intros Hb. pose proof Hb as [Hrd Hlev _ Hroom Hbm Hkind]. unfold bson_reinit.
  assert (Htop : m_levels (set_len 5 m) = [Level 0 5]) by (unfold set_len, set_top, m_top; by rewrite Hlev).
  assert (l_offset (m_top (set_len 5 m)) = 0) as -> by (unfold m_top; by rewrite Htop). pose proof (blen_nonneg body).
  unfold extent in Hroom. cbn [front length] in Hroom. rewrite blen_nil in Hroom.
  rewrite (mem_write_app _ [] (m_buf m)); [|done|done|unfold blen in *; cbn [length] in *; lia].
  eexists. split; [done|]. cbn [app]. change (length [5; 0; 0; 0; 0]) with 5%nat.
  assert (Hlen : blen (5 :: 0 :: 0 :: 0 :: 0 :: drop 5 (m_buf m)) = blen (m_buf m)).
  { unfold blen in *. cbn [length]. rewrite length_drop. lia. }
  constructor; cbn [set_buf m_rdonly m_levels m_buf m_inline m_realloc]; rewrite ?Hlen; try done.
  - by exists (drop 5 (m_buf m)).
  - unfold extent. cbn [front length]. rewrite blen_nil. lia.
Qed.

(** ** Getters *)
Section OnEntry.
Variables (data : list Z) (e : entry) (f : bson_iter_t).
Hypothesis Hon : on_entry data e f.

Lemma entry_HOLDS ty : BSON_ITER_HOLDS f ty = Ret (bool_decide (bson_type_of_byte (e_type e) = ty)).
Proof using Hon. apply (HOLDS_at _ _ _ (on_at _ _ _ Hon)). Qed.
Lemma entry_ITER_TYPE : ITER_TYPE f = Ret (bson_type_of_byte (e_type e)).
Proof using Hon. apply (ITER_TYPE_at _ _ _ (on_at _ _ _ Hon)). Qed.
(** a read at an offset of the value *)
Lemma entry_field_le n o x : rd_le n (e_value e) o = Ret x → field_le f n (it_d1 f + o) = Ret x.
Proof using Hon.
  intros H. rewrite (field_le_at _ _ _ (on_at _ _ _ Hon)). destruct (on_split _ _ _ Hon) as (pre & post & -> & ->).
  by apply rd_le_inside.
Qed.
Lemma entry_field_le0 n x : rd_le n (e_value e) 0 = Ret x → field_le f n (it_d1 f) = Ret x.
Proof using Hon. intros H. rewrite <- (Z.add_0_r (it_d1 f)). by apply entry_field_le. Qed.
Lemma entry_le_value n x : e_value e = le_bytes n x → field_le f n (it_d1 f) = Ret (x mod 256 ^ Z.of_nat n).
Proof using Hon.
  intros H. apply entry_field_le0. rewrite H. pose proof (rd_le_bytes n x [] []) as Hr. by rewrite app_nil_r in Hr.
Qed.
End OnEntry.

Lemma s32_mod x : in_s32 x → s32 (x mod 2 ^ 32) = x.
Proof. apply s32_u32. Qed.
Lemma s64_mod x : in_s64 x → s64 (x mod 2 ^ 64) = x.
Proof. apply s64_u64. Qed.

Lemma e_int32_get data k x f : on_entry data (e_int32 k x) f → in_s32 x → bson_iter_int32 f = Ret x.
Proof.
  intros Hon Hx. unfold bson_iter_int32. rewrite (if_type_at _ _ _ (on_at _ _ _ Hon)), decide_True by done.
  unfold bson_iter_int32_unsafe. rewrite (entry_le_value _ _ _ Hon 4 x) by done. cbn [bind].
  change (256 ^ Z.of_nat 4) with (2 ^ 32). by rewrite s32_mod.
Qed.
Lemma e_int64_get data k x f : on_entry data (e_int64 k x) f → in_s64 x → bson_iter_int64 f = Ret x.
Proof.
  intros Hon Hx. unfold bson_iter_int64. rewrite (if_type_at _ _ _ (on_at _ _ _ Hon)), decide_True by done.
  unfold bson_iter_int64_unsafe. rewrite (entry_le_value _ _ _ Hon 8 x) by done. cbn [bind].
  change (256 ^ Z.of_nat 8) with (2 ^ 64). by rewrite s64_mod.
Qed.
Lemma e_int64_as_int64 data k x f : on_entry data (e_int64 k x) f → in_s64 x → bson_iter_as_int64 f = Ret x.
Proof.
  intros Hon Hx. unfold bson_iter_as_int64. rewrite (entry_ITER_TYPE _ _ _ Hon). by apply (e_int64_get data k).
Qed.
Lemma e_bool_get data k b f : on_entry data (e_bool k b) f → bson_iter_bool f = Ret b.
Proof.
  intros Hon. unfold bson_iter_bool. rewrite (if_type_at _ _ _ (on_at _ _ _ Hon)), decide_True by done.
  unfold bson_iter_bool_unsafe. rewrite (entry_le_value _ _ _ Hon 1 (Z.b2z b)) by (by destruct b). by destruct b.
Qed.
Lemma e_utf8_get data k s f :
  on_entry data (e_utf8 k s) f → Forall (λ b, b ≠ 0) s → utf8_string f = Ret s.
Proof.
  intros Hon Hs. unfold utf8_string, bson_iter_utf8, string_field.
  rewrite (if_type_at _ _ _ (on_at _ _ _ Hon)), decide_True by done. cbn [bind].
  rewrite (field_ptr_at _ _ _ (on_at _ _ _ Hon)). cbn [bind fst deref].
  pose proof (at_field _ _ _ (on_at _ _ _ Hon)) as (Hd2 & _). destruct (on_split _ _ _ Hon) as (pre & post & Hd & H1).
  rewrite Hd2, Hd, H1. cbn [e_utf8 e_value].
  assert (pre ++ (le_bytes 4 (blen s + 1) ++ s ++ [0]) ++ post = (pre ++ le_bytes 4 (blen s + 1)) ++ s ++ 0 :: post) as ->
    by (by rewrite <- !app_assoc).
  replace (blen pre + 4) with (blen (pre ++ le_bytes 4 (blen s + 1))) by (rewrite blen_app, blen_le_bytes; done).
  rewrite ptr_add_inside. by apply c_string_app.
Qed.
(** the sub-iterator starts on the sub-document *)
Lemma e_sub_get data t k body f :
  on_entry data (Entry k t (doc_bytes body)) f → t = 0x03 ∨ t = 0x04 → 5 + blen body < 2 ^ 32 →
  ∃ post, bytes_ok post ∧ bson_iter_recurse f = Ret (Some (iter_start (doc_bytes body ++ post) (5 + blen body))).
Proof.
  intros Hon Ht Hl. destruct (on_split _ _ _ Hon) as (pre & post & Hd & H1). cbn [e_value] in Hd. exists post.
  split. { pose proof (at_bytes _ _ _ (on_at _ _ _ Hon)) as Hb. rewrite Hd, !bytes_ok_app in Hb. apply Hb. }
  unfold bson_iter_recurse. rewrite (entry_ITER_TYPE _ _ _ Hon). cbn [bind e_type].
  assert (Hlen : field_le f 4 (it_d1 f) = Ret (5 + blen body)).
  { apply (entry_field_le0 _ _ _ Hon). by apply doc_bytes_head. }
  assert (Hptr : field_ptr f (it_d1 f) = Ret (doc_bytes body ++ post)).
  { rewrite (field_ptr_at _ _ _ (on_at _ _ _ Hon)), Hd, H1. by rewrite ptr_add_inside. }
  destruct Ht as [-> | ->]; cbn [bson_type_of_byte Z.eqb Pos.eqb]; unfold bson_iter_document, bson_iter_array;
    rewrite (if_type_at _ _ _ (on_at _ _ _ Hon)), decide_True by done; rewrite Hlen, Hptr; done.
Qed.

(** ** Searches and loops over entries *)
Lemma find_has_key data es l key :
  Forall2 (on_entry data) es l →
  match List.find (λ e, bool_decide (e_key e = key)) es with
  | Some e => ∃ f, List.find (has_key key) l = Some f ∧ on_entry data e f
  | None => List.find (has_key key) l = None
  end.
Proof.
  induction 1 as [|e f es l Hon H IH]; [done|]. cbn [List.find]. unfold has_key at 1 3. rewrite (on_key _ _ _ Hon).
  rewrite (bool_decide_ext (Ret (e_key e) = Ret key) (e_key e = key)) by naive_solver.
  destruct (bool_decide_reflect (e_key e = key)); [by exists f|exact IH].
Qed.

Section Doc.
Variables (es : list entry) (post : list Z).
Notation doc := (doc_bytes (body_bytes es)).
Hypothesis Hes : Forall entry_ok es.
Hypothesis Hpost : bytes_ok post.
Hypothesis Hmax : 5 + blen (body_bytes es) ≤ INT_MAX.
Notation start := (iter_start (doc ++ post) (5 + blen (body_bytes es))).

Lemma start_fields : ∃ last l, fields_of start = Ret (last, l) ∧ Forall2 (on_entry (doc ++ post)) es l.
Proof using Hes Hpost Hmax.
  pose proof (start_entries es post Hes Hpost) as H. rewrite blen_doc_bytes in H. by apply H.
Qed.
Lemma start_iter_ok : iter_ok start.
Proof using Hes Hpost Hmax.
  pose proof (blen_nonneg (body_bytes es)). pose proof (blen_nonneg post). apply iter_start_ok.
  - apply bytes_ok_app. split; [|done]. by apply bytes_ok_doc, body_bytes_ok.
  - rewrite blen_app, blen_doc_bytes. lia.
  - lia.
Qed.
(** [bson_iter_find] finds the first entry with the key *)
Lemma find_entry key :
  Forall (λ b, b ≠ 0) key →
  ∃ f, match List.find (λ e, bool_decide (e_key e = key)) es with
  | Some e => bson_iter_find start (c_mem key) = Ret (true, f) ∧ on_entry (doc ++ post) e f
  | None => bson_iter_find start (c_mem key) = Ret (false, f)
  end.
Proof using Hes Hpost Hmax.
  intros Hk. destruct start_fields as (last & l & Hf & Hall). unfold c_mem.
  rewrite (find_list start key [] last l start_iter_ok Hk Hf).
  2: { eapply Forall2_Forall_r; [exact Hall|]. apply Forall_forall. intros e _ f Hon. eexists _, _. apply Hon. }
  pose proof (find_has_key _ _ _ key Hall) as H. destruct (List.find _ es) as [e|].
  - destruct H as (f & -> & Hon). by exists f.
  - rewrite H. by exists last.
Qed.
End Doc.
(** a search in a whole document *)
Lemma init_find_entry es key :
  Forall entry_ok es → 5 + blen (body_bytes es) ≤ INT_MAX → Forall (λ b, b ≠ 0) key →
  ∃ f, match List.find (λ e, bool_decide (e_key e = key)) es with
  | Some e => bson_iter_init_find (doc_bytes (body_bytes es)) (c_mem key) = Ret (true, f)
      ∧ on_entry (doc_bytes (body_bytes es)) e f
  | None => bson_iter_init_find (doc_bytes (body_bytes es)) (c_mem key) = Ret (false, f)
  end.
Proof.
  intros Hes Hmax Hk. destruct (find_entry es [] Hes ltac:(constructor) Hmax key Hk) as [f H]. rewrite app_nil_r in H.
  exists f. unfold bson_iter_init_find, bson_iter_init. rewrite blen_doc_bytes. pose proof (blen_nonneg (body_bytes es)).
  destruct (Z.ltb_spec (5 + blen (body_bytes es)) 5); [lia|exact H].
Qed.
(** a loop over the entries of a document is a fold over the list of entries *)
Section LoopEntries.
Context {S : Type} (body : bson_iter_t → S → res (bool * S)) (step : entry → S → res (bool * S)).
Fixpoint fold_entries (es : list entry) (s : S) : res S :=
  match es with
  | [] => Ret s
  | e :: es' => let* r := step e s in if (r.1 : bool) then fold_entries es' r.2 else Ret r.2
  end.
Lemma for_each_entries es post s :
  Forall entry_ok es → bytes_ok post → 5 + blen (body_bytes es) ≤ INT_MAX →
  (∀ data e f s, e ∈ es → on_entry data e f → body f s = step e s) →
  ∃ last, for_each_field body (iter_start (doc_bytes (body_bytes es) ++ post) (5 + blen (body_bytes es))) s
    = let* r := fold_entries es s in Ret (last r, r).
Proof.
  intros Hes Hpost Hmax Hstep. destruct (start_fields es post Hes Hpost Hmax) as (last & l & Hf & Hall).
  rewrite (for_each_fold body _ last l s Hf). clear Hf Hes Hmax. generalize dependent (doc_bytes (body_bytes es) ++ post).
  intros data Hall. revert s. induction Hall as [|e f es l Hon Hall IH]; intros s; cbn [fold_fields fold_entries].
  - by exists (λ _, last).
  - rewrite (Hstep data e f s ltac:(left) Hon). destruct (step e s) as [[[] s']|]; cbn [bind fst snd].
    + apply IH. intros data' e' f' s'' Hin. apply Hstep. by right.
    + by exists (λ _, f).
    + by exists (λ _, f).
Qed.
End LoopEntries.

(** ** Copies of a document of entries *)
Definition canonical_entry (e : entry) : Prop := canonical_value (bson_type_of_byte (e_type e)) (e_value e).
Definition without (excludes : list (list Z)) (es : list entry) : list entry :=
  List.filter (λ e, negb (should_ignore excludes (e_key e))) es.
Lemma without_kept data es l excludes :
  Forall2 (on_entry data) es l →
  concat (map field_source (List.filter (kept excludes) l)) = body_bytes (without excludes es).
Proof.
  intros H. unfold body_bytes, without. induction H as [|e f es l Hon _ IH]; [done|]. cbn [List.filter]. unfold kept at 1.
  rewrite (on_key _ _ _ Hon). destruct (should_ignore excludes (e_key e)); cbn [negb]; [exact IH|].
  cbn [map concat]. by rewrite (on_source _ _ _ Hon), IH.
Qed.
Lemma without_size excludes es : blen (body_bytes (without excludes es)) ≤ blen (body_bytes es).
Proof.
  unfold body_bytes, without. induction es as [|e es IH]; [done|]. cbn [List.filter].
  pose proof (blen_nonneg (entry_bytes e)). destruct (negb _); cbn [map concat]; rewrite !blen_app; lia.
Qed.
Lemma without_ok (P : entry → Prop) excludes es : Forall P es → Forall P (without excludes es).
Proof.
  intros H. unfold without. induction H as [|e es He _ IH]; [done|]. cbn [List.filter]. by destruct (negb _); [constructor|].
Qed.
Lemma without_absent k excludes es : k ∈ excludes → Forall (λ e, e_key e ≠ k) (without excludes es).
Proof.
  intros Hk. unfold without. induction es as [|e es IH]; [done|]. cbn [List.filter].
  destruct (should_ignore excludes (e_key e)) eqn:E; cbn [negb]; [exact IH|]. constructor; [|exact IH]. intros He.
  assert (should_ignore excludes (e_key e) = true); [|congruence]. unfold should_ignore. apply existsb_exists.
  exists k. split; [by apply list_elem_of_In|]. unfold streq. by apply bool_decide_eq_true.
Qed.
Lemma copy_excluding_entries fresh es excludes :
  Forall entry_ok es → Forall canonical_entry es → blen (body_bytes es) < 2 ^ 28 →
  ∃ m, bson_copy_to_excluding_noinit_va fresh (doc_bytes (body_bytes es)) (bson_init fresh) excludes = Ret m
    ∧ builds m (body_bytes (without excludes es)) [].
Proof.
  intros Hes Hc Hs. pose proof (blen_nonneg (body_bytes es)). pose proof (without_size excludes es).
  destruct (start_fields es [] Hes ltac:(constructor)) as (last & l & Hf & Hall); [unfold INT_MAX; lia|]. rewrite app_nil_r in *.
  unfold bson_copy_to_excluding_noinit_va, bson_iter_init. rewrite blen_doc_bytes.
  destruct (Z.ltb_spec (5 + blen (body_bytes es)) 5); [lia|]. rewrite (for_each_fold _ _ last l _ Hf).
  assert (Hcan : Forall canonical_field l).
  { clear -Hall Hc Hs. revert Hc Hs Hall. generalize (doc_bytes (body_bytes es)). intros data Hc Hs Hall. revert Hc Hs.
    induction Hall as [|e f es l Hon _ IH]; intros Hc Hs; [done|].
    apply Forall_cons in Hc as [He Hc]. unfold body_bytes in *. cbn [map concat] in Hs. rewrite blen_app, blen_entry in Hs.
    pose proof (blen_nonneg (concat (map entry_bytes es))). pose proof (blen_nonneg (e_key e)). pose proof (blen_nonneg (e_value e)).
    constructor; [|apply IH; [done|lia]]. eexists _, _. split; [apply Hon|]. apply (on_entry_canonical _ _ _ Hon He). lia. }
  pose proof (copy_loop fresh excludes l last _ [] (init_builds fresh) Hcan) as Hcopy. rewrite (without_kept _ _ _ excludes Hall) in Hcopy.
  apply returns_Ret in Hcopy as (r & -> & Hr); [by exists r.2|rewrite blen_nil; lia].
Qed.

(** ** Short documents *)
Definition doc_of (es : list entry) : bson_t := doc_bytes (body_bytes es).

Lemma doc_of_ok es : Forall entry_ok es → blen (body_bytes es) ≤ 2 ^ 30 → bson_ok (doc_of es).
Proof.
  intros H Hs. split; [by apply bytes_ok_doc, body_bytes_ok|]. unfold doc_of. rewrite blen_doc_bytes. unfold INT_MAX. lia.
Qed.
Lemma builds_snoc m es e : builds m (body_bytes es ++ entry_bytes e) [] → builds m (body_bytes (es ++ [e])) [].
Proof. by rewrite body_bytes_app, body_bytes_one. Qed.

(** an append onto a short document *)
Lemma append_step r m es e :
  builds m (body_bytes es) [] → appends r m (body_bytes es) [] (entry_bytes e) →
  blen (body_bytes es) + blen (entry_bytes e) ≤ 2 ^ 29 →
  ∃ m', r = Ret (true, m') ∧ builds m' (body_bytes (es ++ [e])) [].
Proof.
  intros Hm Ha Hs. apply appends_fits in Ha as (m' & -> & Hm'); [exists m'; split; [done|by apply builds_snoc]|].
  unfold extent. cbn [front length]. rewrite blen_nil. lia.
Qed.
(** the first step of a loop over a document *)
Lemma next_first e es :
  Forall entry_ok (e :: es) → 5 + blen (body_bytes (e :: es)) ≤ INT_MAX →
  ∃ f, bson_iter_next (bson_iter_init (doc_of (e :: es))).2 = Ret (true, f) ∧ on_entry (doc_of (e :: es)) e f.
Proof.
  intros Hes Hmax. destruct (start_fields (e :: es) [] Hes ltac:(constructor) Hmax) as (last & l & Hf & Hall).
  rewrite app_nil_r in *. fold (doc_of (e :: es)) in *. pose proof (blen_nonneg (body_bytes (e :: es))).
  assert (Hi : (bson_iter_init (doc_of (e :: es))).2 = iter_start (doc_of (e :: es)) (5 + blen (body_bytes (e :: es)))).
  { assert (Hb : blen (doc_of (e :: es)) = 5 + blen (body_bytes (e :: es))) by apply blen_doc_bytes.
    unfold bson_iter_init. rewrite Hb. destruct (Z.ltb_spec (5 + blen (body_bytes (e :: es))) 5); [lia|done]. }
  rewrite Hi. inversion Hall as [|? f ? l' Hon _]; subst. exists f. split; [|done].
  unfold fields_of, for_each_field, iter_fuel in Hf. cbn [iter_while] in Hf.
  destruct (bson_iter_next _) as [[[] it]|]; cbn [bind collect] in Hf; [|by injection Hf|done].
  destruct (collect_step _ _ _ [] _ _ Hf) as [l2 Hl]. by injection Hl as ->.
Qed.
Lemma doc_of_init es : (bson_iter_init (doc_of es)).1 = true.
Proof.
  pose proof (blen_nonneg (body_bytes es)). unfold bson_iter_init, doc_of. rewrite blen_doc_bytes.
  destruct (Z.ltb_spec (5 + blen (body_bytes es)) 5); [lia|done].
Qed.
Lemma entry_type_nonzero e : entry_ok e → e_type e ≠ 0.
Proof. intros (_ & _ & H) E. by rewrite E in H. Qed.
Lemma doc_of_nonempty e es : entry_ok e → bson_empty (doc_of (e :: es)) = Ret false.
Proof.
  intros He. unfold bson_empty, doc_of. rewrite blen_doc_bytes. unfold body_bytes. cbn [map concat].
  rewrite blen_app, blen_entry. pose proof (blen_nonneg (concat (map entry_bytes es))). pose proof (blen_nonneg (e_key e)).
  pose proof (blen_nonneg (e_value e)). destruct (Z.eqb_spec (5 + (2 + blen (e_key e) + blen (e_value e) + blen (concat (map entry_bytes es)))) 5); [lia|].
  assert (Hrd : ∀ h r, blen h = 4 → rd (h ++ e_type e :: r) 4 = Ret (e_type e)).
  { intros h r Hh. rewrite <- (Z.add_0_r 4), <- Hh at 1. by rewrite rd_app_r. }
  unfold doc_bytes, entry_bytes, field_bytes. rewrite <- app_assoc. cbn [app]. rewrite Hrd by apply blen_le_bytes. cbn [bind].
  by destruct (Z.eqb_spec (e_type e) 0) as [E|_]; [destruct (entry_type_nonzero e He)|].
Qed.
