(* ===== verification/BsonVisit.v ===== *)
(** The visitor loop of the BSON iterator (bson_iter_visit_all of bson/bson-iter.c).

    A visitor is the table of optional callbacks; the state they share through the
    code's [void *data] is threaded through them.  A callback that returns [true]
    stops the loop. *)
From S2P Require Import Prelude CDouble BsonIter BsonIterSafe BsonFields BsonUtf8 BsonAppend BsonValue.
From Stdlib Require Import ZArith Lia List.
From stdpp Require Import prelude.
#[local] Open Scope Z_scope.
#[local] Open Scope mongo_scope.

(** keys and strings are the memory from the pointer on; a document is its bytes *)
Record bson_visitor_t (D : Type) := Visitor {
  visit_before : option (bson_iter_t → list Z → D → res (bool * D));
  visit_after : option (bson_iter_t → list Z → D → res (bool * D));
  visit_corrupt : option (bson_iter_t → D → res D);
  visit_double : option (bson_iter_t → list Z → Z → D → res (bool * D));
  visit_utf8 : option (bson_iter_t → list Z → Z → list Z → D → res (bool * D));
  visit_document : option (bson_iter_t → list Z → bson_t → D → res (bool * D));
  visit_array : option (bson_iter_t → list Z → bson_t → D → res (bool * D));
  visit_binary : option (bson_iter_t → list Z → Z → Z → option (list Z) → D → res (bool * D));
  visit_undefined : option (bson_iter_t → list Z → D → res (bool * D));
  visit_oid : option (bson_iter_t → list Z → option (list Z) → D → res (bool * D));
  visit_bool : option (bson_iter_t → list Z → bool → D → res (bool * D));
  visit_date_time : option (bson_iter_t → list Z → Z → D → res (bool * D));
  visit_null : option (bson_iter_t → list Z → D → res (bool * D));
  visit_regex : option (bson_iter_t → list Z → list Z → option (list Z) → D → res (bool * D));
  visit_dbpointer : option (bson_iter_t → list Z → Z → list Z → option (list Z) → D → res (bool * D));
  visit_code : option (bson_iter_t → list Z → Z → list Z → D → res (bool * D));
  visit_symbol : option (bson_iter_t → list Z → Z → list Z → D → res (bool * D));
  visit_codewscope : option (bson_iter_t → list Z → Z → list Z → bson_t → D → res (bool * D));
  visit_int32 : option (bson_iter_t → list Z → Z → D → res (bool * D));
  visit_timestamp : option (bson_iter_t → list Z → Z → Z → D → res (bool * D));
  visit_int64 : option (bson_iter_t → list Z → Z → D → res (bool * D));
  visit_maxkey : option (bson_iter_t → list Z → D → res (bool * D));
  visit_minkey : option (bson_iter_t → list Z → D → res (bool * D));
  visit_unsupported_type : option (bson_iter_t → list Z → Z → D → res D);
  visit_decimal128 : option (bson_iter_t → list Z → option (Z * Z) → D → res (bool * D))
}.
Arguments Visitor {D}.
Arguments visit_before {D}. Arguments visit_after {D}. Arguments visit_corrupt {D}.
Arguments visit_double {D}. Arguments visit_utf8 {D}. Arguments visit_document {D}.
Arguments visit_array {D}. Arguments visit_binary {D}. Arguments visit_undefined {D}.
Arguments visit_oid {D}. Arguments visit_bool {D}. Arguments visit_date_time {D}.
Arguments visit_null {D}. Arguments visit_regex {D}. Arguments visit_dbpointer {D}.
Arguments visit_code {D}. Arguments visit_symbol {D}. Arguments visit_codewscope {D}.
Arguments visit_int32 {D}. Arguments visit_timestamp {D}. Arguments visit_int64 {D}.
Arguments visit_maxkey {D}. Arguments visit_minkey {D}. Arguments visit_unsupported_type {D}.
Arguments visit_decimal128 {D}.

(** [visitor->visit_f && visitor->visit_f (...)]: the arguments are computed only when
    the callback is set *)
Definition VISIT_FIELD {F D} (f : option F) (call : F → D → res (bool * D)) (d : D) : res (bool * D) :=
  match f with Some f => call f d | None => Ret (false, d) end.

(** [bson_utf8_validate (p, len, true)], which asserts that the pointer is set *)
Definition checked_text (p : option (list Z)) (len : Z) : res (list Z * bool) :=
  let* _ := bson_assert (bool_decide (is_Some p)) in
  let* p := deref p in
  let* valid := bson_utf8_validate p len true in
  Ret (p, valid).
(** the key: empty, or UTF-8 without NUL *)
Definition valid_key (key : list Z) : res bool :=
  let* b := rd key 0 in
  if b =? 0 then Ret true else let* s := c_string key in bson_utf8_validate key (blen s) false.

(** How the value of a field is passed on: [Visited stop] is the value of the callback,
    [BadText] the early return on a string that is not UTF-8. *)
Inductive visit_result (D : Type) := Visited (stop : bool) (d : D) | BadText.
Arguments Visited {D}. Arguments BadText {D}.

Section VisitValue.
Context {D : Type} (visitor : bson_visitor_t D) (it : bson_iter_t) (key : list Z) (d : D).

Definition visited (m : res (bool * D)) : res (visit_result D) := let* r := m in Ret (Visited r.1 r.2).
Definition visit_text (p : option (list Z)) (len : Z) (call : list Z → res (bool * D)) : res (visit_result D) :=
  let* c := checked_text p len in
  if c.2 : bool then visited (call c.1) else Ret BadText.
(** [bson_init_static (&b, docbuf, doclen) && VISIT_...] *)
Definition visit_child (buf : option (list Z)) (len : Z) (call : bson_t → res (bool * D)) : res (visit_result D) :=
  let* buf := deref buf in
  let* b := bson_init_static buf len in
  match b with Some b => visited (call b) | None => Ret (Visited false d) end.

(** the switch on the type *)
Definition visit_value (bson_type : bson_type_t) : res (visit_result D) :=
  match bson_type with
  | BSON_TYPE_DOUBLE =>
      visited (VISIT_FIELD (visit_double visitor) (λ f d, let* x := bson_iter_double it in f it key x d) d)
  | BSON_TYPE_UTF8 =>
      let* r := bson_iter_utf8 it true in
      visit_text r.1 r.2 (λ utf8, VISIT_FIELD (visit_utf8 visitor) (λ f d, f it key r.2 utf8 d) d)
  | BSON_TYPE_DOCUMENT =>
      let* r := bson_iter_document it in
      visit_child r.2 r.1 (λ b, VISIT_FIELD (visit_document visitor) (λ f d, f it key b d) d)
  | BSON_TYPE_ARRAY =>
      let* r := bson_iter_array it in
      visit_child r.2 r.1 (λ b, VISIT_FIELD (visit_array visitor) (λ f d, f it key b d) d)
  | BSON_TYPE_BINARY =>
      let* r := bson_iter_binary it in
      visited (VISIT_FIELD (visit_binary visitor) (λ f d, f it key r.1.1 r.1.2 r.2 d) d)
  | BSON_TYPE_UNDEFINED => visited (VISIT_FIELD (visit_undefined visitor) (λ f d, f it key d) d)
  | BSON_TYPE_OID =>
      visited (VISIT_FIELD (visit_oid visitor) (λ f d, let* oid := bson_iter_oid it in f it key oid d) d)
  | BSON_TYPE_BOOL =>
      visited (VISIT_FIELD (visit_bool visitor) (λ f d, let* b := bson_iter_bool it in f it key b d) d)
  | BSON_TYPE_DATE_TIME =>
      visited (VISIT_FIELD (visit_date_time visitor) (λ f d, let* t := bson_iter_date_time it in f it key t d) d)
  | BSON_TYPE_NULL => visited (VISIT_FIELD (visit_null visitor) (λ f d, f it key d) d)
  | BSON_TYPE_REGEX =>
      let* r := bson_iter_regex it in
      let* regex := deref r.1 in
      let* s := c_string regex in
      visit_text (Some regex) (blen s) (λ regex, VISIT_FIELD (visit_regex visitor) (λ f d, f it key regex r.2 d) d)
  | BSON_TYPE_DBPOINTER =>
      let* r := bson_iter_dbpointer it in
      let '(len, collection, oid) := r in
      let len := default 0 len in
      visit_text collection len (λ collection,
        VISIT_FIELD (visit_dbpointer visitor) (λ f d, f it key len collection oid d) d)
  | BSON_TYPE_CODE =>
      let* r := bson_iter_code it true in
      visit_text r.1 r.2 (λ code, VISIT_FIELD (visit_code visitor) (λ f d, f it key r.2 code d) d)
  | BSON_TYPE_SYMBOL =>
      let* r := bson_iter_symbol it in
      visit_text r.1 r.2 (λ symbol, VISIT_FIELD (visit_symbol visitor) (λ f d, f it key r.2 symbol d) d)
  | BSON_TYPE_CODEWSCOPE =>
      let* r := bson_iter_codewscope it in
      let '(code, length, doclen, docbuf) := r in
      let* c := checked_text code length in
      if c.2 : bool then
        visit_child docbuf doclen (λ b, VISIT_FIELD (visit_codewscope visitor) (λ f d, f it key length c.1 b d) d)
      else Ret BadText
  | BSON_TYPE_INT32 =>
      visited (VISIT_FIELD (visit_int32 visitor) (λ f d, let* x := bson_iter_int32 it in f it key x d) d)
  | BSON_TYPE_TIMESTAMP =>
      let* r := bson_iter_timestamp it in
      visited (VISIT_FIELD (visit_timestamp visitor) (λ f d, f it key r.1 r.2 d) d)
  | BSON_TYPE_INT64 =>
      visited (VISIT_FIELD (visit_int64 visitor) (λ f d, let* x := bson_iter_int64 it in f it key x d) d)
  | BSON_TYPE_DECIMAL128 =>
      let* dec := bson_iter_decimal128 it in
      visited (VISIT_FIELD (visit_decimal128 visitor) (λ f d, f it key dec d) d)
  | BSON_TYPE_MAXKEY =>
      visited (VISIT_FIELD (visit_maxkey visitor) (λ f d, let* k := bson_iter_key_unsafe it in f it k d) d)
  | BSON_TYPE_MINKEY =>
      visited (VISIT_FIELD (visit_minkey visitor) (λ f d, let* k := bson_iter_key_unsafe it in f it k d) d)
  | BSON_TYPE_EOD | BSON_TYPE_OTHER _ => Ret (Visited false d)
  end.
End VisitValue.

Section VisitAll.
Context {D : Type} (visitor : bson_visitor_t D).

(** one turn of the loop, on the field the iterator stands on *)
Inductive turn := Again (it : bson_iter_t) (d : D) | Return (it : bson_iter_t) (d : D) | Leave (it : bson_iter_t) (d : D).
Definition visit_field (it : bson_iter_t) (key : list Z) (bson_type : bson_type_t) (d : D) : res turn :=
  let* ok := valid_key key in
  if negb ok then Ret (Leave (set_err_off (it_off it) it) d)
  else
    let* r := VISIT_FIELD (visit_before visitor) (λ f d, f it key d) d in
    let '(stop, d) := r in
    if stop : bool then Ret (Return it d)
    else
      let* v := visit_value visitor it key d bson_type in
      match v with
      | BadText => Ret (Return (set_err_off (it_off it) it) d)
      | Visited true d => Ret (Return it d)
      | Visited false d =>
          let* r := VISIT_FIELD (visit_after visitor) (λ f d, let* k := bson_iter_key_unsafe it in f it k d) d in
          let '(stop, d) := r in
          Ret (if stop : bool then Return it d else Again it d)
      end.

(** after the loop: the outputs of the last step and the iterator *)
Definition visit_end (it : bson_iter_t) (key : option (list Z)) (bson_type : option bson_type_t)
    (unsupported : bool) (d : D) : res (bool * bson_iter_t * D) :=
  let corrupt := match visit_corrupt visitor with
                 | Some f => let* d := f it d in Ret (false, it, d)
                 | None => Ret (false, it, d)
                 end in
  if negb (it_err_off it =? 0) then
    match (if unsupported then visit_unsupported_type visitor else None) with
    | Some f =>
        let* key := deref key in
        let* s := c_string key in
        let* ok := bson_utf8_validate key (blen s) false in
        if ok : bool then
          let* d := f it key (match bson_type with Some t => byte_of_type t | None => 0 end) d in
          Ret (false, it, d)
        else corrupt
    | None => corrupt
    end
  else Ret (false, it, d).

(** the value, the iterator and the state *)
Fixpoint visit_loop (fuel : nat) (it : bson_iter_t) (d : D) : res (bool * bson_iter_t * D) :=
  match fuel with
  | O => Stuck OutOfFuel
  | S fuel' =>
      let* n := _bson_iter_next_internal it 0 in
      if n_ok n then
        let* key := deref (n_key n) in
        let* t := deref (n_type n) in
        let* turn := visit_field (n_iter n) key t d in
        match turn with
        | Again it d => visit_loop fuel' it d
        | Return it d => Ret (true, it, d)
        | Leave it d => visit_end it (n_key n) (n_type n) (n_unsupported n) d
        end
      else visit_end (n_iter n) (n_key n) (n_type n) (n_unsupported n) d
  end.
Definition bson_iter_visit_all (it : bson_iter_t) (d : D) := visit_loop (iter_fuel it) it d.
End VisitAll.
Arguments turn D : clear implicits.

(** ** The loop as a fold over the fields *)

(** the fields that the iterator stops on, and the exhausted iterator *)
Inductive steps : bson_iter_t → list bson_iter_t → bson_iter_t → Prop :=
| steps_end it n : _bson_iter_next_internal it 0 = Ret n → n_ok n = false → steps it [] (n_iter n)
| steps_field it n fs last :
    _bson_iter_next_internal it 0 = Ret n → n_ok n = true → steps (n_iter n) fs last →
    steps it (n_iter n :: fs) last.

Lemma fields_of_steps it last fs : fields_of it = Ret (last, fs) → steps it fs last.
Proof.
  unfold fields_of, for_each_field. generalize (iter_fuel it) as fuel.
  enough (G : ∀ fuel it acc, iter_while collect fuel it acc = Ret (last, acc ++ fs) → steps it fs last)
    by (intros fuel; apply (G fuel it [])).
  intros fuel. revert fs. induction fuel as [|fuel IH]; intros fs it' acc H; [done|].
  cbn [iter_while] in H. unfold bson_iter_next in H.
  destruct (_bson_iter_next_internal it' 0) as [n|] eqn:En; [|done]. cbn [bind collect] in H.
  destruct (n_ok n) eqn:Eok.
  - destruct (collect_step _ _ _ _ _ _ H) as [fs' ->]. apply steps_field; [done|done|].
    apply (IH fs' _ (acc ++ [n_iter n])). by rewrite <- app_assoc.
  - injection H as <- H. rewrite <- (app_nil_r acc) in H at 1. apply app_inv_head in H. subst fs.
    by apply steps_end.
Qed.

(** every field is inside the document, and so is the place of an error *)
Lemma steps_ok it fs last :
  steps it fs last → iter_ok it → 0 ≤ it_err_off it ≤ it_len it →
  Forall (λ f, positioned f ∧ it_len f = it_len it) fs ∧ 0 ≤ it_err_off last ≤ it_len it.
Proof.
  induction 1 as [it n En Eok|it n fs last En Eok Hs IH]; intros Hit Herr;
    pose proof (next_internal_ok it Hit) as Hn; rewrite En in Hn; cbn [returns] in Hn;
    unfold next_ok in Hn; rewrite Eok in Hn.
  - split; [constructor|]. by apply Hn.
  - destruct Hn as (data & t & Hraw & Hat & _ & _ & Hlen & _). rewrite <- Hlen.
    assert (Hpos : positioned (n_iter n)) by (by exists data, t).
    destruct IH as [Hall Hlast]; [by eapply iter_at_ok| |].
    { rewrite (at_err _ _ _ Hat). pose proof (at_bounds _ _ _ Hat). lia. }
    split; [|exact Hlast]. constructor; [by split|]. done.
Qed.

Section VisitFold.
Context {D : Type} (visitor : bson_visitor_t D).
Hypothesis no_unsupported : visit_unsupported_type visitor = None.

Definition visit_last (it : bson_iter_t) (d : D) : res (bool * bson_iter_t * D) :=
  visit_end visitor it None None false d.
Lemma visit_end_last it key t u d : visit_end visitor it key t u d = visit_last it d.
Proof using no_unsupported. unfold visit_last, visit_end. rewrite no_unsupported. by destruct u. Qed.

Definition visit_at (f : bson_iter_t) (d : D) : res (turn D) :=
  let* key := bson_iter_key f in let* t := ITER_TYPE f in visit_field visitor f key t d.
Fixpoint visit_fold (fs : list bson_iter_t) (last : bson_iter_t) (d : D) : res (bool * bson_iter_t * D) :=
  match fs with
  | [] => visit_last last d
  | f :: fs' =>
      let* turn := visit_at f d in
      match turn with
      | Again _ d => visit_fold fs' last d
      | Return it d => Ret (true, it, d)
      | Leave it d => visit_last it d
      end
  end.

Lemma visit_field_again it key t d it' d' : visit_field visitor it key t d = Ret (Again it' d') → it' = it.
Proof using Type.
  unfold visit_field. destruct (valid_key key) as [ok|]; [|done]. cbn [bind]. destruct ok; cbn [negb]; [|done].
  destruct (VISIT_FIELD _ _ _) as [[stop d1]|]; [|done]. cbn [bind]. destruct stop; [done|].
  destruct (visit_value _ _ _ _ _) as [[[] d2|]|]; cbn [bind]; try done.
  destruct (VISIT_FIELD _ _ _) as [[stop d3]|]; [|done]. cbn [bind]. by destruct stop; intros [= -> _].
Qed.

Lemma visit_loop_fold it fs last :
  steps it fs last → iter_ok it →
  ∀ fuel d, (length fs < fuel)%nat → visit_loop visitor fuel it d = visit_fold fs last d.
Proof using no_unsupported.
  induction 1 as [it n En Eok|it n fs last En Eok Hs IH]; intros Hit fuel d Hf; (destruct fuel as [|fuel]; [lia|]);
    cbn [visit_loop]; rewrite En; cbn [bind]; rewrite Eok; [apply visit_end_last|].
  pose proof (next_internal_ok it Hit) as Hn. rewrite En in Hn. cbn [returns] in Hn. unfold next_ok in Hn.
  rewrite Eok in Hn. destruct Hn as (data & t & _ & Hat & -> & _ & _ & ->). cbn [deref bind visit_fold].
  unfold visit_at. destruct (bson_iter_key_at _ _ _ Hat) as [-> _]. rewrite (ITER_TYPE_at _ _ _ Hat). cbn [bind].
  destruct (visit_field _ _ _ _ _) as [turn|] eqn:Ev; [|done]. cbn [bind]. destruct turn as [it' d'| |it' d'].
  - apply visit_field_again in Ev as ->. apply IH; [by eapply iter_at_ok|cbn [length] in Hf; lia].
  - done.
  - apply visit_end_last.
Qed.

(** the visit of a document is a fold over its fields *)
Lemma visit_all_fold it :
  iter_ok it → 0 ≤ it_err_off it ≤ it_len it →
  ∃ last fs, fields_of it = Ret (last, fs) ∧ Forall (λ f, positioned f ∧ it_len f = it_len it) fs
    ∧ 0 ≤ it_err_off last ≤ it_len it ∧ ∀ d, bson_iter_visit_all visitor it d = visit_fold fs last d.
Proof using no_unsupported.
  intros Hit Herr. destruct (fields_of_ok it Hit) as (last & fs & Hf & _ & _ & Hlen).
  pose proof (fields_of_steps _ _ _ Hf) as Hs. destruct (steps_ok _ _ _ Hs Hit Herr) as [Hall Hlast].
  exists last, fs. split; [done|]. split; [done|]. split; [done|]. intros d. by apply visit_loop_fold.
Qed.
End VisitFold.
