(* ===== verification/BsonValidate.v ===== *)
(** Validation of a BSON document (bson_validate of bson/bson.c): a visitor that
    checks keys, strings and sub-documents, and records the first place that fails.

    The visitor visits sub-documents with itself.  [depth] bounds the nesting: a
    sub-document is shorter than the document around it. *)
From S2P Require Import Prelude CDouble BsonIter BsonIterSafe BsonFields BsonUtf8 BsonAppend BsonValue MongocTypes BsonVisit.
From Stdlib Require Import ZArith Lia List.
From stdpp Require Import prelude strings.
#[local] Open Scope Z_scope.
#[local] Open Scope mongo_scope.

Definition BSON_ERROR_INVALID : Z := 3.
Definition BSON_VALIDATE_NONE : Z := 0.
Definition BSON_VALIDATE_UTF8 : Z := Z.shiftl 1 0.
Definition BSON_VALIDATE_DOLLAR_KEYS : Z := Z.shiftl 1 1.
Definition BSON_VALIDATE_DOT_KEYS : Z := Z.shiftl 1 2.
Definition BSON_VALIDATE_UTF8_ALLOW_NULL : Z := Z.shiftl 1 3.
Definition BSON_VALIDATE_EMPTY_KEYS : Z := Z.shiftl 1 4.
Definition has_flag (flags f : Z) : bool := negb (Z.land flags f =? 0).

Inductive bson_validate_phase_t :=
| BSON_VALIDATE_PHASE_START | BSON_VALIDATE_PHASE_TOP
| BSON_VALIDATE_PHASE_LF_REF_KEY | BSON_VALIDATE_PHASE_LF_REF_UTF8
| BSON_VALIDATE_PHASE_LF_ID_KEY | BSON_VALIDATE_PHASE_LF_DB_KEY
| BSON_VALIDATE_PHASE_LF_DB_UTF8 | BSON_VALIDATE_PHASE_NOT_DBREF.
#[export] Instance phase_eq_dec : EqDecision bson_validate_phase_t.
Proof. solve_decision. Defined.

Record bson_validate_state_t := ValidateState {
  vs_flags : Z; vs_err_offset : Z; vs_phase : bson_validate_phase_t; vs_error : bson_error_t
}.
Definition set_vs_phase (p : bson_validate_phase_t) (st : bson_validate_state_t) :=
  ValidateState (vs_flags st) (vs_err_offset st) p (vs_error st).
Definition set_vs_offset (o : Z) (st : bson_validate_state_t) :=
  ValidateState (vs_flags st) o (vs_phase st) (vs_error st).
(** [VALIDATION_ERR] *)
Definition VALIDATION_ERR (flag : Z) (msg : list Z) (st : bson_validate_state_t) :=
  ValidateState (vs_flags st) (vs_err_offset st) (vs_phase st) (bson_set_error BSON_ERROR_INVALID flag msg).
Definition fail_at (o flag : Z) (msg : list Z) (st : bson_validate_state_t) :=
  VALIDATION_ERR flag msg (set_vs_offset o st).
Definition quoted (prefix key : list Z) : list Z := prefix ++ [34] ++ key ++ [34].

Section Callbacks.
Implicit Types st : bson_validate_state_t.

Definition _bson_iter_validate_utf8 (it : bson_iter_t) (key : list Z) (v_utf8_len : Z) (v_utf8 : list Z) st
    : res (bool * bson_validate_state_t) :=
  let* bad := (if has_flag (vs_flags st) BSON_VALIDATE_UTF8 then
                 let allow_null := has_flag (vs_flags st) BSON_VALIDATE_UTF8_ALLOW_NULL in
                 let* ok := bson_utf8_validate v_utf8 v_utf8_len allow_null in Ret (negb ok)
               else Ret false) in
  if bad : bool then
    let* k := c_string key in
    Ret (true, fail_at (it_off it) BSON_VALIDATE_UTF8 (quoted (cs "invalid utf8 string for key ") k) st)
  else if has_flag (vs_flags st) BSON_VALIDATE_DOLLAR_KEYS then
    Ret (false, match vs_phase st with
                | BSON_VALIDATE_PHASE_LF_REF_UTF8 => set_vs_phase BSON_VALIDATE_PHASE_LF_ID_KEY st
                | BSON_VALIDATE_PHASE_LF_DB_UTF8 => set_vs_phase BSON_VALIDATE_PHASE_NOT_DBREF st
                | _ => st
                end)
  else Ret (false, st).

Definition _bson_iter_validate_corrupt (it : bson_iter_t) st : res bson_validate_state_t :=
  Ret (fail_at (it_err_off it) BSON_VALIDATE_NONE (cs "corrupt BSON") st).

(** the phase that a key leads to; [None] when it is not allowed there *)
Definition dollar_phase (phase : bson_validate_phase_t) (key : list Z) : option bson_validate_phase_t :=
  match phase with
  | BSON_VALIDATE_PHASE_LF_REF_KEY => if streq key (cs "$ref") then Some BSON_VALIDATE_PHASE_LF_REF_UTF8 else None
  | BSON_VALIDATE_PHASE_LF_ID_KEY => if streq key (cs "$id") then Some BSON_VALIDATE_PHASE_LF_DB_KEY else None
  | BSON_VALIDATE_PHASE_LF_DB_KEY => if streq key (cs "$db") then Some BSON_VALIDATE_PHASE_LF_DB_UTF8 else None
  | _ => None
  end.
(** a DBRef that has begun and is not complete *)
Definition unfinished (phase : bson_validate_phase_t) : bool :=
  match phase with
  | BSON_VALIDATE_PHASE_LF_ID_KEY | BSON_VALIDATE_PHASE_LF_REF_UTF8 | BSON_VALIDATE_PHASE_LF_DB_UTF8 => true
  | _ => false
  end.

Definition _bson_iter_validate_before (it : bson_iter_t) (key : list Z) st : res (bool * bson_validate_state_t) :=
  let* k0 := rd key 0 in
  if has_flag (vs_flags st) BSON_VALIDATE_EMPTY_KEYS && (k0 =? 0) then
    Ret (true, fail_at (it_off it) BSON_VALIDATE_EMPTY_KEYS (cs "empty key") st)
  else
    let* k := c_string key in
    let dollar :=
      if has_flag (vs_flags st) BSON_VALIDATE_DOLLAR_KEYS then
        if k0 =? 36 then
          match dollar_phase (vs_phase st) k with
          | Some p => inr (set_vs_phase p st)
          | None => inl (fail_at (it_off it) BSON_VALIDATE_DOLLAR_KEYS
                           (quoted (cs "keys cannot begin with " ++ [34; 36; 34] ++ cs ": ") k) st)
          end
        else if unfinished (vs_phase st) then
          inl (fail_at (it_off it) BSON_VALIDATE_DOLLAR_KEYS
                 (quoted (cs "invalid key within DBRef subdocument: ") k) st)
        else inr (set_vs_phase BSON_VALIDATE_PHASE_NOT_DBREF st)
      else inr st in
    match dollar with
    | inl st => Ret (true, st)
    | inr st =>
        if has_flag (vs_flags st) BSON_VALIDATE_DOT_KEYS && bool_decide (is_Some (strchr k 46)) then
          Ret (true, fail_at (it_off it) BSON_VALIDATE_DOT_KEYS
                       (quoted (cs "keys cannot contain " ++ [34; 46; 34] ++ cs ": ") k) st)
        else Ret (false, st)
    end.

(** the remaining callbacks use the table of callbacks, [funcs], on a sub-document *)
Definition validate_document (funcs : bson_visitor_t bson_validate_state_t) (it : bson_iter_t)
    (v_document : bson_t) st : res (bool * bson_validate_state_t) :=
  let phase := vs_phase st in
  let '(ok, child) := bson_iter_init v_document in
  if negb ok then Ret (true, set_vs_offset (it_off it) st)
  else
    let st := set_vs_phase (if bool_decide (phase = BSON_VALIDATE_PHASE_START)
                            then BSON_VALIDATE_PHASE_TOP else BSON_VALIDATE_PHASE_LF_REF_KEY) st in
    let* r := bson_iter_visit_all funcs child st in
    let st := r.2 in
    if unfinished (vs_phase st) then
      Ret (true, if vs_err_offset st <=? 0 then set_vs_offset (it_off it) st else st)
    else Ret (false, set_vs_phase phase st).
Definition validate_internal (funcs : bson_visitor_t bson_validate_state_t) (bson : bson_t) (flags : Z)
    : res bson_validate_state_t :=
  let st := ValidateState flags (-1) BSON_VALIDATE_PHASE_START no_error in
  let '(ok, it) := bson_iter_init bson in
  if negb ok then Ret (fail_at 0 BSON_VALIDATE_NONE (cs "corrupt BSON") st)
  else let* r := validate_document funcs it bson st in Ret r.2.
(** the value, and the offset when it is written *)
Definition validate_with (funcs : bson_visitor_t bson_validate_state_t) (bson : bson_t) (flags : Z)
    : res (bool * option Z) :=
  let* st := validate_internal funcs bson flags in
  Ret (vs_err_offset st <? 0, if vs_err_offset st >? 0 then Some (vs_err_offset st) else None).
Definition validate_codewscope (funcs : bson_visitor_t bson_validate_state_t) (it : bson_iter_t)
    (v_scope : bson_t) st : res (bool * bson_validate_state_t) :=
  let* r := validate_with funcs v_scope (vs_flags st) in
  let '(ok, offset) := r in
  if negb ok then
    Ret (false, fail_at (it_off it + default 0 offset) BSON_VALIDATE_NONE (cs "corrupt code-with-scope") st)
  else Ret (true, st).
End Callbacks.

Fixpoint bson_validate_funcs (depth : nat) : bson_visitor_t bson_validate_state_t :=
  let document := match depth with
                  | O => λ _ _ _ _, Stuck OutOfFuel
                  | S n => λ it _ b st, validate_document (bson_validate_funcs n) it b st
                  end in
  let codewscope := match depth with
                    | O => λ _ _ _ _ _ _, Stuck OutOfFuel
                    | S n => λ it _ _ _ b st, validate_codewscope (bson_validate_funcs n) it b st
                    end in
  Visitor (Some _bson_iter_validate_before) None (Some _bson_iter_validate_corrupt) None
    (Some _bson_iter_validate_utf8) (Some document) (Some document)
    None None None None None None None None None None (Some codewscope)
    None None None None None None None.
Definition _bson_iter_validate_document (depth : nat) := validate_document (bson_validate_funcs depth).
Definition _bson_iter_validate_codewscope (depth : nat) := validate_codewscope (bson_validate_funcs depth).

Definition _bson_validate_internal (bson : bson_t) : Z → res bson_validate_state_t :=
  validate_internal (bson_validate_funcs (length bson)) bson.
Definition bson_validate (bson : bson_t) : Z → res (bool * option Z) :=
  validate_with (bson_validate_funcs (length bson)) bson.
(** the value, and the error when it is written *)
Definition bson_validate_with_error (bson : bson_t) (flags : Z) : res (bool * option bson_error_t) :=
  let* st := _bson_validate_internal bson flags in
  Ret (vs_err_offset st <? 0, if vs_err_offset st >? 0 then Some (vs_error st) else None).
