(* ===== verification/ValidateProps.v ===== *)
(** Validation accepts every valid document, and what it accepts is valid up to three
    kinds of fields that it does not check.

    The reference, [accepts], runs over the list of fields of a document.  It says
    what the code computes ([coded]) and what it should compute; the two differ on a
    string that is not UTF-8, a sub-document without its terminator and the fields
    that follow a code-with-scope. *)
From S2P Require Import Prelude CDouble BsonIter BsonIterSafe BsonFields BsonUtf8 BsonAppend BsonBuild BsonValue BsonParse MongocTypes BsonEntries BsonVisit BsonValidate.
From Stdlib Require Import ZArith Lia List.
From stdpp Require Import prelude strings.
#[local] Open Scope Z_scope.
#[local] Open Scope mongo_scope.

(** ** What a field holds *)
Inductive kind :=
| Plain
| Text (p : list Z) (len : Z) (utf8 : bool)
| Sub (b : option bson_t)
| Scope (p : list Z) (len : Z) (b : option bson_t).

Definition text_kind (utf8 : bool) (r : option (list Z) * Z) : res kind :=
  let* p := deref r.1 in Ret (Text p r.2 utf8).
Definition sub_kind (r : Z * option (list Z)) : res kind :=
  let* p := deref r.2 in let* b := bson_init_static p r.1 in Ret (Sub b).
Definition kind_of (f : bson_iter_t) (t : bson_type_t) : res kind :=
  match t with
  | BSON_TYPE_UTF8 => let* r := bson_iter_utf8 f true in text_kind true r
  | BSON_TYPE_CODE => let* r := bson_iter_code f true in text_kind false r
  | BSON_TYPE_SYMBOL => let* r := bson_iter_symbol f in text_kind false r
  | BSON_TYPE_REGEX =>
      let* r := bson_iter_regex f in
      let* p := deref r.1 in let* s := c_string p in Ret (Text p (blen s) false)
  | BSON_TYPE_DBPOINTER =>
      let* r := bson_iter_dbpointer f in text_kind false (r.1.2, default 0 r.1.1)
  | BSON_TYPE_DOCUMENT => let* r := bson_iter_document f in sub_kind r
  | BSON_TYPE_ARRAY => let* r := bson_iter_array f in sub_kind r
  | BSON_TYPE_CODEWSCOPE =>
      let* r := bson_iter_codewscope f in
      let* p := deref r.1.1.1 in let* q := deref r.2 in
      let* b := bson_init_static q r.1.2 in Ret (Scope p r.1.1.2 b)
  | _ => Ret Plain
  end.
Definition field_kind (f : bson_iter_t) : res kind := let* t := ITER_TYPE f in kind_of f t.

(** a string of a field, and a document inside it *)
Definition text_in (f : bson_iter_t) (p : list Z) (len : Z) : Prop :=
  bytes_ok p ∧ 0 ≤ len ≤ blen p ∧ len < 2 ^ 32.
Definition doc_in (f : bson_iter_t) (b : option bson_t) : Prop :=
  match b with Some b => bson_ok b ∧ 5 ≤ blen b ∧ it_off f + blen b < it_len f | None => True end.
Definition kind_ok (f : bson_iter_t) (k : kind) : Prop :=
  match k with
  | Plain => True
  | Text p len _ => text_in f p len
  | Sub b => doc_in f b
  | Scope p len b => text_in f p len ∧ doc_in f b
  end.

Lemma text_at f data t o n : iter_at f data t → 0 ≤ o → 0 ≤ n → o + n ≤ blen data → n ≤ INT_MAX → text_in f (ptr_add data o) n.
Proof.
  intros Hat Ho Hn Hl Hm. destruct (slice_at _ _ _ Hat o n Ho Hn Hl) as [H1 H2]. unfold text_in, INT_MAX in *. split; [done|lia].
Qed.
Lemma doc_at f data t o n :
  iter_at f data t → it_d1 f ≤ o → 0 ≤ n → o + n ≤ it_next_off f → returns (bson_init_static (ptr_add data o) n) (doc_in f).
Proof.
  intros Hat Ho Hn Hl. pose proof (at_bounds _ _ _ Hat) as (Hok & Hb).
  eapply returns_mono; [apply bson_init_static_ok; [by apply bytes_ok_ptr_add|]|].
  { rewrite blen_drop by lia. lia. }
  intros [b|]; [|done]. intros (Hbok & _ & Hlen & H5 & _). unfold doc_in. split; [done|lia].
Qed.
Lemma kind_at f data t : iter_at f data t → returns (field_kind f) (kind_ok f).
Proof.
  intros Hat. unfold field_kind. rewrite (ITER_TYPE_at _ _ _ Hat). cbn [bind]. pose proof (at_bounds _ _ _ Hat) as (Hok & Hb).
  pose proof (at_field _ _ _ Hat) as Hf. unfold INT_MAX in *.
  assert (Hstr : ∀ ty utf8, ty = BSON_TYPE_CODE ∨ ty = BSON_TYPE_SYMBOL ∨ ty = BSON_TYPE_UTF8 → t = ty →
    returns (let* r := string_field f ty true in text_kind utf8 r) (kind_ok f)).
  { intros ty u Hty ->. eapply returns_bind; [by apply (string_field_at _ _ _ Hat)|]. intros r. case_decide; [|done].
    intros (n & -> & Hn & Hnext & _). cbn. apply (text_at _ _ _ _ _ Hat); unfold INT_MAX; lia. }
  assert (Hdoc : ∀ ty, ty = BSON_TYPE_ARRAY ∨ ty = BSON_TYPE_DOCUMENT → t = ty →
    returns (let* r := if_type f ty (let* n := field_le f 4 (it_d1 f) in let* p := field_ptr f (it_d1 f) in Ret (n, Some p)) (Ret (0, None)) in
             sub_kind r) (kind_ok f)).
  { intros ty Hty ->. eapply returns_bind; [by apply (subdoc_at _ _ _ _ Hat)|]. intros r. case_decide; [|done].
    intros (n & -> & Hn & Hnext & _). cbn [sub_kind fst snd deref bind]. eapply returns_bind; [apply (doc_at _ _ _ _ _ Hat); lia|]. done. }
  destruct t eqn:Et; try done; cbn [kind_of].
  - apply (Hstr BSON_TYPE_UTF8); auto.
  - apply (Hdoc BSON_TYPE_DOCUMENT); auto.
  - apply (Hdoc BSON_TYPE_ARRAY); auto.
  - unfold bson_iter_regex. rewrite (if_type_at _ _ _ Hat). case_decide; [|done]. rewrite !(field_ptr_at _ _ _ Hat).
    cbn [bind fst snd deref]. destruct Hf as (H1 & H2 & Hn1 & _).
    eapply returns_bind; [apply (c_string_ok _ (Z.to_nat (it_d2 f - 1 - it_d1 f)));
      [apply nul_at_lookup; [lia|done]|by apply bytes_ok_ptr_add]|].
    intros s (Hs & _). cbn. apply (text_at _ _ _ _ _ Hat); unfold blen, INT_MAX in *; lia.
  - unfold bson_iter_dbpointer. rewrite (if_type_at _ _ _ Hat). case_decide; [|done]. destruct Hf as (Hd2 & Hnext & l & Hl & Hl1 & Hd3 & _).
    rewrite !(field_le_at _ _ _ Hat), Hl, !(field_ptr_at _ _ _ Hat). cbn. destruct (Z.gtb_spec l 0); [|lia].
    apply (text_at _ _ _ _ _ Hat); unfold INT_MAX; lia.
  - apply (Hstr BSON_TYPE_CODE); auto.
  - apply (Hstr BSON_TYPE_SYMBOL); auto.
  - destruct Hf as (Hd2 & Hd3 & Hd4 & _ & l & sc & Hl & Hl1 & Hd4' & Hsc & Hend).
    unfold bson_iter_codewscope. rewrite (if_type_at _ _ _ Hat). case_decide; [|done].
    rewrite !(field_le_at _ _ _ Hat), Hl, !(field_ptr_at _ _ _ Hat), Hsc. cbn [bind].
    destruct (Z.gtb_spec l 0); [|lia]. cbn [bson_assert bind fst snd deref].
    assert (0 ≤ sc) by (destruct (rd_le_ex 4 data (it_d4 f) Hok ltac:(lia) ltac:(lia)) as (x & Hx & Hr); rewrite Hx in Hsc; apply Ret_inj in Hsc; lia).
    eapply returns_bind; [apply (doc_at _ _ _ _ _ Hat); lia|]. intros b Hdoc'. cbn. split; [|done]. apply (text_at _ _ _ _ _ Hat); unfold INT_MAX; lia.
Qed.

(** ** The reference *)
Definition text_ok (p : list Z) (len : Z) (allow_null : bool) : bool :=
  match bson_utf8_validate p len allow_null with Ret b => b | Stuck _ => false end.

(** the phase a key leads to; [None] when the key is not allowed *)
Definition key_phase (flags : Z) (phase : bson_validate_phase_t) (key : list Z) : option bson_validate_phase_t :=
  if has_flag flags BSON_VALIDATE_EMPTY_KEYS && bool_decide (key = []) then None
  else if has_flag flags BSON_VALIDATE_DOT_KEYS && bool_decide (is_Some (strchr key 46)) then None
  else if has_flag flags BSON_VALIDATE_DOLLAR_KEYS then
    if bool_decide (head key = Some 36) then dollar_phase phase key
    else if unfinished phase then None else Some BSON_VALIDATE_PHASE_NOT_DBREF
  else Some phase.
Definition text_phase (flags : Z) (phase : bson_validate_phase_t) : bson_validate_phase_t :=
  if has_flag flags BSON_VALIDATE_DOLLAR_KEYS then
    match phase with
    | BSON_VALIDATE_PHASE_LF_REF_UTF8 => BSON_VALIDATE_PHASE_LF_ID_KEY
    | BSON_VALIDATE_PHASE_LF_DB_UTF8 => BSON_VALIDATE_PHASE_NOT_DBREF
    | _ => phase
    end
  else phase.

Definition sub_phase (phase : bson_validate_phase_t) : bson_validate_phase_t :=
  if bool_decide (phase = BSON_VALIDATE_PHASE_START) then BSON_VALIDATE_PHASE_TOP else BSON_VALIDATE_PHASE_LF_REF_KEY.

(** a field: rejected, or accepted, and then the fields after it are checked or not *)
Inductive verdict := Reject | Go (phase : bson_validate_phase_t) | Stop (phase : bson_validate_phase_t).

Section Reference.
Variables (coded : bool) (flags : Z).

(** [sub] says whether a sub-document is accepted, from the phase it starts in *)
Definition kind_verdict (sub : bson_validate_phase_t → bson_t → bool) (phase : bson_validate_phase_t) (k : kind) : verdict :=
  match k with
  | Plain => Go phase
  | Text p len utf8 =>
      if negb (text_ok p len true) then (if coded then Stop phase else Reject)
      else if utf8 && has_flag flags BSON_VALIDATE_UTF8
                && negb (text_ok p len (has_flag flags BSON_VALIDATE_UTF8_ALLOW_NULL)) then Reject
      else Go (if utf8 then text_phase flags phase else phase)
  | Sub None => if coded then Go phase else Reject
  | Sub (Some b) => if sub (sub_phase phase) b then Go phase else Reject
  | Scope p len b =>
      if negb (text_ok p len true) then (if coded then Stop phase else Reject)
      else match b with
           | None => if coded then Go phase else Reject
           | Some b => if sub BSON_VALIDATE_PHASE_TOP b then (if coded then Stop phase else Go phase) else Reject
           end
  end.
Definition field_verdict (sub : bson_validate_phase_t → bson_t → bool) (phase : bson_validate_phase_t) (f : bson_iter_t) : verdict :=
  match bson_iter_key f, field_key f, field_kind f with
  | Ret p, Ret key, Ret k =>
      if negb (text_ok p (blen key) false) then Reject
      else match key_phase flags phase key with Some phase => kind_verdict sub phase k | None => Reject end
  | _, _, _ => Reject
  end.

(** the phase at the end, of a document whose fields are accepted *)
Fixpoint accept_fields (sub : bson_validate_phase_t → bson_t → bool) (phase : bson_validate_phase_t)
    (fs : list bson_iter_t) (clean : bool) : option bson_validate_phase_t :=
  match fs with
  | [] => if clean then Some phase else None
  | f :: fs' =>
      match field_verdict sub phase f with
      | Reject => None
      | Stop phase => Some phase
      | Go phase => accept_fields sub phase fs' clean
      end
  end.
Definition finished (o : option bson_validate_phase_t) : bool :=
  match o with Some p => negb (unfinished p) | None => false end.
Fixpoint accepts (depth : nat) (phase : bson_validate_phase_t) (b : bson_t) : bool :=
  match depth with
  | O => false
  | S n =>
      match fields_of (iter_start b (blen b)) with
      | Ret (last, fs) => finished (accept_fields (accepts n) phase fs (it_err_off last =? 0))
      | Stuck _ => false
      end
  end.
End Reference.

(** ** The code computes the reference *)

(** A callback from [st] to [st']: an error stays, and the first one is set exactly
    when the reference rejects. *)
Record step_ok (top : Z) (st st' : bson_validate_state_t) (o : option bson_validate_phase_t) : Prop := {
  so_flags : vs_flags st' = vs_flags st;
  so_keeps : 0 ≤ vs_err_offset st → 0 ≤ vs_err_offset st';
  so_bound : vs_err_offset st ≤ top → vs_err_offset st' ≤ top;
  so_verdict : vs_err_offset st < 0 →
    match o with Some p => vs_err_offset st' < 0 ∧ vs_phase st' = p | None => 0 ≤ vs_err_offset st' end
}.
Lemma step_refl top st : step_ok top st st (Some (vs_phase st)).
Proof. by constructor. Qed.
Lemma step_phase top st p : step_ok top st (set_vs_phase p st) (Some p).
Proof. by constructor. Qed.
Lemma step_fail top st o flag msg : 0 ≤ o ≤ top → step_ok top st (fail_at o flag msg st) None.
Proof. intros Ho. constructor; cbn; [done|lia|lia|lia]. Qed.
Lemma step_offset top st o : 0 ≤ o ≤ top → step_ok top st (set_vs_offset o st) None.
Proof. intros Ho. constructor; cbn; [done|lia|lia|lia]. Qed.
Lemma step_go top st1 st2 st3 p o :
  step_ok top st1 st2 (Some p) → (vs_phase st2 = p → step_ok top st2 st3 o) →
  (0 ≤ vs_err_offset st1 → ∃ o', step_ok top st2 st3 o') → step_ok top st1 st3 o.
Proof.
  intros [f1 k1 b1 v1] H H'. destruct (Z.le_gt_cases 0 (vs_err_offset st1)) as [Hge|Hlt].
  - destruct (H' Hge) as [o' [f2 k2 b2 v2]]. constructor; [congruence|by intros; apply k2, k1|by intros; apply b2, b1|lia].
  - destruct (v1 Hlt) as [Hlt2 Hp]. destruct (H Hp) as [f2 k2 b2 v2]. constructor; [congruence|by intros; apply k2, k1|by intros; apply b2, b1|by intros; apply v2].
Qed.
Lemma step_bad top st1 st2 st3 o :
  step_ok top st1 st2 None → step_ok top st2 st3 o → step_ok top st1 st3 None.
Proof. intros [f1 k1 b1 v1] [f2 k2 b2 v2]. constructor; [congruence|by intros; apply k2, k1|by intros; apply b2, b1|by intros; apply k2, v1]. Qed.
Lemma step_error top st st' o o' : 0 ≤ vs_err_offset st → step_ok top st st' o → step_ok top st st' o'.
Proof. intros H []. constructor; [done|done|done|lia]. Qed.

Lemma text_ok_ret f p len an : text_in f p len → bson_utf8_validate p len an = Ret (text_ok p len an).
Proof.
  intros (Hok & Hlen & Hmax). unfold text_ok, bson_utf8_validate.
  pose proof (validate_from_spec (S (Z.to_nat len)) p len an 0 Hok ltac:(lia) ltac:(lia) Hmax ltac:(lia)) as H.
  by destruct (validate_from _ _ _ _ _).
Qed.

Section Callbacks.
Variables (f : bson_iter_t) (data : list Z) (t : bson_type_t).
Hypothesis Hat : iter_at f data t.

(** the key, as the callbacks see it *)
Lemma key_at :
  ∃ p k, bson_iter_key f = Ret p ∧ field_key f = Ret k ∧ c_string p = Ret k ∧ rd p 0 = Ret (default 0 (head k))
    ∧ head k ≠ Some 0 ∧ text_in f p (blen k) ∧ valid_key p = Ret (text_ok p (blen k) false).
Proof using Hat.
  destruct (bson_iter_key_at _ _ _ Hat) as (Hp & k & Hk & Hlen & Hok). pose proof (at_bounds _ _ _ Hat) as (Hb & Ho).
  assert (Hin : text_in f (ptr_add data (it_key f)) (blen k)) by (apply (text_at _ _ _ _ _ Hat); lia).
  exists (ptr_add data (it_key f)), k. unfold field_key. rewrite Hp. cbn [bind].
  assert (Hhd : rd (ptr_add data (it_key f)) 0 = Ret (default 0 (head k)) ∧ head k ≠ Some 0).
  { revert Hk. destruct (ptr_add data (it_key f)) as [|c r]; [done|]. cbn [c_string].
    change (rd (c :: r) 0) with (Ret c). destruct (Z.eqb_spec c 0) as [->|Hc]; [by intros [= <-]|].
    destruct (c_string r); [|done]. cbn [bind]. intros [= <-]. cbn. split; [done|congruence]. }
  destruct Hhd as [Hrd Hhd]. split; [done|]. split; [done|]. split; [done|]. split; [done|]. split; [done|]. split; [done|].
  unfold valid_key. rewrite Hrd. cbn [bind]. destruct (Z.eqb_spec (default 0 (head k)) 0) as [E|].
  - destruct k as [|c k]; [done|]. cbn in *. congruence.
  - rewrite Hk. cbn [bind]. by apply (text_ok_ret f).
Qed.

Lemma before_ok p k st top :
  c_string p = Ret k → rd p 0 = Ret (default 0 (head k)) → head k ≠ Some 0 → it_len f ≤ top →
  ∃ stop st', _bson_iter_validate_before f p st = Ret (stop, st')
    ∧ step_ok top st st' (key_phase (vs_flags st) (vs_phase st) k)
    ∧ stop = negb (bool_decide (is_Some (key_phase (vs_flags st) (vs_phase st) k))).
Proof using Hat.
  intros Hk Hrd Hhd Htop. pose proof (at_bounds _ _ _ Hat) as (_ & Ho). unfold _bson_iter_validate_before, key_phase.
  rewrite Hrd. cbn [bind]. assert (Hnil : (default 0 (head k) =? 0) = bool_decide (k = [])).
  { destruct k as [|c k]; [done|]. cbn in *. destruct (Z.eqb_spec c 0); [congruence|done]. }
  assert (Hdol : (default 0 (head k) =? 36) = bool_decide (head k = Some 36)).
  { destruct k as [|c k]; [done|]. cbn. destruct (Z.eqb_spec c 36) as [->|]; [done|]. symmetry. apply bool_decide_eq_false. congruence. }
  rewrite Hnil, Hdol, Hk. cbn [bind].
  assert (Hfail : ∀ flag msg, ∃ stop st', Ret (true, fail_at (it_off f) flag msg st) = Ret (stop, st')
            ∧ step_ok top st st' None ∧ stop = negb (bool_decide (is_Some (@None bson_validate_phase_t)))).
  { intros. do 2 eexists. split; [done|]. split; [apply step_fail; lia|done]. }
  destruct (_ && bool_decide (k = [])); [apply Hfail|].
  set (dots := _ && bool_decide (is_Some (strchr k 46))).
  assert (Hok : ∀ q, ∃ stop st', (if dots then Ret (true, fail_at (it_off f) BSON_VALIDATE_DOT_KEYS
                   (quoted (cs "keys cannot contain " ++ [34; 46; 34] ++ cs ": ") k) (set_vs_phase q st)) else Ret (false, set_vs_phase q st)) = Ret (stop, st')
            ∧ step_ok top st st' (if dots then None else Some q)
            ∧ stop = negb (bool_decide (is_Some (if dots then None else Some q)))).
  { intros q. destruct dots; do 2 eexists; (split; [done|]); (split; [|done]); [|apply step_phase].
    constructor; cbn; [done|lia|lia|lia]. }
  destruct (has_flag _ BSON_VALIDATE_DOLLAR_KEYS).
  - destruct (bool_decide (head k = Some 36)).
    + destruct (dollar_phase (vs_phase st) k) as [q|]; [apply Hok|]. destruct dots; apply Hfail.
    + destruct (unfinished (vs_phase st)); [destruct dots; apply Hfail|apply Hok].
  - specialize (Hok (vs_phase st)). by destruct st.
Qed.
End Callbacks.

(** ** A field *)
Definition sub_document (n : nat) (f : bson_iter_t) (b : bson_t) st :=
  match n with O => Stuck OutOfFuel | S n => validate_document (bson_validate_funcs n) f b st end.
Definition sub_scope (n : nat) (f : bson_iter_t) (b : bson_t) st :=
  match n with O => Stuck OutOfFuel | S n => validate_codewscope (bson_validate_funcs n) f b st end.
Definition visit_kind (n : nat) (f : bson_iter_t) (key : list Z) (st : bson_validate_state_t) (k : kind)
    : res (visit_result bson_validate_state_t) :=
  match k with
  | Plain | Sub None => Ret (Visited false st)
  | Text p len u =>
      if text_ok p len true then (if u then visited (_bson_iter_validate_utf8 f key len p st) else Ret (Visited false st))
      else Ret BadText
  | Sub (Some b) => visited (sub_document n f b st)
  | Scope p len b =>
      if text_ok p len true then match b with Some b => visited (sub_scope n f b st) | None => Ret (Visited false st) end
      else Ret BadText
  end.

Lemma checked_text_ok f p len : text_in f p len → checked_text (Some p) len = Ret (p, text_ok p len true).
Proof. intros H. unfold checked_text. rewrite bool_decide_true by done. cbn [bson_assert deref bind]. by rewrite (text_ok_ret f) by done. Qed.

Lemma visit_value_kind n f data t key st :
  iter_at f data t →
  ∃ k, kind_of f t = Ret k ∧ kind_ok f k ∧ visit_value (bson_validate_funcs n) f key st t = visit_kind n f key st k.
Proof.
  intros Hat. pose proof (kind_at _ _ _ Hat) as Hk. unfold field_kind in Hk. rewrite (ITER_TYPE_at _ _ _ Hat) in Hk.
  cbn [bind] in Hk. apply returns_Ret in Hk as (k & Hk & Hok). exists k. split; [done|]. split; [done|]. revert Hk Hok.
  assert (Hplain : ∀ v : res (visit_result bson_validate_state_t), v = Ret (Visited false st) →
    Ret Plain = Ret k → kind_ok f k → v = visit_kind n f key st k) by (intros v -> [= <-]; done).
  assert (Htext : ∀ u (r : res (option (list Z) * Z)) call,
    (∀ p len, call len p = if u : bool then _bson_iter_validate_utf8 f key len p st else Ret (false, st)) →
    (let* r := r in text_kind u r) = Ret k → kind_ok f k →
    (let* r := r in visit_text r.1 r.2 (call r.2)) = visit_kind n f key st k).
  { intros u [[[p|] len]|] call Hcall; cbn [bind text_kind fst snd deref]; try done. intros [= <-] Hin. cbn in Hin. unfold visit_text.
    rewrite (checked_text_ok f) by done. cbn [bind fst snd visit_kind]. destruct (text_ok p len true); [|done].
    rewrite Hcall. by destruct u. }
  assert (Hsub : ∀ r : res (Z * option (list Z)),
    (let* r := r in sub_kind r) = Ret k → kind_ok f k →
    (let* r := r in visit_child st r.2 r.1 (λ b, VISIT_FIELD (visit_document (bson_validate_funcs n)) (λ g d, g f key b d) st))
      = visit_kind n f key st k).
  { intros [[len [p|]]|]; cbn [bind sub_kind fst snd deref]; try done. unfold visit_child. cbn [bind deref].
    destruct (bson_init_static p len) as [[b|]|]; cbn [bind]; try done; intros [= <-] _; [|done]. by destruct n. }
  destruct t eqn:Et; cbn [kind_of visit_value]; try (apply Hplain; by destruct n).
  - apply (Htext true _ (λ len p, VISIT_FIELD (visit_utf8 (bson_validate_funcs n)) (λ g d, g f key len p d) st)). by destruct n.
  - apply Hsub.
  - intros Hk Hok. rewrite <- (Hsub (bson_iter_array f)) by done. by destruct n.
  - pose proof (bson_iter_binary_at _ _ _ Hat) as Hb. apply returns_Ret in Hb as (r & -> & _). cbn [bind]. intros Hk. apply Hplain; [by destruct n|done].
  - destruct (bson_iter_regex f) as [[[p|] o]|]; cbn [bind fst snd deref]; try done. destruct (c_string p) as [s|]; cbn [bind]; [|done].
    intros Hk Hok. rewrite <- (Htext false (Ret (Some p, blen s)) (λ _ _, Ret (false, st))) by done. cbn [bind fst snd]. by destruct n.
  - destruct (bson_iter_dbpointer f) as [[[len p] o]|]; cbn [bind fst snd]; [|done].
    intros Hk Hok. rewrite <- (Htext false (Ret (p, default 0 len)) (λ _ _, Ret (false, st))) by done. cbn [bind fst snd]. by destruct n.
  - apply (Htext false _ (λ len p, VISIT_FIELD (visit_code (bson_validate_funcs n)) (λ g d, g f key len p d) st)). by destruct n.
  - apply (Htext false _ (λ len p, VISIT_FIELD (visit_symbol (bson_validate_funcs n)) (λ g d, g f key len p d) st)). by destruct n.
  - destruct (bson_iter_codewscope f) as [[[[[p|] len] sl] [q|]]|]; cbn [bind fst snd deref]; try done.
    destruct (bson_init_static q sl) as [b|] eqn:Eb; cbn [bind]; [|done]. intros [= <-] [Hin _].
    rewrite (checked_text_ok f) by done. cbn [bind fst snd visit_kind]. destruct (text_ok p len true); [|done].
    unfold visit_child. cbn [bind deref]. rewrite Eb. cbn [bind]. destruct b as [b|]; [|done]. by destruct n.
  - pose proof (bson_iter_timestamp_at _ _ _ Hat) as Hb. apply returns_Ret in Hb as (r & -> & _). cbn [bind]. intros Hk. apply Hplain; [by destruct n|done].
  - pose proof (bson_iter_decimal128_at _ _ _ Hat) as Hb. apply returns_Ret in Hb as (r & -> & _). cbn [bind]. intros Hk. apply Hplain; [by destruct n|done].
Qed.

Lemma utf8_callback_ok f data t p key len st top :
  iter_at f data t → c_string p = Ret key → it_len f ≤ top →
  ∀ s, text_in f s len → let phase := vs_phase st in
  ∃ stop st', _bson_iter_validate_utf8 f p len s st = Ret (stop, st')
    ∧ if has_flag (vs_flags st) BSON_VALIDATE_UTF8
         && negb (text_ok s len (has_flag (vs_flags st) BSON_VALIDATE_UTF8_ALLOW_NULL))
      then step_ok top st st' None
      else stop = false ∧ step_ok top st st' (Some (text_phase (vs_flags st) phase)).
Proof.
  intros Hat Hk Htop s Hs phase. pose proof (at_bounds _ _ _ Hat) as (_ & Ho). unfold _bson_iter_validate_utf8.
  rewrite !(text_ok_ret f s len) by done.
  assert (Hrest : ∃ stop st',
    (if has_flag (vs_flags st) BSON_VALIDATE_DOLLAR_KEYS then
       Ret (false, match vs_phase st with
                   | BSON_VALIDATE_PHASE_LF_REF_UTF8 => set_vs_phase BSON_VALIDATE_PHASE_LF_ID_KEY st
                   | BSON_VALIDATE_PHASE_LF_DB_UTF8 => set_vs_phase BSON_VALIDATE_PHASE_NOT_DBREF st
                   | _ => st
                   end)
     else Ret (false, st)) = Ret (stop, st')
    ∧ stop = false ∧ step_ok top st st' (Some (text_phase (vs_flags st) phase))).
  { unfold text_phase, phase. destruct (has_flag _ BSON_VALIDATE_DOLLAR_KEYS); do 2 eexists; (split; [done|]); (split; [done|]).
    - destruct (vs_phase st) eqn:E; try apply step_phase; rewrite <- E; apply step_refl.
    - apply step_refl. }
  destruct (has_flag (vs_flags st) BSON_VALIDATE_UTF8); cbn [bind andb]; [|exact Hrest].
  destruct (text_ok _ _ _); cbn [negb]; [exact Hrest|]. rewrite Hk. cbn [bind].
  do 2 eexists. split; [done|]. apply step_fail. lia.
Qed.

(** what a sub-document does, for the fields around it *)
Definition subs_ok (n : nat) (top : Z) : Prop :=
  ∀ f b st, bson_ok b → 5 ≤ blen b ≤ Z.of_nat n → 0 ≤ it_off f → it_off f + blen b ≤ top →
  (∃ stop st', sub_document n f b st = Ret (stop, st')
     ∧ if accepts true (vs_flags st) n (sub_phase (vs_phase st)) b
       then step_ok top st st' (Some (vs_phase st)) ∧ (vs_err_offset st < 0 → stop = false)
       else step_ok top st st' None)
  ∧ (∃ stop st', sub_scope n f b st = Ret (stop, st')
     ∧ if accepts true (vs_flags st) n BSON_VALIDATE_PHASE_TOP b
       then step_ok top st st' (Some (vs_phase st)) ∧ stop = true
       else step_ok top st st' None).

(** what the loop does next *)
Definition turn_ok (f : bson_iter_t) (top : Z) (st : bson_validate_state_t) (v : verdict) (r : turn bson_validate_state_t) : Prop :=
  match r with
  | Again _ st' => ∃ o, step_ok top st st' o
      ∧ (vs_err_offset st < 0 → match v with Go p => o = Some p | Stop _ => False | Reject => o = None end)
  | Return _ st' => ∃ o, step_ok top st st' o
      ∧ (vs_err_offset st < 0 → match v with Go _ => False | Stop p => o = Some p | Reject => o = None end)
  | Leave it st' => st' = st ∧ it_err_off it = it_off f ∧ (vs_err_offset st < 0 → v = Reject)
  end.

Lemma visit_kind_ok n f data t p key st k top :
  iter_at f data t → c_string p = Ret key → it_len f ≤ top → it_len f ≤ Z.of_nat n + 5 →
  kind_ok f k → subs_ok n top →
  ∃ v, visit_kind n f p st k = Ret v ∧
    match v with
    | BadText => kind_verdict true (vs_flags st) (accepts true (vs_flags st) n) (vs_phase st) k = Stop (vs_phase st)
    | Visited stop st' =>
        match kind_verdict true (vs_flags st) (accepts true (vs_flags st) n) (vs_phase st) k with
        | Go q => step_ok top st st' (Some q) ∧ (vs_err_offset st < 0 → stop = false)
        | Stop q => step_ok top st st' (Some q) ∧ stop = true
        | Reject => step_ok top st st' None
        end
    end.
Proof.
  intros Hat Hkey Htop Hn Hk Hsub. pose proof (at_bounds _ _ _ Hat) as (_ & Ho).
  destruct k as [|s len u|[b|]|s len b]; cbn [visit_kind kind_verdict kind_ok] in *.
  - eexists. split; [done|]. split; [apply step_refl|done].
  - destruct (text_ok s len true); cbn [negb]; [|by eexists]. destruct u; cbn [andb].
    + destruct (utf8_callback_ok f data t p key len st top Hat Hkey Htop s Hk) as (stop & st' & -> & Hst). cbn [visited bind fst snd].
      eexists. split; [done|]. destruct (_ && _); [done|]. destruct Hst as [-> Hst]. by split.
    + eexists. split; [done|]. split; [apply step_refl|done].
  - destruct Hk as (Hb & H5 & Hl). destruct (Hsub f b st Hb ltac:(lia) ltac:(lia) ltac:(lia)) as [(stop & st' & -> & Hst) _]. cbn [visited bind fst snd].
    eexists. split; [done|]. by destruct (accepts _ _ _ _ _).
  - eexists. split; [done|]. split; [apply step_refl|done].
  - destruct Hk as [Hs Hb]. destruct (text_ok s len true); cbn [negb]; [|by eexists]. destruct b as [b|].
    + destruct Hb as (Hb & H5 & Hl). destruct (Hsub f b st Hb ltac:(lia) ltac:(lia) ltac:(lia)) as [_ (stop & st' & -> & Hst)]. cbn [visited bind fst snd].
      eexists. split; [done|]. by destruct (accepts _ _ _ _ _).
    + eexists. split; [done|]. split; [apply step_refl|done].
Qed.

Lemma visit_at_ok n f data t st top :
  iter_at f data t → it_len f ≤ top → it_len f ≤ Z.of_nat n + 5 →
  subs_ok n top →
  ∃ r, visit_at (bson_validate_funcs n) f st = Ret r
    ∧ turn_ok f top st (field_verdict true (vs_flags st) (accepts true (vs_flags st) n) (vs_phase st) f) r.
Proof.
  intros Hat Htop Hn Hsub. destruct (key_at _ _ _ Hat) as (p & key & Hp & Hfk & Hk & Hrd & Hhd & Hin & Hvalid).
  unfold visit_at, field_verdict, field_kind. rewrite Hp, (ITER_TYPE_at _ _ _ Hat), Hfk. cbn [bind]. unfold visit_field. rewrite Hvalid. cbn [bind].
  destruct (visit_value_kind n f data t p st Hat) as (k & Hkind & Hkok & _). rewrite Hkind.
  destruct (text_ok p (blen key) false); cbn [negb].
  2: { eexists. split; [done|]. cbn. split; [done|]. by split. }
  assert (Hbefore : VISIT_FIELD (visit_before (bson_validate_funcs n)) (λ g d, g f p d) st = _bson_iter_validate_before f p st) by (by destruct n).
  rewrite Hbefore. destruct (before_ok _ _ _ Hat p key st top Hk Hrd Hhd Htop) as (stop & st1 & -> & Hst1 & ->). cbn [bind].
  destruct (key_phase _ _ key) as [q|]; rewrite ?bool_decide_true by done.
  2: { rewrite bool_decide_false by (by intros [? ?]). cbn [negb]. eexists. split; [done|]. cbn. by exists None. }
  cbn [negb]. destruct (visit_value_kind n f data t p st1 Hat) as (k' & Hkind' & _ & ->).
  rewrite Hkind in Hkind'. injection Hkind' as <-.
  destruct (visit_kind_ok n f data t p key st1 k top Hat Hk Htop Hn Hkok Hsub) as (v & -> & Hv). cbn [bind].
  pose proof (so_flags _ _ _ _ Hst1) as Hfl. rewrite Hfl in Hv.
  assert (Hq : vs_err_offset st < 0 → vs_phase st1 = q) by (intros He; by apply (so_verdict _ _ _ _ Hst1)).
  assert (Hcomp : ∀ st2 o, step_ok top st1 st2 o → step_ok top st st2 o).
  { intros st2 o H2. eapply step_go; [exact Hst1|done|]. intros _. by exists o. }
  assert (Hneg : vs_err_offset st < 0 → vs_err_offset st1 < 0) by (intros He; by apply (so_verdict _ _ _ _ Hst1)).
  assert (Hafter : ∀ d, VISIT_FIELD (visit_after (bson_validate_funcs n)) (λ g d, let* k := bson_iter_key_unsafe f in g f k d) d = Ret (false, d))
    by (by destruct n).
  destruct v as [stop st2|].
  - destruct stop; [|rewrite Hafter; cbn [bind]]; (eexists; split; [done|]); cbn [turn_ok];
      destruct (kind_verdict _ _ _ (vs_phase st1) k) as [|r|r] eqn:Ekv.
    + exists None. split; [by apply Hcomp|]. intros He. rewrite <- (Hq He), Ekv. done.
    + destruct Hv as [Hv Hgo]. exists (Some r). split; [by apply Hcomp|]. intros He. exfalso. by specialize (Hgo (Hneg He)).
    + destruct Hv as [Hv _]. exists (Some r). split; [by apply Hcomp|]. intros He. rewrite <- (Hq He), Ekv. done.
    + exists None. split; [by apply Hcomp|]. intros He. rewrite <- (Hq He), Ekv. done.
    + destruct Hv as [Hv _]. exists (Some r). split; [by apply Hcomp|]. intros He. rewrite <- (Hq He), Ekv. done.
    + by destruct Hv.
  - eexists. split; [done|]. cbn [turn_ok]. exists (Some (vs_phase st1)). split; [apply Hcomp, step_refl|].
    intros He. rewrite <- (Hq He), Hv. done.
Qed.

(** ** A document *)
Lemma visit_last_ok n st last top :
  0 ≤ it_err_off last ≤ top →
  ∃ r, visit_last (bson_validate_funcs n) last st = Ret r
    ∧ step_ok top st r.2 (if it_err_off last =? 0 then Some (vs_phase st) else None).
Proof.
  intros Hl. unfold visit_last, visit_end. replace (visit_corrupt (bson_validate_funcs n)) with (Some _bson_iter_validate_corrupt) by (by destruct n).
  destruct (it_err_off last =? 0); cbn [negb]; (eexists; split; [done|]); [apply step_refl|by apply step_fail].
Qed.

Lemma visit_fold_ok n top len fs last :
  Forall (λ f, positioned f ∧ it_len f = len) fs → len ≤ top → len ≤ Z.of_nat n + 5 → 0 ≤ it_err_off last ≤ len →
  subs_ok n top →
  ∀ st, ∃ r, visit_fold (bson_validate_funcs n) fs last st = Ret r
    ∧ step_ok top st r.2 (accept_fields true (vs_flags st) (accepts true (vs_flags st) n) (vs_phase st) fs (it_err_off last =? 0)).
Proof.
  intros Hall Htop Hn Hlast Hsub. induction Hall as [|f fs [(data & t & Hat) Hf] _ IH]; intros st.
  { destruct (visit_last_ok n st last top ltac:(lia)) as (r & Hr & Hs). by exists r. }
  cbn [visit_fold accept_fields]. pose proof (at_bounds _ _ _ Hat) as (_ & Ho).
  destruct (visit_at_ok n f data t st top Hat ltac:(lia) ltac:(lia) Hsub) as (turn & -> & Hturn). cbn [bind].
  destruct turn as [it st'|it st'|it st'].
  - destruct Hturn as (o & Ho1 & Hv). destruct (IH st') as (r & -> & Hr). exists r. split; [done|].
    rewrite (so_flags _ _ _ _ Ho1) in Hr.
    destruct (Z.le_gt_cases 0 (vs_err_offset st)) as [Hge|Hlt].
    { eapply step_error; [done|]. eapply (step_bad _ _ st' _ _); [by eapply (step_error _ _ _ o None)|exact Hr]. }
    specialize (Hv Hlt). destruct (field_verdict _ _ _ _ _) as [|p|p]; [|subst o|done].
    + subst o. eapply step_bad; [done|exact Hr].
    + eapply step_go; [exact Ho1| |by intros ?; exists None; lia]. by intros <-.
  - destruct Hturn as (o & Ho1 & Hv). eexists. split; [done|]. cbn [snd].
    destruct (Z.le_gt_cases 0 (vs_err_offset st)) as [Hge|Hlt]; [by eapply step_error|].
    specialize (Hv Hlt). by destruct (field_verdict _ _ _ _ _) as [|p|p]; [subst o|done|subst o].
  - destruct Hturn as (-> & Herr & Hv). destruct (visit_last_ok n st it top ltac:(lia)) as (r & -> & Hr). exists r. split; [done|].
    rewrite Herr in Hr. destruct (Z.eqb_spec (it_off f) 0); [lia|].
    destruct (Z.le_gt_cases 0 (vs_err_offset st)) as [Hge|Hlt]; [by eapply step_error|]. by rewrite (Hv Hlt).
Qed.

Lemma document_ok n top f b st :
  subs_ok n top → bson_ok b → 5 ≤ blen b ≤ Z.of_nat n + 5 → 0 ≤ it_off f → it_off f + blen b ≤ top →
  ∃ stop st', validate_document (bson_validate_funcs n) f b st = Ret (stop, st')
    ∧ if accepts true (vs_flags st) (S n) (sub_phase (vs_phase st)) b
      then step_ok top st st' (Some (vs_phase st)) ∧ (vs_err_offset st < 0 → stop = false)
      else step_ok top st st' None.
Proof.
  intros Hsub Hb Hn Hf Htop. unfold validate_document, bson_iter_init. destruct (Z.ltb_spec (blen b) 5); [lia|]. cbn [negb].
  fold (sub_phase (vs_phase st)). set (st1 := set_vs_phase (sub_phase (vs_phase st)) st).
  destruct (visit_all_fold (bson_validate_funcs n) ltac:(by destruct n) (iter_start b (blen b))) as (last & fs & Hfs & Hall & Hlast & Hvisit);
    [apply iter_start_ok; [apply Hb|lia|apply Hb]|cbn; lia|]. cbn [iter_start it_len] in *.
  destruct (visit_fold_ok n top (blen b) fs last Hall ltac:(lia) ltac:(lia) Hlast Hsub st1) as (r & Hr & Hstep).
  rewrite Hvisit, Hr. cbn [bind accepts]. rewrite Hfs. change (vs_flags st1) with (vs_flags st) in Hstep.
  change (vs_phase st1) with (sub_phase (vs_phase st)) in Hstep.
  set (o := accept_fields _ _ _ _ _ _) in *. clearbody o. destruct r as [[stop it] st2]. cbn [snd] in *. destruct Hstep as [Hfl Hk Hbd Hv].
  cbn [st1 set_vs_phase vs_err_offset vs_flags] in *.
  assert (Hoff : vs_err_offset (if vs_err_offset st2 <=? 0 then set_vs_offset (it_off f) st2 else st2)
    = if vs_err_offset st2 <=? 0 then it_off f else vs_err_offset st2) by (by destruct (_ <=? 0)).
  assert (Hsame : vs_flags (if vs_err_offset st2 <=? 0 then set_vs_offset (it_off f) st2 else st2) = vs_flags st) by (by destruct (_ <=? 0)).
  destruct (unfinished (vs_phase st2)) eqn:Eu; do 2 eexists; (split; [done|]).
  - assert (Hbad : step_ok top st (if vs_err_offset st2 <=? 0 then set_vs_offset (it_off f) st2 else st2) None).
    { constructor; rewrite ?Hoff; [done| | |]; destruct (Z.leb_spec (vs_err_offset st2) 0); lia. }
    destruct o as [p|]; cbn [finished]; [|done]. destruct (unfinished p) eqn:Ep; cbn [negb]; [done|].
    split; [|intros Hlt; destruct (Hv Hlt); congruence].
    destruct (Z.le_gt_cases 0 (vs_err_offset st)) as [Hge|Hlt]; [by eapply step_error|]. destruct (Hv Hlt). congruence.
  - destruct o as [p|]; cbn [finished].
    + destruct (unfinished p) eqn:Ep; cbn [negb].
      * constructor; cbn; [done|done|done|]. intros Hlt. destruct (Hv Hlt). congruence.
      * split; [|done]. constructor; cbn; [done|done|done|]. intros Hlt. by destruct (Hv Hlt).
    + by constructor.
Qed.

Lemma validate_with_ok n b flags :
  subs_ok n (blen b) → bson_ok b → 5 ≤ blen b ≤ Z.of_nat n + 5 →
  ∃ off, validate_with (bson_validate_funcs n) b flags = Ret (accepts true flags (S n) BSON_VALIDATE_PHASE_TOP b, off)
    ∧ ∀ o, off = Some o → 0 < o ≤ blen b ∧ accepts true flags (S n) BSON_VALIDATE_PHASE_TOP b = false.
Proof.
  intros Hsub Hb Hn. unfold validate_with, validate_internal. unfold bson_iter_init at 1. destruct (Z.ltb_spec (blen b) 5); [lia|]. cbn [negb].
  set (st := ValidateState flags (-1) BSON_VALIDATE_PHASE_START no_error).
  destruct (document_ok n (blen b) (iter_start b (blen b)) b st Hsub Hb Hn) as (stop & st' & -> & Hst); [cbn; lia|cbn; lia|].
  cbn [bind snd]. change (sub_phase (vs_phase st)) with BSON_VALIDATE_PHASE_TOP in Hst. change (vs_flags st) with flags in Hst.
  destruct (accepts _ _ _ _ _); [destruct Hst as [Hst _]|]; destruct Hst as [_ _ Hbd Hv]; cbn in Hbd, Hv; specialize (Hbd ltac:(lia)); specialize (Hv ltac:(lia)).
  - destruct Hv as [Hv _]. destruct (Z.ltb_spec (vs_err_offset st') 0); [|lia]. eexists. split; [done|].
    rewrite Z.gtb_ltb. destruct (Z.ltb_spec 0 (vs_err_offset st')); [lia|done].
  - destruct (Z.ltb_spec (vs_err_offset st') 0); [lia|]. eexists. split; [done|].
    rewrite Z.gtb_ltb. destruct (Z.ltb_spec 0 (vs_err_offset st')); [|done]. intros o [= <-]. split; [lia|done].
Qed.

Lemma subs_ok_all n top : subs_ok n top.
Proof.
  revert top. induction n as [|n IH]; intros top f b st Hb Hn Hf Htop; [lia|]. cbn [sub_document sub_scope]. split.
  - apply document_ok; [apply IH|done|lia|done|done].
  - unfold validate_codewscope. destruct (validate_with_ok n b (vs_flags st) (IH _) Hb ltac:(lia)) as (off & -> & Hoff). cbn [bind].
    destruct (accepts _ _ _ _ _); cbn [negb]; do 2 eexists; (split; [done|]); [split; [apply step_refl|done]|].
    apply step_fail. destruct off as [o|]; cbn [from_option id]; [destruct (Hoff o eq_refl)|]; lia.
Qed.

(** validation computes the reference *)
Lemma bson_validate_accepts b flags :
  bson_ok b → 5 ≤ blen b →
  ∃ off, bson_validate b flags = Ret (accepts true flags (S (length b)) BSON_VALIDATE_PHASE_TOP b, off)
    ∧ ∀ o, off = Some o → 0 < o ≤ blen b ∧ accepts true flags (S (length b)) BSON_VALIDATE_PHASE_TOP b = false.
Proof. intros Hb H5. apply validate_with_ok; [apply subs_ok_all|done|unfold blen in *; lia]. Qed.

(** ** What the code should compute *)
Definition valid_document (flags : Z) (b : bson_t) : Prop :=
  accepts false flags (S (length b)) BSON_VALIDATE_PHASE_TOP b = true.

(** the fields that are not checked *)
Definition skips (f : bson_iter_t) : Prop :=
  match field_kind f with
  | Ret (Text p len _) => text_ok p len true = false
  | Ret (Sub None) | Ret (Scope _ _ _) => True
  | _ => False
  end.
Inductive has_gap : bson_t → Prop :=
| gap_field b last fs f : fields_of (iter_start b (blen b)) = Ret (last, fs) → f ∈ fs → skips f → has_gap b
| gap_sub b last fs f b' :
    fields_of (iter_start b (blen b)) = Ret (last, fs) → f ∈ fs → field_kind f = Ret (Sub (Some b')) → has_gap b' → has_gap b.

Section Gaps.
Variable flags : Z.
Notation dollar := (has_flag flags BSON_VALIDATE_DOLLAR_KEYS).

(** without the check on dollar keys the phase never changes; with it, a DBRef that
    waits for a string accepts no other key *)
Lemma key_phase_same phase key q : dollar = false → key_phase flags phase key = Some q → q = phase.
Proof using Type. intros Hd. unfold key_phase. rewrite Hd. repeat (destruct (_ && _); [done|]). by intros [= ->]. Qed.
Lemma key_phase_waits phase key q :
  dollar = true → key_phase flags phase key = Some q → unfinished q = true →
  q = BSON_VALIDATE_PHASE_LF_REF_UTF8 ∨ q = BSON_VALIDATE_PHASE_LF_DB_UTF8.
Proof using Type.
  intros Hd. unfold key_phase. rewrite Hd. repeat (destruct (_ && _); [done|]). destruct (bool_decide _).
  - unfold dollar_phase. destruct phase; try done; case_match; try done; intros [= <-] Hu; first [by left|by right|done].
  - destruct (unfinished phase); [done|]. by intros [= <-] ?.
Qed.
Lemma waiting_rejects phase key :
  dollar = true → phase = BSON_VALIDATE_PHASE_LF_REF_UTF8 ∨ phase = BSON_VALIDATE_PHASE_LF_DB_UTF8 →
  key_phase flags phase key = None.
Proof using Type. intros Hd Hp. unfold key_phase. rewrite Hd. repeat (destruct (_ && _); [done|]). by destruct Hp as [-> | ->]; destruct (bool_decide _). Qed.
Lemma waiting_stays coded sub phase fs clean :
  dollar = true → phase = BSON_VALIDATE_PHASE_LF_REF_UTF8 ∨ phase = BSON_VALIDATE_PHASE_LF_DB_UTF8 →
  finished (accept_fields coded flags sub phase fs clean) = false.
Proof using Type.
  intros Hd Hp. destruct fs as [|f fs]; cbn [accept_fields].
  - destruct clean; [|done]. by destruct Hp as [-> | ->].
  - unfold field_verdict. destruct (bson_iter_key f); [|done]. destruct (field_key f); [|done]. destruct (field_kind f); [|done].
    rewrite waiting_rejects by done. by destruct (negb _).
Qed.

Lemma sub_phase_finished phase : unfinished (sub_phase phase) = false.
Proof using Type. unfold sub_phase. by destruct (bool_decide _). Qed.

(** a valid field is accepted; checking may stop there *)
Lemma verdict_valid (sub sub' : bson_validate_phase_t → bson_t → bool) phase f p :
  (∀ q b, unfinished q = false → sub q b = true → sub' q b = true) → field_verdict false flags sub phase f = Go p →
  field_verdict true flags sub' phase f = Go p
  ∨ field_verdict true flags sub' phase f = Stop p ∧ ∃ key, key_phase flags phase key = Some p.
Proof using Type.
  intros Hsub. unfold field_verdict. destruct (bson_iter_key f) as [pk|]; [|done]. destruct (field_key f) as [key|]; [|done].
  destruct (field_kind f) as [k|]; [|done]. destruct (negb _); [done|]. destruct (key_phase flags phase key) as [q|] eqn:Eq; [|done].
  destruct k as [|s len u|[b|]|s len [b|]]; cbn [kind_verdict]; try (by left); try done.
  - destruct (negb _); [done|]. by left.
  - destruct (sub (sub_phase q) b) eqn:Es; [|done]. rewrite (Hsub _ _ (sub_phase_finished q) Es). by left.
  - destruct (negb _); [done|]. destruct (sub _ b) eqn:Es; [|done]. rewrite (Hsub BSON_VALIDATE_PHASE_TOP _ eq_refl Es). intros [= <-]. right. split; [done|by exists key].
  - by destruct (negb _).
Qed.
Lemma verdict_phase coded sub phase f p : dollar = false → field_verdict coded flags sub phase f = Go p → p = phase.
Proof using Type.
  intros Hd. unfold field_verdict. destruct (bson_iter_key f) as [pk|]; [|done]. destruct (field_key f) as [key|]; [|done].
  destruct (field_kind f) as [k|]; [|done]. destruct (negb _); [done|]. destruct (key_phase flags phase key) as [q|] eqn:Eq; [|done].
  apply key_phase_same in Eq as ->; [|done]. unfold kind_verdict, text_phase. rewrite Hd.
  repeat case_match; intros [= <-]; done.
Qed.
Lemma fields_valid (sub sub' : bson_validate_phase_t → bson_t → bool) fs phase clean :
  (∀ q b, unfinished q = false → sub q b = true → sub' q b = true) → (dollar = false → unfinished phase = false) →
  finished (accept_fields false flags sub phase fs clean) = true → finished (accept_fields true flags sub' phase fs clean) = true.
Proof using Type.
  intros Hsub. revert phase. induction fs as [|f fs IH]; intros phase Hphase; [done|]. cbn [accept_fields].
  destruct (field_verdict false flags sub phase f) as [|p|p] eqn:Ev; [done| |].
  - assert (Hp : dollar = false → unfinished p = false).
    { intros Hd. apply verdict_phase in Ev as ->; auto. }
    destruct (verdict_valid _ _ _ _ _ Hsub Ev) as [-> | [-> (key & Hkey)]]; [by apply IH|].
    intros Hfin. cbn [finished]. destruct (unfinished p) eqn:Eu; [|done]. exfalso. destruct dollar eqn:Ed.
    + destruct (key_phase_waits _ _ _ Ed Hkey Eu) as [-> | ->]; rewrite waiting_stays in Hfin; auto; done.
    + by specialize (Hp eq_refl).
  - exfalso. revert Ev. unfold field_verdict, kind_verdict. by repeat case_match.
Qed.
Lemma accepts_valid n phase b :
  (dollar = false → unfinished phase = false) → accepts false flags n phase b = true → accepts true flags n phase b = true.
Proof using Type.
  revert phase b. induction n as [|n IH]; intros phase b Hphase; [done|]. cbn [accepts]. destruct (fields_of _) as [[last fs]|]; [|done].
  apply fields_valid; [|done]. intros q b' Hq. apply IH. auto.
Qed.
End Gaps.

(** without gaps the code computes what it should *)
Lemma kind_no_gap flags sub sub' phase f k :
  field_kind f = Ret k → ¬ skips f →
  (∀ b q, k = Sub (Some b) → sub q b = sub' q b) →
  kind_verdict true flags sub phase k = kind_verdict false flags sub' phase k.
Proof.
  intros Hk Hskip Hsub. unfold skips in Hskip. rewrite Hk in Hskip.
  destruct k as [|s len u|[d|]|s len d]; cbn [kind_verdict]; try done.
  - by destruct (text_ok s len true).
  - by rewrite (Hsub d).
Qed.
Lemma fields_no_gap flags sub sub' fs phase clean :
  (∀ f, f ∈ fs → ¬ skips f ∧ ∀ b q, field_kind f = Ret (Sub (Some b)) → sub q b = sub' q b) →
  accept_fields true flags sub phase fs clean = accept_fields false flags sub' phase fs clean.
Proof.
  revert phase. induction fs as [|f fs IH]; intros phase H; [done|]. cbn [accept_fields].
  destruct (H f (list_elem_of_here _ _)) as [Hskip Hsub].
  assert (field_verdict true flags sub phase f = field_verdict false flags sub' phase f) as ->.
  { unfold field_verdict. destruct (bson_iter_key f); [|done]. destruct (field_key f); [|done].
    destruct (field_kind f) as [k|] eqn:Ek; [|done]. destruct (negb _); [done|]. destruct (key_phase _ _ _); [|done].
    apply (kind_no_gap _ _ _ _ f); [done|done|]. intros d q ->. by apply Hsub. }
  destruct (field_verdict _ _ _ _ _); [done| |done]. apply IH. intros g Hg. apply H. by apply list_elem_of_further.
Qed.
Lemma accepts_no_gap flags n phase b :
  ¬ has_gap b → accepts true flags n phase b = accepts false flags n phase b.
Proof.
  revert phase b. induction n as [|n IH]; intros phase b Hgap; [done|]. cbn [accepts].
  destruct (fields_of (iter_start b (blen b))) as [[last fs]|] eqn:Ef; [|done]. f_equal. apply fields_no_gap. intros f Hf.
  split; [intros Hs; by eapply Hgap, gap_field|]. intros b' q Hk. apply IH. intros Hg. by eapply Hgap, gap_sub.
Qed.

(** C11. Validation of arbitrary bytes returns, without reading past the document and
    however deep the nesting; an offset that it reports lies in the document.  It
    accepts every valid document, and it accepts nothing else, unless some field is
    of a kind that it does not check ([has_gap]). *)
Theorem bson_validate_correct b flags (Hb : bson_ok b) (H5 : 5 ≤ blen b) :
  ∃ ok off, bson_validate b flags = Ret (ok, off)
    ∧ (∀ o, off = Some o → ok = false ∧ 0 < o ≤ blen b)
    ∧ (valid_document flags b → ok = true)
    ∧ (¬ has_gap b → ok = true → valid_document flags b).
Proof.
  destruct (bson_validate_accepts b flags Hb H5) as (off & Hv & Hoff). eexists _, off. split; [exact Hv|]. split; [|split].
  - intros o Ho. destruct (Hoff o Ho). by split.
  - apply accepts_valid. done.
  - intros Hgap. unfold valid_document. by rewrite accepts_no_gap.
Qed.

(** ** Fields that end the check *)
Definition gap_text : entry := Entry [97] 0x02 (le_bytes 4 2 ++ [255; 0]).
Definition gap_scope : entry := Entry [97] 0x0F (le_bytes 4 14 ++ le_bytes 4 1 ++ [0] ++ bson_empty_doc).
Lemma gap_entries_ok : entry_ok gap_text ∧ entry_ok gap_scope.
Proof.
  split; (split; [by_check|split; [by_check|]]).
  - exists 2. split; [reflexivity|]. split; [lia|]. by split.
  - exists 1, 5. split; [reflexivity|]. split; [reflexivity|]. split; [lia|]. split; [reflexivity|]. by split.
Qed.

Lemma first_field e rest :
  let b := doc_bytes (entry_bytes e ++ rest) in
  entry_ok e → bytes_ok rest → blen b ≤ INT_MAX →
  ∃ last f fs, fields_of (iter_start b (blen b)) = Ret (last, f :: fs) ∧ on_entry b e f.
Proof.
  intros b He Hrest Hmax.
  assert (Hb : b = le_bytes 4 (5 + blen (entry_bytes e ++ rest)) ++ entry_bytes e ++ rest ++ [0])
    by (unfold b, doc_bytes; by rewrite <- !app_assoc).
  assert (Hok : bytes_ok b).
  { rewrite Hb. apply bytes_ok_app; split; [apply le_bytes_ok|]. apply bytes_ok_app; split; [apply He|].
    apply bytes_ok_app; split; [done|]. by repeat constructor. }
  pose proof (blen_nonneg rest). pose proof (blen_nonneg (entry_bytes e)).
  assert (Hl : blen b = 5 + blen (entry_bytes e) + blen rest) by (rewrite Hb; autorewrite with blen; lia).
  destruct (fields_of_ok (iter_start b (blen b))) as (last & fs & Hf & _); [apply iter_start_ok; [done|lia|done]|].
  destruct (next_entry (iter_start b (blen b)) (le_bytes 4 (5 + blen (entry_bytes e ++ rest))) e (rest ++ [0]))
    as (f & Hnext & Hon & _); try rewrite <- Hb; try done.
  { rewrite blen_app, blen_le_bytes. cbn [iter_start it_len]. lia. }
  rewrite <- Hb in Hon. pose proof (fields_of_steps _ _ _ Hf) as Hs. unfold bson_iter_next in Hnext.
  inversion Hs as [it n En Eok|it n fs' last' En Eok Hs']; subst; rewrite En in Hnext; cbn [bind] in Hnext;
    injection Hnext as Hn1 Hn2; [congruence|]. subst f. by exists last, (n_iter n), fs'.
Qed.

Lemma gap_text_kind data f :
  on_entry data gap_text f → ∃ p, field_kind f = Ret (Text p 1 true) ∧ text_ok p 1 true = false.
Proof.
  intros Hon. pose proof (on_at _ _ _ Hon) as Hat. unfold field_kind. rewrite (entry_ITER_TYPE _ _ _ Hon). cbn [bind gap_text e_type bson_type_of_byte kind_of].
  unfold bson_iter_utf8, string_field. rewrite (if_type_at _ _ _ Hat), decide_True by done. unfold bson_iter_utf8_len_unsafe.
  rewrite (at_raw _ _ _ Hat). cbn [deref bind]. rewrite <- (field_le_at _ _ _ Hat), (entry_field_le0 _ _ _ Hon 4 2) by reflexivity.
  cbn [bind]. rewrite (field_ptr_at _ _ _ Hat). cbn [bind text_kind fst snd deref].
  pose proof (at_field _ _ _ Hat) as (Hd2 & _). destruct (on_split _ _ _ Hon) as (pre & post & Hd & H1).
  exists (255 :: 0 :: post). split; [|reflexivity]. do 2 f_equal. rewrite Hd2, Hd, H1. cbn [gap_text e_value].
  assert (pre ++ (le_bytes 4 2 ++ [255; 0]) ++ post = (pre ++ le_bytes 4 2) ++ 255 :: 0 :: post) as -> by (by rewrite <- !app_assoc).
  replace (blen pre + 4) with (blen (pre ++ le_bytes 4 2)) by (rewrite blen_app, blen_le_bytes; done).
  by rewrite ptr_add_inside.
Qed.
Lemma gap_scope_kind data f :
  on_entry data gap_scope f → ∃ p, field_kind f = Ret (Scope p 0 (Some bson_empty_doc)) ∧ text_ok p 0 true = true.
Proof.
  intros Hon. pose proof (on_at _ _ _ Hon) as Hat. unfold field_kind. rewrite (entry_ITER_TYPE _ _ _ Hon). cbn [bind gap_scope e_type bson_type_of_byte kind_of].
  unfold bson_iter_codewscope. rewrite (if_type_at _ _ _ Hat), decide_True by done.
  pose proof (at_field _ _ _ Hat) as (Hd2 & Hd3 & _ & _ & l & sc & Hl & _ & Hd4 & _).
  pose proof (entry_field_le _ _ _ Hon 4 4 1 eq_refl) as Hl1. rewrite <- Hd2, (field_le_at _ _ _ Hat), Hl in Hl1. injection Hl1 as ->.
  assert (Hd4' : it_d4 f = it_d1 f + 9) by lia.
  rewrite !(field_le_at _ _ _ Hat), Hl. cbn [bind]. rewrite <- (field_le_at _ _ _ Hat 4 (it_d4 f)), Hd4'.
  rewrite (entry_field_le _ _ _ Hon 4 9 5) by reflexivity. rewrite !(field_ptr_at _ _ _ Hat). cbn [bind bson_assert fst snd deref].
  destruct (on_split _ _ _ Hon) as (pre & post & Hd & H1). exists (ptr_add data (it_d3 f)). split; [|reflexivity].
  rewrite Hd, H1. cbn [gap_scope e_value].
  assert (pre ++ (le_bytes 4 14 ++ le_bytes 4 1 ++ [0] ++ bson_empty_doc) ++ post
          = (pre ++ le_bytes 4 14 ++ le_bytes 4 1 ++ [0]) ++ bson_empty_doc ++ post) as -> by (by rewrite <- !app_assoc).
  replace (blen pre + 9) with (blen (pre ++ le_bytes 4 14 ++ le_bytes 4 1 ++ [0])) by (rewrite !blen_app, !blen_le_bytes; done).
  rewrite ptr_add_inside. reflexivity.
Qed.

Lemma gap_verdict data e f n flags :
  on_entry data e f → e = gap_text ∨ e = gap_scope →
  ∃ p, field_verdict true flags (accepts true flags (S n)) BSON_VALIDATE_PHASE_TOP f = Stop p ∧ unfinished p = false.
Proof.
  intros Hon He. destruct (key_at _ _ _ (on_at _ _ _ Hon)) as (pk & key & Hp & Hk & Hc & _ & _ & Hin & _).
  pose proof (on_key _ _ _ Hon) as Hkey. assert (key = [97]) as ->.
  { rewrite Hk in Hkey. apply Ret_inj in Hkey as ->. by destruct He as [-> | ->]. }
  unfold field_verdict. rewrite Hp, Hk.
  assert (Htext : text_ok pk (blen [97]) false = true).
  { destruct pk as [|c pk]; [done|]. cbn [c_string] in Hc. destruct (c =? 0); [done|]. destruct (c_string pk); [|done]. cbn [bind] in Hc.
    apply Ret_inj in Hc. injection Hc as -> _. reflexivity. }
  assert (Hphase : ∃ p, key_phase flags BSON_VALIDATE_PHASE_TOP [97] = Some p ∧ unfinished p = false).
  { unfold key_phase. rewrite (bool_decide_false ([97] = [])) by done. rewrite (bool_decide_false (is_Some (strchr [97] 46))) by (by intros [? ?]).
    rewrite !andb_false_r. destruct (has_flag _ _); [|by eexists]. rewrite bool_decide_false by done. by eexists. }
  destruct Hphase as (p & Hphase & Hun). exists p. split; [|done].
  destruct He as [-> | ->].
  - destruct (gap_text_kind _ _ Hon) as (s & -> & Hs). rewrite Htext, Hphase. cbn [negb kind_verdict]. by rewrite Hs.
  - destruct (gap_scope_kind _ _ Hon) as (s & -> & Hs). rewrite Htext, Hphase. cbn [negb kind_verdict]. rewrite Hs. reflexivity.
Qed.

(** C37. What the check misses: after a string that is not UTF-8, and after a valid
    code-with-scope, the fields that follow are not looked at.  Any bytes are accepted
    there, with every combination of flags. *)
Theorem bson_validate_ignores_rest e rest flags
    (He : e = gap_text ∨ e = gap_scope) (Hrest : bytes_ok rest) (Hlen : blen rest ≤ 2 ^ 30) :
  bson_validate (doc_bytes (entry_bytes e ++ rest)) flags = Ret (true, None).
Proof.
  assert (Hok : entry_ok e) by (destruct gap_entries_ok; by destruct He as [-> | ->]).
  assert (Hl : blen (entry_bytes e) ≤ 100) by (by destruct He as [-> | ->]).
  pose proof (blen_nonneg (entry_bytes e)). pose proof (blen_nonneg rest). set (b := doc_bytes (entry_bytes e ++ rest)).
  assert (Hb : blen b = 5 + blen (entry_bytes e) + blen rest) by (unfold b; rewrite blen_doc_bytes, blen_app; lia).
  destruct (first_field e rest Hok Hrest) as (last & f & fs & Hf & Hon); fold b; [unfold INT_MAX; lia|]. fold b in Hf, Hon.
  assert (Hbok : bson_ok b).
  { split; [|unfold INT_MAX; lia]. unfold b, doc_bytes. apply bytes_ok_app; split; [apply le_bytes_ok|].
    apply bytes_ok_app; split; [apply bytes_ok_app; split; [apply Hok|done]|by repeat constructor]. }
  destruct (bson_validate_accepts b flags Hbok ltac:(lia)) as (off & -> & Hoff).
  assert (Hacc : accepts true flags (S (length b)) BSON_VALIDATE_PHASE_TOP b = true).
  { cbn [accepts]. rewrite Hf. cbn [accept_fields]. destruct (length b) as [|n] eqn:En; [unfold blen in Hb; lia|].
    destruct (gap_verdict _ _ _ n flags Hon He) as (p & -> & Hp). cbn [finished]. by rewrite Hp. }
  rewrite Hacc in *. destruct off as [o|]; [|done]. by destruct (Hoff o eq_refl).
Qed.

(** ** Witnesses *)
(** a document with a sub-document, and one whose sub-document is cut short *)
Definition sample_valid : bson_t := doc_bytes (entry_bytes (Entry [97] 0x03 (doc_bytes (entry_bytes (e_utf8 [98] [195; 169]))))).
Lemma bson_validate_correct_witness :
  (∃ ok off, bson_validate sample_valid BSON_VALIDATE_UTF8 = Ret (ok, off)
    ∧ (∀ o, off = Some o → ok = false ∧ 0 < o ≤ blen sample_valid)
    ∧ (valid_document BSON_VALIDATE_UTF8 sample_valid → ok = true)
    ∧ (¬ has_gap sample_valid → ok = true → valid_document BSON_VALIDATE_UTF8 sample_valid))
  ∧ valid_document BSON_VALIDATE_UTF8 sample_valid.
Proof.
  split; [|vm_compute; reflexivity]. apply (bson_validate_correct sample_valid BSON_VALIDATE_UTF8).
  - split; by_check.
  - vm_compute. discriminate.
Defined.
Lemma bson_validate_ignores_rest_witness :
  bson_validate (doc_bytes (entry_bytes gap_scope ++ [77; 77; 77])) BSON_VALIDATE_UTF8 = Ret (true, None).
Proof.
  apply (bson_validate_ignores_rest gap_scope [77; 77; 77] BSON_VALIDATE_UTF8).
  - right. reflexivity.
  - by_check.
  - vm_compute. discriminate.
Defined.
