(* ===== verification/Rpc.v ===== *)
(** The wire protocol (mongoc/mongoc-rpc.c, include/op-*.def): the layout of each
    message, gathering a message into a vector of buffers and scattering a received
    one. *)
From S2P Require Import Prelude BsonIter BsonIterSafe MongocTypes.
From Stdlib Require Import ZArith Lia List.
From stdpp Require Import prelude gmap strings.
#[local] Open Scope Z_scope.
#[local] Open Scope mongo_scope.

(** ** Layouts

    The field macros of the [op-*.def] files, with the names they declare members
    for. *)
Inductive field :=
| UINT8_FIELD (name : string)
| INT32_FIELD (name : string)
| ENUM_FIELD (name : string)
| INT64_FIELD (name : string)
| INT64_ARRAY_FIELD (len name : string)
| CSTRING_FIELD (name : string)
| BSON_FIELD (name : string)
| BSON_ARRAY_FIELD (name : string)
| BSON_OPTIONAL (check : string) (code : field)
| IOVEC_ARRAY_FIELD (name : string)
| SECTION_ARRAY_FIELD (name : string)
| RAW_BUFFER_FIELD (name : string).

#[local] Open Scope string_scope.
#[local] Open Scope list_scope.
#[local] Open Scope Z_scope.
Definition op_header : list field :=
  [INT32_FIELD "msg_len"; INT32_FIELD "request_id"; INT32_FIELD "response_to"; INT32_FIELD "opcode"].
Definition op_compressed : list field :=
  [INT32_FIELD "msg_len"; INT32_FIELD "request_id"; INT32_FIELD "response_to"; INT32_FIELD "opcode";
   INT32_FIELD "original_opcode"; INT32_FIELD "uncompressed_size"; UINT8_FIELD "compressor_id";
   RAW_BUFFER_FIELD "compressed_message"].
Definition op_delete : list field :=
  [INT32_FIELD "msg_len"; INT32_FIELD "request_id"; INT32_FIELD "response_to"; INT32_FIELD "opcode";
   INT32_FIELD "zero"; CSTRING_FIELD "collection"; ENUM_FIELD "flags"; BSON_FIELD "selector"].
Definition op_get_more : list field :=
  [INT32_FIELD "msg_len"; INT32_FIELD "request_id"; INT32_FIELD "response_to"; INT32_FIELD "opcode";
   INT32_FIELD "zero"; CSTRING_FIELD "collection"; INT32_FIELD "n_return"; INT64_FIELD "cursor_id"].
Definition op_insert : list field :=
  [INT32_FIELD "msg_len"; INT32_FIELD "request_id"; INT32_FIELD "response_to"; INT32_FIELD "opcode";
   ENUM_FIELD "flags"; CSTRING_FIELD "collection"; IOVEC_ARRAY_FIELD "documents"].
Definition op_kill_cursors : list field :=
  [INT32_FIELD "msg_len"; INT32_FIELD "request_id"; INT32_FIELD "response_to"; INT32_FIELD "opcode";
   INT32_FIELD "zero"; INT64_ARRAY_FIELD "n_cursors" "cursors"].
Definition op_msg : list field :=
  [INT32_FIELD "msg_len"; INT32_FIELD "request_id"; INT32_FIELD "response_to"; INT32_FIELD "opcode";
   ENUM_FIELD "flags"; SECTION_ARRAY_FIELD "sections"].
Definition op_query : list field :=
  [INT32_FIELD "msg_len"; INT32_FIELD "request_id"; INT32_FIELD "response_to"; INT32_FIELD "opcode";
   ENUM_FIELD "flags"; CSTRING_FIELD "collection"; INT32_FIELD "skip"; INT32_FIELD "n_return";
   BSON_FIELD "query"; BSON_OPTIONAL "fields" (BSON_FIELD "fields")].
Definition op_reply_header : list field :=
  [INT32_FIELD "msg_len"; INT32_FIELD "request_id"; INT32_FIELD "response_to"; INT32_FIELD "opcode";
   ENUM_FIELD "flags"; INT64_FIELD "cursor_id"; INT32_FIELD "start_from"; INT32_FIELD "n_returned"].
Definition op_reply : list field :=
  [INT32_FIELD "msg_len"; INT32_FIELD "request_id"; INT32_FIELD "response_to"; INT32_FIELD "opcode";
   ENUM_FIELD "flags"; INT64_FIELD "cursor_id"; INT32_FIELD "start_from"; INT32_FIELD "n_returned";
   BSON_ARRAY_FIELD "documents"].
Definition op_update : list field :=
  [INT32_FIELD "msg_len"; INT32_FIELD "request_id"; INT32_FIELD "response_to"; INT32_FIELD "opcode";
   INT32_FIELD "zero"; CSTRING_FIELD "collection"; ENUM_FIELD "flags"; BSON_FIELD "selector";
   BSON_FIELD "update"].

(** ** The message structs

    The members of [mongoc_rpc_t] by name.  The structs of the union agree on the
    members of the header; a function uses the others of one struct at a time. *)
Inductive payload_t :=
| bson_document (p : option (list Z))
| sequence (size : Z) (identifier bson_documents : option (list Z)).
Record mongoc_rpc_section_t := RpcSection { payload_type : Z; sec_payload : payload_t }.

(** an element of a vector: the address of an integer member of the struct, or a
    pointer held by a member *)
Inductive base_t :=
| Addr (name : string)
| At (p : option (list Z)).
Record mongoc_iovec_t := Iov { iov_base : base_t; iov_len : Z }.

Record mongoc_rpc_t := Rpc {
  r_ints : gmap string Z;                        (* integers *)
  r_ptrs : gmap string (list Z);                 (* pointers that are not NULL *)
  r_iovs : gmap string (list mongoc_iovec_t);    (* arrays of iovecs *)
  r_secs : gmap string (list mongoc_rpc_section_t)
}.
(** [memset (rpc, 0, sizeof *rpc)] *)
Definition rpc_zero : mongoc_rpc_t := Rpc ∅ ∅ ∅ ∅.

Definition rpc_int (rpc : mongoc_rpc_t) (n : string) : Z := default 0 (r_ints rpc !! n).
Definition rpc_ptr (rpc : mongoc_rpc_t) (n : string) : option (list Z) := r_ptrs rpc !! n.
Definition rpc_iov (rpc : mongoc_rpc_t) (n : string) : list mongoc_iovec_t := default [] (r_iovs rpc !! n).
Definition rpc_sec (rpc : mongoc_rpc_t) (n : string) : list mongoc_rpc_section_t := default [] (r_secs rpc !! n).
Definition set_int (n : string) (x : Z) (rpc : mongoc_rpc_t) : mongoc_rpc_t :=
  Rpc (<[n := x]> (r_ints rpc)) (r_ptrs rpc) (r_iovs rpc) (r_secs rpc).
Definition set_ptr (n : string) (p : option (list Z)) (rpc : mongoc_rpc_t) : mongoc_rpc_t :=
  Rpc (r_ints rpc) (partial_alter (λ _, p) n (r_ptrs rpc)) (r_iovs rpc) (r_secs rpc).
Definition set_iov (n : string) (l : list mongoc_iovec_t) (rpc : mongoc_rpc_t) : mongoc_rpc_t :=
  Rpc (r_ints rpc) (r_ptrs rpc) (<[n := l]> (r_iovs rpc)) (r_secs rpc).
Definition set_sec (n : string) (l : list mongoc_rpc_section_t) (rpc : mongoc_rpc_t) : mongoc_rpc_t :=
  Rpc (r_ints rpc) (r_ptrs rpc) (r_iovs rpc) (<[n := l]> (r_secs rpc)).
(** the members [_name##_len] and [n_##_name] *)
Definition len_of (n : string) : string := n +:+ "_len".
Definition n_of (n : string) : string := "n_" +:+ n.

(** ** Gathering *)
Notation gather_t := (mongoc_rpc_t * list mongoc_iovec_t)%type.

(** [header->msg_len += (int32_t) iov.iov_len; _mongoc_array_append_val (array, iov);] *)
Definition gather_iov (st : gather_t) (iov : mongoc_iovec_t) : res gather_t :=
  let* l := chk32 (rpc_int st.1 "msg_len" + s32 (iov_len iov)) in
  Ret (set_int "msg_len" l st.1, st.2 ++ [iov]).

Fixpoint gather_iovecs (l : list mongoc_iovec_t) (st : gather_t) : res gather_t :=
  match l with
  | [] => Ret st
  | iov :: l =>
      let* _ := bson_assert (negb (iov_len iov =? 0)) in
      let* st := gather_iov st iov in
      gather_iovecs l st
  end.

Definition gather_section (s : mongoc_rpc_section_t) (st : gather_t) : res gather_t :=
  let* st := gather_iov st (Iov (At (Some [payload_type s])) 1) in
  if payload_type s =? 0 then
    match sec_payload s with
    | bson_document p =>
        let* d := deref p in
        let* l := rd_le 4 d 0 in
        gather_iov st (Iov (At p) (u64 (s32 l)))
    | sequence _ _ _ => Stuck OutOfBounds
    end
  else if payload_type s =? 1 then
    match sec_payload s with
    | sequence size identifier documents =>
        let* st := gather_iov st (Iov (At (Some (le_bytes 4 size))) 4) in
        let* i := deref identifier in
        let* i := c_string i in
        let* st := gather_iov st (Iov (At identifier) (blen i + 1)) in
        gather_iov st (Iov (At documents) (u64 (size - (blen i + 1) - 4)))
    | bson_document _ => Stuck OutOfBounds
    end
  else Stuck AssertFailed.
Fixpoint gather_sections (l : list mongoc_rpc_section_t) (st : gather_t) : res gather_t :=
  match l with
  | [] => Ret st
  | s :: l => let* st := gather_section s st in gather_sections l st
  end.

(** an array member of the struct, read up to a count: past its end is out of bounds *)
Definition array_upto {A} (l : list A) (n : Z) : res (list A) :=
  if n <=? Z.of_nat (length l) then Ret (take (Z.to_nat n) l) else Stuck OutOfBounds.

Fixpoint gather_field (f : field) (st : gather_t) : res gather_t :=
  let rpc := st.1 in
  match f with
  | UINT8_FIELD n => gather_iov st (Iov (Addr n) 1)
  | INT32_FIELD n | ENUM_FIELD n => gather_iov st (Iov (Addr n) 4)
  | INT64_FIELD n => gather_iov st (Iov (Addr n) 8)
  | CSTRING_FIELD n =>
      let* _ := bson_assert (bool_decide (is_Some (rpc_ptr rpc n))) in
      let* p := deref (rpc_ptr rpc n) in
      let* s := c_string p in
      gather_iov st (Iov (At (rpc_ptr rpc n)) (blen s + 1))
  | BSON_FIELD n =>
      let* p := deref (rpc_ptr rpc n) in
      let* l := rd_le 4 p 0 in
      gather_iov st (Iov (At (rpc_ptr rpc n)) (u64 (s32 l)))
  | BSON_OPTIONAL check code =>
      if bool_decide (is_Some (rpc_ptr rpc check)) then gather_field code st else Ret st
  | BSON_ARRAY_FIELD n =>
      if negb (rpc_int rpc (len_of n) =? 0)
      then gather_iov st (Iov (At (rpc_ptr rpc n)) (u64 (rpc_int rpc (len_of n))))
      else Ret st
  | IOVEC_ARRAY_FIELD n =>
      let* _ := bson_assert (negb (rpc_int rpc (n_of n) =? 0)) in
      let* l := array_upto (rpc_iov rpc n) (rpc_int rpc (n_of n)) in
      gather_iovecs l st
  | SECTION_ARRAY_FIELD n =>
      let* _ := bson_assert (negb (rpc_int rpc (n_of n) =? 0)) in
      let* l := array_upto (rpc_sec rpc n) (rpc_int rpc (n_of n)) in
      gather_sections l st
  | RAW_BUFFER_FIELD n =>
      let* _ := bson_assert (negb (rpc_int rpc (len_of n) =? 0)) in
      gather_iov st (Iov (At (rpc_ptr rpc n)) (u64 (rpc_int rpc (len_of n))))
  | INT64_ARRAY_FIELD len n =>
      let* st := gather_iov st (Iov (Addr len) 4) in
      let* l := chk32 (rpc_int rpc len * 8) in
      let* _ := bson_assert (negb (l =? 0)) in
      gather_iov st (Iov (At (rpc_ptr rpc n)) (u64 l))
  end.
Fixpoint gather_fields (l : list field) (st : gather_t) : res gather_t :=
  match l with
  | [] => Ret st
  | f :: l => let* st := gather_field f st in gather_fields l st
  end.

Definition MONGOC_OPCODE_REPLY : Z := 1.
Definition MONGOC_OPCODE_UPDATE : Z := 2001.
Definition MONGOC_OPCODE_INSERT : Z := 2002.
Definition MONGOC_OPCODE_QUERY : Z := 2004.
Definition MONGOC_OPCODE_GET_MORE : Z := 2005.
Definition MONGOC_OPCODE_DELETE : Z := 2006.
Definition MONGOC_OPCODE_KILL_CURSORS : Z := 2007.
Definition MONGOC_OPCODE_COMPRESSED : Z := 2012.
Definition MONGOC_OPCODE_MSG : Z := 2013.

(** the cases of the switches on the opcode *)
Definition op_layout (opcode : Z) : option (list field) :=
  if opcode =? MONGOC_OPCODE_COMPRESSED then Some op_compressed
  else if opcode =? MONGOC_OPCODE_REPLY then Some op_reply
  else if opcode =? MONGOC_OPCODE_MSG then Some op_msg
  else if opcode =? MONGOC_OPCODE_UPDATE then Some op_update
  else if opcode =? MONGOC_OPCODE_INSERT then Some op_insert
  else if opcode =? MONGOC_OPCODE_QUERY then Some op_query
  else if opcode =? MONGOC_OPCODE_GET_MORE then Some op_get_more
  else if opcode =? MONGOC_OPCODE_DELETE then Some op_delete
  else if opcode =? MONGOC_OPCODE_KILL_CURSORS then Some op_kill_cursors
  else None.

Definition _mongoc_rpc_gather (rpc : mongoc_rpc_t) (array : list mongoc_iovec_t) : res gather_t :=
  match op_layout (rpc_int rpc "opcode") with
  | Some l => gather_fields l (set_int "msg_len" 0 rpc, array)
  | None => Stuck AssertFailed
  end.

(** the bytes that the vector stands for when it is written out *)
Definition iov_bytes (rpc : mongoc_rpc_t) (iov : mongoc_iovec_t) : res (list Z) :=
  if iov_len iov <? 0 then Stuck OutOfBounds
  else match iov_base iov with
  | Addr n => Ret (le_bytes (Z.to_nat (iov_len iov)) (rpc_int rpc n))
  | At p => let* d := deref p in rd_bytes (Z.to_nat (iov_len iov)) d 0
  end.
Fixpoint iovs_bytes (rpc : mongoc_rpc_t) (l : list mongoc_iovec_t) : res (list Z) :=
  match l with
  | [] => Ret []
  | iov :: l =>
      let* b := iov_bytes rpc iov in
      let* r := iovs_bytes rpc l in
      Ret (b ++ r)
  end.

(** ** Scattering

    The struct being filled, [buf] and [buflen]. *)
Record scatter_t := Scatter { sc_rpc : mongoc_rpc_t; sc_buf : option (list Z); sc_len : Z }.

(** [buf += n], up to one past the end of the memory *)
Definition ptr_fwd (p : list Z) (n : Z) : res (list Z) :=
  if (0 <=? n) && (n <=? blen p) then Ret (ptr_add p n) else Stuck OutOfBounds.

Definition scatter_int (bytes : nat) (conv : Z → Z) (n : string) (st : scatter_t) : res (bool * scatter_t) :=
  if sc_len st <? Z.of_nat bytes then Ret (false, st)
  else
    let* p := deref (sc_buf st) in
    let* x := rd_le bytes p 0 in
    let* p := ptr_fwd p (Z.of_nat bytes) in
    Ret (true, Scatter (set_int n (conv x) (sc_rpc st)) (Some p) (sc_len st - Z.of_nat bytes)).

(** the search for the terminator among the first [buflen] bytes *)
Fixpoint find_zero (fuel : nat) (p : list Z) (i : Z) : res (option Z) :=
  match fuel with
  | O => Ret None
  | S fuel =>
      let* b := rd p i in
      if b =? 0 then Ret (Some i) else find_zero fuel p (i + 1)
  end.

Definition scatter_cstring (n : string) (st : scatter_t) : res (bool * scatter_t) :=
  if sc_len st =? 0 then Ret (false, st)
  else
    let* p := deref (sc_buf st) in
    let* i := find_zero (Z.to_nat (sc_len st)) p 0 in
    match i with
    | None => Ret (false, st)
    | Some i =>
        let* q := ptr_fwd p (i + 1) in
        Ret (true, Scatter (set_ptr n (Some p) (sc_rpc st)) (Some q) (sc_len st - (i + 1)))
    end.

Definition scatter_bson (n : string) (st : scatter_t) : res (bool * scatter_t) :=
  if sc_len st <? 4 then Ret (false, st)
  else
    let* p := deref (sc_buf st) in
    let* l := rd_le 4 p 0 in
    if (l <? 5) || (sc_len st <? l) then Ret (false, st)
    else
      let* q := ptr_fwd p l in
      Ret (true, Scatter (set_ptr n (Some p) (sc_rpc st)) (Some q) (sc_len st - l)).

(** [BSON_ARRAY_FIELD] and [RAW_BUFFER_FIELD]: the rest of the buffer *)
Definition scatter_rest (n : string) (st : scatter_t) : scatter_t :=
  Scatter (set_int (len_of n) (s32 (sc_len st)) (set_ptr n (sc_buf st) (sc_rpc st))) None 0.

Definition scatter_int64s (len n : string) (st : scatter_t) : res (bool * scatter_t) :=
  let* r := scatter_int 4 s32 len st in
  if negb r.1 then Ret r
  else
    let needed := u32 (u32 (rpc_int (sc_rpc r.2) len) * 8) in
    if sc_len r.2 <? needed then Ret (false, r.2)
    else
      let* p := deref (sc_buf r.2) in
      let* q := ptr_fwd p needed in
      Ret (true, Scatter (set_ptr n (Some p) (sc_rpc r.2)) (Some q) (sc_len r.2 - needed)).

(** One round of [SECTION_ARRAY_FIELD]: the array has two elements; nothing compares
    what is read with [buflen]. *)
Definition scatter_section (n : string) (st : scatter_t) : res scatter_t :=
  let i := rpc_int (sc_rpc st) (n_of n) in
  if i >=? 2 then Stuck OutOfBounds
  else
    let* p := deref (sc_buf st) in
    let* ty := rd p 0 in
    let* p := ptr_fwd p 1 in
    let len := u64 (sc_len st - 1) in
    let* l := rd_le 4 p 0 in
    let* s :=
      if ty =? 0 then Ret (RpcSection ty (bson_document (Some p)))
      else
        let* b := ptr_fwd p 4 in
        let* id := c_string b in
        let* d := ptr_fwd b (blen id + 1) in
        Ret (RpcSection ty (sequence (s32 l) (Some b) (Some d))) in
    let* q := ptr_fwd p l in
    Ret (Scatter (set_int (n_of n) (i + 1) (set_sec n (take (Z.to_nat i) (rpc_sec (sc_rpc st) n) ++ [s]) (sc_rpc st)))
                 (Some q) (u64 (len - l))).
Fixpoint scatter_sections (fuel : nat) (n : string) (st : scatter_t) : res scatter_t :=
  match fuel with
  | O => Stuck OutOfFuel
  | S fuel =>
      let* st := scatter_section n st in
      if sc_len st =? 0 then Ret st else scatter_sections fuel n st
  end.

Fixpoint scatter_field (f : field) (st : scatter_t) : res (bool * scatter_t) :=
  match f with
  | UINT8_FIELD n => scatter_int 1 id n st
  | INT32_FIELD n => scatter_int 4 s32 n st
  | ENUM_FIELD n => scatter_int 4 id n st
  | INT64_FIELD n => scatter_int 8 s64 n st
  | INT64_ARRAY_FIELD len n => scatter_int64s len n st
  | CSTRING_FIELD n => scatter_cstring n st
  | BSON_FIELD n => scatter_bson n st
  | BSON_ARRAY_FIELD n => Ret (true, scatter_rest n st)
  | BSON_OPTIONAL _ code => if negb (sc_len st =? 0) then scatter_field code st else Ret (true, st)
  | IOVEC_ARRAY_FIELD n =>
      Ret (true, Scatter (set_int (n_of n) 1 (set_iov n [Iov (At (sc_buf st)) (sc_len st)] (sc_rpc st))) None 0)
  | SECTION_ARRAY_FIELD n => let* st := scatter_sections 3 n st in Ret (true, st)
  | RAW_BUFFER_FIELD n => Ret (true, scatter_rest n st)
  end.
Fixpoint scatter_fields (l : list field) (st : scatter_t) : res (bool * scatter_t) :=
  match l with
  | [] => Ret (true, st)
  | f :: l =>
      let* r := scatter_field f st in
      if r.1 : bool then scatter_fields l r.2 else Ret r
  end.

(** the return value and the struct *)
Definition scatter_op (l : list field) (rpc : mongoc_rpc_t) (buf : list Z) (buflen : Z) : res (bool * mongoc_rpc_t) :=
  let* _ := bson_assert (negb (buflen =? 0)) in
  let* r := scatter_fields l (Scatter rpc (Some buf) buflen) in
  Ret (r.1, sc_rpc r.2).

Definition _mongoc_rpc_scatter (buf : list Z) (buflen : Z) : res (bool * mongoc_rpc_t) :=
  if buflen <? 16 then Ret (false, rpc_zero)
  else
    let* h := scatter_op op_header rpc_zero buf 16 in
    if negb h.1 then Ret h
    else
      match op_layout (rpc_int h.2 "opcode") with
      | Some l => scatter_op l h.2 buf buflen
      | None => Ret (false, h.2)
      end.

Definition _mongoc_rpc_scatter_reply_header_only (rpc : mongoc_rpc_t) (buf : list Z) (buflen : Z)
    : res (bool * mongoc_rpc_t) :=
  if buflen <? 36 then Ret (false, rpc) else scatter_op op_reply_header rpc buf buflen.

(** ** Replies *)
Definition _mongoc_rpc_reply_get_first (reply : mongoc_rpc_t) : res (option bson_t) :=
  match rpc_ptr reply "documents" with
  | None => Ret None
  | Some documents =>
      if rpc_int reply "documents_len" <? 4 then Ret None
      else
        let* len := rd_le 4 documents 0 in
        let len := s32 len in
        if rpc_int reply "documents_len" <? len then Ret None
        else bson_init_static documents (u64 len)
  end.
Definition _mongoc_rpc_get_first_document (rpc : mongoc_rpc_t) : res (option bson_t) :=
  if rpc_int rpc "opcode" =? MONGOC_OPCODE_REPLY then _mongoc_rpc_reply_get_first rpc else Ret None.

Definition MONGOC_REPLY_CURSOR_NOT_FOUND : Z := 1.
Definition MONGOC_REPLY_QUERY_FAILURE : Z := 2.
Definition MONGOC_QUERY_SLAVE_OK : Z := 4.
Definition MONGOC_ERROR_CURSOR : Z := 4.
Definition MONGOC_ERROR_CURSOR_INVALID_CURSOR : Z := 16.
Definition MONGOC_ERROR_PROTOCOL_INVALID_REPLY : Z := 14.

Definition _mongoc_populate_query_error (doc : bson_t) (error_api_version : Z) : res bson_error_t :=
  let* c := find_holding doc (c_lit "code") BSON_TYPE_INT32 in
  let* code := match c with
               | Some it => let* x := bson_iter_int32 it in Ret (u32 x)
               | None => Ret MONGOC_ERROR_QUERY_FAILURE
               end in
  let* m := find_holding doc (c_lit "$err") BSON_TYPE_UTF8 in
  let* msg := match m with Some it => utf8_string it | None => Ret (cs "Unknown query failure") end in
  Ret (bson_set_error (error_domain error_api_version) code msg).

(** the return value, the error and the error document ([None]: not written) *)
Definition _mongoc_rpc_check_ok (rpc : mongoc_rpc_t) (error_api_version : Z)
    : res (bool * option bson_error_t * option bson_t) :=
  if negb (rpc_int rpc "opcode" =? MONGOC_OPCODE_REPLY) then
    Ret (false, Some (bson_set_error MONGOC_ERROR_PROTOCOL MONGOC_ERROR_PROTOCOL_INVALID_REPLY
                        (cs "Received rpc other than OP_REPLY.")), None)
  else if negb (Z.land (rpc_int rpc "flags") MONGOC_REPLY_QUERY_FAILURE =? 0) then
    let* b := _mongoc_rpc_get_first_document rpc in
    match b with
    | Some b =>
        let* e := _mongoc_populate_query_error b error_api_version in
        Ret (false, Some e, Some b)
    | None =>
        Ret (false, Some (bson_set_error MONGOC_ERROR_QUERY MONGOC_ERROR_QUERY_FAILURE
                            (cs "Unknown query failure.")), None)
    end
  else if negb (Z.land (rpc_int rpc "flags") MONGOC_REPLY_CURSOR_NOT_FOUND =? 0) then
    Ret (false, Some (bson_set_error MONGOC_ERROR_CURSOR MONGOC_ERROR_CURSOR_INVALID_CURSOR
                        (cs "The cursor is invalid or has expired.")), None)
  else Ret (true, None, None).

(** [_mongoc_rpc_prep_command]: the namespace, the command and its query flags *)
Definition _mongoc_rpc_prep_command (rpc : mongoc_rpc_t) (cmd_ns : list Z) (command : bson_t) (query_flags : Z)
    : mongoc_rpc_t :=
  let rpc := set_int "opcode" MONGOC_OPCODE_QUERY
               (set_int "response_to" 0 (set_int "request_id" 0 (set_int "msg_len" 0 rpc))) in
  let rpc := set_ptr "fields" None
               (set_int "n_return" (-1) (set_int "skip" 0 (set_ptr "collection" (Some cmd_ns) rpc))) in
  set_int "flags" (Z.land query_flags MONGOC_QUERY_SLAVE_OK) (set_ptr "query" (Some command) rpc).
