(* ===== verification/RpcProps.v ===== *)
(** Messages: gathering writes the encoding of a message, and scattering accepts
    exactly the encodings and reads the same message back, for every opcode but
    OP_MSG, whose sections are read without any check. *)
From S2P Require Import Prelude BsonIter BsonIterSafe BsonAppend BsonBuild BsonValue BsonOid BsonParse MongocTypes Rpc.
From Stdlib Require Import ZArith Lia List.
From stdpp Require Import prelude gmap strings.
#[local] Open Scope Z_scope.
#[local] Open Scope mongo_scope.

(** ** Messages as values

    The value of a field, and its bytes. *)
Inductive secval :=
| SDoc (b : list Z)
| SSeq (identifier documents : list Z).
Inductive fval :=
| VInt (bytes : nat) (x : Z)
| VInts (count : Z) (b : list Z)
| VString (s : list Z)
| VDoc (b : list Z)
| VRest (b : list Z)
| VSections (l : list secval)
| VAbsent.

Definition encode_section (s : secval) : list Z :=
  match s with
  | SDoc b => 0 :: b
  | SSeq i d => 1 :: le_bytes 4 (blen i + blen d + 5) ++ i ++ 0 :: d
  end.
Definition encode (v : fval) : list Z :=
  match v with
  | VInt k x => le_bytes k x
  | VInts n b => le_bytes 4 n ++ b
  | VString s => s ++ [0]
  | VDoc b | VRest b => b
  | VSections l => concat (map encode_section l)
  | VAbsent => []
  end.
Definition encode_all (vs : list fval) : list Z := concat (map encode vs).

Definition text_ok (s : list Z) : Prop := bytes_ok s ∧ Forall (λ b, b ≠ 0) s.
(** bytes that begin with their own length *)
Definition sized (b : list Z) : Prop :=
  bytes_ok b ∧ 5 ≤ blen b < 2 ^ 31 ∧ rd_le 4 b 0 = Ret (blen b).
Definition secval_ok (s : secval) : Prop :=
  match s with
  | SDoc b => sized b
  | SSeq i d => text_ok i ∧ bytes_ok d ∧ blen i + blen d + 5 < 2 ^ 31
  end.
(** the values that a field can have; the bytes of an array of 64-bit integers are counted
    as the code counts them, in 32 bits *)
Fixpoint val_ok (f : field) (v : fval) : Prop :=
  match f, v with
  | UINT8_FIELD _, VInt 1 x => byte_ok x
  | INT32_FIELD _, VInt 4 x => in_s32 x
  | ENUM_FIELD _, VInt 4 x => in_u32 x
  | INT64_FIELD _, VInt 8 x => in_s64 x
  | INT64_ARRAY_FIELD _ _, VInts n b => in_s32 n ∧ bytes_ok b ∧ blen b = u32 (u32 n * 8)
  | CSTRING_FIELD _, VString s => text_ok s
  | BSON_FIELD _, VDoc b => sized b
  | BSON_OPTIONAL _ f, VAbsent => True
  | BSON_OPTIONAL _ f, v => val_ok f v
  | BSON_ARRAY_FIELD _, VRest b | IOVEC_ARRAY_FIELD _, VRest b | RAW_BUFFER_FIELD _, VRest b => bytes_ok b
  | SECTION_ARRAY_FIELD _, VSections l => (1 ≤ length l ≤ 2)%nat ∧ Forall secval_ok l
  | _, _ => False
  end.

(** [parses fs vs b]: the bytes [b] are a message of the values [vs], and more if no
    field takes the rest of the message *)
Definition exhausts (v : fval) : Prop :=
  match v with VRest _ | VSections _ | VAbsent => True | _ => False end.
Inductive parses : list field → list fval → list Z → Prop :=
| parses_nil w : parses [] [] w
| parses_cons f fs v vs b :
    val_ok f v → (exhausts v → b = []) → parses fs vs b → parses (f :: fs) (v :: vs) (encode v ++ b).

(** the struct holds the value of a field *)
Definition holds_section (s : mongoc_rpc_section_t) (v : secval) : Prop :=
  match v with
  | SDoc b => payload_type s = 0 ∧ ∃ r, sec_payload s = bson_document (Some (b ++ r))
  | SSeq i d => payload_type s = 1 ∧ ∃ r r',
      sec_payload s = sequence (blen i + blen d + 5) (Some (i ++ 0 :: r)) (Some (d ++ r'))
  end.
Definition iov_of (b : list Z * list Z) : mongoc_iovec_t := Iov (At (Some (b.1 ++ b.2))) (blen b.1).
Fixpoint holds (rpc : mongoc_rpc_t) (f : field) (v : fval) : Prop :=
  match f with
  | UINT8_FIELD n => v = VInt 1 (rpc_int rpc n)
  | INT32_FIELD n | ENUM_FIELD n => v = VInt 4 (rpc_int rpc n)
  | INT64_FIELD n => v = VInt 8 (rpc_int rpc n)
  | INT64_ARRAY_FIELD len n => ∃ b r, v = VInts (rpc_int rpc len) b ∧ rpc_ptr rpc n = Some (b ++ r)
  | CSTRING_FIELD n => ∃ s r, v = VString s ∧ rpc_ptr rpc n = Some (s ++ 0 :: r)
  | BSON_FIELD n => ∃ b r, v = VDoc b ∧ rpc_ptr rpc n = Some (b ++ r)
  | BSON_ARRAY_FIELD n | RAW_BUFFER_FIELD n =>
      ∃ b r, v = VRest b ∧ rpc_ptr rpc n = Some (b ++ r) ∧ rpc_int rpc (len_of n) = blen b
  | BSON_OPTIONAL check f =>
      match rpc_ptr rpc check with None => v = VAbsent | Some _ => holds rpc f v end
  | IOVEC_ARRAY_FIELD n =>
      ∃ bs, v = VRest (concat (map fst bs)) ∧ rpc_iov rpc n = map iov_of bs
            ∧ rpc_int rpc (n_of n) = Z.of_nat (length bs)
  | SECTION_ARRAY_FIELD n =>
      ∃ l, v = VSections l ∧ Forall2 holds_section (rpc_sec rpc n) l
           ∧ rpc_int rpc (n_of n) = Z.of_nat (length l)
  end.

(** ** Members that a field uses *)
Fixpoint members (f : field) : list string :=
  match f with
  | UINT8_FIELD n | INT32_FIELD n | ENUM_FIELD n | INT64_FIELD n | CSTRING_FIELD n | BSON_FIELD n => [n]
  | INT64_ARRAY_FIELD len n => [len; n]
  | BSON_ARRAY_FIELD n | RAW_BUFFER_FIELD n => [n; len_of n]
  | IOVEC_ARRAY_FIELD n | SECTION_ARRAY_FIELD n => [n; n_of n]
  | BSON_OPTIONAL check f => remove_dups (check :: members f)
  end.
Definition same_at (n : string) (r r' : mongoc_rpc_t) : Prop :=
  rpc_int r n = rpc_int r' n ∧ rpc_ptr r n = rpc_ptr r' n
  ∧ rpc_iov r n = rpc_iov r' n ∧ rpc_sec r n = rpc_sec r' n.
(** fields that take the rest of the buffer or may be absent come last; the names are
    different *)
Definition takes_rest (f : field) : bool :=
  match f with
  | BSON_ARRAY_FIELD _ | RAW_BUFFER_FIELD _ | IOVEC_ARRAY_FIELD _ | SECTION_ARRAY_FIELD _ => true
  | _ => false
  end.
Definition closes (f : field) : bool :=
  takes_rest f || match f with BSON_OPTIONAL _ _ => true | _ => false end.
Fixpoint rest_last (fs : list field) : bool :=
  match fs with
  | [] => true
  | f :: fs => (negb (closes f) || match fs with [] => true | _ => false end) && rest_last fs
  end.
(** an optional field tests the member it sets; a count is not a pointer of its own *)
Fixpoint field_wf (f : field) : bool :=
  match f with
  | BSON_OPTIONAL check (BSON_FIELD n) => bool_decide (check = n)
  | BSON_OPTIONAL _ _ => false
  | INT64_ARRAY_FIELD len n => bool_decide (len ≠ n)
  | _ => true
  end.
Definition layout_ok (fs : list field) : bool :=
  bool_decide (NoDup (concat (map members fs))) && rest_last fs && forallb field_wf fs.

Lemma op_layout_ok opcode fs : op_layout opcode = Some fs →
  layout_ok fs = true ∧ ∃ fs', fs = (INT32_FIELD "msg_len" :: INT32_FIELD "request_id" :: INT32_FIELD "response_to"
    :: INT32_FIELD "opcode" :: fs').
Proof.
  unfold op_layout. repeat case_if; intros [= <-]; (split; [by vm_compute|eexists; reflexivity]).
Qed.

Section Members.
Implicit Types (rpc : mongoc_rpc_t) (n m : string).
Lemma rpc_int_set n m x rpc : rpc_int (set_int n x rpc) m = if decide (n = m) then x else rpc_int rpc m.
Proof.
  unfold rpc_int, set_int. cbn [r_ints]. case_decide; [subst; by rewrite lookup_insert_eq|by rewrite lookup_insert_ne].
Qed.
Lemma rpc_ptr_set n m p rpc : rpc_ptr (set_ptr n p rpc) m = if decide (n = m) then p else rpc_ptr rpc m.
Proof.
  unfold rpc_ptr, set_ptr. cbn [r_ptrs].
  case_decide; [subst; by rewrite lookup_partial_alter_eq|by rewrite lookup_partial_alter_ne].
Qed.
Lemma rpc_iov_set n m l rpc : rpc_iov (set_iov n l rpc) m = if decide (n = m) then l else rpc_iov rpc m.
Proof.
  unfold rpc_iov, set_iov. cbn [r_iovs]. case_decide; [subst; by rewrite lookup_insert_eq|by rewrite lookup_insert_ne].
Qed.
Lemma rpc_sec_set n m l rpc : rpc_sec (set_sec n l rpc) m = if decide (n = m) then l else rpc_sec rpc m.
Proof.
  unfold rpc_sec, set_sec. cbn [r_secs]. case_decide; [subst; by rewrite lookup_insert_eq|by rewrite lookup_insert_ne].
Qed.
Lemma rpc_set_other n m x p l k rpc :
  rpc_ptr (set_int n x rpc) m = rpc_ptr rpc m ∧ rpc_iov (set_int n x rpc) m = rpc_iov rpc m
  ∧ rpc_sec (set_int n x rpc) m = rpc_sec rpc m
  ∧ rpc_int (set_ptr n p rpc) m = rpc_int rpc m ∧ rpc_iov (set_ptr n p rpc) m = rpc_iov rpc m
  ∧ rpc_sec (set_ptr n p rpc) m = rpc_sec rpc m
  ∧ rpc_int (set_iov n l rpc) m = rpc_int rpc m ∧ rpc_ptr (set_iov n l rpc) m = rpc_ptr rpc m
  ∧ rpc_sec (set_iov n l rpc) m = rpc_sec rpc m
  ∧ rpc_int (set_sec n k rpc) m = rpc_int rpc m ∧ rpc_ptr (set_sec n k rpc) m = rpc_ptr rpc m
  ∧ rpc_iov (set_sec n k rpc) m = rpc_iov rpc m.
Proof. by repeat split. Qed.

Lemma same_at_refl n rpc : same_at n rpc rpc.
Proof. by repeat split. Qed.
Lemma same_at_trans n r1 r2 r3 : same_at n r1 r2 → same_at n r2 r3 → same_at n r1 r3.
Proof. intros (H1&H2&H3&H4) (H5&H6&H7&H8). repeat split; congruence. Qed.
Lemma same_at_sym n r1 r2 : same_at n r1 r2 → same_at n r2 r1.
Proof. intros (H1&H2&H3&H4). by repeat split. Qed.
Lemma same_at_int n m x rpc : n ≠ m → same_at n (set_int m x rpc) rpc.
Proof. intros H. split; [rewrite rpc_int_set; by case_decide|done]. Qed.
Lemma same_at_ptr n m x rpc : n ≠ m → same_at n (set_ptr m x rpc) rpc.
Proof. intros H. split; [done|]. split; [rewrite rpc_ptr_set; by case_decide|done]. Qed.
Lemma same_at_iov n m x rpc : n ≠ m → same_at n (set_iov m x rpc) rpc.
Proof. intros H. split; [done|]. split; [done|]. split; [rewrite rpc_iov_set; by case_decide|done]. Qed.
Lemma same_at_sec n m x rpc : n ≠ m → same_at n (set_sec m x rpc) rpc.
Proof. intros H. split; [done|]. split; [done|]. split; [done|rewrite rpc_sec_set; by case_decide]. Qed.

Lemma holds_same f r r' v : (∀ n, n ∈ members f → same_at n r r') → holds r f v → holds r' f v.
Proof.
  induction f as [| | | |len n|n|n|n|check f IH|n|n|n]; cbn [members holds]; intros H;
    try (destruct (H name ltac:(set_solver)) as [-> _]; done).
  - destruct (H len ltac:(set_solver)) as (-> & _). by destruct (H n ltac:(set_solver)) as (_ & -> & _).
  - by destruct (H n ltac:(set_solver)) as (_ & -> & _).
  - by destruct (H n ltac:(set_solver)) as (_ & -> & _).
  - destruct (H n ltac:(set_solver)) as (_ & -> & _). by destruct (H (len_of n) ltac:(set_solver)) as (-> & _).
  - assert (Hin : ∀ n, n ∈ check :: members f → same_at n r r') by (intros n Hn; by apply H, elem_of_remove_dups).
    destruct (Hin check ltac:(set_solver)) as (_ & -> & _).
    destruct (rpc_ptr r' check); [|done]. apply IH. intros n Hn. apply Hin. set_solver.
  - destruct (H n ltac:(set_solver)) as (_ & _ & -> & _). by destruct (H (n_of n) ltac:(set_solver)) as (-> & _).
  - destruct (H n ltac:(set_solver)) as (_ & _ & _ & ->). by destruct (H (n_of n) ltac:(set_solver)) as (-> & _).
  - destruct (H n ltac:(set_solver)) as (_ & -> & _). by destruct (H (len_of n) ltac:(set_solver)) as (-> & _).
Qed.
End Members.

Lemma sized_head b r : sized b → rd_le 4 (b ++ r) 0 = Ret (blen b).
Proof. intros (_ & _ & H). exact (rd_le_inside 4 [] b r 0 _ H). Qed.

(** ** Gathering

    [sends run rpc ns b]: from a struct that agrees with [rpc] but for the length
    counted so far, [run] counts and appends the bytes [b], which do not depend on
    other members than [ns]. *)
Definition counting (m : Z) (rpc : mongoc_rpc_t) : mongoc_rpc_t := set_int "msg_len" m rpc.
Definition sends (run : gather_t → res gather_t) (rpc : mongoc_rpc_t) (ns : list string) (b : list Z) : Prop :=
  ∀ m arr, 0 ≤ m → m + blen b < 2 ^ 31 →
  ∃ iovs, run (counting m rpc, arr) = Ret (counting (m + blen b) rpc, arr ++ iovs)
    ∧ ∀ rpc', (∀ n, n ∈ ns → same_at n rpc rpc') → iovs_bytes rpc' iovs = Ret b.

Lemma counting_counting x y rpc : counting x (counting y rpc) = counting x rpc.
Proof. unfold counting, set_int. cbn. by rewrite insert_insert_eq. Qed.
Lemma counting_int m rpc n : n ≠ "msg_len" → rpc_int (counting m rpc) n = rpc_int rpc n.
Proof. intros H. unfold counting. rewrite rpc_int_set. by case_decide. Qed.
Lemma counting_msg_len m rpc : rpc_int (counting m rpc) "msg_len" = m.
Proof. unfold counting. rewrite rpc_int_set. by case_decide. Qed.

Lemma iovs_bytes_app rpc l1 l2 b1 b2 :
  iovs_bytes rpc l1 = Ret b1 → iovs_bytes rpc l2 = Ret b2 → iovs_bytes rpc (l1 ++ l2) = Ret (b1 ++ b2).
Proof.
  revert b1. induction l1 as [|i l1 IH]; intros b1; cbn [iovs_bytes app]; [by intros [= <-]|].
  intros H1 H2. apply bind_Ret in H1 as (x & Hx & H1). apply bind_Ret in H1 as (y & Hy & [= <-]).
  rewrite Hx. cbn [bind]. rewrite (IH y Hy H2). cbn [bind]. by rewrite app_assoc.
Qed.

Section Sends.
Context (rpc : mongoc_rpc_t) (ns : list string).
Implicit Types (b : list Z) (run : gather_t → res gather_t).

Lemma sends_nil : sends (λ st, Ret st) rpc ns [].
Proof.
  intros m arr Hm Hl. exists []. rewrite blen_nil, Z.add_0_r, app_nil_r. done.
Qed.
Lemma sends_app run1 run2 b1 b2 :
  sends run1 rpc ns b1 → sends run2 rpc ns b2 →
  sends (λ st, let* st := run1 st in run2 st) rpc ns (b1 ++ b2).
Proof.
  intros H1 H2 m arr Hm Hl. rewrite blen_app in *. pose proof (blen_nonneg b1). pose proof (blen_nonneg b2).
  destruct (H1 m arr) as (i1 & E1 & B1); [lia..|].
  destruct (H2 (m + blen b1) (arr ++ i1)) as (i2 & E2 & B2); [lia..|].
  exists (i1 ++ i2). rewrite E1. cbn [bind]. rewrite E2, Z.add_assoc, app_assoc.
  split; [done|]. intros rpc' Hsame. apply iovs_bytes_app; auto.
Qed.
Lemma sends_iov base len b :
  len = blen b → (∀ rpc', (∀ n, n ∈ ns → same_at n rpc rpc') → iov_bytes rpc' (Iov base len) = Ret b) →
  sends (λ st, gather_iov st (Iov base len)) rpc ns b.
Proof.
  intros -> Hb m arr Hm Hl. exists [Iov base (blen b)]. unfold gather_iov. cbn [fst snd iov_len].
  pose proof (blen_nonneg b). rewrite counting_msg_len, s32_small by (unfold in_s32; lia).
  rewrite chk32_ok by (unfold in_s32; lia). cbn [bind]. fold (counting (m + blen b) (counting m rpc)).
  rewrite counting_counting. split; [done|]. intros rpc' Hs. cbn [iovs_bytes].
  rewrite (Hb rpc' Hs). cbn [bind]. by rewrite app_nil_r.
Qed.
(** a pointer to the bytes, and an integer member *)
Lemma sends_at p len b r :
  p = Some (b ++ r) → len = blen b → sends (λ st, gather_iov st (Iov (At p) len)) rpc ns b.
Proof.
  intros -> ->. apply sends_iov; [done|]. intros rpc' _. unfold iov_bytes. cbn [iov_base iov_len deref bind].
  pose proof (blen_nonneg b). destruct (Z.ltb_spec (blen b) 0); [lia|]. unfold blen.
  rewrite Nat2Z.id. apply rd_bytes_app_l.
Qed.
Lemma sends_int n len x : n ∈ ns → rpc_int rpc n = x → sends (λ st, gather_iov st (Iov (Addr n) (Z.of_nat len))) rpc ns (le_bytes len x).
Proof.
  intros Hn Hx. apply sends_iov; [by rewrite blen_le_bytes|]. intros rpc' Hs. unfold iov_bytes. cbn [iov_base iov_len].
  destruct (Z.ltb_spec (Z.of_nat len) 0); [lia|]. destruct (Hs n Hn) as [<- _]. by rewrite Nat2Z.id, Hx.
Qed.
Lemma sends_ext run run' b :
  (∀ m arr, blen b < 2 ^ 31 → run (counting m rpc, arr) = run' (counting m rpc, arr)) →
  sends run' rpc ns b → sends run rpc ns b.
Proof. intros H Hs m arr Hm Hl. destruct (Hs m arr Hm Hl) as (i & E & B). exists i. rewrite H; [done|lia]. Qed.

Lemma sends_sized b r : sized b →
  sends (λ st, let* l := rd_le 4 (b ++ r) 0 in gather_iov st (Iov (At (Some (b ++ r))) (u64 (s32 l)))) rpc ns b.
Proof.
  intros (Hok & Hb & Hl). eapply (sends_ext _ (λ st, gather_iov st (Iov (At (Some (b ++ r))) (blen b)))).
  - intros m arr _. rewrite sized_head by done. cbn [bind].
    rewrite s32_small by (unfold in_s32; lia). by rewrite u64_small by lia.
  - by apply (sends_at _ _ _ r).
Qed.
Lemma sends_iovecs bs : Forall (λ i, iov_len i ≠ 0) (map iov_of bs) →
  sends (gather_iovecs (map iov_of bs)) rpc ns (concat (map fst bs)).
Proof.
  induction bs as [|[b r] bs IH]; cbn [map concat fst gather_iovecs]; intros H; [apply sends_nil|].
  apply Forall_cons in H as [Hi H]. cbn [iov_of iov_len fst snd] in *.
  eapply sends_ext; [|refine (sends_app (λ st, gather_iov st _) _ _ _ _ (IH H)); exact (sends_at _ _ b r eq_refl eq_refl)].
  intros m arr _. by destruct (Z.eqb_spec (blen b) 0).
Qed.
End Sends.

(** what gathering asserts of a struct *)
Fixpoint sendable (rpc : mongoc_rpc_t) (f : field) : Prop :=
  match f with
  | INT64_ARRAY_FIELD len n => 0 < rpc_int rpc len < 2 ^ 28
  | RAW_BUFFER_FIELD n => rpc_int rpc (len_of n) ≠ 0
  | IOVEC_ARRAY_FIELD n => rpc_int rpc (n_of n) ≠ 0 ∧ Forall (λ i, iov_len i ≠ 0) (rpc_iov rpc n)
  | BSON_OPTIONAL _ f => sendable rpc f
  | _ => True
  end.

Section SendsFields.
Context (rpc : mongoc_rpc_t).
Lemma sends_section ns s v : secval_ok v → holds_section s v → sends (gather_section s) rpc ns (encode_section v).
Proof.
  destruct v as [b|i d]; cbn [secval_ok holds_section encode_section].
  - intros Hb (Hty & r & Hp). refine (sends_app _ _ (λ st, gather_iov st (Iov (At (Some [payload_type s])) 1)) _ [0] b _ _).
    + rewrite Hty. by apply (sends_at _ _ _ _ [0] []).
    + rewrite Hty, Hp. cbn. by apply sends_sized.
  - intros ([Hi Hnz] & Hd & Hl) (Hty & r & r' & Hp).
    pose proof (blen_nonneg i). pose proof (blen_nonneg d).
    refine (sends_app _ _ (λ st, gather_iov st (Iov (At (Some [payload_type s])) 1)) _ [1] _ _ _).
    + rewrite Hty. by apply (sends_at _ _ _ _ [1] []).
    + rewrite Hty, Hp. change (1 =? 0) with false. change (1 =? 1) with true. cbv iota.
      refine (sends_app _ _ (λ st, gather_iov st _) _ (le_bytes 4 _) _ _ _).
      { eapply sends_at; [by rewrite app_nil_r|by rewrite blen_le_bytes]. }
      cbn [deref bind]. rewrite c_string_app by done. cbn [bind].
      replace (i ++ 0 :: d) with ((i ++ [0]) ++ d) by by rewrite <- app_assoc.
      refine (sends_app _ _ (λ st, gather_iov st _) _ _ _ _ _).
      * eapply (sends_at _ _ _ _ (i ++ [0]) r); [by rewrite <- app_assoc|]. rewrite blen_app, blen_cons, blen_nil. lia.
      * eapply sends_at; [done|]. rewrite u64_small; lia.
Qed.
Lemma sends_sections ns l vs : Forall secval_ok vs → Forall2 holds_section l vs →
  sends (gather_sections l) rpc ns (concat (map encode_section vs)).
Proof.
  intros Hok H. induction H as [|s v l vs Hs _ IH]; cbn [gather_sections map concat]; [apply sends_nil|].
  apply Forall_cons in Hok as [Hv Hok]. refine (sends_app _ _ (gather_section s) _ _ _ _ (IH Hok)).
  by apply sends_section.
Qed.
Lemma array_upto_all {A} (l : list A) n : n = Z.of_nat (length l) → array_upto l n = Ret l.
Proof.
  intros ->. unfold array_upto. rewrite Nat2Z.id, take_ge by lia. by destruct (Z.leb_spec (Z.of_nat (length l)) (Z.of_nat (length l))); [|lia].
Qed.
Lemma counting_other m n : rpc_ptr (counting m rpc) n = rpc_ptr rpc n ∧ rpc_iov (counting m rpc) n = rpc_iov rpc n
  ∧ rpc_sec (counting m rpc) n = rpc_sec rpc n.
Proof. done. Qed.
Lemma negb_eqb_true x y : x ≠ y → negb (x =? y) = true.
Proof. by destruct (Z.eqb_spec x y). Qed.
End SendsFields.

Section GatherFields.
Context (rpc : mongoc_rpc_t).
Lemma gather_field_sends f v :
  field_wf f = true → "msg_len" ∉ members f → val_ok f v → holds rpc f v → sendable rpc f →
  sends (gather_field f) rpc (members f) (encode v).
Proof.
  revert v. induction f as [n|n|n|n|len n|n|n|n|check f IH|n|n|n]; intros v Hwf Hm Hok Hh Hs;
    cbn [members holds val_ok sendable] in *.
  1-4: (subst v; by apply (sends_int _ _ n); [set_solver|]).
  - destruct Hh as (b & r & -> & Hp). destruct Hok as (Hn & Hb & Hl).
    cbn [encode].
    eapply (sends_ext _ _ _ (λ st, let* st := gather_iov st (Iov (Addr len) 4) in gather_iov st (Iov (At (Some (b ++ r))) (blen b)))).
    { intros m arr _. cbn [gather_field fst snd]. rewrite counting_int by set_solver.
      destruct (counting_other rpc m n) as (-> & _ & _). rewrite Hp.
      rewrite (u32_small (rpc_int rpc len)), u32_small in Hl by lia.
      rewrite chk32_ok by (unfold in_s32; lia). cbn [bind]. rewrite negb_eqb_true by lia. cbn [bson_assert bind].
      rewrite u64_small by lia. by rewrite Hl. }
    refine (sends_app _ _ (λ st, gather_iov st _) _ _ _ _ _).
    + apply (sends_int _ _ len 4); [set_solver|done].
    + by eapply sends_at.
  - destruct Hh as (s & r & -> & Hp). destruct Hok as [Hb Hnz]. cbn [encode].
    eapply (sends_ext _ _ _ (λ st, gather_iov st (Iov (At (Some ((s ++ [0]) ++ r))) (blen s + 1)))).
    + intros m arr _. cbn [gather_field fst]. destruct (counting_other rpc m n) as (-> & _ & _). rewrite Hp.
      cbn [deref bind]. rewrite bool_decide_true by done. cbn [bson_assert bind]. rewrite c_string_app by done.
      cbn [bind]. by rewrite <- app_assoc.
    + eapply sends_at; [done|]. autorewrite with blen. lia.
  - destruct Hh as (b & r & -> & Hp). cbn [encode].
    eapply sends_ext; [|exact (sends_sized _ _ b r Hok)].
    intros m arr _. cbn [gather_field fst]. destruct (counting_other rpc m n) as (-> & _ & _). by rewrite Hp.
  - destruct Hh as (b & r & -> & Hp & Hl). cbn [encode].
    destruct (Z.eq_dec (blen b) 0) as [E|E].
    + destruct b; [|rewrite blen_cons in E; pose proof (blen_nonneg b); lia].
      eapply sends_ext; [|apply sends_nil]. intros m arr _. cbn [gather_field fst].
      rewrite counting_int by set_solver. by rewrite Hl.
    + eapply sends_ext; [|exact (sends_at _ _ _ (blen b) b r eq_refl eq_refl)].
      intros m arr Hlt. cbn [gather_field fst]. rewrite counting_int by set_solver.
      destruct (counting_other rpc m n) as (-> & _ & _). rewrite Hl, Hp, negb_eqb_true by done.
      pose proof (blen_nonneg b). by rewrite u64_small by lia.
  - destruct f; try done. cbn [field_wf] in Hwf. apply bool_decide_eq_true in Hwf as ->.
    destruct (rpc_ptr rpc name) as [p|] eqn:Hp.
    + destruct v; try done; try (by destruct Hh as (? & ? & [=] & _)). cbn [holds] in Hh. rewrite elem_of_remove_dups in Hm.
      intros m arr H1 H2. destruct (IH (VDoc b)) with (m := m) (arr := arr) as (i & E & B); try done; [cbn; set_solver|].
      exists i. split.
      { rewrite <- E. cbn [gather_field fst]. destruct (counting_other rpc m name) as (-> & _ & _).
        by rewrite Hp, bool_decide_true by done. }
      intros rpc' Hs'. apply B. intros n' Hn'. apply Hs'.
      apply elem_of_remove_dups. cbn [members] in *. set_solver.
    + subst v. eapply sends_ext; [|apply sends_nil]. intros m arr _. cbn [gather_field fst].
      destruct (counting_other rpc m name) as (-> & _ & _). by rewrite Hp, bool_decide_false by (by intros []).
  - destruct Hh as (bs & -> & Hi & Hl). destruct Hs as [Hn Hne]. rewrite Hi in Hne. cbn [encode].
    eapply sends_ext; [|by apply sends_iovecs].
    intros m arr _. cbn [gather_field fst]. rewrite counting_int by set_solver.
    destruct (counting_other rpc m n) as (_ & -> & _). rewrite negb_eqb_true by done. cbn [bson_assert bind].
    rewrite Hi. by rewrite array_upto_all by (by rewrite length_map).
  - destruct Hh as (l & -> & Hi & Hl). destruct Hok as [Hn Hne]. cbn [encode].
    eapply sends_ext; [|by apply sends_sections].
    intros m arr _. cbn [gather_field fst]. rewrite counting_int by set_solver.
    destruct (counting_other rpc m n) as (_ & _ & ->). rewrite negb_eqb_true by lia. cbn [bson_assert bind].
    by rewrite array_upto_all by (by rewrite (Forall2_length _ _ _ Hi)).
  - destruct Hh as (b & r & -> & Hp & Hl). cbn [encode].
    eapply sends_ext; [|exact (sends_at _ _ _ (blen b) b r eq_refl eq_refl)].
    intros m arr Hlt. cbn [gather_field fst]. rewrite counting_int by set_solver.
    destruct (counting_other rpc m n) as (-> & _ & _). rewrite Hp, negb_eqb_true by done. cbn [bson_assert bind].
    rewrite Hl. pose proof (blen_nonneg b). by rewrite u64_small by lia.
Qed.

Lemma sends_weaken run ns ns' b : (∀ n, n ∈ ns → n ∈ ns') → sends run rpc ns b → sends run rpc ns' b.
Proof. intros Hsub Hs m arr H1 H2. destruct (Hs m arr H1 H2) as (i & E & B). exists i. auto. Qed.

(** the struct holds the message [vs], and gathering accepts it *)
Definition represents (fs : list field) (vs : list fval) : Prop :=
  Forall2 (λ f v, val_ok f v ∧ holds rpc f v ∧ sendable rpc f) fs vs.

Lemma gather_fields_sends fs vs :
  forallb field_wf fs = true → "msg_len" ∉ concat (map members fs) → represents fs vs →
  sends (gather_fields fs) rpc (concat (map members fs)) (encode_all vs).
Proof.
  intros Hwf Hm H. induction H as [|f v fs vs (Hok & Hh & Hs) _ IH]; [apply sends_nil|].
  cbn [forallb] in Hwf. apply andb_true_iff in Hwf as [Hf Hwf].
  cbn [map concat] in *. rewrite elem_of_app in Hm.
  refine (sends_app _ _ (gather_field f) _ _ _ _ _).
  - apply (sends_weaken _ (members f)); [set_solver|]. apply gather_field_sends; auto.
  - apply (sends_weaken _ (concat (map members fs))); [set_solver|]. apply IH; auto.
Qed.
End GatherFields.

Lemma gather_spec rpc fs vs :
  op_layout (rpc_int rpc "opcode") = Some (INT32_FIELD "msg_len" :: fs) → represents rpc fs vs →
  4 + blen (encode_all vs) < 2 ^ 31 →
  let sent := counting (4 + blen (encode_all vs)) rpc in
  ∃ iovs, _mongoc_rpc_gather rpc [] = Ret (sent, iovs)
    ∧ iovs_bytes sent iovs = Ret (le_bytes 4 (4 + blen (encode_all vs)) ++ encode_all vs).
Proof.
  intros Hop Hrep Hlen sent. destruct (op_layout_ok _ _ Hop) as [Hlay _].
  unfold layout_ok in Hlay. apply andb_true_iff in Hlay as [Hlay Hwf]. apply andb_true_iff in Hlay as [Hnd _].
  apply bool_decide_eq_true in Hnd. cbn [map concat members app] in Hnd. apply NoDup_cons in Hnd as [Hm _].
  cbn [forallb field_wf] in Hwf.
  destruct (gather_fields_sends rpc fs vs Hwf Hm Hrep 4 [Iov (Addr "msg_len") 4]) as (iovs & E & B); [lia..|].
  exists ([Iov (Addr "msg_len") 4] ++ iovs). unfold _mongoc_rpc_gather. rewrite Hop. cbn [gather_fields gather_field].
  unfold gather_iov. cbn [fst snd iov_len]. fold (counting 0 rpc).
  rewrite counting_msg_len, s32_small by (unfold in_s32; lia). rewrite chk32_ok by (unfold in_s32; lia). cbn [bind].
  fold (counting (0 + 4) (counting 0 rpc)). rewrite counting_counting, Z.add_0_l. split; [exact E|].
  apply iovs_bytes_app.
  - unfold iovs_bytes, iov_bytes. change (iov_len (Iov (Addr "msg_len") 4) <? 0) with false. cbn [iov_base iov_len bind]. unfold sent. by rewrite counting_msg_len, app_nil_r.
  - apply B. intros n Hn. apply same_at_sym, same_at_int. by intros ->.
Qed.

(** ** Scattering an encoding *)
Section ScatterFields.
Context (r : list Z).
Implicit Types (rpc : mongoc_rpc_t) (d w : list Z).

(** a struct before a field is read into it *)
Definition blank rpc (f : field) : Prop :=
  match f with
  | BSON_OPTIONAL check _ => rpc_ptr rpc check = None
  | SECTION_ARRAY_FIELD n => rpc_int rpc (n_of n) = 0
  | _ => True
  end.
Definition reading rpc d : scatter_t := Scatter rpc (Some (d ++ r)) (blen d).

Lemma ptr_fwd_app a b n : n = blen a → ptr_fwd (a ++ b) n = Ret b.
Proof.
  intros ->. unfold ptr_fwd. rewrite blen_app. pose proof (blen_nonneg a). pose proof (blen_nonneg b).
  destruct (Z.leb_spec 0 (blen a)); [|lia]. destruct (Z.leb_spec (blen a) (blen a + blen b)); [|lia].
  cbn [andb]. by rewrite ptr_add_inside.
Qed.
Lemma ptr_fwd_cons x l : ptr_fwd (x :: l) 1 = Ret l.
Proof. exact (ptr_fwd_app [x] l 1 eq_refl). Qed.
Lemma scatter_int_app k conv n x y rpc w :
  conv (x mod 256 ^ Z.of_nat k) = y →
  scatter_int k conv n (reading rpc (le_bytes k x ++ w)) = Ret (true, reading (set_int n y rpc) w).
Proof.
  intros <-. unfold scatter_int, reading. cbn [sc_len sc_buf sc_rpc]. rewrite blen_app, blen_le_bytes, <- app_assoc.
  pose proof (blen_nonneg w). destruct (Z.ltb_spec (Z.of_nat k + blen w) (Z.of_nat k)); [lia|].
  cbn [deref bind]. pose proof (rd_le_bytes k x [] (w ++ r)) as E. cbn [app] in E. rewrite blen_nil in E.
  rewrite E. cbn [bind]. rewrite ptr_fwd_app by (by rewrite blen_le_bytes). cbn [bind].
  by replace (Z.of_nat k + blen w - Z.of_nat k) with (blen w) by lia.
Qed.
Lemma find_zero_app s t pre fuel :
  Forall (λ b, b ≠ 0) s → (length s < fuel)%nat →
  find_zero fuel (pre ++ s ++ 0 :: t) (blen pre) = Ret (Some (blen pre + blen s)).
Proof.
  intros Hs. revert pre fuel. induction Hs as [|b s Hb _ IH]; intros pre fuel Hf;
    (destruct fuel as [|fuel]; [simpl in Hf; lia|]); cbn [find_zero].
  - replace (blen pre) with (blen pre + 0) at 1 by lia. rewrite rd_app_r by lia. cbn. by rewrite Z.add_0_r.
  - replace (blen pre) with (blen pre + 0) at 1 by lia. rewrite rd_app_r by lia. cbn [app].
    change (rd (b :: _) 0) with (Ret b). cbn [bind]. destruct (Z.eqb_spec b 0); [done|].
    specialize (IH (pre ++ [b]) fuel). rewrite blen_app, <- app_assoc in IH. change (blen [b]) with 1 in IH.
    cbn [app] in IH. rewrite IH by (simpl in Hf; lia). rewrite blen_cons. do 2 f_equal. lia.
Qed.
Lemma scatter_cstring_app n s rpc w : text_ok s →
  ∃ t, scatter_cstring n (reading rpc ((s ++ [0]) ++ w)) = Ret (true, reading (set_ptr n (Some (s ++ 0 :: t)) rpc) w).
Proof.
  intros [Hb Hs]. unfold scatter_cstring, reading. cbn [sc_len sc_buf sc_rpc]. autorewrite with blen.
  pose proof (blen_nonneg s). pose proof (blen_nonneg w).
  destruct (Z.eqb_spec (blen s + (1 + 0) + blen w) 0); [lia|]. cbn [deref bind].
  replace (((s ++ [0]) ++ w) ++ r) with (s ++ 0 :: w ++ r) by (by rewrite <- !app_assoc).
  exists (w ++ r). pose proof (find_zero_app s (w ++ r) [] (Z.to_nat (blen s + (1 + 0) + blen w)) Hs) as E.
  cbn [app] in E. rewrite blen_nil in E. rewrite E by (unfold blen in *; lia). cbn [bind].
  replace (s ++ 0 :: w ++ r) with ((s ++ [0]) ++ w ++ r) at 1 by (by rewrite <- app_assoc).
  rewrite ptr_fwd_app by (autorewrite with blen; lia). cbn [bind].
  by replace (blen s + (1 + 0) + blen w - (0 + blen s + 1)) with (blen w) by lia.
Qed.
Lemma scatter_bson_app n b rpc w : sized b →
  scatter_bson n (reading rpc (b ++ w)) = Ret (true, reading (set_ptr n (Some (b ++ w ++ r)) rpc) w).
Proof.
  intros Hb. pose proof Hb as (Hok & Hl & _). unfold scatter_bson, reading. cbn [sc_len sc_buf sc_rpc].
  rewrite blen_app, <- app_assoc. pose proof (blen_nonneg w). destruct (Z.ltb_spec (blen b + blen w) 4); [lia|].
  cbn [deref bind]. rewrite sized_head by done. cbn [bind].
  destruct (Z.ltb_spec (blen b) 5); [lia|]. destruct (Z.ltb_spec (blen b + blen w) (blen b)); [lia|]. cbn [orb].
  rewrite ptr_fwd_app by done. cbn [bind]. by replace (blen b + blen w - blen b) with (blen w) by lia.
Qed.
Lemma scatter_int64s_app len n k b rpc w : in_s32 k → blen b = u32 (u32 k * 8) →
  scatter_int64s len n (reading rpc ((le_bytes 4 k ++ b) ++ w))
  = Ret (true, reading (set_ptr n (Some (b ++ w ++ r)) (set_int len k rpc)) w).
Proof.
  intros Hk Hl. unfold scatter_int64s. rewrite <- app_assoc, (scatter_int_app 4 s32 len k k).
  - cbn [bind fst snd negb reading sc_rpc sc_len sc_buf]. rewrite rpc_int_set, decide_True by done.
    rewrite <- Hl, blen_app. pose proof (blen_nonneg w). destruct (Z.ltb_spec (blen b + blen w) (blen b)); [lia|].
    cbn [deref bind]. rewrite <- app_assoc, ptr_fwd_app by done. cbn [bind].
    by replace (blen b + blen w - blen b) with (blen w) by lia.
  - change (256 ^ Z.of_nat 4) with (2 ^ 32). fold (u32 k). by apply s32_u32.
Qed.

(** a section of OP_MSG *)
Definition grown n (i : Z) sec rpc : mongoc_rpc_t :=
  set_int (n_of n) (i + 1) (set_sec n (take (Z.to_nat i) (rpc_sec rpc n) ++ [sec]) rpc).
Lemma scatter_section_app n s i rpc w :
  secval_ok s → rpc_int rpc (n_of n) = i → i < 2 → blen (encode_section s ++ w) < 2 ^ 31 →
  ∃ sec, holds_section sec s
    ∧ scatter_section n (reading rpc (encode_section s ++ w)) = Ret (reading (grown n i sec rpc) w).
Proof.
  intros Hs Hi Hi2 Hlen. unfold scatter_section. cbn [reading sc_rpc sc_len sc_buf]. rewrite Hi.
  destruct (Z.geb_spec i 2); [lia|]. cbn [deref bind]. pose proof (blen_nonneg w).
  destruct s as [b|id d]; cbn [encode_section secval_ok] in *.
  - pose proof Hs as (Hok & Hl & _). rewrite blen_app, blen_cons in *.
    exists (RpcSection 0 (bson_document (Some (b ++ w ++ r)))).
    split; [split; [done|by exists (w ++ r)]|]. rewrite <- !app_comm_cons, <- app_assoc.
    change (rd (0 :: _) 0) with (Ret 0). cbn [bind].
    rewrite ptr_fwd_cons. cbn [bind]. rewrite sized_head by done. cbn [bind]. change (0 =? 0) with true. cbv iota. cbn [bind].
    rewrite ptr_fwd_app by done. cbn [bind]. rewrite (u64_small (_ - 1)), u64_small by lia.
    unfold grown, reading. by replace (1 + blen b + blen w - 1 - blen b) with (blen w) by lia.
  - destruct Hs as ([Hid Hnz] & Hd & Hl). set (size := blen id + blen d + 5) in *.
    pose proof (blen_nonneg id). pose proof (blen_nonneg d).
    exists (RpcSection 1 (sequence (s32 size) (Some (id ++ 0 :: d ++ w ++ r)) (Some (d ++ w ++ r)))).
    split; [split; [done|]; exists (d ++ w ++ r), (w ++ r); rewrite s32_small by (unfold in_s32; lia); done|].
    autorewrite with blen in *. change (Z.of_nat 4) with 4 in *.
    rewrite <- !app_comm_cons. change (rd (1 :: _) 0) with (Ret 1). cbn [bind].
    rewrite ptr_fwd_cons. cbn [bind]. rewrite <- !app_assoc, <- app_comm_cons.
    pose proof (rd_le_bytes 4 size [] (id ++ 0 :: d ++ w ++ r)) as E. cbn [app] in E. rewrite blen_nil in E.
    rewrite E, Z.mod_small by lia. clear E. cbn [bind]. change (1 =? 0) with false. cbv iota.
    rewrite (ptr_fwd_app (le_bytes 4 size)) by (by rewrite blen_le_bytes). cbn [bind].
    rewrite c_string_app by done. cbn [bind].
    replace (id ++ 0 :: d ++ w ++ r) with ((id ++ [0]) ++ d ++ w ++ r) at 1 by (by rewrite <- app_assoc).
    rewrite ptr_fwd_app by (autorewrite with blen; lia). cbn [bind].
    replace (le_bytes 4 size ++ id ++ 0 :: d ++ w ++ r) with ((le_bytes 4 size ++ id ++ [0] ++ d) ++ w ++ r)
      by (rewrite <- !app_assoc; done).
    rewrite ptr_fwd_app by (autorewrite with blen; change (Z.of_nat 4) with 4; lia). cbn [bind].
    rewrite (u64_small (_ - 1)), u64_small by lia.
    unfold grown, reading. do 3 f_equal. lia.
Qed.
End ScatterFields.

Section ScatterAll.
Context (r : list Z).
Implicit Types (rpc : mongoc_rpc_t) (d w : list Z).

Lemma encode_section_nonempty s : encode_section s ≠ [].
Proof. by destruct s. Qed.
Lemma scatter_sections_app n l fuel rpc secs done :
  Forall secval_ok l → l ≠ [] → (length l ≤ fuel)%nat → (length done + length l ≤ 2)%nat →
  rpc_int rpc (n_of n) = Z.of_nat (length done) → take (length done) (rpc_sec rpc n) = secs →
  Forall2 holds_section secs done → blen (concat (map encode_section l)) < 2 ^ 31 →
  ∃ rpc', scatter_sections fuel n (reading r rpc (concat (map encode_section l))) = Ret (reading r rpc' [])
    ∧ holds rpc' (SECTION_ARRAY_FIELD n) (VSections (done ++ l))
    ∧ ∀ m, m ≠ n → m ≠ n_of n → same_at m rpc' rpc.
Proof.
  intros Hok. revert fuel rpc secs done. induction Hok as [|s l Hs Hok IH]; [done|].
  intros fuel rpc secs done _ Hf Hd Hn Hsec Hh Hlen. destruct fuel as [|fuel]; [simpl in Hf; lia|].
  cbn [map concat scatter_sections] in *. cbn [length] in Hf, Hd.
  destruct (scatter_section_app r n s (Z.of_nat (length done)) rpc (concat (map encode_section l)) Hs Hn) as (sec & Hsh & E); [lia|done|].
  rewrite E. cbn [bind reading sc_len]. set (rpc1 := grown n _ sec rpc) in *.
  assert (Hn1 : rpc_int rpc1 (n_of n) = Z.of_nat (length (done ++ [s]))).
  { unfold rpc1, grown. rewrite rpc_int_set, decide_True by done. rewrite length_app. cbn. lia. }
  assert (Hsec1 : rpc_sec rpc1 n = secs ++ [sec]).
  { unfold rpc1, grown. destruct (rpc_set_other (n_of n) n (Z.of_nat (length done) + 1) None [] [] (set_sec n (take (Z.to_nat (Z.of_nat (length done))) (rpc_sec rpc n) ++ [sec]) rpc)) as (_ & _ & -> & _).
    rewrite rpc_sec_set, decide_True by done. by rewrite Nat2Z.id, Hsec. }
  assert (Hsame : ∀ m, m ≠ n → m ≠ n_of n → same_at m rpc1 rpc).
  { intros m H1 H2. eapply same_at_trans; [by apply same_at_int|by apply same_at_sec]. }
  assert (Hh1 : Forall2 holds_section (secs ++ [sec]) (done ++ [s])) by (by apply Forall2_app; [|constructor]).
  destruct l as [|s' l].
  - exists rpc1. change (concat (map encode_section [])) with (@nil Z). change (blen [] =? 0) with true. cbv iota.
    split; [done|]. split; [|done]. cbn [holds]. exists (done ++ [s]). split; [done|]. rewrite Hsec1. done.
  - destruct (Z.eqb_spec (blen (concat (map encode_section (s' :: l)))) 0) as [E0|_].
    { cbn [map concat] in E0. rewrite blen_app in E0. pose proof (encode_section_nonempty s').
      destruct (encode_section s'); [done|]. rewrite blen_cons in E0. pose proof (blen_nonneg l0). 
      pose proof (blen_nonneg (concat (map encode_section l))). lia. }
    rewrite blen_app in Hlen. pose proof (blen_nonneg (encode_section s)).
    destruct (IH fuel rpc1 (secs ++ [sec]) (done ++ [s])) as (rpc' & E' & Hh' & Hs'); try done; try lia.
    + rewrite length_app. cbn [length] in *. lia.
    + rewrite Hsec1. apply take_ge. by rewrite (Forall2_length _ _ _ Hh1).
    + exists rpc'. unfold reading in E' at 1. split; [exact E'|]. rewrite <- app_assoc in Hh'. split; [exact Hh'|].
      intros m H1 H2. eapply same_at_trans; [by apply Hs'|by apply Hsame].
Qed.

(** reading the encoding of a value into a field *)
Definition read_field (f : field) (v : fval) (w : list Z) rpc : Prop :=
  ∃ st, scatter_field f (reading r rpc (encode v ++ w)) = Ret (true, st)
    ∧ holds (sc_rpc st) f v ∧ (∀ n, n ∉ members f → same_at n (sc_rpc st) rpc)
    ∧ (takes_rest f = false → st = reading r (sc_rpc st) w).
Lemma read_int rpc f n k conv x w :
  scatter_field f (reading r rpc (le_bytes k x ++ w)) = scatter_int k conv n (reading r rpc (le_bytes k x ++ w)) →
  conv (x mod 256 ^ Z.of_nat k) = x → members f = [n] → takes_rest f = false →
  (∀ rpc', rpc_int rpc' n = x → holds rpc' f (VInt k x)) → read_field f (VInt k x) w rpc.
Proof.
  intros E Hx Hm Ht Hh. exists (reading r (set_int n x rpc) w). cbn [encode sc_rpc reading].
  rewrite E, (scatter_int_app r k conv n x x rpc w Hx). split; [done|].
  split; [apply Hh; by rewrite rpc_int_set, decide_True|]. split; [|done].
  intros m Hn. apply same_at_int. rewrite Hm in Hn. set_solver.
Qed.
Lemma read_rest rpc f n b w :
  scatter_field f (reading r rpc (b ++ w)) = Ret (true, scatter_rest n (reading r rpc (b ++ w))) → w = [] →
  members f = [n; len_of n] → takes_rest f = true → blen b < 2 ^ 31 →
  (∀ rpc', rpc_ptr rpc' n = Some (b ++ r) → rpc_int rpc' (len_of n) = blen b → holds rpc' f (VRest b)) →
  read_field f (VRest b) w rpc.
Proof.
  intros E -> Hm Ht Hl Hh. exists (scatter_rest n (reading r rpc b)). cbn [encode].
  rewrite E, app_nil_r. split; [done|]. unfold scatter_rest, reading. cbn [sc_rpc sc_len sc_buf].
  pose proof (blen_nonneg b). rewrite s32_small by (unfold in_s32; lia).
  split; [apply Hh|split; [|by rewrite Ht]].
  - destruct (rpc_set_other (len_of n) n (blen b) None [] [] (set_ptr n (Some (b ++ r)) rpc)) as (-> & _).
    by rewrite rpc_ptr_set, decide_True.
  - by rewrite rpc_int_set, decide_True.
  - intros m Hmm. rewrite Hm in Hmm. eapply same_at_trans; [apply same_at_int|apply same_at_ptr]; set_solver.
Qed.

Lemma scatter_field_reads f v w rpc :
  field_wf f = true → val_ok f v → (exhausts v → w = []) → blank rpc f → blen (encode v ++ w) < 2 ^ 31 →
  read_field f v w rpc.
Proof.
  intros Hwf Hok Hex Hbl Hlen. destruct f as [n|n|n|n|len n|n|n|n|check f|n|n|n].
  - destruct v as [[|[]] x| | | | | |]; try done. apply (read_int _ _ n 1 id x w); try done; [|by intros rpc' <-].
    by apply Z.mod_small.
  - destruct v as [[|[|[|[|[]]]]] x| | | | | |]; try done. apply (read_int _ _ n 4 s32 x w); try done; [|by intros rpc' <-].
    by apply s32_u32.
  - destruct v as [[|[|[|[|[]]]]] x| | | | | |]; try done. apply (read_int _ _ n 4 id x w); try done; [|by intros rpc' <-].
    by apply Z.mod_small.
  - destruct v as [[|[|[|[|[|[|[|[|[]]]]]]]]] x| | | | | |]; try done.
    apply (read_int _ _ n 8 s64 x w); try done; [|by intros rpc' <-]. by apply s64_u64.
  - destruct v as [|k b| | | | |]; try done. destruct Hok as (Hk & Hb & Hl). cbn [encode] in *.
    eexists. split; [by apply scatter_int64s_app|]. cbn [holds reading sc_rpc members]. split; [|split; [|done]].
    + exists b, (w ++ r). rewrite rpc_ptr_set, decide_True by done. split; [|done]. f_equal.
      destruct (rpc_set_other n len 0 (Some (b ++ w ++ r)) [] [] (set_int len k rpc)) as (_&_&_&->&_).
      by rewrite rpc_int_set, decide_True.
    + intros m Hm. eapply same_at_trans; [apply same_at_ptr|apply same_at_int]; set_solver.
  - destruct v as [| |s| | | |]; try done. destruct (scatter_cstring_app r n s rpc w Hok) as [t E].
    eexists. split; [exact E|]. cbn [holds reading sc_rpc members]. split; [|split; [|done]].
    + exists s, t. by rewrite rpc_ptr_set, decide_True.
    + intros m Hm. apply same_at_ptr. set_solver.
  - destruct v as [| | |b| | |]; try done.
    eexists. split; [by apply scatter_bson_app|]. cbn [holds reading sc_rpc members]. split; [|split; [|done]].
    + exists b, (w ++ r). by rewrite rpc_ptr_set, decide_True.
    + intros m Hm. apply same_at_ptr. set_solver.
  - destruct v as [| | | |b| |]; try done. cbn [encode] in Hlen. rewrite blen_app in Hlen. pose proof (blen_nonneg w).
    apply (read_rest _ _ n); try done; [by apply Hex|lia|].
    intros rpc' Hp Hi. exists b, r. done.
  - destruct f as [ | | | | | |n| | | | | ]; try done. cbn [field_wf] in Hwf. apply bool_decide_eq_true in Hwf as ->.
    cbn [blank] in Hbl. destruct v as [| | |b| | |]; try done.
    + eexists. unfold reading at 1. cbn [scatter_field sc_len encode].
      rewrite negb_eqb_true by (destruct Hok as (_ & ? & _); rewrite blen_app; pose proof (blen_nonneg w); lia).
      split; [by apply scatter_bson_app|]. cbn [holds reading sc_rpc members]. split; [|split; [|done]].
      * rewrite rpc_ptr_set, decide_True by done. by exists b, (w ++ r).
      * intros m Hm. apply same_at_ptr. rewrite elem_of_remove_dups in Hm. set_solver.
    + rewrite (Hex I). exists (reading r rpc []). split; [done|]. cbn [holds reading sc_rpc]. by rewrite Hbl.
  - destruct v as [| | | |b| |]; try done. rewrite (Hex I) in *. cbn [encode] in *. rewrite app_nil_r in *.
    unfold read_field. cbn [encode]. rewrite app_nil_r. cbn [scatter_field]. eexists. split; [done|].
    cbn [sc_rpc reading sc_buf sc_len takes_rest members]. split; [|split; [|done]].
    + exists [(b, r)]. cbn [map concat fst length iov_of snd]. rewrite app_nil_r. split; [done|].
      destruct (rpc_set_other (n_of n) n 1 None [] [] (set_iov n [Iov (At (Some (b ++ r))) (blen b)] rpc)) as (_ & -> & _).
      by rewrite rpc_iov_set, rpc_int_set, !decide_True.
    + intros m Hm. eapply same_at_trans; [apply same_at_int|apply same_at_iov]; set_solver.
  - destruct v as [| | | | |l|]; try done. destruct Hok as [Hn Hok]. cbn [blank] in Hbl.
    rewrite (Hex I) in *. cbn [encode] in *. rewrite app_nil_r in *.
    destruct (scatter_sections_app n l 3 rpc [] []) as (rpc' & E & Hh & Hs); try done; try (simpl; lia).
    { by intros ->; simpl in Hn; lia. }
    exists (reading r rpc' []). cbn [encode scatter_field]. rewrite app_nil_r, E. split; [done|].
    cbn [sc_rpc reading takes_rest members]. split; [exact Hh|split; [|done]].
    intros m Hm. apply Hs; set_solver.
  - destruct v as [| | | |b| |]; try done. cbn [encode] in Hlen. rewrite blen_app in Hlen. pose proof (blen_nonneg w).
    apply (read_rest _ _ n); try done; [by apply Hex|lia|].
    intros rpc' Hp Hi. exists b, r. done.
Qed.
End ScatterAll.

Section ScatterMessage.
Context (r : list Z).
Implicit Types (rpc : mongoc_rpc_t) (d w : list Z).

Lemma blank_same rpc rpc' f : field_wf f = true → (∀ n, n ∈ members f → same_at n rpc rpc') → blank rpc f → blank rpc' f.
Proof.
  destruct f as [| | | | | | | |check f| |n|]; try done; intros Hwf H; cbn [blank].
  - destruct f; try done. cbn [field_wf] in Hwf. apply bool_decide_eq_true in Hwf as ->.
    destruct (H name) as (_ & -> & _); [|done]. cbn [members]. apply elem_of_remove_dups. set_solver.
  - destruct (H (n_of n)) as (-> & _); [|done]. cbn [members]. set_solver.
Qed.

Lemma blank_after f fs rpc rpc' :
  forallb field_wf fs = true → (∀ n, n ∈ members f → n ∉ concat (map members fs)) →
  (∀ n, n ∉ members f → same_at n rpc' rpc) → Forall (blank rpc) fs → Forall (blank rpc') fs.
Proof.
  intros Hwf Hdis Hs Hbl. rewrite Forall_forall in *. intros f' Hin. rewrite forallb_forall in Hwf.
  eapply (blank_same rpc); [by apply Hwf, list_elem_of_In| |by apply Hbl].
  intros n Hn. apply same_at_sym, Hs. intros Hn'. apply (Hdis n Hn').
  apply list_elem_of_In, in_concat. exists (members f'). split; [apply in_map|]; by apply list_elem_of_In.
Qed.

Lemma scatter_fields_reads fs vs d rpc :
  NoDup (concat (map members fs)) → rest_last fs = true → forallb field_wf fs = true →
  parses fs vs d → Forall (blank rpc) fs → blen d < 2 ^ 31 →
  ∃ st, scatter_fields fs (reading r rpc d) = Ret (true, st) ∧ Forall2 (holds (sc_rpc st)) fs vs
    ∧ ∀ n, n ∉ concat (map members fs) → same_at n (sc_rpc st) rpc.
Proof.
  intros Hnd Hrl Hwf Hp. revert rpc Hnd Hrl Hwf. induction Hp as [w|f fs v vs b Hok Hex Hp IH];
    intros rpc Hnd Hrl Hwf Hbl Hlen.
  { exists (reading r rpc w). split; [done|]. split; [constructor|]. intros n _. apply same_at_refl. }
  cbn [map concat rest_last forallb] in *. apply andb_true_iff in Hwf as [Hf Hwf]. apply andb_true_iff in Hrl as [Hl Hrl].
  apply NoDup_app in Hnd as (_ & Hdis & Hnd). apply Forall_cons in Hbl as [Hb Hbl].
  destruct (scatter_field_reads r f v b rpc Hf Hok Hex Hb Hlen) as (st & E & Hh & Hs & Hst).
  cbn [scatter_fields]. rewrite E. cbn [bind fst snd].
  pose proof (blank_after f fs _ _ Hwf Hdis Hs Hbl) as Hb'.
  rewrite blen_app in Hlen. pose proof (blen_nonneg (encode v)).
  destruct (takes_rest f) eqn:Ht.
  - unfold closes in Hl. rewrite Ht in Hl. destruct fs; [|done]. inversion Hp; subst. cbn [scatter_fields]. exists st. split; [done|].
    split; [by constructor|]. intros n Hn. apply Hs. set_solver.
  - rewrite (Hst eq_refl). destruct (IH (sc_rpc st)) as (st' & E' & Hh' & Hs'); try done; [lia|].
    exists st'. split; [exact E'|]. split.
    + constructor; [|exact Hh']. eapply holds_same; [|exact Hh]. intros n Hn. apply same_at_sym, Hs'. intros Hn'. exact (Hdis n Hn Hn').
    + intros n Hn. rewrite elem_of_app in Hn. eapply same_at_trans; [apply Hs'|apply Hs]; tauto.
Qed.

(** ** What scattering accepts is an encoding *)
Definition sound_field (f : field) rpc d : Prop :=
  returns (scatter_field f (reading r rpc d)) (λ o, o.1 = true → ∃ v w, d = encode v ++ w ∧ val_ok f v ∧ (exhausts v → w = [])).

Lemma le_split k d : bytes_ok d → Z.of_nat k ≤ blen d → ∃ x w, d = le_bytes k x ++ w ∧ 0 ≤ x < 256 ^ Z.of_nat k.
Proof.
  revert d. induction k as [|k IH]; intros d Hok Hl; [exists 0, d; split; [done|lia]|].
  destruct d as [|b d]; [rewrite blen_nil in Hl; lia|]. apply Forall_cons in Hok as [Hb Hok]. rewrite blen_cons in Hl.
  destruct (IH d Hok) as (x & w & -> & Hx); [lia|]. exists (b + 256 * x), w. unfold byte_ok in Hb. split.
  - by rewrite le_bytes_step.
  - rewrite Nat2Z.inj_succ, Z.pow_succ_r by lia. lia.
Qed.
Lemma sound_int f k conv n rpc d :
  bytes_ok d → (∀ d, scatter_field f (reading r rpc d) = scatter_int k conv n (reading r rpc d)) →
  (∀ x, 0 ≤ x < 256 ^ Z.of_nat k → le_bytes k (conv x) = le_bytes k x ∧ val_ok f (VInt k (conv x))) → sound_field f rpc d.
Proof.
  intros Hok E Hc. unfold sound_field. rewrite E. unfold scatter_int. cbn [reading sc_len].
  destruct (Z.ltb_spec (blen d) (Z.of_nat k)) as [|Hl]; [done|]. destruct (le_split k d Hok Hl) as (x & w & -> & Hx).
  destruct (Hc x Hx) as [Hb Hv]. pose proof (scatter_int_app r k conv n x _ rpc w eq_refl) as Es.
  unfold scatter_int in Es. cbn [reading sc_len] in Es. destruct (Z.ltb_spec (blen (le_bytes k x ++ w)) (Z.of_nat k)); [lia|].
  cbn [reading sc_buf sc_rpc] in *. rewrite Es. intros _. exists (VInt k (conv x)), w. cbn [encode]. by rewrite Hb.
Qed.
Lemma zero_split d : Forall (λ b, b ≠ 0) d ∨ ∃ s w, d = s ++ 0 :: w ∧ Forall (λ b, b ≠ 0) s.
Proof.
  induction d as [|b d [IH|(s & w & -> & IH)]]; [by left| |]; destruct (Z.eq_dec b 0) as [->|Hb].
  - right. by exists [], d.
  - left. by constructor.
  - right. by exists [], (s ++ 0 :: w).
  - right. exists (b :: s), w. split; [done|by constructor].
Qed.
Lemma find_zero_none pre d t : Forall (λ b, b ≠ 0) d → find_zero (length d) (pre ++ d ++ t) (blen pre) = Ret None.
Proof.
  intros Hd. revert pre. induction Hd as [|b d Hb _ IH]; intros pre; [done|]. cbn [length find_zero app].
  replace (blen pre) with (blen pre + 0) at 1 by lia. rewrite rd_app_r by lia.
  change (rd (b :: _) 0) with (Ret b). cbn [bind]. destruct (Z.eqb_spec b 0); [done|].
  specialize (IH (pre ++ [b])). rewrite blen_app, <- app_assoc in IH. exact IH.
Qed.
Lemma scatter_field_sound f rpc d :
  field_wf f = true → (∀ n, f ≠ SECTION_ARRAY_FIELD n) →
  bytes_ok d → blen d < 2 ^ 31 → sound_field f rpc d.
Proof.
  intros Hwf Hns Hok Hlen. revert Hwf Hns. assert (Hbson : ∀ n, sound_field (BSON_FIELD n) rpc d).
  { intros n. unfold sound_field. cbn [scatter_field]. unfold scatter_bson. cbn [reading sc_len sc_buf sc_rpc].
    destruct (Z.ltb_spec (blen d) 4) as [|H4]; [done|]. destruct (le_split 4 d Hok) as (x & w & Hd & Hx); [lia|].
    assert (Ex : rd_le 4 (d ++ r) 0 = Ret x).
    { pose proof (rd_le_bytes 4 x [] (w ++ r)) as E. cbn [app] in E. rewrite app_assoc, <- Hd, Z.mod_small in E by done. exact E. }
    cbn [deref bind]. rewrite Ex. cbn [bind]. destruct (Z.ltb_spec x 5); [done|].
    destruct (Z.ltb_spec (blen d) x); [done|]. cbn [orb].
    set (b := take (Z.to_nat x) d). assert (Hb : blen b = x) by (unfold b, blen in *; rewrite length_take; lia).
    assert (Hsb : d = b ++ drop (Z.to_nat x) d) by (symmetry; apply take_drop).
    assert (Hsz : sized b).
    { rewrite Hsb in Hok. apply bytes_ok_app in Hok as [Hokb _]. split; [done|]. split; [lia|].
      rewrite Hb. rewrite Hsb, <- app_assoc in Ex. eapply rd_le_app_l_inv; [exact Ex|]. rewrite Hb. lia. }
    rewrite Hsb at 1. rewrite <- app_assoc, ptr_fwd_app by done. cbn [bind returns fst]. intros _.
    exists (VDoc b), (drop (Z.to_nat x) d). done. }
  destruct f as [n|n|n|n|len n|n|n|n|check f|n|n|n]; intros Hwf Hns.
  - apply (sound_int _ 1 id n); [done|done|]. intros x Hx. split; [done|]. exact Hx.
  - apply (sound_int _ 4 s32 n); [done|done|]. intros x Hx. split; [apply le_bytes_s32|apply s32_range].
  - apply (sound_int _ 4 id n); [done|done|]. intros x Hx. split; [done|]. exact Hx.
  - apply (sound_int _ 8 s64 n); [done|done|]. intros x Hx. split; [apply le_bytes_s64|apply s64_range].
  - unfold sound_field. cbn [scatter_field]. unfold scatter_int64s.
    destruct (Z.ltb_spec (blen d) 4) as [Hl|Hl].
    { unfold scatter_int at 1. cbn [reading sc_len]. destruct (Z.ltb_spec (blen d) (Z.of_nat 4)); [done|lia]. }
    destruct (le_split 4 d Hok) as (x & w & -> & Hx); [lia|].
    rewrite (scatter_int_app r 4 s32 len x (s32 x)) by (by rewrite Z.mod_small). cbn [bind fst snd negb reading sc_rpc sc_len sc_buf].
    rewrite rpc_int_set, decide_True by done. set (needed := u32 (u32 (s32 x) * 8)).
    destruct (Z.ltb_spec (blen w) needed) as [|Hn]; [done|]. cbn [deref bind].
    pose proof (u32_range (u32 (s32 x) * 8)) as Hr. fold needed in Hr.
    set (b := take (Z.to_nat needed) w). assert (Hb : blen b = needed) by (unfold b, blen in *; rewrite length_take; lia).
    assert (Hsb : w = b ++ drop (Z.to_nat needed) w) by (symmetry; apply take_drop).
    rewrite Hsb at 1. rewrite <- app_assoc, ptr_fwd_app by done. cbn [bind returns fst]. intros _.
    exists (VInts (s32 x) b), (drop (Z.to_nat needed) w). cbn [encode]. rewrite le_bytes_s32, <- app_assoc, <- Hsb.
    split; [done|]. split; [|done]. split; [apply s32_range|]. split; [|exact Hb].
    apply bytes_ok_app in Hok as [_ Hok]. by apply Forall_take.
  - unfold sound_field. cbn [scatter_field]. destruct (zero_split d) as [Hz|(s & w & -> & Hs)].
    + unfold scatter_cstring. cbn [reading sc_len sc_buf]. destruct (Z.eqb_spec (blen d) 0); [done|].
      cbn [deref bind]. pose proof (find_zero_none [] d r Hz) as E. cbn [app] in E. rewrite blen_nil in E.
      unfold blen. rewrite Nat2Z.id, E. done.
    + assert (Ht : text_ok s) by (apply bytes_ok_app in Hok as [? _]; done).
      destruct (scatter_cstring_app r n s rpc w Ht) as [t E]. rewrite <- app_assoc in E. cbn [app] in E. rewrite E. intros _.
      exists (VString s), w. cbn [encode]. by rewrite <- app_assoc.
  - apply Hbson.
  - intros _. exists (VRest d), []. cbn [encode]. rewrite app_nil_r. done.
  - destruct f as [ | | | | | |n| | | | | ]; try done. unfold sound_field. cbn [scatter_field reading sc_len].
    destruct (Z.eqb_spec (blen d) 0) as [E|E]; cbn [negb].
    + intros _. exists VAbsent, []. destruct d; [done|]. rewrite blen_cons in E. pose proof (blen_nonneg d). lia.
    + eapply returns_mono; [apply (Hbson n)|]. intros [ok st] H Hk. destruct (H Hk) as (v & w & ? & Hv & He).
      exists v, w. split; [done|]. split; [|done]. by destruct v.
  - intros _. exists (VRest d), []. cbn [encode]. rewrite app_nil_r. done.
  - by destruct (Hns n).
  - intros _. exists (VRest d), []. cbn [encode]. rewrite app_nil_r. done.
Qed.
End ScatterMessage.

Section ScatterTop.
Implicit Types (rpc : mongoc_rpc_t) (d r w : list Z).

Lemma scatter_fields_sound r fs d rpc :
  NoDup (concat (map members fs)) → rest_last fs = true → forallb field_wf fs = true →
  (∀ n, SECTION_ARRAY_FIELD n ∉ fs) → Forall (blank rpc) fs → bytes_ok d → blen d < 2 ^ 31 →
  returns (scatter_fields fs (reading r rpc d)) (λ o, o.1 = true → ∃ vs, parses fs vs d).
Proof.
  intros Hnd Hrl Hwf Hns. revert d rpc Hnd Hrl Hwf Hns. induction fs as [|f fs IH]; intros d rpc Hnd Hrl Hwf Hns Hbl Hok Hlen.
  { intros _. exists []. constructor. }
  cbn [map concat rest_last forallb] in *. apply andb_true_iff in Hwf as [Hf Hwf]. apply andb_true_iff in Hrl as [Hl Hrl].
  apply NoDup_app in Hnd as (_ & Hdis & Hnd). apply Forall_cons in Hbl as [Hb Hbl].
  assert (Hfs : ∀ n, f ≠ SECTION_ARRAY_FIELD n) by (intros n ->; apply (Hns n); left).
  pose proof (scatter_field_sound r f rpc d Hf Hfs Hok Hlen) as Hs. apply returns_Ret in Hs as ([ok st] & E & Hv).
  cbn [scatter_fields]. rewrite E. cbn [bind fst snd] in *. destruct ok; [|done].
  destruct (Hv eq_refl) as (v & w & -> & Hvo & Hex). clear Hv.
  destruct (scatter_field_reads r f v w rpc Hf Hvo Hex Hb Hlen) as (st' & E' & _ & Hs & Hst).
  rewrite E' in E. injection E as <-. pose proof (blank_after f fs _ _ Hwf Hdis Hs Hbl) as Hb'.
  rewrite blen_app in Hlen. pose proof (blen_nonneg (encode v)). apply bytes_ok_app in Hok as [_ Hok].
  destruct (takes_rest f) eqn:Ht.
  - unfold closes in Hl. rewrite Ht in Hl. destruct fs; [|done]. intros _. exists [v]. constructor; [done|done|]. constructor.
  - rewrite (Hst eq_refl). eapply returns_mono; [apply (IH w); try done; [|lia]|].
    { intros n Hn. apply (Hns n). by right. }
    intros [ok st] H1 H2. destruct (H1 H2) as [vs Hp]. exists (v :: vs). by constructor.
Qed.

(** the header of a message *)
Definition header_rpc (m q s o : Z) : mongoc_rpc_t :=
  set_int "opcode" o (set_int "response_to" s (set_int "request_id" q (set_int "msg_len" m rpc_zero))).
Lemma scatter_header m q s o w :
  scatter_op op_header rpc_zero (le_bytes 4 m ++ le_bytes 4 q ++ le_bytes 4 s ++ le_bytes 4 o ++ w) 16
  = Ret (true, header_rpc (s32 m) (s32 q) (s32 s) (s32 o)).
Proof.
  unfold scatter_op, op_header. change (negb (16 =? 0)) with true. cbn [bson_assert bind].
  set (b := le_bytes 4 m ++ le_bytes 4 q ++ le_bytes 4 s ++ le_bytes 4 o ++ []).
  assert (Hb : le_bytes 4 m ++ le_bytes 4 q ++ le_bytes 4 s ++ le_bytes 4 o ++ w = b ++ w) by (unfold b; by rewrite <- !app_assoc).
  rewrite Hb. change (Scatter rpc_zero (Some (b ++ w)) 16) with (reading w rpc_zero b).
  unfold b. cbn [scatter_fields scatter_field].
  do 4 (rewrite (scatter_int_app w 4 s32 _ _ _ _ _ eq_refl); cbn [bind fst snd]).
  cbn [reading sc_rpc]. change (256 ^ Z.of_nat 4) with (2 ^ 32).
  unfold header_rpc. do 2 f_equal. unfold s32, u32. by rewrite !Z.mod_mod by lia.
Qed.
Lemma header_blank opcode fs m q s o : op_layout opcode = Some fs → Forall (blank (header_rpc m q s o)) fs.
Proof.
  unfold op_layout. repeat case_if; intros [= <-]; repeat apply Forall_cons_2; try apply Forall_nil_2; done.
Qed.
Lemma header_opcode m q s o : rpc_int (header_rpc m q s o) "opcode" = o.
Proof. unfold header_rpc. by rewrite rpc_int_set, decide_True. Qed.

(** the bytes [d] are a message with this opcode *)
Definition message (opcode : Z) (vs : list fval) d : Prop :=
  ∃ fs, op_layout opcode = Some fs ∧ vs !! 3%nat = Some (VInt 4 opcode) ∧ parses fs vs d.

Lemma parses_int32 n fs vs d : parses (INT32_FIELD n :: fs) vs d →
  ∃ x vs' d', vs = VInt 4 x :: vs' ∧ d = le_bytes 4 x ++ d' ∧ in_s32 x ∧ parses fs vs' d'.
Proof.
  inversion 1 as [|? ? v vs' b Hok _ Hp]; subst. destruct v as [[|[|[|[|[]]]]] x| | | | | |]; try done.
  exists x, vs', b. done.
Qed.
Lemma parses_opcode a b c e fs vs m q s o w : in_s32 o →
  parses (INT32_FIELD a :: INT32_FIELD b :: INT32_FIELD c :: INT32_FIELD e :: fs) vs
    (le_bytes 4 m ++ le_bytes 4 q ++ le_bytes 4 s ++ le_bytes 4 o ++ w) → vs !! 3%nat = Some (VInt 4 o).
Proof.
  intros Ho Hp. apply parses_int32 in Hp as (x1 & vs1 & d1 & -> & E1 & _ & Hp).
  apply parses_int32 in Hp as (x2 & vs2 & d2 & -> & -> & _ & Hp).
  apply parses_int32 in Hp as (x3 & vs3 & d3 & -> & -> & _ & Hp).
  apply parses_int32 in Hp as (x4 & vs4 & d4 & -> & -> & Hx & _).
  do 3 (apply app_inj_1 in E1 as [_ E1]; [|by rewrite !length_le_bytes]).
  apply app_inj_1 in E1 as [E1 _]; [|by rewrite !length_le_bytes]. cbn [lookup list_lookup]. do 2 f_equal.
  rewrite <- (s32_u32 x4 Hx), <- (s32_u32 o Ho). f_equal. unfold u32. symmetry. exact (le_bytes_inj 4 o x4 E1).
Qed.
Lemma message_header opcode vs d : message opcode vs d →
  ∃ fs m q s w, op_layout opcode = Some fs ∧ d = le_bytes 4 m ++ le_bytes 4 q ++ le_bytes 4 s ++ le_bytes 4 opcode ++ w
    ∧ in_s32 opcode ∧ parses fs vs d.
Proof.
  intros (fs & Hop & Hv & Hp). pose proof (op_layout_ok _ _ Hop) as [_ [fs' ->]]. pose proof Hp as Hp'.
  apply parses_int32 in Hp as (m & vs1 & d1 & -> & Hd1 & _ & Hp). apply parses_int32 in Hp as (q & vs2 & d2 & -> & -> & _ & Hp).
  apply parses_int32 in Hp as (s & vs3 & d3 & -> & -> & _ & Hp). apply parses_int32 in Hp as (o & vs4 & d4 & -> & -> & Ho & Hp).
  injection Hv as ->. eexists. by exists m, q, s, d4.
Qed.
Lemma header_split d : bytes_ok d → 16 ≤ blen d →
  ∃ m q s o w, d = le_bytes 4 m ++ le_bytes 4 q ++ le_bytes 4 s ++ le_bytes 4 o ++ w ∧ in_s32 o.
Proof.
  intros Hok Hl. destruct (le_split 4 d Hok) as (m & d1 & -> & _); [lia|]. apply bytes_ok_app in Hok as [_ Hok].
  destruct (le_split 4 d1 Hok) as (q & d2 & -> & _); [autorewrite with blen in Hl; lia|]. apply bytes_ok_app in Hok as [_ Hok].
  destruct (le_split 4 d2 Hok) as (s & d3 & -> & _); [autorewrite with blen in Hl; lia|]. apply bytes_ok_app in Hok as [_ Hok].
  destruct (le_split 4 d3 Hok) as (o & d4 & -> & _); [autorewrite with blen in Hl; lia|].
  exists m, q, s, (s32 o), d4. split; [by rewrite le_bytes_s32|apply s32_range].
Qed.
Lemma scatter_unfold m q s o w r :
  let d := le_bytes 4 m ++ le_bytes 4 q ++ le_bytes 4 s ++ le_bytes 4 o ++ w in
  _mongoc_rpc_scatter (d ++ r) (blen d)
  = match op_layout (s32 o) with
    | Some l => scatter_op l (header_rpc (s32 m) (s32 q) (s32 s) (s32 o)) (d ++ r) (blen d)
    | None => Ret (false, header_rpc (s32 m) (s32 q) (s32 s) (s32 o))
    end.
Proof.
  intros d. unfold _mongoc_rpc_scatter.
  assert (Hl : 16 ≤ blen d) by (unfold d; autorewrite with blen; pose proof (blen_nonneg w); lia).
  destruct (Z.ltb_spec (blen d) 16); [lia|].
  replace (d ++ r) with (le_bytes 4 m ++ le_bytes 4 q ++ le_bytes 4 s ++ le_bytes 4 o ++ (w ++ r)) at 1
    by (unfold d; by rewrite <- !app_assoc).
  rewrite scatter_header. cbn [bind fst snd negb]. by rewrite header_opcode.
Qed.

(** a message is scattered into a struct that holds it *)
Lemma scatter_message_frame opcode vs d r : message opcode vs d → blen d < 2 ^ 31 →
  ∃ fs rpc, _mongoc_rpc_scatter (d ++ r) (blen d) = Ret (true, rpc)
    ∧ op_layout opcode = Some fs ∧ rpc_int rpc "opcode" = opcode ∧ Forall2 (holds rpc) fs vs
    ∧ (opcode ≠ MONGOC_OPCODE_MSG → rpc_sec rpc "sections" = []).
Proof.
  intros Hm Hlen. pose proof Hm as (_ & _ & Hv & _).
  destruct (message_header _ _ _ Hm) as (fs & m & q & s & w & Hop & Hd & Ho & Hp).
  pose proof (op_layout_ok _ _ Hop) as [Hlay [fs' Hfs]]. unfold layout_ok in Hlay.
  apply andb_true_iff in Hlay as [Hlay Hwf]. apply andb_true_iff in Hlay as [Hnd Hrl]. apply bool_decide_eq_true in Hnd.
  destruct (scatter_fields_reads r fs vs d (header_rpc (s32 m) (s32 q) (s32 s) opcode) Hnd Hrl Hwf Hp) as (st & E & Hh & Hframe);
    [by eapply header_blank|done|].
  exists fs, (sc_rpc st). split; [|split; [done|split; [|split; [done|]]]].
  - rewrite Hd, scatter_unfold, <- Hd, s32_small, Hop by done. unfold scatter_op.
    rewrite negb_eqb_true.
    + cbn [bson_assert bind]. unfold reading in E. rewrite E. done.
    + rewrite Hd. autorewrite with blen. pose proof (blen_nonneg w). lia.
  - apply (Forall2_lookup_lr _ _ _ 3 (INT32_FIELD "opcode") (VInt 4 opcode)) in Hh; [|by subst|done].
    cbn [holds] in Hh. by injection Hh.
  - intros Hne. destruct (Hframe "sections") as (_ & _ & _ & ->); [|done].
    clear -Hop Hne. revert Hop. unfold op_layout. repeat case_if; intros [= <-]; try done; by apply (bool_decide_unpack _).
Qed.
Lemma scatter_message opcode vs d r : message opcode vs d → blen d < 2 ^ 31 →
  ∃ fs rpc, _mongoc_rpc_scatter (d ++ r) (blen d) = Ret (true, rpc)
    ∧ op_layout opcode = Some fs ∧ rpc_int rpc "opcode" = opcode ∧ Forall2 (holds rpc) fs vs.
Proof.
  intros Hm Hl. destruct (scatter_message_frame opcode vs d r Hm Hl) as (fs & rpc & H1 & H2 & H3 & H4 & _). by exists fs, rpc.
Qed.
End ScatterTop.

(** ** The theorems *)

(** the opcode of a message *)
Definition opcode_at (d : list Z) (opcode : Z) : Prop := rd_le 4 d 12 = Ret opcode.

Lemma parses_all fs vs :
  rest_last fs = true → Forall2 val_ok fs vs → parses fs vs (encode_all vs).
Proof.
  intros Hrl H. induction H as [|f v fs vs Hv H IH]; [constructor|]. cbn [rest_last] in Hrl.
  apply andb_true_iff in Hrl as [Hl Hrl]. apply parses_cons; [done| |by apply IH].
  intros Hex. destruct (closes f) eqn:Hc.
  - destruct fs; [|done]. by inversion H.
  - destruct f, v; try done.
Qed.

Lemma gather_scatter rpc fs vs :
  op_layout (rpc_int rpc "opcode") = Some (INT32_FIELD "msg_len" :: fs) → represents rpc fs vs →
  4 + blen (encode_all vs) < 2 ^ 31 →
  let len := 4 + blen (encode_all vs) in let bytes := le_bytes 4 len ++ encode_all vs in
  ∃ iovs, _mongoc_rpc_gather rpc [] = Ret (counting len rpc, iovs) ∧ iovs_bytes (counting len rpc) iovs = Ret bytes
    ∧ blen bytes = len ∧ message (rpc_int rpc "opcode") (VInt 4 len :: vs) bytes.
Proof.
  intros Hop Hrep Hlen len bytes. destruct (gather_spec rpc fs vs Hop Hrep Hlen) as (iovs & Hg & Hb).
  fold len in Hg, Hb. fold bytes in Hb. pose proof (blen_nonneg (encode_all vs)).
  assert (Hbl : blen bytes = len) by (unfold bytes; rewrite blen_app, blen_le_bytes; unfold len; lia).
  exists iovs. split; [done|]. split; [done|]. split; [done|].
  destruct (op_layout_ok _ _ Hop) as [Hlay [fs' Hfs]]. injection Hfs as ->.
  unfold layout_ok in Hlay. apply andb_true_iff in Hlay as [Hlay _]. apply andb_true_iff in Hlay as [_ Hrl].
  eexists. split; [exact Hop|]. split.
  - destruct (Forall2_lookup_l _ _ _ 2 (INT32_FIELD "opcode") Hrep eq_refl) as (v & Hv & _ & -> & _). exact Hv.
  - apply (parses_all _ (VInt 4 len :: _)); [exact Hrl|]. apply Forall2_cons. split; [cbn; unfold in_s32, len in *; lia|].
    eapply Forall2_impl; [exact Hrep|]. by intros ?? (? & _).
Qed.

(** C19. A message that is gathered and sent has the counted length, and scattering
    its bytes gives the same message, for every opcode.  [represents] says that the
    struct holds values that fit its fields. *)
Theorem rpc_roundtrip rpc fs vs :
  op_layout (rpc_int rpc "opcode") = Some (INT32_FIELD "msg_len" :: fs) → represents rpc fs vs →
  4 + blen (encode_all vs) < 2 ^ 31 →
  ∃ sent iovs bytes,
    _mongoc_rpc_gather rpc [] = Ret (sent, iovs) ∧ iovs_bytes sent iovs = Ret bytes
    ∧ rpc_int sent "msg_len" = blen bytes
    ∧ ∀ r, ∃ rpc', _mongoc_rpc_scatter (bytes ++ r) (blen bytes) = Ret (true, rpc')
        ∧ Forall2 (holds rpc') (INT32_FIELD "msg_len" :: fs) (VInt 4 (blen bytes) :: vs).
Proof.
  intros Hop Hrep Hlen. destruct (gather_scatter rpc fs vs Hop Hrep Hlen) as (iovs & Hg & Hb & Hbl & Hm).
  eexists _, iovs, _. split; [done|]. split; [done|]. rewrite Hbl. split; [apply counting_msg_len|].
  intros r. destruct (scatter_message _ _ _ r Hm) as (fs' & rpc' & E & Hop' & _ & Hh); [lia|].
  rewrite Hop in Hop'. injection Hop' as <-. rewrite Hbl in E. by exists rpc'.
Qed.

Definition sample_doc : list Z := [5; 0; 0; 0; 0].
Definition sample_rpc : mongoc_rpc_t :=
  set_int "request_id" 7 (_mongoc_rpc_prep_command rpc_zero (c_lit "db.$cmd") sample_doc 4).
Definition sample_vals : list fval :=
  [VInt 4 7; VInt 4 0; VInt 4 2004; VInt 4 4; VString (cs "db.$cmd"); VInt 4 0; VInt 4 (-1);
   VDoc sample_doc; VAbsent].
Lemma sample_represents : represents sample_rpc (tail op_query) sample_vals.
Proof.
  unfold represents. repeat (apply Forall2_cons; split); try apply Forall2_nil_2;
    try (split; [cbn; unfold in_s32, in_u32; lia|split; [vm_compute; reflexivity|exact I]]).
  - split; [split; by_check|]. split; [cbn [holds]; by exists (cs "db.$cmd"), []|exact I].
  - split; [split; [by_check|by_check]|]. split; [cbn [holds]; by exists sample_doc, []|exact I].
Qed.
Lemma rpc_roundtrip_witness :
  ∃ sent iovs bytes,
    _mongoc_rpc_gather sample_rpc [] = Ret (sent, iovs) ∧ iovs_bytes sent iovs = Ret bytes
    ∧ rpc_int sent "msg_len" = blen bytes
    ∧ ∀ r, ∃ rpc', _mongoc_rpc_scatter (bytes ++ r) (blen bytes) = Ret (true, rpc')
        ∧ Forall2 (holds rpc') op_query (VInt 4 (blen bytes) :: sample_vals).
Proof.
  apply (rpc_roundtrip sample_rpc (tail op_query) sample_vals); [done|exact sample_represents|by vm_compute].
Defined.

Lemma scatter_sound d r :
  bytes_ok d → blen d < 2 ^ 31 → ¬ opcode_at d MONGOC_OPCODE_MSG →
  returns (_mongoc_rpc_scatter (d ++ r) (blen d)) (λ o, o.1 = true → ∃ opcode vs, message opcode vs d).
Proof.
  intros Hok Hlen Hmsg.
  destruct (Z.le_gt_cases 16 (blen d)) as [H16|H16]; [|unfold _mongoc_rpc_scatter; by destruct (Z.ltb_spec (blen d) 16); [|lia]].
  destruct (header_split d Hok H16) as (m & q & s & o & w & Hd & Ho).
  rewrite Hd, scatter_unfold, <- Hd, (s32_small o) by done. destruct (op_layout o) as [fs|] eqn:Hop; [|done].
  pose proof (op_layout_ok _ _ Hop) as [Hlay [fs' Hfs]]. unfold layout_ok in Hlay.
  apply andb_true_iff in Hlay as [Hlay Hwf]. apply andb_true_iff in Hlay as [Hnd Hrl]. apply bool_decide_eq_true in Hnd.
  unfold scatter_op. rewrite negb_eqb_true by lia. cbn [bson_assert bind].
  eapply returns_bind; [apply (scatter_fields_sound r fs d (header_rpc (s32 m) (s32 q) (s32 s) o) Hnd Hrl Hwf); try done|].
  + intros n Hn. assert (o = MONGOC_OPCODE_MSG) as ->; [|apply Hmsg].
    * revert Hop Hn. unfold op_layout. repeat case_if; intros [= <-]; rewrite list_elem_of_In; cbn [In]; intros Hn;
        try done; naive_solver.
    * unfold opcode_at. rewrite Hd. rewrite !app_assoc, <- (app_assoc _ _ w).
      exact (rd_le_here 4 MONGOC_OPCODE_MSG _ w ltac:(done)).
  + by eapply header_blank.
  + intros [ok st] Hs Hk. destruct (Hs Hk) as [vs Hp]. exists o, vs, fs. split; [done|]. split; [|done].
    subst fs. rewrite Hd in Hp. by eapply parses_opcode.
Qed.

(** C18. Without OP_MSG, scattering is safe on any bytes, and it accepts exactly the
    encodings of messages: it returns true when the bytes encode a message of some
    opcode, maybe with bytes left over at the end, and the struct then holds that
    message. *)
Theorem rpc_scatter_correct d r :
  bytes_ok d → blen d < 2 ^ 31 → ¬ opcode_at d MONGOC_OPCODE_MSG →
  returns (_mongoc_rpc_scatter (d ++ r) (blen d)) (λ '(ok, rpc),
    (ok = true ↔ ∃ opcode vs, message opcode vs d)
    ∧ ∀ opcode vs, message opcode vs d →
        ∃ fs, op_layout opcode = Some fs ∧ rpc_int rpc "opcode" = opcode ∧ Forall2 (holds rpc) fs vs).
Proof.
  intros Hok Hlen Hmsg. pose proof (scatter_sound d r Hok Hlen Hmsg) as Hs.
  apply returns_Ret in Hs as ([ok rpc] & E & Hs). rewrite E. cbn [fst] in Hs.
  assert (Hc : ∀ opcode vs, message opcode vs d → ok = true ∧ ∃ fs, op_layout opcode = Some fs
    ∧ rpc_int rpc "opcode" = opcode ∧ Forall2 (holds rpc) fs vs).
  { intros opcode vs Hm. destruct (scatter_message opcode vs d r Hm Hlen) as (fs & rpc' & E' & Hop & Hi & Hh).
    rewrite E in E'. injection E' as -> ->. split; [done|by exists fs]. }
  split; [|intros opcode vs Hm; apply (Hc _ _ Hm)]. split; [exact Hs|]. intros (opcode & vs & Hm). apply (Hc _ _ Hm).
Qed.

Definition sample_reply : list Z :=
  le_bytes 4 41 ++ le_bytes 4 9 ++ le_bytes 4 7 ++ le_bytes 4 1 ++ le_bytes 4 8 ++ le_bytes 8 0
  ++ le_bytes 4 0 ++ le_bytes 4 1 ++ sample_doc.
Lemma rpc_scatter_correct_witness :
  bytes_ok sample_reply ∧
  returns (_mongoc_rpc_scatter (sample_reply ++ []) (blen sample_reply)) (λ '(ok, rpc),
    (ok = true ↔ ∃ opcode vs, message opcode vs sample_reply)
    ∧ ∀ opcode vs, message opcode vs sample_reply →
        ∃ fs, op_layout opcode = Some fs ∧ rpc_int rpc "opcode" = opcode ∧ Forall2 (holds rpc) fs vs).
Proof.
  assert (Hok : bytes_ok sample_reply).
  { unfold bytes_ok, byte_ok. by_check. }
  split; [exact Hok|]. apply (rpc_scatter_correct sample_reply []); [exact Hok|by vm_compute|].
  unfold opcode_at. by vm_compute.
Defined.

(** *** OP_MSG *)
Definition msg_prefix (m q s fl : Z) : list Z :=
  le_bytes 4 m ++ le_bytes 4 q ++ le_bytes 4 s ++ le_bytes 4 MONGOC_OPCODE_MSG ++ le_bytes 4 fl.
Lemma scatter_msg m q s fl w r :
  ∃ rpc, rpc_int rpc "n_sections" = 0 ∧
  _mongoc_rpc_scatter ((msg_prefix m q s fl ++ w) ++ r) (blen (msg_prefix m q s fl ++ w))
  = let* st := scatter_sections 3 "sections" (reading r rpc w) in Ret (true, sc_rpc st).
Proof.
  set (rpc := set_int "flags" (id (fl mod 256 ^ Z.of_nat 4)) (set_int "opcode" (s32 (MONGOC_OPCODE_MSG mod 256 ^ Z.of_nat 4))
    (set_int "response_to" (s32 (s mod 256 ^ Z.of_nat 4)) (set_int "request_id" (s32 (q mod 256 ^ Z.of_nat 4))
    (set_int "msg_len" (s32 (m mod 256 ^ Z.of_nat 4)) (header_rpc (s32 m) (s32 q) (s32 s) MONGOC_OPCODE_MSG)))))).
  exists rpc. split.
  { unfold rpc, header_rpc. by rewrite !rpc_int_set, !decide_False. }
  assert (Hd : msg_prefix m q s fl ++ w = le_bytes 4 m ++ le_bytes 4 q ++ le_bytes 4 s ++ le_bytes 4 MONGOC_OPCODE_MSG ++ (le_bytes 4 fl ++ w))
    by (unfold msg_prefix; by rewrite <- !app_assoc).
  rewrite Hd, scatter_unfold. change (op_layout (s32 MONGOC_OPCODE_MSG)) with (Some op_msg). cbv iota.
  change (s32 MONGOC_OPCODE_MSG) with MONGOC_OPCODE_MSG. unfold scatter_op. rewrite negb_eqb_true
    by (autorewrite with blen; pose proof (blen_nonneg w); lia). cbn [bson_assert bind].
  set (d := le_bytes 4 m ++ _). change (Scatter ?rpc (Some (d ++ r)) (blen d)) with (reading r rpc d). unfold d, op_msg.
  cbn [scatter_fields scatter_field].
  do 4 (rewrite (scatter_int_app r 4 s32 _ _ _ _ _ eq_refl); cbn [bind fst snd]).
  rewrite (scatter_int_app r 4 id _ _ _ _ _ eq_refl); cbn [bind fst snd]. fold rpc.
  by destruct (scatter_sections 3 "sections" (reading r rpc w)).
Qed.
Lemma third_section s1 s2 s3 l rpc r :
  Forall secval_ok (s1 :: s2 :: s3 :: l) → rpc_int rpc "n_sections" = 0 →
  blen (concat (map encode_section (s1 :: s2 :: s3 :: l))) < 2 ^ 31 →
  scatter_sections 3 "sections" (reading r rpc (concat (map encode_section (s1 :: s2 :: s3 :: l)))) = Stuck OutOfBounds.
Proof.
  intros Hok Hn Hlen. apply Forall_cons in Hok as [H1 Hok]. apply Forall_cons in Hok as [H2 _].
  cbn [map concat] in *. set (w2 := concat (map encode_section l)) in *.
  assert (Hpos : ∀ s w, 0 < blen (encode_section s ++ w)).
  { intros s w. pose proof (encode_section_nonempty s). destruct (encode_section s) as [|x e]; [done|].
    rewrite blen_app, blen_cons. pose proof (blen_nonneg e). pose proof (blen_nonneg w). lia. }
  destruct (scatter_section_app r "sections" s1 0 rpc (encode_section s2 ++ encode_section s3 ++ w2) H1 Hn) as (c1 & _ & E1); [lia|done|].
  cbn [scatter_sections]. rewrite E1. cbn [bind reading sc_len]. pose proof (Hpos s2 (encode_section s3 ++ w2)).
  destruct (Z.eqb_spec (blen (encode_section s2 ++ encode_section s3 ++ w2)) 0); [lia|].
  rewrite blen_app in Hlen. pose proof (blen_nonneg (encode_section s1)).
  destruct (scatter_section_app r "sections" s2 1 (grown "sections" 0 c1 rpc) (encode_section s3 ++ w2) H2) as (c2 & _ & E2); [|lia|lia|].
  { unfold grown. rewrite rpc_int_set, decide_True by done. done. }
  rewrite E2. cbn [bind reading sc_len]. pose proof (Hpos s3 w2).
  destruct (Z.eqb_spec (blen (encode_section s3 ++ w2)) 0); [lia|].
  unfold scatter_section. cbn [reading sc_rpc]. unfold grown at 1. rewrite rpc_int_set, decide_True by done. done.
Qed.

(** Scattering an OP_MSG checks nothing: a message that ends after its flags is
    read past its end, and the third section of a well-formed message is written past
    the array of two sections. *)
Theorem opmsg_scatter_unchecked m q s fl :
  _mongoc_rpc_scatter (msg_prefix m q s fl) 20 = Stuck OutOfBounds
  ∧ ∀ s1 s2 s3 l r, Forall secval_ok (s1 :: s2 :: s3 :: l) →
      let d := msg_prefix m q s fl ++ concat (map encode_section (s1 :: s2 :: s3 :: l)) in
      blen d < 2 ^ 31 → _mongoc_rpc_scatter (d ++ r) (blen d) = Stuck OutOfBounds.
Proof.
  split.
  - destruct (scatter_msg m q s fl [] []) as (rpc & Hn & E). rewrite !app_nil_r in E.
    replace (blen (msg_prefix m q s fl)) with 20 in E by (unfold msg_prefix; by autorewrite with blen).
    rewrite E. cbn [scatter_sections]. unfold scatter_section. cbn [reading sc_rpc sc_buf]. change (n_of "sections") with "n_sections". by rewrite Hn.
  - intros s1 s2 s3 l r Hok d Hlen. unfold d. destruct (scatter_msg m q s fl (concat (map encode_section (s1 :: s2 :: s3 :: l))) r) as (rpc & Hn & ->).
    unfold d in Hlen. rewrite blen_app in Hlen. pose proof (blen_nonneg (msg_prefix m q s fl)).
    by rewrite third_section by (done || lia).
Qed.
Lemma opmsg_scatter_unchecked_witness :
  _mongoc_rpc_scatter (msg_prefix 35 1 0 0 ++ [0; 5; 0; 0; 0; 0; 0; 5; 0; 0; 0; 0; 0; 5; 0; 0; 0; 0]) 38 = Stuck OutOfBounds.
Proof.
  assert (Hs : secval_ok (SDoc sample_doc)).
  { unfold secval_ok, sized. split; [unfold bytes_ok, byte_ok; by_check|]. by_check. }
  destruct (opmsg_scatter_unchecked 35 1 0 0) as [_ H].
  specialize (H (SDoc sample_doc) (SDoc sample_doc) (SDoc sample_doc) [] []). apply H; [|by vm_compute].
  by repeat apply Forall_cons_2.
Defined.

(** *** Replies *)
Lemma init_static_app b k n : bytes_ok b → n ≤ blen b → bson_init_static (b ++ k) n = bson_init_static b n.
Proof.
  intros Hok Hn. unfold bson_init_static. destruct (Z.ltb_spec n 5); [done|]. destruct (INT_MAX <? n); [done|]. cbn [orb].
  destruct (rd_le_ex 4 b 0) as (x & E & _); [done|lia|lia|]. rewrite E, (rd_le_inside 4 [] b k 0 x E : rd_le 4 (b ++ k) 0 = _).
  cbn [bind]. destruct (negb (x =? n)); [done|].
  destruct (rd_ex b (n - 1)) as (y & Ey & _); [done|lia|]. rewrite Ey, (rd_inside [] b k _ y Ey : rd (b ++ k) (n - 1) = _).
  cbn [bind]. destruct (negb (y =? 0)); [done|].
  rewrite !rd_bytes_prefix by (unfold blen in Hn; rewrite ?length_app; lia).
  rewrite take_app_le by (unfold blen in Hn; lia). done.
Qed.
Lemma parses_in fs vs d v : parses fs vs d → v ∈ vs → ∃ pre post, d = pre ++ encode v ++ post.
Proof.
  induction 1 as [w|f fs v' vs b _ _ _ IH]; [by intros ?%elem_of_nil|]. intros [->|Hv]%elem_of_cons; [by exists [], b|].
  destruct (IH Hv) as (pre & post & ->). exists (encode v' ++ pre), post. by rewrite <- app_assoc.
Qed.
Lemma parses_val_ok fs vs d : parses fs vs d → Forall2 val_ok fs vs.
Proof. induction 1; by constructor. Qed.

Lemma reply_get_first_holds rpc b r :
  rpc_ptr rpc "documents" = Some (b ++ r) → rpc_int rpc "documents_len" = blen b → bytes_ok b → blen b < 2 ^ 31 →
  returns (_mongoc_rpc_reply_get_first rpc) (λ o, ∀ doc, o = Some doc → bson_ok doc ∧ 5 ≤ blen doc ∧ ∃ post, b = doc ++ post).
Proof.
  intros Hp Hl Hok Hlt. unfold _mongoc_rpc_reply_get_first. rewrite Hp, Hl. destruct (Z.ltb_spec (blen b) 4); [done|].
  destruct (rd_le_ex 4 b 0) as (x & E & Hx); [done|lia|lia|]. rewrite (rd_le_inside 4 [] b r 0 x E : rd_le 4 (b ++ r) 0 = _).
  cbn [bind]. destruct (Z.ltb_spec (blen b) (s32 x)) as [|Hle]; [done|].
  destruct (Z.lt_ge_cases (s32 x) 0) as [Hneg|Hpos].
  { unfold bson_init_static. pose proof (s32_range x) as Hr. unfold in_s32 in Hr.
    assert (E' : u64 (s32 x) = s32 x + 2 ^ 64) by (unfold u64; rewrite <- (Z.mod_add _ 1), Z.mod_small; lia).
    rewrite E'. destruct (Z.ltb_spec INT_MAX (s32 x + 2 ^ 64)); [|unfold INT_MAX in *; lia]. by rewrite orb_true_r. }
  rewrite u64_small, init_static_app by (try done; lia).
  eapply returns_mono; [by apply bson_init_static_ok|]. intros o Ho doc ->. destruct Ho as (Hd & Ht & _ & Hn & _).
  split; [done|]. rewrite Ht. split; [|by exists (drop (Z.to_nat (s32 x)) b); rewrite take_drop].
  unfold blen in *. rewrite length_take. lia.
Qed.
Lemma populate_query_error_returns doc v : bson_ok doc → returns (_mongoc_populate_query_error doc v) (λ _, True).
Proof.
  intros Hdoc. unfold _mongoc_populate_query_error.
  eapply returns_bind; [by apply (find_holding_returns doc (cs "code")); [|repeat constructor]|]. intros c Hc.
  eapply returns_bind; [by apply (reply_code_returns _ doc)|]. intros code _.
  eapply returns_bind; [by apply (find_holding_returns doc (cs "$err")); [|repeat constructor]|]. intros m Hm.
  destruct m as [it|]; [|done].
  eapply returns_bind; [eapply utf8_string_at; [by apply Hm|done]|done].
Qed.

Lemma get_first_message opcode vs fs d rpc :
  message opcode vs d → op_layout opcode = Some fs → Forall2 (holds rpc) fs vs → rpc_int rpc "opcode" = opcode →
  blen d < 2 ^ 31 →
  returns (_mongoc_rpc_get_first_document rpc) (λ o, ∀ doc, o = Some doc →
    bson_ok doc ∧ 5 ≤ blen doc ∧ ∃ pre post, d = pre ++ doc ++ post).
Proof.
  intros (fs' & Hop' & _ & Hp) Hop Hh Hi Hlen. rewrite Hop in Hop'. injection Hop' as <-.
  unfold _mongoc_rpc_get_first_document. rewrite Hi. destruct (Z.eqb_spec opcode MONGOC_OPCODE_REPLY) as [->|]; [|done].
  injection Hop as <-. pose proof (parses_val_ok _ _ _ Hp) as Hv.
  destruct (Forall2_lookup_l _ _ _ 8 (BSON_ARRAY_FIELD "documents") Hh eq_refl) as (v & Hv8 & b & t & -> & Hptr & Hl).
  assert (Hbok : bytes_ok b) by exact (Forall2_lookup_lr _ _ _ 8 _ _ Hv eq_refl Hv8).
  destruct (parses_in _ _ _ (VRest b) Hp) as (pre & post & Hd); [by apply list_elem_of_lookup_2 in Hv8|]. cbn [encode] in Hd.
  assert (Hbl : blen b < 2 ^ 31) by (rewrite Hd, !blen_app in Hlen; pose proof (blen_nonneg pre); pose proof (blen_nonneg post); lia).
  eapply returns_mono; [by apply (reply_get_first_holds rpc b t)|].
  intros o Ho doc ->. destruct (Ho doc eq_refl) as (H1 & H2 & post' & ->). split; [done|]. split; [done|].
  exists pre, (post' ++ post). by rewrite Hd, <- app_assoc.
Qed.

(** what the receiver of a reply does *)
Definition receive_reply (buf : list Z) (buflen v : Z)
    : res (option (mongoc_rpc_t * (bool * option bson_error_t * option bson_t) * option bson_t)) :=
  let* s := _mongoc_rpc_scatter buf buflen in
  if s.1 : bool then
    let* c := _mongoc_rpc_check_ok s.2 v in
    let* b := _mongoc_rpc_get_first_document s.2 in
    Ret (Some (s.2, c, b))
  else Ret None.

