(* ===== verification/Compression.v ===== *)
(** Compression of messages (mongoc/mongoc-compression.c, [_mongoc_rpc_compress] and
    [_mongoc_rpc_decompress] of mongoc/mongoc-rpc.c, [_mongoc_cluster_buffer_iovec] of
    mongoc/mongoc-cluster.c), built with zlib and without snappy and zstd.  zlib is an
    interface; decompressing a compressed message gives the message back. *)
From Stdlib Require Import ZArith Lia List.
From stdpp Require Import prelude gmap strings.
From S2P Require Import Prelude BsonIter BsonIterSafe BsonAppend BsonBuild BsonValue BsonOid BsonParse MongocTypes Rpc RpcProps.
#[local] Open Scope string_scope.
#[local] Open Scope list_scope.
#[local] Open Scope Z_scope.
#[local] Open Scope mongo_scope.

(** ** zlib

    [compress2 src level cap]: the output, at most [cap] bytes, when it is [Z_OK].
    [uncompress src cap]: whether it is [Z_OK], the bytes written, at most [cap], and
    the value of [*destLen] afterwards. *)
Class Zlib := {
  compressBound : Z → Z;
  compress2 : list Z → Z → Z → option (list Z);
  uncompress : list Z → Z → bool * list Z * Z
}.
Class ZlibOk (zlib : Zlib) : Prop := {
  compress2_fits src level cap out : compress2 src level cap = Some out → bytes_ok src → bytes_ok out ∧ 0 < blen out ≤ cap;
  uncompress_fits src cap : blen (uncompress src cap).1.2 ≤ Z.max 0 cap;
  uncompress_len src cap : (uncompress src cap).1.1 = true → (uncompress src cap).2 = blen (uncompress src cap).1.2;
  compress2_uncompress src level cap out cap' :
    compress2 src level cap = Some out → bytes_ok src → blen src ≤ cap' → uncompress out cap' = (true, src, blen src)
}.

Definition MONGOC_COMPRESSOR_NOOP_ID : Z := 0.
Definition MONGOC_COMPRESSOR_SNAPPY_ID : Z := 1.
Definition MONGOC_COMPRESSOR_ZLIB_ID : Z := 2.
Definition MONGOC_COMPRESSOR_ZSTD_ID : Z := 3.

Definition mongoc_compressor_id_to_name (compressor_id : Z) : list Z :=
  if compressor_id =? MONGOC_COMPRESSOR_SNAPPY_ID then cs "snappy"
  else if compressor_id =? MONGOC_COMPRESSOR_ZLIB_ID then cs "zlib"
  else if compressor_id =? MONGOC_COMPRESSOR_ZSTD_ID then cs "zstd"
  else if compressor_id =? MONGOC_COMPRESSOR_NOOP_ID then cs "noop"
  else cs "unknown".
Definition mongoc_compressor_supported (compressor : list Z) : bool :=
  if strcaseeq compressor (cs "zlib") then true
  else if strcaseeq compressor (cs "noop") then true else false.

Section WithZlib.
Context {zlib : Zlib}.

Definition mongoc_compressor_max_compressed_length (compressor_id len : Z) : Z :=
  if compressor_id =? MONGOC_COMPRESSOR_ZLIB_ID then compressBound len
  else if compressor_id =? MONGOC_COMPRESSOR_NOOP_ID then len
  else 0.

(** the return value, the memory at [uncompressed] and [*uncompressed_len] *)
Definition mongoc_uncompress (compressor_id : Z) (compressed : option (list Z)) (compressed_len : Z)
    (uncompressed : list Z) (uncompressed_len : Z) : res (bool * list Z * Z) :=
  if compressor_id =? MONGOC_COMPRESSOR_ZLIB_ID then
    let* src := bytes_of compressed compressed_len in
    let '(ok, out, n) := uncompress src uncompressed_len in
    let* dst := write_at uncompressed 0 out in
    Ret (ok, dst, n)
  else if compressor_id =? MONGOC_COMPRESSOR_NOOP_ID then
    let* src := bytes_of compressed compressed_len in
    let* dst := write_at uncompressed 0 src in
    Ret (true, dst, compressed_len)
  else Ret (false, uncompressed, uncompressed_len).

(** the compressed bytes, when it returns true; [cap] is the size of [compressed] *)
Definition mongoc_compress (compressor_id compression_level : Z) (uncompressed : list Z) (cap : Z)
    : res (option (list Z)) :=
  if compressor_id =? MONGOC_COMPRESSOR_ZLIB_ID then Ret (compress2 uncompressed compression_level cap)
  else if compressor_id =? MONGOC_COMPRESSOR_NOOP_ID then
    if blen uncompressed <=? cap then Ret (Some uncompressed) else Stuck OutOfBounds
  else Ret None.

(** ** The bytes of a vector without its first [skip] *)
Fixpoint buffer_iovec (rpc : mongoc_rpc_t) (l : list mongoc_iovec_t) (skip total : Z) : res (list Z) :=
  match l with
  | [] => Ret []
  | iov :: l =>
      let total := s32 (u64 (total + iov_len iov)) in
      if total <=? skip then buffer_iovec rpc l skip total
      else
        let difference := if u64 (total - iov_len iov) <? u64 skip then s32 (u64 (skip - u64 (total - iov_len iov))) else 0 in
        let* b := iov_bytes rpc iov in
        let* r := buffer_iovec rpc l skip total in
        Ret (drop (Z.to_nat difference) b ++ r)
  end.
Definition _mongoc_cluster_buffer_iovec (rpc : mongoc_rpc_t) (iov : list mongoc_iovec_t) (skip : Z) (buffer : list Z)
    : res (Z * list Z) :=
  let* b := buffer_iovec rpc iov skip 0 in
  let* buffer := write_at buffer 0 b in
  Ret (blen b, buffer).

(** ** Messages *)

(** [iov] is the vector of the gathered message; the result is the output buffer with
    the new struct and vector, or the error ([None]: not set) *)
Definition _mongoc_rpc_compress (compressor_id compression_level : Z) (rpc : mongoc_rpc_t) (iov : list mongoc_iovec_t)
    : res (mongoc_rpc_t * list mongoc_iovec_t + option bson_error_t) :=
  let allocate := u32 (u32 (rpc_int rpc "msg_len") - 16) in
  let* _ := bson_assert (0 <? allocate) in
  let data := repeat 0 (Z.to_nat allocate) in
  let* d := _mongoc_cluster_buffer_iovec rpc iov 16 data in
  let size := s32 d.1 in
  let* _ := bson_assert (negb (size =? 0)) in
  let output_length := mongoc_compressor_max_compressed_length compressor_id size in
  if output_length =? 0 then
    Ret (inr (Some (bson_set_error MONGOC_ERROR_COMMAND MONGOC_ERROR_COMMAND_INVALID_ARG
      (cs "Could not determine compression bounds for " ++ mongoc_compressor_id_to_name compressor_id))))
  else
    let* o := mongoc_compress compressor_id compression_level (take (Z.to_nat size) d.2) output_length in
    match o with
    | Some out =>
        let output := out ++ repeat 0 (Z.to_nat (output_length - blen out)) in
        let rpc := set_int "original_opcode" (rpc_int rpc "opcode") (set_int "msg_len" 0 rpc) in
        let rpc := set_int "compressor_id" (u8 compressor_id) (set_int "uncompressed_size" size
                     (set_int "opcode" MONGOC_OPCODE_COMPRESSED rpc)) in
        let rpc := set_int "compressed_message_len" (s32 (blen out)) (set_ptr "compressed_message" (Some output) rpc) in
        let* g := _mongoc_rpc_gather rpc [] in
        Ret (inl g)
    | None => Ret (inr None)
    end.

(** the return value and the struct *)
Definition _mongoc_rpc_decompress (rpc : mongoc_rpc_t) (buf : list Z) (buflen : Z) : res (bool * mongoc_rpc_t) :=
  let uncompressed_size := u32 (rpc_int rpc "uncompressed_size") in
  let* _ := bson_assert (uncompressed_size <=? buflen) in
  let* buf := write_at buf 0 (le_bytes 4 buflen) in
  let* buf := write_at buf 4 (le_bytes 4 (rpc_int rpc "request_id")) in
  let* buf := write_at buf 8 (le_bytes 4 (rpc_int rpc "response_to")) in
  let* buf := write_at buf 12 (le_bytes 4 (rpc_int rpc "original_opcode")) in
  let* u := mongoc_uncompress (rpc_int rpc "compressor_id") (rpc_ptr rpc "compressed_message")
              (u64 (rpc_int rpc "compressed_message_len")) (drop 16 buf) uncompressed_size in
  let '(ok, body, n) := u in
  let* _ := bson_assert (uncompressed_size =? n) in
  if ok : bool then _mongoc_rpc_scatter (take 16 buf ++ body) buflen else Ret (false, rpc).
End WithZlib.

(** ** The vector without its header *)
Lemma iov_bytes_len rpc iov b : iov_bytes rpc iov = Ret b → iov_len iov = blen b.
Proof.
  unfold iov_bytes. destruct (Z.ltb_spec (iov_len iov) 0); [done|]. destruct (iov_base iov) as [n|p].
  - intros [= <-]. rewrite blen_le_bytes. lia.
  - intros Hb. apply bind_Ret in Hb as (d & _ & Hb). apply rd_bytes_length in Hb. unfold blen. lia.
Qed.
Lemma buffer_iovec_drop rpc l b total : iovs_bytes rpc l = Ret b → 0 ≤ total → total + blen b < 2 ^ 31 →
  buffer_iovec rpc l 16 total = Ret (drop (Z.to_nat (16 - total)) b).
Proof.
  revert b total. induction l as [|iov l IH]; intros b total H Ht Hl; cbn [iovs_bytes buffer_iovec] in *.
  { injection H as <-. by rewrite drop_nil. }
  apply bind_Ret in H as (b1 & H1 & H). apply bind_Ret in H as (b2 & H2 & [= <-]).
  rewrite blen_app in Hl. pose proof (blen_nonneg b1). pose proof (blen_nonneg b2).
  rewrite (iov_bytes_len _ _ _ H1), (u64_small (total + _)), (s32_small (total + _)) by (unfold in_s32; lia).
  destruct (Z.leb_spec (total + blen b1) 16).
  - rewrite (IH b2) by (done || lia). f_equal.
    rewrite drop_app_ge by (unfold blen in *; lia). f_equal. unfold blen in *. lia.
  - replace (total + blen b1 - blen b1) with total by lia. rewrite (u64_small total), (u64_small 16) by lia.
    rewrite H1. cbn [bind]. rewrite (IH b2) by (done || lia). cbn [bind].
    replace (Z.to_nat (16 - (total + blen b1))) with 0%nat by lia. rewrite drop_0. f_equal.
    destruct (Z.ltb_spec total 16).
    + rewrite u64_small, s32_small by (unfold in_s32; lia). rewrite drop_app_le by (unfold blen in *; lia). done.
    + replace (Z.to_nat (16 - total)) with 0%nat by lia. by rewrite !drop_0.
Qed.
(** members of the struct after assignments *)
Lemma rpc_int_ptr n p rpc m : rpc_int (set_ptr n p rpc) m = rpc_int rpc m.
Proof. done. Qed.
Lemma rpc_ptr_int n x rpc m : rpc_ptr (set_int n x rpc) m = rpc_ptr rpc m.
Proof. done. Qed.
Lemma rpc_int_sec n l rpc m : rpc_int (set_sec n l rpc) m = rpc_int rpc m.
Proof. done. Qed.
Lemma rpc_sec_int n x rpc m : rpc_sec (set_int n x rpc) m = rpc_sec rpc m.
Proof. done. Qed.
Ltac rpc_simpl :=
  repeat (rewrite ?rpc_int_ptr, ?rpc_ptr_int, ?rpc_int_sec, ?rpc_sec_int;
    first [rewrite rpc_int_set | rewrite rpc_ptr_set | rewrite rpc_sec_set];
    repeat match goal with
    | |- context [decide (?a = ?b :> string)] =>
        first [rewrite (decide_True (P := (a = b))) by reflexivity | rewrite (decide_False (P := (a = b))) by discriminate]
    end).

Section RoundTrip.
Context {zlib : Zlib} {zlib_ok : ZlibOk zlib}.

Lemma encode_ok f v : val_ok f v → bytes_ok (encode v).
Proof.
  revert v. induction f as [| | | | | | | |? f IH| | |]; intros [k x|k b|t|b|b|l|]; try done; cbn [val_ok encode]; intros Hv;
    try exact (le_bytes_ok _ _); try exact (Forall_nil_2 _); try (by apply (IH _ Hv)); try (by destruct Hv).
  - apply bytes_ok_app. split; [apply le_bytes_ok|tauto].
  - apply bytes_ok_app. split; [by destruct Hv|by repeat constructor].
  - destruct Hv as [_ Hv]. induction Hv as [|s l Hs _ IH]; [constructor|]. cbn [map concat]. apply bytes_ok_app. split; [|exact IH].
    destruct s as [b|i d]; cbn [encode_section secval_ok] in *; [apply Forall_cons; split; [done|by destruct Hs]|].
    destruct Hs as ([Hi _] & Hd & _). apply Forall_cons. split; [done|]. repeat (apply bytes_ok_app; split);
      [apply le_bytes_ok|done|]. by constructor.
Qed.
Lemma encode_all_ok fs vs : Forall2 val_ok fs vs → bytes_ok (encode_all vs).
Proof.
  induction 1 as [|f v fs vs Hv _ IH]; [constructor|]. apply bytes_ok_app. split; [by eapply encode_ok|exact IH].
Qed.
Lemma op_layout_long opcode a b c e fs : op_layout opcode = Some (a :: b :: c :: e :: fs) →
  ∃ n fs', fs = INT32_FIELD n :: fs' ∨ fs = ENUM_FIELD n :: fs'.
Proof. unfold op_layout. repeat case_if; intros [= <- <- <- <- <-]; eexists _, _; (by left) || (by right). Qed.
(** the message after the header *)
Lemma message_body rpc fs vs :
  op_layout (rpc_int rpc "opcode") = Some (INT32_FIELD "msg_len" :: fs) → represents rpc fs vs →
  ∃ body, encode_all vs = le_bytes 4 (rpc_int rpc "request_id") ++ le_bytes 4 (rpc_int rpc "response_to")
      ++ le_bytes 4 (rpc_int rpc "opcode") ++ body
    ∧ bytes_ok body ∧ 0 < blen body
    ∧ in_s32 (rpc_int rpc "request_id") ∧ in_s32 (rpc_int rpc "response_to") ∧ in_s32 (rpc_int rpc "opcode").
Proof.
  intros Hop Hrep. destruct (op_layout_ok _ _ Hop) as [_ [fs' Hfs]]. injection Hfs as ->.
  unfold represents in Hrep.
  apply Forall2_cons_inv_l in Hrep as (v1 & ? & (H1 & -> & _) & Hrep & ->).
  apply Forall2_cons_inv_l in Hrep as (v2 & ? & (H2 & -> & _) & Hrep & ->).
  apply Forall2_cons_inv_l in Hrep as (v3 & vs' & (H3 & -> & _) & Hrep & ->).
  exists (encode_all vs'). split; [done|]. split.
  { eapply encode_all_ok, Forall2_impl; [exact Hrep|]. by intros ?? (? & _). }
  split; [|done]. destruct (op_layout_long _ _ _ _ _ _ Hop) as (n & fs'' & [E|E]); subst fs';
    apply Forall2_cons_inv_l in Hrep as (v4 & l' & (_ & -> & _) & _ & ->); unfold encode_all; cbn [map concat encode];
    rewrite blen_app, blen_le_bytes; pose proof (blen_nonneg (concat (map encode l'))); lia.
Qed.

Lemma compress_returns id level (body out : list Z) :
  let size := blen body in
  0 < size → size + 25 < 2 ^ 31 → bytes_ok body →
  mongoc_compress id level body (mongoc_compressor_max_compressed_length id size) = Ret (Some out) →
  bytes_ok out ∧ 0 < blen out ≤ mongoc_compressor_max_compressed_length id size
  ∧ (id = MONGOC_COMPRESSOR_ZLIB_ID ∧ compress2 body level (compressBound size) = Some out
     ∨ id = MONGOC_COMPRESSOR_NOOP_ID ∧ out = body).
Proof.
  intros size Hs Hl Hok. unfold mongoc_compress, mongoc_compressor_max_compressed_length.
  destruct (Z.eqb_spec id MONGOC_COMPRESSOR_ZLIB_ID) as [->|].
  - intros [= E]. destruct (compress2_fits _ _ _ _ E Hok) as [H1 H2]. split; [done|]. split; [done|]. by left.
  - destruct (Z.eqb_spec id MONGOC_COMPRESSOR_NOOP_ID) as [->|]; [|done].
    destruct (Z.leb_spec (blen body) size); [|unfold size in *; lia]. intros [= <-]. fold size.
    split; [done|]. split; [lia|]. by right.
Qed.
Lemma uncompress_returns id level body out pad dst :
  bytes_ok body → blen dst = blen body →
  (id = MONGOC_COMPRESSOR_ZLIB_ID ∧ compress2 body level (compressBound (blen body)) = Some out
     ∨ id = MONGOC_COMPRESSOR_NOOP_ID ∧ out = body) →
  mongoc_uncompress id (Some (out ++ pad)) (blen out) dst (blen body) = Ret (true, body, blen body).
Proof.
  intros Hok Hd Hc. unfold mongoc_uncompress, bytes_of. cbn [deref bind].
  assert (Hrd : rd_bytes (Z.to_nat (blen out)) (out ++ pad) 0 = Ret out) by (unfold blen; rewrite Nat2Z.id; apply rd_bytes_app_l).
  destruct Hc as [[-> Hc]|[-> ->]].
  - change (MONGOC_COMPRESSOR_ZLIB_ID =? MONGOC_COMPRESSOR_ZLIB_ID) with true. cbv iota. rewrite Hrd. cbn [bind].
    rewrite (compress2_uncompress _ _ _ _ (blen body) Hc Hok) by lia. by rewrite write_at_all.
  - change (MONGOC_COMPRESSOR_NOOP_ID =? MONGOC_COMPRESSOR_ZLIB_ID) with false.
    change (MONGOC_COMPRESSOR_NOOP_ID =? MONGOC_COMPRESSOR_NOOP_ID) with true. cbv iota. rewrite Hrd. cbn [bind].
    by rewrite write_at_all.
Qed.

(** the struct after compression *)
Definition compressed_vals (rpc : mongoc_rpc_t) (id size : Z) (out : list Z) : list fval :=
  [VInt 4 (rpc_int rpc "request_id"); VInt 4 (rpc_int rpc "response_to"); VInt 4 MONGOC_OPCODE_COMPRESSED;
   VInt 4 (rpc_int rpc "opcode"); VInt 4 size; VInt 1 id; VRest out].
Definition compressed_rpc (rpc : mongoc_rpc_t) (id size : Z) (out pad : list Z) : mongoc_rpc_t :=
  let rpc := set_int "original_opcode" (rpc_int rpc "opcode") (set_int "msg_len" 0 rpc) in
  let rpc := set_int "compressor_id" (u8 id) (set_int "uncompressed_size" size
               (set_int "opcode" MONGOC_OPCODE_COMPRESSED rpc)) in
  set_int "compressed_message_len" (s32 (blen out)) (set_ptr "compressed_message" (Some (out ++ pad)) rpc).
Lemma compressed_represents rpc id size out pad :
  in_s32 (rpc_int rpc "request_id") → in_s32 (rpc_int rpc "response_to") → in_s32 (rpc_int rpc "opcode") →
  in_s32 size → byte_ok id → bytes_ok out → 0 < blen out < 2 ^ 31 →
  represents (compressed_rpc rpc id size out pad) (tail op_compressed) (compressed_vals rpc id size out).
Proof.
  intros H1 H2 H3 Hs Hid Hout Hl. unfold represents, op_compressed, compressed_vals, compressed_rpc. cbn [tail].
  rewrite u8_small by exact Hid. rewrite (s32_small (blen out)) by (unfold in_s32; lia).
  repeat (apply Forall2_cons; split); try apply Forall2_nil_2; cbn [val_ok holds sendable];
    try (split; [done|split; [rpc_simpl; reflexivity|done]]).
  split; [done|]. change (len_of "compressed_message") with "compressed_message_len".
  split; [exists out, pad; split; [done|]; split; rpc_simpl; reflexivity|]. rpc_simpl. lia.
Qed.

(** decompression fills in the header and decompresses the rest *)
Lemma decompress_unfold rpc id size out buf m q s o :
  Forall2 (holds rpc) op_compressed
    [VInt 4 m; VInt 4 q; VInt 4 s; VInt 4 MONGOC_OPCODE_COMPRESSED; VInt 4 o; VInt 4 size; VInt 1 id; VRest out] →
  0 ≤ size → blen out < 2 ^ 31 → size + 16 < 2 ^ 31 → blen buf = size + 16 →
  let h := le_bytes 4 (size + 16) ++ le_bytes 4 q ++ le_bytes 4 s ++ le_bytes 4 o in
  ∃ pad, _mongoc_rpc_decompress rpc buf (blen buf)
  = let* u := mongoc_uncompress id (Some (out ++ pad)) (blen out) (drop 16 buf) size in
    let '(ok, body, n) := u in
    let* _ := bson_assert (size =? n) in
    if ok : bool then _mongoc_rpc_scatter (h ++ body) (size + 16) else Ret (false, rpc).
Proof.
  intros Hh Hsize Hout Hlt Hbuf h. unfold op_compressed in Hh.
  repeat (apply Forall2_cons in Hh as [? Hh]). cbn [holds] in *.
  repeat match goal with H : VInt _ _ = VInt _ _ |- _ => injection H as H end.
  match goal with H : ∃ b r, _ |- _ => destruct H as (b & pad & [= <-] & Hp & Hl) end.
  change (len_of "compressed_message") with "compressed_message_len" in Hl.
  pose proof (blen_nonneg out). exists pad.
  unfold _mongoc_rpc_decompress. repeat match goal with H : _ = rpc_int rpc _ |- _ => rewrite <- H; clear H end.
  rewrite Hp, Hl, Hbuf, (u32_small size), (u64_small (blen out)) by lia.
  destruct (Z.leb_spec size (size + 16)); [|lia]. cbn [bson_assert bind].
  change buf with ([] ++ buf) at 1. change 0 with (blen []) at 1.
  assert (Hd : ∀ n, Z.of_nat n ≤ 16 → blen (drop n buf) = size + 16 - Z.of_nat n).
  { intros n Hn. unfold blen in *. rewrite length_drop. lia. }
  rewrite write_at_seq by (rewrite ?blen_le_bytes; lia). rewrite length_le_bytes. cbn [bind app].
  assert (E4 : ∀ x d, write_at (le_bytes 4 (size + 16) ++ d) 4 x = write_at (le_bytes 4 (size + 16) ++ d) (blen (le_bytes 4 (size + 16))) x).
  { intros. by rewrite blen_le_bytes. }
  rewrite E4, write_at_seq by (rewrite ?blen_le_bytes, ?Hd; lia). rewrite length_le_bytes. cbn [bind]. clear E4.
  set (h2 := le_bytes 4 (size + 16) ++ le_bytes 4 q).
  change (write_at (h2 ++ ?d) 8 ?x) with (write_at (h2 ++ d) (blen h2) x).
  rewrite write_at_seq by (rewrite ?blen_le_bytes, ?drop_drop, ?Hd; lia). rewrite length_le_bytes. cbn [bind].
  set (h3 := h2 ++ le_bytes 4 s). change (write_at (h3 ++ ?d) 12 ?x) with (write_at (h3 ++ d) (blen h3) x).
  rewrite write_at_seq by (rewrite ?blen_le_bytes, ?drop_drop, ?Hd; lia). rewrite length_le_bytes. cbn [bind]. rewrite !drop_drop.
  set (h4 := h3 ++ le_bytes 4 o). assert (Hh4 : length h4 = 16%nat) by done.
  assert (E : h = h4) by (unfold h, h4, h3, h2; by rewrite <- !app_assoc). rewrite E.
  rewrite <- Hh4 at 1. rewrite drop_app_length. change (4 + (4 + (4 + 4)))%nat with 16%nat. assert (Ht : take 16 (h4 ++ drop 16 buf) = h4) by (rewrite <- Hh4; apply take_app_length). by rewrite Ht.
Qed.
Lemma decompress_spec rpc id level size out body buf m q s o :
  Forall2 (holds rpc) op_compressed
    [VInt 4 m; VInt 4 q; VInt 4 s; VInt 4 MONGOC_OPCODE_COMPRESSED; VInt 4 o; VInt 4 size; VInt 1 id; VRest out] →
  bytes_ok body → blen body = size → blen out < 2 ^ 31 → size + 16 < 2 ^ 31 → blen buf = size + 16 →
  (id = MONGOC_COMPRESSOR_ZLIB_ID ∧ compress2 body level (compressBound size) = Some out
     ∨ id = MONGOC_COMPRESSOR_NOOP_ID ∧ out = body) →
  _mongoc_rpc_decompress rpc buf (blen buf)
  = _mongoc_rpc_scatter (le_bytes 4 (size + 16) ++ le_bytes 4 q ++ le_bytes 4 s ++ le_bytes 4 o ++ body) (size + 16).
Proof.
  intros Hh Hok Hsize Hout Hlt Hbuf Hc. pose proof (blen_nonneg body).
  destruct (decompress_unfold _ _ _ _ _ _ _ _ _ Hh ltac:(lia) Hout Hlt Hbuf) as [pad ->].
  rewrite <- Hsize. rewrite (uncompress_returns id level); [|done| |by rewrite Hsize].
  2: { unfold blen in *. rewrite length_drop. lia. }
  cbn [bind]. rewrite Z.eqb_refl. cbn [bson_assert bind]. by rewrite <- !app_assoc.
Qed.

(** what compression returns for a gathered message *)
Lemma compress_spec id level rpc iovs h body :
  let size := blen body in
  iovs_bytes rpc iovs = Ret (h ++ body) → length h = 16%nat → rpc_int rpc "msg_len" = 16 + size →
  bytes_ok body → 0 < size → size + 25 < 2 ^ 31 → byte_ok id → mongoc_compressor_max_compressed_length id size + 25 < 2 ^ 31 →
  in_s32 (rpc_int rpc "request_id") → in_s32 (rpc_int rpc "response_to") → in_s32 (rpc_int rpc "opcode") →
  returns (_mongoc_rpc_compress id level rpc iovs) (λ o, ∀ crpc civ, o = inl (crpc, civ) →
    ∃ out vs, (id = MONGOC_COMPRESSOR_ZLIB_ID ∧ compress2 body level (compressBound size) = Some out
               ∨ id = MONGOC_COMPRESSOR_NOOP_ID ∧ out = body)
      ∧ vs = compressed_vals rpc id size out ∧ blen out < 2 ^ 31
      ∧ iovs_bytes crpc civ = Ret (le_bytes 4 (4 + blen (encode_all vs)) ++ encode_all vs)
      ∧ 4 + blen (encode_all vs) < 2 ^ 31
      ∧ message MONGOC_OPCODE_COMPRESSED (VInt 4 (4 + blen (encode_all vs)) :: vs)
          (le_bytes 4 (4 + blen (encode_all vs)) ++ encode_all vs)).
Proof.
  intros size Hb Hh Hml Hok Hs Hl Hid Hmax Hq Hr Ho. unfold _mongoc_rpc_compress. rewrite Hml.
  rewrite (u32_small (16 + size)) by lia. replace (16 + size - 16) with size by lia. rewrite (u32_small size) by lia.
  destruct (Z.ltb_spec 0 size); [|lia]. cbn [bson_assert bind].
  assert (Hhl : blen h = 16) by (unfold blen; lia).
  assert (Hbuf : _mongoc_cluster_buffer_iovec rpc iovs 16 (repeat 0 (Z.to_nat size)) = Ret (size, body)).
  { unfold _mongoc_cluster_buffer_iovec. rewrite (buffer_iovec_drop rpc iovs _ 0 Hb) by (rewrite ?blen_app; fold size; lia).
    change (Z.to_nat (16 - 0)) with 16%nat. rewrite <- Hh, drop_app_length. cbn [bind].
    rewrite write_at_all by (unfold blen, size, blen; rewrite repeat_length; lia). done. }
  rewrite Hbuf. cbn [bind fst snd]. rewrite (s32_small size) by (unfold in_s32; lia).
  rewrite negb_eqb_true by lia. cbn [bson_assert bind].
  destruct (_ =? 0); [by intros|]. replace (take (Z.to_nat size) body) with body by (rewrite take_ge; [done|unfold size, blen; lia]).
  destruct (mongoc_compress id level body _) as [[out|]|f] eqn:Ec; cbn [bind]; [|by intros|].
  2: { exfalso. revert Ec. unfold mongoc_compress, mongoc_compressor_max_compressed_length.
       destruct (id =? MONGOC_COMPRESSOR_ZLIB_ID); [done|]. destruct (id =? MONGOC_COMPRESSOR_NOOP_ID); [|done].
       fold size. by destruct (Z.leb_spec size size); [|lia]. }
  destruct (compress_returns id level body out Hs Hl Hok Ec) as (Hout & Hol & Hc). fold size in Hol, Hc.
  set (pad := repeat 0 _). fold (compressed_rpc rpc id size out pad).
  assert (Hrep : represents (compressed_rpc rpc id size out pad) (tail op_compressed) (compressed_vals rpc id size out))
    by (apply compressed_represents; try done; unfold in_s32; lia).
  set (vs := compressed_vals rpc id size out) in *.
  assert (Hlen : 4 + blen (encode_all vs) = 25 + blen out).
  { unfold vs, compressed_vals, encode_all. cbn [map concat encode]. autorewrite with blen. lia. }
  assert (Hopc : rpc_int (compressed_rpc rpc id size out pad) "opcode" = MONGOC_OPCODE_COMPRESSED)
    by (unfold compressed_rpc; rpc_simpl; reflexivity).
  destruct (gather_scatter (compressed_rpc rpc id size out pad) (tail op_compressed) vs) as (iovs' & Hg & Hb' & _ & Hm);
    [by rewrite Hopc|done|lia|].
  rewrite Hg. cbn [bind returns]. intros crpc civ [= <- <-]. exists out, vs.
  split; [done|]. split; [done|]. split; [lia|]. split; [done|]. split; [lia|]. by rewrite Hopc in Hm.
Qed.
End RoundTrip.

Lemma compressed_message `{ZlibOk} rpc fs vs id level :
  let size := 4 + blen (encode_all vs) - 16 in
  op_layout (rpc_int rpc "opcode") = Some (INT32_FIELD "msg_len" :: fs) → represents rpc fs vs →
  byte_ok id → size + 25 < 2 ^ 31 → mongoc_compressor_max_compressed_length id size + 25 < 2 ^ 31 →
  returns (let* g := _mongoc_rpc_gather rpc [] in _mongoc_rpc_compress id level g.1 g.2) (λ o,
    ∀ crpc civ, o = inl (crpc, civ) →
    ∃ cbytes, iovs_bytes crpc civ = Ret cbytes ∧ ∀ r, ∃ rpc', 
      _mongoc_rpc_scatter (cbytes ++ r) (blen cbytes) = Ret (true, rpc')
      ∧ rpc_int rpc' "opcode" = MONGOC_OPCODE_COMPRESSED ∧ rpc_int rpc' "uncompressed_size" = size
      ∧ ∀ buf, blen buf = rpc_int rpc' "uncompressed_size" + 16 →
        ∃ rpc'', _mongoc_rpc_decompress rpc' buf (blen buf) = Ret (true, rpc'')
          ∧ Forall2 (holds rpc'') (INT32_FIELD "msg_len" :: fs) (VInt 4 (size + 16) :: vs)).
Proof.
  intros size Hop Hrep Hid Hl Hmax. destruct (message_body rpc fs vs Hop Hrep) as (body & Hvs & Hok & Hpos & Hq & Hr & Ho).
  assert (Hsize : size = blen body) by (unfold size; rewrite Hvs; autorewrite with blen; lia).
  destruct (gather_scatter rpc fs vs Hop Hrep) as (iovs & Hg & Hb & Hbl & Hm); [unfold size in *; lia|].
  set (L := 4 + blen (encode_all vs)) in *. rewrite Hg. cbn [bind fst snd].
  set (h := le_bytes 4 L ++ le_bytes 4 (rpc_int rpc "request_id") ++ le_bytes 4 (rpc_int rpc "response_to")
    ++ le_bytes 4 (rpc_int rpc "opcode")).
  assert (Hbytes : le_bytes 4 L ++ encode_all vs = h ++ body) by (rewrite Hvs; unfold h; by rewrite <- !app_assoc).
  rewrite Hbytes in Hb. rewrite Hsize in *.
  eapply returns_mono; [apply (compress_spec id level (counting L rpc) iovs h body); try done; try lia|].
  { rewrite counting_msg_len. lia. }
  1-3: by rewrite counting_int by discriminate.
  intros o Hc crpc civ ->. destruct (Hc crpc civ eq_refl) as (out & cvs & Hcomp & Hcvs & Hout & Hcb & Hcl & Hcm). clear Hc.
  eexists. split; [exact Hcb|]. intros r. destruct (scatter_message _ _ _ r Hcm) as (fs' & rpc' & Hs & Hop' & Hopc & Hh).
  { rewrite blen_app, blen_le_bytes. lia. }
  injection Hop' as <-. rewrite Hcvs in Hh. unfold compressed_vals in Hh.
  assert (Hus : rpc_int rpc' "uncompressed_size" = blen body).
  { pose proof (Forall2_lookup_lr _ _ _ 5 (INT32_FIELD "uncompressed_size") _ Hh eq_refl eq_refl) as Hx.
    cbn [holds] in Hx. by injection Hx. }
  exists rpc'. split; [exact Hs|]. split; [done|]. split; [by rewrite Hus|]. intros buf Hbuf. rewrite Hus in Hbuf.
  rewrite (decompress_spec rpc' id level (blen body) out body buf _ _ _ _ Hh) by (done || lia).
  rewrite !counting_int by discriminate.
  assert (HL : blen body + 16 = L) by lia. rewrite HL.
  replace (le_bytes 4 L ++ _) with (h ++ body) by (unfold h; by rewrite <- !app_assoc).
  rewrite <- Hbytes, <- (app_nil_r (le_bytes 4 L ++ encode_all vs)). 
  destruct (scatter_message _ _ _ [] Hm) as (fs2 & rpc'' & Hs2 & Hop2 & _ & Hh2); [lia|].
  rewrite Hbl in Hs2. rewrite Hop in Hop2. injection Hop2 as <-. by exists rpc''.
Qed.

(** C20. A message that was compressed is decompressed to itself: with zlib or without
    compression, compressing a gathered message returns; the compressed message is
    read back as an OP_COMPRESSED; and decompressing it into a buffer of the announced
    size gives the original message. *)
Theorem compress_roundtrip `{ZlibOk} rpc fs vs id level :
  let size := 4 + blen (encode_all vs) - 16 in
  op_layout (rpc_int rpc "opcode") = Some (INT32_FIELD "msg_len" :: fs) → represents rpc fs vs →
  byte_ok id → size + 25 < 2 ^ 31 → mongoc_compressor_max_compressed_length id size + 25 < 2 ^ 31 →
  returns (let* g := _mongoc_rpc_gather rpc [] in _mongoc_rpc_compress id level g.1 g.2) (λ o,
    ∀ crpc civ, o = inl (crpc, civ) →
    ∃ cbytes, iovs_bytes crpc civ = Ret cbytes ∧ ∀ r, ∃ rpc', 
      _mongoc_rpc_scatter (cbytes ++ r) (blen cbytes) = Ret (true, rpc')
      ∧ rpc_int rpc' "opcode" = MONGOC_OPCODE_COMPRESSED ∧ rpc_int rpc' "uncompressed_size" = size
      ∧ ∀ buf, blen buf = rpc_int rpc' "uncompressed_size" + 16 →
        ∃ rpc'', _mongoc_rpc_decompress rpc' buf (blen buf) = Ret (true, rpc'')
          ∧ Forall2 (holds rpc'') (INT32_FIELD "msg_len" :: fs) (VInt 4 (size + 16) :: vs)).
Proof. apply compressed_message. Qed.

(** a compressor that only marks its input *)
#[export] Instance marking_zlib : Zlib := {
  compressBound n := n + 1;
  compress2 src level cap := if blen src + 1 <=? cap then Some (120 :: src) else None;
  uncompress src cap := match src with
    | 120 :: b => if blen b <=? cap then (true, b, blen b) else (false, [], cap)
    | _ => (false, [], cap)
    end
}.
#[export] Instance marking_zlib_ok : ZlibOk marking_zlib.
Proof.
  split; cbn.
  - intros src level cap out. case_if; intros [= <-] Hok. split; [by constructor|]. rewrite blen_cons.
    pose proof (blen_nonneg src). lia.
  - intros src cap. repeat case_match; cbn; try (rewrite blen_nil; lia).
    match goal with H : (_ <=? _) = true |- _ => apply Z.leb_le in H; lia end.
  - intros src cap. by repeat case_match.
  - intros src level cap out cap'. case_if; intros [= <-] Hok Hl. by destruct (Z.leb_spec (blen src) cap'); [|lia].
Qed.
Lemma compress_roundtrip_witness :
  let size := 4 + blen (encode_all sample_vals) - 16 in
  size = 25 ∧
  returns (let* g := _mongoc_rpc_gather sample_rpc [] in _mongoc_rpc_compress 2 (-1) g.1 g.2) (λ o,
    ∀ crpc civ, o = inl (crpc, civ) →
    ∃ cbytes, iovs_bytes crpc civ = Ret cbytes ∧ ∀ r, ∃ rpc',
      _mongoc_rpc_scatter (cbytes ++ r) (blen cbytes) = Ret (true, rpc')
      ∧ rpc_int rpc' "opcode" = MONGOC_OPCODE_COMPRESSED ∧ rpc_int rpc' "uncompressed_size" = size
      ∧ ∀ buf, blen buf = rpc_int rpc' "uncompressed_size" + 16 →
        ∃ rpc'', _mongoc_rpc_decompress rpc' buf (blen buf) = Ret (true, rpc'')
          ∧ Forall2 (holds rpc'') (INT32_FIELD "msg_len" :: tail op_query) (VInt 4 (size + 16) :: sample_vals)).
Proof.
  intros size. split; [by vm_compute|].
  refine (compress_roundtrip sample_rpc (tail op_query) sample_vals 2 (-1) _ _ _ _ _);
    [done|exact sample_represents|done|by vm_compute|by vm_compute].
Defined.

(** Decompression trusts the size that the message announces.  Without compression
    the message is copied whatever its length: a longer one is written past the
    buffer, a shorter one fails an assertion; and so does data that zlib decompresses
    to another size. *)
Theorem decompress_trusts_size `{ZlibOk} rpc id size out buf m q s o :
  Forall2 (holds rpc) op_compressed
    [VInt 4 m; VInt 4 q; VInt 4 s; VInt 4 MONGOC_OPCODE_COMPRESSED; VInt 4 o; VInt 4 size; VInt 1 id; VRest out] →
  0 ≤ size → blen out < 2 ^ 31 → size + 16 < 2 ^ 31 → blen buf = size + 16 →
  (id = MONGOC_COMPRESSOR_NOOP_ID → size < blen out → _mongoc_rpc_decompress rpc buf (blen buf) = Stuck OutOfBounds)
  ∧ (id = MONGOC_COMPRESSOR_NOOP_ID → blen out < size → _mongoc_rpc_decompress rpc buf (blen buf) = Stuck AssertFailed)
  ∧ (id = MONGOC_COMPRESSOR_ZLIB_ID → (uncompress out size).2 ≠ size →
       _mongoc_rpc_decompress rpc buf (blen buf) = Stuck AssertFailed).
Proof.
  intros Hh Hs Hout Hlt Hbuf. destruct (decompress_unfold _ _ _ _ _ _ _ _ _ Hh Hs Hout Hlt Hbuf) as [pad ->].
  assert (Hd : blen (drop 16 buf) = size) by (unfold blen in *; rewrite length_drop; lia).
  assert (Hrd : bytes_of (Some (out ++ pad)) (blen out) = Ret out).
  { unfold bytes_of, blen. cbn [deref bind]. rewrite Nat2Z.id. apply rd_bytes_app_l. }
  unfold mongoc_uncompress. rewrite Hrd. pose proof (blen_nonneg out). split; [|split]; intros ->.
  - intros Hlong. change (MONGOC_COMPRESSOR_NOOP_ID =? MONGOC_COMPRESSOR_ZLIB_ID) with false.
    change (MONGOC_COMPRESSOR_NOOP_ID =? MONGOC_COMPRESSOR_NOOP_ID) with true. cbv iota. cbn [bind].
    unfold write_at. rewrite Hd, Z.add_0_l. by destruct (Z.leb_spec (blen out) size); [lia|].
  - intros Hshort. change (MONGOC_COMPRESSOR_NOOP_ID =? MONGOC_COMPRESSOR_ZLIB_ID) with false.
    change (MONGOC_COMPRESSOR_NOOP_ID =? MONGOC_COMPRESSOR_NOOP_ID) with true. cbv iota. cbn [bind].
    unfold write_at. rewrite Hd, Z.add_0_l. destruct (Z.leb_spec (blen out) size); [|lia]. change (0 <=? 0) with true.
    cbn [andb bind]. by destruct (Z.eqb_spec size (blen out)); [lia|].
  - intros Hn. change (MONGOC_COMPRESSOR_ZLIB_ID =? MONGOC_COMPRESSOR_ZLIB_ID) with true. cbv iota. cbn [bind].
    pose proof (uncompress_fits out size) as Hf. destruct (uncompress out size) as [[ok b] n]. cbn [fst snd] in *.
    unfold write_at. rewrite Hd, Z.add_0_l. destruct (Z.leb_spec (blen b) size); [|lia]. change (0 <=? 0) with true.
    cbn [andb bind]. by destruct (Z.eqb_spec size n) as [->|].
Qed.

Definition sample_compressed : mongoc_rpc_t :=
  set_ptr "compressed_message" (Some [1; 2; 3]) (set_int "compressed_message_len" 3
    (set_int "compressor_id" 0 (set_int "uncompressed_size" 2 (set_int "original_opcode" 1
      (set_int "opcode" MONGOC_OPCODE_COMPRESSED rpc_zero))))).
Lemma decompress_trusts_size_witness :
  _mongoc_rpc_decompress sample_compressed (repeat 0 18) (blen (repeat 0 18)) = Stuck OutOfBounds.
Proof.
  destruct (decompress_trusts_size sample_compressed 0 2 [1; 2; 3] (repeat 0 18) 0 0 0 1) as (H & _ & _);
    [|lia|by vm_compute|by vm_compute|by vm_compute|].
  - unfold op_compressed. repeat (apply Forall2_cons; split); try apply Forall2_nil_2; try (vm_compute; reflexivity).
    cbn [holds]. by exists [1; 2; 3], [].
  - apply H; [done|by vm_compute].
Defined.
