(* ===== verification/Buffer.v ===== *)
(** Growable buffers filled from a stream (mongoc/mongoc-buffer.c).  The stream is an
    interface. *)
From Stdlib Require Import ZArith Lia List.
From stdpp Require Import prelude strings.
From S2P Require Import Prelude BsonIter BsonIterSafe BsonAppend BsonBuild HostList MongocTypes.
#[local] Open Scope Z_scope.
#[local] Open Scope mongo_scope.

(** ** Streams

    [stream_writev bytes]: [_mongoc_stream_writev_full], the error is set on failure.
    [stream_read count min_bytes]: the return value of [mongoc_stream_read] and the
    bytes it wrote.  [stream_timed_out]: [mongoc_stream_timed_out]. *)
Class Stream (W : Type) := {
  stream_writev : list Z → W → bool * bson_error_t * W;
  stream_read : Z → Z → W → Z * list Z * W;
  stream_timed_out : W → bool
}.
Class StreamOk (W : Type) `{Stream W} : Prop := {
  read_bytes_ok count min_bytes w : bytes_ok (stream_read count min_bytes w).1.2;
  read_fits count min_bytes w : 0 ≤ count → blen (stream_read count min_bytes w).1.2 ≤ count;
  read_count count min_bytes w : 0 ≤ (stream_read count min_bytes w).1.1 →
    (stream_read count min_bytes w).1.1 = blen (stream_read count min_bytes w).1.2
}.

Definition MONGOC_ERROR_STREAM_SOCKET : Z := 4.
Definition MONGOC_BUFFER_DEFAULT_SIZE : Z := 1024.

(** [data] with [datalen] bytes, [len] of them in use *)
Record mongoc_buffer_t := Buffer { buf_data : option (list Z); buf_len : Z }.
Definition buf_datalen (b : mongoc_buffer_t) : Z := from_option blen 0 (buf_data b).

Section Buffers.
Context {W : Type} `{Stream W}.
Variable fresh : Z → Z.

(** [realloc_func (data, size)] to a larger size *)
Definition buffer_realloc (data : option (list Z)) (size : Z) : list Z :=
  let d := default [] data in take (Z.to_nat size) d ++ fresh_bytes fresh (blen d) size.

(** [buf]: [None] is NULL *)
Definition _mongoc_buffer_init (buf : option (list Z)) (buflen : Z) : res mongoc_buffer_t :=
  let* _ := bson_assert (negb (buflen =? 0) || negb (bool_decide (is_Some buf))) in
  let buflen := if buflen =? 0 then MONGOC_BUFFER_DEFAULT_SIZE else buflen in
  let buf := match buf with Some b => b | None => buffer_realloc None buflen end in
  Ret (Buffer (Some buf) 0).
Definition _mongoc_buffer_destroy (buffer : mongoc_buffer_t) : mongoc_buffer_t := Buffer None 0.
Definition _mongoc_buffer_clear (buffer : mongoc_buffer_t) (zero : bool) : res mongoc_buffer_t :=
  if zero then
    let* d := deref (buf_data buffer) in Ret (Buffer (Some (repeat 0 (length d))) 0)
  else Ret (Buffer (buf_data buffer) 0).

(** [SPACE_FOR], and the growth that the appending functions share *)
Definition SPACE_FOR (b : mongoc_buffer_t) (sz : Z) : bool := buf_datalen b - buf_len b >=? sz.
Definition make_space (b : mongoc_buffer_t) (size : Z) : mongoc_buffer_t :=
  if SPACE_FOR b size then b
  else Buffer (Some (buffer_realloc (buf_data b) (bson_next_power_of_two (size + buf_len b)))) (buf_len b).
Definition reserve (b : mongoc_buffer_t) (size : Z) : res mongoc_buffer_t :=
  let* _ := bson_assert (negb (size =? 0)) in
  let* _ := bson_assert (negb (buf_datalen b =? 0)) in
  let* _ := bson_assert (buf_datalen b + size <? INT_MAX) in
  let b := make_space b size in
  let* _ := bson_assert (buf_len b + size <=? buf_datalen b) in
  Ret b.

Definition _mongoc_buffer_append (buffer : mongoc_buffer_t) (data : list Z) (data_size : Z) : res mongoc_buffer_t :=
  let* b := reserve buffer data_size in
  let* d := deref (buf_data b) in
  let* src := rd_bytes (Z.to_nat data_size) data 0 in
  let* d := write_at d (buf_len b) src in
  Ret (Buffer (Some d) (buf_len b + data_size)).

Definition append_error (size : Z) : bson_error_t :=
  bson_set_error MONGOC_ERROR_STREAM MONGOC_ERROR_STREAM_SOCKET
    (cs "Failed to read " ++ print_dec 20 size ++ cs " bytes: socket error or timeout").
(** the return value, the error ([None]: not set), the buffer and the stream *)
Definition _mongoc_buffer_append_from_stream (buffer : mongoc_buffer_t) (size : Z) (w : W)
    : res (bool * option bson_error_t * mongoc_buffer_t * W) :=
  let* b := reserve buffer size in
  let* d := deref (buf_data b) in
  let '(ret, bytes, w) := stream_read size size w in
  let* d := write_at d (buf_len b) bytes in
  if negb (ret =? size) then Ret (false, Some (append_error size), Buffer (Some d) (buf_len b), w)
  else Ret (true, None, Buffer (Some d) (buf_len b + ret), w).

(** the count, or -1 *)
Definition _mongoc_buffer_fill (buffer : mongoc_buffer_t) (min_bytes : Z) (w : W)
    : res (Z * option bson_error_t * mongoc_buffer_t * W) :=
  let* _ := bson_assert (bool_decide (is_Some (buf_data buffer)) && negb (buf_datalen buffer =? 0)) in
  if min_bytes <=? buf_len buffer then Ret (buf_len buffer, None, buffer, w)
  else
    let min_bytes := min_bytes - buf_len buffer in
    let b := make_space buffer min_bytes in
    let* d := deref (buf_data b) in
    let avail_bytes := buf_datalen b - buf_len b in
    let '(ret, bytes, w) := stream_read avail_bytes min_bytes w in
    let* d := write_at d (buf_len b) bytes in
    if ret =? -1 then
      Ret (-1, Some (bson_set_error MONGOC_ERROR_STREAM MONGOC_ERROR_STREAM_SOCKET
                       (cs "Failed to buffer " ++ print_dec 20 (u32 min_bytes) ++ cs " bytes")),
           Buffer (Some d) (buf_len b), w)
    else
      let b := Buffer (Some d) (buf_len b + ret) in
      if buf_len b <? min_bytes then
        Ret (-1, Some (bson_set_error MONGOC_ERROR_STREAM MONGOC_ERROR_STREAM_SOCKET
                         (cs "Could only buffer " ++ print_dec 20 (u32 (buf_len b)) ++ cs " of "
                          ++ print_dec 20 (u32 min_bytes) ++ cs " bytes")), b, w)
      else Ret (buf_len b, None, b, w).

Definition _mongoc_buffer_try_append_from_stream (buffer : mongoc_buffer_t) (size : Z) (w : W)
    : res (Z * mongoc_buffer_t * W) :=
  let* b := reserve buffer size in
  let* d := deref (buf_data b) in
  let '(ret, bytes, w) := stream_read size 0 w in
  let* d := write_at d (buf_len b) bytes in
  Ret (ret, Buffer (Some d) (if ret >? 0 then buf_len b + ret else buf_len b), w).
End Buffers.

(** ** Lemmas *)

(** the bytes in use *)
Definition contents (b : mongoc_buffer_t) : list Z := take (Z.to_nat (buf_len b)) (default [] (buf_data b)).
(** a buffer between calls *)
Definition buffer_ok (b : mongoc_buffer_t) : Prop :=
  ∃ d, buf_data b = Some d ∧ 0 < blen d ∧ 0 ≤ buf_len b ≤ blen d.

Section BufferLemmas.
Context {W : Type} `{StreamOk W}.
Variable fresh : Z → Z.
Implicit Types (b : mongoc_buffer_t).

Lemma blen_fresh_bytes from to : from ≤ to → blen (fresh_bytes fresh from to) = to - from.
Proof. intros Hle. unfold fresh_bytes, blen. rewrite length_map, length_seq. lia. Qed.

Lemma reserve_spec b size :
  buffer_ok b → 0 < size → buf_datalen b + size < INT_MAX →
  ∃ d, reserve fresh b size = Ret (Buffer (Some d) (buf_len b)) ∧ buf_len b + size ≤ blen d
    ∧ take (Z.to_nat (buf_len b)) d = contents b ∧ buf_datalen b ≤ blen d
    ∧ (buf_len b + size ≤ buf_datalen b → blen d = buf_datalen b).
Proof.
  intros (d & Hd & Hpos & Hlen) Hs Hmax. unfold reserve, buf_datalen in *. rewrite Hd in *. cbn [from_option] in *.
  destruct (Z.eqb_spec size 0); [lia|]. destruct (Z.eqb_spec (blen d) 0); [lia|].
  destruct (Z.ltb_spec (blen d + size) INT_MAX); [|lia]. cbn [negb bson_assert bind].
  unfold make_space, SPACE_FOR, buf_datalen. rewrite Hd. cbn [from_option].
  destruct (Z.geb_spec (blen d - buf_len b) size).
  - destruct (Z.leb_spec (buf_len b + size) (from_option blen 0 (buf_data b))); rewrite Hd in *; cbn [from_option] in *; [|lia].
    cbn [bson_assert bind]. exists d. split; [by destruct b; cbn in *; subst|]. split; [lia|]. split; [unfold contents; by rewrite Hd|done].
  - cbn [buf_data buf_len from_option]. unfold buffer_realloc. cbn [from_option id].
    destruct (next_power_of_two_spec (size + buf_len b)) as (k & Hk & Hpow & Hle & _); [unfold INT_MAX in *; lia|].
    rewrite Hpow. assert (Hd2 : blen d ≤ 2 ^ k) by (unfold INT_MAX in *; lia).
    rewrite take_ge by (unfold blen in Hd2; lia). rewrite blen_app, blen_fresh_bytes by lia.
    destruct (Z.leb_spec (buf_len b + size) (blen d + (2 ^ k - blen d))); [|lia]. cbn [bson_assert bind].
    eexists. split; [done|]. rewrite blen_app, blen_fresh_bytes by lia. split; [lia|]. split; [|lia].
    unfold contents. rewrite Hd. cbn [from_option id]. by rewrite take_app_le by (unfold blen in *; lia).
Qed.
Lemma append_from_stream_spec b size w :
  buffer_ok b → 0 < size → buf_datalen b + size < INT_MAX →
  returns (_mongoc_buffer_append_from_stream fresh b size w) (λ r,
    r.2 = (stream_read size size w).2 ∧ buffer_ok r.1.2
    ∧ (r.1.1.1 = true ↔ (stream_read size size w).1.1 = size)
    ∧ (r.1.1.2 = if r.1.1.1 : bool then None else Some (append_error size))
    ∧ contents r.1.2 = contents b ++ (if r.1.1.1 : bool then (stream_read size size w).1.2 else [])
    ∧ buf_len r.1.2 = buf_len b + (if r.1.1.1 : bool then size else 0)
    ∧ (buf_len b + size ≤ buf_datalen b → buf_datalen r.1.2 = buf_datalen b)).
Proof using Type*.
  intros Hb Hs Hmax. unfold _mongoc_buffer_append_from_stream.
  destruct (reserve_spec b size Hb Hs Hmax) as (d & -> & Hsp & Hc & Hdl & Hsame). cbn [bind buf_data buf_len deref].
  destruct Hb as (d0 & Hd0 & Hpos & Hlen).
  pose proof (read_fits size size w ltac:(lia)) as Hf. pose proof (read_count size size w) as Hrc.
  destruct (stream_read size size w) as [[ret bytes] w'] eqn:E. cbn [fst snd] in *.
  pose proof (blen_nonneg bytes). set (pre := take (Z.to_nat (buf_len b)) d) in *. set (post := drop (Z.to_nat (buf_len b)) d).
  assert (Hd : d = pre ++ post) by (symmetry; apply take_drop).
  assert (Hpre : blen pre = buf_len b) by (unfold pre, blen in *; rewrite length_take; lia).
  assert (Hpost : blen post = blen d - buf_len b) by (unfold post, blen in *; rewrite length_drop; lia).
  rewrite Hd, <- Hpre, write_at_seq by lia. cbn [bind].
  set (d' := (pre ++ bytes) ++ drop (length bytes) post).
  assert (Hd' : blen d' = blen d).
  { unfold d'. rewrite !blen_app. unfold blen at 3. rewrite length_drop. unfold blen in *. lia. }
  assert (Hdl' : buf_len b + size ≤ buf_datalen b → blen d' = buf_datalen b) by lia.
  destruct (Z.eqb_spec ret size) as [->|Hne]; cbn [negb returns fst snd buf_len].
  - assert (Hbl : blen bytes = size) by (rewrite <- Hrc; [done|lia]).
    split; [done|]. split; [exists d'; cbn [buf_data buf_len]; split; [done|]; lia|].
    split; [done|]. split; [done|]. split; [|split; [lia|intros Hx; apply Hdl'; lia]].
    unfold contents at 1. cbn [buf_data buf_len from_option id]. unfold d'.
    rewrite take_app_le by (rewrite length_app; unfold blen in *; lia). rewrite take_ge by (rewrite length_app; unfold blen in *; lia).
    by rewrite Hc.
  - split; [done|]. split; [exists d'; cbn [buf_data buf_len]; split; [done|]; lia|].
    split; [done|]. split; [done|]. split; [|split; [lia|intros Hx; apply Hdl'; lia]].
    unfold contents at 1. cbn [buf_data buf_len from_option id]. unfold d'.
    rewrite <- app_assoc, take_app_le by (unfold blen in *; lia). rewrite take_ge by (unfold blen in *; lia).
    by rewrite Hc, app_nil_r.
Qed.
End BufferLemmas.

(** ** A stream of scripted answers, for the examples *)
Definition scripted_read (count min_bytes : Z) (w : list (list Z)) : Z * list Z * list (list Z) :=
  match w with
  | [] => (-1, [], [])
  | b :: w => if bool_decide (bytes_ok b) && (blen b <=? count) then (blen b, b, w) else (-1, [], w)
  end.
#[export] Instance bytes_ok_dec l : Decision (bytes_ok l).
Proof. unfold bytes_ok, byte_ok. apply _. Defined.
