(* ===== verification/CommandErrors.v ===== *)
(** Error labels and the classification of failed commands: mongoc-error.c, the
    write counterpart in mongoc-write-command.c, and the labels a failed commit is
    given (mongoc-client-session.c). *)
From S2P Require Import Prelude BsonIter BsonIterSafe BsonFields BsonAppend BsonBuild BsonValue BsonCopy BsonParse HostList BsonKeys MongocTypes BsonEntries.
From Stdlib Require Import ZArith Lia List.
From stdpp Require Import prelude strings.
#[local] Open Scope Z_scope.
#[local] Open Scope mongo_scope.

(** ** Labels *)
Definition TRANSIENT_TXN_ERR : list Z := cs "TransientTransactionError".
Definition UNKNOWN_COMMIT_RESULT : list Z := cs "UnknownTransactionCommitResult".

(** the iterator inside the errorLabels field *)
Definition error_labels (reply : bson_t) : res (option bson_iter_t) :=
  let* r := bson_iter_init_find reply (c_lit "errorLabels") in
  if r.1 then bson_iter_recurse r.2 else Ret None.
Definition label_is (label : list Z) (it : bson_iter_t) (_ : bool) : res (bool * bool) :=
  let* h := BSON_ITER_HOLDS it BSON_TYPE_UTF8 in
  if h : bool then
    let* s := utf8_string it in
    if streq s label then Ret (false, true) else Ret (true, false)
  else Ret (true, false).
Definition mongoc_error_has_label (reply : bson_t) (label : list Z) : res bool :=
  let* l := error_labels reply in
  match l with
  | Some it => let* r := for_each_field (label_is label) it false in Ret r.2
  | None => Ret false
  end.

Section CopyLabels.
Variable fresh : Z → Z.
Definition copy_label (it : bson_iter_t) (s : bson_mem * Z) : res (bool * (bson_mem * Z)) :=
  let* h := BSON_ITER_HOLDS it BSON_TYPE_UTF8 in
  if negb h then Ret (false, s)
  else
    let '(m, i) := s in
    let* label := utf8_string it in
    if streq label UNKNOWN_COMMIT_RESULT then Ret (true, s)
    else
      let i := u32 (i + 1) in
      let* k := bson_uint32_to_string i 16 in
      let* r := BSON_APPEND_UTF8 fresh m k.1 label in
      Ret (true, (r.2, i)).
(** the results of the appends are ignored; when the array cannot be begun,
    [dst_labels] stays uninitialised *)
Definition copy_labels_plus_unknown_commit_result (src : bson_t) (dst : bson_mem) : res bson_mem :=
  let* r := BSON_APPEND_ARRAY_BEGIN fresh dst (cs "errorLabels") in
  if negb r.1 then Stuck OutOfBounds
  else
    let* r := BSON_APPEND_UTF8 fresh r.2 (cs "0") UNKNOWN_COMMIT_RESULT in
    let* l := error_labels src in
    let* m := match l with
              | Some it => let* s := for_each_field copy_label it (r.2, 0) in Ret s.2.1
              | None => Ret r.2
              end in
    bson_append_array_end m.
End CopyLabels.

(** ** Retryable errors *)
Inductive mongoc_read_err_type_t := MONGOC_READ_ERR_NONE | MONGOC_READ_ERR_OTHER | MONGOC_READ_ERR_RETRY.
Inductive mongoc_write_err_type_t :=
| MONGOC_WRITE_ERR_NONE | MONGOC_WRITE_ERR_OTHER | MONGOC_WRITE_ERR_RETRY | MONGOC_WRITE_ERR_WRITE_CONCERN.
#[export] Instance write_err_type_eq_dec : EqDecision mongoc_write_err_type_t.
Proof. solve_decision. Defined.

(** [strstr (s, sub) != NULL] *)
Fixpoint is_prefix (a b : list Z) : bool :=
  match a, b with
  | [], _ => true
  | x :: a', y :: b' => (x =? y) && is_prefix a' b'
  | _ :: _, [] => false
  end.
Fixpoint strstr (s sub : list Z) : bool :=
  is_prefix sub s || match s with [] => false | _ :: s' => strstr s' sub end.

Definition retry_codes : list Z := [11600; 11602; 10107; 13435; 13436; 189; 91; 7; 6; 89; 9001].
Definition retry_message (e : bson_error_t) : bool :=
  strstr (e_message e) (cs "not master") || strstr (e_message e) (cs "node is recovering").
(** [cmd_err]: [None] is a NULL pointer *)
Definition _mongoc_read_error_get_type (cmd_ret : bool) (cmd_err : option bson_error_t) (reply : bson_t)
    : res mongoc_read_err_type_t :=
  if negb cmd_ret && match cmd_err with Some e => e_domain e =? MONGOC_ERROR_STREAM | None => false end
  then Ret MONGOC_READ_ERR_RETRY
  else
    let* r := _mongoc_cmd_check_ok_no_wce reply MONGOC_ERROR_API_VERSION_2 in
    match r with
    | (true, _) => Ret MONGOC_READ_ERR_NONE
    | (false, error) =>
        let* error := deref error in
        if bool_decide (e_code error ∈ retry_codes) then Ret MONGOC_READ_ERR_RETRY
        else if retry_message error then Ret MONGOC_READ_ERR_RETRY
        else Ret MONGOC_READ_ERR_OTHER
    end.
Definition _mongoc_write_error_get_type (cmd_ret : bool) (cmd_err : option bson_error_t) (reply : bson_t)
    : res mongoc_write_err_type_t :=
  let* client_error := (if negb cmd_ret then
                          let* e := deref cmd_err in Ret (e_domain e =? MONGOC_ERROR_STREAM)
                        else Ret false) in
  if client_error : bool then Ret MONGOC_WRITE_ERR_RETRY
  else
    let* r := _mongoc_cmd_check_ok_no_wce reply MONGOC_ERROR_API_VERSION_2 in
    match r with
    | (true, _) => Ret MONGOC_WRITE_ERR_NONE
    | (false, error) =>
        let* error := deref error in
        if bool_decide (e_code error ∈ retry_codes) then Ret MONGOC_WRITE_ERR_RETRY
        else if e_code error =? 64 then Ret MONGOC_WRITE_ERR_WRITE_CONCERN
        else if retry_message error then Ret MONGOC_WRITE_ERR_RETRY
        else Ret MONGOC_WRITE_ERR_OTHER
    end.

(** both classifications read any reply without fault *)
Lemma write_error_get_type_returns cmd_ret cmd_err reply :
  bson_ok reply → (cmd_ret = false → is_Some cmd_err) → returns (_mongoc_write_error_get_type cmd_ret cmd_err reply) (λ _, True).
Proof.
  intros Hr He. unfold _mongoc_write_error_get_type.
  assert (Hc : returns (if negb cmd_ret then let* e := deref cmd_err in Ret (e_domain e =? MONGOC_ERROR_STREAM) else Ret false) (λ _, True)).
  { destruct cmd_ret; [done|]. by destruct (He eq_refl) as [e ->]. }
  eapply returns_bind; [exact Hc|]. intros [] _; [done|].
  eapply returns_bind; [by apply cmd_check_ok_no_wce_returns|]. intros [[] e] H; [done|].
  destruct (H eq_refl) as [e' He']. cbn [snd] in He'. rewrite He'. cbn [deref bind]. by repeat case_match.
Qed.

Lemma has_label_returns reply label :
  bson_ok reply → returns (mongoc_error_has_label reply label) (λ _, True).
Proof.
  intros Hr. unfold mongoc_error_has_label, error_labels.
  assert (Hl : returns (let* r := bson_iter_init_find reply (c_lit "errorLabels") in
    if r.1 then bson_iter_recurse r.2 else Ret None) (λ o, ∀ it, o = Some it → iter_ok it)).
  { eapply returns_bind; [by apply (init_find_returns reply (cs "errorLabels") []); [|repeat constructor]|].
    intros [[] it] Hf; cbn [fst snd] in *; [|done]. destruct Hf as [t Hat].
    eapply returns_mono; [by eapply bson_iter_recurse_at|]. intros [c|] Hc; [|done]. intros ? [= <-]. apply Hc. }
  eapply returns_bind; [exact Hl|]. intros [it|] Hit; [|done].
  pose proof (for_each_field_ok (label_is label) (λ _, False) (λ _, True) it false (Hit it eq_refl) I) as H.
  eapply returns_bind; [apply H|done]. intros it' data t s _ _ Hat _. unfold label_is. rewrite (HOLDS_at _ _ _ Hat). cbn [bind].
  destruct (bool_decide_reflect (t = BSON_TYPE_UTF8)) as [->|]; [|done].
  pose proof (utf8_string_at _ _ _ Hat eq_refl) as Hs. apply returns_Ret in Hs as (x & -> & _). cbn [bind]. by case_match.
Qed.

(** ** A list of labels in a document *)
Fixpoint label_entries (i : Z) (labels : list (list Z)) : list entry :=
  match labels with
  | [] => []
  | l :: labels' => e_utf8 (print_dec 10 i) l :: label_entries (i + 1) labels'
  end.
Definition labels_field (labels : list (list Z)) : entry :=
  e_array (cs "errorLabels") (body_bytes (label_entries 0 labels)).
Definition label_ok (l : list Z) : Prop := bytes_ok l ∧ Forall (λ b, b ≠ 0) l ∧ blen l < 2 ^ 20.

Lemma print_dec_key n : 0 ≤ n → key_ok (print_dec 10 n).
Proof.
  intros Hn. pose proof (print_dec_digits 10 n Hn) as H. unfold key_ok, bytes_ok, byte_ok.
  split; (eapply Forall_impl; [exact H|]); cbn; lia.
Qed.
Lemma label_entries_ok i labels : 0 ≤ i → Forall label_ok labels → Forall entry_ok (label_entries i labels).
Proof.
  intros Hi H. revert i Hi. induction H as [|l labels (? & ? & ?) _ IH]; intros i Hi; constructor; [|apply IH; lia].
  apply e_utf8_ok; [by apply print_dec_key|done|lia].
Qed.
Lemma label_entries_app i l1 l2 :
  label_entries i (l1 ++ l2) = label_entries i l1 ++ label_entries (i + Z.of_nat (length l1)) l2.
Proof.
  revert i. induction l1 as [|l l1 IH]; intros i; cbn [label_entries app length]; [by rewrite Z.add_0_r|].
  rewrite IH. do 3 f_equal. lia.
Qed.
Lemma label_entries_size i labels :
  Forall label_ok labels → blen (body_bytes (label_entries i labels)) ≤ Z.of_nat (length labels) * 2 ^ 21.
Proof.
  intros H. revert i. induction H as [|l labels (_ & _ & Hl) _ IH]; intros i; cbn [label_entries length]; [done|].
  unfold body_bytes in *. cbn [map concat]. rewrite blen_app, blen_entry. cbn [e_utf8 e_key e_value].
  pose proof (print_dec_length 10 i). assert (blen (print_dec 10 i) ≤ 10) by (unfold blen; lia).
  rewrite !blen_app, blen_le_bytes. change (blen [0]) with 1. specialize (IH (i + 1)). lia.
Qed.
(** at most a hundred labels *)
Definition labels_ok (labels : list (list Z)) : Prop := Forall label_ok labels ∧ Z.of_nat (length labels) ≤ 100.
Lemma labels_size i labels : labels_ok labels → blen (body_bytes (label_entries i labels)) < 2 ^ 28.
Proof. intros [H Hn]. pose proof (label_entries_size i labels H). lia. Qed.
Lemma labels_field_ok labels : labels_ok labels → entry_ok (labels_field labels).
Proof.
  intros Hl. pose proof (labels_size 0 labels Hl). apply e_array_ok; [split; by_check| |lia].
  apply body_bytes_ok, label_entries_ok; [done|apply Hl].
Qed.

(** ** What the loops see *)
Section Reply.
Variable es : list entry.
Hypothesis Hes : Forall entry_ok es.
Hypothesis Hmax : 5 + blen (body_bytes es) ≤ INT_MAX.
Notation reply := (doc_bytes (body_bytes es)).
Notation labels_of := (List.find (λ e, bool_decide (e_key e = cs "errorLabels")) es).

Lemma error_labels_find labels :
  labels_of = Some (labels_field labels) → labels_ok labels →
  ∃ post last l, bytes_ok post
    ∧ error_labels reply = Ret (Some (iter_start (doc_bytes (body_bytes (label_entries 0 labels)) ++ post)
                                        (5 + blen (body_bytes (label_entries 0 labels)))))
    ∧ fields_of (iter_start (doc_bytes (body_bytes (label_entries 0 labels)) ++ post)
                   (5 + blen (body_bytes (label_entries 0 labels)))) = Ret (last, l)
    ∧ Forall2 (on_entry (doc_bytes (body_bytes (label_entries 0 labels)) ++ post)) (label_entries 0 labels) l.
Proof using Hes Hmax.
  intros Hfind Hl. pose proof (labels_size 0 labels Hl) as Hs.
  destruct (init_find_entry es (cs "errorLabels") Hes Hmax) as [f Hf]; [by repeat constructor|].
  rewrite Hfind in Hf. destruct Hf as [Hf Hon]. unfold error_labels, c_lit. rewrite Hf. cbn [bind fst snd].
  destruct (e_sub_get _ _ _ _ _ Hon) as (post & Hpost & ->); [by right|lia|].
  destruct (start_fields (label_entries 0 labels) post) as (last & l & Hfo & Hall);
    [apply label_entries_ok; [done|apply Hl]|done|unfold INT_MAX; lia|].
  by exists post, last, l.
Qed.
Lemma error_labels_none : labels_of = None → error_labels reply = Ret None.
Proof using Hes Hmax.
  intros Hfind. destruct (init_find_entry es (cs "errorLabels") Hes Hmax) as [f Hf]; [by repeat constructor|].
  rewrite Hfind in Hf. unfold error_labels, c_lit. by rewrite Hf.
Qed.

Lemma fold_label_is data label labels i l last :
  Forall label_ok labels → Forall2 (on_entry data) (label_entries i labels) l →
  ∃ last', fold_fields (label_is label) l last false = Ret (last', bool_decide (label ∈ labels)).
Proof using Type.
  intros Hok. revert i l. induction Hok as [|s labels (_ & Hs & _) _ IH]; intros i l Hall;
    cbn [label_entries] in Hall; inversion Hall as [|? f ? l' Hon Hall']; subst.
  { exists last. by rewrite bool_decide_false by apply not_elem_of_nil. }
  cbn [fold_fields]. unfold label_is at 1. rewrite (entry_HOLDS _ _ _ Hon), bool_decide_true by done. cbn [bind].
  rewrite (e_utf8_get _ _ _ _ Hon Hs). cbn [bind]. unfold streq. destruct (bool_decide_reflect (s = label)) as [->|Hne].
  - exists f. rewrite bool_decide_true; [done|left].
  - cbn [bind]. destruct (IH _ _ Hall') as [last' ->]. exists last'. do 2 f_equal. apply bool_decide_ext.
    rewrite elem_of_cons. naive_solver.
Qed.
Lemma has_label_list label labels :
  labels_of = Some (labels_field labels) → labels_ok labels →
  mongoc_error_has_label reply label = Ret (bool_decide (label ∈ labels)).
Proof using Hes Hmax.
  intros Hfind Hl. destruct (error_labels_find labels Hfind Hl) as (post & last & l & _ & He & Hf & Hall).
  unfold mongoc_error_has_label. rewrite He. cbn [bind]. rewrite (for_each_fold _ _ last l _ Hf).
  destruct (fold_label_is _ label labels 0 l last (proj1 Hl) Hall) as [last' ->]. done.
Qed.
End Reply.

(** the labels copied after the first *)
Definition other_labels (labels : list (list Z)) : list (list Z) :=
  List.filter (λ l, negb (streq l UNKNOWN_COMMIT_RESULT)) labels.
Lemma other_labels_ok labels : labels_ok labels → labels_ok (other_labels labels).
Proof.
  unfold labels_ok, other_labels. intros [H Hn]. rewrite Forall_forall in *. split.
  - intros l Hin%list_elem_of_In. apply filter_In in Hin as [Hin _]. by apply H, list_elem_of_In.
  - pose proof (filter_length_le (λ l, negb (streq l UNKNOWN_COMMIT_RESULT)) labels). lia.
Qed.

Section Copied.
Variables (fresh : Z → Z) (body : list Z) (outer : list (list Z)).
Hypothesis Hroom : blen body + blen (front outer) + Z.of_nat (length outer) ≤ 2 ^ 28.

Lemma fold_copy_label data labels done_ i l last m :
  labels_ok (done_ ++ other_labels labels) → Forall label_ok labels →
  builds m (body_bytes (label_entries 0 done_)) (body :: outer) →
  Forall2 (on_entry data) (label_entries i labels) l → done_ ≠ [] →
  ∃ last' m' n, fold_fields (copy_label fresh) l last (m, Z.of_nat (length done_) - 1) = Ret (last', (m', n))
    ∧ builds m' (body_bytes (label_entries 0 (done_ ++ other_labels labels))) (body :: outer).
Proof using Hroom.
  intros Htot Hok. revert done_ i l m Htot. induction Hok as [|s labels (Hsb & Hs & Hsl) Hok IH]; intros done_ i l m Htot Hm Hall Hne;
    cbn [label_entries] in Hall; inversion Hall as [|? f ? l' Hon Hall']; subst; cbn [other_labels List.filter] in *.
  { rewrite app_nil_r. by exists last, m, (Z.of_nat (length done_) - 1). }
  cbn [fold_fields]. unfold copy_label at 1. rewrite (entry_HOLDS _ _ _ Hon), bool_decide_true by done. cbn [bind negb].
  rewrite (e_utf8_get _ _ _ _ Hon Hs). cbn [bind]. destruct (streq s UNKNOWN_COMMIT_RESULT) eqn:Hstr; cbn [negb] in *.
  { by apply (IH _ _ _ _ Htot Hm Hall' Hne). }
  assert (Hn : 1 ≤ Z.of_nat (length done_) ≤ 100).
  { destruct Htot as [_ Hn]. rewrite length_app in Hn. cbn [length] in Hn. destruct done_; [done|]. cbn [length] in *. lia. }
  rewrite u32_small by lia. replace (Z.of_nat (length done_) - 1 + 1) with (Z.of_nat (length done_)) by lia.
  rewrite uint32_to_string_decimal by lia. cbn [bind fst]. set (k := print_dec 10 (Z.of_nat (length done_))).
  assert (Hk : key_ok k ∧ blen k ≤ 10).
  { split; [apply print_dec_key; lia|]. pose proof (print_dec_length 10 (Z.of_nat (length done_))). unfold k, blen. lia. }
  destruct Hk as [[Hkb Hk0] Hkl]. pose proof (blen_nonneg k). pose proof (blen_nonneg s).
  assert (Htot1 : labels_ok ((done_ ++ [s]) ++ other_labels labels)) by (by rewrite <- app_assoc).
  assert (Hdone : labels_ok (done_ ++ [s])).
  { destruct Htot1 as [H1 H2]. split; [by apply Forall_app in H1 as [? _]|]. rewrite length_app in H2. lia. }
  pose proof (labels_size 0 _ Hdone) as Hsz. rewrite label_entries_app in Hsz.
  unfold body_bytes in Hsz at 1. rewrite map_app, concat_app, blen_app in Hsz. fold (body_bytes (label_entries 0 done_)) in Hsz.
  cbn [label_entries map concat] in Hsz. rewrite app_nil_r, Z.add_0_l in Hsz. fold k in Hsz.
  assert (Ha : appends (BSON_APPEND_UTF8 fresh m k s) m (body_bytes (label_entries 0 done_)) (body :: outer)
    (entry_bytes (e_utf8 k s))).
  { unfold BSON_APPEND_UTF8. rewrite !s32_small by (unfold in_s32; lia). apply append_utf8_entry; [done|done|lia|lia]. }
  apply appends_fits in Ha as (m1 & -> & Hm1).
  2: { unfold extent. cbn [front length]. rewrite !blen_app, blen_le_bytes. lia. }
  cbn [bind snd]. destruct (IH (done_ ++ [s]) (i + 1) l' m1 Htot1) as (last' & m' & n & Hf & Hm').
  - rewrite label_entries_app. unfold body_bytes. rewrite map_app, concat_app. cbn [label_entries map concat].
    rewrite app_nil_r, Z.add_0_l. exact Hm1.
  - exact Hall'.
  - by destruct done_.
  - exists last', m', n. rewrite length_app in Hf. cbn [length] in Hf.
    replace (Z.of_nat (length done_ + 1) - 1) with (Z.of_nat (length done_)) in Hf by lia.
    split; [exact Hf|]. by rewrite <- app_assoc in Hm'.
Qed.
End Copied.

(** the labels of a reply *)
Definition has_labels (es : list entry) (labels : list (list Z)) : Prop :=
  match List.find (λ e, bool_decide (e_key e = cs "errorLabels")) es with
  | Some e => e = labels_field labels
  | None => labels = []
  end.
Lemma unknown_label_ok : label_ok UNKNOWN_COMMIT_RESULT.
Proof. split; [by_check|]. split; [by repeat constructor|done]. Qed.

Lemma copy_labels_builds fresh es labels m body :
  Forall entry_ok es → 5 + blen (body_bytes es) ≤ INT_MAX → has_labels es labels → labels_ok (UNKNOWN_COMMIT_RESULT :: labels) →
  builds m body [] → blen body ≤ 2 ^ 27 →
  ∃ m', copy_labels_plus_unknown_commit_result fresh (doc_bytes (body_bytes es)) m = Ret m'
    ∧ builds m' (body ++ entry_bytes (labels_field (UNKNOWN_COMMIT_RESULT :: other_labels labels))) [].
Proof.
  intros Hes Hmax Hlab Hl Hm Hb. pose proof (blen_nonneg body) as Hb0.
  assert (Hl' : labels_ok labels) by (destruct Hl as [H1 H2]; apply Forall_cons in H1 as [_ H1]; split; [done|cbn [length] in H2; lia]).
  set (o := body ++ 4 :: cs "errorLabels" ++ [0]).
  assert (Ho : blen o = blen body + 13) by (unfold o; rewrite blen_app; done).
  unfold copy_labels_plus_unknown_commit_result, BSON_APPEND_ARRAY_BEGIN, bson_append_array_begin.
  pose proof (begin_builds fresh m body [] _ (s32 (blen (cs "errorLabels"))) (cs "errorLabels") 4 Hm
    (literal_key (cs "errorLabels") eq_refl ltac:(by repeat constructor))) as Hbeg.
  apply returns_Ret in Hbeg as ([ok m1] & -> & Hm1). cbn [bind fst snd]. destruct ok.
  2: { exfalso. destruct Hm1 as [_ Hm1]. unfold extent in Hm1. cbn [front length] in Hm1. rewrite blen_nil in Hm1.
       change (blen (cs "errorLabels")) with 11 in Hm1. lia. }
  cbn [negb]. fold o in Hm1.
  assert (Hu : appends (BSON_APPEND_UTF8 fresh m1 (cs "0") UNKNOWN_COMMIT_RESULT) m1 [] [o]
    (entry_bytes (e_utf8 (cs "0") UNKNOWN_COMMIT_RESULT))).
  { apply append_utf8_entry; [done|by repeat constructor|done|done]. }
  apply appends_fits in Hu as (m2 & -> & Hm2).
  2: { rewrite blen_entry. unfold extent. cbn [front length app]. rewrite !blen_app, blen_le_bytes, !blen_nil.
       change (blen (e_key (e_utf8 (cs "0") UNKNOWN_COMMIT_RESULT))) with 1.
       change (blen (e_value (e_utf8 (cs "0") UNKNOWN_COMMIT_RESULT))) with 35. lia. }
  cbn [bind snd]. rewrite app_nil_l, <- body_bytes_one in Hm2. change [e_utf8 (cs "0") UNKNOWN_COMMIT_RESULT] with (label_entries 0 [UNKNOWN_COMMIT_RESULT]) in Hm2.
  assert (Hloop : ∃ m3, (let* l := error_labels (doc_bytes (body_bytes es)) in
      match l with Some it => let* s := for_each_field (copy_label fresh) it (m2, 0) in Ret s.2.1 | None => Ret m2 end) = Ret m3
    ∧ builds m3 (body_bytes (label_entries 0 (UNKNOWN_COMMIT_RESULT :: other_labels labels))) [o]).
  { unfold has_labels in Hlab. destruct (List.find _ es) as [e|] eqn:Hfind.
    - subst e. destruct (error_labels_find es Hes Hmax labels Hfind Hl') as (post & last & l & _ & -> & Hf & Hall). cbn [bind].
      rewrite (for_each_fold _ _ last l _ Hf).
      destruct (fold_copy_label fresh o [] ltac:(cbn [front length]; rewrite blen_nil; lia)
        (doc_bytes (body_bytes (label_entries 0 labels)) ++ post) labels [UNKNOWN_COMMIT_RESULT] 0 l last m2)
        as (last' & m3 & n & Hfold & Hm3); [|apply Hl'|done|exact Hall|done|].
      { destruct Hl as [H1 H2]. destruct (other_labels_ok labels Hl') as [H3 H4]. pose proof (filter_length_le (λ l, negb (streq l UNKNOWN_COMMIT_RESULT)) labels).
        split; [constructor; [apply unknown_label_ok|done]|]. cbn [app length] in *. unfold other_labels. lia. }
      change (Z.of_nat (length [UNKNOWN_COMMIT_RESULT]) - 1) with 0 in Hfold. rewrite Hfold. by exists m3.
    - subst labels. rewrite (error_labels_none es Hes Hmax Hfind). by exists m2. }
  destruct Hloop as (m3 & Hm3eq & Hm3). revert Hm3eq. destruct (error_labels _) as [l|]; [|done]. cbn [bind]. intros ->. cbn [bind].
  pose proof (end_builds m3 _ _ _ Hm3) as Hend. apply returns_Ret in Hend as (m4 & Hend & Hm4). exists m4.
  split; [exact Hend|]. unfold o in Hm4. rewrite <- app_assoc in Hm4. cbn [app] in Hm4. by rewrite <- app_assoc in Hm4.
Qed.

(** When the result of a commit is unknown, the reply handed to the caller carries the
    label UnknownTransactionCommitResult and every error label of the server's
    reply, and no others: mongoc_error_has_label finds exactly those. *)
Lemma commit_labels_kept fresh es labels m des
    (Hes : Forall entry_ok es) (Hmax : 5 + blen (body_bytes es) ≤ INT_MAX) (Hlab : has_labels es labels)
    (Hl : labels_ok (UNKNOWN_COMMIT_RESULT :: labels)) (Hdes : Forall entry_ok des)
    (Hnew : Forall (λ e, e_key e ≠ cs "errorLabels") des)
    (Hm : builds m (body_bytes des) []) (Hb : blen (body_bytes des) ≤ 2 ^ 27) :
  ∃ m' doc, copy_labels_plus_unknown_commit_result fresh (doc_bytes (body_bytes es)) m = Ret m'
    ∧ bson_get_data m' = Ret doc ∧ bson_ok doc
    ∧ ∀ label, mongoc_error_has_label doc label = Ret (bool_decide (label = UNKNOWN_COMMIT_RESULT ∨ label ∈ labels)).
Proof.
  destruct (copy_labels_builds fresh es labels m _ Hes Hmax Hlab Hl Hm Hb) as (m' & Hcopy & Hm').
  set (out := UNKNOWN_COMMIT_RESULT :: other_labels labels) in *.
  assert (Hout : labels_ok out).
  { destruct Hl as [H1 H2]. apply Forall_cons in H1 as [H0 H1]. cbn [length] in H2.
    destruct (other_labels_ok labels) as [H3 H4]; [split; [done|lia]|].
    pose proof (filter_length_le (λ l, negb (streq l UNKNOWN_COMMIT_RESULT)) labels).
    split; [by constructor|]. unfold out, other_labels in *. cbn [length]. lia. }
  rewrite <- body_bytes_one, <- body_bytes_app in Hm'. exists m', (doc_bytes (body_bytes (des ++ [labels_field out]))).
  assert (Hall : Forall entry_ok (des ++ [labels_field out])).
  { apply Forall_app. split; [done|]. constructor; [|done]. by apply labels_field_ok. }
  assert (Hsz : 5 + blen (body_bytes (des ++ [labels_field out])) ≤ INT_MAX).
  { rewrite body_bytes_app, body_bytes_one, blen_app, blen_entry. cbn [labels_field e_array e_key e_value].
    rewrite blen_doc_bytes. pose proof (labels_size 0 out Hout). change (blen (cs "errorLabels")) with 11. unfold INT_MAX. lia. }
  split; [done|]. split; [by eapply get_data_builds|].
  split; [split; [by apply bytes_ok_doc, body_bytes_ok|rewrite blen_doc_bytes; lia]|]. intros label.
  rewrite (has_label_list (des ++ [labels_field out])) with (labels := out); [|..|done].
  - f_equal. apply bool_decide_ext. unfold out, other_labels. rewrite elem_of_cons, list_elem_of_In, filter_In, <- list_elem_of_In.
    destruct (decide (label = UNKNOWN_COMMIT_RESULT)) as [->|Hne]; [tauto|].
    assert (streq label UNKNOWN_COMMIT_RESULT = false) as -> by (unfold streq; by apply bool_decide_eq_false). tauto.
  - done.
  - done.
  - clear -Hnew. induction Hnew as [|e des He _ IH]; [done|]. cbn [app List.find]. by rewrite bool_decide_false.
Qed.
