(* ===== verification/Concerns.v ===== *)
(** Read and write concerns (mongoc/mongoc-read-concern.c, mongoc-write-concern.c).

    A concern caches its encoding ([compiled]) and the setters mark the cache
    stale.  A NULL pointer is [None] where a function accepts one; strings are C
    strings given by their contents. *)
From S2P Require Import Prelude BsonIter BsonIterSafe BsonFields BsonAppend BsonBuild BsonValue BsonCopy BsonParse MongocTypes BsonEntries.
From Stdlib Require Import ZArith Lia List.
From stdpp Require Import prelude strings.
#[local] Open Scope Z_scope.
#[local] Open Scope mongo_scope.

(** ** Read concerns *)
Record mongoc_read_concern_t := ReadConcern {
  rc_level : option (list Z);
  rc_frozen : bool;
  rc_compiled : bson_mem
}.

Section ReadConcern.
Variable fresh : Z → Z.

Definition mongoc_read_concern_new : mongoc_read_concern_t := ReadConcern None false (bson_init fresh).
Definition mongoc_read_concern_copy (rc : option mongoc_read_concern_t) : option mongoc_read_concern_t :=
  match rc with
  | Some rc => Some (ReadConcern (rc_level rc) false (bson_init fresh))
  | None => None
  end.
Definition mongoc_read_concern_get_level (rc : mongoc_read_concern_t) := rc_level rc.
Definition mongoc_read_concern_set_level (rc : mongoc_read_concern_t) (level : option (list Z)) :=
  ReadConcern level false (rc_compiled rc).
Definition mongoc_read_concern_is_default (rc : option mongoc_read_concern_t) : bool :=
  match rc with
  | Some rc => match rc_level rc with None => true | Some _ => false end
  | None => true
  end.
Definition _mongoc_read_concern_freeze (rc : mongoc_read_concern_t) : res mongoc_read_concern_t :=
  let* compiled := bson_reinit (rc_compiled rc) in
  let* compiled := match rc_level rc with
                   | Some level => let* r := BSON_APPEND_UTF8 fresh compiled (cs "level") level in Ret r.2
                   | None => Ret compiled
                   end in
  Ret (ReadConcern (rc_level rc) true compiled).
(** the document, and the concern with its cache filled *)
Definition _mongoc_read_concern_get_bson (rc : mongoc_read_concern_t) : res (bson_t * mongoc_read_concern_t) :=
  let* rc := (if rc_frozen rc then Ret rc else _mongoc_read_concern_freeze rc) in
  let* doc := bson_get_data (rc_compiled rc) in Ret (doc, rc).
Definition mongoc_read_concern_append (rc : mongoc_read_concern_t) (command : bson_mem)
    : res (bool * mongoc_read_concern_t * bson_mem) :=
  match rc_level rc with
  | None => Ret (true, rc, command)
  | Some _ =>
      let* d := _mongoc_read_concern_get_bson rc in
      let* r := bson_append_document fresh command (c_lit "readConcern") 11 d.1 in
      Ret (r.1, d.2, r.2)
  end.
Definition invalid_concern (what : list Z) : bson_error_t :=
  bson_set_error MONGOC_ERROR_COMMAND MONGOC_ERROR_COMMAND_INVALID_ARG (cs "Invalid " ++ what).
(** the concern, or the error written *)
Definition _mongoc_read_concern_new_from_iter (iter : bson_iter_t) : res (mongoc_read_concern_t + bson_error_t) :=
  let fail := Ret (inr (invalid_concern (cs "readConcern"))) in
  let* h := BSON_ITER_HOLDS iter BSON_TYPE_DOCUMENT in
  if negb h then fail
  else
    let* inner := bson_iter_recurse iter in
    match inner with
    | None => Stuck AssertFailed
    | Some inner =>
        let* r := bson_iter_find inner (c_lit "level") in
        let '(found, inner) := r in
        if negb found then fail
        else
          let* h := BSON_ITER_HOLDS inner BSON_TYPE_UTF8 in
          if negb h then fail
          else
            let* level := utf8_string inner in
            Ret (inl (mongoc_read_concern_set_level mongoc_read_concern_new (Some level)))
    end.
End ReadConcern.

(** ** Write concerns *)
Definition MONGOC_WRITE_CONCERN_W_UNACKNOWLEDGED : Z := 0.
Definition MONGOC_WRITE_CONCERN_W_ERRORS_IGNORED : Z := -1.
Definition MONGOC_WRITE_CONCERN_W_DEFAULT : Z := -2.
Definition MONGOC_WRITE_CONCERN_W_MAJORITY : Z := -3.
Definition MONGOC_WRITE_CONCERN_W_TAG : Z := -4.
Definition MONGOC_WRITE_CONCERN_FSYNC_DEFAULT : Z := -1.
Definition MONGOC_WRITE_CONCERN_JOURNAL_DEFAULT : Z := -1.
Definition MONGOC_ERROR_WRITE_CONCERN : Z := 16.

Record mongoc_write_concern_t := WriteConcern {
  wc_fsync : Z;
  wc_journal : Z;
  wc_w : Z;
  wc_wtimeout : Z;
  wc_wtag : option (list Z);
  wc_frozen : bool;
  wc_compiled : bson_mem;
  wc_is_default : bool
}.

Section WriteConcern.
Variable fresh : Z → Z.
Implicit Type wc : mongoc_write_concern_t.

Definition mongoc_write_concern_new : mongoc_write_concern_t :=
  WriteConcern MONGOC_WRITE_CONCERN_FSYNC_DEFAULT MONGOC_WRITE_CONCERN_JOURNAL_DEFAULT
    MONGOC_WRITE_CONCERN_W_DEFAULT 0 None false (bson_init fresh) true.
Definition mongoc_write_concern_copy (wc : option mongoc_write_concern_t) : option mongoc_write_concern_t :=
  match wc with
  | Some wc => Some (WriteConcern (wc_fsync wc) (wc_journal wc) (wc_w wc) (wc_wtimeout wc) (wc_wtag wc)
                       false (bson_init fresh) (wc_is_default wc))
  | None => None
  end.

(** *** Getters and setters *)
Definition mongoc_write_concern_get_fsync wc : bool := wc_fsync wc =? 1.
Definition mongoc_write_concern_set_fsync wc (fsync_ : bool) :=
  WriteConcern (Z.b2z fsync_) (wc_journal wc) (wc_w wc) (wc_wtimeout wc) (wc_wtag wc) false (wc_compiled wc) false.
Definition mongoc_write_concern_get_journal wc : bool := wc_journal wc =? 1.
Definition mongoc_write_concern_journal_is_set wc : bool :=
  negb (wc_journal wc =? MONGOC_WRITE_CONCERN_JOURNAL_DEFAULT).
Definition mongoc_write_concern_set_journal wc (journal : bool) :=
  WriteConcern (wc_fsync wc) (Z.b2z journal) (wc_w wc) (wc_wtimeout wc) (wc_wtag wc) false (wc_compiled wc) false.
Definition mongoc_write_concern_get_w wc : Z := wc_w wc.
Definition mongoc_write_concern_set_w wc (w : Z) : res mongoc_write_concern_t :=
  let* _ := bson_assert (w >=? -3) in
  Ret (WriteConcern (wc_fsync wc) (wc_journal wc) w (wc_wtimeout wc) (wc_wtag wc) false (wc_compiled wc)
         (if negb (w =? MONGOC_WRITE_CONCERN_W_DEFAULT) then false else wc_is_default wc)).
Definition mongoc_write_concern_get_wtimeout_int64 wc : Z := wc_wtimeout wc.
Definition mongoc_write_concern_get_wtimeout wc : Z := s32 (mongoc_write_concern_get_wtimeout_int64 wc).
Definition mongoc_write_concern_set_wtimeout_int64 wc (wtimeout_msec : Z) :=
  if wtimeout_msec <? 0 then wc
  else WriteConcern (wc_fsync wc) (wc_journal wc) (wc_w wc) wtimeout_msec (wc_wtag wc) false (wc_compiled wc) false.
Definition mongoc_write_concern_set_wtimeout wc (wtimeout_msec : Z) :=
  mongoc_write_concern_set_wtimeout_int64 wc wtimeout_msec.
Definition mongoc_write_concern_get_wmajority wc : bool := wc_w wc =? MONGOC_WRITE_CONCERN_W_MAJORITY.
Definition mongoc_write_concern_set_wmajority wc (wtimeout_msec : Z) :=
  WriteConcern (wc_fsync wc) (wc_journal wc) MONGOC_WRITE_CONCERN_W_MAJORITY
    (if wtimeout_msec >=? 0 then wtimeout_msec else wc_wtimeout wc) (wc_wtag wc) false (wc_compiled wc) false.
Definition mongoc_write_concern_get_wtag wc : option (list Z) :=
  if wc_w wc =? MONGOC_WRITE_CONCERN_W_TAG then wc_wtag wc else None.
Definition mongoc_write_concern_set_wtag wc (wtag : option (list Z)) :=
  WriteConcern (wc_fsync wc) (wc_journal wc) MONGOC_WRITE_CONCERN_W_TAG (wc_wtimeout wc) wtag false (wc_compiled wc) false.
Definition mongoc_write_concern_is_default (wc : option mongoc_write_concern_t) : bool :=
  match wc with Some wc => wc_is_default wc | None => true end.

(** *** Encoding *)
Definition _mongoc_write_concern_freeze wc : res mongoc_write_concern_t :=
  let* m := bson_reinit (wc_compiled wc) in
  let* m :=
    (if wc_w wc =? MONGOC_WRITE_CONCERN_W_TAG then
       match wc_wtag wc with
       | Some wtag => let* r := BSON_APPEND_UTF8 fresh m (cs "w") wtag in Ret r.2
       | None => Stuck AssertFailed
       end
     else if wc_w wc =? MONGOC_WRITE_CONCERN_W_MAJORITY then
       let* r := BSON_APPEND_UTF8 fresh m (cs "w") (cs "majority") in Ret r.2
     else if wc_w wc =? MONGOC_WRITE_CONCERN_W_DEFAULT then Ret m
     else let* r := BSON_APPEND_INT32 fresh m (cs "w") (wc_w wc) in Ret r.2) in
  let* m := (if negb (wc_fsync wc =? MONGOC_WRITE_CONCERN_FSYNC_DEFAULT) then
               let* r := bson_append_bool fresh m (c_lit "fsync") 5 (negb (wc_fsync wc =? 0)) in Ret r.2
             else Ret m) in
  let* m := (if negb (wc_journal wc =? MONGOC_WRITE_CONCERN_JOURNAL_DEFAULT) then
               let* r := bson_append_bool fresh m (c_lit "j") 1 (negb (wc_journal wc =? 0)) in Ret r.2
             else Ret m) in
  let* m := (if negb (wc_wtimeout wc =? 0) then
               let* r := bson_append_int64 fresh m (c_lit "wtimeout") 8 (wc_wtimeout wc) in Ret r.2
             else Ret m) in
  Ret (WriteConcern (wc_fsync wc) (wc_journal wc) (wc_w wc) (wc_wtimeout wc) (wc_wtag wc) true m (wc_is_default wc)).
Definition _mongoc_write_concern_get_bson wc : res (bson_t * mongoc_write_concern_t) :=
  let* wc := (if wc_frozen wc then Ret wc else _mongoc_write_concern_freeze wc) in
  let* doc := bson_get_data (wc_compiled wc) in Ret (doc, wc).
Definition mongoc_write_concern_is_acknowledged (wc : option mongoc_write_concern_t) : bool :=
  match wc with
  | Some wc =>
      (negb (wc_w wc =? MONGOC_WRITE_CONCERN_W_UNACKNOWLEDGED)
       && negb (wc_w wc =? MONGOC_WRITE_CONCERN_W_ERRORS_IGNORED))
      || (wc_fsync wc =? 1) || mongoc_write_concern_get_journal wc
  | None => true
  end.
Definition mongoc_write_concern_is_valid (wc : option mongoc_write_concern_t) : bool :=
  match wc with
  | None => false
  | Some wc =>
      if ((wc_fsync wc =? 1) || mongoc_write_concern_get_journal wc)
         && ((wc_w wc =? MONGOC_WRITE_CONCERN_W_UNACKNOWLEDGED)
             || (wc_w wc =? MONGOC_WRITE_CONCERN_W_ERRORS_IGNORED)) then false
      else if wc_wtimeout wc <? 0 then false
      else true
  end.
Definition _mongoc_write_concern_validate (wc : option mongoc_write_concern_t) : bool * option bson_error_t :=
  if bool_decide (is_Some wc) && negb (mongoc_write_concern_is_valid wc)
  then (false, Some (invalid_concern (cs "writeConcern")))
  else (true, None).
Definition mongoc_write_concern_append (wc : option mongoc_write_concern_t) (command : bson_mem)
    : res (bool * option mongoc_write_concern_t * bson_mem) :=
  if negb (mongoc_write_concern_is_valid wc) then Ret (false, wc, command)
  else
    let* w := deref wc in
    let* d := _mongoc_write_concern_get_bson w in
    let* r := bson_append_document fresh command (c_lit "writeConcern") 12 d.1 in
    Ret (r.1, Some d.2, r.2).

(** *** Parsing *)

(** the error of the reply's writeConcernError; its text is printed with ["%s"],
    which needs a string *)
Definition wc_err_field (it : bson_iter_t) (s : Z * option (list Z)) : res (bool * (Z * option (list Z))) :=
  let '(code, errmsg) := s in
  let* key := field_key it in
  if streq key (cs "code") then let* code := bson_iter_int32 it in Ret (true, (code, errmsg))
  else if streq key (cs "errmsg") then
    let* r := bson_iter_utf8 it false in
    match r.1 with
    | Some p => let* s := c_string p in Ret (true, (code, Some s))
    | None => Ret (true, (code, None))
    end
  else Ret (true, (code, errmsg)).
Definition _mongoc_parse_wc_err (doc : bson_t) : res (option bson_error_t) :=
  let* f := find_holding doc (c_lit "writeConcernError") BSON_TYPE_DOCUMENT in
  match f with
  | None => Ret None
  | Some it =>
      let* inner := bson_iter_recurse it in
      match inner with
      | None => Stuck AssertFailed
      | Some inner =>
          let* r := for_each_field wc_err_field inner (0, None) in
          let '(code, errmsg) := r.2 in
          let* errmsg := deref errmsg in
          Ret (Some (bson_set_error MONGOC_ERROR_WRITE_CONCERN (u32 code)
                       (cs "Write Concern error: " ++ errmsg)))
      end
  end.

(** one field of a writeConcern document; [None] is [goto fail] *)
Definition write_concern_field (inner : bson_iter_t) (s : option mongoc_write_concern_t)
    : res (bool * option mongoc_write_concern_t) :=
  let* wc := deref s in
  let fail := Ret (false, None) in
  let continue wc := Ret (true, Some wc) in
  let* key := field_key inner in
  if streq key (cs "w") then
    let* i := BSON_ITER_HOLDS inner BSON_TYPE_INT32 in
    if i : bool then
      let* w := bson_iter_int32 inner in
      if w <? MONGOC_WRITE_CONCERN_W_ERRORS_IGNORED then fail
      else let* wc := mongoc_write_concern_set_w wc w in continue wc
    else
      let* u := BSON_ITER_HOLDS inner BSON_TYPE_UTF8 in
      if u : bool then
        let* s := utf8_string inner in
        if streq s (cs "majority") then continue (mongoc_write_concern_set_wmajority wc (-1))
        else continue (mongoc_write_concern_set_wtag wc (Some s))
      else fail
  else if streq key (cs "fsync") then
    let* h := BSON_ITER_HOLDS inner BSON_TYPE_BOOL in
    if negb h then fail
    else let* b := bson_iter_bool inner in continue (mongoc_write_concern_set_fsync wc b)
  else if streq key (cs "j") then
    let* h := BSON_ITER_HOLDS inner BSON_TYPE_BOOL in
    if negb h then fail
    else let* b := bson_iter_bool inner in continue (mongoc_write_concern_set_journal wc b)
  else if streq key (cs "wtimeout") then
    let* i := BSON_ITER_HOLDS inner BSON_TYPE_INT32 in
    let* l := BSON_ITER_HOLDS inner BSON_TYPE_INT64 in
    if negb (i || l) then fail
    else
      let* t := bson_iter_as_int64 inner in
      if t <? 0 then fail else continue (mongoc_write_concern_set_wtimeout_int64 wc t)
  else continue wc.
Definition _mongoc_write_concern_new_from_iter (iter : bson_iter_t) : res (mongoc_write_concern_t + bson_error_t) :=
  let fail := Ret (inr (invalid_concern (cs "writeConcern"))) in
  let* h := BSON_ITER_HOLDS iter BSON_TYPE_DOCUMENT in
  if negb h then fail
  else
    let* inner := bson_iter_recurse iter in
    match inner with
    | None => Stuck AssertFailed
    | Some inner =>
        let* r := for_each_field write_concern_field inner (Some mongoc_write_concern_new) in
        match r.2 with
        | None => fail
        | Some wc => if negb (_mongoc_write_concern_validate (Some wc)).1 then fail else Ret (inl wc)
        end
    end.
End WriteConcern.

(** ** The options a write concern encodes *)
Inductive wc_option :=
| O_w (w : Z) | O_majority | O_tag (tag : list Z) | O_fsync (b : bool) | O_journal (b : bool) | O_wtimeout (t : Z).
Definition option_entry (o : wc_option) : entry :=
  match o with
  | O_w w => e_int32 (cs "w") w
  | O_majority => e_utf8 (cs "w") (cs "majority")
  | O_tag tag => e_utf8 (cs "w") tag
  | O_fsync b => e_bool (cs "fsync") b
  | O_journal b => e_bool (cs "j") b
  | O_wtimeout t => e_int64 (cs "wtimeout") t
  end.
Definition w_options (wc : mongoc_write_concern_t) : list wc_option :=
  if wc_w wc =? MONGOC_WRITE_CONCERN_W_TAG then [O_tag (default [] (wc_wtag wc))]
  else if wc_w wc =? MONGOC_WRITE_CONCERN_W_MAJORITY then [O_majority]
  else if wc_w wc =? MONGOC_WRITE_CONCERN_W_DEFAULT then []
  else [O_w (wc_w wc)].
Definition when (b : bool) (o : wc_option) : list wc_option := if b then [o] else [].
Definition wc_options (wc : mongoc_write_concern_t) : list wc_option :=
  w_options wc
  ++ when (negb (wc_fsync wc =? MONGOC_WRITE_CONCERN_FSYNC_DEFAULT)) (O_fsync (negb (wc_fsync wc =? 0)))
  ++ when (negb (wc_journal wc =? MONGOC_WRITE_CONCERN_JOURNAL_DEFAULT)) (O_journal (negb (wc_journal wc =? 0)))
  ++ when (negb (wc_wtimeout wc =? 0)) (O_wtimeout (wc_wtimeout wc)).
Definition wc_entries (wc : mongoc_write_concern_t) : list entry := map option_entry (wc_options wc).
(** everything but the cache *)
Definition wc_fields (wc : mongoc_write_concern_t) : Z * Z * Z * Z * option (list Z) * bool :=
  (wc_fsync wc, wc_journal wc, wc_w wc, wc_wtimeout wc, wc_wtag wc, wc_is_default wc).
Lemma wc_entries_fields a b : wc_fields a = wc_fields b → wc_entries a = wc_entries b.
Proof.
  destruct a, b. unfold wc_fields. cbn. intros [= -> -> -> -> -> ->]. done.
Qed.
Lemma wc_valid_fields a b :
  wc_fields a = wc_fields b → mongoc_write_concern_is_valid (Some a) = mongoc_write_concern_is_valid (Some b).
Proof. destruct a, b. unfold wc_fields. cbn. by intros [= -> -> -> -> -> ->]. Qed.

(** strings a caller can pass *)
Definition tag_ok (tag : list Z) : Prop := bytes_ok tag ∧ Forall (λ b, b ≠ 0) tag ∧ blen tag < 2 ^ 27.
Definition option_ok (o : wc_option) : Prop :=
  match o with
  | O_w w => -1 ≤ w < 2 ^ 31
  | O_tag tag => tag_ok tag
  | O_wtimeout t => 0 ≤ t < 2 ^ 63
  | _ => True
  end.

(** the invariant of a write concern: the fields are in range, and the cached
    document, when it is marked as current, encodes them *)
Record wc_ok (wc : mongoc_write_concern_t) : Prop := {
  wo_fsync : wc_fsync wc = -1 ∨ wc_fsync wc = 0 ∨ wc_fsync wc = 1;
  wo_journal : wc_journal wc = -1 ∨ wc_journal wc = 0 ∨ wc_journal wc = 1;
  wo_w : -4 ≤ wc_w wc < 2 ^ 31;
  wo_wtimeout : 0 ≤ wc_wtimeout wc < 2 ^ 63;
  wo_wtag : wc_w wc = MONGOC_WRITE_CONCERN_W_TAG → ∃ tag, wc_wtag wc = Some tag ∧ tag_ok tag;
  wo_compiled : ∃ body, builds (wc_compiled wc) body []
    ∧ (wc_frozen wc = true → body = body_bytes (wc_entries wc))
}.

Lemma wc_options_ok wc : wc_ok wc → Forall option_ok (wc_options wc).
Proof.
  intros [_ _ Hw Ht Htag _]. unfold wc_options, w_options, when. rewrite !Forall_app. repeat split.
  - destruct (Z.eqb_spec (wc_w wc) MONGOC_WRITE_CONCERN_W_TAG) as [E|E].
    { destruct (Htag E) as (tag & -> & H). by constructor. }
    destruct (Z.eqb_spec (wc_w wc) MONGOC_WRITE_CONCERN_W_MAJORITY) as [?|E']; [by repeat constructor|].
    destruct (Z.eqb_spec (wc_w wc) MONGOC_WRITE_CONCERN_W_DEFAULT) as [?|E'']; [done|].
    unfold MONGOC_WRITE_CONCERN_W_TAG, MONGOC_WRITE_CONCERN_W_MAJORITY, MONGOC_WRITE_CONCERN_W_DEFAULT in *.
    constructor; [simpl; lia|done].
  - by destruct (negb _); repeat constructor.
  - by destruct (negb _); repeat constructor.
  - destruct (negb _); repeat constructor; cbn; lia.
Qed.
Lemma option_entry_size o : option_ok o → blen (entry_bytes (option_entry o)) ≤ 2 ^ 27 + 20.
Proof.
  rewrite blen_entry. destruct o; cbn [option_entry e_int32 e_utf8 e_bool e_int64 e_key e_value option_ok];
    intros H; rewrite ?blen_app, ?blen_le_bytes.
  all: change (blen (cs "w")) with 1 || change (blen (cs "fsync")) with 5 || change (blen (cs "j")) with 1
    || change (blen (cs "wtimeout")) with 8.
  - lia.
  - change (blen (cs "majority")) with 8. change (blen [0]) with 1. lia.
  - destruct H as (_ & _ & H). change (blen [0]) with 1. lia.
  - change (blen [Z.b2z b]) with 1. lia.
  - change (blen [Z.b2z b]) with 1. lia.
  - lia.
Qed.
Lemma option_entry_ok o : option_ok o → entry_ok (option_entry o).
Proof.
  assert (Hk : ∀ s, bool_decide (key_ok (cs s)) = true → key_ok (cs s)) by (intros s; apply bool_decide_eq_true).
  destruct o; cbn [option_entry option_ok]; intros H.
  - apply e_int32_ok, Hk. by vm_compute.
  - apply e_utf8_ok; [apply Hk; by vm_compute|apply (Hk "majority"%string); by vm_compute|by vm_compute].
  - destruct H as (? & ? & ?). apply e_utf8_ok; [apply Hk; by vm_compute|done|lia].
  - apply e_bool_ok, Hk. by vm_compute.
  - apply e_bool_ok, Hk. by vm_compute.
  - apply e_int64_ok, Hk. by vm_compute.
Qed.

(** ** Encoding *)
Section Encode.
Variable fresh : Z → Z.

(** an append that is skipped under a condition, its result ignored *)
Lemma optional_append (c : bool) (r : res (bool * bson_mem)) m opts o :
  builds m (body_bytes (map option_entry opts)) [] → option_ok o →
  appends r m (body_bytes (map option_entry opts)) [] (entry_bytes (option_entry o)) →
  blen (body_bytes (map option_entry opts)) ≤ 2 ^ 28 →
  ∃ m', (if c then let* r := r in Ret r.2 else Ret m) = Ret m'
    ∧ builds m' (body_bytes (map option_entry (opts ++ when c o))) []
    ∧ blen (body_bytes (map option_entry (opts ++ when c o)))
      ≤ blen (body_bytes (map option_entry opts)) + blen (entry_bytes (option_entry o)).
Proof using Type.
  intros Hb Ho Hr Hs. pose proof (option_entry_size o Ho). pose proof (blen_nonneg (entry_bytes (option_entry o))).
  unfold when. destruct c; [|exists m; rewrite app_nil_r; split; [done|]; split; [done|lia]].
  rewrite map_app, body_bytes_app. cbn [map]. rewrite body_bytes_one, blen_app.
  apply appends_fits in Hr as (m' & -> & Hb').
  - exists m'. split; [done|]. split; [done|lia].
  - unfold extent. cbn [front length]. rewrite blen_nil. lia.
Qed.

Lemma literal_entry k :
  bool_decide (key_ok k ∧ blen k < 100) = true →
  Forall (λ b, b ≠ 0) k ∧ blen k < 2 ^ 29 ∧ s32 (blen k) = blen k.
Proof using Type.
  intros [[_ H] Hl]%bool_decide_eq_true. pose proof (blen_nonneg k). split; [done|]. split; [lia|].
  apply s32_small. unfold in_s32. lia.
Qed.
Lemma append_tag m body tag :
  builds m body [] → blen tag < 2 ^ 27 →
  appends (BSON_APPEND_UTF8 fresh m (cs "w") tag) m body [] (entry_bytes (e_utf8 (cs "w") tag)).
Proof using Type.
  intros Hb Ht. pose proof (blen_nonneg tag). unfold BSON_APPEND_UTF8.
  rewrite (s32_small (blen tag)) by (unfold in_s32; lia). apply append_utf8_entry; [done|by repeat constructor|done|lia].
Qed.

(** the w option is the first to be appended *)
Lemma append_w wc m :
  wc_ok wc → builds m [] [] →
  ∃ m', (if wc_w wc =? MONGOC_WRITE_CONCERN_W_TAG then
           match wc_wtag wc with
           | Some wtag => let* r := BSON_APPEND_UTF8 fresh m (cs "w") wtag in Ret r.2
           | None => Stuck AssertFailed
           end
         else if wc_w wc =? MONGOC_WRITE_CONCERN_W_MAJORITY then
           let* r := BSON_APPEND_UTF8 fresh m (cs "w") (cs "majority") in Ret r.2
         else if wc_w wc =? MONGOC_WRITE_CONCERN_W_DEFAULT then Ret m
         else let* r := BSON_APPEND_INT32 fresh m (cs "w") (wc_w wc) in Ret r.2) = Ret m'
    ∧ builds m' (body_bytes (map option_entry (w_options wc))) []
    ∧ blen (body_bytes (map option_entry (w_options wc))) ≤ 2 ^ 27 + 20.
Proof using Type.
  intros Hwc Hb. pose proof (wc_options_ok wc Hwc) as Hok. apply Forall_app in Hok as [Hok _]. unfold w_options in *.
  assert (Hone : ∀ o r, option_ok o → appends r m [] [] (entry_bytes (option_entry o)) →
    ∃ m', (let* r := r in Ret r.2) = Ret m' ∧ builds m' (body_bytes (map option_entry [o])) []
      ∧ blen (body_bytes (map option_entry [o])) ≤ 2 ^ 27 + 20).
  { intros o r Ho Hr. destruct (optional_append true r m [] o) as (m' & ? & ? & ?);
      [done|done|done|change (blen (body_bytes (map option_entry []))) with 0; lia|].
    exists m'. split; [done|]. split; [done|]. cbn [map]. rewrite body_bytes_one. by apply option_entry_size. }
  revert Hok. destruct (Z.eqb_spec (wc_w wc) MONGOC_WRITE_CONCERN_W_TAG) as [E|_].
  { destruct (wo_wtag _ Hwc E) as (tag & Htag & Ht). rewrite Htag. intros _. apply (Hone (O_tag tag)); [done|].
    apply append_tag; [done|apply Ht]. }
  destruct (wc_w wc =? MONGOC_WRITE_CONCERN_W_MAJORITY).
  { intros _. apply (Hone O_majority); [done|]. by apply append_tag. }
  destruct (wc_w wc =? MONGOC_WRITE_CONCERN_W_DEFAULT); [by exists m|]. intros Hok.
  apply (Hone (O_w (wc_w wc))); [by rewrite Forall_singleton in Hok|].
  apply append_int32_entry; [done|by repeat constructor|done].
Qed.

Lemma freeze_ok wc :
  wc_ok wc →
  ∃ m, _mongoc_write_concern_freeze fresh wc
    = Ret (WriteConcern (wc_fsync wc) (wc_journal wc) (wc_w wc) (wc_wtimeout wc) (wc_wtag wc) true m (wc_is_default wc))
    ∧ builds m (body_bytes (wc_entries wc)) [] ∧ blen (body_bytes (wc_entries wc)) ≤ 2 ^ 28.
Proof using Type.
  intros Hwc. destruct (wo_compiled _ Hwc) as (body & Hb & _). unfold _mongoc_write_concern_freeze.
  destruct (reinit_builds _ _ Hb) as (m0 & -> & Hb0). cbn [bind].
  destruct (append_w wc m0 Hwc Hb0) as (m1 & -> & Hb1 & Hl1). cbn [bind].
  assert (Hsz : ∀ k b, blen (entry_bytes (e_bool k b)) = 3 + blen k).
  { intros k b. rewrite blen_entry. cbn. change (blen [Z.b2z b]) with 1. lia. }
  destruct (optional_append (negb (wc_fsync wc =? MONGOC_WRITE_CONCERN_FSYNC_DEFAULT))
    (bson_append_bool fresh m1 (c_lit "fsync") 5 (negb (wc_fsync wc =? 0))) m1 (w_options wc)
    (O_fsync (negb (wc_fsync wc =? 0)))) as (m2 & -> & Hb2 & Hl2); [done|exact I| |lia|].
  { apply append_bool_entry; [done|by repeat constructor|done]. }
  cbn [bind option_entry] in *. rewrite Hsz in Hl2. change (blen (cs "fsync")) with 5 in Hl2.
  set (l2 := w_options wc ++ when (negb (wc_fsync wc =? MONGOC_WRITE_CONCERN_FSYNC_DEFAULT)) (O_fsync (negb (wc_fsync wc =? 0)))) in *.
  destruct (optional_append (negb (wc_journal wc =? MONGOC_WRITE_CONCERN_JOURNAL_DEFAULT))
    (bson_append_bool fresh m2 (c_lit "j") 1 (negb (wc_journal wc =? 0))) m2 l2
    (O_journal (negb (wc_journal wc =? 0)))) as (m3 & -> & Hb3 & Hl3); [done|exact I| |lia|].
  { apply append_bool_entry; [done|by repeat constructor|done]. }
  cbn [bind option_entry] in *. rewrite Hsz in Hl3. change (blen (cs "j")) with 1 in Hl3.
  set (l3 := l2 ++ when (negb (wc_journal wc =? MONGOC_WRITE_CONCERN_JOURNAL_DEFAULT)) (O_journal (negb (wc_journal wc =? 0)))) in *.
  destruct (optional_append (negb (wc_wtimeout wc =? 0))
    (bson_append_int64 fresh m3 (c_lit "wtimeout") 8 (wc_wtimeout wc)) m3 l3 (O_wtimeout (wc_wtimeout wc)))
    as (m4 & -> & Hb4 & Hl4); [done|apply (wo_wtimeout _ Hwc)| |lia|].
  { apply append_int64_entry; [done|by repeat constructor|done]. }
  cbn [bind option_entry] in *. assert (blen (entry_bytes (e_int64 (cs "wtimeout") (wc_wtimeout wc))) = 18) as E.
  { rewrite blen_entry. cbn [e_int64 e_key e_value]. by rewrite blen_le_bytes. }
  rewrite E in Hl4. exists m4. split; [done|].
  assert (wc_options wc = l3 ++ when (negb (wc_wtimeout wc =? 0)) (O_wtimeout (wc_wtimeout wc))) as E'
    by (unfold wc_options, l3, l2; by rewrite <- !app_assoc).
  unfold wc_entries. rewrite E'. split; [done|lia].
Qed.
End Encode.

(** ** Parsing *)
Definition apply_option (wc : mongoc_write_concern_t) (o : wc_option) : mongoc_write_concern_t :=
  match o with
  | O_w w => WriteConcern (wc_fsync wc) (wc_journal wc) w (wc_wtimeout wc) (wc_wtag wc) false (wc_compiled wc)
               (if negb (w =? MONGOC_WRITE_CONCERN_W_DEFAULT) then false else wc_is_default wc)
  | O_majority => mongoc_write_concern_set_wmajority wc (-1)
  | O_tag tag => if streq tag (cs "majority") then mongoc_write_concern_set_wmajority wc (-1)
                 else mongoc_write_concern_set_wtag wc (Some tag)
  | O_fsync b => mongoc_write_concern_set_fsync wc b
  | O_journal b => mongoc_write_concern_set_journal wc b
  | O_wtimeout t => mongoc_write_concern_set_wtimeout_int64 wc t
  end.

Lemma field_key_entry data e f : on_entry data e f → field_key f = Ret (e_key e).
Proof. intros H. apply H. Qed.
Lemma write_concern_field_option data o f wc :
  option_ok o → on_entry data (option_entry o) f →
  write_concern_field f (Some wc) = Ret (true, Some (apply_option wc o)).
Proof.
  intros Ho Hon. unfold write_concern_field. cbn [deref bind]. rewrite (field_key_entry _ _ _ Hon). cbn [bind].
  assert (Htag : ∀ s, Forall (λ b, b ≠ 0) s → on_entry data (e_utf8 (cs "w") s) f →
    (let* s := utf8_string f in
     if streq s (cs "majority") then Ret (true, Some (mongoc_write_concern_set_wmajority wc (-1)))
     else Ret (true, Some (mongoc_write_concern_set_wtag wc (Some s))))
    = Ret (true, Some (apply_option wc (O_tag s)))).
  { intros s Hs H. rewrite (e_utf8_get _ _ _ _ H Hs). cbn [bind apply_option]. by destruct (streq s _). }
  destruct o as [w| |tag|b|b|t]; cbn [option_entry] in *.
  all: repeat match goal with |- context [streq (e_key ?e) (cs ?s)] =>
    let b := eval vm_compute in (streq (e_key e) (cs s)) in change (streq (e_key e) (cs s)) with b end; cbn [bind].
  all: rewrite ?(entry_HOLDS _ _ _ Hon); cbn [bind].
  all: repeat match goal with |- context [bool_decide (bson_type_of_byte ?t = ?ty)] =>
    let b := eval vm_compute in (bool_decide (bson_type_of_byte t = ty)) in
    change (bool_decide (bson_type_of_byte t = ty)) with b end; cbn [negb orb bind].
  - destruct Ho as [Ho1 Ho2]. rewrite (e_int32_get _ _ _ _ Hon) by (unfold in_s32; lia). cbn [bind].
    unfold MONGOC_WRITE_CONCERN_W_ERRORS_IGNORED. destruct (Z.ltb_spec w (-1)); [lia|].
    unfold mongoc_write_concern_set_w. rewrite Z.geb_leb. destruct (Z.leb_spec (-3) w); [|lia]. done.
  - apply (Htag (cs "majority")); [by repeat constructor|done].
  - apply Htag; [apply Ho|done].
  - by rewrite (e_bool_get _ _ _ _ Hon).
  - by rewrite (e_bool_get _ _ _ _ Hon).
  - destruct Ho as [Ho1 Ho2]. rewrite (e_int64_as_int64 _ _ _ _ Hon) by (unfold in_s64; lia). cbn [bind].
    by destruct (Z.ltb_spec t 0); [lia|].
Qed.
Lemma fold_options data opts l last wc :
  Forall option_ok opts → Forall2 (on_entry data) (map option_entry opts) l →
  fold_fields write_concern_field l last (Some wc) = Ret (last, Some (foldl apply_option wc opts)).
Proof.
  intros Hok. revert l wc. induction Hok as [|o opts Ho _ IH]; intros l wc Hall; inversion Hall as [|? f ? l' Hon Hall']; subst; [done|].
  cbn [fold_fields]. rewrite (write_concern_field_option _ _ _ _ Ho Hon). cbn [bind]. by apply IH.
Qed.

(** what a caller can tell apart: a tag "majority" is the majority *)
Definition effective_w (wc : mongoc_write_concern_t) : Z * option (list Z) :=
  if bool_decide (mongoc_write_concern_get_wtag wc = Some (cs "majority")) then (MONGOC_WRITE_CONCERN_W_MAJORITY, None)
  else (wc_w wc, mongoc_write_concern_get_wtag wc).
Record same_concern (a b : mongoc_write_concern_t) : Prop := {
  sc_fsync : wc_fsync a = wc_fsync b;
  sc_journal : wc_journal a = wc_journal b;
  sc_w : effective_w a = effective_w b;
  sc_wtimeout : wc_wtimeout a = wc_wtimeout b
}.
Lemma foldl_when (c : bool) (o : wc_option) wc :
  foldl apply_option wc (when c o) = if c then apply_option wc o else wc.
Proof. by destruct c. Qed.
Lemma parsed_options fresh wc :
  wc_ok wc → same_concern (foldl apply_option (mongoc_write_concern_new fresh) (wc_options wc)) wc.
Proof.
  intros [Hf Hj Hw Ht Htag _]. unfold wc_options. rewrite !foldl_app, !foldl_when.
  set (wc1 := foldl apply_option (mongoc_write_concern_new fresh) (w_options wc)).
  assert (H1 : wc_fsync wc1 = -1 ∧ wc_journal wc1 = -1 ∧ wc_wtimeout wc1 = 0 ∧ effective_w wc1 = effective_w wc).
  { unfold wc1, w_options. destruct (Z.eqb_spec (wc_w wc) MONGOC_WRITE_CONCERN_W_TAG) as [E|E].
    { destruct (Htag E) as (tag & Et & _). rewrite Et. cbn [default from_option foldl apply_option id].
      unfold effective_w, mongoc_write_concern_get_wtag. rewrite E, Et. unfold streq.
      destruct (bool_decide_reflect (tag = cs "majority")) as [->|Hne]; [done|].
      by repeat split. }
    assert (Hnt : mongoc_write_concern_get_wtag wc = None).
    { unfold mongoc_write_concern_get_wtag. by destruct (Z.eqb_spec (wc_w wc) MONGOC_WRITE_CONCERN_W_TAG). }
    unfold effective_w at 2. rewrite Hnt, bool_decide_false by done.
    destruct (Z.eqb_spec (wc_w wc) MONGOC_WRITE_CONCERN_W_MAJORITY) as [->|E1]; [done|].
    destruct (Z.eqb_spec (wc_w wc) MONGOC_WRITE_CONCERN_W_DEFAULT) as [->|E2]; [done|].
    cbn [foldl apply_option mongoc_write_concern_new wc_fsync wc_journal wc_wtimeout]. repeat split.
    unfold effective_w, mongoc_write_concern_get_wtag. cbn [wc_w wc_wtag].
    by destruct (Z.eqb_spec (wc_w wc) MONGOC_WRITE_CONCERN_W_TAG). }
  clearbody wc1. destruct H1 as (H1 & H2 & H3 & H4).
  constructor.
  all: unfold MONGOC_WRITE_CONCERN_FSYNC_DEFAULT, MONGOC_WRITE_CONCERN_JOURNAL_DEFAULT.
  all: destruct Hf as [-> | [-> | ->]], Hj as [-> | [-> | ->]]; cbn [Z.eqb Pos.eqb negb].
  all: unfold apply_option, mongoc_write_concern_set_fsync, mongoc_write_concern_set_journal, mongoc_write_concern_set_wtimeout_int64.
  all: destruct (Z.eqb_spec (wc_wtimeout wc) 0) as [E0|E0]; cbn [negb]; try (destruct (Z.ltb_spec (wc_wtimeout wc) 0); [lia|]).
  all: unfold effective_w, mongoc_write_concern_get_wtag in *; cbn [wc_fsync wc_journal wc_w wc_wtag wc_wtimeout Z.b2z negb].
  all: done || congruence.
Qed.

Section Calls.
Variable fresh : Z → Z.

Lemma new_from_iter_ok wc k data f :
  wc_ok wc → mongoc_write_concern_is_valid (Some wc) = true → blen (body_bytes (wc_entries wc)) ≤ 2 ^ 28 →
  on_entry data (e_doc k (body_bytes (wc_entries wc))) f →
  ∃ wc2, _mongoc_write_concern_new_from_iter fresh f = Ret (inl wc2) ∧ same_concern wc2 wc.
Proof using Type.
  intros Hwc Hv Hs Hon. unfold _mongoc_write_concern_new_from_iter.
  rewrite (entry_HOLDS _ _ _ Hon), bool_decide_true by done. cbn [bind negb].
  pose proof (wc_options_ok wc Hwc) as Hok.
  assert (Hes : Forall entry_ok (wc_entries wc)).
  { unfold wc_entries. apply Forall_map. eapply Forall_impl; [exact Hok|]. intros o. apply option_entry_ok. }
  destruct (e_sub_get _ _ _ _ _ Hon) as (post & Hpost & ->); [by left|lia|]. cbn [bind].
  destruct (start_fields (wc_entries wc) post Hes Hpost) as (last & l & Hf & Hall); [unfold INT_MAX; lia|].
  rewrite (for_each_fold _ _ last l _ Hf), (fold_options _ _ _ _ _ Hok Hall). cbn [bind snd].
  pose proof (parsed_options fresh wc Hwc) as Hsame. set (wc2 := foldl _ _ _) in *.
  exists wc2. split; [|done].
  assert (Hv2 : mongoc_write_concern_is_valid (Some wc2) = true); [|unfold _mongoc_write_concern_validate; by rewrite Hv2].
  destruct Hsame as [H1 H2 H3 H4]. unfold mongoc_write_concern_is_valid, mongoc_write_concern_get_journal in *.
  rewrite H1, H2, H4. unfold effective_w, mongoc_write_concern_get_wtag in H3.
  destruct ((wc_fsync wc =? 1) || (wc_journal wc =? 1)); cbn [andb] in *; [|exact Hv].
  assert (Hw : wc_w wc2 = wc_w wc ∨ wc_w wc2 = MONGOC_WRITE_CONCERN_W_MAJORITY ∨ wc_w wc2 = MONGOC_WRITE_CONCERN_W_TAG).
  { destruct (Z.eqb_spec (wc_w wc2) MONGOC_WRITE_CONCERN_W_TAG) as [->|]; [by right; right|].
    rewrite (bool_decide_false (None = _)) in H3 by done. destruct (bool_decide _) in H3; injection H3; auto. }
  destruct Hw as [-> | [-> | ->]]; [done|..]; cbn [Z.eqb Pos.eqb orb]; destruct (wc_wtimeout wc <? 0); try done;
    by destruct (_ || _) in Hv.
Qed.

(** one call of the interface *)
Inductive wc_call : mongoc_write_concern_t → mongoc_write_concern_t → Prop :=
| call_set_fsync wc b : wc_call wc (mongoc_write_concern_set_fsync wc b)
| call_set_journal wc b : wc_call wc (mongoc_write_concern_set_journal wc b)
| call_set_w wc w wc' : -3 ≤ w < 2 ^ 31 → mongoc_write_concern_set_w wc w = Ret wc' → wc_call wc wc'
| call_set_wtimeout wc t : in_s64 t → wc_call wc (mongoc_write_concern_set_wtimeout_int64 wc t)
| call_set_wmajority wc t : in_s32 t → wc_call wc (mongoc_write_concern_set_wmajority wc t)
| call_set_wtag wc tag : tag_ok tag → wc_call wc (mongoc_write_concern_set_wtag wc (Some tag))
| call_get_bson wc d wc' : _mongoc_write_concern_get_bson fresh wc = Ret (d, wc') → wc_call wc wc'
| call_copy wc wc' : mongoc_write_concern_copy fresh (Some wc) = Some wc' → wc_call wc wc'.

Lemma get_bson_ok wc :
  wc_ok wc →
  ∃ wc', _mongoc_write_concern_get_bson fresh wc = Ret (doc_bytes (body_bytes (wc_entries wc)), wc')
    ∧ wc_ok wc' ∧ wc_fields wc' = wc_fields wc ∧ blen (body_bytes (wc_entries wc)) ≤ 2 ^ 28.
Proof using Type.
  intros Hwc. destruct (freeze_ok fresh wc Hwc) as (m & Hf & Hm & Hs). unfold _mongoc_write_concern_get_bson.
  destruct (wc_frozen wc) eqn:Hfr.
  - destruct (wo_compiled _ Hwc) as (body & Hb & Hbody). rewrite (Hbody Hfr) in Hb. cbn [bind].
    rewrite (get_data_builds _ _ _ Hb). by exists wc.
  - rewrite Hf. cbn [bind wc_compiled]. rewrite (get_data_builds _ _ _ Hm). eexists. split; [done|].
    split; [|done]. destruct Hwc. by constructor; try done; exists (body_bytes (wc_entries wc)).
Qed.
Lemma wc_call_ok wc wc' : wc_call wc wc' → wc_ok wc → wc_ok wc'.
Proof using Type.
  intros H Hwc. pose proof Hwc as [Hf Hj Hw Ht Htag (body & Hb & _)].
  assert (Hc : ∃ body, builds (wc_compiled wc) body [] ∧ (false = true → body = body_bytes (wc_entries wc'))) by (by exists body).
  destruct H as [wc b|wc b|wc w wc' Hr H|wc t Ht'|wc t Ht'|wc tag Htag'|wc d wc' H|wc wc' H].
  - constructor; try done. destruct b; cbn; auto.
  - constructor; try done. destruct b; cbn; auto.
  - unfold mongoc_write_concern_set_w in H. rewrite Z.geb_leb in H. destruct (Z.leb_spec (-3) w); [|lia].
    injection H as <-. constructor; try done; cbn; [lia|]. intros ->. unfold MONGOC_WRITE_CONCERN_W_TAG in *. lia.
  - unfold mongoc_write_concern_set_wtimeout_int64 in *. destruct (Z.ltb_spec t 0); [done|].
    constructor; try done; cbn. unfold in_s64 in Ht'. lia.
  - constructor; try done. cbn. rewrite Z.geb_leb. unfold in_s32 in Ht'. destruct (Z.leb_spec 0 t); lia.
  - constructor; try done. intros _. by exists tag.
  - destruct (get_bson_ok wc Hwc) as (wc2 & H2 & Hok & _). rewrite H2 in H. by injection H as _ <-.
  - injection H as <-. constructor; try done. exists []. split; [apply init_builds|done].
Qed.
Lemma wc_new_ok : wc_ok (mongoc_write_concern_new fresh).
Proof using Type.
  constructor; cbn; auto; try (unfold MONGOC_WRITE_CONCERN_W_DEFAULT, MONGOC_WRITE_CONCERN_W_TAG; lia).
  exists []. split; [apply init_builds|done].
Qed.
Lemma wc_calls_ok wc : rtc wc_call (mongoc_write_concern_new fresh) wc → wc_ok wc.
Proof using Type.
  intros H. pose proof wc_new_ok as Hok. induction H as [|? ? ? Hc _ IH]; [done|]. apply IH. by eapply wc_call_ok.
Qed.

(** the field a write concern adds to a command *)
Definition wc_entry (wc : mongoc_write_concern_t) : entry := e_doc (cs "writeConcern") (body_bytes (wc_entries wc)).
Lemma wc_entry_size wc : blen (entry_bytes (wc_entry wc)) = 19 + blen (body_bytes (wc_entries wc)).
Proof using Type.
  rewrite blen_entry. cbn [wc_entry e_doc e_key e_value]. rewrite blen_doc_bytes.
  change (blen (cs "writeConcern")) with 12. lia.
Qed.
Lemma wc_entries_ok wc : wc_ok wc → Forall entry_ok (wc_entries wc).
Proof using Type.
  intros H. unfold wc_entries. apply Forall_map. eapply Forall_impl; [by apply wc_options_ok|]. intros o. apply option_entry_ok.
Qed.
Lemma wc_entry_ok wc : wc_ok wc → blen (body_bytes (wc_entries wc)) ≤ 2 ^ 28 → entry_ok (wc_entry wc).
Proof using Type.
  intros H Hs. apply e_doc_ok; [|by apply body_bytes_ok, wc_entries_ok|lia].
  split; [|by repeat constructor]. by apply (bool_decide_unpack _).
Qed.
Lemma write_concern_append_ok wc m body :
  wc_ok wc → builds m body [] → blen body ≤ 2 ^ 28 →
  if mongoc_write_concern_is_valid (Some wc) then
    ∃ wc' m', mongoc_write_concern_append fresh (Some wc) m = Ret (true, Some wc', m')
      ∧ wc_ok wc' ∧ wc_fields wc' = wc_fields wc ∧ builds m' (body ++ entry_bytes (wc_entry wc)) []
      ∧ blen (body_bytes (wc_entries wc)) ≤ 2 ^ 28
  else mongoc_write_concern_append fresh (Some wc) m = Ret (false, Some wc, m).
Proof using Type.
  intros Hok Hm Hsize. unfold mongoc_write_concern_append.
  destruct (mongoc_write_concern_is_valid (Some wc)) eqn:Hv; [|done]. cbn [negb deref bind].
  destruct (get_bson_ok wc Hok) as (wc' & -> & Hok' & Hf & Hs). cbn [bind fst snd].
  pose proof (blen_nonneg (body_bytes (wc_entries wc))).
  assert (Ha : appends (bson_append_document fresh m (c_lit "writeConcern") 12 (doc_bytes (body_bytes (wc_entries wc)))) m body []
    (entry_bytes (wc_entry wc))).
  { apply append_document_entry; [done|by repeat constructor|done|]. rewrite blen_doc_bytes. lia. }
  apply appends_fits in Ha as (m' & -> & Hm').
  - cbn [bind fst snd]. by exists wc', m'.
  - unfold extent. cbn [front length]. rewrite blen_nil, wc_entry_size. lia.
Qed.
End Calls.

(** C27. However a write concern was put together with the calls of the interface, appending
    it to a command and parsing the command's writeConcern field gives back a concern
    with the same options (the tag "majority" being the majority): the cached
    encoding is never stale.  A concern that asks for journaling or fsync without
    acknowledgement is refused and the command is left alone. *)
Theorem write_concern_roundtrip fresh wc m es
    (Hcalls : rtc (wc_call fresh) (mongoc_write_concern_new fresh) wc)
    (Hm : builds m (body_bytes es) []) (Hes : Forall entry_ok es) (Hsize : blen (body_bytes es) ≤ 2 ^ 28)
    (Hnew : Forall (λ e, e_key e ≠ cs "writeConcern") es) :
  if mongoc_write_concern_is_valid (Some wc) then
    ∃ wc' m' doc f wc2, mongoc_write_concern_append fresh (Some wc) m = Ret (true, Some wc', m')
      ∧ bson_get_data m' = Ret doc ∧ bson_iter_init_find doc (c_lit "writeConcern") = Ret (true, f)
      ∧ _mongoc_write_concern_new_from_iter fresh f = Ret (inl wc2) ∧ same_concern wc2 wc
  else mongoc_write_concern_append fresh (Some wc) m = Ret (false, Some wc, m).
Proof.
  pose proof (wc_calls_ok fresh wc Hcalls) as Hok. pose proof (write_concern_append_ok fresh wc m _ Hok Hm Hsize) as Happ.
  destruct (mongoc_write_concern_is_valid (Some wc)) eqn:Hv; [|done].
  destruct Happ as (wc' & m' & -> & _ & _ & Hm' & Hs). rewrite <- body_bytes_one, <- body_bytes_app in Hm'.
  assert (Hall : Forall entry_ok (es ++ [wc_entry wc])).
  { apply Forall_app. split; [done|]. constructor; [|done]. by apply wc_entry_ok. }
  destruct (init_find_entry (es ++ [wc_entry wc]) (cs "writeConcern") Hall) as (f & Hf); [|by repeat constructor|].
  { rewrite body_bytes_app, body_bytes_one, blen_app, wc_entry_size. unfold INT_MAX. lia. }
  assert (Hfind : List.find (λ e, bool_decide (e_key e = cs "writeConcern")) (es ++ [wc_entry wc]) = Some (wc_entry wc)).
  { clear -Hnew. induction Hnew as [|x es Hx _ IH]; [done|]. cbn [app List.find]. by rewrite bool_decide_false. }
  rewrite Hfind in Hf. destruct Hf as [Hf Hon].
  destruct (new_from_iter_ok fresh wc _ _ f Hok Hv Hs Hon) as (wc2 & Hwc2 & Hsame).
  exists wc', m', (doc_bytes (body_bytes (es ++ [wc_entry wc]))), f, wc2. split; [done|]. split; [by eapply get_data_builds|]. done.
Qed.
Definition sample_fresh : Z → Z := λ _, 0.
Definition sample_command : bson_mem :=
  appended (bson_append_int32 sample_fresh (bson_init sample_fresh) (c_lit "insert") 6 1) (bson_init sample_fresh).
Definition sample_wc : mongoc_write_concern_t :=
  mongoc_write_concern_set_journal
    (mongoc_write_concern_set_wtag (mongoc_write_concern_new sample_fresh) (Some (cs "majority"))) true.
Lemma sample_calls : rtc (wc_call sample_fresh) (mongoc_write_concern_new sample_fresh) sample_wc.
Proof.
  eapply rtc_l; [apply (call_set_wtag _ _ (cs "majority")); by_check|].
  eapply rtc_l; [by apply (call_set_journal _ _ true)|]. reflexivity.
Qed.
Lemma sample_command_builds : builds sample_command (body_bytes [e_int32 (cs "insert") 1]) [].
Proof.
  rewrite body_bytes_one. apply (appended_builds _ _ []); [|vm_compute; discriminate].
  apply append_int32_entry; [apply init_builds|by repeat constructor|done].
Qed.
Lemma write_concern_roundtrip_witness :
  ∃ wc' m' doc f wc2, mongoc_write_concern_append sample_fresh (Some sample_wc) sample_command = Ret (true, Some wc', m')
    ∧ bson_get_data m' = Ret doc ∧ bson_iter_init_find doc (c_lit "writeConcern") = Ret (true, f)
    ∧ _mongoc_write_concern_new_from_iter sample_fresh f = Ret (inl wc2) ∧ same_concern wc2 sample_wc.
Proof.
  apply (write_concern_roundtrip sample_fresh sample_wc sample_command [e_int32 (cs "insert") 1]).
  - exact sample_calls.
  - exact sample_command_builds.
  - constructor; [apply e_int32_ok; split; by_check|constructor].
  - vm_compute. discriminate.
  - constructor; [by_check|constructor].
Defined.
