(* ===== verification/ReadPrefs.v ===== *)
(** Read preferences and what they do to an outgoing query
    (mongoc/mongoc-read-prefs.c).

    The tag sets are a document under construction ([bson_mem]) that
    mongoc_read_prefs_add_tag extends; a NULL [mongoc_read_prefs_t *] is [None]. *)
From S2P Require Import Prelude BsonIter BsonIterSafe BsonFields BsonAppend BsonBuild BsonValue BsonCopy BsonParse HostList MongocTypes BsonEntries.
From Stdlib Require Import ZArith Lia List.
From stdpp Require Import prelude strings.
#[local] Open Scope Z_scope.
#[local] Open Scope mongo_scope.

Inductive mongoc_read_mode_t :=
| MONGOC_READ_PRIMARY | MONGOC_READ_SECONDARY | MONGOC_READ_PRIMARY_PREFERRED
| MONGOC_READ_SECONDARY_PREFERRED | MONGOC_READ_NEAREST.
#[export] Instance read_mode_eq_dec : EqDecision mongoc_read_mode_t.
Proof. solve_decision. Defined.

Definition MONGOC_NO_MAX_STALENESS : Z := -1.

Record mongoc_read_prefs_t := ReadPrefs {
  rp_mode : mongoc_read_mode_t;
  rp_tags : bson_mem;
  rp_max_staleness_seconds : Z
}.

(** MONGOC_QUERY_NONE and MONGOC_QUERY_SLAVE_OK *)
Definition MONGOC_QUERY_NONE : Z := 0.
Definition MONGOC_QUERY_SLAVE_OK : Z := 4.
Record mongoc_assemble_query_result_t := Assembled {
  assembled_query : bson_t;
  query_owned : bool;
  query_flags : Z
}.

Section ReadPrefs.
Variable fresh : Z → Z.

Definition mongoc_read_prefs_new (mode : mongoc_read_mode_t) : mongoc_read_prefs_t :=
  ReadPrefs mode (bson_init fresh) MONGOC_NO_MAX_STALENESS.
Definition mongoc_read_prefs_get_mode (rp : option mongoc_read_prefs_t) : mongoc_read_mode_t :=
  match rp with Some rp => rp_mode rp | None => MONGOC_READ_PRIMARY end.
Definition mongoc_read_prefs_set_mode (rp : mongoc_read_prefs_t) (mode : mongoc_read_mode_t) :=
  ReadPrefs mode (rp_tags rp) (rp_max_staleness_seconds rp).
(** the bytes of the tags document *)
Definition mongoc_read_prefs_get_tags (rp : mongoc_read_prefs_t) : res bson_t :=
  bson_get_data (rp_tags rp).
Definition mongoc_read_prefs_set_tags (rp : mongoc_read_prefs_t) (tags : option bson_mem) :=
  let* t := match tags with Some t => bson_copy_to fresh t | None => Ret (bson_init fresh) end in
  Ret (ReadPrefs (rp_mode rp) t (rp_max_staleness_seconds rp)).
(** ["%d"] of a count; the result of the append is ignored *)
Definition mongoc_read_prefs_add_tag (rp : mongoc_read_prefs_t) (tag : option bson_t) :=
  let* tags := mongoc_read_prefs_get_tags rp in
  let* key := bson_count_keys tags in
  let str := c_mem (print_dec 10 key) in
  let* r := bson_append_document fresh (rp_tags rp) str (-1) (default bson_empty_doc tag) in
  Ret (ReadPrefs (rp_mode rp) r.2 (rp_max_staleness_seconds rp)).
Definition mongoc_read_prefs_get_max_staleness_seconds := rp_max_staleness_seconds.
Definition mongoc_read_prefs_set_max_staleness_seconds (rp : mongoc_read_prefs_t) (n : Z) :=
  ReadPrefs (rp_mode rp) (rp_tags rp) n.

Definition mongoc_read_prefs_is_valid (rp : mongoc_read_prefs_t) : res bool :=
  let staleness := rp_max_staleness_seconds rp in
  let* bad_primary :=
    (if decide (rp_mode rp = MONGOC_READ_PRIMARY) then
       let* tags := bson_get_data (rp_tags rp) in
       let* e := bson_empty tags in
       Ret (negb e || negb (staleness =? MONGOC_NO_MAX_STALENESS))
     else Ret false) in
  if bad_primary : bool then Ret false
  else if negb (staleness =? MONGOC_NO_MAX_STALENESS) && (staleness <=? 0) then Ret false
  else Ret true.
Definition mongoc_read_prefs_copy (rp : option mongoc_read_prefs_t) : res (option mongoc_read_prefs_t) :=
  match rp with
  | None => Ret None
  | Some rp =>
      let* tags := bson_copy_to fresh (rp_tags rp) in
      Ret (Some (ReadPrefs (rp_mode rp) tags (rp_max_staleness_seconds rp)))
  end.
Definition _mongoc_read_mode_as_str (mode : mongoc_read_mode_t) : list Z :=
  match mode with
  | MONGOC_READ_PRIMARY => cs "primary"
  | MONGOC_READ_PRIMARY_PREFERRED => cs "primaryPreferred"
  | MONGOC_READ_SECONDARY => cs "secondary"
  | MONGOC_READ_SECONDARY_PREFERRED => cs "secondaryPreferred"
  | MONGOC_READ_NEAREST => cs "nearest"
  end.
(** the return value and the error written *)
Definition _mongoc_read_prefs_validate (rp : option mongoc_read_prefs_t)
    : res (bool * option bson_error_t) :=
  match rp with
  | None => Ret (true, None)
  | Some rp =>
      let* v := mongoc_read_prefs_is_valid rp in
      if v : bool then Ret (true, None)
      else Ret (false, Some (bson_set_error MONGOC_ERROR_COMMAND MONGOC_ERROR_COMMAND_INVALID_ARG
                               (cs "Invalid mongoc_read_prefs_t")))
  end.

(** ** Queries *)

(** [!tags || bson_empty (tags)] *)
Definition bson_empty0 (tags : option bson_t) : res bool :=
  match tags with None => Ret true | Some t => bson_empty t end.

Definition or_slave_ok (r : mongoc_assemble_query_result_t) :=
  Assembled (assembled_query r) (query_owned r) (Z.lor (query_flags r) MONGOC_QUERY_SLAVE_OK).

(** The results of the appends are ignored.  When the sub-document cannot be
    begun, [child] stays uninitialised and the next append works on garbage. *)
Definition _apply_read_preferences_mongos (rp : option mongoc_read_prefs_t) (query_bson : bson_t)
    (result : mongoc_assemble_query_result_t) : res mongoc_assemble_query_result_t :=
  let mode := mongoc_read_prefs_get_mode rp in
  let* tags := match rp with
               | Some rp => let* t := mongoc_read_prefs_get_tags rp in Ret (Some t)
               | None => Ret None
               end in
  let* no_tags := bson_empty0 tags in
  if bool_decide (mode = MONGOC_READ_SECONDARY_PREFERRED) && no_tags then Ret (or_slave_ok result)
  else if negb (bool_decide (mode = MONGOC_READ_PRIMARY)) then
    let m := bson_init fresh in
    let* has := bson_has_field query_bson (cs "$query") in
    let* r := (if has : bool then bson_concat fresh m query_bson
               else bson_append_document fresh m (c_lit "$query") 6 query_bson) in
    let* r := bson_append_document_begin fresh r.2 (c_lit "$readPreference") 15 in
    if negb r.1 then Stuck OutOfBounds
    else
      let* r := bson_append_utf8 fresh r.2 (c_lit "mode") 4
                  (Some (c_mem (_mongoc_read_mode_as_str mode))) (-1) in
      let* m := (if no_tags : bool then Ret r.2
                 else
                   let* t := deref tags in
                   let* r := bson_append_array fresh r.2 (c_lit "tags") 4 t in Ret r.2) in
      let* rp := match rp with Some rp => Ret rp | None => Stuck AssertFailed end in
      let max_staleness_seconds := mongoc_read_prefs_get_max_staleness_seconds rp in
      let* m := (if negb (max_staleness_seconds =? MONGOC_NO_MAX_STALENESS) then
                   let* r := bson_append_int64 fresh m (c_lit "maxStalenessSeconds") 19
                               max_staleness_seconds in Ret r.2
                 else Ret m) in
      let* m := bson_append_document_end m in
      let* doc := bson_get_data m in
      Ret (Assembled doc true (Z.lor (query_flags result) MONGOC_QUERY_SLAVE_OK))
  else Ret result.

(** [server_type] and [topology_type] are those of the server stream *)
Definition assemble_query (rp : option mongoc_read_prefs_t)
    (server_type : mongoc_server_description_type_t)
    (topology_type : mongoc_topology_description_type_t)
    (query_bson : bson_t) (initial_flags : Z) : res mongoc_assemble_query_result_t :=
  let result := Assembled query_bson false initial_flags in
  match topology_type with
  | MONGOC_TOPOLOGY_SINGLE =>
      if decide (server_type = MONGOC_SERVER_MONGOS)
      then _apply_read_preferences_mongos rp query_bson result
      else Ret (or_slave_ok result)
  | MONGOC_TOPOLOGY_RS_NO_PRIMARY | MONGOC_TOPOLOGY_RS_WITH_PRIMARY =>
      match rp with
      | Some rp => if decide (rp_mode rp = MONGOC_READ_PRIMARY) then Ret result
                   else Ret (or_slave_ok result)
      | None => Ret result
      end
  | MONGOC_TOPOLOGY_SHARDED => _apply_read_preferences_mongos rp query_bson result
  | MONGOC_TOPOLOGY_UNKNOWN => Stuck AssertFailed
  end.
End ReadPrefs.

(** ** What a mongos query becomes *)

(** the fields of the $readPreference document *)
Definition read_preference_body (rp : mongoc_read_prefs_t) (tags : list Z) : list Z :=
  field_bytes 0x02 (cs "mode")
    (le_bytes 4 (blen (_mongoc_read_mode_as_str (rp_mode rp)) + 1)
     ++ _mongoc_read_mode_as_str (rp_mode rp) ++ [0])
  ++ (if decide (tags = []) then [] else field_bytes 0x04 (cs "tags") (doc_bytes tags))
  ++ (if decide (rp_max_staleness_seconds rp = MONGOC_NO_MAX_STALENESS) then []
      else field_bytes 0x12 (cs "maxStalenessSeconds") (le_bytes 8 (rp_max_staleness_seconds rp))).
(** the wrapped query: the fields of one that has $query already, or the query
    under that key *)
Definition wrapped_query (has_query : bool) (query : list Z) (rp : mongoc_read_prefs_t) (tags : list Z)
    : bson_t :=
  doc_bytes ((if has_query then query else field_bytes 0x03 (cs "$query") (doc_bytes query))
             ++ field_bytes 0x03 (cs "$readPreference") (doc_bytes (read_preference_body rp tags))).

(** the fields of a document: bytes, the first of them not the end-of-document
    type, and of moderate size *)
Definition body_ok (body : list Z) : Prop :=
  bytes_ok body ∧ body !! 0%nat ≠ Some 0 ∧ blen body < 2 ^ 27.

Lemma doc_bytes_ok body : bytes_ok body → bytes_ok (doc_bytes body).
Proof.
  intros H. unfold doc_bytes. rewrite !bytes_ok_app. split; [apply le_bytes_ok|].
  split; [done|]. repeat constructor; lia.
Qed.
Lemma bson_empty_body body :
  body_ok body → bson_empty (doc_bytes body) = Ret (bool_decide (body = [])).
Proof.
  intros (Hok & Hz & _). unfold bson_empty. rewrite blen_doc_bytes.
  destruct body as [|b body]; [done|]. rewrite blen_cons. pose proof (blen_nonneg body).
  destruct (Z.eqb_spec (5 + (1 + blen body)) 5); [lia|].
  unfold doc_bytes. replace 4 with (blen (le_bytes 4 (5 + blen (b :: body))) + 0)
    by (rewrite blen_le_bytes; done). rewrite rd_app_r by lia.
  change (rd ((b :: body) ++ [0]) 0) with (Ret b). cbn [bind].
  destruct (Z.eqb_spec b 0) as [->|]; [by exfalso; apply Hz|]. by rewrite bool_decide_false.
Qed.
Lemma concat_builds fresh m body outer query :
  builds m body outer → body_ok query →
  appends (bson_concat fresh m (doc_bytes query)) m body outer query.
Proof.
  intros Hb Hq. unfold bson_concat. rewrite (bson_empty_body query Hq). cbn [bind].
  destruct (bool_decide_reflect (query = [])) as [->|Hne]; [unfold appends; simpl; by rewrite app_nil_r|].
  destruct Hq as (_ & _ & Hl). pose proof (blen_nonneg query). rewrite blen_doc_bytes.
  replace (5 + blen query - 5) with (blen query) by lia. rewrite u32_small by lia.
  assert (Hrd : rd_bytes (Z.to_nat (blen query)) (doc_bytes query) 4 = Ret query).
  { change 4 with (0 + 4). unfold blen at 1. rewrite Nat2Z.id.
    pose proof (rd_bytes_app_l query [0]) as H1.
    pose proof (rd_bytes_app_r (length query) (le_bytes 4 (5 + blen query)) (query ++ [0]) 0) as H2.
    rewrite blen_le_bytes in H2. rewrite <- H1, <- H2 by done. done. }
  rewrite Hrd. cbn [bind].
  pose proof (append_builds fresh m body outer [query] Hb) as Ha. cbn [concat map] in Ha.
  rewrite app_nil_r in Ha. apply Ha. lia.
Qed.

Section Mongos.
Variable fresh : Z → Z.
Variables (rp : mongoc_read_prefs_t) (tags query : list Z).
Hypothesis Htags : builds (rp_tags rp) tags [].
Hypothesis Htok : body_ok tags.
Hypothesis Hq : body_ok query.

(** the fields of $readPreference, appended to a document just begun *)
Lemma read_preference_builds m body outer :
  builds m body outer → extent body outer + blen tags < 2 ^ 29 →
  ∃ m', (let* r := bson_append_utf8 fresh m (c_lit "mode") 4
                     (Some (c_mem (_mongoc_read_mode_as_str (rp_mode rp)))) (-1) in
         let* m := (if bool_decide (tags = []) then Ret r.2
                    else
                      let* t := deref (Some (doc_bytes tags)) in
                      let* r := bson_append_array fresh r.2 (c_lit "tags") 4 t in Ret r.2) in
         if negb (rp_max_staleness_seconds rp =? MONGOC_NO_MAX_STALENESS) then
           let* r := bson_append_int64 fresh m (c_lit "maxStalenessSeconds") 19
                       (rp_max_staleness_seconds rp) in Ret r.2
         else Ret m) = Ret m' ∧ builds m' (body ++ read_preference_body rp tags) outer.
Proof using Htok.
  clear Htags Hq. intros Hb Hsize. set (s := _mongoc_read_mode_as_str (rp_mode rp)).
  assert (Hs : Forall (λ b, b ≠ 0) s ∧ 0 < blen s < 32) by (unfold s; destruct (rp_mode rp); by repeat constructor).
  destruct Hs as [Hs Hsl]. pose proof (blen_nonneg tags). pose proof (blen_nonneg body).
  assert (Htb : blen tags < 2 ^ 27) by apply Htok.
  assert (Hmode : appends (bson_append_utf8 fresh m (c_lit "mode") 4 (Some (c_mem s)) (-1)) m body outer
    (field_bytes 0x02 (cs "mode") (le_bytes 4 (blen s + 1) ++ s ++ [0]))).
  { unfold bson_append_utf8, append_string, string_length. cbn [Z.ltb Z.compare].
    unfold c_mem. rewrite c_string_app by done. cbn [bind]. rewrite s32_small by (unfold in_s32; lia).
    rewrite (bytes_at_app s [0]) by lia. cbn [bind].
    apply (append_ls fresh m body outer (c_lit "mode") 4 (cs "mode") Hb (literal_key (cs "mode") eq_refl ltac:(by repeat constructor))
      0x02 _ [le_bytes 4 (blen s + 1); s; [0]]); cbn [concat]; rewrite ?app_nil_r; try done;
      rewrite !blen_app, blen_le_bytes; change (blen [0]) with 1; lia. }
  assert (Hml : blen (field_bytes 0x02 (cs "mode") (le_bytes 4 (blen s + 1) ++ s ++ [0])) = 11 + blen s).
  { unfold field_bytes. rewrite blen_cons, blen_app, blen_cons, !blen_app, blen_le_bytes.
    change (blen [0]) with 1. change (blen (cs "mode")) with 4. lia. }
  apply appends_fits in Hmode as (m1 & -> & Hb1); [|rewrite Hml; lia]. cbn [bind snd].
  unfold read_preference_body. fold s. rewrite !app_assoc.
  set (body1 := body ++ field_bytes 2 (cs "mode") (le_bytes 4 (blen s + 1) ++ s ++ [0])) in *.
  assert (He1 : extent body1 outer = extent body outer + 11 + blen s).
  { unfold extent, body1. rewrite blen_app, Hml. lia. }
  set (body2 := body1 ++ (if decide (tags = []) then [] else field_bytes 4 (cs "tags") (doc_bytes tags))).
  assert (Htl : blen (field_bytes 4 (cs "tags") (doc_bytes tags)) = 11 + blen tags).
  { unfold field_bytes. rewrite blen_cons, blen_app, blen_cons, blen_doc_bytes. change (blen (cs "tags")) with 4. lia. }
  assert (Ht : ∃ m2, (if bool_decide (tags = []) then Ret m1
      else let* t := deref (Some (doc_bytes tags)) in
           let* r := bson_append_array fresh m1 (c_lit "tags") 4 t in Ret r.2) = Ret m2
      ∧ builds m2 body2 outer).
  { unfold body2. destruct (decide (tags = [])) as [->|Hne]; [exists m1; by rewrite app_nil_r|].
    rewrite bool_decide_false by done. cbn [deref bind].
    assert (Ha : appends (bson_append_array fresh m1 (c_lit "tags") 4 (doc_bytes tags)) m1 body1 outer
      (field_bytes 0x04 (cs "tags") (doc_bytes tags))).
    { apply append_array_doc_builds; [done|apply (literal_key (cs "tags")); [done|by repeat constructor]| |].
      - apply doc_bytes_ok, Htok.
      - rewrite blen_doc_bytes. lia. }
    apply appends_fits in Ha as (m2 & -> & Hb2); [|lia]. by exists m2. }
  destruct Ht as (m2 & -> & Hb2). cbn [bind].
  assert (He2 : extent body2 outer ≤ extent body1 outer + 11 + blen tags).
  { unfold extent, body2. rewrite blen_app. destruct (decide (tags = [])); [change (blen []) with 0; lia|lia]. }
  destruct (Z.eqb_spec (rp_max_staleness_seconds rp) MONGOC_NO_MAX_STALENESS) as [Hn|Hn]; cbn [negb].
  - exists m2. rewrite (decide_True _ _ Hn), app_nil_r. done.
  - rewrite (decide_False _ _ Hn).
    assert (Ha : appends (bson_append_int64 fresh m2 (c_lit "maxStalenessSeconds") 19 (rp_max_staleness_seconds rp))
      m2 body2 outer (field_bytes 0x12 (cs "maxStalenessSeconds") (le_bytes 8 (rp_max_staleness_seconds rp)))).
    { apply append_one; [done|apply (literal_key (cs "maxStalenessSeconds")); [done|by repeat constructor]| |];
        by rewrite blen_le_bytes. }
    apply appends_fits in Ha as (m3 & -> & Hb3); [by exists m3|].
    unfold field_bytes. rewrite blen_cons, blen_app, blen_cons, blen_le_bytes.
    change (blen (cs "maxStalenessSeconds")) with 19. lia.
Qed.
Lemma mongos_query has flags :
  bson_has_field (doc_bytes query) (cs "$query") = Ret has →
  rp_mode rp ≠ MONGOC_READ_PRIMARY →
  ¬ (rp_mode rp = MONGOC_READ_SECONDARY_PREFERRED ∧ tags = []) →
  _apply_read_preferences_mongos fresh (Some rp) (doc_bytes query) (Assembled (doc_bytes query) false flags)
  = Ret (Assembled (wrapped_query has query rp tags) true (Z.lor flags MONGOC_QUERY_SLAVE_OK)).
Proof using Htags Htok Hq.
  intros Hhas Hmode Hnot. pose proof Hq as (_ & _ & Hql). pose proof Htok as (_ & _ & Htl).
  pose proof (blen_nonneg query). pose proof (blen_nonneg tags).
  unfold _apply_read_preferences_mongos, mongoc_read_prefs_get_tags. cbn [mongoc_read_prefs_get_mode].
  rewrite (get_data_builds _ _ _ Htags). cbn [bind bson_empty0]. rewrite (bson_empty_body tags Htok). cbn [bind].
  assert (E : bool_decide (rp_mode rp = MONGOC_READ_SECONDARY_PREFERRED) && bool_decide (tags = []) = false).
  { apply andb_false_iff. destruct (decide (rp_mode rp = MONGOC_READ_SECONDARY_PREFERRED)); [right|left];
      apply bool_decide_eq_false; tauto. }
  rewrite E, (bool_decide_eq_false_2 _ Hmode), Hhas. cbn [negb bind].
  pose proof (init_builds fresh) as Hi.
  set (q := if has then query else field_bytes 3 (cs "$query") (doc_bytes query)).
  assert (Hqb : blen q ≤ blen query + 13).
  { unfold q. destruct has; [lia|]. unfold field_bytes. rewrite blen_cons, blen_app, blen_cons, blen_doc_bytes.
    change (blen (cs "$query")) with 6. lia. }
  assert (Ha : appends (if has then bson_concat fresh (bson_init fresh) (doc_bytes query)
      else bson_append_document fresh (bson_init fresh) (c_lit "$query") 6 (doc_bytes query))
    (bson_init fresh) [] [] q).
  { unfold q. destruct has; [by apply concat_builds|].
    apply append_one; [done|apply (literal_key (cs "$query")); [done|by repeat constructor]|done|].
    rewrite blen_doc_bytes. lia. }
  apply appends_fits in Ha as (m1 & -> & Hb1);
    [|unfold extent; cbn [front length]; change (blen []) with 0; lia].
  cbn [bind snd app] in Hb1 |- *.
  pose proof (begin_builds fresh m1 q [] (c_lit "$readPreference") 15 (cs "$readPreference") 0x03 Hb1
    (literal_key (cs "$readPreference") eq_refl ltac:(by repeat constructor))) as Hbeg.
  apply returns_Ret in Hbeg as ([ok m2] & Hr & Hb2). unfold bson_append_document_begin. rewrite Hr. cbn [bind fst snd].
  destruct ok; cbn [negb].
  2: { destruct Hb2 as [_ Hbig]. unfold extent in Hbig. cbn [front length] in Hbig.
       change (blen []) with 0 in Hbig. change (blen (cs "$readPreference")) with 15 in Hbig. lia. }
  set (o := q ++ 3 :: cs "$readPreference" ++ [0]) in *.
  destruct (read_preference_builds m2 [] [o] Hb2) as (m3 & Hm3 & Hb3).
  { unfold extent, o. cbn [front length]. rewrite !blen_app, blen_le_bytes, blen_cons, blen_app.
    change (blen []) with 0. change (blen (cs "$readPreference")) with 15. change (blen [0]) with 1. lia. }
  revert Hm3. unfold mongoc_read_prefs_get_max_staleness_seconds.
  destruct (bson_append_utf8 _ _ _ _ _ _) as [r|]; [|done]. cbn [bind].
  destruct (if bool_decide (tags = []) then _ else _) as [m4|]; [|done]. cbn [bind]. intros ->. cbn [bind].
  pose proof (end_builds m3 (read_preference_body rp tags) o [] Hb3) as Hend.
  apply returns_Ret in Hend as (m5 & Hr5 & Hb5). unfold bson_append_document_end. rewrite Hr5. cbn [bind].
  rewrite (get_data_builds _ _ _ Hb5). cbn [bind query_flags]. do 3 f_equal.
  unfold wrapped_query, o, field_bytes. fold q. f_equal. rewrite <- app_assoc. cbn [app]. by rewrite <- app_assoc.
Qed.
End Mongos.

Lemma has_query_returns query :
  body_ok query → ∃ has, bson_has_field (doc_bytes query) (cs "$query") = Ret has.
Proof.
  intros (Hok & _ & Hl). pose proof (blen_nonneg query).
  assert (Hdoc : bson_ok (doc_bytes query)).
  { split; [by apply doc_bytes_ok|]. rewrite blen_doc_bytes. unfold INT_MAX. lia. }
  pose proof (init_find_returns (doc_bytes query) (cs "$query") [] Hdoc ltac:(by repeat constructor)) as H1.
  apply returns_Ret in H1 as (r & Hr & _). exists r.1.
  change (bson_has_field (doc_bytes query) (cs "$query"))
    with (let* r := bson_iter_init_find (doc_bytes query) (cs "$query" ++ [0]) in Ret r.1).
  by rewrite Hr.
Qed.

(** * Properties *)

(** The query sent to a server: on a mongos (a sharded topology, or a direct
    connection to one) the primary mode leaves it alone, secondaryPreferred
    without tags only sets the slaveOK flag -- its maxStalenessSeconds, if any,
    is not sent -- and every other read preference sets the flag and sends the
    document with $query, mode, tags and maxStalenessSeconds; on a replica set
    the flag is set unless the mode is primary; a direct connection to any other
    server always sets it. *)
Theorem assemble_query_correct fresh rp tags query st tt flags :
  builds (rp_tags rp) tags [] → body_ok tags → body_ok query → tt ≠ MONGOC_TOPOLOGY_UNKNOWN →
  ∃ has, bson_has_field (doc_bytes query) (cs "$query") = Ret has
  ∧ assemble_query fresh (Some rp) st tt (doc_bytes query) flags = Ret (
      let plain := Assembled (doc_bytes query) false flags in
      let flagged := Assembled (doc_bytes query) false (Z.lor flags MONGOC_QUERY_SLAVE_OK) in
      if decide (tt = MONGOC_TOPOLOGY_SHARDED ∨ tt = MONGOC_TOPOLOGY_SINGLE ∧ st = MONGOC_SERVER_MONGOS) then
        if decide (rp_mode rp = MONGOC_READ_PRIMARY) then plain
        else if decide (rp_mode rp = MONGOC_READ_SECONDARY_PREFERRED ∧ tags = []) then flagged
        else Assembled (wrapped_query has query rp tags) true (Z.lor flags MONGOC_QUERY_SLAVE_OK)
      else if decide (tt = MONGOC_TOPOLOGY_SINGLE ∨ rp_mode rp ≠ MONGOC_READ_PRIMARY) then flagged
      else plain).
Proof.
  intros Ht Htok Hq Htt. destruct (has_query_returns query Hq) as [has Hhas]. exists has. split; [done|].
  assert (Hm : _apply_read_preferences_mongos fresh (Some rp) (doc_bytes query) (Assembled (doc_bytes query) false flags)
    = Ret (if decide (rp_mode rp = MONGOC_READ_PRIMARY) then Assembled (doc_bytes query) false flags
        else if decide (rp_mode rp = MONGOC_READ_SECONDARY_PREFERRED ∧ tags = [])
        then Assembled (doc_bytes query) false (Z.lor flags MONGOC_QUERY_SLAVE_OK)
        else Assembled (wrapped_query has query rp tags) true (Z.lor flags MONGOC_QUERY_SLAVE_OK))).
  { destruct (decide (rp_mode rp = MONGOC_READ_PRIMARY)) as [Hp|Hp];
      [|destruct (decide (rp_mode rp = MONGOC_READ_SECONDARY_PREFERRED ∧ tags = [])) as [[Hs ->]|Hs];
        [|by apply mongos_query]];
      unfold _apply_read_preferences_mongos, mongoc_read_prefs_get_tags; cbn [mongoc_read_prefs_get_mode];
      rewrite (get_data_builds _ _ _ Ht); cbn [bind bson_empty0]; rewrite (bson_empty_body _ Htok); cbn [bind].
    - by rewrite Hp.
    - by rewrite Hs. }
  unfold assemble_query.
  destruct (decide (tt = MONGOC_TOPOLOGY_SHARDED ∨ tt = MONGOC_TOPOLOGY_SINGLE ∧ st = MONGOC_SERVER_MONGOS))
    as [Hd|Hd].
  { destruct Hd as [->|[-> ->]]; [exact Hm|by rewrite decide_True by done]. }
  destruct (decide (tt = MONGOC_TOPOLOGY_SINGLE ∨ rp_mode rp ≠ MONGOC_READ_PRIMARY)) as [Hd2|Hd2].
  - destruct tt; [done|tauto| | |by rewrite decide_False by tauto];
      destruct Hd2 as [Hd2|Hd2]; try done; by rewrite decide_False by done.
  - destruct tt; [done|tauto| | |tauto]; destruct (decide (rp_mode rp = _)); tauto.
Qed.

Definition sample_prefs : mongoc_read_prefs_t :=
  ReadPrefs MONGOC_READ_NEAREST (bson_init (λ _, 0)) 120.
Lemma assemble_query_correct_witness :
  ∃ has, bson_has_field (doc_bytes []) (cs "$query") = Ret has
  ∧ assemble_query (λ _, 0) (Some sample_prefs) MONGOC_SERVER_MONGOS MONGOC_TOPOLOGY_SHARDED (doc_bytes []) 0
    = Ret (Assembled (wrapped_query has [] sample_prefs []) true (Z.lor 0 MONGOC_QUERY_SLAVE_OK)).
Proof.
  exact (assemble_query_correct (λ _, 0) sample_prefs [] [] MONGOC_SERVER_MONGOS MONGOC_TOPOLOGY_SHARDED 0
    (init_builds (λ _, 0)) ltac:(by repeat constructor) ltac:(by repeat constructor) ltac:(done)).
Defined.
