(* ===== verification/TxnOptions.v ===== *)
(** The options of transactions and sessions (the first part of
    mongoc/mongoc-client-session.c): owned copies of the concerns and read
    preferences.  A NULL pointer is [None]; freeing leaves no trace. *)
From S2P Require Import Prelude BsonIter BsonIterSafe BsonFields BsonAppend BsonBuild BsonValue BsonCopy BsonParse MongocTypes BsonEntries Concerns ReadPrefs.
From Stdlib Require Import ZArith Lia List.
From stdpp Require Import prelude strings.
#[local] Open Scope Z_scope.
#[local] Open Scope mongo_scope.

Definition DEFAULT_MAX_COMMIT_TIME_MS : Z := 0.
Definition MONGOC_SESSION_CAUSAL_CONSISTENCY : Z := 1.

Record mongoc_transaction_opt_t := TxnOpt {
  to_read_concern : option mongoc_read_concern_t;
  to_write_concern : option mongoc_write_concern_t;
  to_read_prefs : option mongoc_read_prefs_t;
  to_max_commit_time_ms : Z
}.
Record mongoc_session_opt_t := SessionOpt {
  so_flags : Z;
  so_default_txn_opts : mongoc_transaction_opt_t
}.

Section TxnOptions.
Variable fresh : Z → Z.
Implicit Type opts : mongoc_transaction_opt_t.

Definition mongoc_transaction_opts_new : mongoc_transaction_opt_t :=
  TxnOpt None None None DEFAULT_MAX_COMMIT_TIME_MS.
Definition mongoc_transaction_opts_set_max_commit_time_ms opts (ms : Z) :=
  TxnOpt (to_read_concern opts) (to_write_concern opts) (to_read_prefs opts) ms.
Definition mongoc_transaction_opts_get_max_commit_time_ms opts := to_max_commit_time_ms opts.
Definition mongoc_transaction_opts_set_read_concern opts (rc : option mongoc_read_concern_t) :=
  TxnOpt (mongoc_read_concern_copy fresh rc) (to_write_concern opts) (to_read_prefs opts) (to_max_commit_time_ms opts).
Definition mongoc_transaction_opts_get_read_concern opts := to_read_concern opts.
Definition mongoc_transaction_opts_set_write_concern opts (wc : option mongoc_write_concern_t) :=
  TxnOpt (to_read_concern opts) (mongoc_write_concern_copy fresh wc) (to_read_prefs opts) (to_max_commit_time_ms opts).
Definition mongoc_transaction_opts_get_write_concern opts := to_write_concern opts.
Definition mongoc_transaction_opts_set_read_prefs opts (rp : option mongoc_read_prefs_t) :=
  let* rp := mongoc_read_prefs_copy fresh rp in
  Ret (TxnOpt (to_read_concern opts) (to_write_concern opts) rp (to_max_commit_time_ms opts)).
Definition mongoc_transaction_opts_get_read_prefs opts := to_read_prefs opts.

(** only what is given is overwritten *)
Definition txn_opts_set opts (read_concern : option mongoc_read_concern_t)
    (write_concern : option mongoc_write_concern_t) (read_prefs : option mongoc_read_prefs_t)
    (max_commit_time_ms : Z) : res mongoc_transaction_opt_t :=
  let opts := match read_concern with
              | Some _ => mongoc_transaction_opts_set_read_concern opts read_concern
              | None => opts
              end in
  let opts := match write_concern with
              | Some _ => mongoc_transaction_opts_set_write_concern opts write_concern
              | None => opts
              end in
  let* opts := match read_prefs with
               | Some _ => mongoc_transaction_opts_set_read_prefs opts read_prefs
               | None => Ret opts
               end in
  Ret (if negb (max_commit_time_ms =? DEFAULT_MAX_COMMIT_TIME_MS)
       then mongoc_transaction_opts_set_max_commit_time_ms opts max_commit_time_ms else opts).
Definition txn_opts_cleanup opts : mongoc_transaction_opt_t := TxnOpt None None None DEFAULT_MAX_COMMIT_TIME_MS.
Definition txn_opts_copy (src : mongoc_transaction_opt_t) : res mongoc_transaction_opt_t :=
  let* rp := mongoc_read_prefs_copy fresh (to_read_prefs src) in
  Ret (TxnOpt (mongoc_read_concern_copy fresh (to_read_concern src))
         (mongoc_write_concern_copy fresh (to_write_concern src)) rp (to_max_commit_time_ms src)).
Definition mongoc_transaction_opts_clone opts : res mongoc_transaction_opt_t := txn_opts_copy opts.

(** *** Sessions *)
Definition mongoc_session_opts_set_causal_consistency (opts : mongoc_session_opt_t) (causal_consistency : bool) :=
  SessionOpt (if causal_consistency then Z.lor (so_flags opts) MONGOC_SESSION_CAUSAL_CONSISTENCY
              else Z.land (so_flags opts) (Z.lnot MONGOC_SESSION_CAUSAL_CONSISTENCY)) (so_default_txn_opts opts).
Definition mongoc_session_opts_get_causal_consistency (opts : mongoc_session_opt_t) : bool :=
  negb (Z.land (so_flags opts) MONGOC_SESSION_CAUSAL_CONSISTENCY =? 0).
Definition mongoc_session_opts_new : mongoc_session_opt_t :=
  mongoc_session_opts_set_causal_consistency (SessionOpt 0 (TxnOpt None None None 0)) true.
Definition mongoc_session_opts_set_default_transaction_opts (opts : mongoc_session_opt_t) (txn_opts : mongoc_transaction_opt_t) :=
  let* d := txn_opts_set (so_default_txn_opts opts) (to_read_concern txn_opts) (to_write_concern txn_opts)
              (to_read_prefs txn_opts) (to_max_commit_time_ms txn_opts) in
  Ret (SessionOpt (so_flags opts) d).
Definition mongoc_session_opts_get_default_transaction_opts (opts : mongoc_session_opt_t) := so_default_txn_opts opts.
Definition _mongoc_session_opts_copy (src : mongoc_session_opt_t) : res mongoc_session_opt_t :=
  let* d := txn_opts_copy (so_default_txn_opts src) in Ret (SessionOpt (so_flags src) d).
Definition mongoc_session_opts_clone := _mongoc_session_opts_copy.
End TxnOptions.

(** ** Options without their caches *)
Definition rc_value (rc : option mongoc_read_concern_t) : option (option (list Z)) := rc_level <$> rc.
Definition wc_value (wc : option mongoc_write_concern_t) : option (Z * Z * Z * Z * option (list Z) * bool) :=
  wc_fields <$> wc.

(** read preferences are copied without fault; their tags are a document *)
Definition prefs_ok (rp : option mongoc_read_prefs_t) : Prop :=
  match rp with Some rp => ∃ tags, builds (rp_tags rp) tags [] ∧ 5 + blen tags ≤ 2 ^ 30 | None => True end.
Definition txn_opts_ok (o : mongoc_transaction_opt_t) : Prop :=
  match to_write_concern o with Some wc => wc_ok wc | None => True end ∧ prefs_ok (to_read_prefs o).

Section Facts.
Variable fresh : Z → Z.

Lemma read_prefs_copy_ok rp :
  prefs_ok rp → ∃ rp', mongoc_read_prefs_copy fresh rp = Ret rp' ∧ prefs_ok rp' ∧ (rp = None ↔ rp' = None)
    ∧ rp_mode <$> rp' = rp_mode <$> rp.
Proof using Type.
  destruct rp as [rp|]; [|by exists None]. intros (tags & Hb & Hs).
  pose proof (copy_to_builds fresh _ _ Hb Hs) as Hc. apply returns_Ret in Hc as (m & Hc & Hm).
  unfold mongoc_read_prefs_copy. rewrite Hc. cbn [bind]. eexists. split; [done|]. by split; [exists tags|].
Qed.
Lemma wc_copy_ok wc : match wc with Some wc => wc_ok wc | None => True end →
  match mongoc_write_concern_copy fresh wc with Some wc => wc_ok wc | None => True end.
Proof using Type.
  destruct wc as [wc|]; [|done]. intros Hwc. eapply (wc_call_ok fresh); [|exact Hwc]. by apply call_copy.
Qed.
Lemma wc_value_copy wc : wc_value (mongoc_write_concern_copy fresh wc) = wc_value wc.
Proof using Type. by destruct wc. Qed.
Lemma rc_value_copy rc : rc_value (mongoc_read_concern_copy fresh rc) = rc_value rc.
Proof using Type. by destruct rc. Qed.

(** what is given replaces, what is not given stays *)
Lemma txn_opts_set_ok opts rc wc rp ms :
  txn_opts_ok opts → match wc with Some wc => wc_ok wc | None => True end → prefs_ok rp →
  ∃ o, txn_opts_set fresh opts rc wc rp ms = Ret o ∧ txn_opts_ok o
    ∧ rc_value (to_read_concern o) = match rc with Some _ => rc_value rc | None => rc_value (to_read_concern opts) end
    ∧ wc_value (to_write_concern o) = match wc with Some _ => wc_value wc | None => wc_value (to_write_concern opts) end
    ∧ to_max_commit_time_ms o = (if ms =? 0 then to_max_commit_time_ms opts else ms).
Proof using Type.
  intros [Hwc Hrp] Hwc2 Hrp2. unfold txn_opts_set.
  set (o1 := match rc with Some _ => _ | None => opts end). set (o2 := match wc with Some _ => _ | None => o1 end).
  assert (H1 : txn_opts_ok o2 ∧ to_read_prefs o2 = to_read_prefs opts ∧ to_max_commit_time_ms o2 = to_max_commit_time_ms opts
    ∧ rc_value (to_read_concern o2) = match rc with Some _ => rc_value rc | None => rc_value (to_read_concern opts) end
    ∧ wc_value (to_write_concern o2) = match wc with Some _ => wc_value wc | None => wc_value (to_write_concern opts) end).
  { pose proof (wc_copy_ok wc Hwc2). unfold o2, o1, txn_opts_ok. destruct rc, wc; by cbn in *. }
  destruct H1 as ((H1 & H2) & Hp & Hm & Hr & Hw). clearbody o2. clear o1.
  assert (H3 : ∃ o3, match rp with Some _ => mongoc_transaction_opts_set_read_prefs fresh o2 rp | None => Ret o2 end = Ret o3
    ∧ txn_opts_ok o3 ∧ to_read_concern o3 = to_read_concern o2 ∧ to_write_concern o3 = to_write_concern o2
    ∧ to_max_commit_time_ms o3 = to_max_commit_time_ms o2).
  { destruct rp as [rp|]; [|by exists o2]. destruct (read_prefs_copy_ok (Some rp) Hrp2) as (rp' & Hc & Hok & _).
    unfold mongoc_transaction_opts_set_read_prefs. rewrite Hc. cbn [bind]. eexists. split; [done|]. by split. }
  destruct H3 as (o3 & -> & [Ho3 Ho4] & E1 & E2 & E3). cbn [bind]. eexists. split; [done|].
  unfold DEFAULT_MAX_COMMIT_TIME_MS. destruct (ms =? 0); cbn [negb];
    cbn [mongoc_transaction_opts_set_max_commit_time_ms to_read_concern to_write_concern to_max_commit_time_ms];
    rewrite ?E1, ?E2, ?E3, ?Hr, ?Hw, ?Hm; by split.
Qed.
End Facts.
