(* ===== verification/ServerDescription.v ===== *)
(** What the driver knows about one server (mongoc/mongoc-server-description.c):
    the parser of "ismaster" replies, the classification of servers, and the
    staleness and tag filters of server selection.

    A description holds its BSON documents by value and its strings ([me],
    [set_name], [current_primary], which point into [last_is_master]) as the
    C strings they denote; NULL is [None].  [now] is the monotonic clock. *)
From S2P Require Import Prelude CDouble BsonIter BsonIterSafe BsonFields BsonAppend BsonBuild BsonCopy BsonOid HostList MongocTypes ReadPrefs.
From Stdlib Require Import ZArith Lia List.
From stdpp Require Import prelude strings.
#[local] Open Scope Z_scope.
#[local] Open Scope mongo_scope.

Definition MONGOC_DEFAULT_WIRE_VERSION : Z := 0.
Definition MONGOC_DEFAULT_MAX_MSG_SIZE : Z := 48000000.
Definition MONGOC_DEFAULT_BSON_OBJ_SIZE : Z := 16 * 1024 * 1024.
Definition MONGOC_DEFAULT_WRITE_BATCH_SIZE : Z := 1000.
Definition MONGOC_NO_SESSIONS : Z := -1.
Definition MONGOC_NO_SET_VERSION : Z := -1.
Definition kObjectIdZero : bson_oid_t := replicate 12 0.

Record mongoc_server_description_t := SD {
  sd_id : Z;
  sd_host : mongoc_host_list_t;
  sd_round_trip_time_msec : Z;
  sd_last_update_time_usec : Z;
  sd_last_is_master : bson_t;
  sd_has_is_master : bool;
  sd_connection_address : option (list Z);
  sd_me : option (list Z);
  sd_opened : bool;
  sd_set_name : option (list Z);
  sd_error : bson_error_t;
  sd_type : mongoc_server_description_type_t;
  sd_min_wire_version : Z;
  sd_max_wire_version : Z;
  sd_max_msg_size : Z;
  sd_max_bson_obj_size : Z;
  sd_max_write_batch_size : Z;
  sd_session_timeout_minutes : Z;
  sd_hosts : bson_t;
  sd_passives : bson_t;
  sd_arbiters : bson_t;
  sd_tags : bson_t;
  sd_current_primary : option (list Z);
  sd_set_version : Z;
  sd_election_id : bson_oid_t;
  sd_last_write_date_ms : Z;
  sd_compressors : bson_t
}.
Definition sd_eta (s : mongoc_server_description_t) : mongoc_server_description_t :=
  SD (sd_id s) (sd_host s) (sd_round_trip_time_msec s) (sd_last_update_time_usec s)
     (sd_last_is_master s) (sd_has_is_master s) (sd_connection_address s) (sd_me s) (sd_opened s)
     (sd_set_name s) (sd_error s) (sd_type s) (sd_min_wire_version s) (sd_max_wire_version s)
     (sd_max_msg_size s) (sd_max_bson_obj_size s) (sd_max_write_batch_size s)
     (sd_session_timeout_minutes s) (sd_hosts s) (sd_passives s) (sd_arbiters s) (sd_tags s)
     (sd_current_primary s) (sd_set_version s) (sd_election_id s) (sd_last_write_date_ms s)
     (sd_compressors s).
#[local] Notation "A ↦ B" := (A → B → B) (at level 98, right associativity).
#[local] Notation sd_t := mongoc_server_description_t.
Definition set_rtt : Z ↦ sd_t := ltac:(setter sd_eta sd_round_trip_time_msec).
Definition set_last_is_master : bson_t ↦ sd_t := ltac:(setter sd_eta sd_last_is_master).
Definition set_has_is_master : bool ↦ sd_t := ltac:(setter sd_eta sd_has_is_master).
Definition set_me : option (list Z) ↦ sd_t := ltac:(setter sd_eta sd_me).
Definition set_opened : bool ↦ sd_t := ltac:(setter sd_eta sd_opened).
Definition set_set_name : option (list Z) ↦ sd_t := ltac:(setter sd_eta sd_set_name).
Definition set_error : bson_error_t ↦ sd_t := ltac:(setter sd_eta sd_error).
Definition set_type : mongoc_server_description_type_t ↦ sd_t := ltac:(setter sd_eta sd_type).
Definition set_min_wire : Z ↦ sd_t := ltac:(setter sd_eta sd_min_wire_version).
Definition set_max_wire : Z ↦ sd_t := ltac:(setter sd_eta sd_max_wire_version).
Definition set_max_msg_size : Z ↦ sd_t := ltac:(setter sd_eta sd_max_msg_size).
Definition set_max_bson_obj_size : Z ↦ sd_t := ltac:(setter sd_eta sd_max_bson_obj_size).
Definition set_max_write_batch_size : Z ↦ sd_t := ltac:(setter sd_eta sd_max_write_batch_size).
Definition set_session_timeout : Z ↦ sd_t := ltac:(setter sd_eta sd_session_timeout_minutes).
Definition set_hosts : bson_t ↦ sd_t := ltac:(setter sd_eta sd_hosts).
Definition set_passives : bson_t ↦ sd_t := ltac:(setter sd_eta sd_passives).
Definition set_arbiters : bson_t ↦ sd_t := ltac:(setter sd_eta sd_arbiters).
Definition set_tags : bson_t ↦ sd_t := ltac:(setter sd_eta sd_tags).
Definition set_current_primary : option (list Z) ↦ sd_t := ltac:(setter sd_eta sd_current_primary).
Definition set_set_version : Z ↦ sd_t := ltac:(setter sd_eta sd_set_version).
Definition set_election_id : bson_oid_t ↦ sd_t := ltac:(setter sd_eta sd_election_id).
Definition set_last_write_date : Z ↦ sd_t := ltac:(setter sd_eta sd_last_write_date_ms).
Definition set_compressors : bson_t ↦ sd_t := ltac:(setter sd_eta sd_compressors).

(** ** Lifecycle *)

(** zeroed memory: the documents are not even empty ones *)
Definition sd_zero : mongoc_server_description_t :=
  SD 0 (Host [] [] 0 AF_UNSPEC) 0 0 [] false None None false None no_error MONGOC_SERVER_UNKNOWN
     0 0 0 0 0 0 [] [] [] [] None 0 kObjectIdZero 0 [].

Definition mongoc_server_description_reset (now : Z) (sd : sd_t) : sd_t :=
  SD (sd_id sd) (sd_host sd) (sd_round_trip_time_msec sd) now bson_empty_doc false
     (sd_connection_address sd) None (sd_opened sd) None no_error MONGOC_SERVER_UNKNOWN
     MONGOC_DEFAULT_WIRE_VERSION MONGOC_DEFAULT_WIRE_VERSION MONGOC_DEFAULT_MAX_MSG_SIZE
     MONGOC_DEFAULT_BSON_OBJ_SIZE MONGOC_DEFAULT_WRITE_BATCH_SIZE MONGOC_NO_SESSIONS
     bson_empty_doc bson_empty_doc bson_empty_doc bson_empty_doc None MONGOC_NO_SET_VERSION
     kObjectIdZero (-1) bson_empty_doc.

(** on an address that does not parse, only the id, type and round trip time are set *)
Definition mongoc_server_description_init (now : Z) (address : list Z) (id : Z) (sd : sd_t) : sd_t :=
  match _mongoc_host_list_from_string address with
  | None =>
      SD id (sd_host sd) (-1) (sd_last_update_time_usec sd) (sd_last_is_master sd) (sd_has_is_master sd)
         (sd_connection_address sd) (sd_me sd) (sd_opened sd) (sd_set_name sd) (sd_error sd)
         MONGOC_SERVER_UNKNOWN (sd_min_wire_version sd) (sd_max_wire_version sd) (sd_max_msg_size sd)
         (sd_max_bson_obj_size sd) (sd_max_write_batch_size sd) (sd_session_timeout_minutes sd)
         (sd_hosts sd) (sd_passives sd) (sd_arbiters sd) (sd_tags sd) (sd_current_primary sd)
         (sd_set_version sd) (sd_election_id sd) (sd_last_write_date_ms sd) (sd_compressors sd)
  | Some h =>
      mongoc_server_description_reset now
        (SD id h (-1) (sd_last_update_time_usec sd) bson_empty_doc (sd_has_is_master sd)
           (Some (h_host_and_port h)) (sd_me sd) (sd_opened sd) (sd_set_name sd) (sd_error sd)
           MONGOC_SERVER_UNKNOWN (sd_min_wire_version sd) (sd_max_wire_version sd) (sd_max_msg_size sd)
           (sd_max_bson_obj_size sd) (sd_max_write_batch_size sd) (sd_session_timeout_minutes sd)
           bson_empty_doc bson_empty_doc bson_empty_doc bson_empty_doc (sd_current_primary sd)
           (sd_set_version sd) (sd_election_id sd) (sd_last_write_date_ms sd) bson_empty_doc)
  end.

(** ** Queries *)
Definition member_found (address : list Z) (members : bson_t) : res bool :=
  let '(ok, it) := bson_iter_init members in
  let* _ := bson_assert ok in
  let* r := for_each_field (λ it _,
    let* m := utf8_string it in
    if strcaseeq address m then Ret (false, true) else Ret (true, false)) it false in
  Ret r.2.
Definition mongoc_server_description_has_rs_member (server : sd_t) (address : list Z) : res bool :=
  if decide (sd_type server = MONGOC_SERVER_UNKNOWN) then Ret false
  else
    let* a := member_found address (sd_hosts server) in
    if a : bool then Ret true
    else
      let* b := member_found address (sd_arbiters server) in
      if b : bool then Ret true else member_found address (sd_passives server).

Definition mongoc_server_description_has_set_version (sd : sd_t) : bool :=
  negb (sd_set_version sd =? MONGOC_NO_SET_VERSION).
Definition mongoc_server_description_has_election_id (sd : sd_t) : res bool :=
  let* c := bson_oid_compare (sd_election_id sd) kObjectIdZero in Ret (negb (0 =? c)).
Definition mongoc_server_description_type (sd : sd_t) : list Z :=
  match sd_type sd with
  | MONGOC_SERVER_UNKNOWN => cs "Unknown"
  | MONGOC_SERVER_STANDALONE => cs "Standalone"
  | MONGOC_SERVER_MONGOS => cs "Mongos"
  | MONGOC_SERVER_POSSIBLE_PRIMARY => cs "PossiblePrimary"
  | MONGOC_SERVER_RS_PRIMARY => cs "RSPrimary"
  | MONGOC_SERVER_RS_SECONDARY => cs "RSSecondary"
  | MONGOC_SERVER_RS_ARBITER => cs "RSArbiter"
  | MONGOC_SERVER_RS_OTHER => cs "RSOther"
  | MONGOC_SERVER_RS_GHOST => cs "RSGhost"
  end.
Definition mongoc_server_description_set_state (sd : sd_t) (type : mongoc_server_description_type_t) : sd_t :=
  set_type type sd.
Definition mongoc_server_description_set_set_version (sd : sd_t) (set_version : Z) : sd_t :=
  set_set_version set_version sd.
Definition mongoc_server_description_set_election_id (sd : sd_t) (election_id : option bson_oid_t) : sd_t :=
  set_election_id (default kObjectIdZero election_id) sd.

(** 0.2, and the constant [1 - ALPHA] *)
Definition ALPHA := double_of_bits 0x3FC999999999999A.
Definition ONE_MINUS_ALPHA := double_sub (double_of_Z 1) ALPHA.
Definition mongoc_server_description_update_rtt (server : sd_t) (rtt_msec : Z) : res sd_t :=
  if sd_round_trip_time_msec server =? -1 then Ret (set_rtt rtt_msec server)
  else
    let* rtt := int64_of_double
      (double_add (double_mul ALPHA (double_of_Z rtt_msec))
                  (double_mul ONE_MINUS_ALPHA (double_of_Z (sd_round_trip_time_msec server)))) in
    Ret (set_rtt rtt server).

Definition _mongoc_server_description_set_error (sd : sd_t) (error : option bson_error_t) : sd_t :=
  let err := match error with
             | Some e => if negb (e_code e =? 0) then e
                         else bson_set_error MONGOC_ERROR_STREAM MONGOC_ERROR_STREAM_CONNECT
                                (cs "unknown error calling ismaster")
             | None => bson_set_error MONGOC_ERROR_STREAM MONGOC_ERROR_STREAM_CONNECT
                         (cs "unknown error calling ismaster")
             end in
  set_rtt (-1) (set_error err sd).

(** ** The "ismaster" reply *)

(** the locals of mongoc_server_description_handle_ismaster, and the description
    under construction; [p_failed] is [goto failure] *)
Record parse := Parse {
  p_sd : sd_t;
  p_is_master : bool;
  p_is_shard : bool;
  p_is_secondary : bool;
  p_is_arbiter : bool;
  p_is_replicaset : bool;
  p_is_hidden : bool;
  p_num_keys : Z;
  p_failed : bool
}.
Definition parse_eta (p : parse) : parse :=
  Parse (p_sd p) (p_is_master p) (p_is_shard p) (p_is_secondary p) (p_is_arbiter p)
        (p_is_replicaset p) (p_is_hidden p) (p_num_keys p) (p_failed p).
Definition set_sd : sd_t ↦ parse := ltac:(setter parse_eta p_sd).
Definition set_is_master : bool ↦ parse := ltac:(setter parse_eta p_is_master).
Definition set_is_shard : bool ↦ parse := ltac:(setter parse_eta p_is_shard).
Definition set_is_secondary : bool ↦ parse := ltac:(setter parse_eta p_is_secondary).
Definition set_is_arbiter : bool ↦ parse := ltac:(setter parse_eta p_is_arbiter).
Definition set_is_replicaset : bool ↦ parse := ltac:(setter parse_eta p_is_replicaset).
Definition set_is_hidden : bool ↦ parse := ltac:(setter parse_eta p_is_hidden).
Definition set_num_keys : Z ↦ parse := ltac:(setter parse_eta p_num_keys).
Definition set_failed : bool ↦ parse := ltac:(setter parse_eta p_failed).

(** how a branch of the loop ends *)
Definition continue (p : parse) : res (bool * parse) := Ret (true, p).
Definition failure (p : parse) : res (bool * parse) := Ret (false, set_failed true p).
Definition update (f : sd_t → sd_t) (p : parse) : res (bool * parse) := continue (set_sd (f (p_sd p)) p).

(** [if (!BSON_ITER_HOLDS_... (&iter)) goto failure;] *)
Definition require (it : bson_iter_t) (t : bson_type_t) (p : parse) (k : res (bool * parse))
    : res (bool * parse) :=
  let* h := BSON_ITER_HOLDS it t in if h : bool then k else failure p.

(** [BSON_ASSERT (bson_init_static (&sd->..., bytes, len))] *)
Definition static_doc (r : Z * option (list Z)) : res bson_t :=
  let* data := deref r.2 in
  let* b := bson_init_static data r.1 in
  match b with Some b => Ret b | None => Stuck AssertFailed end.

Section Field.
Variables (ismaster_response : bson_t) (it : bson_iter_t) (p : parse).

Definition field_int32 (set : Z → sd_t → sd_t) : res (bool * parse) :=
  require it BSON_TYPE_INT32 p (let* x := bson_iter_int32 it in update (set x) p).
Definition field_bool (set : bool → parse → parse) : res (bool * parse) :=
  require it BSON_TYPE_BOOL p (let* b := bson_iter_bool it in continue (set b p)).
Definition field_utf8 (set : option (list Z) → sd_t → sd_t) : res (bool * parse) :=
  require it BSON_TYPE_UTF8 p (let* s := utf8_string it in update (set (Some s)) p).
Definition field_array (set : bson_t → sd_t → sd_t) : res (bool * parse) :=
  require it BSON_TYPE_ARRAY p
    (let* r := bson_iter_array it in let* b := static_doc r in update (set b) p).

Definition field_ok_ : res (bool * parse) :=
  let* b := bson_iter_as_bool it in
  if b : bool then continue p
  else
    let* r := _mongoc_cmd_check_ok ismaster_response MONGOC_ERROR_API_VERSION_2 in
    let err := default (sd_error (p_sd p)) r.2 in
    failure (set_sd (set_error (Error MONGOC_ERROR_CLIENT MONGOC_ERROR_CLIENT_AUTHENTICATE
                                  (e_message err)) (p_sd p)) p).
Definition field_session_timeout : res (bool * parse) :=
  let* n := BSON_ITER_HOLDS_NUMBER it in
  if n : bool then let* x := bson_iter_as_int64 it in update (set_session_timeout x) p
  else
    let* h := BSON_ITER_HOLDS it BSON_TYPE_NULL in
    if h : bool then update (set_session_timeout MONGOC_NO_SESSIONS) p else failure p.
Definition field_election_id : res (bool * parse) :=
  require it BSON_TYPE_OID p
    (let* o := bson_iter_oid it in
     let* o := deref o in
     let* oid := rd_bytes 12 o 0 in
     update (λ sd, mongoc_server_description_set_election_id sd (Some oid)) p).
Definition field_tags : res (bool * parse) :=
  require it BSON_TYPE_DOCUMENT p
    (let* r := bson_iter_document it in let* b := static_doc r in update (set_tags b) p).
Definition field_last_write : res (bool * parse) :=
  require it BSON_TYPE_DOCUMENT p
    (let* child := bson_iter_recurse it in
     match child with
     | None => failure p
     | Some child =>
         let* f := bson_iter_find child (c_lit "lastWriteDate") in
         if f.1 then
           let* h := BSON_ITER_HOLDS f.2 BSON_TYPE_DATE_TIME in
           if h : bool then
             let* d := bson_iter_date_time f.2 in update (set_last_write_date d) p
           else failure p
         else failure p
     end).

(** the chain of [strcmp]s *)
Definition ismaster_field (key : list Z) : res (bool * parse) :=
  let key_is s := streq (cs s) key in
  if key_is "ok" then field_ok_
  else if key_is "ismaster" then field_bool set_is_master
  else if key_is "me" then field_utf8 set_me
  else if key_is "maxMessageSizeBytes" then field_int32 set_max_msg_size
  else if key_is "maxBsonObjectSize" then field_int32 set_max_bson_obj_size
  else if key_is "maxWriteBatchSize" then field_int32 set_max_write_batch_size
  else if key_is "logicalSessionTimeoutMinutes" then field_session_timeout
  else if key_is "minWireVersion" then field_int32 set_min_wire
  else if key_is "maxWireVersion" then field_int32 set_max_wire
  else if key_is "msg" then
    require it BSON_TYPE_UTF8 p
      (let* r := bson_iter_utf8 it false in continue (set_is_shard (bool_decide (is_Some r.1)) p))
  else if key_is "setName" then field_utf8 set_set_name
  else if key_is "setVersion" then
    let* x := bson_iter_as_int64 it in
    update (λ sd, mongoc_server_description_set_set_version sd x) p
  else if key_is "electionId" then field_election_id
  else if key_is "secondary" then field_bool set_is_secondary
  else if key_is "hosts" then field_array set_hosts
  else if key_is "passives" then field_array set_passives
  else if key_is "arbiters" then field_array set_arbiters
  else if key_is "primary" then field_utf8 set_current_primary
  else if key_is "arbiterOnly" then field_bool set_is_arbiter
  else if key_is "isreplicaset" then field_bool set_is_replicaset
  else if key_is "tags" then field_tags
  else if key_is "hidden" then let* b := bson_iter_bool it in continue (set_is_hidden b p)
  else if key_is "lastWrite" then field_last_write
  else if key_is "idleWritePeriodMillis" then
    let* x := bson_iter_as_int64 it in update (set_last_write_date x) p
  else if key_is "compression" then field_array set_compressors
  else continue p.
End Field.

(** the type that the flags and the set name amount to *)
Definition server_type_of (p : parse) : mongoc_server_description_type_t :=
  if p_is_shard p then MONGOC_SERVER_MONGOS
  else if sd_set_name (p_sd p) then
    if p_is_hidden p then MONGOC_SERVER_RS_OTHER
    else if p_is_master p then MONGOC_SERVER_RS_PRIMARY
    else if p_is_secondary p then MONGOC_SERVER_RS_SECONDARY
    else if p_is_arbiter p then MONGOC_SERVER_RS_ARBITER
    else MONGOC_SERVER_RS_OTHER
  else if p_is_replicaset p then MONGOC_SERVER_RS_GHOST
  else if p_num_keys p >? 0 then MONGOC_SERVER_STANDALONE
  else MONGOC_SERVER_UNKNOWN.

(** one turn of the loop: the key is counted, then matched *)
Definition ismaster_step (ismaster_response : bson_t) (it : bson_iter_t) (p : parse)
    : res (bool * parse) :=
  let p := set_num_keys (p_num_keys p + 1) p in
  let* k := bson_iter_key it in
  let* key := c_string k in
  ismaster_field ismaster_response it p key.

Definition mongoc_server_description_handle_ismaster (now : Z) (sd : sd_t)
    (ismaster_response : option bson_t) (rtt_msec : Z) (error : option bson_error_t) : res sd_t :=
  let sd := mongoc_server_description_reset now sd in
  match ismaster_response with
  | None => Ret (_mongoc_server_description_set_error sd error)
  | Some doc =>
      let sd := set_has_is_master true (set_last_is_master doc sd) in
      let '(ok, it) := bson_iter_init doc in
      let* _ := bson_assert ok in
      let* r := for_each_field (ismaster_step doc) it
                  (Parse sd false false false false false false 0 false) in
      let p := r.2 in
      if p_failed p then Ret (set_rtt (-1) (set_type MONGOC_SERVER_UNKNOWN (p_sd p)))
      else
        let sd := set_type (server_type_of p) (p_sd p) in
        let sd := if p_num_keys p =? 0 then _mongoc_server_description_set_error sd error else sd in
        mongoc_server_description_update_rtt sd rtt_msec
  end.

Definition mongoc_server_description_new_copy (now : Z) (description : option sd_t) : res (option sd_t) :=
  match description with
  | None => Ret None
  | Some d =>
      let copy := SD (sd_id d) (sd_host d) (-1) 0 bson_empty_doc false (Some (h_host_and_port (sd_host d)))
                     None (sd_opened d) None no_error MONGOC_SERVER_UNKNOWN 0 0 0 0 0 0 bson_empty_doc
                     bson_empty_doc bson_empty_doc bson_empty_doc None 0 kObjectIdZero 0 bson_empty_doc in
      let* copy :=
        (if sd_has_is_master d then
           mongoc_server_description_handle_ismaster now copy (Some (sd_last_is_master d))
             (sd_round_trip_time_msec d) (Some (sd_error d))
         else Ret (mongoc_server_description_reset now copy)) in
      Ret (Some (set_error (sd_error d) copy))
  end.

(** ** Filters of server selection

    The array of candidate descriptions has NULL at the rejected ones. *)
Section Filters.
Implicit Types sds : list (option sd_t).

Definition is_secondary (sd : sd_t) : bool := bool_decide (sd_type sd = MONGOC_SERVER_RS_SECONDARY).

(** the staleness of a secondary against the primary, and against the latest
    write date of the secondaries *)
Definition staleness_with_primary (heartbeat_usec : Z) (primary sd : sd_t) : res Z :=
  let* a := chk64 (sd_last_write_date_ms primary * 1000) in
  let* b := chk64 (sd_last_update_time_usec sd - sd_last_update_time_usec primary) in
  let* ab := chk64 (a + b) in
  let* c := chk64 (sd_last_write_date_ms sd * 1000) in
  let* abc := chk64 (ab - c) in
  chk64 (abc + heartbeat_usec).
Definition staleness_without_primary (heartbeat_usec max_last_write : Z) (sd : sd_t) : res Z :=
  let* c := chk64 (sd_last_write_date_ms sd * 1000) in
  let* d := chk64 (max_last_write - c) in
  chk64 (d + heartbeat_usec).

(** the loop that sets stale secondaries to NULL *)
Fixpoint reject_stale (staleness : sd_t → res Z) (max_staleness_usec : Z) sds : res (list (option sd_t)) :=
  match sds with
  | [] => Ret []
  | Some sd :: sds' =>
      let* keep :=
        (if is_secondary sd then
           let* s := staleness sd in Ret (negb (s >? max_staleness_usec))
         else Ret true) in
      let* r := reject_stale staleness max_staleness_usec sds' in
      Ret ((if keep : bool then Some sd else None) :: r)
  | None :: sds' => let* r := reject_stale staleness max_staleness_usec sds' in Ret (None :: r)
  end.
Fixpoint max_last_write_date (acc : Z) sds : res Z :=
  match sds with
  | [] => Ret acc
  | Some sd :: sds' =>
      if is_secondary sd then
        let* w := chk64 (sd_last_write_date_ms sd * 1000) in max_last_write_date (Z.max acc w) sds'
      else max_last_write_date acc sds'
  | None :: sds' => max_last_write_date acc sds'
  end.

Definition mongoc_server_description_filter_stale sds (primary : option sd_t)
    (heartbeat_frequency_ms : Z) (read_prefs : option mongoc_read_prefs_t) : res (list (option sd_t)) :=
  match read_prefs with
  | None => Ret sds
  | Some rp =>
      let max_staleness_seconds := mongoc_read_prefs_get_max_staleness_seconds rp in
      if max_staleness_seconds =? MONGOC_NO_MAX_STALENESS then Ret sds
      else
        let* _ := bson_assert (max_staleness_seconds >? 0) in
        let* ms := chk64 (max_staleness_seconds * 1000) in
        let* max_staleness_usec := chk64 (ms * 1000) in
        let* heartbeat_usec := chk64 (heartbeat_frequency_ms * 1000) in
        match primary with
        | Some primary =>
            reject_stale (staleness_with_primary heartbeat_usec primary) max_staleness_usec sds
        | None =>
            let* max_last_write := max_last_write_date 0 sds in
            reject_stale (staleness_without_primary heartbeat_usec max_last_write) max_staleness_usec sds
        end
  end.

(** [memcmp (a, b, n) != 0] *)
Definition memcmp_ne (a b : option (list Z)) (n : Z) : res bool :=
  if n =? 0 then Ret false
  else
    let* a := deref a in
    let* b := deref b in
    let* x := rd_bytes (Z.to_nat n) a 0 in
    let* y := rd_bytes (Z.to_nat n) b 0 in
    Ret (negb (bool_decide (x = y))).

Definition _match_tag_set (sd : sd_t) (tag_set_iter : bson_iter_t) : res bool :=
  let* r := for_each_field (λ it _,
    let* read_pref_tag := bson_iter_key it in
    let* rv := bson_iter_utf8 it true in
    let* f := bson_iter_init_find (sd_tags sd) read_pref_tag in
    if f.1 then
      let* sv := bson_iter_utf8 f.2 true in
      if negb (sv.2 =? rv.2) then Ret (false, false)
      else
        let* ne := memcmp_ne rv.1 sv.1 rv.2 in
        if ne : bool then Ret (false, false) else Ret (true, true)
    else Ret (false, false)) tag_set_iter true in
  Ret r.2.

(** the inner loop over the descriptions: [sd_matched] and [found] *)
Fixpoint match_each (tagset : bson_iter_t) sds (sd_matched : list bool) : res (list bool * bool) :=
  match sds, sd_matched with
  | Some sd :: sds', _ :: ms =>
      let* child := bson_iter_recurse tagset in
      match child with
      | None => Stuck AssertFailed
      | Some tag_set_iter =>
          let* m := _match_tag_set sd tag_set_iter in
          let* r := match_each tagset sds' ms in
          Ret (m :: r.1, m || r.2)
      end
  | None :: sds', b :: ms => let* r := match_each tagset sds' ms in Ret (b :: r.1, r.2)
  | _, _ => Ret ([], false)
  end.
(** [if (!sd_matched[i]) descriptions[i] = NULL] *)
Definition keep_matched (sd_matched : list bool) sds : list (option sd_t) :=
  zip_with (λ (m : bool) d, if m then d else None) sd_matched sds.

Definition mongoc_server_description_filter_tags sds (read_prefs : option mongoc_read_prefs_t)
    : res (list (option sd_t)) :=
  match read_prefs with
  | None => Ret sds
  | Some rp =>
      let* rp_tags := mongoc_read_prefs_get_tags rp in
      let* n := bson_count_keys rp_tags in
      if n =? 0 then Ret sds
      else
        let '(_, it) := bson_iter_init rp_tags in
        let* r := for_each_field (λ it (s : list bool * bool),
          let* m := match_each it sds s.1 in
          if m.2 : bool then Ret (false, (m.1, true)) else Ret (true, (m.1, false)))
          it (replicate (length sds) false, false) in
        Ret (keep_matched r.2.1 sds)
  end.

(** ** Compression: the names this build knows (zlib, and noop) *)
Definition mongoc_compressor_name_to_id (compressor : list Z) : Z :=
  if strcaseeq (cs "zlib") compressor then 2
  else if strcaseeq (cs "noop") compressor then 0 else -1.
Definition mongoc_server_description_compressor_id (sd : sd_t) : res Z :=
  let '(ok, it) := bson_iter_init (sd_compressors sd) in
  let* _ := bson_assert ok in
  let* r := for_each_field (λ it id,
    let* name := utf8_string it in
    let id := mongoc_compressor_name_to_id name in
    if negb (id =? -1) then Ret (false, id) else Ret (true, -1)) it (-1) in
  Ret r.2.
End Filters.

(** ** Safety of the parser on arbitrary replies *)

(** a document whose frame is in order: what bson_iter_init accepts *)
Definition doc_ok (d : bson_t) : Prop := bson_ok d ∧ 5 ≤ blen d.
Definition sd_ok (sd : sd_t) : Prop :=
  doc_ok (sd_last_is_master sd) ∧ doc_ok (sd_hosts sd) ∧ doc_ok (sd_passives sd)
  ∧ doc_ok (sd_arbiters sd) ∧ doc_ok (sd_tags sd) ∧ doc_ok (sd_compressors sd)
  ∧ oid_ok (sd_election_id sd).
(** the part of a description that a reply does not change *)
Definition same_server (a b : sd_t) : Prop :=
  sd_id a = sd_id b ∧ sd_host a = sd_host b ∧ sd_connection_address a = sd_connection_address b
  ∧ sd_opened a = sd_opened b.
Definition keeps (sd0 : sd_t) (p : parse) : Prop := sd_ok (p_sd p) ∧ same_server sd0 (p_sd p) ∧ 0 ≤ p_num_keys p.

(** the faults a reply can provoke: an assertion on a nested document, and the
    conversion of a double that has no 64-bit value *)
Definition reply_fault (f : fault) : Prop := f = AssertFailed ∨ f = BadConversion.

Lemma empty_doc_ok : doc_ok bson_empty_doc.
Proof. split; [split; [repeat constructor; lia|done]|done]. Qed.
Lemma reset_ok now sd : sd_ok (mongoc_server_description_reset now sd).
Proof.
  unfold sd_ok. do 6 (split; [exact empty_doc_ok|]). split; [done|]. repeat constructor; lia.
Qed.

Section ParserSafety.
Variables (sd0 : sd_t) (doc : bson_t) (it : bson_iter_t) (t : bson_type_t) (p : parse).
Hypothesis Hat : iter_at it doc t.
Hypothesis Hdoc : doc_ok doc.
Hypothesis Hp : keeps sd0 p.

#[local] Notation good r := (outcome reply_fault r (λ x, keeps sd0 x.2)).

Lemma update_good f : sd_ok (f (p_sd p)) → same_server sd0 (f (p_sd p)) → good (update f p).
Proof using Hp. intros. simpl. split; [done|]. split; [done|]. apply Hp. Qed.
Lemma require_good ty k : (t = ty → good k) → good (require it ty p k).
Proof using Hat Hp.
  intros H. unfold require. rewrite (HOLDS_at _ _ _ Hat). cbn [bind].
  destruct (bool_decide_reflect (t = ty)); [by apply H|exact Hp].
Qed.
Lemma read_good {A} (m : res A) (P : A → Prop) (k : A → res (bool * parse)) :
  returns m P → (∀ a, P a → good (k a)) → good (let* a := m in k a).
Proof using. intros Hm Hk. apply returns_Ret in Hm as (a & -> & Ha). by apply Hk. Qed.

Lemma field_int32_good set :
  (∀ x sd, sd_ok sd → sd_ok (set x sd)) → (∀ x sd, same_server sd0 sd → same_server sd0 (set x sd)) →
  good (field_int32 it p set).
Proof using Hat Hp.
  intros H1 H2. apply require_good. intros _. eapply read_good; [by eapply bson_iter_int32_at|].
  intros x _. apply update_good; [apply H1, Hp|apply H2, Hp].
Qed.
Lemma field_bool_good set :
  (∀ b q, p_sd (set b q) = p_sd q ∧ p_num_keys (set b q) = p_num_keys q) → good (field_bool it p set).
Proof using Hat Hp.
  intros H. apply require_good. intros _. eapply read_good; [by eapply bson_iter_bool_at|].
  intros b _. unfold continue, keeps. cbn [outcome snd]. destruct (H b p) as [-> ->]. exact Hp.
Qed.
Lemma field_utf8_good set :
  (∀ x sd, sd_ok sd → sd_ok (set x sd)) → (∀ x sd, same_server sd0 sd → same_server sd0 (set x sd)) →
  good (field_utf8 it p set).
Proof using Hat Hp.
  intros H1 H2. apply require_good. intros Ht. eapply read_good; [by eapply utf8_string_at|].
  intros x _. apply update_good; [apply H1, Hp|apply H2, Hp].
Qed.
Lemma static_doc_good r (k : bson_t → res (bool * parse)) :
  slice_ok r.2 r.1 → is_Some r.2 → (∀ b, doc_ok b → good (k b)) → good (let* b := static_doc r in k b).
Proof using.
  intros Hs [d Hd] Hk. unfold static_doc. rewrite Hd in *. destruct Hs as [Hbytes Hlen]. cbn [deref bind].
  pose proof (bson_init_static_ok d r.1 Hbytes ltac:(lia)) as H.
  apply returns_Ret in H as ([b|] & -> & H); cbn [bind]; [|by left].
  apply Hk. destruct H as (Hb & _ & Hbl & H5 & _). split; [done|lia].
Qed.
Lemma subdoc_good ty get set :
  ty = BSON_TYPE_ARRAY ∧ get = bson_iter_array ∨ ty = BSON_TYPE_DOCUMENT ∧ get = bson_iter_document →
  (∀ b sd, doc_ok b → sd_ok sd → sd_ok (set b sd)) →
  (∀ b sd, same_server sd0 sd → same_server sd0 (set b sd)) →
  good (require it ty p (let* r := get it in let* b := static_doc r in update (set b) p)).
Proof using Hat Hp.
  intros Hty H1 H2. apply require_good. intros Ht.
  pose proof (subdoc_at it doc t ty Hat ltac:(naive_solver)) as Hs.
  assert (Hget : returns (get it) (λ r, slice_ok r.2 r.1 ∧ is_Some r.2)).
  { destruct Hty as [[-> ->]|[-> ->]]; (eapply returns_mono; [exact Hs|]); intros r Hr;
      cbv beta in Hr; rewrite decide_True in Hr by done; destruct Hr as (n & -> & Hn);
      (split; [eapply (subdoc_slice_at it doc t _ Hat); left; by exists n|by eexists]). }
  eapply read_good; [exact Hget|]. intros r [Hsl Hsome]. apply static_doc_good; [done|done|].
  intros b Hb. apply update_good; [apply H1; [done|apply Hp]|apply H2, Hp].
Qed.

Lemma as_int64_good (k : Z → res (bool * parse)) :
  (∀ x, in_s64 x → good (k x)) → good (let* x := bson_iter_as_int64 it in k x).
Proof using Hat.
  intros Hk. eapply outcome_bind.
  - eapply outcome_mono; [by eapply bson_iter_as_int64_at| |].
    + intros f ->. by right.
    + intros x _ Hx. exact Hx.
  - intros x _. apply Hk.
Qed.
Lemma field_ok_good : good (field_ok_ doc it p).
Proof using Hat Hdoc Hp.
  unfold field_ok_. eapply read_good; [by eapply bson_iter_as_bool_at|]. intros [] _; [exact Hp|].
  eapply read_good; [apply cmd_check_ok_returns, Hdoc|]. intros r _. exact Hp.
Qed.
Lemma field_session_timeout_good : good (field_session_timeout it p).
Proof using Hat Hp.
  unfold field_session_timeout, BSON_ITER_HOLDS_NUMBER. rewrite (bson_iter_type_at _ _ _ Hat).
  cbn [bind]. destruct (_ || _); [apply as_int64_good; intros x _; by apply update_good; apply Hp|].
  rewrite (HOLDS_at _ _ _ Hat). cbn [bind]. destruct (bool_decide _); [by apply update_good; apply Hp|exact Hp].
Qed.
Lemma field_election_id_good : good (field_election_id it p).
Proof using Hat Hp.
  apply require_good. intros Ht. pose proof (at_bounds _ _ _ Hat) as (Hok & Hb).
  pose proof (at_field _ _ _ Hat) as Hf. rewrite Ht in Hf. cbn [field_ok] in Hf.
  unfold bson_iter_oid, bson_iter_oid_unsafe. rewrite (if_type_at _ _ _ Hat), decide_True by done.
  rewrite (field_ptr_at _ _ _ Hat). cbn [bind deref].
  eapply read_good; [apply (rd_bytes_ok 12); [by apply bytes_ok_ptr_add|lia|rewrite blen_drop by lia; lia]|].
  intros o Ho. destruct Hp as (Hsd & Hs & _). apply update_good; [|exact Hs].
  destruct Hsd as (? & ? & ? & ? & ? & ? & _). done.
Qed.
Lemma field_last_write_good : good (field_last_write it p).
Proof using Hat Hp.
  apply require_good. intros Ht. eapply read_good; [by eapply bson_iter_recurse_at|].
  intros [child|] Hc; [|exact Hp]. destruct Hc as [_ Hc].
  change (c_lit "lastWriteDate") with (cs "lastWriteDate" ++ [0]).
  eapply read_good; [apply find_returns; [done|by repeat constructor]|]. intros [[] f]; cbn [fst snd]; [|by intros; exact Hp].
  intros (d & t' & _ & Hat'). rewrite (HOLDS_at _ _ _ Hat'). cbn [bind].
  destruct (bool_decide _); [|exact Hp].
  eapply read_good; [by eapply bson_iter_date_time_at|]. intros x _. by apply update_good; apply Hp.
Qed.

Lemma ismaster_field_good key : good (ismaster_field doc it p key).
Proof using Hat Hdoc Hp.
  assert (Hset : ∀ b sd (H : doc_ok b), sd_ok sd →
    sd_ok (set_hosts b sd) ∧ sd_ok (set_passives b sd) ∧ sd_ok (set_arbiters b sd)
    ∧ sd_ok (set_tags b sd) ∧ sd_ok (set_compressors b sd)).
  { intros b sd H Hs. unfold sd_ok in *. cbn. tauto. }
  assert (Harr : ∀ set, (∀ b sd, doc_ok b → sd_ok sd → sd_ok (set b sd)) →
    (∀ b sd, same_server sd0 sd → same_server sd0 (set b sd)) → good (field_array it p set)).
  { intros set. apply subdoc_good. auto. }
  unfold ismaster_field. cbv zeta.
  repeat match goal with |- good (if ?c then _ else _) => destruct c end;
    try exact Hp;
    first [ apply field_ok_good | apply field_session_timeout_good | apply field_election_id_good
          | apply field_last_write_good
          | apply field_int32_good; intros ? ? H; exact H | apply field_bool_good; by intros; split
          | apply field_utf8_good; intros ? ? H; exact H
          | apply Harr; [intros b sd Hb Hs; by apply (Hset b sd Hb Hs)|intros ? ? H; exact H]
          | apply subdoc_good; [auto|intros b sd Hb Hs; by apply (Hset b sd Hb Hs)|intros ? ? H; exact H]
          | apply as_int64_good; intros x _; by apply update_good; apply Hp
          | idtac ].
  - apply require_good. intros Ht. unfold bson_iter_utf8, string_field.
    rewrite (if_type_at _ _ _ Hat). destruct (decide _); [|exact Hp].
    cbn [bind]. rewrite (field_ptr_at _ _ _ Hat). exact Hp.
  - eapply read_good; [by eapply bson_iter_bool_at|]. intros b _. exact Hp.
Qed.
End ParserSafety.

Lemma step_good sd0 doc it t p :
  iter_at it doc t → doc_ok doc → keeps sd0 p →
  outcome reply_fault (ismaster_step doc it p) (λ r, keeps sd0 r.2).
Proof.
  intros Hat Hdoc (H1 & H2 & H3). unfold ismaster_step.
  destruct (field_key_at _ _ _ Hat) as (k & _ & Hkey & Hs). rewrite Hkey. cbn [bind]. rewrite Hs. cbn [bind].
  eapply ismaster_field_good; [done|done|]. split; [done|]. split; [done|]. cbn. lia.
Qed.

Lemma update_rtt_ok sd rtt :
  outcome (λ f, f = BadConversion) (mongoc_server_description_update_rtt sd rtt)
    (λ sd', ∃ r, sd' = set_rtt r sd).
Proof.
  unfold mongoc_server_description_update_rtt. destruct (_ =? _); [simpl; eauto|].
  destruct (int64_of_double _) as [r|f] eqn:E; simpl; [eauto|]. by eapply int64_of_double_fault.
Qed.

(** the member types carry a replica set name *)
Definition rs_member (t : mongoc_server_description_type_t) : Prop :=
  t = MONGOC_SERVER_RS_PRIMARY ∨ t = MONGOC_SERVER_RS_SECONDARY ∨ t = MONGOC_SERVER_RS_ARBITER
  ∨ t = MONGOC_SERVER_RS_OTHER.
Definition typed (sd : sd_t) : Prop :=
  (rs_member (sd_type sd) → is_Some (sd_set_name sd)) ∧ sd_type sd ≠ MONGOC_SERVER_POSSIBLE_PRIMARY.

Lemma server_type_of_typed p : typed (set_type (server_type_of p) (p_sd p)).
Proof.
  unfold typed, rs_member, server_type_of. cbn.
  destruct (p_is_shard p); [by split; [intros [?|[?|[?|?]]]|]|].
  destruct (sd_set_name (p_sd p)); [split; [by eexists|by repeat case_match]|].
  split; [intros [?|[?|[?|?]]]; repeat case_match; done|by repeat case_match].
Qed.

Lemma handle_ismaster_good now sd response rtt error :
  (∀ doc, response = Some doc → doc_ok doc) →
  outcome reply_fault (mongoc_server_description_handle_ismaster now sd response rtt error)
    (λ sd', sd_ok sd' ∧ same_server sd sd' ∧ typed sd'
       ∧ (response = None → sd_type sd' = MONGOC_SERVER_UNKNOWN)).
Proof.
  intros Hresp. unfold mongoc_server_description_handle_ismaster. destruct response as [doc|].
  2: { simpl. split; [apply reset_ok|]. split; [done|]. split; [|done]. split; [intros [?|[?|[?|?]]]; done|done]. }
  specialize (Hresp doc eq_refl). pose proof Hresp as [Hdoc H5].
  pose proof (bson_iter_init_ok doc Hdoc) as Hit. unfold bson_iter_init in *.
  destruct (Z.ltb_spec (blen doc) 5); [lia|]. cbn [snd bson_assert bind] in *.
  eapply outcome_bind.
  - apply (for_each_field_ok _ reply_fault (keeps sd)); [done| |].
    + split; [|split; [done|done]]. unfold sd_ok. cbn. split; [done|].
      repeat (split; [exact empty_doc_ok|]). split; [done|]. repeat constructor; lia.
    + intros it' d t s Hraw _ Hat Hs. cbn in Hraw. injection Hraw as <-. by eapply step_good.
  - intros r _ [(Hok & Hsame & Hn) _]. destruct (p_failed r.2).
    + simpl. split; [done|]. split; [done|]. split; [|done]. split; [intros [?|[?|[?|?]]]; done|done].
    + eapply outcome_mono; [apply update_rtt_ok|intros f ->; by right|].
      intros sd' _ [x ->]. destruct (Z.eqb_spec (p_num_keys r.2) 0) as [Hz|Hz].
      * split; [done|]. split; [done|]. split; [apply server_type_of_typed|done].
      * split; [done|]. split; [done|]. split; [apply server_type_of_typed|done].
Qed.

(** ** What the faults depend on

    Whether the parser returns depends on the reply alone: not on the description it
    fills, nor on the clock.  So a reply that was parsed once can be parsed again. *)
Definition header (sd : sd_t) : bool * bson_t * Z :=
  (sd_has_is_master sd, sd_last_is_master sd, sd_round_trip_time_msec sd).
(** two runs of the body of the loop go on alike, and the first one keeps the reply *)
Definition alike (h : bool * bson_t * Z) (r s : res (bool * parse)) : Prop :=
  match r, s with
  | Ret (b, p), Ret (c, _) => b = c ∧ header (p_sd p) = h
  | Stuck f, Stuck g => f = g
  | _, _ => False
  end.
Lemma alike_bind {A} h (m : res A) k k' : (∀ a, alike h (k a) (k' a)) → alike h (bind m k) (bind m k').
Proof. intros H. destruct m; [apply H|done]. Qed.
Lemma ismaster_step_alike h doc it p q :
  header (p_sd p) = h → alike h (ismaster_step doc it p) (ismaster_step doc it q).
Proof.
  intros H. unfold ismaster_step. apply alike_bind. intros k. apply alike_bind. intros key. unfold ismaster_field. cbv zeta.
  repeat match goal with |- alike _ (if ?c then _ else _) _ => destruct c end;
    unfold field_ok_, field_session_timeout, field_election_id, field_tags, field_last_write, field_int32, field_bool,
      field_utf8, field_array, require, failure, update, continue;
    repeat first [apply alike_bind; intros ? | match goal with |- alike _ (if ?c then _ else _) _ => destruct c end
                 | match goal with |- alike _ (match ?c with Some _ => _ | None => _ end) _ => destruct c end];
    (split; [reflexivity|exact H]).
Qed.
Lemma ismaster_loop_alike h doc fuel it p q :
  header (p_sd p) = h →
  match iter_while (ismaster_step doc) fuel it p, iter_while (ismaster_step doc) fuel it q with
  | Ret (_, p'), Ret _ => header (p_sd p') = h
  | Stuck f, Stuck g => f = g
  | _, _ => False
  end.
Proof.
  revert it p q. induction fuel as [|fuel IH]; intros it p q Hp; [done|]. cbn [iter_while].
  destruct (bson_iter_next it) as [[[] it1]|]; cbn [bind]; [|done|done].
  pose proof (ismaster_step_alike h doc it1 p q Hp) as H.
  destruct (ismaster_step doc it1 p) as [[b p']|], (ismaster_step doc it1 q) as [[c q']|]; cbn [bind alike] in *; try done.
  destruct H as [<- Hp']. destruct b; [by apply IH|done].
Qed.

(** the reply is parsed without a fault, whatever it says *)
Definition parses (doc : bson_t) : Prop :=
  ∃ r, for_each_field (ismaster_step doc) (bson_iter_init doc).2
         (Parse (set_has_is_master true (set_last_is_master doc sd_zero)) false false false false false false 0 false) = Ret r.
(** the description can be copied: the copy parses the reply again *)
Definition reparses (sd : sd_t) : Prop := sd_has_is_master sd = true → parses (sd_last_is_master sd).
Lemma parses_loop doc p :
  parses doc → returns (for_each_field (ismaster_step doc) (bson_iter_init doc).2 p) (λ r, header (p_sd r.2) = header (p_sd p)).
Proof.
  intros [r E]. unfold for_each_field in *.
  pose proof (ismaster_loop_alike (header (p_sd p)) doc (iter_fuel (bson_iter_init doc).2) (bson_iter_init doc).2 p
    (Parse (set_has_is_master true (set_last_is_master doc sd_zero)) false false false false false false 0 false) eq_refl) as H.
  rewrite E in H. destruct (iter_while _ _ _ p) as [[it' p']|]; [exact H|done].
Qed.
Lemma update_rtt_header sd rtt sd' :
  mongoc_server_description_update_rtt sd rtt = Ret sd' → (header sd').1 = (header sd).1.
Proof.
  unfold mongoc_server_description_update_rtt. destruct (_ =? _); [by intros <-%Ret_inj|].
  destruct (int64_of_double _); [|done]. by intros <-%Ret_inj.
Qed.
Lemma handle_parses now sd doc rtt error sd' :
  mongoc_server_description_handle_ismaster now sd (Some doc) rtt error = Ret sd' → parses doc ∧ sd_last_is_master sd' = doc.
Proof.
  unfold mongoc_server_description_handle_ismaster, parses. destruct (bson_iter_init doc) as [ok it]. cbn [snd].
  destruct ok; [|done]. cbn [bson_assert bind]. set (p := Parse _ _ _ _ _ _ _ _ _).
  set (q := Parse (set_has_is_master true (set_last_is_master doc sd_zero)) _ _ _ _ _ _ _ _). unfold for_each_field.
  pose proof (ismaster_loop_alike _ doc (iter_fuel it) it p q eq_refl) as H.
  destruct (iter_while _ _ _ p) as [[it' p']|]; [|done].
  destruct (iter_while _ _ _ q) as [r'|]; [|done]. cbn [bind snd]. intros E. split; [by exists r'|].
  injection H as _ Hl _. destruct (p_failed p'); [by apply Ret_inj in E as <-|].
  apply update_rtt_header in E. injection E as _ ->. by destruct (p_num_keys p' =? 0).
Qed.
Lemma handle_reparses now sd response rtt error sd' :
  mongoc_server_description_handle_ismaster now sd response rtt error = Ret sd' → reparses sd'.
Proof.
  destruct response as [doc|].
  - intros H _. by destruct (handle_parses _ _ _ _ _ _ H) as [Hp ->].
  - intros H. by apply Ret_inj in H as <-.
Qed.
(** a description whose reply parses is copied *)
Lemma new_copy_returns now sd :
  doc_ok (sd_last_is_master sd) → reparses sd → returns (mongoc_server_description_new_copy now (Some sd)) (λ c, is_Some c).
Proof.
  intros [_ H5] Hp. unfold mongoc_server_description_new_copy. destruct (sd_has_is_master sd) eqn:E; [|by eexists].
  specialize (Hp E). unfold mongoc_server_description_handle_ismaster.
  pose proof (λ p, parses_loop (sd_last_is_master sd) p Hp) as Hloop. unfold bson_iter_init in *.
  destruct (Z.ltb_spec (blen (sd_last_is_master sd)) 5); [lia|]. cbn [snd bson_assert bind] in *.
  set (p := Parse _ _ _ _ _ _ _ _ _). specialize (Hloop p). apply returns_Ret in Hloop as (r & -> & Hh). cbn [bind].
  injection Hh as _ _ Hr. destruct (p_failed r.2); [by eexists|].
  unfold mongoc_server_description_update_rtt. destruct (p_num_keys r.2 =? 0); cbn; [by eexists|].
  change (sd_round_trip_time_msec (p_sd r.2)) with (sd_round_trip_time_msec (p_sd r.2)). rewrite Hr. by eexists.
Qed.

(** ** The cluster time of a reply

    The topology and the session both take the document in "$clusterTime" and abort if
    [bson_init_static] does not take it. *)
Definition time_framed (it : bson_iter_t) : bool :=
  match field_key it, BSON_ITER_HOLDS it BSON_TYPE_DOCUMENT with
  | Ret key, Ret true =>
      negb (streq key (cs "$clusterTime"))
      || match (let* r := bson_iter_document it in static_doc r) with Ret _ => true | Stuck _ => false end
  | _, _ => true
  end.
Definition times_framed (doc : bson_t) : bool :=
  match fields_of (bson_iter_init doc).2 with Ret (_, l) => forallb time_framed l | Stuck _ => true end.
Lemma times_framed_fields doc last l :
  times_framed doc = true → fields_of (bson_iter_init doc).2 = Ret (last, l) → Forall (λ it, time_framed it = true) l.
Proof.
  unfold times_framed. intros H E. rewrite E in H.
  rewrite forallb_forall in H. apply Forall_forall. intros x Hx. by apply H, list_elem_of_In.
Qed.
Lemma framed_time it :
  time_framed it = true → field_key it = Ret (cs "$clusterTime") → BSON_ITER_HOLDS it BSON_TYPE_DOCUMENT = Ret true →
  returns (let* r := bson_iter_document it in static_doc r) (λ _, True).
Proof.
  unfold time_framed. intros H E1 E2. rewrite E1, E2, streq_refl in H. cbn [negb orb] in H.
  by destruct (let* r := bson_iter_document it in static_doc r).
Qed.
Lemma find_framed doc it :
  doc_ok doc → times_framed doc = true → bson_iter_init_find doc (cs "$clusterTime" ++ [0]) = Ret (true, it) →
  BSON_ITER_HOLDS it BSON_TYPE_DOCUMENT = Ret true → returns (let* r := bson_iter_document it in static_doc r) (λ _, True).
Proof.
  intros [Hd H5] Ht E Hh. pose proof (bson_iter_init_ok doc Hd) as Hi.
  unfold bson_iter_init_find in E. pose proof (times_framed_fields doc) as Hf. unfold bson_iter_init in *.
  destruct (Z.ltb_spec (blen doc) 5); [lia|]. cbn [snd] in *.
  destruct (fields_of_ok _ Hi) as (last & l & Hl & Hpos & _). specialize (Hf last l Ht Hl).
  rewrite (find_list _ (cs "$clusterTime") [] last l) in E by (done || by repeat constructor).
  destruct (List.find _ l) as [f|] eqn:Ef; [|done]. apply Ret_inj in E. injection E as ->.
  apply find_some in Ef as [Hin Hk]. rewrite Forall_forall in Hf. apply framed_time; [|by apply bool_decide_eq_true in Hk|done].
  apply Hf. by apply list_elem_of_In.
Qed.

(** ** The staleness filter *)

(** the latest write of a secondary, and 0 if there is none *)
Definition latest_write (sds : list (option sd_t)) : Z :=
  foldr (λ d acc, match d with
                  | Some s => if is_secondary s then Z.max (sd_last_write_date_ms s * 1000) acc else acc
                  | None => acc end) 0 sds.
(** staleness as the Max Staleness specification defines it, in microseconds *)
Definition spec_staleness (heartbeat_ms : Z) (primary : option sd_t) (sds : list (option sd_t)) (sd : sd_t) : Z :=
  match primary with
  | Some p => (sd_last_update_time_usec sd - sd_last_write_date_ms sd * 1000)
              - (sd_last_update_time_usec p - sd_last_write_date_ms p * 1000) + heartbeat_ms * 1000
  | None => latest_write sds - sd_last_write_date_ms sd * 1000 + heartbeat_ms * 1000
  end.
Definition too_stale (heartbeat_ms max_staleness_seconds : Z) primary sds (sd : sd_t) : bool :=
  is_secondary sd && (spec_staleness heartbeat_ms primary sds sd >? max_staleness_seconds * 1000000).

(** times far from the 64-bit limits (35 million years of milliseconds) *)
Definition time_ok (sd : sd_t) : Prop :=
  -2 ^ 50 ≤ sd_last_write_date_ms sd ≤ 2 ^ 50 ∧ 0 ≤ sd_last_update_time_usec sd ≤ 2 ^ 60.
Definition all_sds (P : sd_t → Prop) (sds : list (option sd_t)) : Prop :=
  Forall (λ d, match d with Some sd => P sd | None => True end) sds.

Lemma reject_stale_spec f g mx sds :
  all_sds (λ sd, is_secondary sd = true → f sd = Ret (g sd)) sds →
  reject_stale f mx sds
  = Ret (map (λ d, match d with
                   | Some sd => if is_secondary sd && (g sd >? mx) then None else Some sd
                   | None => None end) sds).
Proof.
  induction 1 as [|[sd|] sds H _ IH]; [done| |].
  - cbn [reject_stale map]. destruct (is_secondary sd); cbn [bind andb].
    + rewrite H by done. cbn [bind]. rewrite IH. cbn [bind]. by destruct (_ >? _).
    + by rewrite IH.
  - cbn [reject_stale map]. by rewrite IH.
Qed.
Lemma max_last_write_spec sds acc :
  all_sds time_ok sds → 0 ≤ acc ≤ 2 ^ 60 →
  ∃ m, max_last_write_date acc sds = Ret m ∧ 0 ≤ m ≤ 2 ^ 60
    ∧ m = Z.max acc (latest_write sds).
Proof.
  intros H. revert acc. induction H as [|[sd|] sds Hs _ IH]; intros acc Ha.
  - simpl. exists acc. split; [done|]. lia.
  - unfold latest_write. cbn [max_last_write_date foldr]. fold (latest_write sds). destruct (is_secondary sd); [|by apply IH].
    destruct Hs as [Hs _]. rewrite chk64_ok by (unfold in_s64; lia). cbn [bind].
    destruct (IH (Z.max acc (sd_last_write_date_ms sd * 1000))) as (m & -> & Hm & Hm2); [lia|].
    exists m. split; [done|]. split; [done|]. lia.
  - unfold latest_write. cbn [max_last_write_date foldr]. fold (latest_write sds). by apply IH.
Qed.

Lemma latest_write_nonneg sds : 0 ≤ latest_write sds.
Proof. induction sds as [|[s|] sds IH]; unfold latest_write in *; simpl; [done| |done]. case_match; lia. Qed.

(** [latest_write] is 0 or attained *)
Lemma latest_write_attained sds :
  latest_write sds = 0
  ∨ ∃ s, Some s ∈ sds ∧ is_secondary s = true ∧ latest_write sds = sd_last_write_date_ms s * 1000.
Proof.
  induction sds as [|d sds IH]; [by left|]. unfold latest_write. cbn [foldr]. fold (latest_write sds).
  destruct d as [s|]; [destruct (is_secondary s) eqn:Es|].
  - destruct (Z.max_spec (sd_last_write_date_ms s * 1000) (latest_write sds)) as [[_ ->]|[_ ->]].
    + destruct IH as [->|(s' & ? & ? & ?)]; [by left|right; exists s'; set_solver].
    + right. exists s. set_solver.
  - destruct IH as [->|(s' & ? & ? & ?)]; [by left|right; exists s'; set_solver].
  - destruct IH as [->|(s' & ? & ? & ?)]; [by left|right; exists s'; set_solver].
Qed.
Lemma freshest sds sd :
  Some sd ∈ sds → is_secondary sd = true → 0 ≤ sd_last_write_date_ms sd →
  ∃ s, Some s ∈ sds ∧ is_secondary s = true ∧ latest_write sds ≤ sd_last_write_date_ms s * 1000.
Proof.
  intros Hin Hsec Hpos. destruct (latest_write_attained sds) as [->|(s & ? & ? & ->)]; [|by exists s].
  exists sd. split; [done|]. split; [done|]. lia.
Qed.

Lemma filter_stale_map sds primary hb rp :
  all_sds time_ok sds → match primary with Some p => time_ok p | None => True end →
  0 ≤ hb ≤ 2 ^ 50 → 0 < rp_max_staleness_seconds rp ≤ 2 ^ 40 →
  mongoc_server_description_filter_stale sds primary hb (Some rp)
  = Ret (map (λ d, match d with
                   | Some sd => if too_stale hb (rp_max_staleness_seconds rp) primary sds sd then None else Some sd
                   | None => None end) sds).
Proof.
  intros Hsds Hp Hhb Hms. unfold mongoc_server_description_filter_stale, mongoc_read_prefs_get_max_staleness_seconds.
  unfold MONGOC_NO_MAX_STALENESS. destruct (Z.eqb_spec (rp_max_staleness_seconds rp) (-1)); [lia|].
  destruct (Z.gtb_spec (rp_max_staleness_seconds rp) 0); [|lia]. cbn [bson_assert bind].
  rewrite chk64_ok by (unfold in_s64; lia). cbn [bind]. rewrite chk64_ok by (unfold in_s64; lia). cbn [bind].
  rewrite chk64_ok by (unfold in_s64; lia). cbn [bind].
  replace (rp_max_staleness_seconds rp * 1000 * 1000) with (rp_max_staleness_seconds rp * 1000000) by lia.
  destruct primary as [p|].
  - rewrite (reject_stale_spec _ (spec_staleness hb (Some p) sds)); [done|].
    eapply Forall_impl; [exact Hsds|]. intros [sd|] Hsd; [|done]. intros _. destruct Hsd as [H1 H2], Hp as [H3 H4].
    unfold staleness_with_primary. do 6 (rewrite chk64_ok by (unfold in_s64; lia); cbn [bind]).
    f_equal. unfold spec_staleness. lia.
  - destruct (max_last_write_spec sds 0 Hsds ltac:(lia)) as (m & -> & Hm & Hm2). cbn [bind].
    rewrite (reject_stale_spec _ (spec_staleness hb None sds)); [done|].
    eapply Forall_impl; [exact Hsds|]. intros [sd|] Hsd; [|done]. intros _. destruct Hsd as [H1 H2].
    unfold staleness_without_primary. do 3 (rewrite chk64_ok by (unfold in_s64; lia); cbn [bind]).
    f_equal. unfold spec_staleness. pose proof (latest_write_nonneg sds). lia.
Qed.

(** ** The tag filter *)

(** the string value of a tag; a value of another type counts as empty *)
Definition tag_value (it : bson_iter_t) : list Z :=
  match bson_iter_utf8 it true with
  | Ret (Some p, n) => take (Z.to_nat n) p
  | _ => []
  end.
(** the server has the tag, with the value *)
Definition tag_matches (server_tags : list bson_iter_t) (f : bson_iter_t) : bool :=
  match field_key f with
  | Ret k => match List.find (has_key k) server_tags with
             | Some g => bool_decide (tag_value g = tag_value f)
             | None => false
             end
  | _ => false
  end.

Lemma utf8_value it data t :
  iter_at it data t →
  ∃ p n, bson_iter_utf8 it true = Ret (p, n) ∧ slice_ok p n ∧ blen (tag_value it) = n
    ∧ (n ≠ 0 → ∃ q, p = Some q ∧ tag_value it = take (Z.to_nat n) q).
Proof.
  intros Hat. pose proof (string_slice_at it data t Hat BSON_TYPE_UTF8 true ltac:(auto)) as H.
  apply returns_Ret in H as ([p n] & Hr & Hs & _). cbn [fst snd] in Hs.
  exists p, n. unfold tag_value, bson_iter_utf8. rewrite Hr. split; [done|]. split; [done|].
  destruct p as [q|]; cbn in Hs.
  - destruct Hs as [_ Hs]. split; [unfold blen in *; rewrite length_take; lia|]. eauto.
  - by subst.
Qed.

Lemma compare_values f df tf g dg tg :
  iter_at f df tf → iter_at g dg tg →
  ∃ pf nf pg ng, bson_iter_utf8 f true = Ret (pf, nf) ∧ bson_iter_utf8 g true = Ret (pg, ng)
    ∧ (if negb (ng =? nf) then Ret (false, false)
       else let* ne := memcmp_ne pf pg nf in if ne : bool then Ret (false, false) else Ret (true, true))
      = Ret (bool_decide (tag_value g = tag_value f), bool_decide (tag_value g = tag_value f)).
Proof.
  intros Hf Hg. destruct (utf8_value f df tf Hf) as (pf & nf & -> & Hsf & Hlf & Hvf).
  destruct (utf8_value g dg tg Hg) as (pg & ng & -> & Hsg & Hlg & Hvg).
  exists pf, nf, pg, ng. split; [done|]. split; [done|].
  destruct (Z.eqb_spec ng nf) as [->|Hne]; cbn [negb].
  2: { rewrite bool_decide_false; [done|]. intros E. rewrite E in Hlg. lia. }
  unfold memcmp_ne. destruct (Z.eqb_spec nf 0) as [->|Hnz]; cbn [bind].
  { rewrite bool_decide_true; [done|]. unfold blen in *.
    destruct (tag_value f), (tag_value g); simpl in *; try done; lia. }
  destruct (Hvf Hnz) as (qf & -> & Ef), (Hvg Hnz) as (qg & -> & Eg). cbn [deref bind].
  destruct Hsf as [_ Hsf], Hsg as [_ Hsg].
  rewrite !rd_bytes_prefix by (unfold blen in *; lia). cbn [bind]. rewrite <- Ef, <- Eg.
  rewrite (bool_decide_ext (tag_value f = tag_value g) (tag_value g = tag_value f)) by done.
  by destruct (bool_decide _).
Qed.

Lemma fold_fields_all (p : bson_iter_t → bool) body l last :
  (∀ f, f ∈ l → body f true = Ret (p f, p f)) →
  ∃ it, fold_fields body l last true = Ret (it, forallb p l).
Proof.
  induction l as [|f l IH]; intros H; [by exists last|]. simpl. rewrite (H f) by apply list_elem_of_here.
  cbn [bind]. destruct (p f); cbn [andb]; [|by exists f]. apply IH. intros g Hg. apply H.
  by apply list_elem_of_further.
Qed.

Lemma match_tag_set_spec sd child last l slast server_tags :
  doc_ok (sd_tags sd) → iter_ok child → fields_of child = Ret (last, l) →
  fields_of (bson_iter_init (sd_tags sd)).2 = Ret (slast, server_tags) →
  _match_tag_set sd child = Ret (forallb (tag_matches server_tags) l).
Proof.
  intros [Hdoc H5] Hc Hl Hs. unfold _match_tag_set. rewrite (for_each_fold _ child last l) by done.
  pose proof (bson_iter_init_ok _ Hdoc) as Hi.
  assert (Einit : bson_iter_init (sd_tags sd) = (true, iter_start (sd_tags sd) (blen (sd_tags sd)))).
  { unfold bson_iter_init. destruct (Z.ltb_spec (blen (sd_tags sd)) 5); [lia|done]. }
  rewrite Einit in Hs, Hi. cbn [snd] in Hs, Hi.
  pose proof (fields_of_in child last l Hc Hl) as Hin. rewrite Forall_forall in Hin.
  pose proof (fields_of_in _ _ _ Hi Hs) as Hsin.
  assert (Hspos : Forall positioned server_tags).
  { eapply Forall_impl; [exact Hsin|]. intros g (d & t & _ & Hg). by exists d, t. }
  rewrite Forall_forall in Hsin.
  destruct (fold_fields_all (tag_matches server_tags) (λ it _,
      let* read_pref_tag := bson_iter_key it in
      let* rv := bson_iter_utf8 it true in
      let* f := bson_iter_init_find (sd_tags sd) read_pref_tag in
      if f.1 then
        let* sv := bson_iter_utf8 f.2 true in
        if negb (sv.2 =? rv.2) then Ret (false, false)
        else
          let* ne := memcmp_ne rv.1 sv.1 rv.2 in
          if ne : bool then Ret (false, false) else Ret (true, true)
      else Ret (false, false)) l last) as [it Hall].
  { intros f Hf. destruct (Hin f Hf) as (d & t & _ & Hat).
    destruct (field_key_at _ _ _ Hat) as (k & Hk & Hp & Hcs). rewrite Hp. cbn [bind].
    destruct (c_string_split _ _ Hcs) as [Hknz [r Hr]].
    unfold bson_iter_init_find. rewrite Einit, Hr, (find_list _ k r slast server_tags) by done.
    unfold tag_matches. rewrite Hk.
    destruct (List.find (has_key k) server_tags) as [g|] eqn:Eg.
    2: { destruct (utf8_value f d t Hat) as (pf & nf & -> & _). done. }
    apply find_some in Eg as [Eg _]. destruct (Hsin g) as (dg & tg & _ & Hg); [by apply list_elem_of_In|].
    destruct (compare_values f d t g dg tg Hat Hg) as (pf & nf & pg & ng & Ef & Eg' & Hcmp).
    rewrite Ef. cbn [bind fst snd]. rewrite Eg'. cbn [bind fst snd]. exact Hcmp. }
  by rewrite Hall.
Qed.

(** the server has every tag of the tag set *)
Definition server_matches (tagset : bson_iter_t) (sd : sd_t) : bool :=
  match bson_iter_recurse tagset with
  | Ret (Some c) =>
      match fields_of c, fields_of (bson_iter_init (sd_tags sd)).2 with
      | Ret (_, l), Ret (_, server_tags) => forallb (tag_matches server_tags) l
      | _, _ => false
      end
  | _ => false
  end.
Definition some_matches (sds : list (option sd_t)) (tagset : bson_iter_t) : bool :=
  existsb (λ d, match d with Some sd => server_matches tagset sd | None => false end) sds.
Definition keep_matching (tagset : bson_iter_t) (sds : list (option sd_t)) : list (option sd_t) :=
  map (λ d, match d with Some sd => if server_matches tagset sd then Some sd else None | None => None end) sds.
(** a tag set of the read preference: a sub-document *)
Definition is_tag_set (doc : bson_t) (f : bson_iter_t) : Prop :=
  ∃ t, iter_at f doc t ∧ (t = BSON_TYPE_DOCUMENT ∨ t = BSON_TYPE_ARRAY).

Lemma match_each_spec doc tagset sds ms :
  is_tag_set doc tagset → all_sds (λ sd, doc_ok (sd_tags sd)) sds → length ms = length sds →
  match_each tagset sds ms
  = Ret (zip_with (λ d b, match d with Some sd => server_matches tagset sd | None => b end) sds ms,
         some_matches sds tagset).
Proof.
  intros (t & Hat & Ht) H. revert ms. induction H as [|[sd|] sds Hsd _ IH]; intros ms Hlen; [by destruct ms| |];
    (destruct ms as [|b ms]; [done|]); cbn [match_each some_matches existsb zip_with].
  - pose proof (bson_iter_recurse_at tagset doc t Hat) as Hr. apply returns_Ret in Hr as (c & Hr & Hc).
    rewrite Hr. cbn [bind]. destruct c as [c|]; [|tauto]. destruct Hc as [_ Hc].
    destruct (fields_of_ok c Hc) as (last & l & Hl & _).
    destruct (fields_of_ok (bson_iter_init (sd_tags sd)).2) as (slast & st & Hst & _).
    { apply bson_iter_init_ok, Hsd. }
    rewrite (match_tag_set_spec sd c last l slast st Hsd Hc Hl Hst). cbn [bind].
    rewrite IH by (simpl in Hlen; lia). cbn [bind fst snd].
    assert (E : server_matches tagset sd = forallb (tag_matches st) l).
    { unfold server_matches. by rewrite Hr, Hl, Hst. }
    by rewrite <- E.
  - rewrite IH by (simpl in Hlen; lia). done.
Qed.

(** the marks after some tag sets: nothing has matched yet *)
Definition unmatched (sds : list (option sd_t)) (ms : list bool) : Prop :=
  Forall2 (λ d (b : bool), match d with Some _ => b = false | None => True end) sds ms.

Lemma keep_matched_zip f sds ms :
  length ms = length sds →
  keep_matched (zip_with (λ d b, match d with Some sd => server_matches f sd | None => b end) sds ms) sds
  = keep_matching f sds.
Proof.
  revert ms. induction sds as [|d sds IH]; intros ms Hlen; [by destruct ms|].
  destruct ms as [|b ms]; [done|]. cbn. unfold keep_matched in IH. rewrite IH by (simpl in Hlen; lia).
  destruct d; [done|]. by destruct b.
Qed.
Lemma keep_unmatched sds ms : unmatched sds ms → keep_matched ms sds = replicate (length sds) None.
Proof.
  induction 1 as [|d b sds ms H _ IH]; [done|]. cbn. unfold keep_matched in IH. rewrite IH.
  destruct d; [by rewrite H|by destruct b].
Qed.
Lemma no_match_unmatched f sds ms :
  length ms = length sds → some_matches sds f = false →
  unmatched sds (zip_with (λ d b, match d with Some sd => server_matches f sd | None => b end) sds ms).
Proof.
  revert ms. induction sds as [|d sds IH]; intros ms Hlen H; [constructor|].
  destruct ms as [|b ms]; [done|]. cbn in *. apply orb_false_iff in H as [H1 H2].
  constructor; [by destruct d|]. apply IH; [lia|done].
Qed.

Lemma filter_tags_loop doc sds l last ms :
  Forall (is_tag_set doc) l → all_sds (λ sd, doc_ok (sd_tags sd)) sds → unmatched sds ms →
  ∃ it' ms' b, fold_fields (λ it (s : list bool * bool),
      let* m := match_each it sds s.1 in
      if m.2 : bool then Ret (false, (m.1, true)) else Ret (true, (m.1, false))) l last (ms, false)
    = Ret (it', (ms', b))
  ∧ keep_matched ms' sds = match List.find (some_matches sds) l with
                           | Some f => keep_matching f sds
                           | None => replicate (length sds) None
                           end.
Proof.
  intros Hl Hsds. revert ms. induction Hl as [|f l Hf _ IH]; intros ms Hms.
  - exists last, ms, false. split; [done|]. by apply keep_unmatched.
  - pose proof (Forall2_length _ _ _ Hms) as Hlen. cbn [fold_fields fst].
    rewrite (match_each_spec doc f sds ms) by done. cbn [bind fst snd List.find].
    destruct (some_matches sds f) eqn:Em; cbn [bind].
    + do 3 eexists. split; [reflexivity|]. by apply keep_matched_zip.
    + apply IH. by apply no_match_unmatched.
Qed.

(** * Properties *)

(** C25. Parsing any reply whose frame is that of a BSON document, whatever its
    bytes: no access outside memory and no NULL dereference; the only faults are
    the assertion on a malformed nested document and the cast of an
    unrepresentable double; the result keeps the server's identity, holds
    well-formed documents, is never POSSIBLE_PRIMARY, and has a set name
    whenever it is a replica set member; without a reply it is UNKNOWN. *)
Theorem handle_ismaster_safe now sd response rtt error :
  (∀ doc, response = Some doc → doc_ok doc) →
  outcome reply_fault (mongoc_server_description_handle_ismaster now sd response rtt error)
    (λ sd', sd_ok sd' ∧ same_server sd sd' ∧ typed sd'
       ∧ (response = None → sd_type sd' = MONGOC_SERVER_UNKNOWN)).
Proof. apply handle_ismaster_good. Qed.

(** C30. The staleness filter computes exactly the estimate of the Max Staleness
    specification and rejects exactly the secondaries that exceed it, without
    overflow for times up to 35 million years. *)
Theorem filter_stale_correct sds primary hb rp :
  all_sds time_ok sds → match primary with Some p => time_ok p | None => True end →
  0 ≤ hb ≤ 2 ^ 50 → 0 < rp_max_staleness_seconds rp ≤ 2 ^ 40 →
  mongoc_server_description_filter_stale sds primary hb (Some rp)
  = Ret (map (λ d, match d with
                   | Some sd => if too_stale hb (rp_max_staleness_seconds rp) primary sds sd then None else Some sd
                   | None => None end) sds).
Proof. apply filter_stale_map. Qed.

(** Without a primary the filter never rejects every secondary, provided
    maxStalenessSeconds is at least the heartbeat interval (as validation
    requires): one with the latest write date survives. *)
Theorem filter_stale_keeps_freshest sds hb rp sd :
  all_sds time_ok sds → 0 ≤ hb ≤ 2 ^ 50 → 0 < rp_max_staleness_seconds rp ≤ 2 ^ 40 →
  hb ≤ rp_max_staleness_seconds rp * 1000 →
  Some sd ∈ sds → is_secondary sd = true → 0 ≤ sd_last_write_date_ms sd →
  returns (mongoc_server_description_filter_stale sds None hb (Some rp))
    (λ sds', ∃ s, Some s ∈ sds' ∧ is_secondary s = true).
Proof.
  intros Hsds Hhb Hms Hle Hin Hsec Hpos. rewrite filter_stale_map by done. cbn [returns].
  destruct (freshest sds sd Hin Hsec Hpos) as (s & Hs & Hsec' & Hmax). exists s. split; [|done]. apply list_elem_of_fmap. exists (Some s).
  split; [|done]. unfold too_stale, spec_staleness. rewrite Hsec'. cbn [andb].
  destruct (Z.gtb_spec (latest_write sds - sd_last_write_date_ms s * 1000 + hb * 1000)
    (rp_max_staleness_seconds rp * 1000000)); [lia|done].
Qed.

(** The tag filter keeps exactly the servers that have every tag of the first
    tag set some server satisfies, and none when no tag set is satisfied; an
    empty list of tag sets keeps every server. *)
Theorem filter_tags_correct sds rp doc last l :
  mongoc_read_prefs_get_tags rp = Ret doc → doc_ok doc →
  fields_of (bson_iter_init doc).2 = Ret (last, l) → Forall (is_tag_set doc) l →
  all_sds (λ sd, doc_ok (sd_tags sd)) sds →
  mongoc_server_description_filter_tags sds (Some rp)
  = Ret (match l with
         | [] => sds
         | _ => match List.find (some_matches sds) l with
                | Some f => keep_matching f sds
                | None => replicate (length sds) None
                end
         end).
Proof.
  intros Hrp [Hdoc H5] Hf Hl Hsds. unfold mongoc_server_description_filter_tags. rewrite Hrp. cbn [bind].
  destruct (count_keys_list doc Hdoc H5) as (last' & l' & Hf' & ->). cbn [bind].
  unfold bson_iter_init in *. destruct (Z.ltb_spec (blen doc) 5); [lia|]. cbn [snd] in Hf.
  rewrite Hf in Hf'. apply Ret_inj in Hf'. injection Hf' as <- <-.
  destruct l as [|f l]; [done|]. destruct (Z.eqb_spec (Z.of_nat (length (f :: l))) 0); [simpl in *; lia|].
  rewrite (for_each_fold _ _ last (f :: l)) by done.
  destruct (filter_tags_loop doc sds (f :: l) last (replicate (length sds) false)) as (it' & ms' & b & -> & Hk);
    [done|done| |].
  { unfold unmatched. clear. induction sds as [|d sds IH]; constructor; [by destruct d|done]. }
  cbn [bind fst snd]. by rewrite Hk.
Qed.

(** ** Witnesses *)
Definition sample_reply : bson_t :=
  doc_bytes (f_int32 "ok" 1 ++ f_bool "ismaster" false ++ f_bool "secondary" true ++ f_utf8 "setName" "rs"
             ++ f_array "hosts" (f_utf8 "0" "a:1" ++ f_utf8 "1" "b:2")
             ++ f_doc "tags" (f_utf8 "dc" "ny") ++ f_utf8 "primary" "b:2").
Lemma sample_reply_ok : doc_ok sample_reply.
Proof.
  split; [|vm_compute; discriminate]. split; [|vm_compute; discriminate].
  apply (bool_decide_unpack (bytes_ok sample_reply)). vm_compute. exact I.
Qed.
(** what it parses to *)
Definition sample_secondary : sd_t :=
  match mongoc_server_description_handle_ismaster 5 (mongoc_server_description_init 0 (cs "a:1") 1 sd_zero)
          (Some sample_reply) 20 None with
  | Ret sd => sd
  | Stuck _ => sd_zero
  end.
Example sample_secondary_type :
  sd_type sample_secondary = MONGOC_SERVER_RS_SECONDARY ∧ sd_set_name sample_secondary = Some (cs "rs")
  ∧ sd_current_primary sample_secondary = Some (cs "b:2") ∧ sd_round_trip_time_msec sample_secondary = 20.
Proof. vm_compute. done. Qed.

Lemma handle_ismaster_safe_witness :
  outcome reply_fault (mongoc_server_description_handle_ismaster 5 sd_zero (Some sample_reply) 20 None)
    (λ sd', sd_ok sd' ∧ same_server sd_zero sd' ∧ typed sd'
       ∧ (Some sample_reply = None → sd_type sd' = MONGOC_SERVER_UNKNOWN)).
Proof.
  apply (handle_ismaster_safe 5 sd_zero (Some sample_reply) 20 None). intros doc H. injection H as <-.
  exact sample_reply_ok.
Defined.

Definition fresh_secondary : sd_t := set_last_write_date 100000 sample_secondary.
Definition stale_secondary : sd_t := set_last_write_date 1000 sample_secondary.
Definition stale_prefs : mongoc_read_prefs_t := ReadPrefs MONGOC_READ_SECONDARY (bson_init (λ _, 0)) 90.
Lemma sample_times : all_sds time_ok [Some fresh_secondary; None; Some stale_secondary].
Proof. repeat constructor; vm_compute; discriminate. Qed.
Lemma filter_stale_correct_witness :
  too_stale 10000 90 None [Some fresh_secondary; None; Some stale_secondary] stale_secondary = true
  ∧ mongoc_server_description_filter_stale [Some fresh_secondary; None; Some stale_secondary] None 10000
      (Some stale_prefs)
    = Ret (map (λ d, match d with
             | Some sd => if too_stale 10000 90 None [Some fresh_secondary; None; Some stale_secondary] sd
                          then None else Some sd
             | None => None end) [Some fresh_secondary; None; Some stale_secondary]).
Proof.
  split; [vm_compute; reflexivity|].
  apply (filter_stale_correct [Some fresh_secondary; None; Some stale_secondary] None 10000 stale_prefs sample_times);
    [exact I|lia|vm_compute; split; [reflexivity|discriminate]].
Defined.
Lemma filter_stale_keeps_freshest_witness :
  returns (mongoc_server_description_filter_stale [Some fresh_secondary; None; Some stale_secondary] None 10000
             (Some stale_prefs)) (λ sds', ∃ s, Some s ∈ sds' ∧ is_secondary s = true).
Proof.
  apply (filter_stale_keeps_freshest [Some fresh_secondary; None; Some stale_secondary] 10000 stale_prefs
           fresh_secondary sample_times); [lia|vm_compute; split; [reflexivity|discriminate]|vm_compute; discriminate
    |left|vm_compute; reflexivity|vm_compute; discriminate].
Defined.

(** two tag sets, the first of which no server satisfies *)
Definition sample_tags : list Z := f_doc "0" (f_utf8 "dc" "la") ++ f_doc "1" (f_utf8 "dc" "ny").
Definition tag_prefs : mongoc_read_prefs_t :=
  ReadPrefs MONGOC_READ_SECONDARY (Mem false false true (doc_bytes sample_tags) [Level 0 (blen (doc_bytes sample_tags))]) (-1).
Definition sample_tag_sets : list bson_iter_t :=
  match fields_of (bson_iter_init (doc_bytes sample_tags)).2 with Ret (_, l) => l | Stuck _ => [] end.
Definition is_subdoc (f : bson_iter_t) : bool :=
  match ITER_TYPE f with Ret BSON_TYPE_DOCUMENT | Ret BSON_TYPE_ARRAY => true | _ => false end.
Lemma tag_sets_of doc last l :
  bson_ok doc → 5 ≤ blen doc → fields_of (bson_iter_init doc).2 = Ret (last, l) → forallb is_subdoc l = true →
  Forall (is_tag_set doc) l.
Proof.
  intros Hdoc H5 Hf Hall. pose proof (fields_of_in _ _ _ (bson_iter_init_ok doc Hdoc) Hf) as Hin.
  unfold bson_iter_init in Hin. destruct (Z.ltb_spec (blen doc) 5); [lia|]. cbn [snd iter_start it_raw] in Hin.
  rewrite forallb_forall in Hall. rewrite Forall_forall in Hin |- *. intros f Hfl.
  destruct (Hin f Hfl) as (d & t & Hd & Hat). injection Hd as <-. exists t. split; [done|].
  specialize (Hall f (proj1 (list_elem_of_In _ _) Hfl)). unfold is_subdoc in Hall.
  rewrite (ITER_TYPE_at _ _ _ Hat) in Hall. destruct t; try done; auto.
Qed.
Lemma tags_doc_ok : doc_ok (doc_bytes sample_tags).
Proof.
  split; [|vm_compute; discriminate]. split; [|vm_compute; discriminate].
  apply (bool_decide_unpack (bytes_ok (doc_bytes sample_tags))). vm_compute. exact I.
Qed.
Lemma sample_server_tags :
  all_sds (λ sd, doc_ok (sd_tags sd)) [Some sample_secondary; Some (set_tags bson_empty_doc sample_secondary)].
Proof.
  constructor; [|constructor; [exact empty_doc_ok|constructor]].
  split; [|vm_compute; discriminate]. split; [|vm_compute; discriminate].
  apply (bool_decide_unpack (bytes_ok (sd_tags sample_secondary))). vm_compute. exact I.
Qed.
Lemma filter_tags_correct_witness :
  map (λ d, bool_decide (is_Some d)) (keep_matching (nth 1 sample_tag_sets iter_zero)
    [Some sample_secondary; Some (set_tags bson_empty_doc sample_secondary)]) = [true; false]
  ∧ mongoc_server_description_filter_tags
      [Some sample_secondary; Some (set_tags bson_empty_doc sample_secondary)] (Some tag_prefs)
    = Ret (keep_matching (nth 1 sample_tag_sets iter_zero)
             [Some sample_secondary; Some (set_tags bson_empty_doc sample_secondary)]).
Proof.
  split; [vm_compute; reflexivity|].
  etransitivity; [eapply (filter_tags_correct [Some sample_secondary; Some (set_tags bson_empty_doc sample_secondary)]
    tag_prefs (doc_bytes sample_tags) _ sample_tag_sets)|vm_compute; reflexivity].
  - vm_compute. reflexivity.
  - exact tags_doc_ok.
  - vm_compute. reflexivity.
  - eapply tag_sets_of; [apply tags_doc_ok|apply tags_doc_ok|vm_compute; reflexivity|vm_compute; reflexivity].
  - exact sample_server_tags.
Defined.
