(* ===== verification/TopologyDescription.v ===== *)
(** The topology description (mongoc/mongoc-topology-description.c) and the
    monitoring events it sends (mongoc/mongoc-topology-description-apm.c): server
    discovery and monitoring.

    The descriptions of the servers live in a [mongoc_set_t]; a C pointer to one
    is its id, and using it looks the id up in the current set, so that a use
    after the server was removed is [Stuck UseAfterFree].  The application's
    callbacks are read-only observers: the model records which are registered and
    the events they are called with, in order.  [now] is the monotonic clock,
    which has the same value throughout a call. *)
From S2P Require Import Prelude BsonIter BsonOid MongocSet HostList MongocTypes ServerDescription.
From Stdlib Require Import ZArith Lia List.
From stdpp Require Import prelude strings.
#[local] Open Scope Z_scope.
#[local] Open Scope mongo_scope.

Definition WIRE_VERSION_MIN : Z := 3.
Definition WIRE_VERSION_MAX : Z := 8.

#[local] Notation sd_t := mongoc_server_description_t.

(** which callbacks are set *)
Record mongoc_apm_callbacks_t := Callbacks {
  cb_server_changed : bool;
  cb_server_opening : bool;
  cb_server_closed : bool;
  cb_topology_changed : bool;
  cb_topology_opening : bool;
  cb_topology_closed : bool
}.
Definition no_callbacks : mongoc_apm_callbacks_t := Callbacks false false false false false false.

Record mongoc_topology_description_t := TD {
  td_topology_id : bson_oid_t;
  td_opened : bool;
  td_type : mongoc_topology_description_type_t;
  td_heartbeat_msec : Z;
  td_servers : mongoc_set_t sd_t;
  td_set_name : option (list Z);
  td_max_set_version : Z;
  td_max_election_id : bson_oid_t;
  td_compatibility_error : bson_error_t;
  td_max_server_id : Z;
  td_stale : bool;
  td_rand_seed : Z;
  td_cluster_time : bson_t;
  td_session_timeout_minutes : Z;
  td_apm_callbacks : mongoc_apm_callbacks_t
}.
#[local] Notation td_t := mongoc_topology_description_t.

Inductive apm_event :=
| ServerOpening (topology_id : bson_oid_t) (host : mongoc_host_list_t)
| ServerChanged (topology_id : bson_oid_t) (host : mongoc_host_list_t) (previous : option sd_t) (new : sd_t)
| ServerClosed (topology_id : bson_oid_t) (host : mongoc_host_list_t)
| TopologyOpening (topology_id : bson_oid_t)
| TopologyChanged (topology_id : bson_oid_t) (previous : option td_t) (new : td_t)
| TopologyClosed (topology_id : bson_oid_t).

(** a topology description, and the events sent so far *)
Record monitored := Mon { m_td : td_t; m_events : list apm_event }.

Definition td_eta (t : td_t) : td_t :=
  TD (td_topology_id t) (td_opened t) (td_type t) (td_heartbeat_msec t) (td_servers t) (td_set_name t)
     (td_max_set_version t) (td_max_election_id t) (td_compatibility_error t) (td_max_server_id t)
     (td_stale t) (td_rand_seed t) (td_cluster_time t) (td_session_timeout_minutes t) (td_apm_callbacks t).
Definition mon_eta (m : monitored) : monitored := Mon (m_td m) (m_events m).
#[local] Notation "A ↦ B" := (A → B → B) (at level 98, right associativity).
Definition set_td_opened : bool ↦ td_t := ltac:(setter td_eta td_opened).
Definition set_td_type : mongoc_topology_description_type_t ↦ td_t := ltac:(setter td_eta td_type).
Definition set_servers : mongoc_set_t sd_t ↦ td_t := ltac:(setter td_eta td_servers).
Definition set_td_set_name : option (list Z) ↦ td_t := ltac:(setter td_eta td_set_name).
Definition set_max_set_version : Z ↦ td_t := ltac:(setter td_eta td_max_set_version).
Definition set_max_election_id : bson_oid_t ↦ td_t := ltac:(setter td_eta td_max_election_id).
Definition set_compatibility_error : bson_error_t ↦ td_t := ltac:(setter td_eta td_compatibility_error).
Definition set_max_server_id : Z ↦ td_t := ltac:(setter td_eta td_max_server_id).
Definition set_cluster_time : bson_t ↦ td_t := ltac:(setter td_eta td_cluster_time).
Definition set_td_session_timeout : Z ↦ td_t := ltac:(setter td_eta td_session_timeout_minutes).
Definition set_m_td : td_t ↦ monitored := ltac:(setter mon_eta m_td).
(** assignments to fields of the description *)
Definition upd (f : td_t → td_t) (m : monitored) : monitored := set_m_td (f (m_td m)) m.
Definition m_servers (m : monitored) : mongoc_set_t sd_t := td_servers (m_td m).
Definition upd_servers (f : mongoc_set_t sd_t → mongoc_set_t sd_t) : monitored → monitored :=
  upd (λ td, set_servers (f (td_servers td)) td).
(** [if (td->apm_callbacks.cb) td->apm_callbacks.cb (&event)] *)
Definition emit (cb : mongoc_apm_callbacks_t → bool) (e : apm_event) (m : monitored) : monitored :=
  if cb (td_apm_callbacks (m_td m)) then Mon (m_td m) (m_events m ++ [e]) else m.

(** the values that [for (i = 0; i < items_len; i++)] reads with [mongoc_set_get_item] *)
Definition descriptions (td : td_t) : list sd_t := map snd (set_items (td_servers td)).
(** reading and writing through a pointer to a description *)
Definition server_at (m : monitored) (server : Z) : res sd_t :=
  let* r := mongoc_set_get (m_servers m) server in
  match r with Some sd => Ret sd | None => Stuck UseAfterFree end.
Definition server_store (server : Z) (sd : sd_t) : monitored → monitored :=
  upd_servers (set_update server (λ _, sd)).

(** ** Lifecycle *)

(** [topology_id] is the new object id *)
Definition mongoc_topology_description_init (now : Z) (topology_id : bson_oid_t) (heartbeat_msec : Z) : td_t :=
  TD topology_id false MONGOC_TOPOLOGY_UNKNOWN heartbeat_msec (mongoc_set_new 8) None
     MONGOC_NO_SET_VERSION kObjectIdZero no_error 0 true (u32 now) bson_empty_doc MONGOC_NO_SESSIONS
     no_callbacks.
(** memory from [bson_malloc0] *)
Definition td_zero : td_t :=
  TD kObjectIdZero false MONGOC_TOPOLOGY_UNKNOWN 0 (mongoc_set_new 0) None 0 kObjectIdZero no_error 0 false
     0 [] 0 no_callbacks.

Fixpoint copy_servers (now : Z) (items : list (Z * sd_t)) (servers : mongoc_set_t sd_t)
    : res (mongoc_set_t sd_t) :=
  match items with
  | [] => Ret servers
  | (id, sd) :: items' =>
      let* c := mongoc_server_description_new_copy now (Some sd) in
      let* c := deref c in
      let* servers := mongoc_set_add servers id c in
      copy_servers now items' servers
  end.
(** [max_election_id] and [rand_seed] of the destination stay as they are *)
Definition _mongoc_topology_description_copy_to (now : Z) (src dst : td_t) : res td_t :=
  let nitems := bson_next_power_of_two (items_len (td_servers src)) in
  let* servers := copy_servers now (set_items (td_servers src)) (mongoc_set_new nitems) in
  Ret (TD (td_topology_id src) (td_opened src) (td_type src) (td_heartbeat_msec src) servers
          (td_set_name src) (td_max_set_version src) (td_max_election_id dst) (td_compatibility_error src)
          (td_max_server_id src) (td_stale src) (td_rand_seed dst) (td_cluster_time src)
          (td_session_timeout_minutes src) (td_apm_callbacks src)).

(** ** Events *)
Definition _mongoc_topology_description_monitor_server_opening (m : monitored) (server : Z) : res monitored :=
  if cb_server_opening (td_apm_callbacks (m_td m)) then
    let* sd := server_at m server in
    if sd_opened sd then Ret m
    else
      let e := ServerOpening (td_topology_id (m_td m)) (sd_host sd) in
      Ret (emit cb_server_opening e (server_store server (set_opened true sd) m))
  else Ret m.
Definition _mongoc_topology_description_monitor_server_changed (m : monitored) (prev_sd : option sd_t)
    (new_sd : Z) : res monitored :=
  if cb_server_changed (td_apm_callbacks (m_td m)) then
    let* sd := server_at m new_sd in
    Ret (emit cb_server_changed (ServerChanged (td_topology_id (m_td m)) (sd_host sd) prev_sd sd) m)
  else Ret m.
Definition _mongoc_topology_description_monitor_server_closed (m : monitored) (server : Z) : res monitored :=
  if cb_server_closed (td_apm_callbacks (m_td m)) then
    let* sd := server_at m server in
    Ret (emit cb_server_closed (ServerClosed (td_topology_id (m_td m)) (sd_host sd)) m)
  else Ret m.
Definition _mongoc_topology_description_monitor_changed (prev_td : option td_t) (m : monitored) : monitored :=
  emit cb_topology_changed (TopologyChanged (td_topology_id (m_td m)) prev_td (m_td m)) m.
Definition _mongoc_topology_description_monitor_closed (m : monitored) : monitored :=
  emit cb_topology_closed (TopologyClosed (td_topology_id (m_td m))) m.

(** the loop over the indexes: the callbacks do not change the set's size *)
Fixpoint open_servers (servers : list Z) (m : monitored) : res monitored :=
  match servers with
  | [] => Ret m
  | server :: rest =>
      let* m := _mongoc_topology_description_monitor_server_opening m server in open_servers rest m
  end.
(** [prev_id] is the object id of the temporary previous description *)
Definition _mongoc_topology_description_monitor_opening (now : Z) (prev_id : bson_oid_t) (m : monitored)
    : res monitored :=
  if td_opened (m_td m) then Ret m
  else
    let prev_td :=
      if cb_topology_changed (td_apm_callbacks (m_td m)) then
        Some (mongoc_topology_description_init now prev_id (td_heartbeat_msec (m_td m)))
      else None in
    let m := upd (set_td_opened true) m in
    let m := emit cb_topology_opening (TopologyOpening (td_topology_id (m_td m))) m in
    let m := _mongoc_topology_description_monitor_changed prev_td m in
    open_servers (ids (set_items (m_servers m))) m.

(** ** Queries *)
Definition _is_data_node (sd : sd_t) : bool :=
  match sd_type sd with
  | MONGOC_SERVER_MONGOS | MONGOC_SERVER_STANDALONE | MONGOC_SERVER_RS_SECONDARY
  | MONGOC_SERVER_RS_PRIMARY => true
  | MONGOC_SERVER_RS_OTHER | MONGOC_SERVER_RS_ARBITER | MONGOC_SERVER_UNKNOWN
  | MONGOC_SERVER_POSSIBLE_PRIMARY | MONGOC_SERVER_RS_GHOST => false
  end.

Definition _mongoc_topology_description_has_primary_cb (server : sd_t) (primary : option sd_t)
    : res (bool * option sd_t) :=
  if bool_decide (sd_type server = MONGOC_SERVER_RS_PRIMARY)
     || bool_decide (sd_type server = MONGOC_SERVER_STANDALONE)
  then Ret (false, Some server) else Ret (true, primary).
Definition _mongoc_topology_description_has_primary (m : monitored) : res (option sd_t) :=
  mongoc_set_for_each (m_servers m) _mongoc_topology_description_has_primary_cb None.

Definition _mongoc_topology_description_later_election (td : td_t) (sd : sd_t) : res bool :=
  if td_max_set_version td >? sd_set_version sd then Ret true
  else if td_max_set_version td =? sd_set_version sd then
    let* c := bson_oid_compare (td_max_election_id td) (sd_election_id sd) in Ret (c >? 0)
  else Ret false.
Definition _mongoc_topology_description_set_max_set_version (sd : sd_t) : td_t → td_t :=
  set_max_set_version (sd_set_version sd).
Definition _mongoc_topology_description_set_max_election_id (sd : sd_t) : td_t → td_t :=
  set_max_election_id (sd_election_id sd).
Definition _mongoc_topology_description_has_set_version (td : td_t) : bool :=
  negb (td_max_set_version td =? MONGOC_NO_SET_VERSION).

(** the id of the server, and the error written if there is none *)
Definition mongoc_topology_description_server_by_id (td : td_t) (id : Z)
    : res (option sd_t * option bson_error_t) :=
  let* sd := mongoc_set_get (td_servers td) id in
  match sd with
  | Some sd => Ret (Some sd, None)
  | None =>
      Ret (None, Some (bson_set_error MONGOC_ERROR_STREAM MONGOC_ERROR_STREAM_NOT_ESTABLISHED
                         (cs "Could not find description for node " ++ print_dec 10 id)))
  end.

(** [data.found] and [data.id] as one option *)
Definition _mongoc_topology_description_has_server_cb (address : list Z) (server : sd_t) (found : option Z)
    : res (bool * option Z) :=
  let* a := deref (sd_connection_address server) in
  if strcaseeq address a then Ret (false, Some (sd_id server)) else Ret (true, found).
Definition _mongoc_topology_description_has_server (m : monitored) (address : option (list Z))
    : res (option Z) :=
  match address with
  | None => Stuck AssertFailed
  | Some address =>
      mongoc_set_for_each (m_servers m) (_mongoc_topology_description_has_server_cb address) None
  end.

(** ** Adding, removing and labelling servers *)
Definition _mongoc_topology_description_remove_server (m : monitored) (server : Z) : res monitored :=
  let* m := _mongoc_topology_description_monitor_server_closed m server in
  let* sd := server_at m server in
  let* r := mongoc_set_rm (m_servers m) (sd_id sd) in
  Ret (upd (set_servers r.1) m).

Definition mongoc_topology_description_add_server (now : Z) (m : monitored) (server : option (list Z))
    : res (monitored * Z) :=
  match server with
  | None => Stuck AssertFailed
  | Some address =>
      let* found := _mongoc_topology_description_has_server m (Some address) in
      match found with
      | Some server_id => Ret (m, server_id)
      | None =>
          let server_id := u32 (td_max_server_id (m_td m) + 1) in
          let m := upd (set_max_server_id server_id) m in
          let description := mongoc_server_description_init now address server_id sd_zero in
          let* servers := mongoc_set_add (m_servers m) server_id description in
          let* m := _mongoc_topology_description_monitor_server_opening (upd (set_servers servers) m) server_id in
          Ret (m, server_id)
      end
  end.

Definition _mongoc_label_unknown_member_cb (address : list Z) (type : mongoc_server_description_type_t)
    (item : sd_t) (m : monitored) : res (bool * monitored) :=
  let* server := server_at m (sd_id item) in
  let* a := deref (sd_connection_address server) in
  if strcaseeq a address && bool_decide (sd_type server = MONGOC_SERVER_UNKNOWN) then
    Ret (false, server_store (sd_id item) (mongoc_server_description_set_state server type) m)
  else Ret (true, m).
Definition _mongoc_topology_description_label_unknown_member (m : monitored) (address : list Z)
    (type : mongoc_server_description_type_t) : res monitored :=
  mongoc_set_for_each (m_servers m) (_mongoc_label_unknown_member_cb address type) m.

Definition _mongoc_topology_description_set_state (type : mongoc_topology_description_type_t)
    : monitored → monitored := upd (set_td_type type).
Definition _update_rs_type (m : monitored) : res monitored :=
  let* primary := _mongoc_topology_description_has_primary m in
  Ret (_mongoc_topology_description_set_state
         (match primary with
          | Some _ => MONGOC_TOPOLOGY_RS_WITH_PRIMARY
          | None => MONGOC_TOPOLOGY_RS_NO_PRIMARY
          end) m).

(** [NULL]: not a string *)
Definition member_string (it : bson_iter_t) : res (option (list Z)) :=
  let* r := bson_iter_utf8 it false in
  match r.1 with Some p => let* s := c_string p in Ret (Some s) | None => Ret None end.
Definition add_members (now : Z) (m : monitored) (members : bson_t) : res monitored :=
  let '(ok, it) := bson_iter_init members in
  let* _ := bson_assert ok in
  let* r := for_each_field (λ it m,
    let* address := member_string it in
    let* r := mongoc_topology_description_add_server now m address in Ret (true, r.1)) it m in
  Ret r.2.
Definition _mongoc_topology_description_add_new_servers (now : Z) (m : monitored) (server : Z) : res monitored :=
  let* sd := server_at m server in
  let* m := add_members now m (sd_hosts sd) in
  let* m := add_members now m (sd_arbiters sd) in
  add_members now m (sd_passives sd).

Definition _mongoc_topology_description_invalidate_primaries_cb (primary : Z) (item : sd_t) (m : monitored)
    : res (bool * monitored) :=
  let* server := server_at m (sd_id item) in
  let* p := server_at m primary in
  if negb (sd_id server =? sd_id p) && bool_decide (sd_type server = MONGOC_SERVER_RS_PRIMARY) then
    let server := mongoc_server_description_set_state server MONGOC_SERVER_UNKNOWN in
    let server := mongoc_server_description_set_set_version server MONGOC_NO_SET_VERSION in
    let server := mongoc_server_description_set_election_id server None in
    Ret (true, server_store (sd_id item) server m)
  else Ret (true, m).

(** the ids of the members that the primary does not report *)
Fixpoint unreported (primary : sd_t) (members : list sd_t) : res (list Z) :=
  match members with
  | [] => Ret []
  | member :: rest =>
      let* address := deref (sd_connection_address member) in
      let* reported := mongoc_server_description_has_rs_member primary address in
      let* to_remove := unreported primary rest in
      Ret (if reported : bool then to_remove else sd_id member :: to_remove)
  end.
Fixpoint remove_each (m : monitored) (to_remove : list Z) : res monitored :=
  match to_remove with
  | [] => Ret m
  | server :: rest =>
      let* m := _mongoc_topology_description_remove_server m server in remove_each m rest
  end.
Definition _mongoc_topology_description_remove_unreported_servers (m : monitored) (primary : Z)
    : res monitored :=
  let* p := server_at m primary in
  let* to_remove := unreported p (descriptions (m_td m)) in
  remove_each m to_remove.

Definition _mongoc_topology_description_matches_me (sd : sd_t) : res bool :=
  match sd_connection_address sd with
  | None => Stuck AssertFailed
  | Some address => Ret (match sd_me sd with None => true | Some me => strcaseeq address me end)
  end.

(** ** Transitions *)
Section Transitions.
Variable now : Z.
(** [mongoc_topology_description_invalidate_server] *)
Variable invalidate_server : monitored → Z → bson_error_t → res monitored.

(** the set name check that the transitions begin with: the topology takes the
    first name it sees; [false] when the names differ *)
Definition check_set_name (m : monitored) (sd : sd_t) : bool * monitored :=
  match sd_set_name sd with
  | None => (true, m)
  | Some name =>
      match td_set_name (m_td m) with
      | None => (true, upd (set_td_set_name (Some name)) m)
      | Some name' => (streq name' name, m)
      end
  end.

(** the end of the transition, once the server is known to be the primary *)
Definition accept_primary (m : monitored) (server : Z) : res monitored :=
  let* sd := server_at m server in
  let newer := mongoc_server_description_has_set_version sd
               && (negb (_mongoc_topology_description_has_set_version (m_td m))
                   || (sd_set_version sd >? td_max_set_version (m_td m))) in
  let m := if newer then upd (_mongoc_topology_description_set_max_set_version sd) m else m in
  let* m := mongoc_set_for_each (m_servers m)
              (_mongoc_topology_description_invalidate_primaries_cb server) m in
  let* m := _mongoc_topology_description_add_new_servers now m server in
  let* m := _mongoc_topology_description_remove_unreported_servers m server in
  _update_rs_type m.

Definition _mongoc_topology_description_update_rs_from_primary (m : monitored) (server : Z) : res monitored :=
  let* sd := server_at m server in
  let* found := _mongoc_topology_description_has_server m (sd_connection_address sd) in
  match found with
  | None => Ret m
  | Some _ =>
      let '(same_set, m) := check_set_name m sd in
      if negb same_set then
        let* m := _mongoc_topology_description_remove_server m server in _update_rs_type m
      else
        let* has_id := mongoc_server_description_has_election_id sd in
        if mongoc_server_description_has_set_version sd && has_id then
          let* later := _mongoc_topology_description_later_election (m_td m) sd in
          if later : bool then
            let error := bson_set_error MONGOC_ERROR_STREAM MONGOC_ERROR_STREAM_CONNECT
                           (cs "member's setVersion or electionId is stale") in
            let* m := invalidate_server m (sd_id sd) error in _update_rs_type m
          else accept_primary (upd (_mongoc_topology_description_set_max_election_id sd) m) server
        else accept_primary m server
  end.

Definition _mongoc_topology_description_update_rs_without_primary (m : monitored) (server : Z) : res monitored :=
  let* sd := server_at m server in
  let* found := _mongoc_topology_description_has_server m (sd_connection_address sd) in
  match found with
  | None => Ret m
  | Some _ =>
      let '(same_set, m) := check_set_name m sd in
      if negb same_set then _mongoc_topology_description_remove_server m server
      else
        let* m := _mongoc_topology_description_add_new_servers now m server in
        let* sd := server_at m server in
        let* m := match sd_current_primary sd with
                  | Some address =>
                      _mongoc_topology_description_label_unknown_member m address MONGOC_SERVER_POSSIBLE_PRIMARY
                  | None => Ret m
                  end in
        let* sd := server_at m server in
        let* me := _mongoc_topology_description_matches_me sd in
        if me : bool then Ret m else _mongoc_topology_description_remove_server m server
  end.

Definition _mongoc_topology_description_update_rs_with_primary_from_member (m : monitored) (server : Z)
    : res monitored :=
  let* sd := server_at m server in
  let* found := _mongoc_topology_description_has_server m (sd_connection_address sd) in
  match found with
  | None => Ret m
  | Some _ =>
      let* name' := deref (td_set_name (m_td m)) in
      let* name := deref (sd_set_name sd) in
      if negb (streq name' name) then
        let* m := _mongoc_topology_description_remove_server m server in _update_rs_type m
      else
        let* me := _mongoc_topology_description_matches_me sd in
        if negb me then _mongoc_topology_description_remove_server m server
        else
          let* primary := _mongoc_topology_description_has_primary m in
          match primary, sd_current_primary sd with
          | None, Some address =>
              let m := _mongoc_topology_description_set_state MONGOC_TOPOLOGY_RS_NO_PRIMARY m in
              _mongoc_topology_description_label_unknown_member m address MONGOC_SERVER_POSSIBLE_PRIMARY
          | _, _ => Ret m
          end
  end.

Definition _mongoc_topology_description_check_if_has_primary (m : monitored) (server : Z) : res monitored :=
  _update_rs_type m.
Definition _mongoc_topology_description_set_topology_type_to_sharded (m : monitored) (server : Z)
    : res monitored := Ret (_mongoc_topology_description_set_state MONGOC_TOPOLOGY_SHARDED m).
Definition _mongoc_topology_description_transition_unknown_to_rs_no_primary (m : monitored) (server : Z)
    : res monitored :=
  _mongoc_topology_description_update_rs_without_primary
    (_mongoc_topology_description_set_state MONGOC_TOPOLOGY_RS_NO_PRIMARY m) server.
Definition _mongoc_topology_description_remove_and_check_primary (m : monitored) (server : Z)
    : res monitored :=
  let* m := _mongoc_topology_description_remove_server m server in _update_rs_type m.
Definition _mongoc_topology_description_update_unknown_with_standalone (m : monitored) (server : Z)
    : res monitored :=
  let* sd := server_at m server in
  let* found := _mongoc_topology_description_has_server m (sd_connection_address sd) in
  match found with
  | None => Ret m
  | Some _ =>
      if items_len (m_servers m) >? 1 then _mongoc_topology_description_remove_server m server
      else Ret (_mongoc_topology_description_set_state MONGOC_TOPOLOGY_SINGLE m)
  end.

(** [None] is a NULL entry; the table has no column for MONGOC_TOPOLOGY_SINGLE, whose
    entries C sets to NULL *)
Definition gSDAMTransitionTable (server : mongoc_server_description_type_t)
    (topology : mongoc_topology_description_type_t) : option (monitored → Z → res monitored) :=
  match server, topology with
  | _, MONGOC_TOPOLOGY_SINGLE => None
  | MONGOC_SERVER_UNKNOWN, MONGOC_TOPOLOGY_RS_WITH_PRIMARY =>
      Some _mongoc_topology_description_check_if_has_primary
  | MONGOC_SERVER_UNKNOWN, _ => None
  | MONGOC_SERVER_STANDALONE, MONGOC_TOPOLOGY_UNKNOWN =>
      Some _mongoc_topology_description_update_unknown_with_standalone
  | MONGOC_SERVER_STANDALONE, MONGOC_TOPOLOGY_RS_WITH_PRIMARY =>
      Some _mongoc_topology_description_remove_and_check_primary
  | MONGOC_SERVER_STANDALONE, _ => Some _mongoc_topology_description_remove_server
  | MONGOC_SERVER_MONGOS, MONGOC_TOPOLOGY_UNKNOWN =>
      Some _mongoc_topology_description_set_topology_type_to_sharded
  | MONGOC_SERVER_MONGOS, MONGOC_TOPOLOGY_SHARDED => None
  | MONGOC_SERVER_MONGOS, MONGOC_TOPOLOGY_RS_NO_PRIMARY => Some _mongoc_topology_description_remove_server
  | MONGOC_SERVER_MONGOS, MONGOC_TOPOLOGY_RS_WITH_PRIMARY =>
      Some _mongoc_topology_description_remove_and_check_primary
  | MONGOC_SERVER_POSSIBLE_PRIMARY, _ => None
  | MONGOC_SERVER_RS_PRIMARY, MONGOC_TOPOLOGY_SHARDED => Some _mongoc_topology_description_remove_server
  | MONGOC_SERVER_RS_PRIMARY, _ => Some _mongoc_topology_description_update_rs_from_primary
  | (MONGOC_SERVER_RS_SECONDARY | MONGOC_SERVER_RS_ARBITER | MONGOC_SERVER_RS_OTHER), MONGOC_TOPOLOGY_UNKNOWN =>
      Some _mongoc_topology_description_transition_unknown_to_rs_no_primary
  | (MONGOC_SERVER_RS_SECONDARY | MONGOC_SERVER_RS_ARBITER | MONGOC_SERVER_RS_OTHER), MONGOC_TOPOLOGY_SHARDED =>
      Some _mongoc_topology_description_remove_server
  | (MONGOC_SERVER_RS_SECONDARY | MONGOC_SERVER_RS_ARBITER | MONGOC_SERVER_RS_OTHER), MONGOC_TOPOLOGY_RS_NO_PRIMARY =>
      Some _mongoc_topology_description_update_rs_without_primary
  | (MONGOC_SERVER_RS_SECONDARY | MONGOC_SERVER_RS_ARBITER | MONGOC_SERVER_RS_OTHER), MONGOC_TOPOLOGY_RS_WITH_PRIMARY =>
      Some _mongoc_topology_description_update_rs_with_primary_from_member
  | MONGOC_SERVER_RS_GHOST, MONGOC_TOPOLOGY_SHARDED => Some _mongoc_topology_description_remove_server
  | MONGOC_SERVER_RS_GHOST, MONGOC_TOPOLOGY_RS_WITH_PRIMARY =>
      Some _mongoc_topology_description_check_if_has_primary
  | MONGOC_SERVER_RS_GHOST, _ => None
  end.
End Transitions.

(** ** Summaries of the known servers *)

(** the loop with its early return *)
Fixpoint smallest_session_timeout (sds : list sd_t) (session_timeout_minutes : Z) : Z :=
  match sds with
  | [] => session_timeout_minutes
  | sd :: sds' =>
      if negb (_is_data_node sd) then smallest_session_timeout sds' session_timeout_minutes
      else if sd_session_timeout_minutes sd =? MONGOC_NO_SESSIONS then MONGOC_NO_SESSIONS
      else if session_timeout_minutes =? MONGOC_NO_SESSIONS then
        smallest_session_timeout sds' (sd_session_timeout_minutes sd)
      else if session_timeout_minutes >? sd_session_timeout_minutes sd then
        smallest_session_timeout sds' (sd_session_timeout_minutes sd)
      else smallest_session_timeout sds' session_timeout_minutes
  end.
Definition _mongoc_topology_description_update_session_timeout : monitored → monitored :=
  upd (λ td, set_td_session_timeout (smallest_session_timeout (descriptions td) MONGOC_NO_SESSIONS) td).

(** ["%d"] *)
Definition print_int (n : Z) : list Z := if n <? 0 then 45 :: print_dec 19 (- n) else print_dec 19 n.
Definition wire_error (message : list Z) : bson_error_t :=
  bson_set_error MONGOC_ERROR_PROTOCOL MONGOC_ERROR_PROTOCOL_BAD_WIRE_VERSION message.
Fixpoint incompatibility (sds : list sd_t) (error : bson_error_t) : bson_error_t :=
  match sds with
  | [] => error
  | sd :: sds' =>
      let host := h_host_and_port (sd_host sd) in
      if bool_decide (sd_type sd = MONGOC_SERVER_UNKNOWN)
         || bool_decide (sd_type sd = MONGOC_SERVER_POSSIBLE_PRIMARY) then incompatibility sds' error
      else if sd_min_wire_version sd >? WIRE_VERSION_MAX then
        incompatibility sds' (wire_error
          (cs "Server at " ++ host ++ cs " requires wire version " ++ print_int (sd_min_wire_version sd)
           ++ cs ", but this version of libmongoc only supports up to " ++ print_int WIRE_VERSION_MAX))
      else if sd_max_wire_version sd <? WIRE_VERSION_MIN then
        incompatibility sds' (wire_error
          (cs "Server at " ++ host ++ cs " reports wire version " ++ print_int (sd_max_wire_version sd)
           ++ cs ", but this version of libmongoc requires at least 3 (MongoDB 3.0)"))
      else incompatibility sds' error
  end.
Definition _mongoc_topology_description_check_compatible : monitored → monitored :=
  upd (λ td, set_compatibility_error (incompatibility (descriptions td) no_error) td).

(** [$clusterTime]: the greatest one seen is kept *)
Definition mongoc_topology_description_update_cluster_time (td : td_t) (reply : option bson_t) : res td_t :=
  match reply with
  | None => Ret td
  | Some reply =>
      let* f := bson_iter_init_find reply (c_lit "$clusterTime") in
      if negb f.1 then Ret td
      else
        let it := f.2 in
        let* doc := BSON_ITER_HOLDS it BSON_TYPE_DOCUMENT in
        if negb doc then Ret td
        else
          let* child := bson_iter_recurse it in
          match child with
          | None => Ret td
          | Some _ =>
              let* r := bson_iter_document it in
              let* cluster_time := static_doc r in
              let* empty := bson_empty (td_cluster_time td) in
              if empty : bool then Ret (set_cluster_time cluster_time td)
              else
                let* greater := _mongoc_cluster_time_greater cluster_time (td_cluster_time td) in
                Ret (if greater : bool then set_cluster_time cluster_time td else td)
          end
  end.

(** ** Handling a reply *)
Section HandleIsmaster.
Variable now : Z.

(** the copies for the events, made before anything changes *)
Definition previous_topology (m : monitored) : res (option td_t) :=
  if cb_topology_changed (td_apm_callbacks (m_td m)) then
    let* prev := _mongoc_topology_description_copy_to now (m_td m) td_zero in Ret (Some prev)
  else Ret None.
Definition previous_server (m : monitored) (sd : sd_t) : res (option sd_t) :=
  if cb_server_changed (td_apm_callbacks (m_td m)) then
    mongoc_server_description_new_copy now (Some sd)
  else Ret None.
Definition transition (invalidate_server : monitored → Z → bson_error_t → res monitored)
    (m : monitored) (server : Z) : res monitored :=
  let* sd := server_at m server in
  match gSDAMTransitionTable now invalidate_server (sd_type sd) (td_type (m_td m)) with
  | Some f => f m server
  | None => Ret m
  end.
(** the end of the handler; [response] tells whether there was a reply *)
Definition finish_ismaster (prev_td : option td_t) (response : bool) (error : option bson_error_t)
    (m : monitored) : monitored :=
  let m := _mongoc_topology_description_update_session_timeout m in
  let no_error := match error with None => true | Some e => e_code e =? 0 end in
  let m := if response && no_error then _mongoc_topology_description_check_compatible m else m in
  _mongoc_topology_description_monitor_changed prev_td m.

(** The handler calls itself through [mongoc_topology_description_invalidate_server];
    [depth] bounds the nesting. *)
Fixpoint handle_ismaster_nested (depth : nat) (m : monitored) (server_id : Z)
    (ismaster_response : option bson_t) (rtt_msec : Z) (error : option bson_error_t) : res monitored :=
  match depth with
  | O => Stuck OutOfFuel
  | S depth' =>
      let invalidate_server m id error := handle_ismaster_nested depth' m id None 0 (Some error) in
      let* _ := bson_assert (negb (server_id =? 0)) in
      let* r := mongoc_topology_description_server_by_id (m_td m) server_id in
      match r.1 with
      | None => Ret m
      | Some sd =>
          let* prev_td := previous_topology m in
          let* prev_sd := previous_server m sd in
          let* sd := mongoc_server_description_handle_ismaster now sd ismaster_response rtt_msec error in
          let m := server_store server_id sd m in
          let* td := mongoc_topology_description_update_cluster_time (m_td m) ismaster_response in
          let m := set_m_td td m in
          let* m := _mongoc_topology_description_monitor_server_changed m prev_sd server_id in
          let* m := transition invalidate_server m server_id in
          Ret (finish_ismaster prev_td (bool_decide (is_Some ismaster_response)) error m)
      end
  end.
(** an invalidation inside a handler does not invalidate again *)
Definition mongoc_topology_description_handle_ismaster : monitored → Z → option bson_t → Z →
    option bson_error_t → res monitored := handle_ismaster_nested 2.
Definition mongoc_topology_description_invalidate_server (m : monitored) (id : Z) (error : bson_error_t)
    : res monitored := mongoc_topology_description_handle_ismaster m id None 0 (Some error).
End HandleIsmaster.
