(* ===== verification/TopologySafe.v ===== *)
(** Server discovery and monitoring keeps the topology description well formed:
    the invariant of the set of servers, the effect of each operation on the map
    from ids to descriptions, and of each transition on the types. *)
From Stdlib Require Import ZArith Lia List.
From stdpp Require Import prelude gmap strings.
From S2P Require Import Prelude BsonIter BsonIterSafe BsonFields BsonAppend BsonBuild BsonOid.
From S2P Require Import MongocSet HostList MongocTypes ServerDescription TopologyDescription.
#[local] Open Scope Z_scope.
#[local] Open Scope mongo_scope.

#[local] Notation sd_t := mongoc_server_description_t.
#[local] Notation td_t := mongoc_topology_description_t.

(** ** The invariant of the servers *)
Definition servers (td : td_t) : gmap Z sd_t := set_map (td_servers td).
Definition address_of (sd : sd_t) : list Z := h_host_and_port (sd_host sd).
Definition named (sd : sd_t) : Prop := rs_member (sd_type sd) → is_Some (sd_set_name sd).

Record server_ok (top id : Z) (sd : sd_t) : Prop := {
  server_id : sd_id sd = id;
  server_range : 1 ≤ id ≤ top;
  server_sd_ok : sd_ok sd;
  server_named : named sd;
  server_address : sd_connection_address sd = Some (address_of sd);
  server_reparses : reparses sd              (* its last reply was parsed, and can be again *)
}.
Record base (td : td_t) : Prop := {
  base_wf : set_wf (td_servers td);
  base_each : ∀ id sd, servers td !! id = Some sd → server_ok (td_max_server_id td) id sd;
  base_distinct : ∀ i j a b, servers td !! i = Some a → servers td !! j = Some b →
    strcaseeq (address_of a) (address_of b) = true → i = j;
  base_top : 0 ≤ td_max_server_id td < 2 ^ 32;
  base_time : doc_ok (td_cluster_time td);
  base_election : oid_ok (td_max_election_id td)
}.
(** the fields that the operations on the set of servers leave alone *)
Definition settings (td : td_t) :=
  (td_type td, td_set_name td, td_max_set_version td, td_max_election_id td, td_cluster_time td,
   td_apm_callbacks td).

(** a change of a description that keeps its identity *)
Definition steady (a b : sd_t) : Prop :=
  sd_id a = sd_id b ∧ sd_host a = sd_host b ∧ sd_connection_address a = sd_connection_address b
  ∧ sd_ok b ∧ named b ∧ reparses b.

Lemma emit_td cb e m : m_td (emit cb e m) = m_td m.
Proof. unfold emit. by destruct (cb _). Qed.
Lemma set_opened_same sd : set_opened (sd_opened sd) sd = sd.
Proof. by destruct sd. Qed.
Lemma steady_opened o sd top id : server_ok top id sd → steady sd (set_opened o sd).
Proof. intros [_ _ H1 H2 _ H3]. exact (conj eq_refl (conj eq_refl (conj eq_refl (conj H1 (conj H2 H3))))). Qed.

Lemma in_descriptions td sd : base td → sd ∈ descriptions td ↔ ∃ id, servers td !! id = Some sd.
Proof.
  intros [Hwf _ _ _ _ _]. unfold descriptions. rewrite list_elem_of_fmap. split.
  - intros ([id x] & -> & Hin). exists id. by apply set_map_lookup.
  - intros [id Hin]. exists (id, sd). split; [done|]. by apply set_map_lookup.
Qed.
Lemma described td sd : base td → sd ∈ descriptions td → servers td !! sd_id sd = Some sd.
Proof.
  intros Hb Hin. apply in_descriptions in Hin as [id Hid]; [|done].
  by rewrite (server_id _ _ _ (base_each _ Hb _ _ Hid)).
Qed.
Lemma servers_length td : base td → items_len (td_servers td) < 2 ^ 32.
Proof.
  intros Hb. unfold items_len.
  enough (Z.of_nat (length (set_items (td_servers td))) ≤ Z.max 0 (td_max_server_id td + 1 - 1))
    by (pose proof (base_top _ Hb); lia).
  apply ordered_length; [apply Hb|]. intros [id sd] Hin. simpl.
  apply set_map_lookup in Hin; [|apply Hb]. apply (base_each _ Hb) in Hin as []. lia.
Qed.

Lemma server_at_spec m id sd : base (m_td m) → servers (m_td m) !! id = Some sd → server_at m id = Ret sd.
Proof.
  intros [Hwf _ _ _ _ _] Hid. unfold server_at. rewrite mongoc_set_get_spec by done.
  unfold m_servers. unfold servers in Hid. by rewrite Hid.
Qed.

(** the base invariant after a change of the set of servers *)
Lemma base_insert td td' id sd sd' :
  base td → servers td !! id = Some sd → steady sd sd' → set_wf (td_servers td') →
  servers td' = <[id := sd']> (servers td) → settings td' = settings td →
  td_max_server_id td' = td_max_server_id td → base td'.
Proof.
  intros Hb Hid (H1 & H2 & H3 & H4 & H5 & H6) Hwf Hmap [= _ _ _ Hel Ht _] Htop.
  pose proof (base_each _ Hb _ _ Hid) as [Hi Hr Ho Hn Ha _].
  assert (Haddr : address_of sd' = address_of sd) by (unfold address_of; by rewrite H2).
  constructor; rewrite ?Htop, ?Hel, ?Ht; [done| | |apply Hb|apply Hb|apply Hb].
  - intros k x. rewrite Hmap, lookup_insert_Some. intros [[-> ->]|[_ Hk]]; [|by apply Hb].
    constructor; [congruence|done|done|done|congruence|done].
  - assert (Hold : ∀ k x, servers td' !! k = Some x →
      ∃ y, servers td !! k = Some y ∧ address_of x = address_of y).
    { intros k x. rewrite Hmap, lookup_insert_Some. intros [[<- <-]|[_ Hk]]; eauto. }
    intros i j a b (a' & Hi' & ->)%Hold (b' & Hj' & ->)%Hold. by eapply base_distinct.
Qed.
Lemma store_spec m id sd sd' :
  base (m_td m) → servers (m_td m) !! id = Some sd → steady sd sd' →
  base (m_td (server_store id sd' m)) ∧ servers (m_td (server_store id sd' m)) = <[id := sd']> (servers (m_td m)).
Proof.
  intros Hb Hid Hs. destruct (set_update_spec _ id (λ _, sd') sd (base_wf _ Hb) Hid) as (Hwf & Hmap & _).
  split; [|exact Hmap]. by eapply base_insert.
Qed.

Lemma opening_spec m id sd :
  base (m_td m) → servers (m_td m) !! id = Some sd →
  returns (_mongoc_topology_description_monitor_server_opening m id) (λ m',
    base (m_td m') ∧ settings (m_td m') = settings (m_td m)
    ∧ td_max_server_id (m_td m') = td_max_server_id (m_td m)
    ∧ ∃ o, servers (m_td m') = <[id := set_opened o sd]> (servers (m_td m))).
Proof.
  intros Hb Hid. unfold _mongoc_topology_description_monitor_server_opening.
  assert (Hsame : ∃ o, servers (m_td m) = <[id := set_opened o sd]> (servers (m_td m))).
  { exists (sd_opened sd). by rewrite set_opened_same, insert_id. }
  destruct (cb_server_opening _); [|done]. rewrite (server_at_spec _ _ _ Hb Hid). cbn [bind].
  destruct (sd_opened sd); [done|]. cbn [returns]. rewrite emit_td.
  destruct (store_spec m id sd (set_opened true sd) Hb Hid) as [? ?]; [by eapply steady_opened, Hb|].
  split; [done|]. split; [done|]. split; [done|]. by exists true.
Qed.

Lemma remove_spec m id sd :
  base (m_td m) → servers (m_td m) !! id = Some sd →
  returns (_mongoc_topology_description_remove_server m id) (λ m',
    base (m_td m') ∧ settings (m_td m') = settings (m_td m)
    ∧ servers (m_td m') = delete id (servers (m_td m))
    ∧ items_len (m_servers m') ≤ items_len (m_servers m)).
Proof.
  intros Hb Hid. unfold _mongoc_topology_description_remove_server.
  unfold _mongoc_topology_description_monitor_server_closed. rewrite (server_at_spec _ _ _ Hb Hid).
  set (mc := if cb_server_closed _ then _ else _). assert (Hmc : ∃ m1, mc = Ret m1 ∧ m_td m1 = m_td m).
  { unfold mc. destruct (cb_server_closed _); eexists; (split; [done|]); [apply emit_td|done]. }
  clearbody mc. destruct Hmc as (m1 & -> & Hm1). cbn [bind].
  rewrite (server_at_spec m1 id sd) by (by rewrite Hm1). cbn [bind].
  rewrite (server_id _ _ _ (base_each _ Hb _ _ Hid)). unfold m_servers. rewrite Hm1.
  eapply returns_bind; [apply mongoc_set_rm_spec, Hb|]. intros [s r] (Hwf & Hmap & _ & _ & Hlen).
  cbn [returns fst upd set_m_td m_td]. rewrite Hm1. change (servers (set_servers s (m_td m))) with (set_map s).
  assert (Hold : ∀ k x, set_map s !! k = Some x → servers (m_td m) !! k = Some x).
  { intros k x. rewrite Hmap. by intros [_ ?]%lookup_delete_Some. }
  split; [|done]. constructor; [done| | |apply Hb|apply Hb|apply Hb].
  - intros k x Hk%Hold. by apply (base_each _ Hb).
  - intros i j a b Hi%Hold Hj%Hold. by eapply base_distinct.
Qed.

(** ** Searching the servers *)
Lemma has_server_spec m a :
  base (m_td m) →
  returns (_mongoc_topology_description_has_server m (Some a)) (λ r,
    match r with
    | Some id => ∃ sd, servers (m_td m) !! id = Some sd ∧ strcaseeq a (address_of sd) = true
    | None => ∀ id sd, servers (m_td m) !! id = Some sd → strcaseeq a (address_of sd) = false
    end).
Proof.
  intros Hb. unfold _mongoc_topology_description_has_server.
  apply (for_each_rule (λ _, False) _ _
    (λ pre r, r = None ∧ ∀ sd, sd ∈ pre → strcaseeq a (address_of sd) = false)).
  - split; [done|]. by intros ? ?%not_elem_of_nil.
  - intros pre sd post c Hs [-> Hpre].
    assert (Hin : servers (m_td m) !! sd_id sd = Some sd).
    { apply described; [done|]. unfold descriptions. unfold m_servers in Hs. rewrite Hs. set_solver. }
    unfold _mongoc_topology_description_has_server_cb. rewrite (server_address _ _ _ (base_each _ Hb _ _ Hin)).
    cbn [deref bind]. destruct (strcaseeq a (address_of sd)) eqn:Ha; cbn.
    + by exists sd.
    + split; [done|]. intros x [Hx| ->%list_elem_of_singleton]%elem_of_app; auto.
  - intros c [-> Hall] id sd Hid. apply Hall. apply (in_descriptions (m_td m)); [done|by exists id].
Qed.
(** a server of the set is found by its own address *)
Lemma has_own_address m id sd :
  base (m_td m) → servers (m_td m) !! id = Some sd →
  ∃ k, _mongoc_topology_description_has_server m (sd_connection_address sd) = Ret (Some k).
Proof.
  intros Hb Hid. rewrite (server_address _ _ _ (base_each _ Hb _ _ Hid)).
  pose proof (has_server_spec m (address_of sd) Hb) as H.
  apply returns_Ret in H as ([k|] & Hk & H); [by exists k|].
  specialize (H _ _ Hid). by rewrite strcaseeq_refl in H.
Qed.

Definition primary_like (sd : sd_t) : Prop :=
  sd_type sd = MONGOC_SERVER_RS_PRIMARY ∨ sd_type sd = MONGOC_SERVER_STANDALONE.
Lemma has_primary_spec m :
  base (m_td m) →
  returns (_mongoc_topology_description_has_primary m) (λ r,
    match r with
    | Some sd => ∃ id, servers (m_td m) !! id = Some sd ∧ primary_like sd
    | None => ∀ id sd, servers (m_td m) !! id = Some sd → ¬ primary_like sd
    end).
Proof.
  intros Hb. apply (for_each_rule (λ _, False) _ _
    (λ pre r, r = None ∧ ∀ sd, sd ∈ pre → ¬ primary_like sd)).
  - split; [done|]. by intros ? ?%not_elem_of_nil.
  - intros pre sd post c Hs [-> Hpre]. unfold _mongoc_topology_description_has_primary_cb.
    destruct (bool_decide _ || bool_decide _) eqn:Hp; cbn [outcome fst snd].
    + exists (sd_id sd). split; [|by apply orb_true_iff in Hp as [?%bool_decide_eq_true|?%bool_decide_eq_true]; [left|right]].
      apply described; [done|]. unfold descriptions. unfold m_servers in Hs. rewrite Hs. set_solver.
    + apply orb_false_iff in Hp as [?%bool_decide_eq_false ?%bool_decide_eq_false].
      split; [done|]. intros x [Hx| ->%list_elem_of_singleton]%elem_of_app; [by apply Hpre|].
      by intros [?|?].
  - intros c [-> Hall] id sd Hid. apply Hall. apply (in_descriptions (m_td m)); [done|by exists id].
Qed.

(** ** Adding servers *)

(** an address as mongoc_host_list_t prints it, up to case *)
Definition canonical (a : list Z) : Prop :=
  ∃ h, _mongoc_host_list_from_string a = Some h ∧ strcaseeq a (h_host_and_port h) = true.

(** [td'] has the servers of [td], up to the [opened] flag, and maybe new ones *)
Definition extends (td td' : td_t) (added : sd_t → Prop) : Prop :=
  base td' ∧ settings td' = settings td
  ∧ (∀ id sd, servers td !! id = Some sd → servers td' !! id = Some sd)
  ∧ (∀ id sd, servers td' !! id = Some sd →
       servers td !! id = Some sd ∨ sd_type sd = MONGOC_SERVER_UNKNOWN ∧ added sd).

Lemma init_server now a h id :
  _mongoc_host_list_from_string a = Some h →
  let sd := mongoc_server_description_init now a id sd_zero in
  sd_id sd = id ∧ sd_host sd = h ∧ sd_connection_address sd = Some (h_host_and_port h)
  ∧ sd_type sd = MONGOC_SERVER_UNKNOWN ∧ sd_ok sd ∧ reparses sd.
Proof. intros Ha. unfold mongoc_server_description_init. rewrite Ha. do 4 (split; [done|]). split; [apply reset_ok|done]. Qed.
Lemma unknown_named sd : sd_type sd = MONGOC_SERVER_UNKNOWN → named sd.
Proof. intros H. unfold named, rs_member. rewrite H. by intros [?|[?|[?|?]]]. Qed.

Lemma base_add td id sd s :
  base td → td_max_server_id td < id < 2 ^ 32 →
  sd_id sd = id → sd_ok sd → reparses sd → sd_type sd = MONGOC_SERVER_UNKNOWN →
  sd_connection_address sd = Some (address_of sd) →
  (∀ i x, servers td !! i = Some x → strcaseeq (address_of sd) (address_of x) = false) →
  set_wf s → set_map s = <[id := sd]> (servers td) →
  base (set_servers s (set_max_server_id id td)).
Proof.
  intros Hb Hid Hsid Hok Hrp Hty Hca Hnew Hwf Hmap.
  assert (Hlook : ∀ k x, set_map s !! k = Some x → k = id ∧ x = sd ∨ servers td !! k = Some x).
  { intros k x. rewrite Hmap, lookup_insert_Some. naive_solver. }
  pose proof (base_top _ Hb). constructor; cbn; [done| | |lia|apply Hb|apply Hb].
  - intros k x [[-> ->]|Hk]%Hlook; [constructor; [done|lia|done|by apply unknown_named|done|done]|].
    apply (base_each _ Hb) in Hk as []. constructor; auto. lia.
  - intros i j a b [[-> ->]|Hi]%Hlook [[-> ->]|Hj]%Hlook He; [done| | |by eapply base_distinct].
    + by rewrite (Hnew _ _ Hj) in He.
    + rewrite strcaseeq_sym, (Hnew _ _ Hi) in He. done.
Qed.

Lemma strcaseeq_trans_false a b c :
  strcaseeq a b = true → strcaseeq a c = false → strcaseeq b c = false.
Proof.
  intros Hab Hac. destruct (strcaseeq b c) eqn:Hbc; [|done].
  by rewrite (strcaseeq_trans _ _ _ Hab Hbc) in Hac.
Qed.

Lemma add_spec now m a :
  base (m_td m) → canonical a → td_max_server_id (m_td m) + 1 < 2 ^ 32 →
  returns (mongoc_topology_description_add_server now m (Some a)) (λ r,
    extends (m_td m) (m_td r.1) (λ sd, strcaseeq a (address_of sd) = true)
    ∧ (∃ id sd, servers (m_td r.1) !! id = Some sd ∧ strcaseeq a (address_of sd) = true)
    ∧ td_max_server_id (m_td r.1) ≤ td_max_server_id (m_td m) + 1).
Proof.
  intros Hb (h & Hparse & Hcanon) Hmax. unfold mongoc_topology_description_add_server.
  eapply returns_bind; [by apply has_server_spec|]. intros [k|].
  { intros (sd & Hk & Ha). cbn. split; [|split; [eauto|lia]]. split; [done|]. split; [done|]. auto. }
  intros Hnone. pose proof (base_top _ Hb). rewrite u32_small by lia.
  set (id := td_max_server_id (m_td m) + 1) in *.
  destruct (init_server now a h id Hparse) as (Hid & Hhost & Hca & Hty & Hok & Hrp).
  set (sd := mongoc_server_description_init now a id sd_zero) in *.
  assert (Haddr : address_of sd = h_host_and_port h) by (unfold address_of; by rewrite Hhost).
  assert (Hfresh : servers (m_td m) !! id = None).
  { apply eq_None_not_Some. intros [x Hx]. apply (base_each _ Hb) in Hx as []. lia. }
  pose proof (servers_length _ Hb) as Hlen.
  eapply returns_bind; [apply mongoc_set_add_spec; [apply Hb|exact Hfresh|unfold m_servers; cbn; lia]|].
  intros s (Hwf & Hmap & _). change (set_map (m_servers _)) with (servers (m_td m)) in Hmap.
  assert (Hb' : base (set_servers s (set_max_server_id id (m_td m)))).
  { apply (base_add _ _ sd); try done; [lia|congruence|]. intros i x Hi. rewrite Haddr.
    eapply strcaseeq_trans_false; [exact Hcanon|by eapply Hnone]. }
  set (m1 := upd (set_servers s) _). change (base (m_td m1)) in Hb'. change (servers (m_td m1) = <[id:=sd]> (servers (m_td m))) in Hmap.
  assert (Hsd : servers (m_td m1) !! id = Some sd) by (rewrite Hmap; apply lookup_insert_eq).
  eapply returns_bind; [by eapply opening_spec|]. intros m2 (Hb2 & Hset2 & Htop2 & o & Hmap2). cbn [returns fst].
  rewrite Hmap in Hmap2. split; [|split].
  - split; [done|]. split; [by rewrite Hset2|]. split.
    + intros k x Hk. rewrite Hmap2, !lookup_insert_ne by congruence. done.
    + intros k x. rewrite Hmap2, insert_insert_eq, lookup_insert_Some. intros [[<- <-]|[_ Hk]]; [right|by left].
      split; [exact Hty|]. change (address_of (set_opened o sd)) with (address_of sd). by rewrite Haddr.
  - exists id, (set_opened o sd). rewrite Hmap2, lookup_insert_eq. split; [done|].
    change (address_of (set_opened o sd)) with (address_of sd). by rewrite Haddr.
  - rewrite Htop2. cbn. lia.
Qed.

(** ** The members that a reply reports *)

(** the strings of a hosts, passives or arbiters array *)
Definition member_list (members : bson_t) : res (list (list Z)) :=
  let '(ok, it) := bson_iter_init members in
  let* _ := bson_assert ok in
  let* r := for_each_field (λ it acc,
    let* a := member_string it in
    match a with Some a => Ret (true, acc ++ [a]) | None => Stuck AssertFailed end) it [] in
  Ret r.2.
(** every member is a string, and a canonical address *)
Definition members_of (sd : sd_t) : res (list (list Z)) :=
  let* hosts := member_list (sd_hosts sd) in
  let* arbiters := member_list (sd_arbiters sd) in
  let* passives := member_list (sd_passives sd) in
  Ret (hosts ++ arbiters ++ passives).

Lemma members_fold doc l :
  doc_ok doc → member_list doc = Ret l →
  ∃ it last fs, bson_iter_init doc = (true, it) ∧ fields_of it = Ret (last, fs) ∧
    Forall2 (λ f a, member_string f = Ret (Some a)) fs l.
Proof.
  intros [Hdoc H5] Hl. pose proof (bson_iter_init_ok doc Hdoc) as Hit.
  unfold member_list, bson_iter_init in *. destruct (Z.ltb_spec (blen doc) 5); [lia|].
  cbn [bson_assert bind snd] in *. destruct (fields_of_ok _ Hit) as (last & fs & Hfs & _ & _ & _).
  eexists _, last, fs. split; [done|]. split; [exact Hfs|].
  rewrite (for_each_fold _ _ _ _ _ Hfs) in Hl. clear Hfs Hit.
  enough (Hgo : ∀ acc, (let* r := fold_fields (λ it acc,
      let* a := member_string it in
      match a with Some a => Ret (true, acc ++ [a]) | None => Stuck AssertFailed end) fs last acc in Ret r.2)
      = Ret (acc ++ l) → Forall2 (λ f a, member_string f = Ret (Some a)) fs l) by (by apply (Hgo [])).
  clear Hl. revert l. induction fs as [|f fs IH]; intros l acc Hl; simpl in Hl.
  { injection Hl as Hl. rewrite <- (app_nil_r acc) in Hl at 1. apply app_inv_head in Hl as <-. constructor. }
  destruct (member_string f) as [[a|]|] eqn:Hf; cbn [bind] in Hl; [|done|done].
  assert (∃ l', l = a :: l') as [l' ->].
  { clear -Hl. enough (∀ l0 acc0, (let* r := fold_fields (λ it acc,
      let* a := member_string it in
      match a with Some a => Ret (true, acc ++ [a]) | None => Stuck AssertFailed end) fs last acc0 in Ret r.2)
      = Ret l0 → ∃ r, l0 = acc0 ++ r) as H.
    { apply H in Hl as [r Hr]. rewrite <- app_assoc in Hr. apply app_inv_head in Hr. eauto. }
    clear Hl. induction fs as [|g fs IH]; intros l0 acc0 H; simpl in H; [injection H as <-; exists []; by rewrite app_nil_r|].
    destruct (member_string g) as [[b|]|]; cbn [bind] in H; [|done|done].
    apply IH in H as [r ->]. exists (b :: r). by rewrite <- app_assoc. }
  constructor; [done|]. eapply (IH l' (acc ++ [a])). rewrite <- app_assoc. exact Hl.
Qed.

Lemma extends_refl td P : base td → extends td td P.
Proof. intros Hb. split; [done|]. split; [done|]. auto. Qed.
Lemma extends_trans td1 td2 td3 (P Q : sd_t → Prop) :
  extends td1 td2 P → extends td2 td3 Q → extends td1 td3 (λ sd, P sd ∨ Q sd).
Proof.
  intros (_ & Hs1 & Hk1 & Hn1) (Hb & Hs2 & Hk2 & Hn2). split; [done|]. split; [by rewrite Hs2|].
  split; [auto|]. intros id sd [Hid|[? ?]]%Hn2; [|auto]. apply Hn1 in Hid as [?|[? ?]]; auto.
Qed.
Lemma extends_weaken td td' (P Q : sd_t → Prop) : (∀ sd, P sd → Q sd) → extends td td' P → extends td td' Q.
Proof.
  intros H (Hb & Hs & Hk & Hn). split; [done|]. split; [done|]. split; [done|].
  intros id sd [?|[? ?]]%Hn; auto.
Qed.

Definition listed (l : list (list Z)) (sd : sd_t) : Prop := ∃ a, a ∈ l ∧ strcaseeq a (address_of sd) = true.
(** the servers of [td'] are those of [td] and the listed ones *)
Definition covers (td : td_t) (l : list (list Z)) : Prop :=
  ∀ a, a ∈ l → ∃ id sd, servers td !! id = Some sd ∧ strcaseeq a (address_of sd) = true.

Lemma covers_extends td td' P l : extends td td' P → covers td l → covers td' l.
Proof. intros (_ & _ & Hk & _) Hc a (id & sd & Hid & Ha)%Hc. eauto. Qed.

Lemma add_members_spec now m doc l :
  base (m_td m) → doc_ok doc → member_list doc = Ret l → Forall canonical l →
  td_max_server_id (m_td m) + Z.of_nat (length l) < 2 ^ 32 →
  returns (add_members now m doc) (λ m',
    extends (m_td m) (m_td m') (listed l) ∧ covers (m_td m') l
    ∧ td_max_server_id (m_td m') ≤ td_max_server_id (m_td m) + Z.of_nat (length l)).
Proof.
  intros Hb Hdoc Hl Hc Hmax. destruct (members_fold doc l Hdoc Hl) as (it & last & fs & Hit & Hfs & Hm).
  unfold add_members. rewrite Hit. cbn [bson_assert bind]. rewrite (for_each_fold _ _ _ _ _ Hfs).
  clear Hl Hit Hfs it. revert m Hb Hc Hmax. induction Hm as [|f a fs l Hf _ IH]; intros m Hb Hc Hmax; simpl.
  { split; [by apply extends_refl|]. split; [by intros ? ?%not_elem_of_nil|lia]. }
  rewrite Hf. cbn [bind length] in *. apply Forall_cons in Hc as [Ha Hc].
  pose proof (add_spec now m a Hb Ha ltac:(lia)) as Hadd. apply returns_Ret in Hadd as ([m1 id] & Hm1 & Hext & Hin & Htop).
  rewrite Hm1. cbn [bind fst] in *. eapply returns_mono; [apply IH; [apply Hext|done|lia]|].
  intros m' (Hext' & Hcov & Htop'). split; [|split; [|lia]].
  - eapply extends_weaken; [|eapply extends_trans; [exact Hext|exact Hext']].
    intros sd [Hsd|(b & Hb' & Hsd)]; [by exists a; split; [left|]|by exists b; split; [right|]].
  - intros b [->|Hb']%elem_of_cons; [|by apply Hcov]. destruct Hin as (k & sd & Hk & Hsd).
    exists k, sd. split; [|done]. by apply Hext'.
Qed.

(** what a description reports, as the theorems assume it of a reply *)
Definition reports (sd : sd_t) (l : list (list Z)) : Prop := members_of sd = Ret l ∧ Forall canonical l.

Lemma add_new_servers_spec now m id sd l :
  base (m_td m) → servers (m_td m) !! id = Some sd → reports sd l →
  td_max_server_id (m_td m) + Z.of_nat (length l) < 2 ^ 32 →
  returns (_mongoc_topology_description_add_new_servers now m id) (λ m',
    extends (m_td m) (m_td m') (listed l) ∧ covers (m_td m') l
    ∧ td_max_server_id (m_td m') ≤ td_max_server_id (m_td m) + Z.of_nat (length l)).
Proof.
  intros Hb Hid [Hl Hc] Hmax. unfold _mongoc_topology_description_add_new_servers.
  rewrite (server_at_spec _ _ _ Hb Hid). cbn [bind]. unfold members_of in Hl.
  destruct (member_list (sd_hosts sd)) as [h|] eqn:Hh; [|done].
  destruct (member_list (sd_arbiters sd)) as [a|] eqn:Ha; [|done].
  destruct (member_list (sd_passives sd)) as [p|] eqn:Hp; [|done]. injection Hl as <-.
  rewrite !Forall_app in Hc. destruct Hc as (Hch & Hca & Hcp). rewrite !length_app in *.
  pose proof (server_sd_ok _ _ _ (base_each _ Hb _ _ Hid)) as (_ & Hdh & Hdp & Hda & _).
  eapply returns_bind; [apply (add_members_spec now m _ h); auto; lia|]. intros m1 (Hx1 & Hc1 & Ht1).
  eapply returns_bind; [apply (add_members_spec now m1 _ a); auto; [apply Hx1|lia]|]. intros m2 (Hx2 & Hc2 & Ht2).
  eapply returns_mono; [apply (add_members_spec now m2 _ p); auto; [apply Hx2|lia]|]. intros m3 (Hx3 & Hc3 & Ht3).
  split; [|split; [|lia]].
  - eapply extends_weaken; [|eapply extends_trans; [eapply extends_trans; [exact Hx1|exact Hx2]|exact Hx3]].
    intros s Hs. assert (∃ x, x ∈ h ++ a ++ p ∧ strcaseeq x (address_of s) = true); [|done].
    destruct Hs as [[(x & Hx & ?)|(x & Hx & ?)]|(x & Hx & ?)]; exists x; rewrite !elem_of_app; auto.
  - intros x. rewrite !elem_of_app. intros [Hx|[Hx|Hx]].
    + by eapply covers_extends; [exact Hx3|eapply covers_extends; [exact Hx2|exact Hc1]|].
    + by eapply covers_extends; [exact Hx3|exact Hc2|].
    + by apply Hc3.
Qed.

(** ** Relabelling *)
Lemma descriptions_NoDup td : base td → NoDup (descriptions td).
Proof.
  intros Hb. apply (NoDup_fmap_1 sd_id). unfold descriptions.
  enough (sd_id <$> map snd (set_items (td_servers td)) = ids (set_items (td_servers td))) as ->
    by apply ordered_NoDup, Hb.
  unfold ids. change (sd_id <$> ?l) with (map sd_id l). rewrite map_map. apply map_ext_in. intros [k x] Hin.
  apply list_elem_of_In in Hin. apply set_map_lookup in Hin; [|apply Hb].
  apply (base_each _ Hb) in Hin as []. done.
Qed.

(** the set keeps its ids, and each description its identity *)
Definition relabels (f : sd_t → sd_t → Prop) (td td' : td_t) : Prop :=
  base td' ∧ settings td' = settings td ∧ td_max_server_id td' = td_max_server_id td
  ∧ (∀ id sd', servers td' !! id = Some sd' → ∃ sd, servers td !! id = Some sd ∧ f sd sd')
  ∧ (∀ id sd, servers td !! id = Some sd → ∃ sd', servers td' !! id = Some sd' ∧ f sd sd').

Definition possible_primary (sd sd' : sd_t) : Prop :=
  sd' = sd ∨ sd_type sd = MONGOC_SERVER_UNKNOWN ∧ sd' = set_type MONGOC_SERVER_POSSIBLE_PRIMARY sd.
Lemma label_spec m a :
  base (m_td m) →
  returns (_mongoc_topology_description_label_unknown_member m a MONGOC_SERVER_POSSIBLE_PRIMARY)
    (λ m', relabels possible_primary (m_td m) (m_td m')).
Proof.
  intros Hb. assert (Hsame : relabels possible_primary (m_td m) (m_td m)).
  { split; [done|]. do 2 (split; [done|]). split; intros id sd Hid; exists sd; (split; [done|by left]). }
  apply (for_each_rule (λ _, False) _ _ (λ _ m', m' = m)); [done| |by intros ? ->].
  intros pre sd post c Hs ->.
  assert (Hin : servers (m_td m) !! sd_id sd = Some sd).
  { apply described; [done|]. unfold descriptions. unfold m_servers in Hs. rewrite Hs. set_solver. }
  unfold _mongoc_label_unknown_member_cb. rewrite (server_at_spec _ _ _ Hb Hin). cbn [bind].
  pose proof (base_each _ Hb _ _ Hin) as [_ _ Hok _ Ha Hrp]. rewrite Ha. cbn [deref bind].
  destruct (strcaseeq _ _ && _) eqn:Hc; cbn [outcome fst snd]; [|done].
  apply andb_true_iff in Hc as [_ Hty%bool_decide_eq_true].
  unfold mongoc_server_description_set_state. set (sd' := set_type MONGOC_SERVER_POSSIBLE_PRIMARY sd).
  destruct (store_spec m (sd_id sd) sd sd' Hb Hin) as [Hb' Hmap].
  { do 3 (split; [done|]). split; [done|]. split; [by intros [?|[?|[?|?]]]|exact Hrp]. }
  split; [done|]. split; [done|]. split; [done|]. split.
  - intros id x. rewrite Hmap, lookup_insert_Some. intros [[<- <-]|[_ Hk]].
    + exists sd. split; [done|by right].
    + exists x. split; [done|by left].
  - intros id x Hx. destruct (decide (sd_id sd = id)) as [<-|Hne].
    + exists sd'. rewrite Hmap, lookup_insert_eq. split; [done|]. right. by simplify_eq.
    + exists x. rewrite Hmap, lookup_insert_ne by done. split; [done|by left].
Qed.

Definition demoted (sd : sd_t) : sd_t :=
  set_election_id kObjectIdZero (set_set_version MONGOC_NO_SET_VERSION (set_type MONGOC_SERVER_UNKNOWN sd)).
(** every primary but [p] becomes unknown *)
Definition demote (p : Z) (sd sd' : sd_t) : Prop :=
  sd' = if negb (sd_id sd =? p) && bool_decide (sd_type sd = MONGOC_SERVER_RS_PRIMARY)
        then demoted sd else sd.
Lemma demoted_steady sd top id : server_ok top id sd → steady sd (demoted sd).
Proof.
  intros [_ _ (? & ? & ? & ? & ? & ? & _) _ _ Hrp]. do 3 (split; [done|]). split; [|split; [by apply unknown_named|exact Hrp]].
  unfold sd_ok. cbn. do 6 (split; [done|]). split; [done|]. repeat constructor; lia.
Qed.

Lemma invalidate_primaries_spec m p sdp :
  base (m_td m) → servers (m_td m) !! p = Some sdp →
  returns (mongoc_set_for_each (m_servers m) (_mongoc_topology_description_invalidate_primaries_cb p) m)
    (λ m', relabels (demote p) (m_td m) (m_td m')).
Proof.
  intros Hb Hp.
  apply (for_each_rule (λ _, False) _ _ (λ pre m',
    base (m_td m') ∧ settings (m_td m') = settings (m_td m)
    ∧ td_max_server_id (m_td m') = td_max_server_id (m_td m)
    ∧ (∀ id, servers (m_td m) !! id = None → servers (m_td m') !! id = None)
    ∧ (∀ id sd, servers (m_td m) !! id = Some sd → ∃ sd', servers (m_td m') !! id = Some sd'
        ∧ (sd ∈ pre → demote p sd sd') ∧ (sd ∉ pre → sd' = sd)))).
  - do 3 (split; [done|]). split; [done|]. intros id sd Hid. exists sd. split; [done|].
    split; [by intros ?%not_elem_of_nil|done].
  - intros pre sd post c Hs (Hbc & Hset & Htop & Hnone & Hpre).
    assert (Hnd : NoDup (pre ++ sd :: post)) by (rewrite <- Hs; by apply descriptions_NoDup).
    assert (Hin : servers (m_td m) !! sd_id sd = Some sd).
    { apply described; [done|]. unfold descriptions. unfold m_servers in Hs. rewrite Hs. set_solver. }
    assert (Hnew : sd ∉ pre) by (apply NoDup_app in Hnd as (_ & Hd & _); intros Hx; apply (Hd _ Hx); left).
    destruct (Hpre _ _ Hin) as (sd' & Hcur & _ & Heq). rewrite (Heq Hnew) in Hcur. clear Heq sd'.
    destruct (Hpre _ _ Hp) as (sdp' & Hcurp & _).
    unfold _mongoc_topology_description_invalidate_primaries_cb.
    rewrite (server_at_spec _ _ _ Hbc Hcur), (server_at_spec _ _ _ Hbc Hcurp). cbn [bind].
    rewrite (server_id _ _ _ (base_each _ Hbc _ _ Hcurp)).
    set (c' := if negb (sd_id sd =? p) && bool_decide (sd_type sd = MONGOC_SERVER_RS_PRIMARY)
               then server_store (sd_id sd) (demoted sd) c else c).
    assert (Hc' : base (m_td c') ∧ settings (m_td c') = settings (m_td c)
              ∧ td_max_server_id (m_td c') = td_max_server_id (m_td c)
              ∧ ∃ sd', demote p sd sd' ∧ servers (m_td c') = <[sd_id sd := sd']> (servers (m_td c))).
    { unfold c', demote. destruct (negb (sd_id sd =? p) && bool_decide (sd_type sd = _)).
      - destruct (store_spec c (sd_id sd) sd (demoted sd) Hbc Hcur) as [? ?]; [by eapply demoted_steady, Hbc|].
        do 3 (split; [done|]). by exists (demoted sd).
      - do 3 (split; [done|]). exists sd. split; [done|]. by rewrite insert_id. }
    assert (Hgoal : (let r := (true, c') in if r.1 : bool then
        base (m_td r.2) ∧ settings (m_td r.2) = settings (m_td m)
        ∧ td_max_server_id (m_td r.2) = td_max_server_id (m_td m)
        ∧ (∀ id, servers (m_td m) !! id = None → servers (m_td r.2) !! id = None)
        ∧ (∀ id x, servers (m_td m) !! id = Some x → ∃ sd', servers (m_td r.2) !! id = Some sd'
            ∧ (x ∈ pre ++ [sd] → demote p x sd') ∧ (x ∉ pre ++ [sd] → sd' = x)) else True)).
    { destruct Hc' as (Hb1 & Hs1 & Ht1 & sd' & Hd & Hmap). clearbody c'. cbn [fst snd].
      split; [done|]. split; [by rewrite Hs1|]. split; [by rewrite Ht1|]. split.
      - intros id Hid. rewrite Hmap, lookup_insert_ne by congruence. by apply Hnone.
      - intros id x Hx. destruct (decide (sd_id sd = id)) as [<-|Hne].
        + assert (x = sd) as -> by congruence. exists sd'. rewrite Hmap, lookup_insert_eq. split; [done|].
          split; [done|]. intros []. apply elem_of_app. right. by apply list_elem_of_singleton.
        + destruct (Hpre _ _ Hx) as (x' & Hx' & H1 & H2). exists x'.
          assert (Hxsd : x ≠ sd) by (intros ->; apply Hne; by rewrite (server_id _ _ _ (base_each _ Hb _ _ Hx))).
          rewrite Hmap, lookup_insert_ne by done. split; [done|].
          rewrite not_elem_of_app, elem_of_app, list_elem_of_singleton. naive_solver. }
    unfold c' in Hgoal. destruct (negb (sd_id sd =? p) && _); exact Hgoal.
  - intros c (Hbc & Hset & Htop & Hnone & Hall). split; [done|]. split; [done|]. split; [done|].
    assert (Hd : ∀ id sd, servers (m_td m) !! id = Some sd → ∃ sd', servers (m_td c) !! id = Some sd' ∧ demote p sd sd').
    { intros id sd Hid. destruct (Hall _ _ Hid) as (sd' & Hsd' & H1 & _). exists sd'. split; [done|]. apply H1.
      apply (in_descriptions (m_td m)); [done|by exists id]. }
    split; [|done]. intros id sd' Hid. destruct (servers (m_td m) !! id) as [sd|] eqn:E.
    + destruct (Hd _ _ E) as (x & Hx & ?). exists sd. split; [done|]. congruence.
    + by rewrite (Hnone _ E) in Hid.
Qed.

(** ** Removing what the primary does not report *)
Definition mentions (l : list (list Z)) (a : list Z) : bool := existsb (strcaseeq a) l.
Lemma mentions_spec l a : mentions l a = true ↔ ∃ x, x ∈ l ∧ strcaseeq x a = true.
Proof.
  unfold mentions. rewrite existsb_exists. setoid_rewrite list_elem_of_In.
  split; intros (x & Hx & He); exists x; (split; [done|]); by rewrite strcaseeq_sym.
Qed.

Lemma member_string_utf8 f a : member_string f = Ret (Some a) → utf8_string f = Ret a.
Proof.
  unfold member_string, utf8_string. destruct (bson_iter_utf8 f false) as [[[p|] n]|]; simpl; [|done|done].
  destruct (c_string p); simpl; [|done]. by intros [= ->].
Qed.
Lemma member_found_spec doc l a : doc_ok doc → member_list doc = Ret l → member_found a doc = Ret (mentions l a).
Proof.
  intros Hdoc Hl. destruct (members_fold doc l Hdoc Hl) as (it & last & fs & Hit & Hfs & Hm).
  unfold member_found. rewrite Hit. cbn [bson_assert bind]. rewrite (for_each_fold _ _ _ _ _ Hfs).
  clear Hfs Hit Hl. induction Hm as [|f x fs l Hf _ IH]; [done|]. simpl.
  rewrite (member_string_utf8 _ _ Hf). cbn [bind]. by destruct (strcaseeq a x).
Qed.
Lemma has_rs_member_spec sd l a :
  sd_ok sd → members_of sd = Ret l → sd_type sd ≠ MONGOC_SERVER_UNKNOWN →
  mongoc_server_description_has_rs_member sd a = Ret (mentions l a).
Proof.
  intros (_ & Hh & Hp & Ha & _) Hl Hty. unfold mongoc_server_description_has_rs_member.
  rewrite decide_False by done. unfold members_of in Hl.
  destruct (member_list (sd_hosts sd)) as [h|] eqn:Eh; [|done].
  destruct (member_list (sd_arbiters sd)) as [r|] eqn:Er; [|done].
  destruct (member_list (sd_passives sd)) as [p|] eqn:Ep; [|done]. injection Hl as <-.
  rewrite (member_found_spec _ _ a Hh Eh). cbn [bind]. unfold mentions. rewrite !existsb_app.
  destruct (existsb _ h); [done|]. rewrite (member_found_spec _ _ a Ha Er). cbn [bind]. unfold mentions.
  destruct (existsb _ r); [done|]. by rewrite (member_found_spec _ _ a Hp Ep).
Qed.

Lemma unreported_spec top sd l sds :
  sd_ok sd → members_of sd = Ret l → sd_type sd ≠ MONGOC_SERVER_UNKNOWN →
  Forall (λ x, ∃ id, server_ok top id x) sds →
  unreported sd sds = Ret (map sd_id (filter (λ x, mentions l (address_of x) = false) sds)).
Proof.
  intros Hok Hl Hty. induction 1 as [|x sds (id & Hx) _ IH]; [done|]. simpl.
  rewrite (server_address _ _ _ Hx). cbn [deref bind].
  rewrite (has_rs_member_spec _ _ _ Hok Hl Hty). cbn [bind]. rewrite IH. cbn [bind]. rewrite filter_cons.
  destruct (mentions l (address_of x)) eqn:E; by case_decide.
Qed.

Lemma remove_each_spec l m :
  base (m_td m) → NoDup l → (∀ id, id ∈ l → is_Some (servers (m_td m) !! id)) →
  returns (remove_each m l) (λ m',
    base (m_td m') ∧ settings (m_td m') = settings (m_td m)
    ∧ ∀ id, servers (m_td m') !! id = if decide (id ∈ l) then None else servers (m_td m) !! id).
Proof.
  revert m. induction l as [|k l IH]; intros m Hb Hnd Hin; simpl.
  { split; [done|]. split; [done|]. intros id. done. }
  inversion Hnd as [|? ? Hk Hl]; subst. destruct (Hin k ltac:(left)) as [x Hx].
  eapply returns_bind; [by eapply remove_spec|]. intros m1 (Hb1 & Hs1 & Hm1 & _).
  eapply returns_mono; [apply IH; [done|done|]|].
  - intros id Hid. rewrite Hm1, lookup_delete_ne by congruence. apply Hin. by right.
  - intros m' (Hb' & Hs' & Hm'). split; [done|]. split; [by rewrite Hs'|]. intros id. rewrite Hm', Hm1.
    destruct (decide (id = k)) as [->|Hne].
    + rewrite lookup_delete_eq. destruct (decide (k ∈ k :: l)) as [_|[]]; [by case_decide|by left].
    + rewrite lookup_delete_ne by done. apply decide_ext. rewrite elem_of_cons. naive_solver.
Qed.

(** the primary's own description stays while the removals are collected, so this
    holds even when the primary removes itself *)
Lemma remove_unreported_spec m p sd l :
  base (m_td m) → servers (m_td m) !! p = Some sd → members_of sd = Ret l →
  sd_type sd ≠ MONGOC_SERVER_UNKNOWN →
  returns (_mongoc_topology_description_remove_unreported_servers m p) (λ m',
    base (m_td m') ∧ settings (m_td m') = settings (m_td m)
    ∧ ∀ id x, servers (m_td m') !! id = Some x
        ↔ servers (m_td m) !! id = Some x ∧ mentions l (address_of x) = true).
Proof.
  intros Hb Hp Hl Hty. unfold _mongoc_topology_description_remove_unreported_servers.
  rewrite (server_at_spec _ _ _ Hb Hp). cbn [bind].
  rewrite (unreported_spec (td_max_server_id (m_td m)) sd l);
    [|by eapply server_sd_ok, Hb|done|done|].
  2: { apply Forall_forall. intros x [id Hx]%in_descriptions; [|done]. exists id. by apply (base_each _ Hb). }
  cbn [bind]. set (gone := filter _ _).
  assert (Hgone : ∀ id, id ∈ map sd_id gone ↔
    ∃ x, servers (m_td m) !! id = Some x ∧ mentions l (address_of x) = false).
  { intros id. unfold gone. rewrite list_elem_of_fmap. split.
    - intros (x & -> & [Hx Hin]%list_elem_of_filter). exists x. split; [by apply described|done].
    - intros (x & Hid & Hx). exists x. split; [by rewrite (server_id _ _ _ (base_each _ Hb _ _ Hid))|].
      apply list_elem_of_filter. split; [done|]. apply in_descriptions; [done|by exists id]. }
  eapply returns_mono; [apply remove_each_spec; [done| |]|].
  - apply NoDup_fmap_2_strong; [|apply NoDup_filter, descriptions_NoDup, Hb].
    unfold gone. intros x y [_ Hx]%list_elem_of_filter [_ Hy]%list_elem_of_filter He.
    apply described in Hx, Hy; [|done|done]. rewrite He in Hx. congruence.
  - intros id (x & Hx & _)%Hgone. by exists x.
  - intros m' (Hb' & Hs' & Hm'). split; [done|]. split; [done|]. intros id x. rewrite Hm'.
    case_decide as Hd; rewrite Hgone in Hd.
    + split; [done|]. intros [Hx Ht]. destruct Hd as (y & Hy & Hf). simplify_eq. congruence.
    + split; [|by intros [? _]]. intros Hx. split; [done|].
      destruct (mentions l (address_of x)) eqn:E; [done|]. exfalso. apply Hd. eauto.
Qed.

(** ** The types that go together *)
Definition allowed (t : mongoc_topology_description_type_t) (s : mongoc_server_description_type_t) : Prop :=
  match t with
  | MONGOC_TOPOLOGY_UNKNOWN => s = MONGOC_SERVER_UNKNOWN ∨ s = MONGOC_SERVER_RS_GHOST
  | MONGOC_TOPOLOGY_SHARDED =>
      s = MONGOC_SERVER_UNKNOWN ∨ s = MONGOC_SERVER_RS_GHOST ∨ s = MONGOC_SERVER_MONGOS
  | MONGOC_TOPOLOGY_RS_NO_PRIMARY =>
      s ≠ MONGOC_SERVER_STANDALONE ∧ s ≠ MONGOC_SERVER_MONGOS ∧ s ≠ MONGOC_SERVER_RS_PRIMARY
  | MONGOC_TOPOLOGY_RS_WITH_PRIMARY => s ≠ MONGOC_SERVER_STANDALONE ∧ s ≠ MONGOC_SERVER_MONGOS
  | MONGOC_TOPOLOGY_SINGLE => True
  end.
Definition is_primary (sd : sd_t) : Prop := sd_type sd = MONGOC_SERVER_RS_PRIMARY.

(** [x] is the server whose reply is being handled, which has its new type before
    the topology has reacted to it; ids start at 1, so 0 stands for none *)
Record topo_inv (x : Z) (td : td_t) : Prop := {
  ti_base : base td;
  ti_types : ∀ id sd, servers td !! id = Some sd → id ≠ x → allowed (td_type td) (sd_type sd);
  ti_primary : ∀ i j a b, servers td !! i = Some a → servers td !! j = Some b → i ≠ x → j ≠ x →
    is_primary a → is_primary b → i = j;
  ti_name : td_type td = MONGOC_TOPOLOGY_RS_WITH_PRIMARY → is_Some (td_set_name td);
  ti_single : td_type td = MONGOC_TOPOLOGY_SINGLE →
    ∀ i j a b, servers td !! i = Some a → servers td !! j = Some b → i = j
}.
Definition topo_ok : td_t → Prop := topo_inv 0.

(** what a replica set has, whatever its type says of a primary *)
Record rs_like (td : td_t) : Prop := {
  rl_base : base td;
  rl_types : ∀ id sd, servers td !! id = Some sd → allowed MONGOC_TOPOLOGY_RS_WITH_PRIMARY (sd_type sd);
  rl_primary : ∀ i j a b, servers td !! i = Some a → servers td !! j = Some b →
    is_primary a → is_primary b → i = j;
  rl_name : ∀ i a, servers td !! i = Some a → is_primary a → is_Some (td_set_name td)
}.
(** the topology types that become a replica set *)
Definition rs_kind (t : mongoc_topology_description_type_t) : Prop :=
  t = MONGOC_TOPOLOGY_UNKNOWN ∨ t = MONGOC_TOPOLOGY_RS_NO_PRIMARY ∨ t = MONGOC_TOPOLOGY_RS_WITH_PRIMARY.

Lemma server_id_pos td id sd : base td → servers td !! id = Some sd → id ≠ 0.
Proof. intros Hb Hid. apply (base_each _ Hb) in Hid as []. lia. Qed.
Lemma allowed_rs t s : rs_kind t → allowed t s → allowed MONGOC_TOPOLOGY_RS_WITH_PRIMARY s.
Proof. intros [->|[->| ->]]; simpl; [intros [->| ->]; done|tauto|tauto]. Qed.
Lemma rs_like_of td : topo_ok td → rs_kind (td_type td) → is_Some (td_set_name td) → rs_like td.
Proof.
  intros Hok Hk Hn. pose proof (ti_base _ _ Hok) as Hb. constructor; [done| | |done].
  - intros id sd Hid. eapply allowed_rs, (ti_types _ _ Hok); eauto using server_id_pos.
  - intros i j a b Hi Hj. apply (ti_primary _ _ Hok _ _ _ _ Hi Hj); eauto using server_id_pos.
Qed.

(** [base] and [servers] do not look at these fields *)
Lemma base_set_type t td : base td → base (set_td_type t td).
Proof. by intros []. Qed.
Lemma base_set_name n td : base td → base (set_td_set_name n td).
Proof. by intros []. Qed.
Lemma base_set_version v td : base td → base (set_max_set_version v td).
Proof. by intros []. Qed.
Lemma base_set_election o td : oid_ok o → base td → base (set_max_election_id o td).
Proof. by intros ? []. Qed.

(** the fields that are left alone when the type is not *)
Definition stamp (td : td_t) :=
  (td_set_name td, td_max_set_version td, td_max_election_id td, td_cluster_time td, td_apm_callbacks td).
Lemma settings_stamp a b : settings a = settings b → stamp a = stamp b ∧ td_type a = td_type b.
Proof. unfold settings, stamp. by intros [= -> -> -> -> -> ->]. Qed.
Lemma stamp_name a b : stamp a = stamp b → td_set_name a = td_set_name b.
Proof. by intros [= -> _ _ _ _]. Qed.

Lemma update_rs_type_spec m :
  rs_like (m_td m) →
  returns (_update_rs_type m) (λ m', topo_ok (m_td m') ∧ servers (m_td m') = servers (m_td m)
    ∧ stamp (m_td m') = stamp (m_td m) ∧ td_max_server_id (m_td m') = td_max_server_id (m_td m)
    ∧ rs_kind (td_type (m_td m'))
    ∧ let held := ∃ id sd, servers (m_td m) !! id = Some sd ∧ is_primary sd in
      td_type (m_td m') = MONGOC_TOPOLOGY_RS_WITH_PRIMARY ∧ held
      ∨ td_type (m_td m') = MONGOC_TOPOLOGY_RS_NO_PRIMARY ∧ ¬ held).
Proof.
  intros [Hb Ht Hp Hn]. unfold _update_rs_type.
  eapply returns_bind; [by apply has_primary_spec|]. intros [sd|]; simpl.
  - intros (id & Hid & [Hty|Hty]); [|by apply Ht in Hid as [? _]].
    split; [|do 3 (split; [done|]); split; [by right; right|left; split; [done|by exists id, sd]]].
    constructor; [by apply base_set_type|by intros ? ? ?%Ht _| | |done].
    + intros i j a b Hi Hj _ _. by eapply Hp.
    + intros _. by eapply Hn.
  - intros Hnone. split; [|do 3 (split; [done|]); split; [by right; left|right; split; [done|]]].
    + constructor; [by apply base_set_type| | |done|done].
      * intros id sd Hid _. destruct (Ht _ _ Hid) as [H1 H2]. split; [done|]. split; [done|].
        intros H3. apply (Hnone _ _ Hid). by left.
      * intros i j a b Hi Hj _ _. by eapply Hp.
    + intros (id & sd & Hid & Hty). destruct (Hnone _ _ Hid). by left.
Qed.

(** removing the server under examination settles the topology *)
Lemma topo_delete td td' x :
  topo_inv x td → base td' → settings td' = settings td → servers td' = delete x (servers td) → topo_ok td'.
Proof.
  intros [Hb Ht Hp Hn Hs] Hb' Hset Hmap. apply settings_stamp in Hset as [Hst Hty].
  assert (Hold : ∀ id sd, servers td' !! id = Some sd → servers td !! id = Some sd ∧ id ≠ x).
  { intros id sd. rewrite Hmap. intros [? ?]%lookup_delete_Some. split; congruence. }
  constructor; [done| | | |]; rewrite ?Hty, ?(stamp_name _ _ Hst).
  - intros id sd [Hid Hx]%Hold _. by eapply Ht.
  - intros i j a b [Hi ?]%Hold [Hj ?]%Hold _ _. by eapply Hp.
  - exact Hn.
  - intros H1 i j a b [Hi _]%Hold [Hj _]%Hold. by eapply Hs.
Qed.
(** and so does its new type being one that goes with the others *)
Lemma topo_settled td x sd :
  topo_inv x td → servers td !! x = Some sd → allowed (td_type td) (sd_type sd) →
  (is_primary sd → td_type td = MONGOC_TOPOLOGY_SINGLE) → topo_ok td.
Proof.
  intros [Hb Ht Hp Hn Hs] Hx Hal Hpr. constructor; [done| | |done|done].
  - intros id y Hid _. destruct (decide (id = x)) as [->|Hne]; [by simplify_eq|by eapply Ht].
  - intros i j a b Hi Hj _ _ Ha Hbb. destruct (decide (i = x)) as [->|Hi'].
    { eapply Hs; [apply Hpr; by simplify_eq|done|done]. }
    destruct (decide (j = x)) as [->|Hj']; [|by eapply Hp].
    eapply Hs; [apply Hpr; by simplify_eq|done|done].
Qed.

(** ** A primary that is believed *)
Definition newest_version (td : td_t) (sd : sd_t) : Z :=
  if mongoc_server_description_has_set_version sd
     && (negb (_mongoc_topology_description_has_set_version td) || (sd_set_version sd >? td_max_set_version td))
  then sd_set_version sd else td_max_set_version td.

(** [td'] is what the believed primary [p], which reports [l], makes of [td] *)
Record accepted (p : Z) (sd : sd_t) (l : list (list Z)) (td td' : td_t) : Prop := {
  acc_ok : topo_ok td';
  acc_name : td_set_name td' = td_set_name td;
  acc_version : td_max_set_version td' = newest_version td sd;
  acc_election : td_max_election_id td' = td_max_election_id td;
  acc_servers : ∀ id x, servers td' !! id = Some x →
    mentions l (address_of x) = true ∧ (is_primary x → id = p ∧ x = sd);
  acc_covers : covers td' l;
  acc_kind : rs_kind (td_type td');
  acc_type : td_type td' = if mentions l (address_of sd) then MONGOC_TOPOLOGY_RS_WITH_PRIMARY
                           else MONGOC_TOPOLOGY_RS_NO_PRIMARY
}.

Lemma demote_other p sd x : sd_id sd ≠ p → demote p sd x → x = sd ∧ ¬ is_primary sd ∨ x = demoted sd.
Proof.
  unfold demote. intros Hne ->. destruct (Z.eqb_spec (sd_id sd) p); [done|]. simpl.
  case_bool_decide; auto.
Qed.
Lemma demote_self p sd x : sd_id sd = p → demote p sd x → x = sd.
Proof. unfold demote. intros -> ->. by rewrite Z.eqb_refl. Qed.

Lemma accept_primary_spec now m p sd l :
  base (m_td m) → servers (m_td m) !! p = Some sd → is_primary sd → reports sd l →
  td_max_server_id (m_td m) + Z.of_nat (length l) < 2 ^ 32 →
  (∀ id x, servers (m_td m) !! id = Some x → id ≠ p → allowed MONGOC_TOPOLOGY_RS_WITH_PRIMARY (sd_type x)) →
  is_Some (td_set_name (m_td m)) →
  returns (accept_primary now m p) (λ m', accepted p sd l (m_td m) (m_td m')).
Proof.
  intros Hb Hp Hprim Hrep Hmax Htypes Hname. unfold accept_primary.
  rewrite (server_at_spec _ _ _ Hb Hp). cbn [bind].
  set (m1 := if _ && _ then _ else m).
  assert (Hm1 : base (m_td m1) ∧ servers (m_td m1) = servers (m_td m)
    ∧ td_max_set_version (m_td m1) = newest_version (m_td m) sd
    ∧ td_set_name (m_td m1) = td_set_name (m_td m) ∧ td_max_election_id (m_td m1) = td_max_election_id (m_td m)
    ∧ td_max_server_id (m_td m1) = td_max_server_id (m_td m)).
  { unfold m1, newest_version. destruct (_ && _); [|done]. split; [by apply base_set_version|done]. }
  clearbody m1. destruct Hm1 as (Hb1 & Hs1 & Hv1 & Hn1 & He1 & Ht1). rewrite <- Hs1 in Hp, Htypes.
  eapply returns_bind; [by eapply invalidate_primaries_spec|]. intros m2 (Hb2 & Hset2 & Ht2 & Hback2 & Hfwd2).
  apply settings_stamp in Hset2 as [[= Hn2 Hv2 He2 _ _] _].
  assert (Hp2 : servers (m_td m2) !! p = Some sd).
  { destruct (Hfwd2 _ _ Hp) as (x & Hx & Hd). apply demote_self in Hd as ->; [done|].
    by rewrite (server_id _ _ _ (base_each _ Hb1 _ _ Hp)). }
  assert (Hrs2 : ∀ id x, servers (m_td m2) !! id = Some x → id ≠ p →
    allowed MONGOC_TOPOLOGY_RS_WITH_PRIMARY (sd_type x) ∧ ¬ is_primary x).
  { intros id x (y & Hy & Hd)%Hback2 Hne. pose proof (server_id _ _ _ (base_each _ Hb1 _ _ Hy)).
    apply demote_other in Hd as [[-> Hnp]| ->]; [|by split|congruence]. split; [by eapply Htypes|done]. }
  eapply returns_bind; [eapply (add_new_servers_spec now m2); eauto; rewrite Ht2, Ht1; exact Hmax|].
  intros m3 ((Hb3 & Hset3 & Hkeep3 & Hnew3) & Hcov3 & _). apply settings_stamp in Hset3 as [[= Hn3 Hv3 He3 _ _] _].
  eapply returns_bind; [eapply remove_unreported_spec; [done|by apply Hkeep3|apply Hrep|]|].
  { rewrite Hprim. done. }
  intros m4 (Hb4 & Hset4 & Hm4). apply settings_stamp in Hset4 as [[= Hn4 Hv4 He4 _ _] _].
  assert (Hrs4 : ∀ id x, servers (m_td m4) !! id = Some x →
    allowed MONGOC_TOPOLOGY_RS_WITH_PRIMARY (sd_type x) ∧ (is_primary x → id = p ∧ x = sd)).
  { intros id x [Hx _]%Hm4. apply Hnew3 in Hx as [Hx|[Hty _]].
    - destruct (decide (id = p)) as [->|Hne].
      + simplify_eq. split; [|done]. rewrite Hprim. done.
      + destruct (Hrs2 _ _ Hx Hne). split; [done|]. by intros ?.
    - unfold is_primary. rewrite Hty. split; [done|done]. }
  assert (Hrl : rs_like (m_td m4)).
  { constructor; [done|by intros ? ? [? _]%Hrs4| |].
    - intros i j a b Hi Hj Ha Hbb. apply Hrs4 in Hi as [_ Hi], Hj as [_ Hj].
      destruct (Hi Ha), (Hj Hbb). congruence.
    - intros i a Hi Ha. rewrite Hn4, Hn3, Hn2, Hn1. done. }
  eapply returns_mono; [by apply update_rs_type_spec|].
  intros m5 (Hok & Hs5 & [= Hn5 Hv5 He5 _ _] & _ & Hk & Hty).
  constructor; rewrite ?Hs5; [done|congruence|congruence|congruence| | |done|].
  - intros id x Hx. split; [by apply Hm4 in Hx as [_ ?]|by apply Hrs4 in Hx as [_ ?]].
  - intros a Ha. destruct (Hcov3 a Ha) as (id & x & Hid & Hax). exists id, x. rewrite Hs5. split; [|done].
    apply Hm4. split; [done|]. apply mentions_spec. eauto.
  - destruct Hty as [[-> (id & x & Hid & Hx)]|[-> Hno]].
    + pose proof (proj1 (Hm4 _ _) Hid) as [_ Hm]. apply Hrs4 in Hid as [_ Hid].
      destruct (Hid Hx) as [_ <-]. by rewrite Hm.
    + destruct (mentions l (address_of sd)) eqn:Hm; [|done]. destruct Hno. exists p, sd.
      split; [|done]. apply Hm4. split; [by apply Hkeep3|done].
Qed.
