(* ===== verification/TopologySteps.v ===== *)
(** Server discovery and monitoring, transition by transition: each entry of
    gSDAMTransitionTable, run after the description of a server was replaced by
    its reply, leaves a well-formed topology; hence so does the whole handler of a
    reply, provided that the members it lists have canonical addresses.  The handler
    faults only where the reply itself is parsed. *)
From Stdlib Require Import ZArith Lia List.
From stdpp Require Import prelude gmap strings.
From S2P Require Import Prelude BsonIter BsonIterSafe BsonFields BsonAppend BsonBuild BsonOid.
From S2P Require Import MongocSet HostList MongocTypes ServerDescription TopologyDescription TopologySafe.
#[local] Open Scope Z_scope.
#[local] Open Scope mongo_scope.

#[local] Notation sd_t := mongoc_server_description_t.
#[local] Notation td_t := mongoc_topology_description_t.
#[local] Notation no_fault := (λ _ : fault, False).

(** the latest election that the topology has seen *)
Definition epoch (td : td_t) : Z * bson_oid_t := (td_max_set_version td, td_max_election_id td).
Lemma stamp_epoch a b : stamp a = stamp b → epoch a = epoch b.
Proof. unfold epoch. by intros [= _ -> -> _ _]. Qed.
Lemma settings_epoch a b : settings a = settings b → epoch a = epoch b.
Proof. intros H. by apply stamp_epoch, settings_stamp. Qed.
#[local] Hint Resolve stamp_epoch settings_epoch : core.

Section SetName.
Variables (m : monitored) (sd : sd_t).

(** the name check of the transitions *)
Lemma check_set_name_spec :
  let r := check_set_name m sd in
  (base (m_td m) → base (m_td r.2)) ∧ servers (m_td r.2) = servers (m_td m)
  ∧ td_type (m_td r.2) = td_type (m_td m) ∧ td_max_server_id (m_td r.2) = td_max_server_id (m_td m)
  ∧ td_max_set_version (m_td r.2) = td_max_set_version (m_td m)
  ∧ td_max_election_id (m_td r.2) = td_max_election_id (m_td m)
  ∧ (r.1 = false → r.2 = m ∧ is_Some (td_set_name (m_td m)))
  ∧ (is_Some (td_set_name (m_td m)) → td_set_name (m_td r.2) = td_set_name (m_td m))
  ∧ (is_Some (sd_set_name sd) → r.1 = true → td_set_name (m_td r.2) = sd_set_name sd).
Proof.
  unfold check_set_name. destruct (sd_set_name sd) as [n|]; cbn [fst snd].
  2: { do 6 (split; [done|]). split; [done|]. split; [done|]. by intros [? ?]. }
  destruct (td_set_name (m_td m)) as [n'|] eqn:E; cbn [fst snd].
  - do 6 (split; [done|]). split; [by intros _; split|]. split; [done|]. rewrite E.
    by intros _ <-%streq_eq.
  - split; [apply base_set_name|]. do 5 (split; [done|]). split; [done|]. split; [by intros [? ?]|done].
Qed.
Lemma check_set_name_inv x : topo_inv x (m_td m) → topo_inv x (m_td (check_set_name m sd).2).
Proof.
  pose proof check_set_name_spec as (Hb & Hs & Ht & _ & _ & _ & _ & Hn & _).
  intros [H1 H2 H3 H4 H5]. constructor; rewrite ?Hs, ?Ht; auto.
  intros Hty. specialize (H4 Hty). by rewrite (Hn H4).
Qed.
End SetName.

Lemma set_type_inv x m t :
  topo_inv x (m_td m) → rs_kind (td_type (m_td m)) → t = MONGOC_TOPOLOGY_RS_NO_PRIMARY →
  (∀ id sd, servers (m_td m) !! id = Some sd → id ≠ x → allowed t (sd_type sd)) →
  topo_inv x (m_td (_mongoc_topology_description_set_state t m)).
Proof.
  intros [H1 H2 H3 H4 H5] Hk -> Hal. constructor; [by apply base_set_type|exact Hal|exact H3|done|done].
Qed.

(** ** Elections *)
Lemma compare_returns a b : oid_ok a → oid_ok b → returns (bson_oid_compare a b) (λ _, True).
Proof. intros [Ha _] [Hb _]. unfold bson_oid_compare. by destruct (memcmp_total 12 a b Ha Hb) as (c & -> & _). Qed.
Lemma has_election_id_returns sd :
  sd_ok sd → returns (mongoc_server_description_has_election_id sd) (λ _, True).
Proof.
  intros (_ & _ & _ & _ & _ & _ & Ho). unfold mongoc_server_description_has_election_id.
  eapply returns_bind; [apply compare_returns; [done|]|done]. split; [done|]. repeat constructor; lia.
Qed.
Lemma later_election_returns td sd :
  oid_ok (td_max_election_id td) → sd_ok sd →
  returns (_mongoc_topology_description_later_election td sd) (λ _, True).
Proof.
  intros Ht (_ & _ & _ & _ & _ & _ & Ho). unfold _mongoc_topology_description_later_election.
  destruct (_ >? _); [done|]. destruct (_ =? _); [|done].
  eapply returns_bind; [by apply compare_returns|done].
Qed.

Lemma remove_settles m x sd :
  topo_inv x (m_td m) → servers (m_td m) !! x = Some sd →
  returns (_mongoc_topology_description_remove_server m x) (λ m',
    topo_ok (m_td m') ∧ td_type (m_td m') = td_type (m_td m) ∧ stamp (m_td m') = stamp (m_td m)).
Proof.
  intros Hinv Hx. eapply returns_mono; [by eapply remove_spec; [apply Hinv|]|].
  intros m' (Hb & Hs & Hm & _). split; [by eapply topo_delete|]. by apply settings_stamp in Hs as [? ?].
Qed.

Section Steps.
Context (now : Z) (invalidate_server : monitored → Z → bson_error_t → res monitored).
Context (m : monitored) (x : Z) (sd : sd_t) (l : list (list Z)).
Hypothesis Hinv : topo_inv x (m_td m).
Hypothesis Hx : servers (m_td m) !! x = Some sd.
Hypothesis Htyped : typed sd.
Hypothesis Hrep : reports sd l.
Hypothesis Hmax : td_max_server_id (m_td m) + Z.of_nat (length l) < 2 ^ 32.
(** what the nested call for a stale primary does *)
Hypothesis Hinval : ∀ m' error, topo_inv x (m_td m') → servers (m_td m') !! x = Some sd →
  rs_kind (td_type (m_td m')) → is_Some (td_set_name (m_td m')) →
  outcome no_fault (invalidate_server m' x error) (λ m'', topo_ok (m_td m'') ∧ rs_kind (td_type (m_td m''))
    ∧ stamp (m_td m'') = stamp (m_td m')).

#[local] Notation settles r := (outcome no_fault r (λ m', topo_ok (m_td m'))).

Lemma remove_and_check_settles :
  td_type (m_td m) = MONGOC_TOPOLOGY_RS_WITH_PRIMARY →
  returns (_mongoc_topology_description_remove_and_check_primary m x)
    (λ m', topo_ok (m_td m') ∧ epoch (m_td m') = epoch (m_td m)).
Proof using Hinv Hx.
  intros Hty. eapply returns_bind; [by eapply remove_settles|]. intros m1 (Hok & Hty1 & Hst).
  eapply returns_mono; [apply update_rs_type_spec, rs_like_of; [done| |]|].
  3: { intros m2 (? & _ & Hst2 & _). split; [done|]. rewrite (stamp_epoch _ _ Hst2). auto. }
  - rewrite Hty1, Hty. by right; right.
  - rewrite (stamp_name _ _ Hst). by apply (ti_name _ _ Hinv).
Qed.

Lemma standalone_settles :
  td_type (m_td m) = MONGOC_TOPOLOGY_UNKNOWN →
  returns (_mongoc_topology_description_update_unknown_with_standalone m x)
    (λ m', topo_ok (m_td m') ∧ epoch (m_td m') = epoch (m_td m)).
Proof using Hinv Hx.
  intros Hty. pose proof (ti_base _ _ Hinv) as Hb. unfold _mongoc_topology_description_update_unknown_with_standalone.
  rewrite (server_at_spec _ _ _ Hb Hx). cbn [bind].
  destruct (has_own_address _ _ _ Hb Hx) as [k ->]. cbn [bind].
  destruct (Z.gtb_spec (items_len (m_servers m)) 1) as [Hlen|Hlen].
  - eapply returns_mono; [by eapply remove_settles|by intros m' (? & _ & ?); auto].
  - assert (Hone : ∀ i j a b, servers (m_td m) !! i = Some a → servers (m_td m) !! j = Some b → i = j).
    { intros i j a b Hi Hj. apply set_map_lookup in Hi, Hj; [|apply Hb|apply Hb].
      unfold items_len, m_servers in Hlen. destruct (set_items (td_servers (m_td m))) as [|y [|z r]].
      - by apply not_elem_of_nil in Hi.
      - apply list_elem_of_singleton in Hi, Hj. congruence.
      - clear -Hlen. cbn [length] in Hlen. lia. }
    simpl. split; [|done]. constructor; [by apply base_set_type|done| |done|done].
    intros i j a b Hi Hj _ _ _ _. by eapply Hone.
Qed.

Lemma sharded_settles :
  td_type (m_td m) = MONGOC_TOPOLOGY_UNKNOWN → sd_type sd = MONGOC_SERVER_MONGOS →
  topo_ok (m_td (_mongoc_topology_description_set_state MONGOC_TOPOLOGY_SHARDED m)).
Proof using Hinv Hx.
  intros Hty Hsd. destruct Hinv as [Hb Ht Hp _ _]. rewrite Hty in Ht.
  assert (Hal : ∀ id y, servers (m_td m) !! id = Some y → allowed MONGOC_TOPOLOGY_SHARDED (sd_type y) ∧ ¬ is_primary y).
  { intros id y Hid. unfold is_primary. destruct (decide (id = x)) as [->|Hne].
    - simplify_eq. rewrite Hsd. split; [by right; right|done].
    - destruct (Ht _ _ Hid Hne) as [-> | ->]; (split; [simpl; tauto|done]). }
  constructor; [by apply base_set_type|by intros ? ? [? _]%Hal _| |done|done].
  intros i j a b Hi _ _ _ Ha _. by apply Hal in Hi as [_ []].
Qed.

(** a server that is not a primary and goes with a replica set *)
Lemma settled_member td :
  topo_inv x td → servers td !! x = Some sd → rs_kind (td_type td) → td_type td ≠ MONGOC_TOPOLOGY_UNKNOWN →
  rs_member (sd_type sd) → ¬ is_primary sd → topo_ok td.
Proof using.
  intros Hi Hx' Hk Hu Hmem Hnp. eapply topo_settled; [done|done| |done].
  destruct Hk as [?|[-> | ->]]; [done| |]; unfold is_primary in Hnp; destruct Hmem as [E|[E|[E|E]]]; rewrite E in *; done.
Qed.

(** the state in which a primary is believed *)
Definition believed (td : td_t) : td_t :=
  if mongoc_server_description_has_set_version sd
     && bool_decide (mongoc_server_description_has_election_id sd = Ret true)
  then set_max_election_id (sd_election_id sd) td else td.
(** whether the topology has seen a later election than this primary's *)
Definition stale_primary (td : td_t) : bool :=
  mongoc_server_description_has_set_version sd
  && bool_decide (mongoc_server_description_has_election_id sd = Ret true)
  && bool_decide (_mongoc_topology_description_later_election td sd = Ret true).

Lemma from_primary_settles :
  rs_kind (td_type (m_td m)) → is_primary sd →
  outcome no_fault (_mongoc_topology_description_update_rs_from_primary now invalidate_server m x)
    (λ m', topo_ok (m_td m')
       ∧ let m1 := (check_set_name m sd).2 in
         ((check_set_name m sd).1 = true → stale_primary (m_td m1) = false →
          accepted x sd l (believed (m_td m1)) (m_td m'))
         ∧ ((check_set_name m sd).1 = false ∨ stale_primary (m_td m1) = true → stamp (m_td m') = stamp (m_td m1))).
Proof using Hinv Hx Htyped Hrep Hmax Hinval.
  intros Hk Hp. pose proof (ti_base _ _ Hinv) as Hb.
  pose proof (base_each _ Hb _ _ Hx) as [Hid _ Hok _ _].
  assert (Hname : is_Some (sd_set_name sd)) by (apply Htyped; by left).
  unfold _mongoc_topology_description_update_rs_from_primary.
  rewrite (server_at_spec _ _ _ Hb Hx). cbn [bind].
  destruct (has_own_address _ _ _ Hb Hx) as [k ->]. cbn [bind].
  pose proof (check_set_name_spec m sd) as Hcheck. pose proof (check_set_name_inv m sd x Hinv) as Hinv1.
  destruct (check_set_name m sd) as [same m1]. cbn [fst snd] in *.
  destruct Hcheck as (Hb1 & Hs1 & Ht1 & Hm1 & _ & He1 & Hno & _ & Hyes). specialize (Hb1 Hb).
  assert (Hx1 : servers (m_td m1) !! x = Some sd) by (by rewrite Hs1).
  assert (Hk1 : rs_kind (td_type (m_td m1))) by (by rewrite Ht1).
  destruct same; cbn [negb].
  2: { destruct (Hno eq_refl) as [-> Hsome]. clear Hno Hyes.
    eapply returns_outcome, returns_bind; [by eapply remove_settles|]. intros m2 (Hok2 & Hty2 & Hst2).
    eapply returns_mono; [apply update_rs_type_spec, rs_like_of; [done|by rewrite Hty2|by rewrite (stamp_name _ _ Hst2)]|].
    intros m3 (? & _ & Hst3 & _). split; [done|]. split; [done|]. intros _. by rewrite Hst3. }
  clear Hno. specialize (Hyes Hname eq_refl).
  assert (Hname1 : is_Some (td_set_name (m_td m1))) by (by rewrite Hyes).
  pose proof (has_election_id_returns sd Hok) as Hid_r. apply returns_Ret in Hid_r as (has_id & Hhas & _).
  pose proof (later_election_returns (m_td m1) sd (base_election _ Hb1) Hok) as Hl_r.
  apply returns_Ret in Hl_r as (later & Hlater & _).
  unfold believed, stale_primary. rewrite Hhas, Hlater. cbn [bind].
  rewrite (bool_decide_ext (Ret has_id = Ret true) (has_id = true)) by naive_solver.
  rewrite (bool_decide_ext (Ret later = Ret true) (later = true)) by naive_solver.
  assert (Hacc : ∀ m2, base (m_td m2) → servers (m_td m2) = servers (m_td m1) →
    td_max_server_id (m_td m2) = td_max_server_id (m_td m1) → td_set_name (m_td m2) = td_set_name (m_td m1) →
    outcome no_fault (accept_primary now m2 x) (λ m', topo_ok (m_td m') ∧ accepted x sd l (m_td m2) (m_td m'))).
  { intros m2 Hb2 Hs2 Hm2 Hn2. apply returns_outcome.
    eapply returns_mono; [apply (accept_primary_spec now m2 x sd l)|by intros m' Ha; split; [apply Ha|]];
      [done|by rewrite Hs2|done|done|by rewrite Hm2, Hm1| |by rewrite Hn2].
    intros id y. rewrite Hs2. intros Hy Hne. eapply allowed_rs; [exact Hk1|]. by eapply (ti_types _ _ Hinv1). }
  destruct (mongoc_server_description_has_set_version sd), has_id; cbn [andb];
    try (eapply outcome_mono; [by apply Hacc|done|]; intros m' _ [? Ha]; split; [done|]; split; [by intros|by intros [|]]).
  destruct later; cbn [bind].
  - rewrite Hid. eapply outcome_bind; [by apply Hinval|]. intros m2 _ (Hok2 & Hk2 & Hst2).
    apply returns_outcome. eapply returns_mono; [apply update_rs_type_spec, rs_like_of; [done|done|]|].
    + by rewrite (stamp_name _ _ Hst2).
    + intros m3 (? & _ & Hst3 & _). split; [done|]. split; [done|]. intros _. by rewrite Hst3.
  - eapply outcome_mono; [apply (Hacc (upd _ m1))|done|]; [|done|done|done|].
    + apply base_set_election; [apply Hok|done].
    + intros m' _ [? Ha]. split; [done|]. split; [by intros|by intros [|]].
Qed.

Lemma extends_inv td td' P :
  topo_inv x td → servers td !! x = Some sd → td_type td = MONGOC_TOPOLOGY_RS_NO_PRIMARY →
  extends td td' P → topo_inv x td' ∧ servers td' !! x = Some sd.
Proof using.
  intros [H1 H2 H3 H4 H5] Hx' Hty (Hb & Hs & Hk & Hn). apply settings_stamp in Hs as [Hst Hty'].
  split; [|by apply Hk]. constructor; [done| | | |]; rewrite ?Hty', ?Hty; try done.
  - intros id y [Hy|[-> _]]%Hn Hne; [rewrite <- Hty; by eapply H2|done].
  - intros i j a b Hi Hj Hine Hjne Ha Hbp.
    apply Hn in Hi as [Hi|[Hi _]]; [|unfold is_primary in Ha; congruence].
    apply Hn in Hj as [Hj|[Hj _]]; [|unfold is_primary in Hbp; congruence]. by eapply H3.
Qed.

(** labelling a possible primary changes nothing for the topology *)
Lemma relabel_inv td td' :
  topo_inv x td → servers td !! x = Some sd → sd_type sd ≠ MONGOC_SERVER_UNKNOWN →
  td_type td = MONGOC_TOPOLOGY_RS_NO_PRIMARY →
  relabels possible_primary td td' → topo_inv x td' ∧ servers td' !! x = Some sd.
Proof using.
  intros [H1 H2 H3 H4 H5] Hx' Hnu Hty (Hb & Hs & _ & Hback & Hfwd). apply settings_stamp in Hs as [Hst Hty'].
  assert (Hsame : ∀ y y', possible_primary y y' → is_primary y' → y' = y).
  { intros y y' [->|[_ ->]]; [done|]. by unfold is_primary. }
  split; [|by destruct (Hfwd _ _ Hx') as (y & Hy & [-> |[? _]])].
  constructor; [done| | | |]; rewrite ?Hty', ?Hty; try done.
  - intros id y (z & Hz & [->|[_ ->]])%Hback Hne; [rewrite <- Hty; by eapply H2|done].
  - intros i j a b (a' & Hi & Ha')%Hback (b' & Hj & Hb')%Hback Hine Hjne Ha Hbp.
    rewrite (Hsame _ _ Ha' Ha) in Ha. rewrite (Hsame _ _ Hb' Hbp) in Hbp. by eapply H3.
Qed.

Lemma matches_me_returns td :
  base td → servers td !! x = Some sd → ∃ b, _mongoc_topology_description_matches_me sd = Ret b.
Proof using.
  intros Hb Hx'. unfold _mongoc_topology_description_matches_me.
  rewrite (server_address _ _ _ (base_each _ Hb _ _ Hx')). by eexists.
Qed.

Lemma without_primary_settles :
  td_type (m_td m) = MONGOC_TOPOLOGY_RS_NO_PRIMARY → rs_member (sd_type sd) → ¬ is_primary sd →
  returns (_mongoc_topology_description_update_rs_without_primary now m x)
    (λ m', topo_ok (m_td m') ∧ epoch (m_td m') = epoch (m_td m)).
Proof using Hinv Hx Hrep Hmax.
  intros Hty Hmem Hnp. pose proof (ti_base _ _ Hinv) as Hb.
  unfold _mongoc_topology_description_update_rs_without_primary.
  rewrite (server_at_spec _ _ _ Hb Hx). cbn [bind].
  destruct (has_own_address _ _ _ Hb Hx) as [k ->]. cbn [bind].
  pose proof (check_set_name_spec m sd) as (_ & Hs1 & Ht1 & Hm1 & Hv1 & He1 & Hno & _).
  pose proof (check_set_name_inv m sd x Hinv) as Hinv1.
  destruct (check_set_name m sd) as [same m1]. cbn [fst snd] in *. destruct same; cbn [negb].
  2: { destruct (Hno eq_refl) as [-> _]. eapply returns_mono; [by eapply remove_settles|intros ? (? & _ & ?); auto]. }
  assert (Hep1 : epoch (m_td m1) = epoch (m_td m)) by (unfold epoch; congruence).
  assert (Hnu : sd_type sd ≠ MONGOC_SERVER_UNKNOWN) by (destruct Hmem as [-> |[-> |[-> | ->]]]; done).
  assert (Hx1 : servers (m_td m1) !! x = Some sd) by (by rewrite Hs1). rewrite <- Ht1 in Hty.
  eapply returns_bind; [eapply (add_new_servers_spec now m1); [apply Hinv1|done|done|by rewrite Hm1]|].
  intros m2 (Hext & _ & _). destruct (extends_inv _ _ _ Hinv1 Hx1 Hty Hext) as [Hinv2 Hx2].
  assert (Hty2 : td_type (m_td m2) = MONGOC_TOPOLOGY_RS_NO_PRIMARY).
  { destruct Hext as (_ & Hs & _). apply settings_stamp in Hs as [_ ->]. done. }
  assert (Hep2 : epoch (m_td m2) = epoch (m_td m)).
  { rewrite <- Hep1. destruct Hext as (_ & Hs & _). auto. }
  rewrite (server_at_spec m2 x sd (ti_base _ _ Hinv2) Hx2). cbn [bind].
  eapply (returns_bind _ _ (λ m3, topo_inv x (m_td m3) ∧ servers (m_td m3) !! x = Some sd
            ∧ td_type (m_td m3) = MONGOC_TOPOLOGY_RS_NO_PRIMARY ∧ epoch (m_td m3) = epoch (m_td m))).
  { destruct (sd_current_primary sd) as [a|]; [|done].
    eapply returns_mono; [apply label_spec, Hinv2|]. intros m3 Hl.
    destruct (relabel_inv _ _ Hinv2 Hx2 Hnu Hty2 Hl). split; [done|]. split; [done|].
    destruct Hl as (_ & Hs & _). rewrite (settings_epoch _ _ Hs). apply settings_stamp in Hs as [_ ->]. done. }
  intros m3 (Hinv3 & Hx3 & Hty3 & Hep3). rewrite (server_at_spec m3 x sd (ti_base _ _ Hinv3) Hx3). cbn [bind].
  destruct (matches_me_returns _ (ti_base _ _ Hinv3) Hx3) as [me ->]. cbn [bind]. destruct me.
  - simpl. split; [|done]. eapply settled_member; try done; [by right; left|by rewrite Hty3].
  - eapply returns_mono; [by eapply remove_settles|]. intros ? (? & _ & Hst). split; [done|].
    by rewrite (stamp_epoch _ _ Hst).
Qed.

Lemma with_primary_settles :
  td_type (m_td m) = MONGOC_TOPOLOGY_RS_WITH_PRIMARY → rs_member (sd_type sd) → ¬ is_primary sd →
  returns (_mongoc_topology_description_update_rs_with_primary_from_member m x)
    (λ m', topo_ok (m_td m') ∧ epoch (m_td m') = epoch (m_td m)).
Proof using Hinv Hx Htyped.
  intros Hty Hmem Hnp. pose proof (ti_base _ _ Hinv) as Hb.
  unfold _mongoc_topology_description_update_rs_with_primary_from_member.
  rewrite (server_at_spec _ _ _ Hb Hx). cbn [bind].
  destruct (has_own_address _ _ _ Hb Hx) as [k ->]. cbn [bind].
  destruct (ti_name _ _ Hinv Hty) as [n' Hn']. destruct (proj1 Htyped Hmem) as [n Hn].
  rewrite Hn', Hn. cbn [deref bind]. destruct (streq n' n); cbn [negb].
  2: { by apply remove_and_check_settles. }
  destruct (matches_me_returns _ Hb Hx) as [me ->]. cbn [bind]. destruct me; cbn [negb].
  2: { eapply returns_mono; [by eapply remove_settles|intros ? (? & _ & ?); auto]. }
  assert (Hok : topo_ok (m_td m)).
  { eapply settled_member; try done; [by right; right|by rewrite Hty]. }
  eapply returns_bind; [by apply has_primary_spec|]. intros [p|] Hprim; [done|].
  destruct (sd_current_primary sd) as [a|]; [|done].
  assert (Hinv1 : topo_inv x (m_td (_mongoc_topology_description_set_state MONGOC_TOPOLOGY_RS_NO_PRIMARY m))).
  { eapply set_type_inv; [done|by right; right|done|]. intros id y Hy Hne.
    pose proof (ti_types _ _ Hinv _ _ Hy Hne) as Hal. rewrite Hty in Hal. destruct Hal. split; [done|]. split; [done|].
    intros Hp. apply (Hprim _ _ Hy). by left. }
  eapply returns_mono; [apply label_spec, Hinv1|]. intros m2 Hl.
  assert (Hnu : sd_type sd ≠ MONGOC_SERVER_UNKNOWN) by (destruct Hmem as [-> |[-> |[-> | ->]]]; done).
  destruct (relabel_inv _ _ Hinv1 Hx Hnu eq_refl Hl) as [Hinv2 Hx2].
  assert (Hty2 : td_type (m_td m2) = MONGOC_TOPOLOGY_RS_NO_PRIMARY).
  { destruct Hl as (_ & Hs & _). by apply settings_stamp in Hs as [_ ->]. }
  split; [|destruct Hl as (_ & Hs & _); by rewrite (settings_epoch _ _ Hs)].
  eapply settled_member; try done; [by right; left|by rewrite Hty2].
Qed.
End Steps.

(** ** The table *)
Lemma settled_unknown td x sd :
  topo_inv x td → servers td !! x = Some sd →
  sd_type sd = MONGOC_SERVER_UNKNOWN ∨ sd_type sd = MONGOC_SERVER_RS_GHOST → topo_ok td.
Proof.
  intros Hi Hx Hty. eapply topo_settled; [done|done| |].
  - destruct Hty as [-> | ->]; destruct (td_type td); simpl; first [tauto|by repeat split].
  - unfold is_primary. by destruct Hty as [-> | ->].
Qed.
Lemma check_primary_settles m x sd :
  topo_inv x (m_td m) → servers (m_td m) !! x = Some sd →
  sd_type sd = MONGOC_SERVER_UNKNOWN ∨ sd_type sd = MONGOC_SERVER_RS_GHOST →
  td_type (m_td m) = MONGOC_TOPOLOGY_RS_WITH_PRIMARY →
  returns (_mongoc_topology_description_check_if_has_primary m x)
    (λ m', topo_ok (m_td m') ∧ rs_kind (td_type (m_td m')) ∧ stamp (m_td m') = stamp (m_td m)).
Proof.
  intros Hi Hx Hty Ht. pose proof (settled_unknown _ _ _ Hi Hx Hty) as Hok.
  eapply returns_mono; [apply update_rs_type_spec, rs_like_of; [done|by right; right|by apply (ti_name _ _ Hi)]|].
  intros m' (? & _ & ? & _ & ? & _). done.
Qed.
(** a transition to NO_PRIMARY of a topology that knows no types yet *)
Lemma unknown_to_no_primary_inv m x :
  topo_inv x (m_td m) → td_type (m_td m) = MONGOC_TOPOLOGY_UNKNOWN →
  topo_inv x (m_td (_mongoc_topology_description_set_state MONGOC_TOPOLOGY_RS_NO_PRIMARY m)).
Proof.
  intros Hi Hty. eapply set_type_inv; [done|by left|done|]. intros id y Hy Hne.
  pose proof (ti_types _ _ Hi _ _ Hy Hne) as Hal. rewrite Hty in Hal. by destruct Hal as [-> | ->].
Qed.

(** what a transition does to the epoch *)
Definition advances (sd : sd_t) (td td' : td_t) : Prop :=
  epoch td' = epoch td
  ∨ is_primary sd ∧ stale_primary sd td = false
    ∧ epoch td' = (newest_version td sd, td_max_election_id (believed sd td)).
Lemma epoch_stale sd a b : epoch a = epoch b → stale_primary sd a = stale_primary sd b.
Proof. unfold stale_primary, _mongoc_topology_description_later_election. by intros [= -> ->]. Qed.
Lemma epoch_newest sd a b : epoch a = epoch b → newest_version a sd = newest_version b sd.
Proof. unfold newest_version, _mongoc_topology_description_has_set_version. by intros [= -> _]. Qed.
Lemma epoch_believed sd a b :
  epoch a = epoch b →
  newest_version (believed sd a) sd = newest_version b sd
  ∧ td_max_election_id (believed sd a) = td_max_election_id (believed sd b).
Proof.
  unfold newest_version, believed, _mongoc_topology_description_has_set_version. intros [= Hv He].
  destruct (mongoc_server_description_has_set_version sd && bool_decide _); cbn; by rewrite Hv.
Qed.

Lemma transition_settles now invalidate_server m x sd l :
  topo_inv x (m_td m) → servers (m_td m) !! x = Some sd → typed sd → reports sd l →
  td_max_server_id (m_td m) + Z.of_nat (length l) < 2 ^ 32 →
  (∀ m' error, topo_inv x (m_td m') → servers (m_td m') !! x = Some sd →
    rs_kind (td_type (m_td m')) → is_Some (td_set_name (m_td m')) →
    outcome no_fault (invalidate_server m' x error) (λ m'', topo_ok (m_td m'')
      ∧ rs_kind (td_type (m_td m'')) ∧ stamp (m_td m'') = stamp (m_td m'))) →
  outcome no_fault (transition now invalidate_server m x) (λ m', topo_ok (m_td m') ∧ advances sd (m_td m) (m_td m')).
Proof.
  intros Hi Hx Hty Hrep Hmax Hinval. unfold transition.
  rewrite (server_at_spec _ _ _ (ti_base _ _ Hi) Hx). cbn [bind].
  set (good := λ m', topo_ok (m_td m') ∧ advances sd (m_td m) (m_td m')).
  assert (Hkeep : ∀ r, returns r (λ m', topo_ok (m_td m') ∧ epoch (m_td m') = epoch (m_td m)) → outcome no_fault r good).
  { intros r H. eapply returns_outcome, returns_mono; [exact H|]. intros m' [? ?]. split; [done|by left]. }
  assert (Hrem : outcome no_fault (_mongoc_topology_description_remove_server m x) good).
  { eapply Hkeep, returns_mono; [by eapply remove_settles|]. intros ? (? & _ & ?). auto. }
  assert (Hrc : td_type (m_td m) = MONGOC_TOPOLOGY_RS_WITH_PRIMARY →
    outcome no_fault (_mongoc_topology_description_remove_and_check_primary m x) good).
  { intros E. by eapply Hkeep, remove_and_check_settles. }
  assert (Hcp : sd_type sd = MONGOC_SERVER_UNKNOWN ∨ sd_type sd = MONGOC_SERVER_RS_GHOST →
    td_type (m_td m) = MONGOC_TOPOLOGY_RS_WITH_PRIMARY →
    outcome no_fault (_mongoc_topology_description_check_if_has_primary m x) good).
  { intros E1 E2. eapply Hkeep, returns_mono; [by eapply check_primary_settles|]. intros ? (? & _ & ?). auto. }
  assert (Hfp : is_primary sd → rs_kind (td_type (m_td m)) → outcome no_fault
    (_mongoc_topology_description_update_rs_from_primary now invalidate_server m x) good).
  { intros E1 E2. eapply outcome_mono; [by eapply from_primary_settles|done|].
    intros m' _ (Hok & Hacc & Hrej). split; [done|].
    pose proof (check_set_name_spec m sd) as (_ & _ & _ & _ & Hv & He & _).
    assert (Hep : epoch (m_td (check_set_name m sd).2) = epoch (m_td m)) by (unfold epoch; congruence).
    pose proof (epoch_stale sd _ _ Hep) as Hst. pose proof (epoch_believed sd _ _ Hep) as [Hn Hb].
    destruct ((check_set_name m sd).1); [|left; rewrite <- Hep; auto].
    destruct (stale_primary sd (m_td (check_set_name m sd).2)); [left; rewrite <- Hep; auto|right].
    split; [done|]. split; [done|]. destruct (Hacc eq_refl eq_refl) as [_ _ Hav Hae _ _ _ _].
    unfold epoch at 1. by rewrite Hav, Hae, Hn, Hb. }
  assert (Hmem : rs_member (sd_type sd) → ¬ is_primary sd →
    (td_type (m_td m) = MONGOC_TOPOLOGY_UNKNOWN → outcome no_fault
       (_mongoc_topology_description_transition_unknown_to_rs_no_primary now m x) good)
    ∧ (td_type (m_td m) = MONGOC_TOPOLOGY_RS_NO_PRIMARY → outcome no_fault
       (_mongoc_topology_description_update_rs_without_primary now m x) good)
    ∧ (td_type (m_td m) = MONGOC_TOPOLOGY_RS_WITH_PRIMARY → outcome no_fault
       (_mongoc_topology_description_update_rs_with_primary_from_member m x) good)).
  { intros E1 E2. split; [|split]; intros E.
    - apply Hkeep. set (m1 := _mongoc_topology_description_set_state MONGOC_TOPOLOGY_RS_NO_PRIMARY m).
      change (epoch (m_td m)) with (epoch (m_td m1)).
      eapply (without_primary_settles now m1); try done. by apply unknown_to_no_primary_inv.
    - by eapply Hkeep, without_primary_settles.
    - by eapply Hkeep, with_primary_settles. }
  assert (Hnone : allowed (td_type (m_td m)) (sd_type sd) →
    (is_primary sd → td_type (m_td m) = MONGOC_TOPOLOGY_SINGLE) → good m).
  { intros E1 E2. split; [by eapply topo_settled|by left]. }
  unfold is_primary, rs_member in *. destruct (sd_type sd) eqn:Hsd; [..|];
    try (destruct (proj2 Hty Hsd)).
  all: destruct (td_type (m_td m)) eqn:Htd; cbn [gSDAMTransitionTable outcome];
    first [ exact Hrem | by apply Hrc | by apply Hcp; auto | by apply Hfp; [|unfold rs_kind; auto]
          | by apply Hmem; auto 6 | by apply Hnone; simpl; auto
          | by eapply Hkeep, standalone_settles | by split; [eapply sharded_settles|left] ].
Qed.

(** ** The parts of the handler around the transition *)
Lemma copy_servers_good now items s :
  set_wf s → ordered items → (∀ id, id ∈ ids items → set_map s !! id = None) →
  (∀ id sd, (id, sd) ∈ items → sd_ok sd ∧ reparses sd) → items_len s + Z.of_nat (length items) < 2 ^ 58 →
  returns (copy_servers now items s) (λ _, True).
Proof.
  revert s. induction items as [|[id sd] items IH]; intros s Hwf Ho Hnew Hok Hlen; simpl; [done|].
  cbn [length] in Hlen.
  destruct (Hok id sd ltac:(by left)) as [[Hd _] Hp].
  eapply returns_bind; [by apply new_copy_returns|]. intros c [c' ->]. cbn [deref bind].
  inversion Ho as [|? ? Ho' Hlt]; subst. unfold items_len in Hlen.
  assert (Hadd : returns (mongoc_set_add s id c') (λ s', set_wf s' ∧ set_map s' = <[id := c']> (set_map s)
            ∧ items_len s' = items_len s + 1)).
  { apply mongoc_set_add_spec; [done|apply Hnew; by left|unfold items_len; lia]. }
  apply returns_Ret in Hadd as (s' & -> & Hwf' & Hmap & Hl'). cbn [bind]. apply IH; [done|done| | |].
  - intros k Hk. rewrite Hmap, lookup_insert_ne.
    + apply Hnew. by right.
    + intros ->. rewrite Forall_forall in Hlt. specialize (Hlt k Hk). simpl in Hlt. lia.
  - intros k y Hk. eapply Hok. by right.
  - rewrite Hl'. unfold items_len. lia.
Qed.
Lemma previous_topology_good now m : base (m_td m) → returns (previous_topology now m) (λ _, True).
Proof.
  intros Hb. unfold previous_topology. destruct (cb_topology_changed _); [|done].
  unfold _mongoc_topology_description_copy_to. pose proof (servers_length _ Hb) as Hlen.
  pose proof (base_wf _ Hb) as (Ho & _).
  enough (returns (copy_servers now (set_items (td_servers (m_td m)))
    (mongoc_set_new (bson_next_power_of_two (items_len (td_servers (m_td m)))))) (λ _, True)) as H.
  { apply (returns_bind _ _ (λ _, True)); [|done]. by apply (returns_bind _ _ (λ _, True)). }
  destruct (set_items (td_servers (m_td m))) as [|y r] eqn:E; [done|]. rewrite <- E in *.
  assert (H1 : 1 ≤ items_len (td_servers (m_td m))) by (unfold items_len; rewrite E; cbn [length]; lia).
  destruct (next_power_of_two_spec (items_len (td_servers (m_td m))) ltac:(lia)) as (k & Hk & -> & Hk1 & Hk2).
  assert (0 < 2 ^ k < 2 ^ 59) by lia.
  apply copy_servers_good; [by apply mongoc_set_new_wf|done|by intros|..].
  - intros id sd Hin. apply set_map_lookup in Hin; [|apply Hb]. by apply (base_each _ Hb) in Hin as [].
  - unfold items_len in *. cbn [mongoc_set_new set_items length]. lia.
Qed.
Lemma previous_server_good now m sd : sd_ok sd → reparses sd → returns (previous_server now m sd) (λ _, True).
Proof.
  intros [Hd _] Hp. unfold previous_server. destruct (cb_server_changed _); [|done].
  eapply returns_mono; [by apply new_copy_returns|done].
Qed.

Lemma cluster_time_greater_returns a b :
  bson_ok a → bson_ok b → returns (_mongoc_cluster_time_greater a b) (λ _, True).
Proof.
  intros Ha Hb. unfold _mongoc_cluster_time_greater.
  eapply returns_bind; [by apply parse_cluster_time_returns|]. intros [[n1 n2]|] _; [|done].
  eapply returns_bind; [by apply parse_cluster_time_returns|]. by intros [[o1 o2]|] _.
Qed.
Lemma empty_returns d : doc_ok d → returns (bson_empty d) (λ _, True).
Proof.
  intros [[Hd _] H5]. unfold bson_empty. destruct (_ =? _); [done|].
  eapply returns_bind; [apply rd_ok; [done|lia]|done].
Qed.
Lemma static_document_good it doc :
  iter_at it doc BSON_TYPE_DOCUMENT →
  outcome (λ f, f = AssertFailed) (let* r := bson_iter_document it in static_doc r) doc_ok.
Proof.
  intros Hat. pose proof (subdoc_at it doc _ _ Hat ltac:(by right)) as Hs.
  change (if_type it BSON_TYPE_DOCUMENT _ _) with (bson_iter_document it) in Hs.
  apply returns_Ret in Hs as (r & -> & Hs). rewrite decide_True in Hs by done. cbn [bind].
  destruct (subdoc_slice_at _ _ _ r Hat) as [Hsl _]; [by left|].
  destruct Hs as (n & -> & _). cbn [fst snd] in Hsl. destruct Hsl as [Hbytes Hlen].
  unfold static_doc. cbn [snd fst deref bind].
  pose proof (bson_init_static_ok _ n Hbytes ltac:(lia)) as H.
  apply returns_Ret in H as ([b|] & -> & H); cbn [bind]; [|done].
  destruct H as (Hb & _ & Hbl & H5 & _). split; [done|lia].
Qed.
(** the assertion on the cluster time does not fail, or may do so *)
Definition time_passes (F : fault → Prop) (response : option bson_t) : Prop :=
  F AssertFailed ∨ ∀ doc, response = Some doc → times_framed doc = true.
Lemma update_cluster_time_good F td reply :
  doc_ok (td_cluster_time td) → (∀ doc, reply = Some doc → doc_ok doc) → time_passes F reply →
  outcome F (mongoc_topology_description_update_cluster_time td reply)
    (λ td', ∃ t, doc_ok t ∧ td' = set_cluster_time t td).
Proof.
  intros Ht Hreply Hpass. assert (Hsame : ∃ t, doc_ok t ∧ td = set_cluster_time t td).
  { exists (td_cluster_time td). split; [done|]. by destruct td. }
  unfold mongoc_topology_description_update_cluster_time. destruct reply as [doc|]; [|done].
  specialize (Hreply doc eq_refl) as Hdoc5. destruct Hdoc5 as [Hdoc H5].
  change (c_lit "$clusterTime") with (cs "$clusterTime" ++ [0]).
  pose proof (init_find_returns doc (cs "$clusterTime") [] Hdoc ltac:(by repeat constructor)) as Hf.
  apply returns_Ret in Hf as ([[] it] & Efind & Hf); rewrite Efind; cbn [bind fst snd negb] in *; [|done].
  destruct Hf as [t Hat]. pose proof (HOLDS_at it doc t Hat BSON_TYPE_DOCUMENT) as Hholds. rewrite Hholds. cbn [bind].
  destruct (bool_decide_reflect (t = BSON_TYPE_DOCUMENT)) as [->|]; cbn [negb]; [|done].
  pose proof (bson_iter_recurse_at _ _ _ Hat) as Hc. apply returns_Ret in Hc as ([child|] & -> & _); cbn [bind]; [|done].
  assert (Hs : outcome F (let* r := bson_iter_document it in static_doc r) doc_ok).
  { pose proof (static_document_good _ _ Hat) as Hs. destruct Hpass as [HF|Hfr].
    - eapply outcome_mono; [exact Hs|by intros f ->|done].
    - pose proof (find_framed doc it (conj Hdoc H5) (Hfr doc eq_refl) Efind Hholds) as Hr.
      by destruct (let* r := bson_iter_document it in static_doc r). }
  destruct (bson_iter_document it) as [r|f]; cbn [bind] in *; [|exact Hs].
  eapply outcome_bind; [exact Hs|]. intros c _ Hc.
  pose proof (empty_returns _ Ht) as He. apply returns_Ret in He as (e & -> & _). cbn [bind].
  destruct e; [by exists c|].
  pose proof (cluster_time_greater_returns c (td_cluster_time td) (proj1 Hc) (proj1 Ht)) as Hg.
  apply returns_Ret in Hg as ([] & -> & _); cbn [bind]; [by exists c|done].
Qed.

(** ** The handler *)
Lemma topo_weaken x td : topo_ok td → topo_inv x td.
Proof.
  intros [Hb Ht Hp Hn Hs]. constructor; [done| | |done|done].
  - intros id y Hy _. eauto using server_id_pos.
  - intros i j a b Hi Hj _ _. eapply Hp; eauto using server_id_pos.
Qed.
Lemma store_reply_inv m id sd sd' :
  topo_inv id (m_td m) → servers (m_td m) !! id = Some sd → steady sd sd' →
  topo_inv id (m_td (server_store id sd' m)) ∧ servers (m_td (server_store id sd' m)) !! id = Some sd'.
Proof.
  intros [Hb Ht Hp Hn Hs] Hid Hst. destruct (store_spec m id sd sd' Hb Hid Hst) as [Hb' Hmap].
  assert (Hold : ∀ k y, servers (m_td (server_store id sd' m)) !! k = Some y → k ≠ id → servers (m_td m) !! k = Some y).
  { intros k y. rewrite Hmap. intros Hk Hne. by rewrite lookup_insert_ne in Hk. }
  split; [|by rewrite Hmap, lookup_insert_eq]. constructor; [done| | |done|].
  - intros k y Hk Hne. eapply Ht; [by apply Hold|done].
  - intros i j a b Hi Hj Hine Hjne. pose proof (Hold _ _ Hi Hine). pose proof (Hold _ _ Hj Hjne). by eapply Hp.
  - intros Hty i j a b Hi Hj. rewrite Hmap in Hi, Hj.
    assert (Hin : ∀ k y, <[id:=sd']> (servers (m_td m)) !! k = Some y → ∃ z, servers (m_td m) !! k = Some z).
    { intros k y. rewrite lookup_insert_Some. intros [[<- _]|[_ ?]]; eauto. }
    destruct (Hin _ _ Hi), (Hin _ _ Hj). by eapply Hs.
Qed.
Lemma cluster_time_inv x td t : doc_ok t → topo_inv x td → topo_inv x (set_cluster_time t td).
Proof.
  intros Ht [[b1 b2 b3 b4 b5 b6] t1 t2 t3 t4].
  exact (Build_topo_inv _ (set_cluster_time t td) (Build_base (set_cluster_time t td) b1 b2 b3 b4 Ht b6) t1 t2 t3 t4).
Qed.

Lemma changed_event_td m prev id sd :
  base (m_td m) → servers (m_td m) !! id = Some sd →
  ∃ m', _mongoc_topology_description_monitor_server_changed m prev id = Ret m' ∧ m_td m' = m_td m.
Proof.
  intros Hb Hid. unfold _mongoc_topology_description_monitor_server_changed.
  destruct (cb_server_changed _); [|by exists m]. rewrite (server_at_spec _ _ _ Hb Hid). cbn [bind].
  eexists. split; [done|apply emit_td].
Qed.

Lemma finish_td prev response error m :
  ∃ t e, m_td (finish_ismaster prev response error m) = set_compatibility_error e (set_td_session_timeout t (m_td m)).
Proof.
  unfold finish_ismaster, _mongoc_topology_description_monitor_changed. rewrite emit_td.
  destruct (response && _).
  - eexists _, _. reflexivity.
  - eexists _, (td_compatibility_error (m_td m)). cbn. reflexivity.
Qed.
Lemma finish_ok prev response error m :
  topo_ok (m_td m) → topo_ok (m_td (finish_ismaster prev response error m)).
Proof.
  destruct (finish_td prev response error m) as (t & e & ->). generalize (m_td m). clear. by intros td [[] ? ? ? ?].
Qed.

Section Handler.
Context (now : Z) (m : monitored) (id : Z) (sd : sd_t).
Context (response : option bson_t) (rtt : Z) (error : option bson_error_t).
(** the faults of parsing the reply *)
Context (F : fault → Prop).
Hypothesis Hinv : topo_inv id (m_td m).
Hypothesis Hid : servers (m_td m) !! id = Some sd.
Hypothesis Hresp : ∀ doc, response = Some doc → doc_ok doc.
Hypothesis Hparses : outcome F (mongoc_server_description_handle_ismaster now sd response rtt error) (λ _, True).
Hypothesis Hpass : time_passes F response.

(** the handler up to the transition: the reply is parsed and stored *)
Lemma handler_runs depth (Q : monitored → Prop) :
  (∀ m1 sd', topo_inv id (m_td m1) → servers (m_td m1) !! id = Some sd' →
     mongoc_server_description_handle_ismaster now sd response rtt error = Ret sd' →
     typed sd' → (response = None → sd_type sd' = MONGOC_SERVER_UNKNOWN) →
     td_type (m_td m1) = td_type (m_td m) → td_set_name (m_td m1) = td_set_name (m_td m) →
     td_max_set_version (m_td m1) = td_max_set_version (m_td m) →
     td_max_election_id (m_td m1) = td_max_election_id (m_td m) →
     td_max_server_id (m_td m1) = td_max_server_id (m_td m) →
     (response = None → stamp (m_td m1) = stamp (m_td m)) →
     servers (m_td m1) = <[id := sd']> (servers (m_td m)) →
     outcome F
       (transition now (λ m id error, handle_ismaster_nested now depth m id None 0 (Some error)) m1 id)
       (λ m2, ∀ prev, Q (finish_ismaster prev (bool_decide (is_Some response)) error m2))) →
  outcome F (handle_ismaster_nested now (S depth) m id response rtt error) Q.
Proof using Hinv Hid Hresp Hparses Hpass.
  intros Hk. cbn [handle_ismaster_nested]. pose proof (ti_base _ _ Hinv) as Hb.
  pose proof (server_id_pos _ _ _ Hb Hid) as Hpos. destruct (Z.eqb_spec id 0); [done|]. cbn [negb bson_assert bind].
  unfold mongoc_topology_description_server_by_id. rewrite mongoc_set_get_spec by apply Hb.
  unfold servers in Hid. rewrite Hid. change (set_map (td_servers (m_td m))) with (servers (m_td m)) in Hid.
  cbn [bind fst]. pose proof (base_each _ Hb _ _ Hid) as [Hsid Hr Hok Hn Ha Hrp].
  eapply outcome_bind; [by apply returns_outcome, previous_topology_good|]. intros prev_td _ _.
  eapply outcome_bind; [by apply returns_outcome, previous_server_good|]. intros prev_sd _ _.
  pose proof (handle_ismaster_good now sd response rtt error Hresp) as Hgood.
  eapply outcome_bind; [exact Hparses|]. intros sd' Heq _. rewrite Heq in Hgood. destruct Hgood as (Hok' & (Hi & Hh & Hc & _) & Hty & Hunk).
  destruct (store_reply_inv m id sd sd' Hinv Hid) as [Hinv1 Hid1].
  { split; [done|]. split; [done|]. split; [done|]. split; [done|]. split; [exact (proj1 Hty)|by eapply handle_reparses]. }
  set (m1 := server_store id sd' m) in *.
  assert (Hmap1 : servers (m_td m1) = <[id := sd']> (servers (m_td m))).
  { destruct (set_update_spec _ id (λ _, sd') sd (base_wf _ Hb) Hid) as (_ & Hmap & _). exact Hmap. }
  eapply outcome_bind; [apply update_cluster_time_good; [apply (base_time _ Hb)|done|done]|]. intros td Htd (t & Ht & ->).
  set (m2 := set_m_td _ m1).
  assert (Hinv2 : topo_inv id (m_td m2)) by (by apply cluster_time_inv).
  destruct (changed_event_td m2 prev_sd id sd' (ti_base _ _ Hinv2) Hid1) as (m3 & -> & Hm3). cbn [bind].
  eapply outcome_bind; [|intros m4 _ Hq; exact (Hq prev_td)].
  apply (Hk m3 sd'); rewrite ?Hm3; try done.
  intros ->. simpl in Htd. injection Htd as Htd. unfold m2. cbn [m_td set_m_td]. by rewrite <- Htd.
Qed.
End Handler.

(** an invalidation from within a transition *)
Lemma invalidation_good now depth m id sd error :
  topo_inv id (m_td m) → servers (m_td m) !! id = Some sd →
  rs_kind (td_type (m_td m)) → is_Some (td_set_name (m_td m)) →
  returns (handle_ismaster_nested now (S depth) m id None 0 (Some error))
    (λ m', topo_ok (m_td m') ∧ rs_kind (td_type (m_td m')) ∧ stamp (m_td m') = stamp (m_td m)).
Proof.
  intros Hinv Hid Hk Hn. apply (handler_runs now m id sd None 0 (Some error) no_fault); [done|done|done|done|by right|].
  intros m1 sd' Hinv1 Hid1 _ _ Hty Ht _ _ _ _ Hst _. specialize (Hty eq_refl). specialize (Hst eq_refl).
  assert (Hfin : ∀ m2, topo_ok (m_td m2) ∧ rs_kind (td_type (m_td m2)) ∧ stamp (m_td m2) = stamp (m_td m) →
    ∀ prev, topo_ok (m_td (finish_ismaster prev (bool_decide (is_Some (@None bson_t))) (Some error) m2))
      ∧ rs_kind (td_type (m_td (finish_ismaster prev (bool_decide (is_Some (@None bson_t))) (Some error) m2)))
      ∧ stamp (m_td (finish_ismaster prev (bool_decide (is_Some (@None bson_t))) (Some error) m2)) = stamp (m_td m)).
  { intros m2 (H1 & H2 & H3) prev. split; [by apply finish_ok|].
    destruct (finish_td prev (bool_decide (is_Some (@None bson_t))) (Some error) m2) as (t & e & ->). done. }
  unfold transition. rewrite (server_at_spec _ _ _ (ti_base _ _ Hinv1) Hid1). cbn [bind]. rewrite Hty.
  assert (Hok : topo_ok (m_td m1)) by (eapply settled_unknown; eauto).
  destruct (td_type (m_td m1)) eqn:Htd1; cbn [gSDAMTransitionTable outcome];
    try (apply Hfin; by rewrite Htd1, Ht; auto).
  eapply returns_outcome, returns_mono; [eapply check_primary_settles; eauto|].
  intros m2 (H1 & H2 & H3) prev. apply Hfin. rewrite H3. auto.
Qed.

(** the replies that the invariant is proved for: the bytes are framed as a
    document, and the members that the server reports are canonical addresses,
    not so many that the ids run out *)
Definition good_reply (now : Z) (m : monitored) (id : Z) (response : option bson_t) (rtt : Z)
    (error : option bson_error_t) : Prop :=
  (∀ doc, response = Some doc → doc_ok doc) ∧
  ∀ sd sd', servers (m_td m) !! id = Some sd →
    mongoc_server_description_handle_ismaster now sd response rtt error = Ret sd' →
    ∃ l, reports sd' l ∧ td_max_server_id (m_td m) + Z.of_nat (length l) < 2 ^ 32.

Lemma finish_epoch prev response error m :
  epoch (m_td (finish_ismaster prev response error m)) = epoch (m_td m)
  ∧ servers (m_td (finish_ismaster prev response error m)) = servers (m_td m)
  ∧ td_type (m_td (finish_ismaster prev response error m)) = td_type (m_td m).
Proof. by destruct (finish_td prev response error m) as (t & e & ->). Qed.

(** the nested call, from anywhere *)
Lemma nested_good now m' x sd error :
  topo_inv x (m_td m') → servers (m_td m') !! x = Some sd →
  rs_kind (td_type (m_td m')) → is_Some (td_set_name (m_td m')) →
  returns (handle_ismaster_nested now 1 m' x None 0 (Some error)) (λ m'', topo_ok (m_td m'')
    ∧ rs_kind (td_type (m_td m'')) ∧ stamp (m_td m'') = stamp (m_td m')).
Proof. apply (invalidation_good now 0). Qed.

Lemma handle_reply_good F now m id sd response rtt error :
  topo_ok (m_td m) → servers (m_td m) !! id = Some sd → good_reply now m id response rtt error →
  outcome F (mongoc_server_description_handle_ismaster now sd response rtt error) (λ _, True) → time_passes F response →
  outcome F (mongoc_topology_description_handle_ismaster now m id response rtt error)
    (λ m', topo_ok (m_td m') ∧ ∃ sd', advances sd' (m_td m) (m_td m')
       ∧ mongoc_server_description_handle_ismaster now sd response rtt error = Ret sd').
Proof.
  intros Hok Hid [Hdoc Hrep] Hpar Hpass. apply handler_runs with (sd := sd); [by apply topo_weaken|done|done|done|done|].
  intros m1 sd' Hinv1 Hid1 Hparse Hty Hunk Ht Hn Hv He Hmax _ _.
  destruct (Hrep _ _ Hid Hparse) as (l & Hl & Hroom).
  eapply outcome_mono; [eapply (transition_settles _ _ m1 id sd' l); try done|done|].
  - by rewrite Hmax.
  - intros m' e. by apply nested_good.
  - intros m2 _ [Hok2 Hadv] prev. split; [by apply finish_ok|]. exists sd'. split; [|done].
    destruct (finish_epoch prev (bool_decide (is_Some response)) error m2) as (Hfe & _ & _).
    assert (Hep : epoch (m_td m1) = epoch (m_td m)) by (unfold epoch; congruence).
    unfold advances in *. rewrite Hfe. rewrite (epoch_stale sd' _ _ Hep), Hep in Hadv.
    rewrite (epoch_newest sd' _ _ Hep) in Hadv. by destruct (epoch_believed sd' _ _ Hep) as [_ <-].
Qed.
Lemma handle_reply_missing now m id response rtt error :
  base (m_td m) → servers (m_td m) !! id = None → id ≠ 0 →
  mongoc_topology_description_handle_ismaster now m id response rtt error = Ret m.
Proof.
  intros Hb Hid Hne. unfold mongoc_topology_description_handle_ismaster. cbn [handle_ismaster_nested].
  destruct (Z.eqb_spec id 0); [done|]. cbn [negb bson_assert bind].
  unfold mongoc_topology_description_server_by_id. rewrite mongoc_set_get_spec by apply Hb.
  unfold servers in Hid. by rewrite Hid.
Qed.

Lemma init_base now oid heartbeat : base (mongoc_topology_description_init now oid heartbeat).
Proof.
  constructor; cbn; [by apply mongoc_set_new_wf| | |done|exact empty_doc_ok|].
  - intros id sd H. by rewrite lookup_empty in H.
  - intros i j a b H. by rewrite lookup_empty in H.
  - split; [done|]. repeat constructor; lia.
Qed.
