(* ===== verification/Topology.v ===== *)
(** The topology object (mongoc/mongoc-topology.c): how a description is seeded
    from a connection string, and what the object does to it afterwards.  The
    threads, sockets and timers of monitoring are not modelled. *)
From S2P Require Import Prelude BsonOid MongocSet HostList MongocTypes ServerDescription TopologyDescription.
From Stdlib Require Import ZArith Lia List.
From stdpp Require Import prelude strings.
#[local] Open Scope Z_scope.
#[local] Open Scope mongo_scope.

(** ** Seeding *)

(** the part of a mongoc_uri_t that it depends on *)
Record seed := Seed {
  uri_service : bool;                     (* a mongodb+srv URI *)
  uri_directconnection : option bool;     (* the directConnection option, if present *)
  uri_replica_set : option (list Z);
  uri_hosts : list mongoc_host_list_t
}.
Definition initial_type (uri : seed) : mongoc_topology_description_type_t :=
  match uri_directconnection uri with
  | None =>
      if uri_service uri then MONGOC_TOPOLOGY_UNKNOWN
      else
        match uri_replica_set uri with
        | Some _ => MONGOC_TOPOLOGY_RS_NO_PRIMARY
        | None => match uri_hosts uri with
                  | _ :: _ :: _ => MONGOC_TOPOLOGY_UNKNOWN
                  | _ => MONGOC_TOPOLOGY_SINGLE
                  end
        end
  | Some true => MONGOC_TOPOLOGY_SINGLE
  | Some false =>
      match uri_replica_set uri with
      | Some _ => MONGOC_TOPOLOGY_RS_NO_PRIMARY
      | None => MONGOC_TOPOLOGY_UNKNOWN
      end
  end.
(** the loop that adds the hosts *)
Fixpoint add_seeds (now : Z) (hosts : list mongoc_host_list_t) (m : monitored) : res monitored :=
  match hosts with
  | [] => Ret m
  | hl :: hosts' =>
      let* r := mongoc_topology_description_add_server now m (Some (h_host_and_port hl)) in
      add_seeds now hosts' r.1
  end.
(** [topology_valid]: an SRV lookup, if there is one, succeeded *)
Definition mongoc_topology_new (now : Z) (topology_id : bson_oid_t) (heartbeat : Z) (uri : seed)
    (topology_valid : bool) : res monitored :=
  let td := mongoc_topology_description_init now topology_id heartbeat in
  let m := Mon (set_td_type (initial_type uri) (set_td_set_name (uri_replica_set uri) td)) [] in
  if topology_valid then add_seeds now (uri_hosts uri) m else Ret m.

Definition mongoc_topology_set_apm_callbacks (callbacks : option mongoc_apm_callbacks_t) (m : monitored) : monitored :=
  upd (λ td, TD (td_topology_id td) (td_opened td) (td_type td) (td_heartbeat_msec td) (td_servers td)
               (td_set_name td) (td_max_set_version td) (td_max_election_id td)
               (td_compatibility_error td) (td_max_server_id td) (td_stale td) (td_rand_seed td)
               (td_cluster_time td) (td_session_timeout_minutes td)
               (default no_callbacks callbacks)) m.
