(* ===== verification/TopologyProps.v ===== *)
(** The theorems about server discovery and monitoring: what every reachable
    topology satisfies, what a primary's reply does to the set of servers, that the
    latest election is never forgotten, and the summaries the topology keeps. *)
From Stdlib Require Import ZArith Lia List.
From stdpp Require Import prelude gmap strings.
From S2P Require Import Prelude BsonIter BsonIterSafe BsonFields BsonAppend BsonBuild BsonOid BsonCopy.
From S2P Require Import MongocSet HostList MongocTypes ServerDescription TopologyDescription TopologySafe TopologySteps.
From S2P Require Import Topology.
#[local] Open Scope Z_scope.
#[local] Open Scope mongo_scope.

#[local] Notation sd_t := mongoc_server_description_t.
#[local] Notation td_t := mongoc_topology_description_t.

(** ** Reachable topologies *)
Lemma few_ids td : base td → td_max_server_id td ≤ 1 →
  ∀ i j a b, servers td !! i = Some a → servers td !! j = Some b → i = j.
Proof. intros Hb Hm i j a b Hi%(base_each _ Hb) Hj%(base_each _ Hb). destruct Hi, Hj. lia. Qed.

Lemma unknown_allowed t : allowed t MONGOC_SERVER_UNKNOWN.
Proof. destruct t; simpl; [by left|by left|by repeat split..|done]. Qed.

Lemma seeds_ok now hosts m :
  base (m_td m) → (∀ id sd, servers (m_td m) !! id = Some sd → sd_type sd = MONGOC_SERVER_UNKNOWN) →
  Forall (λ h, canonical (h_host_and_port h)) hosts →
  td_max_server_id (m_td m) + Z.of_nat (length hosts) < 2 ^ 32 →
  td_type (m_td m) ≠ MONGOC_TOPOLOGY_RS_WITH_PRIMARY →
  (td_type (m_td m) = MONGOC_TOPOLOGY_SINGLE → td_max_server_id (m_td m) + Z.of_nat (length hosts) ≤ 1) →
  returns (add_seeds now hosts m) (λ m', topo_ok (m_td m')).
Proof.
  revert m. induction hosts as [|h hosts IH]; intros m Hb Hunk Hc Hmax Hwp Hs; simpl.
  { constructor; [done| | |by intros ?%Hwp|].
    - intros k x Hk _. rewrite (Hunk _ _ Hk). by apply unknown_allowed.
    - intros i j a b Hi _ _ _ Ha _. unfold is_primary in Ha. by rewrite (Hunk _ _ Hi) in Ha.
    - intros Hsin. apply few_ids; [done|]. specialize (Hs Hsin). cbn [length] in Hs. lia. }
  apply Forall_cons in Hc as [Hh Hc]. cbn [length] in Hmax, Hs.
  eapply returns_bind; [apply (add_spec now m (h_host_and_port h)); [done|done|lia]|].
  intros [m1 id] ((Hb1 & Hset & Hkeep & Hnew) & _ & Htop). cbn [fst] in *.
  apply settings_stamp in Hset as [_ Hty]. apply IH; rewrite ?Hty; try done; try lia.
  intros k x [Hk|[? _]]%Hnew; [by eapply Hunk|done].
  intros Hsin. specialize (Hs Hsin). lia.
Qed.

(** a topology with its seeds; directConnection with several hosts is refused when
    the connection string is parsed *)
Definition good_seed (uri : seed) : Prop :=
  Forall (λ h, canonical (h_host_and_port h)) (uri_hosts uri)
  ∧ Z.of_nat (length (uri_hosts uri)) < 2 ^ 32
  ∧ (uri_directconnection uri = Some true → (length (uri_hosts uri) ≤ 1)%nat).
Lemma new_ok now oid heartbeat uri valid :
  good_seed uri → returns (mongoc_topology_new now oid heartbeat uri valid) (λ m, topo_ok (m_td m)).
Proof.
  intros (Hc & Hl & Hd). unfold mongoc_topology_new. set (m := Mon _ _).
  assert (Hb : base (m_td m)) by apply base_set_type, base_set_name, init_base.
  assert (Hemp : ∀ id, servers (m_td m) !! id = None) by (intros id; apply lookup_empty).
  assert (Hseed : ∀ hosts, Forall (λ h, canonical (h_host_and_port h)) hosts → (length hosts ≤ length (uri_hosts uri))%nat →
    returns (add_seeds now hosts m) (λ m', topo_ok (m_td m'))).
  { intros hosts Hc' Hl'. apply seeds_ok; [done| |done| | |].
    - intros id sd H. by rewrite Hemp in H.
    - cbn. lia.
    - cbn. unfold initial_type. by repeat case_match.
    - cbn. intros Hsin. enough (length (uri_hosts uri) ≤ 1)%nat by lia. unfold initial_type in Hsin.
      destruct (uri_directconnection uri) as [[]|]; [by apply Hd|by case_match|].
      destruct (uri_service uri); [done|]. destruct (uri_replica_set uri); [done|].
      destruct (uri_hosts uri) as [|? [|]]; cbn; [lia|lia|done]. }
  destruct valid; [by apply Hseed|]. apply (Hseed []); [constructor|cbn; lia].
Qed.

Lemma callbacks_ok callbacks m : topo_ok (m_td m) → topo_ok (m_td (mongoc_topology_set_apm_callbacks callbacks m)).
Proof.
  unfold mongoc_topology_set_apm_callbacks. cbn. generalize (m_td m). clear. by intros td [[] ? ? ? ?].
Qed.

(** sending the opening events *)
Lemma opened_ok m m' id sd o :
  topo_ok (m_td m) → servers (m_td m) !! id = Some sd → base (m_td m') → settings (m_td m') = settings (m_td m) →
  servers (m_td m') = <[id := set_opened o sd]> (servers (m_td m)) → topo_ok (m_td m').
Proof.
  intros [Hb Ht Hp Hn Hs] Hid Hb' Hset Hmap. apply settings_stamp in Hset as [Hst Hty].
  assert (Hold : ∀ k x, servers (m_td m') !! k = Some x → ∃ y, servers (m_td m) !! k = Some y ∧ sd_type x = sd_type y).
  { intros k x. rewrite Hmap, lookup_insert_Some. intros [[<- <-]|[_ Hk]]; eauto. }
  constructor; [done| | | |]; rewrite ?Hty, ?(stamp_name _ _ Hst); [| |done|].
  - intros k x (y & Hy & ->)%Hold. by apply Ht.
  - intros i j a b (a' & Hi & Ha)%Hold (b' & Hj & Hb2)%Hold. unfold is_primary. rewrite Ha, Hb2. by apply Hp.
  - intros H1 i j a b (a' & Hi & _)%Hold (b' & Hj & _)%Hold. by eapply Hs.
Qed.
Lemma open_servers_ok l m :
  topo_ok (m_td m) → (∀ id, id ∈ l → is_Some (servers (m_td m) !! id)) →
  returns (open_servers l m) (λ m', topo_ok (m_td m')).
Proof.
  revert m. induction l as [|id l IH]; intros m Hok Hin; simpl; [done|].
  destruct (Hin id ltac:(left)) as [sd Hid].
  eapply returns_bind; [by apply opening_spec; [apply Hok|]|]. intros m1 (Hb1 & Hset & _ & o & Hmap).
  apply IH; [by eapply opened_ok|]. intros k Hk. rewrite Hmap, lookup_insert_is_Some.
  destruct (decide (id = k)); [by left|right]. split; [done|]. apply Hin. by right.
Qed.
Lemma monitor_opening_ok now oid m :
  topo_ok (m_td m) → returns (_mongoc_topology_description_monitor_opening now oid m) (λ m', topo_ok (m_td m')).
Proof.
  intros Hok. unfold _mongoc_topology_description_monitor_opening. destruct (td_opened _); [done|].
  set (m1 := _mongoc_topology_description_monitor_changed _ _).
  assert (Htd : m_td m1 = set_td_opened true (m_td m)).
  { unfold m1, _mongoc_topology_description_monitor_changed. by rewrite !emit_td. }
  assert (Hok1 : topo_ok (m_td m1)).
  { rewrite Htd. generalize dependent (m_td m). clear. by intros td [[] ? ? ? ?]. }
  apply open_servers_ok; [done|]. intros id Hid.
  apply list_elem_of_fmap in Hid as ([k x] & -> & Hk). exists x.
  apply set_map_lookup; [apply (ti_base _ _ Hok1)|done].
Qed.

(** the steps of a topology's life, in any order *)
Inductive reachable : monitored → Prop :=
| reach_new now oid heartbeat uri valid m :
    good_seed uri → mongoc_topology_new now oid heartbeat uri valid = Ret m → reachable m
| reach_callbacks callbacks m : reachable m → reachable (mongoc_topology_set_apm_callbacks callbacks m)
| reach_opening now oid m m' :
    reachable m → _mongoc_topology_description_monitor_opening now oid m = Ret m' → reachable m'
| reach_closed m : reachable m → reachable (_mongoc_topology_description_monitor_closed m)
| reach_reply now m id response rtt error m' :
    reachable m → id ≠ 0 → good_reply now m id response rtt error →
    mongoc_topology_description_handle_ismaster now m id response rtt error = Ret m' → reachable m'.

Lemma reachable_ok m : reachable m → topo_ok (m_td m).
Proof.
  induction 1 as [now oid heartbeat uri valid m Hs Hm|cbs m _ IH|now oid m m' _ IH Hm|m _ IH
                 |now m id response rtt error m' _ IH Hne Hg Hm].
  - pose proof (new_ok now oid heartbeat uri valid Hs) as H. by rewrite Hm in H.
  - by apply callbacks_ok.
  - pose proof (monitor_opening_ok now oid m IH) as H. by rewrite Hm in H.
  - unfold _mongoc_topology_description_monitor_closed. by rewrite emit_td.
  - destruct (servers (m_td m) !! id) as [sd|] eqn:Hid.
    + pose proof (handle_reply_good (λ _, True) now m id sd response rtt error IH Hid Hg) as H. rewrite Hm in H.
      apply H; [|by left]. by destruct (mongoc_server_description_handle_ismaster now sd response rtt error).
    + rewrite handle_reply_missing in Hm by (done || apply IH). by injection Hm as <-.
Qed.

(** ** A topology with a replica set *)
Definition host_of (s : String.string) : mongoc_host_list_t :=
  match _mongoc_host_list_from_string (cs s) with Some h => h | None => Host [] [] 0 AF_UNSPEC end.
Definition rs_seed : seed := Seed false None (Some (cs "rs")) [host_of "a:1"].
Definition sample_oid (n : Z) : bson_oid_t := replicate 11 0 ++ [n].
Definition ret_or {A} (d : A) (r : res A) : A := match r with Ret a => a | Stuck _ => d end.
Definition sample_topology : monitored :=
  ret_or (Mon td_zero []) (mongoc_topology_new 0 (sample_oid 1) 10000 rs_seed true).
(** the reply of a primary, in the election [n] *)
Definition primary_reply (n : Z) : bson_t :=
  doc_bytes (f_int32 "ok" 1 ++ f_bool "ismaster" true ++ f_utf8 "setName" "rs" ++ f_int32 "setVersion" 1
             ++ f_oid "electionId" (sample_oid n)
             ++ f_array "hosts" (f_utf8 "0" "a:1" ++ f_utf8 "1" "b:2") ++ f_utf8 "primary" "a:1").
Definition with_primary : monitored :=
  ret_or sample_topology
    (mongoc_topology_description_handle_ismaster 5 sample_topology 1 (Some (primary_reply 3)) 20 None).
Example with_primary_state :
  td_type (m_td with_primary) = MONGOC_TOPOLOGY_RS_WITH_PRIMARY
  ∧ map (λ sd, (sd_id sd, sd_type sd, address_of sd)) (descriptions (m_td with_primary))
    = [(1, MONGOC_SERVER_RS_PRIMARY, cs "a:1"); (2, MONGOC_SERVER_UNKNOWN, cs "b:2")].
Proof. vm_compute. done. Qed.

Lemma doc_ok_check b :
  bool_decide (bytes_ok b) && (5 <=? blen b) && (blen b <=? INT_MAX) = true → doc_ok b.
Proof.
  intros [[Hb%bool_decide_eq_true H5%Z.leb_le]%andb_true_iff Hm%Z.leb_le]%andb_true_iff. by split.
Qed.
Lemma primary_reply_ok n : n = 2 ∨ n = 3 → doc_ok (primary_reply n).
Proof. intros [-> | ->]; apply doc_ok_check; vm_compute; reflexivity. Qed.

Definition canonicalb (a : list Z) : bool :=
  match _mongoc_host_list_from_string a with Some h => strcaseeq a (h_host_and_port h) | None => false end.
Lemma canonical_check a : canonicalb a = true → canonical a.
Proof. unfold canonicalb, canonical. destruct (_mongoc_host_list_from_string a) as [h|]; [by exists h|done]. Qed.
Lemma canonical_all l : forallb canonicalb l = true → Forall canonical l.
Proof. rewrite forallb_forall, Forall_forall. intros H a Ha%list_elem_of_In. by apply canonical_check, H. Qed.

Lemma sample_topology_reachable : reachable sample_topology.
Proof.
  apply (reach_new 0 (sample_oid 1) 10000 rs_seed true); [|vm_compute; reflexivity].
  split; [|split; [vm_compute; reflexivity|intros _; vm_compute; lia]].
  cbn [rs_seed uri_hosts]. repeat constructor. apply canonical_check. vm_compute. reflexivity.
Qed.
(** a reply that parses as computed is good *)
Lemma good_reply_check now m id sd sd' reply rtt error l :
  doc_ok reply → servers (m_td m) !! id = Some sd →
  mongoc_server_description_handle_ismaster now sd (Some reply) rtt error = Ret sd' →
  members_of sd' = Ret l → forallb canonicalb l = true →
  td_max_server_id (m_td m) + Z.of_nat (length l) <? 2 ^ 32 = true →
  good_reply now m id (Some reply) rtt error.
Proof.
  intros Hd Hid Hp Hl Hc Hm%Z.ltb_lt. split; [by intros d [= <-]|]. intros x x' Hx Hx'.
  rewrite Hid in Hx. injection Hx as <-. rewrite Hp in Hx'. apply Ret_inj in Hx' as <-.
  exists l. split; [|done]. split; [done|]. by apply canonical_all.
Qed.
Definition server_of (m : monitored) (id : Z) : sd_t :=
  ret_or sd_zero (server_at m id).
Definition parsed (m : monitored) (id : Z) (reply : bson_t) : sd_t :=
  ret_or sd_zero (mongoc_server_description_handle_ismaster 5 (server_of m id) (Some reply) 20 None).
Lemma sample_primary_parsed n :
  n = 2 ∨ n = 3 →
  mongoc_server_description_handle_ismaster 5 (server_of sample_topology 1) (Some (primary_reply n)) 20 None
  = Ret (parsed sample_topology 1 (primary_reply n)).
Proof. intros [-> | ->]; vm_compute; reflexivity. Qed.
Lemma sample_primary_good n :
  n = 2 ∨ n = 3 → good_reply 5 sample_topology 1 (Some (primary_reply n)) 20 None.
Proof.
  intros Hn. apply (good_reply_check 5 _ 1 (server_of sample_topology 1) (parsed sample_topology 1 (primary_reply n))
    _ 20 None [cs "a:1"; cs "b:2"]); [by apply primary_reply_ok|..];
    destruct Hn as [-> | ->]; vm_compute; reflexivity.
Qed.

(** ** What every reachable topology satisfies *)


(** C5. A reply, or an error, about a server of a well-formed topology, when the members it
    lists are canonical address strings and the ids do not run out: it leaves the topology
    well formed, or the process aborts on one of the faults of parsing the reply (an
    assertion on a malformed nested document, the cast of a double too large for an
    integer).  It never aborts elsewhere: if the parser of the server's description
    returns and the documents in "$clusterTime" are framed, the handler returns, with the
    invalidation it may call and with no server used after it was removed.  A reply about
    a server that is no longer known changes nothing. *)
Theorem handle_ismaster_topology_safe now m id response rtt error
    (Hok : topo_ok (m_td m)) (Hid : id ≠ 0) (Hg : good_reply now m id response rtt error) :
  let handled := mongoc_topology_description_handle_ismaster now m id response rtt error in
  match servers (m_td m) !! id with
  | None => handled = Ret m
  | Some sd =>
      outcome reply_fault handled (λ m', topo_ok (m_td m'))
      ∧ ((∃ sd', mongoc_server_description_handle_ismaster now sd response rtt error = Ret sd') →
         (∀ doc, response = Some doc → times_framed doc = true) → returns handled (λ m', topo_ok (m_td m')))
  end.
Proof.
  destruct (servers (m_td m) !! id) as [sd|] eqn:E; [|by apply handle_reply_missing; [apply Hok|..]].
  split.
  - assert (Hp : outcome reply_fault (mongoc_server_description_handle_ismaster now sd response rtt error) (λ _, True)).
    { eapply outcome_mono; [apply handle_ismaster_good, Hg|done|done]. }
    eapply outcome_mono; [apply (handle_reply_good reply_fault _ _ _ _ _ _ _ Hok E Hg Hp); by left; left|done|].
    intros m' _ [H _]. exact H.
  - intros [sd' Hp] Ht. eapply returns_mono; [eapply (handle_reply_good (λ _, False)); [done|done|exact Hg|by rewrite Hp|by right]|].
    intros m' [H _]. exact H.
Qed.

(** ** Elections *)

(** the latest election, by set version and then by election id *)
Definition election_le (td td' : td_t) : Prop :=
  td_max_set_version td < td_max_set_version td'
  ∨ td_max_set_version td = td_max_set_version td'
    ∧ (td_max_election_id td' = td_max_election_id td
       ∨ ∃ c, bson_oid_compare (td_max_election_id td) (td_max_election_id td') = Ret c ∧ c ≤ 0).
Lemma advances_le sd td td' :
  oid_ok (td_max_election_id td) → sd_ok sd → -1 ≤ sd_set_version sd →
  advances sd td td' → election_le td td'.
Proof.
  intros Hoid Hsd Hv [[= He1 He2]|(_ & Hst & [= He1 He2])].
  { right. split; [done|by left]. }
  unfold election_le. rewrite He1, He2. clear He1 He2.
  pose proof (has_election_id_returns sd Hsd) as Hb. apply returns_Ret in Hb as (b & Hb & _).
  pose proof (later_election_returns td sd Hoid Hsd) as Hl. apply returns_Ret in Hl as (later & Hl & _).
  unfold stale_primary, believed, newest_version in *. rewrite Hb, Hl in *.
  unfold mongoc_server_description_has_set_version, _mongoc_topology_description_has_set_version,
    MONGOC_NO_SET_VERSION in *.
  destruct (Z.eqb_spec (sd_set_version sd) (-1)) as [Hno|Hhas]; cbn [negb andb] in *.
  { right. split; [done|by left]. }
  destruct b.
  - cbn [bool_decide] in *. rewrite (bool_decide_true (Ret true = Ret true)) in * by done. cbn [andb] in Hst.
    destruct later; [by rewrite bool_decide_true in Hst|]. clear Hst.
    unfold _mongoc_topology_description_later_election in Hl. destruct (Z.gtb_spec (td_max_set_version td) (sd_set_version sd)); [done|].
    destruct (Z.eqb_spec (td_max_set_version td) (sd_set_version sd)) as [E|].
    + right. split; [rewrite E; by case_match|]. right. cbn [set_max_election_id td_max_election_id].
      destruct (bson_oid_compare _ _) as [c|]; cbn [bind] in Hl; [|done]. apply Ret_inj in Hl. destruct (Z.gtb_spec c 0); [done|]. by exists c.
    + left. destruct (Z.eqb_spec (td_max_set_version td) (-1)), (Z.gtb_spec (sd_set_version sd) (td_max_set_version td));
        cbn [negb orb]; lia.
  - rewrite (bool_decide_false (Ret false = Ret true)) by done.
    destruct (Z.eqb_spec (td_max_set_version td) (-1)), (Z.gtb_spec (sd_set_version sd) (td_max_set_version td));
      cbn [negb orb]; (left; lia) || (right; split; [done|by left]).
Qed.

(** C6. The latest election a well-formed topology has seen never moves backwards: a primary of an
    earlier election cannot undo what a later one reported.  It holds for every reply and
    every error that gets through the parser, when the members listed are canonical
    address strings, ids stay below 2^32, the documents in "$clusterTime" are framed, and
    the set version is a nonnegative number, or -1 for none. *)
Theorem election_never_goes_back now m id sd sd' response rtt error
    (Hok : topo_ok (m_td m)) (Hid : servers (m_td m) !! id = Some sd)
    (Hg : good_reply now m id response rtt error)
    (Hparse : mongoc_server_description_handle_ismaster now sd response rtt error = Ret sd')
    (Htime : ∀ doc, response = Some doc → times_framed doc = true)
    (Hv : -1 ≤ sd_set_version sd') :
  returns (mongoc_topology_description_handle_ismaster now m id response rtt error)
    (λ m', election_le (m_td m) (m_td m')).
Proof.
  pose proof (handle_ismaster_good now sd response rtt error (proj1 Hg)) as Hsd. rewrite Hparse in Hsd.
  eapply returns_mono; [eapply (handle_reply_good (λ _, False)); [done|done|exact Hg|by rewrite Hparse|by right]|].
  intros m' (_ & sd1 & Hadv & Hp). rewrite Hparse in Hp. apply Ret_inj in Hp as <-.
  by apply (advances_le sd'); [apply (ti_base _ _ Hok)|apply Hsd|..].
Qed.
Lemma sample_primary_framed n : n = 2 ∨ n = 3 → ∀ doc, Some (primary_reply n) = Some doc → times_framed doc = true.
Proof. intros [-> | ->] doc [= <-]; vm_compute; reflexivity. Qed.
Lemma election_never_goes_back_witness :
  returns
    (mongoc_topology_description_handle_ismaster 5 sample_topology 1 (Some (primary_reply 3)) 20 None)
    (λ m', election_le (m_td sample_topology) (m_td m')).
Proof.
  apply (election_never_goes_back 5 sample_topology 1 (server_of sample_topology 1)
    (parsed sample_topology 1 (primary_reply 3)) (Some (primary_reply 3)) 20 None).
  - apply reachable_ok, sample_topology_reachable.
  - vm_compute. reflexivity.
  - apply sample_primary_good. by right.
  - apply sample_primary_parsed. by right.
  - apply sample_primary_framed. by right.
  - vm_compute. discriminate.
Defined.

(** what the primary [sd], filed under [id] and listing [l], makes of the topology [td] *)
Record rebuilt (id : Z) (sd : sd_t) (l : list (list Z)) (td td' : td_t) : Prop := {
  rb_covers : covers td' l;
  rb_listed : ∀ k x, servers td' !! k = Some x → mentions l (address_of x) = true;
  rb_primary : ∀ k x, servers td' !! k = Some x → is_primary x → k = id ∧ x = sd;
  rb_type : td_type td' = if mentions l (address_of sd) then MONGOC_TOPOLOGY_RS_WITH_PRIMARY
                          else MONGOC_TOPOLOGY_RS_NO_PRIMARY;
  rb_name : td_set_name td' = sd_set_name sd;
  rb_epoch : epoch td' = (newest_version td sd, td_max_election_id (believed sd td))
}.
Lemma check_set_name_same m sd :
  is_Some (sd_set_name sd) → td_set_name (m_td m) = None ∨ td_set_name (m_td m) = sd_set_name sd →
  (check_set_name m sd).1 = true.
Proof. unfold check_set_name. intros [n ->] [-> | ->]; [done|]. apply streq_refl. Qed.
Lemma accepted_rebuilt id sd l td m' :
  td_set_name td = sd_set_name sd →
  accepted id sd l (believed sd td) (m_td m') → rebuilt id sd l td (m_td m').
Proof.
  intros Hn [_ Han Hav Hae Has Hac _ Hat]. constructor; [done| | |done| |].
  - intros k x Hk. apply (Has _ _ Hk).
  - intros k x Hk. apply (Has _ _ Hk).
  - rewrite Han, <- Hn. unfold believed. by destruct (_ && _).
  - unfold epoch. rewrite Hav, Hae. f_equal. unfold believed, newest_version, _mongoc_topology_description_has_set_version.
    by destruct (_ && bool_decide _).
Qed.

(** ** Replies of primaries *)

(** C4. In a well-formed topology that is a replica set or of a type still unknown, the reply
    of a known server that is a primary decides who is in the set, when the reply gets
    through the parser, has the set name the topology has, if it has one, lists canonical
    addresses, no more than there are ids left below 2^32, has only framed documents as
    "$clusterTime", and is not of an earlier election than the latest one seen: afterwards the servers are exactly those it lists (as host,
    arbiter or passive), any other primary has been demoted, the topology has a primary
    if and only if the primary lists its own address, the set name is the one
    reported, the set version the greatest one seen, and the election id the one
    reported, or the old one when the reply has no set version or no election id. *)
Theorem primary_reply_sets_members now m id sd sd' reply rtt error l
    (Hok : topo_ok (m_td m)) (Hkind : rs_kind (td_type (m_td m)))
    (Hid : servers (m_td m) !! id = Some sd) (Hdoc : doc_ok reply)
    (Hparse : mongoc_server_description_handle_ismaster now sd (Some reply) rtt error = Ret sd')
    (Hprim : is_primary sd') (Hrep : reports sd' l)
    (Hmax : td_max_server_id (m_td m) + Z.of_nat (length l) < 2 ^ 32)
    (Hname : td_set_name (m_td m) = None ∨ td_set_name (m_td m) = sd_set_name sd')
    (Hnew : stale_primary sd' (m_td m) = false) (Htime : times_framed reply = true) :
  returns (mongoc_topology_description_handle_ismaster now m id (Some reply) rtt error)
    (λ m', rebuilt id sd' l (m_td m) (m_td m')).
Proof.
  apply (handler_runs now m id sd (Some reply) rtt error (λ _, False));
    [by apply topo_weaken|done|by intros d [= <-]|by rewrite Hparse|right; by intros d [= <-]|].
  intros m1 x Hinv1 Hid1 Hx Hty _ Ht Hn Hv He Htop _ _.
  rewrite Hparse in Hx. apply Ret_inj in Hx as <-.
  assert (Hep : epoch (m_td m1) = epoch (m_td m)) by (unfold epoch; congruence).
  assert (Hhas : is_Some (sd_set_name sd')) by (apply (proj1 Hty); by left).
  unfold transition. rewrite (server_at_spec _ _ _ (ti_base _ _ Hinv1) Hid1). cbn [bind].
  rewrite Hprim. assert (Hk1 : rs_kind (td_type (m_td m1))) by (by rewrite Ht).
  set (invalidate_server := λ m id error, _).
  assert (gSDAMTransitionTable now invalidate_server MONGOC_SERVER_RS_PRIMARY (td_type (m_td m1))
          = Some (_mongoc_topology_description_update_rs_from_primary now invalidate_server)) as ->
    by (by destruct Hk1 as [->|[->| ->]]).
  eapply outcome_mono; [apply (from_primary_settles _ _ m1 id sd' l); try done|done|].
  - by rewrite Htop.
  - intros. by eapply nested_good.
  - intros m2 _ (_ & Hacc & _) prev.
    pose proof (check_set_name_spec m1 sd') as (_ & Hs2 & _ & _ & Hv2 & He2 & _ & _ & Hn2).
    rewrite <- Hn in Hname. pose proof (check_set_name_same _ _ Hhas Hname) as Hsame.
    assert (Hep2 : epoch (m_td (check_set_name m1 sd').2) = epoch (m_td m)) by (unfold epoch; congruence).
    rewrite (epoch_stale _ _ _ Hep2) in Hacc. specialize (Hacc Hsame Hnew).
    apply accepted_rebuilt in Hacc; [|by apply Hn2].
    destruct Hacc as [Hc Hl Hp1 Hty1 Hn1 He1].
    destruct (finish_td prev (bool_decide (is_Some (Some reply))) error m2) as (t & e & ->).
    constructor; [exact Hc|exact Hl|exact Hp1|exact Hty1|exact Hn1|].
    change (epoch (m_td m2) = (newest_version (m_td m) sd', td_max_election_id (believed sd' (m_td m)))).
    destruct (epoch_believed sd' _ _ Hep2) as [_ Hb2]. by rewrite He1, (epoch_newest _ _ _ Hep2), Hb2.
Qed.
Lemma primary_reply_sets_members_witness :
  returns
    (mongoc_topology_description_handle_ismaster 5 sample_topology 1 (Some (primary_reply 3)) 20 None)
    (λ m', rebuilt 1 (parsed sample_topology 1 (primary_reply 3)) [cs "a:1"; cs "b:2"] (m_td sample_topology) (m_td m')).
Proof.
  apply (primary_reply_sets_members 5 sample_topology 1 (server_of sample_topology 1)).
  - apply reachable_ok, sample_topology_reachable.
  - right. left. vm_compute. reflexivity.
  - vm_compute. reflexivity.
  - apply primary_reply_ok. by right.
  - apply sample_primary_parsed. by right.
  - vm_compute. reflexivity.
  - split; [vm_compute; reflexivity|apply canonical_all; vm_compute; reflexivity].
  - vm_compute. reflexivity.
  - right. vm_compute. reflexivity.
  - vm_compute. reflexivity.
  - vm_compute. reflexivity.
Defined.

Definition stepped_down_reply : bson_t :=
  doc_bytes (f_int32 "ok" 1 ++ f_bool "ismaster" false ++ f_bool "secondary" true ++ f_utf8 "setName" "rs"
             ++ f_array "hosts" (f_utf8 "0" "a:1" ++ f_utf8 "1" "b:2") ++ f_utf8 "me" "x:9").

(** A topology keeps the type ReplicaSetWithPrimary without a primary: the primary
    steps down and answers as a secondary whose [me] is another name; the handler
    removes it and does not look for a primary again, so a write finds no server
    while the type still announces a primary. *)
Theorem stepped_down_primary_keeps_type :
  let m' := ret_or with_primary (mongoc_topology_description_handle_ismaster 9 with_primary 1 (Some stepped_down_reply) 20 None) in
  td_type (m_td m') = MONGOC_TOPOLOGY_RS_WITH_PRIMARY
  ∧ map sd_type (descriptions (m_td m')) = [MONGOC_SERVER_UNKNOWN]
  ∧ _mongoc_topology_description_has_primary m' = Ret None.
Proof. vm_compute. done. Qed.

(** The old primary of an earlier election is not believed: its reply makes it unknown
    and leaves the primary and the election alone. *)
Definition two_primaries : monitored :=
  ret_or with_primary (mongoc_topology_description_handle_ismaster 9 with_primary 2 (Some (primary_reply 2)) 20 None).
Example old_primary_rejected :
  map (λ sd, (sd_id sd, sd_type sd)) (descriptions (m_td two_primaries))
  = [(1, MONGOC_SERVER_RS_PRIMARY); (2, MONGOC_SERVER_UNKNOWN)]
  ∧ epoch (m_td two_primaries) = epoch (m_td with_primary).
Proof. vm_compute. done. Qed.

Lemma handle_ismaster_topology_safe_witness :
  returns (mongoc_topology_description_handle_ismaster 5 sample_topology 1 (Some (primary_reply 3)) 20 None) (λ m', topo_ok (m_td m')).
Proof.
  assert (Hid : servers (m_td sample_topology) !! 1 = Some (server_of sample_topology 1)) by (vm_compute; reflexivity).
  pose proof (handle_ismaster_topology_safe 5 sample_topology 1 (Some (primary_reply 3)) 20 None
    (reachable_ok _ sample_topology_reachable) ltac:(lia) (sample_primary_good 3 ltac:(by right))) as H.
  cbv zeta in H. rewrite Hid in H. destruct H as [_ H]. apply H.
  - exists (parsed sample_topology 1 (primary_reply 3)). apply sample_primary_parsed. by right.
  - apply sample_primary_framed. by right.
Defined.

Lemma with_primary_reachable : reachable with_primary.
Proof.
  apply (reach_reply 5 sample_topology 1 (Some (primary_reply 3)) 20 None).
  - exact sample_topology_reachable.
  - lia.
  - apply sample_primary_good. by right.
  - vm_compute. reflexivity.
Qed.

(** ** Summaries *)
Definition data_timeouts (sds : list sd_t) : list Z :=
  map sd_session_timeout_minutes (filter (λ sd, _is_data_node sd = true) sds).
Lemma foldr_min_acc l x t : foldr Z.min (Z.min t x) l = Z.min x (foldr Z.min t l).
Proof. induction l as [|y l IH]; simpl; [lia|]. rewrite IH. lia. Qed.
Lemma foldr_min_least l t : let r := foldr Z.min t l in r ∈ t :: l ∧ Forall (λ x, r ≤ x) (t :: l).
Proof.
  induction l as [|y l [Hin Hle]]; simpl; [split; [by left|by repeat constructor]|].
  apply Forall_cons in Hle as [Ht Hle]. split.
  - destruct (Z.min_spec y (foldr Z.min t l)) as [[_ ->]|[_ ->]]; [right; by left|].
    apply elem_of_cons in Hin as [->|Hin]; [by left|by do 2 right].
  - repeat constructor; [lia|lia|]. eapply Forall_impl; [exact Hle|]. simpl. intros x Hx. lia.
Qed.
Lemma smallest_timeout_cons sd sds t :
  smallest_session_timeout (sd :: sds) t
  = if _is_data_node sd then
      if sd_session_timeout_minutes sd =? -1 then -1
      else smallest_session_timeout sds (if t =? -1 then sd_session_timeout_minutes sd
                                         else Z.min t (sd_session_timeout_minutes sd))
    else smallest_session_timeout sds t.
Proof.
  cbn [smallest_session_timeout]. unfold MONGOC_NO_SESSIONS. destruct (_is_data_node sd); [|done]. cbn [negb].
  destruct (_ =? -1); [done|]. destruct (t =? -1); [done|].
  destruct (Z.gtb_spec t (sd_session_timeout_minutes sd)); [by rewrite Z.min_r by lia|by rewrite Z.min_l by lia].
Qed.
Lemma data_timeouts_cons sd sds :
  data_timeouts (sd :: sds)
  = if _is_data_node sd then sd_session_timeout_minutes sd :: data_timeouts sds else data_timeouts sds.
Proof. unfold data_timeouts. rewrite filter_cons. by destruct (_is_data_node sd). Qed.
Lemma smallest_timeout_fold sds t :
  t ≠ -1 →
  smallest_session_timeout sds t
  = if decide (-1 ∈ data_timeouts sds) then -1 else foldr Z.min t (data_timeouts sds).
Proof.
  revert t. induction sds as [|sd sds IH]; intros t Ht; [by rewrite decide_False by apply not_elem_of_nil|].
  rewrite smallest_timeout_cons, data_timeouts_cons. destruct (_is_data_node sd); [|by apply IH].
  destruct (Z.eqb_spec (sd_session_timeout_minutes sd) (-1)) as [->|Hs]; [by rewrite decide_True by left|].
  rewrite (proj2 (Z.eqb_neq t (-1)) Ht), IH by lia. simpl foldr. rewrite <- foldr_min_acc.
  apply decide_ext. rewrite elem_of_cons. intuition congruence.
Qed.
Lemma smallest_timeout_spec sds :
  let r := smallest_session_timeout sds (-1) in
  (r = -1 ↔ data_timeouts sds = [] ∨ -1 ∈ data_timeouts sds)
  ∧ (r ≠ -1 → r ∈ data_timeouts sds ∧ Forall (λ t, r ≤ t) (data_timeouts sds)).
Proof.
  induction sds as [|sd sds IH]; [split; [split; [by left|done]|done]|].
  rewrite smallest_timeout_cons, data_timeouts_cons. destruct (_is_data_node sd); [|exact IH]. clear IH.
  destruct (Z.eqb_spec (sd_session_timeout_minutes sd) (-1)) as [->|Hs].
  { split; [split; [right; by left|done]|done]. }
  rewrite Z.eqb_refl, smallest_timeout_fold by done.
  destruct (foldr_min_least (data_timeouts sds) (sd_session_timeout_minutes sd)) as [Hin Hle].
  case_decide as Hno; [split; [split; [right; by right|done]|done]|]. split; [|done]. split.
  - intros E. right. by rewrite E in Hin.
  - intros [?|[E|?]%elem_of_cons]; [done|congruence|done].
Qed.

(** The session timeout after every reply is the smallest that a data-bearing server
    reports, and there are no sessions exactly when there is no data-bearing server
    or one without session support. *)
Theorem session_timeout_is_smallest m :
  let r := td_session_timeout_minutes (m_td (_mongoc_topology_description_update_session_timeout m)) in
  let ts := data_timeouts (descriptions (m_td m)) in
  (r = -1 ↔ ts = [] ∨ -1 ∈ ts) ∧ (r ≠ -1 → r ∈ ts ∧ Forall (λ t, r ≤ t) ts).
Proof. apply smallest_timeout_spec. Qed.

(** a known server that speaks no common wire version *)
Definition incompatible (sd : sd_t) : Prop :=
  sd_type sd ≠ MONGOC_SERVER_UNKNOWN ∧ sd_type sd ≠ MONGOC_SERVER_POSSIBLE_PRIMARY
  ∧ (8 < sd_min_wire_version sd ∨ sd_max_wire_version sd < 3).
Lemma incompatibility_code sds e :
  e_code (incompatibility sds e) ≠ 0 ↔ e_code e ≠ 0 ∨ ∃ sd, sd ∈ sds ∧ incompatible sd.
Proof.
  revert e. induction sds as [|sd sds IH]; intros e; simpl.
  { split; [by left|intros [?|(? & []%not_elem_of_nil & _)]; done]. }
  assert (Hw : ∀ msg, e_code (wire_error msg) ≠ 0) by done.
  assert (Hskip : ¬ incompatible sd → e_code (incompatibility sds e) ≠ 0 ↔ e_code e ≠ 0 ∨ ∃ x, x ∈ sd :: sds ∧ incompatible x).
  { intros Hn. rewrite IH. setoid_rewrite elem_of_cons. split.
    - intros [?|(x & ? & ?)]; [by left|right; exists x; auto].
    - intros [?|(x & [->|?] & ?)]; [by left|done|right; eauto]. }
  assert (Hbad : ∀ msg, incompatible sd →
    e_code (incompatibility sds (wire_error msg)) ≠ 0 ↔ e_code e ≠ 0 ∨ ∃ x, x ∈ sd :: sds ∧ incompatible x).
  { intros msg Hi. rewrite IH. split; [|by left]. intros _. right. exists sd. split; [by left|done]. }
  unfold WIRE_VERSION_MAX, WIRE_VERSION_MIN. unfold incompatible in Hskip, Hbad.
  repeat case_bool_decide; cbn [orb]; [apply Hskip; tauto..|].
  destruct (Z.gtb_spec (sd_min_wire_version sd) 8); [apply Hbad; auto|].
  destruct (Z.ltb_spec (sd_max_wire_version sd) 3); [apply Hbad; auto|]. apply Hskip. lia.
Qed.

(** The topology carries an error exactly when one of its known servers shares no wire
    version with the driver, and an error from an earlier check does not survive. *)
Theorem compatibility_error_iff m :
  e_code (td_compatibility_error (m_td (_mongoc_topology_description_check_compatible m))) ≠ 0
  ↔ ∃ sd, sd ∈ descriptions (m_td m) ∧ incompatible sd.
Proof.
  etransitivity; [apply incompatibility_code|]. split; [by intros [?|?]|by right].
Qed.
