(* ===== verification/ServerSelection.v ===== *)
(** Server selection (mongoc/mongoc-topology-description.c, and
    mongoc_topology_compatible of mongoc/mongoc-topology.c): which servers suit an
    operation, and the choice of one of them. *)
From S2P Require Import Prelude BsonIter BsonAppend MongocSet HostList MongocTypes ReadPrefs ServerDescription.
From S2P Require Import TopologyDescription.
From Stdlib Require Import ZArith Lia List.
From stdpp Require Import prelude strings.
#[local] Open Scope Z_scope.
#[local] Open Scope mongo_scope.

#[local] Notation sd_t := mongoc_server_description_t.
#[local] Notation td_t := mongoc_topology_description_t.

Definition MONGOC_IDLE_WRITE_PERIOD_MS : Z := 10 * 1000.
Definition MONGOC_SMALLEST_MAX_STALENESS_SECONDS : Z := 90.
Definition WIRE_VERSION_MAX_STALENESS : Z := 5.

Inductive mongoc_ss_optype_t := MONGOC_SS_READ | MONGOC_SS_WRITE.
#[export] Instance optype_eq_dec : EqDecision mongoc_ss_optype_t.
Proof. solve_decision. Defined.

Definition _mongoc_topology_description_server_is_candidate (desc_type : mongoc_server_description_type_t)
    (read_mode : mongoc_read_mode_t) (topology_type : mongoc_topology_description_type_t) : bool :=
  match topology_type with
  | MONGOC_TOPOLOGY_SINGLE =>
      match desc_type with MONGOC_SERVER_STANDALONE => true | _ => false end
  | MONGOC_TOPOLOGY_RS_NO_PRIMARY | MONGOC_TOPOLOGY_RS_WITH_PRIMARY =>
      match read_mode with
      | MONGOC_READ_PRIMARY => match desc_type with MONGOC_SERVER_RS_PRIMARY => true | _ => false end
      | MONGOC_READ_SECONDARY => match desc_type with MONGOC_SERVER_RS_SECONDARY => true | _ => false end
      | _ => match desc_type with
             | MONGOC_SERVER_RS_PRIMARY | MONGOC_SERVER_RS_SECONDARY => true
             | _ => false
             end
      end
  | MONGOC_TOPOLOGY_SHARDED => match desc_type with MONGOC_SERVER_MONGOS => true | _ => false end
  | MONGOC_TOPOLOGY_UNKNOWN => false
  end.

(** the fields of mongoc_suitable_data_t that the callbacks write *)
Record mongoc_suitable_data_t := Suitable {
  ss_primary : option sd_t;
  ss_candidates : list sd_t;
  ss_has_secondary : bool
}.
Definition add_candidate (server : sd_t) (data : mongoc_suitable_data_t) : mongoc_suitable_data_t :=
  Suitable (ss_primary data) (ss_candidates data ++ [server]) (ss_has_secondary data).

Definition _mongoc_replica_set_read_suitable_cb (read_mode : mongoc_read_mode_t)
    (topology_type : mongoc_topology_description_type_t) (server : sd_t) (data : mongoc_suitable_data_t)
    : res (bool * mongoc_suitable_data_t) :=
  let is_primary := bool_decide (sd_type server = MONGOC_SERVER_RS_PRIMARY) in
  let is_secondary := bool_decide (sd_type server = MONGOC_SERVER_RS_SECONDARY) in
  let data := if is_primary then Suitable (Some server) (ss_candidates data) (ss_has_secondary data)
              else data in
  if _mongoc_topology_description_server_is_candidate (sd_type server) read_mode topology_type then
    if is_primary && (bool_decide (read_mode = MONGOC_READ_PRIMARY)
                      || bool_decide (read_mode = MONGOC_READ_PRIMARY_PREFERRED))
    then Ret (false, data)
    else
      let data := if is_secondary then Suitable (ss_primary data) (ss_candidates data) true else data in
      Ret (true, add_candidate server data)
  else Ret (true, data).

Definition _mongoc_find_suitable_mongos_cb (read_mode : mongoc_read_mode_t)
    (topology_type : mongoc_topology_description_type_t) (server : sd_t) (data : mongoc_suitable_data_t)
    : res (bool * mongoc_suitable_data_t) :=
  Ret (true, if _mongoc_topology_description_server_is_candidate (sd_type server) read_mode topology_type
             then add_candidate server data else data).

Definition mongoc_topology_description_lowest_max_wire_version (td : td_t) : Z :=
  foldl (λ ret sd, if negb (bool_decide (sd_type sd = MONGOC_SERVER_UNKNOWN)) && (sd_max_wire_version sd <? ret)
                   then sd_max_wire_version sd else ret) INT32_MAX (descriptions td).

Definition mongoc_topology_description_all_sds_have_write_date (td : td_t) : bool :=
  forallb (λ sd, negb ((sd_last_write_date_ms sd <=? 0)
                       && (bool_decide (sd_type sd = MONGOC_SERVER_RS_PRIMARY)
                           || bool_decide (sd_type sd = MONGOC_SERVER_RS_SECONDARY)))) (descriptions td).

(** [None]: valid; the texts are those of the two format strings *)
Definition _mongoc_topology_description_validate_max_staleness (td : td_t) (max_staleness_seconds : Z)
    : res (option bson_error_t) :=
  let invalid text := Ret (Some (bson_set_error MONGOC_ERROR_COMMAND MONGOC_ERROR_COMMAND_INVALID_ARG text)) in
  match td_type td with
  | MONGOC_TOPOLOGY_RS_WITH_PRIMARY | MONGOC_TOPOLOGY_RS_NO_PRIMARY =>
      let* ms := chk64 (max_staleness_seconds * 1000) in
      let* least := chk64 (td_heartbeat_msec td + MONGOC_IDLE_WRITE_PERIOD_MS) in
      if ms <? least then
        invalid (cs "maxStalenessSeconds is set to " ++ print_int max_staleness_seconds
                 ++ cs ", it must be at least heartbeatFrequencyMS (" ++ print_int (td_heartbeat_msec td)
                 ++ cs ") + server's idle write period (10 seconds)")
      else if max_staleness_seconds <? MONGOC_SMALLEST_MAX_STALENESS_SECONDS then
        invalid (cs "maxStalenessSeconds is set to " ++ print_int max_staleness_seconds
                 ++ cs ", it must be at least 90 seconds")
      else Ret None
  | _ => Ret None
  end.

Definition mongoc_topology_description_has_data_node (td : td_t) : bool := existsb _is_data_node (descriptions td).

(** ** The latency window *)

(** the loop that finds the lowest round trip time; -1 stands for none yet *)
Fixpoint nearest_of (candidates : list (option sd_t)) (nearest : Z) : Z :=
  match candidates with
  | [] => nearest
  | Some c :: cs =>
      nearest_of cs (if (nearest =? -1) || (nearest >? sd_round_trip_time_msec c)
                     then sd_round_trip_time_msec c else nearest)
  | None :: cs => nearest_of cs nearest
  end.
(** [local_threshold_ms] is a size_t, so the comparison is made on unsigned integers *)
Fixpoint within_window (candidates : list (option sd_t)) (nearest local_threshold_ms : Z) : list sd_t :=
  match candidates with
  | [] => []
  | Some c :: cs =>
      if u64 (sd_round_trip_time_msec c) <=? u64 (nearest + local_threshold_ms)
      then c :: within_window cs nearest local_threshold_ms
      else within_window cs nearest local_threshold_ms
  | None :: cs => within_window cs nearest local_threshold_ms
  end.
Definition select_window (candidates : list (option sd_t)) (local_threshold_ms : Z) : list sd_t :=
  within_window candidates (nearest_of candidates (-1)) local_threshold_ms.

(** candidates that are not secondaries become NULL *)
Definition reject_others (candidates : list (option sd_t)) : list (option sd_t) :=
  map (λ c, match c with
            | Some sd => if bool_decide (sd_type sd = MONGOC_SERVER_RS_SECONDARY) then Some sd else None
            | None => None
            end) candidates.

Section Selection.
(** the content of fresh memory, for the copy of the read preference *)
Variable fresh : Z → Z.

(** The function calls itself once, for mode secondaryPreferred; [depth] bounds the
    nesting.  The result is what it appends to the array. *)
Fixpoint suitable_servers_nested (depth : nat) (optype : mongoc_ss_optype_t) (topology : td_t)
    (read_pref : option mongoc_read_prefs_t) (local_threshold_ms : Z) : res (list sd_t) :=
  match depth with
  | O => Stuck OutOfFuel
  | S depth' =>
      let read_mode := mongoc_read_prefs_get_mode read_pref in
      let type := td_type topology in
      let data := Suitable None [] false in
      let window candidates := Ret (select_window candidates local_threshold_ms) in
      match type with
      | MONGOC_TOPOLOGY_SINGLE =>
          let* server := mongoc_set_get_item (td_servers topology) 0 in
          Ret (if _mongoc_topology_description_server_is_candidate (sd_type server) read_mode type
               then [server] else [])
      | MONGOC_TOPOLOGY_RS_NO_PRIMARY | MONGOC_TOPOLOGY_RS_WITH_PRIMARY =>
          match optype with
          | MONGOC_SS_READ =>
              let* data := mongoc_set_for_each (td_servers topology)
                             (_mongoc_replica_set_read_suitable_cb read_mode type) data in
              let primary := match ss_primary data with Some p => [p] | None => [] end in
              let filtered (candidates : list (option sd_t)) :=
                let* stale := mongoc_server_description_filter_stale candidates (ss_primary data)
                                (td_heartbeat_msec topology) read_pref in
                let* tagged := mongoc_server_description_filter_tags stale read_pref in
                window tagged in
              match read_mode with
              | MONGOC_READ_PRIMARY => Ret primary
              | MONGOC_READ_PRIMARY_PREFERRED =>
                  match primary with
                  | _ :: _ => Ret primary
                  | [] => filtered (map Some (ss_candidates data))
                  end
              | MONGOC_READ_SECONDARY_PREFERRED =>
                  (* _mongoc_try_mode_secondary *)
                  let* copy := mongoc_read_prefs_copy fresh read_pref in
                  let* copy := deref copy in
                  let secondary := mongoc_read_prefs_set_mode copy MONGOC_READ_SECONDARY in
                  let* set := suitable_servers_nested depth' MONGOC_SS_READ topology (Some secondary)
                                local_threshold_ms in
                  Ret (match set with [] => primary | _ => set end)
              | MONGOC_READ_SECONDARY => filtered (reject_others (map Some (ss_candidates data)))
              | MONGOC_READ_NEAREST => filtered (map Some (ss_candidates data))
              end
          | MONGOC_SS_WRITE =>
              match type with
              | MONGOC_TOPOLOGY_RS_WITH_PRIMARY =>
                  let* primary := mongoc_set_for_each (td_servers topology)
                                    _mongoc_topology_description_has_primary_cb None in
                  match primary with
                  | Some p => Ret [p]
                  | None => window []
                  end
              | _ => window []
              end
          end
      | MONGOC_TOPOLOGY_SHARDED =>
          let* data := mongoc_set_for_each (td_servers topology)
                         (_mongoc_find_suitable_mongos_cb read_mode type) data in
          window (map Some (ss_candidates data))
      | MONGOC_TOPOLOGY_UNKNOWN => window []
      end
  end.
Definition mongoc_topology_description_suitable_servers := suitable_servers_nested 2.

(** [rand_r] of the C library: the number, and the new seed *)
Variable rand_r : Z → Z * Z.
Definition _mongoc_rand_simple (seed : Z) : Z * Z := rand_r seed.

(** the server, and the random state *)
Definition mongoc_topology_description_select (topology : td_t) (optype : mongoc_ss_optype_t)
    (read_pref : option mongoc_read_prefs_t) (local_threshold_ms : Z) : res (option sd_t * Z) :=
  let seed := td_rand_seed topology in
  match td_type topology with
  | MONGOC_TOPOLOGY_SINGLE =>
      let* sd := mongoc_set_get_item (td_servers topology) 0 in
      Ret (if sd_has_is_master sd then Some sd else None, seed)
  | _ =>
      let* set := mongoc_topology_description_suitable_servers optype topology read_pref
                    (u64 local_threshold_ms) in
      match set with
      | [] => Ret (None, seed)
      | _ =>
          let '(rand_n, seed) := _mongoc_rand_simple seed in
          Ret (set !! Z.to_nat (u64 rand_n mod Z.of_nat (length set)), seed)
      end
  end.

(** [None]: compatible *)
Definition mongoc_topology_compatible (td : td_t) (read_prefs : option mongoc_read_prefs_t)
    : res (option bson_error_t) :=
  let bad text := Ret (Some (bson_set_error MONGOC_ERROR_COMMAND MONGOC_ERROR_PROTOCOL_BAD_WIRE_VERSION text)) in
  if negb (e_code (td_compatibility_error td) =? 0) then Ret (Some (td_compatibility_error td))
  else
    match read_prefs with
    | None => Ret None
    | Some rp =>
        let max_staleness_seconds := mongoc_read_prefs_get_max_staleness_seconds rp in
        if max_staleness_seconds =? MONGOC_NO_MAX_STALENESS then Ret None
        else if mongoc_topology_description_lowest_max_wire_version td <? WIRE_VERSION_MAX_STALENESS then
          bad (cs "Not all servers support maxStalenessSeconds")
        else if negb (mongoc_topology_description_all_sds_have_write_date td) then
          bad (cs "Not all servers have lastWriteDate")
        else _mongoc_topology_description_validate_max_staleness td max_staleness_seconds
    end.

Definition mongoc_topology_description_has_readable_server (td : td_t) (prefs : option mongoc_read_prefs_t)
    : res bool :=
  let* error := mongoc_topology_compatible td None in
  match error with
  | Some _ => Ret false
  | None =>
      let* r := mongoc_topology_description_select td MONGOC_SS_READ prefs 0 in
      Ret (bool_decide (is_Some r.1))
  end.
Definition mongoc_topology_description_has_writable_server (td : td_t) : res bool :=
  let* error := mongoc_topology_compatible td None in
  match error with
  | Some _ => Ret false
  | None =>
      let* r := mongoc_topology_description_select td MONGOC_SS_WRITE None 0 in
      Ret (bool_decide (is_Some r.1))
  end.
End Selection.

Definition mongoc_topology_description_type (td : td_t) : list Z :=
  match td_type td with
  | MONGOC_TOPOLOGY_UNKNOWN => cs "Unknown"
  | MONGOC_TOPOLOGY_SHARDED => cs "Sharded"
  | MONGOC_TOPOLOGY_RS_NO_PRIMARY => cs "ReplicaSetNoPrimary"
  | MONGOC_TOPOLOGY_RS_WITH_PRIMARY => cs "ReplicaSetWithPrimary"
  | MONGOC_TOPOLOGY_SINGLE => cs "Single"
  end.

(** copies of the known servers *)
Fixpoint known_copies (now : Z) (sds : list sd_t) : res (list sd_t) :=
  match sds with
  | [] => Ret []
  | sd :: sds' =>
      if bool_decide (sd_type sd = MONGOC_SERVER_UNKNOWN) then known_copies now sds'
      else
        let* c := mongoc_server_description_new_copy now (Some sd) in
        let* c := deref c in
        let* r := known_copies now sds' in Ret (c :: r)
  end.
Definition mongoc_topology_description_get_servers (now : Z) (td : td_t) : res (list sd_t) :=
  known_copies now (descriptions td).
