(* ===== verification/SelectionProps.v ===== *)
(** Server selection does what the Server Selection specification says: the
    eligible servers of each read mode, the latency window, and the types of the
    servers it can return. *)
From Stdlib Require Import ZArith Lia List.
From stdpp Require Import prelude gmap strings.
From S2P Require Import Prelude BsonIter BsonIterSafe BsonFields BsonAppend BsonBuild BsonCopy MongocSet HostList.
From S2P Require Import MongocTypes ReadPrefs ServerDescription TopologyDescription TopologySafe ServerSelection.
From S2P Require Import TopologySteps Topology TopologyProps.
#[local] Open Scope Z_scope.
#[local] Open Scope mongo_scope.

#[local] Notation sd_t := mongoc_server_description_t.
#[local] Notation td_t := mongoc_topology_description_t.

(** ** The latency window *)
Definition rtt_ok (sd : sd_t) : Prop := 0 ≤ sd_round_trip_time_msec sd < 2 ^ 62.
Definition candidates_of (cs : list (option sd_t)) : list sd_t := omap id cs.
(** at most [threshold] slower than every candidate *)
Definition in_window (threshold : Z) (cs : list sd_t) (sd : sd_t) : Prop :=
  Forall (λ c, sd_round_trip_time_msec sd ≤ sd_round_trip_time_msec c + threshold) cs.
#[export] Instance in_window_dec t cs sd : Decision (in_window t cs sd).
Proof. unfold in_window. apply _. Defined.

Lemma nearest_acc cs n :
  Forall rtt_ok (candidates_of cs) → 0 ≤ n →
  let r := nearest_of cs n in
  0 ≤ r ≤ n ∧ Forall (λ c, r ≤ sd_round_trip_time_msec c) (candidates_of cs)
  ∧ (r = n ∨ ∃ c, c ∈ candidates_of cs ∧ r = sd_round_trip_time_msec c).
Proof.
  revert n. induction cs as [|[c|] cs IH]; intros n Hok Hn; simpl in *; [|apply Forall_cons in Hok as [Hc Hok]|by apply IH].
  - split; [lia|]. split; [constructor|by left].
  - unfold rtt_ok in Hc. destruct (Z.eqb_spec n (-1)); [lia|]. cbn [orb].
    set (n' := if _ >? _ then _ else _).
    assert (Hn' : n' = Z.min n (sd_round_trip_time_msec c)) by (unfold n'; rewrite Z.gtb_ltb; case_match; lia).
    destruct (IH n' Hok ltac:(lia)) as (H1 & H2 & H3). split; [lia|]. split; [constructor; [lia|done]|].
    destruct H3 as [->|(x & Hx & ->)]; [|right; exists x; split; [by right|done]].
    destruct (decide (n ≤ sd_round_trip_time_msec c)); [left; lia|right; exists c; split; [by left|lia]].
Qed.
Lemma nearest_least cs c0 :
  Forall rtt_ok (candidates_of cs) → c0 ∈ candidates_of cs →
  let r := nearest_of cs (-1) in
  Forall (λ c, r ≤ sd_round_trip_time_msec c) (candidates_of cs)
  ∧ ∃ c, c ∈ candidates_of cs ∧ r = sd_round_trip_time_msec c.
Proof.
  induction cs as [|[c|] cs IH]; intros Hok Hin; simpl in *; [by apply not_elem_of_nil in Hin| |by apply IH].
  apply Forall_cons in Hok as [Hc Hok]. unfold rtt_ok in Hc.
  destruct (nearest_acc cs (sd_round_trip_time_msec c) Hok ltac:(lia)) as (H1 & H2 & H3).
  split; [constructor; [lia|done]|]. destruct H3 as [->|(x & Hx & ->)]; [exists c; split; [by left|done]|].
  exists x. split; [by right|done].
Qed.

Lemma within_window_filter cs near threshold :
  Forall rtt_ok (candidates_of cs) → 0 ≤ near < 2 ^ 62 → 0 ≤ threshold < 2 ^ 62 →
  within_window cs near threshold
  = filter (λ sd, sd_round_trip_time_msec sd ≤ near + threshold) (candidates_of cs).
Proof.
  intros Hok Hnear Ht. induction cs as [|[c|] cs IH]; simpl in *; [done| |by apply IH].
  apply Forall_cons in Hok as [Hc Hok]. unfold rtt_ok in Hc. rewrite filter_cons, IH by done.
  rewrite !u64_small by lia.
  destruct (Z.leb_spec (sd_round_trip_time_msec c) (near + threshold)); case_decide; try lia; done.
Qed.

Lemma window_filter cs threshold :
  Forall rtt_ok (candidates_of cs) → 0 ≤ threshold < 2 ^ 62 →
  select_window cs threshold = filter (in_window threshold (candidates_of cs)) (candidates_of cs).
Proof.
  intros Hok Ht. unfold select_window. destruct (candidates_of cs) as [|c0 r] eqn:E.
  { assert (Hnone : ∀ n, within_window cs n threshold = []); [|by rewrite Hnone].
    clear -E. induction cs as [|[c|] cs IH]; intros n; simpl in *; [done|done|by apply IH]. }
  rewrite <- E in *. destruct (nearest_least cs c0 Hok ltac:(rewrite E; left)) as (Hle & c & Hc & Hr).
  pose proof (proj1 (Forall_forall _ _) Hok c Hc) as Hcr. unfold rtt_ok in Hcr.
  rewrite within_window_filter by (done || lia). apply list_filter_iff. intros sd. unfold in_window.
  rewrite Forall_forall in Hle |- *. rewrite Hr in *. split.
  - intros H x Hx. specialize (Hle x Hx). lia.
  - intros H. by apply H.
Qed.

(** ** The servers that a read mode admits *)
Definition of_type (t : mongoc_server_description_type_t) (td : td_t) : list sd_t :=
  filter (λ sd, sd_type sd = t) (descriptions td).
Definition primaries := of_type MONGOC_SERVER_RS_PRIMARY.
Definition secondaries := of_type MONGOC_SERVER_RS_SECONDARY.
Definition data_bearing (td : td_t) : list sd_t :=
  filter (λ sd, sd_type sd = MONGOC_SERVER_RS_PRIMARY ∨ sd_type sd = MONGOC_SERVER_RS_SECONDARY) (descriptions td).

Definition rs_topology (td : td_t) : Prop :=
  td_type td = MONGOC_TOPOLOGY_RS_NO_PRIMARY ∨ td_type td = MONGOC_TOPOLOGY_RS_WITH_PRIMARY.
Definition candidate (mode : mongoc_read_mode_t) (sd : sd_t) : Prop :=
  match mode with
  | MONGOC_READ_PRIMARY => sd_type sd = MONGOC_SERVER_RS_PRIMARY
  | MONGOC_READ_SECONDARY => sd_type sd = MONGOC_SERVER_RS_SECONDARY
  | _ => sd_type sd = MONGOC_SERVER_RS_PRIMARY ∨ sd_type sd = MONGOC_SERVER_RS_SECONDARY
  end.
#[export] Instance candidate_dec mode sd : Decision (candidate mode sd).
Proof. unfold candidate. destruct mode; apply _. Defined.
Lemma is_candidate_spec td mode sd :
  rs_topology td →
  _mongoc_topology_description_server_is_candidate (sd_type sd) mode (td_type td) = bool_decide (candidate mode sd).
Proof.
  intros [-> | ->]; unfold candidate; destruct mode; cbn; case_bool_decide as H;
    destruct (sd_type sd); try done; try (destruct H; done); exfalso; apply H; auto.
Qed.
(** the modes whose loop stops at a primary *)
Definition stops (mode : mongoc_read_mode_t) : Prop :=
  mode = MONGOC_READ_PRIMARY ∨ mode = MONGOC_READ_PRIMARY_PREFERRED.
#[export] Instance stops_dec mode : Decision (stops mode).
Proof. unfold stops. apply _. Defined.

Definition prims (l : list sd_t) : list sd_t := filter (λ sd, sd_type sd = MONGOC_SERVER_RS_PRIMARY) l.
Lemma prims_app l sd :
  prims (l ++ [sd]) = prims l ++ if decide (sd_type sd = MONGOC_SERVER_RS_PRIMARY) then [sd] else [].
Proof. unfold prims. rewrite filter_app, filter_cons, filter_nil. by case_decide. Qed.

Lemma read_loop_spec td mode :
  rs_topology td → (length (primaries td) ≤ 1)%nat →
  returns (mongoc_set_for_each (td_servers td) (_mongoc_replica_set_read_suitable_cb mode (td_type td))
             (Suitable None [] false))
    (λ d, ss_primary d = head (primaries td)
       ∧ (¬ stops mode ∨ primaries td = [] → ss_candidates d = filter (candidate mode) (descriptions td))).
Proof.
  intros Hrs Hone.
  apply (for_each_rule (λ _, False) _ _ (λ pre d, ss_primary d = head (prims pre)
    ∧ ss_candidates d = filter (candidate mode) pre)); [done| |].
  2: { intros d [H1 H2]. split; [done|by intros _]. }
  intros pre sd post d Hs [H1 H2]. unfold _mongoc_replica_set_read_suitable_cb.
  rewrite (is_candidate_spec td) by done. change (map snd (set_items (td_servers td))) with (descriptions td) in Hs.
  assert (Hone' : sd_type sd = MONGOC_SERVER_RS_PRIMARY → prims pre = [] ∧ primaries td = [sd]).
  { intros Hp. unfold primaries, of_type in *. rewrite Hs in *. rewrite filter_app, filter_cons, decide_True in * by done.
    unfold prims. rewrite length_app in Hone.
    destruct (filter _ pre), (filter _ post); cbn [length app] in *; try lia; done. }
  destruct (decide (sd_type sd = MONGOC_SERVER_RS_PRIMARY)) as [Hp|Hp].
  - destruct (Hone' Hp) as [Hpre Hprim]. rewrite (bool_decide_true (sd_type sd = MONGOC_SERVER_RS_PRIMARY)) by done.
    rewrite (bool_decide_false (sd_type sd = MONGOC_SERVER_RS_SECONDARY)) by congruence. cbn [andb].
    destruct (decide (stops mode)) as [Hst|Hst].
    + rewrite bool_decide_true by (unfold candidate; destruct Hst as [-> | ->]; auto).
      assert (bool_decide (mode = MONGOC_READ_PRIMARY) || bool_decide (mode = MONGOC_READ_PRIMARY_PREFERRED) = true) as ->.
      { destruct Hst as [-> | ->]; done. }
      cbn. rewrite Hprim. split; [done|]. intros [?|?]; [done|done].
    + assert (bool_decide (mode = MONGOC_READ_PRIMARY) || bool_decide (mode = MONGOC_READ_PRIMARY_PREFERRED) = false) as ->.
      { apply orb_false_iff. rewrite !bool_decide_eq_false. split; intros ->; apply Hst; [by left|by right]. }
      rewrite prims_app, Hpre, decide_True by done.
      rewrite filter_app, filter_cons, filter_nil. case_bool_decide as Hc; cbn; rewrite H2;
        (split; [done|]); [by rewrite decide_True|by rewrite decide_False, app_nil_r].
  - rewrite (bool_decide_false (sd_type sd = MONGOC_SERVER_RS_PRIMARY)) by done. cbn [andb].
    rewrite prims_app, decide_False, app_nil_r by done. rewrite filter_app, filter_cons, filter_nil.
    case_bool_decide as Hc; cbn [outcome fst snd].
    + rewrite decide_True by done. case_bool_decide; cbn; by rewrite H2.
    + by rewrite decide_False, app_nil_r.
Qed.

Lemma reject_others_id l :
  Forall (λ sd, sd_type sd = MONGOC_SERVER_RS_SECONDARY) l → reject_others (map Some l) = map Some l.
Proof. induction 1 as [|sd l Hsd _ IH]; [done|]. simpl. rewrite bool_decide_true by done. f_equal. exact IH. Qed.

(** the candidates that survive the staleness and tag filters and the window *)
Definition eligible (td : td_t) (rp : option mongoc_read_prefs_t) (threshold : Z) (cands : list sd_t)
    : res (list sd_t) :=
  let* stale := mongoc_server_description_filter_stale (map Some cands) (head (primaries td))
                  (td_heartbeat_msec td) rp in
  let* tagged := mongoc_server_description_filter_tags stale rp in
  Ret (select_window tagged threshold).

(** the filters read only the staleness bound and the bytes of the tags *)
Lemma eligible_ext td a b threshold cands :
  rp_max_staleness_seconds a = rp_max_staleness_seconds b →
  mongoc_read_prefs_get_tags a = mongoc_read_prefs_get_tags b →
  eligible td (Some a) threshold cands = eligible td (Some b) threshold cands.
Proof.
  intros Hs Ht. unfold eligible, mongoc_server_description_filter_stale, mongoc_server_description_filter_tags,
    mongoc_read_prefs_get_max_staleness_seconds. rewrite Hs.
  destruct (if _ =? _ then _ else _) as [st|]; cbn [bind]; [|done]. by rewrite Ht.
Qed.

(** the tags document is in order *)
Definition prefs_ok (rp : option mongoc_read_prefs_t) : Prop :=
  ∀ r, rp = Some r → ∃ body, builds (rp_tags r) body [] ∧ 5 + blen body ≤ 2 ^ 30.

Lemma suitable_secondary fresh depth td rp threshold :
  rs_topology td → (length (primaries td) ≤ 1)%nat → mongoc_read_prefs_get_mode rp = MONGOC_READ_SECONDARY →
  suitable_servers_nested fresh (S depth) MONGOC_SS_READ td rp threshold
  = eligible td rp threshold (secondaries td).
Proof.
  intros Hrs Hone Hmode. cbn [suitable_servers_nested]. rewrite Hmode.
  pose proof (read_loop_spec td MONGOC_READ_SECONDARY Hrs Hone) as Hl.
  apply returns_Ret in Hl as (d & Hd & Hp & Hc).
  assert (Hns : ¬ stops MONGOC_READ_SECONDARY) by (by intros [?|?]). specialize (Hc (or_introl Hns)).
  assert (Hsec : ss_candidates d = secondaries td) by exact Hc.
  destruct Hrs as [Ht|Ht]; rewrite Ht in *; rewrite Hd; cbn [bind]; rewrite Hsec, Hp;
    (rewrite reject_others_id; [done|]); apply Forall_forall; intros sd [? _]%list_elem_of_filter; done.
Qed.

(** ** The read modes *)
Lemma copy_prefs_returns fresh r :
  prefs_ok (Some r) →
  returns (mongoc_read_prefs_copy fresh (Some r)) (λ c, ∃ r', c = Some r'
    ∧ rp_max_staleness_seconds r' = rp_max_staleness_seconds r
    ∧ mongoc_read_prefs_get_tags r' = mongoc_read_prefs_get_tags r).
Proof.
  intros H. destruct (H r eq_refl) as (body & Hb & Hmax). unfold mongoc_read_prefs_copy.
  eapply returns_bind; [by apply copy_to_builds|]. intros t Ht. eexists. split; [done|]. split; [done|].
  unfold mongoc_read_prefs_get_tags. cbn [rp_tags]. by rewrite (get_data_builds _ _ _ Ht), (get_data_builds _ _ _ Hb).
Qed.

(** the servers that a read may use, by mode, as the specification gives them *)
Definition spec_read (td : td_t) (rp : option mongoc_read_prefs_t) (threshold : Z) : res (list sd_t) :=
  match mongoc_read_prefs_get_mode rp with
  | MONGOC_READ_PRIMARY => Ret (primaries td)
  | MONGOC_READ_PRIMARY_PREFERRED =>
      match primaries td with [] => eligible td rp threshold (secondaries td) | ps => Ret ps end
  | MONGOC_READ_SECONDARY => eligible td rp threshold (secondaries td)
  | MONGOC_READ_SECONDARY_PREFERRED =>
      let* set := eligible td rp threshold (secondaries td) in
      Ret (match set with [] => primaries td | _ => set end)
  | MONGOC_READ_NEAREST => eligible td rp threshold (data_bearing td)
  end.

Lemma primaries_one td : (length (primaries td) ≤ 1)%nat →
  match head (primaries td) with Some p => [p] | None => [] end = primaries td.
Proof. destruct (primaries td) as [|p [|q r]]; cbn; [done|done|lia]. Qed.
Lemma no_primary_data_bearing td :
  primaries td = [] → filter (candidate MONGOC_READ_PRIMARY_PREFERRED) (descriptions td) = secondaries td.
Proof.
  unfold primaries, secondaries, of_type. intros H. induction (descriptions td) as [|sd l IH]; [done|].
  rewrite filter_cons in H. case_decide as Hp; [done|]. rewrite !filter_cons, IH by done.
  unfold candidate. case_decide as H1; case_decide as H2; try done; tauto.
Qed.

Ltac read_mode M td Hrs Hone Hmode Hp Hc :=
  let d := fresh "d" in let Hd := fresh in let Ht := fresh "Ht" in
  destruct (proj1 (returns_Ret _ _) (read_loop_spec td M Hrs Hone)) as (d & Hd & Hp & Hc);
  cbn [suitable_servers_nested]; rewrite Hmode;
  destruct Hrs as [Ht|Ht]; rewrite Ht in *; rewrite Hd; cbn [bind]; rewrite ?Hp.

Lemma suitable_read fresh td rp threshold :
  rs_topology td → (length (primaries td) ≤ 1)%nat → prefs_ok rp →
  mongoc_topology_description_suitable_servers fresh MONGOC_SS_READ td rp threshold = spec_read td rp threshold.
Proof.
  intros Hrs Hone Hrp. unfold mongoc_topology_description_suitable_servers, spec_read.
  destruct (mongoc_read_prefs_get_mode rp) eqn:Hmode.
  - read_mode MONGOC_READ_PRIMARY td Hrs Hone Hmode Hp Hc.
    1-2: by rewrite primaries_one.
  - by apply suitable_secondary.
  - read_mode MONGOC_READ_PRIMARY_PREFERRED td Hrs Hone Hmode Hp Hc.
    all: unfold eligible; destruct (primaries td) as [|p [|q ps]] eqn:Hps; [|done|cbn in Hone; lia].
    all: cbn [head] in *; by rewrite (Hc (or_intror eq_refl)), no_primary_data_bearing.
  - change 2%nat with (S 1). set (k := 1%nat). read_mode MONGOC_READ_SECONDARY_PREFERRED td Hrs Hone Hmode Hp Hc.
    all: destruct rp as [r|]; [|done].
    all: destruct (proj1 (returns_Ret _ _) (copy_prefs_returns fresh r Hrp)) as (c & -> & r' & -> & Hst & Htags).
    all: cbn [bind deref]; rewrite primaries_one by done.
    all: pose proof (suitable_secondary fresh 0 td (Some (mongoc_read_prefs_set_mode r' MONGOC_READ_SECONDARY)) threshold
           ltac:(unfold rs_topology; rewrite Ht; auto) Hone eq_refl) as Hsec.
    all: unfold k; rewrite Hsec.
    all: by rewrite (eligible_ext td (mongoc_read_prefs_set_mode r' MONGOC_READ_SECONDARY) r).
  - read_mode MONGOC_READ_NEAREST td Hrs Hone Hmode Hp Hc.
    all: rewrite Hc; [done|left; by intros [?|?]].
Qed.

(** ** What can be selected *)
Lemma reject_stale_sub f mx sds r sd :
  reject_stale f mx sds = Ret r → Some sd ∈ r → Some sd ∈ sds.
Proof.
  revert r. induction sds as [|[c|] sds IH]; intros r; simpl.
  - by intros [= <-].
  - destruct (if is_secondary c then _ else _) as [keep|]; cbn [bind]; [|done].
    destruct (reject_stale f mx sds) as [r'|]; cbn [bind]; [|done]. intros [= <-].
    rewrite !elem_of_cons. intros [E|Hin]; [destruct keep; [by left|done]|right; by apply (IH r')].
  - destruct (reject_stale f mx sds) as [r'|]; cbn [bind]; [|done]. intros [= <-].
    rewrite !elem_of_cons. intros [E|Hin]; [done|right; by apply (IH r')].
Qed.
Lemma filter_stale_sub sds primary hb rp r sd :
  mongoc_server_description_filter_stale sds primary hb rp = Ret r → Some sd ∈ r → Some sd ∈ sds.
Proof.
  unfold mongoc_server_description_filter_stale. destruct rp as [rp|]; [|by intros [= <-]].
  destruct (_ =? _); [by intros [= <-]|]. destruct (bson_assert _); cbn [bind]; [|done].
  destruct (chk64 _) as [ms|]; cbn [bind]; [|done]. destruct (chk64 (ms * 1000)) as [mu|]; cbn [bind]; [|done].
  destruct (chk64 (hb * 1000)) as [h|]; cbn [bind]; [|done].
  destruct primary; [apply reject_stale_sub|]. destruct (max_last_write_date 0 sds) as [w|]; cbn [bind]; [|done].
  apply reject_stale_sub.
Qed.
Lemma keep_matched_sub ms sds sd : Some sd ∈ keep_matched ms sds → Some sd ∈ sds.
Proof.
  revert ms. induction sds as [|d sds IH]; intros [|b ms]; simpl; try (by intros ?%not_elem_of_nil).
  rewrite !elem_of_cons. intros [E|Hin]; [destruct b; [by left|done]|right; by eapply IH].
Qed.
Lemma filter_tags_sub sds rp r sd :
  mongoc_server_description_filter_tags sds rp = Ret r → Some sd ∈ r → Some sd ∈ sds.
Proof.
  unfold mongoc_server_description_filter_tags. destruct rp as [rp|]; [|by intros [= <-]].
  destruct (mongoc_read_prefs_get_tags rp) as [tags|]; cbn [bind]; [|done].
  destruct (bson_count_keys tags) as [n|]; cbn [bind]; [|done]. destruct (n =? 0); [by intros [= <-]|].
  destruct (bson_iter_init tags) as [ok it]. destruct (for_each_field _ it _) as [s|]; cbn [bind]; [|done].
  intros [= <-]. apply keep_matched_sub.
Qed.
Lemma within_window_sub cs near threshold sd : sd ∈ within_window cs near threshold → Some sd ∈ cs.
Proof.
  induction cs as [|[c|] cs IH]; simpl; [by intros ?%not_elem_of_nil| |intros Hin; right; auto].
  destruct (_ <=? _); [rewrite !elem_of_cons; intros [->|Hin]; [by left|right; auto]|intros Hin; right; auto].
Qed.
Lemma eligible_sub td rp threshold cands set sd :
  eligible td rp threshold cands = Ret set → sd ∈ set → sd ∈ cands.
Proof.
  unfold eligible. destruct (mongoc_server_description_filter_stale _ _ _ _) as [st|] eqn:Hst; cbn [bind]; [|done].
  destruct (mongoc_server_description_filter_tags _ _) as [tg|] eqn:Htg; cbn [bind]; [|done].
  intros [= <-] Hin%within_window_sub. eapply filter_tags_sub, filter_stale_sub in Hin; [|done|done].
  by apply list_elem_of_fmap in Hin as (x & [= ->] & Hx).
Qed.

(** the descriptions that suit an operation, by the type of the topology *)
Definition suits (td : td_t) (optype : mongoc_ss_optype_t) (mode : mongoc_read_mode_t) (sd : sd_t) : Prop :=
  match td_type td with
  | MONGOC_TOPOLOGY_UNKNOWN => False
  | MONGOC_TOPOLOGY_SINGLE => sd_has_is_master sd = true
  | MONGOC_TOPOLOGY_SHARDED => sd_type sd = MONGOC_SERVER_MONGOS
  | MONGOC_TOPOLOGY_RS_NO_PRIMARY =>
      optype = MONGOC_SS_READ ∧ mode ≠ MONGOC_READ_PRIMARY ∧ sd_type sd = MONGOC_SERVER_RS_SECONDARY
  | MONGOC_TOPOLOGY_RS_WITH_PRIMARY =>
      match optype with
      | MONGOC_SS_WRITE => sd_type sd = MONGOC_SERVER_RS_PRIMARY
      | MONGOC_SS_READ => candidate mode sd
      end
  end.

Lemma spec_read_sub td rp threshold set sd :
  spec_read td rp threshold = Ret set → sd ∈ set →
  sd ∈ descriptions td ∧ candidate (mongoc_read_prefs_get_mode rp) sd.
Proof.
  assert (Hp : ∀ x, x ∈ primaries td → x ∈ descriptions td ∧ sd_type x = MONGOC_SERVER_RS_PRIMARY)
    by (intros x [? ?]%list_elem_of_filter; done).
  assert (Hs : ∀ x, x ∈ secondaries td → x ∈ descriptions td ∧ sd_type x = MONGOC_SERVER_RS_SECONDARY)
    by (intros x [? ?]%list_elem_of_filter; done).
  unfold spec_read, candidate. destruct (mongoc_read_prefs_get_mode rp).
  - intros [= <-] Hin. by apply Hp.
  - intros H Hin. eapply eligible_sub in H; [|done]. by apply Hs.
  - destruct (primaries td) eqn:E.
    + intros H Hin. eapply eligible_sub in H; [|done]. destruct (Hs _ H); auto.
    + intros [= <-] Hin. destruct (Hp _ Hin); auto.
  - destruct (eligible td rp threshold (secondaries td)) as [el|] eqn:E; cbn [bind]; [|done].
    intros [= <-] Hin. destruct el; [destruct (Hp _ Hin); auto|].
    eapply eligible_sub in E; [|done]. destruct (Hs _ E); auto.
  - intros H Hin. eapply eligible_sub in H; [|done]. apply list_elem_of_filter in H as [? ?]. auto.
Qed.

Lemma primaries_unique td : topo_ok td → (length (primaries td) ≤ 1)%nat.
Proof.
  intros Hok. pose proof (ti_base _ _ Hok) as Hb.
  assert (Hnd : NoDup (primaries td)) by (apply NoDup_filter, descriptions_NoDup, Hb).
  assert (Hin : ∀ x, x ∈ primaries td → servers td !! sd_id x = Some x ∧ is_primary x).
  { intros x [Hx Hx']%list_elem_of_filter. split; [by apply described|done]. }
  destruct (primaries td) as [|a [|b r]]; cbn; [lia|lia|exfalso].
  destruct (Hin a ltac:(left)) as [Ha Pa], (Hin b ltac:(right; left)) as [Hb' Pb].
  assert (sd_id a = sd_id b) as E.
  { eapply (ti_primary _ _ Hok); eauto using server_id_pos. }
  assert (a = b) as -> by (rewrite E in Ha; congruence).
  inversion Hnd as [|? ? H1 _]; subst. apply H1. by left.
Qed.

Lemma mongos_loop_spec td mode :
  td_type td = MONGOC_TOPOLOGY_SHARDED →
  returns (mongoc_set_for_each (td_servers td) (_mongoc_find_suitable_mongos_cb mode (td_type td)) (Suitable None [] false))
    (λ d, ss_candidates d = of_type MONGOC_SERVER_MONGOS td).
Proof.
  intros Hty. apply (for_each_rule (λ _, False) _ _
    (λ pre d, ss_candidates d = filter (λ sd, sd_type sd = MONGOC_SERVER_MONGOS) pre)); [done| |done].
  intros pre sd post d Hs Hd. unfold _mongoc_find_suitable_mongos_cb. rewrite Hty. cbn [outcome fst snd].
  rewrite filter_app, filter_cons, filter_nil. destruct (sd_type sd); cbn; rewrite ?Hd, ?app_nil_r; done.
Qed.

Lemma suitable_sound fresh td optype rp threshold set sd :
  topo_ok td → prefs_ok rp → td_type td ≠ MONGOC_TOPOLOGY_SINGLE →
  mongoc_topology_description_suitable_servers fresh optype td rp threshold = Ret set → sd ∈ set →
  sd ∈ descriptions td ∧ suits td optype (mongoc_read_prefs_get_mode rp) sd.
Proof.
  intros Hok Hrp Hns Hset Hin. pose proof (primaries_unique td Hok) as Hone. unfold suits.
  assert (Hread : rs_topology td → optype = MONGOC_SS_READ →
    sd ∈ descriptions td ∧ candidate (mongoc_read_prefs_get_mode rp) sd).
  { intros Hrs ->. rewrite suitable_read in Hset by done. by eapply spec_read_sub. }
  destruct (td_type td) eqn:Hty; [| | | |done].
  - unfold mongoc_topology_description_suitable_servers in Hset. cbn [suitable_servers_nested] in Hset.
    rewrite Hty in Hset. injection Hset as <-. by apply not_elem_of_nil in Hin.
  - unfold mongoc_topology_description_suitable_servers in Hset. cbn [suitable_servers_nested] in Hset.
    pose proof (mongos_loop_spec td (mongoc_read_prefs_get_mode rp) Hty) as Hl. rewrite Hty in Hset, Hl.
    apply returns_Ret in Hl as (d & Hd & Hc). rewrite Hd in Hset. cbn [bind] in Hset. injection Hset as <-.
    rewrite Hc in Hin. apply within_window_sub, list_elem_of_fmap in Hin as (x & [= <-] & Hx).
    by apply list_elem_of_filter in Hx as [? ?].
  - destruct optype.
    + destruct (Hread ltac:(by left) eq_refl) as [Hd Hc]. split; [done|]. split; [done|].
      apply in_descriptions in Hd as [id Hid]; [|apply Hok].
      pose proof (ti_types _ _ Hok _ _ Hid (server_id_pos _ _ _ (ti_base _ _ Hok) Hid)) as Hal. rewrite Hty in Hal.
      destruct Hal as (_ & _ & Hnp). unfold candidate in Hc.
      destruct (mongoc_read_prefs_get_mode rp); try done; (split; [done|]); tauto.
    + unfold mongoc_topology_description_suitable_servers in Hset. cbn [suitable_servers_nested] in Hset.
      rewrite Hty in Hset. injection Hset as <-. by apply not_elem_of_nil in Hin.
  - destruct optype; [apply Hread; [by right|done]|].
    unfold mongoc_topology_description_suitable_servers in Hset. cbn [suitable_servers_nested] in Hset.
    rewrite Hty in Hset. pose proof (has_primary_spec (Mon td []) (ti_base _ _ Hok)) as Hp.
    unfold _mongoc_topology_description_has_primary in Hp. cbn in Hp.
    apply returns_Ret in Hp as (p & Hp & Hspec). unfold m_servers in Hp. cbn [m_td] in Hp. rewrite Hp in Hset.
    cbn [bind] in Hset. destruct p as [p|]; injection Hset as <-; [|by apply not_elem_of_nil in Hin].
    apply list_elem_of_singleton in Hin as ->. destruct Hspec as (id & Hid & Hpl). split.
    + apply in_descriptions; [apply Hok|by exists id].
    + pose proof (ti_types _ _ Hok _ _ Hid (server_id_pos _ _ _ (ti_base _ _ Hok) Hid)) as Hal. rewrite Hty in Hal.
      destruct Hpl as [?|?]; [done|]. by destruct Hal as [? _].
Qed.

Lemma get_item_in td i x : mongoc_set_get_item (td_servers td) i = Ret x → x ∈ descriptions td.
Proof.
  unfold mongoc_set_get_item, mongoc_set_get_item_and_id, descriptions.
  destruct (bson_assert _); cbn [bind]; [|done].
  destruct (set_items (td_servers td) !! Z.to_nat i) as [[k y]|] eqn:E; cbn [bind]; [|done]. intros [= <-].
  apply list_elem_of_lookup_2 in E. by apply (list_elem_of_fmap_2 snd) in E.
Qed.
(** the choice at random *)
Lemma chosen_from {X} (rand_r : Z → Z * Z) seed0 seed (set : list X) r :
  match set with
  | [] => Ret (None, seed0)
  | _ :: _ => let '(rand_n, s) := _mongoc_rand_simple rand_r seed0 in
         Ret (set !! Z.to_nat (u64 rand_n mod Z.of_nat (length set)), s)
  end = Ret (r, seed) →
  (∀ x, r = Some x → x ∈ set) ∧ (r = None → set = []).
Proof.
  destruct set as [|y l]; [intros [= <- _]; done|].
  unfold _mongoc_rand_simple. destruct (rand_r seed0) as [n s].
  assert (Hl : 0 < Z.of_nat (length (y :: l))) by (simpl; lia). revert Hl. generalize (y :: l). clear y l.
  intros xs Hl [= Hr _]. split.
  - intros x ->. by eapply list_elem_of_lookup_2.
  - intros ->. apply lookup_ge_None in Hr. pose proof (Z.mod_pos_bound (u64 n) (Z.of_nat (length xs)) Hl). lia.
Qed.
Lemma suitable_write fresh td rp threshold :
  topo_ok td → rs_topology td →
  mongoc_topology_description_suitable_servers fresh MONGOC_SS_WRITE td rp threshold = Ret (primaries td).
Proof.
  intros Hok Hrs. pose proof (primaries_unique td Hok) as Hone. pose proof (ti_base _ _ Hok) as Hb.
  assert (Hin : ∀ sd, sd ∈ primaries td → ∃ id, servers td !! id = Some sd ∧ is_primary sd).
  { intros sd [Hp Hd]%list_elem_of_filter. apply in_descriptions in Hd as [id ?]; [|done]. by exists id. }
  assert (Hof : ∀ id sd, servers td !! id = Some sd → is_primary sd → sd ∈ primaries td).
  { intros id sd Hid Hp. apply list_elem_of_filter. split; [done|]. apply in_descriptions; [done|by exists id]. }
  unfold mongoc_topology_description_suitable_servers. cbn [suitable_servers_nested].
  destruct Hrs as [E|E]; rewrite E.
  - destruct (primaries td) as [|p l]; [done|]. destruct (Hin p ltac:(left)) as (id & Hid & Hp).
    pose proof (ti_types _ _ Hok _ _ Hid (server_id_pos _ _ _ Hb Hid)) as Hal. rewrite E in Hal. by destruct Hal as (_ & _ & []).
  - pose proof (has_primary_spec (Mon td []) Hb) as Hp. unfold _mongoc_topology_description_has_primary in Hp.
    apply returns_Ret in Hp as (p & Hp & Hspec). unfold m_servers in Hp. cbn [m_td] in Hp, Hspec. rewrite Hp. cbn [bind].
    destruct p as [p|].
    + destruct Hspec as (id & Hid & Ht).
      assert (Hpp : is_primary p).
      { destruct Ht as [?|Hst]; [done|]. pose proof (ti_types _ _ Hok _ _ Hid (server_id_pos _ _ _ Hb Hid)) as Hal.
        rewrite E, Hst in Hal. by destruct Hal. }
      pose proof (Hof _ _ Hid Hpp) as Hel. destruct (primaries td) as [|q [|]]; [by apply not_elem_of_nil in Hel| |cbn in Hone; lia].
      by apply list_elem_of_singleton in Hel as ->.
    + destruct (primaries td) as [|q l]; [done|]. destruct (Hin q ltac:(left)) as (id & Hid & Hq).
      destruct (Hspec _ _ Hid). by left.
Qed.

(** ** Selection *)

(** C22. On a replica set the servers suitable for a read are those of the read mode: the
    primary alone; the primary if there is one and otherwise the eligible
    secondaries; the eligible secondaries; these if there are any and otherwise the
    primary; the eligible data-bearing servers. *)
Theorem suitable_read_correct fresh td rp threshold
    (Hok : topo_ok td) (Hrs : rs_topology td) (Hrp : prefs_ok rp) :
  mongoc_topology_description_suitable_servers fresh MONGOC_SS_READ td rp threshold = spec_read td rp threshold.
Proof. apply suitable_read; [done|by apply primaries_unique|done]. Qed.
Lemma suitable_read_correct_witness :
  map sd_id (ret_or [] (spec_read (m_td with_primary) None 15)) = [1]
  ∧ mongoc_topology_description_suitable_servers (λ _, 0) MONGOC_SS_READ (m_td with_primary) None 15
    = spec_read (m_td with_primary) None 15.
Proof.
  split; [vm_compute; reflexivity|]. apply (suitable_read_correct (λ _, 0) (m_td with_primary) None 15).
  - apply reachable_ok, with_primary_reachable.
  - right. vm_compute. reflexivity.
  - intros r H. discriminate H.
Defined.

(** The latency window holds the candidates whose round trip time exceeds that of no
    candidate by more than the threshold, in order. *)
Theorem select_window_correct cs threshold
    (Hok : Forall rtt_ok (candidates_of cs)) (Ht : 0 ≤ threshold < 2 ^ 62) :
  select_window cs threshold = filter (in_window threshold (candidates_of cs)) (candidates_of cs).
Proof. by apply window_filter. Qed.
Definition timed (n : Z) : option sd_t := Some (set_rtt n sd_zero).
Lemma select_window_correct_witness :
  map sd_round_trip_time_msec (select_window [timed 30; None; timed 10; timed 25] 15) = [10; 25]
  ∧ select_window [timed 30; None; timed 10; timed 25] 15
    = filter (in_window 15 (candidates_of [timed 30; None; timed 10; timed 25]))
        (candidates_of [timed 30; None; timed 10; timed 25]).
Proof.
  split; [vm_compute; reflexivity|]. apply (select_window_correct [timed 30; None; timed 10; timed 25] 15); [|lia].
  repeat constructor; vm_compute; discriminate.
Defined.

(** C23. What is selected is a server of the topology that suits the operation: a write goes
    to the primary or to a mongos, a read to a server its mode admits, and on a
    direct connection to a server that has answered; nothing is selected only when
    no server is suitable. *)
Theorem select_sound fresh rand_r td optype rp threshold r seed
    (Hok : topo_ok td) (Hrp : prefs_ok rp)
    (Hsel : mongoc_topology_description_select fresh rand_r td optype rp threshold = Ret (r, seed)) :
  (∀ sd, r = Some sd → sd ∈ descriptions td ∧ suits td optype (mongoc_read_prefs_get_mode rp) sd)
  ∧ (r = None → td_type td ≠ MONGOC_TOPOLOGY_SINGLE →
     mongoc_topology_description_suitable_servers fresh optype td rp (u64 threshold) = Ret []).
Proof.
  unfold mongoc_topology_description_select in Hsel.
  destruct (decide (td_type td = MONGOC_TOPOLOGY_SINGLE)) as [E|Hns].
  { rewrite E in Hsel. split; [|done]. intros sd ->. unfold suits. rewrite E.
    destruct (mongoc_set_get_item (td_servers td) 0) as [x|] eqn:Hx; cbn [bind] in Hsel; [|done].
    injection Hsel as Hsel _. destruct (sd_has_is_master x) eqn:Hm; [|done]. injection Hsel as <-.
    split; [by eapply get_item_in|done]. }
  assert (Hset : ∃ set, mongoc_topology_description_suitable_servers fresh optype td rp (u64 threshold) = Ret set
    ∧ (∀ sd, r = Some sd → sd ∈ set) ∧ (r = None → set = [])).
  { destruct (td_type td); try done;
      (destruct (mongoc_topology_description_suitable_servers _ _ _ _ _) as [set|]; cbn [bind] in Hsel; [|done];
       exists set; split; [done|]; by eapply chosen_from). }
  destruct Hset as (set & Hset & Hin & Hnone). split; [|by intros ->%Hnone].
  intros sd ->. by eapply suitable_sound; eauto.
Qed.
Lemma select_sound_witness :
  mongoc_topology_description_select (λ _, 0) (λ s, (s, s)) (m_td with_primary) MONGOC_SS_WRITE None 15
    = Ret (Some (server_of with_primary 1), 0)
  ∧ (∀ sd, Some (server_of with_primary 1) = Some sd →
       sd ∈ descriptions (m_td with_primary) ∧ suits (m_td with_primary) MONGOC_SS_WRITE MONGOC_READ_PRIMARY sd)
  ∧ (Some (server_of with_primary 1) = None → td_type (m_td with_primary) ≠ MONGOC_TOPOLOGY_SINGLE →
     mongoc_topology_description_suitable_servers (λ _, 0) MONGOC_SS_WRITE (m_td with_primary) None (u64 15) = Ret []).
Proof.
  split; [vm_compute; reflexivity|].
  apply (select_sound (λ _, 0) (λ s, (s, s)) (m_td with_primary) MONGOC_SS_WRITE None 15 _ 0).
  - apply reachable_ok, with_primary_reachable.
  - intros x H. discriminate H.
  - vm_compute. reflexivity.
Defined.

(** C24. A write on a replica set goes to the primary whenever there is one, and to no server
    otherwise: selection always returns, whatever the random number. *)
Theorem select_write_primary fresh rand_r td rp threshold (Hok : topo_ok td) (Hrs : rs_topology td) :
  returns (mongoc_topology_description_select fresh rand_r td MONGOC_SS_WRITE rp threshold)
    (λ r, r.1 = head (primaries td)).
Proof.
  assert (Hset : mongoc_topology_description_suitable_servers fresh MONGOC_SS_WRITE td rp (u64 threshold)
                 = Ret (primaries td)) by (by apply suitable_write).
  pose proof (primaries_unique td Hok) as Hone. unfold mongoc_topology_description_select.
  destruct Hrs as [E|E]; rewrite E, Hset; cbn [bind];
    (destruct (primaries td) as [|p [|q l]]; [done| |cbn in Hone; lia]);
    unfold _mongoc_rand_simple; destruct (rand_r (td_rand_seed td)) as [n s];
    cbn [length]; rewrite Z.mod_1_r; done.
Qed.
Lemma select_write_primary_witness :
  map sd_id (primaries (m_td with_primary)) = [1]
  ∧ returns (mongoc_topology_description_select (λ _, 0) (λ s, (s + 7, s)) (m_td with_primary) MONGOC_SS_WRITE None 15)
    (λ r, r.1 = head (primaries (m_td with_primary))).
Proof.
  split; [vm_compute; reflexivity|]. apply (select_write_primary (λ _, 0) (λ s, (s + 7, s)) (m_td with_primary) None 15).
  - apply reachable_ok, with_primary_reachable.
  - right. vm_compute. reflexivity.
Defined.
