(* ===== verification/ServerSession.v ===== *)
(** Server sessions and their pool (the second part of mongoc-client-session.c and
    the session pool of mongoc/mongoc-topology.c), built with a crypto library.

    The pool is the list of the circular queue, its head first.  The world outside
    (the monotonic clock, the random generator, blocking server selection) is an
    interface, [Env]. *)
From S2P Require Import Prelude BsonIter BsonIterSafe BsonFields BsonAppend BsonBuild BsonValue BsonCopy BsonParse HostList BsonKeys MongocTypes BsonEntries ServerDescription TopologyDescription ServerSelection.
From Stdlib Require Import ZArith Lia List.
From stdpp Require Import prelude strings.
#[local] Open Scope Z_scope.
#[local] Open Scope mongo_scope.

#[local] Notation td_t := mongoc_topology_description_t.

Definition SESSION_NEVER_USED : Z := -1.
Definition BSON_SUBTYPE_UUID : Z := 4.
Definition MONGOC_ERROR_CLIENT_SESSION_FAILURE : Z := 52.
Definition minute_to_usec : Z := 60 * 1000 * 1000.

Record mongoc_server_session_t := ServerSession {
  ss_last_used_usec : Z;
  ss_lsid : bson_t;
  ss_txn_number : Z;
  ss_dirty : bool
}.

(** the outside world; [None] is a failing [_mongoc_rand_bytes] *)
Class Env (W : Type) := {
  env_monotonic_time : W → Z * W;
  env_rand_bytes : nat → W → option (list Z) * W;
  env_select_server_id : td_t → W → bool * option bson_error_t * td_t * W
}.

Section Pool.
Context {W : Type} `{Env W}.
Variable fresh : Z → Z.

(** [data[i] = f (data[i])] *)
Definition update_byte (i : nat) (f : Z → Z) (data : list Z) : list Z := alter f i data.
(** RFC 4122: a random UUID of version 4 *)
Definition _mongoc_server_session_uuid (w : W) : option (list Z) * W :=
  let '(data, w) := env_rand_bytes 16 w in
  match data with
  | None => (None, w)
  | Some data =>
      let data := update_byte 6 (λ b, Z.lor 0x40 (Z.land b 0xf)) data in
      let data := update_byte 8 (λ b, Z.lor 0x80 (Z.land b 0x3f)) data in
      (Some data, w)
  end.
Definition session_failure (message : list Z) : bson_error_t :=
  bson_set_error MONGOC_ERROR_CLIENT MONGOC_ERROR_CLIENT_SESSION_FAILURE message.
Definition _mongoc_server_session_new (w : W) : res ((mongoc_server_session_t + bson_error_t) * W) :=
  let '(uuid, w) := _mongoc_server_session_uuid w in
  match uuid with
  | None => Ret (inr (session_failure (cs "Could not generate UUID for logical session id")), w)
  | Some uuid =>
      let* r := bson_append_binary fresh (bson_init fresh) (c_lit "id") 2 BSON_SUBTYPE_UUID (Some uuid) 16 in
      let* lsid := bson_get_data r.2 in
      Ret (inl (ServerSession SESSION_NEVER_USED lsid 0 false), w)
  end.

Definition _mongoc_server_session_timed_out (ss : mongoc_server_session_t) (session_timeout_minutes : Z) (w : W)
    : res (bool * W) :=
  if session_timeout_minutes =? MONGOC_NO_SESSIONS then Ret (false, w)
  else if ss_last_used_usec ss =? SESSION_NEVER_USED then Ret (false, w)
  else
    let* timeout := chk64 (session_timeout_minutes * minute_to_usec) in
    let* timeout_usec := chk64 (ss_last_used_usec ss + timeout) in
    let '(now, w) := env_monotonic_time w in
    let* remaining := chk64 (timeout_usec - now) in
    Ret (remaining <? 1 * minute_to_usec, w).

(** ** The pool *)
Definition session_pool : Type := list mongoc_server_session_t.

(** the [while] loop: sessions that timed out are destroyed *)
Fixpoint pop_loop (pool : session_pool) (timeout : Z) (w : W)
    : res (option mongoc_server_session_t * session_pool * W) :=
  match pool with
  | [] => Ret (None, [], w)
  | ss :: pool =>
      let* r := _mongoc_server_session_timed_out ss timeout w in
      let '(timed_out, w) := r in
      if timed_out : bool then pop_loop pool timeout w else Ret (Some ss, pool, w)
  end.
(** the session or the error, the description, the pool *)
Definition _mongoc_topology_pop_server_session (td : td_t) (pool : session_pool) (w : W)
    : res ((mongoc_server_session_t + option bson_error_t) * td_t * session_pool * W) :=
  let no_sessions := Some (session_failure (cs "Server does not support sessions")) in
  let take_session timeout td w :=
    let* r := pop_loop pool timeout w in
    let '(ss, pool, w) := r in
    match ss with
    | Some ss => Ret (inl ss, td, pool, w)
    | None =>
        let* n := _mongoc_server_session_new w in
        Ret (match n.1 with inl ss => inl ss | inr e => inr (Some e) end, td, pool, n.2)
    end in
  let timeout := td_session_timeout_minutes td in
  if timeout =? MONGOC_NO_SESSIONS then
    if mongoc_topology_description_has_data_node td then Ret (inr no_sessions, td, pool, w)
    else
      let '(selected, error, td, w) := env_select_server_id td w in
      if negb selected then Ret (inr error, td, pool, w)
      else
        let timeout := td_session_timeout_minutes td in
        if timeout =? MONGOC_NO_SESSIONS then Ret (inr no_sessions, td, pool, w)
        else take_session timeout td w
  else take_session timeout td w.

(** the [while] loop from the back of the queue *)
Fixpoint reap_loop (fuel : nat) (pool : session_pool) (timeout : Z) (w : W) : res (session_pool * W) :=
  match fuel with
  | O => Stuck OutOfFuel
  | S fuel' =>
      match last pool with
      | None => Ret (pool, w)
      | Some ss =>
          let* r := _mongoc_server_session_timed_out ss timeout w in
          let '(timed_out, w) := r in
          if timed_out : bool then reap_loop fuel' (take (length pool - 1) pool) timeout w else Ret (pool, w)
      end
  end.
Definition _mongoc_topology_push_server_session (td : td_t) (pool : session_pool) (server_session : mongoc_server_session_t)
    (w : W) : res (session_pool * W) :=
  let timeout := td_session_timeout_minutes td in
  let* r := reap_loop (S (length pool)) pool timeout w in
  let '(pool, w) := r in
  let* r := _mongoc_server_session_timed_out server_session timeout w in
  let '(timed_out, w) := r in
  if timed_out || ss_dirty server_session then Ret (pool, w)
  else Ret (server_session :: pool, w).

Definition _mongoc_topology_clear_session_pool (pool : session_pool) : session_pool := [].

(** the appends' results are ignored; the break is after ten thousand *)
Fixpoint end_sessions_loop (pool : session_pool) (ar : bson_mem) (i : Z) : res (session_pool * bson_mem * Z) :=
  match pool with
  | [] => Ret ([], ar, i)
  | ss :: pool =>
      let* k := bson_uint32_to_string i 16 in
      let* r := BSON_APPEND_DOCUMENT fresh ar k.1 (ss_lsid ss) in
      let i := u32 (i + 1) in
      if i =? 10000 then Ret (pool, r.2, i) else end_sessions_loop pool r.2 i
  end.
(** the command, and whether it ends any session *)
Definition _mongoc_topology_end_sessions_cmd (pool : session_pool) : res (bool * session_pool * bson_mem) :=
  let* r := BSON_APPEND_ARRAY_BEGIN fresh (bson_init fresh) (cs "endSessions") in
  if negb r.1 then Stuck OutOfBounds
  else
    let* l := end_sessions_loop pool r.2 0 in
    let '(pool, ar, i) := l in
    let* cmd := bson_append_array_end ar in
    Ret (i >? 0, pool, cmd).
End Pool.

(** ** What the world promises *)
Definition uuid4 (data : list Z) : list Z :=
  update_byte 8 (λ b, Z.lor 0x80 (Z.land b 0x3f)) (update_byte 6 (λ b, Z.lor 0x40 (Z.land b 0xf)) data).
(** a timeout whose microseconds fit: less than two thousand years *)
Definition timeout_ok (minutes : Z) : Prop := - 2 ^ 30 < minutes < 2 ^ 30.
(** the fault of a timeout that does not fit *)
Definition overflow_at (minutes : Z) (f : fault) : Prop := f = IntOverflow ∧ ¬ timeout_ok minutes.

(** the clock does not go back; the log of the UUIDs that were made *)
Class EnvOk (W : Type) `{Env W} := {
  env_clock : W → Z;
  env_uuids : W → list (list Z);
  env_clock_nonneg w : 0 ≤ env_clock w;
  env_time_law w t w' : env_monotonic_time w = (t, w') →
    env_clock w ≤ t < 2 ^ 62 ∧ env_clock w' = t ∧ env_uuids w' = env_uuids w;
  env_rand_law w data w' : env_rand_bytes 16 w = (data, w') →
    env_clock w ≤ env_clock w'
    ∧ match data with
      | Some data => length data = 16%nat ∧ bytes_ok data ∧ env_uuids w' = uuid4 data :: env_uuids w
      | None => env_uuids w' = env_uuids w
      end;
  env_select_law td w ok e td' w' : env_select_server_id td w = (ok, e, td', w') →
    env_clock w ≤ env_clock w' ∧ env_uuids w' = env_uuids w
}.

(** ** Expiry *)

(** less than a minute of the session's life is left at time [t] *)
Definition expired (minutes t : Z) (ss : mongoc_server_session_t) : Prop :=
  minutes ≠ MONGOC_NO_SESSIONS ∧ ss_last_used_usec ss ≠ SESSION_NEVER_USED
  ∧ ss_last_used_usec ss + (minutes - 1) * minute_to_usec < t.
Definition last_use_ok (ss : mongoc_server_session_t) : Prop := -1 ≤ ss_last_used_usec ss < 2 ^ 62.
Lemma expired_later minutes t t' ss : t ≤ t' → expired minutes t ss → expired minutes t' ss.
Proof. intros Ht (H1 & H2 & H3). split; [done|]. split; [done|]. lia. Qed.

(** the logical session id of a UUID *)
Definition lsid_entry (uuid : list Z) : entry := Entry (cs "id") 0x05 (le_bytes 4 16 ++ [BSON_SUBTYPE_UUID] ++ uuid).
Definition lsid_of (uuid : list Z) : bson_t := doc_bytes (body_bytes [lsid_entry uuid]).
Lemma lsid_of_inj u v : lsid_of u = lsid_of v → u = v.
Proof.
  unfold lsid_of. rewrite !body_bytes_one. unfold doc_bytes, entry_bytes, field_bytes, lsid_entry. cbn [e_type e_key e_value].
  intros H. apply (f_equal (drop 4)) in H. rewrite !(drop_app_length' (le_bytes 4 _)) in H by done.
  apply app_inv_tail in H. cbn [cs app] in H. by injection H as H.
Qed.

Lemma chk64_outcome minutes x :
  (timeout_ok minutes → in_s64 x) → outcome (overflow_at minutes) (chk64 x) (λ y, y = x).
Proof.
  intros Hx. unfold chk64. destruct (_ && _) eqn:E; [done|]. split; [done|]. intros Hm%Hx. unfold in_s64 in Hm.
  apply andb_false_iff in E as [E|E]; [apply Z.leb_gt in E|apply Z.ltb_ge in E]; lia.
Qed.

Section PoolFacts.
Context {W : Type} `{EnvOk W}.
Lemma timed_out_spec ss minutes w :
  last_use_ok ss →
  outcome (overflow_at minutes) (_mongoc_server_session_timed_out ss minutes w) (λ '(b, w'),
    env_clock w ≤ env_clock w' ∧ env_uuids w' = env_uuids w ∧ b = bool_decide (expired minutes (env_clock w') ss)).
Proof using Type.
  intros Hu. unfold _mongoc_server_session_timed_out, expired, last_use_ok, minute_to_usec in *.
  destruct (Z.eqb_spec minutes MONGOC_NO_SESSIONS) as [->|Hn]; [by cbn; rewrite bool_decide_false by tauto|].
  destruct (Z.eqb_spec (ss_last_used_usec ss) SESSION_NEVER_USED) as [Hs|Hs]; [by cbn; rewrite bool_decide_false by tauto|].
  eapply outcome_bind; [apply chk64_outcome; unfold in_s64, timeout_ok; lia|]. intros ? _ ->.
  eapply outcome_bind; [apply chk64_outcome; unfold in_s64, timeout_ok; lia|]. intros ? _ ->.
  destruct (env_monotonic_time w) as [t w'] eqn:Ht. destruct (env_time_law _ _ _ Ht) as (Hc & Hc' & Hu').
  pose proof (env_clock_nonneg w). eapply outcome_bind; [apply chk64_outcome; unfold in_s64, timeout_ok; lia|]. intros ? _ ->.
  split; [lia|]. split; [done|]. rewrite Hc'. unfold MONGOC_NO_SESSIONS in *.
  destruct (Z.ltb_spec (ss_last_used_usec ss + minutes * (60 * 1000 * 1000) - t) (1 * (60 * 1000 * 1000))).
  - rewrite bool_decide_true; [done|]. repeat split; try done. lia.
  - rewrite bool_decide_false; [done|]. lia.
Qed.

Lemma pop_loop_spec pool minutes w :
  Forall last_use_ok pool →
  outcome (overflow_at minutes) (pop_loop pool minutes w) (λ '(r, pool', w'),
    env_clock w ≤ env_clock w' ∧ env_uuids w' = env_uuids w ∧ ∃ dropped, Forall (expired minutes (env_clock w')) dropped
    ∧ match r with
      | Some ss => pool = dropped ++ ss :: pool' ∧ ¬ expired minutes (env_clock w') ss
      | None => pool = dropped ∧ pool' = []
      end).
Proof using Type.
  intros Hp. revert w. induction Hp as [|ss pool Hss _ IH]; intros w; cbn [pop_loop].
  { split; [done|]. split; [done|]. by exists []. }
  eapply outcome_bind; [by apply timed_out_spec|]. intros [b w1] _ (Hc & Hu & ->).
  destruct (bool_decide_reflect (expired minutes (env_clock w1) ss)) as [He|He].
  - eapply outcome_mono; [apply IH|done|]. intros [[r pool'] w'] _ (Hc' & Hu' & dropped & Hd & Hr).
    split; [lia|]. split; [congruence|]. exists (ss :: dropped).
    split; [constructor; [eapply expired_later; [|exact He]; lia|done]|]. destruct r; destruct Hr as [-> ?]; done.
  - split; [done|]. split; [done|]. by exists [].
Qed.

Variable fresh : Z → Z.
Lemma session_new_spec w :
  ∃ r w', _mongoc_server_session_new fresh w = Ret (r, w') ∧ env_clock w ≤ env_clock w'
    ∧ match r with
      | inl ss => ∃ data, ss = ServerSession SESSION_NEVER_USED (lsid_of (uuid4 data)) 0 false
          ∧ env_uuids w' = uuid4 data :: env_uuids w
      | inr _ => env_uuids w' = env_uuids w
      end.
Proof using Type.
  unfold _mongoc_server_session_new, _mongoc_server_session_uuid.
  destruct (env_rand_bytes 16 w) as [[data|] w'] eqn:Hr; destruct (env_rand_law _ _ _ Hr) as [Hc Hd].
  2: { by eexists _, w'. }
  destruct Hd as (Hlen & Hok & Hu). fold (uuid4 data).
  assert (Hl : length (uuid4 data) = 16%nat) by (unfold uuid4, update_byte; by rewrite !length_alter).
  assert (Ha : appends (bson_append_binary fresh (bson_init fresh) (c_lit "id") 2 BSON_SUBTYPE_UUID (Some (uuid4 data)) 16)
    (bson_init fresh) [] [] (entry_bytes (lsid_entry (uuid4 data)))).
  { unfold bson_append_binary. pose proof (bytes_at_app (uuid4 data) []) as Hb. rewrite app_nil_r in Hb. unfold blen in Hb.
    rewrite Hl in Hb. change (Z.of_nat 16) with 16 in Hb. rewrite Hb by lia. cbn [bind].
    apply (append_ls fresh (bson_init fresh) [] [] (c_lit "id") 2 (cs "id") (init_builds fresh)
      (literal_key (cs "id") eq_refl ltac:(by repeat constructor)) 5 _ [le_bytes 4 16; [BSON_SUBTYPE_UUID]; uuid4 data]).
    - unfold lsid_entry. cbn [e_value]. rewrite !blen_app, blen_le_bytes. unfold blen at 2. rewrite Hl. done.
    - unfold lsid_entry. cbn [e_value concat]. by rewrite app_nil_r.
    - unfold lsid_entry. cbn [e_value]. rewrite !blen_app, blen_le_bytes. unfold blen at 2. rewrite Hl. done. }
  apply appends_fits in Ha as (m & -> & Hm).
  2: { rewrite blen_entry. unfold lsid_entry, extent. cbn [e_key e_value front length]. rewrite !blen_app, blen_le_bytes.
       unfold blen at 5. rewrite Hl. vm_compute. discriminate. }
  cbn [bind snd]. rewrite app_nil_l, <- body_bytes_one in Hm. rewrite (get_data_builds _ _ _ Hm). cbn [bind].
  eexists _, w'. split; [done|]. split; [done|]. by exists data.
Qed.
End PoolFacts.

(** ** The pool over time *)
Section PoolHistory.
Context {W : Type} `{EnvOk W}.
Variable fresh : Z → Z.

Lemma reap_loop_spec pool minutes w :
  Forall last_use_ok pool →
  outcome (overflow_at minutes) (reap_loop (S (length pool)) pool minutes w) (λ '(kept, w'),
    env_clock w ≤ env_clock w' ∧ env_uuids w' = env_uuids w ∧ ∃ dropped, pool = kept ++ dropped
    ∧ Forall (expired minutes (env_clock w')) dropped
    ∧ match last kept with Some ss => ¬ expired minutes (env_clock w') ss | None => True end).
Proof using Type.
  revert w. induction pool as [|ss pool IH] using rev_ind; intros w Hp.
  { cbn. split; [done|]. split; [done|]. by exists []. }
  apply Forall_app in Hp as [Hp Hss]. rewrite Forall_singleton in Hss.
  rewrite length_app. cbn [length]. replace (S (length pool + 1)) with (S (S (length pool))) by lia.
  remember (S (length pool)) as n eqn:En. cbn [reap_loop]. subst n. rewrite last_snoc.
  eapply outcome_bind; [by apply timed_out_spec|]. intros [b w1] _ (Hc & Hu & ->).
  destruct (bool_decide_reflect (expired minutes (env_clock w1) ss)) as [He|He].
  - rewrite length_app. cbn [length]. replace (length pool + 1 - 1)%nat with (length pool) by lia. rewrite take_app_length.
    eapply outcome_mono; [by apply IH|done|]. intros [kept w'] _ (Hc' & Hu' & dropped & Heq & Hd & Hl).
    split; [lia|]. split; [congruence|]. exists (dropped ++ [ss]).
    split; [by rewrite Heq, <- app_assoc|]. split; [|done]. apply Forall_app. split; [done|].
    constructor; [eapply expired_later; [|exact He]; lia|constructor].
  - split; [done|]. split; [done|]. exists []. rewrite app_nil_r, last_snoc. done.
Qed.

Lemma push_spec td pool ss w :
  Forall last_use_ok pool → last_use_ok ss →
  outcome (overflow_at (td_session_timeout_minutes td)) (_mongoc_topology_push_server_session td pool ss w) (λ '(pool', w'),
    env_uuids w' = env_uuids w ∧ ∃ kept dropped, pool = kept ++ dropped
    ∧ Forall (expired (td_session_timeout_minutes td) (env_clock w')) dropped
    ∧ pool' = if bool_decide (expired (td_session_timeout_minutes td) (env_clock w') ss) || ss_dirty ss
              then kept else ss :: kept).
Proof using Type.
  intros Hp Hss. unfold _mongoc_topology_push_server_session.
  eapply outcome_bind; [by apply reap_loop_spec|]. intros [kept w1] _ (Hc & Hu & dropped & Heq & Hd & _).
  eapply outcome_bind; [by apply timed_out_spec|]. intros [b w2] _ (Hc2 & Hu2 & ->).
  assert (Hd2 : Forall (expired (td_session_timeout_minutes td) (env_clock w2)) dropped).
  { eapply Forall_impl; [exact Hd|]. intros x. by apply expired_later. }
  destruct (_ || _) eqn:E; (split; [congruence|]); exists kept, dropped; rewrite E; done.
Qed.

(** the server sessions of a client: those in the pool and those in use *)
Record pool_state := PoolState {
  ps_td : mongoc_topology_description_t;
  ps_pool : session_pool;
  ps_out : list mongoc_server_session_t;
  ps_world : W
}.
Inductive pool_step : pool_state → pool_state → Prop :=
| step_pop td pool out w ss td' pool' w' :
    _mongoc_topology_pop_server_session fresh td pool w = Ret (inl ss, td', pool', w') →
    pool_step (PoolState td pool out w) (PoolState td' pool' (ss :: out) w')
| step_pop_fails td pool out w e td' pool' w' :
    _mongoc_topology_pop_server_session fresh td pool w = Ret (inr e, td', pool', w') →
    pool_step (PoolState td pool out w) (PoolState td' pool' out w')
| step_use td pool l1 l2 ss ss' w :   (* a command runs in the session *)
    ss_lsid ss' = ss_lsid ss → last_use_ok ss' →
    pool_step (PoolState td pool (l1 ++ ss :: l2) w) (PoolState td pool (l1 ++ ss' :: l2) w)
| step_push td pool l1 l2 ss w pool' w' :
    _mongoc_topology_push_server_session td pool ss w = Ret (pool', w') →
    pool_step (PoolState td pool (l1 ++ ss :: l2) w) (PoolState td pool' (l1 ++ l2) w')
| step_clear td pool out w :
    pool_step (PoolState td pool out w) (PoolState td (_mongoc_topology_clear_session_pool pool) out w)
| step_monitor td td' pool out w :    (* a reply changes the description *)
    pool_step (PoolState td pool out w) (PoolState td' pool out w).

Definition lsids (s : pool_state) : list bson_t := map ss_lsid (ps_pool s ++ ps_out s).
Record pool_ok (s : pool_state) : Prop := {
  po_known : lsids s ⊆+ map lsid_of (env_uuids (ps_world s));
  po_clean : Forall (λ ss, ss_dirty ss = false) (ps_pool s);
  po_used : Forall last_use_ok (ps_pool s ++ ps_out s)
}.
(** distinct UUIDs, distinct ids *)
Lemma ids_distinct s : pool_ok s → NoDup (env_uuids (ps_world s)) → NoDup (lsids s).
Proof using Type.
  intros Hok Hn. apply (NoDup_fmap_2_strong lsid_of) in Hn; [|intros u v _ _; apply lsid_of_inj].
  destruct (submseteq_Permutation _ _ (po_known _ Hok)) as [k Hk].
  change (lsid_of <$> env_uuids (ps_world s)) with (map lsid_of (env_uuids (ps_world s))) in Hn.
  rewrite Hk in Hn. by apply NoDup_app in Hn as [? _].
Qed.

(** the timeout that a pop goes by: that of the description it finds, or of the one
    that server selection leaves *)
Definition pop_timeout (td : td_t) (w : W) : Z :=
  if (td_session_timeout_minutes td =? MONGOC_NO_SESSIONS) && negb (mongoc_topology_description_has_data_node td)
  then let '(_, _, td', _) := env_select_server_id td w in td_session_timeout_minutes td'
  else td_session_timeout_minutes td.
(** a pop takes a session that is not about to expire off the pool, or makes a new one *)
Definition popped (pool pool' : session_pool) (minutes : Z) (w w' : W) (ss : mongoc_server_session_t) : Prop :=
  (∃ dropped, pool = dropped ++ ss :: pool' ∧ Forall (expired minutes (env_clock w')) dropped
     ∧ ¬ expired minutes (env_clock w') ss ∧ env_uuids w' = env_uuids w)
  ∨ (∃ u, ss = ServerSession SESSION_NEVER_USED (lsid_of u) 0 false ∧ pool' = []
       ∧ Forall (expired minutes (env_clock w')) pool ∧ env_uuids w' = u :: env_uuids w).
Definition pop_post (td : td_t) (pool : session_pool) (w : W)
    (r : (mongoc_server_session_t + option bson_error_t) * td_t * session_pool * W) : Prop :=
  let '(r, td', pool', w') := r in
  env_clock w ≤ env_clock w' ∧ td_session_timeout_minutes td' = pop_timeout td w
  ∧ match r with
    | inl ss => pop_timeout td w ≠ MONGOC_NO_SESSIONS ∧ popped pool pool' (pop_timeout td w) w w' ss
    | inr _ => suffix pool' pool ∧ env_uuids w' = env_uuids w
    end.
Lemma take_session_spec td pool minutes w w0 :
  Forall last_use_ok pool → td_session_timeout_minutes td = minutes → minutes ≠ MONGOC_NO_SESSIONS →
  env_clock w ≤ env_clock w0 → env_uuids w0 = env_uuids w →
  outcome (overflow_at minutes)
    (let* r := pop_loop pool minutes w0 in
     let '(ss, pool, w) := r in
     match ss with
     | Some ss => Ret (inl ss, td, pool, w)
     | None => let* n := _mongoc_server_session_new fresh w in
         Ret (match n.1 with inl ss => inl ss | inr e => inr (Some e) end, td, pool, n.2)
     end)
    (λ '(r, td', pool', w'), env_clock w ≤ env_clock w' ∧ td_session_timeout_minutes td' = minutes
      ∧ match r with
        | inl ss => minutes ≠ MONGOC_NO_SESSIONS ∧ popped pool pool' minutes w w' ss
        | inr _ => suffix pool' pool ∧ env_uuids w' = env_uuids w
        end).
Proof using Type.
  intros Hp Htd Hns Hc0 Hu0. eapply outcome_bind; [by apply pop_loop_spec|].
  intros [[[ss|] pool'] w1] _ (Hc & Hu & dropped & Hd & Hr).
  - destruct Hr as [Hr He]. split; [lia|]. split; [done|]. split; [done|]. left. exists dropped. split; [done|]. split; [done|].
    split; [done|congruence].
  - destruct Hr as [-> ->]. destruct (session_new_spec fresh w1) as (r & w2 & -> & Hc2 & Hr). cbn [bind fst snd outcome].
    split; [lia|]. split; [done|]. destruct r as [ss|e].
    + split; [done|]. right. destruct Hr as (data & -> & Hu2). exists (uuid4 data). split; [done|]. split; [done|].
      split; [|congruence]. eapply Forall_impl; [exact Hd|]. intros x. by apply expired_later.
    + split; [apply suffix_nil|congruence].
Qed.
Lemma pop_spec td pool w :
  Forall last_use_ok pool →
  outcome (overflow_at (pop_timeout td w)) (_mongoc_topology_pop_server_session fresh td pool w) (pop_post td pool w).
Proof using Type.
  intros Hp. unfold _mongoc_topology_pop_server_session, pop_post, pop_timeout.
  destruct (Z.eqb_spec (td_session_timeout_minutes td) MONGOC_NO_SESSIONS) as [Hns|Hns]; cbn [andb]; [|by apply take_session_spec].
  destruct (mongoc_topology_description_has_data_node td); cbn [negb]; [done|].
  destruct (env_select_server_id td w) as [[[ok e] td'] w0] eqn:Hsel.
  destruct (env_select_law _ _ _ _ _ _ Hsel) as (Hc & Hu). destruct ok; cbn [negb]; [|done].
  destruct (Z.eqb_spec (td_session_timeout_minutes td') MONGOC_NO_SESSIONS) as [Hns'|Hns']; [done|by apply take_session_spec].
Qed.

(** the sessions that remain *)
Lemma pool_ok_part s dropped pool' out' td' w' :
  pool_ok s → ps_pool s ++ ps_out s ≡ₚ dropped ++ pool' ++ out' →
  (∀ ss, ss ∈ pool' → ss ∈ ps_pool s ∨ ss_dirty ss = false) →
  env_uuids w' = env_uuids (ps_world s) → pool_ok (PoolState td' pool' out' w').
Proof using Type.
  intros [Hkn Hcl Hus] Hp Hpool Hw.
  constructor; unfold lsids in *; cbn [ps_pool ps_out ps_world ps_td].
  - rewrite Hw. etrans; [|exact Hkn]. rewrite Hp, (map_app _ dropped). by apply submseteq_inserts_l.
  - apply Forall_forall. intros ss Hss. rewrite Forall_forall in Hcl. destruct (Hpool ss Hss); auto.
  - rewrite Hp in Hus. by apply Forall_app in Hus as [_ ?].
Qed.

Lemma pop_keeps_ok td pool out w ss minutes td' pool' w' :
  pool_ok (PoolState td pool out w) → popped pool pool' minutes w w' ss →
  pool_ok (PoolState td' pool' (ss :: out) w') ∧ ss_dirty ss = false.
Proof using Type.
  clear fresh.
  intros Hok [(dropped & Hpool & _ & _ & Hu)|(u & -> & -> & _ & Hu)].
  - assert (Hp : pool ++ out ≡ₚ dropped ++ pool' ++ ss :: out) by (rewrite Hpool; solve_Permutation).
    pose proof (po_clean _ Hok) as Hcl. cbn [ps_pool] in Hcl. rewrite Forall_forall in Hcl. split.
    + apply (pool_ok_part _ dropped _ _ _ _ Hok Hp); [|done].
      intros x Hx. left. cbn [ps_pool]. rewrite Hpool. set_solver.
    + apply Hcl. rewrite Hpool. set_solver.
  - destruct Hok as [Hkn Hcl Hus]. split; [|done].
    constructor; unfold lsids in *; cbn [ps_pool ps_out ps_world ps_td map app ss_lsid] in *; [|constructor|].
    + rewrite Hu. cbn [map]. apply submseteq_skip. etrans; [|exact Hkn]. rewrite map_app. by apply submseteq_inserts_l.
    + constructor; [by split|]. by apply Forall_app in Hus as [_ ?].
Qed.
Lemma pool_step_ok s s' : pool_step s s' → pool_ok s → pool_ok s'.
Proof using Type.
  intros Hs Hok. pose proof (po_used _ Hok) as Hus.
  destruct Hs as [td pool out w ss td' pool' w' Hpop|td pool out w e td' pool' w' Hpop|td pool l1 l2 ss ss' w Hl Hu
    |td pool l1 l2 ss w pool' w' Hpush|td pool out w|td td' pool out w]; cbn [ps_pool ps_out ps_td] in *.
  - apply Forall_app in Hus as [Hus _]. pose proof (outcome_Ret _ _ _ _ (pop_spec td pool w Hus) Hpop) as (_ & _ & _ & Hr).
    by eapply pop_keeps_ok.
  - apply Forall_app in Hus as [Hus _]. pose proof (outcome_Ret _ _ _ _ (pop_spec td pool w Hus) Hpop) as (_ & _ & [dropped Hd] & Hu).
    apply (pool_ok_part _ dropped _ _ _ _ Hok); [cbn; by rewrite Hd, <- app_assoc| |done].
    intros x Hx. left. cbn. rewrite Hd. set_solver.
  - destruct Hok as [Hkn Hcl _]. unfold lsids in *. cbn [ps_pool ps_out ps_world] in *.
    rewrite !map_app in Hkn. cbn [map] in Hkn. rewrite <- Hl in Hkn.
    constructor; unfold lsids; cbn [ps_pool ps_out ps_world ps_td]; rewrite ?map_app; cbn [map]; try done.
    rewrite !Forall_app, Forall_cons in *. tauto.
  - rewrite !Forall_app, Forall_cons in Hus. destruct Hus as (Hus & _ & Hss & _).
    pose proof (outcome_Ret _ _ _ _ (push_spec td pool ss w Hus Hss) Hpush) as (Hw & kept & dropped & Hd & _ & ->).
    destruct (_ || _) eqn:Hb.
    + apply (pool_ok_part _ (dropped ++ [ss]) _ _ _ _ Hok); cbn [ps_pool ps_out ps_world]; [rewrite Hd; solve_Permutation| |done].
      intros x Hx. left. rewrite Hd. set_solver.
    + apply (pool_ok_part _ dropped _ _ _ _ Hok); cbn [ps_pool ps_out ps_world]; [rewrite Hd; solve_Permutation| |done].
      apply orb_false_iff in Hb as [_ Hb]. intros x [->|Hx]%elem_of_cons; [by right|left]. rewrite Hd. set_solver.
  - apply (pool_ok_part _ pool _ _ _ _ Hok); [done|by intros ? ?%elem_of_nil|done].
  - apply (pool_ok_part _ [] _ _ _ _ Hok); [done|by left|done].
Qed.
End PoolHistory.

(** C26. Whatever the order in which the sessions of a client are taken from the pool,
    used, given back and cleared, and whatever session timeouts replies report: as long
    as the random generator has not made the same UUID twice, no two server sessions, in
    use or in the pool, have the same id; the pool never holds a session that saw a
    network error; and the next pop skips exactly the sessions in front that are about
    to expire, and hands out a session that is neither dirty nor about to expire nor
    (the UUIDs being distinct) in use already, or a new one when every session of the
    pool is about to expire.  The pop does not fault, unless the timeout in effect is
    2^30 minutes or more (of either sign): its microseconds may then overflow, which is undefined.
    Assumed of the clock: it does not go back and stays below 2^62 microseconds. *)
Theorem session_pool_correct {W} `{EnvOk W} fresh td w s
    (Hsteps : rtc (pool_step fresh) (PoolState td [] [] w) s) :
  (NoDup (env_uuids (ps_world s)) → NoDup (lsids s)) ∧ Forall (λ ss, ss_dirty ss = false) (ps_pool s)
  ∧ outcome (overflow_at (pop_timeout (ps_td s) (ps_world s)))
      (_mongoc_topology_pop_server_session fresh (ps_td s) (ps_pool s) (ps_world s))
      (λ '(r, td', pool', w'), match r with
        | inl ss => popped (ps_pool s) pool' (td_session_timeout_minutes td') (ps_world s) w' ss
            ∧ ss_dirty ss = false ∧ (NoDup (env_uuids w') → ss_lsid ss ∉ map ss_lsid (ps_out s))
        | inr _ => suffix pool' (ps_pool s)
        end).
Proof.
  assert (Hok : pool_ok s).
  { assert (Hinit : pool_ok (PoolState td [] [] w)).
    { constructor; cbn; [apply submseteq_nil_l|constructor|constructor]. }
    induction Hsteps as [|s1 s2 s3 Hstep _ IH]; [done|]. apply IH. by eapply pool_step_ok. }
  clear Hsteps. split; [by apply ids_distinct|]. split; [apply Hok|]. pose proof (po_used _ Hok) as Hus. apply Forall_app in Hus as [Hus _].
  eapply outcome_mono; [by apply pop_spec|done|]. intros [[[[ss|e] td'] pool'] w'] _; [|by intros (_ & _ & ? & _)].
  intros (_ & Hto & _ & Hr). rewrite Hto. split; [done|]. destruct s as [td0 pool out w0]. cbn [ps_td ps_pool ps_out ps_world] in *.
  destruct (pop_keeps_ok td0 pool out w0 ss _ td' pool' w' Hok Hr) as (Hok' & Hc). split; [done|]. intros Hn.
  pose proof (ids_distinct _ Hok' Hn) as Hd. unfold lsids in Hd. cbn [ps_pool ps_out] in Hd.
  rewrite map_app in Hd. apply NoDup_app in Hd as (_ & _ & Hd). by apply NoDup_cons in Hd as [? _].
Qed.
(** a world whose clock stands still and whose UUIDs count up *)
#[local] Instance sample_env : Env (list (list Z)) := {
  env_monotonic_time w := (10 ^ 9, w);
  env_rand_bytes n w :=
    let data := le_bytes 6 (Z.of_nat (length w)) ++ replicate 10 0 in
    if (n =? 16)%nat then (Some data, uuid4 data :: w) else (None, w);
  env_select_server_id td w := (false, None, set_td_session_timeout 30 td, w)
}.
#[local] Instance sample_env_ok : EnvOk (list (list Z)).
Proof.
  refine {| env_clock := λ _, 10 ^ 9; env_uuids := λ w, w |}; [done|..].
  - intros w t w' [= <- <-]. done.
  - intros w data w'. unfold env_rand_bytes, sample_env. set (d := le_bytes 6 _ ++ _). change (16 =? 16)%nat with true. cbv iota. intros [= <- <-].
    split; [done|]. split; [unfold d; by rewrite length_app, length_le_bytes, length_replicate|].
    split; [|done]. apply bytes_ok_app. split; [apply le_bytes_ok|]. by repeat constructor.
  - intros td w ok e td' w' [= <- <- <- <-]. done.
Defined.
Definition sample_td : mongoc_topology_description_t :=
  set_td_session_timeout 30 (mongoc_topology_description_init 0 (replicate 12 1) 10000).
Definition first_session : mongoc_server_session_t :=
  ServerSession SESSION_NEVER_USED (lsid_of (uuid4 (replicate 16 0))) 0 false.
(** the session after a command at the time [t] *)
Definition used_at (t : Z) (ss : mongoc_server_session_t) : mongoc_server_session_t :=
  ServerSession t (ss_lsid ss) (ss_txn_number ss) (ss_dirty ss).
Definition after_push : pool_state (W := list (list Z)) :=
  PoolState sample_td [used_at (10 ^ 9) first_session] [] [uuid4 (replicate 16 0)].
Lemma sample_history : rtc (pool_step (λ _, 0)) (PoolState sample_td [] [] []) after_push.
Proof.
  eapply rtc_l; [apply (step_pop _ _ _ _ _ first_session sample_td [] [uuid4 (replicate 16 0)]); vm_compute; reflexivity|].
  eapply rtc_l; [apply (step_use _ _ _ [] [] _ (used_at (10 ^ 9) first_session)); [reflexivity|split; vm_compute; congruence]|].
  eapply rtc_l; [apply (step_push _ _ _ [] [] _ _ [used_at (10 ^ 9) first_session] [uuid4 (replicate 16 0)]); vm_compute; reflexivity|].
  reflexivity.
Qed.
Lemma session_pool_correct_witness :
  (NoDup (env_uuids (ps_world after_push)) → NoDup (lsids after_push)) ∧ Forall (λ ss, ss_dirty ss = false) (ps_pool after_push)
  ∧ outcome (overflow_at (pop_timeout (ps_td after_push) (ps_world after_push)))
      (_mongoc_topology_pop_server_session (λ _, 0) (ps_td after_push) (ps_pool after_push) (ps_world after_push))
      (λ '(r, td', pool', w'), match r with
        | inl ss => popped (ps_pool after_push) pool' (td_session_timeout_minutes td') (ps_world after_push) w' ss
            ∧ ss_dirty ss = false ∧ (NoDup (env_uuids w') → ss_lsid ss ∉ map ss_lsid (ps_out after_push))
        | inr _ => suffix pool' (ps_pool after_push)
        end).
Proof.
  apply (session_pool_correct (λ _, 0) sample_td []). exact sample_history.
Defined.
