(* ===== verification/ClientSession.v ===== *)
(** Client sessions (mongoc/mongoc-client-session.c, from
    _mongoc_client_session_handle_reply on): the record, the fields it adds to a
    command, and what it takes from a reply. *)
From S2P Require Import Prelude BsonIter BsonIterSafe BsonFields BsonAppend BsonBuild BsonValue BsonCopy BsonParse HostList BsonKeys MongocTypes BsonEntries CommandErrors Concerns ReadPrefs TxnOptions ServerDescription ServerSession.
From Stdlib Require Import ZArith Lia List.
From stdpp Require Import prelude strings.
#[local] Open Scope Z_scope.
#[local] Open Scope mongo_scope.

Definition WITH_TXN_TIMEOUT_MS : Z := 120 * 1000.
Definition MONGOC_DEFAULT_WTIMEOUT_FOR_COMMIT_RETRY : Z := 10000.
Definition MONGOC_ERROR_BSON : Z := 8.
Definition MONGOC_ERROR_SERVER_SELECTION : Z := 15.
Definition MONGOC_ERROR_BSON_INVALID : Z := 18.
Definition MONGOC_ERROR_TRANSACTION_INVALID_STATE : Z := 53.
Definition MONGOC_ERROR_MAX_TIME_MS_EXPIRED : Z := 50.

Inductive mongoc_internal_transaction_state_t :=
| MONGOC_INTERNAL_TRANSACTION_NONE | MONGOC_INTERNAL_TRANSACTION_STARTING
| MONGOC_INTERNAL_TRANSACTION_IN_PROGRESS | MONGOC_INTERNAL_TRANSACTION_ENDING
| MONGOC_INTERNAL_TRANSACTION_COMMITTED | MONGOC_INTERNAL_TRANSACTION_COMMITTED_EMPTY
| MONGOC_INTERNAL_TRANSACTION_ABORTED.
#[export] Instance txn_state_eq_dec : EqDecision mongoc_internal_transaction_state_t.
Proof. solve_decision. Defined.
Inductive mongoc_transaction_state_t :=
| MONGOC_TRANSACTION_NONE | MONGOC_TRANSACTION_STARTING | MONGOC_TRANSACTION_IN_PROGRESS
| MONGOC_TRANSACTION_COMMITTED | MONGOC_TRANSACTION_ABORTED.
#[export] Instance public_state_eq_dec : EqDecision mongoc_transaction_state_t.
Proof. solve_decision. Defined.

(** what a session reads of its client *)
Record mongoc_client_t := Client {
  cl_generation : Z;
  cl_read_concern : option mongoc_read_concern_t;
  cl_write_concern : option mongoc_write_concern_t;
  cl_read_prefs : option mongoc_read_prefs_t
}.

Record mongoc_client_session_t := ClientSession {
  cs_client : mongoc_client_t;
  cs_opts : mongoc_session_opt_t;
  cs_server_session : mongoc_server_session_t;
  cs_txn_state : mongoc_internal_transaction_state_t;   (* txn.state *)
  cs_txn_opts : mongoc_transaction_opt_t;               (* txn.opts *)
  cs_client_session_id : Z;
  cs_cluster_time : bson_t;
  cs_operation_timestamp : Z;
  cs_operation_increment : Z;
  cs_client_generation : Z;
  cs_server_id : Z;
  cs_recovery_token : option bson_t;
  cs_with_txn_timeout_ms : Z;
  cs_fail_commit_label : option (list Z)
}.
Definition cs_eta (s : mongoc_client_session_t) : mongoc_client_session_t :=
  ClientSession (cs_client s) (cs_opts s) (cs_server_session s) (cs_txn_state s) (cs_txn_opts s) (cs_client_session_id s)
    (cs_cluster_time s) (cs_operation_timestamp s) (cs_operation_increment s) (cs_client_generation s) (cs_server_id s)
    (cs_recovery_token s) (cs_with_txn_timeout_ms s) (cs_fail_commit_label s).
#[local] Notation cs_t := mongoc_client_session_t.
#[local] Notation "A ↦ B" := (A → B → B) (at level 98, right associativity).
Definition set_server_session : mongoc_server_session_t ↦ cs_t := ltac:(setter cs_eta cs_server_session).
Definition set_txn_state : mongoc_internal_transaction_state_t ↦ cs_t := ltac:(setter cs_eta cs_txn_state).
Definition set_txn_opts : mongoc_transaction_opt_t ↦ cs_t := ltac:(setter cs_eta cs_txn_opts).
Definition set_cluster_time : bson_t ↦ cs_t := ltac:(setter cs_eta cs_cluster_time).
Definition set_operation_timestamp : Z ↦ cs_t := ltac:(setter cs_eta cs_operation_timestamp).
Definition set_operation_increment : Z ↦ cs_t := ltac:(setter cs_eta cs_operation_increment).
Definition set_server_id : Z ↦ cs_t := ltac:(setter cs_eta cs_server_id).
Definition set_recovery_token : option bson_t ↦ cs_t := ltac:(setter cs_eta cs_recovery_token).
Definition set_with_txn_timeout_ms : Z ↦ cs_t := ltac:(setter cs_eta cs_with_txn_timeout_ms).
Definition set_fail_commit_label : option (list Z) ↦ cs_t := ltac:(setter cs_eta cs_fail_commit_label).

Definition _mongoc_client_session_unpin (session : cs_t) : cs_t := set_server_id 0 session.
Definition _mongoc_client_session_pin (session : cs_t) (server_id : Z) : cs_t := set_server_id server_id session.

(** ** Times and replies *)
Definition mongoc_client_session_get_cluster_time (session : cs_t) : res (option bson_t) :=
  let* e := bson_empty (cs_cluster_time session) in
  Ret (if e : bool then None else Some (cs_cluster_time session)).
Definition mongoc_client_session_advance_cluster_time (session : cs_t) (cluster_time : bson_t) : res cs_t :=
  let* e := bson_empty (cs_cluster_time session) in
  let* t := (if e : bool then _mongoc_parse_cluster_time cluster_time else Ret None) in
  match t with
  | Some _ => Ret (set_cluster_time cluster_time session)
  | None =>
      let* g := _mongoc_cluster_time_greater cluster_time (cs_cluster_time session) in
      Ret (if g : bool then set_cluster_time cluster_time session else session)
  end.
Definition mongoc_client_session_get_operation_time (session : cs_t) : Z * Z :=
  (cs_operation_timestamp session, cs_operation_increment session).
Definition mongoc_client_session_advance_operation_time (session : cs_t) (timestamp increment : Z) : cs_t :=
  if (timestamp >? cs_operation_timestamp session)
     || ((timestamp =? cs_operation_timestamp session) && (increment >? cs_operation_increment session))
  then set_operation_increment increment (set_operation_timestamp timestamp session)
  else session.

(** one field of a reply *)
Definition reply_field (is_acknowledged : bool) (it : bson_iter_t) (session : cs_t) : res (bool * cs_t) :=
  let* key := field_key it in
  let* t := BSON_ITER_HOLDS it BSON_TYPE_DOCUMENT in
  let* ts := BSON_ITER_HOLDS it BSON_TYPE_TIMESTAMP in
  if streq key (cs "$clusterTime") && t then
    let* d := bson_iter_document it in
    let* data := deref d.2 in
    let* doc := bson_init_static data d.1 in
    match doc with
    | None => Stuck AssertFailed
    | Some doc => let* s := mongoc_client_session_advance_cluster_time session doc in Ret (true, s)
    end
  else if streq key (cs "operationTime") && ts && is_acknowledged then
    let* t := bson_iter_timestamp it in
    Ret (true, mongoc_client_session_advance_operation_time session t.1 t.2)
  else Ret (true, session).
(** [reply]: [None] is NULL *)
Definition _mongoc_client_session_handle_reply (session : cs_t) (is_acknowledged : bool) (reply : option bson_t) : res cs_t :=
  match reply with
  | None => Ret session
  | Some reply =>
      let '(ok, it) := bson_iter_init reply in
      if negb ok then Ret session
      else
        let* transient := mongoc_error_has_label reply TRANSIENT_TXN_ERR in
        let session := if transient : bool then set_server_id 0 session else session in
        let* r := for_each_field (reply_field is_acknowledged) it session in
        Ret r.2
  end.

(** ** The state of the transaction; a NULL session is [None] *)
Definition _mongoc_client_session_in_txn (session : option cs_t) : bool :=
  match session with
  | None => false
  | Some s => match cs_txn_state s with
              | MONGOC_INTERNAL_TRANSACTION_STARTING | MONGOC_INTERNAL_TRANSACTION_IN_PROGRESS => true
              | _ => false
              end
  end.
Definition _mongoc_client_session_in_txn_or_ending (session : option cs_t) : bool :=
  match session with
  | None => false
  | Some s => match cs_txn_state s with
              | MONGOC_INTERNAL_TRANSACTION_STARTING | MONGOC_INTERNAL_TRANSACTION_IN_PROGRESS
              | MONGOC_INTERNAL_TRANSACTION_ENDING => true
              | _ => false
              end
  end.
Definition _mongoc_client_session_txn_in_progress (session : option cs_t) : bool :=
  match session with
  | None => false
  | Some s => bool_decide (cs_txn_state s = MONGOC_INTERNAL_TRANSACTION_IN_PROGRESS)
  end.
Definition mongoc_client_session_in_transaction (session : cs_t) : bool := _mongoc_client_session_in_txn (Some session).
Definition mongoc_client_session_get_transaction_state (session : cs_t) : res mongoc_transaction_state_t :=
  match cs_txn_state session with
  | MONGOC_INTERNAL_TRANSACTION_NONE => Ret MONGOC_TRANSACTION_NONE
  | MONGOC_INTERNAL_TRANSACTION_STARTING => Ret MONGOC_TRANSACTION_STARTING
  | MONGOC_INTERNAL_TRANSACTION_IN_PROGRESS => Ret MONGOC_TRANSACTION_IN_PROGRESS
  | MONGOC_INTERNAL_TRANSACTION_COMMITTED_EMPTY | MONGOC_INTERNAL_TRANSACTION_COMMITTED => Ret MONGOC_TRANSACTION_COMMITTED
  | MONGOC_INTERNAL_TRANSACTION_ABORTED => Ret MONGOC_TRANSACTION_ABORTED
  | MONGOC_INTERNAL_TRANSACTION_ENDING => Stuck AssertFailed
  end.

(** mongoc-util.c: the first key, or that of the wrapped command; [None] is NULL *)
Definition _mongoc_get_command_name (command : bson_t) : res (option (list Z)) :=
  let '(ok, it) := bson_iter_init command in
  if negb ok then Ret None
  else
    let* n := bson_iter_next it in
    if negb n.1 then Ret None
    else
      let* name := field_key n.2 in
      let wrapper_name := match name with
                          | 36 :: _ => Some (c_lit "$query")
                          | _ => if streq name (cs "query") then Some (c_lit "query") else None
                          end in
      match wrapper_name with
      | None => Ret (Some name)
      | Some w =>
          let* f := find_holding command w BSON_TYPE_DOCUMENT in
          match f with
          | None => Ret (Some name)
          | Some it =>
              let* child := bson_iter_recurse it in
              match child with
              | None => Ret (Some name)
              | Some child =>
                  let* c := bson_iter_next child in
                  if c.1 then let* name := field_key c.2 in Ret (Some name) else Ret (Some name)
              end
          end
      end.

Section Append.
Variable fresh : Z → Z.

(** the appends' results are ignored; the return value, the error, the session and the command *)
Definition _mongoc_client_session_append_txn (session : option cs_t) (cmd : bson_mem)
    : res (bool * option bson_error_t * option cs_t * bson_mem) :=
  match session with
  | None => Ret (true, None, session, cmd)
  | Some s =>
      let* doc := bson_get_data cmd in
      let* e := bson_empty doc in
      if e : bool then
        Ret (false, Some (bson_set_error MONGOC_ERROR_COMMAND MONGOC_ERROR_COMMAND_INVALID_ARG
                            (cs "Empty command in transaction")), session, cmd)
      else
        let number s cmd :=
          let* r := bson_append_int64 fresh cmd (c_lit "txnNumber") 9 (ss_txn_number (cs_server_session s)) in
          let* r := bson_append_bool fresh r.2 (c_lit "autocommit") 10 false in
          Ret (true, None, Some s, r.2) in
        let reset s cmd :=
          let s := set_txn_opts (txn_opts_cleanup (cs_txn_opts s)) s in
          let s := set_txn_state MONGOC_INTERNAL_TRANSACTION_NONE s in
          Ret (true, None, Some (set_recovery_token None s), cmd) in
        match cs_txn_state s with
        | MONGOC_INTERNAL_TRANSACTION_STARTING =>
            let s := set_txn_state MONGOC_INTERNAL_TRANSACTION_IN_PROGRESS s in
            let* r := bson_append_bool fresh cmd (c_lit "startTransaction") 16 true in
            number s r.2
        | MONGOC_INTERNAL_TRANSACTION_IN_PROGRESS | MONGOC_INTERNAL_TRANSACTION_ENDING => number s cmd
        | MONGOC_INTERNAL_TRANSACTION_COMMITTED =>
            let* name := _mongoc_get_command_name doc in
            let* name := deref name in
            if streq name (cs "commitTransaction") then number s cmd else reset s cmd
        | MONGOC_INTERNAL_TRANSACTION_COMMITTED_EMPTY | MONGOC_INTERNAL_TRANSACTION_ABORTED => reset s cmd
        | MONGOC_INTERNAL_TRANSACTION_NONE => Ret (true, None, session, cmd)
        end
  end.

(** [rc]: [None] is NULL.  When the sub-document cannot be begun, [child] stays
    uninitialised. *)
Definition _mongoc_client_session_append_read_concern (s : cs_t) (rc : option bson_t) (is_read_command : bool)
    (cmd : bson_mem) : res bson_mem :=
  let starting := bool_decide (cs_txn_state s = MONGOC_INTERNAL_TRANSACTION_STARTING) in
  if bool_decide (cs_txn_state s = MONGOC_INTERNAL_TRANSACTION_IN_PROGRESS) then Ret cmd
  else
    let has_timestamp := (starting || is_read_command)
      && mongoc_session_opts_get_causal_consistency (cs_opts s) && negb (cs_operation_timestamp s =? 0) in
    let* user_rc_has_level := match rc with Some rc => bson_has_field rc (cs "level") | None => Ret false end in
    let txn_has_level := starting && negb (mongoc_read_concern_is_default (to_read_concern (cs_txn_opts s))) in
    if negb has_timestamp && negb (user_rc_has_level || txn_has_level) then Ret cmd
    else
      let* r := bson_append_document_begin fresh cmd (c_lit "readConcern") 11 in
      if negb r.1 then Stuck OutOfBounds
      else
        let* child := match rc with
                      | Some rc => let* r := bson_concat fresh r.2 rc in Ret r.2
                      | None => Ret r.2
                      end in
        let* child :=
          (if starting && txn_has_level && negb user_rc_has_level then
             let* txn_rc := deref (to_read_concern (cs_txn_opts s)) in
             let* level := deref (rc_level txn_rc) in
             let* r := bson_append_utf8 fresh child (c_lit "level") 5 (Some (c_mem level)) (-1) in Ret r.2
           else Ret child) in
        let* child :=
          (if has_timestamp then
             let* r := bson_append_timestamp fresh child (c_lit "afterClusterTime") 16
                         (cs_operation_timestamp s) (cs_operation_increment s) in Ret r.2
           else Ret child) in
        bson_append_document_end child.

(** [opts] with the id of the session *)
Definition mongoc_client_session_append (s : cs_t) (opts : bson_mem) : res (bool * option bson_error_t * bson_mem) :=
  let* r := bson_append_int64 fresh opts (c_lit "sessionId") 9 (cs_client_session_id s) in
  if negb r.1 then Ret (false, Some (bson_set_error MONGOC_ERROR_BSON MONGOC_ERROR_BSON_INVALID (cs "invalid opts")), r.2)
  else Ret (true, None, r.2).

Definition _mongoc_client_session_new (client : mongoc_client_t) (server_session : mongoc_server_session_t)
    (opts : option mongoc_session_opt_t) (client_session_id : Z) : res cs_t :=
  let* d := txn_opts_set fresh (TxnOpt None None None 0) (cl_read_concern client) (cl_write_concern client)
              (cl_read_prefs client) DEFAULT_MAX_COMMIT_TIME_MS in
  let* o := match opts with
            | Some opts =>
                let t := so_default_txn_opts opts in
                let* d := txn_opts_set fresh d (to_read_concern t) (to_write_concern t) (to_read_prefs t)
                            (to_max_commit_time_ms t) in
                Ret (SessionOpt (so_flags opts) d)
            | None => Ret (SessionOpt MONGOC_SESSION_CAUSAL_CONSISTENCY d)
            end in
  Ret (ClientSession client o server_session MONGOC_INTERNAL_TRANSACTION_NONE (TxnOpt None None None 0)
         client_session_id bson_empty_doc 0 0 (cl_generation client) 0 None 0 None).
End Append.
