(* ===== verification/SessionProps.v ===== *)
(** Client sessions: what a reply changes, and the fields a command gets. *)
From S2P Require Import Prelude BsonIter BsonIterSafe BsonFields BsonAppend BsonBuild BsonValue BsonCopy BsonParse HostList BsonKeys MongocTypes BsonEntries CommandErrors Concerns ReadPrefs TxnOptions ServerDescription TopologyDescription ServerSession ClientSession.
From Stdlib Require Import ZArith Lia List.
From stdpp Require Import prelude strings.
#[local] Open Scope Z_scope.
#[local] Open Scope mongo_scope.

#[local] Notation cs_t := mongoc_client_session_t.

(** ** Times *)
Definition time_le (a b : Z * Z) : Prop := a.1 < b.1 ∨ a.1 = b.1 ∧ a.2 ≤ b.2.
Lemma time_le_refl a : time_le a a.
Proof. right. split; [done|lia]. Qed.
Lemma time_le_trans a b c : time_le a b → time_le b c → time_le a c.
Proof. unfold time_le. lia. Qed.
#[export] Instance time_le_preorder : PreOrder time_le.
Proof. split; [exact time_le_refl|exact time_le_trans]. Qed.

Lemma cluster_time_greater_spec new old :
  bson_ok new → bson_ok old →
  ∃ n o, _mongoc_parse_cluster_time new = Ret n ∧ _mongoc_parse_cluster_time old = Ret o
    ∧ _mongoc_cluster_time_greater new old
      = Ret match n, o with
            | Some n, Some o => (n.1 >? o.1) || ((n.1 =? o.1) && (n.2 >? o.2))
            | _, _ => false
            end.
Proof.
  intros Hn Ho. pose proof (parse_cluster_time_returns _ Hn) as Pn. apply returns_Ret in Pn as (n & En & _).
  pose proof (parse_cluster_time_returns _ Ho) as Po. apply returns_Ret in Po as (o & Eo & _).
  exists n, o. split; [done|]. split; [done|]. unfold _mongoc_cluster_time_greater. rewrite En, Eo. cbn [bind].
  destruct n as [[]|]; [|done]. by destruct o as [[]|].
Qed.

(** an empty document has no fields *)
Lemma empty_no_fields d :
  bson_ok d → 5 ≤ blen d → bson_empty d = Ret true → ∃ last, fields_of (iter_start d (blen d)) = Ret (last, []).
Proof.
  intros Hd H5 He. assert (Hit : iter_ok (iter_start d (blen d))) by (destruct Hd; apply iter_start_ok; [done|lia|done]).
  destruct (fields_of_ok _ Hit) as (last & l & Hf & _ & _ & _). destruct l as [|f l]; [by exists last|].
  pose proof (collect_consecutive d _ _ [] last _ Hit eq_refl Hf) as [_ [Hoff _]].
  pose proof (fields_of_in _ _ _ Hit Hf) as Hin. apply Forall_cons in Hin as [(data & t & Hraw & Hat) _].
  injection Hraw as <-. pose proof (at_field _ _ _ Hat) as Hfield. pose proof (at_type_off _ _ _ Hat) as Hto.
  destruct (at_type _ _ _ Hat) as (b & Hb & Ht). rewrite Hto, Hoff in Hb. change (it_next_off (iter_start d (blen d))) with 4 in *.
  unfold bson_empty in He. destruct (Z.eqb_spec (blen d) 5) as [E|_].
  - destruct Hat. lia.
  - rewrite Hb in He. cbn [bind] in He. injection He as He. apply Z.eqb_eq in He as ->. subst t. done.
Qed.
Lemma empty_no_cluster_time d :
  bson_ok d → 5 ≤ blen d → bson_empty d = Ret true → _mongoc_parse_cluster_time d = Ret None.
Proof.
  intros Hd H5 He. destruct (empty_no_fields d Hd H5 He) as (last & Hf).
  unfold _mongoc_parse_cluster_time, find_holding, bson_iter_init_find, bson_iter_init.
  destruct (Z.ltb_spec (blen d) 5); [lia|].
  assert (Hit : iter_ok (iter_start d (blen d))) by (destruct Hd; apply iter_start_ok; [done|lia|done]).
  unfold c_lit. rewrite (find_list _ (cs "clusterTime") [] last []); [done|done|by repeat constructor|done|constructor].
Qed.

(** what may change of a session when a reply arrives *)
Definition only_times (s s' : cs_t) : Prop :=
  ∃ sid ct ts inc, s' = set_server_id sid (set_cluster_time ct (set_operation_timestamp ts (set_operation_increment inc s))).
Lemma only_times_refl s : only_times s s.
Proof. by exists (cs_server_id s), (cs_cluster_time s), (cs_operation_timestamp s), (cs_operation_increment s); destruct s. Qed.
Lemma only_times_trans a b c : only_times a b → only_times b c → only_times a c.
Proof. intros (? & ? & ? & ? & ->) (sid & ct & ts & inc & ->). by exists sid, ct, ts, inc. Qed.

(** no time goes back *)
Record times_le (s s' : cs_t) : Prop := {
  tl_op : time_le (mongoc_client_session_get_operation_time s) (mongoc_client_session_get_operation_time s');
  tl_cluster : ∀ c, _mongoc_parse_cluster_time (cs_cluster_time s) = Ret (Some c) →
    ∃ c', _mongoc_parse_cluster_time (cs_cluster_time s') = Ret (Some c') ∧ time_le c c'
}.
#[export] Instance times_le_preorder : PreOrder times_le.
Proof.
  split.
  - intros s. constructor; [done|]. intros c ->. by exists c.
  - intros a b c [H1 H2] [H3 H4]. constructor; [by etrans|]. intros t Ht. destruct (H2 t Ht) as (t' & Ht' & ?).
    destruct (H4 t' Ht') as (t'' & ? & ?). exists t''. split; [done|]. by etrans.
Qed.
Lemma advance_operation_time_ok s ts inc : times_le s (mongoc_client_session_advance_operation_time s ts inc).
Proof.
  unfold mongoc_client_session_advance_operation_time. destruct (_ || _) eqn:E; [|reflexivity].
  constructor; [|intros c Hc; by exists c]. unfold time_le. cbn. lia.
Qed.
Lemma advance_cluster_time_ok s d :
  bson_ok (cs_cluster_time s) → 5 ≤ blen (cs_cluster_time s) → bson_ok d →
  returns (mongoc_client_session_advance_cluster_time s d)
    (λ s', times_le s s' ∧ (s' = s ∨ s' = set_cluster_time d s)).
Proof.
  intros Hs H5 Hd. unfold mongoc_client_session_advance_cluster_time.
  destruct (cluster_time_greater_spec d _ Hd Hs) as (n & o & En & Eo & Hg).
  assert (He : returns (bson_empty (cs_cluster_time s)) (λ _, True)).
  { unfold bson_empty. destruct (Z.eqb_spec (blen (cs_cluster_time s)) 5); [done|].
    by destruct (rd_in (cs_cluster_time s) 4) as (b & -> & _); [lia|]. }
  apply returns_Ret in He as (e & He & _). rewrite He. cbn [bind].
  assert (Hnew : ∀ x, n = Some x → (∀ c, o = Some c → time_le c x) → times_le s (set_cluster_time d s)).
  { intros x -> Hle. constructor; [by right|]. cbn. intros c Hc. rewrite Eo in Hc. injection Hc as ->. exists x. split; [done|]. by apply Hle. }
  assert (Hcmp : returns (let* g := _mongoc_cluster_time_greater d (cs_cluster_time s) in
      Ret (if g : bool then set_cluster_time d s else s)) (λ s', times_le s s' ∧ (s' = s ∨ s' = set_cluster_time d s))).
  { rewrite Hg. cbn [bind returns]. destruct n as [x|], o as [c|]; try (split; [reflexivity|by left]).
    destruct (_ || _) eqn:E; [|split; [reflexivity|by left]]. split; [|by right]. apply (Hnew x eq_refl).
    intros ? [= <-]. unfold time_le. lia. }
  destruct e; [|exact Hcmp]. rewrite En. cbn [bind]. destruct n as [x|]; [|exact Hcmp]. cbn [returns].
  split; [|by right]. apply (Hnew x eq_refl). intros c ->. by rewrite (empty_no_cluster_time _ Hs H5 He) in Eo.
Qed.

(** ** Replies *)

(** what the loop over the reply keeps *)
Record handled (ack : bool) (s0 s : cs_t) : Prop := {
  hd_only : only_times s0 s;
  hd_times : times_le s0 s;
  hd_doc : doc_ok (cs_cluster_time s);
  hd_id : cs_server_id s = cs_server_id s0;
  hd_ack : ack = false → mongoc_client_session_get_operation_time s = mongoc_client_session_get_operation_time s0
}.
Lemma only_set_cluster_time d s : only_times s (set_cluster_time d s).
Proof. by exists (cs_server_id s), d, (cs_operation_timestamp s), (cs_operation_increment s); destruct s. Qed.
Lemma only_operation_time ts inc s : only_times s (mongoc_client_session_advance_operation_time s ts inc).
Proof.
  unfold mongoc_client_session_advance_operation_time. destruct (_ || _); [|apply only_times_refl].
  by exists (cs_server_id s), (cs_cluster_time s), ts, inc; destruct s.
Qed.
Lemma document_slice it data :
  iter_at it data BSON_TYPE_DOCUMENT →
  ∃ n d, bson_iter_document it = Ret (n, Some d) ∧ bytes_ok d ∧ n ≤ blen d.
Proof.
  intros Hat. pose proof (subdoc_at it data _ BSON_TYPE_DOCUMENT Hat ltac:(by right)) as H.
  assert (Hr : returns (bson_iter_document it) (λ r, ∃ n d, r = (n, Some d) ∧ bytes_ok d ∧ n ≤ blen d)).
  { eapply returns_mono; [exact H|]. intros r Hr. cbv beta in Hr. rewrite decide_True in Hr by done.
    destruct Hr as (n & -> & Hn). destruct (subdoc_slice_at it data _ (n, Some (ptr_add data (it_d1 it))) Hat) as [[Hb Hl] _];
      [left; by exists n|]. cbn [fst snd] in *. exists n, (ptr_add data (it_d1 it)). split; [done|]. split; [done|lia]. }
  apply returns_Ret in Hr as (r & -> & n & d & -> & ?). by exists n, d.
Qed.
(** the assertion on a cluster time may fail, unless it is framed *)
Lemma reply_field_ok (F : fault → Prop) ack it data t s0 s :
  iter_at it data t → handled ack s0 s → F AssertFailed ∨ time_framed it = true →
  outcome F (reply_field ack it s) (λ r, handled ack s0 r.2).
Proof.
  intros Hat [H1 H2 H3 H4 H5] HF. unfold reply_field.
  destruct (field_key_at _ _ _ Hat) as (k & Hk & _). rewrite Hk. cbn [bind]. rewrite !(HOLDS_at _ _ _ Hat). cbn [bind].
  destruct (streq k (cs "$clusterTime") && bool_decide (t = BSON_TYPE_DOCUMENT)) eqn:E1.
  { apply andb_true_iff in E1 as [->%streq_eq ->%bool_decide_eq_true].
    destruct (document_slice it data Hat) as (n & d & Hd0 & Hb & Hn).
    assert (HF' : F AssertFailed ∨ returns (static_doc (n, Some d)) (λ _, True)).
    { destruct HF as [HF|Hf]; [by left|right]. pose proof (framed_time it Hf Hk (HOLDS_at _ _ _ Hat _)) as Hr. by rewrite Hd0 in Hr. }
    unfold static_doc in HF'. rewrite Hd0. cbn [bind fst snd deref] in *. cbn [bind fst snd deref].
    pose proof (bson_init_static_ok d n Hb Hn) as Hd. apply returns_Ret in Hd as (doc & Hdi & Hd). rewrite Hdi in *. cbn [bind] in *.
    destruct doc as [doc|]; [|by destruct HF']. destruct Hd as (Hdoc & _ & Hl & Hl5 & _).
    pose proof (advance_cluster_time_ok s doc (proj1 H3) (proj2 H3) Hdoc) as Ha. apply returns_Ret in Ha as (s' & -> & Ht & Hs').
    cbn [bind outcome snd]. destruct Hs' as [-> | ->]; [done|]. constructor; [|by etrans| |done|done].
    - eapply only_times_trans; [exact H1|apply only_set_cluster_time].
    - split; [done|]. cbn. lia. }
  destruct (streq k (cs "operationTime") && bool_decide (t = BSON_TYPE_TIMESTAMP) && ack) eqn:E2; [|by constructor].
  apply andb_true_iff in E2 as [_ ->]. pose proof (bson_iter_timestamp_at _ _ _ Hat) as Hts.
  apply returns_Ret in Hts as ([ts inc] & -> & _). cbn [bind fst snd outcome]. constructor.
  - eapply only_times_trans; [exact H1|apply only_operation_time].
  - etrans; [exact H2|apply advance_operation_time_ok].
  - unfold mongoc_client_session_advance_operation_time. by destruct (_ || _).
  - unfold mongoc_client_session_advance_operation_time. by destruct (_ || _).
  - done.
Qed.

Lemma reply_fields_ok (F : fault → Prop) ack l last s0 s :
  Forall (λ it, ∃ data t, iter_at it data t) l → F AssertFailed ∨ Forall (λ it, time_framed it = true) l → handled ack s0 s →
  outcome F (fold_fields (reply_field ack) l last s) (λ r, handled ack s0 r.2).
Proof.
  intros Hl. revert s. induction Hl as [|it l (data & t & Hat) _ IH]; intros s HF Hs; [done|]. cbn [fold_fields].
  eapply outcome_bind.
  { apply (reply_field_ok F ack it data t s0 s Hat Hs). destruct HF as [|HF]; [by left|right]. by inversion HF. }
  intros [[] s1] _ Hs1; [|exact Hs1]. apply IH; [|exact Hs1]. destruct HF as [|HF]; [by left|right]. by inversion HF.
Qed.
Lemma handle_reply_run (F : fault → Prop) s ack reply
    (Hs : doc_ok (cs_cluster_time s)) (Hr : doc_ok reply) (HF : F AssertFailed ∨ times_framed reply = true) :
  outcome F (_mongoc_client_session_handle_reply s ack (Some reply)) (λ s',
    only_times s s' ∧ times_le s s' ∧ doc_ok (cs_cluster_time s')
    ∧ (ack = false → mongoc_client_session_get_operation_time s' = mongoc_client_session_get_operation_time s)
    ∧ ∃ transient, mongoc_error_has_label reply TRANSIENT_TXN_ERR = Ret transient
        ∧ cs_server_id s' = if transient : bool then 0 else cs_server_id s).
Proof.
  destruct Hr as [Hr H5]. unfold _mongoc_client_session_handle_reply, bson_iter_init.
  destruct (Z.ltb_spec (blen reply) 5); [lia|]. cbn [negb].
  pose proof (has_label_returns reply TRANSIENT_TXN_ERR Hr) as Hl. apply returns_Ret in Hl as (transient & -> & _). cbn [bind].
  set (s0 := if transient then set_server_id 0 s else s).
  assert (H0 : handled ack s0 s0) by (constructor; [apply only_times_refl|reflexivity|unfold s0; by destruct transient|done|done]).
  assert (Hs0 : only_times s s0 ∧ times_le s s0 ∧ mongoc_client_session_get_operation_time s0 = mongoc_client_session_get_operation_time s
    ∧ cs_server_id s0 = if transient then 0 else cs_server_id s).
  { unfold s0. destruct transient; [|split; [apply only_times_refl|]; split; [reflexivity|done]].
    split; [by exists 0, (cs_cluster_time s), (cs_operation_timestamp s), (cs_operation_increment s); destruct s|].
    split; [constructor; [reflexivity|intros c Hc; by exists c]|done]. }
  clearbody s0. destruct Hs0 as (Ho & Ht & Hop & Hid).
  assert (Hit : iter_ok (iter_start reply (blen reply))) by (destruct Hr; apply iter_start_ok; [done|lia|done]).
  destruct (fields_of_ok _ Hit) as (last & l & Hf & Hpos & _). rewrite (for_each_fold _ _ last l s0 Hf).
  eapply outcome_bind; [apply (reply_fields_ok F ack l last s0 s0); [done| |done]|].
  - destruct HF as [|HF]; [by left|right]. apply (times_framed_fields reply last l HF). unfold bson_iter_init.
    destruct (Z.ltb_spec (blen reply) 5); [lia|exact Hf].
  - intros [it' s'] _ [H1 H2 H3 H4 H6]. cbn [snd outcome] in *. split; [by eapply only_times_trans|].
    split; [by etrans|]. split; [done|]. split; [intros Ha; by rewrite (H6 Ha)|]. exists transient. split; [done|congruence].
Qed.
Lemma handle_reply_ok s ack reply
    (Hs : doc_ok (cs_cluster_time s)) (Hr : doc_ok reply) :
  outcome (λ f, f = AssertFailed) (_mongoc_client_session_handle_reply s ack (Some reply)) (λ s',
    only_times s s' ∧ times_le s s' ∧ doc_ok (cs_cluster_time s')
    ∧ (ack = false → mongoc_client_session_get_operation_time s' = mongoc_client_session_get_operation_time s)
    ∧ ∃ transient, mongoc_error_has_label reply TRANSIENT_TXN_ERR = Ret transient
        ∧ cs_server_id s' = if transient : bool then 0 else cs_server_id s).
Proof. apply handle_reply_run; [done|done|by left]. Qed.
(** C28. Whatever the server replies, the session's times never go back and nothing else
    of the session changes: the operation time advances only for acknowledged
    commands, the session is unpinned exactly when the reply has the label
    TransientTransactionError.  The one fault is the assertion on a malformed
    $clusterTime document. *)
Theorem handle_reply_times s ack reply
    (Hs : doc_ok (cs_cluster_time s)) (Hr : doc_ok reply) :
  outcome (λ f, f = AssertFailed) (_mongoc_client_session_handle_reply s ack (Some reply)) (λ s',
    only_times s s' ∧ times_le s s' ∧ doc_ok (cs_cluster_time s')
    ∧ (ack = false → mongoc_client_session_get_operation_time s' = mongoc_client_session_get_operation_time s)
    ∧ ∃ transient, mongoc_error_has_label reply TRANSIENT_TXN_ERR = Ret transient
        ∧ cs_server_id s' = if transient : bool then 0 else cs_server_id s).
Proof. by apply handle_reply_ok. Qed.
Definition reply_session : cs_t :=
  ClientSession (Client 0 None None None) (SessionOpt MONGOC_SESSION_CAUSAL_CONSISTENCY (TxnOpt None None None 0))
    (ServerSession SESSION_NEVER_USED bson_empty_doc 3 false) MONGOC_INTERNAL_TRANSACTION_IN_PROGRESS (TxnOpt None None None 0)
    7 bson_empty_doc 4 9 0 2 None 0 None.
Definition timed_reply : bson_t :=
  doc_of [e_doc (cs "$clusterTime") (body_bytes [Entry (cs "clusterTime") 0x11 (le_bytes 4 1 ++ le_bytes 4 6)]);
          labels_field [TRANSIENT_TXN_ERR]; Entry (cs "operationTime") 0x11 (le_bytes 4 2 ++ le_bytes 4 5)].
Lemma handle_reply_times_witness :
  outcome (λ f, f = AssertFailed) (_mongoc_client_session_handle_reply reply_session true (Some timed_reply)) (λ s',
    only_times reply_session s' ∧ times_le reply_session s' ∧ doc_ok (cs_cluster_time s')
    ∧ (true = false → mongoc_client_session_get_operation_time s' = mongoc_client_session_get_operation_time reply_session)
    ∧ ∃ transient, mongoc_error_has_label timed_reply TRANSIENT_TXN_ERR = Ret transient
        ∧ cs_server_id s' = if transient : bool then 0 else cs_server_id reply_session).
Proof.
  apply (handle_reply_times reply_session true timed_reply); (split; [split; [by_check|vm_compute; discriminate]|vm_compute; discriminate]).
Defined.

(** ** The fields a command gets *)
Definition txn_fields (first : bool) (n : Z) : list entry :=
  (if first then [e_bool (cs "startTransaction") true] else [])
  ++ [e_int64 (cs "txnNumber") n; e_bool (cs "autocommit") false].
(** no transaction, as after a command outside it *)
Definition no_transaction (s : cs_t) : cs_t :=
  set_recovery_token None (set_txn_state MONGOC_INTERNAL_TRANSACTION_NONE (set_txn_opts (txn_opts_cleanup (cs_txn_opts s)) s)).
Definition after_command (s : cs_t) (name : list Z) : cs_t :=
  match cs_txn_state s with
  | MONGOC_INTERNAL_TRANSACTION_STARTING => set_txn_state MONGOC_INTERNAL_TRANSACTION_IN_PROGRESS s
  | MONGOC_INTERNAL_TRANSACTION_COMMITTED => if streq name (cs "commitTransaction") then s else no_transaction s
  | MONGOC_INTERNAL_TRANSACTION_COMMITTED_EMPTY | MONGOC_INTERNAL_TRANSACTION_ABORTED => no_transaction s
  | _ => s
  end.
Definition added_fields (s : cs_t) (name : list Z) : list entry :=
  let n := ss_txn_number (cs_server_session s) in
  match cs_txn_state s with
  | MONGOC_INTERNAL_TRANSACTION_STARTING => txn_fields true n
  | MONGOC_INTERNAL_TRANSACTION_IN_PROGRESS | MONGOC_INTERNAL_TRANSACTION_ENDING => txn_fields false n
  | MONGOC_INTERNAL_TRANSACTION_COMMITTED => if streq name (cs "commitTransaction") then txn_fields false n else []
  | _ => []
  end.
(** a command that is not wrapped: its first key is its name *)
Definition plain_name (name : list Z) : Prop := (∀ rest, name ≠ 36 :: rest) ∧ name ≠ cs "query".

Lemma command_name e es :
  Forall entry_ok (e :: es) → 5 + blen (body_bytes (e :: es)) ≤ INT_MAX → plain_name (e_key e) →
  _mongoc_get_command_name (doc_of (e :: es)) = Ret (Some (e_key e)).
Proof.
  intros Hes Hmax [Hd Hq]. destruct (next_first e es Hes Hmax) as (f & Hf & Hon). unfold _mongoc_get_command_name.
  pose proof (doc_of_init (e :: es)) as Hi. destruct (bson_iter_init (doc_of (e :: es))) as [ok it]. cbn [fst snd] in *. subst ok.
  cbn [negb]. rewrite Hf. cbn [bind fst snd negb]. rewrite (on_key _ _ _ Hon). cbn [bind].
  assert (Hs : streq (e_key e) (cs "query") = false) by (unfold streq; by apply bool_decide_eq_false).
  destruct (e_key e) as [|b r] eqn:E; [done|]. destruct (decide (b = 36)) as [->|Hb]; [by destruct (Hd r)|].
  by repeat case_match; simplify_eq.
Qed.

Section AppendTxn.
Variable fresh : Z → Z.

Lemma append_int64_step m es k x :
  builds m (body_bytes es) [] → Forall (λ b, b ≠ 0) k → blen k ≤ 100 → blen (body_bytes es) ≤ 2 ^ 28 →
  ∃ m', bson_append_int64 fresh m (c_mem k) (blen k) x = Ret (true, m') ∧ builds m' (body_bytes (es ++ [e_int64 k x])) [].
Proof using Type.
  intros Hm Hk Hl Hs. apply (append_step _ m); [done|by apply append_int64_entry; [done|done|lia]|].
  rewrite blen_entry. cbn [e_int64 e_key e_value]. rewrite blen_le_bytes. lia.
Qed.
Lemma append_bool_step m es k x :
  builds m (body_bytes es) [] → Forall (λ b, b ≠ 0) k → blen k ≤ 100 → blen (body_bytes es) ≤ 2 ^ 28 →
  ∃ m', bson_append_bool fresh m (c_mem k) (blen k) x = Ret (true, m') ∧ builds m' (body_bytes (es ++ [e_bool k x])) [].
Proof using Type.
  intros Hm Hk Hl Hs. apply (append_step _ m); [done|by apply append_bool_entry; [done|done|lia]|].
  rewrite blen_entry. cbn [e_bool e_key e_value]. change (blen [Z.b2z x]) with 1. lia.
Qed.
Lemma txn_fields_size first n : blen (body_bytes (txn_fields first n)) ≤ 100.
Proof using Type.
  unfold txn_fields. assert (H64 : blen (entry_bytes (e_int64 (cs "txnNumber") n)) = 19).
  { rewrite blen_entry. cbn [e_int64 e_key e_value]. by rewrite blen_le_bytes. }
  destruct first; cbn [app]; unfold body_bytes; cbn [map concat]; rewrite !blen_app, H64; by vm_compute.
Qed.

Lemma append_number_ok m es n :
  builds m (body_bytes es) [] → blen (body_bytes es) ≤ 2 ^ 27 + 100 →
  ∃ m1 m2, bson_append_int64 fresh m (c_lit "txnNumber") 9 n = Ret (true, m1)
    ∧ bson_append_bool fresh m1 (c_lit "autocommit") 10 false = Ret (true, m2)
    ∧ builds m2 (body_bytes (es ++ txn_fields false n)) [].
Proof using Type.
  intros Hm Hs. destruct (append_int64_step m es (cs "txnNumber") n Hm) as (m1 & H1 & Hm1); [by repeat constructor|by vm_compute|lia|].
  destruct (append_bool_step m1 _ (cs "autocommit") false Hm1) as (m2 & H2 & Hm2); [by repeat constructor|by vm_compute| |].
  { rewrite body_bytes_app, blen_app, body_bytes_one, blen_entry. cbn [e_int64 e_key e_value]. rewrite blen_le_bytes.
    change (blen (cs "txnNumber")) with 9. lia. }
  exists m1, m2. split; [exact H1|]. split; [exact H2|]. by rewrite <- app_assoc in Hm2.
Qed.
Lemma append_txn_ok s m e es :
  builds m (body_bytes (e :: es)) [] → Forall entry_ok (e :: es) → blen (body_bytes (e :: es)) ≤ 2 ^ 27 → plain_name (e_key e) →
  ∃ m', _mongoc_client_session_append_txn fresh (Some s) m = Ret (true, None, Some (after_command s (e_key e)), m')
    ∧ builds m' (body_bytes ((e :: es) ++ added_fields s (e_key e))) [].
Proof using Type.
  intros Hm Hes Hs Hp. unfold _mongoc_client_session_append_txn. rewrite (get_data_builds _ _ _ Hm). cbn [bind].
  change (doc_bytes (body_bytes (e :: es))) with (doc_of (e :: es)). rewrite doc_of_nonempty by by apply Forall_cons in Hes as [? _].
  cbn [bind]. unfold after_command, added_fields. set (n := ss_txn_number (cs_server_session s)).
  assert (Hnum : ∀ (s : cs_t) m es, builds m (body_bytes es) [] → blen (body_bytes es) ≤ 2 ^ 27 + 100 →
    ∃ m', (let* r := bson_append_int64 fresh m (c_lit "txnNumber") 9 n in
           let* r := bson_append_bool fresh r.2 (c_lit "autocommit") 10 false in
           Ret (true, @None bson_error_t, Some s, r.2)) = Ret (true, None, Some s, m')
      ∧ builds m' (body_bytes (es ++ txn_fields false n)) []).
  { intros s1 m1 es1 H1 H2. destruct (append_number_ok m1 es1 n H1 H2) as (m2 & m3 & E2 & E3 & Hm3).
    rewrite E2. cbn [bind snd]. rewrite E3. by exists m3. }
  assert (Hsame : ∃ m', Ret (true, @None bson_error_t, Some (no_transaction s), m) = Ret (true, None, Some (no_transaction s), m')
    ∧ builds m' (body_bytes ((e :: es) ++ [])) []) by (exists m; by rewrite app_nil_r).
  destruct (cs_txn_state s).
  - exists m. by rewrite app_nil_r.
  - destruct (append_bool_step m (e :: es) (cs "startTransaction") true Hm) as (m1 & E1 & Hm1); [by repeat constructor|by vm_compute|lia|].
    change (bson_append_bool fresh m (c_lit "startTransaction") 16 true = Ret (true, m1)) in E1. rewrite E1. cbn [bind snd].
    destruct (Hnum (set_txn_state MONGOC_INTERNAL_TRANSACTION_IN_PROGRESS s) m1 _ Hm1) as (m2 & E2 & Hm2).
    { rewrite body_bytes_app, blen_app, body_bytes_one, blen_entry. cbn [e_bool e_key e_value].
      change (blen (cs "startTransaction")) with 16. change (blen [Z.b2z true]) with 1. lia. }
    exists m2. split; [exact E2|]. by rewrite <- app_assoc in Hm2.
  - by apply Hnum; [|lia].
  - by apply Hnum; [|lia].
  - rewrite command_name by (done || unfold INT_MAX; lia). cbn [bind deref].
    destruct (streq (e_key e) (cs "commitTransaction")); [by apply Hnum; [|lia]|exact Hsame].
  - exact Hsame.
  - exact Hsame.
Qed.
End AppendTxn.
