(* ===== verification/Transactions.v ===== *)
(** Transactions (mongoc/mongoc-client-session.c): starting, committing and aborting
    them, and the with_transaction helper.

    Server selection and the execution of a command are an interface,
    [CommandPath]: a command runs in a session and changes it and the world. *)
From S2P Require Import Prelude BsonIter BsonIterSafe BsonFields BsonAppend BsonBuild BsonValue BsonCopy BsonParse HostList BsonKeys MongocTypes BsonEntries CommandErrors Concerns ReadPrefs TxnOptions ServerDescription TopologyDescription ServerSession ClientSession.
From Stdlib Require Import ZArith Lia List.
From stdpp Require Import prelude strings.
#[local] Open Scope Z_scope.
#[local] Open Scope mongo_scope.

#[local] Notation cs_t := mongoc_client_session_t.

(** what running a command leaves: the return value, the error if one was written,
    the reply, the session and the world *)
Record cmd_result (W : Type) := CmdResult {
  cr_ok : bool;
  cr_error : option bson_error_t;
  cr_reply : bson_t;
  cr_session : cs_t;
  cr_world : W
}.
Arguments CmdResult {W} _ _ _ _ _.
Arguments cr_ok {W} _. Arguments cr_error {W} _. Arguments cr_reply {W} _.
Arguments cr_session {W} _. Arguments cr_world {W} _.

(** [mongoc_client_select_server (client, true, NULL, error)],
    [mongoc_client_write_command_with_opts (client, "admin", cmd, opts, reply, error)],
    the monotonic clock and [_mongoc_usleep] *)
Class CommandPath (W : Type) := {
  cp_select_server : W → option mongoc_server_description_t * option bson_error_t * W;
  cp_write_command : cs_t → bson_t → bson_t → W → res (cmd_result W);
  cp_monotonic_time : W → Z * W;
  cp_usleep : Z → W → W
}.

Section Transactions.
Context {W : Type} `{CommandPath W}.
Variable fresh : Z → Z.

Definition invalid_state (message : list Z) : bson_error_t :=
  bson_set_error MONGOC_ERROR_TRANSACTION MONGOC_ERROR_TRANSACTION_INVALID_STATE message.
(** the error after a call that may have written it *)
Definition written (old new : option bson_error_t) : option bson_error_t :=
  match new with Some _ => new | None => old end.

(** ** Commit *)
Definition create_commit_retry_wc (existing_wc : option mongoc_write_concern_t) : res mongoc_write_concern_t :=
  let wc := match mongoc_write_concern_copy fresh existing_wc with
            | Some wc => wc
            | None => mongoc_write_concern_new fresh
            end in
  let wc := if mongoc_write_concern_get_wtimeout_int64 wc <=? 0
            then mongoc_write_concern_set_wtimeout_int64 wc MONGOC_DEFAULT_WTIMEOUT_FOR_COMMIT_RETRY else wc in
  mongoc_write_concern_set_w wc MONGOC_WRITE_CONCERN_W_MAJORITY.

(** a command with the recovery token *)
Definition finish_command (name : list Z) (s : cs_t) : res bson_t :=
  let* r := BSON_APPEND_INT32 fresh (bson_init fresh) name 1 in
  let* m := match cs_recovery_token s with
            | Some token => let* r := BSON_APPEND_DOCUMENT fresh r.2 (cs "recoveryToken") token in Ret r.2
            | None => Ret r.2
            end in
  bson_get_data m.

(** the write concern is appended through its pointer: the session's own keeps the
    encoded document *)
Definition append_txn_write_concern (s : cs_t) (retry_wc : option mongoc_write_concern_t) (opts : bson_mem)
    : res (bool * option mongoc_write_concern_t * cs_t * bson_mem) :=
  let o := cs_txn_opts s in
  match retry_wc with
  | Some _ =>
      let* r := mongoc_write_concern_append fresh retry_wc opts in
      let '(ok, wc, opts) := r in Ret (ok, wc, s, opts)
  | None =>
      match to_write_concern o with
      | Some _ =>
          let* r := mongoc_write_concern_append fresh (to_write_concern o) opts in
          let '(ok, wc, opts) := r in
          let o := TxnOpt (to_read_concern o) wc (to_read_prefs o) (to_max_commit_time_ms o) in
          Ret (ok, None, set_txn_opts o s, opts)
      | None => Ret (true, None, s, opts)
      end
  end.

(** the options of one attempt, or the error *)
Definition commit_options (s : cs_t) (explicitly_retrying retrying_after_error : bool)
    (retry_wc : option mongoc_write_concern_t) (opts : bson_mem)
    : res ((bson_mem * option mongoc_write_concern_t * cs_t) + (bson_error_t * cs_t)) :=
  let* a := mongoc_client_session_append fresh s opts in
  let '(ok, e, opts) := a in
  if negb ok then let* e := deref e in Ret (inr (e, s))
  else
    let max_commit_time_ms := to_max_commit_time_ms (cs_txn_opts s) in
    let* t := (if negb (max_commit_time_ms =? DEFAULT_MAX_COMMIT_TIME_MS)
               then bson_append_int64 fresh opts (c_lit "maxTimeMS") (-1) max_commit_time_ms
               else Ret (true, opts)) in
    let '(ok, opts) := t in
    if negb ok then
      Ret (inr (bson_set_error MONGOC_ERROR_BSON MONGOC_ERROR_BSON_INVALID (cs "error appending maxCommitTimeMS"), s))
    else
      let* retry_wc :=
        (if negb (bool_decide (is_Some retry_wc)) && (retrying_after_error || explicitly_retrying) then
           let* wc := create_commit_retry_wc (match to_write_concern (cs_txn_opts s) with
                                              | Some wc => Some wc
                                              | None => cl_write_concern (cs_client s)
                                              end) in
           Ret (Some wc)
         else Ret retry_wc) in
      let* r := append_txn_write_concern s retry_wc opts in
      let '(ok, retry_wc, s, opts) := r in
      if negb ok then Ret (inr (invalid_state (cs "Invalid transaction write concern"), s))
      else Ret (inl (opts, retry_wc, s)).

(** the reply for the caller when the result is unknown *)
Definition unknown_result_reply (reply_local : bson_t) : res bson_t :=
  let* m := bson_copy_to_excluding_noinit_va fresh reply_local (bson_init fresh) [cs "errorLabels"] in
  let* m := copy_labels_plus_unknown_commit_result fresh reply_local m in
  bson_get_data m.

(** [reply]: whether the caller wants one; it holds an empty document at first.
    The result: success, the error, the reply, the session, the world.  [fuel]
    bounds the jumps to [retry]: there is at most one. *)
Fixpoint commit_loop (fuel : nat) (cmd : bson_t) (reply explicitly_retrying retrying_after_error : bool)
    (retry_wc : option mongoc_write_concern_t) (opts : bson_mem) (r : bool) (err : option bson_error_t)
    (s : cs_t) (w : W) : res (bool * option bson_error_t * option bson_t * cs_t * W) :=
  match fuel with
  | O => Stuck OutOfFuel
  | S fuel' =>
      let no_reply := if reply then Some bson_empty_doc else None in
      let* o := commit_options s explicitly_retrying retrying_after_error retry_wc opts in
      match o with
      | inr (e, s) => Ret (r, Some e, no_reply, s, w)
      | inl (opts, retry_wc, s) =>
          let* opts_doc := bson_get_data opts in
          let* c := cp_write_command s cmd opts_doc w in
          let err := written err (cr_error c) in
          let* error_type := _mongoc_write_error_get_type (cr_ok c) err (cr_reply c) in
          if negb retrying_after_error && bool_decide (error_type = MONGOC_WRITE_ERR_RETRY) then
            let* opts := bson_reinit opts in
            commit_loop fuel' cmd reply explicitly_retrying true retry_wc opts (cr_ok c) err
              (_mongoc_client_session_unpin (cr_session c)) (cr_world c)
          else
            let* unknown :=
              (if negb (cr_ok c) then
                 let* e := deref err in
                 Ret ((e_domain e =? MONGOC_ERROR_SERVER_SELECTION)
                      || bool_decide (error_type = MONGOC_WRITE_ERR_RETRY)
                      || bool_decide (error_type = MONGOC_WRITE_ERR_WRITE_CONCERN)
                      || (e_code e =? MONGOC_ERROR_MAX_TIME_MS_EXPIRED))
               else Ret false) in
            if unknown : bool then
              let* rep := (if reply then let* d := unknown_result_reply (cr_reply c) in Ret (Some d) else Ret None) in
              Ret (cr_ok c, err, rep, _mongoc_client_session_unpin (cr_session c), cr_world c)
            else
              Ret (cr_ok c, err, (if reply then Some (cr_reply c) else None), cr_session c, cr_world c)
      end
  end.
Definition txn_commit (s : cs_t) (explicitly_retrying reply : bool) (w : W) :=
  let* cmd := finish_command (cs "commitTransaction") s in
  commit_loop 2 cmd reply explicitly_retrying false None (bson_init fresh) false (Some no_error) s w.

(** ** Abort *)

(** errors are logged, not returned *)
Definition txn_abort (s : cs_t) (w : W) : res (cs_t * W) :=
  let* a := mongoc_client_session_append fresh s (bson_init fresh) in
  let '(ok, _, opts) := a in
  if negb ok then Ret (s, w)
  else
    let* a := append_txn_write_concern s None opts in
    let '(ok, _, s, opts) := a in
    if negb ok then Ret (s, w)
    else
      let* cmd := finish_command (cs "abortTransaction") s in
      let* opts_doc := bson_get_data opts in
      let* c := cp_write_command s cmd opts_doc w in
      let* error_type := _mongoc_write_error_get_type (cr_ok c) (cr_error c) (cr_reply c) in
      let* c := (if bool_decide (error_type = MONGOC_WRITE_ERR_RETRY)
                 then cp_write_command (_mongoc_client_session_unpin (cr_session c)) cmd opts_doc (cr_world c)
                 else Ret c) in
      Ret (if negb (cr_ok c) then _mongoc_client_session_unpin (cr_session c) else cr_session c, cr_world c).

(** ** The calls of the interface *)
Definition mongoc_client_session_start_transaction (s : cs_t) (opts : option mongoc_transaction_opt_t) (w : W)
    : res (bool * option bson_error_t * cs_t * W) :=
  let '(sd, error, w) := cp_select_server w in
  match sd with
  | None => Ret (false, error, s, w)
  | Some sd =>
      if (sd_max_wire_version sd <? 7)
         || ((sd_max_wire_version sd <? 8) && bool_decide (sd_type sd = MONGOC_SERVER_MONGOS)) then
        Ret (false, Some (invalid_state (cs "Multi-document transactions are not supported by this server version")), s, w)
      else
        match cs_txn_state s with
        | MONGOC_INTERNAL_TRANSACTION_STARTING | MONGOC_INTERNAL_TRANSACTION_IN_PROGRESS =>
            Ret (false, Some (invalid_state (cs "Transaction already in progress")), s, w)
        | MONGOC_INTERNAL_TRANSACTION_ENDING => Stuck AssertFailed
        | _ =>
            let ss := cs_server_session s in
            let* n := chk64 (ss_txn_number ss + 1) in
            let s := set_server_session (ServerSession (ss_last_used_usec ss) (ss_lsid ss) n (ss_dirty ss)) s in
            let d := so_default_txn_opts (cs_opts s) in
            let* o := txn_opts_set fresh (cs_txn_opts s) (to_read_concern d) (to_write_concern d) (to_read_prefs d)
                        (to_max_commit_time_ms d) in
            let* o := match opts with
                      | Some opts => txn_opts_set fresh o (to_read_concern opts) (to_write_concern opts)
                                       (to_read_prefs opts) (to_max_commit_time_ms opts)
                      | None => Ret o
                      end in
            let s := set_txn_opts o s in
            if negb (mongoc_write_concern_is_acknowledged (to_write_concern o)) then
              Ret (false, Some (invalid_state (cs "Transactions do not support unacknowledged write concern")), s, w)
            else
              let s := _mongoc_client_session_unpin s in
              let s := set_txn_state MONGOC_INTERNAL_TRANSACTION_STARTING s in
              Ret (true, None, set_recovery_token None s, w)
        end
  end.

(** the reply of a mocked failure *)
Definition label_reply (label : list Z) : res bson_t :=
  let* r := BSON_APPEND_ARRAY_BEGIN fresh (bson_init fresh) (cs "errorLabels") in
  if negb r.1 then Stuck OutOfBounds
  else
    (* the array is never ended: the length of the document does not count it *)
    let* r := BSON_APPEND_UTF8 fresh r.2 (cs "0") label in
    let m := Mem (m_inline r.2) (m_rdonly r.2) (m_realloc r.2) (m_buf r.2) (tail (m_levels r.2)) in
    bson_get_data m.
Definition mongoc_client_session_commit_transaction (s : cs_t) (reply : bool) (w : W)
    : res (bool * option bson_error_t * option bson_t * cs_t * W) :=
  let empty := if reply then Some bson_empty_doc else None in
  match cs_fail_commit_label s with
  | Some label =>
      let* _ := bson_assert reply in
      let* d := label_reply label in
      let w := if negb (cs_with_txn_timeout_ms s =? 0) then cp_usleep (cs_with_txn_timeout_ms s * 1000) w else w in
      Ret (false, None, Some d, s, w)
  | None =>
      match cs_txn_state s with
      | MONGOC_INTERNAL_TRANSACTION_NONE =>
          Ret (false, Some (invalid_state (cs "No transaction started")), empty, s, w)
      | MONGOC_INTERNAL_TRANSACTION_STARTING | MONGOC_INTERNAL_TRANSACTION_COMMITTED_EMPTY =>
          Ret (true, None, empty, set_txn_state MONGOC_INTERNAL_TRANSACTION_COMMITTED_EMPTY s, w)
      | MONGOC_INTERNAL_TRANSACTION_COMMITTED | MONGOC_INTERNAL_TRANSACTION_IN_PROGRESS =>
          let explicitly_retrying := bool_decide (cs_txn_state s = MONGOC_INTERNAL_TRANSACTION_COMMITTED) in
          let* r := txn_commit (set_txn_state MONGOC_INTERNAL_TRANSACTION_ENDING s) explicitly_retrying reply w in
          let '(ok, error, rep, s, w) := r in
          Ret (ok, error, rep, set_txn_state MONGOC_INTERNAL_TRANSACTION_COMMITTED s, w)
      | MONGOC_INTERNAL_TRANSACTION_ENDING => Stuck AssertFailed
      | MONGOC_INTERNAL_TRANSACTION_ABORTED =>
          Ret (false, Some (invalid_state (cs "Cannot call commitTransaction after calling abortTransaction")), empty, s, w)
      end
  end.

Definition mongoc_client_session_abort_transaction (s : cs_t) (w : W) : res (bool * option bson_error_t * cs_t * W) :=
  match cs_txn_state s with
  | MONGOC_INTERNAL_TRANSACTION_STARTING =>
      let s := set_txn_state MONGOC_INTERNAL_TRANSACTION_ABORTED s in
      Ret (true, None, set_txn_opts (txn_opts_cleanup (cs_txn_opts s)) s, w)
  | MONGOC_INTERNAL_TRANSACTION_IN_PROGRESS =>
      let* r := txn_abort (set_txn_state MONGOC_INTERNAL_TRANSACTION_ENDING s) w in
      Ret (true, None, set_txn_state MONGOC_INTERNAL_TRANSACTION_ABORTED r.1, r.2)
  | MONGOC_INTERNAL_TRANSACTION_COMMITTED | MONGOC_INTERNAL_TRANSACTION_COMMITTED_EMPTY =>
      Ret (false, Some (invalid_state (cs "Cannot call abortTransaction after calling commitTransaction")), s, w)
  | MONGOC_INTERNAL_TRANSACTION_ABORTED =>
      Ret (false, Some (invalid_state (cs "Cannot call abortTransaction twice")), s, w)
  | MONGOC_INTERNAL_TRANSACTION_ENDING => Stuck AssertFailed
  | MONGOC_INTERNAL_TRANSACTION_NONE =>
      Ret (false, Some (invalid_state (cs "No transaction started")), s, w)
  end.

(** ** The with_transaction helper *)
Definition MAX_TIME_MS_EXPIRED : list Z := cs "MaxTimeMSExpired".
Definition timeout_exceeded (expire_at : Z) (w : W) : bool * W :=
  let '(current_time, w) := cp_monotonic_time w in (current_time >=? expire_at, w).
(** the code at the top level, or inside a write concern error *)
Definition code_name_is_expired (f : option bson_iter_t) : res bool :=
  match f with
  | Some it =>
      let* h := BSON_ITER_HOLDS it BSON_TYPE_UTF8 in
      if h : bool then let* name := utf8_string it in Ret (streq name MAX_TIME_MS_EXPIRED) else Ret false
  | None => Ret false
  end.
Definition _max_time_ms_failure (reply : option bson_t) : res bool :=
  match reply with
  | None => Ret false
  | Some reply =>
      let* r := bson_iter_init_find reply (c_lit "codeName") in
      let* top := code_name_is_expired (if r.1 then Some r.2 else None) in
      if top : bool then Ret true
      else
        let* d := bson_iter_find_descendant (bson_iter_init reply).2 (cs "writeConcernError.codeName") in
        code_name_is_expired d
  end.

(** the user's callback: the value it returns, its reply if it sets one, the error
    if it writes one *)
Record cb_result := CbResult {
  cb_ok : bool;
  cb_reply : option bson_t;
  cb_error : option bson_error_t;
  cb_session : cs_t;
  cb_world : W
}.
(** a label in the reply, and time left *)
Definition retry_on (label : list Z) (reply : bson_t) (expire_at : Z) (w : W) : res (bool * W) :=
  let* l := mongoc_error_has_label reply label in
  if l : bool then let '(late, w) := timeout_exceeded expire_at w in Ret (negb late, w) else Ret (false, w).

(** how the inner loop ends: with a result, or back to the outer loop *)
Inductive commit_end :=
| Finished (ok : bool) (error : option bson_error_t) (reply : bson_t) (s : cs_t) (w : W)
| RestartTxn (error : option bson_error_t) (s : cs_t) (w : W).
Fixpoint with_txn_commit (fuel : nat) (expire_at : Z) (error : option bson_error_t) (s : cs_t) (w : W) : res commit_end :=
  match fuel with
  | O => Stuck OutOfFuel
  | S fuel' =>
      let* r := mongoc_client_session_commit_transaction s true w in
      let '(ok, e, reply, s, w) := r in
      let error := written error e in
      let* reply := deref reply in
      if negb ok then
        let* expired := _max_time_ms_failure (Some reply) in
        if expired : bool then Ret (Finished ok error reply s w)
        else
          let* u := retry_on UNKNOWN_COMMIT_RESULT reply expire_at w in
          let '(again, w) := u in
          if again : bool then with_txn_commit fuel' expire_at error s w
          else
            let* t := retry_on TRANSIENT_TXN_ERR reply expire_at w in
            let '(restart, w) := t in
            if restart : bool then Ret (RestartTxn error s w) else Ret (Finished ok error reply s w)
      else Ret (Finished ok error reply s w)
  end.

(** the result: the value, the error, the reply that is copied out ([None]: an empty
    one), the session and the world.  [fuel] bounds both loops. *)
Fixpoint with_txn_loop (fuel : nat) (cb : cs_t → W → res cb_result) (opts : option mongoc_transaction_opt_t)
    (expire_at : Z) (error : option bson_error_t) (s : cs_t) (w : W)
    : res (bool * option bson_error_t * option bson_t * cs_t * W) :=
  match fuel with
  | O => Stuck OutOfFuel
  | S fuel' =>
      let* r := mongoc_client_session_start_transaction s opts w in
      let '(ok, e, s, w) := r in
      let error := written error e in
      if negb ok then Ret (ok, error, None, s, w)
      else
        let* c := cb s w in
        let error := written error (cb_error c) in
        let state := cs_txn_state (cb_session c) in
        let active_reply := default bson_empty_doc (cb_reply c) in
        if negb (cb_ok c) then
          let* a := (if bool_decide (state = MONGOC_INTERNAL_TRANSACTION_STARTING)
                        || bool_decide (state = MONGOC_INTERNAL_TRANSACTION_IN_PROGRESS)
                     then
                       let* a := mongoc_client_session_abort_transaction (cb_session c) (cb_world c) in
                       let '(ok, _, s, w) := a in
                       let* _ := bson_assert ok in Ret (s, w)
                     else Ret (cb_session c, cb_world c)) in
          let '(s, w) := a in
          let* t := retry_on TRANSIENT_TXN_ERR active_reply expire_at w in
          let '(again, w) := t in
          if again : bool then with_txn_loop fuel' cb opts expire_at error s w
          else Ret (false, error, Some active_reply, s, w)
        else if bool_decide (state = MONGOC_INTERNAL_TRANSACTION_ABORTED)
                || bool_decide (state = MONGOC_INTERNAL_TRANSACTION_NONE)
                || bool_decide (state = MONGOC_INTERNAL_TRANSACTION_COMMITTED)
                || bool_decide (state = MONGOC_INTERNAL_TRANSACTION_COMMITTED_EMPTY) then
          Ret (true, error, Some active_reply, cb_session c, cb_world c)
        else
          let* f := with_txn_commit fuel expire_at error (cb_session c) (cb_world c) in
          match f with
          | Finished ok error reply s w => Ret (ok, error, Some reply, s, w)
          | RestartTxn error s w => with_txn_loop fuel' cb opts expire_at error s w
          end
  end.
Definition mongoc_client_session_with_transaction (fuel : nat) (s : cs_t) (cb : cs_t → W → res cb_result)
    (opts : option mongoc_transaction_opt_t) (w : W) : res (bool * option bson_error_t * bson_t * cs_t * W) :=
  let timeout := if cs_with_txn_timeout_ms s >? 0 then cs_with_txn_timeout_ms s else WITH_TXN_TIMEOUT_MS in
  let '(now, w) := cp_monotonic_time w in
  let* timeout := chk64 (timeout * 1000) in
  let* expire_at := chk64 (now + timeout) in
  let* r := with_txn_loop fuel cb opts expire_at None s w in
  let '(ok, error, active_reply, s, w) := r in
  Ret (ok, error, default bson_empty_doc active_reply, s, w).
End Transactions.
