(* ===== verification/TxnProps.v ===== *)
(** Transactions: what each operation does, for every way of running commands that
    satisfies [CommandPathOk]: the documents it sends, its result, the session it
    leaves. *)
From S2P Require Import Prelude BsonIter BsonIterSafe BsonFields BsonAppend BsonBuild BsonValue BsonCopy BsonParse HostList BsonKeys MongocTypes BsonEntries CommandErrors Concerns ReadPrefs TxnOptions ServerDescription TopologyDescription ServerSession ClientSession SessionProps Transactions.
From Stdlib Require Import ZArith Lia List.
From stdpp Require Import prelude strings.
#[local] Open Scope Z_scope.
#[local] Open Scope mongo_scope.

#[local] Notation cs_t := mongoc_client_session_t.

(** ** What running a command promises *)

(** a reply: a document of at most 64 MB that the driver would write the same way,
    whose error labels, if any, are strings *)
Record reply_doc (es : list entry) (labels : list (list Z)) : Prop := {
  rd_entries : Forall entry_ok es;
  rd_canonical : Forall canonical_entry es;
  rd_size : blen (body_bytes es) ≤ 2 ^ 26;
  rd_labels : has_labels es labels;
  rd_labels_ok : labels_ok (UNKNOWN_COMMIT_RESULT :: labels)
}.
Definition reply_ok (reply : bson_t) : Prop := ∃ es labels, reply = doc_bytes (body_bytes es) ∧ reply_doc es labels.
Definition token_ok (t : option bson_t) : Prop :=
  match t with Some t => ∃ body, t = doc_bytes body ∧ bytes_ok body ∧ blen body ≤ 2 ^ 26 | None => True end.
Definition concern_ok (wc : option mongoc_write_concern_t) : Prop :=
  match wc with Some wc => wc_ok wc | None => True end.

(** the invariant of a session *)
Record session_ok (s : cs_t) : Prop := {
  se_txn : txn_opts_ok (cs_txn_opts s);
  se_default : txn_opts_ok (so_default_txn_opts (cs_opts s));
  se_client : concern_ok (cl_write_concern (cs_client s));
  se_token : token_ok (cs_recovery_token s);
  se_number : 0 ≤ ss_txn_number (cs_server_session s) < 2 ^ 63
}.
(** options up to the caches *)
Record same_opts (o o' : mongoc_transaction_opt_t) : Prop := {
  sp_read : to_read_concern o' = to_read_concern o;
  sp_write : wc_value (to_write_concern o') = wc_value (to_write_concern o);
  sp_prefs : to_read_prefs o' = to_read_prefs o;
  sp_ms : to_max_commit_time_ms o' = to_max_commit_time_ms o
}.
(** what a command that runs while a transaction ends leaves alone *)
Record same_txn (s s' : cs_t) : Prop := {
  st_state : cs_txn_state s' = cs_txn_state s;
  st_opts : same_opts (cs_txn_opts s) (cs_txn_opts s');
  st_txn : txn_opts_ok (cs_txn_opts s) → txn_opts_ok (cs_txn_opts s');
  st_default : cs_opts s' = cs_opts s;
  st_client : cs_client s' = cs_client s;
  st_number : ss_txn_number (cs_server_session s') = ss_txn_number (cs_server_session s);
  st_id : cs_client_session_id s' = cs_client_session_id s;
  st_label : cs_fail_commit_label s' = cs_fail_commit_label s;
  st_timeout : cs_with_txn_timeout_ms s' = cs_with_txn_timeout_ms s
}.
Lemma same_opts_refl o : same_opts o o.
Proof. by constructor. Qed.
Lemma same_opts_trans o1 o2 o3 : same_opts o1 o2 → same_opts o2 o3 → same_opts o1 o3.
Proof. intros [] []. constructor; congruence. Qed.
Lemma same_txn_refl s : same_txn s s.
Proof. by constructor. Qed.
Lemma same_txn_trans s1 s2 s3 : same_txn s1 s2 → same_txn s2 s3 → same_txn s1 s3.
Proof. intros [? H1] [? H2]. constructor; try congruence; [by eapply same_opts_trans|auto]. Qed.
Lemma same_session_ok s s' : session_ok s → same_txn s s' → token_ok (cs_recovery_token s') → session_ok s'.
Proof. intros [] [? ? ? ? ? ?]. constructor; [auto|congruence|congruence|done|congruence]. Qed.
Lemma unpin_same s : same_txn s (_mongoc_client_session_unpin s).
Proof. by constructor. Qed.
Lemma unpin_ok s : session_ok s → session_ok (_mongoc_client_session_unpin s).
Proof. intros []. by constructor. Qed.
Lemma set_state_ok st s : session_ok s → session_ok (set_txn_state st s).
Proof. intros []. by constructor. Qed.

(** the log of the commands that were run, with their options; the monotonic clock,
    which does not go back: a reading lies between the times before and after it *)
Class CommandPathOk (W : Type) `{CommandPath W} := {
  cp_log : W → list (bson_t * bson_t);
  cp_clock : W → Z;
  cp_write_law s cmd opts w :
    session_ok s → cs_txn_state s = MONGOC_INTERNAL_TRANSACTION_ENDING → bson_ok cmd → bson_ok opts →
    ∃ c, cp_write_command s cmd opts w = Ret c ∧ same_txn s (cr_session c)
      ∧ token_ok (cs_recovery_token (cr_session c)) ∧ (cr_ok c = false → is_Some (cr_error c)) ∧ reply_ok (cr_reply c)
      ∧ cp_log (cr_world c) = cp_log w ++ [(cmd, opts)] ∧ cp_clock w ≤ cp_clock (cr_world c);
  cp_select_law w sd e w' : cp_select_server w = (sd, e, w') →
    cp_log w' = cp_log w ∧ cp_clock w ≤ cp_clock w' ∧ (sd = None → is_Some e);
  cp_time_law w t w' : cp_monotonic_time w = (t, w') →
    cp_log w' = cp_log w ∧ 0 ≤ cp_clock w ≤ t ∧ t ≤ cp_clock w';
  cp_usleep_law us w : cp_log (cp_usleep us w) = cp_log w ∧ cp_clock w ≤ cp_clock (cp_usleep us w)
}.

(** ** The documents that are sent *)
Definition command_entries (name : list Z) (s : cs_t) : list entry :=
  e_int32 name 1 :: match cs_recovery_token s with Some t => [Entry (cs "recoveryToken") 0x03 t] | None => [] end.
Definition option_entries (s : cs_t) (ms : Z) (wc : option mongoc_write_concern_t) : list entry :=
  [e_int64 (cs "sessionId") (cs_client_session_id s)]
  ++ (if ms =? DEFAULT_MAX_COMMIT_TIME_MS then [] else [e_int64 (cs "maxTimeMS") ms])
  ++ option_list (wc_entry <$> wc).
Lemma reply_bson_ok r : reply_ok r → bson_ok r.
Proof. intros (es & labels & -> & [H _ Hs _ _]). apply doc_of_ok; [done|lia]. Qed.

Section Sent.
Variable fresh : Z → Z.

Lemma finish_command_ok name s :
  session_ok s → key_ok name → blen name ≤ 100 →
  finish_command fresh name s = Ret (doc_of (command_entries name s)) ∧ bson_ok (doc_of (command_entries name s)).
Proof using Type.
  intros Hs Hk Hl. pose proof (blen_nonneg name). unfold finish_command, BSON_APPEND_INT32. rewrite s32_small by (unfold in_s32; lia).
  assert (Hk0 : Forall (λ b, b ≠ 0) name) by apply Hk. assert (Hnl : blen name < 2 ^ 29) by lia.
  destruct (append_step (bson_append_int32 fresh (bson_init fresh) (c_mem name) (blen name) 1) (bson_init fresh) [] (e_int32 name 1))
    as (m & -> & Hm); [apply init_builds|apply (append_int32_entry fresh _ [] []); [apply init_builds|done|done]| |].
  { rewrite blen_entry. cbn [e_int32 e_key e_value]. rewrite blen_le_bytes. change (blen (body_bytes [])) with 0. lia. }
  cbn [bind snd app]. pose proof (se_token _ Hs) as Ht. unfold command_entries.
  assert (Hsz : blen (body_bytes [e_int32 name 1]) ≤ 200).
  { rewrite body_bytes_one, blen_entry. cbn [e_int32 e_key e_value]. rewrite blen_le_bytes. lia. }
  destruct (cs_recovery_token s) as [t|]; cbn [token_ok] in Ht.
  - destruct Ht as (body & -> & Hb & Hbl). pose proof (blen_nonneg body). unfold BSON_APPEND_DOCUMENT.
    assert (Hes : blen (entry_bytes (Entry (cs "recoveryToken") 3 (doc_bytes body))) = 20 + blen body).
    { rewrite blen_entry. cbn [e_key e_value]. rewrite blen_doc_bytes. change (blen (cs "recoveryToken")) with 13. lia. }
    destruct (append_step (bson_append_document fresh m (c_mem (cs "recoveryToken")) (s32 (blen (cs "recoveryToken"))) (doc_bytes body))
      m [e_int32 name 1] (Entry (cs "recoveryToken") 0x03 (doc_bytes body))) as (m' & -> & Hm'); [done| |lia|].
    { apply append_document_entry; [done|by repeat constructor|done|rewrite blen_doc_bytes; lia]. }
    cbn [bind snd app] in *. split; [by eapply get_data_builds|]. apply doc_of_ok.
    + constructor; [by apply e_int32_ok|]. constructor; [|constructor].
      apply (e_doc_ok (cs "recoveryToken") body); [split; by_check|done|lia].
    + change [e_int32 name 1; ?x] with ([e_int32 name 1] ++ [x]). rewrite body_bytes_app, blen_app, (body_bytes_one (Entry _ _ _)). lia.
  - cbn [bind app] in *. split; [by eapply get_data_builds|]. apply doc_of_ok; [|lia]. constructor; [by apply e_int32_ok|constructor].
Qed.

(** ** The write concern of an attempt *)
Definition majority_concern (existing : option mongoc_write_concern_t) : mongoc_write_concern_t :=
  let e := default (mongoc_write_concern_new fresh) existing in
  WriteConcern (wc_fsync e) (wc_journal e) MONGOC_WRITE_CONCERN_W_MAJORITY
    (if wc_wtimeout e <=? 0 then MONGOC_DEFAULT_WTIMEOUT_FOR_COMMIT_RETRY else wc_wtimeout e) (wc_wtag e)
    false (bson_init fresh) false.
Lemma majority_ok e : concern_ok e → wc_ok (majority_concern e) ∧ mongoc_write_concern_is_valid (Some (majority_concern e)) = true.
Proof using Type.
  intros He. assert (Hd : wc_ok (default (mongoc_write_concern_new fresh) e)) by (destruct e; [done|apply wc_new_ok]).
  unfold majority_concern. destruct Hd as [Hf Hj Hw Ht Htag _]. set (d := default _ e) in *. clearbody d.
  assert (H : 0 < (if wc_wtimeout d <=? 0 then MONGOC_DEFAULT_WTIMEOUT_FOR_COMMIT_RETRY else wc_wtimeout d) < 2 ^ 63).
  { unfold MONGOC_DEFAULT_WTIMEOUT_FOR_COMMIT_RETRY. destruct (Z.leb_spec (wc_wtimeout d) 0); lia. }
  set (t := (if wc_wtimeout d <=? 0 then MONGOC_DEFAULT_WTIMEOUT_FOR_COMMIT_RETRY else wc_wtimeout d)) in *. clearbody t. split.
  - constructor; cbn; [done|done|unfold MONGOC_WRITE_CONCERN_W_MAJORITY; lia|lia|done|].
    exists []. split; [apply init_builds|done].
  - unfold mongoc_write_concern_is_valid. cbn [wc_fsync wc_w wc_wtimeout]. rewrite andb_false_r.
    by destruct (Z.ltb_spec t 0); [lia|].
Qed.
Lemma create_commit_retry_wc_eq e : create_commit_retry_wc fresh e = Ret (majority_concern e).
Proof using Type.
  unfold create_commit_retry_wc, majority_concern, mongoc_write_concern_get_wtimeout_int64.
  destruct e as [e|]; cbn [mongoc_write_concern_copy default from_option id wc_wtimeout]; [|done].
  destruct (wc_wtimeout e <=? 0); done.
Qed.
Lemma majority_value a b : wc_value a = wc_value b → wc_fields (majority_concern a) = wc_fields (majority_concern b).
Proof using Type.
  unfold wc_value. destruct a as [a|], b as [b|]; try done. cbn [fmap option_fmap option_map]. intros H.
  destruct a, b. unfold wc_fields in *. cbn in *. by injection H as -> -> -> -> -> ->.
Qed.

Definition attempt_concern (s : cs_t) (majority : bool) : option mongoc_write_concern_t :=
  let wc := to_write_concern (cs_txn_opts s) in
  if majority then
    Some (majority_concern (match wc with Some _ => wc | None => cl_write_concern (cs_client s) end))
  else wc.
Definition attempt_valid (s : cs_t) (majority : bool) : bool :=
  match attempt_concern s majority with Some wc => mongoc_write_concern_is_valid (Some wc) | None => true end.
Definition attempt_opts (s : cs_t) (majority : bool) : bson_t :=
  doc_of (option_entries s (to_max_commit_time_ms (cs_txn_opts s)) (attempt_concern s majority)).

Lemma attempt_value s s' majority :
  same_txn s s' → wc_value (attempt_concern s' majority) = wc_value (attempt_concern s majority).
Proof using Type.
  intros [_ [_ Hw _ _] _ _ Hc]. unfold attempt_concern. destruct majority; [|done]. unfold wc_value. cbn [fmap option_fmap option_map].
  f_equal. apply majority_value. rewrite Hc. destruct (to_write_concern (cs_txn_opts s)), (to_write_concern (cs_txn_opts s')); done.
Qed.
Lemma concern_entry_value a b : wc_value a = wc_value b →
  option_list (wc_entry <$> a) = option_list (wc_entry <$> b).
Proof using Type.
  unfold wc_value. destruct a as [a|], b as [b|]; try done. intros H. change (Some (wc_fields a) = Some (wc_fields b)) in H. apply (inj Some) in H. change ([wc_entry a] = [wc_entry b]). unfold wc_entry. by rewrite (wc_entries_fields _ _ H).
Qed.
Lemma attempt_opts_same s s' majority : same_txn s s' → attempt_opts s' majority = attempt_opts s majority.
Proof using Type.
  intros H. unfold attempt_opts, option_entries. rewrite (concern_entry_value _ _ (attempt_value _ _ majority H)).
  destruct H as [_ [_ _ _ ->] _ _ _ _ ->]. done.
Qed.
Lemma attempt_concern_ok s majority : session_ok s → concern_ok (attempt_concern s majority).
Proof using Type.
  intros [[Hwc _] _ Hc _ _]. unfold attempt_concern. destruct majority; [|exact Hwc]. apply majority_ok.
  by destruct (to_write_concern (cs_txn_opts s)).
Qed.
Lemma majority_valid s : session_ok s → attempt_valid s true = true.
Proof using Type.
  intros [[Hwc _] _ Hc _ _]. unfold attempt_valid, attempt_concern. apply majority_ok.
  by destruct (to_write_concern (cs_txn_opts s)).
Qed.

(** ** One attempt *)

(** the majority concern of a retry, once it is made *)
Definition retry_concern_ok (s : cs_t) (majority : bool) (wc : option mongoc_write_concern_t) : Prop :=
  match wc with
  | Some wc => majority = true ∧ wc_ok wc ∧ wc_value (Some wc) = wc_value (attempt_concern s true)
  | None => True
  end.
Lemma retry_concern_same s s' majority wc : same_txn s s' → retry_concern_ok s majority wc → retry_concern_ok s' majority wc.
Proof using Type.
  intros H. destruct wc as [wc|]; [|done]. intros (? & ? & Hv). split; [done|]. split; [done|]. by rewrite (attempt_value s s' true H).
Qed.

Lemma set_opts_same s o :
  same_opts (cs_txn_opts s) o → (txn_opts_ok (cs_txn_opts s) → txn_opts_ok o) → same_txn s (set_txn_opts o s).
Proof using Type. intros. by constructor. Qed.
Lemma attempt_size s es :
  es = option_entries s (to_max_commit_time_ms (cs_txn_opts s)) None →
  blen (body_bytes es) ≤ 100 ∧ Forall entry_ok es.
Proof using Type.
  intros ->. unfold option_entries. rewrite app_nil_r.
  assert (Hk : ∀ k x, blen (entry_bytes (e_int64 k x)) = 10 + blen k).
  { intros k x. rewrite blen_entry. cbn [e_int64 e_key e_value]. rewrite blen_le_bytes. lia. }
  destruct (_ =? _); cbn [app].
  - rewrite body_bytes_one, Hk. split; [by vm_compute|]. constructor; [|constructor]. apply e_int64_ok. split; by_check.
  - change [?a; ?b] with ([a] ++ [b]). rewrite body_bytes_app, blen_app, !body_bytes_one, !Hk. split; [by vm_compute|].
    constructor; [|constructor; [|constructor]]; apply e_int64_ok; split; by_check.
Qed.

(** the write concern is the last option *)
Lemma append_concern_ok s opts es majority wc :
  session_ok s → builds opts (body_bytes es) [] → blen (body_bytes es) ≤ 100 →
  retry_concern_ok s majority wc → (wc = None → majority = false) →
  ∃ wc' s' opts', append_txn_write_concern fresh s wc opts = Ret (attempt_valid s majority, wc', s', opts')
    ∧ same_txn s s' ∧ session_ok s' ∧ cs_recovery_token s' = cs_recovery_token s ∧ retry_concern_ok s majority wc'
    ∧ (attempt_valid s majority = true → builds opts' (body_bytes (es ++ option_list (wc_entry <$> attempt_concern s majority))) []
        ∧ (wc = None ↔ wc' = None)
        ∧ blen (body_bytes (es ++ option_list (wc_entry <$> attempt_concern s majority))) ≤ 2 ^ 29
        ∧ Forall entry_ok (option_list (wc_entry <$> attempt_concern s majority))).
Proof using Type.
  intros Hs Hm Hl Hwc Hnone. unfold append_txn_write_concern. pose proof (attempt_concern_ok s majority Hs) as Hac.
  assert (Hgo : ∀ w, wc_ok w → wc_value (Some w) = wc_value (attempt_concern s majority) →
    ∃ w' opts', mongoc_write_concern_append fresh (Some w) opts = Ret (attempt_valid s majority, Some w', opts')
      ∧ wc_ok w' ∧ wc_value (Some w') = wc_value (Some w)
      ∧ (attempt_valid s majority = true →
           builds opts' (body_bytes (es ++ option_list (wc_entry <$> attempt_concern s majority))) []
           ∧ blen (body_bytes (es ++ option_list (wc_entry <$> attempt_concern s majority))) ≤ 2 ^ 29
           ∧ Forall entry_ok (option_list (wc_entry <$> attempt_concern s majority)))).
  { intros w Hw Hv. pose proof (write_concern_append_ok fresh w opts _ Hw Hm ltac:(lia)) as H. unfold attempt_valid.
    destruct (attempt_concern s majority) as [a|]; [|done]. change (Some (wc_fields w) = Some (wc_fields a)) in Hv.
    apply (inj Some) in Hv. rewrite <- (wc_valid_fields _ _ Hv). destruct (mongoc_write_concern_is_valid (Some w)).
    - destruct H as (w' & m' & -> & Hw' & Hf & Hb & Hsz). exists w', m'. split; [done|]. split; [done|].
      split; [unfold wc_value; cbn; by rewrite Hf|]. intros _. change (option_list (wc_entry <$> Some a)) with [wc_entry a].
      assert (wc_entry a = wc_entry w) as -> by (unfold wc_entry; by rewrite (wc_entries_fields _ _ Hv)).
      split; [by apply builds_snoc|]. split; [rewrite body_bytes_app, body_bytes_one, blen_app, wc_entry_size; lia|].
      constructor; [by apply wc_entry_ok|constructor].
    - rewrite H. by exists w, opts. }
  destruct wc as [wc|].
  - destruct Hwc as (-> & Hw & Hv). destruct (Hgo wc Hw Hv) as (w' & opts' & -> & Hw' & Hv' & Hend). cbn [bind].
    exists (Some w'), s, opts'. split; [done|]. split; [apply same_txn_refl|]. split; [done|]. split; [done|].
    split; [split; [done|]; split; [done|congruence]|]. intros Hok. destruct (Hend Hok) as (? & ? & ?). done.
  - rewrite (Hnone eq_refl) in *. unfold attempt_concern, attempt_valid in *. cbn [attempt_concern] in *.
    destruct (to_write_concern (cs_txn_opts s)) as [w|] eqn:Hw.
    + destruct (Hgo w Hac eq_refl) as (w' & opts' & -> & Hw' & Hv' & Hend). cbn [bind].
      eexists None, _, opts'. split; [done|].
      assert (Hsame : same_txn s (set_txn_opts (TxnOpt (to_read_concern (cs_txn_opts s)) (Some w')
          (to_read_prefs (cs_txn_opts s)) (to_max_commit_time_ms (cs_txn_opts s))) s)).
      { apply set_opts_same; [constructor; [done| |done|done]; cbn [to_write_concern]; by rewrite Hw|]. by intros [_ ?]. }
      split; [done|]. split; [eapply same_session_ok; [done|done|apply Hs]|]. split; [done|]. split; [done|].
      intros Hok. destruct (Hend Hok) as (? & ? & ?). done.
    + exists None, s, opts. split; [done|]. split; [apply same_txn_refl|]. split; [done|]. split; [done|]. split; [done|].
      intros _. change (option_list (wc_entry <$> None)) with (@nil entry). rewrite app_nil_r. split; [done|]. split; [done|]. split; [lia|constructor].
Qed.

Lemma session_append_ok s opts :
  builds opts (body_bytes []) [] →
  ∃ m, mongoc_client_session_append fresh s opts = Ret (true, None, m)
    ∧ builds m (body_bytes [e_int64 (cs "sessionId") (cs_client_session_id s)]) [].
Proof using Type.
  intros Hm. unfold mongoc_client_session_append.
  destruct (append_step (bson_append_int64 fresh opts (c_lit "sessionId") 9 (cs_client_session_id s)) opts []
    (e_int64 (cs "sessionId") (cs_client_session_id s))) as (m & -> & Hm1); [done| | |by exists m].
  - apply append_int64_entry; [done|by repeat constructor|done].
  - rewrite blen_entry. cbn [e_int64 e_key e_value]. rewrite blen_le_bytes. by vm_compute.
Qed.
Lemma max_time_ok s m :
  builds m (body_bytes [e_int64 (cs "sessionId") (cs_client_session_id s)]) [] →
  ∃ m', (if negb (to_max_commit_time_ms (cs_txn_opts s) =? DEFAULT_MAX_COMMIT_TIME_MS)
         then bson_append_int64 fresh m (c_lit "maxTimeMS") (-1) (to_max_commit_time_ms (cs_txn_opts s))
         else Ret (true, m)) = Ret (true, m')
    ∧ builds m' (body_bytes (option_entries s (to_max_commit_time_ms (cs_txn_opts s)) None)) [].
Proof using Type.
  intros Hm. unfold option_entries. rewrite app_nil_r. destruct (_ =? _); cbn [negb]; [by exists m|].
  apply (append_step _ m); [done| |].
  - apply append_one; [done| |done|done]. split; [done|]. split; [by repeat constructor|]. left. split; [done|].
    by exists [].
  - rewrite body_bytes_one, !blen_entry. cbn [e_int64 e_key e_value]. rewrite !blen_le_bytes. by vm_compute.
Qed.

(** the write concern of the attempt, made when the first retry needs it *)
Lemma retry_concern_made s majority wc :
  session_ok s → retry_concern_ok s majority wc →
  ∃ wc', (if negb (bool_decide (is_Some wc)) && majority then
            let* wc := create_commit_retry_wc fresh (match to_write_concern (cs_txn_opts s) with
                                                     | Some wc => Some wc
                                                     | None => cl_write_concern (cs_client s)
                                                     end) in Ret (Some wc)
          else Ret wc) = Ret wc' ∧ retry_concern_ok s majority wc' ∧ (wc' = None → majority = false).
Proof using Type.
  intros Hs Hwc. destruct wc as [wc|].
  { exists (Some wc). rewrite bool_decide_true by (by exists wc). cbn [negb andb]. done. }
  rewrite bool_decide_false by (by intros [? ?]). cbn [negb andb]. destruct majority; [|by exists None].
  rewrite create_commit_retry_wc_eq. cbn [bind]. eexists. split; [done|]. split; [|done]. split; [done|].
  pose proof (attempt_concern_ok s true Hs) as H. unfold attempt_concern in *.
  split; [|by destruct (to_write_concern (cs_txn_opts s))]. by destruct (to_write_concern (cs_txn_opts s)).
Qed.
Lemma commit_options_ok s explicitly_retrying retrying_after_error wc opts :
  session_ok s → builds opts (body_bytes []) [] →
  retry_concern_ok s (retrying_after_error || explicitly_retrying) wc →
  ∃ s', same_txn s s' ∧ session_ok s' ∧ cs_recovery_token s' = cs_recovery_token s ∧
  if attempt_valid s (retrying_after_error || explicitly_retrying) then
    ∃ opts' wc' es, commit_options fresh s explicitly_retrying retrying_after_error wc opts = Ret (inl (opts', wc', s'))
      ∧ builds opts' (body_bytes es) [] ∧ attempt_opts s (retrying_after_error || explicitly_retrying) = doc_of es
      ∧ bson_ok (doc_of es) ∧ retry_concern_ok s (retrying_after_error || explicitly_retrying) wc'
  else ∃ e, commit_options fresh s explicitly_retrying retrying_after_error wc opts = Ret (inr (e, s')).
Proof using Type.
  intros Hs Hm Hwc. set (majority := retrying_after_error || explicitly_retrying) in *. unfold commit_options.
  destruct (session_append_ok s opts Hm) as (m1 & -> & Hm1). cbn [bind negb].
  destruct (max_time_ok s m1 Hm1) as (m2 & -> & Hm2). cbn [bind negb]. fold majority.
  destruct (retry_concern_made s majority wc Hs Hwc) as (wc1 & -> & Hwc1 & Hnone). cbn [bind].
  destruct (attempt_size s _ eq_refl) as [Hsz Hes].
  destruct (append_concern_ok s m2 _ majority wc1 Hs Hm2 Hsz Hwc1 Hnone)
    as (wc' & s' & m3 & -> & Hsame & Hs' & Htok & Hwc' & Hend). cbn [bind]. exists s'.
  split; [done|]. split; [done|]. split; [done|]. destruct (attempt_valid s majority) eqn:Hv; cbn [negb].
  - destruct (Hend eq_refl) as (Hm3 & _ & Hsz3 & Hes3). eexists m3, wc', _. split; [done|]. split; [exact Hm3|].
    split; [|split; [|done]].
    + unfold attempt_opts, option_entries. by rewrite app_nil_r, <- app_assoc.
    + apply doc_of_ok; [by apply Forall_app|lia].
  - by eexists.
Qed.

(** ** The reply when the result is unknown *)
Lemma unknown_result_reply_ok reply :
  reply_ok reply →
  ∃ d es labels, unknown_result_reply fresh reply = Ret d ∧ bson_ok d ∧ reply = doc_of es ∧ reply_doc es labels
    ∧ ∀ label, mongoc_error_has_label d label = Ret (bool_decide (label = UNKNOWN_COMMIT_RESULT ∨ label ∈ labels)).
Proof using Type.
  intros (es & labels & -> & Hr). pose proof Hr as [Hes Hc Hs Hl Hlok]. unfold unknown_result_reply.
  destruct (copy_excluding_entries fresh es [cs "errorLabels"] Hes Hc ltac:(lia)) as (m & -> & Hm). cbn [bind].
  destruct (commit_labels_kept fresh es labels m _ Hes ltac:(unfold INT_MAX; lia) Hl Hlok (without_ok _ [cs "errorLabels"] _ Hes)) as (m' & d & -> & Hd & Hok & Hlab);
    [by apply without_absent; left|exact Hm|pose proof (without_size [cs "errorLabels"] es); lia|].
  cbn [bind]. rewrite Hd. exists d, es, labels. done.
Qed.
End Sent.

(** ** Committing *)
Section Commit.
Context {W : Type} `{CommandPathOk W}.
Variable fresh : Z → Z.

Definition sent (w w' : W) (l : list (bson_t * bson_t)) : Prop := cp_log w' = cp_log w ++ l.
(** how the result of a command is classified *)
Definition classified (c : cmd_result W) (ty : mongoc_write_err_type_t) : Prop :=
  _mongoc_write_error_get_type (cr_ok c) (cr_error c) (cr_reply c) = Ret ty.
(** whether the server may have committed although the command failed *)
Definition unknown_result (c : cmd_result W) (ty : mongoc_write_err_type_t) : bool :=
  negb (cr_ok c) &&
  (match cr_error c with Some e => e_domain e =? MONGOC_ERROR_SERVER_SELECTION | None => false end
   || bool_decide (ty = MONGOC_WRITE_ERR_RETRY) || bool_decide (ty = MONGOC_WRITE_ERR_WRITE_CONCERN)
   || match cr_error c with Some e => e_code e =? MONGOC_ERROR_MAX_TIME_MS_EXPIRED | None => false end).
(** what the caller of a commit gets for the result [c] of the last command *)
Record commit_done (c : cmd_result W) (ty : mongoc_write_err_type_t) (reply ok : bool) (e : option bson_error_t)
    (rep : option bson_t) (s : cs_t) : Prop := {
  cd_ok : ok = cr_ok c;
  cd_error : ok = false → is_Some e ∧ e = cr_error c;
  cd_reply : bool_decide (is_Some rep) = reply;
  cd_unknown : unknown_result c ty = true → cs_server_id s = 0 ∧
    ∀ d, rep = Some d → ∃ es labels, cr_reply c = doc_of es ∧ has_labels es labels
      ∧ ∀ label, mongoc_error_has_label d label = Ret (bool_decide (label = UNKNOWN_COMMIT_RESULT ∨ label ∈ labels));
  cd_known : unknown_result c ty = false → ∀ d, rep = Some d → d = cr_reply c;
  cd_reply_ok : ∀ d, rep = Some d → bson_ok d
}.

(** the server answered the call with [c] *)
Definition answered (call : bson_t * bson_t) (c : cmd_result W) : Prop :=
  ∃ s w, cp_write_command s call.1 call.2 w = Ret c.
(** a command that ran *)
Record ran (s : cs_t) (cmd opts : bson_t) (w : W) (c : cmd_result W) : Prop := {
  rn_same : same_txn s (cr_session c);
  rn_ok : session_ok (cr_session c);
  rn_error : cr_ok c = false → is_Some (cr_error c);
  rn_reply : reply_ok (cr_reply c);
  rn_answered : answered (cmd, opts) c;
  rn_run : ∃ s0, cp_write_command s0 cmd opts w = Ret c;
  rn_sent : sent w (cr_world c) [(cmd, opts)];
  rn_clock : cp_clock w ≤ cp_clock (cr_world c)
}.
Lemma write_command_ran s cmd opts w :
  session_ok s → cs_txn_state s = MONGOC_INTERNAL_TRANSACTION_ENDING → bson_ok cmd → bson_ok opts →
  ∃ c, cp_write_command s cmd opts w = Ret c ∧ ran s cmd opts w c.
Proof using Type.
  intros Hs He Hc Ho. destruct (cp_write_law s cmd opts w Hs He Hc Ho) as (c & Hw & ? & ? & ? & ? & ? & ?).
  exists c. split; [done|]. constructor; try done; [by eapply same_session_ok|by exists s, w|by exists s].
Qed.
Lemma ran_classified s cmd opts w c err :
  ran s cmd opts w c →
  ∃ ty, classified c ty ∧ _mongoc_write_error_get_type (cr_ok c) (written err (cr_error c)) (cr_reply c) = Ret ty.
Proof using Type.
  intros [_ _ He Hr _ _ _ _].
  pose proof (write_error_get_type_returns _ _ _ (reply_bson_ok _ Hr) He) as Ht.
  apply returns_Ret in Ht as (ty & Ht & _). exists ty. split; [done|]. rewrite <- Ht. unfold _mongoc_write_error_get_type.
  destruct (cr_ok c); [done|]. by destruct (He eq_refl) as [e ->].
Qed.

(** the end of a commit after its last command *)
Lemma commit_concludes s cmd opts w c ty err (reply : bool) :
  ran s cmd opts w c → classified c ty →
  ∃ rep s',
    (let* unknown :=
      (if negb (cr_ok c) then
         let* e := deref (written err (cr_error c)) in
         Ret ((e_domain e =? MONGOC_ERROR_SERVER_SELECTION)
              || bool_decide (ty = MONGOC_WRITE_ERR_RETRY)
              || bool_decide (ty = MONGOC_WRITE_ERR_WRITE_CONCERN)
              || (e_code e =? MONGOC_ERROR_MAX_TIME_MS_EXPIRED))
       else Ret false) in
    if unknown : bool then
      let* rep := (if reply then let* d := Transactions.unknown_result_reply fresh (cr_reply c) in Ret (Some d) else Ret None) in
      Ret (cr_ok c, written err (cr_error c), rep, _mongoc_client_session_unpin (cr_session c), cr_world c)
    else
      Ret (cr_ok c, written err (cr_error c), (if reply then Some (cr_reply c) else None), cr_session c, cr_world c))
    = Ret (cr_ok c, written err (cr_error c), rep, s', cr_world c)
  ∧ same_txn s s' ∧ session_ok s'
  ∧ ∀ st, commit_done c ty reply (cr_ok c) (written err (cr_error c)) rep (set_txn_state st s').
Proof using Type.
  intros Hran Hty. pose proof Hran as [Hsame Hok He Hr _ _ _ _].
  assert (Hw : cr_ok c = false → written err (cr_error c) = cr_error c).
  { intros Hf. by destruct (He Hf) as [e ->]. }
  assert (Hu : (if negb (cr_ok c) then
         let* e := deref (written err (cr_error c)) in
         Ret ((e_domain e =? MONGOC_ERROR_SERVER_SELECTION) || bool_decide (ty = MONGOC_WRITE_ERR_RETRY)
              || bool_decide (ty = MONGOC_WRITE_ERR_WRITE_CONCERN) || (e_code e =? MONGOC_ERROR_MAX_TIME_MS_EXPIRED))
       else Ret false) = Ret (unknown_result c ty)).
  { unfold unknown_result. destruct (cr_ok c) eqn:E; [done|]. rewrite Hw by done. by destruct (He eq_refl) as [e ->]. }
  rewrite Hu. cbn [bind]. assert (Herr : cr_ok c = false → is_Some (written err (cr_error c)) ∧ written err (cr_error c) = cr_error c).
  { intros Hf. rewrite (Hw Hf). split; [by apply He|done]. }
  pose proof (reply_bson_ok _ Hr) as Hrb.
  destruct (unknown_result c ty) eqn:Hun.
  - destruct (unknown_result_reply_ok fresh _ Hr) as (d & es & labels & Hd & Hdok & Hes & [_ _ _ Hl _] & Hlab).
    exists (if reply then Some d else None), (_mongoc_client_session_unpin (cr_session c)).
    split; [by destruct reply; [rewrite Hd|]|]. split; [eapply same_txn_trans; [exact Hsame|apply unpin_same]|].
    split; [by apply unpin_ok|]. intros st. constructor; [done|done|by destruct reply| |congruence|].
    + intros _. split; [done|]. intros d0. destruct reply; [|done]. intros [= <-]. by exists es, labels.
    + intros d0. destruct reply; [|done]. by intros [= <-].
  - exists (if reply then Some (cr_reply c) else None), (cr_session c). split; [done|]. split; [done|]. split; [done|].
    intros st. constructor; [done|done|by destruct reply|congruence| |].
    + intros _ d. destruct reply; [|done]. by intros [= <-].
    + intros d. destruct reply; [|done]. by intros [= <-].
Qed.

Lemma retry_concern_true s majority wc : retry_concern_ok fresh s majority wc → retry_concern_ok fresh s true wc.
Proof using Type. destruct wc; [|done]. intros (_ & ? & ?). done. Qed.
Lemma loop_step n cmd (reply explicitly_retrying retrying_after_error : bool) wc opts r err s w :
  session_ok s → cs_txn_state s = MONGOC_INTERNAL_TRANSACTION_ENDING → bson_ok cmd → builds opts (body_bytes []) [] →
  retry_concern_ok fresh s (retrying_after_error || explicitly_retrying) wc →
  let loop := commit_loop fresh (S n) cmd reply explicitly_retrying retrying_after_error wc opts r err s w in
  if attempt_valid fresh s (retrying_after_error || explicitly_retrying) then
    ∃ c ty wc' opts2, ran s cmd (attempt_opts fresh s (retrying_after_error || explicitly_retrying)) w c
      ∧ classified c ty ∧ builds opts2 (body_bytes []) []
      ∧ retry_concern_ok fresh (_mongoc_client_session_unpin (cr_session c)) true wc'
      ∧ if negb retrying_after_error && bool_decide (ty = MONGOC_WRITE_ERR_RETRY) then
          loop = commit_loop fresh n cmd reply explicitly_retrying true wc' opts2 (cr_ok c) (written err (cr_error c))
                   (_mongoc_client_session_unpin (cr_session c)) (cr_world c)
        else ∃ rep s', loop = Ret (cr_ok c, written err (cr_error c), rep, s', cr_world c)
          ∧ same_txn s s' ∧ session_ok s'
          ∧ ∀ st, commit_done c ty reply (cr_ok c) (written err (cr_error c)) rep (set_txn_state st s')
  else ∃ e s', loop = Ret (r, Some e, (if reply then Some bson_empty_doc else None), s', w) ∧ same_txn s s' ∧ session_ok s'.
Proof using Type.
  intros Hs He Hc Hm Hwc loop. unfold loop. clear loop. cbn [commit_loop]. set (majority := retrying_after_error || explicitly_retrying) in *.
  destruct (commit_options_ok fresh s explicitly_retrying retrying_after_error wc opts Hs Hm Hwc)
    as (s1 & Hsame & Hs1 & _ & Hopt). fold majority in Hopt. destruct (attempt_valid fresh s majority).
  - destruct Hopt as (opts1 & wc' & es & -> & Hb & Hes & Hok & Hwc'). cbn [bind]. rewrite (get_data_builds _ _ _ Hb). cbn [bind].
    fold (doc_of es). destruct (write_command_ran s1 cmd (doc_of es) w Hs1) as (c & -> & Hran); [by rewrite (st_state _ _ Hsame)|done|done|].
    rewrite <- Hes in Hran. assert (Hran' : ran s cmd (attempt_opts fresh s majority) w c).
    { destruct Hran. constructor; try done. by eapply same_txn_trans. }
    destruct (ran_classified _ _ _ _ _ err Hran') as (ty & Hty & Hcl). cbn [bind]. rewrite Hcl. cbn [bind].
    destruct (reinit_builds _ _ Hb) as (opts2 & Hre & Hb2). exists c, ty, wc', opts2.
    split; [done|]. split; [done|]. split; [done|]. split.
    { eapply retry_concern_same; [eapply same_txn_trans; [apply Hran'|apply unpin_same]|]. by eapply retry_concern_true. }
    destruct (negb retrying_after_error && _); [by rewrite Hre|].
    destruct (commit_concludes s cmd _ w c ty err reply Hran' Hty) as (rep & s' & Hend & Hsame' & Hs' & Hdone).
    exists rep, s'. split; [exact Hend|]. done.
  - destruct Hopt as (e & ->). cbn [bind]. by exists e, s1.
Qed.

(** one command, or two because the first one failed with a retryable error; [c]
    answers the last *)
Definition committed_with (first retry : bson_t * bson_t) (w w' : W) (c : cmd_result W) (ty : mongoc_write_err_type_t) : Prop :=
  sent w w' [first] ∧ answered first c ∧ ty ≠ MONGOC_WRITE_ERR_RETRY
  ∨ sent w w' [first; retry] ∧ answered retry c ∧ ∃ c1, answered first c1 ∧ classified c1 MONGOC_WRITE_ERR_RETRY.
(** the call that ended at [w'] failed *)
Definition failed_call (w w' : W) : Prop :=
  ∃ s cmd opts w0 c, cp_clock w ≤ cp_clock w0 ∧ cp_write_command s cmd opts w0 = Ret c ∧ cr_ok c = false ∧ w' = cr_world c.
Lemma ran_failed s cmd opts w0 w c :
  ran s cmd opts w c → cp_clock w0 ≤ cp_clock w → cr_ok c = false → failed_call w0 (cr_world c).
Proof using Type. intros Hran Hw Hf. destruct (rn_run _ _ _ _ _ Hran) as [s0 Hc]. by exists s0, cmd, opts, w, c. Qed.
(** the whole commit, in the state ENDING *)
Lemma txn_commit_ok s (again reply : bool) w :
  session_ok s → cs_txn_state s = MONGOC_INTERNAL_TRANSACTION_ENDING →
  let cmd := doc_of (command_entries (cs "commitTransaction") s) in
  let first := (cmd, attempt_opts fresh s again) in
  let retry := (cmd, attempt_opts fresh s true) in
  ∃ ok e rep s' w', txn_commit fresh s again reply w = Ret (ok, e, rep, s', w')
    ∧ same_txn s s' ∧ session_ok s' ∧ cp_clock w ≤ cp_clock w' ∧ bool_decide (is_Some rep) = reply
    ∧ (∀ d, rep = Some d → bson_ok d)
    ∧ (ok = false → failed_call w w' ∨ rep = (if reply then Some bson_empty_doc else None))
    ∧ if attempt_valid fresh s again then
        ∃ c ty, (∀ st, commit_done c ty reply ok e rep (set_txn_state st s'))
          ∧ classified c ty ∧ committed_with first retry w w' c ty
      else ok = false ∧ is_Some e ∧ sent w w' [] ∧ rep = (if reply then Some bson_empty_doc else None).
Proof using Type.
  intros Hs He cmd first retry.
  destruct (finish_command_ok fresh (cs "commitTransaction") s Hs) as (Hcmd & Hcok); [split; by_check|by vm_compute|].
  pose proof (loop_step 1 cmd reply again false None (bson_init fresh) false (Some no_error) s w Hs He Hcok (init_builds fresh) I) as H1.
  cbn [orb] in H1. unfold txn_commit. rewrite Hcmd. cbn [bind]. fold cmd. destruct (attempt_valid fresh s again).
  - destruct H1 as (c & ty & wc & opts & Hran & Hty & Hb & Hwc & Hnext). cbn [negb andb] in Hnext.
    destruct (bool_decide_reflect (ty = MONGOC_WRITE_ERR_RETRY)) as [Ht|Ht].
    + pose proof (unpin_ok _ (rn_ok _ _ _ _ _ Hran)) as Hsc.
      pose proof (same_txn_trans _ _ _ (rn_same _ _ _ _ _ Hran) (unpin_same _)) as Hsame.
      set (sc := _mongoc_client_session_unpin (cr_session c)) in *.
      pose proof (loop_step 0 cmd reply again true wc opts (cr_ok c) (written (Some no_error) (cr_error c)) sc (cr_world c) Hsc
        ltac:(by rewrite (st_state _ _ Hsame)) Hcok Hb Hwc) as H2.
      cbn [orb] in H2. rewrite (majority_valid fresh sc Hsc), (attempt_opts_same fresh _ _ true Hsame) in H2.
      destruct H2 as (c2 & ty2 & wc2 & opts2 & Hran2 & Hty2 & _ & _ & Hnext2). cbn [negb andb] in Hnext2.
      destruct Hnext2 as (rep & s' & Hloop & Hsame' & Hs' & Hdone). rewrite Hnext, Hloop.
      do 5 eexists. split; [done|]. split; [by eapply same_txn_trans|]. split; [done|].
      split; [etrans; [apply (rn_clock _ _ _ _ _ Hran)|apply Hran2]|]. pose proof (Hdone MONGOC_INTERNAL_TRANSACTION_NONE) as [].
      split; [done|]. split; [done|]. split; [intros Hf; left; eapply ran_failed; [exact Hran2|apply Hran|exact Hf]|].
      exists c2, ty2. split; [exact Hdone|]. split; [done|]. right. split.
      { unfold sent. rewrite (rn_sent _ _ _ _ _ Hran2), (rn_sent _ _ _ _ _ Hran), <- app_assoc. done. }
      split; [apply Hran2|]. exists c. rewrite Ht in Hty. split; [apply Hran|done].
    + destruct Hnext as (rep & s' & Hloop & Hsame' & Hs' & Hdone). rewrite Hloop.
      do 5 eexists. split; [done|]. split; [done|]. split; [done|].
      split; [apply Hran|]. pose proof (Hdone MONGOC_INTERNAL_TRANSACTION_NONE) as []. split; [done|]. split; [done|].
      split; [intros Hf; left; eapply ran_failed; [exact Hran|done|exact Hf]|].
      exists c, ty. split; [exact Hdone|]. split; [done|]. left. split; [apply Hran|]. split; [apply Hran|done].
  - destruct H1 as (e & s' & -> & Hsame & Hs').
    do 5 eexists. split; [done|]. split; [done|]. split; [done|]. split; [done|]. split; [by destruct reply|].
    split; [destruct reply; [|done]; intros d [= <-]; split; [by_check|done]|]. split; [by right|]. split; [done|]. split; [by exists e|].
    split; [|done]. unfold sent. by rewrite app_nil_r.
Qed.
Lemma commit_call s (reply : bool) w :
  cs_fail_commit_label s = None →
  cs_txn_state s = MONGOC_INTERNAL_TRANSACTION_IN_PROGRESS ∨ cs_txn_state s = MONGOC_INTERNAL_TRANSACTION_COMMITTED →
  mongoc_client_session_commit_transaction fresh s reply w =
  let* r := txn_commit fresh (set_txn_state MONGOC_INTERNAL_TRANSACTION_ENDING s)
              (bool_decide (cs_txn_state s = MONGOC_INTERNAL_TRANSACTION_COMMITTED)) reply w in
  let '(ok, error, rep, s, w) := r in Ret (ok, error, rep, set_txn_state MONGOC_INTERNAL_TRANSACTION_COMMITTED s, w).
Proof using Type.
  intros Hl Hst. unfold mongoc_client_session_commit_transaction. rewrite Hl. by destruct Hst as [E|E]; rewrite E.
Qed.

(** ** Aborting *)

(** the options of an abort: without maxTimeMS *)
Definition abort_opts (s : cs_t) : bson_t := doc_of (option_entries s DEFAULT_MAX_COMMIT_TIME_MS (attempt_concern fresh s false)).
Lemma txn_abort_ok s w :
  session_ok s → cs_txn_state s = MONGOC_INTERNAL_TRANSACTION_ENDING →
  let call := (doc_of (command_entries (cs "abortTransaction") s), abort_opts s) in
  ∃ s' w', txn_abort fresh s w = Ret (s', w') ∧ same_txn s s' ∧ session_ok s' ∧ cp_clock w ≤ cp_clock w'
    ∧ if attempt_valid fresh s false then
        ∃ c ty, (cr_ok c = false → cs_server_id s' = 0)
          ∧ (classified c ty ∧ ty ≠ MONGOC_WRITE_ERR_RETRY ∧ sent w w' [call] ∨ sent w w' [call; call])
      else sent w w' [].
Proof using Type.
  intros Hs He call. unfold txn_abort.
  destruct (session_append_ok fresh s (bson_init fresh) (init_builds fresh)) as (m1 & -> & Hm1). cbn [bind negb].
  destruct (append_concern_ok fresh s m1 _ false None Hs Hm1 ltac:(rewrite body_bytes_one, blen_entry; by vm_compute) I (λ _, eq_refl))
    as (wc & s1 & m2 & -> & Hsame & Hs1 & Htok & _ & Hend). cbn [bind].
  destruct (attempt_valid fresh s false); cbn [negb].
  2: { exists s1, w. split; [done|]. split; [done|]. split; [done|]. split; [done|]. unfold sent. by rewrite app_nil_r. }
  destruct (Hend eq_refl) as (Hm2 & _ & Hsz & Hes).
  destruct (finish_command_ok fresh (cs "abortTransaction") s1 Hs1) as (-> & Hcok); [split; by_check|by vm_compute|]. cbn [bind].
  rewrite (get_data_builds _ _ _ Hm2). cbn [bind].
  change (doc_bytes (body_bytes ?x)) with (doc_of x).
  set (od := doc_of ([e_int64 (cs "sessionId") (cs_client_session_id s)] ++ option_list (wc_entry <$> attempt_concern fresh s false))) in *.
  assert (Hcall : (doc_of (command_entries (cs "abortTransaction") s1), od) = call) by (unfold call, command_entries; by rewrite Htok).
  assert (Hook : bson_ok od).
  { apply doc_of_ok; [|lia]. constructor; [apply e_int64_ok; split; by_check|done]. }
  clearbody od.
  destruct (write_command_ran s1 _ od w Hs1 ltac:(by rewrite (st_state _ _ Hsame)) Hcok Hook) as (c & -> & Hran). cbn [bind].
  destruct (ran_classified _ _ _ _ _ None Hran) as (ty & Hty & _). unfold classified in Hty. rewrite Hty. cbn [bind].
  pose proof (same_txn_trans _ _ _ Hsame (rn_same _ _ _ _ _ Hran)) as Hsc.
  assert (Hlast : ∀ (c : cmd_result W), same_txn s (cr_session c) → session_ok (cr_session c) →
    let s' := if negb (cr_ok c) then _mongoc_client_session_unpin (cr_session c) else cr_session c in
    same_txn s s' ∧ session_ok s' ∧ (cr_ok c = false → cs_server_id s' = 0)).
  { intros c0 Hsame0 Hok0. cbn. destruct (cr_ok c0); cbn [negb]; [done|].
    split; [eapply same_txn_trans; [done|apply unpin_same]|]. split; [by apply unpin_ok|done]. }
  pose proof (rn_sent _ _ _ _ _ Hran) as Hsent. rewrite Hcall in Hsent.
  destruct (bool_decide_reflect (ty = MONGOC_WRITE_ERR_RETRY)) as [Ht|Ht]; cbn [bind].
  - pose proof (unpin_ok _ (rn_ok _ _ _ _ _ Hran)) as Hs2. pose proof (same_txn_trans _ _ _ Hsc (unpin_same _)) as Hsame2.
    destruct (write_command_ran _ (doc_of (command_entries (cs "abortTransaction") s1)) od (cr_world c) Hs2 ltac:(by rewrite (st_state _ _ Hsame2)) Hcok Hook)
      as (c2 & -> & Hran2). cbn [bind].
    destruct (Hlast c2 ltac:(eapply same_txn_trans; [exact Hsame2|apply Hran2]) (rn_ok _ _ _ _ _ Hran2)) as (? & ? & ?).
    do 2 eexists. split; [done|]. split; [done|]. split; [done|].
    split; [etrans; [apply (rn_clock _ _ _ _ _ Hran)|apply Hran2]|]. exists c2, ty. split; [done|]. right. unfold sent.
    rewrite (rn_sent _ _ _ _ _ Hran2), Hsent, Hcall, <- app_assoc. done.
  - destruct (Hlast c Hsc (rn_ok _ _ _ _ _ Hran)) as (? & ? & ?). do 2 eexists. split; [done|]. split; [done|]. split; [done|].
    split; [apply Hran|]. exists c, ty. split; [done|]. by left.
Qed.

(** ** Starting *)
Definition same_test (s s' : cs_t) : Prop :=
  cs_fail_commit_label s' = cs_fail_commit_label s ∧ cs_with_txn_timeout_ms s' = cs_with_txn_timeout_ms s.
Record start_post (s : cs_t) (w : W) (ok : bool) (e : option bson_error_t) (s' : cs_t) (w' : W) : Prop := {
  sa_ok : session_ok s';
  sa_sent : sent w w' [];
  sa_clock : cp_clock w ≤ cp_clock w';
  sa_test : same_test s s';
  sa_number : ss_txn_number (cs_server_session s) ≤ ss_txn_number (cs_server_session s') ≤ ss_txn_number (cs_server_session s) + 1;
  sa_started : ok = true →
    _mongoc_client_session_in_txn (Some s) = false ∧ cs_txn_state s' = MONGOC_INTERNAL_TRANSACTION_STARTING
    ∧ ss_txn_number (cs_server_session s') = ss_txn_number (cs_server_session s) + 1
    ∧ cs_server_id s' = 0 ∧ cs_recovery_token s' = None
    ∧ mongoc_write_concern_is_acknowledged (to_write_concern (cs_txn_opts s')) = true;
  sa_failed : ok = false → is_Some e ∧ cs_txn_state s' = cs_txn_state s
}.
Lemma start_ok s opts w :
  session_ok s → cs_txn_state s ≠ MONGOC_INTERNAL_TRANSACTION_ENDING →
  match opts with Some o => txn_opts_ok o | None => True end →
  ss_txn_number (cs_server_session s) + 1 < 2 ^ 63 →
  ∃ ok e s' w', mongoc_client_session_start_transaction fresh s opts w = Ret (ok, e, s', w') ∧ start_post s w ok e s' w'.
Proof using Type.
  intros Hs Hend Hopts Hn. unfold mongoc_client_session_start_transaction.
  destruct (cp_select_server w) as [[sd e] w'] eqn:Hsel. destruct (cp_select_law _ _ _ _ Hsel) as (Hlog & Hclock & Hnone).
  assert (Hsent : sent w w' []) by (unfold sent; by rewrite app_nil_r).
  assert (Hfail : ∀ e, is_Some e → start_post s w false e s w') by (intros e0 He0; constructor; try done; lia).
  destruct sd as [sd|]; [|do 4 eexists; split; [done|]; by apply Hfail, Hnone].
  destruct (_ || _); [do 4 eexists; split; [done|]; by apply Hfail; eexists|].
  destruct (_mongoc_client_session_in_txn (Some s)) eqn:Hin.
  { cbn [_mongoc_client_session_in_txn] in Hin. destruct (cs_txn_state s); try done; (do 4 eexists; split; [done|]; by apply Hfail; eexists). }
  pose proof (se_number _ Hs) as Hnum. rewrite chk64_ok by (unfold in_s64; lia). cbn [bind cs_txn_opts cs_opts set_server_session].
  destruct (se_default _ Hs) as [Hd1 Hd2]. pose proof (se_txn _ Hs) as Ht.
  destruct (txn_opts_set_ok fresh (cs_txn_opts s) (to_read_concern (so_default_txn_opts (cs_opts s)))
    (to_write_concern (so_default_txn_opts (cs_opts s))) (to_read_prefs (so_default_txn_opts (cs_opts s)))
    (to_max_commit_time_ms (so_default_txn_opts (cs_opts s))) Ht Hd1 Hd2) as (o1 & Ho1 & Hok1 & _).
  assert (Ho2 : ∃ o2, match opts with
    | Some opts => txn_opts_set fresh o1 (to_read_concern opts) (to_write_concern opts) (to_read_prefs opts) (to_max_commit_time_ms opts)
    | None => Ret o1 end = Ret o2 ∧ txn_opts_ok o2).
  { destruct opts as [o|]; [|by exists o1]. destruct Hopts as [Hw Hp].
    destruct (txn_opts_set_ok fresh o1 (to_read_concern o) (to_write_concern o) (to_read_prefs o) (to_max_commit_time_ms o) Hok1 Hw Hp)
      as (o2 & ? & ? & _). by exists o2. }
  destruct Ho2 as (o2 & Ho2 & Hok2).
  set (s1 := set_txn_opts o2 (set_server_session (ServerSession (ss_last_used_usec (cs_server_session s)) (ss_lsid (cs_server_session s))
    (ss_txn_number (cs_server_session s) + 1) (ss_dirty (cs_server_session s))) s)).
  assert (Hs1 : session_ok s1).
  { destruct Hs as [? ? ? ? ?]. constructor; [done..|]. cbn. lia. }
  assert (Hres : ∃ ok e s' w'', (if negb (mongoc_write_concern_is_acknowledged (to_write_concern o2)) then
      Ret (false, Some (invalid_state (cs "Transactions do not support unacknowledged write concern")), s1, w')
    else Ret (true, None, set_recovery_token None (set_txn_state MONGOC_INTERNAL_TRANSACTION_STARTING (_mongoc_client_session_unpin s1)), w'))
      = Ret (ok, e, s', w'') ∧ start_post s w ok e s' w'').
  { destruct (mongoc_write_concern_is_acknowledged (to_write_concern o2)) eqn:Hack; cbn [negb]; do 4 eexists; (split; [done|]).
    - constructor; try done; first [by destruct Hs1; constructor | cbn; lia].
    - constructor; try done; cbn; lia. }
  cbn [_mongoc_client_session_in_txn] in Hin.
  destruct (cs_txn_state s) eqn:Hst; try done; rewrite Ho1; cbn [bind]; rewrite Ho2; cbn [bind]; exact Hres.
Qed.
End Commit.
