(* ===== verification/TxnSample.v ===== *)
(** A scripted world, and a session: the command path of the examples. *)
From S2P Require Import Prelude BsonIter BsonIterSafe BsonFields BsonAppend BsonBuild BsonValue BsonCopy BsonParse HostList BsonKeys MongocTypes BsonEntries CommandErrors Concerns ReadPrefs TxnOptions ServerDescription TopologyDescription ServerSession ClientSession SessionProps Transactions TxnProps.
From Stdlib Require Import ZArith Lia List.
From stdpp Require Import prelude strings.
#[local] Open Scope Z_scope.
#[local] Open Scope mongo_scope.

(** ** Answers *)
Inductive answer := Acknowledged | NotMaster | NetworkError | TransientError.
Definition answer_labels (a : answer) : list (list Z) := match a with TransientError => [TRANSIENT_TXN_ERR] | _ => [] end.
Definition answer_entries (a : answer) : list entry :=
  match a with
  | Acknowledged => [e_int32 (cs "ok") 1]
  | NotMaster => [e_int32 (cs "ok") 0; e_int32 (cs "code") 10107]
  | NetworkError => []
  | TransientError => [e_int32 (cs "ok") 0; e_int32 (cs "code") 251; labels_field [TRANSIENT_TXN_ERR]]
  end.
Definition answer_error (a : answer) : option bson_error_t :=
  match a with
  | Acknowledged => None
  | NotMaster => Some (Error MONGOC_ERROR_SERVER 10107 (cs "not master"))
  | NetworkError => Some (Error MONGOC_ERROR_STREAM 1 (cs "socket error"))
  | TransientError => Some (Error MONGOC_ERROR_SERVER 251 (cs "no such transaction"))
  end.
Lemma answer_reply a : reply_doc (answer_entries a) (answer_labels a).
Proof.
  assert (Hint : ∀ k x, bool_decide (key_ok k) = true → entry_ok (e_int32 k x) ∧ canonical_entry (e_int32 k x)).
  { intros k x Hk%bool_decide_eq_true. split; [by apply e_int32_ok|apply (blen_le_bytes 4 x)]. }
  destruct (Hint (cs "ok") 0 ltac:(by vm_compute)) as [? ?]. destruct (Hint (cs "ok") 1 ltac:(by vm_compute)) as [? ?].
  destruct (Hint (cs "code") 10107 ltac:(by vm_compute)) as [? ?]. destruct (Hint (cs "code") 251 ltac:(by vm_compute)) as [? ?].
  assert (Hlab : labels_ok [TRANSIENT_TXN_ERR]) by (split; [repeat constructor; by_check|by vm_compute]).
  assert (entry_ok (labels_field [TRANSIENT_TXN_ERR]) ∧ canonical_entry (labels_field [TRANSIENT_TXN_ERR])) as [? ?].
  { split; [by apply labels_field_ok|]. unfold canonical_entry, labels_field. cbn [e_array e_type e_value bson_type_of_byte Z.eqb Pos.eqb canonical_value].
    split; [by vm_compute|]. split; by vm_compute. }
  destruct a; (constructor; [by repeat constructor|by repeat constructor|by vm_compute|by vm_compute|]).
  all: split; [repeat constructor; by_check|by vm_compute].
Qed.

(** ** The world: the answers to come, the commands that were run, the clock *)
Record script := Script { sc_answers : list answer; sc_log : list (bson_t * bson_t); sc_clock : nat }.
Definition primary : mongoc_server_description_t := set_max_wire 8 sd_zero.
Definition no_script (w : script) : answer := match sc_answers w with a :: _ => a | [] => Acknowledged end.
#[export] Instance script_path : CommandPath script := {
  cp_select_server w := (Some primary, None, w);
  cp_write_command s cmd opts w :=
    let a := no_script w in
    Ret (CmdResult (bool_decide (answer_error a = None)) (answer_error a) (doc_of (answer_entries a))
           (match answer_labels a with [] => s | _ => _mongoc_client_session_unpin s end)
           (Script (tail (sc_answers w)) (sc_log w ++ [(cmd, opts)]) (S (sc_clock w))));
  cp_monotonic_time w := (Z.of_nat (sc_clock w), Script (sc_answers w) (sc_log w) (S (sc_clock w)));
  cp_usleep us w := w
}.
#[export] Instance script_ok : CommandPathOk script.
Proof.
  refine {| cp_log := sc_log; cp_clock := λ w, Z.of_nat (sc_clock w) |}.
  - intros s cmd opts w Hs He _ _. eexists. split; [done|]. cbn [cr_session cr_ok cr_error cr_reply cr_world sc_log sc_clock].
    set (a := no_script w). split; [by destruct a; [apply same_txn_refl..|apply unpin_same]|].
    split; [by destruct a; apply Hs|]. split; [by destruct a; [done|eexists..]|].
    split; [by exists (answer_entries a), (answer_labels a); split; [|apply answer_reply]|]. split; [done|]. cbn. lia.
  - intros w sd e w' [= <- <- <-]. done.
  - intros w t w' [= <- <-]. cbn [sc_log sc_clock]. split; [done|]. lia.
  - intros us w. done.
Defined.

(** ** A session with a write concern, in a transaction *)
Definition sample_fresh : Z → Z := λ _, 0.
Definition one_wc : mongoc_write_concern_t :=
  mongoc_write_concern_set_journal (mongoc_write_concern_new sample_fresh) true.
Lemma one_wc_ok : wc_ok one_wc.
Proof. eapply (wc_call_ok sample_fresh); [apply (call_set_journal _ _ true)|apply wc_new_ok]. Qed.
Definition sample_opts : mongoc_transaction_opt_t := TxnOpt None (Some one_wc) None 50.
Lemma sample_opts_ok : txn_opts_ok sample_opts.
Proof. split; [exact one_wc_ok|exact I]. Qed.
Definition session_in (st : mongoc_internal_transaction_state_t) : mongoc_client_session_t :=
  ClientSession (Client 0 None None None) (SessionOpt MONGOC_SESSION_CAUSAL_CONSISTENCY (TxnOpt None None None 0))
    (ServerSession SESSION_NEVER_USED bson_empty_doc 3 false) st sample_opts 7 bson_empty_doc 0 0 0 2 None 1 None.
Lemma session_in_ok st : session_ok (session_in st).
Proof. constructor; [exact sample_opts_ok|split; exact I|exact I|exact I|by vm_compute]. Qed.
