(* ===== verification/TxnSpec.v ===== *)
(** The state machine of the Transactions specification, and the refinement: every
    sequence of calls on a session runs without fault and is a run of that machine. *)
From S2P Require Import Prelude BsonIter BsonIterSafe BsonFields BsonAppend BsonBuild BsonValue BsonCopy BsonParse HostList BsonKeys MongocTypes BsonEntries CommandErrors Concerns ReadPrefs TxnOptions ServerDescription TopologyDescription ServerSession ClientSession SessionProps Transactions TxnProps TxnSample.
From Stdlib Require Import ZArith Lia List.
From stdpp Require Import prelude strings.
#[local] Open Scope Z_scope.
#[local] Open Scope mongo_scope.

#[local] Notation cs_t := mongoc_client_session_t.

(** ** The specification *)

(** [Committed b]: whether anything was sent to the server *)
Inductive txn_phase := NoTxn | Starting | InProgress | Committed (sent : bool) | Aborted.
(** what an observer sees of a call: its result and the commands it sent; for a
    command, the document before and after *)
Inductive txn_event :=
| StartTxn (ok : bool)
| RunCommand (before after : bson_t)
| CommitTxn (ok : bool) (commands : list (bson_t * bson_t))
| AbortTxn (ok : bool) (commands : list (bson_t * bson_t)).
Definition in_transaction (p : txn_phase) : bool :=
  match p with Starting | InProgress => true | _ => false end.
(** the machine keeps the phase and the transaction number *)
Inductive spec_step : txn_phase * Z → txn_event → txn_phase * Z → Prop :=
| spec_start p n : in_transaction p = false → spec_step (p, n) (StartTxn true) (Starting, n + 1)
| spec_start_refused p n n' : n ≤ n' ≤ n + 1 → spec_step (p, n) (StartTxn false) (p, n')
| spec_first n es : spec_step (Starting, n) (RunCommand (doc_of es) (doc_of (es ++ txn_fields true n))) (InProgress, n)
| spec_next n es : spec_step (InProgress, n) (RunCommand (doc_of es) (doc_of (es ++ txn_fields false n))) (InProgress, n)
| spec_outside p n es : in_transaction p = false → spec_step (p, n) (RunCommand (doc_of es) (doc_of es)) (NoTxn, n)
| spec_recommit n e es :
    e_key e = cs "commitTransaction" →
    spec_step (Committed true, n) (RunCommand (doc_of (e :: es)) (doc_of ((e :: es) ++ txn_fields false n))) (Committed true, n)
| spec_commit_empty p n : p = Starting ∨ p = Committed false → spec_step (p, n) (CommitTxn true []) (Committed false, n)
| spec_commit p n ok commands :
    p = InProgress ∨ p = Committed true → (length commands ≤ 2)%nat → (ok = true → commands ≠ []) →
    Forall (λ c, ∃ es, c.1 = doc_of (e_int32 (cs "commitTransaction") 1 :: es)) commands →
    spec_step (p, n) (CommitTxn ok commands) (Committed true, n)
| spec_commit_refused p n : p = NoTxn ∨ p = Aborted → spec_step (p, n) (CommitTxn false []) (p, n)
| spec_abort_empty n : spec_step (Starting, n) (AbortTxn true []) (Aborted, n)
| spec_abort n commands :
    (length commands ≤ 2)%nat →
    Forall (λ c, ∃ es, c.1 = doc_of (e_int32 (cs "abortTransaction") 1 :: es)) commands →
    spec_step (InProgress, n) (AbortTxn true commands) (Aborted, n)
| spec_abort_refused p n : in_transaction p = false → spec_step (p, n) (AbortTxn false []) (p, n).
Inductive spec_run : txn_phase * Z → list txn_event → txn_phase * Z → Prop :=
| run_nil x : spec_run x [] x
| run_cons x e y es z : spec_step x e y → spec_run y es z → spec_run x (e :: es) z.

(** ** The implementation *)
Definition phase_of (s : cs_t) : txn_phase :=
  match cs_txn_state s with
  | MONGOC_INTERNAL_TRANSACTION_NONE | MONGOC_INTERNAL_TRANSACTION_ENDING => NoTxn
  | MONGOC_INTERNAL_TRANSACTION_STARTING => Starting
  | MONGOC_INTERNAL_TRANSACTION_IN_PROGRESS => InProgress
  | MONGOC_INTERNAL_TRANSACTION_COMMITTED => Committed true
  | MONGOC_INTERNAL_TRANSACTION_COMMITTED_EMPTY => Committed false
  | MONGOC_INTERNAL_TRANSACTION_ABORTED => Aborted
  end.
Definition abs (s : cs_t) : txn_phase * Z := (phase_of s, ss_txn_number (cs_server_session s)).
Definition public_state (p : txn_phase) : mongoc_transaction_state_t :=
  match p with
  | NoTxn => MONGOC_TRANSACTION_NONE
  | Starting => MONGOC_TRANSACTION_STARTING
  | InProgress => MONGOC_TRANSACTION_IN_PROGRESS
  | Committed _ => MONGOC_TRANSACTION_COMMITTED
  | Aborted => MONGOC_TRANSACTION_ABORTED
  end.
Inductive txn_call :=
| CallStart (opts : option mongoc_transaction_opt_t)
| CallCommand (cmd : bson_mem)
| CallCommit (reply : bool)
| CallAbort.

Section Refine.
Context {W : Type} `{CommandPathOk W}.
Variable fresh : Z → Z.

Definition new_commands (w w' : W) : list (bson_t * bson_t) := drop (length (cp_log w)) (cp_log w').
Definition run_call (c : txn_call) (s : cs_t) (w : W) : res (txn_event * cs_t * W) :=
  match c with
  | CallStart opts =>
      let* r := mongoc_client_session_start_transaction fresh s opts w in
      let '(ok, _, s, w) := r in Ret (StartTxn ok, s, w)
  | CallCommand cmd =>
      let* before := bson_get_data cmd in
      let* r := _mongoc_client_session_append_txn fresh (Some s) cmd in
      let '(_, _, s, cmd) := r in
      let* s := deref s in
      let* after := bson_get_data cmd in
      Ret (RunCommand before after, s, w)
  | CallCommit reply =>
      let* r := mongoc_client_session_commit_transaction fresh s reply w in
      let '(ok, _, _, s, w') := r in Ret (CommitTxn ok (new_commands w w'), s, w')
  | CallAbort =>
      let* r := mongoc_client_session_abort_transaction fresh s w in
      let '(ok, _, s, w') := r in Ret (AbortTxn ok (new_commands w w'), s, w')
  end.
Fixpoint run_calls (calls : list txn_call) (s : cs_t) (w : W) : res (list txn_event * cs_t * W) :=
  match calls with
  | [] => Ret ([], s, w)
  | c :: calls =>
      let* r := run_call c s w in
      let '(e, s, w) := r in
      let* r := run_calls calls s w in
      let '(es, s, w) := r in Ret (e :: es, s, w)
  end.

(** arguments a caller can pass *)
Definition call_ok (c : txn_call) : Prop :=
  match c with
  | CallStart (Some opts) => txn_opts_ok opts
  | CallCommand cmd =>
      ∃ e es, builds cmd (body_bytes (e :: es)) [] ∧ Forall entry_ok (e :: es)
        ∧ blen (body_bytes (e :: es)) ≤ 2 ^ 27 ∧ plain_name (e_key e)
  | _ => True
  end.
(** the state between calls *)
Record idle (s : cs_t) : Prop := {
  id_ok : session_ok s;
  id_state : cs_txn_state s ≠ MONGOC_INTERNAL_TRANSACTION_ENDING;
  id_label : cs_fail_commit_label s = None
}.

Lemma new_commands_sent w w' l : sent w w' l → new_commands w w' = l.
Proof using Type. unfold sent, new_commands. intros ->. by rewrite drop_app_length. Qed.
Lemma sent_nil w w' : cp_log w' = cp_log w → sent w w' [].
Proof using Type. unfold sent. intros ->. by rewrite app_nil_r. Qed.
Lemma no_transaction_ok s : session_ok s → session_ok (no_transaction s).
Proof using Type. intros []. by constructor. Qed.

(** a call returns, and is a step of the machine *)
Definition refines (c : txn_call) (s : cs_t) (w : W) : Prop :=
  ∃ e s' w', run_call c s w = Ret (e, s', w') ∧ idle s' ∧ spec_step (abs s) e (abs s')
    ∧ ss_txn_number (cs_server_session s') ≤ ss_txn_number (cs_server_session s) + 1.
Lemma refines_intro c s w e s' w' :
  run_call c s w = Ret (e, s', w') → idle s' → spec_step (abs s) e (abs s') →
  ss_txn_number (cs_server_session s') ≤ ss_txn_number (cs_server_session s) + 1 → refines c s w.
Proof using Type. intros. by exists e, s', w'. Qed.

Lemma in_transaction_phase s : cs_txn_state s ≠ MONGOC_INTERNAL_TRANSACTION_ENDING →
  in_transaction (phase_of s) = _mongoc_client_session_in_txn (Some s).
Proof using Type. unfold phase_of. cbn. by destruct (cs_txn_state s). Qed.
Lemma start_refines opts s w :
  idle s → call_ok (CallStart opts) → ss_txn_number (cs_server_session s) + 1 < 2 ^ 63 → refines (CallStart opts) s w.
Proof using Type.
  intros [Hs He Hl] Hc Hn. destruct (start_ok fresh s opts w Hs He Hc Hn) as (ok & e & s' & w' & Hr & [H1 _ _ [Ht _] Hnum Hyes Hno]).
  eapply refines_intro; [cbn [run_call]; by rewrite Hr| |unfold abs|lia].
  - constructor; [done| |congruence]. destruct ok; [by destruct (Hyes eq_refl) as (_ & -> & _)|by destruct (Hno eq_refl) as [_ ->]].
  - destruct ok.
    + destruct (Hyes eq_refl) as (Hin & Hst & -> & _). unfold phase_of at 2. rewrite Hst. constructor. by rewrite in_transaction_phase.
    + destruct (Hno eq_refl) as [_ Hst]. unfold phase_of. rewrite Hst. by constructor.
Qed.
Lemma after_command_idle s name : idle s → idle (after_command s name).
Proof using Type.
  intros Hi. pose proof Hi as [Hs He Hl]. pose proof (no_transaction_ok s Hs). unfold after_command.
  assert (Hset : ∀ st, st ≠ MONGOC_INTERNAL_TRANSACTION_ENDING → idle (set_txn_state st s)).
  { intros st ?. constructor; [by apply set_state_ok|done|done]. }
  assert (Hno : idle (no_transaction s)) by (by constructor). destruct (cs_txn_state s); try done; [by apply Hset|by case_match].
Qed.
Lemma after_command_number s name :
  ss_txn_number (cs_server_session (after_command s name)) = ss_txn_number (cs_server_session s).
Proof using Type. unfold after_command. by repeat case_match. Qed.
Lemma command_refines cmd s w : idle s → call_ok (CallCommand cmd) → refines (CallCommand cmd) s w.
Proof using Type.
  intros [Hs He Hl] (e & es & Hm & Hes & Hsz & Hp).
  destruct (append_txn_ok fresh s cmd e es Hm Hes Hsz Hp) as (m' & Ha & Hm').
  assert (Hrun : run_call (CallCommand cmd) s w
    = Ret (RunCommand (doc_of (e :: es)) (doc_of ((e :: es) ++ added_fields s (e_key e))), after_command s (e_key e), w)).
  { cbn [run_call]. rewrite (get_data_builds _ _ _ Hm). cbn [bind]. rewrite Ha. cbn [bind deref]. by rewrite (get_data_builds _ _ _ Hm'). }
  eapply refines_intro; [exact Hrun|by apply after_command_idle| |].
  - unfold abs. rewrite after_command_number. unfold phase_of, after_command, added_fields.
    destruct (cs_txn_state s) eqn:Hst; cbn [cs_txn_state set_txn_state no_transaction set_recovery_token]; rewrite ?Hst, ?app_nil_r; try by constructor.
    { done. }
    destruct (streq (e_key e) (cs "commitTransaction")) eqn:Hname;
      cbn [cs_txn_state set_txn_state no_transaction set_recovery_token]; rewrite ?Hst, ?app_nil_r; [|by constructor].
    apply spec_recommit. by apply bool_decide_eq_true in Hname.
  - rewrite after_command_number. lia.
Qed.

(** the commands of a commit or an abort *)
Lemma command_form name s (opts : bson_t) c : c = (doc_of (command_entries name s), opts) → ∃ es, c.1 = doc_of (e_int32 name 1 :: es).
Proof using Type. intros ->. by eexists. Qed.
Lemma commit_refines reply s w : idle s → refines (CallCommit reply) s w.
Proof using Type.
  intros [Hs He Hl].
  assert (Hempty : cs_txn_state s ≠ MONGOC_INTERNAL_TRANSACTION_IN_PROGRESS → cs_txn_state s ≠ MONGOC_INTERNAL_TRANSACTION_COMMITTED →
    refines (CallCommit reply) s w).
  { intros H1 H2. destruct (cs_txn_state s) eqn:Hst; try done.
    all: eapply refines_intro; [cbn [run_call]; unfold mongoc_client_session_commit_transaction; rewrite Hl, Hst; reflexivity| | |cbn; lia].
    all: try (by constructor; [done || by apply set_state_ok|cbn; congruence|done]).
    all: rewrite (new_commands_sent w w []) by (by apply sent_nil); unfold abs, phase_of; cbn; rewrite Hst; constructor; auto. }
  assert (Hreal : cs_txn_state s = MONGOC_INTERNAL_TRANSACTION_IN_PROGRESS ∨ cs_txn_state s = MONGOC_INTERNAL_TRANSACTION_COMMITTED →
    refines (CallCommit reply) s w).
  { intros Hst. set (again := bool_decide (cs_txn_state s = MONGOC_INTERNAL_TRANSACTION_COMMITTED)).
    destruct (txn_commit_ok fresh (set_txn_state MONGOC_INTERNAL_TRANSACTION_ENDING s) again reply w (set_state_ok _ _ Hs) eq_refl)
      as (ok & e & rep & s' & w' & Hc & Hsame & Hs' & _ & _ & _ & _ & Hend).
    assert (Hrun : run_call (CallCommit reply) s w = Ret (CommitTxn ok (new_commands w w'), set_txn_state MONGOC_INTERNAL_TRANSACTION_COMMITTED s', w')).
    { cbn [run_call]. rewrite commit_call by done. fold again. rewrite Hc. done. }
    assert (Hcmds : (length (new_commands w w') ≤ 2)%nat ∧ (ok = true → new_commands w w' ≠ [])
      ∧ Forall (λ c, ∃ es, c.1 = doc_of (e_int32 (cs "commitTransaction") 1 :: es)) (new_commands w w')).
    { destruct (attempt_valid _ _ _).
      - destruct Hend as (c & ty & _ & _ & [[Hsent _]|[Hsent _]]); rewrite (new_commands_sent _ _ _ Hsent); (split; [cbn; lia|]); (split; [done|]);
          repeat constructor; by eapply command_form.
      - destruct Hend as (-> & _ & Hsent & _). rewrite (new_commands_sent _ _ _ Hsent). split; [cbn; lia|]. split; [done|constructor]. }
    eapply refines_intro; [exact Hrun| | |].
    - destruct Hsame. constructor; [by apply set_state_ok|done|cbn in *; congruence].
    - unfold abs. cbn [set_txn_state cs_server_session]. rewrite (st_number _ _ Hsame). unfold phase_of. cbn [cs_txn_state set_txn_state cs_server_session].
      destruct Hcmds as (? & ? & ?). destruct Hst as [-> | ->]; constructor; auto.
    - cbn [set_txn_state cs_server_session]. rewrite (st_number _ _ Hsame). cbn. lia. }
  destruct (decide (cs_txn_state s = MONGOC_INTERNAL_TRANSACTION_IN_PROGRESS)); [by apply Hreal; left|].
  destruct (decide (cs_txn_state s = MONGOC_INTERNAL_TRANSACTION_COMMITTED)); [by apply Hreal; right|]. by apply Hempty.
Qed.
Lemma abort_refines s w : idle s → refines CallAbort s w.
Proof using Type.
  intros [Hs He Hl]. destruct (cs_txn_state s) eqn:Hst; try done.
  3: { destruct (txn_abort_ok fresh (set_txn_state MONGOC_INTERNAL_TRANSACTION_ENDING s) w (set_state_ok _ _ Hs) eq_refl)
      as (s' & w' & Ha & Hsame & Hs' & _ & Hend).
    assert (Hrun : run_call CallAbort s w = Ret (AbortTxn true (new_commands w w'), set_txn_state MONGOC_INTERNAL_TRANSACTION_ABORTED s', w')).
    { cbn [run_call]. unfold mongoc_client_session_abort_transaction. rewrite Hst, Ha. done. }
    eapply refines_intro; [exact Hrun| | |].
    - destruct Hsame. constructor; [by apply set_state_ok|done|cbn in *; congruence].
    - unfold abs. cbn [set_txn_state cs_server_session]. rewrite (st_number _ _ Hsame). unfold phase_of. cbn [cs_txn_state set_txn_state cs_server_session].
      rewrite Hst. destruct (attempt_valid _ _ _).
      + destruct Hend as (c & ty & _ & [(_ & _ & Hsent)|Hsent]); rewrite (new_commands_sent _ _ _ Hsent); constructor; [cbn; lia| |cbn; lia|];
          repeat constructor; by eapply command_form.
      + rewrite (new_commands_sent _ _ _ Hend). constructor; [cbn; lia|constructor].
    - cbn [set_txn_state cs_server_session]. rewrite (st_number _ _ Hsame). cbn. lia. }
  all: eapply refines_intro; [cbn [run_call]; unfold mongoc_client_session_abort_transaction; rewrite Hst; reflexivity| | |cbn; lia].
  all: try (by constructor; [done|cbn; congruence|done]).
  all: try (rewrite (new_commands_sent w w []) by (by apply sent_nil); unfold abs, phase_of; cbn; rewrite Hst; by constructor).
  destruct Hs as [? ? ? ? ?]. constructor; [by constructor|done|done].
Qed.
Lemma call_refines c s w : idle s → call_ok c → ss_txn_number (cs_server_session s) + 1 < 2 ^ 63 → refines c s w.
Proof using Type.
  intros Hs Hc Hn. destruct c; [by apply start_refines|by apply command_refines|by apply commit_refines|by apply abort_refines].
Qed.

(** C7. Any sequence of calls on a session, starting, committing and aborting transactions
    and running commands in whatever order, with whatever results of the commands,
    runs without fault and is a run of the specification's state machine: which calls
    are refused, how many commands a commit or an abort sends, and that exactly the
    commands inside a transaction carry its number, the first of them
    startTransaction.  The state an application reads is the machine's. *)
Theorem transactions_refine s w calls
    (Hs : idle s) (Hcalls : Forall call_ok calls)
    (Hn : ss_txn_number (cs_server_session s) + Z.of_nat (length calls) < 2 ^ 63) :
  ∃ events s' w', run_calls calls s w = Ret (events, s', w') ∧ spec_run (abs s) events (abs s')
    ∧ idle s' ∧ mongoc_client_session_get_transaction_state s' = Ret (public_state (phase_of s')).
Proof using Type.
  revert s w Hs Hn. induction Hcalls as [|c calls Hc _ IH]; intros s w Hs Hn; cbn [run_calls].
  - exists [], s, w. split; [done|]. split; [constructor|]. split; [done|]. destruct Hs as [_ He _].
    unfold mongoc_client_session_get_transaction_state, phase_of. by destruct (cs_txn_state s).
  - cbn [length] in Hn. destruct (call_refines c s w Hs Hc ltac:(lia)) as (e & s1 & w1 & -> & Hs1 & Hstep & Hn1). cbn [bind].
    destruct (IH s1 w1 Hs1 ltac:(lia)) as (es & s2 & w2 & -> & Hrun & Hs2 & Hpub). cbn [bind].
    exists (e :: es), s2, w2. split; [done|]. split; [by econstructor|]. done.
Qed.

(** C8. A commit sends one command, and a second one exactly after a retryable failure of
    the first: the same command with the majority write concern, its other options
    kept and a timeout set.  A commit that is called again uses that concern at once.
    The caller gets the result of the last command; if the server may nevertheless
    have committed, the reply has the label UnknownTransactionCommitResult next to
    the server's labels and the session is unpinned.  With an invalid write concern
    nothing is sent.  The state is COMMITTED in every case. *)
Theorem commit_protocol s (reply : bool) w
    (Hs : idle s)
    (Hstate : cs_txn_state s = MONGOC_INTERNAL_TRANSACTION_IN_PROGRESS
              ∨ cs_txn_state s = MONGOC_INTERNAL_TRANSACTION_COMMITTED) :
  let again := bool_decide (cs_txn_state s = MONGOC_INTERNAL_TRANSACTION_COMMITTED) in
  let cmd := doc_of (command_entries (cs "commitTransaction") s) in
  let first := (cmd, attempt_opts fresh s again) in
  let retry := (cmd, attempt_opts fresh s true) in
  (∃ wc, attempt_concern fresh s true = Some wc ∧ wc_w wc = MONGOC_WRITE_CONCERN_W_MAJORITY ∧ 0 < wc_wtimeout wc)
  ∧ ∃ ok e rep s' w', mongoc_client_session_commit_transaction fresh s reply w = Ret (ok, e, rep, s', w')
    ∧ cs_txn_state s' = MONGOC_INTERNAL_TRANSACTION_COMMITTED
    ∧ if attempt_valid fresh s again then
        ∃ (c : cmd_result W) ty, commit_done c ty reply ok e rep s' ∧ classified c ty ∧ committed_with first retry w w' c ty
      else ok = false ∧ is_Some e ∧ sent w w' [] ∧ rep = (if reply then Some bson_empty_doc else None).
Proof using Type.
  destruct Hs as [Hs He Hl]. intros again cmd first retry. split.
  { eexists. split; [done|]. split; [done|]. cbn. unfold MONGOC_DEFAULT_WTIMEOUT_FOR_COMMIT_RETRY.
    destruct (Z.leb_spec (wc_wtimeout (default (mongoc_write_concern_new fresh) (match to_write_concern (cs_txn_opts s) with
      | Some _ => to_write_concern (cs_txn_opts s) | None => cl_write_concern (cs_client s) end))) 0); lia. }
  rewrite commit_call by done. fold again.
  destruct (txn_commit_ok fresh (set_txn_state MONGOC_INTERNAL_TRANSACTION_ENDING s) again reply w (set_state_ok _ _ Hs) eq_refl)
    as (ok & e & rep & s' & w' & -> & _ & _ & _ & _ & _ & _ & Hend). cbn [bind].
  do 5 eexists. split; [done|]. split; [done|].
  change (attempt_valid fresh (set_txn_state MONGOC_INTERNAL_TRANSACTION_ENDING s) again) with (attempt_valid fresh s again) in Hend.
  destruct (attempt_valid fresh s again); [|exact Hend]. destruct Hend as (c & ty & Hdone & Hty & Hsent). exists c, ty. by split.
Qed.
End Refine.

Definition sample_calls : list txn_call :=
  [CallStart None; CallCommand sample_command; CallCommit true; CallAbort; CallStart (Some sample_opts); CallAbort].
Lemma session_in_idle st : st ≠ MONGOC_INTERNAL_TRANSACTION_ENDING → idle (session_in st).
Proof. intros H. constructor; [apply session_in_ok|exact H|reflexivity]. Qed.
Lemma sample_calls_ok : Forall call_ok sample_calls.
Proof.
  apply Forall_cons. split; [exact I|]. apply Forall_cons. split.
  { exists (e_int32 (cs "insert") 1), []. split; [exact sample_command_builds|].
    split; [apply Forall_cons; split; [apply e_int32_ok; split; by_check|constructor]|]. split; [by vm_compute|]. by split. }
  apply Forall_cons. split; [exact I|]. apply Forall_cons. split; [exact I|]. apply Forall_cons. split; [exact sample_opts_ok|].
  apply Forall_cons. by split.
Qed.
Lemma transactions_refine_witness :
  ∃ events s' w', run_calls sample_fresh sample_calls (session_in MONGOC_INTERNAL_TRANSACTION_NONE) (Script [NotMaster; Acknowledged] [] 0)
      = Ret (events, s', w')
    ∧ spec_run (NoTxn, 3) events (abs s') ∧ idle s'
    ∧ mongoc_client_session_get_transaction_state s' = Ret (public_state (phase_of s')).
Proof.
  apply (transactions_refine sample_fresh (session_in MONGOC_INTERNAL_TRANSACTION_NONE) (Script [NotMaster; Acknowledged] [] 0) sample_calls).
  - apply session_in_idle. discriminate.
  - exact sample_calls_ok.
  - vm_compute. reflexivity.
Defined.
(** a commit that is retried after a network error, and then fails *)
Lemma commit_protocol_witness :
  let s := session_in MONGOC_INTERNAL_TRANSACTION_IN_PROGRESS in
  let cmd := doc_of (command_entries (cs "commitTransaction") s) in
  (∃ wc, attempt_concern sample_fresh s true = Some wc ∧ wc_w wc = MONGOC_WRITE_CONCERN_W_MAJORITY ∧ 0 < wc_wtimeout wc)
  ∧ ∃ ok e rep s' w', mongoc_client_session_commit_transaction sample_fresh s true (Script [NetworkError; TransientError] [] 0)
      = Ret (ok, e, rep, s', w')
    ∧ cs_txn_state s' = MONGOC_INTERNAL_TRANSACTION_COMMITTED
    ∧ if attempt_valid sample_fresh s false then
        ∃ (c : cmd_result script) ty, commit_done c ty true ok e rep s' ∧ classified c ty
          ∧ committed_with (cmd, attempt_opts sample_fresh s false) (cmd, attempt_opts sample_fresh s true)
              (Script [NetworkError; TransientError] [] 0) w' c ty
      else ok = false ∧ is_Some e ∧ sent (Script [NetworkError; TransientError] [] 0) w' [] ∧ rep = Some bson_empty_doc.
Proof.
  apply (commit_protocol sample_fresh (session_in MONGOC_INTERNAL_TRANSACTION_IN_PROGRESS) true (Script [NetworkError; TransientError] [] 0)).
  - apply session_in_idle. discriminate.
  - left. reflexivity.
Defined.
