(* ===== verification/WithTxn.v ===== *)
(** The with_transaction helper (mongoc/mongoc-client-session.c): its retries end with
    its time limit, and it never leaves a transaction open. *)
From S2P Require Import Prelude BsonIter BsonIterSafe BsonFields BsonAppend BsonBuild BsonValue BsonCopy BsonParse HostList BsonKeys MongocTypes BsonEntries CommandErrors Concerns ReadPrefs TxnOptions ServerDescription TopologyDescription ServerSession ClientSession SessionProps Transactions TxnProps TxnSample TxnSpec.
From Stdlib Require Import ZArith Lia List.
From stdpp Require Import prelude strings.
#[local] Open Scope Z_scope.
#[local] Open Scope mongo_scope.

#[local] Notation cs_t := mongoc_client_session_t.

Section WithTxn.
Context {W : Type} `{CommandPathOk W}.
Variable fresh : Z → Z.

(** ** The pieces *)
Definition number (s : cs_t) : Z := ss_txn_number (cs_server_session s).
Definition committed (s : cs_t) : Prop :=
  cs_txn_state s = MONGOC_INTERNAL_TRANSACTION_COMMITTED ∨ cs_txn_state s = MONGOC_INTERNAL_TRANSACTION_COMMITTED_EMPTY.
Definition closed (s : cs_t) : Prop := _mongoc_client_session_in_txn (Some s) = false.
Lemma committed_closed s : committed s → closed s.
Proof using Type. unfold closed. cbn. by intros [-> | ->]. Qed.

(** a session that went through a call *)
Record later (s : cs_t) (w : W) (s' : cs_t) (w' : W) : Prop := {
  lt_idle : idle s';
  lt_clock : cp_clock w ≤ cp_clock w';
  lt_number : number s' = number s
}.
Lemma commit_committed s w :
  idle s → _mongoc_client_session_in_txn (Some s) = true ∨ committed s →
  ∃ ok e d s' w', mongoc_client_session_commit_transaction fresh s true w = Ret (ok, e, Some d, s', w')
    ∧ later s w s' w' ∧ committed s' ∧ bson_ok d ∧ (ok = false → failed_call w w' ∨ d = bson_empty_doc).
Proof using Type.
  intros [Hs He Hl] Hin.
  assert (Hempty : cs_txn_state s = MONGOC_INTERNAL_TRANSACTION_STARTING ∨ cs_txn_state s = MONGOC_INTERNAL_TRANSACTION_COMMITTED_EMPTY →
    ∃ ok e d s' w', mongoc_client_session_commit_transaction fresh s true w = Ret (ok, e, Some d, s', w')
      ∧ later s w s' w' ∧ committed s' ∧ bson_ok d ∧ (ok = false → failed_call w w' ∨ d = bson_empty_doc)).
  { intros Hst. exists true, None, bson_empty_doc, (set_txn_state MONGOC_INTERNAL_TRANSACTION_COMMITTED_EMPTY s), w. split.
    { unfold mongoc_client_session_commit_transaction. rewrite Hl. by destruct Hst as [-> | ->]. }
    split; [|split; [by right|split; [split; [by_check|done]|done]]]. constructor; [|done|done]. constructor; [by apply set_state_ok|done|done]. }
  assert (Hreal : cs_txn_state s = MONGOC_INTERNAL_TRANSACTION_IN_PROGRESS ∨ cs_txn_state s = MONGOC_INTERNAL_TRANSACTION_COMMITTED →
    ∃ ok e d s' w', mongoc_client_session_commit_transaction fresh s true w = Ret (ok, e, Some d, s', w')
      ∧ later s w s' w' ∧ committed s' ∧ bson_ok d ∧ (ok = false → failed_call w w' ∨ d = bson_empty_doc)).
  { intros Hst. rewrite commit_call by done.
    destruct (txn_commit_ok fresh (set_txn_state MONGOC_INTERNAL_TRANSACTION_ENDING s)
      (bool_decide (cs_txn_state s = MONGOC_INTERNAL_TRANSACTION_COMMITTED)) true w (set_state_ok _ _ Hs) eq_refl)
      as (ok & e & rep & s' & w' & Hc & Hsame & Hs' & Hclock & Hrep & Hok & Hfail & _). rewrite Hc. cbn [bind].
    apply bool_decide_eq_true in Hrep as [d ->]. do 5 eexists. split; [done|].
    split; [|split; [by left|split; [by apply Hok|]]].
    2: { intros Hf. destruct (Hfail Hf) as [?|[= ->]]; [by left|by right]. }
    destruct Hsame. constructor; [|done|done].
    constructor; [by apply set_state_ok|done|cbn in *; congruence]. }
  unfold committed in Hin. cbn [_mongoc_client_session_in_txn] in Hin.
  destruct (cs_txn_state s); first [by apply Hempty; auto | by apply Hreal; auto | by destruct Hin as [?|[?|?]]].
Qed.
Lemma abort_open s w :
  idle s → _mongoc_client_session_in_txn (Some s) = true →
  ∃ s' w', mongoc_client_session_abort_transaction fresh s w = Ret (true, None, s', w') ∧ later s w s' w' ∧ closed s'.
Proof using Type.
  intros [Hs He Hl] Hin. unfold mongoc_client_session_abort_transaction. cbn [_mongoc_client_session_in_txn] in Hin.
  destruct (cs_txn_state s) eqn:Hst; try done.
  - do 2 eexists. split; [done|]. split; [|done]. destruct Hs. constructor; [|done|done]. constructor; [by constructor|done|done].
  - destruct (txn_abort_ok fresh (set_txn_state MONGOC_INTERNAL_TRANSACTION_ENDING s) w (set_state_ok _ _ Hs) eq_refl)
      as (s' & w' & Ha & Hsame & Hs' & Hclock & _). rewrite Ha. cbn [bind fst snd]. do 2 eexists. split; [done|]. split; [|done].
    destruct Hsame. constructor; [|done|done]. constructor; [by apply set_state_ok|done|cbn in *; congruence].
Qed.

Lemma max_time_ms_failure_returns d : bson_ok d → returns (_max_time_ms_failure (Some d)) (λ _, True).
Proof using Type.
  intros Hd. unfold _max_time_ms_failure.
  assert (Hcode : ∀ o, (∀ it, o = Some it → ∃ data t, iter_at it data t) → returns (code_name_is_expired o) (λ _, True)).
  { intros [it|] Ho; [|done]. destruct (Ho it eq_refl) as (data & t & Hat). unfold code_name_is_expired.
    rewrite (HOLDS_at _ _ _ Hat). cbn [bind]. destruct (bool_decide_reflect (t = BSON_TYPE_UTF8)) as [->|]; [|done].
    eapply returns_bind; [by eapply utf8_string_at|done]. }
  eapply returns_bind; [by apply (init_find_returns d (cs "codeName") []); [|repeat constructor]|]. intros [f it] Hf. cbn [fst snd] in *.
  eapply returns_bind; [apply Hcode; intros it' E; destruct f; [injection E as <-|done]; destruct Hf as [t Ht]; by exists d, t|].
  intros [] _; [done|]. eapply (returns_bind _ _ (λ o, ∀ it', o = Some it' → ∃ data t, iter_at it' data t)); [|exact Hcode].
  apply find_descendant_returns; [|by repeat constructor|lia]. pose proof (bson_iter_init_ok d Hd) as Hi.
  destruct (bson_iter_init d) as [ok it2]. exact Hi.
Qed.

Lemma no_label label : mongoc_error_has_label bson_empty_doc label = Ret false.
Proof using Type. by vm_compute. Qed.
(** a retry is granted for a label in the reply, while there is time left *)
Lemma retry_on_ok label d expire_at w :
  bson_ok d →
  ∃ b w', retry_on label d expire_at w = Ret (b, w') ∧ cp_clock w ≤ cp_clock w'
    ∧ (b = true → cp_clock w < expire_at ∧ d ≠ bson_empty_doc).
Proof using Type.
  intros Hd. unfold retry_on. destruct (decide (d = bson_empty_doc)) as [->|Hne].
  { rewrite no_label. by exists false, w. }
  pose proof (has_label_returns d label Hd) as Hl. apply returns_Ret in Hl as (l & -> & _). cbn [bind].
  destruct l; [|by exists false, w]. unfold timeout_exceeded. destruct (cp_monotonic_time w) as [t w'] eqn:Ht.
  destruct (cp_time_law _ _ _ Ht) as (_ & [_ H1] & H2). exists (negb (t >=? expire_at)), w'. split; [done|]. split; [lia|].
  rewrite Z.geb_leb. destruct (Z.leb_spec expire_at t); [done|]. intros _. split; [lia|done].
Qed.

(** ** The loops *)
Lemma later_trans s1 w1 s2 w2 s3 w3 : later s1 w1 s2 w2 → later s2 w2 s3 w3 → later s1 w1 s3 w3.
Proof using Type. intros [? ? ?] [? ? ?]. constructor; [done|lia|congruence]. Qed.
Lemma later_world s w s' w1 w2 : later s w s' w1 → cp_clock w1 ≤ cp_clock w2 → later s w s' w2.
Proof using Type. intros [? ? ?] ?. constructor; [done|lia|done]. Qed.

(** an attempt that fails takes time: the callback's, and a command's *)
Record paced (cb : cs_t → W → res (cb_result (W:=W))) (δ : Z) : Prop := {
  pc_step : 0 < δ;
  pc_callback s w c : cb s w = Ret c → cb_ok c = false → cp_clock w + δ ≤ cp_clock (cb_world c);
  pc_command s cmd opts w c : cp_write_command s cmd opts w = Ret c → cr_ok c = false → cp_clock w + δ ≤ cp_clock (cr_world c)
}.
Section Loops.
Context (F : fault → Prop) (cb : cs_t → W → res (cb_result (W:=W))) (δ : Z).

(** the fuel lasts: running out of it is one of the outcomes, or the attempts are paced
    and there is fuel for those that the time that is left has room for *)
Definition enough (fuel : nat) (expire_at : Z) (w : W) : Prop :=
  F OutOfFuel ∨ paced cb δ ∧ (0 < fuel)%nat ∧ expire_at - cp_clock w < Z.of_nat fuel * δ.
(** an attempt failed, in its time, and before the deadline *)
Definition retried (expire_at : Z) (w w' : W) : Prop :=
  ∃ w1, (paced cb δ → cp_clock w + δ ≤ cp_clock w1) ∧ cp_clock w1 < expire_at ∧ cp_clock w1 ≤ cp_clock w'.
Lemma enough_fuel e w : enough 0 e w → F OutOfFuel.
Proof using Type. intros [?|(_ & ? & _)]; [done|lia]. Qed.
Lemma enough_next n e w w' : enough (S n) e w → retried e w w' → enough n e w'.
Proof using Type.
  intros [?|(Hp & _ & Hf)] (w1 & Hstep & Hlate & Hk); [by left|]. right. specialize (Hstep Hp). pose proof (pc_step _ _ Hp).
  split; [done|]. destruct n; [lia|]. split; lia.
Qed.
Lemma enough_later n e w w' : enough n e w → cp_clock w ≤ cp_clock w' → enough n e w'.
Proof using Type. intros [?|(Hp & ? & Hf)] ?; [by left|]. right. split; [done|]. split; [done|]. lia. Qed.
Lemma retried_later e w0 w w' : cp_clock w0 ≤ cp_clock w → retried e w w' → retried e w0 w'.
Proof using Type. intros Hw (w1 & Hstep & ? & ?). exists w1. split; [intros Hp; specialize (Hstep Hp); lia|]. done. Qed.
Lemma failed_call_time w w' : failed_call w w' → paced cb δ → cp_clock w + δ ≤ cp_clock w'.
Proof using Type. intros (s & cmd & opts & w0 & c & Hk & Hc & Hf & ->) Hp. pose proof (pc_command _ _ Hp _ _ _ _ _ Hc Hf). lia. Qed.

Definition commit_post (expire_at : Z) (s : cs_t) (w : W) (r : commit_end (W:=W)) : Prop :=
  match r with
  | Finished ok e d s' w' => later s w s' w' ∧ committed s' ∧ bson_ok d
  | RestartTxn e s' w' => later s w s' w' ∧ committed s' ∧ retried expire_at w w'
  end.
Lemma commit_post_later e s w s1 w1 r :
  later s w s1 w1 → commit_post e s1 w1 r → commit_post e s w r.
Proof using Type.
  intros Hl. destruct r; cbn; intros (H1 & H2 & H3); (split; [by eapply later_trans|]); (split; [done|]); [done|].
  eapply retried_later; [apply Hl|done].
Qed.
Lemma with_txn_commit_run fuel expire_at error s w :
  idle s → _mongoc_client_session_in_txn (Some s) = true ∨ committed s → enough fuel expire_at w →
  outcome F (with_txn_commit fresh fuel expire_at error s w) (commit_post expire_at s w).
Proof using Type.
  revert error s w. induction fuel as [|fuel IH]; intros error s w Hs Hin Hf; [by eapply enough_fuel|]. cbn [with_txn_commit].
  destruct (commit_committed s w Hs Hin) as (ok & e & d & s1 & w1 & -> & Hl1 & Hc1 & Hd & Hfail). cbn [bind deref].
  destruct ok; cbn [negb]; [done|].
  pose proof (max_time_ms_failure_returns d Hd) as Hm. apply returns_Ret in Hm as (m & -> & _). cbn [bind].
  destruct m; [done|]. specialize (Hfail eq_refl).
  assert (Hretry : ∀ w2 w3, cp_clock w1 ≤ cp_clock w2 ≤ cp_clock w3 → cp_clock w2 < expire_at ∧ d ≠ bson_empty_doc → retried expire_at w w3).
  { intros w2 w3 Hk [Hx Hne]. exists w2. split; [|lia]. intros Hp. destruct Hfail as [Hfail|]; [|done].
    pose proof (failed_call_time _ _ Hfail Hp). lia. }
  destruct (retry_on_ok UNKNOWN_COMMIT_RESULT d expire_at w1 Hd) as (u & w2 & -> & Hk2 & Hu). cbn [bind]. destruct u.
  - eapply outcome_mono; [apply IH; [apply Hl1|by right|]|done|].
    + eapply enough_next; [exact Hf|]. apply (Hretry w1); [lia|by apply Hu].
    + intros r _. apply commit_post_later. by eapply later_world.
  - destruct (retry_on_ok TRANSIENT_TXN_ERR d expire_at w2 Hd) as (t & w3 & -> & Hk3 & Ht). cbn [bind].
    assert (Hl3 : later s w s1 w3) by (eapply later_world; [exact Hl1|lia]).
    destruct t; cbn; (split; [exact Hl3|]); (split; [done|]); [|done]. apply (Hretry w2); [lia|by apply Ht].
Qed.

(** what a callback may do: use the session it is given, and take its time *)
Definition callback_ok : Prop :=
  ∀ s w, idle s → _mongoc_client_session_in_txn (Some s) = true →
  ∃ c, cb s w = Ret c ∧ later s w (cb_session c) (cb_world c) ∧ (∀ d, cb_reply c = Some d → bson_ok d).
(** the end: success means that the callback's transaction is committed, or that the
    callback, which succeeded, ended it itself *)
Definition txn_outcome (ok : bool) (s : cs_t) : Prop :=
  closed s ∧ (ok = true → committed s ∨ ∃ s0 w0 c, cb s0 w0 = Ret c ∧ cb_ok c = true ∧ s = cb_session c).

Lemma closed_state s :
  idle s → _mongoc_client_session_in_txn (Some s) = negb (
    bool_decide (cs_txn_state s = MONGOC_INTERNAL_TRANSACTION_ABORTED)
    || bool_decide (cs_txn_state s = MONGOC_INTERNAL_TRANSACTION_NONE)
    || bool_decide (cs_txn_state s = MONGOC_INTERNAL_TRANSACTION_COMMITTED)
    || bool_decide (cs_txn_state s = MONGOC_INTERNAL_TRANSACTION_COMMITTED_EMPTY)).
Proof using Type. intros [_ He _]. cbn. by destruct (cs_txn_state s). Qed.
Lemma open_state s :
  bool_decide (cs_txn_state s = MONGOC_INTERNAL_TRANSACTION_STARTING)
  || bool_decide (cs_txn_state s = MONGOC_INTERNAL_TRANSACTION_IN_PROGRESS) = _mongoc_client_session_in_txn (Some s).
Proof using Type. cbn. by destruct (cs_txn_state s). Qed.
Lemma callback_abort s w :
  idle s →
  ∃ s' w', (if _mongoc_client_session_in_txn (Some s) then
              let* a := mongoc_client_session_abort_transaction fresh s w in
              let '(ok, _, s, w) := a in let* _ := bson_assert ok in Ret (s, w)
            else Ret (s, w)) = Ret (s', w') ∧ later s w s' w' ∧ closed s'.
Proof using Type.
  intros Hs. destruct (_mongoc_client_session_in_txn (Some s)) eqn:Hin.
  - destruct (abort_open s w Hs Hin) as (s' & w' & -> & Hl & Hc). cbn [bind bson_assert]. by exists s', w'.
  - exists s, w. split; [done|]. split; [by constructor|done].
Qed.

Definition loop_post (r : bool * option bson_error_t * option bson_t * cs_t * W) : Prop :=
  let '(ok, _, _, s', _) := r in idle s' ∧ txn_outcome ok s'.
Lemma with_txn_loop_run opts fuel expire_at error s w :
  callback_ok → match opts with Some o => txn_opts_ok o | None => True end →
  idle s → closed s → number s + Z.of_nat fuel < 2 ^ 63 → enough fuel expire_at w →
  outcome F (with_txn_loop fresh fuel cb opts expire_at error s w) loop_post.
Proof using Type.
  intros Hcb Hopts. revert error s w.
  induction fuel as [|fuel IH]; intros error s w Hs Hcl Hn Hf; [by eapply enough_fuel|]. cbn [with_txn_loop].
  destruct Hs as [Hok He Hlab].
  destruct (start_ok fresh s opts w Hok He Hopts ltac:(unfold number in Hn; lia)) as (ok & e & s1 & w1 & -> & [H1 _ Hk1 [Ht1 _] Hn1 Hyes Hno]).
  cbn [bind]. destruct ok; cbn [negb].
  2: { destruct (Hno eq_refl) as [_ Hst]. split; [constructor; [done|congruence|congruence]|].
       split; [|done]. unfold closed in *. cbn in *. by rewrite Hst. }
  destruct (Hyes eq_refl) as (_ & Hst1 & Hn2 & _).
  assert (Hi1 : idle s1) by (constructor; [done|by rewrite Hst1|congruence]).
  destruct (Hcb s1 w1 Hi1) as (c & Hc & [Hic Hkc Hnc] & Hrep); [cbn; by rewrite Hst1|]. rewrite Hc. cbn [bind]. unfold number in *.
  assert (Hd : bson_ok (default bson_empty_doc (cb_reply c))).
  { destruct (cb_reply c); [by apply Hrep|]. split; [by_check|done]. }
  destruct (cb_ok c) eqn:Hcok; cbn [negb].
  - rewrite <- (negb_involutive (_ || bool_decide (cs_txn_state (cb_session c) = MONGOC_INTERNAL_TRANSACTION_COMMITTED_EMPTY))).
    rewrite <- (closed_state _ Hic). destruct (_mongoc_client_session_in_txn (Some (cb_session c))) eqn:Hin; cbn [negb].
    + eapply outcome_bind; [apply (with_txn_commit_run (S fuel)); [done|by left|eapply enough_later; [exact Hf|lia]]|].
      intros [ok' e' d' s' w'|e' s' w'] _; cbn [commit_post].
      * intros ([Hi _ _] & Hco & _). split; [done|]. split; [by apply committed_closed|by left].
      * intros ([Hi _ Hnn] & Hco & Hr). apply IH; [done|by apply committed_closed|unfold number in *; lia|].
        eapply enough_next; [exact Hf|]. eapply retried_later; [|exact Hr]. lia.
    + split; [done|]. split; [done|]. intros _. right. by exists s1, w1, c.
  - rewrite open_state. destruct (callback_abort (cb_session c) (cb_world c) Hic) as (s2 & w2 & -> & [Hi2 Hk2 Hn3] & Hcl2). cbn [bind].
    destruct (retry_on_ok TRANSIENT_TXN_ERR _ expire_at w2 Hd) as (t & w3 & -> & Hk3 & Ht). cbn [bind]. destruct t; [|by split].
    destruct (Ht eq_refl) as [Hx _]. apply IH; [done|done|unfold number in *; lia|]. eapply enough_next; [exact Hf|].
    exists w2. split; [|by split]. intros Hp. pose proof (pc_callback _ _ Hp _ _ _ Hc Hcok). lia.
Qed.

(** the limit, in microseconds *)
Definition txn_limit (s : cs_t) : Z :=
  1000 * (if cs_with_txn_timeout_ms s >? 0 then cs_with_txn_timeout_ms s else WITH_TXN_TIMEOUT_MS).
Definition txn_post (r : bool * option bson_error_t * bson_t * cs_t * W) : Prop :=
  let '(ok, _, _, s', _) := r in idle s' ∧ txn_outcome ok s'.
Lemma with_transaction_run opts fuel s w :
  callback_ok → match opts with Some o => txn_opts_ok o | None => True end →
  idle s → closed s → cs_with_txn_timeout_ms s < 2 ^ 50 → (cp_monotonic_time w).1 < 2 ^ 62 → number s + Z.of_nat fuel < 2 ^ 63 →
  F OutOfFuel ∨ paced cb δ ∧ txn_limit s < Z.of_nat fuel * δ →
  outcome F (mongoc_client_session_with_transaction fresh fuel s cb opts w) txn_post.
Proof using Type.
  intros Hcb Hopts Hs Hcl Hms Htime Hn Hf. unfold mongoc_client_session_with_transaction, txn_limit in *.
  destruct (cp_monotonic_time w) as [t w1] eqn:Ht.
  destruct (cp_time_law _ _ _ Ht) as (_ & [H1 H2] & H3). cbn [fst] in Htime.
  set (ms := if cs_with_txn_timeout_ms s >? 0 then cs_with_txn_timeout_ms s else WITH_TXN_TIMEOUT_MS) in *.
  assert (Hr : 0 < ms < 2 ^ 50).
  { unfold ms, WITH_TXN_TIMEOUT_MS. rewrite Z.gtb_ltb. destruct (Z.ltb_spec 0 (cs_with_txn_timeout_ms s)); lia. }
  clearbody ms. rewrite chk64_ok by (unfold in_s64; lia). cbn [bind]. rewrite chk64_ok by (unfold in_s64; lia). cbn [bind].
  eapply outcome_bind; [apply with_txn_loop_run; try done|by intros [[[[ok e] d] s'] w'] _].
  destruct Hf as [?|(Hp & Hf)]; [by left|]. right. split; [done|]. pose proof (pc_step _ _ Hp). split; [|lia].
  destruct fuel; lia.
Qed.
End Loops.

(** C9. mongoc_client_session_with_transaction leaves no transaction open: however many
    retries it makes, when it returns the session is out of its transaction, and when it
    reports success the transaction is committed, or a successful callback has ended it
    itself.  And it returns: if a callback or a command that fails takes at least [δ]
    microseconds, every retry, of the whole transaction or of the commit, follows such a
    failure and starts before the deadline, so [fuel] iterations are enough as soon as
    [fuel * δ] exceeds the time limit.  Assumed: the clock does not go back and reads
    less than 2^62 microseconds, a limit below 2^50 milliseconds, transaction numbers
    that do not run out, a callback that returns with the session it was given, and the
    laws of [CommandPathOk] for the commands. *)
Theorem with_transaction_ends cb opts fuel s w
    (Hcb : callback_ok cb) (Hopts : match opts with Some o => txn_opts_ok o | None => True end)
    (Hs : idle s) (Hclosed : closed s) (Hms : cs_with_txn_timeout_ms s < 2 ^ 50)
    (Htime : (cp_monotonic_time w).1 < 2 ^ 62)
    (Hn : ss_txn_number (cs_server_session s) + Z.of_nat fuel < 2 ^ 63) :
  outcome (λ f, f = OutOfFuel) (mongoc_client_session_with_transaction fresh fuel s cb opts w) (txn_post cb)
  ∧ ∀ δ, paced cb δ → txn_limit s < Z.of_nat fuel * δ →
    returns (mongoc_client_session_with_transaction fresh fuel s cb opts w) (txn_post cb).
Proof using Type.
  split; [by apply (with_transaction_run _ cb 1); [..|left]|].
  intros δ Hp Hf. change (outcome (λ _, False) (mongoc_client_session_with_transaction fresh fuel s cb opts w) (txn_post cb)).
  apply (with_transaction_run _ cb δ); [done..|by right].
Qed.
End WithTxn.

(** a callback that fails until the clock is at 3, and then runs a command *)
Definition sample_callback (s : mongoc_client_session_t) (w : script) : res cb_result :=
  let w' := Script (sc_answers w) (sc_log w) (S (sc_clock w)) in
  if (sc_clock w <? 3)%nat then
    Ret (CbResult false (Some (doc_of (answer_entries TransientError))) (answer_error TransientError) s w')
  else Ret (CbResult true None None (set_txn_state MONGOC_INTERNAL_TRANSACTION_IN_PROGRESS s) w').
Lemma sample_callback_ok : callback_ok sample_callback.
Proof.
  intros s w [Hok Hst Hl] _. unfold sample_callback.
  destruct (sc_clock w <? 3)%nat; (eexists; split; [done|]); cbn [cb_session cb_world cb_reply]; (split; [|]).
  - constructor; [done|cbn; lia|done].
  - intros d [= <-]. apply reply_bson_ok. by exists (answer_entries TransientError), (answer_labels TransientError); split; [|apply answer_reply].
  - constructor; [constructor; [by apply set_state_ok|done|done]|cbn; lia|done].
  - done.
Qed.
Lemma sample_paced : paced sample_callback 1.
Proof.
  constructor; [done| |].
  - intros s w c. unfold sample_callback. destruct (sc_clock w <? 3)%nat; intros [= <-]; [|done]. intros _. cbn. lia.
  - intros s cmd opts w c [= <-] _. cbn. lia.
Qed.
(** the callback fails and its transaction starts again; the commit loses its
    connection twice and is sent again *)
Definition sample_world : script := Script [NetworkError; NetworkError; Acknowledged] [] 0.
Example sample_run :
  (let* r := mongoc_client_session_with_transaction sample_fresh 1001 (session_in MONGOC_INTERNAL_TRANSACTION_NONE)
               sample_callback (Some sample_opts) sample_world in
   let '(ok, _, _, s, w) := r in Ret (ok, cs_txn_state s, ss_txn_number (cs_server_session s), length (sc_log w)))
  = Ret (true, MONGOC_INTERNAL_TRANSACTION_COMMITTED, 5, 3%nat).
Proof. by vm_compute. Qed.
Lemma with_transaction_ends_witness :
  returns (mongoc_client_session_with_transaction sample_fresh 1001 (session_in MONGOC_INTERNAL_TRANSACTION_NONE)
      sample_callback (Some sample_opts) sample_world) (txn_post sample_callback).
Proof.
  refine (proj2 (with_transaction_ends sample_fresh sample_callback (Some sample_opts) 1001 (session_in MONGOC_INTERNAL_TRANSACTION_NONE)
    sample_world sample_callback_ok sample_opts_ok _ _ _ _ _) 1 sample_paced _).
  - apply session_in_idle. discriminate.
  - reflexivity.
  - vm_compute. reflexivity.
  - vm_compute. reflexivity.
  - vm_compute. reflexivity.
  - vm_compute. reflexivity.
Defined.
