(* ===== verification/Cluster.v ===== *)
(** Running commands (mongoc/mongoc-cluster.c): the exchange of messages with a server,
    what a failure of the network does to the session, and what an error reply does to
    the topology.  The stream is an interface; a pointer to the cluster's topology is
    the topology itself. *)
From Stdlib Require Import ZArith Lia List.
From stdpp Require Import prelude gmap strings.
From S2P Require Import Prelude BsonIter BsonIterSafe BsonFields BsonAppend BsonBuild BsonValue BsonParse HostList MongocTypes BsonEntries CommandErrors ServerDescription TopologyDescription ServerSession ClientSession Rpc Compression Buffer.
#[local] Open Scope string_scope.
#[local] Open Scope list_scope.
#[local] Open Scope Z_scope.
#[local] Open Scope mongo_scope.

#[local] Notation cs_t := mongoc_client_session_t.
#[local] Notation sd_t := mongoc_server_description_t.

Definition WIRE_VERSION_OP_MSG : Z := 6.
Definition WIRE_VERSION_4_0 : Z := 7.
Definition MONGOC_MSG_MORE_TO_COME : Z := 2.
Definition MONGOC_DEFAULT_MAX_MSG_SIZE : Z := 48000000.
Definition MONGOC_NAMESPACE_MAX : Z := 128.
Definition MONGOC_ERROR_CLIENT_IN_EXHAUST : Z := 13.

(** command monitoring events, without the time they took *)
Inductive command_event :=
| CommandStarted (command : bson_t) (name : option (list Z)) (request_id operation_id server_id : Z)
| CommandSucceeded (reply : bson_t) (name : option (list Z)) (request_id operation_id server_id : Z)
| CommandFailed (error : bson_error_t) (reply : bson_t) (name : option (list Z)) (request_id operation_id server_id : Z).
Record command_callbacks := CommandCallbacks { cb_started : bool; cb_succeeded : bool; cb_failed : bool }.

(** the cluster, its client and the client's topology; [c_disconnected] lists the
    connections closed by [mongoc_cluster_disconnect_node] *)
Record mongoc_cluster_t := Cluster {
  c_request_id : Z;
  c_topology : monitored;
  c_stale : bool;
  c_scan_requested : bool;
  c_single_threaded : bool;
  c_in_exhaust : bool;
  c_error_api_version : Z;
  c_zlib_level : Z;
  c_callbacks : command_callbacks;
  c_disconnected : list Z;
  c_events : list command_event
}.
Definition cluster_eta (c : mongoc_cluster_t) : mongoc_cluster_t :=
  Cluster (c_request_id c) (c_topology c) (c_stale c) (c_scan_requested c) (c_single_threaded c) (c_in_exhaust c)
    (c_error_api_version c) (c_zlib_level c) (c_callbacks c) (c_disconnected c) (c_events c).
#[local] Notation "A ↦ B" := (A → B → B) (at level 98, right associativity).
Definition set_request_id : Z ↦ mongoc_cluster_t := ltac:(setter cluster_eta c_request_id).
Definition set_topology : monitored ↦ mongoc_cluster_t := ltac:(setter cluster_eta c_topology).
Definition set_stale : bool ↦ mongoc_cluster_t := ltac:(setter cluster_eta c_stale).
Definition set_scan_requested : bool ↦ mongoc_cluster_t := ltac:(setter cluster_eta c_scan_requested).
Definition set_disconnected : list Z ↦ mongoc_cluster_t := ltac:(setter cluster_eta c_disconnected).
Definition set_events : list command_event ↦ mongoc_cluster_t := ltac:(setter cluster_eta c_events).

(** [cmd_payload]: [None] is NULL; [cmd_sd] is the description in the server stream *)
Record mongoc_cmd_t := Cmd {
  cmd_db_name : list Z;
  cmd_query_flags : Z;
  cmd_command : bson_t;
  cmd_command_name : option (list Z);
  cmd_payload : option (list Z);
  cmd_payload_size : Z;
  cmd_payload_identifier : list Z;
  cmd_sd : sd_t;
  cmd_operation_id : Z;
  cmd_session : option cs_t;
  cmd_is_acknowledged : bool;
  cmd_is_txn_finish : bool
}.

(** what a call leaves: the return value, [*error], [*reply], the session, the cluster
    and the stream; the callers pass pointers for the error and the reply *)
Record run_t (W : Type) := Run {
  r_ok : bool;
  r_error : bson_error_t;
  r_reply : bson_t;
  r_session : option cs_t;
  r_cluster : mongoc_cluster_t;
  r_world : W
}.
Arguments Run {W} _ _ _ _ _ _.
Arguments r_ok {W} _. Arguments r_error {W} _. Arguments r_reply {W} _.
Arguments r_session {W} _. Arguments r_cluster {W} _. Arguments r_world {W} _.

(** [RUN_CMD_ERR_DECORATE] and [RUN_CMD_ERR] *)
Definition RUN_CMD_ERR_DECORATE (cmd : mongoc_cmd_t) (e : bson_error_t) : bson_error_t :=
  Error (e_domain e) (e_code e) (take 503
    (cs "Failed to send " ++ [34] ++ default (cs "(null)") (cmd_command_name cmd) ++ [34] ++ cs " command with database "
     ++ [34] ++ cmd_db_name cmd ++ [34] ++ cs ": " ++ e_message e)).
Definition RUN_CMD_ERR (cmd : mongoc_cmd_t) (domain code : Z) (message : list Z) : bson_error_t :=
  RUN_CMD_ERR_DECORATE cmd (bson_set_error domain code message).

(** [%d] *)
Definition print_int (n : Z) : list Z := if n <? 0 then 45 :: print_dec 10 (- n) else print_dec 10 n.

(** mongoc-cmd.c *)
Definition mongoc_cmd_is_compressible (cmd : mongoc_cmd_t) : res bool :=
  let* _ := bson_assert (bool_decide (is_Some (cmd_command_name cmd))) in
  let* name := deref (cmd_command_name cmd) in
  Ret (forallb (λ s, negb (strcaseeq name s))
    [cs "ismaster"; cs "authenticate"; cs "getnonce"; cs "saslstart"; cs "saslcontinue"; cs "createuser"; cs "updateuser"]).

Section Running.
Context {W : Type} `{Stream W} {zlib : Zlib}.
Variable now : Z.
Variable fresh : Z → Z.

(** ** Failures *)
Definition mongoc_cluster_disconnect_node (cluster : mongoc_cluster_t) (server_id : Z) (invalidate : bool)
    (why : option bson_error_t) : res mongoc_cluster_t :=
  let cluster := set_disconnected (c_disconnected cluster ++ [server_id]) cluster in
  if invalidate then
    match why with
    | None => Stuck AssertFailed
    | Some e =>
        let* m := mongoc_topology_description_invalidate_server now (c_topology cluster) server_id e in
        Ret (set_topology m cluster)
    end
  else Ret cluster.

Definition mark_dirty (s : cs_t) : cs_t :=
  let ss := cs_server_session s in
  set_server_session (ServerSession (ss_last_used_usec ss) (ss_lsid ss) (ss_txn_number ss) true) s.
(** the reply and the session *)
Definition network_error_reply (cmd : mongoc_cmd_t) : res (bson_t * option cs_t) :=
  let reply := bson_init fresh in
  match cmd_session cmd with
  | None => let* d := bson_get_data reply in Ret (d, None)
  | Some s =>
      let s := mark_dirty s in
      if _mongoc_client_session_in_txn (Some s) && negb (cmd_is_txn_finish cmd) then
        let s := ClientSession.set_server_id 0 s in
        let* r := BSON_APPEND_ARRAY_BEGIN fresh reply (cs "errorLabels") in
        if negb r.1 then Stuck OutOfBounds
        else
          let* r := BSON_APPEND_UTF8 fresh r.2 (cs "0") TRANSIENT_TXN_ERR in
          let* reply := bson_append_array_end r.2 in
          let* d := bson_get_data reply in
          Ret (d, Some s)
      else let* d := bson_get_data reply in Ret (d, Some s)
  end.

(** the end of every failing path after the message was sent *)
Definition opmsg_failed (disconnect : bool) (cluster : mongoc_cluster_t) (cmd : mongoc_cmd_t) (error : bson_error_t)
    (w : W) : res (run_t W) :=
  let* cluster := (if disconnect then mongoc_cluster_disconnect_node cluster (sd_id (cmd_sd cmd)) true (Some error)
                   else Ret cluster) in
  let* r := network_error_reply cmd in
  Ret (Run false error r.1 r.2 cluster w).

(** ** OP_MSG *)
Definition opmsg_request (cmd : mongoc_cmd_t) (request_id : Z) : res mongoc_rpc_t :=
  let rpc := set_int "opcode" MONGOC_OPCODE_MSG (set_int "response_to" 0
               (set_int "request_id" (s32 request_id) (set_int "msg_len" 0 rpc_zero))) in
  let rpc := set_int "flags" (if cmd_is_acknowledged cmd then 0 else MONGOC_MSG_MORE_TO_COME) rpc in
  let body := RpcSection 0 (bson_document (Some (cmd_command cmd))) in
  match cmd_payload cmd with
  | None => Ret (set_int "n_sections" 1 (set_sec "sections" [body] rpc))
  | Some payload =>
      let* identifier := c_string (cmd_payload_identifier cmd) in
      let size := s32 (cmd_payload_size cmd + blen identifier + 1 + 4) in
      let docs := RpcSection 1 (sequence size (Some (cmd_payload_identifier cmd)) (Some payload)) in
      Ret (set_int "n_sections" 2 (set_sec "sections" [body; docs] rpc))
  end.

(** the message to send, compressed if the server and the command allow it; or the
    error of the compression *)
Definition opmsg_message (cluster : mongoc_cluster_t) (cmd : mongoc_cmd_t) (request_id : Z)
    : res (list Z + option bson_error_t) :=
  let* rpc := opmsg_request cmd request_id in
  let* g := _mongoc_rpc_gather rpc [] in
  let* compressible := mongoc_cmd_is_compressible cmd in
  let* id := (if compressible : bool then mongoc_server_description_compressor_id (cmd_sd cmd) else Ret (-1)) in
  if id =? -1 then let* b := iovs_bytes g.1 g.2 in Ret (inl b)
  else
    let* c := _mongoc_rpc_compress id (c_zlib_level cluster) g.1 g.2 in
    match c with
    | inr e => Ret (inr e)
    | inl g => let* b := iovs_bytes g.1 g.2 in Ret (inl b)
    end.

(** the message in the bytes received, or the error and whether the connection is
    closed *)
Definition opmsg_unpack (cmd : mongoc_cmd_t) (data : list Z) (len : Z) : res (mongoc_rpc_t + bson_error_t * bool) :=
  let* s := _mongoc_rpc_scatter data len in
  let '(ok, rpc) := s in
  if negb ok then
    Ret (inr (RUN_CMD_ERR cmd MONGOC_ERROR_PROTOCOL MONGOC_ERROR_PROTOCOL_INVALID_REPLY
                (cs "Malformed message from server"), false))
  else if u32 (rpc_int rpc "opcode") =? MONGOC_OPCODE_COMPRESSED then
    let len := u32 (rpc_int rpc "uncompressed_size") + 16 in
    let* d := _mongoc_rpc_decompress rpc (fresh_bytes fresh 0 len) len in
    let '(ok, rpc) := d in
    if negb ok then
      Ret (inr (RUN_CMD_ERR cmd MONGOC_ERROR_PROTOCOL MONGOC_ERROR_PROTOCOL_INVALID_REPLY
                  (cs "Could not decompress message from server"), true))
    else Ret (inl rpc)
  else Ret (inl rpc).

(** The buffer keeps what the struct points to. *)
Definition opmsg_receive (cmd : mongoc_cmd_t) (w : W) : res ((mongoc_rpc_t + bson_error_t * bool) * W) :=
  let* buffer := _mongoc_buffer_init fresh None 0 in
  let* r := _mongoc_buffer_append_from_stream fresh buffer 4 w in
  let '(ok, e, buffer, w) := r in
  if negb ok then let* e := deref e in Ret (inr (RUN_CMD_ERR_DECORATE cmd e, true), w)
  else
    let* _ := bson_assert (buf_len buffer =? 4) in
    let* data := deref (buf_data buffer) in
    let* msg_len := rd_le 4 data 0 in
    let msg_len := s32 msg_len in
    if (msg_len <? 16) || (msg_len >? sd_max_msg_size (cmd_sd cmd)) then
      Ret (inr (RUN_CMD_ERR cmd MONGOC_ERROR_PROTOCOL MONGOC_ERROR_PROTOCOL_INVALID_REPLY
        (cs "Message size " ++ print_int msg_len ++ cs " is not within expected range 16-"
         ++ print_int (sd_max_msg_size (cmd_sd cmd)) ++ cs " bytes"), true), w)
    else
      let* r := _mongoc_buffer_append_from_stream fresh buffer (msg_len - 4) w in
      let '(ok, e, buffer, w) := r in
      if negb ok then let* e := deref e in Ret (inr (RUN_CMD_ERR_DECORATE cmd e, true), w)
      else
        let* data := deref (buf_data buffer) in
        let* o := opmsg_unpack cmd data (buf_len buffer) in Ret (o, w).

(** The document of the first section.  Nothing checks the opcode or the type of the
    section: the pointer read from any other message is wild. *)
Definition reply_document (rpc : mongoc_rpc_t) : res bson_t :=
  match rpc_sec rpc "sections" with
  | RpcSection _ (bson_document p) :: _ =>
      let* p := deref p in
      let* msg_len := rd_le 4 p 0 in
      let* d := bson_init_static p (u64 (s32 msg_len)) in
      match d with Some d => Ret d | None => Stuck OutOfBounds end
  | _ => Stuck OutOfBounds
  end.

Definition opmsg_reply (cluster : mongoc_cluster_t) (cmd : mongoc_cmd_t) (rpc : mongoc_rpc_t) (error : bson_error_t)
    (w : W) : res (run_t W) :=
  let* reply_local := reply_document rpc in
  let* td := mongoc_topology_description_update_cluster_time (m_td (c_topology cluster)) (Some reply_local) in
  let cluster := set_topology (set_m_td td (c_topology cluster)) cluster in
  let* c := _mongoc_cmd_check_ok reply_local (c_error_api_version cluster) in
  let* session := match cmd_session cmd with
                  | None => Ret None
                  | Some s =>
                      let* s := _mongoc_client_session_handle_reply s (cmd_is_acknowledged cmd) (Some reply_local) in
                      Ret (Some s)
                  end in
  Ret (Run c.1 (default error c.2) reply_local session cluster w).

Definition mongoc_cluster_run_opmsg (cluster : mongoc_cluster_t) (cmd : mongoc_cmd_t) (error : bson_error_t) (w : W)
    : res (run_t W) :=
  let refused e cluster := Ret (Run false e bson_empty_doc (cmd_session cmd) cluster w) in
  match cmd_command_name cmd with
  | None => refused (bson_set_error MONGOC_ERROR_COMMAND MONGOC_ERROR_COMMAND_INVALID_ARG (cs "Empty command document")) cluster
  | Some _ =>
      if c_in_exhaust cluster then
        refused (bson_set_error MONGOC_ERROR_CLIENT MONGOC_ERROR_CLIENT_IN_EXHAUST
                   (cs "A cursor derived from this client is in exhaust.")) cluster
      else
        let cluster := set_request_id (u32 (c_request_id cluster + 1)) cluster in
        let* msg := opmsg_message cluster cmd (c_request_id cluster) in
        match msg with
        | inr e => refused (default error e) cluster
        | inl bytes =>
            let '(ok, e, w) := stream_writev bytes w in
            if negb ok then opmsg_failed true cluster cmd (RUN_CMD_ERR_DECORATE cmd e) w
            else if cmd_is_acknowledged cmd then
              let* r := opmsg_receive cmd w in
              match r with
              | (inr (e, disconnect), w) => opmsg_failed disconnect cluster cmd e w
              | (inl rpc, w) => opmsg_reply cluster cmd rpc error w
              end
            else Ret (Run true error bson_empty_doc (cmd_session cmd) cluster w)
        end
  end.

(** ** OP_QUERY

    The request and what is sent; [id] is the compressor, -1 for none. *)
Definition opquery_message (cluster : mongoc_cluster_t) (cmd : mongoc_cmd_t) (id request_id : Z)
    : res (list Z + option bson_error_t) :=
  let cmd_ns := take (Z.to_nat (MONGOC_NAMESPACE_MAX - 1)) (cmd_db_name cmd ++ cs ".$cmd") in
  let rpc := _mongoc_rpc_prep_command rpc_zero (c_mem cmd_ns) (cmd_command cmd) (cmd_query_flags cmd) in
  let* g := _mongoc_rpc_gather (set_int "request_id" (s32 request_id) rpc) [] in
  let* compress := (if id =? -1 then Ret false
                    else
                      let* name := deref (cmd_command_name cmd) in
                      Ret (forallb (λ s, negb (strcaseeq name s))
                        [cs "ismaster"; cs "saslstart"; cs "saslcontinue"; cs "getnonce"; cs "authenticate";
                         cs "createuser"; cs "updateuser"])) in
  if compress : bool then
    let* c := _mongoc_rpc_compress id (c_zlib_level cluster) g.1 g.2 in
    match c with
    | inr e => Ret (inr e)
    | inl g => let* b := iovs_bytes g.1 g.2 in Ret (inl b)
    end
  else let* b := iovs_bytes g.1 g.2 in Ret (inl b).

Definition socket_error (cmd : mongoc_cmd_t) : bson_error_t :=
  RUN_CMD_ERR cmd MONGOC_ERROR_STREAM MONGOC_ERROR_STREAM_SOCKET (cs "socket error or timeout").

(** [done]: a failure without an error gets a generic one *)
Definition opquery_done (ret : bool) (cluster : mongoc_cluster_t) (cmd : mongoc_cmd_t) (error : bson_error_t)
    (reply : bson_t) (w : W) : run_t W :=
  let error := if negb ret && (e_code error =? 0)
               then RUN_CMD_ERR cmd MONGOC_ERROR_PROTOCOL MONGOC_ERROR_PROTOCOL_INVALID_REPLY (cs "Invalid reply from server.")
               else error in
  Run ret error reply (cmd_session cmd) cluster w.
Definition opquery_check (cluster : mongoc_cluster_t) (cmd : mongoc_cmd_t) (error : bson_error_t) (reply : bson_t) (w : W)
    : res (run_t W) :=
  let* c := _mongoc_cmd_check_ok reply (c_error_api_version cluster) in
  Ret (opquery_done c.1 cluster cmd (default error c.2) reply w).

(** the body of a compressed reply *)
Definition opquery_compressed (cluster : mongoc_cluster_t) (cmd : mongoc_cmd_t) (error : bson_error_t)
    (header : list Z) (msg_len doc_len : Z) (rpc : mongoc_rpc_t) (w : W) : res (run_t W) :=
  (* the struct holds the header of an OP_REPLY, where the union has the size in the
     first half of cursor_id *)
  let len := u32 (rpc_int rpc "cursor_id") + 16 in
  (* the allocation of a negative size, a huge one, aborts *)
  let* _ := bson_assert (0 <=? msg_len) in
  let* reply_buf := write_at (repeat 0 (Z.to_nat msg_len)) 0 header in
  let '(ret, bytes, w) := stream_read doc_len doc_len w in
  let* reply_buf := write_at reply_buf 36 bytes in
  if negb (doc_len =? ret) then
    let e := socket_error cmd in
    let* cluster := mongoc_cluster_disconnect_node cluster (sd_id (cmd_sd cmd)) true (Some e) in
    Ret (opquery_done false cluster cmd e bson_empty_doc w)
  else
    let* s := _mongoc_rpc_scatter reply_buf msg_len in
    if negb s.1 then Ret (opquery_done false cluster cmd error bson_empty_doc w)
    else
      let* d := _mongoc_rpc_decompress s.2 (repeat 0 (Z.to_nat len)) len in
      if negb d.1 then
        Ret (opquery_done false cluster cmd (RUN_CMD_ERR cmd MONGOC_ERROR_PROTOCOL MONGOC_ERROR_PROTOCOL_INVALID_REPLY
               (cs "Could not decompress server reply")) bson_empty_doc w)
      else
        let* tmp := _mongoc_rpc_get_first_document d.2 in
        match tmp with
        | None => Ret (opquery_done false cluster cmd (RUN_CMD_ERR cmd MONGOC_ERROR_PROTOCOL MONGOC_ERROR_PROTOCOL_INVALID_REPLY
                         (cs "Corrupt compressed OP_QUERY reply from server")) bson_empty_doc w)
        | Some tmp => opquery_check cluster cmd error tmp w
        end.

(** the body of an OP_REPLY is read into the reply document *)
Definition opquery_body (cluster : mongoc_cluster_t) (cmd : mongoc_cmd_t) (error : bson_error_t) (doc_len : Z) (w : W)
    : res (run_t W) :=
  match bson_reserve_buffer fresh (bson_init fresh) (u32 doc_len) with
  | None => Stuck AssertFailed
  | Some m =>
      let '(ret, bytes, w) := stream_read doc_len doc_len w in
      let* buf := write_at (m_buf m) 0 bytes in
      let reply := take (Z.to_nat doc_len) buf in
      if negb (doc_len =? ret) then
        let e := socket_error cmd in
        let* cluster := mongoc_cluster_disconnect_node cluster (sd_id (cmd_sd cmd)) true (Some e) in
        Ret (opquery_done false cluster cmd e reply w)
      else opquery_check cluster cmd error reply w
  end.

Definition opquery_receive (cluster : mongoc_cluster_t) (cmd : mongoc_cmd_t) (rpc : mongoc_rpc_t) (error : bson_error_t) (w : W)
    : res (run_t W) :=
  let fail invalidate cluster e w :=
    let* cluster := mongoc_cluster_disconnect_node cluster (sd_id (cmd_sd cmd)) invalidate (Some e) in
    Ret (opquery_done false cluster cmd e bson_empty_doc w) in
  let '(ret, header, w) := stream_read 36 36 w in
  if negb (ret =? 36) then fail (negb (stream_timed_out w)) cluster (socket_error cmd) w
  else
    let* msg_len := rd_le 4 header 0 in
    let msg_len := s32 msg_len in
    if (u64 msg_len <? 36) || (msg_len >? MONGOC_DEFAULT_MAX_MSG_SIZE) then fail true cluster error w
    else
      let* s := _mongoc_rpc_scatter_reply_header_only rpc header 36 in
      if negb s.1 then fail true cluster error w
      else
        let rpc := s.2 in
        let doc_len := u64 (msg_len - 36) in
        if u32 (rpc_int rpc "opcode") =? MONGOC_OPCODE_COMPRESSED then
          opquery_compressed cluster cmd error header msg_len doc_len rpc w
        else if (u32 (rpc_int rpc "opcode") =? MONGOC_OPCODE_REPLY) && (u32 (rpc_int rpc "n_returned") =? 1) then
          opquery_body cluster cmd error doc_len w
        else Ret (opquery_done false cluster cmd error bson_empty_doc w).

Definition mongoc_cluster_run_command_opquery (cluster : mongoc_cluster_t) (cmd : mongoc_cmd_t) (compressor_id : Z)
    (error : bson_error_t) (w : W) : res (run_t W) :=
  let error := Error (e_domain error) 0 (e_message error) in
  let cluster := set_request_id (u32 (c_request_id cluster + 1)) cluster in
  let* msg := opquery_message cluster cmd compressor_id (c_request_id cluster) in
  match msg with
  | inr e => Ret (opquery_done false cluster cmd (default error e) bson_empty_doc w)
  | inl bytes =>
      if c_in_exhaust cluster then
        Ret (opquery_done false cluster cmd (bson_set_error MONGOC_ERROR_CLIENT MONGOC_ERROR_CLIENT_IN_EXHAUST
               (cs "A cursor derived from this client is in exhaust.")) bson_empty_doc w)
      else
        let '(ok, e, w) := stream_writev bytes w in
        if negb ok then
          let* cluster := mongoc_cluster_disconnect_node cluster (sd_id (cmd_sd cmd)) true (Some e) in
          Ret (opquery_done false cluster cmd (RUN_CMD_ERR_DECORATE cmd e) bson_empty_doc w)
        else opquery_receive cluster cmd (_mongoc_rpc_prep_command rpc_zero [] [] 0) error w
  end.

(** ** Error replies *)
Inductive reply_error_type_t :=
| MONGOC_REPLY_ERR_TYPE_NONE | MONGOC_REPLY_ERR_TYPE_NOT_MASTER | MONGOC_REPLY_ERR_TYPE_SHUTDOWN
| MONGOC_REPLY_ERR_TYPE_NODE_IS_RECOVERING.

Definition _check_not_master_or_recovering_error (error_api_version : Z) (reply : bson_t)
    : res (reply_error_type_t * option bson_error_t) :=
  let* c := _mongoc_cmd_check_ok_no_wce reply error_api_version in
  if c.1 then Ret (MONGOC_REPLY_ERR_TYPE_NONE, c.2)
  else
    let* error := deref c.2 in
    let code := e_code error in
    let ty :=
      if (code =? 11600) || (code =? 91) then MONGOC_REPLY_ERR_TYPE_SHUTDOWN
      else if (code =? 11602) || (code =? 13436) || (code =? 189) then MONGOC_REPLY_ERR_TYPE_NODE_IS_RECOVERING
      else if (code =? 10107) || (code =? 13435) then MONGOC_REPLY_ERR_TYPE_NOT_MASTER
      else if CommandErrors.strstr (e_message error) (cs "not master") then MONGOC_REPLY_ERR_TYPE_NOT_MASTER
      else if CommandErrors.strstr (e_message error) (cs "node is recovering") then MONGOC_REPLY_ERR_TYPE_NODE_IS_RECOVERING
      else MONGOC_REPLY_ERR_TYPE_NONE in
    Ret (ty, Some error).

Definition is_none (t : reply_error_type_t) : bool := match t with MONGOC_REPLY_ERR_TYPE_NONE => true | _ => false end.
Definition handle_not_master_error (cluster : mongoc_cluster_t) (server_id : Z) (reply : bson_t) : res mongoc_cluster_t :=
  let* c := _check_not_master_or_recovering_error (c_error_api_version cluster) reply in
  let '(error_type, error) := c in
  if is_none error_type then Ret cluster
  else
    let* error := deref error in
    let* f := mongoc_topology_description_server_by_id (m_td (c_topology cluster)) server_id in
    let* copy := mongoc_server_description_new_copy now f.1 in
    let* sd := deref copy in
    let shutdown := match error_type with MONGOC_REPLY_ERR_TYPE_SHUTDOWN => true | _ => false end in
    let* cluster := (if (sd_max_wire_version sd <=? WIRE_VERSION_4_0) || shutdown
                     then mongoc_cluster_disconnect_node cluster server_id false None else Ret cluster) in
    let* m := mongoc_topology_description_invalidate_server now (c_topology cluster) server_id error in
    let cluster := set_topology m cluster in
    let not_master := match error_type with MONGOC_REPLY_ERR_TYPE_NOT_MASTER => true | _ => false end in
    Ret (if c_single_threaded cluster then (if not_master then set_stale true cluster else cluster)
         else set_scan_requested true cluster).

Definition _in_sharded_txn (cluster : mongoc_cluster_t) (session : option cs_t) : bool :=
  _mongoc_client_session_in_txn_or_ending session
  && bool_decide (td_type (m_td (c_topology cluster)) = MONGOC_TOPOLOGY_SHARDED).

(** the recovery token of a successful command in a sharded transaction; the
    iterator is on a document, so its value has data *)
Definition store_recovery_token (ok : bool) (cluster : mongoc_cluster_t) (session : option cs_t) (reply : bson_t)
    : res (option cs_t) :=
  match session with
  | Some s =>
      if ok && _in_sharded_txn cluster session then
        let* f := bson_iter_init_find reply (c_lit "recoveryToken") in
        if negb f.1 then Ret session
        else
          let* doc := BSON_ITER_HOLDS f.2 BSON_TYPE_DOCUMENT in
          if doc : bool then
            let* d := bson_iter_document f.2 in
            let* data := deref d.2 in
            let* token := bson_init_static data d.1 in
            Ret (Some (set_recovery_token token s))
          else Ret (Some (set_recovery_token None s))
      else Ret session
  | None => Ret None
  end.

Definition emit_command (cb : bool) (e : command_event) (cluster : mongoc_cluster_t) : mongoc_cluster_t :=
  if cb then set_events (c_events cluster ++ [e]) cluster else cluster.
(** the command by the protocol of the server *)
Definition run_on_server (cluster : mongoc_cluster_t) (cmd : mongoc_cmd_t) (compressor_id : Z) (error : bson_error_t) (w : W)
    : res (run_t W) :=
  if sd_max_wire_version (cmd_sd cmd) >=? WIRE_VERSION_OP_MSG
  then mongoc_cluster_run_opmsg cluster cmd error w
  else mongoc_cluster_run_command_opquery cluster cmd compressor_id error w.

(** of a client without encryption; the scanner's note of when the node was last used is
    not kept *)
Definition mongoc_cluster_run_command_monitored (cluster : mongoc_cluster_t) (cmd : mongoc_cmd_t) (error : bson_error_t) (w : W)
    : res (run_t W) :=
  let cluster := set_request_id (u32 (c_request_id cluster + 1)) cluster in
  let request_id := c_request_id cluster in
  let server_id := sd_id (cmd_sd cmd) in
  let* compressor_id := mongoc_server_description_compressor_id (cmd_sd cmd) in
  let callbacks := c_callbacks cluster in
  let cluster := emit_command (cb_started callbacks)
    (CommandStarted (cmd_command cmd) (cmd_command_name cmd) request_id (cmd_operation_id cmd) server_id) cluster in
  let* r := run_on_server cluster cmd compressor_id error w in
  let* fake_reply := (if cmd_is_acknowledged cmd then Ret (r_reply r)
                      else
                        let* a := bson_append_int32 fresh (bson_init fresh) (c_lit "ok") 2 1 in bson_get_data a.2) in
  let cluster := emit_command (r_ok r && cb_succeeded callbacks)
    (CommandSucceeded fake_reply (cmd_command_name cmd) request_id (cmd_operation_id cmd) server_id) (r_cluster r) in
  let cluster := emit_command (negb (r_ok r) && cb_failed callbacks)
    (CommandFailed (r_error r) (r_reply r) (cmd_command_name cmd) request_id (cmd_operation_id cmd) server_id) cluster in
  let* cluster := handle_not_master_error cluster server_id (r_reply r) in
  let* session := store_recovery_token (r_ok r) cluster (r_session r) (r_reply r) in
  Ret (Run (r_ok r) (r_error r) (r_reply r) session cluster (r_world r)).

Definition mongoc_cluster_run_command_private (cluster : mongoc_cluster_t) (cmd : mongoc_cmd_t) (error : bson_error_t) (w : W)
    : res (run_t W) :=
  let* r := run_on_server cluster cmd (-1) error w in
  let* cluster := handle_not_master_error (r_cluster r) (sd_id (cmd_sd cmd)) (r_reply r) in
  Ret (Run (r_ok r) (r_error r) (r_reply r) (r_session r) cluster (r_world r)).
End Running.
