(* ===== verification/ClusterProps.v ===== *)
(** Commands on a server: what a failure of the network does to the session and to the
    topology, the exchange of an OP_MSG, error replies, command monitoring. *)
From Stdlib Require Import ZArith Lia List.
From stdpp Require Import prelude gmap strings.
From S2P Require Import Prelude BsonIter BsonIterSafe BsonFields BsonAppend BsonBuild BsonValue BsonCopy BsonParse HostList MongocTypes BsonEntries MongocSet CommandErrors ServerDescription TopologyDescription TopologySafe TopologySteps TopologyProps ServerSession ClientSession SessionProps Rpc RpcProps Compression Buffer Cluster.
#[local] Open Scope string_scope.
#[local] Open Scope list_scope.
#[local] Open Scope Z_scope.
#[local] Open Scope mongo_scope.

#[local] Notation sd_t := mongoc_server_description_t.

(** ** The reply and the session after a failure of the network *)
Definition leaves_transaction (cmd : mongoc_cmd_t) : bool :=
  _mongoc_client_session_in_txn (cmd_session cmd) && negb (cmd_is_txn_finish cmd).
Definition failed_session (cmd : mongoc_cmd_t) : option mongoc_client_session_t :=
  match cmd_session cmd with
  | None => None
  | Some s => Some (if leaves_transaction cmd then ClientSession.set_server_id 0 (mark_dirty s) else mark_dirty s)
  end.
Definition failed_labels (cmd : mongoc_cmd_t) : list entry :=
  if leaves_transaction cmd then [labels_field [TRANSIENT_TXN_ERR]] else [].

Lemma transient_label_ok : labels_ok [TRANSIENT_TXN_ERR].
Proof. split; [|done]. apply Forall_cons. split; [|done]. split; [by_check|]. split; [by repeat constructor|done]. Qed.

Lemma network_reply_spec fresh cmd :
  network_error_reply fresh cmd = Ret (doc_bytes (body_bytes (failed_labels cmd)), failed_session cmd).
Proof.
  unfold network_error_reply, failed_session, failed_labels, leaves_transaction.
  pose proof (init_builds fresh) as Hinit. destruct (cmd_session cmd) as [s|] eqn:Es.
  2: { by rewrite (get_data_builds _ _ _ Hinit). }
  change (_mongoc_client_session_in_txn (Some (mark_dirty s))) with (_mongoc_client_session_in_txn (Some s)).
  destruct (_ && _); [|by rewrite (get_data_builds _ _ _ Hinit)].
  set (o := [] ++ 4 :: cs "errorLabels" ++ [0]).
  unfold BSON_APPEND_ARRAY_BEGIN, bson_append_array_begin.
  pose proof (begin_builds fresh _ [] [] _ (s32 (blen (cs "errorLabels"))) (cs "errorLabels") 4 Hinit
    (literal_key (cs "errorLabels") eq_refl ltac:(by repeat constructor))) as Hbeg.
  apply returns_Ret in Hbeg as ([ok m1] & -> & Hm1). cbn [bind fst snd]. destruct ok; [|exfalso; by destruct Hm1].
  cbn [negb]. fold o in Hm1.
  assert (Hu : appends (BSON_APPEND_UTF8 fresh m1 (cs "0") TRANSIENT_TXN_ERR) m1 [] [o]
    (entry_bytes (e_utf8 (cs "0") TRANSIENT_TXN_ERR))).
  { apply append_utf8_entry; [done|by repeat constructor|done|done]. }
  apply appends_fits in Hu as (m2 & -> & Hm2).
  2: { rewrite blen_entry. unfold extent. cbn [front length app]. rewrite !blen_nil. done. }
  cbn [bind snd]. rewrite app_nil_l, <- body_bytes_one in Hm2.
  change [e_utf8 (cs "0") TRANSIENT_TXN_ERR] with (label_entries 0 [TRANSIENT_TXN_ERR]) in Hm2.
  pose proof (end_builds m2 _ _ _ Hm2) as Hend. apply returns_Ret in Hend as (m3 & Hend & Hm3).
  unfold bson_append_array_end. rewrite Hend. cbn [bind]. rewrite (get_data_builds _ _ _ Hm3). cbn [bind].
  by do 4 f_equal.
Qed.

Lemma network_reply_label cmd label :
  mongoc_error_has_label (doc_bytes (body_bytes (failed_labels cmd))) label
  = Ret (leaves_transaction cmd && bool_decide (label = TRANSIENT_TXN_ERR)).
Proof.
  unfold failed_labels. destruct (leaves_transaction cmd); cbn [andb].
  - rewrite (has_label_list [labels_field [TRANSIENT_TXN_ERR]]) with (labels := [TRANSIENT_TXN_ERR]).
    + f_equal. apply bool_decide_ext. by rewrite list_elem_of_singleton.
    + apply Forall_cons. split; [|done]. apply labels_field_ok, transient_label_ok.
    + by vm_compute.
    + done.
    + apply transient_label_ok.
  - unfold mongoc_error_has_label. by rewrite (error_labels_none [] ltac:(done) ltac:(by vm_compute) eq_refl).
Qed.

(** ** Invalidation *)
(** what the topology knows of a server after [error] *)
Definition unknown_because (m : monitored) (id : Z) (error : bson_error_t) : Prop :=
  ∃ sd, servers (m_td m) !! id = Some sd ∧ sd_type sd = MONGOC_SERVER_UNKNOWN
    ∧ (e_code error ≠ 0 → sd_error sd = error).

Lemma invalidate_unknown now m id sd error :
  topo_ok (m_td m) → servers (m_td m) !! id = Some sd →
  returns (mongoc_topology_description_invalidate_server now m id error)
    (λ m', topo_ok (m_td m') ∧ unknown_because m' id error).
Proof.
  intros Hok Hid. unfold mongoc_topology_description_invalidate_server, mongoc_topology_description_handle_ismaster.
  apply (handler_runs now m id sd None 0 (Some error) (λ _, False)); [by apply topo_weaken|done|done|done|by right|].
  intros m1 sd' Hinv1 Hid1 Hparse _ Hty Ht _ _ _ _ _ _. specialize (Hty eq_refl).
  assert (Hfin : ∀ m2, topo_ok (m_td m2) → servers (m_td m2) = servers (m_td m1) →
    ∀ prev, topo_ok (m_td (finish_ismaster prev (bool_decide (is_Some (@None bson_t))) (Some error) m2))
      ∧ unknown_because (finish_ismaster prev (bool_decide (is_Some (@None bson_t))) (Some error) m2) id error).
  { intros m2 H1 H2 prev. split; [by apply finish_ok|]. exists sd'.
    destruct (finish_epoch prev (bool_decide (is_Some (@None bson_t))) (Some error) m2) as (_ & -> & _).
    split; [by rewrite H2|]. split; [done|]. intros Hc. cbn in Hparse. apply Ret_inj in Hparse as <-.
    unfold _mongoc_server_description_set_error. destruct (Z.eqb_spec (e_code error) 0); [done|reflexivity]. }
  unfold transition. rewrite (server_at_spec _ _ _ (ti_base _ _ Hinv1) Hid1). cbn [bind]. rewrite Hty.
  assert (Hok1 : topo_ok (m_td m1)) by (eapply settled_unknown; eauto).
  destruct (td_type (m_td m1)) eqn:Htd1; cbn [gSDAMTransitionTable outcome]; try (by apply Hfin).
  eapply returns_mono.
  { apply update_rs_type_spec, rs_like_of; [done|by right; right|by apply (ti_name _ _ Hok1)]. }
  intros m2 (H1 & H2 & _) prev. by apply Hfin.
Qed.

(** ** The exchange *)
(** the length at the head of a message *)
Definition head_length (b : list Z) : Z := match rd_le 4 b 0 with Ret x => s32 x | Stuck _ => 0 end.
Lemma head_length_read b r : bytes_ok b → 4 ≤ blen b →
  ∃ x, rd_le 4 (b ++ r) 0 = Ret x ∧ s32 x = head_length b.
Proof.
  intros Hok Hb. pose proof (rd_le_ok 4 b 0 Hok ltac:(lia) ltac:(lia)) as Hx.
  apply returns_Ret in Hx as (x & E & _). exists x. unfold head_length. rewrite E. split; [|done].
  exact (rd_le_inside 4 [] b r 0 x E).
Qed.

Section Exchange.
Context {W : Type} `{StreamOk W} {zlib : Zlib}.
Variable now : Z.
Variable fresh : Z → Z.
Implicit Types (cmd : mongoc_cmd_t) (cluster : mongoc_cluster_t) (w : W).

(** the message does not go out whole, or no message of a length that the server is
    allowed comes back whole *)
Definition receive_fails cmd w : bool :=
  let '(n, head, w) := stream_read 4 4 w in
  negb (n =? 4)
  || (let len := head_length head in
      (len <? 16) || (len >? sd_max_msg_size (cmd_sd cmd))
      || negb ((stream_read (len - 4) (len - 4) w).1.1 =? len - 4)).
Definition exchange_fails cmd bytes w : bool :=
  let '(ok, _, w) := stream_writev bytes w in
  negb ok || cmd_is_acknowledged cmd && receive_fails cmd w.

Lemma receive_starts cmd w :
  let b := Buffer (Some (fresh_bytes fresh 0 1024)) 0 in
  _mongoc_buffer_init fresh None 0 = Ret b ∧ buffer_ok b ∧ contents b = [] ∧ buf_datalen b = 1024.
Proof.
  cbv zeta. assert (Hl : blen (fresh_bytes fresh 0 1024) = 1024) by (by rewrite blen_fresh_bytes).
  split; [|split; [|split]].
  - unfold _mongoc_buffer_init. cbn [negb orb bool_decide bson_assert bind]. unfold buffer_realloc, MONGOC_BUFFER_DEFAULT_SIZE.
    cbn [from_option id]. by rewrite take_nil.
  - eexists. split; [done|]. cbn [buf_len]. lia.
  - done.
  - exact Hl.
Qed.
Definition decorated cmd (e : bson_error_t) : Prop := ∃ e0, e = RUN_CMD_ERR_DECORATE cmd e0.

Definition received cmd (o : (mongoc_rpc_t + bson_error_t * bool) * W) : Prop :=
  ∃ e w', o = (inr (e, true), w') ∧ decorated cmd e.
Lemma contents_split b d : buf_data b = Some d → d = contents b ++ drop (Z.to_nat (buf_len b)) d.
Proof. intros Hd. unfold contents. rewrite Hd. symmetry. apply take_drop. Qed.
Lemma buffer_data b : buffer_ok b → ∃ d, buf_data b = Some d.
Proof. intros (d & Hd & _). by exists d. Qed.

(** what is received before the message is read *)
Lemma receive_head cmd w n head w1 :
  stream_read 4 4 w = (n, head, w1) → sd_max_msg_size (cmd_sd cmd) < INT_MAX - 4096 →
  if negb (n =? 4) then returns (opmsg_receive fresh cmd w) (received cmd)
  else let len := head_length head in
  blen head = 4 ∧
  if (len <? 16) || (len >? sd_max_msg_size (cmd_sd cmd)) then returns (opmsg_receive fresh cmd w) (received cmd)
  else let '(n2, tail, w2) := stream_read (len - 4) (len - 4) w1 in
  if negb (n2 =? len - 4) then returns (opmsg_receive fresh cmd w) (received cmd)
  else ∃ spare, opmsg_receive fresh cmd w
    = (let* o := opmsg_unpack fresh cmd ((head ++ tail) ++ spare) len in Ret (o, w2)).
Proof using Type*.
  intros E Hmax. unfold opmsg_receive.
  destruct (receive_starts cmd w) as (-> & Hb & Hc & Hd). set (b := Buffer _ 0) in *. cbn [bind].
  pose proof (append_from_stream_spec fresh b 4 w Hb ltac:(lia) ltac:(unfold INT_MAX in *; lia)) as Hr.
  apply returns_Ret in Hr as ([[[ok e] b1] w1'] & -> & Hr). rewrite E in Hr. cbn [fst snd bind] in *.
  destruct Hr as (-> & Hb1 & Hok & He & Hc1 & Hl1 & Hd1).
  destruct (Z.eqb_spec n 4) as [->|Hn]; cbn [negb].
  2: { destruct ok; [by destruct Hn; apply Hok|]. rewrite He. cbn [negb deref bind returns]. eexists _, _. split; [done|]. by eexists. }
  assert (ok = true) as -> by (by apply Hok). clear Hok. cbn [negb]. set (len := head_length head).
  assert (Hhead : blen head = 4).
  { pose proof (read_count 4 4 w) as Hr. rewrite E in Hr. cbn in Hr. lia. }
  assert (Hbytes : bytes_ok head).
  { pose proof (read_bytes_ok 4 4 w) as Hr. by rewrite E in Hr. }
  split; [done|].
  rewrite Hl1. change (buf_len b + 4 =? 4) with true. cbn [bson_assert bind].
  destruct (buffer_data b1 Hb1) as [d1 Hd1']. rewrite Hd1'. cbn [deref bind].
  rewrite (contents_split b1 d1 Hd1'), Hc1, Hc. cbn [app].
  destruct (head_length_read head (drop (Z.to_nat (buf_len b1)) d1) Hbytes ltac:(lia)) as (x & -> & Hx).
  cbn [bind]. rewrite Hx. fold len.
  destruct ((len <? 16) || _) eqn:Hrange.
  { cbn [bind returns]. eexists _, _. split; [done|]. by eexists. }
  apply orb_false_iff in Hrange as [H1%Z.ltb_ge H2]. rewrite Z.gtb_ltb in H2. apply Z.ltb_ge in H2.
  specialize (Hd1 ltac:(unfold b in Hd |- *; cbn [buf_len] in *; lia)).
  pose proof (append_from_stream_spec fresh b1 (len - 4) w1 Hb1 ltac:(lia) ltac:(unfold INT_MAX in *; lia)) as Hr.
  apply returns_Ret in Hr as ([[[ok e2] b2] w2'] & -> & Hr).
  destruct (stream_read (len - 4) (len - 4) w1) as [[n2 tail] w2]. cbn [fst snd bind] in *.
  destruct Hr as (-> & Hb2 & Hok & He2 & Hc2 & Hl2 & Hd2).
  destruct (Z.eqb_spec n2 (len - 4)) as [->|Hn]; cbn [negb].
  { assert (ok = true) as -> by (by apply Hok). cbn [negb]. destruct (buffer_data b2 Hb2) as [d2 Hd2']. rewrite Hd2'. cbn [deref bind].
    exists (drop (Z.to_nat (buf_len b2)) d2). rewrite (contents_split b2 d2 Hd2') at 1. rewrite Hc2, Hc1, Hc.
    do 3 f_equal. rewrite Hl2, Hl1. unfold b. cbn [buf_len]. lia. }
  destruct ok; [by destruct Hn; apply Hok|]. rewrite He2. cbn [negb deref bind returns]. eexists _, _. split; [done|]. by eexists.
Qed.

Lemma receive_failing cmd w :
  receive_fails cmd w = true → sd_max_msg_size (cmd_sd cmd) < INT_MAX - 4096 →
  returns (opmsg_receive fresh cmd w) (received cmd).
Proof using Type*.
  unfold receive_fails. destruct (stream_read 4 4 w) as [[n head] w1] eqn:E. intros Hf Hmax.
  pose proof (receive_head cmd w n head w1 E Hmax) as Hr. destruct (negb (n =? 4)); [done|]. cbn [orb] in Hf.
  destruct Hr as [_ Hr]. destruct ((head_length head <? 16) || (head_length head >? sd_max_msg_size (cmd_sd cmd))); [done|]. cbn [orb] in Hf.
  destruct (stream_read _ _ w1) as [[n2 tail] w2]. cbn [fst] in Hf. by rewrite Hf in Hr.
Qed.

(** what no command changes *)
Definition kept (c c' : mongoc_cluster_t) : Prop :=
  c_events c' = c_events c ∧ c_error_api_version c' = c_error_api_version c.
(** what a failure of the network leaves *)
Record network_failure cluster cmd (r : run_t W) : Prop := {
  nf_ok : r_ok r = false;
  nf_error : decorated cmd (r_error r);
  nf_session : r_session r = failed_session cmd;
  nf_labels : ∀ label, mongoc_error_has_label (r_reply r) label
                       = Ret (leaves_transaction cmd && bool_decide (label = TRANSIENT_TXN_ERR));
  nf_reply : bson_ok (r_reply r);
  nf_kept : kept cluster (r_cluster r);
  nf_closed : c_disconnected (r_cluster r) = c_disconnected cluster ++ [sd_id (cmd_sd cmd)];
  nf_topology : topo_ok (m_td (c_topology (r_cluster r)));
  nf_unknown : unknown_because (c_topology (r_cluster r)) (sd_id (cmd_sd cmd)) (r_error r)
}.
Lemma opmsg_failed_spec cluster cmd sd e w :
  topo_ok (m_td (c_topology cluster)) → servers (m_td (c_topology cluster)) !! sd_id (cmd_sd cmd) = Some sd →
  decorated cmd e →
  returns (opmsg_failed now fresh true cluster cmd e w) (network_failure cluster cmd).
Proof.
  intros Hok Hid He. unfold opmsg_failed, mongoc_cluster_disconnect_node. cbn [bind].
  apply (returns_bind _ _ (λ c, c_disconnected c = c_disconnected cluster ++ [sd_id (cmd_sd cmd)] ∧ kept cluster c
      ∧ topo_ok (m_td (c_topology c)) ∧ unknown_because (c_topology c) (sd_id (cmd_sd cmd)) e)).
  { eapply returns_bind; [by eapply invalidate_unknown|]. intros m' Hm'. split; [done|]. by split. }
  intros c (Hc1 & Hce & Hc2 & Hc3). rewrite network_reply_spec. cbn [bind returns fst snd].
  constructor; cbn [r_ok r_error r_session r_reply r_cluster]; try done; [apply network_reply_label|].
  split; [|rewrite blen_doc_bytes; unfold failed_labels; destruct (leaves_transaction cmd); by vm_compute].
  apply bytes_ok_doc, body_bytes_ok. unfold failed_labels. destruct (leaves_transaction cmd); [|done].
  apply Forall_cons. split; [|done]. apply labels_field_ok, transient_label_ok.
Qed.

(** the message of a command, from the cluster's next request id *)
Definition next_message cluster cmd : res (list Z + option bson_error_t) :=
  opmsg_message (set_request_id (u32 (c_request_id cluster + 1)) cluster) cmd (u32 (c_request_id cluster + 1)).
(** the server of the command is known and the message [bytes] can be sent *)
Record can_run cluster cmd bytes : Prop := {
  cr_topology : topo_ok (m_td (c_topology cluster));
  cr_server : is_Some (servers (m_td (c_topology cluster)) !! sd_id (cmd_sd cmd));
  cr_name : is_Some (cmd_command_name cmd);
  cr_exhaust : c_in_exhaust cluster = false;
  cr_max : sd_max_msg_size (cmd_sd cmd) < INT_MAX - 4096;
  cr_message : next_message cluster cmd = Ret (inl bytes)
}.
Lemma run_opmsg_sends cluster cmd error w bytes :
  can_run cluster cmd bytes →
  let cluster' := set_request_id (u32 (c_request_id cluster + 1)) cluster in
  mongoc_cluster_run_opmsg now fresh cluster cmd error w
  = let '(ok, e, w) := stream_writev bytes w in
    if negb ok then opmsg_failed now fresh true cluster' cmd (RUN_CMD_ERR_DECORATE cmd e) w
    else if cmd_is_acknowledged cmd then
      let* r := opmsg_receive fresh cmd w in
      match r with
      | (inr (e, disconnect), w) => opmsg_failed now fresh disconnect cluster' cmd e w
      | (inl rpc, w) => opmsg_reply cluster' cmd rpc error w
      end
    else Ret (Run true error bson_empty_doc (cmd_session cmd) cluster' w).
Proof.
  intros [_ _ [name Hn] Hx _ Hm] cluster'. unfold mongoc_cluster_run_opmsg, next_message in *. rewrite Hn, Hx.
  change (c_request_id (set_request_id ?r cluster)) with r. by rewrite Hm.
Qed.
Lemma network_error_spec cluster cmd error w bytes :
  can_run cluster cmd bytes → exchange_fails cmd bytes w = true →
  returns (mongoc_cluster_run_opmsg now fresh cluster cmd error w) (network_failure cluster cmd).
Proof using Type*.
  intros Hrun Hf. rewrite (run_opmsg_sends cluster cmd error w bytes Hrun). destruct Hrun as [Hok [sd Hid] _ _ Hmax _].
  unfold exchange_fails in Hf. destruct (stream_writev bytes w) as [[ok e] w1].
  set (cluster' := set_request_id _ cluster). destruct ok; cbn [negb orb] in *.
  1: destruct (cmd_is_acknowledged cmd); [cbn [andb] in Hf|done].
  1: pose proof (receive_failing cmd w1 Hf Hmax) as Hr; apply returns_Ret in Hr as (o & -> & e' & w' & -> & He); cbn [bind].
  all: eapply outcome_mono; [eapply (opmsg_failed_spec cluster'); (done || by eexists)|done|].
  all: intros r _ []; by constructor.
Qed.
End Exchange.

(** ** What the server receives *)
(** the sections of a command *)
Definition carries (cmd : mongoc_cmd_t) (l : list secval) : Prop :=
  sized (cmd_command cmd) ∧
  match cmd_payload cmd with
  | None => l = [SDoc (cmd_command cmd)]
  | Some p => ∃ i d r r', cmd_payload_identifier cmd = i ++ 0 :: r ∧ p = d ++ r' ∧ cmd_payload_size cmd = blen d
      ∧ text_ok i ∧ bytes_ok d ∧ l = [SDoc (cmd_command cmd); SSeq i d]
  end.
Definition opmsg_values (cmd : mongoc_cmd_t) (id : Z) (l : list secval) : list fval :=
  [VInt 4 (s32 id); VInt 4 0; VInt 4 MONGOC_OPCODE_MSG;
   VInt 4 (if cmd_is_acknowledged cmd then 0 else MONGOC_MSG_MORE_TO_COME); VSections l].

Lemma opmsg_values_size (cmd : mongoc_cmd_t) id l : 4 + blen (encode_all (opmsg_values cmd id l))
  = 20 + blen (concat (map encode_section l)).
Proof. unfold encode_all, opmsg_values. cbn [map concat encode]. rewrite !blen_app, !blen_le_bytes, blen_nil. lia. Qed.
(** the struct built for a command whose sections are [secs] *)
Lemma opmsg_represents (cmd : mongoc_cmd_t) id secs l n :
  Forall secval_ok l → Forall2 holds_section secs l → n = Z.of_nat (length l) → (1 ≤ length l ≤ 2)%nat →
  let rpc := set_int "n_sections" n (set_sec "sections" secs
    (set_int "flags" (if cmd_is_acknowledged cmd then 0 else MONGOC_MSG_MORE_TO_COME)
      (set_int "opcode" MONGOC_OPCODE_MSG (set_int "response_to" 0
        (set_int "request_id" (s32 id) (set_int "msg_len" 0 rpc_zero)))))) in
  rpc_int rpc "opcode" = MONGOC_OPCODE_MSG ∧ represents rpc (tail op_msg) (opmsg_values cmd id l).
Proof.
  intros Hok Hs Hn Hl rpc. split; [unfold rpc; by rpc_simpl|].
  unfold represents, op_msg, opmsg_values. cbn [tail].
  repeat (apply Forall2_cons; split); try apply Forall2_nil_2; cbn [val_ok holds sendable].
  - split; [apply s32_range|]. split; [unfold rpc; rpc_simpl; reflexivity|done].
  - split; [unfold in_s32; lia|]. split; [unfold rpc; rpc_simpl; reflexivity|done].
  - split; [unfold in_s32, MONGOC_OPCODE_MSG; lia|]. split; [unfold rpc; rpc_simpl; reflexivity|done].
  - split; [unfold in_u32, MONGOC_MSG_MORE_TO_COME; destruct (cmd_is_acknowledged cmd); lia|].
    split; [unfold rpc; rpc_simpl; reflexivity|done].
  - split; [done|]. split; [|done]. exists l. split; [done|]. change (n_of "sections") with "n_sections".
    unfold rpc. rpc_simpl. done.
Qed.
Lemma opmsg_request_represents cmd id l :
  carries cmd l → blen (concat (map encode_section l)) < 2 ^ 31 →
  returns (opmsg_request cmd id) (λ rpc, rpc_int rpc "opcode" = MONGOC_OPCODE_MSG
    ∧ represents rpc (tail op_msg) (opmsg_values cmd id l)).
Proof.
  intros [Hc Hl] Hlen. unfold opmsg_request.
  assert (Hbody : holds_section (RpcSection 0 (bson_document (Some (cmd_command cmd)))) (SDoc (cmd_command cmd))).
  { split; [done|]. exists []. by rewrite app_nil_r. }
  destruct (cmd_payload cmd) as [p|].
  - destruct Hl as (i & d & r & r' & Hi & -> & Hd & Hti & Hbd & ->). destruct Hti as [Hib Hiz].
    cbn [map concat encode_section] in Hlen. rewrite app_nil_r, !blen_app, !blen_cons, !blen_app, blen_le_bytes in Hlen.
    rewrite blen_cons in Hlen. pose proof (blen_nonneg i). pose proof (blen_nonneg d). pose proof (blen_nonneg (cmd_command cmd)).
    rewrite Hi, c_string_app by done. cbn [bind returns]. rewrite s32_small by (unfold in_s32; lia).
    apply opmsg_represents; [|..|done|cbn [length]; lia].
    + apply Forall_cons. split; [done|]. apply Forall_cons. split; [|done]. cbn [secval_ok]. split; [done|]. split; [done|lia].
    + apply Forall2_cons. split; [done|]. apply Forall2_cons. split; [|done]. split; [done|]. exists r, r'. cbn [sec_payload].
      by replace (cmd_payload_size cmd + blen i + 1 + 4) with (blen i + blen d + 5) by lia.
  - subst l. cbn [returns]. apply opmsg_represents; [|..|done|cbn [length]; lia].
    + apply Forall_cons. by split.
    + apply Forall2_cons. by split.
Qed.

(** the bytes are the message [vs], perhaps compressed *)
Definition decodes `{Zlib} (bytes : list Z) (fs : list field) (vs : list fval) : Prop :=
  ∀ r, ∃ rpc, _mongoc_rpc_scatter (bytes ++ r) (blen bytes) = Ret (true, rpc)
  ∧ (Forall2 (holds rpc) fs vs
     ∨ rpc_int rpc "opcode" = MONGOC_OPCODE_COMPRESSED ∧ 0 ≤ rpc_int rpc "uncompressed_size" < 2 ^ 31
       ∧ ∀ buf, blen buf = rpc_int rpc "uncompressed_size" + 16 →
         ∃ rpc', _mongoc_rpc_decompress rpc buf (blen buf) = Ret (true, rpc') ∧ Forall2 (holds rpc') fs vs).

(** the compressor that a server chose *)
Lemma compressor_id_cases sd : sd_ok sd →
  outcome (λ _, True) (mongoc_server_description_compressor_id sd) (λ id, id = -1 ∨ id = 0 ∨ id = 2).
Proof.
  intros (_ & _ & _ & _ & _ & [Hok H5] & _). unfold mongoc_server_description_compressor_id.
  pose proof (bson_iter_init_ok _ Hok) as Hit. destruct (bson_iter_init (sd_compressors sd)) as [ok it].
  destruct ok; [|done]. cbn [bson_assert bind snd] in *.
  eapply (outcome_bind _ _ _ (λ r, (λ id, id = -1 ∨ id = 0 ∨ id = 2) r.2)); [|by intros r _ Hr].
  eapply outcome_mono; [eapply (for_each_field_ok _ (λ _, True) (λ id, id = -1 ∨ id = 0 ∨ id = 2)); [exact Hit|by left|]|done|by intros r _ [Hr _]].
  intros it' data t id _ _ _ Hid. destruct (utf8_string it') as [name|]; [|done]. cbn [bind].
  unfold mongoc_compressor_name_to_id. by repeat (case_match; cbn [negb outcome snd]; auto).
Qed.
Lemma compressible_returns cmd name : cmd_command_name cmd = Some name →
  returns (mongoc_cmd_is_compressible cmd) (λ _, True).
Proof. intros Hn. unfold mongoc_cmd_is_compressible. by rewrite Hn. Qed.

(** C14. A server reads the message of a command as the OP_MSG whose first section is the
    command and whose second is the payload, if there is one: the bytes that are sent
    hold it, either as it is or compressed by the compressor of the server; and only
    a compressor can fail. *)
Theorem opmsg_message_received `{ZlibOk} cluster cmd id l name cid :
  let vs := opmsg_values cmd id l in
  let size := 4 + blen (encode_all vs) - 16 in
  cmd_command_name cmd = Some name → carries cmd l → sd_ok (cmd_sd cmd) →
  mongoc_server_description_compressor_id (cmd_sd cmd) = Ret cid →
  size + 25 < 2 ^ 31 → mongoc_compressor_max_compressed_length cid size + 25 < 2 ^ 31 →
  returns (opmsg_message cluster cmd id) (λ o,
    match o with
    | inl bytes => decodes bytes op_msg (VInt 4 (size + 16) :: vs)
    | inr _ => cid ≠ -1
    end).
Proof.
  intros vs size Hn Hc Hsd Hcid Hsize Hmax. pose proof (opmsg_values_size cmd id l) as Hl. fold vs in Hl. unfold opmsg_message.
  pose proof (opmsg_request_represents cmd id l Hc ltac:(unfold size in *; lia)) as Hr.
  apply returns_Ret in Hr as (rpc & -> & Hop & Hrep). fold vs in Hrep. cbn [bind].
  assert (Hlay : op_layout (rpc_int rpc "opcode") = Some (INT32_FIELD "msg_len" :: tail op_msg)) by (by rewrite Hop).
  destruct (gather_scatter rpc _ vs Hlay Hrep ltac:(unfold size in *; lia)) as (iovs & Hg & Hb & Hbl & Hm).
  pose proof (compressed_message rpc _ vs cid (c_zlib_level cluster) Hlay Hrep) as Hcomp. fold size in Hcomp.
  rewrite Hg in *. cbn [bind fst snd] in *.
  pose proof (compressible_returns cmd name Hn) as Hcp. apply returns_Ret in Hcp as (cp & -> & _). cbn [bind].
  assert (Hplain : returns (let* b := iovs_bytes (counting (4 + blen (encode_all vs)) rpc) iovs in Ret (inl b)) (λ o : list Z + option bson_error_t,
    match o with inl bytes => decodes bytes op_msg (VInt 4 (size + 16) :: vs) | inr _ => cid ≠ -1 end)).
  { rewrite Hb. cbn [bind returns]. intros r. destruct (scatter_message _ _ _ r Hm) as (fs & rpc' & E & Hop' & _ & Hh); [unfold size in *; lia|].
    rewrite Hop in Hop'. injection Hop' as <-. exists rpc'. split; [exact E|]. left.
    replace (size + 16) with (4 + blen (encode_all vs)) by (unfold size; lia). exact Hh. }
  destruct cp; [rewrite Hcid|exact Hplain]. cbn [bind]. destruct (Z.eqb_spec cid (-1)) as [->|Hne]; [exact Hplain|].
  assert (byte_ok cid) as Hbyte.
  { pose proof (compressor_id_cases _ Hsd) as Hx. rewrite Hcid in Hx. cbn [outcome] in Hx. unfold byte_ok. lia. }
  specialize (Hcomp Hbyte Hsize Hmax). apply returns_Ret in Hcomp as ([[crpc civ]|e] & -> & Hcomp); cbn [bind fst snd returns]; [|done].
  destruct (Hcomp crpc civ eq_refl) as (cbytes & -> & Hx). cbn [bind returns].
  intros r. destruct (Hx r) as (rpc' & E & Hopc & Hus & Hd). exists rpc'. split; [exact E|]. right.
  pose proof (blen_nonneg (concat (map encode_section l))). split; [done|]. rewrite Hus in *. split; [|done].
  unfold size in *. lia.
Qed.

(** C13. A failure of the network while a command runs: the message is ready, the topology is
    well formed and knows the server, no cursor is in exhaust, the server's limit on
    messages is below 2^31 - 4097, and then the message does not go out whole, or, the command being acknowledged, no message of an allowed length
    comes back whole.  The call returns, without a success and with an error that names the
    command; the server session can no longer be reused; in a transaction that is not being
    ended the session leaves its mongos and the reply carries the label
    TransientTransactionError, and it carries no other label; the connection is closed,
    and the topology, still well formed, knows the server as unknown, with that error. *)
Theorem network_error_handled `{StreamOk W} {zlib : Zlib} now fresh cluster cmd error (w : W) bytes :
  can_run cluster cmd bytes → exchange_fails cmd bytes w = true →
  returns (mongoc_cluster_run_opmsg now fresh cluster cmd error w) (network_failure cluster cmd).
Proof. apply network_error_spec. Qed.

(** ** The reply *)
Section Reply.
Context {W : Type} `{StreamOk W} `{ZlibOk}.
Variable now : Z.
Variable fresh : Z → Z.
Implicit Types (cmd : mongoc_cmd_t) (cluster : mongoc_cluster_t) (w : W).

(** the stream hands over the message [d] *)
Definition delivers w d w' : Prop :=
  head_length d = blen d ∧ ∃ w1, stream_read 4 4 w = (4, take 4 d, w1)
    ∧ stream_read (blen d - 4) (blen d - 4) w1 = (blen d - 4, drop 4 d, w').

Lemma opmsg_opcode rpc m q s o fl secs : Forall2 (holds rpc) op_msg [m; q; s; VInt 4 o; fl; VSections secs] →
  rpc_int rpc "opcode" = o ∧ Forall2 holds_section (rpc_sec rpc "sections") secs.
Proof.
  intros Hh. pose proof (Forall2_lookup_lr _ _ _ 3 (INT32_FIELD "opcode") _ Hh eq_refl eq_refl) as Ho. cbn [holds] in Ho.
  pose proof (Forall2_lookup_lr _ _ _ 5 (SECTION_ARRAY_FIELD "sections") _ Hh eq_refl eq_refl) as Hs. cbn [holds] in Hs.
  destruct Hs as (l & [= <-] & Hs & _). split; [by injection Ho|done].
Qed.
Lemma unpack_decodes cmd d spare m q s fl secs :
  decodes d op_msg [m; q; s; VInt 4 MONGOC_OPCODE_MSG; fl; VSections secs] →
  ∃ rpc, opmsg_unpack fresh cmd (d ++ spare) (blen d) = Ret (inl rpc) ∧ Forall2 holds_section (rpc_sec rpc "sections") secs.
Proof using Type*.
  intros Hd. destruct (Hd spare) as (rpc & E & [Hh|(Hopc & Hus & Hdec)]); unfold opmsg_unpack; rewrite E; cbn [bind negb].
  - destruct (opmsg_opcode _ _ _ _ _ _ _ Hh) as [-> Hs]. change (u32 MONGOC_OPCODE_MSG =? MONGOC_OPCODE_COMPRESSED) with false.
    cbv iota. by exists rpc.
  - rewrite Hopc. change (u32 MONGOC_OPCODE_COMPRESSED =? MONGOC_OPCODE_COMPRESSED) with true. cbv iota.
    rewrite (u32_small (rpc_int rpc "uncompressed_size")) by lia.
    destruct (Hdec (fresh_bytes fresh 0 (rpc_int rpc "uncompressed_size" + 16))) as (rpc' & E' & Hh).
    { rewrite blen_fresh_bytes by lia. lia. }
    rewrite blen_fresh_bytes, Z.sub_0_r in E' by lia. rewrite E'. cbn [bind negb]. exists rpc'.
    by destruct (opmsg_opcode _ _ _ _ _ _ _ Hh).
Qed.

(** what a reply [doc] leaves *)
Record exchanged cluster cmd (error : bson_error_t) doc w' (r : run_t W) : Prop := {
  ex_reply : r_reply r = doc;
  ex_result : ∃ e, _mongoc_cmd_check_ok doc (c_error_api_version cluster) = Ret (r_ok r, e) ∧ r_error r = default error e;
  ex_session : match cmd_session cmd with
               | None => r_session r = None
               | Some s => ∃ s', r_session r = Some s'
                   ∧ _mongoc_client_session_handle_reply s (cmd_is_acknowledged cmd) (Some doc) = Ret s'
                   ∧ times_le s s'
               end;
  ex_kept : kept cluster (r_cluster r);
  ex_open : c_disconnected (r_cluster r) = c_disconnected cluster;
  ex_topology : ∃ t, m_td (c_topology (r_cluster r)) = TopologyDescription.set_cluster_time t (m_td (c_topology cluster)) ∧ doc_ok t;
  ex_world : r_world r = w'
}.
Definition session_ok cmd : Prop := ∀ s, cmd_session cmd = Some s → doc_ok (cs_cluster_time s).
Lemma opmsg_reply_spec cluster cmd error rpc doc secs w :
  Forall2 holds_section (rpc_sec rpc "sections") (SDoc doc :: secs) → bson_ok doc →
  bson_init_static doc (blen doc) = Ret (Some doc) → doc_ok (td_cluster_time (m_td (c_topology cluster))) → session_ok cmd → times_framed doc = true →
  returns (opmsg_reply cluster cmd rpc error w) (exchanged cluster cmd error doc w).
Proof.
  intros Hs Hdoc Hinit Ht Hses Hframed. unfold opmsg_reply, reply_document. pose proof (bson_init_static_inv _ _ _ Hinit) as (H5 & _ & Hmx).
  destruct (rpc_sec rpc "sections") as [|s1 rest]; [by inversion Hs|]. apply Forall2_cons in Hs as [(Hty & r & Hp) _].
  destruct s1 as [ty pl]. cbn [sec_payload] in Hp. subst pl. cbn [deref bind].
  pose proof (bson_init_static_ok doc (blen doc) (proj1 Hdoc) ltac:(lia)) as Hx. rewrite Hinit in Hx. cbn [returns] in Hx.
  destruct Hx as (_ & _ & _ & _ & Hrd & _).
  rewrite (rd_le_inside 4 [] doc r 0 (blen doc) Hrd : rd_le 4 (doc ++ r) 0 = _). cbn [bind].
  rewrite s32_small, u64_small by (unfold in_s32, INT_MAX in *; lia).
  rewrite init_static_app by (apply Hdoc || lia). rewrite Hinit. cbn [bind].
  eapply returns_bind.
  { apply (update_cluster_time_good (λ _, False)); [done|intros ? [= <-]; by split|right; by intros ? [= <-]]. }
  intros td (t & Ht' & ->).
  pose proof (cmd_check_ok_returns doc (c_error_api_version cluster) Hdoc) as Hc. apply returns_Ret in Hc as ([ok e] & Hc & _).
  change (c_error_api_version (set_topology ?m cluster)) with (c_error_api_version cluster). rewrite Hc. cbn [bind fst snd].
  assert (Hfin : returns
    match cmd_session cmd with None => Ret None
    | Some s => let* s := _mongoc_client_session_handle_reply s (cmd_is_acknowledged cmd) (Some doc) in Ret (Some s) end
    (λ o, match cmd_session cmd with None => o = None
          | Some s => ∃ s', o = Some s' ∧ _mongoc_client_session_handle_reply s (cmd_is_acknowledged cmd) (Some doc) = Ret s' ∧ times_le s s' end)).
  { destruct (cmd_session cmd) as [s|] eqn:Es; [|done].
    pose proof (handle_reply_run (λ _, False) s (cmd_is_acknowledged cmd) doc (Hses s Es) (conj Hdoc H5) (or_intror Hframed)) as Hr.
    destruct (proj1 (returns_Ret (_mongoc_client_session_handle_reply s (cmd_is_acknowledged cmd) (Some doc)) _) Hr) as (s' & E & _ & Hle & _).
    rewrite E. cbn [bind returns]. by exists s'. }
  eapply returns_bind; [exact Hfin|]. intros o Ho. cbn [returns].
  constructor; cbn [r_reply r_ok r_error r_session r_cluster r_world]; try done; [by exists e|by exists t].
Qed.

Lemma receive_delivered cmd w d w' :
  delivers w d w' → 16 ≤ blen d ≤ sd_max_msg_size (cmd_sd cmd) → sd_max_msg_size (cmd_sd cmd) < INT_MAX - 4096 →
  ∃ spare, opmsg_receive fresh cmd w = (let* o := opmsg_unpack fresh cmd (d ++ spare) (blen d) in Ret (o, w')).
Proof using Type*.
  intros (Hhd & w1 & Hrd1 & Hrd2) Hl Hmax. pose proof (receive_head fresh cmd w _ _ _ Hrd1 Hmax) as Hr.
  change (negb (4 =? 4)) with false in Hr. cbv iota zeta in Hr. destruct Hr as [_ Hr].
  assert (Hh4 : head_length (take 4 d) = blen d).
  { etrans; [|exact Hhd]. unfold head_length. pose proof (take_drop 4 d) as Hd4.
    destruct (rd_le 4 (take 4 d) 0) as [x|f] eqn:E.
    - pose proof (rd_le_inside 4 [] (take 4 d) (drop 4 d) 0 x E) as Ex. cbn [app] in Ex. change (blen [] + 0) with 0 in Ex.
      by rewrite Hd4 in Ex; rewrite Ex.
    - exfalso. pose proof (read_bytes_ok 4 4 w) as Hb. rewrite Hrd1 in Hb. cbn [fst snd] in Hb.
      pose proof (rd_le_ok 4 (take 4 d) 0 Hb ltac:(lia)) as Hx. rewrite E in Hx. apply Hx. unfold blen in *. rewrite length_take. lia. }
  rewrite Hh4 in Hr. destruct (Z.ltb_spec (blen d) 16); [lia|]. rewrite Z.gtb_ltb in Hr.
  destruct (Z.ltb_spec (sd_max_msg_size (cmd_sd cmd)) (blen d)); [lia|]. cbn [orb] in Hr. rewrite Hrd2, Z.eqb_refl in Hr. cbn [negb] in Hr.
  destruct Hr as (spare & ->). rewrite take_drop. by exists spare.
Qed.

(** the message [bytes] goes out and the message [d] comes back *)
Record answered cmd bytes w d w' : Prop := {
  an_acknowledged : cmd_is_acknowledged cmd = true;
  an_exchange : ∃ e w1, stream_writev bytes w = (true, e, w1) ∧ delivers w1 d w';
  an_size : 16 ≤ blen d ≤ sd_max_msg_size (cmd_sd cmd)
}.
(** the message is an OP_MSG that begins with the document [doc] *)
Record replies d doc : Prop := {
  rp_message : ∃ m q s fl secs, decodes d op_msg [m; q; s; VInt 4 MONGOC_OPCODE_MSG; fl; VSections (SDoc doc :: secs)];
  rp_doc : bson_ok doc;
  rp_framed : bson_init_static doc (blen doc) = Ret (Some doc);
  rp_times : times_framed doc = true
}.
Lemma run_opmsg_answered cluster cmd error bytes w d w' :
  can_run cluster cmd bytes → answered cmd bytes w d w' →
  let cluster' := set_request_id (u32 (c_request_id cluster + 1)) cluster in
  ∃ spare, mongoc_cluster_run_opmsg now fresh cluster cmd error w
    = let* o := opmsg_unpack fresh cmd (d ++ spare) (blen d) in
      match o with
      | inr (e, disconnect) => opmsg_failed now fresh disconnect cluster' cmd e w'
      | inl rpc => opmsg_reply cluster' cmd rpc error w'
      end.
Proof using Type*.
  intros Hrun [Hack (e & w1 & Hw & Hdel) Hl] cluster'. rewrite (run_opmsg_sends now fresh cluster cmd error w bytes Hrun), Hw, Hack. cbn [negb].
  destruct (receive_delivered cmd w1 d w' Hdel Hl (cr_max _ _ _ Hrun)) as (spare & ->). exists spare.
  by destruct (opmsg_unpack _ _ _ _) as [[]|].
Qed.
Lemma exchange_spec cluster cmd error bytes w d doc w' :
  can_run cluster cmd bytes → session_ok cmd → answered cmd bytes w d w' → replies d doc →
  returns (mongoc_cluster_run_opmsg now fresh cluster cmd error w) (exchanged cluster cmd error doc w').
Proof using Type*.
  intros Hrun Hses Hans [(m & q & s & fl & secs & Hd) Hdoc Hinit Hframed].
  destruct (run_opmsg_answered cluster cmd error bytes w d w' Hrun Hans) as (spare & ->).
  destruct (unpack_decodes cmd d spare m q s fl _ Hd) as (rpc & -> & Hs). cbn [bind].
  eapply returns_mono; [eapply (opmsg_reply_spec (set_request_id (u32 (c_request_id cluster + 1)) cluster)); try done|].
  { apply (base_time _ (ti_base _ _ (cr_topology _ _ _ Hrun))). }
  intros r []. by constructor.
Qed.
End Reply.

(** A command whose message goes out and whose answer, an OP_MSG compressed or not,
    comes back whole: the reply is the document of its first section, the result and
    the error are those of the reply, the session has handled the reply, and nothing
    else has changed but the topology's cluster time. *)
Theorem opmsg_exchange `{StreamOk W} `{ZlibOk} now fresh cluster cmd error bytes (w : W) d doc w' :
  can_run cluster cmd bytes → session_ok cmd → answered cmd bytes w d w' → replies d doc →
  returns (mongoc_cluster_run_opmsg now fresh cluster cmd error w) (exchanged cluster cmd error doc w').
Proof. apply exchange_spec. Qed.

(** ** Error replies *)
Definition shutdown_codes : list Z := [11600; 91].
Definition recovering_codes : list Z := [11602; 13436; 189].
Definition not_master_codes : list Z := [10107; 13435].
Definition says (e : bson_error_t) (s : string) : bool := CommandErrors.strstr (e_message e) (cs s).
(** the errors of a server that can no longer be used as what it was *)
Definition shuts_down (e : bson_error_t) : bool := bool_decide (e_code e ∈ shutdown_codes).
Definition recovers (e : bson_error_t) : bool :=
  bool_decide (e_code e ∈ recovering_codes)
  || negb (bool_decide (e_code e ∈ shutdown_codes ++ not_master_codes)) && negb (says e "not master") && says e "node is recovering".
Definition lost_mastership (e : bson_error_t) : bool :=
  bool_decide (e_code e ∈ not_master_codes)
  || negb (bool_decide (e_code e ∈ shutdown_codes ++ recovering_codes)) && says e "not master".
Definition unusable (e : bson_error_t) : bool := shuts_down e || recovers e || lost_mastership e.

Lemma elem_of_eqb (c : Z) l : bool_decide (c ∈ l) = existsb (Z.eqb c) l.
Proof.
  induction l as [|x l IH]; [by apply bool_decide_false, not_elem_of_nil|]. cbn [existsb]. rewrite <- IH.
  destruct (Z.eqb_spec c x) as [->|Hne]; cbn [orb]; [by apply bool_decide_true; left|].
  apply bool_decide_ext. rewrite elem_of_cons. naive_solver.
Qed.
Lemma error_type_spec v reply : bson_ok reply →
  returns (_check_not_master_or_recovering_error v reply) (λ r,
    _mongoc_cmd_check_ok_no_wce reply v = Ret (bool_decide (r.2 = None), r.2)
    ∧ match r.2 with
      | None => r.1 = MONGOC_REPLY_ERR_TYPE_NONE
      | Some e => is_none r.1 = negb (unusable e)
          ∧ (r.1 = MONGOC_REPLY_ERR_TYPE_SHUTDOWN ↔ shuts_down e = true)
          ∧ (r.1 = MONGOC_REPLY_ERR_TYPE_NOT_MASTER ↔ lost_mastership e = true)
      end).
Proof.
  intros Hr. unfold _check_not_master_or_recovering_error, _mongoc_cmd_check_ok_no_wce.
  pose proof (parse_error_reply_returns reply true Hr) as Hp. apply returns_Ret in Hp as ([[found code] msg] & -> & _).
  cbn [bind]. destruct found; cbn [bind fst snd returns deref]; [|done].
  set (e := reply_error _ code msg). split; [done|]. clearbody e.
  unfold unusable, shuts_down, recovers, lost_mastership, says, shutdown_codes, recovering_codes, not_master_codes.
  set (c := e_code e). set (nm := CommandErrors.strstr (e_message e) (cs "not master")).
  set (nr := CommandErrors.strstr (e_message e) (cs "node is recovering")). clearbody c nm nr.
  cbn [app]. rewrite !elem_of_eqb. cbn [existsb].
  repeat match goal with |- context [c =? ?k] => is_var c; destruct (Z.eqb_spec c k) as [->|?]; cbn [orb andb negb] end;
    destruct nm, nr; cbn; intuition congruence.
Qed.

(** what an error reply of a server leaves of the cluster [c] *)
Record took_out now (c : mongoc_cluster_t) id (sd : sd_t) (e : bson_error_t) (c' : mongoc_cluster_t) : Prop := {
  to_topology : topo_ok (m_td (c_topology c'));
  to_unknown : unknown_because (c_topology c') id e;
  to_stale : c_stale c' = c_stale c || c_single_threaded c && lost_mastership e;
  to_scan : c_scan_requested c' = c_scan_requested c || negb (c_single_threaded c);
  to_events : c_events c' = c_events c;
  to_closed : ∃ copy, mongoc_server_description_new_copy now (Some sd) = Ret (Some copy)
    ∧ c_disconnected c' = c_disconnected c ++ (if shuts_down e || (sd_max_wire_version copy <=? WIRE_VERSION_4_0) then [id] else [])
}.
Lemma not_master_spec now c id reply sd :
  topo_ok (m_td (c_topology c)) → servers (m_td (c_topology c)) !! id = Some sd → bson_ok reply →
  returns (handle_not_master_error now c id reply) (λ c',
    ∃ ok e, _mongoc_cmd_check_ok_no_wce reply (c_error_api_version c) = Ret (ok, e)
    ∧ match e with
      | Some e => if unusable e then took_out now c id sd e c' else c' = c
      | None => c' = c
      end).
Proof.
  intros Hok Hid Hr. unfold handle_not_master_error.
  pose proof (error_type_spec (c_error_api_version c) reply Hr) as Ht. apply returns_Ret in Ht as ([ty e] & -> & E & Ht).
  cbn [bind fst snd] in *. destruct e as [e|].
  2: { subst ty. cbn [is_none returns]. eexists _, _. by split. }
  destruct Ht as (Hn & Hsh & Hnm). rewrite Hn. destruct (unusable e) eqn:Hu; cbn [negb].
  2: { cbn [returns]. eexists _, _. split; [exact E|]. cbv iota beta. by rewrite Hu. }
  cbn [deref bind]. pose proof (ti_base _ _ Hok) as Hb.
  unfold mongoc_topology_description_server_by_id. rewrite mongoc_set_get_spec by apply Hb.
  unfold servers in Hid. rewrite Hid. change (set_map (td_servers (m_td (c_topology c)))) with (servers (m_td (c_topology c))) in Hid.
  cbn [bind fst]. pose proof (base_each _ Hb _ _ Hid) as [_ _ [Hsd _] _ _ Hrp].
  pose proof (new_copy_returns now sd Hsd Hrp) as Hcopy. apply returns_Ret in Hcopy as (copy & Hcopy & sdc & ->). rewrite Hcopy. cbn [deref bind].
  set (close := (sd_max_wire_version sdc <=? WIRE_VERSION_4_0) || _).
  assert (Hclose : close = shuts_down e || (sd_max_wire_version sdc <=? WIRE_VERSION_4_0)).
  { unfold close. rewrite orb_comm. f_equal. destruct ty; destruct (shuts_down e); intuition congruence. }
  assert (Hnmb : (match ty with MONGOC_REPLY_ERR_TYPE_NOT_MASTER => true | _ => false end) = lost_mastership e).
  { destruct ty; destruct (lost_mastership e); intuition congruence. }
  rewrite Hnmb, Hclose. set (cl := shuts_down e || _) in *.
  assert (Hd : ∀ c1, c1 = (if cl then set_disconnected (c_disconnected c ++ [id]) c else c) →
    returns (let* m := mongoc_topology_description_invalidate_server now (c_topology c1) id e in
      Ret (if c_single_threaded (set_topology m c1)
           then if lost_mastership e then set_stale true (set_topology m c1) else set_topology m c1
           else set_scan_requested true (set_topology m c1)))
    (took_out now c id sd e)).
  { intros c1 Hc1. assert (Htop : c_topology c1 = c_topology c) by (subst c1; by destruct cl). rewrite Htop.
    eapply returns_bind; [by apply (invalidate_unknown now (c_topology c) id sd)|]. intros m [Hm1 Hm2].
    assert (Hs : c_single_threaded c1 = c_single_threaded c ∧ c_stale c1 = c_stale c ∧ c_scan_requested c1 = c_scan_requested c ∧ c_events c1 = c_events c
      ∧ c_disconnected c1 = c_disconnected c ++ (if cl then [id] else [])).
    { subst c1. destruct cl; [done|]. by rewrite app_nil_r. }
    destruct Hs as (Hs1 & Hs2 & Hs3 & Hse & Hs4). change (c_single_threaded (set_topology m c1)) with (c_single_threaded c1).
    cbn [returns]. rewrite Hs1. destruct (c_single_threaded c) eqn:Hst, (lost_mastership e) eqn:Hl;
      (constructor; [exact Hm1|exact Hm2| | |exact Hse|exists sdc; split; [exact Hcopy|exact Hs4]]); rewrite Hst, ?Hl; cbn [andb negb];
      rewrite ?orb_true_r, ?orb_false_r; first [reflexivity|exact Hs2|exact Hs3]. }
  assert (Hall : returns (let* c1 := (if cl then mongoc_cluster_disconnect_node now c id false None else Ret c) in
    let* m := mongoc_topology_description_invalidate_server now (c_topology c1) id e in
      Ret (if c_single_threaded (set_topology m c1)
           then if lost_mastership e then set_stale true (set_topology m c1) else set_topology m c1
           else set_scan_requested true (set_topology m c1))) (took_out now c id sd e)).
  { destruct cl; apply Hd; reflexivity. }
  eapply returns_mono; [exact Hall|]. intros c' Hc'. eexists _, _. split; [exact E|]. cbv iota beta. by rewrite Hu.
Qed.

(** C15. The reply of a server that a well-formed topology knows decides whether the client
    goes on using it.  The handler returns, whatever the bytes of the reply (fewer than
    2^31); if the reply reports that the server is not master, recovering or shutting down, by its code or by
    its message, the topology knows it as unknown with that error, a single-threaded client
    is to scan again if mastership was lost and a pooled one at once, and its
    connection is closed if it shuts down or is older than 4.2; any other reply
    changes nothing. *)
Theorem not_master_handled now c id reply sd
    (Hok : topo_ok (m_td (c_topology c))) (Hid : servers (m_td (c_topology c)) !! id = Some sd) (Hr : bson_ok reply) :
  returns (handle_not_master_error now c id reply) (λ c',
    ∃ ok e, _mongoc_cmd_check_ok_no_wce reply (c_error_api_version c) = Ret (ok, e)
    ∧ match e with
      | Some e => if unusable e then took_out now c id sd e c' else c' = c
      | None => c' = c
      end).
Proof. by apply not_master_spec. Qed.

(** ** What is not checked *)

(** The reply is taken from the first section of the message, whatever the message is:
    an answer of another opcode, or an OP_MSG that begins with a document sequence, makes
    the client follow a pointer that was never set. *)
Theorem opmsg_reply_unchecked `{StreamOk W} `{ZlibOk} now fresh cluster cmd error bytes (w : W) d w' :
  can_run cluster cmd bytes → answered cmd bytes w d w' →
  (∃ opcode vs, message opcode vs d ∧ opcode ≠ MONGOC_OPCODE_MSG ∧ opcode ≠ MONGOC_OPCODE_COMPRESSED)
  ∨ (∃ m q s fl i docs secs, decodes d op_msg [m; q; s; VInt 4 MONGOC_OPCODE_MSG; fl; VSections (SSeq i docs :: secs)]) →
  mongoc_cluster_run_opmsg now fresh cluster cmd error w = Stuck OutOfBounds.
Proof.
  intros Hrun Hans Hd. destruct (run_opmsg_answered now fresh cluster cmd error bytes w d w' Hrun Hans) as (spare & ->).
  pose proof (cr_max _ _ _ Hrun) as Hmax. destruct Hans as [_ _ Hl].
  assert (Hr : ∃ rpc, opmsg_unpack fresh cmd (d ++ spare) (blen d) = Ret (inl rpc) ∧ reply_document rpc = Stuck OutOfBounds).
  { destruct Hd as [(opcode & vs & Hmsg & Hne & Hnc)|(m & q & s & fl & i & docs & secs & Hd)].
    - destruct (scatter_message_frame opcode vs d spare Hmsg ltac:(unfold INT_MAX in *; lia)) as (fs & rpc & E & _ & Hop & _ & Hsec).
      exists rpc. unfold opmsg_unpack. rewrite E. cbn [bind negb]. rewrite Hop.
      destruct (message_header _ _ _ Hmsg) as (_ & _ & _ & _ & _ & _ & _ & Hs32 & _).
      destruct (Z.eqb_spec (u32 opcode) MONGOC_OPCODE_COMPRESSED) as [Heq|_].
      + destruct Hnc. rewrite <- (s32_u32 opcode Hs32), Heq. done.
      + split; [done|]. unfold reply_document. by rewrite Hsec.
    - destruct (unpack_decodes fresh cmd d spare m q s fl _ Hd) as (rpc & E & Hs). exists rpc. split; [exact E|].
      unfold reply_document. destruct (rpc_sec rpc "sections") as [|[ty pl] rest]; [done|].
      apply Forall2_cons in Hs as [(_ & r & r' & Hp) _]. cbn [sec_payload] in Hp. by rewrite Hp. }
  destruct Hr as (rpc & -> & Hr). cbn [bind]. unfold opmsg_reply. by rewrite Hr.
Qed.

(** the header of an OP_REPLY with one document *)
Definition reply_header (m q s fl cursor from : Z) : list Z :=
  le_bytes 4 m ++ le_bytes 4 q ++ le_bytes 4 s ++ le_bytes 4 MONGOC_OPCODE_REPLY ++ le_bytes 4 fl
  ++ le_bytes 8 cursor ++ le_bytes 4 from ++ le_bytes 4 1.
Lemma reply_header_scatter rpc m q s fl cursor from :
  ∃ rpc', _mongoc_rpc_scatter_reply_header_only rpc (reply_header m q s fl cursor from) 36 = Ret (true, rpc')
    ∧ rpc_int rpc' "opcode" = MONGOC_OPCODE_REPLY ∧ rpc_int rpc' "n_returned" = 1.
Proof.
  unfold _mongoc_rpc_scatter_reply_header_only. change (36 <? 36) with false. cbv iota. unfold scatter_op.
  change (negb (36 =? 0)) with true. cbn [bson_assert bind].
  set (d := reply_header m q s fl cursor from ++ []).
  assert (Hd : reply_header m q s fl cursor from = d ++ []) by (unfold d; by rewrite !app_nil_r).
  replace 36 with (blen d) by (unfold d, reply_header; autorewrite with blen; lia). rewrite Hd.
  change (Scatter rpc (Some (d ++ [])) (blen d)) with (reading [] rpc d).
  unfold d, reply_header. rewrite <- !app_assoc. unfold op_reply_header. cbn [scatter_fields scatter_field].
  do 4 (rewrite (scatter_int_app [] 4 s32 _ _ _ _ _ eq_refl); cbn [bind fst snd]).
  rewrite (scatter_int_app [] 4 id _ _ _ _ _ eq_refl); cbn [bind fst snd].
  rewrite (scatter_int_app [] 8 s64 _ _ _ _ _ eq_refl); cbn [bind fst snd].
  do 2 (rewrite (scatter_int_app [] 4 s32 _ _ _ _ _ eq_refl); cbn [bind fst snd]).
  eexists. split; [reflexivity|]. cbn [reading sc_rpc]. split; rpc_simpl; reflexivity.
Qed.

Lemma reserve_negative fresh m : - 2 ^ 31 + 36 ≤ m < 0 →
  bson_reserve_buffer fresh (bson_init fresh) (u32 (u64 (m - 36))) = None.
Proof.
  intros Hm. assert (Hu : u32 (u64 (m - 36)) = m - 36 + 2 ^ 32).
  { assert (H64 : u64 (m - 36) = m - 36 + 2 ^ 64).
    { unfold u64. rewrite <- (Z.mod_add (m - 36) 1 (2 ^ 64)) by lia. rewrite Z.mul_1_l. apply Z.mod_small. lia. }
    rewrite H64. unfold u32. rewrite <- (Z.mod_add (m - 36 + 2 ^ 64) (1 - 2 ^ 32) (2 ^ 32)) by lia.
    replace (m - 36 + 2 ^ 64 + (1 - 2 ^ 32) * 2 ^ 32) with (m - 36 + 2 ^ 32) by lia. apply Z.mod_small. lia. }
  rewrite Hu. unfold bson_reserve_buffer. change (1 <? Z.of_nat (length (m_levels (bson_init fresh)))) with false.
  change (m_rdonly (bson_init fresh)) with false. cbn [orb]. unfold _bson_grow. change (m_inline (bson_init fresh)) with true. cbv iota.
  unfold _bson_impl_inline_grow. change (l_len (m_top (bson_init fresh))) with 5.
  destruct (Z.leb_spec (5 + (m - 36 + 2 ^ 32)) BSON_INLINE_DATA_SIZE) as [Hle|_]; [unfold BSON_INLINE_DATA_SIZE in Hle; lia|].
  destruct (next_power_of_two_spec (5 + (m - 36 + 2 ^ 32)) ltac:(lia)) as (k & Hk & -> & Hle & _).
  destruct (Z.leb_spec (2 ^ k) INT32_MAX); [unfold INT32_MAX in *; lia|done].
Qed.
(** A server that does not speak OP_MSG, such as any server in its handshake, can
    announce a negative length: compared with the unsigned size of the header it is
    large, compared with the greatest length it is small, and the client aborts
    when no buffer can be reserved for the document. *)
Theorem opquery_negative_length `{StreamOk W} {zlib : Zlib} now fresh cluster cmd cid error (w w1 w2 : W) bytes e m q s fl cursor from :
  c_in_exhaust cluster = false →
  opquery_message (set_request_id (u32 (c_request_id cluster + 1)) cluster) cmd cid (u32 (c_request_id cluster + 1)) = Ret (inl bytes) →
  stream_writev bytes w = (true, e, w1) → stream_read 36 36 w1 = (36, reply_header m q s fl cursor from, w2) →
  - 2 ^ 31 + 36 ≤ m < 0 →
  mongoc_cluster_run_command_opquery now fresh cluster cmd cid error w = Stuck AssertFailed.
Proof.
  intros Hx Hm Hw Hr Hneg. unfold mongoc_cluster_run_command_opquery.
  change (c_request_id (set_request_id ?r cluster)) with r. rewrite Hm. cbn [bind].
  change (c_in_exhaust (set_request_id ?r cluster)) with (c_in_exhaust cluster). rewrite Hx, Hw. cbn [negb].
  unfold opquery_receive. rewrite Hr. change (negb (36 =? 36)) with false. cbv iota.
  assert (Hrd : rd_le 4 (reply_header m q s fl cursor from) 0 = Ret (u32 m)).
  { pose proof (rd_le_bytes 4 m [] (drop 4 (reply_header m q s fl cursor from))) as Hx'. cbn [app] in Hx'.
    unfold reply_header at 1. rewrite <- (Hx' : _ = Ret (u32 m)). done. }
  rewrite Hrd. cbn [bind]. rewrite s32_u32 by (unfold in_s32; lia).
  assert (Hu : u64 m = m + 2 ^ 64) by (unfold u64; rewrite <- (Z.mod_add m 1 (2 ^ 64)) by lia; rewrite Z.mul_1_l; apply Z.mod_small; lia).
  rewrite Hu. destruct (Z.ltb_spec (m + 2 ^ 64) 36); [lia|]. rewrite Z.gtb_ltb.
  destruct (Z.ltb_spec MONGOC_DEFAULT_MAX_MSG_SIZE m); [unfold MONGOC_DEFAULT_MAX_MSG_SIZE in *; lia|]. cbn [orb].
  destruct (reply_header_scatter (_mongoc_rpc_prep_command rpc_zero [] [] 0) m q s fl cursor from) as (rpc & -> & Hop & Hret).
  cbn [bind fst snd negb]. rewrite Hop, Hret.
  change (u32 MONGOC_OPCODE_REPLY =? MONGOC_OPCODE_COMPRESSED) with false. change (u32 MONGOC_OPCODE_REPLY =? MONGOC_OPCODE_REPLY) with true.
  change (u32 1 =? 1) with true. cbv iota. cbn [andb]. unfold opquery_body. by rewrite reserve_negative.
Qed.

(** ** Monitored commands *)
Definition token_of (s s' : mongoc_client_session_t) : Prop := s' = s ∨ ∃ t, s' = set_recovery_token t s.
Lemma store_token_spec ok cluster session reply :
  bson_ok reply → returns (store_recovery_token ok cluster session reply) (λ session',
    match session with None => session' = None | Some s => ∃ s', session' = Some s' ∧ token_of s s' end).
Proof.
  intros Hr. unfold store_recovery_token. destruct session as [s|]; [|done]. destruct (ok && _); [|by exists s; split; [|left]].
  pose proof (init_find_returns reply (cs "recoveryToken") [] Hr ltac:(by repeat constructor)) as Hf.
  change (c_lit "recoveryToken") with (cs "recoveryToken" ++ [0]).
  apply returns_Ret in Hf as ([[] it] & -> & Hf); cbn [bind fst snd negb] in *; [|by exists s; split; [|left]].
  destruct Hf as [t Hat]. rewrite (HOLDS_at _ _ _ Hat). cbn [bind].
  destruct (bool_decide_reflect (t = BSON_TYPE_DOCUMENT)) as [->|].
  2: { eexists. split; [done|]. right. by eexists. }
  destruct (document_slice it reply Hat) as (n & d & -> & Hb & Hn). cbn [bind fst snd deref].
  pose proof (bson_init_static_ok d n Hb Hn) as Hd. apply returns_Ret in Hd as (doc & -> & _). cbn [bind returns].
  eexists. split; [done|]. right. by eexists.
Qed.

Section Monitored.
Context {W : Type} `{StreamOk W} `{ZlibOk}.
Variable now : Z.
Variable fresh : Z → Z.
Implicit Types (cmd : mongoc_cmd_t) (cluster : mongoc_cluster_t) (w : W).

(** the cluster when the command is run *)
Definition started_event cluster cmd : command_event :=
  CommandStarted (cmd_command cmd) (cmd_command_name cmd) (u32 (c_request_id cluster + 1)) (cmd_operation_id cmd) (sd_id (cmd_sd cmd)).
Definition started cluster cmd : mongoc_cluster_t :=
  emit_command (cb_started (c_callbacks cluster)) (started_event cluster cmd) (set_request_id (u32 (c_request_id cluster + 1)) cluster).
Definition finished_event cluster cmd (r : run_t W) : command_event :=
  if r_ok r then CommandSucceeded (r_reply r) (cmd_command_name cmd) (u32 (c_request_id cluster + 1)) (cmd_operation_id cmd) (sd_id (cmd_sd cmd))
  else CommandFailed (r_error r) (r_reply r) (cmd_command_name cmd) (u32 (c_request_id cluster + 1)) (cmd_operation_id cmd) (sd_id (cmd_sd cmd)).
Definition published cluster cmd (r : run_t W) : list command_event :=
  let cb := c_callbacks cluster in
  (if cb_started cb then [started_event cluster cmd] else [])
  ++ (if (if r_ok r then cb_succeeded cb else cb_failed cb) then [finished_event cluster cmd r] else []).

(** the run [r0] as the caller of the monitored command sees it *)
Record monitored_as cluster cmd (r0 r : run_t W) : Prop := {
  mo_result : (r_ok r, r_error r, r_reply r, r_world r) = (r_ok r0, r_error r0, r_reply r0, r_world r0);
  mo_session : match r_session r0 with None => r_session r = None | Some s => ∃ s', r_session r = Some s' ∧ token_of s s' end;
  mo_events : c_events (r_cluster r) = c_events cluster ++ published cluster cmd r;
  mo_topology : topo_ok (m_td (c_topology (r_cluster r)));
  mo_error : ∀ ok e, _mongoc_cmd_check_ok_no_wce (r_reply r0) (c_error_api_version cluster) = Ret (ok, Some e) →
    unusable e = true → unknown_because (c_topology (r_cluster r)) (sd_id (cmd_sd cmd)) e
}.
Lemma monitored_spec cluster cmd cid error w r0 :
  mongoc_server_description_compressor_id (cmd_sd cmd) = Ret cid → cmd_is_acknowledged cmd = true →
  run_on_server now fresh (started cluster cmd) cmd cid error w = Ret r0 →
  bson_ok (r_reply r0) → topo_ok (m_td (c_topology (r_cluster r0))) →
  is_Some (servers (m_td (c_topology (r_cluster r0))) !! sd_id (cmd_sd cmd)) →
  c_events (r_cluster r0) = c_events (started cluster cmd) → c_error_api_version (r_cluster r0) = c_error_api_version cluster →
  returns (mongoc_cluster_run_command_monitored now fresh cluster cmd error w) (monitored_as cluster cmd r0).
Proof.
  intros Hcid Hack Hrun Hreply Htop [sd Hid] Hev Hapi. unfold mongoc_cluster_run_command_monitored. rewrite Hcid. cbn [bind].
  change (c_request_id (set_request_id ?r cluster)) with r. change (c_callbacks (set_request_id ?r cluster)) with (c_callbacks cluster).
  fold (started_event cluster cmd). fold (started cluster cmd). rewrite Hrun. cbn [bind]. rewrite Hack. cbn [bind].
  set (c1 := emit_command _ _ (emit_command _ _ (r_cluster r0))).
  assert (Hc1 : c_topology c1 = c_topology (r_cluster r0) ∧ c_error_api_version c1 = c_error_api_version cluster
    ∧ c_events c1 = c_events cluster ++ published cluster cmd r0).
  { unfold c1. rewrite <- Hapi. unfold emit_command, published, finished_event. 
    assert (Hst : c_events (r_cluster r0) = c_events cluster ++ (if cb_started (c_callbacks cluster) then [started_event cluster cmd] else []))
      by (rewrite Hev; unfold started, emit_command; destruct (cb_started _); [done|by rewrite app_nil_r]).
    rewrite app_assoc, <- Hst.
    destruct (r_ok r0); cbn [andb negb]; [destruct (cb_succeeded _)|destruct (cb_failed _)]; by rewrite ?app_nil_r. }
  destruct Hc1 as (Ht1 & Ha1 & He1).
  pose proof (not_master_spec now c1 (sd_id (cmd_sd cmd)) (r_reply r0) sd) as Hnm. rewrite Ht1 in Hnm. specialize (Hnm Htop Hid Hreply).
  rewrite Ha1 in Hnm. eapply returns_bind; [exact Hnm|]. intros c2 (ok & e & Hc & Hcase).
  pose proof (store_token_spec (r_ok r0) c2 (r_session r0) (r_reply r0) Hreply) as Hs. apply returns_Ret in Hs as (s' & -> & Hs).
  cbn [bind returns].
  assert (Hc2 : c_events c2 = c_events c1 ∧ topo_ok (m_td (c_topology c2))
    ∧ ∀ e', e = Some e' → unusable e' = true → unknown_because (c_topology c2) (sd_id (cmd_sd cmd)) e').
  { destruct e as [e|]; [destruct (unusable e) eqn:Hu|].
    - destruct Hcase. split; [done|]. split; [done|]. by intros ? [= <-].
    - subst c2. rewrite Ht1. split; [done|]. split; [done|]. intros ? [= <-]. congruence.
    - subst c2. rewrite Ht1. done. }
  destruct Hc2 as (Hc2a & Hc2b & Hc2c). constructor; cbn [r_ok r_error r_reply r_session r_cluster r_world]; try done.
  - by rewrite Hc2a, He1.
  - intros ok' e' Hc'. rewrite Hc in Hc'. apply Ret_inj in Hc'. injection Hc' as _ Hc'. by apply Hc2c.
Qed.

Lemma monitored_command_spec cluster cmd cid error w bytes (ends : run_t W → Prop) :
  let cluster' := started cluster cmd in
  WIRE_VERSION_OP_MSG ≤ sd_max_wire_version (cmd_sd cmd) → cmd_is_acknowledged cmd = true →
  mongoc_server_description_compressor_id (cmd_sd cmd) = Ret cid → can_run cluster' cmd bytes →
  (∀ r, ends r → network_failure cluster' cmd r ∨ ∃ doc w', bson_ok doc ∧ exchanged cluster' cmd error doc w' r) →
  returns (mongoc_cluster_run_opmsg now fresh cluster' cmd error w) ends →
  returns (mongoc_cluster_run_command_monitored now fresh cluster cmd error w)
    (λ r, ∃ r0, ends r0 ∧ monitored_as cluster cmd r0 r).
Proof.
  intros cluster' Hv Hack Hcid Hrun Hends Hr.
  assert (Hon : run_on_server now fresh cluster' cmd cid error w = mongoc_cluster_run_opmsg now fresh cluster' cmd error w).
  { unfold run_on_server. destruct (Z.geb_spec (sd_max_wire_version (cmd_sd cmd)) WIRE_VERSION_OP_MSG); [done|lia]. }
  destruct (mongoc_cluster_run_opmsg now fresh cluster' cmd error w) as [r0|f] eqn:E; cbn [returns] in Hr; [|done].
  destruct Hrun as [Hok [sd Hid] _ _ _ _].
  assert (Hleft : bson_ok (r_reply r0) ∧ topo_ok (m_td (c_topology (r_cluster r0)))
    ∧ is_Some (servers (m_td (c_topology (r_cluster r0))) !! sd_id (cmd_sd cmd)) ∧ kept cluster' (r_cluster r0)).
  { destruct (Hends r0 Hr) as [Hn|(doc & w' & Hdoc & Hx)].
    - destruct Hn as [_ _ _ _ Hreply Hkept _ Htop (sd' & Hsd & _)]. split; [done|]. split; [done|]. split; [by exists sd'|done].
    - destruct Hx as [<- _ _ Hkept _ (t & Htd & Ht) _]. split; [done|]. rewrite Htd. split; [by apply cluster_time_inv|].
      split; [by exists sd|done]. }
  destruct Hleft as (Hreply & Htop & Hsrv & Hev & Hapi).
  assert (Hapi' : c_error_api_version cluster' = c_error_api_version cluster).
  { unfold cluster', started, emit_command. by destruct (cb_started _). }
  eapply returns_mono; [apply (monitored_spec cluster cmd cid error w r0); try done; congruence|].
  intros r Hm. by exists r0.
Qed.
End Monitored.

(** C12. Running a monitored, acknowledged command on a server that speaks OP_MSG and that the
    well-formed topology knows, when the message is ready, no cursor is in exhaust, the
    server's limit on messages is below 2^31 - 4097, and the exchange fails or is answered
    by a document whose "$clusterTime", if any, is framed.  The call returns.  The caller gets the result of the
    exchange, with at most a new recovery token in the session; the events published are
    the start of the command and then one end, a success if and only if the call
    succeeds, each if it has a callback, with the same request, operation and server; and
    a server that reports itself unusable is unknown afterwards. *)
Theorem monitored_command `{StreamOk W} `{ZlibOk} now fresh cluster cmd cid error (w : W) bytes :
  let cluster' := started cluster cmd in
  WIRE_VERSION_OP_MSG ≤ sd_max_wire_version (cmd_sd cmd) → cmd_is_acknowledged cmd = true →
  mongoc_server_description_compressor_id (cmd_sd cmd) = Ret cid → can_run cluster' cmd bytes → session_ok cmd →
  (exchange_fails cmd bytes w = true →
   returns (mongoc_cluster_run_command_monitored now fresh cluster cmd error w)
     (λ r, ∃ r0, network_failure cluster' cmd r0 ∧ monitored_as cluster cmd r0 r))
  ∧ (∀ d doc w', answered cmd bytes w d w' → replies d doc →
   returns (mongoc_cluster_run_command_monitored now fresh cluster cmd error w)
     (λ r, ∃ r0, exchanged cluster' cmd error doc w' r0 ∧ monitored_as cluster cmd r0 r)).
Proof.
  intros cluster' Hv Hack Hcid Hrun Hses. split.
  - intros Hf. eapply monitored_command_spec; [done|done|exact Hcid|exact Hrun|by left|by eapply network_error_spec].
  - intros d doc w' Hans Hrep. eapply monitored_command_spec; [done|done|exact Hcid|exact Hrun| |by eapply exchange_spec].
    intros r Hr. right. exists doc, w'. split; [by apply Hrep|exact Hr].
Qed.

(** ** Samples: a ping of the primary, over a stream that answers from a script *)
#[export] Instance scripted : Stream (list (list Z)) := {
  stream_writev bytes w := (true, no_error, w);
  stream_read := scripted_read;
  stream_timed_out w := false
}.
Lemma scripted_read_ok count min_bytes w :
  let '(n, b, _) := scripted_read count min_bytes w in
  bytes_ok b ∧ (0 ≤ count → blen b ≤ count) ∧ (0 ≤ n → n = blen b).
Proof.
  assert (Hnone : bytes_ok [] ∧ (0 ≤ count → blen [] ≤ count) ∧ (0 ≤ -1 → -1 = blen [])) by (rewrite blen_nil; split; [apply Forall_nil_2|lia]).
  unfold scripted_read. destruct w as [|b w]; [exact Hnone|]. case_bool_decide; cbn [andb]; [|exact Hnone].
  destruct (Z.leb_spec (blen b) count); [done|exact Hnone].
Qed.
#[export] Instance scripted_ok : StreamOk (list (list Z)).
Proof.
  split; intros count min_bytes w; pose proof (scripted_read_ok count min_bytes w) as Hr;
    change (stream_read count min_bytes w) with (scripted_read count min_bytes w);
    destruct (scripted_read count min_bytes w) as [[n b] w']; cbn [fst snd]; apply Hr.
Qed.
Definition ping : bson_t := doc_of [e_int32 (cs "ping") 1].
Definition ok_reply : bson_t := doc_of [e_int32 (cs "ok") 1].
Definition sample_server : sd_t := set_max_wire 8 (set_max_msg_size 48000000 (server_of with_primary 1)).
Definition sample_cmd : mongoc_cmd_t :=
  Cmd (cs "admin") 0 ping (Some (cs "ping")) None 0 [] sample_server 3 (Some reply_session) true false.
Definition sample_cluster : mongoc_cluster_t :=
  Cluster 6 with_primary false false true false 2 (-1) (CommandCallbacks true true true) [] [].
Definition sample_message : list Z :=
  match next_message sample_cluster sample_cmd with Ret (inl b) => b | _ => [] end.
Lemma sample_can_run : can_run sample_cluster sample_cmd sample_message.
Proof.
  constructor.
  - exact (reachable_ok _ with_primary_reachable).
  - apply (bool_decide_unpack _). vm_compute. exact I.
  - by exists (cs "ping").
  - vm_compute. reflexivity.
  - vm_compute. reflexivity.
  - vm_compute. reflexivity.
Qed.
Lemma network_error_handled_witness :
  exchange_fails sample_cmd sample_message ([] : list (list Z)) = true
  ∧ leaves_transaction sample_cmd = true
  ∧ returns (mongoc_cluster_run_opmsg 9 (λ _, 0) sample_cluster sample_cmd no_error ([] : list (list Z)))
      (network_failure sample_cluster sample_cmd).
Proof.
  split; [vm_compute; reflexivity|]. split; [vm_compute; reflexivity|].
  apply (network_error_handled 9 (λ _, 0) sample_cluster sample_cmd no_error [] sample_message).
  - exact sample_can_run.
  - vm_compute. reflexivity.
Defined.

Lemma message_decodes vs d : message MONGOC_OPCODE_MSG vs d → blen d < 2 ^ 31 → decodes d op_msg vs.
Proof.
  intros Hm Hl r. destruct (scatter_message _ _ _ r Hm Hl) as (fs & rpc & E & [= <-] & _ & Hh). exists rpc. split; [exact E|by left].
Qed.
(** the answer of a server, with the sections [secs] *)
Definition answer_vals (secs : list secval) : list fval :=
  [VInt 4 (20 + blen (concat (map encode_section secs))); VInt 4 1; VInt 4 8; VInt 4 MONGOC_OPCODE_MSG; VInt 4 0; VSections secs].
Definition answer (secs : list secval) : list Z := encode_all (answer_vals secs).
Lemma answer_message secs :
  Forall secval_ok secs → (1 ≤ length secs ≤ 2)%nat → blen (concat (map encode_section secs)) < 2 ^ 30 →
  message MONGOC_OPCODE_MSG (answer_vals secs) (answer secs).
Proof.
  intros Hs Hn Hl. pose proof (blen_nonneg (concat (map encode_section secs))). exists op_msg. split; [done|]. split; [done|].
  apply (parses_all op_msg); [done|]. unfold op_msg, answer_vals. repeat (apply Forall2_cons; split); try apply Forall2_nil_2; cbn [val_ok];
    unfold in_s32, in_u32, MONGOC_OPCODE_MSG; try lia. split; done.
Qed.
Definition script_of (d : list Z) : list (list Z) := [take 4 d; drop 4 d].
Lemma sized_ok_reply : sized ok_reply.
Proof. split; [unfold bytes_ok, byte_ok; by_check|]. split; [by vm_compute|by vm_compute]. Qed.
Lemma sample_replies : replies (answer [SDoc ok_reply]) ok_reply.
Proof.
  constructor.
  - do 4 eexists. exists []. apply message_decodes; [|by vm_compute]. apply answer_message; [|cbn [length]; lia|by vm_compute].
    apply Forall_cons. split; [exact sized_ok_reply|done].
  - split; [apply sized_ok_reply|by vm_compute].
  - by vm_compute.
  - by vm_compute.
Qed.
Lemma sample_answered (d : list Z) bytes : bool_decide (bytes_ok d) = true → head_length d = blen d → 16 ≤ blen d ≤ 1000 →
  answered sample_cmd bytes (script_of d) d [].
Proof.
  intros Hd%bool_decide_eq_true Hh Hl. constructor; [done| |].
  - exists no_error, (script_of d). split; [done|]. split; [done|]. exists [drop 4 d].
    assert (Ht : blen (take 4 d) = 4) by (unfold blen in *; rewrite length_take; lia).
    assert (Hr : blen (drop 4 d) = blen d - 4) by (unfold blen in *; rewrite length_drop; lia).
    assert (Hb : bytes_ok (take 4 d) ∧ bytes_ok (drop 4 d)) by (by apply bytes_ok_app; rewrite take_drop). destruct Hb as [Hb1 Hb2].
    cbn [stream_read scripted script_of scripted_read]. rewrite Ht, Hr, !bool_decide_true, !Z.leb_refl by done. done.
  - assert (sd_max_msg_size (cmd_sd sample_cmd) = 48000000) as -> by reflexivity. lia.
Qed.
Lemma opmsg_exchange_witness :
  returns (mongoc_cluster_run_opmsg 9 (λ _, 0) sample_cluster sample_cmd no_error (script_of (answer [SDoc ok_reply])))
    (exchanged sample_cluster sample_cmd no_error ok_reply []).
Proof.
  apply (opmsg_exchange 9 (λ _, 0) sample_cluster sample_cmd no_error sample_message _ (answer [SDoc ok_reply])).
  - exact sample_can_run.
  - intros s [= <-]. split; [split; [by_check|by vm_compute]|by vm_compute].
  - apply sample_answered; [by vm_compute|by vm_compute|by vm_compute].
  - exact sample_replies.
Defined.
Lemma sample_server_ok : sd_ok (cmd_sd sample_cmd).
Proof.
  assert (Hset : ∀ sd, sd_ok sd → sd_ok (set_max_wire 8 (set_max_msg_size 48000000 sd))) by (intros sd Hsd; exact Hsd).
  assert (Hid : servers (m_td with_primary) !! 1 = Some (server_of with_primary 1)) by (vm_compute; reflexivity).
  destruct (base_each _ (ti_base _ _ (reachable_ok _ with_primary_reachable)) _ _ Hid) as [_ _ Hsd _ _ _]. exact (Hset _ Hsd).
Qed.
Lemma opmsg_message_received_witness :
  let vs := opmsg_values sample_cmd 7 [SDoc ping] in
  let size := 4 + blen (encode_all vs) - 16 in
  returns (opmsg_message sample_cluster sample_cmd 7) (λ o,
    match o with
    | inl bytes => decodes bytes op_msg (VInt 4 (size + 16) :: vs)
    | inr _ => -1 ≠ -1
    end).
Proof.
  apply (opmsg_message_received sample_cluster sample_cmd 7 [SDoc ping] (cs "ping") (-1)).
  - reflexivity.
  - split; [|reflexivity]. split; [unfold bytes_ok, byte_ok; by_check|]. split; by vm_compute.
  - exact sample_server_ok.
  - vm_compute. reflexivity.
  - vm_compute. reflexivity.
  - vm_compute. reflexivity.
Defined.
Definition not_master_reply : bson_t := doc_of [e_int32 (cs "ok") 0; e_int32 (cs "code") 10107; e_utf8 (cs "errmsg") (cs "not master")].
Lemma not_master_handled_witness :
  returns (handle_not_master_error 9 sample_cluster 1 not_master_reply) (λ c',
    ∃ ok e, _mongoc_cmd_check_ok_no_wce not_master_reply 2 = Ret (ok, e)
    ∧ match e with
      | Some e => if unusable e then took_out 9 sample_cluster 1 (server_of with_primary 1) e c' else c' = sample_cluster
      | None => c' = sample_cluster
      end).
Proof.
  apply (not_master_handled 9 sample_cluster 1 not_master_reply (server_of with_primary 1)).
  - exact (reachable_ok _ with_primary_reachable).
  - vm_compute. reflexivity.
  - split; [unfold bytes_ok, byte_ok; by_check|by vm_compute].
Defined.
Lemma opmsg_reply_unchecked_witness :
  mongoc_cluster_run_opmsg 9 (λ _, 0) sample_cluster sample_cmd no_error (script_of (answer [SSeq (cs "documents") ok_reply]))
  = Stuck OutOfBounds.
Proof.
  apply (opmsg_reply_unchecked 9 (λ _, 0) sample_cluster sample_cmd no_error sample_message _ (answer [SSeq (cs "documents") ok_reply]) []).
  - exact sample_can_run.
  - apply sample_answered; [by vm_compute|by vm_compute|by vm_compute].
  - right. do 4 eexists. exists (cs "documents"), ok_reply, []. apply message_decodes; [|by vm_compute].
    apply answer_message; [|cbn [length]; lia|by vm_compute]. apply Forall_cons. split; [|done].
    split; [split; by_check|]. split; [apply sized_ok_reply|by vm_compute].
Defined.
Definition opquery_sent (cluster : mongoc_cluster_t) : list Z :=
  match opquery_message (set_request_id (u32 (c_request_id cluster + 1)) cluster) sample_cmd (-1) (u32 (c_request_id cluster + 1)) with
  | Ret (inl b) => b | _ => [] end.
Lemma opquery_negative_length_witness :
  mongoc_cluster_run_command_opquery 9 (λ _, 0) sample_cluster sample_cmd (-1) no_error ([reply_header (-1) 1 7 0 0 0] : list (list Z))
  = Stuck AssertFailed.
Proof.
  apply (opquery_negative_length 9 (λ _, 0) sample_cluster sample_cmd (-1) no_error [reply_header (-1) 1 7 0 0 0]
    [reply_header (-1) 1 7 0 0 0] [] (opquery_sent sample_cluster) no_error (-1) 1 7 0 0 0).
  - reflexivity.
  - vm_compute. reflexivity.
  - reflexivity.
  - vm_compute. reflexivity.
  - lia.
Defined.
Definition started_message : list Z :=
  match next_message (started sample_cluster sample_cmd) sample_cmd with Ret (inl b) => b | _ => [] end.
Lemma started_can_run : can_run (started sample_cluster sample_cmd) sample_cmd started_message.
Proof.
  constructor.
  - exact (reachable_ok _ with_primary_reachable).
  - apply (bool_decide_unpack _). vm_compute. exact I.
  - by exists (cs "ping").
  - vm_compute. reflexivity.
  - vm_compute. reflexivity.
  - vm_compute. reflexivity.
Qed.
Lemma monitored_command_witness :
  returns
    (mongoc_cluster_run_command_monitored 9 (λ _, 0) sample_cluster sample_cmd no_error (script_of (answer [SDoc ok_reply])))
    (λ r, ∃ r0, exchanged (started sample_cluster sample_cmd) sample_cmd no_error ok_reply [] r0
       ∧ monitored_as sample_cluster sample_cmd r0 r).
Proof.
  assert (Hans : answered sample_cmd started_message (script_of (answer [SDoc ok_reply])) (answer [SDoc ok_reply]) [])
    by (apply sample_answered; by vm_compute).
  assert (Hv : WIRE_VERSION_OP_MSG ≤ sd_max_wire_version (cmd_sd sample_cmd)) by (vm_compute; discriminate).
  assert (Hcid : mongoc_server_description_compressor_id (cmd_sd sample_cmd) = Ret (-1)) by (vm_compute; reflexivity).
  assert (Hses : session_ok sample_cmd).
  { intros s [= <-]. split; [split; [by_check|by vm_compute]|by vm_compute]. }
  destruct (monitored_command 9 (λ _, 0) sample_cluster sample_cmd (-1) no_error (script_of (answer [SDoc ok_reply])) started_message
    Hv eq_refl Hcid started_can_run Hses) as [_ Hx].
  exact (Hx (answer [SDoc ok_reply]) ok_reply [] Hans sample_replies).
Defined.
