(* ===== verification/CmdParts.v ===== *)
(** The parts of a command (mongoc/mongoc-cmd.c): the options of a command, and its
    assembly from the body, the options, the session and the read preference for the
    server that will run it. *)
From Stdlib Require Import ZArith Lia List.
From stdpp Require Import prelude gmap strings.
From S2P Require Import Prelude BsonIter BsonIterSafe BsonFields BsonAppend BsonBuild BsonValue BsonParse HostList MongocSet BsonKeys MongocTypes BsonEntries Concerns ReadPrefs TxnOptions ServerDescription TopologyDescription TopologySafe ServerSession ClientSession Rpc Buffer Cluster.
#[local] Open Scope string_scope.
#[local] Open Scope list_scope.
#[local] Open Scope Z_scope.
#[local] Open Scope mongo_scope.

#[local] Notation cs_t := mongoc_client_session_t.
#[local] Notation sd_t := mongoc_server_description_t.

Definition WIRE_VERSION_FAM_WRITE_CONCERN : Z := 4.
Definition WIRE_VERSION_READ_CONCERN : Z := 4.
Definition WIRE_VERSION_CMD_WRITE_CONCERN : Z := 5.
Definition WIRE_VERSION_COLLATION : Z := 5.
Definition WIRE_VERSION_RETRY_READS : Z := 6.
Definition WIRE_VERSION_RETRY_WRITES : Z := 6.
Definition MONGOC_ERROR_PROTOCOL_BAD_WIRE_VERSION : Z := 15.

Inductive mongoc_cmd_parts_allow_txn_number_t :=
| MONGOC_CMD_PARTS_ALLOW_TXN_NUMBER_UNKNOWN | MONGOC_CMD_PARTS_ALLOW_TXN_NUMBER_YES | MONGOC_CMD_PARTS_ALLOW_TXN_NUMBER_NO.
#[export] Instance allow_txn_number_eq_dec : EqDecision mongoc_cmd_parts_allow_txn_number_t.
Proof. solve_decision. Defined.

(** what [assembled.command] points to *)
Inductive command_pointer := NotAssembled | TheBody | TheAssembledBody.
#[export] Instance command_pointer_eq_dec : EqDecision command_pointer.
Proof. solve_decision. Defined.

(** of the client: the sessions by their ids, and the options retryReads and
    retryWrites of its connection string *)
Record cmd_client_t := CmdClient {
  cc_sessions : mongoc_set_t cs_t;
  cc_retry_reads : bool;
  cc_retry_writes : bool
}.
Record mongoc_server_stream_t := ServerStream {
  st_topology_type : mongoc_topology_description_type_t;
  st_sd : sd_t;
  st_cluster_time : bson_t
}.
Record mongoc_read_write_opts_t := ReadWriteOpts {
  rw_readConcern : bson_t;
  rw_writeConcern : option mongoc_write_concern_t;
  rw_client_session : option cs_t;
  rw_collation : bson_t;
  rw_extra : bson_t
}.

(** [pt_command], [pt_command_name], [pt_session] and the next three are of [assembled] *)
Record mongoc_cmd_parts_t := Parts {
  pt_db_name : list Z;
  pt_command : command_pointer;
  pt_command_name : option (list Z);
  pt_query_flags : Z;
  pt_session : option cs_t;
  pt_is_acknowledged : bool;
  pt_is_txn_finish : bool;
  pt_user_query_flags : Z;
  pt_body : bson_t;
  pt_read_concern_document : bson_t;
  pt_write_concern_document : bson_t;
  pt_extra : bson_mem;
  pt_read_prefs : option mongoc_read_prefs_t;
  pt_assembled_body : bson_mem;
  pt_is_read_command : bool;
  pt_is_write_command : bool;
  pt_prohibit_lsid : bool;
  pt_allow_txn_number : mongoc_cmd_parts_allow_txn_number_t;
  pt_is_retryable_read : bool;
  pt_is_retryable_write : bool;
  pt_has_temp_session : bool;
  pt_client : cmd_client_t
}.
Definition parts_eta (p : mongoc_cmd_parts_t) : mongoc_cmd_parts_t :=
  Parts (pt_db_name p) (pt_command p) (pt_command_name p) (pt_query_flags p) (pt_session p) (pt_is_acknowledged p)
    (pt_is_txn_finish p) (pt_user_query_flags p) (pt_body p) (pt_read_concern_document p) (pt_write_concern_document p)
    (pt_extra p) (pt_read_prefs p) (pt_assembled_body p) (pt_is_read_command p) (pt_is_write_command p)
    (pt_prohibit_lsid p) (pt_allow_txn_number p) (pt_is_retryable_read p) (pt_is_retryable_write p)
    (pt_has_temp_session p) (pt_client p).
#[local] Notation parts_t := mongoc_cmd_parts_t.
#[local] Notation "A ↦ B" := (A → B → B) (at level 98, right associativity).
Definition set_command : command_pointer ↦ parts_t := ltac:(setter parts_eta pt_command).
Definition set_command_name : option (list Z) ↦ parts_t := ltac:(setter parts_eta pt_command_name).
Definition set_query_flags : Z ↦ parts_t := ltac:(setter parts_eta pt_query_flags).
Definition set_session : option cs_t ↦ parts_t := ltac:(setter parts_eta pt_session).
Definition set_is_acknowledged : bool ↦ parts_t := ltac:(setter parts_eta pt_is_acknowledged).
Definition set_is_txn_finish : bool ↦ parts_t := ltac:(setter parts_eta pt_is_txn_finish).
Definition set_read_concern_document : bson_t ↦ parts_t := ltac:(setter parts_eta pt_read_concern_document).
Definition set_write_concern_document : bson_t ↦ parts_t := ltac:(setter parts_eta pt_write_concern_document).
Definition set_extra : bson_mem ↦ parts_t := ltac:(setter parts_eta pt_extra).
Definition set_assembled_body : bson_mem ↦ parts_t := ltac:(setter parts_eta pt_assembled_body).
Definition set_allow_txn_number : mongoc_cmd_parts_allow_txn_number_t ↦ parts_t := ltac:(setter parts_eta pt_allow_txn_number).
Definition set_is_retryable_read : bool ↦ parts_t := ltac:(setter parts_eta pt_is_retryable_read).
Definition set_is_retryable_write : bool ↦ parts_t := ltac:(setter parts_eta pt_is_retryable_write).
Definition set_has_temp_session : bool ↦ parts_t := ltac:(setter parts_eta pt_has_temp_session).

Definition command_error (code : Z) (message : list Z) : bson_error_t := bson_set_error MONGOC_ERROR_COMMAND code message.
Definition bad_wire_version (message : list Z) : bson_error_t := command_error MONGOC_ERROR_PROTOCOL_BAD_WIRE_VERSION message.
Definition IS_PREF_PRIMARY (prefs : option mongoc_read_prefs_t) : bool :=
  match prefs with None => true | Some p => bool_decide (rp_mode p = MONGOC_READ_PRIMARY) end.

(** ** Interface: the clock, and [mongoc_client_start_session (client, NULL, NULL)] *)
Class Starts (W : Type) := {
  start_session : W → option cs_t * W;
  session_clock : W → Z * W
}.

(** ** Setting up the parts

    An operation gives its return value, the error it set and the parts. *)
Notation parts_res := (bool * option bson_error_t * mongoc_cmd_parts_t)%type.

Section Parts.
Variable fresh : Z → Z.

Definition mongoc_cmd_parts_init (client : cmd_client_t) (db_name : list Z) (user_query_flags : Z) (command_body : bson_t) : parts_t :=
  Parts db_name NotAssembled None MONGOC_QUERY_NONE None true false user_query_flags command_body bson_empty_doc bson_empty_doc
    (bson_init fresh) None (bson_init fresh) false false false MONGOC_CMD_PARTS_ALLOW_TXN_NUMBER_UNKNOWN false false false client.

Definition mongoc_cmd_parts_set_session (parts : parts_t) (session : option cs_t) : res parts_t :=
  let* _ := bson_assert (bool_decide (pt_command parts = NotAssembled)) in
  let* _ := bson_assert (negb (bool_decide (is_Some (pt_session parts)))) in
  Ret (set_session session parts).

(** mongoc-client.c, mongoc-client-session.c *)
Definition _mongoc_client_lookup_session (client : cmd_client_t) (client_session_id : Z) : res (cs_t + bson_error_t) :=
  let* session := mongoc_set_get (cc_sessions client) client_session_id in
  Ret (match session with
       | Some s => inl s
       | None => inr (command_error MONGOC_ERROR_COMMAND_INVALID_ARG (cs "Invalid sessionId"))
       end).
Definition _mongoc_client_session_from_iter (client : cmd_client_t) (iter : bson_iter_t) : res (cs_t + bson_error_t) :=
  let* holds := BSON_ITER_HOLDS iter BSON_TYPE_INT64 in
  let invalid := inr (command_error MONGOC_ERROR_COMMAND_INVALID_ARG (cs "Invalid sessionId")) in
  if negb holds then Ret invalid
  else
    let* id := bson_iter_int64 iter in
    if id >? 0xffffffff then Ret invalid else _mongoc_client_lookup_session client (u32 id).

Definition mongoc_cmd_parts_set_read_concern (parts : parts_t) (rc : option mongoc_read_concern_t) (max_wire_version : Z)
    : res (parts_res * option mongoc_read_concern_t) :=
  if _mongoc_client_session_in_txn (pt_session parts) then Ret (true, None, parts, rc)
  else
    let* command_name := _mongoc_get_command_name (pt_body parts) in
    match command_name with
    | None => Ret (false, Some (command_error MONGOC_ERROR_COMMAND_INVALID_ARG (cs "Empty command document")), parts, rc)
    | Some name =>
        if mongoc_read_concern_is_default rc then Ret (true, None, parts, rc)
        else if max_wire_version <? WIRE_VERSION_READ_CONCERN then
          Ret (false, Some (bad_wire_version ([34] ++ name ++ [34] ++ cs " command does not support readConcern with wire version "
                              ++ print_int max_wire_version ++ cs ", wire version 4 is required")), parts, rc)
        else
          let* r := deref rc in
          let* d := _mongoc_read_concern_get_bson fresh r in
          Ret (true, None, set_read_concern_document d.1 parts, Some d.2)
    end.

Definition mongoc_cmd_parts_set_write_concern (parts : parts_t) (wc : option mongoc_write_concern_t) (max_wire_version : Z)
    : res (parts_res * option mongoc_write_concern_t) :=
  match wc with
  | None => Ret (true, None, parts, None)
  | Some w =>
      let* command_name := _mongoc_get_command_name (pt_body parts) in
      match command_name with
      | None => Ret (false, Some (command_error MONGOC_ERROR_COMMAND_INVALID_ARG (cs "Empty command document")), parts, wc)
      | Some name =>
          let is_fam := strcaseeq name (cs "findandmodify") in
          let wc_allowed := pt_is_write_command parts
            || (is_fam && (max_wire_version >=? WIRE_VERSION_FAM_WRITE_CONCERN))
            || (negb is_fam && (max_wire_version >=? WIRE_VERSION_CMD_WRITE_CONCERN)) in
          if wc_allowed then
            let parts := set_is_acknowledged (mongoc_write_concern_is_acknowledged wc) parts in
            let* d := _mongoc_write_concern_get_bson fresh w in
            Ret (true, None, set_write_concern_document d.1 parts, Some d.2)
          else Ret (true, None, parts, wc)
      end
  end.

(** one option; the state is the parts, and the error of a failure *)
Definition parts_option (max_wire_version : Z) (iter : bson_iter_t) (s : parts_t * option (option bson_error_t))
    : res (bool * (parts_t * option (option bson_error_t))) :=
  let parts := s.1 in
  let fail e parts := Ret (false, (parts, Some e)) in
  let next parts := Ret (true, (parts, None)) in
  let append parts :=
    let* key := bson_iter_key iter in
    let* r := bson_append_iter fresh (pt_extra parts) (Some key) (-1) iter in
    let parts := set_extra r.2 parts in
    if negb r.1 then fail None parts else next parts in
  let* key := field_key iter in
  if streq key (cs "collation") then
    if max_wire_version <? WIRE_VERSION_COLLATION
    then fail (Some (bad_wire_version (cs "The selected server does not support collation"))) parts
    else append parts
  else if streq key (cs "writeConcern") then
    let* wc := _mongoc_write_concern_new_from_iter fresh iter in
    match wc with
    | inr e => fail (Some e) parts
    | inl wc =>
        let* r := mongoc_cmd_parts_set_write_concern parts (Some wc) max_wire_version in
        let '(ok, e, parts, _) := r in
        if negb ok then fail e parts else next parts
    end
  else if streq key (cs "readConcern") then
    if max_wire_version <? WIRE_VERSION_READ_CONCERN
    then fail (Some (bad_wire_version (cs "The selected server does not support readConcern"))) parts
    else
      let* holds := BSON_ITER_HOLDS iter BSON_TYPE_DOCUMENT in
      if negb holds then fail (Some (bad_wire_version (cs "Invalid readConcern"))) parts
      else
        let* d := bson_iter_document iter in
        let* data := deref d.2 in
        let* doc := bson_init_static data d.1 in
        match doc with
        | None => Stuck AssertFailed
        | Some doc => next (set_read_concern_document doc parts)
        end
  else if streq key (cs "sessionId") then
    let* _ := bson_assert (negb (bool_decide (is_Some (pt_session parts)))) in
    let* session := _mongoc_client_session_from_iter (pt_client parts) iter in
    match session with
    | inr e => fail (Some e) parts
    | inl session => next (set_session (Some session) parts)
    end
  else if streq key (cs "serverId") || streq key (cs "maxAwaitTimeMS") then next parts
  else append parts.
Definition mongoc_cmd_parts_append_opts (parts : parts_t) (iter : bson_iter_t) (max_wire_version : Z) : res parts_res :=
  let* _ := bson_assert (bool_decide (pt_command parts = NotAssembled)) in
  let* r := for_each_field (parts_option max_wire_version) iter (parts, None) in
  Ret (match r.2 with
       | (parts, None) => (true, None, parts)
       | (parts, Some e) => (false, e, parts)
       end).

(** "OPTS_ERR" returns at once, with what was appended so far *)
Definition mongoc_cmd_parts_append_read_write (parts : parts_t) (rw_opts : mongoc_read_write_opts_t) (max_wire_version : Z)
    : res (parts_res * option mongoc_write_concern_t) :=
  let wc := rw_writeConcern rw_opts in
  let invalid message parts wc := Ret (false, Some (command_error MONGOC_ERROR_COMMAND_INVALID_ARG message), parts, wc) in
  let* _ := bson_assert (bool_decide (pt_command parts = NotAssembled)) in
  let* no_collation := bson_empty (rw_collation rw_opts) in
  if negb no_collation && (max_wire_version <? WIRE_VERSION_COLLATION) then
    Ret (false, Some (bad_wire_version (cs "The selected server does not support collation")), parts, wc)
  else
    let* r := (if no_collation : bool then Ret (true, pt_extra parts)
               else bson_append_document fresh (pt_extra parts) (c_lit "collation") 9 (rw_collation rw_opts)) in
    let parts := set_extra r.2 parts in
    if negb r.1 then invalid (cs "'opts' with 'collation' is too large") parts wc
    else
      let* w := mongoc_cmd_parts_set_write_concern parts wc max_wire_version in
      let '(ok, e, parts, wc) := w in
      if negb ok then Ret (false, e, parts, wc)
      else
        let* no_rc := bson_empty (rw_readConcern rw_opts) in
        if negb no_rc && (max_wire_version <? WIRE_VERSION_READ_CONCERN) then
          Ret (false, Some (bad_wire_version (cs "The selected server does not support readConcern")), parts, wc)
        else
          let parts := if no_rc : bool then parts else set_read_concern_document (rw_readConcern rw_opts) parts in
          let* parts := match rw_client_session rw_opts with
                        | None => Ret parts
                        | Some s =>
                            let* _ := bson_assert (negb (bool_decide (is_Some (pt_session parts)))) in
                            Ret (set_session (Some s) parts)
                        end in
          let* c := bson_concat fresh (pt_extra parts) (rw_extra rw_opts) in
          let parts := set_extra c.2 parts in
          if negb c.1 then invalid (cs "'opts' with extra fields is too large") parts wc
          else Ret (true, None, parts, wc).

(** ** Pieces of the assembly *)
Definition no_extra (parts : parts_t) : res bool := let* d := bson_get_data (pt_extra parts) in bson_empty d.
Definition _mongoc_cmd_parts_ensure_copied (parts : parts_t) : res parts_t :=
  if bool_decide (pt_command parts = TheBody) then
    let* r := bson_concat fresh (pt_assembled_body parts) (pt_body parts) in
    let* extra := bson_get_data (pt_extra parts) in
    let* r := bson_concat fresh r.2 extra in
    Ret (set_command TheAssembledBody (set_assembled_body r.2 parts))
  else Ret parts.
(** an append to [assembled_body], whose result is ignored *)
Definition to_assembled (append : bson_mem → res (bool * bson_mem)) (parts : parts_t) : res parts_t :=
  let* r := append (pt_assembled_body parts) in Ret (set_assembled_body r.2 parts).
Definition copied_extra (parts : parts_t) : res parts_t :=
  let* e := no_extra parts in if e : bool then Ret parts else _mongoc_cmd_parts_ensure_copied parts.
Definition append_read_concern (doc : bson_t) (m : bson_mem) : res (bool * bson_mem) :=
  bson_append_document fresh m (c_lit "readConcern") 11 doc.
Definition append_write_concern (doc : bson_t) (m : bson_mem) : res (bool * bson_mem) :=
  bson_append_document fresh m (c_lit "writeConcern") 12 doc.
Definition _mongoc_cmd_parts_add_write_concern (parts : parts_t) : res parts_t :=
  let* e := bson_empty (pt_write_concern_document parts) in
  if e : bool then Ret parts
  else
    let* parts := _mongoc_cmd_parts_ensure_copied parts in
    to_assembled (append_write_concern (pt_write_concern_document parts)) parts.

Definition _mongoc_cmd_parts_add_read_prefs (query : bson_mem) (prefs : option mongoc_read_prefs_t) : res bson_mem :=
  let mode_str := _mongoc_read_mode_as_str (mongoc_read_prefs_get_mode prefs) in
  let* prefs := match prefs with Some p => Ret p | None => Stuck AssertFailed end in
  let* tags := mongoc_read_prefs_get_tags prefs in
  let stale := mongoc_read_prefs_get_max_staleness_seconds prefs in
  let* r := bson_append_document_begin fresh query (c_lit "$readPreference") 15 in
  if negb r.1 then Stuck OutOfBounds
  else
    let* r := bson_append_utf8 fresh r.2 (c_lit "mode") 4 (Some (c_mem mode_str)) (-1) in
    let* no_tags := bson_empty0 (Some tags) in
    let* m := (if no_tags : bool then Ret r.2
               else let* r := bson_append_array fresh r.2 (c_lit "tags") 4 tags in Ret r.2) in
    let* m := (if negb (stale =? MONGOC_NO_MAX_STALENESS)
               then let* r := bson_append_int64 fresh m (c_lit "maxStalenessSeconds") 19 stale in Ret r.2 else Ret m) in
    bson_append_document_end m.

Definition _iter_concat (dst : bson_mem) (iter : bson_iter_t) : res bson_mem :=
  let* d := bson_iter_document iter in
  let* data := deref d.2 in
  let* src := bson_init_static data d.1 in
  match src with
  | None => Stuck AssertFailed
  | Some src =>
      let* r := bson_concat fresh dst src in
      let* _ := bson_assert r.1 in
      Ret r.2
  end.

(** ** Servers before OP_MSG

    ["$query": {the command, extra, concerns}] *)
Definition wrap_query (parts : parts_t) (dollar_query : option bson_iter_t) (requires_read_concern requires_write_concern : bool)
    : res parts_t :=
  let* r := bson_append_document_begin fresh (pt_assembled_body parts) (c_lit "$query") 6 in
  if negb r.1 then Stuck OutOfBounds
  else
    let* q := match dollar_query with
              | Some it => _iter_concat r.2 it
              | None => let* c := bson_concat fresh r.2 (pt_body parts) in Ret c.2
              end in
    let* extra := bson_get_data (pt_extra parts) in
    let* c := bson_concat fresh q extra in
    let* c := (if requires_read_concern then append_read_concern (pt_read_concern_document parts) c.2 else Ret c) in
    let* c := (if requires_write_concern then append_write_concern (pt_write_concern_document parts) c.2 else Ret c) in
    let* m := bson_append_document_end c.2 in
    Ret (set_assembled_body m parts).
(** the fields of the body but "$query" *)
Definition copy_rest (parts : parts_t) : res parts_t :=
  let* m := bson_copy_to_excluding_noinit_va fresh (pt_body parts) (pt_assembled_body parts) [cs "$query"] in
  Ret (set_assembled_body m parts).

Definition slave_ok (parts : parts_t) : parts_t := set_query_flags (Z.lor (pt_query_flags parts) MONGOC_QUERY_SLAVE_OK) parts.
Definition not_get_more (parts : parts_t) : res bool :=
  let* name := deref (pt_command_name parts) in Ret (negb (streq name (cs "getMore"))).
(** [!bson_empty (&parts->read_concern_document) && strcmp (command_name, "getMore")] *)
Definition needs_read_concern (parts : parts_t) : res bool :=
  let* e := bson_empty (pt_read_concern_document parts) in
  if e : bool then Ret false else not_get_more parts.

Definition _mongoc_cmd_parts_assemble_mongos (parts : parts_t) : res parts_t :=
  let mode := mongoc_read_prefs_get_mode (pt_read_prefs parts) in
  let* tags := match pt_read_prefs parts with
               | Some rp => let* t := mongoc_read_prefs_get_tags rp in Ret (Some t)
               | None => Ret None
               end in
  let* no_tags := bson_empty0 tags in
  let '(add_read_prefs, parts) :=
    match mode with
    | MONGOC_READ_PRIMARY => (false, parts)
    | MONGOC_READ_SECONDARY_PREFERRED => (negb no_tags, slave_ok parts)
    | _ => (true, slave_ok parts)
    end in
  let* requires_read_concern := needs_read_concern parts in
  let* no_wc := bson_empty (pt_write_concern_document parts) in
  let requires_write_concern := negb no_wc in
  let* f := bson_iter_init_find (pt_body parts) (c_lit "$query") in
  let dollar_query := if f.1 : bool then Some f.2 else None in
  let* parts :=
    (if add_read_prefs : bool then
       let* parts := wrap_query parts dollar_query requires_read_concern requires_write_concern in
       let* m := _mongoc_cmd_parts_add_read_prefs (pt_assembled_body parts) (pt_read_prefs parts) in
       let parts := set_assembled_body m parts in
       let* parts := (if f.1 : bool then copy_rest parts else Ret parts) in
       Ret (set_command TheAssembledBody parts)
     else if f.1 : bool then
       let* parts := wrap_query parts dollar_query requires_read_concern requires_write_concern in
       let* parts := copy_rest parts in
       Ret (set_command TheAssembledBody parts)
     else
       let* parts := (if requires_read_concern then
                        let* parts := _mongoc_cmd_parts_ensure_copied parts in
                        to_assembled (append_read_concern (pt_read_concern_document parts)) parts
                      else Ret parts) in
       _mongoc_cmd_parts_add_write_concern parts) in
  copied_extra parts.

Definition _mongoc_cmd_parts_assemble_mongod (parts : parts_t) (server_stream : mongoc_server_stream_t) : res parts_t :=
  let* parts :=
    (if pt_is_write_command parts then Ret parts
     else
       match st_topology_type server_stream with
       | MONGOC_TOPOLOGY_SINGLE => Ret (slave_ok parts)
       | MONGOC_TOPOLOGY_RS_NO_PRIMARY | MONGOC_TOPOLOGY_RS_WITH_PRIMARY =>
           Ret (if IS_PREF_PRIMARY (pt_read_prefs parts) then parts else slave_ok parts)
       | _ => Stuck AssertFailed
       end) in
  let* parts := copied_extra parts in
  let* n := needs_read_concern parts in
  let* parts := (if n : bool then
                   let* parts := _mongoc_cmd_parts_ensure_copied parts in
                   to_assembled (append_read_concern (pt_read_concern_document parts)) parts
                 else Ret parts) in
  _mongoc_cmd_parts_add_write_concern parts.

(** ** Servers that speak OP_MSG *)
Definition _largest_cluster_time (a b : option bson_t) : res (option bson_t) :=
  match a, b with
  | None, _ => Ret b
  | _, None => Ret a
  | Some x, Some y => let* g := _mongoc_cluster_time_greater x y in Ret (if g : bool then a else b)
  end.

Definition _allow_txn_number (parts : parts_t) (server_stream : mongoc_server_stream_t) : res bool :=
  let* _ := bson_assert (bool_decide (pt_allow_txn_number parts = MONGOC_CMD_PARTS_ALLOW_TXN_NUMBER_UNKNOWN)) in
  if negb (pt_is_write_command parts) then Ret false
  else if sd_max_wire_version (st_sd server_stream) <? WIRE_VERSION_RETRY_WRITES then Ret false
  else if negb (pt_is_acknowledged parts) then Ret false
  else let* name := deref (pt_command_name parts) in Ret (strcaseeq name (cs "findandmodify")).
Definition _is_retryable_write (parts : parts_t) (server_stream : mongoc_server_stream_t) : bool :=
  bool_decide (is_Some (pt_session parts)) && pt_is_write_command parts
  && bool_decide (pt_allow_txn_number parts = MONGOC_CMD_PARTS_ALLOW_TXN_NUMBER_YES)
  && negb (sd_max_wire_version (st_sd server_stream) <? WIRE_VERSION_RETRY_WRITES)
  && negb (bool_decide (sd_type (st_sd server_stream) = MONGOC_SERVER_STANDALONE))
  && negb (_mongoc_client_session_in_txn (pt_session parts))
  && cc_retry_writes (pt_client parts).
Definition _is_retryable_read (parts : parts_t) (server_stream : mongoc_server_stream_t) : bool :=
  pt_is_read_command parts && negb (pt_is_write_command parts)
  && negb (sd_max_wire_version (st_sd server_stream) <? WIRE_VERSION_RETRY_READS)
  && negb (_mongoc_client_session_in_txn (pt_session parts))
  && cc_retry_reads (pt_client parts).

(** a direct connection may read from any server *)
Definition preference_for (parts : parts_t) (server_stream : mongoc_server_stream_t) : option mongoc_read_prefs_t :=
  if negb (pt_is_write_command parts) && IS_PREF_PRIMARY (pt_read_prefs parts)
     && bool_decide (st_topology_type server_stream = MONGOC_TOPOLOGY_SINGLE)
     && negb (bool_decide (sd_type (st_sd server_stream) = MONGOC_SERVER_MONGOS))
  then Some (mongoc_read_prefs_new fresh MONGOC_READ_PRIMARY_PREFERRED) else pt_read_prefs parts.
(** "$db" and the read preference go to [extra]; [false] and an error in a transaction
    with another preference than primary *)
Definition opmsg_extra (parts : parts_t) (session : option cs_t) (standalone : bool) (prefs : option mongoc_read_prefs_t) : res parts_res :=
  let* has_db := bson_has_field (pt_body parts) (cs "$db") in
  let* parts := (if has_db : bool then Ret parts
                 else let* r := BSON_APPEND_UTF8 fresh (pt_extra parts) (cs "$db") (pt_db_name parts) in Ret (set_extra r.2 parts)) in
  match (if _mongoc_client_session_in_txn session then session else None) with
  | Some s =>
      if negb (IS_PREF_PRIMARY (to_read_prefs (cs_txn_opts s))) && negb (pt_is_write_command parts) then
        Ret (false, Some (bson_set_error MONGOC_ERROR_TRANSACTION MONGOC_ERROR_TRANSACTION_INVALID_STATE
                            (cs "Read preference in a transaction must be primary")), parts)
      else Ret (true, None, parts)
  | None =>
      if negb (IS_PREF_PRIMARY prefs) && negb standalone then
        let* m := _mongoc_cmd_parts_add_read_prefs (pt_extra parts) prefs in
        Ret (true, None, set_extra m parts)
      else Ret (true, None, parts)
  end.

(** the id of the session; [now] is the time of its use *)
Definition add_lsid (now : Z) (parts : parts_t) (s : cs_t) : res (parts_t * option bson_t) :=
  let* parts := _mongoc_cmd_parts_ensure_copied parts in
  let* parts := to_assembled (λ m, bson_append_document fresh m (c_lit "lsid") 4 (ss_lsid (cs_server_session s))) parts in
  let ss := cs_server_session s in
  let s := set_server_session (ServerSession now (ss_lsid ss) (ss_txn_number ss) (ss_dirty ss)) s in
  let* time := mongoc_client_session_get_cluster_time s in
  Ret (set_session (Some s) parts, time).

(** the transaction number of a retryable write, for later; and whether the command is retryable *)
Definition add_retry (parts : parts_t) (session : option cs_t) (server_stream : mongoc_server_stream_t) (is_get_more : bool) : res parts_t :=
  let* parts :=
    (if negb (_mongoc_client_session_txn_in_progress session) && pt_is_write_command parts
        && bool_decide (pt_allow_txn_number parts = MONGOC_CMD_PARTS_ALLOW_TXN_NUMBER_UNKNOWN) then
       let* a := _allow_txn_number parts server_stream in
       Ret (set_allow_txn_number (if a : bool then MONGOC_CMD_PARTS_ALLOW_TXN_NUMBER_YES
                                  else MONGOC_CMD_PARTS_ALLOW_TXN_NUMBER_NO) parts)
     else Ret parts) in
  let* parts :=
    (if _is_retryable_write parts server_stream then
       let* parts := _mongoc_cmd_parts_ensure_copied parts in
       let* parts := to_assembled (λ m, bson_append_int64 fresh m (c_lit "txnNumber") 9 0) parts in
       Ret (set_is_retryable_write true parts)
     else Ret parts) in
  Ret (if _is_retryable_read parts server_stream && negb is_get_more then set_is_retryable_read true parts else parts).

Definition add_cluster_time (parts : parts_t) (cluster_time : option bson_t) (server_stream : mongoc_server_stream_t) : res parts_t :=
  let* e := bson_empty (st_cluster_time server_stream) in
  let* time := (if e : bool then Ret cluster_time
                else _largest_cluster_time (Some (st_cluster_time server_stream)) cluster_time) in
  match time with
  | Some t =>
      if bool_decide (sd_type (st_sd server_stream) = MONGOC_SERVER_STANDALONE) then Ret parts
      else
        let* parts := _mongoc_cmd_parts_ensure_copied parts in
        to_assembled (λ m, bson_append_document fresh m (c_lit "$clusterTime") 12 t) parts
  | None => Ret parts
  end.

(** Without a session nothing makes sure that the body was copied before. *)
Definition add_read_concern (parts : parts_t) (session : option cs_t) (is_get_more : bool) : res parts_t :=
  if is_get_more then Ret parts
  else
    match session with
    | Some s =>
        let* m := _mongoc_client_session_append_read_concern fresh s (Some (pt_read_concern_document parts))
                    (pt_is_read_command parts) (pt_assembled_body parts) in
        Ret (set_assembled_body m parts)
    | None =>
        let* e := bson_empty (pt_read_concern_document parts) in
        if e : bool then Ret parts else to_assembled (append_read_concern (pt_read_concern_document parts)) parts
    end.

Definition add_txn (parts : parts_t) (session : option cs_t) : res parts_res :=
  let* parts := (if pt_is_txn_finish parts || negb (_mongoc_client_session_in_txn session)
                 then _mongoc_cmd_parts_add_write_concern parts else Ret parts) in
  let* r := _mongoc_client_session_append_txn fresh session (pt_assembled_body parts) in
  let '(ok, e, s, m) := r in
  let parts := set_assembled_body m parts in
  Ret (ok, e, match s with Some s => set_session (Some s) parts | None => parts end).

Section Assemble.
Context {W : Type} `{Starts W}.

Definition assemble_opmsg (parts : parts_t) (server_stream : mongoc_server_stream_t) (prefs : option mongoc_read_prefs_t)
    (is_get_more : bool) (w : W) : res (parts_res * W) :=
  let session := if pt_prohibit_lsid parts then None else pt_session parts in
  let standalone := bool_decide (sd_type (st_sd server_stream) = MONGOC_SERVER_STANDALONE) in
  let* x := opmsg_extra parts session standalone prefs in
  let '(ok, e, parts) := x in
  if negb ok then Ret (false, e, parts, w)
  else
    let* parts := copied_extra parts in
    let '(session, parts, w) :=
      match session with
      | None =>
          if negb (pt_prohibit_lsid parts) && pt_is_acknowledged parts then
            let '(s, w) := start_session w in
            match s with
            | Some s => (Some s, set_has_temp_session true (set_session (Some s) parts), w)
            | None => (None, parts, w)
            end
          else (None, parts, w)
      | Some _ => (session, parts, w)
      end in
    match session with
    | Some s =>
        if negb (pt_is_acknowledged parts) then
          Ret (false, Some (command_error MONGOC_ERROR_COMMAND_INVALID_ARG
                              (cs "Cannot use client session with unacknowledged command")), parts, w)
        else
          let '(now, w) := session_clock w in
          let* l := add_lsid now parts s in
          let '(parts, time) := l in
          let session := pt_session parts in
          let* parts := add_retry parts session server_stream is_get_more in
          let* parts := add_cluster_time parts time server_stream in
          let* parts := add_read_concern parts session is_get_more in
          let* r := add_txn parts session in Ret (r, w)
    | None =>
        let* parts := add_retry parts None server_stream is_get_more in
        let* parts := add_cluster_time parts None server_stream in
        let* parts := add_read_concern parts None is_get_more in
        let* r := add_txn parts None in Ret (r, w)
    end.

Definition mongoc_cmd_parts_assemble (parts : parts_t) (server_stream : mongoc_server_stream_t) (w : W) : res (parts_res * W) :=
  let server_type := sd_type (st_sd server_stream) in
  if bool_decide (server_type = MONGOC_SERVER_UNKNOWN) then
    Ret (false, Some (command_error MONGOC_ERROR_COMMAND_INVALID_ARG
           (take 503 (cs "Cannot assemble command for invalidated server: " ++ e_message (sd_error (st_sd server_stream))))), parts, w)
  else
    let* _ := bson_assert (bool_decide (pt_command parts = NotAssembled)) in
    let* body := bson_get_data (pt_assembled_body parts) in
    let* e := bson_empty body in
    let* _ := bson_assert e in
    let parts := set_query_flags (pt_user_query_flags parts) (set_command TheBody parts) in
    let* name := _mongoc_get_command_name (pt_body parts) in
    let parts := set_command_name name parts in
    match name with
    | None => Ret (false, Some (command_error MONGOC_ERROR_COMMAND_INVALID_ARG (cs "Empty command document")), parts, w)
    | Some cmd_name =>
        let is_get_more := streq cmd_name (cs "getMore") in
        let parts := set_is_txn_finish (streq cmd_name (cs "commitTransaction") || streq cmd_name (cs "abortTransaction")) parts in
        let prefs := preference_for parts server_stream in
        if sd_max_wire_version (st_sd server_stream) >=? WIRE_VERSION_OP_MSG then assemble_opmsg parts server_stream prefs is_get_more w
        else if bool_decide (server_type = MONGOC_SERVER_MONGOS) then
          let* parts := _mongoc_cmd_parts_assemble_mongos parts in Ret (true, None, parts, w)
        else let* parts := _mongoc_cmd_parts_assemble_mongod parts server_stream in Ret (true, None, parts, w)
    end.
End Assemble.

(** the command that was assembled *)
Definition assembled_command (parts : parts_t) : res (option bson_t) :=
  match pt_command parts with
  | NotAssembled => Ret None
  | TheBody => Ret (Some (pt_body parts))
  | TheAssembledBody => let* d := bson_get_data (pt_assembled_body parts) in Ret (Some d)
  end.
(** the temporary session that [mongoc_cmd_parts_cleanup] destroys *)
Definition mongoc_cmd_parts_cleanup (parts : parts_t) : option cs_t :=
  if pt_has_temp_session parts then pt_session parts else None.
End Parts.
