(* ===== verification/CmdProps.v ===== *)
(** Assembled commands: the fields that a command gets for a server, in their order. *)
From Stdlib Require Import ZArith Lia List.
From stdpp Require Import prelude gmap strings.
From S2P Require Import Prelude BsonIter BsonIterSafe BsonFields BsonAppend BsonBuild BsonValue BsonCopy BsonParse HostList MongocSet BsonKeys MongocTypes BsonEntries Concerns ReadPrefs TxnOptions ServerDescription TopologyDescription TopologySafe ServerSession ClientSession SessionProps Rpc Buffer Cluster CmdParts.
#[local] Open Scope string_scope.
#[local] Open Scope list_scope.
#[local] Open Scope Z_scope.
#[local] Open Scope mongo_scope.

#[local] Notation cs_t := mongoc_client_session_t.
#[local] Notation parts_t := mongoc_cmd_parts_t.

(** ** Documents *)
Lemma body_ok_entries es : Forall entry_ok es → blen (body_bytes es) < 2 ^ 27 → body_ok (body_bytes es).
Proof.
  intros Hes Hl. split; [by apply body_bytes_ok|]. split; [|done]. destruct es as [|e es]; [done|].
  apply Forall_cons in Hes as [He _]. cbn. intros [= E]. by destruct (entry_type_nonzero e He).
Qed.
Lemma empty_doc_of es : Forall entry_ok es → bson_empty (doc_of es) = Ret (bool_decide (es = [])).
Proof. destruct es as [|e es]; [done|]. intros [He _]%Forall_cons. by rewrite doc_of_nonempty. Qed.
(** the document [es], of at most [n] bytes between its frame *)
Definition is_doc (n : Z) (d : bson_t) (es : list entry) : Prop :=
  d = doc_of es ∧ Forall entry_ok es ∧ blen (body_bytes es) ≤ n.

(** a document that ends a 32-bit frame: the entries [es], of at most [n] bytes *)
Lemma is_doc_field n k d es :
  is_doc n d es → n ≤ 2 ^ 28 → key_ok k → entry_ok (e_doc k (body_bytes es)) ∧ Entry k 0x03 d = e_doc k (body_bytes es).
Proof. intros (-> & Hes & Hl) Hn Hk. split; [apply e_doc_ok; [done|by apply body_bytes_ok|lia]|done]. Qed.
Lemma prefix_size a b n : blen (body_bytes (a ++ b)) ≤ n → blen (body_bytes a) ≤ n.
Proof. rewrite body_bytes_app, blen_app. pose proof (blen_nonneg (body_bytes b)). lia. Qed.
Lemma snoc_size a e n : blen (body_bytes (a ++ [e])) ≤ n → blen (body_bytes a) + blen (entry_bytes e) ≤ n.
Proof. rewrite body_bytes_app, body_bytes_one, blen_app. lia. Qed.

Section Nested.
Variable fresh : Z → Z.
(** a sub-document: its beginning and its end *)
Lemma begin_step m es k :
  builds m (body_bytes es) [] → Forall (λ b, b ≠ 0) k → blen k ≤ 100 → blen (body_bytes es) ≤ 2 ^ 29 →
  ∃ m', bson_append_document_begin fresh m (c_mem k) (blen k) = Ret (true, m') ∧ builds m' [] [body_bytes es ++ 3 :: k ++ [0]].
Proof.
  intros Hm Hk Hkl Hs. pose proof (begin_builds fresh m _ [] (c_mem k) (blen k) k 0x03 Hm (literal_key k ltac:(lia) Hk)) as H.
  apply returns_Ret in H as ([ok m'] & E & H). exists m'. unfold bson_append_document_begin. rewrite E.
  destruct ok; [done|]. destruct H as [_ H]. unfold extent in H. cbn [front length] in H. rewrite blen_nil in H. lia.
Qed.
Lemma end_step m es k inner :
  builds m inner [body_bytes es ++ 3 :: k ++ [0]] →
  ∃ m', bson_append_document_end m = Ret m' ∧ builds m' (body_bytes (es ++ [e_doc k inner])) [].
Proof.
  intros Hm. pose proof (end_builds _ _ _ _ Hm) as H. apply returns_Ret in H as (m' & E & Hm'). exists m'.
  split; [exact E|]. rewrite body_bytes_app, body_bytes_one. unfold entry_bytes, field_bytes. cbn [e_doc e_key e_type e_value].
  rewrite <- app_assoc in Hm'. cbn [app] in Hm'. by rewrite <- app_assoc in Hm'.
Qed.
(** a C string up to its terminator *)
Lemma append_cstring m k s :
  Forall (λ b, b ≠ 0) s → blen s < 2 ^ 29 →
  bson_append_utf8 fresh m (c_mem k) (blen k) (Some (c_mem s)) (-1)
  = bson_append_utf8 fresh m (c_mem k) (blen k) (Some (c_mem s)) (blen s).
Proof.
  intros Hs Hl. pose proof (blen_nonneg s). unfold bson_append_utf8, append_string, string_length. cbn [Z.ltb Z.compare].
  assert (Hc : c_string (c_mem s) = Ret s) by by apply c_string_app. rewrite Hc.
  destruct (Z.ltb_spec (blen s) 0); [lia|]. cbn [bind].
  by rewrite s32_small by (unfold in_s32; lia).
Qed.

Lemma add_read_prefs_ok m es rp tags :
  builds m (body_bytes es) [] → blen (body_bytes es) ≤ 2 ^ 28 → builds (rp_tags rp) tags [] → body_ok tags →
  ∃ m', _mongoc_cmd_parts_add_read_prefs fresh m (Some rp) = Ret m'
    ∧ builds m' (body_bytes (es ++ [e_doc (cs "$readPreference") (read_preference_body rp tags)])) [].
Proof.
  intros Hm Hs Ht Hok. unfold _mongoc_cmd_parts_add_read_prefs, mongoc_read_prefs_get_tags. cbn [bind].
  rewrite (get_data_builds _ _ _ Ht). cbn [bind].
  destruct (begin_step m es (cs "$readPreference") Hm) as (m1 & E1 & Hm1); [by repeat constructor|by vm_compute|lia|].
  change (bson_append_document_begin fresh m (c_lit "$readPreference") 15 = Ret (true, m1)) in E1. rewrite E1. cbn [bind fst snd negb].
  destruct (read_preference_builds fresh rp tags Hok m1 [] _ Hm1) as (m2 & E2 & Hm2).
  { destruct Hok as (_ & _ & Hok). unfold extent. cbn [front length]. rewrite !blen_app, blen_le_bytes, blen_cons, blen_app.
    change (blen (cs "$readPreference")) with 15. rewrite blen_nil. change (blen [0]) with 1. lia. }
  cbn [bson_empty0]. rewrite bson_empty_body by done. unfold mongoc_read_prefs_get_mode, mongoc_read_prefs_get_max_staleness_seconds.
  revert E2. destruct (bson_append_utf8 _ _ _ _ _ _) as [r|]; [|done]. cbn [bind deref].
  destruct (if bool_decide (tags = []) then _ else _) as [m3|]; [|done]. cbn [bind]. intros E2. rewrite E2. cbn [bind].
  by apply end_step.
Qed.
End Nested.

(** ** The read concern of a session *)
Definition e_timestamp (k : list Z) (t inc : Z) : entry := Entry k 0x11 (le_bytes 8 (Z.lor (u64 (Z.shiftl t 32)) inc)).
Definition has_key_of (k : list Z) (es : list entry) : bool := existsb (λ e, bool_decide (e_key e = k)) es.
Definition txn_level (s : cs_t) : option (list Z) :=
  match cs_txn_state s with
  | MONGOC_INTERNAL_TRANSACTION_STARTING => match to_read_concern (cs_txn_opts s) with Some r => rc_level r | None => None end
  | _ => None
  end.
Definition starts_txn (s : cs_t) : bool := bool_decide (cs_txn_state s = MONGOC_INTERNAL_TRANSACTION_STARTING).
(** causally consistent reads ask for the time of the last operation *)
Definition asks_time (s : cs_t) (is_read : bool) : bool :=
  (starts_txn s || is_read) && mongoc_session_opts_get_causal_consistency (cs_opts s) && negb (cs_operation_timestamp s =? 0).
(** [rc]: the fields of the read concern of the command; its level, else that of the transaction *)
Definition level_fields (s : cs_t) (rc : list entry) : list entry :=
  match txn_level s with
  | Some level => if has_key_of (cs "level") rc then [] else [e_utf8 (cs "level") level]
  | None => []
  end.
Definition concern_body (s : cs_t) (rc : list entry) (is_read : bool) : list entry :=
  rc ++ level_fields s rc
  ++ (if asks_time s is_read
      then [e_timestamp (cs "afterClusterTime") (cs_operation_timestamp s) (cs_operation_increment s)] else []).
Definition concern_fields (s : cs_t) (rc : list entry) (is_read : bool) : list entry :=
  if bool_decide (cs_txn_state s = MONGOC_INTERNAL_TRANSACTION_IN_PROGRESS) then []
  else if asks_time s is_read || has_key_of (cs "level") rc || bool_decide (is_Some (txn_level s))
  then [e_doc (cs "readConcern") (body_bytes (concern_body s rc is_read))] else [].
Definition level_ok (s : cs_t) : Prop :=
  match txn_level s with Some l => bytes_ok l ∧ Forall (λ b, b ≠ 0) l ∧ blen l ≤ 2 ^ 20 | None => True end.

Lemma has_field_entries es k :
  Forall entry_ok es → 5 + blen (body_bytes es) ≤ INT_MAX → Forall (λ b, b ≠ 0) k → BsonIter.strchr k 46 = None →
  bson_has_field (doc_of es) k = Ret (has_key_of k es).
Proof.
  intros Hes Hl Hk Hdot. unfold bson_has_field. rewrite Hdot. destruct (init_find_entry es k Hes Hl Hk) as (f & Hf).
  change (k ++ [0]) with (c_mem k). fold (doc_of es) in Hf. unfold has_key_of.
  destruct (List.find (λ e, bool_decide (e_key e = k)) es) as [e|] eqn:E.
  - destruct Hf as [Hf _]. rewrite Hf. cbn. apply List.find_some in E as [Hin He]. f_equal. symmetry. apply existsb_exists. by exists e.
  - rewrite Hf. cbn. f_equal. symmetry. apply not_true_iff_false. intros (e & Hin & He)%existsb_exists.
    pose proof (List.find_none _ _ E e Hin). congruence.
Qed.

Lemma extent_sub body o : extent body [o] = 10 + blen body + blen o.
Proof. unfold extent. cbn [front length]. rewrite !blen_app, blen_le_bytes, blen_nil. lia. Qed.
Lemma default_level r :
  mongoc_read_concern_is_default r = negb (bool_decide (is_Some (match r with Some r => rc_level r | None => None end))).
Proof. by destruct r as [[[l|] ? ?]|]. Qed.

Section Steps.
Variable fresh : Z → Z.

Lemma append_read_concern_ok s rc es m is_read :
  builds m (body_bytes es) [] → Forall entry_ok rc → blen (body_bytes rc) ≤ 2 ^ 26 → level_ok s → blen (body_bytes es) ≤ 2 ^ 27 →
  ∃ m', _mongoc_client_session_append_read_concern fresh s (Some (doc_of rc)) is_read m = Ret m'
    ∧ builds m' (body_bytes (es ++ concern_fields s rc is_read)) [].
Proof.
  intros Hm Hrc Hrl Hlev Hs. unfold _mongoc_client_session_append_read_concern, concern_fields.
  destruct (bool_decide_reflect (cs_txn_state s = MONGOC_INTERNAL_TRANSACTION_IN_PROGRESS)) as [_|Hst]; [exists m; by rewrite app_nil_r|].
  fold (starts_txn s). fold (asks_time s is_read).
  rewrite (has_field_entries rc (cs "level") Hrc ltac:(unfold INT_MAX; lia) ltac:(by repeat constructor) eq_refl). cbn [bind].
  set (tl := starts_txn s && negb (mongoc_read_concern_is_default (to_read_concern (cs_txn_opts s)))).
  assert (Htl : tl = bool_decide (is_Some (txn_level s))).
  { unfold tl, starts_txn, txn_level. rewrite default_level, negb_involutive. by destruct (cs_txn_state s). }
  assert (Htl' : starts_txn s && tl = tl) by (unfold tl; by destruct (starts_txn s)).
  rewrite <- Htl. rewrite <- orb_assoc.
  destruct (asks_time s is_read || (has_key_of (cs "level") rc || tl)) eqn:Ego.
  2: { apply orb_false_iff in Ego as [-> ->]. cbn [negb andb]. exists m. by rewrite app_nil_r. }
  assert (negb (asks_time s is_read) && negb (has_key_of (cs "level") rc || tl) = false) as ->
    by (rewrite <- negb_orb, Ego; done).
  destruct (begin_step fresh m es (cs "readConcern") Hm) as (m1 & E1 & Hm1); [by repeat constructor|by vm_compute|lia|].
  change (bson_append_document_begin fresh m (c_lit "readConcern") 11 = Ret (true, m1)) in E1. rewrite E1. cbn [bind fst snd negb].
  set (o := body_bytes es ++ 3 :: cs "readConcern" ++ [0]) in *.
  assert (Ho : blen o ≤ 2 ^ 27 + 100).
  { unfold o. rewrite blen_app, blen_cons, blen_app. change (blen (cs "readConcern")) with 11. change (blen [0]) with 1. lia. }
  pose proof (concat_builds fresh m1 [] [o] _ Hm1 (body_ok_entries rc Hrc ltac:(lia))) as Hc.
  apply appends_fits in Hc as (m2 & E2 & Hm2); [|rewrite extent_sub, blen_nil; lia]. cbn [app] in Hm2.
  fold (doc_of rc) in E2. rewrite E2. cbn [bind snd]. rewrite Htl'.
  assert (Hl : ∃ m3, (if tl && negb (has_key_of (cs "level") rc) then
      let* txn_rc := deref (to_read_concern (cs_txn_opts s)) in
      let* level := deref (rc_level txn_rc) in
      let* r := bson_append_utf8 fresh m2 (c_lit "level") 5 (Some (c_mem level)) (-1) in Ret r.2
    else Ret m2) = Ret m3 ∧ builds m3 (body_bytes (rc ++ level_fields s rc)) [o]
    ∧ blen (body_bytes (rc ++ level_fields s rc)) ≤ 2 ^ 27).
  { rewrite Htl. clear -Hm2 Hlev Hrl Ho. unfold level_fields, level_ok in *. destruct (txn_level s) as [l|] eqn:El.
    2: { exists m2. cbn. rewrite app_nil_r. split; [done|]. split; [done|lia]. }
    destruct (has_key_of (cs "level") rc); [exists m2; cbn; rewrite app_nil_r; split; [done|]; split; [done|lia]|].
    rewrite bool_decide_true by done. cbn [negb andb]. unfold txn_level in El.
    destruct (cs_txn_state s); try discriminate El. destruct (to_read_concern (cs_txn_opts s)) as [r|]; [|discriminate El].
    cbn [deref bind]. rewrite El. cbn [deref bind]. destruct Hlev as (_ & Hnz & Hll).
    assert (He : blen (entry_bytes (e_utf8 (cs "level") l)) = 12 + blen l).
    { rewrite blen_entry. cbn [e_utf8 e_key e_value]. rewrite !blen_app, blen_le_bytes. change (blen (cs "level")) with 5.
      change (blen [0]) with 1. lia. }
    pose proof (append_utf8_entry fresh m2 _ [o] (cs "level") Hm2 ltac:(by repeat constructor) eq_refl l ltac:(lia)) as Ha.
    rewrite <- append_cstring in Ha by (done || lia).
    apply appends_fits in Ha as (m3 & E3 & Hm3); [|rewrite extent_sub, He; lia].
    change (bson_append_utf8 fresh m2 (c_lit "level") 5 (Some (c_mem l)) (-1) = Ret (true, m3)) in E3. rewrite E3. cbn [bind snd].
    exists m3. split; [done|]. rewrite body_bytes_app, body_bytes_one, blen_app, He. split; [done|lia]. }
  destruct Hl as (m3 & E3 & Hm3 & Hl3). rewrite E3. cbn [bind]. unfold concern_body. rewrite app_assoc.
  destruct (asks_time s is_read).
  2: { cbn [bind]. rewrite app_nil_r. by apply end_step. }
  pose proof (append_one fresh m3 _ [o] (c_lit "afterClusterTime") 16 _ Hm3
    (literal_key (cs "afterClusterTime") eq_refl ltac:(by repeat constructor)) 0x11 8
    (le_bytes 8 (Z.lor (u64 (Z.shiftl (cs_operation_timestamp s) 32)) (cs_operation_increment s))) eq_refl eq_refl) as Ha.
  apply appends_fits in Ha as (m4 & E4 & Hm4).
  2: { rewrite extent_sub. unfold field_bytes. rewrite blen_cons, blen_app, blen_cons, blen_le_bytes.
       change (blen (cs "afterClusterTime")) with 16. lia. }
  unfold bson_append_timestamp. rewrite E4. cbn [bind snd]. apply end_step. by rewrite body_bytes_app, body_bytes_one.
Qed.
End Steps.

(** ** A command under assembly *)

(** the command was copied; it has the entries [es] *)
Definition copied (p : parts_t) (es : list entry) : Prop :=
  pt_command p = TheAssembledBody ∧ builds (pt_assembled_body p) (body_bytes es) [] ∧ Forall entry_ok es.
(** the command is still the body [b]; [xs] wait to be added *)
Definition waiting (p : parts_t) (b xs : list entry) : Prop :=
  pt_command p = TheBody ∧ pt_body p = doc_of b ∧ builds (pt_assembled_body p) [] [] ∧ builds (pt_extra p) (body_bytes xs) []
  ∧ Forall entry_ok (b ++ xs).

Lemma copied_put m p es : builds m (body_bytes es) [] → Forall entry_ok es → pt_command p = TheAssembledBody → copied (set_assembled_body m p) es.
Proof. by intros Hm Hes Hc. Qed.

Section Pieces.
Variable fresh : Z → Z.
Implicit Types (p : parts_t) (es b xs : list entry).

Lemma ensure_copied_id p es : copied p es → _mongoc_cmd_parts_ensure_copied fresh p = Ret p.
Proof. intros (Hc & _). unfold _mongoc_cmd_parts_ensure_copied. by rewrite bool_decide_false by congruence. Qed.
Lemma ensure_copied_ok p b xs :
  waiting p b xs → blen (body_bytes (b ++ xs)) < 2 ^ 27 →
  ∃ m, _mongoc_cmd_parts_ensure_copied fresh p = Ret (set_command TheAssembledBody (set_assembled_body m p))
    ∧ copied (set_command TheAssembledBody (set_assembled_body m p)) (b ++ xs).
Proof.
  intros (Hc & Hb & Hm & Hx & Hok) Hl. pose proof Hok as [Hbok Hxok]%Forall_app. rewrite body_bytes_app, blen_app in Hl.
  pose proof (blen_nonneg (body_bytes b)). pose proof (blen_nonneg (body_bytes xs)).
  unfold _mongoc_cmd_parts_ensure_copied. rewrite bool_decide_true by done. rewrite Hb.
  pose proof (concat_builds fresh (pt_assembled_body p) [] [] (body_bytes b) Hm (body_ok_entries b Hbok ltac:(lia))) as H1.
  apply appends_fits in H1 as (m1 & H1 & Hm1).
  2: { unfold extent. cbn [front length]. rewrite !blen_nil. lia. }
  unfold doc_of. rewrite H1. cbn [bind snd]. rewrite (get_data_builds _ _ _ Hx). cbn [bind app] in *.
  pose proof (concat_builds fresh m1 (body_bytes b) [] (body_bytes xs) Hm1 (body_ok_entries xs Hxok ltac:(lia))) as H2.
  apply appends_fits in H2 as (m2 & H2 & Hm2).
  2: { unfold extent. cbn [front length]. rewrite !blen_nil. lia. }
  rewrite H2. cbn [bind snd]. exists m2. split; [done|]. split; [done|]. split; [|done]. by rewrite body_bytes_app.
Qed.

(** an append to the assembled body *)
Lemma to_assembled_ok p es append e :
  copied p es → entry_ok e → blen (body_bytes (es ++ [e])) ≤ 2 ^ 27 →
  appends (append (pt_assembled_body p)) (pt_assembled_body p) (body_bytes es) [] (entry_bytes e) →
  ∃ m, to_assembled append p = Ret (set_assembled_body m p) ∧ copied (set_assembled_body m p) (es ++ [e]).
Proof.
  intros (Hc & Hm & Hes) He Hs%snoc_size Ha.
  destruct (append_step _ _ _ _ Hm Ha ltac:(lia)) as (m' & E & Hm'). unfold to_assembled. rewrite E. cbn [bind snd].
  exists m'. split; [done|]. apply copied_put; [done| |done]. apply Forall_app. split; [done|]. by apply Forall_singleton.
Qed.
(** a document of the program, appended under a name of the program *)
Lemma append_field_ok p es k d ds :
  copied p es → is_doc (2 ^ 26) d ds → key_ok k → blen k ≤ 100 → blen (body_bytes (es ++ [e_doc k (body_bytes ds)])) ≤ 2 ^ 27 →
  ∃ m, to_assembled (λ m, bson_append_document fresh m (c_mem k) (blen k) d) p = Ret (set_assembled_body m p)
    ∧ copied (set_assembled_body m p) (es ++ [e_doc k (body_bytes ds)]).
Proof.
  intros Hp Hd Hk Hkl Hs. destruct (is_doc_field _ k d ds Hd ltac:(lia) Hk) as [He _]. apply to_assembled_ok; [done|done|done|].
  destruct Hd as (-> & Hok & Hl). apply append_document_entry; [apply Hp|apply Hk|lia|].
  unfold doc_of. rewrite blen_doc_bytes. lia.
Qed.
End Pieces.

(** ** The fields of a command, in their order *)
Definition db_fields (b : list entry) (db : list Z) : list entry := if has_key_of (cs "$db") b then [] else [e_utf8 (cs "$db") db].
(** [tags]: the fields of the tag sets of the preference *)
Definition pref_fields (s : option cs_t) (standalone : bool) (prefs : option mongoc_read_prefs_t) (tags : list Z) : list entry :=
  if _mongoc_client_session_in_txn s || standalone then []
  else match prefs with
       | Some rp => if IS_PREF_PRIMARY prefs then [] else [e_doc (cs "$readPreference") (read_preference_body rp tags)]
       | None => []
       end.
Definition tags_of (prefs : option mongoc_read_prefs_t) (tags : list Z) : Prop :=
  match prefs with Some rp => builds (rp_tags rp) tags [] | None => True end.
(** a transaction reads from the primary *)
Definition reads_primary (s : option cs_t) (is_write : bool) : Prop :=
  match s with
  | Some s => _mongoc_client_session_in_txn (Some s) = true → is_write = false → IS_PREF_PRIMARY (to_read_prefs (cs_txn_opts s)) = true
  | None => True
  end.
Definition text_ok (s : list Z) : Prop := bytes_ok s ∧ Forall (λ b, b ≠ 0) s ∧ blen s ≤ 2 ^ 20.

Lemma read_preference_size rp tags : blen (read_preference_body rp tags) ≤ 100 + blen tags.
Proof.
  unfold read_preference_body, field_bytes. pose proof (blen_nonneg tags).
  assert (blen (_mongoc_read_mode_as_str (rp_mode rp)) ≤ 20) by (by destruct (rp_mode rp)).
  repeat destruct (decide _); repeat first [rewrite blen_app|rewrite blen_cons|rewrite blen_le_bytes|rewrite blen_doc_bytes|rewrite blen_nil];
    change (blen (cs "mode")) with 4; change (blen (cs "tags")) with 4; change (blen (cs "maxStalenessSeconds")) with 19; lia.
Qed.
Lemma read_preference_ok rp tags : bytes_ok tags → bytes_ok (read_preference_body rp tags).
Proof.
  intros Ht. assert (bytes_ok (_mongoc_read_mode_as_str (rp_mode rp))) by (destruct (rp_mode rp); by_check).
  assert (Hf : ∀ t k v, byte_ok t → bytes_ok k → bytes_ok v → bytes_ok (field_bytes t k v)).
  { intros t k v Hbt Hk Hv. unfold field_bytes. constructor; [done|]. apply bytes_ok_app. split; [done|]. by constructor. }
  unfold read_preference_body. rewrite !bytes_ok_app. split; [|split].
  - apply Hf; [done|by_check|]. rewrite !bytes_ok_app. split; [apply le_bytes_ok|]. split; [done|by_check].
  - destruct (decide _); [constructor|]. apply Hf; [done|by_check|by apply bytes_ok_doc].
  - destruct (decide _); [constructor|]. apply Hf; [done|by_check|apply le_bytes_ok].
Qed.

Section Extra.
Variable fresh : Z → Z.
Implicit Types (p : parts_t) (es b xs : list entry).

Lemma db_ok p b xs :
  waiting p b xs → text_ok (pt_db_name p) → blen (body_bytes b) ≤ 2 ^ 27 → blen (body_bytes (xs ++ db_fields b (pt_db_name p))) ≤ 2 ^ 27 →
  ∃ m, (let* has_db := bson_has_field (pt_body p) (cs "$db") in
        if has_db : bool then Ret p
        else let* r := BSON_APPEND_UTF8 fresh (pt_extra p) (cs "$db") (pt_db_name p) in Ret (set_extra r.2 p)) = Ret (set_extra m p)
    ∧ waiting (set_extra m p) b (xs ++ db_fields b (pt_db_name p)).
Proof.
  intros (Hc & Hb & Hm & Hx & Hok) (Hd & Hdz & Hdl) Hbl Hs. pose proof Hok as [Hbok Hxok]%Forall_app. rewrite Hb.
  rewrite (has_field_entries b (cs "$db") Hbok ltac:(unfold INT_MAX; lia) ltac:(by repeat constructor) eq_refl). cbn [bind].
  unfold db_fields in *. destruct (has_key_of (cs "$db") b).
  { exists (pt_extra p). rewrite app_nil_r. split; [by destruct p|done]. }
  unfold BSON_APPEND_UTF8. rewrite !s32_small by (unfold in_s32; change (blen (cs "$db")) with 3 || idtac; pose proof (blen_nonneg (pt_db_name p)); lia).
  destruct (append_step _ _ xs (e_utf8 (cs "$db") (pt_db_name p)) Hx
    (append_utf8_entry fresh _ _ [] (cs "$db") Hx ltac:(by repeat constructor) eq_refl (pt_db_name p) ltac:(lia))) as (m & E & Hm').
  { apply snoc_size in Hs. lia. }
  rewrite E. cbn [bind snd]. exists m. split; [done|]. split; [done|]. split; [done|]. split; [done|]. split; [done|].
  rewrite app_assoc. apply Forall_app. split; [done|]. apply Forall_singleton. apply e_utf8_ok; [by split; by_check|done|lia].
Qed.

Definition extra_fields p b (s : option cs_t) standalone prefs tags : list entry :=
  db_fields b (pt_db_name p) ++ pref_fields s standalone prefs tags.
Lemma opmsg_extra_ok p b xs s standalone prefs tags :
  waiting p b xs → text_ok (pt_db_name p) → blen (body_bytes b) ≤ 2 ^ 27 → tags_of prefs tags → body_ok tags →
  blen (body_bytes (xs ++ extra_fields p b s standalone prefs tags)) ≤ 2 ^ 26 → reads_primary s (pt_is_write_command p) →
  ∃ m, opmsg_extra fresh p s standalone prefs = Ret (true, None, set_extra m p)
    ∧ waiting (set_extra m p) b (xs ++ extra_fields p b s standalone prefs tags).
Proof.
  intros Hw Hdb Hb Ht Htok Hs Hp. unfold extra_fields in *. rewrite app_assoc in *.
  pose proof (prefix_size _ _ _ Hs) as Hs1. destruct (db_ok p b xs Hw Hdb Hb ltac:(lia)) as (m1 & E1 & Hw1).
  unfold opmsg_extra. destruct (bson_has_field (pt_body p) (cs "$db")) as [has|]; [|done]. cbn [bind] in *. rewrite E1. cbn [bind].
  set (p1 := set_extra m1 p) in *. set (xs1 := xs ++ db_fields b (pt_db_name p)) in *.
  assert (Hsame : ∃ m, Ret (true, @None bson_error_t, p1) = Ret (true, None, set_extra m p) ∧ waiting (set_extra m p) b (xs1 ++ []))
    by (exists m1; by rewrite app_nil_r).
  unfold pref_fields in *. change (pt_is_write_command p1) with (pt_is_write_command p).
  destruct (_mongoc_client_session_in_txn s) eqn:Ein.
  - destruct s as [s|]; [|done]. cbn [reads_primary orb] in *. specialize (Hp Ein).
    destruct (pt_is_write_command p); [by rewrite andb_false_r|]. by rewrite Hp.
  - cbn [orb] in *. destruct standalone; [by rewrite andb_false_r|]. destruct prefs as [rp|]; [|exact Hsame].
    destruct (IS_PREF_PRIMARY (Some rp)); [exact Hsame|]. cbn [negb andb]. cbn [tags_of] in Ht. pose proof Hw1 as (Hc & Hbd & Hm & Hx & Hok).
    destruct (add_read_prefs_ok fresh _ xs1 rp tags Hx ltac:(lia) Ht Htok) as (m2 & E2 & Hm2). rewrite E2. cbn [bind]. exists m2.
    split; [done|]. split; [done|]. split; [done|]. split; [done|]. split; [done|]. rewrite app_assoc. apply Forall_app. split; [done|].
    apply Forall_singleton. pose proof Htok as (Htb & _ & Htl). apply e_doc_ok; [by split; by_check|by apply read_preference_ok|].
    pose proof (read_preference_size rp tags). lia.
Qed.
Lemma copied_extra_ok p b xs :
  waiting p b xs → blen (body_bytes (b ++ xs)) < 2 ^ 27 →
  if decide (xs = []) then copied_extra fresh p = Ret p
  else ∃ m, copied_extra fresh p = Ret (set_command TheAssembledBody (set_assembled_body m p))
    ∧ copied (set_command TheAssembledBody (set_assembled_body m p)) (b ++ xs).
Proof.
  intros Hw Hl. pose proof Hw as (_ & _ & _ & Hx & Hok). apply Forall_app in Hok as [_ Hok]. unfold copied_extra, no_extra.
  rewrite (get_data_builds _ _ _ Hx). cbn [bind]. fold (doc_of xs). rewrite empty_doc_of by done. cbn [bind].
  destruct (decide (xs = [])) as [Hn|Hn]; [by rewrite bool_decide_true|]. rewrite bool_decide_false by done. by apply ensure_copied_ok.
Qed.
(** the command is copied, whether it was before *)
Lemma ensure_ready p b xs :
  waiting p b xs ∨ copied p (b ++ xs) → blen (body_bytes (b ++ xs)) < 2 ^ 27 →
  ∃ m, _mongoc_cmd_parts_ensure_copied fresh p = Ret (set_command TheAssembledBody (set_assembled_body m p))
    ∧ copied (set_command TheAssembledBody (set_assembled_body m p)) (b ++ xs).
Proof.
  intros [Hw|Hc] Hl; [by apply ensure_copied_ok|]. exists (pt_assembled_body p). rewrite (ensure_copied_id fresh p _ Hc).
  destruct Hc as (Hc & Hm & Hok). split; [destruct p; cbn in *; by subst|by split].
Qed.
End Extra.

(** what the command is allowed, and whether it may be sent again *)
Definition number_allowed (p : parts_t) (name : list Z) (st : mongoc_server_stream_t) : bool :=
  match pt_allow_txn_number p with
  | MONGOC_CMD_PARTS_ALLOW_TXN_NUMBER_YES => true
  | MONGOC_CMD_PARTS_ALLOW_TXN_NUMBER_NO => false
  | MONGOC_CMD_PARTS_ALLOW_TXN_NUMBER_UNKNOWN => pt_is_acknowledged p && strcaseeq name (cs "findandmodify")
  end.
Definition write_retries (p : parts_t) (name : list Z) (st : mongoc_server_stream_t) : bool :=
  bool_decide (is_Some (pt_session p)) && pt_is_write_command p && number_allowed p name st
  && (WIRE_VERSION_RETRY_WRITES <=? sd_max_wire_version (st_sd st)) && negb (bool_decide (sd_type (st_sd st) = MONGOC_SERVER_STANDALONE))
  && negb (_mongoc_client_session_in_txn (pt_session p)) && cc_retry_writes (pt_client p).
Definition read_retries (p : parts_t) (is_get_more : bool) (st : mongoc_server_stream_t) : bool :=
  _is_retryable_read p st && negb is_get_more.
Definition retry_fields p name st : list entry := if write_retries p name st then [e_int64 (cs "txnNumber") 0] else [].

(** only what the assembly itself changes *)
Definition retry_marks (p p' : parts_t) : Prop :=
  ∃ a w r, p' = set_is_retryable_read r (set_is_retryable_write w (set_allow_txn_number a p)).

(** the later cluster time is passed on; [ste], [ct]: those of the server and of the session *)
Definition time_of (es : list entry) : option (Z * Z) :=
  match _mongoc_parse_cluster_time (doc_of es) with Ret t => t | Stuck _ => None end.
Definition newer (a b : option (Z * Z)) : bool :=
  match a, b with Some n, Some o => (n.1 >? o.1) || ((n.1 =? o.1) && (n.2 >? o.2)) | _, _ => false end.
Definition gossiped (ste ct : list entry) : list entry :=
  if decide (ste = []) then ct else if decide (ct = []) then ste else if newer (time_of ste) (time_of ct) then ste else ct.
Definition time_fields (standalone : bool) (ste ct : list entry) : list entry :=
  if standalone || bool_decide (gossiped ste ct = []) then [] else [e_doc (cs "$clusterTime") (body_bytes (gossiped ste ct))].
Definition read_concern_fields (session : option cs_t) (rc : list entry) (is_read is_get_more : bool) : list entry :=
  if is_get_more then []
  else match session with
       | Some s => concern_fields s rc is_read
       | None => if decide (rc = []) then [] else [e_doc (cs "readConcern") (body_bytes rc)]
       end.
Definition write_concern_fields (session : option cs_t) (is_txn_finish : bool) (wc : list entry) : list entry :=
  if (is_txn_finish || negb (_mongoc_client_session_in_txn session)) && negb (bool_decide (wc = []))
  then [e_doc (cs "writeConcern") (body_bytes wc)] else [].

Section Later.
Variable fresh : Z → Z.
Implicit Types (p : parts_t) (es b xs : list entry).

Lemma tail_ok p q es st is_get_more w :
  (∃ m, retry_marks (set_assembled_body m p) q) → copied q es → pt_is_retryable_write q = w → pt_is_retryable_read q = false →
  ∃ p', Ret (if _is_retryable_read q st && negb is_get_more then set_is_retryable_read true q else q) = Ret p'
    ∧ (∃ m, retry_marks (set_assembled_body m p) p') ∧ copied p' es
    ∧ pt_is_retryable_write p' = w ∧ pt_is_retryable_read p' = read_retries p is_get_more st.
Proof.
  intros (m & a & w' & r & ->) Hq Hw Hr. unfold read_retries.
  change (_is_retryable_read _ st) with (_is_retryable_read p st) at 1. destruct (_is_retryable_read p st && negb is_get_more).
  - eexists. split; [done|]. split; [by exists m, a, w', true|]. by split.
  - eexists. split; [done|]. split; [by exists m, a, w', r|]. by split.
Qed.
Lemma number_ok p name st session :
  pt_command_name p = Some name → session = None ∨ session = pt_session p →
  ∃ a, (if negb (_mongoc_client_session_txn_in_progress session) && pt_is_write_command p
           && bool_decide (pt_allow_txn_number p = MONGOC_CMD_PARTS_ALLOW_TXN_NUMBER_UNKNOWN) then
          let* a := _allow_txn_number p st in
          Ret (set_allow_txn_number (if a : bool then MONGOC_CMD_PARTS_ALLOW_TXN_NUMBER_YES else MONGOC_CMD_PARTS_ALLOW_TXN_NUMBER_NO) p)
        else Ret p) = Ret (set_allow_txn_number a p)
    ∧ _is_retryable_write (set_allow_txn_number a p) st = write_retries p name st.
Proof.
  intros Hname Hsess. assert (Hself : set_allow_txn_number (pt_allow_txn_number p) p = p) by by destruct p.
  unfold _is_retryable_write, write_retries, number_allowed. rewrite Z.leb_antisym. change (pt_session (set_allow_txn_number _ p)) with (pt_session p).
  change (pt_is_write_command (set_allow_txn_number _ p)) with (pt_is_write_command p).
  destruct (pt_is_write_command p) eqn:Ew.
  2: { exists (pt_allow_txn_number p). rewrite Hself, !andb_false_r. by split. }
  destruct (_mongoc_client_session_txn_in_progress session) eqn:Ep.
  { exists (pt_allow_txn_number p). rewrite Hself. split; [done|].
    assert (Hin : _mongoc_client_session_in_txn (pt_session p) = true).
    { destruct Hsess as [->|<-]; [done|]. destruct session as [s|]; [|done]. cbn in Ep |- *. apply bool_decide_eq_true in Ep. by rewrite Ep. }
    by rewrite Hin, !andb_false_r. }
  destruct (pt_allow_txn_number p) eqn:Ea; rewrite ?Ea in Hself.
  - unfold _allow_txn_number. rewrite Ea, Ew, Hname. cbn [bool_decide_eq_true negb andb bson_assert bind deref].
    exists (if negb (sd_max_wire_version (st_sd st) <? WIRE_VERSION_RETRY_WRITES)
               && (pt_is_acknowledged p && strcaseeq name (cs "findandmodify"))
            then MONGOC_CMD_PARTS_ALLOW_TXN_NUMBER_YES else MONGOC_CMD_PARTS_ALLOW_TXN_NUMBER_NO).
    change (pt_allow_txn_number (set_allow_txn_number ?x p)) with x.
    destruct (_ <? _); [by rewrite !andb_false_r|]. destruct (pt_is_acknowledged p); [|by split].
    by destruct (strcaseeq name (cs "findandmodify")); split.
  - exists MONGOC_CMD_PARTS_ALLOW_TXN_NUMBER_YES. rewrite Hself, Ea. by split.
  - exists MONGOC_CMD_PARTS_ALLOW_TXN_NUMBER_NO. rewrite Hself, Ea. by split.
Qed.
Lemma add_retry_ok p es name st session is_get_more :
  copied p es → pt_command_name p = Some name → session = None ∨ session = pt_session p →
  pt_is_retryable_write p = false → pt_is_retryable_read p = false →
  blen (body_bytes (es ++ retry_fields p name st)) ≤ 2 ^ 27 →
  ∃ p', add_retry fresh p session st is_get_more = Ret p' ∧ (∃ m, retry_marks (set_assembled_body m p) p')
    ∧ copied p' (es ++ retry_fields p name st)
    ∧ pt_is_retryable_write p' = write_retries p name st ∧ pt_is_retryable_read p' = read_retries p is_get_more st.
Proof.
  intros Hp Hname Hsess Hw Hr Hs. unfold add_retry.
  destruct (number_ok p name st session Hname Hsess) as (a & E & Hret).
 rewrite E. cbn [bind]. rewrite Hret. unfold retry_fields in *.
  destruct (write_retries p name st) eqn:Ewr.
  - rewrite (ensure_copied_id fresh (set_allow_txn_number a p) es) by by apply Hp. cbn [bind].
    destruct (to_assembled_ok (set_allow_txn_number a p) es (λ m, bson_append_int64 fresh m (c_lit "txnNumber") 9 0)
      (e_int64 (cs "txnNumber") 0) Hp (e_int64_ok (cs "txnNumber") 0 ltac:(by split; by_check)) Hs) as (m & Em & Hm).
    { apply append_int64_entry; [apply Hp|by repeat constructor|done]. }
    rewrite Em. cbn [bind]. apply (tail_ok _ (set_is_retryable_write true (set_assembled_body m (set_allow_txn_number a p)))); try done.
    by exists m, a, true, (pt_is_retryable_read p).
  - cbn [bind]. rewrite app_nil_r. apply (tail_ok _ (set_allow_txn_number a p)); try done.
    exists (pt_assembled_body p), a, (pt_is_retryable_write p), (pt_is_retryable_read p). by destruct p.
Qed.

Lemma largest_ok ste ct :
  Forall entry_ok ste → Forall entry_ok ct → blen (body_bytes ste) ≤ 2 ^ 26 → blen (body_bytes ct) ≤ 2 ^ 26 → ste ≠ [] →
  _largest_cluster_time (Some (doc_of ste)) (if decide (ct = []) then None else Some (doc_of ct)) = Ret (Some (doc_of (gossiped ste ct))).
Proof.
  intros Hs Hc Hsl Hcl Hne. unfold gossiped. rewrite (decide_False (P := ste = [])) by done. destruct (decide (ct = [])) as [->|Hc']; [done|].
  destruct (cluster_time_greater_spec (doc_of ste) (doc_of ct) (doc_of_ok ste Hs ltac:(lia)) (doc_of_ok ct Hc ltac:(lia))) as (n & o & En & Eo & Eg).
  unfold _largest_cluster_time, time_of. rewrite En, Eo, Eg. cbn [bind]. fold (newer n o). by destruct (newer n o).
Qed.
Lemma add_cluster_time_ok p es st ste ct :
  copied p es → is_doc (2 ^ 26) (st_cluster_time st) ste → Forall entry_ok ct → blen (body_bytes ct) ≤ 2 ^ 26 →
  let standalone := bool_decide (sd_type (st_sd st) = MONGOC_SERVER_STANDALONE) in
  blen (body_bytes (es ++ time_fields standalone ste ct)) ≤ 2 ^ 27 →
  ∃ m, add_cluster_time fresh p (if decide (ct = []) then None else Some (doc_of ct)) st = Ret (set_assembled_body m p)
    ∧ copied (set_assembled_body m p) (es ++ time_fields standalone ste ct).
Proof.
  intros Hp (Hst & Hs & Hsl) Hct Hcl standalone Hsz. unfold add_cluster_time. rewrite Hst, empty_doc_of by done. cbn [bind].
  assert (Ht : (if bool_decide (ste = []) then Ret (if decide (ct = []) then None else Some (doc_of ct))
      else _largest_cluster_time (Some (doc_of ste)) (if decide (ct = []) then None else Some (doc_of ct)))
    = Ret (if decide (gossiped ste ct = []) then None else Some (doc_of (gossiped ste ct)))).
  { destruct (bool_decide_reflect (ste = [])) as [->|Hne]; [done|]. rewrite largest_ok by done. f_equal.
    rewrite (decide_False (P := gossiped ste ct = [])); [done|]. unfold gossiped. rewrite (decide_False (P := ste = [])) by done.
    destruct (decide (ct = [])); [done|]. by destruct (newer _ _). }
  rewrite Ht. cbn [bind]. unfold time_fields in *. fold standalone. set (g := gossiped ste ct) in *.
  assert (Hg : is_doc (2 ^ 26) (doc_of g) g).
  { split; [done|]. unfold g, gossiped. repeat case_match; by split. }
  assert (Hsame : ∃ m, Ret p = Ret (set_assembled_body m p) ∧ copied (set_assembled_body m p) (es ++ [])).
  { exists (pt_assembled_body p). rewrite app_nil_r. split; [by destruct p|exact Hp]. }
  destruct (decide (g = [])) as [Hn|Hn]; [by rewrite (bool_decide_true _ Hn), orb_true_r|]. rewrite (bool_decide_false _ Hn), orb_false_r in *.
  destruct standalone; [exact Hsame|]. rewrite (ensure_copied_id fresh p es Hp). cbn [bind].
  exact (append_field_ok fresh p es (cs "$clusterTime") (doc_of g) g Hp Hg ltac:(by split; by_check) ltac:(by vm_compute) Hsz).
Qed.

Lemma concern_body_ok s rc is_read : Forall entry_ok rc → level_ok s → Forall entry_ok (concern_body s rc is_read).
Proof.
  intros Hrc Hl. unfold concern_body. apply Forall_app. split; [done|]. apply Forall_app. split.
  - unfold level_fields, level_ok in *. destruct (txn_level s) as [l|]; [|constructor]. destruct (has_key_of _ _); [constructor|].
    apply Forall_singleton. destruct Hl as (Hb & Hz & Hl). apply e_utf8_ok; [by split; by_check|done|lia].
  - destruct (asks_time s is_read); [|constructor]. apply Forall_singleton.
    apply entry_ok_intro; [by_check|by split; by_check|apply le_bytes_ok|]. cbn. by rewrite ?blen_le_bytes, ?length_le_bytes.
Qed.
Lemma add_read_concern_ok p es session rc is_get_more :
  copied p es → is_doc (2 ^ 26) (pt_read_concern_document p) rc → match session with Some s => level_ok s | None => True end →
  blen (body_bytes (es ++ read_concern_fields session rc (pt_is_read_command p) is_get_more)) ≤ 2 ^ 27 →
  ∃ m, add_read_concern fresh p session is_get_more = Ret (set_assembled_body m p)
    ∧ copied (set_assembled_body m p) (es ++ read_concern_fields session rc (pt_is_read_command p) is_get_more).
Proof.
  intros Hp Hd Hlev Hsz. unfold add_read_concern, read_concern_fields in *.
  assert (Hsame : ∃ m, Ret p = Ret (set_assembled_body m p) ∧ copied (set_assembled_body m p) (es ++ [])).
  { exists (pt_assembled_body p). rewrite app_nil_r. split; [by destruct p|exact Hp]. }
  destruct is_get_more; [exact Hsame|]. pose proof Hd as (Hrd & Hrc & Hrl). destruct session as [s|].
  - pose proof Hp as (Hc & Hm & Hes). pose proof (prefix_size _ _ _ Hsz).
    destruct (append_read_concern_ok fresh s rc es _ (pt_is_read_command p) Hm Hrc Hrl Hlev ltac:(lia)) as (m & E & Hm').
    rewrite Hrd, E. cbn [bind]. exists m. split; [done|]. apply copied_put; [done| |done]. apply Forall_app. split; [done|].
    pose proof (concern_body_ok s rc (pt_is_read_command p) Hrc Hlev) as Hok. unfold concern_fields in *.
    destruct (bool_decide _); [constructor|]. destruct (_ || _); [|constructor]. apply Forall_singleton.
    apply e_doc_ok; [by split; by_check|by apply body_bytes_ok|]. apply snoc_size in Hsz. rewrite blen_entry in Hsz.
    cbn [e_doc e_key e_value] in Hsz. rewrite blen_doc_bytes in Hsz. pose proof (blen_nonneg (body_bytes es)).
    pose proof (blen_nonneg (cs "readConcern")). lia.
  - rewrite Hrd, empty_doc_of by done. cbn [bind]. destruct (decide (rc = [])) as [->|Hn]; [exact Hsame|].
    rewrite (bool_decide_false _ Hn).
    exact (append_field_ok fresh p es (cs "readConcern") (doc_of rc) rc Hp ltac:(by split) ltac:(by split; by_check) ltac:(by vm_compute) Hsz).
Qed.
End Later.

Definition session_fields (session : option cs_t) (name : list Z) : list entry :=
  match session with Some s => added_fields s name | None => [] end.
Definition with_session (session : option cs_t) (name : list Z) (p : parts_t) : parts_t :=
  match session with Some s => set_session (Some (after_command s name)) p | None => p end.

Section Assembly.
Variable fresh : Z → Z.
Implicit Types (p : parts_t) (es b xs : list entry).

Lemma add_write_concern_ok p es wc :
  copied p es → is_doc (2 ^ 26) (pt_write_concern_document p) wc →
  let fields := if bool_decide (wc = []) then [] else [e_doc (cs "writeConcern") (body_bytes wc)] in
  blen (body_bytes (es ++ fields)) ≤ 2 ^ 27 →
  ∃ m, _mongoc_cmd_parts_add_write_concern fresh p = Ret (set_assembled_body m p) ∧ copied (set_assembled_body m p) (es ++ fields).
Proof.
  intros Hp Hd fields Hsz. pose proof Hd as (Hwd & Hwc & _). unfold _mongoc_cmd_parts_add_write_concern, fields in *.
  rewrite Hwd, empty_doc_of by done. cbn [bind]. destruct (bool_decide (wc = [])).
  - exists (pt_assembled_body p). rewrite app_nil_r. split; [by destruct p|exact Hp].
  - rewrite (ensure_copied_id fresh p es Hp). cbn [bind].
    exact (append_field_ok fresh p es (cs "writeConcern") _ wc Hp Hd ltac:(by split; by_check) ltac:(by vm_compute) Hsz).
Qed.
Lemma add_txn_ok p e es session wc :
  copied p (e :: es) → plain_name (e_key e) → is_doc (2 ^ 26) (pt_write_concern_document p) wc →
  let fields := write_concern_fields session (pt_is_txn_finish p) wc in
  blen (body_bytes ((e :: es) ++ fields)) ≤ 2 ^ 27 →
  ∃ m, add_txn fresh p session = Ret (true, None, with_session session (e_key e) (set_assembled_body m p))
    ∧ builds m (body_bytes ((e :: es) ++ fields ++ session_fields session (e_key e))) [].
Proof.
  intros Hp Hname Hd fields Hsz. unfold add_txn.
  assert (Hw : ∃ m, (if pt_is_txn_finish p || negb (_mongoc_client_session_in_txn session)
                     then _mongoc_cmd_parts_add_write_concern fresh p else Ret p) = Ret (set_assembled_body m p)
    ∧ copied (set_assembled_body m p) (e :: es ++ fields)).
  { unfold fields, write_concern_fields in *. destruct (_ || _); cbn [andb] in *.
    - destruct (add_write_concern_ok p (e :: es) wc Hp Hd) as (m & E & Hm); [by destruct (bool_decide (wc = []))|].
      exists m. split; [done|]. by destruct (bool_decide (wc = [])).
    - exists (pt_assembled_body p). rewrite app_nil_r. split; [by destruct p|exact Hp]. }
  destruct Hw as (m & E & Hc & Hm & Hok). rewrite E. cbn [bind]. cbn [set_assembled_body pt_assembled_body] in Hm |- *. rewrite app_assoc.
  destruct session as [s|]; cbn [session_fields with_session].
  - destruct (append_txn_ok fresh s m e (es ++ fields) Hm Hok Hsz Hname) as (m' & E' & Hm').
    change (pt_assembled_body (set_assembled_body m p)) with m. rewrite E'. cbn [bind]. by exists m'.
  - cbn [_mongoc_client_session_append_txn bind]. exists m. rewrite app_nil_r. by split.
Qed.

(** the fields after the id of the session; [session]: as it then is *)
Definition later_fields p name st session ste ct rc wc is_get_more is_txn_finish : list entry :=
  retry_fields p name st ++ time_fields (bool_decide (sd_type (st_sd st) = MONGOC_SERVER_STANDALONE)) ste ct
  ++ read_concern_fields session rc (pt_is_read_command p) is_get_more ++ write_concern_fields session is_txn_finish wc
  ++ session_fields session name.

Lemma later_ok p e es name st session ste ct rc wc is_get_more :
  copied p (e :: es) → plain_name (e_key e) → pt_command_name p = Some (e_key e) → e_key e = name →
  session = None ∨ session = pt_session p → pt_is_retryable_write p = false → pt_is_retryable_read p = false →
  is_doc (2 ^ 26) (st_cluster_time st) ste → Forall entry_ok ct → blen (body_bytes ct) ≤ 2 ^ 26 →
  is_doc (2 ^ 26) (pt_read_concern_document p) rc → is_doc (2 ^ 26) (pt_write_concern_document p) wc →
  match session with Some s => level_ok s | None => True end →
  blen (body_bytes ((e :: es) ++ later_fields p name st session ste ct rc wc is_get_more (pt_is_txn_finish p))) ≤ 2 ^ 27 →
  ∃ p', (let* parts := add_retry fresh p session st is_get_more in
         let* parts := add_cluster_time fresh parts (if decide (ct = []) then None else Some (doc_of ct)) st in
         let* parts := add_read_concern fresh parts session is_get_more in
         add_txn fresh parts session) = Ret (true, None, p')
    ∧ (∃ m q, retry_marks (set_assembled_body m p) q ∧ p' = with_session session name (set_assembled_body (pt_assembled_body p') q))
    ∧ builds (pt_assembled_body p') (body_bytes ((e :: es) ++ later_fields p name st session ste ct rc wc is_get_more (pt_is_txn_finish p))) []
    ∧ pt_is_retryable_write p' = write_retries p name st ∧ pt_is_retryable_read p' = read_retries p is_get_more st.
Proof.
  intros Hp Hname Hcn <- Hsess Hrw Hrr Hst Hct Hctl Hrc Hwc Hlev Hsz. unfold later_fields in *. rewrite !app_assoc in *.
  pose proof (prefix_size _ _ _ Hsz) as Hsz4. pose proof (prefix_size _ _ _ Hsz4) as Hsz3. pose proof (prefix_size _ _ _ Hsz3) as Hsz2.
  pose proof (prefix_size _ _ _ Hsz2) as Hsz1.
  destruct (add_retry_ok fresh p (e :: es) (e_key e) st session is_get_more Hp Hcn Hsess Hrw Hrr Hsz1) as (p1 & E1 & (m1 & Hk) & Hp1 & Hw1 & Hr1).
  rewrite E1. cbn [bind]. destruct Hk as (a & w & r & ->). set (q := set_is_retryable_read _ _) in *.
  destruct (add_cluster_time_ok fresh q _ st ste ct Hp1 Hst Hct Hctl Hsz2) as (m2 & E2 & Hp2). rewrite E2. cbn [bind].
  destruct (add_read_concern_ok fresh _ _ session rc is_get_more Hp2 Hrc Hlev Hsz3) as (m3 & E3 & Hp3). rewrite E3. cbn [bind].
  cbn [app] in Hp3. destruct (add_txn_ok _ e _ session wc Hp3 Hname Hwc Hsz4) as (m4 & E4 & Hm4). rewrite E4. eexists. split; [done|].
  assert (Hb : pt_assembled_body (with_session session (e_key e) (set_assembled_body m4 (set_assembled_body m3 (set_assembled_body m2 q)))) = m4)
    by by destruct session.
  rewrite Hb. split; [exists m1, q; split; [by exists a, w, r|by destruct session]|]. split; [|by destruct session].
  cbn [app] in Hm4 |- *. by rewrite !app_assoc in Hm4.
Qed.
End Assembly.

(** ** The whole assembly, for a server that speaks OP_MSG *)

(** the parts of a command with the fields [e :: b], before its assembly *)
Record parts_ready (p : parts_t) (st : mongoc_server_stream_t) (e : entry) (b xs rc wc ste : list entry) : Prop := {
  pr_body : pt_body p = doc_of (e :: b);
  pr_name : plain_name (e_key e);
  pr_command : pt_command p = NotAssembled;
  pr_assembled : builds (pt_assembled_body p) [] [];
  pr_extra : builds (pt_extra p) (body_bytes xs) [];
  pr_entries : Forall entry_ok ((e :: b) ++ xs);
  pr_db : text_ok (pt_db_name p);
  pr_read_concern : is_doc (2 ^ 26) (pt_read_concern_document p) rc;
  pr_write_concern : is_doc (2 ^ 26) (pt_write_concern_document p) wc;
  pr_time : is_doc (2 ^ 26) (st_cluster_time st) ste;
  pr_marks : pt_is_retryable_write p = false ∧ pt_is_retryable_read p = false
}.
(** the session of the command, with the fields of its id and of its cluster time *)
Record session_ready (s : cs_t) (ls ct : list entry) : Prop := {
  sr_lsid : is_doc (2 ^ 26) (ss_lsid (cs_server_session s)) ls;
  sr_time : is_doc (2 ^ 26) (cs_cluster_time s) ct;
  sr_level : level_ok s
}.
Definition used_now (now : Z) (s : cs_t) : cs_t :=
  let ss := cs_server_session s in set_server_session (ServerSession now (ss_lsid ss) (ss_txn_number ss) (ss_dirty ss)) s.

Lemma add_lsid_ok fresh now p b fs s ls ct :
  waiting p b fs ∨ copied p (b ++ fs) → blen (body_bytes (b ++ fs)) < 2 ^ 27 → session_ready s ls ct →
  blen (body_bytes ((b ++ fs) ++ [e_doc (cs "lsid") (body_bytes ls)])) ≤ 2 ^ 27 →
  ∃ m, let p' := set_session (Some (used_now now s)) (set_command TheAssembledBody (set_assembled_body m p)) in
    add_lsid fresh now p s = Ret (p', if decide (ct = []) then None else Some (doc_of ct))
    ∧ copied p' ((b ++ fs) ++ [e_doc (cs "lsid") (body_bytes ls)]).
Proof.
  intros Hr Hl [Hls (Hct & Hcok & Hcl) Hlev] Hsz. destruct (ensure_ready fresh p b fs Hr Hl) as (m4 & E4 & Hc4).
  unfold add_lsid. rewrite E4. cbn [bind]. set (p4 := set_command TheAssembledBody (set_assembled_body m4 p)) in *.
  destruct (append_field_ok fresh p4 _ (cs "lsid") _ ls Hc4 Hls ltac:(by split; by_check) ltac:(by vm_compute) Hsz) as (m5 & E5 & Hc5).
  change (c_mem (cs "lsid")) with (c_lit "lsid") in E5. change (blen (cs "lsid")) with 4 in E5. rewrite E5. cbn [bind].
  fold (used_now now s). unfold mongoc_client_session_get_cluster_time. exists m5. split; [|exact Hc5].
  change (cs_cluster_time (used_now now s)) with (cs_cluster_time s). rewrite Hct, empty_doc_of by done. cbn [bind]. do 2 f_equal.
  by destruct (decide (ct = [])) as [Hn|Hn]; [rewrite (bool_decide_true _ Hn)|rewrite (bool_decide_false _ Hn)].
Qed.
Lemma same_session p : p = set_has_temp_session (pt_has_temp_session p) (set_session (pt_session p) p).
Proof. by destruct p. Qed.

Section Whole.
Context {W : Type} `{Starts W}.
Variable fresh : Z → Z.

(** an explicit session, else a new one when that is allowed *)
Definition explicit_session (p : parts_t) : option cs_t := if pt_prohibit_lsid p then None else pt_session p.
Definition session_of (p : parts_t) (w : W) : option cs_t * W :=
  match explicit_session p with
  | Some s => (Some s, w)
  | None => if negb (pt_prohibit_lsid p) && pt_is_acknowledged p then start_session w else (None, w)
  end.
Definition is_get_more (e : entry) : bool := streq (e_key e) (cs "getMore").
Definition is_txn_end (e : entry) : bool := streq (e_key e) (cs "commitTransaction") || streq (e_key e) (cs "abortTransaction").
(** all the fields after those of the body and [xs]; [s]: the session as it is used *)
Definition first_fields (p : parts_t) (st : mongoc_server_stream_t) (e : entry) (b : list entry) (tags : list Z) : list entry :=
  extra_fields p (e :: b) (explicit_session p) (bool_decide (sd_type (st_sd st) = MONGOC_SERVER_STANDALONE)) (preference_for fresh p st) tags.
Definition session_command_fields (p : parts_t) (st : mongoc_server_stream_t) (e : entry) (b : list entry) (tags : list Z)
    (s : cs_t) (ls ct rc wc ste : list entry) : list entry :=
  first_fields p st e b tags ++ [e_doc (cs "lsid") (body_bytes ls)]
  ++ later_fields (set_session (Some s) p) (e_key e) st (Some s) ste ct rc wc (is_get_more e) (is_txn_end e).

Lemma assemble_start p st w e b xs rc wc ste :
  parts_ready p st e b xs rc wc ste → blen (body_bytes (e :: b)) ≤ 2 ^ 27 →
  sd_type (st_sd st) ≠ MONGOC_SERVER_UNKNOWN → WIRE_VERSION_OP_MSG ≤ sd_max_wire_version (st_sd st) →
  let p1 := set_is_txn_finish (is_txn_end e) (set_command_name (Some (e_key e)) (set_query_flags (pt_user_query_flags p) (set_command TheBody p))) in
  mongoc_cmd_parts_assemble fresh p st w = assemble_opmsg fresh p1 st (preference_for fresh p st) (is_get_more e) w
  ∧ waiting p1 (e :: b) xs.
Proof.
  intros Hp Hl Hst Hwire p1. destruct Hp. unfold mongoc_cmd_parts_assemble. rewrite bool_decide_false by done.
  rewrite bool_decide_true by done. cbn [bson_assert bind]. rewrite (get_data_builds _ _ _ pr_assembled0). cbn [bind].
  change (bson_empty (doc_bytes [])) with (Ret true). cbn [bson_assert bind].
  change (pt_body (set_query_flags _ _)) with (pt_body p). rewrite pr_body0. pose proof pr_entries0 as [Hb _]%Forall_app.
  rewrite command_name by (done || unfold INT_MAX; lia). cbn [bind].
  assert (sd_max_wire_version (st_sd st) >=? WIRE_VERSION_OP_MSG = true) as -> by (rewrite Z.geb_leb; by apply Z.leb_le).
  split; [done|]. split; [done|]. split; [exact pr_body0|]. by split; [|split].
Qed.

(** after "$db" and the read preference *)
Lemma extra_copied p e b xs tags s standalone prefs :
  waiting p (e :: b) xs → text_ok (pt_db_name p) → tags_of prefs tags → body_ok tags →
  blen (body_bytes (e :: b)) ≤ 2 ^ 26 → blen (body_bytes (xs ++ extra_fields p (e :: b) s standalone prefs tags)) ≤ 2 ^ 26 - 1 →
  reads_primary s (pt_is_write_command p) →
  ∃ x p1, opmsg_extra fresh p s standalone prefs = Ret (true, None, set_extra x p) ∧ copied_extra fresh (set_extra x p) = Ret p1
    ∧ (∃ c m, p1 = set_command c (set_assembled_body m (set_extra x p)))
    ∧ (let fs := xs ++ extra_fields p (e :: b) s standalone prefs tags in
       (waiting p1 (e :: b) fs ∧ fs = [] ∨ copied p1 ((e :: b) ++ fs)) ∧ blen (body_bytes ((e :: b) ++ fs)) < 2 ^ 27).
Proof using Type.
  intros Hw Hdb Ht Htok Hb Hs Hp.
  destruct (opmsg_extra_ok fresh p (e :: b) xs s standalone prefs tags Hw Hdb ltac:(lia) Ht Htok ltac:(lia) Hp) as (x & E & Hw1).
  set (fs := xs ++ _) in *. assert (Hl : blen (body_bytes ((e :: b) ++ fs)) < 2 ^ 27) by (rewrite body_bytes_app, blen_app; lia).
  pose proof (copied_extra_ok fresh _ _ fs Hw1 Hl) as Hc. exists x. destruct (decide (fs = [])) as [Hn|Hn].
  - exists (set_extra x p). split; [done|]. split; [done|]. split; [exists (pt_command p), (pt_assembled_body p); by destruct p|].
    split; [by left|done].
  - destruct Hc as (m & Ec & Hc). eexists. split; [done|]. split; [exact Ec|]. split; [by eexists _, _|]. split; [by right|done].
Qed.

Lemma choose_session p p2 w w1 s :
  session_of p w = (Some s, w1) → pt_is_acknowledged p = true → pt_session p2 = pt_session p → pt_has_temp_session p2 = pt_has_temp_session p →
  match explicit_session p with
  | Some _ => (explicit_session p, p2, w)
  | None => if negb (pt_prohibit_lsid p) && true then
              let '(s, w) := start_session w in
              match s with
              | Some s => (Some s, set_has_temp_session true (set_session (Some s) p2), w)
              | None => (None, p2, w)
              end
            else (None, p2, w)
  end = (Some s, set_has_temp_session (pt_has_temp_session p || negb (bool_decide (is_Some (explicit_session p)))) (set_session (Some s) p2), w1).
Proof using Type.
  intros Hsess Hack Hs Ht. revert Hsess. unfold session_of. rewrite Hack. destruct (explicit_session p) as [s'|] eqn:Ex.
  - intros [= -> ->]. rewrite orb_false_r. unfold explicit_session in Ex. destruct (pt_prohibit_lsid p); [done|].
    rewrite <- Ex, <- Hs, <- Ht. by rewrite <- same_session.
  - destruct (negb (pt_prohibit_lsid p) && true); [|intros [=]]. intros E. rewrite E. by rewrite orb_true_r.
Qed.

Lemma assemble_in_session p st w w1 w2 now e b xs rc wc ste tags s ls ct :
  parts_ready p st e b xs rc wc ste → session_ready s ls ct → tags_of (preference_for fresh p st) tags → body_ok tags →
  sd_type (st_sd st) ≠ MONGOC_SERVER_UNKNOWN → WIRE_VERSION_OP_MSG ≤ sd_max_wire_version (st_sd st) →
  reads_primary (explicit_session p) (pt_is_write_command p) → pt_is_acknowledged p = true →
  session_of p w = (Some s, w1) → session_clock w1 = (now, w2) →
  blen (body_bytes (e :: b)) ≤ 2 ^ 26 → blen (body_bytes (xs ++ first_fields p st e b tags)) ≤ 2 ^ 26 - 1 →
  let fields := xs ++ session_command_fields p st e b tags (used_now now s) ls ct rc wc ste in
  blen (body_bytes ((e :: b) ++ fields)) ≤ 2 ^ 27 →
  let p0 := set_session (Some (used_now now s)) p in
  ∃ p', mongoc_cmd_parts_assemble fresh p st w = Ret (true, None, p', w2)
    ∧ assembled_command p' = Ret (Some (doc_of ((e :: b) ++ fields)))
    ∧ pt_session p' = Some (after_command (used_now now s) (e_key e))
    ∧ pt_is_retryable_write p' = write_retries p0 (e_key e) st ∧ pt_is_retryable_read p' = read_retries p0 (is_get_more e) st
    ∧ pt_has_temp_session p' = pt_has_temp_session p || negb (bool_decide (is_Some (explicit_session p))).
Proof using Type.
  intros Hp Hsr Ht Htok Hst Hwire Hprim Hack Hsess Hclock Hb Hfirst fields Hsz p0.
  destruct (assemble_start p st w e b xs rc wc ste Hp ltac:(lia) Hst Hwire) as [E0 Hw0]. rewrite E0. clear E0. unfold assemble_opmsg.
  set (p1 := set_is_txn_finish _ _) in *. destruct Hp.
  change (if pt_prohibit_lsid p1 then None else pt_session p1) with (explicit_session p).
  destruct (extra_copied p1 e b xs tags (explicit_session p) (bool_decide (sd_type (st_sd st) = MONGOC_SERVER_STANDALONE))
    (preference_for fresh p st) Hw0 pr_db0 Ht Htok Hb Hfirst Hprim) as (x & p2 & E1 & E2 & (c & m & Hp2) & Hc & Hl).
  rewrite E1. cbn [bind negb]. rewrite E2. cbn [bind].
  set (F := first_fields p st e b tags) in *. change (extra_fields p1 _ _ _ _ _) with F in *. set (fs := xs ++ F) in *.
  assert (Hsame : pt_prohibit_lsid p2 = pt_prohibit_lsid p ∧ pt_is_acknowledged p2 = true) by by rewrite Hp2.
  destruct Hsame as [-> ->]. cbn [negb].
  set (r := match explicit_session p with Some _ => (explicit_session p, p2, w) | None => _ end).
  set (p3 := set_has_temp_session (pt_has_temp_session p || negb (bool_decide (is_Some (explicit_session p)))) (set_session (Some s) p2)).
  assert (Hr : r = (Some s, p3, w1)).
  { unfold r, p3. apply (choose_session p p2 w w1 s); [exact Hsess|exact Hack|by rewrite Hp2|by rewrite Hp2]. }
  rewrite Hr. clear Hr r. assert (pt_is_acknowledged p3 = true) as -> by (unfold p3; rewrite Hp2; exact Hack). cbn [negb]. rewrite Hclock.
  assert (Hr3 : waiting p3 (e :: b) fs ∨ copied p3 ((e :: b) ++ fs)) by (destruct Hc as [[? _]|?]; [by left|by right]).
  unfold fields, session_command_fields in Hsz. fold F in Hsz. rewrite (app_assoc xs) in Hsz. fold fs in Hsz. rewrite !app_assoc in Hsz.
  destruct (add_lsid_ok fresh now p3 (e :: b) fs s ls ct Hr3 Hl Hsr (prefix_size _ _ _ Hsz)) as (m5 & E5 & Hc5). rewrite E5. cbn [bind].
  set (p5 := set_session (Some (used_now now s)) (set_command TheAssembledBody (set_assembled_body m5 p3))) in *.
  change (pt_session p5) with (Some (used_now now s)). destruct Hsr as [Hls (_ & Hcok & Hcl) Hlev].
  assert (Hlf : later_fields p5 (e_key e) st (Some (used_now now s)) ste ct rc wc (is_get_more e) (pt_is_txn_finish p5)
    = later_fields p0 (e_key e) st (Some (used_now now s)) ste ct rc wc (is_get_more e) (is_txn_end e))
    by (unfold p5, p3, p0; by rewrite Hp2).
  destruct (later_ok fresh p5 e ((b ++ fs) ++ [e_doc (cs "lsid") (body_bytes ls)]) (e_key e) st (Some (used_now now s)) ste ct rc wc
    (is_get_more e)) as (p' & E6 & (m6 & q & (a & w' & r & ->) & Hq) & Hm6 & Hrw & Hrr); try done.
  { unfold p5, p3. by rewrite Hp2. }
  { by right. }
  { unfold p5, p3. rewrite Hp2. apply pr_marks0. }
  { unfold p5, p3. rewrite Hp2. apply pr_marks0. }
  { unfold p5, p3. by rewrite Hp2. }
  { unfold p5, p3. by rewrite Hp2. }
  { rewrite Hlf. cbn [app] in *. exact Hsz. }
  revert E6. destruct (add_retry _ _ _ _ _) as [q1|]; [|done]. cbn [bind]. destruct (add_cluster_time _ _ _ _) as [q2|]; [|done]. cbn [bind].
  destruct (add_read_concern _ _ _ _) as [q3|]; [|done]. cbn [bind]. intros E6. rewrite E6. cbn [bind]. exists p'. split; [done|].
  assert (Hcmd : pt_command p' = TheAssembledBody) by (rewrite Hq; reflexivity).
  split; [|split; [by rewrite Hq|split; [|split]]].
  - unfold assembled_command. rewrite Hcmd, (get_data_builds _ _ _ Hm6). cbn [bind]. rewrite Hlf. unfold fields, session_command_fields. fold F.
    rewrite (app_assoc xs). fold fs. cbn [app]. rewrite <- !app_assoc. reflexivity.
  - rewrite Hrw. unfold p5, p3, p0. by rewrite Hp2.
  - rewrite Hrr. unfold p5, p3, p0. by rewrite Hp2.
  - rewrite Hq. unfold p5, p3. by rewrite Hp2.
Qed.
End Whole.

(** * Properties *)

(** C16. A command that runs in a session -- its own, or one started for it -- is sent to
    a server that speaks OP_MSG with the fields of its body first, in their order, and
    then the options, the database, the read preference, the id of the session, the
    transaction number, the later of the two cluster times, the read concern, the write
    concern and the fields of the transaction: each one only when it applies, once, and
    with the bytes the caller gave. *)
Theorem command_in_session {W} `{Starts W} fresh p st (w w1 w2 : W) now e b xs rc wc ste tags s ls ct :
  parts_ready p st e b xs rc wc ste → session_ready s ls ct → tags_of (preference_for fresh p st) tags → body_ok tags →
  sd_type (st_sd st) ≠ MONGOC_SERVER_UNKNOWN → WIRE_VERSION_OP_MSG ≤ sd_max_wire_version (st_sd st) →
  reads_primary (explicit_session p) (pt_is_write_command p) → pt_is_acknowledged p = true →
  session_of p w = (Some s, w1) → session_clock w1 = (now, w2) →
  blen (body_bytes (e :: b)) ≤ 2 ^ 26 → blen (body_bytes (xs ++ first_fields fresh p st e b tags)) ≤ 2 ^ 26 - 1 →
  let fields := xs ++ session_command_fields fresh p st e b tags (used_now now s) ls ct rc wc ste in
  blen (body_bytes ((e :: b) ++ fields)) ≤ 2 ^ 27 →
  let p0 := set_session (Some (used_now now s)) p in
  ∃ p', mongoc_cmd_parts_assemble fresh p st w = Ret (true, None, p', w2)
    ∧ assembled_command p' = Ret (Some (doc_of ((e :: b) ++ fields)))
    ∧ pt_session p' = Some (after_command (used_now now s) (e_key e))
    ∧ pt_is_retryable_write p' = write_retries p0 (e_key e) st ∧ pt_is_retryable_read p' = read_retries p0 (is_get_more e) st
    ∧ pt_has_temp_session p' = pt_has_temp_session p || negb (bool_decide (is_Some (explicit_session p))).
Proof. exact (assemble_in_session fresh p st w w1 w2 now e b xs rc wc ste tags s ls ct). Qed.

(** the sessions that will be started, and a clock that stands *)
#[export] Instance scripted_sessions : Starts (list cs_t) := {
  start_session := λ w, match w with s :: w' => (Some s, w') | [] => (None, []) end;
  session_clock := λ w, (77, w)
}.
Definition sample_parts (name : string) : parts_t :=
  set_write_concern_document (doc_of [e_int32 (cs "w") 1])
    (Parts (cs "test") NotAssembled None 0 None true false 0 (doc_of [e_utf8 (cs name) (cs "c")]) bson_empty_doc bson_empty_doc
       (bson_init (λ _, 0)) None (bson_init (λ _, 0)) false true false MONGOC_CMD_PARTS_ALLOW_TXN_NUMBER_UNKNOWN false false false
       (CmdClient (mongoc_set_new 4) true true)).
Definition sample_time (t : Z) : list entry := [Entry (cs "clusterTime") 0x11 (le_bytes 4 1 ++ le_bytes 4 t)].
Definition sample_server : mongoc_server_stream_t :=
  ServerStream MONGOC_TOPOLOGY_RS_WITH_PRIMARY (set_type MONGOC_SERVER_RS_PRIMARY (set_max_wire 8 sd_zero)) (doc_of (sample_time 5)).
Definition sample_id : list entry := [e_int32 (cs "id") 9].
Definition fresh_session : cs_t :=
  set_cluster_time (doc_of (sample_time 3)) (set_txn_state MONGOC_INTERNAL_TRANSACTION_NONE
    (set_server_session (ServerSession SESSION_NEVER_USED (doc_of sample_id) 3 false) reply_session)).
Definition sample_command : list entry :=
  [e_utf8 (cs "findAndModify") (cs "c"); e_utf8 (cs "$db") (cs "test"); e_doc (cs "lsid") (body_bytes sample_id);
   e_int64 (cs "txnNumber") 0; e_doc (cs "$clusterTime") (body_bytes (sample_time 5));
   e_doc (cs "writeConcern") (body_bytes [e_int32 (cs "w") 1])].
Lemma sample_parts_ready name :
  entry_ok (e_utf8 (cs name) (cs "c")) → plain_name (cs name) →
  parts_ready (sample_parts name) sample_server (e_utf8 (cs name) (cs "c")) [] [] [] [e_int32 (cs "w") 1] (sample_time 5).
Proof.
  intros He Hn. assert (He2 : entry_ok (e_int32 (cs "w") 1)) by (apply e_int32_ok; split; by_check).
  assert (Ht : Forall entry_ok (sample_time 5)).
  { apply Forall_singleton. apply entry_ok_intro; [by_check|by split; by_check|by_check|by vm_compute]. }
  constructor.
  - done.
  - done.
  - done.
  - apply (init_builds (λ _, 0)).
  - apply (init_builds (λ _, 0)).
  - by apply Forall_singleton.
  - by split; [by_check|split; [by_check|vm_compute]].
  - split; [done|]. by split; [constructor|vm_compute].
  - split; [done|]. split; [by apply Forall_singleton|by vm_compute].
  - split; [done|]. split; [done|by vm_compute].
  - done.
Qed.
Lemma fresh_session_ready : session_ready fresh_session sample_id (sample_time 3).
Proof.
  constructor; [split; [done|split; [|by vm_compute]]|split; [done|split; [|by vm_compute]]|done]; apply Forall_singleton.
  - apply e_int32_ok; split; by_check.
  - apply entry_ok_intro; [by_check|by split; by_check|by_check|by vm_compute].
Qed.
Lemma command_in_session_witness :
  ∃ p', mongoc_cmd_parts_assemble (λ _, 0) (sample_parts "findAndModify") sample_server [fresh_session] = Ret (true, None, p', [])
    ∧ assembled_command p' = Ret (Some (doc_of sample_command))
    ∧ pt_session p' = Some (after_command (used_now 77 fresh_session) (cs "findAndModify"))
    ∧ pt_is_retryable_write p' = true ∧ pt_is_retryable_read p' = false ∧ pt_has_temp_session p' = true.
Proof.
  assert (Hr : parts_ready (sample_parts "findAndModify") sample_server (e_utf8 (cs "findAndModify") (cs "c")) [] [] [] [e_int32 (cs "w") 1]
    (sample_time 5)).
  { apply sample_parts_ready; [apply e_utf8_ok; [by split; by_check|by_check|by vm_compute]|by split; [intros ?|]]. }
  assert (Hn : [e_utf8 (cs "findAndModify") (cs "c")] ++ [] ++ session_command_fields (λ _, 0) (sample_parts "findAndModify") sample_server
    (e_utf8 (cs "findAndModify") (cs "c")) [] [] (used_now 77 fresh_session) sample_id (sample_time 3) [] [e_int32 (cs "w") 1] (sample_time 5)
    = sample_command) by (vm_compute; reflexivity).
  pose proof (command_in_session (λ _, 0) (sample_parts "findAndModify") sample_server [fresh_session] [] [] 77 _ _ _ _ _ _ [] fresh_session
    _ _ Hr fresh_session_ready I) as Hw.
  cbv zeta in Hw. rewrite Hn in Hw. apply Hw; clear Hw; first [done|by vm_compute|vm_compute; discriminate|by split].
Defined.

(** C40. A command that names its database itself, without a session, options, read
    preference, cluster time or write concern, loses its read concern: the field is
    appended to the buffer of the assembled command, but the body was never copied to
    that buffer and is what the server gets. *)
Theorem read_concern_lost {W} `{Starts W} fresh p st (w w1 : W) e b rc :
  parts_ready p st e b [] rc [] [] → rc ≠ [] → blen (body_bytes (e :: b)) ≤ 2 ^ 26 →
  sd_type (st_sd st) ≠ MONGOC_SERVER_UNKNOWN → WIRE_VERSION_OP_MSG ≤ sd_max_wire_version (st_sd st) →
  has_key_of (cs "$db") (e :: b) = true → pt_session p = None → session_of p w = (None, w1) → preference_for fresh p st = None →
  is_get_more e = false →
  ∃ p', mongoc_cmd_parts_assemble fresh p st w = Ret (true, None, p', w1)
    ∧ pt_read_concern_document p' = doc_of rc ∧ assembled_command p' = Ret (Some (doc_of (e :: b))).
Proof.
  intros Hp Hrc Hb Hst Hwire Hdb Hsn Hsess Hpref Hget.
  destruct (assemble_start fresh p st w e b [] rc [] [] Hp ltac:(lia) Hst Hwire) as [E0 Hw0]. rewrite E0. clear E0. unfold assemble_opmsg.
  set (p1 := set_is_txn_finish _ _) in *. destruct Hp as [_ _ _ _ _ Hok Hdbn Hrd Hwd Htd _].
  assert (Hex : explicit_session p = None) by (unfold explicit_session; by destruct (pt_prohibit_lsid p)).
  change (if pt_prohibit_lsid p1 then None else pt_session p1) with (explicit_session p). rewrite Hex, Hpref, Hget.
  set (sa := bool_decide (sd_type (st_sd st) = MONGOC_SERVER_STANDALONE)).
  assert (Hx : extra_fields p1 (e :: b) None sa None [] = []).
  { unfold extra_fields, db_fields, pref_fields. rewrite Hdb. by destruct sa. }
  destruct (opmsg_extra_ok fresh p1 (e :: b) [] None sa None [] Hw0 Hdbn ltac:(lia) I) as (x & E1 & Hw1); rewrite ?Hx; [split; [constructor|by split]|done|done|].
  rewrite Hx in Hw1. rewrite E1. cbn [bind negb].
  pose proof (copied_extra_ok fresh _ _ [] Hw1) as E2. rewrite app_nil_r in E2. specialize (E2 ltac:(lia)).
  cbn [app] in Hw1. destruct (decide ([] = [])) as [_|]; [|done]. rewrite E2. cbn [bind].
  set (p2 := set_extra x p1) in *.
  set (r := if negb (pt_prohibit_lsid p2) && pt_is_acknowledged p2 then _ else _).
  assert (Hr : r = (None, p2, w1)).
  { unfold r. revert Hsess. unfold session_of. rewrite Hex. change (pt_prohibit_lsid p2) with (pt_prohibit_lsid p).
    change (pt_is_acknowledged p2) with (pt_is_acknowledged p). destruct (negb _ && _).
    - intros E. by rewrite E.
    - by intros [= ->]. }
  rewrite Hr. clear Hr r. unfold add_retry. cbn [_mongoc_client_session_txn_in_progress].
  destruct (number_ok p2 (e_key e) st None eq_refl (or_introl eq_refl)) as (a & Ea & Hwr). cbn [_mongoc_client_session_txn_in_progress] in Ea.
  rewrite Ea. cbn [bind]. rewrite Hwr. assert (write_retries p2 (e_key e) st = false) as ->.
  { unfold write_retries. change (pt_session p2) with (pt_session p). by rewrite Hsn. }
  cbn [bind]. assert (Hp3 : ∃ k, (if _is_retryable_read (set_allow_txn_number a p2) st && negb false
    then set_is_retryable_read true (set_allow_txn_number a p2) else set_allow_txn_number a p2) = set_is_retryable_read k (set_allow_txn_number a p2)).
  { destruct (_is_retryable_read (set_allow_txn_number a p2) st); [exists true; reflexivity|]. exists (pt_is_retryable_read p2). by destruct p2. }
  destruct Hp3 as (k & Hp3). rewrite Hp3. clear Hp3. destruct Htd as (Htd & _). destruct Hwd as (Hwd & _). destruct Hrd as (Hrd & Hrok & Hrl).
  unfold add_cluster_time. rewrite Htd. change (bson_empty (doc_of [])) with (Ret true). cbn [bind].
  set (p4 := set_is_retryable_read k _). unfold add_read_concern. change (pt_read_concern_document p4) with (pt_read_concern_document p).
  rewrite Hrd, empty_doc_of, bool_decide_false by done. cbn [bind].
  assert (Hm4 : builds (pt_assembled_body p4) (body_bytes []) []) by apply Hw1.
  destruct (append_step (append_read_concern fresh (doc_of rc) (pt_assembled_body p4)) _ [] (e_doc (cs "readConcern") (body_bytes rc)) Hm4) as (m & Em & _).
  { apply (append_document_entry fresh _ _ [] (cs "readConcern")); [done|by repeat constructor|done|]. unfold doc_of. rewrite blen_doc_bytes. lia. }
  { rewrite blen_entry. cbn [e_doc e_key e_value]. change (blen (body_bytes [])) with 0. rewrite blen_doc_bytes. change (blen (cs "readConcern")) with 11. lia. }
  unfold to_assembled. rewrite Em. cbn [bind snd]. set (p5 := set_assembled_body m p4). unfold add_txn, _mongoc_cmd_parts_add_write_concern.
  change (pt_write_concern_document p5) with (pt_write_concern_document p). rewrite Hwd. change (bson_empty (doc_of [])) with (Ret true).
  change (negb (_mongoc_client_session_in_txn None)) with true. rewrite orb_true_r.
  cbn [bind _mongoc_client_session_append_txn]. eexists. split; [done|]. split; [exact Hrd|]. destruct Hw1 as (Hc & Hbd & _).
  unfold assembled_command. change (pt_command _) with (pt_command p2). rewrite Hc. by f_equal; f_equal.
Qed.
Definition ping : entry := e_int32 (cs "ping") 1.
Definition named_db : entry := e_utf8 (cs "$db") (cs "test").
Definition local_level : list entry := [e_utf8 (cs "level") (cs "local")].
Definition lost_parts : parts_t :=
  set_read_concern_document (doc_of local_level)
    (mongoc_cmd_parts_init (λ _, 0) (CmdClient (mongoc_set_new 4) true true) (cs "test") 0 (doc_of [ping; named_db])).
Definition timeless_server : mongoc_server_stream_t :=
  ServerStream MONGOC_TOPOLOGY_RS_WITH_PRIMARY (set_type MONGOC_SERVER_RS_PRIMARY (set_max_wire 8 sd_zero)) bson_empty_doc.
Lemma lost_parts_ready : parts_ready lost_parts timeless_server ping [named_db] [] local_level [] [].
Proof.
  constructor.
  - done.
  - by split; [intros ?|].
  - done.
  - apply (init_builds (λ _, 0)).
  - apply (init_builds (λ _, 0)).
  - apply Forall_cons. split; [apply e_int32_ok; split; by_check|]. apply Forall_singleton.
    apply e_utf8_ok; [by split; by_check|by_check|by vm_compute].
  - by split; [by_check|split; [by_check|vm_compute]].
  - split; [done|]. split; [|by vm_compute]. apply Forall_singleton. apply e_utf8_ok; [by split; by_check|by_check|by vm_compute].
  - split; [done|]. by split; [constructor|vm_compute].
  - split; [done|]. by split; [constructor|vm_compute].
  - done.
Qed.
(** no session can be started *)
Lemma read_concern_lost_witness :
  ∃ p', mongoc_cmd_parts_assemble (λ _, 0) lost_parts timeless_server ([] : list cs_t) = Ret (true, None, p', [])
    ∧ pt_read_concern_document p' = doc_of local_level ∧ assembled_command p' = Ret (Some (doc_of [ping; named_db])).
Proof.
  apply (read_concern_lost (λ _, 0) lost_parts timeless_server ([] : list cs_t) [] ping [named_db] local_level lost_parts_ready);
    first [done|by vm_compute|vm_compute; discriminate].
Defined.

(** In a session, a read in a transaction whose preference is not the primary is
    refused, and so is a command that asks for no acknowledgment; nothing is assembled,
    and the session keeps its state. *)
Theorem session_refused {W} `{Starts W} fresh p st (w : W) e b xs rc wc ste tags s :
  parts_ready p st e b xs rc wc ste → tags_of (preference_for fresh p st) tags → body_ok tags → blen (body_bytes (e :: b)) ≤ 2 ^ 26 →
  blen (body_bytes (xs ++ first_fields fresh p st e b tags)) ≤ 2 ^ 26 - 1 →
  sd_type (st_sd st) ≠ MONGOC_SERVER_UNKNOWN → WIRE_VERSION_OP_MSG ≤ sd_max_wire_version (st_sd st) → explicit_session p = Some s →
  (¬ reads_primary (Some s) (pt_is_write_command p) →
   ∃ p', mongoc_cmd_parts_assemble fresh p st w
     = Ret (false, Some (bson_set_error MONGOC_ERROR_TRANSACTION MONGOC_ERROR_TRANSACTION_INVALID_STATE
                           (cs "Read preference in a transaction must be primary")), p', w)
     ∧ pt_session p' = pt_session p ∧ assembled_command p' = Ret (Some (doc_of (e :: b))))
  ∧ (reads_primary (Some s) (pt_is_write_command p) → pt_is_acknowledged p = false →
     ∃ p', mongoc_cmd_parts_assemble fresh p st w
       = Ret (false, Some (command_error MONGOC_ERROR_COMMAND_INVALID_ARG
                             (cs "Cannot use client session with unacknowledged command")), p', w)
       ∧ pt_session p' = pt_session p).
Proof.
  intros Hp Ht Htok Hb Hfirst Hst Hwire Hex.
  destruct (assemble_start fresh p st w e b xs rc wc ste Hp ltac:(lia) Hst Hwire) as [E0 Hw0]. rewrite E0. clear E0. unfold assemble_opmsg.
  set (p1 := set_is_txn_finish _ _) in *. destruct Hp as [Hbody _ _ _ _ _ Hdbn _ _ _ _].
  change (if pt_prohibit_lsid p1 then None else pt_session p1) with (explicit_session p). rewrite Hex. split.
  - intros Hn. assert (Hs1 : blen (body_bytes (xs ++ db_fields (e :: b) (pt_db_name p1))) ≤ 2 ^ 27).
    { unfold first_fields, extra_fields in Hfirst. rewrite app_assoc in Hfirst. apply prefix_size in Hfirst.
      change (pt_db_name p1) with (pt_db_name p). lia. }
    destruct (db_ok fresh p1 (e :: b) xs Hw0 Hdbn ltac:(lia) Hs1) as (x & E1 & Hw1). unfold opmsg_extra.
    destruct (bson_has_field (pt_body p1) (cs "$db")) as [has|]; [|done]. cbn [bind] in *. rewrite E1. cbn [bind].
    unfold reads_primary in Hn. destruct (_mongoc_client_session_in_txn (Some s)) eqn:Ein; [|exfalso; apply Hn; congruence].
    change (pt_is_write_command (set_extra x p1)) with (pt_is_write_command p).
    destruct (pt_is_write_command p) eqn:Ew; [exfalso; apply Hn; congruence|].
    destruct (IS_PREF_PRIMARY _) eqn:Ep; [exfalso; apply Hn; congruence|]. cbn [negb andb bind].
    eexists. split; [done|]. split; [done|]. destruct Hw1 as (Hc & Hbd & _). unfold assembled_command. rewrite Hc. by rewrite Hbd.
  - intros Hprim Hack.
    destruct (extra_copied fresh p1 e b xs tags (Some s) (bool_decide (sd_type (st_sd st) = MONGOC_SERVER_STANDALONE))
      (preference_for fresh p st) Hw0 Hdbn Ht Htok Hb) as (x & p2 & E1 & E2 & (c & m & Hp2) & _); [by rewrite <- Hex|done|].
    rewrite E1. cbn [bind negb]. rewrite E2. cbn [bind]. assert (pt_is_acknowledged p2 = false) as -> by (rewrite Hp2; exact Hack).
    cbn [negb]. eexists. split; [done|]. by rewrite Hp2.
Qed.
Definition unacknowledged_parts : parts_t := set_is_acknowledged false (set_session (Some fresh_session) (sample_parts "insert")).
Lemma session_refused_witness :
  ∃ p', mongoc_cmd_parts_assemble (λ _, 0) unacknowledged_parts sample_server ([] : list cs_t)
    = Ret (false, Some (command_error MONGOC_ERROR_COMMAND_INVALID_ARG
                          (cs "Cannot use client session with unacknowledged command")), p', [])
    ∧ pt_session p' = Some fresh_session.
Proof.
  assert (Hr : parts_ready unacknowledged_parts sample_server (e_utf8 (cs "insert") (cs "c")) [] [] [] [e_int32 (cs "w") 1] (sample_time 5)).
  { destruct (sample_parts_ready "insert") as [H1 H2 H3 H4 H5 H6 H7 H8 H9 H10 H11]; [|by split; [intros ?|]|by constructor].
    apply e_utf8_ok; [by split; by_check|by_check|by vm_compute]. }
  apply (session_refused (λ _, 0) unacknowledged_parts sample_server ([] : list cs_t) _ _ _ _ _ _ [] fresh_session Hr);
    first [done|by split; [constructor|split]|vm_compute; discriminate|by vm_compute].
Defined.
