(* ===== verification/WriteCommand.v ===== *)
(** Write commands (mongoc/mongoc-write-command.c): the documents of an insert, update
    or delete command, the limits of a server, and the result that the replies to the
    command's batches are merged into. *)
From Stdlib Require Import ZArith Lia List.
From stdpp Require Import prelude strings.
From S2P Require Import Prelude BsonIter BsonIterSafe BsonFields BsonAppend BsonBuild BsonValue BsonCopy BsonParse BsonOid HostList BsonKeys MongocTypes BsonEntries CommandErrors Concerns ReadPrefs ServerDescription TopologyDescription ServerSession ClientSession Buffer Cluster CmdParts.
#[local] Open Scope string_scope.
#[local] Open Scope list_scope.
#[local] Open Scope Z_scope.
#[local] Open Scope mongo_scope.

(** ** Data *)
Inductive write_command_type := MONGOC_WRITE_COMMAND_DELETE | MONGOC_WRITE_COMMAND_INSERT | MONGOC_WRITE_COMMAND_UPDATE.
#[export] Instance write_command_type_eq_dec : EqDecision write_command_type.
Proof. solve_decision. Defined.

Definition gCommandNames (type : write_command_type) : list Z :=
  match type with
  | MONGOC_WRITE_COMMAND_DELETE => cs "delete" | MONGOC_WRITE_COMMAND_INSERT => cs "insert" | MONGOC_WRITE_COMMAND_UPDATE => cs "update"
  end.
Definition gCommandFields (type : write_command_type) : list Z :=
  match type with
  | MONGOC_WRITE_COMMAND_DELETE => cs "deletes" | MONGOC_WRITE_COMMAND_INSERT => cs "documents" | MONGOC_WRITE_COMMAND_UPDATE => cs "updates"
  end.
Definition gCommandFieldLens (type : write_command_type) : Z :=
  match type with MONGOC_WRITE_COMMAND_INSERT => 9 | _ => 7 end.
Definition _mongoc_command_type_to_name := gCommandNames.
Definition _mongoc_command_type_to_field_name := gCommandFields.

Record mongoc_bulk_write_flags_t := BulkWriteFlags {
  wf_ordered : bool;
  wf_bypass_document_validation : bool;
  wf_has_collation : bool;
  wf_has_multi_write : bool;
  wf_has_array_filters : bool;
  wf_has_update_hint : bool
}.
Definition MONGOC_BULK_WRITE_FLAGS_INIT : mongoc_bulk_write_flags_t := BulkWriteFlags true false false false false false.
Record mongoc_write_command_t := WriteCommand {
  wcm_type : write_command_type;
  wcm_payload : mongoc_buffer_t;
  wcm_n_documents : Z;
  wcm_flags : mongoc_bulk_write_flags_t;
  wcm_operation_id : Z;
  wcm_cmd_opts : bson_t
}.

Record mongoc_write_result_t := WriteResult {
  wr_nInserted : Z;
  wr_nMatched : Z;
  wr_nModified : Z;
  wr_nRemoved : Z;
  wr_nUpserted : Z;
  wr_writeErrors : bson_mem;
  wr_upserted : bson_mem;
  wr_n_writeConcernErrors : Z;
  wr_writeConcernErrors : bson_mem;
  wr_errorLabels : bson_mem;
  wr_failed : bool;
  wr_must_stop : bool;
  wr_error : bson_error_t;
  wr_upsert_append_count : Z;
  wr_retry_server_id : Z
}.
Definition result_eta (r : mongoc_write_result_t) : mongoc_write_result_t :=
  WriteResult (wr_nInserted r) (wr_nMatched r) (wr_nModified r) (wr_nRemoved r) (wr_nUpserted r) (wr_writeErrors r) (wr_upserted r)
    (wr_n_writeConcernErrors r) (wr_writeConcernErrors r) (wr_errorLabels r) (wr_failed r) (wr_must_stop r) (wr_error r)
    (wr_upsert_append_count r) (wr_retry_server_id r).
#[local] Notation result_t := mongoc_write_result_t.
#[local] Notation "A ↦ B" := (A → B → B) (at level 98, right associativity).
Definition set_nInserted : Z ↦ result_t := ltac:(setter result_eta wr_nInserted).
Definition set_nMatched : Z ↦ result_t := ltac:(setter result_eta wr_nMatched).
Definition set_nModified : Z ↦ result_t := ltac:(setter result_eta wr_nModified).
Definition set_nRemoved : Z ↦ result_t := ltac:(setter result_eta wr_nRemoved).
Definition set_nUpserted : Z ↦ result_t := ltac:(setter result_eta wr_nUpserted).
Definition set_writeErrors : bson_mem ↦ result_t := ltac:(setter result_eta wr_writeErrors).
Definition set_upserted : bson_mem ↦ result_t := ltac:(setter result_eta wr_upserted).
Definition set_n_writeConcernErrors : Z ↦ result_t := ltac:(setter result_eta wr_n_writeConcernErrors).
Definition set_writeConcernErrors : bson_mem ↦ result_t := ltac:(setter result_eta wr_writeConcernErrors).
Definition set_errorLabels : bson_mem ↦ result_t := ltac:(setter result_eta wr_errorLabels).
Definition set_failed : bool ↦ result_t := ltac:(setter result_eta wr_failed).
Definition set_must_stop : bool ↦ result_t := ltac:(setter result_eta wr_must_stop).
Definition set_result_error : bson_error_t ↦ result_t := ltac:(setter result_eta wr_error).
Definition set_upsert_append_count : Z ↦ result_t := ltac:(setter result_eta wr_upsert_append_count).
Definition set_retry_server_id : Z ↦ result_t := ltac:(setter result_eta wr_retry_server_id).

(** ** The limits of a server (mongoc-server-stream.c) *)
Definition COALESCE (x y : Z) : Z := if x =? 0 then y else x.
Definition MONGOC_REDUCED_MAX_MSG_SIZE_FOR_FLE : Z := 2097152.
Definition BSON_OBJECT_ALLOWANCE : Z := 16 * 1024.
Definition mongoc_server_stream_max_bson_obj_size (st : mongoc_server_stream_t) : Z :=
  COALESCE (sd_max_bson_obj_size (st_sd st)) MONGOC_DEFAULT_BSON_OBJ_SIZE.
Definition mongoc_server_stream_max_msg_size (st : mongoc_server_stream_t) : Z :=
  COALESCE (sd_max_msg_size (st_sd st)) MONGOC_DEFAULT_MAX_MSG_SIZE.
Definition mongoc_server_stream_max_write_batch_size (st : mongoc_server_stream_t) : Z :=
  COALESCE (sd_max_write_batch_size (st_sd st)) MONGOC_DEFAULT_WRITE_BATCH_SIZE.
Definition _mongoc_write_command_will_overflow (len_so_far document_len n_documents_written max_bson_size max_write_batch_size : Z)
    : res bool :=
  let* max_cmd_size := chk32 (max_bson_size + BSON_OBJECT_ALLOWANCE) in
  let* _ := bson_assert (negb (max_bson_size =? 0)) in
  Ret ((u32 (len_so_far + document_len) >? u32 max_cmd_size)
       || (max_write_batch_size >? 0) && (n_documents_written >=? u32 max_write_batch_size)).

(** ** Errors *)
Definition MONGOC_ERROR_COLLECTION : Z := 12.
Definition MONGOC_ERROR_COLLECTION_INSERT_FAILED : Z := 23.
Definition MONGOC_ERROR_COLLECTION_UPDATE_FAILED : Z := 24.
Definition MONGOC_ERROR_COLLECTION_DELETE_FAILED : Z := 25.
Definition _mongoc_write_command_too_large_error (idx len max_bson_size : Z) : bson_error_t :=
  bson_set_error MONGOC_ERROR_BSON MONGOC_ERROR_BSON_INVALID
    (cs "Document " ++ print_int (u32 idx) ++ cs " is too large for the cluster. Document is " ++ print_int (u32 len)
     ++ cs " bytes, max is " ++ print_int max_bson_size ++ cs ".").
Definition _empty_error (command : mongoc_write_command_t) : bson_error_t :=
  bson_set_error MONGOC_ERROR_COLLECTION
    (match wcm_type command with
     | MONGOC_WRITE_COMMAND_DELETE => MONGOC_ERROR_COLLECTION_DELETE_FAILED
     | MONGOC_WRITE_COMMAND_INSERT => MONGOC_ERROR_COLLECTION_INSERT_FAILED
     | MONGOC_WRITE_COMMAND_UPDATE => MONGOC_ERROR_COLLECTION_UPDATE_FAILED
     end) (cs "Cannot do an empty " ++ gCommandNames (wcm_type command)).

(** ** Reading the documents of a payload (bson-reader.c, over memory)

    The document at [offset] and whether the end was reached, and the offset after it. *)
Definition _bson_reader_data_read (data : list Z) (length offset : Z) : res (option bson_t * bool * Z) :=
  let none := Ret (None, false, offset) in
  if offset + 4 <? length then
    let* len := rd_le 4 data offset in
    let blen := s32 len in
    if blen <? 5 then none
    else if blen >? s32 (length - offset) then none
    else
      let* b := bson_init_static (ptr_add data offset) (u32 blen) in
      match b with
      | None => none
      | Some b => Ret (Some b, false, offset + blen)
      end
  else Ret (None, offset =? length, offset).

(** ** Building a command *)
Section Building.
Variable rand_r : Z → Z * Z.
Variable fresh : Z → Z.

Definition BSON_APPEND_VALUE (m : bson_mem) (key : list Z) (value : bson_value_t) : res (bool * bson_mem) :=
  bson_append_value fresh m (c_mem key) (s32 (blen key)) value.

(** mongoc-util.c: an array whose elements are documents that start with an operator *)
Definition pipeline_stage (iter : bson_iter_t) (s : Z * bool) : res (bool * (Z * bool)) :=
  let i := s.1 in
  let no := Ret (false, (i, false)) in
  let* key := field_key iter in
  if negb (streq key (print_int i)) then no
  else
    let* doc := BSON_ITER_HOLDS iter BSON_TYPE_DOCUMENT in
    if negb doc then no
    else
      let* child := bson_iter_recurse iter in
      match child with
      | None => no
      | Some child =>
          let* n := bson_iter_next child in
          if negb n.1 then no
          else
            let* p := bson_iter_key n.2 in
            let* c := rd p 0 in
            if negb (c =? 36) then no else let* i := chk32 (i + 1) in Ret (true, (i, true))
      end.
Definition _mongoc_document_is_pipeline (document : bson_t) : res bool :=
  let '(ok, iter) := bson_iter_init document in
  if negb ok then Ret false
  else let* r := for_each_field pipeline_stage iter (0, true) in Ret (r.2.2 && negb (r.2.1 =? 0)).

Definition _mongoc_write_command_init_bulk (type : write_command_type) (flags : mongoc_bulk_write_flags_t) (operation_id : Z)
    (opts : option bson_t) : res mongoc_write_command_t :=
  let* e := bson_empty0 opts in
  let* b := _mongoc_buffer_init fresh None 0 in
  Ret (WriteCommand type b 0 flags operation_id (if e : bool then bson_empty_doc else default bson_empty_doc opts)).

(** the document joins the payload *)
Definition payload_append (command : mongoc_write_command_t) (doc : bson_t) : res mongoc_write_command_t :=
  let* b := _mongoc_buffer_append fresh (wcm_payload command) doc (blen doc) in
  Ret (WriteCommand (wcm_type command) b (u32 (wcm_n_documents command + 1)) (wcm_flags command) (wcm_operation_id command)
         (wcm_cmd_opts command)).

(** an "_id" is generated for a document without one; the results of the appends to
    [tmp] are ignored *)
Definition _mongoc_write_command_insert_append (os : os_t) (context : bson_context_t) (command : mongoc_write_command_t)
    (document : bson_t) : res (bson_context_t * mongoc_write_command_t) :=
  let* _ := bson_assert (bool_decide (wcm_type command = MONGOC_WRITE_COMMAND_INSERT)) in
  let* _ := bson_assert (blen document >=? 5) in
  let* f := bson_iter_init_find document (c_lit "_id") in
  if negb f.1 then
    let* o := bson_oid_init rand_r os context (fresh_bytes fresh 0 12) in
    let* r := bson_append_oid fresh (bson_init fresh) (c_lit "_id") 3 o.2 in
    let* r := bson_concat fresh r.2 document in
    let* tmp := bson_get_data r.2 in
    let* command := payload_append command tmp in
    Ret (o.1, command)
  else
    let* command := payload_append command document in
    Ret (context, command).

Definition _mongoc_write_command_update_append (command : mongoc_write_command_t) (selector update : bson_t) (opts : option bson_t)
    : res mongoc_write_command_t :=
  let* _ := bson_assert (bool_decide (wcm_type command = MONGOC_WRITE_COMMAND_UPDATE)) in
  let* r := bson_append_document fresh (bson_init fresh) (c_lit "q") 1 selector in
  let* pipeline := _mongoc_document_is_pipeline update in
  let* r := (if pipeline : bool then bson_append_array fresh r.2 (c_lit "u") 1 update
             else bson_append_document fresh r.2 (c_lit "u") 1 update) in
  let* m := match opts with
            | Some opts => let* r := bson_concat fresh r.2 opts in Ret r.2
            | None => Ret r.2
            end in
  let* document := bson_get_data m in
  payload_append command document.

Definition _mongoc_write_command_delete_append (command : mongoc_write_command_t) (selector : bson_t) (opts : option bson_t)
    : res mongoc_write_command_t :=
  let* _ := bson_assert (bool_decide (wcm_type command = MONGOC_WRITE_COMMAND_DELETE)) in
  let* _ := bson_assert (blen selector >=? 5) in
  let* r := bson_append_document fresh (bson_init fresh) (c_lit "q") 1 selector in
  let* m := match opts with
            | Some opts => let* r := bson_concat fresh r.2 opts in Ret r.2
            | None => Ret r.2
            end in
  let* document := bson_get_data m in
  payload_append command document.

Definition _mongoc_write_command_init_insert (os : os_t) (context : bson_context_t) (document cmd_opts : option bson_t)
    (flags : mongoc_bulk_write_flags_t) (operation_id : Z) : res (bson_context_t * mongoc_write_command_t) :=
  let* command := _mongoc_write_command_init_bulk MONGOC_WRITE_COMMAND_INSERT flags operation_id cmd_opts in
  match document with
  | Some document => _mongoc_write_command_insert_append os context command document
  | None => Ret (context, command)
  end.
Definition _mongoc_write_command_init_insert_idl (os : os_t) (context : bson_context_t) (document cmd_opts : option bson_t)
    (operation_id : Z) : res (bson_context_t * mongoc_write_command_t) :=
  let* command := _mongoc_write_command_init_bulk MONGOC_WRITE_COMMAND_INSERT MONGOC_BULK_WRITE_FLAGS_INIT operation_id cmd_opts in
  match document with
  | Some document => _mongoc_write_command_insert_append os context command document
  | None => Ret (context, command)
  end.
Definition _mongoc_write_command_init_delete (selector : bson_t) (cmd_opts opts : option bson_t)
    (flags : mongoc_bulk_write_flags_t) (operation_id : Z) : res mongoc_write_command_t :=
  let* command := _mongoc_write_command_init_bulk MONGOC_WRITE_COMMAND_DELETE flags operation_id cmd_opts in
  _mongoc_write_command_delete_append command selector opts.
Definition _mongoc_write_command_init_delete_idl (selector : bson_t) (cmd_opts opts : option bson_t)
    (operation_id : Z) : res mongoc_write_command_t :=
  _mongoc_write_command_init_delete selector cmd_opts opts MONGOC_BULK_WRITE_FLAGS_INIT operation_id.
Definition _mongoc_write_command_init_update (selector update : bson_t) (opts : option bson_t)
    (flags : mongoc_bulk_write_flags_t) (operation_id : Z) : res mongoc_write_command_t :=
  let* command := _mongoc_write_command_init_bulk MONGOC_WRITE_COMMAND_UPDATE flags operation_id None in
  _mongoc_write_command_update_append command selector update opts.
Definition _mongoc_write_command_init_update_idl (selector update : bson_t) (opts : option bson_t)
    (operation_id : Z) : res mongoc_write_command_t :=
  _mongoc_write_command_init_update selector update opts MONGOC_BULK_WRITE_FLAGS_INIT operation_id.

(** the body of the command; nothing for an empty one *)
Definition _mongoc_write_command_init (doc : bson_mem) (command : mongoc_write_command_t) (collection : list Z) : res bson_mem :=
  if wcm_n_documents command =? 0 then Ret doc
  else
    let* r := BSON_APPEND_UTF8 fresh doc (gCommandNames (wcm_type command)) collection in
    let* r := bson_append_bool fresh r.2 (c_lit "ordered") 7 (wf_ordered (wcm_flags command)) in
    if wf_bypass_document_validation (wcm_flags command) then
      let* r := bson_append_bool fresh r.2 (c_lit "bypassDocumentValidation") 24 true in Ret r.2
    else Ret r.2.

(** ** Results *)
Definition _mongoc_write_result_init : result_t :=
  WriteResult 0 0 0 0 0 (bson_init fresh) (bson_init fresh) 0 (bson_init fresh) (bson_init fresh) false false no_error 0 0.

(** a sub-document of an array; a [bson_append_document_begin] that fails leaves the
    child uninitialised *)
Definition in_element (dest : bson_mem) (i : Z) (fill : bson_mem → res bson_mem) : res bson_mem :=
  let* k := bson_uint32_to_string i 12 in
  let* r := bson_append_document_begin fresh dest (c_mem k.1) (s32 k.2) in
  if negb r.1 then Stuck OutOfBounds
  else let* m := fill r.2 in bson_append_document_end m.

Definition _mongoc_write_result_append_upsert (result : result_t) (idx : Z) (value : option bson_value_t) : res result_t :=
  match value with
  | None => Stuck AssertFailed
  | Some value =>
      let* m := in_element (wr_upserted result) (wr_upsert_append_count result) (λ child,
        let* r := bson_append_int32 fresh child (c_lit "index") 5 idx in
        let* r := BSON_APPEND_VALUE r.2 (cs "_id") value in Ret r.2) in
      Ret (set_upsert_append_count (u32 (wr_upsert_append_count result + 1)) (set_upserted m result))
  end.

(** a field of an error: its index is made absolute *)
Definition merge_field (offset : Z) (citer : bson_iter_t) (child : bson_mem) : res (bool * bson_mem) :=
  let* key := field_key citer in
  if streq key (cs "index") then
    let* n := bson_iter_int32 citer in
    let* r := bson_append_int32 fresh child (c_lit "index") 5 (s32 (u32 (n + offset))) in Ret (true, r.2)
  else
    let* value := bson_iter_value citer in
    let* value := deref value in
    let* r := BSON_APPEND_VALUE child key value in Ret (true, r.2).
Definition merge_element (offset : Z) (ar : bson_iter_t) (s : bson_mem * Z * Z) : res (bool * (bson_mem * Z * Z)) :=
  let '(dest, aridx, count) := s in
  let* doc := BSON_ITER_HOLDS ar BSON_TYPE_DOCUMENT in
  let* citer := (if doc : bool then bson_iter_recurse ar else Ret None) in
  match citer with
  | Some citer =>
      let* dest := in_element dest (u32 aridx) (λ child, let* r := for_each_field (merge_field offset) citer child in Ret r.2) in
      let* aridx := chk32 (aridx + 1) in
      let* count := chk32 (count + 1) in
      Ret (true, (dest, aridx, count))
  | None => Ret (true, s)
  end.
Definition _mongoc_write_result_merge_arrays (offset : Z) (dest : bson_mem) (iter : bson_iter_t) : res (Z * bson_mem) :=
  let* array := BSON_ITER_HOLDS iter BSON_TYPE_ARRAY in
  let* _ := bson_assert array in
  let* d := bson_get_data dest in
  let* aridx := bson_count_keys d in
  let* ar := bson_iter_recurse iter in
  match ar with
  | Some ar => let* r := for_each_field (merge_element offset) ar (dest, s32 aridx, 0) in Ret (r.2.2, r.2.1.1)
  | None => Ret (0, dest)
  end.

(** an element of "upserted" *)
Definition merge_upserted (offset : Z) (ar : bson_iter_t) (s : result_t * Z) : res (bool * (result_t * Z)) :=
  let '(result, n_upserted) := s in
  let* doc := BSON_ITER_HOLDS ar BSON_TYPE_DOCUMENT in
  let* citer := (if doc : bool then bson_iter_recurse ar else Ret None) in
  match citer with
  | None => Ret (true, s)
  | Some citer =>
      let* f := bson_iter_find citer (c_lit "index") in
      let* holds := (if f.1 : bool then BSON_ITER_HOLDS f.2 BSON_TYPE_INT32 else Ret false) in
      if negb holds then Ret (true, s)
      else
        let* server_index := bson_iter_int32 f.2 in
        let* again := bson_iter_recurse ar in
        match again with
        | None => Ret (true, s)
        | Some citer =>
            let* f := bson_iter_find citer (c_lit "_id") in
            if negb f.1 then Ret (true, s)
            else
              let* value := bson_iter_value f.2 in
              let* result := _mongoc_write_result_append_upsert result (s32 (u32 (offset + server_index))) value in
              let* n_upserted := chk32 (n_upserted + 1) in
              Ret (true, (result, n_upserted))
        end
  end.

(** mongoc-util.c *)
Definition _mongoc_bson_array_add_label (m : bson_mem) (label : list Z) : res bson_mem :=
  let* d := bson_get_data m in
  let '(ok, iter) := bson_iter_init d in
  let* _ := bson_assert ok in
  let* r := for_each_field (λ iter s, let* x := utf8_string iter in
              if streq x label then Ret (false, (s.1, true)) else Ret (true, (u32 (s.1 + 1), s.2))) iter (0, false) in
  if r.2.2 : bool then Ret m
  else
    let* k := bson_uint32_to_string r.2.1 16 in
    let* a := BSON_APPEND_UTF8 fresh m k.1 label in Ret a.2.
(** a reply whose "errorLabels" is not an array aborts the process *)
Definition _mongoc_bson_array_copy_labels_to (reply : bson_t) (dst : bson_mem) : res bson_mem :=
  let* f := bson_iter_init_find reply (c_lit "errorLabels") in
  if negb f.1 then Ret dst
  else
    let* label := bson_iter_recurse f.2 in
    match label with
    | None => Stuck AssertFailed
    | Some label =>
        let* r := for_each_field (λ label dst,
          let* holds := BSON_ITER_HOLDS label BSON_TYPE_UTF8 in
          if negb holds then Ret (true, dst)
          else let* s := utf8_string label in let* dst := _mongoc_bson_array_add_label dst s in Ret (true, dst)) label dst in
        Ret r.2
    end.

(** the counters *)
Definition merge_counts (command : mongoc_write_command_t) (reply : bson_t) (offset affected : Z) (result : result_t) : res result_t :=
  match wcm_type command with
  | MONGOC_WRITE_COMMAND_INSERT => Ret (set_nInserted (u32 (wr_nInserted result + affected)) result)
  | MONGOC_WRITE_COMMAND_DELETE => Ret (set_nRemoved (u32 (wr_nRemoved result + affected)) result)
  | MONGOC_WRITE_COMMAND_UPDATE =>
      let* f := bson_iter_init_find reply (c_lit "upserted") in
      let* result :=
        (if f.1 : bool then
           let* array := BSON_ITER_HOLDS f.2 BSON_TYPE_ARRAY in
           let* ar := (if array : bool then bson_iter_recurse f.2 else Ret None) in
           let* r := match ar with
                     | Some ar => let* r := for_each_field (merge_upserted offset) ar (result, 0) in Ret r.2
                     | None => Ret (result, 0)
                     end in
           let '(result, n_upserted) := r in
           let result := set_nUpserted (u32 (wr_nUpserted result + n_upserted)) result in
           let* d := chk32 (affected - n_upserted) in
           Ret (set_nMatched (u32 (wr_nMatched result + Z.max 0 d)) result)
         else Ret (set_nMatched (u32 (wr_nMatched result + affected)) result)) in
      let* m := find_holding reply (c_lit "nModified") BSON_TYPE_INT32 in
      match m with
      | Some it => let* n := bson_iter_int32 it in Ret (set_nModified (u32 (wr_nModified result + n)) result)
      | None => Ret result
      end
  end.
(** a write concern error; a document that does not fit is only logged *)
Definition merge_write_concern_error (reply : bson_t) (result : result_t) : res result_t :=
  let* w := find_holding reply (c_lit "writeConcernError") BSON_TYPE_DOCUMENT in
  match w with
  | None => Ret result
  | Some it =>
      let* d := bson_iter_document it in
      let* data := deref d.2 in
      let* b := bson_init_static data d.1 in
      match b with
      | None => Stuck AssertFailed
      | Some write_concern_error =>
          let* k := bson_uint32_to_string (wr_n_writeConcernErrors result) 16 in
          let* r := bson_append_document fresh (wr_writeConcernErrors result) (c_mem k.1) (-1) write_concern_error in
          Ret (set_n_writeConcernErrors (u32 (wr_n_writeConcernErrors result + 1)) (set_writeConcernErrors r.2 result))
      end
  end.
Definition _mongoc_write_result_merge (result : result_t) (command : mongoc_write_command_t) (reply : bson_t) (offset : Z)
    : res result_t :=
  let* n := find_holding reply (c_lit "n") BSON_TYPE_INT32 in
  let* affected := match n with Some it => bson_iter_int32 it | None => Ret 0 end in
  let* errors := find_holding reply (c_lit "writeErrors") BSON_TYPE_ARRAY in
  let* any := match errors with
              | Some it =>
                  let* citer := bson_iter_recurse it in
                  match citer with Some citer => let* r := bson_iter_next citer in Ret r.1 | None => Ret false end
              | None => Ret false
              end in
  let result := if any : bool then set_failed true result else result in
  let* result := merge_counts command reply offset affected result in
  let* result := match errors with
                 | Some it =>
                     let* r := _mongoc_write_result_merge_arrays offset (wr_writeErrors result) it in
                     Ret (set_writeErrors r.2 result)
                 | None => Ret result
                 end in
  let* result := merge_write_concern_error reply result in
  let* labels := _mongoc_bson_array_copy_labels_to reply (wr_errorLabels result) in
  Ret (set_errorLabels labels result).

(** one field of an error document: the state is the code, the message and the number of
    documents before; a message that is not a string is a NULL for the string functions *)
Definition error_field (n_keys i : Z) (doc_iter : bson_iter_t) (s : Z * list Z) : res (bool * (Z * list Z)) :=
  let '(code, compound) := s in
  let* key := field_key doc_iter in
  if streq key (cs "code") && (code =? 0) then
    let* code := bson_iter_int32 doc_iter in Ret (true, (code, compound))
  else if streq key (cs "errmsg") then
    let* errmsg := utf8_string doc_iter in
    Ret (true, (code, compound ++ (if n_keys >? 1 then [34] ++ errmsg ++ [34] ++ (if i <? u32 (n_keys - 1) then cs ", " else [])
                                   else errmsg)))
  else Ret (true, s).
Definition error_element (n_keys : Z) (array_iter : bson_iter_t) (s : Z * list Z * Z) : res (bool * (Z * list Z * Z)) :=
  let '(code, compound, i) := s in
  let* doc := BSON_ITER_HOLDS array_iter BSON_TYPE_DOCUMENT in
  let* doc_iter := (if doc : bool then bson_iter_recurse array_iter else Ret None) in
  match doc_iter with
  | Some doc_iter =>
      let* r := for_each_field (error_field n_keys i) doc_iter (code, compound) in
      Ret (true, (r.2, u32 (i + 1)))
  | None => Ret (true, s)
  end.
Definition _set_error_from_response (bson_array : bson_t) (domain : Z) (error_type : list Z) (error : bson_error_t)
    : res bson_error_t :=
  let* n_keys := bson_count_keys bson_array in
  let compound_err := if n_keys >? 1 then cs "Multiple " ++ error_type ++ cs " errors: " else [] in
  let* e := bson_empty bson_array in
  let '(ok, array_iter) := bson_iter_init bson_array in
  if e || negb ok then Ret error
  else
    let* r := for_each_field (error_element n_keys) array_iter (0, compound_err, 0) in
    let '(code, compound_err) := r.2.1 in
    Ret (if negb (code =? 0) && negb (bool_decide (compound_err = [])) then bson_set_error domain (u32 code) compound_err else error).

(** the fields named by the caller; their appends' results are ignored *)
Definition result_field (result : result_t) (upserted : bson_t) (bson : bson_mem) (field : list Z) : res bson_mem :=
  let int n := let* r := BSON_APPEND_INT32 fresh bson field (s32 n) in Ret r.2 in
  let named k := bool_decide (field ∈ k) in
  if named [cs "nInserted"; cs "insertedCount"] then int (wr_nInserted result)
  else if named [cs "nMatched"; cs "matchedCount"] then int (wr_nMatched result)
  else if named [cs "nModified"; cs "modifiedCount"] then int (wr_nModified result)
  else if named [cs "nRemoved"; cs "deletedCount"] then int (wr_nRemoved result)
  else if named [cs "nUpserted"; cs "upsertedCount"] then int (wr_nUpserted result)
  else
    let* none := bson_empty upserted in
    if streq field (cs "upserted") && negb none then
      let* r := bson_append_array fresh bson (c_mem field) (s32 (blen field)) upserted in Ret r.2
    else if streq field (cs "upsertedId") && negb none then
      let* f := bson_iter_init_find upserted (c_lit "0") in
      let* child := (if f.1 : bool then bson_iter_recurse f.2 else Ret None) in
      match child with
      | None => Ret bson
      | Some child =>
          let* f := bson_iter_find child (c_lit "_id") in
          if negb f.1 then Ret bson
          else
            let* value := bson_iter_value f.2 in
            let* value := deref value in
            let* r := BSON_APPEND_VALUE bson (cs "upsertedId") value in Ret r.2
      end
    else Ret bson.
Fixpoint result_fields (result : result_t) (upserted : bson_t) (bson : bson_mem) (fields : list (list Z)) : res bson_mem :=
  match fields with
  | [] => Ret bson
  | f :: fields' => let* bson := result_field result upserted bson f in result_fields result upserted bson fields'
  end.
Definition BSON_APPEND_ARRAY (m : bson_mem) (key : list Z) (array : bson_t) : res bson_mem :=
  let* r := bson_append_array fresh m (c_mem key) (s32 (blen key)) array in Ret r.2.
(** all counters when no field is named *)
Definition result_summary (result : result_t) (fields : list (list Z)) (bson : bson_mem) : res bson_mem :=
  let* upserted := bson_get_data (wr_upserted result) in
  let* errors := bson_get_data (wr_writeErrors result) in
  let* bson := result_fields result upserted bson fields in
  let* bson :=
    match fields with
    | _ :: _ => Ret bson
    | [] =>
        let* bson := result_fields result upserted bson [cs "nInserted"; cs "nMatched"; cs "nModified"; cs "nRemoved"; cs "nUpserted"] in
        let* none := bson_empty upserted in
        if none : bool then Ret bson else BSON_APPEND_ARRAY bson (cs "upserted") upserted
    end in
  let* no_errors := bson_empty errors in
  let* bson := (if bool_decide (fields = []) || negb no_errors then BSON_APPEND_ARRAY bson (cs "writeErrors") errors else Ret bson) in
  if wr_n_writeConcernErrors result =? 0 then Ret bson
  else
    let* d := bson_get_data (wr_writeConcernErrors result) in
    BSON_APPEND_ARRAY bson (cs "writeConcernErrors") d.

(** the return value, the result, [*bson] and [*error] *)
Definition _mongoc_write_result_complete (result : result_t) (error_api_version : Z) (wc : option mongoc_write_concern_t)
    (err_domain_override : Z) (bson : option bson_mem) (fields : list (list Z))
    : res (bool * result_t * option bson_mem * bson_error_t) :=
  let domain :=
    if error_api_version >=? MONGOC_ERROR_API_VERSION_2 then MONGOC_ERROR_SERVER
    else if negb (err_domain_override =? 0) then err_domain_override
    else if negb (e_domain (wr_error result) =? 0) then e_domain (wr_error result)
    else MONGOC_ERROR_COLLECTION in
  let* bson := match bson with
               | Some m => if mongoc_write_concern_is_acknowledged wc then let* m := result_summary result fields m in Ret (Some m)
                           else Ret (Some m)
               | None => Ret None
               end in
  let* errors := bson_get_data (wr_writeErrors result) in
  let* error := _set_error_from_response errors domain (cs "write") (wr_error result) in
  let* error := (if e_code error =? 0 then
                   let* d := bson_get_data (wr_writeConcernErrors result) in
                   _set_error_from_response d MONGOC_ERROR_WRITE_CONCERN (cs "write concern") error
                 else Ret error) in
  let* labels := bson_get_data (wr_errorLabels result) in
  let* no_labels := bson_empty labels in
  let* bson := match bson with
               | Some m => if no_labels : bool then Ret (Some m)
                           else let* m := BSON_APPEND_ARRAY m (cs "errorLabels") labels in Ret (Some m)
               | None => Ret None
               end in
  Ret (negb (wr_failed result) && (e_code error =? 0), set_result_error error result, bson, error).

(** ** Retryable writes on a storage engine that has none *)
Definition retry_writes_message : list Z :=
  cs "This MongoDB deployment does not support retryable writes. Please add retryWrites=false to your connection string.".
(** the return value, the error and the reply *)
Definition _mongoc_write_error_update_if_unsupported_storage_engine (cmd_ret : bool) (cmd_err : bson_error_t) (reply : bson_t)
    : res (bool * bson_error_t * bson_t) :=
  if cmd_ret then Ret (false, cmd_err, reply)
  else
    let* c := _mongoc_cmd_check_ok_no_wce reply MONGOC_ERROR_API_VERSION_2 in
    if c.1 then Ret (false, cmd_err, reply)
    else
      let* server_error := deref c.2 in
      if (e_code server_error =? 20) && is_prefix (cs "Transaction numbers") (e_message server_error) then
        let* m := bson_copy_to_excluding_noinit_va fresh reply (bson_init fresh) [cs "errmsg"] in
        let* r := BSON_APPEND_UTF8 fresh m (cs "errmsg") retry_writes_message in
        let* reply := bson_get_data r.2 in
        Ret (true, Error (e_domain cmd_err) (e_code cmd_err) retry_writes_message, reply)
      else Ret (false, cmd_err, reply).
End Building.
