(* ===== verification/WriteProps.v ===== *)
(** The merging of replies: what a write result holds after the reply to a batch. *)
From Stdlib Require Import ZArith Lia List.
From stdpp Require Import prelude strings.
From S2P Require Import Prelude BsonIter BsonIterSafe BsonFields BsonAppend BsonBuild BsonValue BsonCopy BsonParse BsonOid HostList BsonKeys MongocTypes BsonEntries CommandErrors Concerns ServerDescription TopologyDescription ServerSession ClientSession Buffer Cluster CmdParts CmdProps WriteCommand.
#[local] Open Scope string_scope.
#[local] Open Scope list_scope.
#[local] Open Scope Z_scope.
#[local] Open Scope mongo_scope.

#[local] Notation result_t := mongoc_write_result_t.

(** ** Fields of a reply *)
Lemma body_bytes_cons e es : body_bytes (e :: es) = entry_bytes e ++ body_bytes es.
Proof. done. Qed.
Lemma find_holding_entry es k ty :
  Forall entry_ok es → 5 + blen (body_bytes es) ≤ INT_MAX → Forall (λ b, b ≠ 0) k →
  match List.find (λ e, bool_decide (e_key e = k)) es with
  | Some e => if bool_decide (bson_type_of_byte (e_type e) = ty)
              then ∃ f, find_holding (doc_of es) (c_mem k) ty = Ret (Some f) ∧ on_entry (doc_of es) e f
              else find_holding (doc_of es) (c_mem k) ty = Ret None
  | None => find_holding (doc_of es) (c_mem k) ty = Ret None
  end.
Proof.
  intros Hes Hmax Hk. destruct (init_find_entry es k Hes Hmax Hk) as [f Hf]. unfold find_holding, doc_of.
  destruct (List.find _ es) as [e|]; [|by rewrite Hf]. destruct Hf as [-> Hon]. cbn [bind fst snd].
  rewrite (entry_HOLDS _ _ _ Hon). cbn [bind]. case_bool_decide; [by exists f|done].
Qed.
Lemma found_size es p e : List.find p es = Some e → 2 + blen (e_key e) + blen (e_value e) ≤ blen (body_bytes es).
Proof.
  induction es as [|x es IH]; [done|]. cbn [List.find]. rewrite body_bytes_cons, blen_app, blen_entry.
  pose proof (blen_nonneg (body_bytes es)). pose proof (blen_nonneg (e_key x)). pose proof (blen_nonneg (e_value x)).
  destruct (p x); [intros [= ->]; lia|]. intros H'. specialize (IH H'). lia.
Qed.
(** the bytes of a sub-document *)
Lemma doc_bytes_static body : 5 + blen body ≤ INT_MAX → BsonParse.static_doc (doc_bytes body).
Proof.
  intros H. pose proof (blen_nonneg body). unfold BsonParse.static_doc. rewrite blen_doc_bytes. unfold INT_MAX in H.
  split; [unfold INT_MAX; lia|]. split; [by apply doc_bytes_head; lia|]. unfold doc_bytes. rewrite app_assoc.
  replace (5 + blen body - 1) with (blen (le_bytes 4 (5 + blen body) ++ body)) by (rewrite blen_app, blen_le_bytes; lia). apply rd_last.
Qed.
Lemma element_at data k body f :
  on_entry data (e_doc k body) f → 5 + blen body ≤ INT_MAX →
  ∃ p, bson_iter_document f = Ret (5 + blen body, Some p) ∧ bson_init_static p (5 + blen body) = Ret (Some (doc_bytes body)).
Proof.
  intros Hon Hl. destruct (on_split _ _ _ Hon) as (pre & post & Hd & H1). cbn [e_doc e_value] in Hd. exists (doc_bytes body ++ post).
  pose proof (blen_nonneg body). unfold INT_MAX in Hl. split.
  - unfold bson_iter_document. rewrite (if_type_at _ _ _ (on_at _ _ _ Hon)), decide_True by done.
    assert (field_le f 4 (it_d1 f) = Ret (5 + blen body)) as -> by (apply (entry_field_le0 _ _ _ Hon); apply doc_bytes_head; lia).
    cbn [bind]. rewrite (field_ptr_at _ _ _ (on_at _ _ _ Hon)), Hd, H1. by rewrite ptr_add_inside.
  - rewrite <- blen_doc_bytes. apply init_static_here, doc_bytes_static. unfold INT_MAX. lia.
Qed.
(** a value read and appended under a key is copied *)
Lemma copy_entry fresh data e f :
  on_entry data e f → canonical_entry e → blen (e_value e) < 2 ^ 28 →
  ∃ v, bson_iter_value f = Ret (Some v)
    ∧ ∀ m body outer k, builds m body outer → Forall (λ b, b ≠ 0) k → blen k < 2 ^ 29 →
        appends (BSON_APPEND_VALUE fresh m k v) m body outer (entry_bytes (Entry k (e_type e) (e_value e))).
Proof.
  intros Hon Hc Hl.
  destruct (recode f data _ (on_at _ _ _ Hon)) as (v & b & Hval & Hb & He & Hvl); [by eapply on_entry_canonical; [..|lia]|].
  exists v. split; [done|]. intros m body outer k Hm Hk Hkl. destruct Hon as [Hat Hkey Hsrc Hnx (pre & post & -> & H1) _].
  destruct (field_source_split _ _ _ _ _ Hat Hb Hkey) as (Hs & _). rewrite Hsrc in Hs.
  unfold entry_bytes, field_bytes in Hs. injection Hs as E _. rewrite Hnx, H1 in He, Hvl.
  replace (blen pre + blen (e_value e) - blen pre) with (blen (e_value e)) in He, Hvl by lia. rewrite sl_inside, <- E in He.
  unfold BSON_APPEND_VALUE. pose proof (blen_nonneg k). rewrite s32_small by (unfold in_s32; lia).
  apply append_value_builds; [done|by apply literal_key|done|done|by apply Hvl].
Qed.

(** ** Arrays of documents *)
Fixpoint element_docs (i : Z) (bodies : list (list entry)) : list entry :=
  match bodies with
  | [] => []
  | b :: bodies' => e_doc (print_dec 10 i) (body_bytes b) :: element_docs (i + 1) bodies'
  end.
Lemma element_docs_app i a b : element_docs i (a ++ b) = element_docs i a ++ element_docs (i + Z.of_nat (length a)) b.
Proof.
  revert i. induction a as [|x a IH]; intros i; cbn [element_docs app length]; [by rewrite Z.add_0_r|]. rewrite IH. do 3 f_equal. lia.
Qed.
Lemma element_docs_length i bodies : length (element_docs i bodies) = length bodies.
Proof. revert i. induction bodies; intros i; cbn; auto. Qed.
Lemma dec_key i : 0 ≤ i → key_ok (print_dec 10 i) ∧ blen (print_dec 10 i) ≤ 10.
Proof. intros. split; [by apply print_dec_key|]. pose proof (print_dec_length 10 i). unfold blen. lia. Qed.
Lemma element_docs_ok i bodies :
  0 ≤ i → Forall (Forall entry_ok) bodies → blen (body_bytes (element_docs i bodies)) < 2 ^ 31 → Forall entry_ok (element_docs i bodies).
Proof.
  intros Hi H. revert i Hi. induction H as [|b bodies Hb _ IH]; intros i Hi Hs; [constructor|]. cbn [element_docs] in *.
  unfold body_bytes in Hs. cbn [map concat] in Hs. fold (body_bytes (element_docs (i + 1) bodies)) in Hs. rewrite blen_app, blen_entry in Hs.
  unfold e_doc in Hs. cbn [e_key e_value] in Hs. fold (body_bytes b) in Hs. rewrite blen_doc_bytes in Hs.
  pose proof (blen_nonneg (print_dec 10 i)). pose proof (blen_nonneg (body_bytes (element_docs (i + 1) bodies))). pose proof (blen_nonneg (body_bytes b)).
  constructor; [|apply IH; lia]. apply e_doc_ok; [by apply dec_key|by apply body_bytes_ok|lia].
Qed.

Section Element.
Variable fresh : Z → Z.
(** room for an entry inside an element *)
Lemma inner_extent es k inner :
  blen k ≤ 10 → extent inner [body_bytes es ++ 3 :: k ++ [0]] ≤ 50 + blen (body_bytes es) + blen inner.
Proof.
  intros Hk. unfold extent. cbn [front length]. rewrite !blen_app, blen_le_bytes, blen_cons, blen_app.
  change (blen []) with 0. change (blen [0]) with 1. lia.
Qed.
Lemma in_element_ok dest es i fill inner :
  builds dest (body_bytes es) [] → 0 ≤ i < 2 ^ 31 → blen (body_bytes es) ≤ 2 ^ 29 →
  (∀ m, builds m [] [body_bytes es ++ 3 :: print_dec 10 i ++ [0]] →
     ∃ m', fill m = Ret m' ∧ builds m' inner [body_bytes es ++ 3 :: print_dec 10 i ++ [0]]) →
  ∃ m', in_element fresh dest i fill = Ret m' ∧ builds m' (body_bytes (es ++ [e_doc (print_dec 10 i) inner])) [].
Proof.
  intros Hd Hi Hs Hfill. unfold in_element. rewrite uint32_to_string_decimal by lia. cbn [bind fst snd].
  destruct (dec_key i ltac:(lia)) as [[_ Hk] Hkl]. pose proof (blen_nonneg (print_dec 10 i)). rewrite s32_small by (unfold in_s32; lia).
  destruct (begin_step fresh dest es (print_dec 10 i) Hd Hk ltac:(lia) Hs) as (m1 & -> & Hm1). cbn [bind fst snd negb].
  destruct (Hfill m1 Hm1) as (m2 & -> & Hm2). cbn [bind]. by apply end_step.
Qed.

(** ** The errors of a reply *)

(** an error: its index, and the rest *)
Definition error_doc (x : Z * list entry) : list entry := e_int32 (cs "index") x.1 :: x.2.
Definition error_ok (x : Z * list entry) : Prop :=
  in_s32 x.1 ∧ Forall entry_ok x.2 ∧ Forall canonical_entry x.2 ∧ Forall (λ e, e_key e ≠ cs "index") x.2.
Definition absolute (offset : Z) (x : Z * list entry) : Z * list entry := (s32 (u32 (x.1 + offset)), x.2).
Lemma index_ok x : entry_ok (e_int32 (cs "index") x).
Proof. apply e_int32_ok. split; by_check. Qed.
Lemma index_size x : blen (entry_bytes (e_int32 (cs "index") x)) = 11.
Proof. rewrite blen_entry. unfold e_int32. cbn [e_key e_value]. by rewrite blen_le_bytes. Qed.
Lemma error_doc_body x : blen (body_bytes (error_doc x)) = 11 + blen (body_bytes x.2).
Proof. unfold error_doc. by rewrite body_bytes_cons, blen_app, index_size. Qed.
Lemma error_doc_ok x : error_ok x → Forall entry_ok (error_doc x).
Proof. intros (_ & H & _). constructor; [apply index_ok|done]. Qed.
Lemma error_doc_size x y rest : blen (body_bytes (error_doc (x, rest))) = blen (body_bytes (error_doc (y, rest))).
Proof. unfold error_doc. rewrite !body_bytes_cons, !blen_app, !blen_entry. done. Qed.

Lemma merge_field_index offset data x f m body outer :
  on_entry data (e_int32 (cs "index") x) f → in_s32 x → builds m body outer → extent body outer + 11 ≤ 2 ^ 30 →
  ∃ m', merge_field fresh offset f m = Ret (true, m')
    ∧ builds m' (body ++ entry_bytes (e_int32 (cs "index") (s32 (u32 (x + offset))))) outer.
Proof.
  intros Hon Hx Hm Hs. unfold merge_field. rewrite (on_key _ _ _ Hon). cbn [bind e_int32 e_key].
  change (streq (cs "index") (cs "index")) with true. cbn iota. rewrite (e_int32_get _ _ _ _ Hon Hx). cbn [bind].
  pose proof (append_int32_entry fresh m body outer (cs "index") Hm ltac:(by repeat constructor) ltac:(by vm_compute) (s32 (u32 (x + offset)))) as Ha.
  apply appends_fits in Ha as (m' & E & Hm'); [|rewrite index_size; lia].
  exists m'. split; [|done]. unfold c_lit. change 5 with (blen (cs "index")). by rewrite E.
Qed.
Lemma merge_field_copy offset data e f m body outer :
  on_entry data e f → canonical_entry e → entry_ok e → e_key e ≠ cs "index" → blen (entry_bytes e) < 2 ^ 28 → builds m body outer →
  extent body outer + blen (entry_bytes e) ≤ 2 ^ 30 →
  ∃ m', merge_field fresh offset f m = Ret (true, m') ∧ builds m' (body ++ entry_bytes e) outer.
Proof.
  intros Hon Hc He Hne Hl Hm Hs. unfold merge_field. rewrite (on_key _ _ _ Hon). cbn [bind].
  unfold streq. rewrite bool_decide_false by done. rewrite blen_entry in Hl. pose proof (blen_nonneg (e_key e)). pose proof (blen_nonneg (e_value e)).
  destruct (copy_entry fresh data e f Hon Hc ltac:(lia)) as (v & -> & Hv). cbn [bind deref].
  pose proof (Hv m body outer (e_key e) Hm (proj1 He) ltac:(lia)) as Ha.
  apply appends_fits in Ha as (m' & -> & Hm'); [|by destruct e]. exists m'. split; [done|]. by destruct e.
Qed.
Lemma merge_fields_copy offset data fs l last m body outer :
  Forall2 (on_entry data) fs l → Forall canonical_entry fs → Forall entry_ok fs → Forall (λ e, e_key e ≠ cs "index") fs →
  blen (body_bytes fs) < 2 ^ 28 → builds m body outer → extent body outer + blen (body_bytes fs) ≤ 2 ^ 30 →
  ∃ last' m', fold_fields (merge_field fresh offset) l last m = Ret (last', m') ∧ builds m' (body ++ body_bytes fs) outer.
Proof.
  intros Hall. revert last m body. induction Hall as [|e f fs l Hon _ IH]; intros last m body Hc He Hne Hl Hm Hs.
  { exists last, m. split; [done|]. by rewrite app_nil_r. }
  apply Forall_cons in Hc as [Hc Hcs]. apply Forall_cons in He as [He Hes]. apply Forall_cons in Hne as [Hne Hnes].
  rewrite body_bytes_cons, blen_app in *. pose proof (blen_nonneg (entry_bytes e)). pose proof (blen_nonneg (body_bytes fs)).
  cbn [fold_fields]. destruct (merge_field_copy offset data e f m body outer) as (m1 & -> & Hm1); [done..|lia|done|lia|]. cbn [bind fst snd].
  destruct (IH last m1 (body ++ entry_bytes e)) as (last' & m' & -> & Hm'); [done..|lia|done| |].
  { unfold extent in *. rewrite blen_app. lia. }
  exists last', m'. split; [done|]. by rewrite app_assoc.
Qed.

(** the sizes of arrays *)
Lemma element_docs_bytes i bodies : 8 * Z.of_nat (length bodies) ≤ blen (body_bytes (element_docs i bodies)) + Z.of_nat (length bodies).
Proof.
  revert i. induction bodies as [|b bodies IH]; intros i; cbn [element_docs length]; [done|]. rewrite body_bytes_cons, blen_app, blen_entry.
  unfold e_doc. cbn [e_key e_value]. rewrite blen_doc_bytes. pose proof (blen_nonneg (body_bytes b)). pose proof (blen_nonneg (print_dec 10 i)).
  specialize (IH (i + 1)). lia.
Qed.
Lemma element_docs_size_map i offset xs :
  blen (body_bytes (element_docs i (map (error_doc ∘ absolute offset) xs))) = blen (body_bytes (element_docs i (map error_doc xs))).
Proof.
  revert i. induction xs as [|[x rest] xs IH]; intros i; [done|]. cbn [map element_docs]. rewrite !body_bytes_cons, !blen_app, IH.
  f_equal. rewrite !blen_entry. unfold e_doc, compose, absolute. cbn [e_key e_value fst snd]. rewrite !blen_doc_bytes.
  by rewrite (error_doc_size (s32 (u32 (x + offset))) x rest).
Qed.
Lemma merge_element_ok offset data x k f dest old aridx count :
  on_entry data (e_doc k (body_bytes (error_doc x))) f → error_ok x → builds dest (body_bytes (element_docs 0 old)) [] →
  blen (body_bytes (element_docs 0 (old ++ [error_doc x]))) ≤ 2 ^ 28 → aridx = Z.of_nat (length old) → 0 ≤ count ≤ aridx →
  ∃ dest', merge_element fresh offset f (dest, aridx, count) = Ret (true, (dest', aridx + 1, count + 1))
    ∧ builds dest' (body_bytes (element_docs 0 (old ++ [error_doc (absolute offset x)]))) [].
Proof.
  intros Hon Hx Hd Hs -> Hc. pose proof Hx as (Hi & Hr & Hcan & Hne).
  pose proof (element_docs_bytes 0 (old ++ [error_doc x])) as Hn. rewrite length_app in Hn. cbn [length] in Hn.
  rewrite element_docs_app in Hs. cbn [element_docs] in Hs. rewrite body_bytes_app, body_bytes_one, blen_app, blen_entry in Hs.
  unfold e_doc in Hs. cbn [e_key e_value] in Hs. rewrite blen_doc_bytes in Hs. rewrite Z.add_0_l in Hs.
  pose proof (blen_nonneg (body_bytes (element_docs 0 old))). pose proof (blen_nonneg (body_bytes (error_doc x))).
  pose proof (blen_nonneg (print_dec 10 (Z.of_nat (length old)))).
  unfold merge_element. rewrite (entry_HOLDS _ _ _ Hon). cbn [bind e_doc e_type]. rewrite bool_decide_true by done.
  assert (Hsz : blen (body_bytes (error_doc x)) ≤ 2 ^ 28) by lia.
  destruct (e_sub_get _ _ _ _ _ Hon) as (post & Hpost & ->); [by left|lia|]. cbn [bind].
  destruct (start_fields (error_doc x) post (error_doc_ok x Hx) Hpost ltac:(unfold INT_MAX; lia)) as (last & l & Hf & Hall).
  pose proof (error_doc_body x) as Hbody.
  assert (Hbl : Z.of_nat (length old) < 2 ^ 28) by (pose proof (element_docs_bytes 0 old); lia).
  rewrite u32_small by lia.
  destruct (in_element_ok dest (element_docs 0 old) (Z.of_nat (length old)) (λ child, let* r := for_each_field (merge_field fresh offset)
    (iter_start (doc_bytes (body_bytes (error_doc x)) ++ post) (5 + blen (body_bytes (error_doc x)))) child in Ret r.2)
    (body_bytes (error_doc (absolute offset x))) Hd ltac:(lia) ltac:(lia)) as (dest' & -> & Hd').
  - intros m Hm. rewrite (for_each_fold _ _ last l _ Hf). unfold error_doc in Hall. inversion Hall as [|? f0 ? l' Hon0 Hall']; subst.
    cbn [fold_fields]. destruct (dec_key (Z.of_nat (length old)) ltac:(lia)) as [_ Hk].
    pose proof (inner_extent (element_docs 0 old) (print_dec 10 (Z.of_nat (length old))) [] Hk) as He0. rewrite blen_nil in He0.
    destruct (merge_field_index offset _ x.1 f0 m [] _ Hon0 Hi Hm ltac:(lia)) as (m1 & -> & Hm1). cbn [bind fst snd].
    rewrite app_nil_l in Hm1. rewrite Hbody in Hsz.
    pose proof (inner_extent (element_docs 0 old) _ (entry_bytes (e_int32 (cs "index") (s32 (u32 (x.1 + offset))))) Hk) as He1.
    rewrite index_size in *.
    destruct (merge_fields_copy offset _ x.2 l' last m1 (entry_bytes (e_int32 (cs "index") (s32 (u32 (x.1 + offset)))))
      [body_bytes (element_docs 0 old) ++ 3 :: print_dec 10 (Z.of_nat (length old)) ++ [0]] Hall' Hcan Hr Hne) as (last' & m2 & -> & Hm2); [lia|done|lia|].
    cbn [bind snd]. exists m2. split; [done|]. unfold error_doc, absolute. cbn [fst snd]. by rewrite body_bytes_cons.
  - cbn [bind]. rewrite !chk32_ok by (unfold in_s32; lia). cbn [bind]. exists dest'. split; [done|].
    rewrite element_docs_app. cbn [element_docs]. by rewrite Z.add_0_l.
Qed.
Lemma merge_elements_ok offset data xs i l last dest old aridx count :
  Forall2 (on_entry data) (element_docs i (map error_doc xs)) l → Forall error_ok xs → builds dest (body_bytes (element_docs 0 old)) [] →
  blen (body_bytes (element_docs 0 (old ++ map error_doc xs))) ≤ 2 ^ 28 → aridx = Z.of_nat (length old) → 0 ≤ count ≤ aridx →
  ∃ last' dest', fold_fields (merge_element fresh offset) l last (dest, aridx, count)
      = Ret (last', (dest', aridx + Z.of_nat (length xs), count + Z.of_nat (length xs)))
    ∧ builds dest' (body_bytes (element_docs 0 (old ++ map (error_doc ∘ absolute offset) xs))) [].
Proof.
  intros Hall Hxs. revert i l last dest old aridx count Hall. induction Hxs as [|x xs Hx Hxs IH];
    intros i l last dest old aridx count Hall Hd Hs Ha Hc; cbn [map element_docs] in Hall; inversion Hall as [|? f ? l' Hon Hall']; subst.
  { exists last, dest. cbn [fold_fields length map]. rewrite !Z.add_0_r, app_nil_r. done. }
  cbn [map] in Hs. replace (old ++ error_doc x :: map error_doc xs) with ((old ++ [error_doc x]) ++ map error_doc xs) in Hs by (by rewrite <- app_assoc).
  assert (Hs1 : blen (body_bytes (element_docs 0 (old ++ [error_doc x]))) ≤ 2 ^ 28).
  { rewrite element_docs_app in Hs. by apply prefix_size in Hs. }
  cbn [fold_fields]. destruct (merge_element_ok offset data x _ f dest old _ count Hon Hx Hd Hs1 eq_refl Hc) as (d1 & -> & Hd1). cbn [bind fst snd].
  destruct (IH (i + 1) l' last d1 (old ++ [error_doc (absolute offset x)]) (Z.of_nat (length old) + 1) (count + 1) Hall' Hd1) as (last' & d2 & E & Hd2).
  - rewrite element_docs_app, body_bytes_app, blen_app in *. etransitivity; [|exact Hs]. rewrite !length_app. apply Z.add_le_mono_r.
    pose proof (element_docs_size_map (Z.of_nat (length old)) offset [x]) as E. rewrite !element_docs_app, !body_bytes_app, !blen_app.
    cbn [map] in E. unfold compose in E. rewrite Z.add_0_l. by rewrite E.
  - rewrite length_app. cbn [length]. lia.
  - lia.
  - rewrite E. cbn [length map]. eexists last', d2. split; [do 3 f_equal; [f_equal|]; lia|]. by rewrite <- app_assoc in Hd2.
Qed.
Lemma count_keys_doc es :
  Forall entry_ok es → 5 + blen (body_bytes es) ≤ INT_MAX → bson_count_keys (doc_of es) = Ret (Z.of_nat (length es)).
Proof.
  intros Hes Hmax. pose proof (blen_nonneg (body_bytes es)).
  destruct (count_keys_list (doc_of es)) as (last & l & Hf & E).
  - split; [by apply bytes_ok_doc, body_bytes_ok|]. unfold doc_of. rewrite blen_doc_bytes. lia.
  - unfold doc_of. rewrite blen_doc_bytes. lia.
  - destruct (start_fields es [] Hes ltac:(constructor) Hmax) as (last' & l' & Hf' & Hall). rewrite app_nil_r in Hf'.
    unfold doc_of in Hf. rewrite blen_doc_bytes, Hf' in Hf. injection Hf as <- <-. rewrite E. by rewrite (Forall2_length _ _ _ Hall).
Qed.
Lemma merge_arrays_ok offset data k xs f dest old :
  on_entry data (e_array k (body_bytes (element_docs 0 (map error_doc xs)))) f → Forall error_ok xs →
  blen (body_bytes (element_docs 0 (map error_doc xs))) ≤ 2 ^ 28 → Forall (Forall entry_ok) old →
  builds dest (body_bytes (element_docs 0 old)) [] → blen (body_bytes (element_docs 0 (old ++ map error_doc xs))) ≤ 2 ^ 28 →
  ∃ dest', _mongoc_write_result_merge_arrays fresh offset dest f = Ret (Z.of_nat (length xs), dest')
    ∧ builds dest' (body_bytes (element_docs 0 (old ++ map (error_doc ∘ absolute offset) xs))) [].
Proof.
  intros Hon Hxs Hl Hold Hd Hs. unfold _mongoc_write_result_merge_arrays. rewrite (entry_HOLDS _ _ _ Hon). cbn [bind e_array e_type].
  rewrite bool_decide_true by done. cbn [bson_assert bind]. rewrite (get_data_builds _ _ _ Hd). cbn [bind].
  assert (Hs0 : blen (body_bytes (element_docs 0 old)) ≤ 2 ^ 28) by (rewrite element_docs_app in Hs; by apply prefix_size in Hs).
  fold (doc_of (element_docs 0 old)). rewrite count_keys_doc; [|apply element_docs_ok; [done|done|lia]|unfold INT_MAX; lia]. cbn [bind].
  rewrite element_docs_length. pose proof (element_docs_bytes 0 old).
  destruct (e_sub_get _ _ _ _ _ Hon) as (post & Hpost & ->); [by right|lia|]. cbn [bind].
  destruct (start_fields (element_docs 0 (map error_doc xs)) post) as (last & l & Hf & Hall); [|done|unfold INT_MAX; lia|].
  { apply element_docs_ok; [done| |lia]. apply Forall_map. eapply Forall_impl; [exact Hxs|apply error_doc_ok]. }
  rewrite (for_each_fold _ _ last l _ Hf). rewrite s32_small by (unfold in_s32; lia).
  destruct (merge_elements_ok offset _ xs 0 l last dest old _ 0 Hall Hxs Hd Hs eq_refl ltac:(lia)) as (last' & d' & -> & Hd'). cbn [bind fst snd].
  exists d'. by rewrite Z.add_0_l.
Qed.

(** ** The upserted ids of a reply: an index, and the type and the value of the id *)
Definition up_doc (u : Z * (Z * list Z)) : list entry := [e_int32 (cs "index") u.1; Entry (cs "_id") u.2.1 u.2.2].
Definition up_ok (u : Z * (Z * list Z)) : Prop :=
  in_s32 u.1 ∧ entry_ok (Entry (cs "_id") u.2.1 u.2.2) ∧ canonical_entry (Entry (cs "_id") u.2.1 u.2.2).
Definition up_absolute (offset : Z) (u : Z * (Z * list Z)) : Z * (Z * list Z) := (s32 (u32 (offset + u.1)), u.2).
Lemma up_doc_ok u : up_ok u → Forall entry_ok (up_doc u).
Proof. intros (_ & H & _). apply Forall_cons; split; [apply index_ok|by apply Forall_singleton]. Qed.
Lemma up_doc_body u : blen (body_bytes (up_doc u)) = 16 + blen u.2.2.
Proof.
  unfold up_doc. rewrite body_bytes_cons, body_bytes_one, blen_app, index_size, blen_entry. cbn [e_key e_value].
  change (blen (cs "_id")) with 3. lia.
Qed.
Lemma element_docs_size_ups i offset us :
  blen (body_bytes (element_docs i (map (up_doc ∘ up_absolute offset) us))) = blen (body_bytes (element_docs i (map up_doc us))).
Proof.
  revert i. induction us as [|u us IH]; intros i; [done|]. cbn [map element_docs]. rewrite !body_bytes_cons, !blen_app, IH. f_equal.
  rewrite !blen_entry. unfold e_doc, compose. cbn [e_key e_value]. rewrite !blen_doc_bytes, !up_doc_body. done.
Qed.

Lemma append_upsert_ok u v m0 (r : result_t) old :
  (∀ m body outer k, builds m body outer → Forall (λ b, b ≠ 0) k → blen k < 2 ^ 29 →
     appends (BSON_APPEND_VALUE fresh m k v) m body outer (entry_bytes (Entry k u.2.1 u.2.2))) →
  wr_upserted r = m0 → builds m0 (body_bytes (element_docs 0 old)) [] → wr_upsert_append_count r = Z.of_nat (length old) →
  blen (body_bytes (element_docs 0 (old ++ [up_doc u]))) ≤ 2 ^ 28 →
  ∃ m', _mongoc_write_result_append_upsert fresh r u.1 (Some v)
      = Ret (set_upsert_append_count (Z.of_nat (length old) + 1) (set_upserted m' r))
    ∧ builds m' (body_bytes (element_docs 0 (old ++ [up_doc u]))) [].
Proof.
  intros Hv Hr Hm Hn Hs. pose proof (element_docs_bytes 0 old) as Hb. rewrite element_docs_app in Hs |- *. cbn [element_docs] in *.
  rewrite body_bytes_app, body_bytes_one, blen_app, blen_entry in Hs. unfold e_doc in Hs. cbn [e_key e_value] in Hs.
  rewrite blen_doc_bytes, up_doc_body in Hs. rewrite Z.add_0_l in *.
  pose proof (blen_nonneg u.2.2). pose proof (blen_nonneg (print_dec 10 (Z.of_nat (length old)))). pose proof (blen_nonneg (body_bytes (element_docs 0 old))).
  unfold _mongoc_write_result_append_upsert. rewrite Hn, Hr.
  destruct (in_element_ok m0 (element_docs 0 old) (Z.of_nat (length old)) (λ child : bson_mem,
    let* r := bson_append_int32 fresh child (c_lit "index") 5 u.1 in
    let* r := BSON_APPEND_VALUE fresh r.2 (cs "_id") v in Ret r.2) (body_bytes (up_doc u)) Hm ltac:(lia) ltac:(lia)) as (m' & -> & Hm').
  - intros m Hm1. destruct (dec_key (Z.of_nat (length old)) ltac:(lia)) as [_ Hk].
    pose proof (inner_extent (element_docs 0 old) _ [] Hk) as He0. rewrite blen_nil in He0.
    pose proof (append_int32_entry fresh m [] _ (cs "index") Hm1 ltac:(by repeat constructor) ltac:(by vm_compute) u.1) as Ha.
    apply appends_fits in Ha as (m2 & E & Hm2); [|rewrite index_size; lia]. unfold c_lit. change 5 with (blen (cs "index")). rewrite E. cbn [bind fst snd].
    rewrite app_nil_l in Hm2. pose proof (Hv m2 _ _ (cs "_id") Hm2 ltac:(by repeat constructor) ltac:(by vm_compute)) as Hb2.
    pose proof (inner_extent (element_docs 0 old) _ (entry_bytes (e_int32 (cs "index") u.1)) Hk) as He1. rewrite index_size in He1.
    apply appends_fits in Hb2 as (m3 & -> & Hm3); [|rewrite blen_entry; cbn [e_key e_value]; change (blen (cs "_id")) with 3; lia].
    cbn [bind snd]. exists m3. split; [done|]. unfold up_doc. by rewrite body_bytes_cons, body_bytes_one.
  - cbn [bind]. rewrite u32_small by lia. by exists m'.
Qed.
Lemma merge_upserted_ok offset data u k f (r : result_t) old n :
  on_entry data (e_doc k (body_bytes (up_doc u))) f → up_ok u → builds (wr_upserted r) (body_bytes (element_docs 0 old)) [] →
  wr_upsert_append_count r = Z.of_nat (length old) → 0 ≤ n ≤ Z.of_nat (length old) →
  blen (body_bytes (element_docs 0 (old ++ [up_doc u]))) ≤ 2 ^ 28 →
  ∃ m', merge_upserted fresh offset f (r, n) = Ret (true, (set_upsert_append_count (Z.of_nat (length old) + 1) (set_upserted m' r), n + 1))
    ∧ builds m' (body_bytes (element_docs 0 (old ++ [up_doc (up_absolute offset u)]))) [].
Proof.
  intros Hon Hu Hm Hc Hn Hs. pose proof Hu as (Hi & He & Hcan). unfold merge_upserted. rewrite (entry_HOLDS _ _ _ Hon). cbn [bind e_doc e_type].
  rewrite bool_decide_true by done. pose proof (up_doc_body u) as Hb. pose proof (element_docs_bytes 0 old) as Hlen.
  pose proof (element_docs_app 0 old [up_doc u]) as Happ. rewrite Happ in Hs. pose proof Hs as Hs'. rewrite <- Happ in Hs'. cbn [element_docs] in Hs.
  rewrite body_bytes_app, body_bytes_one, blen_app, blen_entry in Hs. unfold e_doc in Hs. cbn [e_key e_value] in Hs.
  rewrite blen_doc_bytes in Hs. rewrite Z.add_0_l in *.
  pose proof (blen_nonneg u.2.2). pose proof (blen_nonneg (print_dec 10 (Z.of_nat (length old)))). pose proof (blen_nonneg (body_bytes (element_docs 0 old))).
  destruct (e_sub_get _ _ _ _ _ Hon) as (post & Hpost & E); [by left|lia|]. rewrite E. cbn [bind].
  pose proof (find_entry (up_doc u) post (up_doc_ok u Hu) Hpost ltac:(unfold INT_MAX; lia)) as Hfind.
  destruct (Hfind (cs "index")) as (fi & Hf); [by repeat constructor|]. cbn [up_doc List.find e_key] in Hf.
  rewrite bool_decide_true in Hf by done. destruct Hf as [Ef Honi]. unfold c_lit. rewrite Ef. cbn [bind fst snd].
  rewrite (entry_HOLDS _ _ _ Honi). cbn [e_type e_int32]. rewrite bool_decide_true by done. cbn [bind negb].
  rewrite (e_int32_get _ _ _ _ Honi Hi). cbn [bind].
  destruct (Hfind (cs "_id")) as (fd & Hf); [by repeat constructor|]. cbn [up_doc List.find e_key e_int32] in Hf.
  rewrite bool_decide_false, bool_decide_true in Hf by done. destruct Hf as [Ed Hond]. rewrite Ed. cbn [bind fst snd negb].
  destruct (copy_entry fresh _ _ _ Hond Hcan) as (v & -> & Hv); [cbn [e_value]; lia|]. cbn [bind].
  destruct (append_upsert_ok (up_absolute offset u) v _ r old Hv eq_refl Hm Hc) as (m' & Eu & Hm').
  { pose proof (element_docs_size_ups (Z.of_nat (length old)) offset [u]) as E1. rewrite element_docs_app, body_bytes_app, blen_app in Hs' |- *.
    rewrite Z.add_0_l in *. cbn [map] in E1. unfold compose in E1. by rewrite E1. }
  cbn [up_absolute fst] in Eu. rewrite Eu. cbn [bind]. rewrite chk32_ok by (unfold in_s32; lia). cbn [bind]. by exists m'.
Qed.
Lemma merge_upserteds_ok offset data us i l last (r : result_t) old n :
  Forall2 (on_entry data) (element_docs i (map up_doc us)) l → Forall up_ok us → builds (wr_upserted r) (body_bytes (element_docs 0 old)) [] →
  wr_upsert_append_count r = Z.of_nat (length old) → 0 ≤ n ≤ Z.of_nat (length old) →
  blen (body_bytes (element_docs 0 (old ++ map up_doc us))) ≤ 2 ^ 28 →
  ∃ last' m', fold_fields (merge_upserted fresh offset) l last (r, n)
      = Ret (last', (set_upsert_append_count (Z.of_nat (length old) + Z.of_nat (length us)) (set_upserted m' r), n + Z.of_nat (length us)))
    ∧ builds m' (body_bytes (element_docs 0 (old ++ map (up_doc ∘ up_absolute offset) us))) [].
Proof.
  intros Hall Hus. revert i l last r old n Hall. induction Hus as [|u us Hu Hus IH];
    intros i l last r old n Hall Hm Hc Hn Hs; cbn [map element_docs] in Hall; inversion Hall as [|? f ? l' Hon Hall']; subst.
  { exists last, (wr_upserted r). cbn [fold_fields length map]. rewrite !Z.add_0_r, app_nil_r, <- Hc. by destruct r. }
  cbn [map] in Hs. replace (old ++ up_doc u :: map up_doc us) with ((old ++ [up_doc u]) ++ map up_doc us) in Hs by (by rewrite <- app_assoc).
  assert (Hs1 : blen (body_bytes (element_docs 0 (old ++ [up_doc u]))) ≤ 2 ^ 28) by (rewrite element_docs_app in Hs; by apply prefix_size in Hs).
  cbn [fold_fields]. destruct (merge_upserted_ok offset data u _ f r old n Hon Hu Hm Hc Hn Hs1) as (m1 & -> & Hm1). cbn [bind fst snd].
  destruct (IH (i + 1) l' last (set_upsert_append_count (Z.of_nat (length old) + 1) (set_upserted m1 r)) (old ++ [up_doc (up_absolute offset u)]) (n + 1) Hall')
    as (last' & m2 & E & Hm2); [exact Hm1|cbn; rewrite length_app; cbn; lia|rewrite length_app; cbn; lia| |].
  - rewrite element_docs_app, body_bytes_app, blen_app in *. etransitivity; [|exact Hs]. rewrite !length_app. apply Z.add_le_mono_r.
    pose proof (element_docs_size_ups (Z.of_nat (length old)) offset [u]) as E. rewrite !element_docs_app, !body_bytes_app, !blen_app.
    cbn [map] in E. unfold compose in E. rewrite Z.add_0_l. by rewrite E.
  - rewrite E. rewrite length_app. cbn [length map]. exists last', m2. split; [|by rewrite <- app_assoc in Hm2].
    replace (Z.of_nat (length old + 1) + Z.of_nat (length us)) with (Z.of_nat (length old) + Z.of_nat (S (length us))) by lia.
    replace (n + 1 + Z.of_nat (length us)) with (n + Z.of_nat (S (length us))) by lia. by destruct r.
Qed.

(** ** Labels *)
Definition add_label (ls : list (list Z)) (l : list Z) : list (list Z) := if bool_decide (l ∈ ls) then ls else ls ++ [l].
Lemma label_entries_bytes i ls : 7 * Z.of_nat (length ls) ≤ blen (body_bytes (label_entries i ls)).
Proof.
  revert i. induction ls as [|l ls IH]; intros i; cbn [label_entries length]; [done|]. rewrite body_bytes_cons, blen_app, blen_entry.
  unfold e_utf8. cbn [e_key e_value]. rewrite !blen_app, blen_le_bytes. change (blen [0]) with 1. pose proof (blen_nonneg l).
  pose proof (blen_nonneg (print_dec 10 i)). specialize (IH (i + 1)). lia.
Qed.
Lemma scan_labels data label ls i l last n :
  Forall2 (on_entry data) (label_entries i ls) l → Forall label_ok ls → 0 ≤ n → n + Z.of_nat (length ls) < 2 ^ 32 →
  ∃ last' k, fold_fields (λ iter (s : Z * bool), let* x := utf8_string iter in
      if streq x label then Ret (false, (s.1, true)) else Ret (true, (u32 (s.1 + 1), s.2))) l last (n, false)
    = Ret (last', (k, bool_decide (label ∈ ls))) ∧ (label ∉ ls → k = n + Z.of_nat (length ls)).
Proof.
  intros Hall Hls. revert i l n Hall. induction Hls as [|x ls (_ & Hx & _) _ IH]; intros i l n Hall Hn Hs;
    cbn [label_entries] in Hall; inversion Hall as [|? f ? l' Hon Hall']; subst; cbn [fold_fields length] in *.
  { exists last, n. rewrite Z.add_0_r. by rewrite bool_decide_false by apply not_elem_of_nil. }
  rewrite (e_utf8_get _ _ _ _ Hon Hx). cbn [bind]. unfold streq at 1. destruct (bool_decide_reflect (x = label)) as [->|Hne]; cbn [bind].
  - exists f, n. rewrite bool_decide_true by left. split; [done|]. intros []. by left.
  - cbn [fst snd]. rewrite u32_small by lia. destruct (IH (i + 1) l' (n + 1) Hall' ltac:(lia) ltac:(lia)) as (last' & k & E & Hk). exists last', k.
    cbn [fst snd]. rewrite E. split; [do 3 f_equal; apply bool_decide_ext; rewrite elem_of_cons; naive_solver|].
    intros Hni. rewrite Hk; [lia|]. intros ?. apply Hni. by right.
Qed.
Lemma add_label_ok m ls label :
  builds m (body_bytes (label_entries 0 ls)) [] → Forall label_ok ls → label_ok label →
  blen (body_bytes (label_entries 0 (add_label ls label))) ≤ 2 ^ 28 →
  ∃ m', _mongoc_bson_array_add_label fresh m label = Ret m' ∧ builds m' (body_bytes (label_entries 0 (add_label ls label))) [].
Proof.
  intros Hm Hls Hl Hs. pose proof Hl as (Hb & Hnz & Hlen). unfold _mongoc_bson_array_add_label. rewrite (get_data_builds _ _ _ Hm). cbn [bind].
  assert (Hs0 : blen (body_bytes (label_entries 0 ls)) ≤ 2 ^ 28).
  { unfold add_label in Hs. case_bool_decide; [done|]. rewrite label_entries_app in Hs. by apply prefix_size in Hs. }
  pose proof (label_entries_bytes 0 ls) as Hn. pose proof (blen_nonneg (body_bytes (label_entries 0 ls))).
  unfold bson_iter_init. rewrite blen_doc_bytes. destruct (Z.ltb_spec (5 + blen (body_bytes (label_entries 0 ls))) 5); [lia|]. cbn [bson_assert bind].
  destruct (start_fields (label_entries 0 ls) []) as (last & l & Hf & Hall); [by apply label_entries_ok|constructor|unfold INT_MAX; lia|].
  rewrite app_nil_r in *. rewrite (for_each_fold _ _ last l _ Hf).
  destruct (scan_labels _ label ls 0 l last 0 Hall Hls ltac:(lia) ltac:(lia)) as (last' & k & -> & Hk). cbn [bind fst snd].
  unfold add_label in *. destruct (bool_decide_reflect (label ∈ ls)) as [Hin|Hni]; [by exists m|]. rewrite (Hk Hni), Z.add_0_l in *.
  rewrite uint32_to_string_decimal by lia. cbn [bind fst]. destruct (dec_key (Z.of_nat (length ls)) ltac:(lia)) as [[_ Hkz] Hkl].
  pose proof (blen_nonneg (print_dec 10 (Z.of_nat (length ls)))). pose proof (blen_nonneg label).
  unfold BSON_APPEND_UTF8. rewrite !s32_small by (unfold in_s32; lia).
  pose proof (append_utf8_entry fresh m _ [] (print_dec 10 (Z.of_nat (length ls))) Hm Hkz ltac:(lia) label ltac:(lia)) as Ha.
  rewrite label_entries_app, body_bytes_app, Z.add_0_l in *. cbn [label_entries] in *. rewrite body_bytes_one in *.
  apply appends_fits in Ha as (m' & -> & Hm'); [by exists m'|]. unfold extent. cbn [front length]. rewrite blen_app in Hs. change (blen []) with 0. lia.
Qed.
Lemma add_label_label_ok ls l : Forall label_ok ls → label_ok l → Forall label_ok (add_label ls l).
Proof. intros. unfold add_label. case_bool_decide; [done|]. apply Forall_app. by split; [|apply Forall_singleton]. Qed.
Lemma add_labels_prefix new ls : ∃ more, fold_left add_label new ls = ls ++ more.
Proof.
  revert ls. induction new as [|l new IH]; intros ls; [exists []; by rewrite app_nil_r|]. cbn. destruct (IH (add_label ls l)) as [more ->].
  unfold add_label. case_bool_decide; [by exists more|]. rewrite <- app_assoc. by eexists.
Qed.
Lemma copy_labels_fold data new i l last dst ls :
  Forall2 (on_entry data) (label_entries i new) l → Forall label_ok new → Forall label_ok ls →
  builds dst (body_bytes (label_entries 0 ls)) [] → blen (body_bytes (label_entries 0 (fold_left add_label new ls))) ≤ 2 ^ 28 →
  ∃ last' m', fold_fields (λ label dst,
      let* holds := BSON_ITER_HOLDS label BSON_TYPE_UTF8 in
      if negb holds then Ret (true, dst)
      else let* s := utf8_string label in let* dst := _mongoc_bson_array_add_label fresh dst s in Ret (true, dst)) l last dst = Ret (last', m')
    ∧ builds m' (body_bytes (label_entries 0 (fold_left add_label new ls))) [].
Proof.
  intros Hall Hnew. revert i l dst ls Hall. induction Hnew as [|x new Hx _ IH]; intros i l dst ls Hall Hls Hd Hs;
    cbn [label_entries] in Hall; inversion Hall as [|? f ? l' Hon Hall']; subst; cbn [fold_fields fold_left] in *; [by exists last, dst|].
  rewrite (entry_HOLDS _ _ _ Hon), bool_decide_true by done. cbn [bind negb]. rewrite (e_utf8_get _ _ _ _ Hon (proj1 (proj2 Hx))). cbn [bind].
  destruct (add_label_ok dst ls x Hd Hls Hx) as (m1 & -> & Hm1).
  { destruct (add_labels_prefix new (add_label ls x)) as [more E]. rewrite E, label_entries_app in Hs. by apply prefix_size in Hs. }
  cbn [bind]. by apply (IH (i + 1) l' m1 (add_label ls x) Hall' (add_label_label_ok _ _ Hls Hx) Hm1).
Qed.
Lemma copy_labels_to_ok es new dst ls :
  Forall entry_ok es → 5 + blen (body_bytes es) ≤ INT_MAX → has_labels es new → Forall label_ok new → Forall label_ok ls →
  builds dst (body_bytes (label_entries 0 ls)) [] → blen (body_bytes (label_entries 0 (fold_left add_label new ls))) ≤ 2 ^ 28 →
  ∃ m', _mongoc_bson_array_copy_labels_to fresh (doc_of es) dst = Ret m'
    ∧ builds m' (body_bytes (label_entries 0 (fold_left add_label new ls))) [].
Proof.
  intros Hes Hmax Hlab Hnew Hls Hd Hs. unfold _mongoc_bson_array_copy_labels_to.
  destruct (init_find_entry es (cs "errorLabels") Hes Hmax ltac:(by repeat constructor)) as [f Hf]. unfold has_labels in Hlab. unfold doc_of, c_lit.
  destruct (List.find _ es) as [e|] eqn:Hfind; [|subst new; rewrite Hf; by exists dst]. destruct Hf as [-> Hon]. subst e. cbn [bind fst snd negb].
  pose proof (found_size _ _ _ Hfind) as Hsz. unfold labels_field, e_array in Hsz. cbn [e_key e_value] in Hsz. rewrite blen_doc_bytes in Hsz.
  change (blen (cs "errorLabels")) with 11 in Hsz. unfold INT_MAX in Hmax.
  destruct (e_sub_get _ _ _ _ _ Hon) as (post & Hpost & ->); [by right|lia|]. cbn [bind].
  destruct (start_fields (label_entries 0 new) post) as (last & l & Hf & Hall); [by apply label_entries_ok|done|unfold INT_MAX; lia|].
  rewrite (for_each_fold _ _ last l _ Hf). destruct (copy_labels_fold _ new 0 l last dst ls Hall Hnew Hls Hd Hs) as (last' & m' & -> & Hm').
  by exists m'.
Qed.
End Element.

(** ** What a result stands for *)
Record totals := Totals {
  tt_inserted : Z;
  tt_matched : Z;
  tt_modified : Z;
  tt_removed : Z;
  tt_upserted : Z;
  tt_errors : list (Z * list entry);
  tt_ups : list (Z * (Z * list Z));
  tt_wces : list (list entry);
  tt_labels : list (list Z);
  tt_failed : bool
}.
Notation errors_body t := (body_bytes (element_docs 0 (map error_doc (tt_errors t)))).
Notation ups_body t := (body_bytes (element_docs 0 (map up_doc (tt_ups t)))).
Notation wces_body t := (body_bytes (element_docs 0 (tt_wces t))).
Notation labels_body t := (body_bytes (label_entries 0 (tt_labels t))).
Record represents (r : result_t) (t : totals) : Prop := {
  rp_counts : wr_nInserted r = tt_inserted t ∧ wr_nMatched r = tt_matched t ∧ wr_nModified r = tt_modified t
    ∧ wr_nRemoved r = tt_removed t ∧ wr_nUpserted r = tt_upserted t;
  rp_errors : builds (wr_writeErrors r) (errors_body t) [] ∧ Forall error_ok (tt_errors t);
  rp_ups : builds (wr_upserted r) (ups_body t) [] ∧ wr_upsert_append_count r = Z.of_nat (length (tt_ups t));
  rp_wces : builds (wr_writeConcernErrors r) (wces_body t) [] ∧ wr_n_writeConcernErrors r = Z.of_nat (length (tt_wces t));
  rp_labels : builds (wr_errorLabels r) (labels_body t) [] ∧ Forall label_ok (tt_labels t);
  rp_failed : wr_failed r = tt_failed t
}.
(** the four arrays stay far from the largest document *)
Definition fits (t : totals) : Prop :=
  blen (errors_body t) ≤ 2 ^ 28 ∧ blen (ups_body t) ≤ 2 ^ 28 ∧ blen (wces_body t) ≤ 2 ^ 28 ∧ blen (labels_body t) ≤ 2 ^ 28.

(** what a reply says about a batch *)
Record reply_fields := ReplyFields {
  rf_n : option Z;
  rf_errors : option (list (Z * list entry));
  rf_ups : option (list (Z * (Z * list Z)));
  rf_modified : option Z;
  rf_wce : option (list entry);
  rf_labels : list (list Z)
}.
Definition field_of (es : list entry) (k : list Z) : option entry := List.find (λ e, bool_decide (e_key e = k)) es.
Record says (es : list entry) (rf : reply_fields) : Prop := {
  sa_ok : Forall entry_ok es ∧ 5 + blen (body_bytes es) ≤ INT_MAX;
  sa_n : field_of es (cs "n") = option_map (e_int32 (cs "n")) (rf_n rf);
  sa_errors : field_of es (cs "writeErrors") = option_map (λ xs, e_array (cs "writeErrors") (body_bytes (element_docs 0 (map error_doc xs)))) (rf_errors rf);
  sa_ups : field_of es (cs "upserted") = option_map (λ us, e_array (cs "upserted") (body_bytes (element_docs 0 (map up_doc us)))) (rf_ups rf);
  sa_modified : field_of es (cs "nModified") = option_map (e_int32 (cs "nModified")) (rf_modified rf);
  sa_wce : field_of es (cs "writeConcernError") = option_map (λ w, e_doc (cs "writeConcernError") (body_bytes w)) (rf_wce rf);
  sa_labels : has_labels es (rf_labels rf)
}.
Record well_said (rf : reply_fields) : Prop := {
  ws_n : from_option in_s32 True (rf_n rf);
  ws_modified : from_option in_s32 True (rf_modified rf);
  ws_errors : from_option (Forall error_ok) True (rf_errors rf);
  ws_ups : from_option (Forall up_ok) True (rf_ups rf);
  ws_matched : - 2 ^ 31 ≤ default 0 (rf_n rf) - Z.of_nat (length (default [] (rf_ups rf)));
  ws_labels : Forall label_ok (rf_labels rf)
}.

(** The reply to a batch whose first document has the index [offset]. *)
Definition merged (ty : write_command_type) (offset : Z) (rf : reply_fields) (t : totals) : totals :=
  let affected := default 0 (rf_n rf) in
  let us := default [] (rf_ups rf) in
  let is_update := bool_decide (ty = MONGOC_WRITE_COMMAND_UPDATE) in
  Totals
    (if bool_decide (ty = MONGOC_WRITE_COMMAND_INSERT) then u32 (tt_inserted t + affected) else tt_inserted t)
    (if is_update then u32 (tt_matched t + match rf_ups rf with Some us => Z.max 0 (affected - Z.of_nat (length us)) | None => affected end)
     else tt_matched t)
    (if is_update then match rf_modified rf with Some n => u32 (tt_modified t + n) | None => tt_modified t end else tt_modified t)
    (if bool_decide (ty = MONGOC_WRITE_COMMAND_DELETE) then u32 (tt_removed t + affected) else tt_removed t)
    (if is_update then match rf_ups rf with Some us => u32 (tt_upserted t + Z.of_nat (length us)) | None => tt_upserted t end else tt_upserted t)
    (tt_errors t ++ map (absolute offset) (default [] (rf_errors rf)))
    (if is_update then tt_ups t ++ map (up_absolute offset) us else tt_ups t)
    (tt_wces t ++ match rf_wce rf with Some w => [w] | None => [] end)
    (fold_left add_label (rf_labels rf) (tt_labels t))
    (tt_failed t || match rf_errors rf with Some (_ :: _) => true | _ => false end).

(** lower keys are not longer *)
Lemma dec_mono f i j : 0 ≤ i ≤ j → blen (print_dec f i) ≤ blen (print_dec f j).
Proof.
  revert i j. induction f as [|f IH]; intros i j H; [done|]. cbn [print_dec]. rewrite !blen_app. change (blen [48 + i mod 10]) with (blen [48 + j mod 10]).
  destruct (Z.ltb_spec i 10), (Z.ltb_spec j 10); [lia|pose proof (blen_nonneg (print_dec f (j / 10))); rewrite blen_nil; lia|lia|].
  pose proof (IH (i / 10) (j / 10)) as Hd. assert (0 ≤ i / 10 ≤ j / 10); [|lia]. split; [apply Z.div_pos; lia|apply Z.div_le_mono; lia].
Qed.
Lemma print_dec_mono i j : 0 ≤ i ≤ j → blen (print_dec 10 i) ≤ blen (print_dec 10 j).
Proof. apply dec_mono. Qed.
Lemma element_docs_le i j bodies : 0 ≤ i ≤ j → blen (body_bytes (element_docs i bodies)) ≤ blen (body_bytes (element_docs j bodies)).
Proof.
  revert i j. induction bodies as [|b bodies IH]; intros i j H; [done|]. cbn [element_docs]. rewrite !body_bytes_cons, !blen_app, !blen_entry.
  unfold e_doc. cbn [e_key e_value]. rewrite !blen_doc_bytes. pose proof (IH (i + 1) (j + 1) ltac:(lia)). pose proof (print_dec_mono i j H). lia.
Qed.

Section Merge.
Variable fresh : Z → Z.

Lemma absolute_ok offset x : error_ok x → error_ok (absolute offset x).
Proof. intros (_ & H). split; [apply s32_range|exact H]. Qed.
Lemma errors_size old offset xs :
  blen (body_bytes (element_docs 0 (map error_doc (old ++ map (absolute offset) xs)))) = blen (body_bytes (element_docs 0 (map error_doc old ++ map error_doc xs))).
Proof. rewrite map_app, map_map, !element_docs_app, !body_bytes_app, !blen_app. by rewrite (element_docs_size_map _ offset xs). Qed.
Lemma ups_size old offset us :
  blen (body_bytes (element_docs 0 (map up_doc (old ++ map (up_absolute offset) us)))) = blen (body_bytes (element_docs 0 (map up_doc old ++ map up_doc us))).
Proof. rewrite map_app, map_map, !element_docs_app, !body_bytes_app, !blen_app. by rewrite (element_docs_size_ups _ offset us). Qed.

(** an int32 field, and an array field *)
Lemma int_field_ok es k o :
  Forall entry_ok es → 5 + blen (body_bytes es) ≤ INT_MAX → Forall (λ b, b ≠ 0) k → field_of es k = option_map (e_int32 k) o →
  from_option in_s32 True o →
  ∃ f, find_holding (doc_of es) (c_mem k) BSON_TYPE_INT32 = Ret f ∧ match o with Some n => ∃ it, f = Some it ∧ bson_iter_int32 it = Ret n | None => f = None end.
Proof.
  intros Hes Hmax Hk Hf Ho. pose proof (find_holding_entry es k BSON_TYPE_INT32 Hes Hmax Hk) as H. unfold field_of in Hf.
  destruct (List.find _ es) as [e|]; destruct o as [n|]; try done; cbn in Hf; [|by exists None].
  injection Hf as ->. cbn [e_int32 e_type] in H. rewrite bool_decide_true in H by done. destruct H as (f & -> & Hon).
  exists (Some f). split; [done|]. exists f. split; [done|]. by apply (e_int32_get _ _ _ _ Hon).
Qed.
Lemma sub_field_ok es k t (mk : list Z → list Z → entry) o :
  Forall entry_ok es → 5 + blen (body_bytes es) ≤ INT_MAX → Forall (λ b, b ≠ 0) k → field_of es k = option_map (mk k) o →
  (∀ b, bson_type_of_byte (e_type (mk k b)) = t) →
  match o with
  | Some b => ∃ f, find_holding (doc_of es) (c_mem k) t = Ret (Some f) ∧ on_entry (doc_of es) (mk k b) f
      ∧ bson_iter_init_find (doc_of es) (c_mem k) = Ret (true, f)
  | None => find_holding (doc_of es) (c_mem k) t = Ret None ∧ ∃ f, bson_iter_init_find (doc_of es) (c_mem k) = Ret (false, f)
  end.
Proof.
  intros Hes Hmax Hk Hf Ht. unfold find_holding. destruct (init_find_entry es k Hes Hmax Hk) as [f H]. unfold field_of in Hf. fold (doc_of es) in H.
  destruct (List.find _ es) as [e|]; destruct o as [b|]; try done; cbn in Hf.
  - injection Hf as ->. destruct H as [-> Hon]. cbn [bind fst snd]. rewrite (entry_HOLDS _ _ _ Hon). cbn [bind].
    rewrite Ht, bool_decide_true by done. by exists f.
  - rewrite H. cbn [bind fst]. split; [done|]. by exists f.
Qed.

(** what merging leaves alone *)
Definition same_rest (r r' : result_t) : Prop :=
  wr_must_stop r' = wr_must_stop r ∧ wr_error r' = wr_error r ∧ wr_retry_server_id r' = wr_retry_server_id r.
Lemma same_rest_trans r1 r2 r3 : same_rest r1 r2 → same_rest r2 r3 → same_rest r1 r3.
Proof. unfold same_rest. intros (? & ? & ?) (? & ? & ?). repeat split; congruence. Qed.

(** the totals after each part of the merge *)
Definition with_counts (ty : write_command_type) (offset : Z) (rf : reply_fields) (t : totals) : totals :=
  let m := merged ty offset rf t in
  Totals (tt_inserted m) (tt_matched m) (tt_modified m) (tt_removed m) (tt_upserted m) (tt_errors t) (tt_ups m) (tt_wces t) (tt_labels t) (tt_failed t).
Definition with_errors (xs : list (Z * list entry)) (t : totals) : totals :=
  Totals (tt_inserted t) (tt_matched t) (tt_modified t) (tt_removed t) (tt_upserted t) (tt_errors t ++ xs) (tt_ups t) (tt_wces t) (tt_labels t) (tt_failed t).
Definition with_wces (ws : list (list entry)) (t : totals) : totals :=
  Totals (tt_inserted t) (tt_matched t) (tt_modified t) (tt_removed t) (tt_upserted t) (tt_errors t) (tt_ups t) (tt_wces t ++ ws) (tt_labels t) (tt_failed t).
Definition with_labels (ls : list (list Z)) (t : totals) : totals :=
  Totals (tt_inserted t) (tt_matched t) (tt_modified t) (tt_removed t) (tt_upserted t) (tt_errors t) (tt_ups t) (tt_wces t) (fold_left add_label ls (tt_labels t)) (tt_failed t).
Definition with_failed (b : bool) (t : totals) : totals :=
  Totals (tt_inserted t) (tt_matched t) (tt_modified t) (tt_removed t) (tt_upserted t) (tt_errors t) (tt_ups t) (tt_wces t) (tt_labels t) (tt_failed t || b).
Definition any_error (rf : reply_fields) : bool := match rf_errors rf with Some (_ :: _) => true | _ => false end.
Definition wces_of (rf : reply_fields) : list (list entry) := match rf_wce rf with Some w => [w] | None => [] end.
Lemma merged_parts ty offset rf t :
  with_labels (rf_labels rf) (with_wces (wces_of rf) (with_errors (map (absolute offset) (default [] (rf_errors rf)))
    (with_counts ty offset rf (with_failed (any_error rf) t)))) = merged ty offset rf t.
Proof. done. Qed.

Section Counts.
Context (command : mongoc_write_command_t) (es : list entry) (rf : reply_fields) (offset : Z).
Hypothesis Hsays : says es rf.
Hypothesis Hwell : well_said rf.
Notation ty := (wcm_type command).
Notation affected := (default 0 (rf_n rf)).

Lemma modified_ok (r : result_t) :
  (let* m := find_holding (doc_of es) (c_lit "nModified") BSON_TYPE_INT32 in
   match m with
   | Some it => let* n := bson_iter_int32 it in Ret (set_nModified (u32 (wr_nModified r + n)) r)
   | None => Ret r
   end) = Ret (set_nModified (match rf_modified rf with Some n => u32 (wr_nModified r + n) | None => wr_nModified r end) r).
Proof.
  destruct Hsays as [[Hes Hmax] _ _ _ Hm _ _].
  destruct (int_field_ok es (cs "nModified") (rf_modified rf) Hes Hmax ltac:(by repeat constructor) Hm (ws_modified _ Hwell)) as (f & E & Hf).
  unfold c_lit. rewrite E. cbn [bind]. destruct (rf_modified rf) as [n|]; [destruct Hf as (it & -> & ->); done|]. subst f. by destruct r.
Qed.
Lemma counts_ok (r : result_t) t :
  represents r t → blen (ups_body (with_counts ty offset rf t)) ≤ 2 ^ 28 →
  ∃ r', merge_counts fresh command (doc_of es) offset affected r = Ret r' ∧ represents r' (with_counts ty offset rf t) ∧ same_rest r r'.
Proof.
  intros Hr Hs. pose proof Hsays as [[Hes Hmax] _ _ Hu _ _ _]. destruct Hr as [(C1 & C2 & C3 & C4 & C5) Herr [Hup Hupn] Hw Hl Hf].
  unfold merge_counts. destruct ty eqn:Ety.
  - eexists. split; [done|]. split; [|done]. constructor; cbn; try done. by rewrite C4.
  - eexists. split; [done|]. split; [|done]. constructor; cbn; try done. by rewrite C1.
  - pose proof (sub_field_ok es (cs "upserted") BSON_TYPE_ARRAY (λ k us, e_array k us)
      (option_map (λ us, body_bytes (element_docs 0 (map up_doc us))) (rf_ups rf)) Hes Hmax ltac:(by repeat constructor)) as H.
    assert (Hfo : field_of es (cs "upserted") = option_map (e_array (cs "upserted")) (option_map (λ us, body_bytes (element_docs 0 (map up_doc us))) (rf_ups rf)))
      by (rewrite Hu; by destruct (rf_ups rf)).
    specialize (H Hfo ltac:(done)). unfold c_lit at 1. destruct (rf_ups rf) as [us|] eqn:Eus; cbn [option_map] in H.
    + destruct H as (f & _ & Hon & ->). cbn [bind fst snd]. rewrite (entry_HOLDS _ _ _ Hon). cbn [bind e_array e_type].
      rewrite bool_decide_true by done. pose proof (found_size _ _ _ Hfo) as Hsz. cbn [option_map e_array e_key e_value] in Hsz. rewrite blen_doc_bytes in Hsz.
      change (blen (cs "upserted")) with 8 in Hsz. unfold INT_MAX in Hmax.
      destruct (e_sub_get _ _ _ _ _ Hon) as (post & Hpost & ->); [by right|lia|]. cbn [bind].
      pose proof (ws_ups _ Hwell) as Hus. rewrite Eus in Hus. cbn [from_option] in Hus.
      destruct (start_fields (element_docs 0 (map up_doc us)) post) as (last & l & Hfs & Hall); [|done|unfold INT_MAX; lia|].
      { apply element_docs_ok; [done| |lia]. apply Forall_map. eapply Forall_impl; [exact Hus|apply up_doc_ok]. }
      rewrite (for_each_fold _ _ last l _ Hfs).
      cbn [with_counts merged tt_ups] in Hs. rewrite Eus in Hs. cbn [default] in Hs. rewrite (bool_decide_true (MONGOC_WRITE_COMMAND_UPDATE = MONGOC_WRITE_COMMAND_UPDATE)) in Hs by done.
      rewrite ups_size in Hs.
      destruct (merge_upserteds_ok fresh offset _ us 0 l last r (map up_doc (tt_ups t)) 0 Hall Hus Hup) as (last' & m' & -> & Hm'); [by rewrite length_map|lia|done|].
      cbn [bind snd]. rewrite Z.add_0_l. pose proof (ws_matched _ Hwell) as Hmt. rewrite Eus in Hmt. cbn [default] in Hmt. pose proof (ws_n _ Hwell) as Hn.
      rewrite chk32_ok by (unfold in_s32; destruct (rf_n rf); cbn in *; unfold in_s32 in Hn; lia). cbn [bind]. rewrite modified_ok.
      eexists. split; [done|]. rewrite length_map. split; [|done]. unfold with_counts, merged. rewrite Eus.
      rewrite (bool_decide_true (MONGOC_WRITE_COMMAND_UPDATE = MONGOC_WRITE_COMMAND_UPDATE)) by done.
      constructor; cbn; try done; [by rewrite C2, C3, C5|]. split; [by rewrite map_app, map_map|]. rewrite length_app, length_map. lia.
    + destruct H as (_ & f & ->). cbn [bind fst]. rewrite modified_ok. eexists. split; [done|]. split; [|done].
      unfold with_counts, merged. rewrite Eus. cbn [default map]. rewrite app_nil_r. cbn. constructor; cbn; try done. by rewrite C2, C3.
Qed.
End Counts.

Section Whole.
Context (es : list entry) (rf : reply_fields) (offset : Z).
Hypothesis Hsays : says es rf.
Hypothesis Hwell : well_said rf.

(** the array of errors, and whether it has one *)
Lemma errors_found :
  ∃ errors, find_holding (doc_of es) (c_lit "writeErrors") BSON_TYPE_ARRAY = Ret errors
    ∧ (match errors with
       | Some it =>
           let* citer := bson_iter_recurse it in
           match citer with Some citer => let* r := bson_iter_next citer in Ret r.1 | None => Ret false end
       | None => Ret false
       end) = Ret (any_error rf)
    ∧ ∀ (r : result_t) t, represents r t → blen (errors_body (with_errors (map (absolute offset) (default [] (rf_errors rf))) t)) ≤ 2 ^ 28 →
        ∃ r', (match errors with
               | Some it =>
                   let* x := _mongoc_write_result_merge_arrays fresh offset (wr_writeErrors r) it in
                   Ret (set_writeErrors x.2 r)
               | None => Ret r
               end) = Ret r' ∧ represents r' (with_errors (map (absolute offset) (default [] (rf_errors rf))) t) ∧ same_rest r r'.
Proof.
  destruct Hsays as [[Hes Hmax] _ He _ _ _ _]. set (bodies := λ xs, body_bytes (element_docs 0 (map error_doc xs))).
  assert (Hfo : field_of es (cs "writeErrors") = option_map (e_array (cs "writeErrors")) (option_map bodies (rf_errors rf)))
    by (rewrite He; by destruct (rf_errors rf)).
  pose proof (sub_field_ok es (cs "writeErrors") BSON_TYPE_ARRAY (λ k us, e_array k us) (option_map bodies (rf_errors rf)) Hes Hmax
    ltac:(by repeat constructor) Hfo ltac:(done)) as H.
  unfold any_error. destruct (rf_errors rf) as [xs|] eqn:Exs; cbn [option_map] in H.
  2: { destruct H as [H _]. exists None. split; [exact H|]. split; [done|]. intros r t Hr _. exists r. split; [done|]. split; [|done].
       cbn [default map]. destruct Hr, t. constructor; cbn in *; try done; by rewrite app_nil_r. }
  destruct H as (f & Ef & Hon & _). exists (Some f). split; [exact Ef|]. pose proof (ws_errors _ Hwell) as Hxs. rewrite Exs in Hxs. cbn [from_option] in Hxs.
  pose proof (found_size _ _ _ Hfo) as Hsz. cbn [option_map e_array e_key e_value] in Hsz. rewrite blen_doc_bytes in Hsz.
  change (blen (cs "writeErrors")) with 11 in Hsz. unfold INT_MAX in Hmax. split.
  - destruct (e_sub_get _ _ _ _ _ Hon) as (post & Hpost & ->); [by right|lia|]. cbn [bind].
    assert (Hall : Forall entry_ok (element_docs 0 (map error_doc xs))).
    { apply element_docs_ok; [done| |unfold bodies in Hsz; lia]. apply Forall_map. eapply Forall_impl; [exact Hxs|apply error_doc_ok]. }
    destruct (start_fields _ post Hall Hpost ltac:(unfold INT_MAX, bodies in *; lia)) as (last & l & Hfs & Hall2).
    unfold fields_of, for_each_field, iter_fuel in Hfs. cbn [iter_while] in Hfs. fold (bodies xs) in Hfs.
    destruct (bson_iter_next _) as [[ok it]|]; [|done]. cbn [bind fst]. destruct ok.
    + cbn [bind collect] in Hfs. destruct (collect_step _ _ _ [] _ _ Hfs) as [l2 ->]. cbn [app] in Hall2. by destruct xs; [inversion Hall2|].
    + injection Hfs as <- <-. by destruct xs; [|inversion Hall2].
  - intros r t Hr Hs. pose proof Hr as [? [Hb Hok] ? ? ? ?]. cbn [with_errors tt_errors default from_option id] in Hs. rewrite errors_size in Hs.
    assert (Hold : Forall (Forall entry_ok) (map error_doc (tt_errors t))) by (apply Forall_map; eapply Forall_impl; [exact Hok|apply error_doc_ok]).
    assert (Hnew : blen (bodies xs) ≤ 2 ^ 28).
    { unfold bodies. pose proof (element_docs_le 0 (Z.of_nat (length (map error_doc (tt_errors t)))) (map error_doc xs) ltac:(lia)) as Hle.
      rewrite element_docs_app, body_bytes_app, blen_app, Z.add_0_l in Hs. pose proof (blen_nonneg (body_bytes (element_docs 0 (map error_doc (tt_errors t))))). lia. }
    destruct (merge_arrays_ok fresh offset _ _ xs f (wr_writeErrors r) (map error_doc (tt_errors t)) Hon Hxs Hnew Hold Hb Hs) as (d & -> & Hd). cbn [bind snd].
    eexists. split; [done|]. split; [|done]. cbn [default]. destruct t. constructor; cbn in *; try done.
    split; [by rewrite map_app, map_map|]. apply Forall_app. split; [done|]. apply Forall_map. eapply Forall_impl; [exact Hxs|]. intros x. apply absolute_ok.
Qed.
Lemma wce_ok (r : result_t) t :
  represents r t → blen (wces_body (with_wces (wces_of rf) t)) ≤ 2 ^ 28 →
  ∃ r', merge_write_concern_error fresh (doc_of es) r = Ret r' ∧ represents r' (with_wces (wces_of rf) t) ∧ same_rest r r'.
Proof.
  intros Hr Hs. destruct Hsays as [[Hes Hmax] _ _ _ _ Hw _].
  assert (Hfo : field_of es (cs "writeConcernError") = option_map (e_doc (cs "writeConcernError")) (option_map body_bytes (rf_wce rf)))
    by (rewrite Hw; by destruct (rf_wce rf)).
  pose proof (sub_field_ok es (cs "writeConcernError") BSON_TYPE_DOCUMENT (λ k us, e_doc k us) (option_map body_bytes (rf_wce rf)) Hes Hmax
    ltac:(by repeat constructor) Hfo ltac:(done)) as H.
  unfold merge_write_concern_error, wces_of in *. destruct (rf_wce rf) as [w|] eqn:Ew; cbn [option_map] in H.
  2: { destruct H as [H _]. unfold c_lit. rewrite H. cbn [bind]. exists r. split; [done|]. split; [|done].
       destruct Hr, t. constructor; cbn in *; try done; by rewrite app_nil_r. }
  destruct H as (f & Ef & Hon & _). unfold c_lit. rewrite Ef. cbn [bind]. pose proof (found_size _ _ _ Hfo) as Hsz.
  cbn [option_map e_doc e_key e_value] in Hsz. rewrite blen_doc_bytes in Hsz. change (blen (cs "writeConcernError")) with 17 in Hsz. unfold INT_MAX in Hmax.
  pose proof Hr as [? ? ? [Hb Hn] ? ?]. cbn [with_wces tt_wces] in Hs. rewrite element_docs_app, body_bytes_app, Z.add_0_l in Hs. cbn [element_docs] in Hs.
  rewrite body_bytes_one, blen_app, blen_entry in Hs. unfold e_doc in Hs. cbn [e_key e_value] in Hs. rewrite blen_doc_bytes in Hs.
  pose proof (blen_nonneg (body_bytes (element_docs 0 (tt_wces t)))). pose proof (element_docs_bytes 0 (tt_wces t)) as Hcnt. rewrite Hn.
  set (k := print_dec 10 (Z.of_nat (length (tt_wces t)))) in *. destruct (dec_key (Z.of_nat (length (tt_wces t))) ltac:(lia)) as [[_ Hkz] Hkl]. fold k in Hkz, Hkl.
  pose proof (blen_nonneg k). pose proof (blen_nonneg (body_bytes w)).
  destruct (element_at _ _ _ _ Hon ltac:(unfold INT_MAX; lia)) as (data & E1 & E2). rewrite E1. cbn [bind fst snd deref]. rewrite E2. cbn [bind].
  rewrite uint32_to_string_decimal by lia. cbn [bind fst]. fold k.
  assert (Ha : appends (bson_append_document fresh (wr_writeConcernErrors r) (c_mem k) (-1) (doc_bytes (body_bytes w))) (wr_writeConcernErrors r)
    (body_bytes (element_docs 0 (tt_wces t))) [] (entry_bytes (e_doc k (body_bytes w)))).
  { apply append_one; [done| |done|unfold e_doc; cbn [e_value]; rewrite blen_doc_bytes; lia]. cbn [e_doc e_key]. split; [lia|]. split; [done|]. left. split; [done|]. by exists []. }
  apply appends_fits in Ha as (m' & -> & Hm').
  2: { unfold extent. cbn [front length]. rewrite blen_entry. unfold e_doc. cbn [e_key e_value]. rewrite blen_doc_bytes. change (blen []) with 0. lia. }
  cbn [bind snd]. rewrite u32_small by lia. eexists. split; [done|]. split; [|done]. destruct t. constructor; cbn in *; try done.
  split; [rewrite element_docs_app, Z.add_0_l; cbn [element_docs]; by apply builds_snoc|]. rewrite length_app. cbn [length]. lia.
Qed.
Lemma labels_ok_merge (r : result_t) t :
  represents r t → blen (labels_body (with_labels (rf_labels rf) t)) ≤ 2 ^ 28 →
  ∃ m', _mongoc_bson_array_copy_labels_to fresh (doc_of es) (wr_errorLabels r) = Ret m'
    ∧ represents (set_errorLabels m' r) (with_labels (rf_labels rf) t).
Proof.
  intros Hr Hs. destruct Hsays as [[Hes Hmax] _ _ _ _ _ Hl]. pose proof (ws_labels _ Hwell) as Hnew. pose proof Hr as [? ? ? ? [Hb Hok] ?].
  destruct (copy_labels_to_ok fresh es (rf_labels rf) (wr_errorLabels r) (tt_labels t) Hes Hmax Hl Hnew Hok Hb Hs) as (m' & E & Hm'). exists m'.
  split; [done|]. destruct t. constructor; cbn in *; try done. split; [done|]. clear -Hnew Hok. revert tt_labels0 Hok.
  induction Hnew as [|x xs Hx _ IH]; intros ls Hls; [done|]. cbn. apply IH. by apply add_label_label_ok.
Qed.

Lemma merge_ok command (r : result_t) t :
  represents r t → fits (merged (wcm_type command) offset rf t) →
  ∃ r', _mongoc_write_result_merge fresh r command (doc_of es) offset = Ret r'
    ∧ represents r' (merged (wcm_type command) offset rf t) ∧ same_rest r r'.
Proof.
  intros Hr (F1 & F2 & F3 & F4). unfold _mongoc_write_result_merge. pose proof Hsays as [[Hes Hmax] Hn _ _ _ _ _].
  destruct (int_field_ok es (cs "n") (rf_n rf) Hes Hmax ltac:(by repeat constructor) Hn (ws_n _ Hwell)) as (f & E & Hf). unfold c_lit at 1. rewrite E. cbn [bind].
  assert ((match f with Some it => bson_iter_int32 it | None => Ret 0 end) = Ret (default 0 (rf_n rf))) as ->
    by (destruct (rf_n rf); [destruct Hf as (it & -> & ->); done|by subst f]).
  cbn [bind]. destruct errors_found as (errors & -> & Hany & Herr). cbn [bind]. rewrite Hany. cbn [bind].
  set (r0 := if any_error rf then set_failed true r else r).
  assert (Hr0 : represents r0 (with_failed (any_error rf) t) ∧ same_rest r r0).
  { unfold r0. destruct Hr, t. destruct (any_error rf); split; try done; constructor; cbn in *; try done; [by rewrite orb_true_r|by rewrite orb_false_r]. }
  destruct Hr0 as [Hr0 Hs0]. change (if any_error rf then set_failed true r else r) with r0.
  destruct (counts_ok command es rf offset Hsays Hwell r0 _ Hr0 F2) as (r1 & -> & Hr1 & Hs1). cbn [bind].
  destruct (Herr r1 _ Hr1 F1) as (r2 & -> & Hr2 & Hs2). cbn [bind].
  destruct (wce_ok r2 _ Hr2 F3) as (r3 & -> & Hr3 & Hs3). cbn [bind].
  destruct (labels_ok_merge r3 _ Hr3 F4) as (m' & -> & Hr4). cbn [bind].
  exists (set_errorLabels m' r3). rewrite merged_parts in Hr4. split; [done|]. split; [exact Hr4|].
  eapply same_rest_trans; [exact Hs0|]. eapply same_rest_trans; [exact Hs1|]. eapply same_rest_trans; [exact Hs2|exact Hs3].
Qed.
End Whole.
End Merge.
