(* ===== verification/BulkWrite.v ===== *)
(** Write commands over OP_MSG (mongoc/mongoc-write-command.c, [_mongoc_write_opmsg]):
    the documents of a command go to the server in batches that respect its limits, each
    a retryable write of its own.

    Running a command and selecting another server are an interface, [WritePath]; the
    functions of Cluster.v are an instance of it. *)
From Stdlib Require Import ZArith Lia List.
From stdpp Require Import prelude strings.
From S2P Require Import Prelude BsonIter BsonIterSafe BsonFields BsonAppend BsonBuild BsonValue BsonCopy BsonParse HostList BsonKeys MongocTypes BsonEntries CommandErrors Concerns ReadPrefs ServerDescription TopologyDescription ServerSession ClientSession Rpc Compression Buffer Cluster CmdParts WriteCommand.
#[local] Open Scope string_scope.
#[local] Open Scope list_scope.
#[local] Open Scope Z_scope.
#[local] Open Scope mongo_scope.

#[local] Notation cs_t := mongoc_client_session_t.
#[local] Notation stream_t := mongoc_server_stream_t.
#[local] Notation result_t := mongoc_write_result_t.

(** ** Interface *)
Record write_run (W : Type) := WriteRun {
  wx_ok : bool;
  wx_error : bson_error_t;
  wx_reply : bson_t;
  wx_session : option cs_t;
  wx_world : W
}.
Arguments WriteRun {W} _ _ _ _ _.
Arguments wx_ok {W} _. Arguments wx_error {W} _. Arguments wx_reply {W} _.
Arguments wx_session {W} _. Arguments wx_world {W} _.

(** [mongoc_cluster_run_command_monitored (cluster, cmd, &reply, error)], given the error
    before, and [mongoc_cluster_stream_for_writes (cluster, cs, NULL, &ignored_error)] *)
Class WritePath (W : Type) := {
  wp_run : mongoc_cmd_t → bson_error_t → W → res (write_run W);
  wp_stream_for_writes : option cs_t → W → option stream_t * W
}.

(** the commands of Cluster.v, with a given selection of servers *)
Definition cluster_path {W : Type} `{Stream W} {zlib : Zlib} (now : Z) (fresh : Z → Z)
    (select : option cs_t → mongoc_cluster_t → W → option stream_t * mongoc_cluster_t * W) : WritePath (mongoc_cluster_t * W) := {|
  wp_run cmd error cw :=
    let* r := mongoc_cluster_run_command_monitored now fresh cw.1 cmd error cw.2 in
    Ret (WriteRun (r_ok r) (r_error r) (r_reply r) (r_session r) (r_cluster r, r_world r));
  wp_stream_for_writes s cw := let '(st, c, w) := select s cw.1 cw.2 in (st, (c, w))
|}.

(** ** The state of the loop

    [bk_stream] is [parts.assembled.server_stream], [None] once it was freed, and
    [bk_shared] tells whether it is [retry_server_stream]. *)
Record bulk_t (W : Type) := Bulk {
  bk_batch : Z;
  bk_total : Z;
  bk_count : Z;
  bk_offset : Z;
  bk_ret : bool;
  bk_command : bson_t;
  bk_session : option cs_t;
  bk_stream : option stream_t;
  bk_retry : option stream_t;
  bk_shared : bool;
  bk_result : result_t;
  bk_world : W
}.
Arguments Bulk {W} _ _ _ _ _ _ _ _ _ _ _ _.
Arguments bk_batch {W} _. Arguments bk_total {W} _. Arguments bk_count {W} _. Arguments bk_offset {W} _.
Arguments bk_ret {W} _. Arguments bk_command {W} _. Arguments bk_session {W} _. Arguments bk_stream {W} _.
Arguments bk_retry {W} _. Arguments bk_shared {W} _. Arguments bk_result {W} _. Arguments bk_world {W} _.
(** what has been gathered, and what has been recorded *)
Definition set_gathered {W} (batch count : Z) (s : bulk_t W) : bulk_t W :=
  Bulk batch (bk_total s) count (bk_offset s) (bk_ret s) (bk_command s) (bk_session s) (bk_stream s) (bk_retry s) (bk_shared s)
    (bk_result s) (bk_world s).
Definition set_result {W} (r : result_t) (s : bulk_t W) : bulk_t W :=
  Bulk (bk_batch s) (bk_total s) (bk_count s) (bk_offset s) (bk_ret s) (bk_command s) (bk_session s) (bk_stream s) (bk_retry s)
    (bk_shared s) r (bk_world s).
Definition set_txn {W} (command : bson_t) (session : option cs_t) (s : bulk_t W) : bulk_t W :=
  Bulk (bk_batch s) (bk_total s) (bk_count s) (bk_offset s) (bk_ret s) command session (bk_stream s) (bk_retry s)
    (bk_shared s) (bk_result s) (bk_world s).

Definition set_is_write_command (b : bool) (p : mongoc_cmd_parts_t) : mongoc_cmd_parts_t :=
  ltac:(let f := constr:(ltac:(setter parts_eta pt_is_write_command) : bool → mongoc_cmd_parts_t → mongoc_cmd_parts_t) in exact (f b p)).

Section Bulk.
Context {W : Type} `{WritePath W} `{Starts W}.
Variable fresh : Z → Z.

Section Batches.
Variables (command : mongoc_write_command_t) (parts : mongoc_cmd_parts_t) (has_cs : bool).
Variables (header max_msg_size max_bson_obj_size max_document_count : Z).
Notation bulk := (bulk_t W).

(** the batch from [bk_total] on, as a command; the server stream must still be there *)
Definition batch_cmd (s : bulk) : res mongoc_cmd_t :=
  match bk_stream s with
  | None => Stuck UseAfterFree
  | Some st =>
      let* data := deref (buf_data (wcm_payload command)) in
      Ret (Cmd (pt_db_name parts) (pt_query_flags parts) (bk_command s) (pt_command_name parts)
             (Some (ptr_add data (bk_total s))) (bk_batch s) (c_mem (gCommandFields (wcm_type command))) (st_sd st)
             (wcm_operation_id command) (bk_session s) (pt_is_acknowledged parts) (pt_is_txn_finish parts))
  end.
Definition cmd_on (st : stream_t) (session : option cs_t) (c : mongoc_cmd_t) : mongoc_cmd_t :=
  Cmd (cmd_db_name c) (cmd_query_flags c) (cmd_command c) (cmd_command_name c) (cmd_payload c) (cmd_payload_size c)
    (cmd_payload_identifier c) (st_sd st) (cmd_operation_id c) session (cmd_is_acknowledged c) (cmd_is_txn_finish c).

(** each retryable write has a transaction number of its own *)
Definition next_txn_number (s : bulk) : res bulk :=
  let* f := bson_iter_init_find (bk_command s) (c_lit "txnNumber") in
  let* _ := bson_assert f.1 in
  let* session := deref (bk_session s) in
  let ss := cs_server_session session in
  let* n := chk64 (ss_txn_number ss + 1) in
  let session := set_server_session (ServerSession (ss_last_used_usec ss) (ss_lsid ss) n (ss_dirty ss)) session in
  let* it := bson_iter_overwrite_int64 f.2 n in
  let* command := deref (it_raw it) in
  Ret (set_txn command (Some session) s).

(** the batch was sent; its reply is merged *)
Definition batch_done (s : bulk) (r : write_run W) (stream retry : option stream_t) (shared : bool) : res bulk :=
  let result := set_result_error (wx_error r) (bk_result s) in
  let result := if wx_ok r then result else set_must_stop true (set_failed true result) in
  let* result := _mongoc_write_result_merge fresh result command (wx_reply r) (bk_offset s) in
  Ret (Bulk 0 (u32 (bk_total s + bk_batch s)) 0 (u32 (bk_offset s + bk_count s)) (wx_ok r) (bk_command s) (wx_session r)
         stream retry shared result (wx_world r)).

(** The batch is sent, and sent once more after a retryable error to a retryable write if
    a server for writes is found.  The stream of an earlier retry is freed before. *)
Definition ship (s : bulk) : res bulk :=
  let is_retryable := pt_is_retryable_write parts in
  let* s := (if is_retryable then next_txn_number s else Ret s) in
  let* cmd := batch_cmd s in
  let* r := wp_run cmd (wr_error (bk_result s)) (bk_world s) in
  let* error_type := _mongoc_write_error_get_type (wx_ok r) (Some (wx_error r)) (wx_reply r) in
  let* u := (if is_retryable then _mongoc_write_error_update_if_unsupported_storage_engine fresh (wx_ok r) (wx_error r) (wx_reply r)
             else Ret (false, wx_error r, wx_reply r)) in
  let r := WriteRun (wx_ok r) u.1.2 u.2 (wx_session r) (wx_world r) in
  if is_retryable && bool_decide (error_type = MONGOC_WRITE_ERR_RETRY) then
    let stream := if bk_shared s then None else bk_stream s in
    let '(retry, w) := wp_stream_for_writes (if has_cs then wx_session r else None) (wx_world r) in
    match retry with
    | Some st =>
        if sd_max_wire_version (st_sd st) >=? WIRE_VERSION_RETRY_WRITES then
          let* r2 := wp_run (cmd_on st (wx_session r) cmd) (wx_error r) w in
          let* _ := _mongoc_write_error_get_type (wx_ok r2) (Some (wx_error r2)) (wx_reply r2) in
          batch_done s r2 retry retry true
        else batch_done s (WriteRun (wx_ok r) (wx_error r) (wx_reply r) (wx_session r) w) stream retry false
    | None => batch_done s (WriteRun (wx_ok r) (wx_error r) (wx_reply r) (wx_session r) w) stream None false
    end
  else batch_done s r (bk_stream s) (bk_retry s) (bk_shared s).

(** one round of the loop: the next document joins the batch, or the batch is sent; [false]
    is the break at a document that is too large *)
Definition bulk_step (s : bulk) : res (bool * bulk) :=
  let* data := deref (buf_data (wcm_payload command)) in
  let* len := rd_le 4 data (bk_batch s + bk_total s) in
  let len := s32 len in
  let* limit := chk32 (max_bson_obj_size + BSON_OBJECT_ALLOWANCE) in
  if len >? limit then
    let error := _mongoc_write_command_too_large_error (s32 (bk_offset s)) len max_bson_obj_size in
    Ret (false, set_result (set_failed true (set_result_error error (bk_result s))) s)
  else if (u32 (u32 (bk_batch s + header) + len) <=? u32 max_msg_size) || (bk_count s =? 0) then
    let batch := u32 (bk_batch s + len) in
    let* count := chk32 (bk_count s + 1) in
    let s := set_gathered batch count s in
    if (count =? max_document_count) || (u32 (batch + bk_total s) =? buf_len (wcm_payload command))
    then let* s := ship s in Ret (true, s)
    else Ret (true, s)
  else let* s := ship s in Ret (true, s).
Fixpoint bulk_loop (fuel : nat) (s : bulk) : res bulk :=
  match fuel with
  | O => Stuck OutOfFuel
  | S fuel' =>
      let* r := bulk_step s in
      if r.1 && (bk_total r.2 <? buf_len (wcm_payload command)) && negb (wr_must_stop (bk_result r.2)) then bulk_loop fuel' r.2
      else Ret r.2
  end.
(** each round takes a document or sends a batch that has one *)
Definition bulk_fuel : nat := 2 * Z.to_nat (wcm_n_documents command) + 1.
End Batches.

(** The command is assembled: [inl] is a refusal, with its error; else the parts and the
    document to send.  The write concern caches its encoding. *)
Definition opmsg_prepare (command : mongoc_write_command_t) (client : cmd_client_t) (server_stream : stream_t)
    (database collection : list Z) (write_concern : option mongoc_write_concern_t) (cs : option cs_t) (w : W)
    : res ((option bson_error_t * mongoc_cmd_parts_t + mongoc_cmd_parts_t * bson_t) * option mongoc_write_concern_t * W) :=
  let max_wire_version := sd_max_wire_version (st_sd server_stream) in
  let* m := _mongoc_write_command_init fresh (bson_init fresh) command collection in
  let* cmd := bson_get_data m in
  let parts := set_is_write_command true (mongoc_cmd_parts_init fresh client database MONGOC_QUERY_NONE cmd) in
  let* r := mongoc_cmd_parts_set_write_concern fresh parts write_concern max_wire_version in
  let '(ok, e, parts, wc) := r in
  if negb ok then Ret (inl (e, parts), wc, w)
  else
    let* parts := (if pt_is_acknowledged parts then mongoc_cmd_parts_set_session parts cs else Ret parts) in
    let parts := set_allow_txn_number (if wf_has_multi_write (wcm_flags command) || negb (pt_is_acknowledged parts)
                                       then MONGOC_CMD_PARTS_ALLOW_TXN_NUMBER_NO else MONGOC_CMD_PARTS_ALLOW_TXN_NUMBER_YES) parts in
    let '(ok, iter) := bson_iter_init (wcm_cmd_opts command) in
    let* _ := bson_assert ok in
    let* r := mongoc_cmd_parts_append_opts fresh parts iter max_wire_version in
    let '(ok, e, parts) := r in
    if negb ok then Ret (inl (e, parts), wc, w)
    else
      let* r := mongoc_cmd_parts_assemble fresh parts server_stream w in
      let '(ok, e, parts, w) := r in
      if negb ok then Ret (inl (e, parts), wc, w)
      else
        let* assembled := assembled_command parts in
        let* assembled := deref assembled in
        Ret (inr (parts, assembled), wc, w).

(** The result, the write concern, the parts with the session after the last command, and
    the world. *)
Definition _mongoc_write_opmsg (command : mongoc_write_command_t) (client : cmd_client_t) (cse_enabled : bool) (server_stream : stream_t)
    (database collection : list Z) (write_concern : option mongoc_write_concern_t) (index_offset : Z) (cs : option cs_t)
    (result : result_t) (w : W) : res (result_t * option mongoc_write_concern_t * mongoc_cmd_parts_t * W) :=
  let max_bson_obj_size := mongoc_server_stream_max_bson_obj_size server_stream in
  let max_msg_size := if cse_enabled then MONGOC_REDUCED_MAX_MSG_SIZE_FOR_FLE else mongoc_server_stream_max_msg_size server_stream in
  let max_document_count := mongoc_server_stream_max_write_batch_size server_stream in
  let* p := opmsg_prepare command client server_stream database collection write_concern cs w in
  match p with
  | (inl (e, parts), wc, w) => Ret (match e with Some e => set_result_error e result | None => result end, wc, parts, w)
  | (inr (parts, assembled), wc, w) =>
      let header := u32 (26 + blen assembled + gCommandFieldLens (wcm_type command) + 1) in
      let s := Bulk 0 0 0 index_offset false assembled (pt_session parts) (Some server_stream) None false result w in
      let* s := bulk_loop command parts (bool_decide (is_Some cs)) header max_msg_size max_bson_obj_size max_document_count
                  (bulk_fuel command) s in
      let result := bk_result s in
      let result := match bk_retry s with
                    | Some st => if bk_ret s then set_retry_server_id (sd_id (st_sd st)) result else result
                    | None => result
                    end in
      let result := if bk_ret s then set_result_error no_error result else result in
      Ret (result, wc, set_session (bk_session s) parts, bk_world s)
  end.

(** ** Servers before OP_MSG, [_mongoc_write_opquery] *)
Definition array_begin (command : mongoc_write_command_t) (cmd : bson_mem) : res bson_mem :=
  let* r := bson_append_array_begin fresh cmd (c_mem (gCommandFields (wcm_type command))) (gCommandFieldLens (wcm_type command)) in
  if negb r.1 then Stuck OutOfBounds else Ret r.2.
Fixpoint append_documents (fuel : nat) (data : list Z) (length offset i : Z) (ar : bson_mem) : res bson_mem :=
  match fuel with
  | O => Stuck OutOfFuel
  | S fuel' =>
      let* r := _bson_reader_data_read data length offset in
      match r with
      | (Some current, _, offset) =>
          let* k := bson_uint32_to_string i 16 in
          let* a := BSON_APPEND_DOCUMENT fresh ar k.1 current in
          append_documents fuel' data length offset (u32 (i + 1)) a.2
      | _ => Ret ar
      end
  end.
(** a document has five bytes at least *)
Definition reader_fuel (command : mongoc_write_command_t) : nat := S (Z.to_nat (buf_len (wcm_payload command) / 5)).
(** what monitoring shows of a legacy write *)
Definition _append_array_from_command (command : mongoc_write_command_t) (bson : bson_mem) : res bson_mem :=
  let* data := deref (buf_data (wcm_payload command)) in
  let* ar := array_begin command bson in
  let* ar := append_documents (reader_fuel command) data (buf_len (wcm_payload command)) 0 0 ar in
  bson_append_array_end ar.

Section Opquery.
Variables (command : mongoc_write_command_t) (client : cmd_client_t) (server_stream : stream_t) (database collection : list Z).
Notation max_bson_obj_size := (mongoc_server_stream_max_bson_obj_size server_stream).
Notation max_write_batch_size := (mongoc_server_stream_max_write_batch_size server_stream).

(** the return value, the error, the parts and the write concern with its cached encoding *)
Definition _assemble_cmd (cmd : bson_t) (wc : option mongoc_write_concern_t) (w : W)
    : res (bool * option bson_error_t * mongoc_cmd_parts_t * option mongoc_write_concern_t * W) :=
  let max_wire_version := sd_max_wire_version (st_sd server_stream) in
  let parts := set_is_write_command true (mongoc_cmd_parts_init fresh client database MONGOC_QUERY_NONE cmd) in
  let* r := mongoc_cmd_parts_set_write_concern fresh parts wc max_wire_version in
  let '(ok, e, parts, wc) := r in
  if negb ok then Ret (false, e, parts, wc, w)
  else
    let '(ok, iter) := bson_iter_init (wcm_cmd_opts command) in
    let* _ := bson_assert ok in
    let* r := mongoc_cmd_parts_append_opts fresh parts iter max_wire_version in
    let '(ok, e, parts) := r in
    if negb ok then Ret (false, e, parts, wc, w)
    else
      let* r := mongoc_cmd_parts_assemble fresh parts server_stream w in
      let '(ok, e, parts, w) := r in
      Ret (ok, e, parts, wc, w).

(** The documents that go into one command: [*len], [has_more], whether the last read
    gave a document, [data_offset], [i] and the array. *)
Fixpoint take_documents (fuel : nat) (data : list Z) (overhead len data_offset offset i : Z) (ar : bson_mem)
    : res (Z * bool * bool * Z * Z * bson_mem) :=
  match fuel with
  | O => Stuck OutOfFuel
  | S fuel' =>
      let* r := _bson_reader_data_read data (buf_len (wcm_payload command) - data_offset) offset in
      match r with
      | (Some bson, _, offset') =>
          let* k := bson_uint32_to_string i 16 in
          let len := blen bson in
          let* over := _mongoc_write_command_will_overflow overhead (u32 (k.2 + len + 2 + l_len (m_top ar))) i
                         max_bson_obj_size max_write_batch_size in
          if over : bool then Ret (len, true, true, offset, i, ar)
          else
            let* a := BSON_APPEND_DOCUMENT fresh ar k.1 bson in
            take_documents fuel' data overhead len data_offset offset' (u32 (i + 1)) a.2
      | _ => Ret (len, false, false, offset, i, ar)
      end
  end.

Record opquery_t := Opquery {
  oq_data_offset : Z;
  oq_offset : Z;
  oq_result : result_t;
  oq_ret : bool;
  oq_wc : option mongoc_write_concern_t;
  oq_world : W
}.
(** the assembled command without a payload, run on the server *)
Definition plain_cmd (parts : mongoc_cmd_parts_t) : res mongoc_cmd_t :=
  let* d := assembled_command parts in
  let* d := deref d in
  Ret (Cmd (pt_db_name parts) (pt_query_flags parts) d (pt_command_name parts) None 0 [] (st_sd server_stream)
         (wcm_operation_id command) (pt_session parts) (pt_is_acknowledged parts) (pt_is_txn_finish parts)).
Definition with_error (e : option bson_error_t) (result : result_t) : result_t :=
  match e with Some e => set_result_error e result | None => result end.
(** One command: [true] when documents are left and the next one may be sent.  The
    command is assembled once for its size and once with the documents.  A reply that
    was not received is an empty document. *)
Definition opquery_round (s : opquery_t) : res (bool * opquery_t) :=
  let* cmd := _mongoc_write_command_init fresh (bson_init fresh) command collection in
  let* doc := bson_get_data cmd in
  let* a := _assemble_cmd doc (oq_wc s) (oq_world s) in
  let '(ok, e, parts, wc, w) := a in
  if negb ok then
    Ret (false, Opquery (oq_data_offset s) (oq_offset s) (set_failed true (with_error e (oq_result s))) (oq_ret s) wc w)
  else
    let* assembled := assembled_command parts in
    let* assembled := deref assembled in
    let overhead := u32 (blen assembled + 2 + gCommandFieldLens (wcm_type command)) in
    let* data := deref (buf_data (wcm_payload command)) in
    let* ar := array_begin command cmd in
    let* t := take_documents (reader_fuel command) (ptr_add data (oq_data_offset s)) overhead 0 (oq_data_offset s) 0 0 ar in
    let '(len, has_more, bson, read, i, ar) := t in
    let data_offset := oq_data_offset s + read in
    let* cmd := bson_append_array_end ar in
    if i =? 0 then
      let error := _mongoc_write_command_too_large_error (s32 i) (s32 len) max_bson_obj_size in
      let result := set_must_stop true (set_failed true (set_result_error error (oq_result s))) in
      Ret (false, Opquery (if bson : bool then data_offset + len else data_offset) (oq_offset s) result false wc w)
    else
      let* doc := bson_get_data cmd in
      let* a := _assemble_cmd doc wc w in
      let '(ok, e, parts, wc, w) := a in
      let* r := (if ok : bool then let* c := plain_cmd parts in wp_run c (wr_error (oq_result s)) w
                 else Ret (WriteRun false (wr_error (with_error e (oq_result s))) bson_empty_doc None w)) in
      let* empty := bson_empty (wx_reply r) in
      let result := set_result_error (wx_error r) (oq_result s) in
      let result := if wx_ok r then result
                    else let result := set_failed true result in if empty : bool then set_must_stop true result else result in
      let* result := _mongoc_write_result_merge fresh result command (wx_reply r) (oq_offset s) in
      Ret (has_more && (wx_ok r || negb (wf_ordered (wcm_flags command))) && negb (wr_must_stop result),
           Opquery data_offset (u32 (oq_offset s + i)) result (wx_ok r) wc (wx_world r)).
Fixpoint opquery_loop (fuel : nat) (s : opquery_t) : res opquery_t :=
  match fuel with
  | O => Stuck OutOfFuel
  | S fuel' => let* r := opquery_round s in if r.1 : bool then opquery_loop fuel' r.2 else Ret r.2
  end.
(** each command but the last has a document *)
Definition _mongoc_write_opquery (wc : option mongoc_write_concern_t) (offset : Z) (result : result_t) (w : W)
    : res (result_t * option mongoc_write_concern_t * W) :=
  let* s := opquery_loop (reader_fuel command) (Opquery 0 offset result false wc w) in
  Ret (oq_result s, oq_wc s, oq_world s).
End Opquery.

(** ** Running a command

    [legacy] are the operations of mongoc-write-command-legacy.c, for unacknowledged
    writes to a server before OP_MSG.  [crud] has only the two fields that are used. *)
Definition WIRE_VERSION_ARRAY_FILTERS : Z := 6.
Definition WIRE_VERSION_UPDATE_HINT : Z := 8.
Section Execute.
Variable legacy : write_command_type → mongoc_write_command_t → stream_t → list Z → list Z → Z → result_t → W → res (result_t * W).
Variables (client : cmd_client_t) (cse_enabled : bool).

(** the refusal of a command that the server or the write concern does not allow *)
Definition refusal (command : mongoc_write_command_t) (server_stream : stream_t) (wc : option mongoc_write_concern_t) (has_session : bool)
    : option bson_error_t :=
  let acknowledged := mongoc_write_concern_is_acknowledged wc in
  let before v := sd_max_wire_version (st_sd server_stream) <? v in
  let flags := wcm_flags command in
  if wf_has_collation flags && negb acknowledged then
    Some (command_error MONGOC_ERROR_COMMAND_INVALID_ARG (cs "Cannot set collation for unacknowledged writes"))
  else if wf_has_collation flags && before WIRE_VERSION_COLLATION then
    Some (bad_wire_version (cs "The selected server does not support collation"))
  else if wf_has_array_filters flags && negb acknowledged then
    Some (command_error MONGOC_ERROR_COMMAND_INVALID_ARG (cs "Cannot use array filters with unacknowledged writes"))
  else if wf_has_array_filters flags && before WIRE_VERSION_ARRAY_FILTERS then
    Some (bad_wire_version (cs "The selected server does not support array filters"))
  else if wf_has_update_hint flags && before WIRE_VERSION_UPDATE_HINT then
    Some (bad_wire_version (cs "The selected server does not support hint for update"))
  else if wf_bypass_document_validation flags && negb acknowledged then
    Some (command_error MONGOC_ERROR_COMMAND_INVALID_ARG (cs "Cannot set bypassDocumentValidation for unacknowledged writes"))
  else if has_session && negb acknowledged then
    Some (command_error MONGOC_ERROR_COMMAND_INVALID_ARG (cs "Cannot use client session with unacknowledged writes"))
  else None.
(** the result, the write concern and the client session after the last command *)
Definition _mongoc_write_command_execute_idl (command : mongoc_write_command_t) (server_stream : stream_t) (database collection : list Z)
    (offset : Z) (wc : option mongoc_write_concern_t) (client_session : option cs_t) (result : result_t) (w : W)
    : res (result_t * option mongoc_write_concern_t * option cs_t * W) :=
  match refusal command server_stream wc (bool_decide (is_Some client_session)) with
  | Some e => Ret (set_result_error e (set_failed true result), wc, client_session, w)
  | None =>
      if buf_len (wcm_payload command) =? 0 then Ret (set_result_error (_empty_error command) result, wc, client_session, w)
      else if sd_max_wire_version (st_sd server_stream) >=? WIRE_VERSION_OP_MSG then
        let* r := _mongoc_write_opmsg command client cse_enabled server_stream database collection wc offset client_session result w in
        let '(result, wc, parts, w) := r in
        Ret (result, wc, option_map (λ s, default s (pt_session parts)) client_session, w)
      else if mongoc_write_concern_is_acknowledged wc then
        let* r := _mongoc_write_opquery command client server_stream database collection wc offset result w in
        let '(result, wc, w) := r in
        Ret (result, wc, client_session, w)
      else
        let* r := legacy (wcm_type command) command server_stream database collection offset result w in
        Ret (r.1, wc, client_session, r.2)
  end.
(** the write concern of the client when the caller has none *)
Definition _mongoc_write_command_execute (client_write_concern : mongoc_write_concern_t) (command : mongoc_write_command_t)
    (server_stream : stream_t) (database collection : list Z) (write_concern : option mongoc_write_concern_t) (offset : Z)
    (session : option cs_t) (result : result_t) (w : W) : res (result_t * option mongoc_write_concern_t * option cs_t * W) :=
  let write_concern := Some (default client_write_concern write_concern) in
  if negb (mongoc_write_concern_is_valid write_concern) then
    Ret (set_failed true (set_result_error (command_error MONGOC_ERROR_COMMAND_INVALID_ARG
           (cs "The write concern is invalid.")) result), write_concern, session, w)
  else _mongoc_write_command_execute_idl command server_stream database collection offset write_concern session result w.
End Execute.
End Bulk.
