(* ===== verification/BulkProps.v ===== *)
(** Write commands in batches: what is sent, in what order, and what the result says. *)
From Stdlib Require Import ZArith Lia List.
From stdpp Require Import prelude strings.
From S2P Require Import Prelude BsonIter BsonIterSafe BsonFields BsonAppend BsonBuild BsonValue BsonCopy BsonParse HostList BsonKeys MongocSet MongocTypes BsonEntries CommandErrors Concerns ReadPrefs ServerDescription TopologyDescription ServerSession ClientSession Rpc Compression Buffer Cluster CmdParts CmdProps WriteCommand WriteProps BulkWrite.
#[local] Open Scope string_scope.
#[local] Open Scope list_scope.
#[local] Open Scope Z_scope.
#[local] Open Scope mongo_scope.

#[local] Notation cs_t := mongoc_client_session_t.
#[local] Notation stream_t := mongoc_server_stream_t.
#[local] Notation result_t := mongoc_write_result_t.

(** ** The transaction number in the command *)

(** where the field of an entry begins *)
Lemma entries_position data es l o :
  Forall2 (on_entry data) es l → consecutive data o l →
  ∀ i e f, es !! i = Some e → l !! i = Some f → it_off f = o + blen (body_bytes (take i es)).
Proof.
  intros H. revert o. induction H as [|e0 f0 es l Hon _ IH]; intros o Hc i e f He Hf; [done|]. destruct Hc as (Hraw & Hoff & Hn & Hc).
  destruct i as [|i]; [injection Hf as <-; cbn [take]; change (blen (body_bytes [])) with 0; lia|]. cbn in He, Hf. rewrite (IH _ Hc i e f He Hf).
  cbn [take]. rewrite body_bytes_cons, blen_app, <- (on_source _ _ _ Hon). unfold field_source. rewrite Hraw.
  pose proof (at_bounds _ _ _ (on_at _ _ _ Hon)). rewrite blen_sl by lia. lia.
Qed.
Lemma find_first data k a e b l :
  Forall2 (on_entry data) (a ++ e :: b) l → e_key e = k → Forall (λ x, e_key x ≠ k) a →
  ∃ f, List.find (has_key k) l = Some f ∧ l !! length a = Some f ∧ on_entry data e f.
Proof.
  intros H Hk Ha. revert l H. induction Ha as [|x a Hx _ IH]; intros l H; cbn [app] in H; inversion H as [|? f ? l' Hon H']; subst.
  - exists f. cbn [List.find]. unfold has_key. rewrite (on_key _ _ _ Hon), bool_decide_true by done. done.
  - destruct (IH l' H') as (g & Hg & Hi & Hong). exists g. cbn [List.find length]. unfold has_key at 1. rewrite (on_key _ _ _ Hon).
    rewrite bool_decide_false by congruence. done.
Qed.
Lemma find_position a e b :
  Forall entry_ok (a ++ e :: b) → 5 + blen (body_bytes (a ++ e :: b)) ≤ INT_MAX → Forall (λ x, e_key x ≠ e_key e) a →
  ∃ f, bson_iter_init_find (doc_of (a ++ e :: b)) (c_mem (e_key e)) = Ret (true, f) ∧ on_entry (doc_of (a ++ e :: b)) e f
    ∧ it_d1 f = 6 + blen (body_bytes a) + blen (e_key e).
Proof.
  intros Hes Hmax Ha. set (es := a ++ e :: b) in *. pose proof (blen_nonneg (body_bytes es)).
  destruct (start_fields es [] Hes ltac:(constructor) Hmax) as (last & l & Hf & Hall). rewrite app_nil_r in *.
  assert (Hon0 : iter_ok (iter_start (doc_of es) (5 + blen (body_bytes es)))).
  { pose proof (start_iter_ok es [] Hes ltac:(constructor) Hmax) as Hi. by rewrite app_nil_r in Hi. }
  destruct (find_first _ (e_key e) a e b l Hall eq_refl Ha) as (f & Hfind & Hi & Hon). exists f.
  assert (Hke : Forall (λ b, b ≠ 0) (e_key e)).
  { rewrite Forall_forall in Hes. apply (Hes e). unfold es. apply elem_of_app. right. left. }
  split; [|split; [done|]].
  - unfold bson_iter_init_find, bson_iter_init, doc_of. rewrite blen_doc_bytes. destruct (Z.ltb_spec (5 + blen (body_bytes es)) 5); [lia|].
    fold (doc_of es). unfold c_mem. rewrite (find_list _ (e_key e) [] last l Hon0 Hke Hf); [by rewrite Hfind|].
    eapply Forall2_Forall_r; [exact Hall|]. apply Forall_forall. intros x _ g Hg. eexists _, _. apply Hg.
  - assert (Hc : consecutive (doc_of es) 4 l) by exact (collect_consecutive _ _ _ [] last l Hon0 eq_refl Hf).
    assert (Hp : it_off f = 4 + blen (body_bytes a)).
    { pose proof (entries_position _ es l 4 Hall Hc (length a) e f) as Hp. unfold es in Hp. rewrite take_app_length in Hp. apply Hp; [|done].
      by rewrite list_lookup_middle. }
    destruct (at_type _ _ _ (on_at _ _ _ Hon)) as (t & Ht & _).
    destruct (field_source_split _ _ _ _ _ (on_at _ _ _ Hon) Ht (on_key _ _ _ Hon)) as (_ & Hk & _).
    pose proof (at_bounds _ _ _ (on_at _ _ _ Hon)). lia.
Qed.
(** a new number in the place of the old one *)
Lemma overwrite_number a b k x n :
  Forall entry_ok (a ++ e_int64 k x :: b) → 5 + blen (body_bytes (a ++ e_int64 k x :: b)) ≤ INT_MAX → Forall (λ y, e_key y ≠ k) a →
  ∃ f it, bson_iter_init_find (doc_of (a ++ e_int64 k x :: b)) (c_mem k) = Ret (true, f)
    ∧ bson_iter_overwrite_int64 f n = Ret it ∧ it_raw it = Some (doc_of (a ++ e_int64 k n :: b)).
Proof.
  intros Hes Hmax Ha. destruct (find_position a (e_int64 k x) b Hes Hmax Ha) as (f & Hf & Hon & Hd1). cbn [e_int64 e_key] in Hf, Hd1.
  destruct (overwrite_at f _ _ (le_bytes 8 n) (on_at _ _ _ Hon) eq_refl (le_bytes_ok 8 n)) as (it & Hov & Hat & _). exists f, it.
  split; [exact Hf|]. split; [exact Hov|]. rewrite (at_raw _ _ _ Hat). f_equal.
  set (X := le_bytes 4 (5 + blen (body_bytes (a ++ e_int64 k x :: b))) ++ body_bytes a ++ 0x12 :: k ++ [0]).
  assert (HX : length X = Z.to_nat (it_d1 f)).
  { apply Nat2Z.inj. change (blen X = Z.of_nat (Z.to_nat (it_d1 f))). unfold X. rewrite !blen_app, blen_le_bytes, blen_cons, blen_app. change (blen [0]) with 1.
    pose proof (blen_nonneg (body_bytes a)). pose proof (blen_nonneg k). lia. }
  assert (Hdoc : ∀ y, doc_of (a ++ e_int64 k y :: b) = X ++ le_bytes 8 y ++ body_bytes b ++ [0]).
  { intros y. unfold doc_of, doc_bytes, X. assert (blen (body_bytes (a ++ e_int64 k y :: b)) = blen (body_bytes (a ++ e_int64 k x :: b))) as ->.
    { rewrite !body_bytes_app, !body_bytes_cons, !blen_app, !blen_entry. unfold e_int64. cbn [e_key e_value]. by rewrite !blen_le_bytes. }
    generalize (le_bytes 4 (5 + blen (body_bytes (a ++ e_int64 k x :: b)))). intros L.
    rewrite body_bytes_app, body_bytes_cons. unfold entry_bytes, field_bytes, e_int64. cbn [e_key e_type e_value].
    by repeat (rewrite <- !app_assoc; cbn [app]). }
  rewrite (Hdoc x), (Hdoc n). unfold splice. rewrite <- HX, take_app_length. f_equal. f_equal. rewrite length_le_bytes.
  rewrite drop_app_add. apply drop_app_length'. by rewrite length_le_bytes.
Qed.

(** ** The reference: the documents split into batches *)
Definition docs_size (b : list bson_t) : Z := blen (concat b).
Section Reference.
Variables (header max_msg_size max_document_count : Z).
Definition overflows (cur : list bson_t) (d : bson_t) : bool :=
  bool_decide (cur ≠ []) && ((Z.of_nat (length cur) >=? max_document_count) || (max_msg_size <? header + docs_size cur + blen d)).
(** [cur] has been gathered already *)
Fixpoint batches (cur docs : list bson_t) : list (list bson_t) :=
  match docs with
  | [] => match cur with [] => [] | _ => [cur] end
  | d :: docs' => if overflows cur d then cur :: batches [d] docs' else batches (cur ++ [d]) docs'
  end.
(** a batch respects the limits of the server, but for a single large document *)
Definition batch_ok (b : list bson_t) : Prop :=
  b ≠ [] ∧ Z.of_nat (length b) ≤ max_document_count ∧ (header + docs_size b ≤ max_msg_size ∨ length b = 1%nat).
(** and could not have taken the next document *)
Fixpoint maximal (bs : list (list bson_t)) : Prop :=
  match bs with
  | b :: (((d :: _) :: _) as bs') => overflows b d = true ∧ maximal bs'
  | _ => True
  end.
Lemma docs_size_snoc cur d : docs_size (cur ++ [d]) = docs_size cur + blen d.
Proof. unfold docs_size. rewrite concat_app, blen_app. cbn [concat]. by rewrite app_nil_r. Qed.
Lemma batches_spec cur docs :
  1 ≤ max_document_count → (cur = [] ∨ batch_ok cur) →
  concat (batches cur docs) = cur ++ docs ∧ Forall batch_ok (batches cur docs) ∧ maximal (batches cur docs)
  ∧ (cur = [] ∨ ∃ more bs, batches cur docs = (cur ++ more) :: bs).
Proof.
  intros Hm. revert cur. induction docs as [|d docs IH]; intros cur Hcur; cbn [batches].
  { destruct cur as [|c cur]; [split; [done|]; split; [done|]; split; [done|by left]|].
    destruct Hcur as [|Hcur]; [done|]. split; [done|]. split; [by apply Forall_singleton|]. split; [done|]. right. exists [], []. by rewrite app_nil_r. }
  destruct (overflows cur d) eqn:Eo.
  - pose proof Eo as Hne. unfold overflows in Hne. apply andb_true_iff in Hne as [Hne%bool_decide_eq_true _]. destruct Hcur as [|Hcur]; [done|].
    destruct (IH [d]) as (Hc & Hf & Hmx & Hh).
    { right. split; [done|]. split; [cbn [length]; lia|by right]. }
    split; [cbn [concat]; by rewrite Hc|]. split; [by constructor|]. destruct Hh as [|(more & bs & Eb)]; [done|]. rewrite Eb in *. split; [by split|].
    right. exists [], (([d] ++ more) :: bs). by rewrite app_nil_r.
  - destruct (IH (cur ++ [d])) as (Hc & Hf & Hmx & Hh).
    { right. split; [by destruct cur|]. rewrite length_app, docs_size_snoc. cbn [length]. unfold overflows in Eo.
      destruct (bool_decide_reflect (cur ≠ [])) as [Hne|He]; cbn [andb] in Eo.
      - apply orb_false_iff in Eo as [E1 E2]. destruct (Z.geb_spec (Z.of_nat (length cur)) max_document_count); [done|].
        destruct (Z.ltb_spec max_msg_size (header + docs_size cur + blen d)); [done|]. lia.
      - assert (cur = []) as -> by (destruct cur; [done|destruct He; done]). cbn [length]. lia. }
    split; [by rewrite Hc, <- app_assoc|]. split; [done|]. split; [done|]. destruct Hh as [E|(more & bs & ->)]; [by destruct cur|].
    right. exists (d :: more), bs. by rewrite <- app_assoc.
Qed.
End Reference.

(** ** Growth of a result *)
Lemma element_docs_growth i j bodies :
  0 ≤ i → blen (body_bytes (element_docs i bodies)) ≤ 3 * blen (body_bytes (element_docs j bodies)).
Proof.
  intros Hi. revert i j Hi. induction bodies as [|b bodies IH]; intros i j Hi; [done|]. cbn [element_docs].
  rewrite !body_bytes_cons, !blen_app, !blen_entry. unfold e_doc. cbn [e_key e_value]. rewrite !blen_doc_bytes.
  specialize (IH (i + 1) (j + 1) ltac:(lia)). destruct (dec_key i Hi) as [_ Hk]. pose proof (blen_nonneg (print_dec 10 j)). pose proof (blen_nonneg (body_bytes b)). lia.
Qed.
Lemma labels_growth new ls i :
  blen (body_bytes (label_entries 0 (fold_left add_label new ls))) ≤ blen (body_bytes (label_entries 0 ls)) + 3 * blen (body_bytes (label_entries i new)).
Proof.
  revert ls i. induction new as [|l new IH]; intros ls i; cbn [fold_left label_entries]; [change (blen (body_bytes [])) with 0; lia|].
  etransitivity; [apply (IH _ (i + 1))|]. rewrite body_bytes_cons, blen_app, blen_entry. unfold e_utf8. cbn [e_key e_value].
  rewrite !blen_app, blen_le_bytes. change (blen [0]) with 1. pose proof (blen_nonneg l). pose proof (blen_nonneg (print_dec 10 i)).
  assert (blen (body_bytes (label_entries 0 (add_label ls l))) ≤ blen (body_bytes (label_entries 0 ls)) + (17 + blen l)); [|lia].
  unfold add_label. case_bool_decide; [lia|]. rewrite label_entries_app, body_bytes_app, blen_app. cbn [label_entries]. rewrite body_bytes_one, blen_entry.
  unfold e_utf8. cbn [e_key e_value]. rewrite !blen_app, blen_le_bytes. change (blen [0]) with 1.
  destruct (dec_key (0 + Z.of_nat (length ls)) ltac:(lia)) as [_ Hk]. lia.
Qed.
(** the arrays of a result, with room for [k] bytes more *)
Definition roomy (t : totals) (k : Z) : Prop :=
  blen (errors_body t) + k ≤ 2 ^ 28 ∧ blen (ups_body t) + k ≤ 2 ^ 28 ∧ blen (wces_body t) + k ≤ 2 ^ 28 ∧ blen (labels_body t) + k ≤ 2 ^ 28.
Lemma roomy_fits t k : 0 ≤ k → roomy t k → fits t.
Proof. unfold roomy, fits. lia. Qed.
Lemma field_size es k e : field_of es k = Some e → 2 + blen (e_key e) + blen (e_value e) ≤ blen (body_bytes es).
Proof. apply found_size. Qed.
Lemma merged_roomy ty offset es rf t k :
  says es rf → roomy t (3 * blen (body_bytes es) + k) → roomy (merged ty offset rf t) k.
Proof.
  intros Hs (R1 & R2 & R3 & R4). destruct Hs as [_ _ He Hu _ Hw Hl]. pose proof (blen_nonneg (body_bytes es)) as H0. unfold roomy. split; [|split; [|split]].
  - cbn [merged tt_errors]. rewrite errors_size, element_docs_app, body_bytes_app, blen_app.
    destruct (rf_errors rf) as [xs|]; cbn [default from_option id option_map] in *; [|change (blen (body_bytes _)) with 0 at 2; lia].
    apply field_size in He. unfold e_array in He. cbn [e_key e_value] in He. rewrite blen_doc_bytes in He.
    pose proof (element_docs_growth (0 + Z.of_nat (length (map error_doc (tt_errors t)))) 0 (map error_doc xs) ltac:(lia)).
    pose proof (blen_nonneg (cs "writeErrors")). lia.
  - cbn [merged tt_ups]. case_bool_decide; [|lia]. rewrite ups_size, element_docs_app, body_bytes_app, blen_app.
    destruct (rf_ups rf) as [us|]; cbn [default from_option id option_map] in *; [|change (blen (body_bytes _)) with 0 at 2; lia].
    apply field_size in Hu. unfold e_array in Hu. cbn [e_key e_value] in Hu. rewrite blen_doc_bytes in Hu.
    pose proof (element_docs_growth (0 + Z.of_nat (length (map up_doc (tt_ups t)))) 0 (map up_doc us) ltac:(lia)).
    pose proof (blen_nonneg (cs "upserted")). lia.
  - cbn [merged tt_wces]. rewrite element_docs_app, body_bytes_app, blen_app. destruct (rf_wce rf) as [w|]; cbn [option_map] in Hw; [|change (blen (body_bytes (element_docs _ []))) with 0; lia].
    apply field_size in Hw. unfold e_doc in Hw. cbn [e_key e_value] in Hw. rewrite blen_doc_bytes in Hw. cbn [element_docs].
    rewrite body_bytes_one, blen_entry. unfold e_doc. cbn [e_key e_value]. rewrite blen_doc_bytes.
    destruct (dec_key (0 + Z.of_nat (length (tt_wces t))) ltac:(lia)) as [_ Hk]. change (blen (cs "writeConcernError")) with 17 in Hw. pose proof (blen_nonneg (body_bytes w)). lia.
  - cbn [merged tt_labels]. pose proof (labels_growth (rf_labels rf) (tt_labels t) 0) as Hg. unfold has_labels in Hl.
    destruct (List.find _ es) as [e|] eqn:Ef; [|rewrite Hl in *; cbn [fold_left]; lia]. apply found_size in Ef. rewrite Hl in Ef. unfold labels_field, e_array in Ef.
    cbn [e_key e_value] in Ef. rewrite blen_doc_bytes in Ef. pose proof (blen_nonneg (cs "errorLabels")). lia.
Qed.

(** ** A reply whose message is replaced says the same *)
Lemma find_without k x es :
  k ≠ cs "errmsg" → field_of (without [cs "errmsg"] es ++ [e_utf8 (cs "errmsg") x]) k = field_of es k.
Proof.
  intros Hk. unfold field_of, without. induction es as [|e es IH].
  - cbn [List.filter app List.find e_utf8 e_key]. by rewrite bool_decide_false by congruence.
  - cbn [List.filter List.find]. destruct (bool_decide_reflect (e_key e = k)) as [E|Hne].
    + assert (should_ignore [cs "errmsg"] (e_key e) = false) as ->.
      { unfold should_ignore, streq. cbn [existsb]. rewrite bool_decide_false; [done|]. intros E'. apply Hk. by rewrite <- E, <- E'. }
      cbn [negb app List.find]. by rewrite bool_decide_true.
    + destruct (negb _); [cbn [app List.find]; by rewrite bool_decide_false|exact IH].
Qed.
Lemma retry_writes_message_ok : bytes_ok retry_writes_message ∧ blen retry_writes_message = 114.
Proof. split; by_check. Qed.
Lemma message_entry_ok : entry_ok (e_utf8 (cs "errmsg") retry_writes_message).
Proof. apply e_utf8_ok; [split; by_check|apply retry_writes_message_ok|]. destruct retry_writes_message_ok as [_ ->]. lia. Qed.
Lemma says_updated es rf :
  says es rf → blen (body_bytes es) ≤ 2 ^ 27 → says (without [cs "errmsg"] es ++ [e_utf8 (cs "errmsg") retry_writes_message]) rf.
Proof.
  intros [[Hes Hmax] Hn He Hu Hm Hw Hl] Hs. constructor; rewrite ?find_without by (intros E; by apply (f_equal (λ s, nth 0 s 0)) in E); try done.
  - split.
    + apply Forall_app. split; [by apply without_ok|]. apply Forall_singleton, message_entry_ok.
    + rewrite body_bytes_app, body_bytes_one, blen_app, blen_entry. pose proof (without_size [cs "errmsg"] es). unfold e_utf8. cbn [e_key e_value].
      rewrite !blen_app, blen_le_bytes. destruct retry_writes_message_ok as [_ ->]. change (blen [0]) with 1. change (blen (cs "errmsg")) with 6. unfold INT_MAX. lia.
  - unfold has_labels in *. fold (field_of (without [cs "errmsg"] es ++ [e_utf8 (cs "errmsg") retry_writes_message]) (cs "errorLabels")).
    rewrite find_without; [exact Hl|]. intros E. by apply (f_equal length) in E.
Qed.

(** ** A world that keeps a log of the commands, with their return value and reply *)
Definition attempt : Type := mongoc_cmd_t * bool * bson_t.
#[export] Instance logged {W} `{WritePath W} : WritePath (W * list attempt) := {|
  wp_run cmd e wl :=
    let* r := wp_run cmd e wl.1 in
    Ret (WriteRun (wx_ok r) (wx_error r) (wx_reply r) (wx_session r) (wx_world r, wl.2 ++ [(cmd, wx_ok r, wx_reply r)]));
  wp_stream_for_writes s wl := let '(st, w) := wp_stream_for_writes s wl.1 in (st, (w, wl.2))
|}.
#[export] Instance logged_starts {W} `{Starts W} : Starts (W * list attempt) := {|
  start_session wl := let '(s, w) := start_session wl.1 in (s, (w, wl.2));
  session_clock wl := let '(t, w) := session_clock wl.1 in (t, (w, wl.2))
|}.

Definition session_number (s : option cs_t) : option Z := option_map (λ s, ss_txn_number (cs_server_session s)) s.
(** A command returns; its reply is a document of at most [R] bytes that says what the
    write protocol says; it leaves the transaction number alone; and a reply whose write
    concern error is retryable comes with a failure. *)
Class WritePathOk (W : Type) `{WritePath W} (R : Z) := {
  wp_law cmd e w : ∃ r es rf, wp_run cmd e w = Ret r ∧ wx_reply r = doc_of es ∧ says es rf ∧ well_said rf
    ∧ Forall canonical_entry es ∧ blen (body_bytes es) ≤ R ∧ session_number (wx_session r) = session_number (cmd_session cmd)
    ∧ (wx_ok r = true → _mongoc_write_error_get_type true None (wx_reply r) ≠ Ret MONGOC_WRITE_ERR_RETRY)
}.

Section Ship.
Context {W : Type} `{WritePath W} (R : Z) `{!WritePathOk W R}.
Variable fresh : Z → Z.
Variables (command : mongoc_write_command_t) (parts : mongoc_cmd_parts_t) (has_cs : bool).
(** the entries around the transaction number of a retryable write, or the whole command *)
Variable shape : bson_t + list entry * list entry.
Variables (docs : list bson_t) (mem : list Z).
Notation world := (W * list attempt)%type.
Notation bulk := (bulk_t world).
Notation ty := (wcm_type command).
Notation number k := (e_int64 (cs "txnNumber") k).

Definition body (n : Z) : bson_t := match shape with inl d => d | inr (a, b) => doc_of (a ++ number n :: b) end.
Definition retryable : bool := match shape with inl _ => false | inr _ => true end.
Definition shape_ok : Prop :=
  match shape with
  | inl _ => True
  | inr (a, b) => Forall entry_ok (a ++ b) ∧ blen (body_bytes (a ++ b)) ≤ 2 ^ 30 ∧ Forall (λ e, e_key e ≠ cs "txnNumber") a
  end.
Hypothesis Hshape : shape_ok.
Hypothesis Hretry : pt_is_retryable_write parts = retryable.
Hypothesis Hdata : buf_data (wcm_payload command) = Some (concat docs ++ mem).
Hypothesis HR : R ≤ 2 ^ 27.

(** the batch [b] with the transaction number [n] *)
Definition carries_batch (n : Z) (b : list bson_t) (c : mongoc_cmd_t) : Prop :=
  cmd_command c = body n ∧ cmd_payload_identifier c = c_mem (gCommandFields ty)
  ∧ cmd_payload_size c = docs_size b ∧ (∃ rest, cmd_payload c = Some (concat b ++ rest))
  ∧ (retryable = true → session_number (cmd_session c) = Some n).
(** sent once, or twice when the first error was retryable; with the last return value and
    what the last reply says *)
Inductive tried (n : Z) (b : list bson_t) : list attempt → bool → reply_fields → Prop :=
| tried_once c ok es rf : carries_batch n b c → says es rf → tried n b [(c, ok, doc_of es)] ok rf
| tried_twice c c' e es es' ok ok' rf :
    retryable = true → carries_batch n b c → carries_batch n b c' →
    _mongoc_write_error_get_type ok (Some e) (doc_of es) = Ret MONGOC_WRITE_ERR_RETRY → says es' rf →
    tried n b [(c, ok, doc_of es); (c', ok', doc_of es')] ok' rf.

Definition numbered (s : bulk) (n : Z) : Prop :=
  match shape with
  | inl d => bk_command s = d
  | inr (a, b) => (∃ k, bk_command s = doc_of (a ++ number k :: b)) ∧ session_number (bk_session s) = Some n
  end.
Lemma shape_entries a b k :
  shape = inr (a, b) → Forall entry_ok (a ++ number k :: b) ∧ 5 + blen (body_bytes (a ++ number k :: b)) ≤ INT_MAX ∧ Forall (λ e, e_key e ≠ cs "txnNumber") a.
Proof.
  intros E. unfold shape_ok in Hshape. rewrite E in Hshape. destruct Hshape as (Hab & Hs & Ha). apply Forall_app in Hab as [H1 H2]. split; [|split; [|done]].
  - apply Forall_app. split; [done|]. constructor; [|done]. apply e_int64_ok. split; by_check.
  - rewrite body_bytes_app, blen_app in Hs. rewrite body_bytes_app, body_bytes_cons, !blen_app, blen_entry. unfold e_int64. cbn [e_key e_value].
    rewrite blen_le_bytes. change (blen (cs "txnNumber")) with 9. unfold INT_MAX. lia.
Qed.
Lemma next_number_ok (s : bulk) n :
  numbered s n → - 2 ^ 63 ≤ n < 2 ^ 63 - 1 →
  ∃ session, (if pt_is_retryable_write parts then next_txn_number s else Ret s) = Ret (set_txn (body (n + 1)) session s)
    ∧ (retryable = true → session_number session = Some (n + 1)).
Proof.
  intros Hn Hr. rewrite Hretry. unfold numbered, retryable, body in *. destruct shape as [d|[a b]] eqn:Es.
  { exists (bk_session s). split; [|done]. rewrite <- Hn. by destruct s. }
  destruct Hn as ((k & Hk) & Hs). destruct (shape_entries a b k Es) as (H1 & H2 & H3).
  destruct (overwrite_number a b (cs "txnNumber") k (n + 1) H1 H2 H3) as (f & it & E1 & E2 & E3).
  unfold next_txn_number, c_lit. rewrite Hk, E1. cbn [bind fst snd bson_assert]. destruct (bk_session s) as [ses|]; [|done]. cbn [deref bind].
  cbn [session_number option_map] in Hs. injection Hs as Hs. rewrite Hs. rewrite chk64_ok by (unfold in_s64; lia). cbn [bind]. rewrite E2. cbn [bind].
  rewrite E3. cbn [deref bind]. eexists. split; [done|]. done.
Qed.
Lemma batch_cmd_ok (s : bulk) sent b rest n session st :
  docs = sent ++ b ++ rest → bk_total s = docs_size sent → bk_batch s = docs_size b → bk_stream s = Some st →
  (retryable = true → session_number session = Some n) →
  ∃ c, batch_cmd command parts (set_txn (body n) session s) = Ret c ∧ carries_batch n b c ∧ cmd_session c = session.
Proof.
  intros Hd Ht Hb Hst Hs. unfold batch_cmd, set_txn. cbn. rewrite Hst, Hdata. cbn [deref bind]. eexists. split; [done|]. split; [|done].
  split; [done|]. split; [done|]. split; [done|]. split; [|done]. exists (concat rest ++ mem). cbn. f_equal.
  rewrite Ht, Hd, !concat_app, <- !app_assoc. apply ptr_add_inside.
Qed.

Lemma update_ok ok e es rf :
  says es rf → Forall canonical_entry es → blen (body_bytes es) ≤ 2 ^ 27 →
  ∃ b e' es', _mongoc_write_error_update_if_unsupported_storage_engine fresh ok e (doc_of es) = Ret (b, e', doc_of es') ∧ says es' rf.
Proof.
  intros Hs Hc Hl. unfold _mongoc_write_error_update_if_unsupported_storage_engine. destruct ok; [by eexists _, _, _|].
  pose proof Hs as [[Hes Hmax] _ _ _ _ _ _].
  pose proof (cmd_check_ok_no_wce_returns (doc_of es) MONGOC_ERROR_API_VERSION_2 (doc_of_ok es Hes ltac:(lia))) as Hck.
  apply returns_Ret in Hck as ([[] se] & -> & Hck); cbn [bind fst snd]; [by eexists _, _, _|]. destruct (Hck eq_refl) as [se' He']. cbn [snd] in He'. subst se. cbn [deref bind].
  destruct (_ && _); [|by eexists _, _, _]. destruct (copy_excluding_entries fresh es [cs "errmsg"] Hes Hc ltac:(lia)) as (m & E & Hm). unfold doc_of. rewrite E. cbn [bind].
  pose proof (without_size [cs "errmsg"] es) as Hw. destruct retry_writes_message_ok as [_ Hml].
  assert (Ha : appends (BSON_APPEND_UTF8 fresh m (cs "errmsg") retry_writes_message) m (body_bytes (without [cs "errmsg"] es)) []
    (entry_bytes (e_utf8 (cs "errmsg") retry_writes_message))).
  { unfold BSON_APPEND_UTF8. rewrite Hml. apply append_utf8_entry; [done|by repeat constructor|done|]. rewrite Hml. lia. }
  apply append_step in Ha as (m' & -> & Hm'); [|done|].
  2: { rewrite blen_entry. unfold e_utf8. cbn [e_key e_value]. rewrite !blen_app, blen_le_bytes, Hml. change (blen (cs "errmsg")) with 6. change (blen [0]) with 1. lia. }
  cbn [bind snd]. rewrite (get_data_builds _ _ _ Hm'). cbn [bind]. eexists _, _, _. split; [done|]. by apply says_updated.
Qed.

(** the state after a batch *)
Record after (s s' : bulk) (n : Z) (t : totals) (b : list bson_t) (log : list attempt) (group : list attempt) (ok : bool) (rf : reply_fields) : Prop := {
  af_tried : tried n b group ok rf;
  af_log : (bk_world s').2 = log ++ group;
  af_total : bk_total s' = bk_total s + docs_size b ∧ bk_batch s' = 0 ∧ bk_count s' = 0;
  af_offset : bk_offset s' = u32 (bk_offset s + Z.of_nat (length b));
  af_ret : bk_ret s' = ok ∧ wr_must_stop (bk_result s') = negb ok;
  af_result : represents (bk_result s') (merged ty (bk_offset s) rf (with_failed (negb ok) t));
  af_stream : ok = true → is_Some (bk_stream s');
  af_number : ok = true → numbered s' n
}.
Lemma failed_represents r t : represents r t → represents (set_must_stop true (set_failed true r)) (with_failed true t).
Proof. intros [? ? ? ? ? ?]. destruct t. constructor; cbn in *; try done. by rewrite orb_true_r. Qed.
Lemma failed_roomy b t k : roomy t k → roomy (with_failed b t) k.
Proof. done. Qed.
Lemma error_represents e r t : represents r t → represents (set_result_error e r) t.
Proof. by intros [? ? ? ? ? ?]. Qed.
Lemma batch_done_ok (s : bulk) n t b k (r : write_run world) es rf stream retry shared log group :
  wx_reply r = doc_of es → says es rf → well_said rf → represents (bk_result s) t → roomy t (3 * R + k) → 0 ≤ k →
  (∀ ty' off, roomy (merged ty' off rf t) k) →
  wr_must_stop (bk_result s) = false → bk_batch s = docs_size b → bk_count s = Z.of_nat (length b) → 0 ≤ bk_total s →
  bk_total s + docs_size b < 2 ^ 32 →
  tried n b group (wx_ok r) rf → (wx_world r).2 = log ++ group → (wx_ok r = true → is_Some stream) →
  (wx_ok r = true → match shape with inl d => bk_command s = d
                    | inr (x, y) => bk_command s = body n ∧ session_number (wx_session r) = Some n end) →
  ∃ s', batch_done fresh command s r stream retry shared = Ret s' ∧ after s s' n t b log group (wx_ok r) rf.
Proof.
  intros Hrep Hs Hw Hr Hroom Hk Hm Hstop Hb Hc Ht0 Hlt Htried Hlog Hst Hnum. unfold batch_done. rewrite Hrep.
  set (r0 := if wx_ok r then _ else _).
  assert (Hr0 : represents r0 (with_failed (negb (wx_ok r)) t) ∧ wr_must_stop r0 = negb (wx_ok r)).
  { unfold r0. destruct (wx_ok r); cbn [negb].
    - split; [|exact Hstop]. apply error_represents. destruct Hr, t. constructor; cbn in *; try done. by rewrite orb_false_r.
    - split; [|done]. by apply failed_represents, error_represents. }
  destruct Hr0 as [Hr0 Hms]. destruct (merge_ok fresh es rf (bk_offset s) Hs Hw command r0 _ Hr0) as (r' & -> & Hr' & (Em & _)).
  { apply (roomy_fits _ k Hk). apply (Hm ty (bk_offset s)). }
  cbn [bind]. assert (0 ≤ docs_size b) by apply blen_nonneg. rewrite Hb, Hc. rewrite (u32_small (bk_total s + docs_size b)) by lia.
  eexists. split; [done|]. constructor; cbn; try done.
  - split; [done|]. by rewrite Em, Hms.
  - intros Ho. specialize (Hnum Ho). unfold numbered, body in *. cbn. destruct shape as [d|[x y]]; [done|]. destruct Hnum as [-> ->]. split; [by eexists|done].
Qed.

(** an error type is found for every reply; the error itself does not matter to a success *)
Lemma type_ok ok e es rf : says es rf → blen (body_bytes es) ≤ 2 ^ 30 → ∃ ty', _mongoc_write_error_get_type ok (Some e) (doc_of es) = Ret ty'.
Proof.
  intros [[Hes Hmax] _ _ _ _ _ _] Hl. pose proof (write_error_get_type_returns ok (Some e) (doc_of es) (doc_of_ok es Hes Hl) ltac:(by eexists)) as Ht.
  apply returns_Ret in Ht as (ty' & Ht & _). by exists ty'.
Qed.
Lemma type_success e es : _mongoc_write_error_get_type true (Some e) (doc_of es) = _mongoc_write_error_get_type true None (doc_of es).
Proof. done. Qed.
Lemma logged_eq cmd e (w : world) :
  wp_run cmd e w = let* r := wp_run cmd e w.1 in
    Ret (WriteRun (wx_ok r) (wx_error r) (wx_reply r) (wx_session r) (wx_world r, w.2 ++ [(cmd, wx_ok r, wx_reply r)])).
Proof. done. Qed.
Lemma logged_select s (w : world) st w' : wp_stream_for_writes s w = (st, w') → w'.2 = w.2.
Proof.
  change (wp_stream_for_writes s w) with (let '(st, w1) := wp_stream_for_writes s w.1 in (st, (w1, w.2))).
  destruct (wp_stream_for_writes s w.1). by intros [= _ <-].
Qed.
Lemma logged_run cmd e (w : world) :
  ∃ r es rf, wp_run cmd e w = Ret r ∧ wx_reply r = doc_of es ∧ says es rf ∧ well_said rf ∧ Forall canonical_entry es
    ∧ blen (body_bytes es) ≤ R ∧ session_number (wx_session r) = session_number (cmd_session cmd)
    ∧ (wx_ok r = true → ∀ x, _mongoc_write_error_get_type true (Some x) (doc_of es) ≠ Ret MONGOC_WRITE_ERR_RETRY)
    ∧ (wx_world r).2 = w.2 ++ [(cmd, wx_ok r, doc_of es)].
Proof.
  destruct (wp_law cmd e w.1) as (r & es & rf & E & Hr & H1 & H2 & H3 & H4 & H5 & H6). rewrite logged_eq, E. cbn [bind].
  eexists (WriteRun _ _ _ _ _), es, rf. split; [done|]. cbn [wx_ok wx_error wx_reply wx_session wx_world snd]. rewrite Hr in *. do 6 (split; [done|]). split; [|done]. intros Ho x. rewrite type_success. by apply H6.
Qed.

Lemma ship_ok (s : bulk) sent b rest n t k log :
  docs = sent ++ b ++ rest → bk_total s = docs_size sent → bk_batch s = docs_size b → bk_count s = Z.of_nat (length b) →
  is_Some (bk_stream s) → numbered s n → - 2 ^ 63 ≤ n < 2 ^ 63 - 1 → represents (bk_result s) t → roomy t (3 * R + k) → 0 ≤ k →
  wr_must_stop (bk_result s) = false → docs_size docs < 2 ^ 32 → (bk_world s).2 = log →
  ∃ s' group ok rf, ship fresh command parts has_cs s = Ret s' ∧ after s s' (n + 1) t b log group ok rf
    ∧ roomy (merged ty (bk_offset s) rf (with_failed (negb ok) t)) k.
Proof.
  intros Hd Ht Hb Hc [st Hst] Hn Hrange Hr Hroom Hk Hstop Hlt Hlog.
  destruct (next_number_ok s n Hn Hrange) as (ses & E1 & Hses). unfold ship. rewrite E1. cbn [bind].
  destruct (batch_cmd_ok s sent b rest (n + 1) ses st Hd Ht Hb Hst Hses) as (c & -> & Hcar & Hcs). cbn [bind].
  set (s1 := set_txn (body (n + 1)) ses s). change (bk_world s1) with (bk_world s). change (bk_result s1) with (bk_result s).
  assert (Hsz : 0 ≤ bk_total s1 ∧ bk_total s1 + docs_size b < 2 ^ 32).
  { cbn. rewrite Ht. unfold docs_size in *. rewrite Hd, !concat_app, !blen_app in Hlt. pose proof (blen_nonneg (concat sent)). pose proof (blen_nonneg (concat rest)). lia. }
  destruct (logged_run c (wr_error (bk_result s)) (bk_world s)) as (r & es & rf & -> & Hrep & Hsay & Hwell & Hcan & Hlen & Hnum & Hnr & Hw). cbn [bind].
  rewrite Hrep. destruct (type_ok (wx_ok r) (wx_error r) es rf Hsay ltac:(lia)) as (et & Het). rewrite Het. cbn [bind].
  assert (Hgrow : ∀ es rf, says es rf → blen (body_bytes es) ≤ R → ∀ ty' off, roomy (merged ty' off rf t) k).
  { intros es0 rf0 Hs0 Hl0 ty' off. apply (merged_roomy ty' off es0 rf0 t k Hs0). unfold roomy in *. lia. }
  assert (Hupd : ∃ x e' es', (if pt_is_retryable_write parts
      then _mongoc_write_error_update_if_unsupported_storage_engine fresh (wx_ok r) (wx_error r) (doc_of es)
      else Ret (false, wx_error r, doc_of es)) = Ret (x, e', doc_of es') ∧ says es' rf).
  { destruct (pt_is_retryable_write parts); [by apply update_ok; [| |lia]|by eexists _, _, _]. }
  destruct Hupd as (x & e' & es' & -> & Hsay'). cbn [bind fst snd wx_session wx_world wx_error wx_ok wx_reply].
  assert (Hnumbered : ∀ r2 : write_run world, session_number (wx_session r2) = session_number ses → wx_ok r2 = true →
    match shape with inl d => bk_command s1 = d | inr (x, y) => bk_command s1 = body (n + 1) ∧ session_number (wx_session r2) = Some (n + 1) end).
  { intros r2 Hs2 _. unfold body, retryable in *. cbn. destruct shape as [d|[a0 b0]]; [done|]. split; [done|]. rewrite Hs2. by apply Hses. }
  rewrite Hcs in Hnum. destruct (pt_is_retryable_write parts && bool_decide (et = MONGOC_WRITE_ERR_RETRY)) eqn:Eretry.
  - apply andb_true_iff in Eretry as [Ept ->%bool_decide_eq_true]. rewrite Hretry in Ept.
    assert (Hfail : wx_ok r = false) by (destruct (wx_ok r) eqn:Eok; [by destruct (Hnr eq_refl (wx_error r))|done]).
    destruct (wp_stream_for_writes (if has_cs then wx_session r else None) (wx_world r)) as [retry w2] eqn:Esel.
    assert (Hw2 : w2.2 = log ++ [(c, wx_ok r, doc_of es)]).
    { rewrite <- Hlog, <- Hw. by apply logged_select in Esel. }
    assert (Hstop_here : ∀ stream rt, ∃ s' group ok rf0,
      batch_done fresh command s1 (WriteRun (wx_ok r) e' (doc_of es') (wx_session r) w2) stream rt false = Ret s'
      ∧ after s s' (n + 1) t b log group ok rf0 ∧ roomy (merged ty (bk_offset s) rf0 (with_failed (negb ok) t)) k).
    { intros stream rt. destruct (batch_done_ok s1 (n + 1) t b k (WriteRun (wx_ok r) e' (doc_of es') (wx_session r) w2) es' rf stream rt false log
        [(c, wx_ok r, doc_of es)]) as (s' & E & Ha); try done.
      - by apply (Hgrow es rf).
      - lia.
      - lia.
      - cbn. by apply tried_once.
      - cbn. by rewrite Hfail.
      - cbn. by rewrite Hfail.
      - exists s', [(c, wx_ok r, doc_of es)], (wx_ok r), rf. split; [exact E|]. split; [by destruct Ha; constructor|]. by apply (Hgrow es rf). }
    destruct retry as [st2|]; [|apply Hstop_here]. destruct (_ >=? _); [|apply Hstop_here].
    destruct (logged_run (cmd_on st2 (wx_session r) c) e' w2) as (r2 & es2 & rf2 & -> & Hrep2 & Hsay2 & Hwell2 & Hcan2 & Hlen2 & Hnum2 & Hnr2 & Hwl2). cbn [bind].
    rewrite Hrep2. destruct (type_ok (wx_ok r2) (wx_error r2) es2 rf2 Hsay2 ltac:(lia)) as (et2 & ->). cbn [bind]. cbn [cmd_on cmd_session] in Hnum2.
    assert (Hcar2 : carries_batch (n + 1) b (cmd_on st2 (wx_session r) c)).
    { destruct Hcar as (C1 & C2 & C3 & C4 & C5). split; [done|]. split; [done|]. split; [done|]. split; [done|]. intros Hre. cbn. rewrite Hnum. by apply Hses. }
    destruct (batch_done_ok s1 (n + 1) t b k r2 es2 rf2 (Some st2) (Some st2) true log
      [(c, wx_ok r, doc_of es); (cmd_on st2 (wx_session r) c, wx_ok r2, doc_of es2)]) as (s' & E & Ha); try done.
    + by apply (Hgrow es2 rf2).
    + lia.
    + lia.
    + by apply tried_twice with (e := wx_error r).
    + by rewrite Hwl2, Hw2, <- app_assoc.
    + apply Hnumbered. by rewrite Hnum2.
    + exists s', [(c, wx_ok r, doc_of es); (cmd_on st2 (wx_session r) c, wx_ok r2, doc_of es2)], (wx_ok r2), rf2.
      split; [exact E|]. split; [by destruct Ha; constructor|]. by apply (Hgrow es2 rf2).
  - destruct (batch_done_ok s1 (n + 1) t b k (WriteRun (wx_ok r) e' (doc_of es') (wx_session r) (wx_world r)) es' rf
      (bk_stream s1) (bk_retry s1) (bk_shared s1) log [(c, wx_ok r, doc_of es)]) as (s' & E & Ha); try done.
    + by apply (Hgrow es rf).
    + lia.
    + lia.
    + cbn. by apply tried_once.
    + cbn. by rewrite Hw, Hlog.
    + by apply Hnumbered.
    + exists s', [(c, wx_ok r, doc_of es)], (wx_ok r), rf. split; [exact E|]. split; [by destruct Ha; constructor|]. by apply (Hgrow es rf).
Qed.

(** ** The loop *)

(** The batches go out one after the other, with consecutive transaction numbers, and
    their replies are merged at the index of their first document; the first failure
    ends it. *)
Inductive sends : Z → Z → totals → list (list bson_t) → list attempt → totals → bool → Prop :=
| sends_all off n t : sends off n t [] [] t true
| sends_stopped off n t b bs group rf :
    tried (n + 1) b group false rf → sends off n t (b :: bs) group (merged ty off rf (with_failed true t)) false
| sends_next off n t b bs group rf log t' ok :
    tried (n + 1) b group true rf → sends (u32 (off + Z.of_nat (length b))) (n + 1) (merged ty off rf t) bs log t' ok →
    sends off n t (b :: bs) (group ++ log) t' ok.

Variables (header max_msg_size max_bson_obj_size max_document_count : Z).
Hypothesis Hheader : 0 ≤ header ∧ header + docs_size docs < 2 ^ 32.
Hypothesis Hmsg : 0 ≤ max_msg_size < 2 ^ 31.
Hypothesis Hobj : - 2 ^ 31 ≤ max_bson_obj_size + BSON_OBJECT_ALLOWANCE < 2 ^ 31.
Hypothesis Hcount : 1 ≤ max_document_count.
Hypothesis Hdocs : Forall (λ d, 5 ≤ blen d ≤ max_bson_obj_size + BSON_OBJECT_ALLOWANCE ∧ rd_le 4 d 0 = Ret (blen d)) docs.
Hypothesis Hlen : buf_len (wcm_payload command) = docs_size docs.
Notation splits := (batches header max_msg_size max_document_count).
Notation step := (bulk_step fresh command parts has_cs header max_msg_size max_bson_obj_size max_document_count).
Notation loop := (bulk_loop fresh command parts has_cs header max_msg_size max_bson_obj_size max_document_count).

Lemma docs_size_app a b : docs_size (a ++ b) = docs_size a + docs_size b.
Proof. unfold docs_size. by rewrite concat_app, blen_app. Qed.
Lemma docs_size_cons d b : docs_size (d :: b) = blen d + docs_size b.
Proof. unfold docs_size. cbn [concat]. by rewrite blen_app. Qed.
Lemma docs_size_length (l : list bson_t) : Forall (λ d : bson_t, 5 ≤ blen d) l → 5 * Z.of_nat (length l) ≤ docs_size l.
Proof. induction 1 as [|d l Hd _ IH]; [done|]. rewrite docs_size_cons. cbn [length]. lia. Qed.

(** a point of the loop: the documents sent, gathered and left *)
Record at_point (s : bulk) (sent cur rest : list bson_t) (n : Z) (t : totals) (log : list attempt) : Prop := {
  ap_docs : docs = sent ++ cur ++ rest;
  ap_total : bk_total s = docs_size sent;
  ap_batch : bk_batch s = docs_size cur ∧ bk_count s = Z.of_nat (length cur);
  ap_stream : is_Some (bk_stream s);
  ap_number : numbered s n;
  ap_result : represents (bk_result s) t;
  ap_stop : wr_must_stop (bk_result s) = false;
  ap_log : (bk_world s).2 = log
}.
Definition room (n : Z) (t : totals) (bs : list (list bson_t)) : Prop :=
  - 2 ^ 63 ≤ n ∧ n + Z.of_nat (length bs) < 2 ^ 63 ∧ roomy t (3 * R * Z.of_nat (length bs)).

(** a batch is sent from a point of the loop *)
Lemma ship_point s sent b rest n t log bs :
  0 ≤ R → at_point s sent b rest n t log → room n t (b :: bs) →
  ∃ s' group ok rf, ship fresh command parts has_cs s = Ret s' ∧ tried (n + 1) b group ok rf
    ∧ bk_ret s' = ok ∧ wr_must_stop (bk_result s') = negb ok ∧ (bk_world s').2 = log ++ group
    ∧ represents (bk_result s') (merged ty (bk_offset s) rf (with_failed (negb ok) t))
    ∧ bk_total s' = docs_size (sent ++ b) ∧ bk_offset s' = u32 (bk_offset s + Z.of_nat (length b))
    ∧ (ok = true → at_point s' (sent ++ b) [] rest (n + 1) (merged ty (bk_offset s) rf (with_failed (negb ok) t)) (log ++ group)
        ∧ room (n + 1) (merged ty (bk_offset s) rf (with_failed (negb ok) t)) bs).
Proof.
  intros H0 [Hd Ht [Hb Hc] Hst Hn Hr Hstop Hlog] (N1 & N2 & Hroom). cbn [length] in *.
  assert (Hroom' : roomy t (3 * R + 3 * R * Z.of_nat (length bs))) by (unfold roomy in *; lia).
  destruct (ship_ok s sent b rest n t (3 * R * Z.of_nat (length bs)) log Hd Ht Hb Hc Hst Hn ltac:(lia) Hr Hroom' ltac:(lia) Hstop ltac:(lia) Hlog)
    as (s' & group & ok & rf & E & [Htr Hl (T1 & T2 & T3) Ho (Hrt & Hms) Hre Hs' Hn'] & Hroom2).
  exists s', group, ok, rf. split; [done|]. split; [done|]. split; [done|]. split; [done|]. split; [done|]. split; [done|].
  split; [by rewrite T1, Ht, docs_size_app|]. split; [done|]. intros Hok. split; [|split; [lia|split; [lia|done]]].
  constructor; try done; [by rewrite Hd, <- app_assoc|by rewrite T1, Ht, docs_size_app|by apply Hs'|by apply Hn'|by rewrite Hms, Hok].
Qed.
(** the next document, and what the round does with it *)
Lemma step_point s sent cur d rest n t log :
  at_point s sent cur (d :: rest) n t log → (cur = [] ∨ Z.of_nat (length cur) < max_document_count) →
  step s =
    let s1 := set_gathered (docs_size (cur ++ [d])) (Z.of_nat (length (cur ++ [d]))) s in
    if overflows header max_msg_size max_document_count cur d then let* s := ship fresh command parts has_cs s in Ret (true, s)
    else if (Z.of_nat (length (cur ++ [d])) =? max_document_count) || bool_decide (rest = [])
    then let* s := ship fresh command parts has_cs s1 in Ret (true, s) else Ret (true, s1).
Proof.
  intros [Hd Ht [Hb Hc] _ _ _ _ _] Hcur.
  pose proof Hdocs as Hall. rewrite Hd in Hall. apply Forall_app in Hall as [A1 Hall]. apply Forall_app in Hall as [A2 Hall]. apply Forall_cons in Hall as [[Hsz Hle] A3].
  pose proof (docs_size_length sent ltac:(eapply Forall_impl; [exact A1|]; cbn; tauto)). pose proof (docs_size_length cur ltac:(eapply Forall_impl; [exact A2|]; cbn; tauto)).
  pose proof (docs_size_length rest ltac:(eapply Forall_impl; [exact A3|]; cbn; tauto)).
  assert (Htot : docs_size docs = docs_size sent + docs_size cur + blen d + docs_size rest) by (rewrite Hd, !docs_size_app, docs_size_cons; lia).
  unfold bulk_step. rewrite Hdata. cbn [deref bind]. rewrite Hb, Ht, Hc.
  assert (rd_le 4 (concat docs ++ mem) (docs_size cur + docs_size sent) = Ret (blen d)) as ->.
  { replace (docs_size cur + docs_size sent) with (blen (concat (sent ++ cur)) + 0) by (pose proof (docs_size_app sent cur) as E; unfold docs_size in *; lia).
    replace (concat docs ++ mem) with (concat (sent ++ cur) ++ d ++ (concat rest ++ mem)); [by apply rd_le_inside|].
    rewrite Hd, !concat_app. cbn [concat]. by rewrite <- !app_assoc. }
  cbn [bind]. unfold BSON_OBJECT_ALLOWANCE in *. rewrite chk32_ok by (unfold in_s32; lia). cbn [bind].
  rewrite (s32_small (blen d)) by (unfold in_s32; lia). destruct (Z.gtb_spec (blen d) (max_bson_obj_size + 16 * 1024)); [lia|].
  rewrite (u32_small (docs_size cur + header)), (u32_small (docs_size cur + header + blen d)), (u32_small max_msg_size), (u32_small (docs_size cur + blen d)) by lia.
  assert (Hover : overflows header max_msg_size max_document_count cur d = negb ((docs_size cur + header + blen d <=? max_msg_size) || (Z.of_nat (length cur) =? 0))).
  { unfold overflows. destruct cur as [|c cur]; [by rewrite orb_true_r|]. rewrite bool_decide_true by done. destruct Hcur as [|Hcur]; [done|]. cbn [andb].
    destruct (Z.geb_spec (Z.of_nat (length (c :: cur))) max_document_count); [lia|]. cbn [orb].
    destruct (Z.eqb_spec (Z.of_nat (length (c :: cur))) 0); [done|]. rewrite orb_false_r, <- Z.ltb_antisym.
    f_equal. lia. }
  rewrite Hover. destruct ((_ <=? _) || _); cbn [negb]; [|done].
  rewrite chk32_ok by (unfold in_s32; lia). cbn [bind]. rewrite docs_size_snoc, length_app. cbn [length].
  replace (Z.of_nat (length cur + 1)) with (Z.of_nat (length cur) + 1) by lia.
  cbn [set_gathered bk_total]. rewrite Ht, Hlen. rewrite (u32_small (docs_size cur + blen d + docs_size sent)) by lia.
  assert ((docs_size cur + blen d + docs_size sent =? docs_size docs) = bool_decide (rest = [])) as ->; [|done].
  case_bool_decide as Er; [subst rest; apply Z.eqb_eq; rewrite Htot; change (docs_size []) with 0; lia|].
  apply Z.eqb_neq. rewrite Htot. destruct rest; [done|]. cbn [length] in *. lia.
Qed.

Lemma gathered_point s sent cur d rest n t log :
  at_point s sent cur (d :: rest) n t log →
  at_point (set_gathered (docs_size (cur ++ [d])) (Z.of_nat (length (cur ++ [d]))) s) sent (cur ++ [d]) rest n t log.
Proof. intros [Hd Ht [Hb Hc] ? ? ? ? ?]. constructor; try done. by rewrite Hd, <- app_assoc. Qed.
Lemma with_failed_false t : with_failed false t = t.
Proof. destruct t. unfold with_failed. cbn. by rewrite orb_false_r. Qed.
Lemma splits_next b d rest :
  b ≠ [] → overflows header max_msg_size max_document_count b d = true → splits b (d :: rest) = b :: splits [] (d :: rest).
Proof. intros Hb Ho. cbn [batches]. by rewrite Ho. Qed.
Lemma splits_nonempty d rest : splits [] (d :: rest) ≠ [].
Proof.
  destruct (batches_spec header max_msg_size max_document_count [] (d :: rest) Hcount) as (Hc & _); [by left|]. intros E. by rewrite E in Hc.
Qed.

(** what the rest of the loop does *)
Definition finishes (fuel : nat) (s : bulk) (n : Z) (t : totals) (log : list attempt) (bs : list (list bson_t)) : Prop :=
  ∃ s' t' log' ok, loop fuel s = Ret s' ∧ sends (bk_offset s) n t bs log' t' ok ∧ (bk_world s').2 = log ++ log'
    ∧ represents (bk_result s') t' ∧ wr_must_stop (bk_result s') = negb ok ∧ bk_ret s' = ok.
(** the round ships [b] *)
Lemma finishes_ship fuel s s1 sent b rest n t log :
  0 ≤ R → at_point s1 sent b rest n t log → room n t (b :: splits [] rest) → bk_offset s1 = bk_offset s →
  step s = (let* s' := ship fresh command parts has_cs s1 in Ret (true, s')) →
  (∀ s' d rest' t' log', rest = d :: rest' → at_point s' (sent ++ b) [] rest (n + 1) t' log' → room (n + 1) t' (splits [] rest) →
     finishes fuel s' (n + 1) t' log' (splits [] rest)) →
  finishes (S fuel) s n t log (b :: splits [] rest).
Proof.
  intros H0 Hp Hroom Hoff Hstep Hrec. unfold finishes. cbn [bulk_loop]. rewrite Hstep.
  destruct (ship_point s1 sent b rest n t log (splits [] rest) H0 Hp Hroom) as (s' & group & ok & rf & -> & Htr & Hret & Hms & Hl & Hre & Htot & Ho & Hnext).
  cbn [bind fst snd andb]. rewrite Hms, Hlen, Htot. destruct Hp as [Hd _ _ _ _ _ _ _]. rewrite Hoff in *. destruct ok; cbn [negb] in *.
  - rewrite with_failed_false in *. destruct (Hnext eq_refl) as [Hp' Hroom'].
    assert (Hdec : (docs_size (sent ++ b) <? docs_size docs) && true = negb (bool_decide (rest = []))).
    { rewrite andb_true_r, Hd, app_assoc, (docs_size_app (sent ++ b) rest). case_bool_decide as Er; [subst rest; apply Z.ltb_ge; change (docs_size []) with 0; lia|].
      apply Z.ltb_lt. pose proof Hdocs as Hall. rewrite Hd in Hall. apply Forall_app in Hall as [_ Hall]. apply Forall_app in Hall as [_ Hall].
      destruct rest as [|d rest']; [done|]. apply Forall_cons in Hall as [[Hsz _] _]. rewrite docs_size_cons. assert (0 ≤ docs_size rest') by apply blen_nonneg. lia. }
    rewrite Hdec. destruct rest as [|d rest']; cbn [bool_decide decide_rel negb].
    + rewrite bool_decide_true by done. cbn [negb]. eexists s', _, group, true. split; [done|]. split; [|done].
      rewrite <- (app_nil_r group). eapply sends_next; [exact Htr|]. constructor.
    + rewrite bool_decide_false by done. cbn [negb].
      destruct (Hrec s' d rest' _ _ eq_refl Hp' Hroom') as (s2 & t2 & log2 & ok2 & E & Hsend & Hl2 & Hre2 & Hms2 & Hret2).
      exists s2, t2, (group ++ log2), ok2. split; [exact E|]. split; [|split; [by rewrite Hl2, <- app_assoc|done]].
      eapply sends_next; [exact Htr|]. by rewrite <- Ho.
  - rewrite andb_false_r. eexists s', _, group, false. split; [done|]. split; [by apply sends_stopped|]. done.
Qed.
Lemma loop_ok fuel s sent cur d rest n t log :
  0 ≤ R → at_point s sent cur (d :: rest) n t log → (cur = [] ∨ Z.of_nat (length cur) < max_document_count) →
  room n t (splits cur (d :: rest)) → (2 * length (d :: rest) + (if decide (cur = []) then 0 else 1) ≤ fuel)%nat →
  finishes fuel s n t log (splits cur (d :: rest)).
Proof.
  intros H0. revert s sent cur d rest n t log. induction fuel as [|fuel IH]; intros s sent cur d rest n t log Hp Hcur Hroom Hfuel; [cbn [length] in Hfuel; lia|].
  pose proof (step_point s sent cur d rest n t log Hp Hcur) as Hstep. cbn zeta in Hstep.
  destruct (overflows header max_msg_size max_document_count cur d) eqn:Eo.
  - assert (Hne : cur ≠ []) by (unfold overflows in Eo; apply andb_true_iff in Eo as [E _]; by apply bool_decide_eq_true in E).
    rewrite (splits_next cur d rest Hne Eo) in *. apply (finishes_ship fuel s s sent cur (d :: rest) n t log H0 Hp Hroom eq_refl Hstep).
    intros s' d' rest' t' log' [= <- <-] Hp' Hroom'. apply (IH s' (sent ++ cur) [] d rest _ _ _ Hp'); [by left|done|].
    rewrite decide_True by done. rewrite decide_False in Hfuel by done. lia.
  - cbn [batches] in Hroom |- *. rewrite Eo in Hroom |- *. pose proof (gathered_point s sent cur d rest n t log Hp) as Hg.
    set (s1 := set_gathered _ _ s) in *. set (cur' := cur ++ [d]) in *.
    assert (Hne : cur' ≠ []) by (unfold cur'; by destruct cur). cbn [length] in Hfuel.
    destruct ((Z.of_nat (length cur') =? max_document_count) || bool_decide (rest = [])) eqn:Eship.
    + assert (Hsp : splits cur' rest = cur' :: splits [] rest).
      { destruct rest as [|d' rest']; [cbn [batches]; by destruct cur'|]. apply splits_next; [done|]. apply orb_true_iff in Eship as [E%Z.eqb_eq|E%bool_decide_eq_true]; [|done].
        unfold overflows. rewrite bool_decide_true by done. cbn [andb]. destruct (Z.geb_spec (Z.of_nat (length cur')) max_document_count); [done|lia]. }
      rewrite Hsp in *. apply (finishes_ship fuel s s1 sent cur' rest n t log H0 Hg Hroom eq_refl Hstep).
      intros s' d' rest' t' log' -> Hp' Hroom'. apply (IH s' (sent ++ cur') [] d' rest' _ _ _ Hp'); [by left|done|].
      rewrite decide_True by done. cbn [length] in *. destruct (decide (cur = [])); lia.
    + apply orb_false_iff in Eship as [E1%Z.eqb_neq E2%bool_decide_eq_false]. destruct rest as [|d' rest']; [done|].
      assert (Hlt : Z.of_nat (length cur') < max_document_count).
      { unfold cur' in *. rewrite length_app in *. cbn [length] in *. destruct Hcur as [->|]; cbn [length] in *; lia. }
      unfold finishes. cbn [bulk_loop]. rewrite Hstep. cbn [bind fst snd andb]. change (bk_total s1) with (bk_total s). change (bk_result s1) with (bk_result s).
      rewrite (ap_stop _ _ _ _ _ _ _ Hp), (ap_total _ _ _ _ _ _ _ Hp), Hlen. cbn [negb]. rewrite andb_true_r.
      assert (docs_size sent <? docs_size docs = true) as ->.
      { apply Z.ltb_lt. pose proof Hdocs as Hall. rewrite (ap_docs _ _ _ _ _ _ _ Hp) in Hall |- *. apply Forall_app in Hall as [_ Hall]. apply Forall_app in Hall as [_ Hall].
        apply Forall_cons in Hall as [[Hsz _] _]. rewrite !docs_size_app, docs_size_cons. assert (0 ≤ docs_size cur) by apply blen_nonneg.
        assert (0 ≤ docs_size (d' :: rest')) by apply blen_nonneg. lia. }
      apply (IH s1 sent cur' d' rest' n t log Hg); [by right|done|]. rewrite decide_False by done. cbn [length] in *. destruct (decide (cur = [])); lia.
Qed.
End Ship.

(** ** A write command *)

(** the command that was assembled, before its first transaction number *)
Definition assembled_as (shape : bson_t + list entry * list entry) (assembled : bson_t) (session : option cs_t) (n : Z) : Prop :=
  match shape with
  | inl d => assembled = d
  | inr (a, b) => (∃ k, assembled = doc_of (a ++ e_int64 (cs "txnNumber") k :: b)) ∧ session_number session = Some n
  end.
(** the documents of a command lie one after the other in its payload *)
Record holds_documents (command : mongoc_write_command_t) (docs : list bson_t) : Prop := {
  hd_data : ∃ mem, buf_data (wcm_payload command) = Some (concat docs ++ mem);
  hd_len : buf_len (wcm_payload command) = docs_size docs;
  hd_count : wcm_n_documents command = Z.of_nat (length docs) ∧ docs ≠ []
}.
(** and each one is within the limit of the server *)
Definition document_fits (st : stream_t) (d : bson_t) : Prop :=
  5 ≤ blen d ≤ mongoc_server_stream_max_bson_obj_size st + BSON_OBJECT_ALLOWANCE ∧ rd_le 4 d 0 = Ret (blen d).
Definition message_limit (cse_enabled : bool) (st : stream_t) : Z :=
  if cse_enabled then MONGOC_REDUCED_MAX_MSG_SIZE_FOR_FLE else mongoc_server_stream_max_msg_size st.
Record limits_sane (cse_enabled : bool) (st : stream_t) : Prop := {
  ls_msg : 0 ≤ message_limit cse_enabled st < 2 ^ 31;
  ls_obj : - 2 ^ 31 ≤ mongoc_server_stream_max_bson_obj_size st + BSON_OBJECT_ALLOWANCE < 2 ^ 31;
  ls_count : 1 ≤ mongoc_server_stream_max_write_batch_size st
}.
(** what goes before the documents in a message *)
Definition batch_header (command : mongoc_write_command_t) (assembled : bson_t) : Z :=
  26 + blen assembled + gCommandFieldLens (wcm_type command) + 1.
Definition split_for (command : mongoc_write_command_t) (cse_enabled : bool) (st : stream_t) (assembled : bson_t) (docs : list bson_t)
    : list (list bson_t) :=
  batches (batch_header command assembled) (message_limit cse_enabled st) (mongoc_server_stream_max_write_batch_size st) [] docs.

Lemma write_opmsg_ok {W} `{WritePath W} `{Starts W} R `{!WritePathOk W R} fresh command client cse st db coll wc offset session result (w w1 : W)
    parts assembled wc1 shape docs n t :
  0 ≤ R ≤ 2 ^ 27 → holds_documents command docs → Forall (document_fits st) docs → limits_sane cse st →
  opmsg_prepare fresh command client st db coll wc session (w, @nil attempt) = Ret (inr (parts, assembled), wc1, (w1, [])) →
  shape_ok shape → pt_is_retryable_write parts = retryable shape → assembled_as shape assembled (pt_session parts) n →
  batch_header command assembled + docs_size docs < 2 ^ 32 →
  represents result t → wr_must_stop result = false →
  let bs := split_for command cse st assembled docs in
  room R n t bs →
  ∃ result' parts' w' log t' ok,
    _mongoc_write_opmsg fresh command client cse st db coll wc offset session result (w, @nil attempt) = Ret (result', wc1, parts', (w', log))
    ∧ sends command shape offset n t bs log t' ok
    ∧ represents result' t' ∧ wr_must_stop result' = negb ok ∧ (ok = true → wr_error result' = no_error).
Proof.
  intros HR [(mem & Hdata) Hlen [Hn Hne]] Hdocs [L1 L2 L3] Hprep Hshape Hretry Has Hmax Hr Hstop bs Hroom.
  unfold _mongoc_write_opmsg. rewrite Hprep. cbn [bind].
  assert (0 ≤ batch_header command assembled).
  { unfold batch_header. pose proof (blen_nonneg assembled). assert (0 ≤ gCommandFieldLens (wcm_type command)) by (by destruct (wcm_type command)). lia. }
  assert (0 ≤ docs_size docs) by apply blen_nonneg.
  assert (u32 (26 + blen assembled + gCommandFieldLens (wcm_type command) + 1) = batch_header command assembled) as ->.
  { unfold batch_header in *. apply u32_small. lia. }
  set (s := Bulk 0 0 0 offset false assembled (pt_session parts) (Some st) None false result (w1, [])).
  destruct docs as [|d rest]; [done|].
  assert (Hp : at_point shape (d :: rest) s [] [] (d :: rest) n t []) by (constructor; [done..|exact Has|exact Hr|exact Hstop|done]).
  destruct (loop_ok R fresh command parts (bool_decide (is_Some session)) shape (d :: rest) mem Hshape Hretry Hdata ltac:(lia)
      (batch_header command assembled) (message_limit cse st) (mongoc_server_stream_max_bson_obj_size st)
      (mongoc_server_stream_max_write_batch_size st) ltac:(lia) L1 L2 L3 Hdocs Hlen (bulk_fuel command) s [] [] d rest n t [] ltac:(lia) Hp
      ltac:(by left) Hroom) as (s' & t' & log & ok & E & Hsend & Hlog & Hre & Hms & Hret).
  { rewrite decide_True by done. unfold bulk_fuel. rewrite Hn, Nat2Z.id. lia. }
  fold (message_limit cse st). rewrite E. cbn [bind]. destruct (bk_world s') as [w' log'] eqn:Ew. cbn [snd app] in Hlog. subst log'.
  set (r1 := match bk_retry s' with Some _ => _ | None => _ end).
  assert (Hr1 : represents r1 t' ∧ wr_must_stop r1 = negb ok).
  { unfold r1. destruct (bk_retry s'); [|done]. destruct (bk_ret s'); [|done]. split; [|exact Hms]. by destruct Hre. }
  destruct Hr1 as [Hr1 Hm1]. eexists _, _, w', log, t', ok. split; [done|]. split; [exact Hsend|]. rewrite Hret.
  destruct ok; [|done]. split; [by apply error_represents|]. done.
Qed.

(** * Properties *)


(** answers that have been written down beforehand; then everything is written *)
Inductive answer := Written | PartlyWritten | Refused.
Definition duplicate_key : Z * list entry := (1, [e_int32 (cs "code") 11000]).
Definition answer_ok (a : answer) : bool := match a with Refused => false | _ => true end.
Definition scripted_entries (a : answer) : list entry :=
  match a with
  | Written => [e_int32 (cs "ok") 1; e_int32 (cs "n") 2]
  | PartlyWritten => [e_int32 (cs "ok") 1; e_int32 (cs "n") 1; e_array (cs "writeErrors") (body_bytes (element_docs 0 [error_doc duplicate_key]))]
  | Refused => [e_int32 (cs "ok") 0; e_int32 (cs "code") 1]
  end.
Definition answer_fields (a : answer) : reply_fields :=
  match a with
  | Written => ReplyFields (Some 2) None None None None []
  | PartlyWritten => ReplyFields (Some 1) (Some [duplicate_key]) None None None []
  | Refused => ReplyFields None None None None None []
  end.
#[export] Instance answers : WritePath (list answer) := {|
  wp_run cmd e w :=
    let a := match w with a :: _ => a | [] => Written end in
    Ret (WriteRun (answer_ok a) (if answer_ok a then e else command_error 1 (cs "refused")) (doc_of (scripted_entries a)) (cmd_session cmd) (tail w));
  wp_stream_for_writes s w := (None, w)
|}.
#[export] Instance answers_start : Starts (list answer) := {| start_session w := (None, w); session_clock w := (77, w) |}.
Lemma duplicate_key_ok : error_ok duplicate_key.
Proof.
  split; [by vm_compute|]. split; [apply Forall_singleton, e_int32_ok; split; by_check|]. split; [by repeat constructor|]. repeat constructor. by vm_compute.
Qed.
Lemma answer_says a : says (scripted_entries a) (answer_fields a) ∧ well_said (answer_fields a).
Proof.
  split.
  - constructor; try by destruct a. split; [|by destruct a; vm_compute].
    assert (Ha : entry_ok (e_array (cs "writeErrors") (body_bytes (element_docs 0 [error_doc duplicate_key])))).
    { apply e_array_ok; [split; by_check|apply body_bytes_ok, element_docs_ok; [done|apply Forall_singleton, error_doc_ok, duplicate_key_ok|by vm_compute]|by vm_compute]. }
    destruct a; repeat (apply Forall_cons; split; [first [exact Ha|apply e_int32_ok; split; by_check]|]); constructor.
  - constructor.
    + by destruct a; vm_compute.
    + by destruct a.
    + destruct a; [done| |done]. apply Forall_singleton, duplicate_key_ok.
    + by destruct a.
    + by destruct a; vm_compute.
    + destruct a; constructor.
Qed.
#[export] Instance answers_ok : WritePathOk (list answer) 128.
Proof.
  constructor. intros cmd e w. set (a := match w with a :: _ => a | [] => Written end). exists (WriteRun (answer_ok a)
    (if answer_ok a then e else command_error 1 (cs "refused")) (doc_of (scripted_entries a)) (cmd_session cmd) (tail w)), (scripted_entries a), (answer_fields a).
  split; [done|]. split; [done|]. split; [apply answer_says|]. split; [apply answer_says|]. split; [destruct a; by repeat constructor|].
  split; [by destruct a; vm_compute|]. split; [done|]. destruct a; vm_compute; done.
Qed.

Definition numbered_doc (i : Z) : bson_t := doc_of [e_int32 (cs "_id") i].
Definition inserting (docs : list bson_t) : mongoc_write_command_t :=
  WriteCommand MONGOC_WRITE_COMMAND_INSERT (Buffer (Some (concat docs ++ [0; 0; 0])) (docs_size docs)) (Z.of_nat (length docs))
    MONGOC_BULK_WRITE_FLAGS_INIT 7 bson_empty_doc.
Definition pair_server : stream_t :=
  ServerStream MONGOC_TOPOLOGY_RS_WITH_PRIMARY
    (set_max_write_batch_size 2 (set_max_bson_obj_size 100 (set_type MONGOC_SERVER_RS_PRIMARY (set_max_wire 8 sd_zero)))) (doc_of (sample_time 5)).
Notation insert_in_session docs := (_mongoc_write_opmsg (λ _, 0) (inserting docs) (CmdClient (mongoc_set_new 4) true true) false pair_server
  (cs "test") (cs "c") None 0 (Some fresh_session) (_mongoc_write_result_init (λ _, 0))).
Definition three_docs : list bson_t := [numbered_doc 1; numbered_doc 2; numbered_doc 3].
Definition around_number : list entry * list entry :=
  ([e_utf8 (cs "insert") (cs "c"); e_bool (cs "ordered") true; e_utf8 (cs "$db") (cs "test"); e_doc (cs "lsid") (body_bytes sample_id)],
   [e_doc (cs "$clusterTime") (body_bytes (sample_time 5))]).
Lemma three_prepared w :
  ∃ p, opmsg_prepare (λ _, 0) (inserting three_docs) (CmdClient (mongoc_set_new 4) true true) pair_server (cs "test") (cs "c") None
      (Some fresh_session) (w : list answer, @nil attempt) = Ret (inr (p, doc_of (around_number.1 ++ e_int64 (cs "txnNumber") 0 :: around_number.2)), None, (w, []))
    ∧ pt_is_retryable_write p = true ∧ session_number (pt_session p) = Some 3.
Proof. eexists. split; [vm_compute; reflexivity|by split]. Qed.
Definition nothing_written : totals := Totals 0 0 0 0 0 [] [] [] [] false.
Lemma nothing_represented fresh : represents (_mongoc_write_result_init fresh) nothing_written.
Proof. constructor; try done; split; try done; apply init_builds. Qed.
Lemma around_number_ok : shape_ok (inr around_number).
Proof.
  assert (Hs : Forall entry_ok sample_id) by (apply Forall_singleton, e_int32_ok; split; by_check).
  assert (Ht : Forall entry_ok (sample_time 5)).
  { apply Forall_singleton. apply entry_ok_intro; [by_check|by split; by_check|by_check|by vm_compute]. }
  split; [|split; [by vm_compute|]].
  - constructor; [apply e_utf8_ok; [by split; by_check|by_check|by vm_compute]|]. constructor; [apply e_bool_ok; split; by_check|].
    constructor; [apply e_utf8_ok; [by split; by_check|by_check|by vm_compute]|].
    constructor; [apply e_doc_ok; [split; by_check|by apply body_bytes_ok|by vm_compute]|].
    apply Forall_singleton. apply e_doc_ok; [split; by_check|by apply body_bytes_ok|by vm_compute].
  - repeat constructor; by vm_compute.
Qed.
Lemma three_docs_fit : Forall (document_fits pair_server) three_docs.
Proof.
  assert (H : ∀ i, blen (numbered_doc i) = 14) by done.
  unfold three_docs. constructor; [|constructor; [|constructor; [|constructor]]]; (split; [rewrite H; change (5 ≤ 14 ≤ 100 + 16384); lia|vm_compute; reflexivity]).
Qed.
Lemma pair_limits : limits_sane false pair_server.
Proof.
  constructor; [change (0 ≤ 48000000 < 2 ^ 31)|change (- 2 ^ 31 ≤ 100 + 16384 < 2 ^ 31)|change (1 ≤ 2)]; lia.
Qed.

(** a server that speaks OP_QUERY only *)
Definition old_server : stream_t :=
  ServerStream MONGOC_TOPOLOGY_RS_WITH_PRIMARY (set_max_write_batch_size 2 (set_type MONGOC_SERVER_RS_PRIMARY (set_max_wire 5 sd_zero))) (doc_of []).
Definition old_insert (documents : list bson_t) : bson_t :=
  doc_of [e_utf8 (cs "insert") (cs "c"); e_bool (cs "ordered") true; Entry (cs "documents") 0x04
    (doc_of (map (λ x, Entry (print_dec 10 x.1) 0x03 x.2) (zip [0; 1; 2] documents)))].
(** the sizes of the payloads that were sent *)
Definition payload_sizes (log : list attempt) : list Z := map (λ a, cmd_payload_size a.1.1) log.
(** On an example, an ordered insert that takes two batches does not stop at an error: the reply to
    the first batch says that its second document was refused, and the second batch is
    sent all the same, because the loop stops only when a command as a whole fails.  The
    same holds of the commands that go to a server before OP_MSG. *)
Example ordered_write_goes_on :
  wf_ordered (wcm_flags (inserting three_docs)) = true
  ∧ (∃ r wc p w log, insert_in_session three_docs ([PartlyWritten; Written], @nil attempt) = Ret (r, wc, p, (w, log))
    ∧ payload_sizes log = [docs_size [numbered_doc 1; numbered_doc 2]; docs_size [numbered_doc 3]]
    ∧ wr_failed r = true ∧ wr_must_stop r = false ∧ wr_nInserted r = 3)
  ∧ ∃ r wc w log, _mongoc_write_opquery (λ _, 0) (inserting three_docs) (CmdClient (mongoc_set_new 4) true true) old_server (cs "test") (cs "c") None 0
      (_mongoc_write_result_init (λ _, 0)) ([PartlyWritten; Written], @nil attempt) = Ret (r, wc, (w, log))
    ∧ map (λ a, cmd_command a.1.1) log = [old_insert [numbered_doc 1; numbered_doc 2]; old_insert [numbered_doc 3]]
    ∧ wr_failed r = true ∧ wr_nInserted r = 3.
Proof.
  split; [done|]. split; [do 5 eexists; split; [vm_compute; reflexivity|by vm_compute]|].
  do 4 eexists. split; [vm_compute; reflexivity|]. by vm_compute.
Qed.

(** On an example, a document that is too large ends the command without its error: the first batch
    was sent, the third document -- which fits -- had been gathered and is dropped, and the
    error that names the large document is cleared because the last command that was run
    succeeded.  The result only says that something failed. *)
Example too_large_error_lost :
  let large := doc_of [Entry (cs "b") 0x05 (le_bytes 4 16500 ++ 0 :: repeat 0 16500)] in
  blen large > mongoc_server_stream_max_bson_obj_size pair_server + BSON_OBJECT_ALLOWANCE
  ∧ ∃ r wc p w log, insert_in_session (three_docs ++ [large]) ([Written], @nil attempt) = Ret (r, wc, p, (w, log))
    ∧ payload_sizes log = [docs_size [numbered_doc 1; numbered_doc 2]]
    ∧ wr_failed r = true ∧ wr_error r = no_error ∧ bson_get_data (wr_writeErrors r) = Ret bson_empty_doc.
Proof. split; [by vm_compute|]. do 5 eexists. split; [vm_compute; reflexivity|]. by vm_compute. Qed.
